(* ===== verification/_CoqProject ===== *)
-Q . S2P
Prelude.v
Decimals.v
Binary64.v
ExecutionModels.v
Simulator.v
Portfolio.v
Ledger.v
Events.v
Engine.v
RiskModels.v
Sizing.v
RiskManager.v
Splits.v
LegState.v
PaperBroker.v
Venues.v
Evidence.v
LiveModels.v
LivePreflight.v
Bindings.v
GatewayChecks.v
Gateway.v
GatewaySample.v
GatewaySafety.v
BindingProtocol.v
Websocket.v
BookSync.v
BindingSql.v
Json.v
PyText.v
CollectorRuns.v
FundingCarry.v
ShadowBook.v
BookReplay.v
ShadowStore.v
ShadowRuntime.v
ShadowState.v
ShadowSafety.v
ShadowBatches.v
ShadowOnce.v
Certification.v
CertificationService.v
CertificationSafety.v
CertificationTrust.v
CertificationBounds.v
CertificationSample.v
ResearchStore.v
Collector.v
Snapshots.v
Dataset.v
Sources.v
SourceSafety.v
CollectorSafety.v
SnapshotSafety.v
Collecting.v
CollectingSafety.v
ResearchSample.v
ResearchSql.v
ResearchSqlSafety.v
ResearchSqlRefines.v
ResearchSqlSimulation.v
ResearchSqlSample.v
Strategies.v
Regimes.v
RelativeStrength.v
StrategySafety.v
RegimeSafety.v
RelativeSafety.v
StrategySample.v
Acceptance.v
Pipeline.v
AcceptanceSafety.v
VenueRisk.v
CrossVenue.v
Ingestion.v
OpsModels.v
CollectorHealth.v
OpsService.v
OpsSafety.v
OpsLedger.v
