(* ===== verification/Prelude.v ===== *)
(** * CryptBot verification library

    CryptBot (src/src/app) is a research and trading platform for crypto
    markets.  This library models the part of it that decides what may be traded,
    what a trade costs, what is recorded and what research may rely on: the
    backtest, the risk rules, the paper accounts, the guarded live gateway, the
    public market-data session, the research collector with its store, snapshots
    and datasets, certification, the shadow runtime and the continuous paper
    operation.  Paths below are relative to src/src/app.

    ** The program and its files here

    Values.  [Prelude] has exceptions, the result type, the state monad whose
    exceptions keep the mutations made before them, lists and sorting.
    [Decimals] is [decimal.Decimal] (value and rounding to a context),
    [Binary64] the rounding of [float], [Json] the encoder and decoder of the
    [json] module, [PyText] [str], [repr], [float] and [Decimal] of texts.

    Backtest.  [ExecutionModels] (domain/execution/models.py) has orders, fills
    and instruments; [Simulator] (domain/execution/simulator.py) matches orders
    with snapshots; [Portfolio] and [Ledger] (domain/portfolio) keep positions,
    cash, margin and funding; [Events] and [Engine] (services/backtest) hold the
    queue and the handlers.  The engine owns the queue, the simulator and the
    ledger; the simulator calls back into the ledger for each fill.

    Risk.  [RiskModels], [Sizing] and [RiskManager] (domain/risk,
    domain/strategies/models.py) are the limits, the sizing candidates and the
    circuit breaker.  [Splits] (services/validation/splits.py) are the
    chronological splits of a data set.

    Paper accounts.  [PaperBroker] (services/paper_trading) is the paper order
    book with its kill switch and exposure limits.

    Live gateway.  [LegState] (domain/execution/leg_state.py) is the two-leg
    machine; [Venues], [Evidence], [LiveModels] are the data; [LivePreflight]
    (services/live_trading/preflight.py) the preflight report; [Bindings]
    (cross_venue_preflight.py) the binding of a signal, written by
    compare-and-set; [GatewayChecks] and [Gateway] (gateway.py) the order path;
    [GatewaySample] a concrete deployment for the witnesses; [GatewaySafety] and
    [BindingProtocol] the theorems.  [BindingSql]
    (infrastructure/database/preflight_bindings.py) is the database version of the
    binding repository.

    Market data.  [Websocket] (adapters/exchanges/websocket.py) is the session of
    one subscription and [BookSync] its theorems.

    Shadow runtime.  [ShadowBook] and [ShadowStore] (services/operations/
    shadow_runtime.py, services/research/repository.py) are the builder of
    canonical order books and the stored events with their cursors and
    checkpoints; [ShadowRuntime] the input runtime that turns events into matched
    pairs for the strategy, batch by batch.  [BookReplay], [ShadowState],
    [ShadowSafety], [ShadowBatches] and [ShadowOnce] are its theorems.

    Certification.  [Certification] (services/research/certification.py) has the
    contract, normalization, metrics and checks of a sample of market data;
    [CertificationService] the service, the promotion to a trusted capability and
    the gates; [CertificationSafety], [CertificationTrust] and
    [CertificationBounds] the theorems, [CertificationSample] a sample.

    Research data.  [ResearchStore] (services/research/models.py, repository.py)
    is the in-memory store; [Collector] (data_operations.py) what becomes of a
    collected envelope: gate, quarantine, checkpoint; [Sources] where envelopes
    come from; [Collecting] the workers and the consumer around one queue, as a
    machine that a schedule drives; [Snapshots] the finalized snapshots and
    [Dataset] (dataset.py) the point-in-time datasets read from them.
    [CollectorSafety], [SourceSafety], [SnapshotSafety] and [CollectingSafety] are
    the theorems, [ResearchSample] a sample.  The gate is the trusted registry
    that certification fills.

    Operation.  [CollectorRuns] (services/research/collector_runs.py) has the
    collector leases and run records; [FundingCarry]
    (domain/strategies/funding_carry.py) the shadow strategy; [OpsModels] and
    [OpsService] (services/operations/models.py, repository.py, service.py) the
    continuous service with its ticks, gates, executions, settlements, restart
    and metrics; [OpsSafety] and [OpsLedger] its theorems and a sample run.

    ** Conventions

    A record has the fields of the class and [X_new] or [X_validate] is its
    construction with every check, in the code's order.  A method that mutates
    [self] is a computation [M S A = S -> S * result A].  Timestamps are integers
    (microseconds in UTC).  Keys of a [dict] that is iterated are an association
    list in insertion order; a [dict] that is only looked up is a [gmap].
    Definitions are executable; the witnesses evaluate them.

    A [Decimal] is its rational value.  Operators round to the context, an
    interface ([DecimalContext], [DecimalLaws]) that [context_prec p] implements
    for every precision; NaN, infinities and exponent overflow are outside, except
    where the code tests for them ([FundingCarry.number]).  A [float] that the code
    only compares is represented by its decimal value; where it is multiplied,
    [fl] rounds to 53 bits.

    ** Parameters

    Code that is not in the repository is an argument of the definitions:
    [uuid4], the wall and monotonic clocks (the n-th reading is a function of n),
    the iteration order of a set ([SetOrder]), SHA-256 and HMAC ([Digest]), the
    execution adapter and audit sink of the gateway, the socket and the decoder of
    a venue (NetEnv), the text of a decimal, the files a certification reads, what
    an adapter yields to the collector (StreamedValue, Attempt, Fetch), the
    readings of a consumer (Readings), and the tables of the database
    ([BindingTable], [LeaseTable], [RunTable]).  Repositories behind an interface
    of the code (EventRepository, CertificationRepository) and the capability gate
    are arguments with the code's own implementation as an instance.  What is
    assumed of a parameter is a class of laws ([DecimalLaws], [BindingLaws],
    [BindingTableLaws], [LeaseTableLaws], [RunTableLaws], [Isolated], [Framed],
    [OrderLog], IsoLaws, ReliableRepository); each has an instance, and the
    witnesses use it.

    ** What the theorems show

    - Fills: an order fills only on a later snapshot, inside its limit, within
      liquidity and caps, and moves along the life of an order
      ([match_fills_sound], [match_refines_order_life], [simulator_invariant],
      [paper_fills_sound]).
    - Books: cash, positions and the fill history agree, a fill is booked once
      and atomically, and simulator and ledger agree after a run
      ([ledger_invariant], [cash_balance], [ledger_fill_once],
      [ledger_fill_atomic], [books_agree]).
    - Engine: a run ends, is chronological, and a signal makes one order
      ([run_terminates], [run_chronological], [one_order_per_signal]).
    - Risk: entries obey every limit and the kill switch latches
      ([entry_allowed_sound], [sizing_within_limits], [kill_switch_latches]).
    - Live gateway: an order at the exchange has passed every guard, bindings
      move along the machine, reconciliation concludes only what the exchange
      reports, a kill is final ([live_order_guarded], [binding_protocol],
      [order_needs_binding], [reconcile_verdict], [live_kill_switch_final],
      [live_preflight_iff]); the database repository refines the interface
      ([sql_repository_refines], [binding_row_roundtrip]).
    - Market data: a synchronized book is a snapshot with consecutive deltas
      replayed, and reconnects are limited ([book_in_step],
      [reconnects_limited]).
    - Shadow runtime: a canonical book is a replay of a snapshot and consecutive
      deltas ([book_replay]), a failed batch changes nothing durable, a restart
      resumes where the last batch ended, each event is read once
      ([failed_batch_rolled_back], [restart_resumes], [events_read_once]), and a
      matched pair is fresh, ordered and of the two venues ([matched_pair_sound]).
    - Certification: what passes ([certification_pass_iff]), what a trusted
      capability rests on ([trusted_capability_earned]), bounds of the metrics
      ([metrics_bounded]).
    - Research data: what is stored is sound or quarantined, and stays
      ([collector_sound]); a stream that lost its book is quarantined until it
      recovers ([recovery_gates_books]); under every interleaving the collector
      loses nothing and ends ([collecting_sound], [collecting_finishes]); a
      snapshot holds exactly what was usable by its cutoff and verifies for ever
      ([snapshot_exact], [snapshots_permanent], [purge_protected]); a dataset is
      point in time and reproducible ([dataset_point_in_time]).
    - Operation: one owner of a lease, both lease repositories agree, records
      survive the database ([lease_exclusive], [lease_repositories_agree],
      [collector_run_roundtrip]); the evaluator is total, sound and independent of
      the order of its inputs ([evaluate_total], [candidate_sound],
      [candidate_order_independent]); observation never trades, a signal is
      accepted exactly under its gates, an execution is bounded
      ([observation_never_trades], [signal_accepted_iff], [execution_bounded]),
      and the places where the service's books go wrong are theorems on runs
      ([second_leg_overwrites_first], [repeated_settlement_diverges],
      [restart_from_ledger], [relative_strength_never_eligible]).

    ** Fuel and bounds

    [Engine.run] gets [maximum_events] as its budget, which is the code's own
    bound; [Splits.walk_loop] gets [n_samples + 1], enough because each fold
    advances the start; [place_order] retries a reservation once, as the code
    does; [Json.loads] gets the length of the text plus one, enough because every
    call consumes a character; the read loop of a session runs over the finite list
    of messages it is given; a run of the collector is over the finite plans of its
    sources, and its schedules are shown to end without fuel.

    ** Not modelled

    The command line, notification transports, the exchange REST adapters,
    reporting and file output are input and output.  Features, regimes, whale
    analytics, validation statistics and most strategies compute with [numpy] and
    [pandas] arrays of floats.  The research pipeline and the remaining PostgreSQL
    repositories are mostly queries.  The life cycle of the certification runner,
    collector health, the cross-venue strategies and the staged adapters are next
    in the plan. *)

From Stdlib Require Import ZArith NArith Lia.
From stdpp Require Import base tactics list strings gmap sorting.

(** ** Python values shared by every component *)

(** The exceptions the modelled code raises.  [ValueError] also stands for its
    subclasses raised by pydantic validation. *)
Inductive exn :=
| ValueError (msg : string)
| DuplicateFillError (msg : string)
| RuntimeError (msg : string)
| PermissionError (msg : string)
| KeyError
| IndexError (msg : string)
| ExecutionAdapterError (msg : string)
(** any other exception, by its class name *)
| OtherError (name : string).
#[export] Instance exn_eq_dec : EqDecision exn.
Proof. solve_decision. Defined.

(** A fallible pure computation. *)
Inductive result (A : Type) :=
| Ok (a : A)
| Err (e : exn).
Arguments Ok {A} a.
Arguments Err {A} e.

(** A computation over mutable state: Python keeps the mutations made before
    an exception, so the state comes back with either outcome. *)
Definition M (S A : Type) : Type := S -> S * result A.

Declare Scope py_scope.
Delimit Scope py_scope with py.

Definition rbind {A B} (m : result A) (k : A -> result B) : result B :=
  match m with Ok a => k a | Err e => Err e end.

Definition pret {S A} (a : A) : M S A := fun s => (s, Ok a).
Definition praise {S A} (e : exn) : M S A := fun s => (s, Err e).
Definition pbind {S A B} (m : M S A) (k : A -> M S B) : M S B :=
  fun s => match m s with
           | (s', Ok a) => k a s'
           | (s', Err e) => (s', Err e)
           end.
Definition pget {S} : M S S := fun s => (s, Ok s).
Definition pput {S} (s : S) : M S unit := fun _ => (s, Ok tt).
Definition pmodify {S} (f : S -> S) : M S unit := fun s => (f s, Ok tt).
Definition plift {S A} (r : result A) : M S A := fun s => (s, r).

(** Run a computation on a component of the state (an attribute of [self]). *)
Definition pzoom {S T A} (get : S -> T) (set : T -> S -> S) (m : M T A) : M S A :=
  fun s => let (t, r) := m (get s) in (set t s, r).

(** [for x in xs: body(x)] *)
Fixpoint pfor {S A} (xs : list A) (body : A -> M S unit) : M S unit :=
  match xs with
  | [] => pret tt
  | x :: xs => pbind (body x) (fun _ => pfor xs body)
  end.

(** [try: m except Exception as exc: h(exc)] *)
Definition ptry {S A} (m : M S A) (h : exn -> M S A) : M S A :=
  fun s => match m s with
           | (s', Ok a) => (s', Ok a)
           | (s', Err e) => h e s'
           end.

Notation "'let!' x := m 'in' k" := (rbind m (fun x => k))
  (at level 10, x name, m at level 100, k at level 200) : py_scope.
Notation "'require!' b 'else' e ; k" := (if b then k else Err e)
  (at level 10, b at level 100, e at level 100, k at level 200) : py_scope.
Notation "'do!' x <- m ; k" := (pbind m (fun x => k))
  (at level 10, x name, m at level 100, k at level 200) : py_scope.
Notation "'run!' m ; k" := (pbind m (fun _ => k))
  (at level 10, m at level 100, k at level 200) : py_scope.

Open Scope py_scope.

Definition is_ok {A} (r : result A) : bool :=
  match r with Ok _ => true | Err _ => false end.

Definition ok_value {A} (r : result A) : option A :=
  match r with Ok a => Some a | Err _ => None end.

(** ** Timestamps

    A [datetime] is naive or aware; an aware one is represented by its instant
    in microseconds since the epoch, which is all that comparison, addition of
    a [timedelta] and [astimezone(UTC)] look at.  A [timedelta] is a number of
    microseconds. *)
Inductive datetime :=
| Naive (t : Z)
| Aware (t : Z).

Definition utc_or (msg : string) (v : datetime) : result Z :=
  match v with
  | Naive _ => Err (ValueError msg)
  | Aware t => Ok t
  end.

(** ** Insertion-ordered dictionaries

    A Python [dict] iterates in insertion order and an assignment to an
    existing key keeps its place. *)
Section Dict.
Context {K V : Type} `{EqDecision K}.

Fixpoint dict_get (k : K) (d : list (K * V)) : option V :=
  match d with
  | [] => None
  | (k', v) :: d => if decide (k = k') then Some v else dict_get k d
  end.

Fixpoint dict_set (k : K) (v : V) (d : list (K * V)) : list (K * V) :=
  match d with
  | [] => [(k, v)]
  | (k', v') :: d =>
      if decide (k = k') then (k', v) :: d else (k', v') :: dict_set k v d
  end.

Fixpoint dict_pop (k : K) (d : list (K * V)) : list (K * V) :=
  match d with
  | [] => []
  | (k', v') :: d => if decide (k = k') then d else (k', v') :: dict_pop k d
  end.

Definition dict_mem (k : K) (d : list (K * V)) : bool :=
  match dict_get k d with Some _ => true | None => false end.

Definition dict_keys (d : list (K * V)) : list K := map fst d.
Definition dict_values (d : list (K * V)) : list V := map snd d.

End Dict.

(** ** Decimal rendering of counters: [f"{n:012d}"] *)
Definition digit_char (d : N) : Ascii.ascii := Ascii.ascii_of_N (48 + d).

Fixpoint digits_go (fuel : nat) (n : N) (acc : string) : string :=
  match fuel with
  | O => acc
  | S fuel =>
      let acc := String (digit_char (n mod 10)) acc in
      if (n / 10 =? 0)%N then acc else digits_go fuel (n / 10)%N acc
  end.

Definition digits (n : N) : string := digits_go (S (N.size_nat n)) n EmptyString.

Fixpoint zeros (n : nat) (s : string) : string :=
  match n with O => s | S n => String (digit_char 0) (zeros n s) end.

Definition format_012d (n : N) : string :=
  let s := digits n in zeros (12 - String.length s) s.

(** ** [datetime.isoformat()] of a UTC timestamp

    The proleptic Gregorian date of a day number is computed over eras of 400
    years that start on the first of March. *)
Definition zpad (width : nat) (n : Z) : string :=
  let s := digits (Z.to_N n) in zeros (width - String.length s) s.

Definition civil_year (days : Z) : Z * Z * Z :=
  (let z := days + 719468 in
   let era := z / 146097 in
   let doe := z - era * 146097 in
   let yoe := (doe - doe / 1460 + doe / 36524 - doe / 146096) / 365 in
   let doy := doe - (365 * yoe + yoe / 4 - yoe / 100) in
   let mp := (5 * doy + 2) / 153 in
   let d := doy - (153 * mp + 2) / 5 + 1 in
   let m := if mp <? 10 then mp + 3 else mp - 9 in
   (yoe + era * 400 + (if m <=? 2 then 1 else 0), m, d))%Z.

Definition isoformat_with (sep offset : string) (t : Z) : string :=
  let micro := (t mod 1000000)%Z in
  let secs := (t / 1000000)%Z in
  let '(y, m, d) := civil_year (secs / 86400)%Z in
  let sod := (secs mod 86400)%Z in
  zpad 4 y +:+ "-" +:+ zpad 2 m +:+ "-" +:+ zpad 2 d +:+ sep +:+ zpad 2 (sod / 3600) +:+ ":"
  +:+ zpad 2 (sod / 60 mod 60) +:+ ":" +:+ zpad 2 (sod mod 60)
  +:+ (if (micro =? 0)%Z then EmptyString else "." +:+ zpad 6 micro) +:+ offset.

Definition isoformat (t : Z) : string := isoformat_with "T" "+00:00" t.

Example isoformat_example :
  isoformat 1700000000000000 = "2023-11-14T22:13:20+00:00"%string /\
  isoformat 951782400000250 = "2000-02-29T00:00:00.000250+00:00"%string.
Proof. by vm_compute. Qed.

(** The range of [datetime], in microseconds. *)
Definition datetime_range (t : Z) : Prop :=
  (-62135596800000000 <= t <= 253402300799999999)%Z.

(** ** [str.strip()] on ASCII text, and [dict.fromkeys] as a deduplicated list *)
Definition is_space (c : Ascii.ascii) : bool :=
  let n := Ascii.N_of_ascii c in
  ((9 <=? n) && (n <=? 13) || (28 <=? n) && (n <=? 32))%N.

Fixpoint lstrip (s : string) : string :=
  match s with
  | String c s' => if is_space c then lstrip s' else s
  | EmptyString => EmptyString
  end.

Fixpoint rstrip (s : string) : string :=
  match s with
  | EmptyString => EmptyString
  | String c s =>
      match rstrip s with
      | EmptyString => if is_space c then EmptyString else String c EmptyString
      | s' => String c s'
      end
  end.

Definition strip (s : string) : string := lstrip (rstrip s).

(** [str.startswith], [needle in text] *)
Definition startswith (prefix s : string) : bool := String.prefix prefix s.
Definition contains (needle s : string) : bool :=
  match String.index 0 needle s with Some _ => true | None => false end.

(** [set(a) == set(b)], [set(a) <= set(b)] *)
Definition subset (a b : list string) : bool := forallb (fun x => bool_decide (x ∈ b)) a.
Definition same_set (a b : list string) : bool := subset a b && subset b a.

(** [dict.fromkeys] as a deduplicated list *)
Definition dict_fromkeys {A} `{EqDecision A} (xs : list A) : list A :=
  fold_left (fun acc x => if bool_decide (x ∈ acc) then acc else acc ++ [x]) xs [].

(** ** [sorted(xs, key=...)]: a stable sort by a total order on keys *)
Fixpoint insert_by {A} (le : A -> A -> bool) (x : A) (xs : list A) : list A :=
  match xs with
  | [] => [x]
  | y :: ys => if le x y then x :: y :: ys else y :: insert_by le x ys
  end.

Definition sorted_by {A} (le : A -> A -> bool) (xs : list A) : list A :=
  foldr (insert_by le) [] xs.

(** The number a run of digit characters denotes; the left inverse used to
    show that the rendering is injective. *)
Fixpoint undigits (acc : N) (s : string) : N :=
  match s with
  | EmptyString => acc
  | String c s => undigits (10 * acc + (Ascii.N_of_ascii c - 48))%N s
  end.

(** ** Proof automation *)

(** Case analysis on the scrutinee of a [match] or [if] in the goal or in a
    hypothesis, keeping the equation. *)
Ltac case_goal :=
  match goal with
  | |- context [match ?x with _ => _ end] => destruct x eqn:?
  end.
Ltac case_hyp H :=
  match type of H with
  | context [match ?x with _ => _ end] => destruct x eqn:?
  end.

(** Invert the successful outcome of a monadic computation. *)
Ltac inv_ok :=
  repeat match goal with
  | H : Ok _ = Ok _ |- _ => injection H as H
  | H : Err _ = Ok _ |- _ => discriminate H
  | H : Ok _ = Err _ |- _ => discriminate H
  | H : (_, _) = (_, _) |- _ => injection H as ? ?
  | H : Some _ = Some _ |- _ => injection H as H
  | H : None = Some _ |- _ => discriminate H
  | H : Some _ = None |- _ => discriminate H
  end; subst.

Create HintDb py discriminated.

(** ** Generic lemmas *)

(** The outcome of a run, spelled out. *)
Lemma run_eta {A B R} (x : A * B * R) : x = (x.1.1, x.1.2, x.2).
Proof. by destruct x as [[? ?] ?]. Qed.

Lemma rbind_ok {A B} (m : result A) (k : A -> result B) b :
  rbind m k = Ok b -> exists a, m = Ok a /\ k a = Ok b.
Proof. destruct m; simpl; [eauto | discriminate]. Qed.

Lemma pbind_ok {S A B} (m : M S A) (k : A -> M S B) s s' b :
  pbind m k s = (s', Ok b) ->
  exists s1 a, m s = (s1, Ok a) /\ k a s1 = (s', Ok b).
Proof. unfold pbind. destruct (m s) as [s1 [a|e]]; [eauto | discriminate]. Qed.

Definition raises_value_error {A} (r : result A) : Prop :=
  match r with Ok _ => True | Err e => exists m, e = ValueError m end.

Lemma rbind_value_error {A B} (m : result A) (k : A -> result B) :
  raises_value_error m -> (forall a, raises_value_error (k a)) ->
  raises_value_error (rbind m k).
Proof. intros Hm Hk. destruct m; simpl; auto. Qed.

(** Every exception of a chain of guards is a [ValueError]. *)
Ltac value_errors :=
  repeat first
    [ exact I
    | apply rbind_value_error; [|intros ?]
    | match goal with |- raises_value_error (Ok _) => exact I end
    | match goal with |- raises_value_error (Err _) => eexists; reflexivity end
    | case_goal ].

(** A property of the state kept by each iteration is kept by the loop, also
    when the loop is left by an exception. *)
Lemma pfor_invariant {S A} (P : S -> Prop) (body : A -> M S unit) xs :
  (forall x s, x ∈ xs -> P s -> P (body x s).1) ->
  forall s, P s -> P (pfor xs body s).1.
Proof.
  induction xs as [|x xs IH]; intros Hb s Hs; simpl; [done|].
  unfold pbind. specialize (Hb x s ltac:(left) Hs) as Hx.
  destruct (body x s) as [s1 [u|e]]; simpl in *; [|done].
  apply IH; [|done]. intros y s2 Hy. apply Hb. by right.
Qed.

(** ** Computations that move the state along a relation

    [steps P m]: whatever its outcome, [m] leaves a state related to the one it
    started from.  For a preorder the relation composes along the code. *)
Definition steps {S A} (P : S -> S -> Prop) (m : M S A) : Prop := forall s, P s (m s).1.

Section Steps.
Context {S : Type} (P : S -> S -> Prop) `{HP : !PreOrder P}.

Lemma steps_ret {A} (a : A) : steps P (pret a).
Proof. intros s. simpl. reflexivity. Qed.

Lemma steps_raise {A} e : steps P (praise (A := A) e).
Proof. intros s. simpl. reflexivity. Qed.

Lemma steps_lift {A} (r : result A) : steps P (plift r).
Proof. intros s. simpl. reflexivity. Qed.

Lemma steps_modify f : (forall s, P s (f s)) -> steps P (pmodify f).
Proof. intros H s. apply H. Qed.

Lemma steps_bind {A B} (m : M S A) (k : A -> M S B) :
  steps P m -> (forall a, steps P (k a)) -> steps P (pbind m k).
Proof.
  intros Hm Hk s. unfold pbind. specialize (Hm s).
  destruct (m s) as [s1 [a|e]]; simpl in *; [|done]. etransitivity; [apply Hm|apply Hk].
Qed.

Lemma steps_try {A} (m : M S A) (h : exn -> M S A) :
  steps P m -> (forall e, steps P (h e)) -> steps P (ptry m h).
Proof.
  intros Hm Hh s. unfold ptry. specialize (Hm s).
  destruct (m s) as [s1 [a|e]]; simpl in *; [done|]. etransitivity; [apply Hm|apply Hh].
Qed.

Lemma steps_for {A} (xs : list A) (body : A -> M S unit) :
  (forall x, steps P (body x)) -> steps P (pfor xs body).
Proof using HP.
  intros H. induction xs as [|x xs IH]; simpl; [apply steps_ret|].
  apply steps_bind; [apply H|done].
Qed.

End Steps.

Create HintDb steps discriminated.
#[export] Hint Resolve steps_ret steps_raise steps_lift : steps.

(** Follow the code: binds, handlers and branches; what remains is left to the
    hint database. *)
Ltac steps_go :=
  repeat first
    [ solve [eauto with steps nocore typeclass_instances]
    | apply steps_bind; [done || apply _ | | intros ?]
    | apply steps_try; [done || apply _ | | intros ?]
    | apply steps_for; [done || apply _ | intros ?]
    | case_goal ].

(** ** Hoare triples

    [hoare P m Q R]: started where [P] holds, [m] returns a value and a state
    that satisfy [Q], or raises in a state that satisfies [R]. *)
Definition hoare {S A} (P : S -> Prop) (m : M S A) (Q : A -> S -> Prop) (R : S -> Prop) : Prop :=
  forall s, P s -> match (m s).2 with
                   | Ok a => Q a (m s).1
                   | Err _ => R (m s).1
                   end.

Section Hoare.
Context {S : Type}.
Implicit Types (P : S -> Prop).

Lemma hoare_conseq {A} P P' (Q Q' : A -> S -> Prop) (R R' : S -> Prop) m :
  hoare P' m Q' R' -> (forall s, P s -> P' s) -> (forall a s, Q' a s -> Q a s) ->
  (forall s, R' s -> R s) -> hoare P m Q R.
Proof.
  intros H HP HQ HR s Hs. specialize (H s (HP s Hs)). destruct (m s).2; auto.
Qed.

Lemma hoare_ret {A} (a : A) P (Q : A -> S -> Prop) R :
  (forall s, P s -> Q a s) -> hoare P (pret a) Q R.
Proof. intros H s Hs. simpl. auto. Qed.

Lemma hoare_raise {A} e P (Q : A -> S -> Prop) (R : S -> Prop) :
  (forall s, P s -> R s) -> hoare P (praise e) Q R.
Proof. intros H s Hs. simpl. auto. Qed.

Lemma hoare_lift {A} (r : result A) P (Q : A -> S -> Prop) (R : S -> Prop) :
  (forall s a, P s -> r = Ok a -> Q a s) -> (forall s, P s -> R s) -> hoare P (plift r) Q R.
Proof. intros H HR s Hs. simpl. destruct r; eauto. Qed.

Lemma hoare_modify f P (Q : unit -> S -> Prop) R :
  (forall s, P s -> Q tt (f s)) -> hoare P (pmodify f) Q R.
Proof. intros H s Hs. simpl. auto. Qed.

Lemma hoare_get P (Q : S -> S -> Prop) R :
  (forall s, P s -> Q s s) -> hoare P pget Q R.
Proof. intros H s Hs. simpl. auto. Qed.

Lemma hoare_bind {A B} P (m : M S A) (k : A -> M S B) (Mid : A -> S -> Prop) Q R :
  hoare P m Mid R -> (forall a, hoare (Mid a) (k a) Q R) -> hoare P (pbind m k) Q R.
Proof.
  intros Hm Hk s Hs. unfold pbind. specialize (Hm s Hs).
  destruct (m s) as [s1 [a|e]]; simpl in *; [|done]. by apply Hk.
Qed.

Lemma hoare_for {A} (xs : list A) (body : A -> M S unit) P R :
  (forall x, x ∈ xs -> hoare P (body x) (fun _ => P) R) ->
  hoare P (pfor xs body) (fun _ => P) R.
Proof.
  induction xs as [|x xs IH]; intros Hb; simpl; [by apply hoare_ret|].
  apply (hoare_bind _ _ _ (fun _ => P)); [apply Hb; left|]. intros _. apply IH.
  intros y Hy. apply Hb. by right.
Qed.

Lemma hoare_pre {A} P (Q : A -> S -> Prop) R m :
  (forall s0, P s0 -> hoare (fun s => s = s0) m Q R) -> hoare P m Q R.
Proof. intros H s Hs. by apply (H s Hs s). Qed.

End Hoare.

(** ** Stable sorting *)
Section SortedBy.
Context {A : Type} (le : A -> A -> bool).
Context (Htotal : forall x y, le x y = true \/ le y x = true).
Context (Htrans : forall x y z, le x y = true -> le y z = true -> le x z = true).

Lemma insert_by_Permutation x xs : insert_by le x xs ≡ₚ x :: xs.
Proof.
  induction xs as [|y ys IH]; simpl; [done|]. case_goal; [done|]. rewrite IH. constructor.
Qed.

Lemma sorted_by_Permutation xs : sorted_by le xs ≡ₚ xs.
Proof.
  induction xs as [|x xs IH]; simpl; [done|]. by rewrite insert_by_Permutation, IH.
Qed.

Lemma elem_of_sorted_by x xs : x ∈ sorted_by le xs <-> x ∈ xs.
Proof. by rewrite sorted_by_Permutation. Qed.

Lemma insert_by_sorted x xs :
  StronglySorted (fun a b => le a b = true) xs ->
  StronglySorted (fun a b => le a b = true) (insert_by le x xs).
Proof using Htotal Htrans.
  induction 1 as [|y ys Hs IH Hy]; simpl; [by repeat constructor|].
  destruct (le x y) eqn:E.
  - constructor; [by constructor|]. constructor; [done|].
    eapply Forall_impl; [exact Hy|]. simpl. eauto.
  - constructor; [done|]. rewrite insert_by_Permutation. constructor; [|done].
    destruct (Htotal x y); congruence.
Qed.

Lemma sorted_by_sorted xs : StronglySorted (fun a b => le a b = true) (sorted_by le xs).
Proof using Htotal Htrans.
  induction xs as [|x xs IH]; simpl; [constructor|]. by apply insert_by_sorted.
Qed.

Lemma sorted_by_id xs :
  StronglySorted (fun a b => le a b = true) xs -> sorted_by le xs = xs.
Proof using Type.
  induction 1 as [|x xs Hs IH Hx]; simpl; [done|]. rewrite IH.
  destruct Hx as [|y ys Hy]; simpl; [done|]. by rewrite Hy.
Qed.

(** Sorting forgets the order of elements that [le] tells apart. *)
Lemma sorted_by_unique xs ys :
  (forall x y, x ∈ xs -> y ∈ xs -> le x y = true -> le y x = true -> x = y) ->
  xs ≡ₚ ys -> sorted_by le xs = sorted_by le ys.
Proof using Htotal Htrans.
  intros Ha Hp. eapply StronglySorted_unique_strong; [|apply sorted_by_sorted..|].
  - intros x y Hx Hy. rewrite sorted_by_Permutation in Hx, Hy. apply Ha; [done|by rewrite Hp].
  - by rewrite !sorted_by_Permutation.
Qed.

End SortedBy.

Lemma forallb_Permutation {A} (f : A -> bool) xs ys : xs ≡ₚ ys -> forallb f xs = forallb f ys.
Proof.
  intros Hp. apply eq_true_iff_eq. rewrite !forallb_forall.
  split; intros H x Hx; apply H; [by rewrite Hp|by rewrite <- Hp].
Qed.

Section DictLemmas.
Context {K V : Type} `{EqDecision K}.
Implicit Types (d : list (K * V)) (k : K) (v : V).

Lemma dict_get_set_eq k v d : dict_get k (dict_set k v d) = Some v.
Proof.
  induction d as [|[k' v'] d IH]; simpl; [by rewrite decide_True|].
  destruct (decide (k = k')) as [->|]; simpl; [by rewrite decide_True|].
  by rewrite decide_False.
Qed.

Lemma dict_get_set_ne k k' v d :
  k <> k' -> dict_get k (dict_set k' v d) = dict_get k d.
Proof.
  intros Hne. induction d as [|[k2 v2] d IH]; simpl.
  - by rewrite decide_False.
  - destruct (decide (k' = k2)) as [->|]; simpl; [by rewrite !decide_False|].
    by rewrite IH.
Qed.

Lemma dict_set_set k v w d : dict_set k v (dict_set k w d) = dict_set k v d.
Proof.
  induction d as [|[k' v'] d IH]; simpl; [by rewrite decide_True|].
  destruct (decide (k = k')) as [->|]; simpl; [by rewrite decide_True|].
  rewrite decide_False by done. by rewrite IH.
Qed.

Lemma dict_set_id k v d : dict_get k d = Some v -> dict_set k v d = d.
Proof.
  induction d as [|[k' v'] d IH]; simpl; [done|].
  destruct (decide (k = k')) as [->|]; intros E; simplify_eq; [done|]. by rewrite IH.
Qed.

Lemma dict_get_In k v d : dict_get k d = Some v -> (k, v) ∈ d.
Proof.
  induction d as [|[k' v'] d IH]; simpl; [done|].
  case_decide; intros; simplify_eq; [left|right]; auto.
Qed.

Lemma dict_get_None k d : dict_get k d = None <-> k ∉ dict_keys d.
Proof.
  unfold dict_keys. induction d as [|[k' v'] d IH]; simpl; [set_solver|].
  case_decide; [set_solver|]. rewrite IH. set_solver.
Qed.

Lemma dict_In_get k v d :
  NoDup (dict_keys d) -> (k, v) ∈ d -> dict_get k d = Some v.
Proof.
  unfold dict_keys. induction d as [|[k' v'] d IH]; simpl; [set_solver|].
  intros [Hn Hd]%NoDup_cons [?|Hin]%elem_of_cons; simplify_eq.
  - by rewrite decide_True.
  - case_decide as E; [subst|auto].
    exfalso. apply Hn. apply list_elem_of_fmap. by exists (k', v).
Qed.

Lemma dict_keys_set_Some k v v' d :
  dict_get k d = Some v' -> dict_keys (dict_set k v d) = dict_keys d.
Proof.
  unfold dict_keys. induction d as [|[k2 v2] d IH]; simpl; [done|].
  case_decide; simpl; [done|]. intros ?. f_equal. auto.
Qed.

Lemma dict_keys_set_None k v d :
  dict_get k d = None -> dict_keys (dict_set k v d) = dict_keys d ++ [k].
Proof.
  unfold dict_keys. induction d as [|[k2 v2] d IH]; simpl; [done|].
  case_decide; simpl; [done|]. intros ?. f_equal. auto.
Qed.

Lemma dict_set_NoDup k v d :
  NoDup (dict_keys d) -> NoDup (dict_keys (dict_set k v d)).
Proof.
  intros Hd. destruct (dict_get k d) eqn:E.
  - by rewrite (dict_keys_set_Some _ _ _ _ E).
  - rewrite dict_keys_set_None by done. apply NoDup_app.
    apply dict_get_None in E. split_and!; [done|set_solver|].
    apply NoDup_singleton.
Qed.

(** A predicate on entries survives an update that establishes it for the
    written entry. *)
Lemma dict_set_Forall (P : K * V -> Prop) k v d :
  Forall P d -> P (k, v) -> Forall P (dict_set k v d).
Proof.
  intros Hd Hk. induction Hd as [|[k' v'] d Hx Hd IH]; simpl.
  - by constructor.
  - case_decide; subst; by constructor.
Qed.

Lemma dict_pop_get k k' v d :
  NoDup (dict_keys d) -> dict_get k (dict_pop k' d) = Some v -> dict_get k d = Some v.
Proof.
  unfold dict_keys. induction d as [|[k2 v2] d IH]; simpl; [done|]. rewrite NoDup_cons. intros [Hni Hnd].
  destruct (decide (k' = k2)) as [->|]; simpl; destruct (decide (k = k2)) as [->|]; auto.
  intros H. apply dict_get_In in H. destruct Hni. apply list_elem_of_fmap. by exists (k2, v).
Qed.

Lemma dict_get_pop_eq k d : NoDup (dict_keys d) -> dict_get k (dict_pop k d) = None.
Proof.
  unfold dict_keys. induction d as [|[k2 v2] d IH]; simpl; [done|]. rewrite NoDup_cons. intros [Hni Hnd].
  destruct (decide (k = k2)) as [->|]; simpl; [by apply dict_get_None|].
  rewrite decide_False by done. auto.
Qed.

Lemma dict_get_pop_ne k k' d : k <> k' -> dict_get k (dict_pop k' d) = dict_get k d.
Proof.
  intros Hne. induction d as [|[k2 v2] d IH]; simpl; [done|].
  destruct (decide (k' = k2)) as [->|]; simpl; [by rewrite decide_False|]. by rewrite IH.
Qed.

Lemma dict_pop_sublist k d : dict_pop k d `sublist_of` d.
Proof.
  induction d as [|[k2 v2] d IH]; simpl; [constructor|]. destruct (decide (k = k2)); by constructor.
Qed.

Lemma dict_pop_NoDup k d : NoDup (dict_keys d) -> NoDup (dict_keys (dict_pop k d)).
Proof.
  intros H. eapply sublist_NoDup; [exact H|]. apply (fmap_sublist fst), dict_pop_sublist.
Qed.

Lemma dict_get_Forall (P : K * V -> Prop) k v d :
  Forall P d -> dict_get k d = Some v -> P (k, v).
Proof. intros Hd Hg%dict_get_In. by eapply Forall_forall in Hd. Qed.

End DictLemmas.

#[export] Hint Resolve dict_set_NoDup dict_set_Forall : py.

Section DigitLemmas.

Lemma undigits_digit acc d s :
  (d < 10)%N ->
  undigits acc (String (digit_char d) s) = undigits (10 * acc + d)%N s.
Proof.
  intros Hd. unfold digit_char. simpl. f_equal. f_equal.
  rewrite Ascii.N_ascii_embedding by lia. lia.
Qed.

Lemma string_app_assoc (s t u : string) : (s +:+ t) +:+ u = s +:+ (t +:+ u).
Proof. induction s as [|c s IH]; [done|]. apply (f_equal (String c)), IH. Qed.

Lemma digits_go_app fuel n acc :
  digits_go fuel n acc = (digits_go fuel n EmptyString +:+ acc)%string.
Proof.
  revert n acc. induction fuel as [|fuel IH]; intros n acc; simpl; [done|].
  case_goal; [done|].
  rewrite (IH _ (String _ acc)), (IH _ (String _ EmptyString)).
  by rewrite string_app_assoc.
Qed.

Lemma digits_go_S fuel n acc :
  digits_go (S fuel) n acc =
  if (n / 10 =? 0)%N then String (digit_char (n mod 10)) acc
  else digits_go fuel (n / 10)%N (String (digit_char (n mod 10)) acc).
Proof. done. Qed.

Lemma undigits_app a s t : undigits a (s +:+ t) = undigits (undigits a s) t.
Proof. revert a. induction s as [|c s IH]; intros a; simpl; auto. Qed.

Lemma undigits_go fuel n :
  (n < 2 ^ N.of_nat fuel)%N ->
  undigits 0 (digits_go (S fuel) n EmptyString) = n.
Proof.
  revert n. induction fuel as [|fuel IH]; intros n Hn.
  - change (2 ^ N.of_nat 0)%N with 1%N in Hn.
    assert (n = 0)%N as -> by lia. reflexivity.
  - rewrite digits_go_S. pose proof (N.mod_lt n 10 ltac:(lia)) as Hm.
    pose proof (N.div_mod n 10 ltac:(lia)) as Hdm.
    destruct (n / 10 =? 0)%N eqn:E.
    + apply N.eqb_eq in E. rewrite undigits_digit by done. simpl. lia.
    + rewrite digits_go_app, undigits_app, IH.
      * rewrite undigits_digit by done. simpl. lia.
      * rewrite Nat2N.inj_succ, N.pow_succ_r' in Hn.
        apply N.Div0.div_lt_upper_bound. lia.
Qed.

Lemma undigits_digits n : undigits 0 (digits n) = n.
Proof.
  unfold digits. apply undigits_go.
  destruct (N.eq_dec n 0%N) as [->|Hz]; [reflexivity|].
  pose proof (N.size_gt n).
  assert (N.of_nat (N.size_nat n) = N.size n) as ->; [|done].
  destruct n; simpl; [done|]. clear. induction p; simpl; lia.
Qed.

Lemma undigits_zeros k s : undigits 0 (zeros k s) = undigits 0 s.
Proof. induction k; simpl; auto. Qed.

Lemma format_012d_inj n m : format_012d n = format_012d m -> n = m.
Proof.
  intros E. apply (f_equal (undigits 0)) in E. unfold format_012d in E.
  by rewrite !undigits_zeros, !undigits_digits in E.
Qed.

Lemma length_string_app s t : String.length (s +:+ t) = String.length s + String.length t.
Proof. induction s as [|c s IH]; [done|]. simpl. f_equal. apply IH. Qed.

Lemma digits_go_length fuel n acc k :
  (n < 10 ^ N.of_nat k)%N -> 1 <= k ->
  String.length (digits_go fuel n acc) <= k + String.length acc.
Proof.
  revert n acc k. induction fuel as [|fuel IH]; intros n acc k Hn Hk; [simpl; lia|].
  rewrite digits_go_S. destruct (n / 10 =? 0)%N eqn:E; [simpl; lia|].
  apply N.eqb_neq in E. destruct k as [|[|k]]; [lia| |].
  - exfalso. apply E, N.div_small. change (10 ^ N.of_nat 1)%N with 10%N in Hn. lia.
  - etransitivity; [apply (IH _ _ (S k))|simpl; lia]; [|lia].
    rewrite Nat2N.inj_succ, N.pow_succ_r' in Hn. apply N.Div0.div_lt_upper_bound. lia.
Qed.

Lemma length_zeros k s : String.length (zeros k s) = k + String.length s.
Proof. induction k; simpl; auto. Qed.

Lemma zpad_length width n k :
  (n < 10 ^ Z.of_nat k)%Z -> 1 <= k -> String.length (zpad width n) <= Nat.max width k.
Proof.
  intros Hn Hk. unfold zpad. rewrite length_zeros.
  assert (String.length (digits (Z.to_N n)) <= k) as Hd; [|lia].
  unfold digits. etransitivity; [apply (digits_go_length _ _ _ k)|simpl; lia]; [|done].
  apply N2Z.inj_lt. rewrite N2Z.inj_pow, nat_N_Z. change (Z.of_N 10) with 10%Z.
  pose proof (Z.pow_nonneg 10 (Z.of_nat k)). lia.
Qed.

Lemma isoformat_length t : datetime_range t -> String.length (isoformat t) <= 33.
Proof.
  intros [Hlo Hhi]. unfold isoformat, isoformat_with. destruct (civil_year _) as [[y m] d] eqn:E.
  assert (y < 10 ^ 5 /\ m < 10 ^ 2 /\ d < 10 ^ 2)%Z as (Hy & Hm & Hd).
  { unfold civil_year in E. injection E as <- <- <-.
    set (z := (t / 1000000 / 86400 + 719468)%Z).
    assert (0 <= z < 3652425)%Z as Hz.
    { subst z. rewrite Z.div_div by lia.
      pose proof (Z.div_le_mono _ _ (1000000 * 86400) ltac:(lia) Hlo) as H1.
      pose proof (Z.div_le_mono _ _ (1000000 * 86400) ltac:(lia) Hhi) as H2.
      change (-62135596800000000 / (1000000 * 86400))%Z with (-719162)%Z in H1.
      change (253402300799999999 / (1000000 * 86400))%Z with 2932896%Z in H2. lia. }
    clearbody z. clear Hlo Hhi.
    set (era := (z / 146097)%Z). set (doe := (z - era * 146097)%Z).
    assert (0 <= era <= 24)%Z by (subst era; split; [apply Z.div_pos; lia|];
      pose proof (Z.div_le_mono z 3652424 146097 ltac:(lia) ltac:(lia)) as H;
      change (3652424 / 146097)%Z with 24%Z in H; lia).
    assert (0 <= doe < 146097)%Z.
    { subst doe era. pose proof (Z.mod_pos_bound z 146097 ltac:(lia)).
      rewrite Z.mod_eq in * by lia. lia. }
    clearbody era doe.
    set (yoe := ((doe - doe / 1460 + doe / 36524 - doe / 146096) / 365)%Z).
    assert (0 <= yoe <= 400)%Z by (subst yoe; split; [apply Z.div_pos|
      apply Z.div_le_upper_bound]; Z.div_mod_to_equations; lia).
    set (doy := (doe - (365 * yoe + yoe / 4 - yoe / 100))%Z).
    assert (doy < 1000)%Z.
    { subst doy yoe. Z.div_mod_to_equations. lia. }
    clearbody doy yoe. change (10 ^ 5)%Z with 100000%Z. change (10 ^ 2)%Z with 100%Z.
    set (mp := ((5 * doy + 2) / 153)%Z).
    assert (153 * mp <= 5 * doy + 2 < 153 * mp + 153)%Z by (subst mp; Z.div_mod_to_equations; lia).
    clearbody mp.
    split_and!; [destruct (_ <=? 2)%Z; lia|destruct (mp <? 10)%Z; lia|].
    Z.div_mod_to_equations. lia. }
  pose proof (Z.mod_pos_bound (t / 1000000) 86400 ltac:(lia)) as Hs.
  pose proof (Z.mod_pos_bound t 1000000 ltac:(lia)) as Hmic.
  set (sod := (t / 1000000 mod 86400)%Z) in *. set (mic := (t mod 1000000)%Z) in *.
  clearbody sod mic.
  assert (sod / 3600 < 10 ^ 2)%Z as H1 by (change (10 ^ 2)%Z with 100%Z; Z.div_mod_to_equations; lia).
  assert (sod / 60 mod 60 < 10 ^ 2)%Z as H2 by (change (10 ^ 2)%Z with 100%Z; Z.div_mod_to_equations; lia).
  assert (sod mod 60 < 10 ^ 2)%Z as H3 by (change (10 ^ 2)%Z with 100%Z; Z.div_mod_to_equations; lia).
  pose proof (zpad_length 4 y 5 Hy ltac:(lia)). pose proof (zpad_length 2 m 2 Hm ltac:(lia)).
  pose proof (zpad_length 2 d 2 Hd ltac:(lia)). pose proof (zpad_length 2 _ 2 H1 ltac:(lia)).
  pose proof (zpad_length 2 _ 2 H2 ltac:(lia)). pose proof (zpad_length 2 _ 2 H3 ltac:(lia)).
  pose proof (zpad_length 6 mic 6 ltac:(change (10 ^ Z.of_nat 6)%Z with 1000000%Z; lia) ltac:(lia)).
  rewrite !length_string_app. destruct (mic =? 0)%Z; rewrite ?length_string_app; simpl in *; lia.
Qed.

End DigitLemmas.
