(* ===== verification/Decimals.v ===== *)
(** * Decimal arithmetic

    The code computes with [decimal.Decimal] in the thread's default context.
    A finite [Decimal] is represented by its value, a rational; an arithmetic
    operator computes the exact rational and rounds it to the context.  The
    comparison operators, [min], [max] and truth testing are exact, and unary
    minus and [abs] round like the binary operators.  NaN, the infinities and
    exponent overflow are outside the model.

    The context is an interface: [DecimalContext] holds its rounding and
    integer power, [DecimalLaws] what the theorems use of them.
    [context_prec p] is Python's context of precision [p] with ROUND_HALF_EVEN
    ([default_context] has the default precision 28); [exact_context] never
    rounds, and serves to state accounting identities. *)

From Stdlib Require Import ZArith QArith Qround Qabs Qpower Qreduction Qminmax Lia Lqa.
From stdpp Require Import base tactics list.
From S2P Require Import Prelude.

Local Open Scope Q_scope.

Abbreviation Decimal := Q.

Declare Scope dec_scope.
Delimit Scope dec_scope with dec.

(** ** The context interface *)

Class DecimalContext := {
  dec_fix : Q -> Q;
  dec_pow : Q -> positive -> Q;
}.

Class DecimalLaws (C : DecimalContext) : Prop := {
  dec_fix_compat : forall a b, a == b -> dec_fix a = dec_fix b;
  dec_fix_mono : forall a b, a <= b -> dec_fix a <= dec_fix b;
  dec_fix_idem : forall a, dec_fix (dec_fix a) == dec_fix a;
  dec_fix_opp : forall a, dec_fix (- a) == - dec_fix a;
  dec_fix_pos : forall a, 0 < a -> 0 < dec_fix a;
  dec_fix_one : dec_fix 1 == 1;
  dec_pow_nonneg : forall a n, 0 <= a -> 0 <= dec_pow a n;
}.

(** A context without rounding. *)
Class ExactContext (C : DecimalContext) : Prop :=
  dec_fix_exact : forall a, dec_fix a == a.

(** ** Operators *)

Section Operators.
Context {C : DecimalContext}.

Definition dadd (a b : Decimal) : Decimal := dec_fix (a + b).
Definition dsub (a b : Decimal) : Decimal := dec_fix (a - b).
Definition dmul (a b : Decimal) : Decimal := dec_fix (a * b).
(** Division; every use in the code is guarded against a zero divisor. *)
Definition ddiv (a b : Decimal) : Decimal := dec_fix (a / b).
Definition dneg (a : Decimal) : Decimal := dec_fix (- a).
Definition dabs (a : Decimal) : Decimal := dec_fix (Qabs a).

(** [sum(xs, Decimal("0"))] *)
Definition dsum (xs : list Decimal) : Decimal := fold_left dadd xs 0.

End Operators.

(** The rounded operators have notations of their own: [+], [-], [*] and [/]
    on rationals stay exact. *)
Infix "⊕" := dadd (at level 50, left associativity) : dec_scope.
Infix "⊖" := dsub (at level 50, left associativity) : dec_scope.
Infix "⊗" := dmul (at level 40, left associativity) : dec_scope.
Infix "⊘" := ddiv (at level 40, left associativity) : dec_scope.

(** Exact comparisons, as booleans. *)
Definition dltb (a b : Decimal) : bool := negb (Qle_bool b a).
Definition dleb (a b : Decimal) : bool := Qle_bool a b.
Definition deqb (a b : Decimal) : bool := Qeq_bool a b.

Notation "a <? b" := (dltb a b) (at level 70) : dec_scope.
Notation "a <=? b" := (dleb a b) (at level 70) : dec_scope.
Notation "a >? b" := (dltb b a) (at level 70) : dec_scope.
Notation "a >=? b" := (dleb b a) (at level 70) : dec_scope.
Notation "a =? b" := (deqb a b) (at level 70) : dec_scope.

(** Python's two-argument [min] and [max]: the first argument wins ties. *)
Definition dmin (a b : Decimal) : Decimal := if dltb b a then b else a.
Definition dmax (a b : Decimal) : Decimal := if dltb a b then b else a.

(** [to_integral_value] with ROUND_DOWN (towards zero), ROUND_UP (away from
    zero) and ROUND_FLOOR. *)
Definition to_integral_down (a : Decimal) : Decimal :=
  inject_Z (if Qle_bool 0 a then Qfloor a else Qceiling a).
Definition to_integral_up (a : Decimal) : Decimal :=
  inject_Z (if Qle_bool 0 a then Qceiling a else Qfloor a).
Definition to_integral_floor (a : Decimal) : Decimal := inject_Z (Qfloor a).

(** ** Contexts of a given precision *)

Section Radix.
(** The radix: ten for [Decimal], two for [float]. *)
Variable radix : Z.

Definition pow_radix (e : Z) : Q := Qpower (inject_Z radix) e.

(** [floor(log(n))] in the radix, for positive [n]. *)
Fixpoint log_go (fuel : nat) (n : Z) : Z :=
  match fuel with
  | O => 0
  | S fuel => if (n <? radix)%Z then 0 else (1 + log_go fuel (n / radix))%Z
  end.
Definition log_radix (n : Z) : Z := log_go (Z.to_nat (Z.log2 n)) n.

(** The exponent of the most significant digit of a positive rational. *)
Definition adjusted (q : Q) : Z :=
  let e := (log_radix (Qnum q) - log_radix (Zpos (Qden q)))%Z in
  if Qle_bool (pow_radix e) q then e else (e - 1)%Z.

(** ROUND_HALF_EVEN to an integer. *)
Definition round_half_even (q : Q) : Z :=
  let f := Qfloor q in
  match Qcompare (q - inject_Z f) (1 # 2) with
  | Lt => f
  | Gt => (f + 1)%Z
  | Eq => if Z.even f then f else (f + 1)%Z
  end.

Definition round_pos (p : Z) (q : Q) : Q :=
  let s := (p - 1 - adjusted q)%Z in
  inject_Z (round_half_even (q * pow_radix s)) * pow_radix (- s).

(** Round to [p] significant digits; the result is in lowest terms. *)
Definition round_prec (p : Z) (a : Q) : Q :=
  let q := Qred a in
  Qred (match Qcompare q 0 with
        | Eq => 0
        | Gt => round_pos p q
        | Lt => - round_pos p (- q)
        end).

(** Integer power by left-to-right binary exponentiation, every product
    rounded to [p] digits. *)
Fixpoint pow_go (p : Z) (a : Q) (n : positive) : Q :=
  match n with
  | xH => round_prec p a
  | xO n => let r := pow_go p a n in round_prec p (r * r)
  | xI n => let r := pow_go p a n in
            round_prec p (round_prec p (r * r) * a)
  end.

End Radix.

(** The working precision of the power is the context's plus the digits of
    the exponent plus two; the result is rounded to the context. *)
Definition context_prec (p : Z) : DecimalContext := {|
  dec_fix := round_prec 10 p;
  dec_pow a n :=
    round_prec 10 p (pow_go 10 (p + (log_radix 10 (Zpos n) + 1) + 2) a n);
|}.

Definition default_context : DecimalContext := context_prec 28.

Definition exact_context : DecimalContext := {|
  dec_fix := Qred;
  dec_pow a n := Qpower_positive a n;
|}.

(** ** Rounding in a radix *)

Lemma round_half_even_bounds q :
  (Qfloor q <= round_half_even q <= Qfloor q + 1)%Z.
Proof. unfold round_half_even. repeat case_goal; lia. Qed.

Lemma round_half_even_mono a b :
  a <= b -> (round_half_even a <= round_half_even b)%Z.
Proof.
  intros Hab. pose proof (Qfloor_resp_le _ _ Hab) as Hf.
  destruct (Z_lt_le_dec (Qfloor a) (Qfloor b)) as [Hlt|Hge].
  - pose proof (round_half_even_bounds a). pose proof (round_half_even_bounds b). lia.
  - assert (Qfloor a = Qfloor b) as E by lia. unfold round_half_even. rewrite E.
    set (f := inject_Z (Qfloor b)).
    destruct (Qcompare (a - f) (1 # 2)) eqn:Ea, (Qcompare (b - f) (1 # 2)) eqn:Eb;
      rewrite <- ?Qeq_alt, <- ?Qlt_alt, <- ?Qgt_alt in *;
      repeat case_goal; (lia || lra).
Qed.

Lemma round_half_even_compat a b :
  a == b -> round_half_even a = round_half_even b.
Proof.
  intros E. apply Z.le_antisymm; apply round_half_even_mono; lra.
Qed.

Lemma round_half_even_Z z : round_half_even (inject_Z z) = z.
Proof.
  unfold round_half_even. rewrite Qfloor_Z.
  destruct (Qcompare _ _) eqn:E; [|done|];
    rewrite <- ?Qeq_alt, <- ?Qgt_alt in E; lra.
Qed.

Section RadixLemmas.
Context (radix : Z) (Hradix : (2 <= radix)%Z).

Local Notation pw := (pow_radix radix).
Local Notation adjusted := (adjusted radix).
Local Notation round_pos := (round_pos radix).
Local Notation round_prec := (round_prec radix).
Local Notation pow_go := (pow_go radix).


Lemma radix_pos : 0 < inject_Z radix.
Proof using Hradix. change 0 with (inject_Z 0). rewrite <- Zlt_Qlt. lia. Qed.

Lemma pow_radix_pos e : 0 < pw e.
Proof using Hradix. apply Qpower_0_lt, radix_pos. Qed.

Lemma pow_radix_add a b : pw (a + b) == pw a * pw b.
Proof using Hradix. apply Qpower_plus. pose proof radix_pos. lra. Qed.

Lemma pow_radix_inv e : pw (- e) * pw e == 1.
Proof. rewrite <- pow_radix_add, Z.add_opp_diag_l. reflexivity. Qed.

Lemma pow_radix_Z e : (0 <= e)%Z -> pw e == inject_Z (radix ^ e).
Proof. intros He. unfold pow_radix. rewrite Zpower_Qpower by done. reflexivity. Qed.

Lemma pow_radix_le a b : (a <= b)%Z -> pw a <= pw b.
Proof.
  intros Hab. replace b with (a + (b - a))%Z by lia. rewrite pow_radix_add.
  rewrite (pow_radix_Z (b - a)) by lia.
  assert (1 <= inject_Z (radix ^ (b - a))).
  { change 1 with (inject_Z 1). rewrite <- Zle_Qle.
    pose proof (Z.pow_pos_nonneg radix (b - a)). lia. }
  pose proof (pow_radix_pos a). nra.
Qed.

Lemma pow_radix_lt_inv a b : pw a < pw b -> (a < b)%Z.
Proof.
  intros H. destruct (Z_lt_le_dec a b) as [|Hle]; [done|].
  apply pow_radix_le in Hle. lra.
Qed.

Lemma log_go_spec fuel n :
  (0 < n < 2 ^ (Z.of_nat fuel + 1))%Z ->
  (0 <= log_go radix fuel n /\
   radix ^ log_go radix fuel n <= n < radix ^ (log_go radix fuel n + 1))%Z.
Proof.
  revert n. induction fuel as [|fuel IH]; intros n Hn; cbn [log_go].
  - change (2 ^ (Z.of_nat 0 + 1))%Z with 2%Z in Hn. simpl. lia.
  - destruct (Z.ltb_spec n radix) as [Hlt|Hge]; [simpl; lia|].
    destruct (IH (n / radix)%Z) as (H0 & H1 & H2).
    + split; [apply Z.div_str_pos; lia|]. apply Z.div_lt_upper_bound; [lia|].
      rewrite Nat2Z.inj_succ, Z.add_succ_l, Z.pow_succ_r in Hn by lia. nia.
    + split; [lia|].
      replace (1 + log_go radix fuel (n / radix))%Z
        with (Z.succ (log_go radix fuel (n / radix))) by lia.
      rewrite Z.add_succ_l, !Z.pow_succ_r by lia.
      pose proof (Z.div_mod n radix). pose proof (Z.mod_pos_bound n radix). nia.
Qed.

Lemma log_radix_spec n :
  (0 < n)%Z ->
  (0 <= log_radix radix n /\
   radix ^ log_radix radix n <= n < radix ^ (log_radix radix n + 1))%Z.
Proof.
  intros Hn. apply log_go_spec. split; [done|].
  rewrite Z2Nat.id by apply Z.log2_nonneg. apply Z.log2_spec, Hn.
Qed.

Lemma adjusted_spec q :
  0 < q -> pw (adjusted q) <= q /\ q < pw (adjusted q + 1).
Proof.
  intros Hq. unfold adjusted.
  set (a := log_radix radix (Qnum q)). set (b := log_radix radix (Zpos (Qden q))).
  assert (0 < Qnum q)%Z as Hnum.
  { unfold Qlt in Hq. simpl in Hq. lia. }
  destruct (log_radix_spec _ Hnum) as (Ha & Ha1 & Ha2). fold a in Ha, Ha1, Ha2.
  destruct (log_radix_spec (Zpos (Qden q)) eq_refl) as (Hb & Hb1 & Hb2).
  fold b in Hb, Hb1, Hb2.
  assert (q * inject_Z (Zpos (Qden q)) == inject_Z (Qnum q)) as Hmul.
  { destruct q as [n d]. unfold Qeq. simpl. lia. }
  rewrite Zle_Qle in Ha1, Hb1. rewrite Zlt_Qlt in Ha2, Hb2.
  rewrite <- pow_radix_Z in Ha1, Ha2, Hb1, Hb2 by lia.
  set (n := inject_Z (Qnum q)) in *. set (d := inject_Z (Zpos (Qden q))) in *.
  pose proof (pow_radix_pos b) as Pb. pose proof (pow_radix_pos (b + 1)) as Pb1.
  assert (q < pw (a - b + 1)) as Hup.
  { replace (a + 1)%Z with (a - b + 1 + b)%Z in Ha2 by lia.
    rewrite pow_radix_add in Ha2. nra. }
  assert (pw (a - b - 1) <= q) as Hlo.
  { replace a with (a - b - 1 + (b + 1))%Z in Ha1 by lia.
    rewrite pow_radix_add in Ha1. pose proof (pow_radix_pos (a - b - 1)). nra. }
  destruct (Qle_bool (pw (a - b)) q) eqn:E.
  - apply Qle_bool_iff in E. done.
  - split; [done|]. replace (a - b - 1 + 1)%Z with (a - b)%Z by lia.
    apply Qnot_le_lt. intros Hc. apply Qle_bool_iff in Hc. congruence.
Qed.

Lemma adjusted_unique q e :
  pw e <= q -> q < pw (e + 1) -> adjusted q = e.
Proof.
  intros H1 H2. pose proof (pow_radix_pos e).
  destruct (adjusted_spec q) as [H3 H4]; [lra|].
  pose proof (pow_radix_lt_inv e (adjusted q + 1)).
  pose proof (pow_radix_lt_inv (adjusted q) (e + 1)).
  assert (e < adjusted q + 1)%Z by (apply H0; lra).
  assert (adjusted q < e + 1)%Z by (apply H5; lra). lia.
Qed.

(** ** Rounding to a precision *)

(** The rounding of [q] stays within the decade of [q]. *)
Lemma round_pos_decade p q :
  (1 <= p)%Z -> 0 < q ->
  pw (adjusted q) <= round_pos p q <= pw (adjusted q + 1).
Proof.
  intros Hp Hq. unfold round_pos. set (k := adjusted q). set (s := (p - 1 - k)%Z).
  destruct (adjusted_spec q Hq) as [H1 H2]. fold k in H1, H2.
  pose proof (pow_radix_pos s) as Ps. pose proof (pow_radix_pos (- s)) as Pn.
  pose proof (pow_radix_inv s) as Hi.
  assert (pw k * pw s == inject_Z (radix ^ (p - 1))) as E1.
  { rewrite <- pow_radix_add, <- pow_radix_Z by lia. unfold s.
    replace (k + (p - 1 - k))%Z with (p - 1)%Z by lia. reflexivity. }
  assert (pw (k + 1) * pw s == inject_Z (radix ^ p)) as E2.
  { rewrite <- pow_radix_add, <- pow_radix_Z by lia. unfold s.
    replace (k + 1 + (p - 1 - k))%Z with p by lia. reflexivity. }
  assert (radix ^ (p - 1) <= round_half_even (q * pw s) <= radix ^ p)%Z as [L U].
  { rewrite <- (round_half_even_Z (radix ^ (p - 1))), <- (round_half_even_Z (radix ^ p)).
    split; apply round_half_even_mono; rewrite <- ?E1, <- ?E2; nra. }
  rewrite Zle_Qle in L, U. rewrite <- E1 in L. rewrite <- E2 in U.
  set (m := inject_Z (round_half_even (q * pw s))) in *.
  split.
  - assert (pw k == pw k * pw s * pw (- s)) as -> by nra. nra.
  - assert (pw (k + 1) == pw (k + 1) * pw s * pw (- s)) as -> by nra. nra.
Qed.

Lemma round_pos_pos p q : (1 <= p)%Z -> 0 < q -> 0 < round_pos p q.
Proof.
  intros Hp Hq. destruct (round_pos_decade p q Hp Hq).
  pose proof (pow_radix_pos (adjusted q)). lra.
Qed.

Lemma round_pos_mono p a b :
  (1 <= p)%Z -> 0 < a -> a <= b -> round_pos p a <= round_pos p b.
Proof.
  intros Hp Ha Hab. destruct (adjusted_spec a Ha) as [A1 A2].
  destruct (adjusted_spec b) as [B1 B2]; [lra|].
  assert (adjusted a < adjusted b + 1)%Z by (apply pow_radix_lt_inv; lra).
  destruct (Z.eq_dec (adjusted a) (adjusted b)) as [E|Hne].
  - unfold round_pos. rewrite E.
    set (s := (p - 1 - adjusted b)%Z). pose proof (pow_radix_pos s). pose proof (pow_radix_pos (- s)).
    assert (inject_Z (round_half_even (a * pw s)) <=
            inject_Z (round_half_even (b * pw s))).
    { rewrite <- Zle_Qle. apply round_half_even_mono. nra. }
    nra.
  - destruct (round_pos_decade p a) as [_ U]; [done..|].
    destruct (round_pos_decade p b) as [L _]; [done|lra|].
    pose proof (pow_radix_le (adjusted a + 1) (adjusted b) ltac:(lia)). lra.
Qed.

(** A value with an integral scaled coefficient is left alone. *)
Lemma round_pos_id p q z :
  0 < q -> q * pw (p - 1 - adjusted q) == inject_Z z -> round_pos p q == q.
Proof.
  intros Hq E. unfold round_pos. rewrite (round_half_even_compat _ _ E), round_half_even_Z.
  rewrite <- E. set (s := (p - 1 - adjusted q)%Z). pose proof (pow_radix_inv s). nra.
Qed.

Lemma round_pos_idem p q :
  (1 <= p)%Z -> 0 < q -> round_pos p (round_pos p q) == round_pos p q.
Proof.
  intros Hp Hq. pose proof (round_pos_pos p q Hp Hq) as Hr.
  destruct (round_pos_decade p q Hp Hq) as [L U].
  set (k := adjusted q) in *. set (m := round_half_even (q * pw (p - 1 - k))).
  assert (round_pos p q * pw (p - 1 - k) == inject_Z m) as Em.
  { unfold round_pos. fold k m. cbv zeta. rewrite <- Qmult_assoc, pow_radix_inv. ring. }
  destruct (Qlt_le_dec (round_pos p q) (pw (k + 1))) as [Hlt|Hge].
  - apply (round_pos_id p _ m Hr). by rewrite (adjusted_unique _ k).
  - apply (round_pos_id p _ (radix ^ (p - 1)) Hr).
    assert (round_pos p q == pw (k + 1)) as Ek by lra.
    rewrite (adjusted_unique _ (k + 1)).
    + rewrite Ek, <- pow_radix_Z, <- pow_radix_add by lia.
      replace (k + 1 + (p - 1 - (k + 1)))%Z with (p - 1)%Z by lia. reflexivity.
    + lra.
    + rewrite Ek. rewrite (pow_radix_add (k + 1) 1). pose proof (pow_radix_pos (k + 1)).
      assert (2 <= pw 1); [|nra]. unfold pow_radix. simpl.
      change 2 with (inject_Z 2). by rewrite <- Zle_Qle.
Qed.

Lemma round_pos_compat p a b : a == b -> 0 < a -> round_pos p a == round_pos p b.
Proof.
  intros E Ha. assert (adjusted a = adjusted b) as Ea.
  { destruct (adjusted_spec b) as [H1 H2]; [lra|]. apply adjusted_unique; lra. }
  unfold round_pos. rewrite Ea. erewrite round_half_even_compat; [reflexivity|].
  by rewrite E.
Qed.

Lemma round_prec_compat p a b : a == b -> round_prec p a = round_prec p b.
Proof. intros E. unfold round_prec. by rewrite (Qred_complete _ _ E). Qed.

(** The three cases of [round_prec], by the sign of its argument. *)
Lemma round_prec_pos p a : 0 < a -> round_prec p a == round_pos p (Qred a).
Proof.
  intros Ha. unfold round_prec. rewrite Qred_correct.
  destruct (Qcompare (Qred a) 0) eqn:E;
    rewrite <- ?Qeq_alt, <- ?Qlt_alt, <- ?Qgt_alt, ?Qred_correct in E;
    [lra..|reflexivity].
Qed.

Lemma round_prec_neg p a : a < 0 -> round_prec p a == - round_pos p (- Qred a).
Proof.
  intros Ha. unfold round_prec. rewrite Qred_correct.
  destruct (Qcompare (Qred a) 0) eqn:E;
    rewrite <- ?Qeq_alt, <- ?Qlt_alt, <- ?Qgt_alt, ?Qred_correct in E;
    [lra|reflexivity|lra].
Qed.

Lemma round_prec_zero p a : a == 0 -> round_prec p a == 0.
Proof.
  intros Ha. unfold round_prec. rewrite Qred_correct.
  destruct (Qcompare (Qred a) 0) eqn:E;
    rewrite <- ?Qeq_alt, <- ?Qlt_alt, <- ?Qgt_alt, ?Qred_correct in E; lra.
Qed.

Lemma Qred_pos a : 0 < a -> 0 < Qred a.
Proof. by rewrite Qred_correct. Qed.

Lemma Qred_opp_pos a : a < 0 -> 0 < - Qred a.
Proof. rewrite Qred_correct. lra. Qed.

Lemma round_prec_sign p a :
  (1 <= p)%Z -> (0 < a -> 0 < round_prec p a) /\ (a < 0 -> round_prec p a < 0).
Proof.
  intros Hp. split; intros Ha.
  - rewrite round_prec_pos by done. by apply round_pos_pos, Qred_pos.
  - rewrite round_prec_neg by done.
    pose proof (round_pos_pos p _ Hp (Qred_opp_pos a Ha)). lra.
Qed.

Lemma round_prec_mono p a b :
  (1 <= p)%Z -> a <= b -> round_prec p a <= round_prec p b.
Proof.
  intros Hp Hab. pose proof (round_prec_sign p a Hp) as [Pa Na].
  pose proof (round_prec_sign p b Hp) as [Pb Nb].
  destruct (Q_dec a 0) as [[Ha|Ha]|Ha], (Q_dec b 0) as [[Hb|Hb]|Hb];
    try specialize (Pa Ha); try specialize (Na Ha);
    try specialize (Pb Hb); try specialize (Nb Hb);
    rewrite ?(round_prec_zero p a) by lra; rewrite ?(round_prec_zero p b) by lra;
    try lra.
  - rewrite !round_prec_neg by done.
    apply Qopp_le_compat, round_pos_mono; [done|by apply Qred_opp_pos|].
    rewrite !Qred_correct. lra.
  - rewrite !round_prec_pos by done.
    apply round_pos_mono; [done|by apply Qred_pos|by rewrite !Qred_correct].
Qed.

Lemma round_prec_opp p a : (1 <= p)%Z -> round_prec p (- a) == - round_prec p a.
Proof.
  intros Hp. destruct (Q_dec a 0) as [[Ha|Ha]|Ha].
  - rewrite (round_prec_neg p a), (round_prec_pos p (- a)) by lra.
    rewrite Qopp_involutive. apply round_pos_compat.
    + by rewrite !Qred_correct.
    + apply Qred_pos. lra.
  - rewrite (round_prec_pos p a), (round_prec_neg p (- a)) by lra.
    rewrite (round_pos_compat p (- Qred (- a)) (Qred a)); [reflexivity| |].
    + rewrite !Qred_correct. lra.
    + rewrite Qred_correct. lra.
  - rewrite !round_prec_zero by lra. lra.
Qed.

Lemma round_prec_idem p a :
  (1 <= p)%Z -> round_prec p (round_prec p a) == round_prec p a.
Proof.
  intros Hp.
  assert (forall b, 0 < b -> round_prec p (round_prec p b) == round_prec p b) as Hpos.
  { intros b Hb. pose proof (proj1 (round_prec_sign p b Hp) Hb) as Hr.
    rewrite (round_prec_pos p (round_prec p b) Hr).
    rewrite (round_pos_compat p _ (round_pos p (Qred b))).
    - rewrite round_pos_idem by auto using Qred_pos. by rewrite round_prec_pos.
    - rewrite Qred_correct. by apply round_prec_pos.
    - by apply Qred_pos. }
  destruct (Q_dec a 0) as [[Ha|Ha]|Ha].
  - specialize (Hpos (- a) ltac:(lra)).
    rewrite (round_prec_compat p _ _ (round_prec_opp p a Hp)) in Hpos.
    rewrite !round_prec_opp in Hpos by done. lra.
  - auto.
  - rewrite !round_prec_zero; [reflexivity|done|by apply round_prec_zero].
Qed.

Lemma round_prec_one p : (1 <= p)%Z -> round_prec p 1 == 1.
Proof.
  intros Hp. rewrite round_prec_pos by lra. change (Qred 1) with 1.
  apply (round_pos_id p 1 (radix ^ (p - 1))); [lra|].
  rewrite (adjusted_unique 1 0); [|discriminate|].
  2: { rewrite pow_radix_Z by lia. change 1 with (inject_Z 1) at 1. rewrite <- Zlt_Qlt. lia. }
  rewrite Qmult_1_l, Z.sub_0_r. apply pow_radix_Z. lia.
Qed.

Lemma round_prec_nonneg p a : (1 <= p)%Z -> 0 <= a -> 0 <= round_prec p a.
Proof.
  intros Hp Ha. rewrite <- (round_prec_zero p 0) by reflexivity.
  by apply round_prec_mono.
Qed.

Lemma pow_go_nonneg p a n : (1 <= p)%Z -> 0 <= a -> 0 <= pow_go p a n.
Proof.
  intros Hp Ha. induction n as [n IH|n IH|]; simpl; apply round_prec_nonneg; auto.
  - apply Qmult_le_0_compat; [|done]. apply round_prec_nonneg; [done|]. nra.
  - nra.
Qed.

End RadixLemmas.

(** Python's contexts satisfy the interface for every positive precision. *)
Lemma context_prec_laws p : (1 <= p)%Z -> DecimalLaws (context_prec p).
Proof.
  intros Hp. assert (2 <= 10)%Z as H10 by lia. constructor; simpl.
  - apply round_prec_compat.
  - auto using round_prec_mono.
  - auto using round_prec_idem.
  - auto using round_prec_opp.
  - intros a. by apply round_prec_sign.
  - by apply round_prec_one.
  - intros a n Ha. apply round_prec_nonneg; [done..|]. apply pow_go_nonneg; [done| |done].
    pose proof (log_radix_spec 10 H10 (Zpos n) eq_refl). lia.
Qed.

#[export] Instance default_context_laws : DecimalLaws default_context.
Proof. apply context_prec_laws. lia. Qed.

#[export] Instance exact_context_laws : DecimalLaws exact_context.
Proof.
  constructor; simpl.
  - apply Qred_complete.
  - intros a b. by rewrite !Qred_correct.
  - intros a. by rewrite !Qred_correct.
  - intros a. by rewrite !Qred_correct.
  - intros a. by rewrite Qred_correct.
  - reflexivity.
  - intros a n Ha. by apply (Qpower_0_le a (Zpos n)).
Qed.

#[export] Instance exact_context_exact : ExactContext exact_context.
Proof. intros a. apply Qred_correct. Qed.

(** ** Comparisons *)

Lemma dltb_lt a b : dltb a b = true <-> a < b.
Proof.
  unfold dltb. rewrite negb_true_iff, <- not_true_iff_false, Qle_bool_iff.
  split; [apply Qnot_le_lt | apply Qlt_not_le].
Qed.

Lemma dltb_ge a b : dltb a b = false <-> b <= a.
Proof. unfold dltb. by rewrite negb_false_iff, Qle_bool_iff. Qed.

Lemma dleb_le a b : dleb a b = true <-> a <= b.
Proof. apply Qle_bool_iff. Qed.

Lemma dleb_gt a b : dleb a b = false <-> b < a.
Proof.
  unfold dleb. rewrite <- not_true_iff_false, Qle_bool_iff.
  split; [apply Qnot_le_lt | apply Qlt_not_le].
Qed.

Lemma deqb_eq a b : deqb a b = true <-> a == b.
Proof. apply Qeq_bool_iff. Qed.

Lemma deqb_ne a b : deqb a b = false <-> ~ a == b.
Proof. unfold deqb. rewrite <- Qeq_bool_iff. symmetry. apply not_true_iff_false. Qed.

#[export] Instance dltb_Proper : Proper (Qeq ==> Qeq ==> eq) dltb.
Proof. intros a b E c d F. unfold dltb. by rewrite E, F. Qed.
#[export] Instance dleb_Proper : Proper (Qeq ==> Qeq ==> eq) dleb.
Proof. intros a b E c d F. unfold dleb. by rewrite E, F. Qed.
#[export] Instance deqb_Proper : Proper (Qeq ==> Qeq ==> eq) deqb.
Proof. intros a b E c d F. unfold deqb. by rewrite E, F. Qed.

Create Rewrite HintDb decb.
#[export] Hint Rewrite dltb_lt dltb_ge dleb_le dleb_gt deqb_eq deqb_ne
  andb_true_iff andb_false_iff orb_true_iff orb_false_iff
  negb_true_iff negb_false_iff : decb.

(** Turn the boolean guards of the code into propositions on rationals. *)
Ltac decb := autorewrite with decb in *.

Lemma dmin_spec a b : (b < a /\ dmin a b = b) \/ (a <= b /\ dmin a b = a).
Proof. unfold dmin. destruct (dltb b a) eqn:E; decb; auto. Qed.

Lemma dmax_spec a b : (a < b /\ dmax a b = b) \/ (b <= a /\ dmax a b = a).
Proof. unfold dmax. destruct (dltb a b) eqn:E; decb; auto. Qed.

#[export] Instance dmin_Proper : Proper (Qeq ==> Qeq ==> Qeq) dmin.
Proof. intros a b E c d F. unfold dmin. rewrite E, F. by destruct (dltb d b). Qed.
#[export] Instance dmax_Proper : Proper (Qeq ==> Qeq ==> Qeq) dmax.
Proof. intros a b E c d F. unfold dmax. rewrite E, F. by destruct (dltb b d). Qed.

(** Replace [dmin]/[dmax] by the argument they select. *)
Ltac dminmax :=
  repeat match goal with
  | |- context [dmin ?a ?b] => destruct (dmin_spec a b) as [[? ->]|[? ->]]
  | |- context [dmax ?a ?b] => destruct (dmax_spec a b) as [[? ->]|[? ->]]
  | H : context [dmin ?a ?b] |- _ =>
      let E := fresh in destruct (dmin_spec a b) as [[? E]|[? E]];
      rewrite E in *; clear E
  | H : context [dmax ?a ?b] |- _ =>
      let E := fresh in destruct (dmax_spec a b) as [[? E]|[? E]];
      rewrite E in *; clear E
  end.

(** ** Integral rounding *)

Lemma to_integral_down_nonneg a :
  0 <= a -> exists n, (0 <= n)%Z /\ to_integral_down a = inject_Z n /\ inject_Z n <= a.
Proof.
  intros Ha. unfold to_integral_down. rewrite (proj2 (Qle_bool_iff 0 a) Ha).
  exists (Qfloor a). split_and!; [|done|apply Qfloor_le].
  rewrite <- (Qfloor_Z 0). by apply Qfloor_resp_le.
Qed.

Lemma to_integral_up_ge a : 0 <= a -> a <= to_integral_up a.
Proof.
  intros Ha. unfold to_integral_up. rewrite (proj2 (Qle_bool_iff 0 a) Ha).
  apply Qle_ceiling.
Qed.

(** ** Laws of the operators in any context *)

Section OperatorLemmas.
Context {C : DecimalContext} {L : DecimalLaws C}.

#[export] Instance dec_fix_Proper : Proper (Qeq ==> eq) dec_fix.
Proof. intros a b. apply dec_fix_compat. Qed.
#[export] Instance dadd_Proper : Proper (Qeq ==> Qeq ==> eq) dadd.
Proof. intros a b E c d F. unfold dadd. by rewrite E, F. Qed.
#[export] Instance dsub_Proper : Proper (Qeq ==> Qeq ==> eq) dsub.
Proof. intros a b E c d F. unfold dsub. by rewrite E, F. Qed.
#[export] Instance dmul_Proper : Proper (Qeq ==> Qeq ==> eq) dmul.
Proof. intros a b E c d F. unfold dmul. by rewrite E, F. Qed.
#[export] Instance ddiv_Proper : Proper (Qeq ==> Qeq ==> eq) ddiv.
Proof. intros a b E c d F. unfold ddiv. by rewrite E, F. Qed.

Lemma dec_fix_0 : dec_fix 0 == 0.
Proof. pose proof (dec_fix_opp 0) as H. change (- 0) with 0 in H. lra. Qed.

Lemma dec_fix_nonneg a : 0 <= a -> 0 <= dec_fix a.
Proof. intros Ha. rewrite <- dec_fix_0. by apply dec_fix_mono. Qed.

Lemma dec_fix_nonpos a : a <= 0 -> dec_fix a <= 0.
Proof. intros Ha. rewrite <- dec_fix_0. by apply dec_fix_mono. Qed.

Lemma dec_fix_neg a : a < 0 -> dec_fix a < 0.
Proof.
  intros Ha. pose proof (dec_fix_pos (- a) ltac:(lra)) as H.
  rewrite dec_fix_opp in H. lra.
Qed.

(** The sign of a rounded value is the sign of the exact one. *)
Lemma dec_fix_pos_iff a : 0 < dec_fix a <-> 0 < a.
Proof.
  split; [|apply dec_fix_pos]. intros H. apply Qnot_le_lt. intros Ha.
  apply dec_fix_nonpos in Ha. lra.
Qed.

Lemma dec_fix_neg_iff a : dec_fix a < 0 <-> a < 0.
Proof.
  split; [|apply dec_fix_neg]. intros H. apply Qnot_le_lt. intros Ha.
  apply dec_fix_nonneg in Ha. lra.
Qed.

Lemma dec_fix_zero_iff a : dec_fix a == 0 <-> a == 0.
Proof.
  split; intros H; [|rewrite H; apply dec_fix_0].
  destruct (Q_dec a 0) as [[Ha|Ha]|Ha]; [| |done];
    [apply dec_fix_neg in Ha|apply dec_fix_pos in Ha]; lra.
Qed.

(** A representable upper (lower) bound of the exact result bounds the
    rounded one. *)
Lemma dec_fix_le_repr a b : dec_fix b == b -> a <= b -> dec_fix a <= b.
Proof. intros E H. rewrite <- E. by apply dec_fix_mono. Qed.

Lemma dec_fix_ge_repr a b : dec_fix b == b -> b <= a -> b <= dec_fix a.
Proof. intros E H. rewrite <- E. by apply dec_fix_mono. Qed.

Lemma dmul_nonneg a b : 0 <= a -> 0 <= b -> 0 <= dmul a b.
Proof. intros. apply dec_fix_nonneg. nra. Qed.
Lemma dmul_pos a b : 0 < a -> 0 < b -> 0 < dmul a b.
Proof. intros. apply dec_fix_pos. nra. Qed.
Lemma dadd_nonneg a b : 0 <= a -> 0 <= b -> 0 <= dadd a b.
Proof. intros. apply dec_fix_nonneg. lra. Qed.
Lemma dadd_pos a b : 0 < a -> 0 <= b -> 0 < dadd a b.
Proof. intros. apply dec_fix_pos. lra. Qed.
Lemma ddiv_nonneg a b : 0 <= a -> 0 < b -> 0 <= ddiv a b.
Proof.
  intros Ha Hb. apply dec_fix_nonneg. apply Qle_shift_div_l; [done|]. lra.
Qed.
Lemma ddiv_pos a b : 0 < a -> 0 < b -> 0 < ddiv a b.
Proof.
  intros Ha Hb. apply dec_fix_pos. apply Qlt_shift_div_l; [done|]. lra.
Qed.
Lemma dabs_nonneg a : 0 <= dabs a.
Proof. apply dec_fix_nonneg, Qabs_nonneg. Qed.
Lemma dabs_pos a : ~ a == 0 -> 0 < dabs a.
Proof.
  intros Ha. apply dec_fix_pos. apply Qabs_case; intros; [|lra].
  destruct (Q_dec a 0) as [[?|?]|?]; [lra|done|contradiction].
Qed.

Lemma dsum_nonneg xs : Forall (fun x => 0 <= x) xs -> 0 <= dsum xs.
Proof.
  unfold dsum. enough (forall acc, 0 <= acc -> Forall (fun x => 0 <= x) xs ->
    0 <= fold_left dadd xs acc) as H by (apply H; lra).
  induction xs as [|x xs IH]; intros acc Ha Hx; simpl; [done|].
  apply Forall_cons in Hx as [Hx Hxs]. apply IH; [|done]. by apply dadd_nonneg.
Qed.

End OperatorLemmas.

Create HintDb dec discriminated.
#[export] Hint Resolve dmul_nonneg dmul_pos dadd_nonneg dadd_pos ddiv_nonneg
  ddiv_pos dabs_nonneg dabs_pos dec_fix_nonneg dec_fix_pos dsum_nonneg : dec.

(** ** Exact contexts *)

(** The exact sum of a list. *)
Fixpoint Qsum (xs : list Q) : Q :=
  match xs with [] => 0 | x :: xs => x + Qsum xs end.

Section ExactLemmas.
Context {C : DecimalContext} {E : ExactContext C}.

Lemma dsum_exact xs : dsum xs == Qsum xs.
Proof.
  unfold dsum. enough (forall acc, fold_left dadd xs acc == acc + Qsum xs) as H
    by (rewrite H; lra).
  induction xs as [|x xs IH]; intros acc; simpl; [lra|].
  rewrite IH. unfold dadd. rewrite dec_fix_exact. lra.
Qed.

Lemma dadd_exact a b : dadd a b == a + b.
Proof. apply dec_fix_exact. Qed.
Lemma dsub_exact a b : dsub a b == a - b.
Proof. apply dec_fix_exact. Qed.
Lemma dmul_exact a b : dmul a b == a * b.
Proof. apply dec_fix_exact. Qed.
Lemma ddiv_exact a b : ddiv a b == a / b.
Proof. apply dec_fix_exact. Qed.
Lemma dneg_exact a : dneg a == - a.
Proof. apply dec_fix_exact. Qed.
Lemma dabs_exact a : dabs a == Qabs a.
Proof. apply dec_fix_exact. Qed.

End ExactLemmas.

Create Rewrite HintDb dexact.
#[export] Hint Rewrite @dadd_exact @dsub_exact @dmul_exact @ddiv_exact
  @dneg_exact @dabs_exact @dsum_exact using (typeclasses eauto) : dexact.

(** Strip the roundings of an exact context. *)
Ltac dexact := autorewrite with dexact in *.

(** Sums over the values of a dictionary. *)
Section DictSums.
Context {K V : Type} `{EqDecision K}.

Lemma Qsum_dict_set (g : V -> Q) k v (d : list (K * V)) :
  Qsum (map g (dict_values (dict_set k v d))) ==
  Qsum (map g (dict_values d)) + g v
    - match dict_get k d with Some w => g w | None => 0 end.
Proof.
  unfold dict_values. induction d as [|[k' v'] d IH]; simpl; [lra|].
  destruct (decide (k = k')); simpl; [lra|]. rewrite IH. lra.
Qed.

End DictSums.
