(* ===== verification/Binary64.v ===== *)
(** * Binary floating point

    A finite [float] is represented by its value, a rational.  An arithmetic
    operator of [float] computes the exact rational and rounds it to 53
    significant bits, halves to even; the infinities, NaN and the subnormal and
    overflow ranges are outside the model. *)

From Stdlib Require Import ZArith QArith Qround Qpower Qabs Qreduction Lia Lqa.
From stdpp Require Import base tactics list.
From S2P Require Import Prelude Decimals.

Local Open Scope Z_scope.

(** The [float] nearest to a rational. *)
Definition fl (q : Q) : Q := round_prec 2 53 q.
#[global] Arguments fl q : simpl never.

(** [timedelta.total_seconds()] of a number of microseconds. *)
Definition total_seconds (us : Z) : Q := fl (us # 1000000).

(** [int(x)]: towards zero. *)
Definition float_to_int (q : Q) : Z := if Qle_bool 0 q then Qfloor q else Qceiling q.

Example fl_tenth : fl (1 # 10) = 3602879701896397 # 36028797018963968.
Proof. by vm_compute. Qed.

Example fl_milliseconds :
  float_to_int (fl (Qmult (total_seconds 1001000) 1000)) = 1000 /\
  float_to_int (fl (Qmult (total_seconds 1002000) 1000)) = 1002.
Proof. by vm_compute. Qed.

Lemma fl_mono a b : (a <= b)%Q -> (fl a <= fl b)%Q.
Proof. by apply round_prec_mono. Qed.
