(* ===== verification/ExecutionModels.v ===== *)
(** * Order, fill and instrument contracts (domain/execution/models.py)

    Records carry the fields of the dataclasses; [X_new] is the constructor
    call, that is the generated [__init__] followed by [__post_init__], and
    returns the exception the constructor raises. *)

From Stdlib Require Import ZArith QArith Qround Qabs Lia Lqa.
From stdpp Require Import base tactics list strings.
From S2P Require Import Prelude Decimals.

Local Open Scope Q_scope.
Local Open Scope string_scope.
Local Open Scope dec_scope.

(** domain/market_data/models.py: Side *)
Inductive Side := BUY | SELL.
#[export] Instance Side_eq_dec : EqDecision Side.
Proof. solve_decision. Defined.

Inductive OrderType := MARKET | LIMIT.
#[export] Instance OrderType_eq_dec : EqDecision OrderType.
Proof. solve_decision. Defined.

Inductive TimeInForce := GTC | IOC | FOK.
#[export] Instance TimeInForce_eq_dec : EqDecision TimeInForce.
Proof. solve_decision. Defined.

Inductive OrderStatus :=
| CREATED | SUBMITTED | PARTIALLY_FILLED | FILLED | CANCELLED | REJECTED | EXPIRED.
#[export] Instance OrderStatus_eq_dec : EqDecision OrderStatus.
Proof. solve_decision. Defined.

Inductive LiquidityRole := MAKER | TAKER.
#[export] Instance LiquidityRole_eq_dec : EqDecision LiquidityRole.
Proof. solve_decision. Defined.

Definition ZERO : Decimal := 0.
Definition ONE : Decimal := 1.
Definition BPS : Decimal := 10000.

(** [_utc(value, field_name)] *)
Definition _utc (value : datetime) (field_name : string) : result Z :=
  utc_or (field_name +:+ " must be timezone-aware") value.

Definition is_buy (s : Side) : bool := match s with BUY => true | SELL => false end.

Definition terminal (s : OrderStatus) : bool :=
  match s with
  | FILLED | CANCELLED | REJECTED | EXPIRED => true
  | CREATED | SUBMITTED | PARTIALLY_FILLED => false
  end.

(** ** InstrumentRules *)

Record InstrumentRules := {
  tick_size : Decimal;
  lot_size : Decimal;
  minimum_notional : Decimal;
  maker_fee_rate : Decimal;
  taker_fee_rate : Decimal;
  maintenance_margin_rate : Decimal;
}.

Definition InstrumentRules_post_init (self : InstrumentRules) : result InstrumentRules :=
  require! negb ((tick_size self <=? ZERO) || (lot_size self <=? ZERO))
    else ValueError "tick_size and lot_size must be positive";
  require! negb (minimum_notional self <? ZERO)
    else ValueError "minimum_notional cannot be negative";
  require! negb ((maker_fee_rate self <? -1 # 100) || (taker_fee_rate self <? ZERO))
    else ValueError "maker rebate is capped at 1% and taker fee cannot be negative";
  require! (ZERO <=? maintenance_margin_rate self) && (maintenance_margin_rate self <? ONE)
    else ValueError "maintenance_margin_rate must be in [0, 1)";
  Ok self.

Section Quantize.
Context {C : DecimalContext}.

Definition quantize_quantity (self : InstrumentRules) (quantity : Decimal) : Decimal :=
  if quantity <=? ZERO then ZERO
  else to_integral_down (quantity ⊘ lot_size self) ⊗ lot_size self.

Definition quantize_price (self : InstrumentRules) (price : Decimal) : result Decimal :=
  require! negb (price <=? ZERO) else ValueError "price must be positive";
  Ok (to_integral_down (price ⊘ tick_size self) ⊗ tick_size self).

Definition quantize_limit_price (self : InstrumentRules) (price : Decimal) (side : Side)
  : result Decimal :=
  require! negb (price <=? ZERO) else ValueError "price must be positive";
  let rounding := match side with BUY => to_integral_down | SELL => to_integral_up end in
  Ok (rounding (price ⊘ tick_size self) ⊗ tick_size self).

Definition quantize_execution_price (self : InstrumentRules) (price : Decimal) (side : Side)
  : result Decimal :=
  require! negb (price <=? ZERO) else ValueError "price must be positive";
  let rounding := match side with BUY => to_integral_up | SELL => to_integral_down end in
  Ok (rounding (price ⊘ tick_size self) ⊗ tick_size self).

Definition validate_notional (self : InstrumentRules) (quantity price : Decimal) : bool :=
  quantity ⊗ price >=? minimum_notional self.

End Quantize.

(** ** MarketSnapshot *)

Record MarketSnapshot := {
  ms_exchange : string;
  ms_symbol : string;
  ms_timestamp : Z;
  bid : Decimal;
  ask : Decimal;
  bid_quantity : Decimal;
  ask_quantity : Decimal;
  last_price : option Decimal;
  trade_quantity : option Decimal;
  ms_mark_price : option Decimal;
}.

(** [value is not None and value <= ZERO] *)
Definition opt_nonpositive (v : option Decimal) : bool :=
  match v with Some v => v <=? ZERO | None => false end.
Definition opt_negative (v : option Decimal) : bool :=
  match v with Some v => v <? ZERO | None => false end.

Definition MarketSnapshot_new (exchange symbol : string) (timestamp : datetime)
    (bid ask bid_quantity ask_quantity : Decimal)
    (last_price trade_quantity mark_price : option Decimal) : result MarketSnapshot :=
  let! timestamp := _utc timestamp "timestamp" in
  require! negb ((bid <=? ZERO) || (ask <=? ZERO) || (bid >=? ask))
    else ValueError "snapshot requires positive, non-crossed bid/ask";
  require! negb ((bid_quantity <? ZERO) || (ask_quantity <? ZERO))
    else ValueError "book quantities cannot be negative";
  require! negb (opt_nonpositive last_price || opt_nonpositive mark_price)
    else ValueError "last and mark prices must be positive";
  require! negb (opt_negative trade_quantity)
    else ValueError "trade_quantity cannot be negative";
  Ok {| ms_exchange := exchange; ms_symbol := symbol; ms_timestamp := timestamp;
        bid := bid; ask := ask; bid_quantity := bid_quantity;
        ask_quantity := ask_quantity; last_price := last_price;
        trade_quantity := trade_quantity; ms_mark_price := mark_price |}.

Section Snapshot.
Context {C : DecimalContext}.

Definition mid (self : MarketSnapshot) : Decimal := (bid self ⊕ ask self) ⊘ 2.

(** [a or b] on an optional decimal: falsy when absent or zero. *)
Definition opt_or (a : option Decimal) (b : Decimal) : Decimal :=
  match a with Some v => if v =? ZERO then b else v | None => b end.

Definition valuation_price (self : MarketSnapshot) : Decimal :=
  opt_or (ms_mark_price self) (opt_or (last_price self) (mid self)).

End Snapshot.

(** ** Order *)

Record Order := {
  order_id : string;
  signal_id : string;
  exchange : string;
  symbol : string;
  side : Side;
  quantity : Decimal;
  order_type : OrderType;
  time_in_force : TimeInForce;
  signal_at : Z;
  created_at : Z;
  submitted_at : Z;
  limit_price : option Decimal;
  post_only : bool;
  reduce_only : bool;
  expires_at : option Z;
  stop_loss : option Decimal;
  take_profit : option Decimal;
  status : OrderStatus;
  remaining_quantity : Decimal;
  rejection_reason : option string;
}.

Definition set_status (st : OrderStatus) (reason : option string) (o : Order) : Order :=
  {| order_id := order_id o; signal_id := signal_id o; exchange := exchange o;
     symbol := symbol o; side := side o; quantity := quantity o;
     order_type := order_type o; time_in_force := time_in_force o;
     signal_at := signal_at o; created_at := created_at o;
     submitted_at := submitted_at o; limit_price := limit_price o;
     post_only := post_only o; reduce_only := reduce_only o;
     expires_at := expires_at o; stop_loss := stop_loss o;
     take_profit := take_profit o; status := st;
     remaining_quantity := remaining_quantity o; rejection_reason := reason |}.

Definition set_quantities (q rem : Decimal) (limit : option Decimal) (o : Order) : Order :=
  {| order_id := order_id o; signal_id := signal_id o; exchange := exchange o;
     symbol := symbol o; side := side o; quantity := q;
     order_type := order_type o; time_in_force := time_in_force o;
     signal_at := signal_at o; created_at := created_at o;
     submitted_at := submitted_at o; limit_price := limit;
     post_only := post_only o; reduce_only := reduce_only o;
     expires_at := expires_at o; stop_loss := stop_loss o;
     take_profit := take_profit o; status := status o;
     remaining_quantity := rem; rejection_reason := rejection_reason o |}.

Definition opt_utc (v : option datetime) (name : string) : result (option Z) :=
  match v with
  | None => Ok None
  | Some v => let! t := _utc v name in Ok (Some t)
  end.

Definition Order_new (order_id signal_id exchange symbol : string) (side : Side)
    (quantity : Decimal) (order_type : OrderType) (time_in_force : TimeInForce)
    (signal_at created_at submitted_at : datetime) (limit_price : option Decimal)
    (post_only reduce_only : bool) (expires_at : option datetime)
    (stop_loss take_profit : option Decimal) : result Order :=
  let! signal_at := _utc signal_at "signal_at" in
  let! created_at := _utc created_at "created_at" in
  let! submitted_at := _utc submitted_at "submitted_at" in
  require! (signal_at <=? created_at)%Z && (created_at <=? submitted_at)%Z
    else ValueError "order timestamps must be signal <= created <= submitted";
  require! negb (quantity <=? ZERO)
    else ValueError "order quantity must be positive";
  require! negb (bool_decide (order_type = LIMIT) && bool_decide (limit_price = None))
    else ValueError "limit order requires limit_price";
  require! negb (bool_decide (order_type = MARKET) && bool_decide (limit_price <> None))
    else ValueError "market order cannot have limit_price";
  require! negb (opt_nonpositive limit_price || opt_nonpositive stop_loss
                 || opt_nonpositive take_profit)
    else ValueError "order prices must be positive";
  let! expires_at := opt_utc expires_at "expires_at" in
  require! match expires_at with Some e => (submitted_at <? e)%Z | None => true end
    else ValueError "expires_at must follow submitted_at";
  Ok {| order_id := order_id; signal_id := signal_id; exchange := exchange;
        symbol := symbol; side := side; quantity := quantity;
        order_type := order_type; time_in_force := time_in_force;
        signal_at := signal_at; created_at := created_at;
        submitted_at := submitted_at; limit_price := limit_price;
        post_only := post_only; reduce_only := reduce_only;
        expires_at := expires_at; stop_loss := stop_loss;
        take_profit := take_profit; status := CREATED;
        remaining_quantity := quantity; rejection_reason := None |}.

Definition reject (reason : string) (self : Order) : Order :=
  if terminal (status self) then self else set_status REJECTED (Some reason) self.

Definition cancel (reason : string) (expired : bool) (self : Order) : Order :=
  if terminal (status self) then self
  else set_status (if expired then EXPIRED else CANCELLED) (Some reason) self.

Section OrderOps.
Context {C : DecimalContext}.

Definition filled_quantity (self : Order) : Decimal :=
  quantity self ⊖ remaining_quantity self.

Definition record_fill (q : Decimal) (self : Order) : result Order :=
  require! negb (terminal (status self))
    else ValueError "cannot fill a terminal order";
  require! negb ((q <=? ZERO) || (q >? remaining_quantity self))
    else ValueError "invalid fill quantity";
  let rem := remaining_quantity self ⊖ q in
  Ok (set_status (if rem =? ZERO then FILLED else PARTIALLY_FILLED)
        (rejection_reason self)
        (set_quantities (quantity self) rem (limit_price self) self)).

End OrderOps.

(** ** Fill *)

Record Fill := {
  fill_id : string;
  f_order_id : string;
  f_signal_id : string;
  f_exchange : string;
  f_symbol : string;
  f_side : Side;
  f_quantity : Decimal;
  f_price : Decimal;
  liquidity : LiquidityRole;
  f_signal_at : Z;
  order_created_at : Z;
  f_submitted_at : Z;
  filled_at : Z;
  fee : Decimal;
  spread_cost : Decimal;
  slippage_cost : Decimal;
  market_impact_cost : Decimal;
}.

(** The checks of [Fill.__post_init__], on already normalised timestamps. *)
Definition Fill_post_init (self : Fill) : result Fill :=
  require! (f_signal_at self <=? order_created_at self)%Z
           && (order_created_at self <=? f_submitted_at self)%Z
           && (f_submitted_at self <? filled_at self)%Z
    else ValueError "fill timestamps must preserve causality and use a later market event";
  require! negb ((f_quantity self <=? ZERO) || (f_price self <=? ZERO))
    else ValueError "fill quantity and price must be positive";
  require! negb (dmin (dmin (spread_cost self) (slippage_cost self))
                      (market_impact_cost self) <? ZERO)
    else ValueError "spread, slippage and impact costs cannot be negative";
  Ok self.

Section FillOps.
Context {C : DecimalContext}.
Definition fill_notional (self : Fill) : Decimal := f_quantity self ⊗ f_price self.
End FillOps.

(** ** Well-formedness: what the constructors establish *)

Definition rules_wf (r : InstrumentRules) : Prop :=
  0 < tick_size r /\ 0 < lot_size r /\ 0 <= minimum_notional r /\
  -1 # 100 <= maker_fee_rate r /\ 0 <= taker_fee_rate r /\
  0 <= maintenance_margin_rate r /\ maintenance_margin_rate r < 1.

Definition opt_pos (v : option Decimal) : Prop :=
  match v with Some v => 0 < v | None => True end.

Definition snapshot_wf (s : MarketSnapshot) : Prop :=
  0 < bid s /\ bid s < ask s /\ 0 <= bid_quantity s /\ 0 <= ask_quantity s /\
  opt_pos (last_price s) /\ opt_pos (ms_mark_price s) /\
  match trade_quantity s with Some q => 0 <= q | None => True end.

(** The life of an order: what holds between creation and termination.  After
    submission a buy limit may have been rounded down to zero, hence the weak
    inequality on the limit price. *)
Record order_wf (o : Order) : Prop := {
  owf_times : (signal_at o <= created_at o <= submitted_at o)%Z;
  owf_expiry : match expires_at o with Some e => (submitted_at o < e)%Z | None => True end;
  owf_quantity : 0 < quantity o;
  owf_remaining : 0 <= remaining_quantity o /\ remaining_quantity o <= quantity o;
  owf_filled : status o = FILLED <-> remaining_quantity o == 0;
  owf_limit : limit_price o = None <-> order_type o = MARKET;
  owf_limit_nonneg : match limit_price o with Some p => 0 <= p | None => True end;
  owf_protection : opt_pos (stop_loss o) /\ opt_pos (take_profit o);
}.

Definition fill_wf (f : Fill) : Prop :=
  (f_signal_at f <= order_created_at f <= f_submitted_at f)%Z /\
  (f_submitted_at f < filled_at f)%Z /\
  0 < f_quantity f /\ 0 < f_price f /\
  0 <= spread_cost f /\ 0 <= slippage_cost f /\ 0 <= market_impact_cost f.

(** ** Constructors establish well-formedness *)

(** Peel the guards of a constructor that succeeded. *)
Ltac inv_guards H :=
  repeat match type of H with
  | rbind ?m _ = Ok _ =>
      let a := fresh "v" in let E := fresh "Ev" in
      destruct m as [a|] eqn:E; cbn [rbind] in H; [|discriminate H]
  | (if ?b then _ else Err _) = Ok _ =>
      let E := fresh "Eg" in destruct b eqn:E; [|discriminate H]
  end.

Lemma opt_nonpositive_false v : opt_nonpositive v = false <-> opt_pos v.
Proof. destruct v; simpl; decb; tauto. Qed.

Lemma InstrumentRules_post_init_wf r r' :
  InstrumentRules_post_init r = Ok r' <-> r' = r /\ rules_wf r.
Proof.
  unfold InstrumentRules_post_init, rules_wf, ZERO, ONE. split.
  - intros H. inv_guards H. inv_ok. decb. tauto.
  - intros [-> (?&?&?&?&?&?&?)].
    repeat match goal with
    | |- context [if ?b then _ else _] =>
        let E := fresh in destruct b eqn:E; [|exfalso; decb; unfold ZERO in *; intuition lra]
    end. done.
Qed.

Lemma MarketSnapshot_new_wf e s t b a bq aq lp tq mp m :
  MarketSnapshot_new e s t b a bq aq lp tq mp = Ok m -> snapshot_wf m.
Proof.
  unfold MarketSnapshot_new, snapshot_wf, ZERO. intros H. inv_guards H. inv_ok.
  simpl. decb. rewrite !opt_nonpositive_false in *.
  destruct_and?. split_and!; try done. destruct tq; simpl in *; decb; done.
Qed.

Lemma Order_new_wf oid sid ex sy sd q ty tif t1 t2 t3 lp po ro ea sl tp o :
  Order_new oid sid ex sy sd q ty tif t1 t2 t3 lp po ro ea sl tp = Ok o ->
  order_wf o /\ status o = CREATED /\ remaining_quantity o = quantity o.
Proof.
  unfold Order_new, ZERO. intros H. inv_guards H. inv_ok. simpl.
  decb. rewrite !opt_nonpositive_false in *. destruct_and?.
  rewrite !bool_decide_eq_false in *. split; [|done].
  constructor; simpl; try done.
  - rewrite !Z.leb_le in *. lia.
  - destruct v2; [by apply Z.ltb_lt|done].
  - split; lra.
  - split; [done|]. intros. lra.
  - destruct lp, ty; split; intros; try done; intuition congruence.
  - destruct lp; simpl in *; lra.
Qed.

Lemma Fill_post_init_wf f f' : Fill_post_init f = Ok f' <-> f' = f /\ fill_wf f.
Proof.
  unfold Fill_post_init, fill_wf, ZERO. split.
  - intros H. inv_guards H. inv_ok. decb. destruct_and?.
    rewrite !Z.leb_le, !Z.ltb_lt in *.
    dminmax; split_and!; try done; try lia; lra.
  - intros (-> & [? ?] & ? & ? & ? & ? & ? & ?).
    repeat match goal with
    | |- context [if ?b then _ else _] =>
        let E := fresh in destruct b eqn:E; [|exfalso]
    end; [done|..]; decb; rewrite ?Z.leb_gt, ?Z.ltb_ge in *; dminmax; intuition (lia || lra).
Qed.

(** ** Order life cycle *)

Section OrderLemmas.
Context {C : DecimalContext} {L : DecimalLaws C}.

Lemma reject_wf r o : order_wf o -> order_wf (reject r o).
Proof.
  intros [? ? ? ? Hf ? ? ?]. unfold reject. destruct (terminal (status o)) eqn:E; [done|].
  constructor; simpl; try done. split; [done|].
  intros Hr. apply Hf in Hr. by rewrite Hr in E.
Qed.

Lemma cancel_wf r e o : order_wf o -> order_wf (cancel r e o).
Proof.
  intros [? ? ? ? Hf ? ? ?]. unfold cancel. destruct (terminal (status o)) eqn:E; [done|].
  constructor; simpl; try done. split.
  - by destruct e.
  - intros Hr. apply Hf in Hr. by rewrite Hr in E.
Qed.

Lemma record_fill_ok q o o' :
  record_fill q o = Ok o' <->
  terminal (status o) = false /\ 0 < q /\ q <= remaining_quantity o /\
  o' = set_status
         (if dsub (remaining_quantity o) q =? 0 then FILLED else PARTIALLY_FILLED)
         (rejection_reason o)
         (set_quantities (quantity o) (dsub (remaining_quantity o) q) (limit_price o) o).
Proof.
  unfold record_fill, ZERO. split.
  - intros H. inv_guards H. inv_ok. decb. tauto.
  - intros (Ht & Hq & Hr & ->). rewrite Ht. simpl.
    destruct ((q <=? 0) || _) eqn:E; [|done]. exfalso. decb. intuition lra.
Qed.

(** A recorded fill keeps the order well formed as long as its remaining
    quantity is a value of the context. *)
Lemma record_fill_wf q o o' :
  order_wf o -> dec_fix (remaining_quantity o) == remaining_quantity o ->
  record_fill q o = Ok o' ->
  order_wf o' /\ dec_fix (remaining_quantity o') == remaining_quantity o' /\
  remaining_quantity o' <= remaining_quantity o.
Proof.
  intros [? ? ? [Hr0 Hr1] Hf ? ? ?] Hrep (Ht & Hq & Hr & ->)%record_fill_ok. simpl.
  set (rem := dsub (remaining_quantity o) q).
  assert (rem <= remaining_quantity o) as Hle.
  { apply dec_fix_le_repr; [done|lra]. }
  split_and!; [|apply dec_fix_idem|done].
  constructor; simpl; try done.
  - split; [|lra]. apply dec_fix_nonneg. lra.
  - destruct (rem =? 0) eqn:E; decb; split; done.
Qed.

(** Terminal states are absorbing for every operation of an order. *)
Lemma terminal_absorbing o :
  terminal (status o) = true ->
  (forall r, reject r o = o) /\ (forall r e, cancel r e o = o) /\
  (forall q, exists e, record_fill q o = Err e).
Proof.
  intros Ht. unfold reject, cancel, record_fill. rewrite Ht.
  split_and!; [done|done|]. intros q. simpl. eauto.
Qed.

(** ** Quantization *)

Lemma quantize_quantity_shape r q :
  rules_wf r ->
  exists n, (0 <= n)%Z /\ quantize_quantity r q == dec_fix (inject_Z n * lot_size r)%Q /\
    (q <= 0 -> n = 0%Z) /\ (0 < q -> inject_Z n <= q ⊘ lot_size r).
Proof.
  intros (_ & Hl & _). unfold quantize_quantity, ZERO.
  destruct (q <=? 0) eqn:E; decb.
  - exists 0%Z. split_and!; [done| |done|intros; lra].
    transitivity (dec_fix 0); [by rewrite dec_fix_0|].
    by rewrite (dec_fix_compat 0 (inject_Z 0 * lot_size r)%Q) by ring.
  - destruct (to_integral_down_nonneg (q ⊘ lot_size r)) as (n & Hn & -> & Hle).
    { apply ddiv_nonneg; lra. }
    exists n. split_and!; [done|reflexivity|intros; lra|done].
Qed.

Lemma quantize_quantity_nonneg r q : rules_wf r -> 0 <= quantize_quantity r q.
Proof.
  intros Hr. destruct (quantize_quantity_shape r q Hr) as (n & Hn & -> & _).
  destruct Hr as (_ & Hl & _). apply dec_fix_nonneg.
  assert (0 <= inject_Z n) by (by rewrite Zle_Qle in Hn). nra.
Qed.

Lemma quantize_quantity_repr r q :
  rules_wf r -> dec_fix (quantize_quantity r q) == quantize_quantity r q.
Proof.
  intros Hr. destruct (quantize_quantity_shape r q Hr) as (n & Hn & E & _).
  rewrite (dec_fix_compat _ _ E), E. apply dec_fix_idem.
Qed.

(** When the quotient by the lot size needs no rounding, quantization never
    exceeds the request. *)
Lemma quantize_quantity_le r q :
  rules_wf r -> 0 <= q -> dec_fix q == q ->
  dec_fix (Qdiv q (lot_size r)) == Qdiv q (lot_size r) ->
  quantize_quantity r q <= q.
Proof.
  intros Hr Hq Hrep Hdiv.
  destruct (quantize_quantity_shape r q Hr) as (n & Hn & -> & H0 & H1).
  destruct Hr as (_ & Hl & _). apply dec_fix_le_repr; [done|].
  destruct (Qlt_le_dec 0 q) as [Hp|Hz].
  - specialize (H1 Hp). unfold ddiv in H1. rewrite Hdiv in H1.
    assert (q == Qmult (lot_size r) (Qdiv q (lot_size r))) as E
      by (rewrite Qmult_div_r by lra; reflexivity).
    nra.
  - rewrite (H0 Hz). change (inject_Z 0) with 0. lra.
Qed.

(** A price is quantized towards the resting side of the book when it is a
    limit, and against the trader when it is an execution price; the results
    bracket the input when the quotient by the tick size needs no rounding. *)
Lemma quantize_prices_bracket r p l x sd :
  rules_wf r -> dec_fix p == p ->
  dec_fix (Qdiv p (tick_size r)) == Qdiv p (tick_size r) ->
  quantize_limit_price r p sd = Ok l -> quantize_execution_price r p sd = Ok x ->
  match sd with
  | BUY => 0 <= l /\ l <= p /\ p <= x
  | SELL => 0 <= x /\ x <= p /\ p <= l
  end.
Proof.
  intros (Ht & _) Hrep Hdiv Hl Hx. unfold quantize_limit_price, quantize_execution_price in *.
  inv_guards Hl. inv_ok. unfold ZERO in *. decb.
  assert (0 < p ⊘ tick_size r) as Hq by (by apply ddiv_pos).
  destruct (to_integral_down_nonneg (p ⊘ tick_size r)) as (n & Hn & En & Hle); [lra|].
  pose proof (to_integral_up_ge (p ⊘ tick_size r) (Qlt_le_weak _ _ Hq)) as Hge.
  assert (p ⊘ tick_size r == Qdiv p (tick_size r)) as Eq by apply Hdiv.
  assert (p == Qmult (Qdiv p (tick_size r)) (tick_size r)) as Em
    by (rewrite Qmult_comm, Qmult_div_r by lra; reflexivity).
  rewrite Eq in Hle, Hge at 1. clear Hdiv. set (u := Qdiv p (tick_size r)) in *. clearbody u.
  assert (0 <= inject_Z n) by (by rewrite Zle_Qle in Hn).
  assert (0 <= inject_Z n ⊗ tick_size r /\ inject_Z n ⊗ tick_size r <= p) as [D1 D2].
  { split; [apply dmul_nonneg; lra|]. apply dec_fix_le_repr; [done|]. nra. }
  assert (p <= to_integral_up (p ⊘ tick_size r) ⊗ tick_size r) as U.
  { apply dec_fix_ge_repr; [done|]. nra. }
  destruct sd; rewrite En; done.
Qed.

End OrderLemmas.
