(* ===== verification/Simulator.v ===== *)
(** * Execution simulator (domain/execution/simulator.py)

    The simulator's state is the record [Simulator]; [match_snapshot] is the
    method [match], which calls back into the state [P] of its caller for the
    quantity cap and for each fill. *)

From Stdlib Require Import ZArith QArith Qabs Lia Lqa.
From stdpp Require Import base tactics relations list strings sorting.
From S2P Require Import Prelude Decimals ExecutionModels.

Local Open Scope Q_scope.
Local Open Scope string_scope.
Local Open Scope dec_scope.

Abbreviation InstrumentKey := (string * string)%type.

(** ** Configuration *)

Record ExecutionModelConfig := {
  participation_rate : Decimal;
  passive_fill_fraction : Decimal;
  slippage_bps : Decimal;
  impact_coefficient_bps : Decimal;
  impact_power : Z;
  maximum_impact_bps : Decimal;
}.

Definition default_execution_config : ExecutionModelConfig := {|
  participation_rate := 1 # 4;
  passive_fill_fraction := 1 # 10;
  slippage_bps := 1;
  impact_coefficient_bps := 5;
  impact_power := 1;
  maximum_impact_bps := 50;
|}.

Definition ExecutionModelConfig_post_init (self : ExecutionModelConfig)
  : result ExecutionModelConfig :=
  require! (ZERO <? participation_rate self) && (participation_rate self <=? 1)
    else ValueError "participation_rate must be in (0, 1]";
  require! (ZERO <=? passive_fill_fraction self) && (passive_fill_fraction self <=? 1)
    else ValueError "passive_fill_fraction must be in [0, 1]";
  require! negb (dmin (dmin (slippage_bps self) (impact_coefficient_bps self))
                      (maximum_impact_bps self) <? ZERO)
    else ValueError "cost assumptions cannot be negative";
  require! negb (impact_power self <? 1)%Z
    else ValueError "impact_power must be at least one";
  Ok self.

(** ** State *)

Record Simulator := {
  sim_rules : list (InstrumentKey * InstrumentRules);
  config : ExecutionModelConfig;
  orders : list (string * Order);
  fills : list Fill;
  fill_sequence : N;
}.

Definition Simulator_new (rules : list (InstrumentKey * InstrumentRules))
    (cfg : option ExecutionModelConfig) : Simulator :=
  {| sim_rules := rules; config := default default_execution_config cfg;
     orders := []; fills := []; fill_sequence := 0 |}.

(** An order is an object shared by the dictionary and the loops over it: a
    mutation is visible through the dictionary. *)
Definition store_order (o : Order) (s : Simulator) : Simulator :=
  {| sim_rules := sim_rules s; config := config s;
     orders := dict_set (order_id o) o (orders s);
     fills := fills s; fill_sequence := fill_sequence s |}.

Definition with_orders (os : list (string * Order)) (s : Simulator) : Simulator :=
  {| sim_rules := sim_rules s; config := config s; orders := os;
     fills := fills s; fill_sequence := fill_sequence s |}.

Definition append_fill (f : Fill) (s : Simulator) : Simulator :=
  {| sim_rules := sim_rules s; config := config s; orders := orders s;
     fills := fills s ++ [f]; fill_sequence := fill_sequence s |}.

Definition bump_fill_sequence (s : Simulator) : Simulator :=
  {| sim_rules := sim_rules s; config := config s; orders := orders s;
     fills := fills s; fill_sequence := (fill_sequence s + 1)%N |}.

Section Operations.
Context {C : DecimalContext}.

Definition submit (order : Order) : M Simulator Order := fun self =>
  if dict_mem (order_id order) (orders self)
  then (self, Err (ValueError ("duplicate order_id: " +:+ order_id order)))
  else
    let done o := (store_order o self, Ok o) in
    match dict_get (exchange order, symbol order) (sim_rules self) with
    | None => done (reject "instrument rules unavailable" order)
    | Some rules =>
        let q := quantize_quantity rules (quantity order) in
        if q <=? ZERO then done (reject "quantity is below lot size" order)
        else
          let finish o :=
            if post_only o && negb (bool_decide (order_type o = LIMIT))
            then done (reject "post-only requires a limit order" o)
            else done (set_status SUBMITTED (rejection_reason o) o) in
          match limit_price order with
          | None => finish (set_quantities q q None order)
          | Some p =>
              match quantize_limit_price rules p (side order) with
              | Ok p => finish (set_quantities q q (Some p) order)
              | Err e => (store_order (set_quantities q q (Some p) order) self, Err e)
              end
          end
    end.

Definition cancel_all (reason : string) (self : Simulator) : Simulator :=
  with_orders (map (fun '(k, o) => (k, cancel reason false o)) (orders self)) self.

(** ** Matching one order *)

Definition is_marketable (order : Order) (snapshot : MarketSnapshot) : bool :=
  match order_type order with
  | MARKET => true
  | LIMIT =>
      match limit_price order with
      | None => false
      | Some p =>
          match side order with
          | BUY => p >=? ask snapshot
          | SELL => p <=? bid snapshot
          end
      end
  end.

Definition passive_trade_reached (order : Order) (snapshot : MarketSnapshot) : bool :=
  match limit_price order, last_price snapshot with
  | Some p, Some last =>
      match side order with BUY => last <=? p | SELL => last >=? p end
  | _, _ => false
  end.

Definition impact_bps (cfg : ExecutionModelConfig) (q depth : Decimal) : Decimal :=
  if depth <=? ZERO then maximum_impact_bps cfg
  else
    let ratio := q ⊘ depth in
    let impact := impact_coefficient_bps cfg ⊗ dec_pow ratio (Z.to_pos (impact_power cfg)) in
    dmin impact (maximum_impact_bps cfg).

Record MatchDetails := {
  md_quantity : Decimal;
  md_price : Decimal;
  md_liquidity : LiquidityRole;
  md_spread : Decimal;
  md_slippage : Decimal;
  md_impact : Decimal;
}.

(** [price > limit] for a buy, [price < limit] for a sell. *)
Definition worse_than_limit (sd : Side) (price : Decimal) (limit : option Decimal) : bool :=
  match limit with
  | None => false
  | Some l => match sd with BUY => price >? l | SELL => price <? l end
  end.

(** The taker branch. *)
Definition taker_details (cfg : ExecutionModelConfig) (order : Order)
    (snapshot : MarketSnapshot) (rules : InstrumentRules) (cap : Decimal)
  : result (option MatchDetails) :=
  let depth := match side order with
               | BUY => ask_quantity snapshot | SELL => bid_quantity snapshot end in
  let available := quantize_quantity rules (depth ⊗ participation_rate cfg) in
  let q := quantize_quantity rules (dmin cap available) in
  if q <=? ZERO then Ok None
  else
    let top := match side order with BUY => ask snapshot | SELL => bid snapshot end in
    let impact_b := impact_bps cfg q depth in
    let slippage_rate := slippage_bps cfg ⊘ BPS in
    let impact_rate := impact_b ⊘ BPS in
    let direction := match side order with BUY => 1 | SELL => -1 end in
    let raw_price := top ⊗ (1 ⊕ direction ⊗ (slippage_rate ⊕ impact_rate)) in
    let! price := quantize_execution_price rules raw_price (side order) in
    if worse_than_limit (side order) price (limit_price order) then Ok None
    else
      Ok (Some {| md_quantity := q; md_price := price; md_liquidity := TAKER;
                  md_spread := dabs (top ⊖ mid snapshot) ⊗ q;
                  md_slippage := top ⊗ slippage_rate ⊗ q;
                  md_impact := top ⊗ impact_rate ⊗ q |}).

(** The passive branch. *)
Definition maker_details (cfg : ExecutionModelConfig) (order : Order)
    (snapshot : MarketSnapshot) (rules : InstrumentRules) (cap : Decimal)
  : option MatchDetails :=
  if negb (passive_trade_reached order snapshot) then None
  else
    let traded := opt_or (trade_quantity snapshot) ZERO in
    let available := quantize_quantity rules (traded ⊗ passive_fill_fraction cfg) in
    let q := quantize_quantity rules (dmin cap available) in
    match limit_price order with
    | None => None
    | Some p =>
        if q <=? ZERO then None
        else Some {| md_quantity := q; md_price := p; md_liquidity := MAKER;
                     md_spread := ZERO; md_slippage := ZERO; md_impact := ZERO |}
    end.

(** [_match_details]; it may cancel the order, so the order comes back. *)
Definition match_details (cfg : ExecutionModelConfig) (order : Order)
    (snapshot : MarketSnapshot) (rules : InstrumentRules) (cap : Decimal)
  : result (Order * option MatchDetails) :=
  let marketable := is_marketable order snapshot in
  if post_only order && marketable
  then Ok (cancel "post-only order would take liquidity" false order, None)
  else if bool_decide (order_type order = MARKET) || marketable
  then let! d := taker_details cfg order snapshot rules cap in Ok (order, d)
  else Ok (order, maker_details cfg order snapshot rules cap).

(** The [Fill] built by [_make_fill] once the sequence number is taken. *)
Definition build_fill (sequence : N) (order : Order) (snapshot : MarketSnapshot)
    (rules : InstrumentRules) (d : MatchDetails) : Fill :=
  let fee_rate := match md_liquidity d with
                  | MAKER => maker_fee_rate rules | TAKER => taker_fee_rate rules end in
  {| fill_id := "fill-" +:+ format_012d sequence;
     f_order_id := order_id order; f_signal_id := signal_id order;
     f_exchange := exchange order; f_symbol := symbol order; f_side := side order;
     f_quantity := md_quantity d; f_price := md_price d;
     liquidity := md_liquidity d; f_signal_at := signal_at order;
     order_created_at := created_at order; f_submitted_at := submitted_at order;
     filled_at := ms_timestamp snapshot;
     fee := md_quantity d ⊗ md_price d ⊗ fee_rate;
     spread_cost := md_spread d; slippage_cost := md_slippage d;
     market_impact_cost := md_impact d |}.

Definition make_fill (order : Order) (snapshot : MarketSnapshot)
    (rules : InstrumentRules) (d : MatchDetails) : M Simulator Fill := fun self =>
  let self := bump_fill_sequence self in
  (self, Fill_post_init (build_fill (fill_sequence self) order snapshot rules d)).

(** ** Matching a snapshot *)

Section Match.
Context {P : Type}.
Variable quantity_cap : option (P -> Order -> Decimal).
Variable on_fill : option (Order -> Fill -> M P unit).

Definition effective_cap (p : P) (order : Order) : Decimal :=
  match quantity_cap with
  | None => remaining_quantity order
  | Some f => dmin (remaining_quantity order) (dmax ZERO (f p order))
  end.

(** The end of the loop body: the fill is made, recorded, appended and handed
    to the consumer; an IOC remainder is cancelled last. *)
Definition execute_match (order : Order) (snapshot : MarketSnapshot)
    (rules : InstrumentRules) (d : MatchDetails)
  : M (Simulator * P) (list Fill) := fun '(s, p) =>
  match make_fill order snapshot rules d s with
  | (s, Err e) => ((s, p), Err e)
  | (s, Ok fill) =>
      match record_fill (md_quantity d) order with
      | Err e => ((s, p), Err e)
      | Ok order =>
          let s := append_fill fill (store_order order s) in
          let (p, r) := match on_fill with
                        | None => (p, Ok tt)
                        | Some k => k order fill p
                        end in
          match r with
          | Err e => ((s, p), Err e)
          | Ok _ =>
              let s := if bool_decide (time_in_force order = IOC)
                          && (remaining_quantity order >? ZERO)
                       then store_order (cancel "IOC remainder cancelled" false order) s
                       else s in
              ((s, p), Ok [fill])
          end
      end
  end.

(** The loop body of [match] for the order stored under [oid]. *)
Definition match_order (snapshot : MarketSnapshot) (rules : InstrumentRules) (oid : string)
  : M (Simulator * P) (list Fill) := fun '(s, p) =>
  match dict_get oid (orders s) with
  | None => ((s, p), Ok [])
  | Some order =>
      let continue o := ((store_order o s, p), Ok []) in
      if terminal (status order)
         || negb (bool_decide (exchange order = ms_exchange snapshot))
         || negb (bool_decide (symbol order = ms_symbol snapshot))
      then ((s, p), Ok [])
      else if (ms_timestamp snapshot <=? submitted_at order)%Z then ((s, p), Ok [])
      else if match expires_at order with
              | Some e => (e <=? ms_timestamp snapshot)%Z
              | None => false
              end
      then continue (cancel "order expired" true order)
      else
        let cap := effective_cap p order in
        if cap <=? ZERO then
          if reduce_only order
          then continue (cancel "reduce-only order no longer reduces a position" false order)
          else ((s, p), Ok [])
        else if (filled_quantity order =? ZERO)
                && negb (validate_notional rules (quantity order) (mid snapshot))
        then continue (reject "order is below minimum notional" order)
        else
          match match_details (config s) order snapshot rules cap with
          | Err e => ((s, p), Err e)
          | Ok (order, None) =>
              continue (if bool_decide (time_in_force order <> GTC)
                        then cancel "time in force could not be satisfied" false order
                        else order)
          | Ok (order, Some d) =>
              if bool_decide (time_in_force order = FOK)
                 && (md_quantity d <? remaining_quantity order)
              then continue (cancel "fill-or-kill quantity unavailable" false order)
              else execute_match order snapshot rules d (s, p)
          end
  end.

Fixpoint match_loop (snapshot : MarketSnapshot) (rules : InstrumentRules)
    (ids : list string) (produced : list Fill) : M (Simulator * P) (list Fill) :=
  match ids with
  | [] => pret produced
  | oid :: ids =>
      do! fs <- match_order snapshot rules oid;
      match_loop snapshot rules ids (produced ++ fs)
  end.

End Match.

(** [sorted(self.orders.values(), key=lambda item: (item.submitted_at, item.order_id))] *)
Definition submission_le (a b : Order) : Prop :=
  (submitted_at a < submitted_at b)%Z \/
  (submitted_at a = submitted_at b /\ String.le (order_id a) (order_id b)).

#[export] Instance submission_le_dec : RelDecision submission_le.
Proof. unfold RelDecision, submission_le. intros. apply _. Defined.

Definition candidates (s : Simulator) : list Order :=
  merge_sort submission_le (dict_values (orders s)).

Definition match_snapshot {P} (snapshot : MarketSnapshot)
    (quantity_cap : option (P -> Order -> Decimal))
    (on_fill : option (Order -> Fill -> M P unit))
  : M (Simulator * P) (list Fill) := fun '(s, p) =>
  match dict_get (ms_exchange snapshot, ms_symbol snapshot) (sim_rules s) with
  | None => ((s, p), Ok [])
  | Some rules =>
      match_loop quantity_cap on_fill snapshot rules
        (map order_id (candidates s)) [] (s, p)
  end.

End Operations.

Local Close Scope string_scope.

(** ** Invariant *)

Definition config_wf (c : ExecutionModelConfig) : Prop :=
  0 < participation_rate c /\ participation_rate c <= 1 /\
  0 <= passive_fill_fraction c /\ passive_fill_fraction c <= 1 /\
  0 <= slippage_bps c /\ 0 <= impact_coefficient_bps c /\ 0 <= maximum_impact_bps c /\
  (1 <= impact_power c)%Z.

(** An order of the book: stored under its id, well formed, and with a
    remaining quantity of the context unless it is closed. *)
Definition book_entry_wf `{DecimalContext} (e : string * Order) : Prop :=
  e.1 = order_id e.2 /\ order_wf e.2 /\
  (terminal (status e.2) = false ->
   dec_fix (remaining_quantity e.2) == remaining_quantity e.2).

Record sim_wf `{DecimalContext} (s : Simulator) : Prop := {
  swf_config : config_wf (config s);
  swf_rules : Forall (fun e => rules_wf e.2) (sim_rules s);
  swf_keys : NoDup (dict_keys (orders s));
  swf_orders : Forall book_entry_wf (orders s);
  swf_fills : Forall fill_wf (fills s);
}.

(** The abstract life of an order: what the simulator may do to it. *)
Inductive order_step `{DecimalContext} : Order -> Order -> Prop :=
| step_reject r o : order_step o (reject r o)
| step_cancel r e o : order_step o (cancel r e o)
| step_fill q o o' : record_fill q o = Ok o' -> order_step o o'.

(** What [match] may do to the order it looks at besides filling it. *)
Inductive closes : Order -> Order -> Prop :=
| closes_not o : closes o o
| closes_cancel r e o : closes o (cancel r e o)
| closes_reject r o : closes o (reject r o).

(** The conditions under which an order can trade against a snapshot. *)
Definition eligible (snapshot : MarketSnapshot) (o : Order) : Prop :=
  terminal (status o) = false /\
  exchange o = ms_exchange snapshot /\ symbol o = ms_symbol snapshot /\
  (submitted_at o < ms_timestamp snapshot)%Z /\
  (forall e, expires_at o = Some e -> (ms_timestamp snapshot < e)%Z).

Lemma ExecutionModelConfig_post_init_wf c c' :
  ExecutionModelConfig_post_init c = Ok c' -> c' = c /\ config_wf c.
Proof.
  unfold ExecutionModelConfig_post_init, config_wf, ZERO. intros H. inv_guards H. inv_ok.
  decb. destruct_and?. rewrite Z.ltb_ge in *. split; [done|].
  dminmax; split_and!; try done; lra.
Qed.

Section MatchDetailsLemmas.
Context {C : DecimalContext} {L : DecimalLaws C}.

Lemma impact_bps_bounds cfg q depth :
  config_wf cfg -> 0 <= q ->
  0 <= impact_bps cfg q depth /\ impact_bps cfg q depth <= maximum_impact_bps cfg.
Proof.
  intros (_&_&_&_&_&Hc&Hm&_) Hq. unfold impact_bps, ZERO.
  destruct (depth <=? 0) eqn:E; decb; [lra|].
  assert (0 <= impact_coefficient_bps cfg ⊗
            dec_pow (q ⊘ depth) (Z.to_pos (impact_power cfg))).
  { apply dmul_nonneg; [done|]. apply dec_pow_nonneg. by apply ddiv_nonneg. }
  dminmax; lra.
Qed.

(** What a match of either kind guarantees about quantity and limit price. *)
Definition respects_limit (o : Order) (price : Decimal) : Prop :=
  match limit_price o with
  | None => True
  | Some l => match side o with BUY => price <= l | SELL => l <= price end
  end.

Lemma taker_details_spec cfg o snap r cap d :
  taker_details cfg o snap r cap = Ok (Some d) ->
  0 < md_quantity d /\ md_liquidity d = TAKER /\ respects_limit o (md_price d) /\
  exists avail, md_quantity d = quantize_quantity r (dmin cap avail).
Proof.
  unfold taker_details, respects_limit. intros H. case_hyp H; [discriminate|].
  inv_guards H. destruct (worse_than_limit _ _ _) eqn:Hw; [discriminate|].
  inv_ok. simpl. unfold ZERO in *. decb. split_and!; [done|done| |eauto].
  unfold worse_than_limit in Hw. destruct (limit_price o); [|done].
  destruct (side o); decb; done.
Qed.

Lemma maker_details_spec cfg o snap r cap d :
  maker_details cfg o snap r cap = Some d ->
  0 < md_quantity d /\ md_liquidity d = MAKER /\ limit_price o = Some (md_price d) /\
  passive_trade_reached o snap = true /\
  exists avail, md_quantity d = quantize_quantity r (dmin cap avail).
Proof.
  unfold maker_details. intros H. destruct (passive_trade_reached o snap) eqn:Hp;
    simpl in H; [|discriminate].
  destruct (limit_price o) as [p|]; [|discriminate].
  case_hyp H; [discriminate|]. inv_ok. simpl. unfold ZERO in *. decb. eauto 10.
Qed.

Lemma match_details_spec cfg o snap r cap o' d :
  match_details cfg o snap r cap = Ok (o', Some d) ->
  o' = o /\ 0 < md_quantity d /\ respects_limit o (md_price d) /\
  exists avail, md_quantity d = quantize_quantity r (dmin cap avail).
Proof.
  unfold match_details. intros H. case_hyp H; [discriminate|]. case_hyp H.
  - inv_guards H. injection H as <- ->.
    destruct (taker_details_spec _ _ _ _ _ _ Ev) as (?&?&?&?). done.
  - injection H as <- H.
    destruct (maker_details_spec _ _ _ _ _ _ H) as (?&?&El&?&?).
    split_and!; [done|done| |done]. unfold respects_limit. rewrite El.
    destruct (side o); lra.
Qed.

Lemma match_details_none cfg o snap r cap o' :
  match_details cfg o snap r cap = Ok (o', None) -> closes o o'.
Proof.
  unfold match_details. intros H. case_hyp H; [inv_ok; constructor|].
  case_hyp H; [inv_guards H|]; injection H as <- _; constructor.
Qed.

End MatchDetailsLemmas.

Lemma cancel_terminal r e o : terminal (status o) = true -> cancel r e o = o.
Proof. unfold cancel. by intros ->. Qed.

Lemma cancel_is_terminal r e o : terminal (status (cancel r e o)) = true.
Proof. unfold cancel. destruct (terminal (status o)) eqn:E; [done|]. by destruct e. Qed.

Lemma reject_is_terminal r o : terminal (status (reject r o)) = true.
Proof. unfold reject. destruct (terminal (status o)) eqn:E; done. Qed.

Lemma closes_then_cancel r e o o' : closes o o' -> closes o (cancel r e o').
Proof.
  intros [o1|r1 e1 o1|r1 o1].
  - constructor.
  - rewrite (cancel_terminal r e) by apply cancel_is_terminal. constructor.
  - rewrite (cancel_terminal r e) by apply reject_is_terminal. constructor.
Qed.

Lemma closes_order_id o o' : closes o o' -> order_id o' = order_id o.
Proof. intros []; [done|unfold cancel|unfold reject]; by case_goal. Qed.

Lemma closes_wf o o' : closes o o' -> order_wf o -> order_wf o'.
Proof. intros [] ?; auto using cancel_wf, reject_wf. Qed.

Lemma closes_remaining o o' : closes o o' -> remaining_quantity o' = remaining_quantity o.
Proof. intros []; [done|unfold cancel|unfold reject]; by case_goal. Qed.

Lemma closes_open o o' :
  closes o o' -> terminal (status o') = false -> o' = o.
Proof.
  intros [o1|r1 e1 o1|r1 o1] H; [done| |].
  - by rewrite cancel_is_terminal in H.
  - by rewrite reject_is_terminal in H.
Qed.

Section MatchOrderLemmas.
Context {C : DecimalContext} {L : DecimalLaws C} {P : Type}.
Variable quantity_cap : option (P -> Order -> Decimal).
Variable on_fill : option (Order -> Fill -> M P unit).

Lemma effective_cap_le p o : effective_cap quantity_cap p o <= remaining_quantity o.
Proof. unfold effective_cap. destruct quantity_cap; [dminmax; lra|lra]. Qed.

(** The three ways the loop body ends: the order is left alone or closed, the
    computation of the match raises, or the match is executed. *)
Inductive match_outcome (snap : MarketSnapshot) (r : InstrumentRules) (s : Simulator)
    (p : P) (o : Order) : (Simulator * P) * result (list Fill) -> Prop :=
| outcome_skip : match_outcome snap r s p o ((s, p), Ok [])
| outcome_close o' : closes o o' -> match_outcome snap r s p o ((store_order o' s, p), Ok [])
| outcome_error e : match_outcome snap r s p o ((s, p), Err e)
| outcome_execute d :
    eligible snap o -> 0 < effective_cap quantity_cap p o ->
    match_details (config s) o snap r (effective_cap quantity_cap p o) = Ok (o, Some d) ->
    (time_in_force o = FOK -> remaining_quantity o <= md_quantity d) ->
    match_outcome snap r s p o (execute_match on_fill o snap r d (s, p)).

Lemma match_order_outcome snap r oid s p o :
  dict_get oid (orders s) = Some o ->
  match_outcome snap r s p o (match_order quantity_cap on_fill snap r oid (s, p)).
Proof.
  intros Ho. unfold match_order. rewrite Ho.
  destruct (terminal (status o) || _ || _) eqn:Eg; [constructor|].
  destruct (ms_timestamp snap <=? submitted_at o)%Z eqn:Et; [constructor|].
  destruct (match expires_at o with Some e => _ | None => _ end) eqn:Ee;
    [repeat constructor|].
  destruct (effective_cap quantity_cap p o <=? ZERO) eqn:Ec;
    [destruct (reduce_only o); repeat constructor|].
  destruct ((filled_quantity o =? ZERO) && _) eqn:En; [repeat constructor|].
  destruct (match_details _ _ _ _ _) as [[o' [d|]]|e] eqn:Em; [| |constructor].
  - destruct (match_details_spec _ _ _ _ _ _ _ Em) as (-> & _).
    destruct (bool_decide (time_in_force o = FOK) && _) eqn:Ef; [repeat constructor|].
    unfold ZERO in *. decb. destruct_and?. rewrite Z.leb_gt in *.
    rewrite !bool_decide_eq_true in *.
    constructor; [split_and!; try done|done|done|].
    + intros x Hx. rewrite Hx in Ee. by apply Z.leb_gt.
    + intros Htif. rewrite bool_decide_eq_false in Ef. destruct Ef; [done|]. by decb.
  - apply match_details_none in Em. constructor.
    case_goal; [by apply closes_then_cancel|done].
Qed.

(** Executing a match: it raises before the order is touched, or the fill is
    recorded in the book whatever the consumer does afterwards. *)
Inductive execute_outcome (snap : MarketSnapshot) (r : InstrumentRules) (s : Simulator)
    (p : P) (o : Order) (d : MatchDetails)
  : (Simulator * P) * result (list Fill) -> Prop :=
| execute_error e : execute_outcome snap r s p o d ((bump_fill_sequence s, p), Err e)
| execute_fill fill o1 o2 p' res :
    fill = build_fill (fill_sequence s + 1) o snap r d -> fill_wf fill ->
    record_fill (md_quantity d) o = Ok o1 -> closes o1 o2 ->
    (res = Ok [fill] /\
       (time_in_force o = IOC -> terminal (status o2) = true \/
                                 remaining_quantity o1 <= 0)
     \/ exists e, res = Err e) ->
    execute_outcome snap r s p o d
      ((append_fill fill (store_order o2 (bump_fill_sequence s)), p'), res).

Lemma store_store o1 o2 s :
  order_id o1 = order_id o2 -> store_order o2 (store_order o1 s) = store_order o2 s.
Proof. intros E. unfold store_order. simpl. by rewrite E, dict_set_set. Qed.

Lemma record_fill_time_in_force q o o1 :
  record_fill q o = Ok o1 -> time_in_force o1 = time_in_force o /\ order_id o1 = order_id o.
Proof. rewrite record_fill_ok. by intros (_ & _ & _ & ->). Qed.

Lemma execute_match_outcome snap r s p o d :
  execute_outcome snap r s p o d (execute_match on_fill o snap r d (s, p)).
Proof.
  unfold execute_match, make_fill. cbv zeta.
  destruct (Fill_post_init _) as [fill|e] eqn:Ef; [|constructor].
  apply Fill_post_init_wf in Ef as [-> Hwf].
  destruct (record_fill _ o) as [o1|e] eqn:Er; [|constructor].
  destruct (record_fill_time_in_force _ _ _ Er) as [Htif _].
  match goal with |- context [match on_fill with Some _ => _ | None => _ end] =>
    destruct (match on_fill with None => _ | Some k => _ end) as [p' [u|e]] end.
  - case_goal.
    + change (store_order ?o2 (append_fill ?f ?s1))
        with (append_fill f (store_order o2 s1)).
      rewrite store_store by (symmetry; apply (closes_order_id o1); constructor).
      eapply execute_fill; eauto using closes. left. split; [done|]. intros _. left.
      apply cancel_is_terminal.
    + eapply execute_fill; eauto using closes. left. split; [done|]. intros Hi. right.
      rewrite <- Htif in Hi. rewrite bool_decide_true in Heqb by done. simpl in Heqb. by apply dltb_ge in Heqb.
  - eapply execute_fill; eauto using closes.
Qed.

(** ** The invariant is preserved *)

Lemma store_order_wf s o :
  sim_wf s -> book_entry_wf (order_id o, o) -> sim_wf (store_order o s).
Proof.
  intros [? ? ? ? ?] Ho. constructor; simpl; auto using dict_set_NoDup, dict_set_Forall.
Qed.

Lemma bump_wf s : sim_wf s -> sim_wf (bump_fill_sequence s).
Proof. intros []. by constructor. Qed.

Lemma append_fill_wf s f : sim_wf s -> fill_wf f -> sim_wf (append_fill f s).
Proof.
  intros [] ?. constructor; simpl; auto. apply Forall_app. auto.
Qed.

Lemma book_entry_closes o o' :
  closes o o' -> book_entry_wf (order_id o, o) -> book_entry_wf (order_id o', o').
Proof.
  intros Hc (_ & Hwf & Hrep). split_and!; [done|by eapply closes_wf|]. simpl in *.
  intros Ht. rewrite (closes_remaining _ _ Hc). apply Hrep.
  by rewrite (closes_open _ _ Hc Ht) in Ht.
Qed.

Lemma match_order_wf snap r oid s p :
  sim_wf s -> sim_wf (match_order quantity_cap on_fill snap r oid (s, p)).1.1.
Proof.
  intros Hs. destruct (dict_get oid (orders s)) as [o|] eqn:Ho;
    [|unfold match_order; by rewrite Ho].
  pose proof (dict_get_Forall _ _ _ _ (swf_orders _ Hs) Ho) as Hb.
  assert (book_entry_wf (order_id o, o)) as Hb' by (destruct Hb as (? & ? & ?); done).
  destruct (match_order_outcome snap r oid s p o Ho) as [|o' Hc|e|d He Hcap Hd Hfok];
    [done| |done|].
  - apply store_order_wf; [done|]. by eapply book_entry_closes.
  - destruct (execute_match_outcome snap r s p o d) as [e|f o1 o2 p' res -> Hf Hr Hc _];
      simpl; [by apply bump_wf|].
    destruct He as (Hopen & _). destruct Hb' as (_ & Hwf & Hrep).
    destruct (record_fill_wf _ _ _ Hwf (Hrep Hopen) Hr) as (Hwf1 & Hrep1 & _).
    apply append_fill_wf; [|done]. apply store_order_wf; [by apply bump_wf|].
    eapply book_entry_closes; [done|]. done.
Qed.

Lemma match_loop_wf snap r ids produced s p :
  sim_wf s -> sim_wf (match_loop quantity_cap on_fill snap r ids produced (s, p)).1.1.
Proof.
  revert produced s p. induction ids as [|oid ids IH]; intros produced s p Hs; [done|].
  simpl. unfold pbind. pose proof (match_order_wf snap r oid s p Hs) as H.
  destruct (match_order _ _ _ _ _ _) as [[s1 p1] [fs|e]]; simpl in *; [by apply IH|done].
Qed.

Lemma match_snapshot_wf snap s p :
  sim_wf s -> sim_wf (match_snapshot snap quantity_cap on_fill (s, p)).1.1.
Proof. intros Hs. unfold match_snapshot. case_goal; [by apply match_loop_wf|done]. Qed.

(** ** What a produced fill says about the order it fills *)

Definition fill_sound (snap : MarketSnapshot) (s : Simulator) (f : Fill) : Prop :=
  exists o, dict_get (f_order_id f) (orders s) = Some o /\ eligible snap o /\
    fill_wf f /\ filled_at f = ms_timestamp snap /\
    f_side f = side o /\ f_signal_at f = signal_at o /\ f_submitted_at f = submitted_at o /\
    f_exchange f = exchange o /\ f_symbol f = symbol o /\
    0 < f_quantity f /\ f_quantity f <= remaining_quantity o /\
    respects_limit o (f_price f) /\
    (time_in_force o = FOK -> f_quantity f == remaining_quantity o).

(** Every order of the book after an operation stems from the order stored
    under the same id before it, by steps of the order's life. *)
Definition orders_evolve (s s' : Simulator) : Prop :=
  forall k, match dict_get k (orders s), dict_get k (orders s') with
            | Some o, Some o' => rtc order_step o o'
            | None, None => True
            | _, _ => False
            end.

(** One iteration: the fills it appends, the frame and the evolution. *)
Lemma match_order_step snap r oid s p s' p' res :
  sim_wf s -> match_order quantity_cap on_fill snap r oid (s, p) = ((s', p'), res) ->
  (forall k, k <> oid -> dict_get k (orders s') = dict_get k (orders s)) /\
  orders_evolve s s' /\
  exists new, fills s' = fills s ++ new /\ Forall (fill_sound snap s) new /\
    Forall (fun f => f_order_id f = oid) new /\ (length new <= 1)%nat /\
    (forall fs, res = Ok fs -> fs = new).
Proof.
  intros Hs Hm. destruct (dict_get oid (orders s)) as [o|] eqn:Ho.
  2: { unfold match_order in Hm. rewrite Ho in Hm. inv_ok. split_and!; [done| |].
       - intros k. by destruct (dict_get k (orders s')).
       - exists []. rewrite app_nil_r. split_and!; auto. by intros fs [= <-]. }
  destruct (dict_get_Forall _ _ _ _ (swf_orders _ Hs) Ho) as (Hid & Hwf & _).
  simpl in Hid. subst oid.
  assert (forall o' k, order_id o' = order_id o -> k <> order_id o ->
            dict_get k (orders (store_order o' s)) = dict_get k (orders s)) as Hframe.
  { intros o' k E Hk. simpl. rewrite E. by apply dict_get_set_ne. }
  assert (forall o', order_id o' = order_id o -> rtc order_step o o' ->
            orders_evolve s (store_order o' s)) as Hevolve.
  { intros o' E Hst k. simpl. rewrite E. destruct (decide (k = order_id o)) as [->|Hk].
    - by rewrite Ho, dict_get_set_eq.
    - rewrite dict_get_set_ne by done. by destruct (dict_get k (orders s)). }
  assert (orders_evolve s s) as Hrefl by (intros k; by destruct (dict_get k (orders s))).
  assert (forall o', closes o o' -> rtc order_step o o') as Hcl.
  { intros o' []; [constructor|apply rtc_once..]; constructor. }
  revert Hm. destruct (match_order_outcome snap r (order_id o) s p o Ho)
    as [|o' Hc|e|d He Hcap Hd Hfok].
  - intros [= <- <- <-]. split_and!; [done|done|]. exists []. rewrite app_nil_r.
    split_and!; auto. by intros fs [= <-].
  - intros [= <- <- <-]. pose proof (closes_order_id _ _ Hc). split_and!; [by auto|by auto|].
    exists []. simpl. rewrite app_nil_r. split_and!; auto. by intros fs [= <-].
  - intros [= <- <- <-]. split_and!; [done|done|]. exists []. rewrite app_nil_r.
    split_and!; auto. by intros fs [=].
  - destruct (execute_match_outcome snap r s p o d) as [e|f o1 o2 p2 res2 -> Hfwf Hr Hc Hres].
    + intros [= <- <- <-]. split_and!; [done|done|]. exists []. simpl. rewrite app_nil_r.
      split_and!; auto. by intros fs [=].
    + intros [= <- <- <-].
      destruct (record_fill_time_in_force _ _ _ Hr) as [_ Hid1].
      pose proof (closes_order_id _ _ Hc) as Hid2.
      assert (order_id o2 = order_id o) as Hid by congruence.
      split_and!; [intros k Hk; by apply (Hframe o2)|apply (Hevolve o2 Hid)|].
      * apply rtc_l with o1; [by econstructor|].
        destruct Hc; [apply rtc_refl|apply rtc_once..]; constructor.
      * eexists [_]. simpl. split_and!; [done| |by repeat constructor|done|].
        -- constructor; [|done]. exists o.
           destruct (match_details_spec _ _ _ _ _ _ _ Hd) as (_ & Hq & Hl & _).
           apply record_fill_ok in Hr as (_ & _ & Hle & _).
           simpl. split_and!; try done. intros HF. specialize (Hfok HF). lra.
        -- destruct Hres as [[-> _]|[e ->]]; intros fs [=]; congruence.
Qed.

Lemma orders_evolve_trans s1 s2 s3 :
  orders_evolve s1 s2 -> orders_evolve s2 s3 -> orders_evolve s1 s3.
Proof.
  intros H1 H2 k. specialize (H1 k). specialize (H2 k).
  destruct (dict_get k (orders s1)), (dict_get k (orders s2)), (dict_get k (orders s3));
    try done. by etransitivity.
Qed.

Lemma match_loop_step snap r ids produced s p s' p' res :
  NoDup ids -> sim_wf s ->
  match_loop quantity_cap on_fill snap r ids produced (s, p) = ((s', p'), res) ->
  orders_evolve s s' /\
  exists new, fills s' = fills s ++ new /\ Forall (fill_sound snap s) new /\
    map f_order_id new `sublist_of` ids /\
    (forall fs, res = Ok fs -> fs = produced ++ new).
Proof.
  intros Hnd. revert produced s p. induction Hnd as [|oid ids Hni Hnd IH];
    intros produced s p Hs Hm.
  - simpl in Hm. unfold pret in Hm. inv_ok. split.
    + intros k. by destruct (dict_get k (orders s')).
    + exists []. rewrite !app_nil_r. split_and!; auto. by intros fs [= <-].
  - simpl in Hm. unfold pbind in Hm.
    pose proof (match_order_wf snap r oid s p Hs) as Hwf1.
    destruct (match_order _ _ _ _ _ _) as [[s1 p1] res1] eqn:E1. simpl in Hwf1.
    destruct (match_order_step _ _ _ _ _ _ _ _ Hs E1)
      as (Hframe & Hev & new1 & Hf1 & Hs1 & Hid1 & Hlen & Hres1).
    assert (map f_order_id new1 `sublist_of` [oid]) as Hsub1.
    { destruct new1 as [|f [|? ?]]; simpl in *; [apply sublist_nil_l| |lia].
      apply Forall_cons in Hid1 as [-> _]. done. }
    destruct res1 as [fs1|e].
    + rewrite (Hres1 _ eq_refl) in Hm.
      destruct (IH _ _ _ Hwf1 Hm) as (Hev2 & new2 & Hf2 & Hs2 & Hsub2 & Hres2).
      split; [by eapply orders_evolve_trans|]. exists (new1 ++ new2).
      split_and!.
      * by rewrite Hf2, Hf1, (assoc_L (++)).
      * apply Forall_app. split; [done|].
        apply Forall_forall. intros f Hf.
        assert (f_order_id f ∈ ids) as Hin.
        { eapply elem_of_submseteq; [by apply list_elem_of_fmap_2|].
          by apply sublist_submseteq. }
        rewrite Forall_forall in Hs2. destruct (Hs2 f Hf) as (o & Ho & Hrest).
        exists o. rewrite <- Hframe; [done|]. by intros <-.
      * rewrite map_app. by apply (sublist_app _ [oid]).
      * intros fs Hfs. rewrite (Hres2 _ Hfs). by rewrite (assoc_L (++)).
    + injection Hm as <- <- <-. split; [done|]. exists new1. split_and!; try done.
      by apply (sublist_inserts_r ids _ [oid]).
Qed.

End MatchOrderLemmas.

(** ** What the fill consumer sees

    A property [Q] of the fills of the book and the consumer's state, kept by
    every successful call of the consumer, holds after a successful match; when
    the match raises, a weaker property [R] holds, and the exception satisfies
    [X] if the consumer's exceptions do and every [ValueError] does. *)

Lemma Fill_post_init_error f : raises_value_error (Fill_post_init f).
Proof. unfold Fill_post_init. value_errors. Qed.

Section Consumer.
Context {C : DecimalContext} {P : Type}.
Variable quantity_cap : option (P -> Order -> Decimal).
Variable on_fill : Order -> Fill -> M P unit.
Variable snap : MarketSnapshot.
Variables (Q R : list Fill -> P -> Prop) (X : exn -> Prop).
Hypothesis Q_R : forall fs p, Q fs p -> R fs p.
Hypothesis X_value_error : forall m, X (ValueError m).
Hypothesis on_fill_step : forall o f fs p,
  fill_wf f -> f_exchange f = ms_exchange snap -> f_symbol f = ms_symbol snap -> Q fs p ->
  match on_fill o f p with
  | (p', Ok _) => Q (fs ++ [f]) p'
  | (p', Err e) => R (fs ++ [f]) p' /\ X e
  end.

Definition consumer_ok {A} (out : (Simulator * P) * result A) : Prop :=
  match out with
  | ((s', p'), Ok _) => Q (fills s') p'
  | ((s', p'), Err e) => R (fills s') p' /\ X e
  end.

Lemma record_fill_error q o : raises_value_error (record_fill q o).
Proof. unfold record_fill. value_errors. Qed.

Lemma match_details_error cfg o r c : raises_value_error (match_details cfg o snap r c).
Proof.
  unfold match_details, taker_details, quantize_execution_price. value_errors.
Qed.

Lemma value_error_X {A} (r : result A) e : raises_value_error r -> r = Err e -> X e.
Proof. intros H ->. destruct H as [m ->]. auto. Qed.

Lemma execute_match_consumer r o d s p :
  exchange o = ms_exchange snap -> symbol o = ms_symbol snap -> Q (fills s) p ->
  consumer_ok (execute_match (Some on_fill) o snap r d (s, p)).
Proof.
  intros He Hsy Hq. unfold execute_match, make_fill. cbv zeta.
  destruct (Fill_post_init _) as [f|e] eqn:Ef.
  2: { split; [by apply Q_R|]. eapply value_error_X; [|done]. apply Fill_post_init_error. }
  apply Fill_post_init_wf in Ef as [-> Hf].
  destruct (record_fill _ o) as [o1|e] eqn:Er.
  2: { split; [by apply Q_R|]. eapply value_error_X; [|done]. apply record_fill_error. }
  match goal with |- context [on_fill o1 ?f p] =>
    pose proof (on_fill_step o1 f (fills s) p Hf He Hsy Hq) as H;
    destruct (on_fill o1 f p) as [p' [u|e]] end; [|done].
  by case_goal.
Qed.

Lemma match_order_consumer r oid s p :
  Q (fills s) p -> consumer_ok (match_order quantity_cap (Some on_fill) snap r oid (s, p)).
Proof.
  intros Hq. unfold match_order. destruct (dict_get oid (orders s)) as [o|]; [|done].
  destruct (terminal (status o) || _ || _) eqn:Eg; [done|].
  destruct (ms_timestamp snap <=? submitted_at o)%Z; [done|].
  destruct (match expires_at o with Some e => _ | None => _ end); [done|].
  destruct (effective_cap quantity_cap p o <=? ZERO); [by destruct (reduce_only o)|].
  destruct ((filled_quantity o =? ZERO) && _); [done|].
  destruct (match_details _ _ _ _ _) as [[o' [d|]]|e] eqn:Em.
  - case_goal; [done|]. destruct (match_details_spec _ _ _ _ _ _ _ Em) as (-> & _).
    decb. destruct_and?. rewrite !bool_decide_eq_true in *. by apply execute_match_consumer.
  - done.
  - split; [by apply Q_R|]. eapply value_error_X; [|done]. apply match_details_error.
Qed.

Lemma match_loop_consumer r ids produced s p :
  Q (fills s) p ->
  consumer_ok (match_loop quantity_cap (Some on_fill) snap r ids produced (s, p)).
Proof.
  revert produced s p. induction ids as [|oid ids IH]; intros produced s p Hq; [done|].
  simpl. unfold pbind. pose proof (match_order_consumer r oid s p Hq) as H.
  destruct (match_order _ _ _ _ _ _) as [[s1 p1] [fs|e]]; [by apply IH|done].
Qed.

Lemma match_snapshot_consumer s p :
  Q (fills s) p ->
  consumer_ok (match_snapshot snap quantity_cap (Some on_fill) (s, p)).
Proof. intros Hq. unfold match_snapshot. case_goal; [by apply match_loop_consumer|done]. Qed.

End Consumer.

(** ** What matching leaves alone: the rules, and which signal each order is for *)

Definition book_signals (s : Simulator) : list (string * string) :=
  map (fun e => (e.1, signal_id e.2)) (orders s).

Lemma dict_set_map_fst {K V W} `{EqDecision K} (g : V -> W) k v v' (d : list (K * V)) :
  dict_get k d = Some v -> g v' = g v ->
  map (fun e => (e.1, g e.2)) (dict_set k v' d) = map (fun e => (e.1, g e.2)) d.
Proof.
  intros Hk Hg. induction d as [|[k2 v2] d IH]; [done|]. simpl in *.
  case_decide; simplify_eq; simpl; [by rewrite Hg|]. by rewrite IH.
Qed.

Definition same_frame (s s' : Simulator) : Prop :=
  sim_rules s' = sim_rules s /\ book_signals s' = book_signals s.

Lemma store_order_frame s o o' :
  dict_get (order_id o') (orders s) = Some o -> signal_id o' = signal_id o ->
  same_frame s (store_order o' s).
Proof. intros Ho Hs. split; [done|]. by apply (dict_set_map_fst signal_id _ o). Qed.

Lemma closes_signal o o' : closes o o' -> signal_id o' = signal_id o.
Proof. intros []; [done|unfold cancel|unfold reject]; by case_goal. Qed.

Section MatchFrame.
Context {C : DecimalContext} {L : DecimalLaws C} {P : Type}.
Variable quantity_cap : option (P -> Order -> Decimal).
Variable on_fill : option (Order -> Fill -> M P unit).

Lemma match_order_frame snap r oid s p :
  sim_wf s -> same_frame s (match_order quantity_cap on_fill snap r oid (s, p)).1.1.
Proof.
  intros Hs. destruct (dict_get oid (orders s)) as [o|] eqn:Ho;
    [|unfold match_order; by rewrite Ho].
  destruct (dict_get_Forall _ _ _ _ (swf_orders _ Hs) Ho) as (Hid & _). simpl in Hid. subst oid.
  destruct (match_order_outcome quantity_cap on_fill snap r (order_id o) s p o Ho)
    as [|o' Hc|e|d He Hcap Hd Hfok]; [done| |done|].
  - apply (store_order_frame s o); [|by apply closes_signal].
    by rewrite (closes_order_id _ _ Hc).
  - destruct (execute_match_outcome on_fill snap r s p o d)
      as [e|f o1 o2 p' res -> Hf Hr Hc _]; [done|].
    apply record_fill_ok in Hr as (_ & _ & _ & E).
    assert (order_id o1 = order_id o /\ signal_id o1 = signal_id o) as [Hi Hg] by (by subst o1).
    apply (store_order_frame s o); [by rewrite (closes_order_id _ _ Hc), Hi|].
    by rewrite (closes_signal _ _ Hc), Hg.
Qed.

Lemma match_snapshot_frame snap s p :
  sim_wf s -> same_frame s (match_snapshot snap quantity_cap on_fill (s, p)).1.1.
Proof.
  intros Hs. unfold match_snapshot. destruct (dict_get _ (sim_rules s)) as [r|]; [|done].
  generalize (map order_id (candidates s)) as ids, (@nil Fill) as produced. intros ids.
  revert s p Hs. induction ids as [|oid ids IH]; intros s p Hs produced; [done|].
  simpl. unfold pbind. pose proof (match_order_frame snap r oid s p Hs) as [Hr Hb].
  pose proof (match_order_wf quantity_cap on_fill snap r oid s p Hs) as Hwf.
  destruct (match_order _ _ _ _ _ _) as [[s1 p1] [fs|e]]; simpl in *; [|done].
  destruct (IH s1 p1 Hwf (produced ++ fs)) as [Hr2 Hb2]. split; congruence.
Qed.

End MatchFrame.

(** ** Submission and cancellation *)

Section SubmitLemmas.
Context {C : DecimalContext} {L : DecimalLaws C}.

Lemma dict_set_map_entries (f : Order -> Order) (d : list (string * Order)) :
  dict_keys (map (fun '(k, o) => (k, f o)) d) = dict_keys d.
Proof.
  unfold dict_keys. induction d as [|[k o] d IH]; [done|]. apply (f_equal (cons k)), IH.
Qed.

Lemma cancel_all_wf r s : sim_wf s -> sim_wf (cancel_all r s).
Proof.
  intros [? ? Hk Ho ?]. constructor; simpl; auto; [by rewrite dict_set_map_entries|].
  clear Hk. induction Ho as [|[k o] d Hb Hd IH]; simpl; constructor; [|done].
  destruct Hb as (Hid & Hwf & Hrep). simpl in *. subst k.
  pose proof (book_entry_closes o _ (closes_cancel r false o)) as H.
  rewrite (closes_order_id _ _ (closes_cancel r false o)) in H. by apply H.
Qed.

(** The order after lot and tick normalization. *)
Lemma normalized_wf r o lp :
  rules_wf r -> order_wf o -> status o = CREATED ->
  0 < quantize_quantity r (quantity o) ->
  (lp = None <-> limit_price o = None) ->
  match lp with Some p => 0 <= p | None => True end ->
  let q := quantize_quantity r (quantity o) in
  order_wf (set_quantities q q lp o) /\ dec_fix q == q.
Proof.
  intros Hr [? ? ? ? ? Hl ? ?] Hst Hq Hlp Hp q. split; [|by apply quantize_quantity_repr].
  constructor; simpl; try done.
  - split; [|lra]. by apply Qlt_le_weak.
  - rewrite Hst. split; [done|]. intros. unfold q in *. lra.
  - by rewrite Hlp.
Qed.

Lemma set_status_submitted_wf o :
  order_wf o -> status o = CREATED -> order_wf (set_status SUBMITTED (rejection_reason o) o).
Proof.
  intros [? ? ? ? Hf ? ? ?] Hst. constructor; simpl; try done.
  rewrite <- Hf, Hst. done.
Qed.

Lemma quantize_limit_price_nonneg r p sd l :
  rules_wf r -> quantize_limit_price r p sd = Ok l -> 0 <= l.
Proof.
  intros (Ht & _). unfold quantize_limit_price. intros H. inv_guards H. inv_ok.
  unfold ZERO in *. decb.
  assert (0 < p ⊘ tick_size r) as Hq by (by apply ddiv_pos).
  destruct (to_integral_down_nonneg (p ⊘ tick_size r)) as (n & Hn & En & _); [lra|].
  pose proof (to_integral_up_ge (p ⊘ tick_size r) (Qlt_le_weak _ _ Hq)).
  assert (0 <= inject_Z n) by (by rewrite Zle_Qle in Hn).
  destruct sd; rewrite ?En; apply dmul_nonneg; lra.
Qed.

Lemma submit_wf o s :
  sim_wf s -> order_wf o -> status o = CREATED -> remaining_quantity o = quantity o ->
  sim_wf (submit o s).1.
Proof.
  intros Hs Ho Hst Hrem. unfold submit. case_goal; [done|].
  assert (forall r, sim_wf (store_order (reject r o) s)) as Hrej.
  { intros r. apply store_order_wf; [done|]. split_and!; [done|by apply reject_wf|].
    simpl. by rewrite reject_is_terminal. }
  destruct (dict_get _ (sim_rules s)) as [r|] eqn:Er; [|apply Hrej].
  pose proof (dict_get_Forall _ _ _ _ (swf_rules _ Hs) Er) as Hr. simpl in Hr.
  destruct (quantize_quantity r (quantity o) <=? ZERO) eqn:Eq; [apply Hrej|].
  unfold ZERO in Eq. decb.
  assert (forall lp, (lp = None <-> limit_price o = None) ->
            match lp with Some p => 0 <= p | None => True end ->
            let o' := set_quantities (quantize_quantity r (quantity o))
                        (quantize_quantity r (quantity o)) lp o in
            book_entry_wf (order_id o', o')) as Hn.
  { intros lp H1 H2 o'. destruct (normalized_wf r o lp) as [? ?]; try done. }
  assert (forall lp, (lp = None <-> limit_price o = None) ->
            match lp with Some p => 0 <= p | None => True end ->
            let o' := set_quantities (quantize_quantity r (quantity o))
                        (quantize_quantity r (quantity o)) lp o in
            sim_wf (if post_only o' && negb (bool_decide (order_type o' = LIMIT))
                    then (store_order (reject "post-only requires a limit order" o') s, Ok o')
                    else (store_order (set_status SUBMITTED (rejection_reason o') o') s,
                          Ok o')).1) as Hfin.
  { intros lp H1 H2 o'. destruct (Hn lp H1 H2) as (_ & Hwf & Hrep).
    case_goal; cbn [fst]; (apply store_order_wf; [done|]); (split; [done|]); split;
      cbn [snd] in *.
    - by apply reject_wf.
    - by rewrite reject_is_terminal.
    - by apply set_status_submitted_wf.
    - intros _. apply Hrep. simpl. by rewrite Hst. }
  destruct (limit_price o) as [p|] eqn:Elp.
  - destruct (quantize_limit_price r p (side o)) as [l|e] eqn:El.
    + pose proof (quantize_limit_price_nonneg _ _ _ _ Hr El).
      specialize (Hfin (Some l) ltac:(by split) ltac:(done)). simpl in Hfin |- *.
      revert Hfin. by case_goal.
    + apply store_order_wf; [done|]. apply Hn; [by split|].
      destruct Ho as [_ _ _ _ _ _ Hp _]. by rewrite Elp in Hp.
  - specialize (Hfin None ltac:(done) ltac:(done)). simpl in Hfin |- *.
    revert Hfin. by case_goal.
Qed.

End SubmitLemmas.

(** ** Conservation of quantity

    In a context without rounding, the fills of an order and its remaining
    quantity add up to its quantity. *)

Fixpoint filled_total (k : string) (fs : list Fill) : Q :=
  match fs with
  | [] => 0
  | f :: fs => (if decide (f_order_id f = k) then f_quantity f else 0) + filled_total k fs
  end.

Record conserved (s : Simulator) : Prop := {
  cons_total : forall k o, dict_get k (orders s) = Some o ->
    filled_total k (fills s) + remaining_quantity o == quantity o;
  cons_known : forall k, dict_get k (orders s) = None -> filled_total k (fills s) == 0;
}.

Lemma filled_total_app k fs gs :
  filled_total k (fs ++ gs) == filled_total k fs + filled_total k gs.
Proof. induction fs as [|f fs IH]; simpl; [lra|]. rewrite IH. lra. Qed.

Section Conservation.
Context {C : DecimalContext} {L : DecimalLaws C} {E : ExactContext C} {P : Type}.
Variable quantity_cap : option (P -> Order -> Decimal).
Variable on_fill : option (Order -> Fill -> M P unit).

Lemma closes_quantity o o' : closes o o' -> quantity o' = quantity o.
Proof. intros []; [done|unfold cancel|unfold reject]; by case_goal. Qed.

(** Replacing the order under its id by one with the same balance. *)
Lemma conserved_store s o o' :
  conserved s -> dict_get (order_id o') (orders s) = Some o ->
  remaining_quantity o' = remaining_quantity o -> quantity o' = quantity o ->
  conserved (store_order o' s).
Proof.
  intros [Ht Hk] Ho Hr Hq. constructor; simpl; intros k.
  - intros o2. destruct (decide (k = order_id o')) as [->|Hne].
    + rewrite dict_get_set_eq. intros [= <-]. rewrite Hr, Hq. by apply Ht.
    + rewrite dict_get_set_ne by done. apply Ht.
  - destruct (decide (k = order_id o')) as [->|Hne].
    + by rewrite dict_get_set_eq.
    + rewrite dict_get_set_ne by done. apply Hk.
Qed.

Lemma match_order_conserved snap r oid s p :
  sim_wf s -> conserved s ->
  conserved (match_order quantity_cap on_fill snap r oid (s, p)).1.1.
Proof.
  intros Hs Hc. destruct (dict_get oid (orders s)) as [o|] eqn:Ho;
    [|unfold match_order; by rewrite Ho].
  destruct (dict_get_Forall _ _ _ _ (swf_orders _ Hs) Ho) as (Hid & _). simpl in Hid. subst oid.
  destruct (match_order_outcome quantity_cap on_fill snap r _ s p o Ho)
    as [|o' Hcl|e|d He Hcap Hd Hfok]; [done| |done|].
  - cbn [fst]. eapply conserved_store; [done|by rewrite (closes_order_id _ _ Hcl)|..].
    + by apply closes_remaining.
    + by apply closes_quantity.
  - destruct (execute_match_outcome on_fill snap r s p o d)
      as [e|f o1 o2 p' res -> Hf Hr Hcl _]; cbn [fst]; [by destruct Hc|].
    pose proof (closes_order_id _ _ Hcl) as Hid2.
    pose proof (closes_remaining _ _ Hcl) as Hrem. pose proof (closes_quantity _ _ Hcl) as Hq2.
    apply record_fill_ok in Hr as (_ & _ & _ & ->). simpl in Hid2, Hrem, Hq2.
    destruct Hc as [Ht Hk].
    constructor; simpl; intros k; rewrite Hid2; setoid_rewrite filled_total_app; simpl.
    + intros o3. destruct (decide (k = order_id o)) as [->|Hne].
      * rewrite dict_get_set_eq, decide_True by done. intros [= <-].
        rewrite Hrem, Hq2. dexact. specialize (Ht _ _ Ho). lra.
      * rewrite dict_get_set_ne, decide_False by done. intros H3. specialize (Ht _ _ H3). lra.
    + destruct (decide (k = order_id o)) as [->|Hne].
      * by rewrite dict_get_set_eq.
      * rewrite dict_get_set_ne, decide_False by done. intros H3. specialize (Hk _ H3). lra.
Qed.

Lemma match_loop_conserved snap r ids produced s p :
  sim_wf s -> conserved s ->
  conserved (match_loop quantity_cap on_fill snap r ids produced (s, p)).1.1.
Proof.
  revert produced s p. induction ids as [|oid ids IH]; intros produced s p Hs Hc; [done|].
  simpl. unfold pbind. pose proof (match_order_wf quantity_cap on_fill snap r oid s p Hs) as H1.
  pose proof (match_order_conserved snap r oid s p Hs Hc) as H2.
  destruct (match_order _ _ _ _ _ _) as [[s1 p1] [fs|e]]; simpl in *; [by apply IH|done].
Qed.

End Conservation.

(** ** Taker prices *)

Section TakerPrices.
Context {C : DecimalContext} {L : DecimalLaws C}.

(** An amount that is [n] steps of a grid, with [n] a value of the context,
    is a bound that rounding to the grid cannot cross. *)
Lemma grid_up_ge step n x top :
  0 < step -> top == inject_Z n * step -> dec_fix top == top ->
  dec_fix (inject_Z n) == inject_Z n -> 0 < top -> top <= x ->
  top <= to_integral_up (x ⊘ step) ⊗ step.
Proof.
  intros Hs Ht Hrep Hn Hp Hx. apply dec_fix_ge_repr; [done|].
  assert (inject_Z n <= x ⊘ step) as Hq.
  { apply dec_fix_ge_repr; [done|]. apply Qle_shift_div_l; [done|]. lra. }
  assert (0 < x ⊘ step) as Hd by (apply ddiv_pos; lra).
  pose proof (to_integral_up_ge (x ⊘ step) (Qlt_le_weak _ _ Hd)). rewrite Ht. nra.
Qed.

Lemma grid_down_le step n x top :
  0 < step -> top == inject_Z n * step -> dec_fix top == top ->
  dec_fix (inject_Z n) == inject_Z n -> 0 < x -> x <= top ->
  to_integral_down (x ⊘ step) ⊗ step <= top.
Proof.
  intros Hs Ht Hrep Hn Hp Hx. apply dec_fix_le_repr; [done|].
  assert (x ⊘ step <= inject_Z n) as Hq.
  { apply dec_fix_le_repr; [done|]. apply Qle_shift_div_r; [done|]. lra. }
  assert (0 < x ⊘ step) as Hd by (apply ddiv_pos; lra).
  destruct (to_integral_down_nonneg (x ⊘ step) (Qlt_le_weak _ _ Hd)) as (m & _ & -> & Hm).
  rewrite Ht. nra.
Qed.

(** The touch price of the side an order takes from. *)
Definition touch (sd : Side) (snap : MarketSnapshot) : Decimal :=
  match sd with BUY => ask snap | SELL => bid snap end.

Lemma taker_price_adverse_aux cfg o snap r cap d n :
  config_wf cfg -> rules_wf r -> snapshot_wf snap ->
  taker_details cfg o snap r cap = Ok (Some d) ->
  let top := touch (side o) snap in
  top == inject_Z n * tick_size r -> dec_fix top == top ->
  dec_fix (inject_Z n) == inject_Z n ->
  match side o with BUY => top <= md_price d | SELL => md_price d <= top end.
Proof.
  intros Hc Hr (Hb & Ha & _) Hd top Htop Hrep Hn. pose proof Hc as (_&_&_&_&Hslip&_).
  unfold taker_details in Hd. case_hyp Hd; [discriminate|]. unfold ZERO in *. decb.
  match type of Hd with context [impact_bps cfg ?q ?depth] =>
    pose proof (impact_bps_bounds cfg q depth Hc ltac:(lra)) as [Hi _];
    set (ib := impact_bps cfg q depth) in * end.
  assert (0 <= (slippage_bps cfg ⊘ BPS) ⊕ (ib ⊘ BPS)) as Hrate.
  { apply dadd_nonneg; apply ddiv_nonneg; try done; unfold BPS; lra. }
  set (rate := (slippage_bps cfg ⊘ BPS) ⊕ (ib ⊘ BPS)) in *.
  destruct Hr as (Htick & _). inv_guards Hd. case_hyp Hd; [discriminate|]. inv_ok. cbn [md_price].
  unfold quantize_execution_price in Ev. inv_guards Ev. injection Ev as <-.
  unfold ZERO in *. decb. unfold touch in top. destruct (side o).
  - apply (grid_up_ge _ n); try done; [unfold top; lra|].
    apply dec_fix_ge_repr; [done|].
    assert (1 <= 1 ⊕ 1 ⊗ rate) as H1.
    { apply dec_fix_ge_repr; [apply dec_fix_one|].
      assert (0 <= 1 ⊗ rate) by (apply dmul_nonneg; lra). lra. }
    unfold top. nra.
  - apply (grid_down_le _ n); try done.
    apply dec_fix_le_repr; [done|].
    assert (1 ⊕ -1 ⊗ rate <= 1) as H1.
    { apply dec_fix_le_repr; [apply dec_fix_one|].
      assert (-1 ⊗ rate <= 0) by (apply dec_fix_nonpos; lra). lra. }
    unfold top. nra.
Qed.

End TakerPrices.

(** ** A concrete book, used to exercise the theorems *)

Local Open Scope string_scope.

Definition sample_rules : InstrumentRules := {|
  tick_size := 1 # 10; lot_size := 1 # 1000; minimum_notional := 10;
  maker_fee_rate := 2 # 10000; taker_fee_rate := 6 # 10000;
  maintenance_margin_rate := 5 # 1000 |}.

Definition sample_key : InstrumentKey := ("hyperliquid", "BTC").

Definition sample_snapshot : MarketSnapshot := {|
  ms_exchange := "hyperliquid"; ms_symbol := "BTC"; ms_timestamp := 2000;
  bid := 100; ask := 1001 # 10; bid_quantity := 50; ask_quantity := 40;
  last_price := Some 100; trade_quantity := Some 20; ms_mark_price := None |}.

Definition sample_order : Order := {|
  order_id := "order-000000000001"; signal_id := "s1"; exchange := "hyperliquid";
  symbol := "BTC"; side := BUY; quantity := 5; order_type := LIMIT;
  time_in_force := GTC; signal_at := 900; created_at := 950; submitted_at := 1000;
  limit_price := Some 101; post_only := false; reduce_only := false;
  expires_at := None; stop_loss := None; take_profit := None; status := CREATED;
  remaining_quantity := 5; rejection_reason := None |}.

Local Close Scope string_scope.

Definition sample_sim `{DecimalContext} : Simulator :=
  (submit sample_order (Simulator_new [(sample_key, sample_rules)] None)).1.

Lemma sample_rules_wf : rules_wf sample_rules.
Proof. repeat split; (reflexivity || discriminate). Qed.

Lemma sample_snapshot_wf : snapshot_wf sample_snapshot.
Proof. repeat split; (reflexivity || discriminate). Qed.

Lemma sample_order_wf : order_wf sample_order.
Proof.
  apply (Order_new_wf "order-000000000001" "s1" "hyperliquid" "BTC" BUY 5 LIMIT GTC
           (Aware 900) (Aware 950) (Aware 1000) (Some 101) false false None None None).
  reflexivity.
Qed.

Lemma new_sim_wf `{DecimalContext} rules :
  Forall (fun e => rules_wf e.2) rules -> sim_wf (Simulator_new rules None).
Proof.
  intros Hr. constructor; simpl; auto using NoDup_nil_2.
  repeat split; simpl; try (reflexivity || discriminate).
Qed.

Lemma sample_sim_wf `{DecimalLaws} : sim_wf sample_sim.
Proof.
  apply submit_wf; [|apply sample_order_wf|done|done]. apply new_sim_wf.
  repeat constructor; apply sample_rules_wf.
Qed.

(** ** The order of matching *)

#[export] Instance submission_le_total : Total submission_le.
Proof.
  intros a b. unfold submission_le.
  destruct (Z.lt_trichotomy (submitted_at a) (submitted_at b)) as [?|[->|?]]; auto.
  destruct (total String.le (order_id a) (order_id b)); auto.
Qed.

#[export] Instance submission_le_trans : Transitive submission_le.
Proof.
  intros a b c [H1|[H1 H2]] [H3|[H3 H4]]; unfold submission_le; [left; lia..|].
  right. split; [lia|]. by etransitivity.
Qed.

Lemma book_values_ids {C : DecimalContext} (d : list (string * Order)) :
  Forall book_entry_wf d -> map order_id (dict_values d) = dict_keys d.
Proof.
  unfold dict_values, dict_keys. induction 1 as [|[k o] d (Hid & _) Hd IH]; [done|].
  simpl in *. subst k. apply (f_equal (cons _)), IH.
Qed.

Lemma candidates_ids {C : DecimalContext} s :
  sim_wf s -> map order_id (candidates s) ≡ₚ dict_keys (orders s).
Proof.
  intros Hs. rewrite <- book_values_ids by apply Hs. unfold candidates.
  by rewrite merge_sort_Permutation.
Qed.

Lemma candidates_ids_NoDup {C : DecimalContext} s :
  sim_wf s -> NoDup (map order_id (candidates s)).
Proof. intros Hs. rewrite candidates_ids by done. apply Hs. Qed.

(** ** Main theorems *)

(** The simulator's invariant (unique order ids, well-formed orders and
    fills, valid rules and configuration) is kept by every operation: submitting
    a freshly created order, cancelling everything, and matching a snapshot with
    arbitrary callbacks, also when one of them raises. *)
Theorem simulator_invariant {C : DecimalContext} {L : DecimalLaws C} {P : Type}
    (s : Simulator) (o : Order) (reason : string) (snap : MarketSnapshot)
    (quantity_cap : option (P -> Order -> Decimal))
    (on_fill : option (Order -> Fill -> M P unit)) (p : P) :
  sim_wf s -> order_wf o -> status o = CREATED -> remaining_quantity o = quantity o ->
  sim_wf (submit o s).1 /\ sim_wf (cancel_all reason s) /\
  sim_wf (match_snapshot snap quantity_cap on_fill (s, p)).1.1.
Proof. auto using submit_wf, cancel_all_wf, match_snapshot_wf. Qed.

Lemma simulator_invariant_witness :
  let C := default_context in
  sim_wf (submit sample_order (Simulator_new [(sample_key, sample_rules)] None)).1 /\
  sim_wf (cancel_all "stop" (Simulator_new [(sample_key, sample_rules)] None)) /\
  sim_wf (match_snapshot (P := unit) sample_snapshot None None
            (Simulator_new [(sample_key, sample_rules)] None, tt)).1.1.
Proof.
  intros C. apply (simulator_invariant (C := C)); [|exact sample_order_wf|reflexivity..].
  apply new_sim_wf. repeat constructor; apply sample_rules_wf.
Defined.

(** C1: no look-ahead and no limit violation.  Whatever the callbacks do and
    whether or not the call raises, every fill appended by matching a snapshot
    belongs to an open, unexpired order of that instrument submitted strictly
    before the snapshot; it carries the snapshot's time, has a positive quantity
    of at most what remained, respects the limit price, and fills a
    fill-or-kill order completely.  The returned list is exactly what was
    appended. *)
Theorem match_fills_sound {C : DecimalContext} {L : DecimalLaws C} {P : Type}
    (quantity_cap : option (P -> Order -> Decimal))
    (on_fill : option (Order -> Fill -> M P unit))
    (snap : MarketSnapshot) (s s' : Simulator) (p p' : P) (res : result (list Fill)) :
  sim_wf s -> match_snapshot snap quantity_cap on_fill (s, p) = ((s', p'), res) ->
  exists new, fills s' = fills s ++ new /\ Forall (fill_sound snap s) new /\
    (forall fs, res = Ok fs -> fs = new).
Proof.
  intros Hs. unfold match_snapshot. case_goal.
  - intros Hm. apply match_loop_step in Hm as (_ & new & ? & ? & _ & ?);
      eauto using candidates_ids_NoDup.
  - intros Hm. inv_ok. exists []. rewrite app_nil_r. split_and!; auto. by intros fs [= <-].
Qed.

Lemma match_fills_sound_witness :
  let C := default_context in
  let out := match_snapshot (P := unit) sample_snapshot None None (sample_sim, tt) in
  length (fills out.1.1) = 1%nat /\
  exists new, fills out.1.1 = fills sample_sim ++ new /\
    Forall (fill_sound sample_snapshot sample_sim) new /\
    (forall fs, out.2 = Ok fs -> fs = new).
Proof.
  intros C out. split; [vm_compute; reflexivity|].
  apply (match_fills_sound (C := C) (P := unit) None None sample_snapshot
           sample_sim out.1.1 tt out.1.2 out.2).
  - apply sample_sim_wf.
  - apply run_eta.
Defined.

(** Price-time priority.  A snapshot is matched in order of submission
    time and then order id; each order is filled at most once, and the fills
    come out in that order. *)
Theorem match_priority {C : DecimalContext} {L : DecimalLaws C} {P : Type}
    (quantity_cap : option (P -> Order -> Decimal))
    (on_fill : option (Order -> Fill -> M P unit))
    (snap : MarketSnapshot) (s s' : Simulator) (p p' : P) (fs : list Fill) :
  sim_wf s -> match_snapshot snap quantity_cap on_fill (s, p) = ((s', p'), Ok fs) ->
  StronglySorted submission_le (candidates s) /\
  candidates s ≡ₚ dict_values (orders s) /\
  map f_order_id fs `sublist_of` map order_id (candidates s) /\
  NoDup (map f_order_id fs).
Proof.
  intros Hs Hm. pose proof (candidates_ids_NoDup s Hs) as Hnd.
  assert (map f_order_id fs `sublist_of` map order_id (candidates s)) as Hsub.
  { revert Hm. unfold match_snapshot. case_goal.
    - intros Hm. apply match_loop_step in Hm as (_ & new & _ & _ & Hsub & Hfs); [|done..].
      by rewrite (Hfs _ eq_refl).
    - intros Hm. inv_ok. apply sublist_nil_l. }
  split_and!; [|apply merge_sort_Permutation|done|].
  - apply StronglySorted_merge_sort; apply _.
  - by eapply sublist_NoDup.
Qed.

(** Two orders of the same instrument, the second one submitted first. *)
Definition sample_order2 : Order := {|
  order_id := "order-000000000002"; signal_id := "s2"; exchange := "hyperliquid";
  symbol := "BTC"; side := SELL; quantity := 3; order_type := MARKET;
  time_in_force := IOC; signal_at := 700; created_at := 700; submitted_at := 700;
  limit_price := None; post_only := false; reduce_only := false;
  expires_at := None; stop_loss := None; take_profit := None; status := CREATED;
  remaining_quantity := 3; rejection_reason := None |}.

Lemma sample_order2_wf : order_wf sample_order2.
Proof.
  apply (Order_new_wf "order-000000000002" "s2" "hyperliquid" "BTC" SELL 3 MARKET IOC
           (Aware 700) (Aware 700) (Aware 700) None false false None None None).
  reflexivity.
Qed.

Lemma match_priority_witness :
  let C := default_context in
  let s := (submit sample_order2 sample_sim).1 in
  let out := match_snapshot (P := unit) sample_snapshot None None (s, tt) in
  let fs := default [] (ok_value out.2) in
  map f_order_id fs = ["order-000000000002"%string; "order-000000000001"%string] /\
  NoDup (map f_order_id fs).
Proof.
  intros C s out fs. split; [vm_compute; reflexivity|].
  apply (match_priority (C := C) (P := unit) None None sample_snapshot s out.1.1 tt out.1.2).
  - apply submit_wf; [apply sample_sim_wf|apply sample_order2_wf|reflexivity..].
  - vm_compute. reflexivity.
Defined.

(** C38: refinement to the order's abstract life.  Matching neither creates
    nor drops orders, and takes every order of the book through steps of the
    abstract order machine (reject, cancel, record a fill) only; an order that
    is already terminal is left exactly as it was. *)
Theorem match_refines_order_life {C : DecimalContext} {L : DecimalLaws C} {P : Type}
    (quantity_cap : option (P -> Order -> Decimal))
    (on_fill : option (Order -> Fill -> M P unit))
    (snap : MarketSnapshot) (s s' : Simulator) (p p' : P) (res : result (list Fill)) :
  sim_wf s -> match_snapshot snap quantity_cap on_fill (s, p) = ((s', p'), res) ->
  forall k, match dict_get k (orders s), dict_get k (orders s') with
            | Some o, Some o' => rtc order_step o o' /\ (terminal (status o) = true -> o' = o)
            | None, None => True
            | _, _ => False
            end.
Proof.
  intros Hs Hm. assert (orders_evolve s s') as Hev.
  { revert Hm. unfold match_snapshot. case_goal.
    - intros Hm. by apply match_loop_step in Hm as (? & _); [|by apply candidates_ids_NoDup|].
    - intros Hm. inv_ok. intros k. by destruct (dict_get k (orders s')). }
  intros k. specialize (Hev k).
  destruct (dict_get k (orders s)) as [o|], (dict_get k (orders s')) as [o'|]; try done.
  split; [done|]. intros Ht. induction Hev as [o|o1 o2 o3 Hst _ IH]; [done|].
  destruct (terminal_absorbing o1 Ht) as (Hr & Hcn & Hf).
  assert (o2 = o1) as ->; [|auto].
  destruct Hst as [r o|r e o|q o o' Hq]; [apply Hr|apply Hcn|].
  destruct (Hf q) as [e He]. congruence.
Qed.

Lemma match_refines_order_life_witness :
  let C := default_context in
  let s := (submit sample_order2 sample_sim).1 in
  let out := match_snapshot (P := unit) sample_snapshot None None (s, tt) in
  length (fills out.1.1) = 2%nat /\
  forall k, match dict_get k (orders s), dict_get k (orders out.1.1) with
            | Some o, Some o' => rtc order_step o o' /\ (terminal (status o) = true -> o' = o)
            | None, None => True
            | _, _ => False
            end.
Proof.
  intros C s out. split; [vm_compute; reflexivity|].
  apply (match_refines_order_life (C := C) (P := unit) None None sample_snapshot
           s out.1.1 tt out.1.2 out.2).
  - apply submit_wf; [apply sample_sim_wf|apply sample_order2_wf|reflexivity..].
  - apply run_eta.
Defined.

(** Quantity is conserved.  In a context without rounding, if the fills
    of each order and its remaining quantity add up to the order's quantity,
    they still do after a snapshot is matched. *)
Theorem match_conserves_quantity {C : DecimalContext} {L : DecimalLaws C}
    {E : ExactContext C} {P : Type}
    (quantity_cap : option (P -> Order -> Decimal))
    (on_fill : option (Order -> Fill -> M P unit))
    (snap : MarketSnapshot) (s : Simulator) (p : P) :
  sim_wf s -> conserved s ->
  conserved (match_snapshot snap quantity_cap on_fill (s, p)).1.1.
Proof.
  intros Hs Hc. unfold match_snapshot. case_goal; [by apply match_loop_conserved|done].
Qed.

Lemma sample_sim_conserved : let C := exact_context in conserved sample_sim.
Proof.
  intros C. constructor; intros k.
  - intros o Ho. apply dict_get_In in Ho.
    assert (orders sample_sim = [(order_id sample_order, set_status SUBMITTED None
      (set_quantities (5 # 1) (5 # 1) (Some (101 # 1)) sample_order))]) as E
      by (vm_compute; reflexivity).
    rewrite E in Ho. apply list_elem_of_singleton in Ho. injection Ho as _ ->. reflexivity.
  - intros _. reflexivity.
Qed.

Lemma match_conserves_quantity_witness :
  let C := exact_context in
  let s' := (match_snapshot (P := unit) sample_snapshot None None (sample_sim, tt)).1.1 in
  length (fills s') = 1%nat /\ conserved s'.
Proof.
  intros C s'. split; [vm_compute; reflexivity|].
  apply (match_conserves_quantity (C := C) (P := unit) None None sample_snapshot sample_sim tt).
  - apply sample_sim_wf.
  - apply sample_sim_conserved.
Defined.

(** Taker fills never improve on the touch.  In any decimal context, when
    the touch price is a whole number of ticks that the context represents, a
    buy executes at or above the ask and a sell at or below the bid, whatever
    the slippage and impact settings and the tick rounding. *)
Theorem taker_price_adverse {C : DecimalContext} {L : DecimalLaws C}
    (cfg : ExecutionModelConfig) (o : Order) (snap : MarketSnapshot)
    (r : InstrumentRules) (cap : Decimal) (d : MatchDetails) (n : Z) :
  config_wf cfg -> rules_wf r -> snapshot_wf snap ->
  taker_details cfg o snap r cap = Ok (Some d) ->
  touch (side o) snap == inject_Z n * tick_size r ->
  dec_fix (touch (side o) snap) == touch (side o) snap ->
  dec_fix (inject_Z n) == inject_Z n ->
  match side o with
  | BUY => ask snap <= md_price d
  | SELL => md_price d <= bid snap
  end.
Proof.
  intros Hc Hr Hs Hd Ht Hrep Hn.
  pose proof (taker_price_adverse_aux _ _ _ _ _ _ n Hc Hr Hs Hd Ht Hrep Hn) as H.
  by destruct (side o).
Qed.

Lemma taker_price_adverse_witness :
  let C := default_context in
  exists d, taker_details default_execution_config sample_order sample_snapshot
              sample_rules 5 = Ok (Some d) /\ 1001 # 10 <= md_price d.
Proof.
  intros C. destruct (taker_details default_execution_config sample_order sample_snapshot
    sample_rules 5) as [[d|]|e] eqn:E; [|exfalso; vm_compute in E; discriminate E..].
  exists d. split; [reflexivity|].
  apply (taker_price_adverse (C := C) default_execution_config sample_order sample_snapshot
           sample_rules 5 d 1001).
  - repeat split; simpl; (reflexivity || discriminate).
  - apply sample_rules_wf.
  - apply sample_snapshot_wf.
  - exact E.
  - reflexivity.
  - vm_compute. reflexivity.
  - vm_compute. reflexivity.
Defined.
