(* ===== verification/Portfolio.v ===== *)
(** * Positions (domain/portfolio/models.py) *)

From Stdlib Require Import ZArith QArith Qabs Lia Lqa.
From stdpp Require Import base tactics list strings.
From S2P Require Import Prelude Decimals ExecutionModels.

Local Open Scope Q_scope.
Local Open Scope string_scope.
Local Open Scope dec_scope.

(** The quantity is signed: positive long, negative short. *)
Record Position := {
  p_exchange : string;
  p_symbol : string;
  p_quantity : Decimal;
  average_entry_price : Decimal;
  mark_price : Decimal;
  realized_pnl : Decimal;
  funding_pnl : Decimal;
  fees : Decimal;
  p_stop_loss : option Decimal;
  p_take_profit : option Decimal;
  opened_at : option Z;
  updated_at : option Z;
}.

Definition Position_new (exchange symbol : string) : Position := {|
  p_exchange := exchange; p_symbol := symbol; p_quantity := ZERO;
  average_entry_price := ZERO; mark_price := ZERO; realized_pnl := ZERO;
  funding_pnl := ZERO; fees := ZERO; p_stop_loss := None; p_take_profit := None;
  opened_at := None; updated_at := None |}.

Definition is_open (self : Position) : bool := negb (p_quantity self =? ZERO).

(** Assignments of [apply_fill] to quantity, entry, protection and opening. *)
Definition set_holding (q avg : Decimal) (sl tp : option Decimal) (opened : option Z)
    (self : Position) : Position := {|
  p_exchange := p_exchange self; p_symbol := p_symbol self; p_quantity := q;
  average_entry_price := avg; mark_price := mark_price self;
  realized_pnl := realized_pnl self; funding_pnl := funding_pnl self;
  fees := fees self; p_stop_loss := sl; p_take_profit := tp;
  opened_at := opened; updated_at := updated_at self |}.

(** Assignments of the accounting fields. *)
Definition set_accounts (mark realized funding fs : Decimal) (updated : option Z)
    (self : Position) : Position := {|
  p_exchange := p_exchange self; p_symbol := p_symbol self;
  p_quantity := p_quantity self; average_entry_price := average_entry_price self;
  mark_price := mark; realized_pnl := realized; funding_pnl := funding; fees := fs;
  p_stop_loss := p_stop_loss self; p_take_profit := p_take_profit self;
  opened_at := opened_at self; updated_at := updated |}.

Section PositionOps.
Context {C : DecimalContext}.

Definition unrealized_pnl (self : Position) : Decimal :=
  if negb (is_open self) || (mark_price self <=? ZERO) then ZERO
  else p_quantity self ⊗ (mark_price self ⊖ average_entry_price self).

Definition notional (self : Position) : Decimal :=
  if negb (is_open self) || (mark_price self <=? ZERO) then ZERO
  else dabs (p_quantity self) ⊗ mark_price self.

Definition fill_delta (fill : Fill) : Decimal :=
  match f_side fill with BUY => f_quantity fill | SELL => dneg (f_quantity fill) end.

(** The position after the branch of [apply_fill] that changes the holding,
    and the realized profit. *)
Definition apply_delta (self : Position) (delta : Decimal) (fill : Fill)
  : Position * Decimal :=
  let previous := p_quantity self in
  let keep_protection q avg opened :=
    set_holding q avg (p_stop_loss self) (p_take_profit self) opened self in
  if previous =? ZERO then
    (keep_protection delta (f_price fill) (Some (filled_at fill)), ZERO)
  else if previous ⊗ delta >? ZERO then
    let total := dabs previous ⊕ dabs delta in
    let avg := (dabs previous ⊗ average_entry_price self ⊕ dabs delta ⊗ f_price fill)
               ⊘ total in
    (keep_protection (previous ⊕ delta) avg (opened_at self), ZERO)
  else
    let closing := dmin (dabs previous) (dabs delta) in
    let direction := if previous >? ZERO then 1 else -1 in
    let realized := closing ⊗ (f_price fill ⊖ average_entry_price self) ⊗ direction in
    let q := previous ⊕ delta in
    (if q =? ZERO then set_holding q ZERO None None None self
     else if previous ⊗ q <? ZERO then
       keep_protection q (f_price fill) (Some (filled_at fill))
     else keep_protection q (average_entry_price self) (opened_at self),
     realized).

Definition apply_fill (self : Position) (fill : Fill) : Position * Decimal :=
  let (moved, realized) := apply_delta self (fill_delta fill) fill in
  (set_accounts (f_price fill) (realized_pnl self ⊕ realized) (funding_pnl self)
     (fees self ⊕ fee fill) (Some (filled_at fill)) moved,
   realized).

End PositionOps.

Definition set_protection (self : Position) (stop_loss take_profit : option Decimal)
  : result Position :=
  if negb (is_open self) then Ok self
  else
    let reference := average_entry_price self in
    let long := p_quantity self >? ZERO in
    require! match stop_loss with
             | None => true
             | Some sl => if long then sl <? reference else sl >? reference
             end
      else ValueError "stop loss is on the non-protective side of entry";
    require! match take_profit with
             | None => true
             | Some tp => if long then tp >? reference else tp <? reference
             end
      else ValueError "take profit is on the non-profitable side of entry";
    Ok (set_holding (p_quantity self) (average_entry_price self) stop_loss take_profit
          (opened_at self) self).

Definition protection_trigger (self : Position) (snapshot : MarketSnapshot) : option string :=
  if negb (is_open self) then None
  else
    let long := p_quantity self >? ZERO in
    let executable := if long then bid snapshot else ask snapshot in
    let hit (level : option Decimal) (below : bool) :=
      match level with
      | None => false
      | Some l => if below then executable <=? l else executable >=? l
      end in
    if hit (p_stop_loss self) long then Some "stop_loss"
    else if hit (p_take_profit self) (negb long) then Some "take_profit"
    else None.

Record FundingRecord := {
  fr_exchange : string;
  fr_symbol : string;
  fr_timestamp : Z;
  fr_rate : Decimal;
  fr_mark_price : Decimal;
  fr_position_quantity : Decimal;
  fr_amount : Decimal;
}.

Record PortfolioSnapshot := {
  ps_timestamp : Z;
  ps_cash : Decimal;
  ps_equity : Decimal;
  ps_unrealized_pnl : Decimal;
  ps_gross_exposure : Decimal;
  ps_net_exposure : Decimal;
  ps_margin_used : Decimal;
  ps_maintenance_margin : Decimal;
  ps_available_margin : Decimal;
}.

Record LiquidationDecision := {
  ld_timestamp : Z;
  ld_equity : Decimal;
  ld_maintenance_margin : Decimal;
  ld_instruments : list (string * string);
}.

Local Close Scope string_scope.

(** ** Invariant *)

(** A flat position has no entry price, protection or opening time; an open
    one has a positive entry price, and protection lies on the correct side
    of it only when it is set (it may be overtaken by averaging). *)
Record position_wf (p : Position) : Prop := {
  pwf_flat : p_quantity p == 0 ->
    average_entry_price p == 0 /\ p_stop_loss p = None /\ p_take_profit p = None /\
    opened_at p = None;
  pwf_open : ~ p_quantity p == 0 -> 0 < average_entry_price p /\ opened_at p <> None;
}.

Lemma Position_new_wf e s : position_wf (Position_new e s).
Proof. constructor; simpl; [done|]. intros H. by destruct H. Qed.

Lemma is_open_true p : is_open p = true <-> ~ p_quantity p == 0.
Proof. unfold is_open, ZERO. by rewrite negb_true_iff, deqb_ne. Qed.

Lemma is_open_false p : is_open p = false <-> p_quantity p == 0.
Proof. unfold is_open, ZERO. by rewrite negb_false_iff, deqb_eq. Qed.

Section PositionLemmas.
Context {C : DecimalContext} {L : DecimalLaws C}.

Lemma fill_delta_nonzero f : fill_wf f -> ~ fill_delta f == 0.
Proof.
  intros (_ & _ & Hq & _). unfold fill_delta, dneg.
  destruct (f_side f); [lra|]. rewrite dec_fix_zero_iff. lra.
Qed.

Lemma apply_delta_wf p f :
  position_wf p -> fill_wf f -> position_wf (apply_delta p (fill_delta f) f).1.
Proof.
  intros [Hflat Hopen] Hf. pose proof (fill_delta_nonzero f Hf) as Hd.
  destruct Hf as (_ & _ & Hq & Hp & _). unfold apply_delta, ZERO.
  destruct (p_quantity p =? 0) eqn:E0; decb.
  - constructor; simpl; [contradiction|]. by intros _.
  - destruct (Hopen E0) as [Ha Ho].
    destruct (p_quantity p ⊗ fill_delta f >? 0) eqn:Es; decb; cbn [fst].
    + unfold dmul in Es. rewrite dec_fix_pos_iff in Es.
      constructor; simpl.
      * unfold dadd. rewrite dec_fix_zero_iff. intros Hz.
        assert (fill_delta f == - p_quantity p) as Ed by lra.
        rewrite Ed in Es. exfalso. nra.
      * intros _. split; [|done].
        apply ddiv_pos; repeat (apply dadd_pos || apply dmul_pos || apply dabs_pos ||
          apply dmul_nonneg || apply dabs_nonneg || lra); auto.
    + case_goal; [|case_goal]; decb; constructor; simpl; auto; intros; contradiction || done.
Qed.

Lemma set_accounts_wf m r fu fe u p : position_wf p -> position_wf (set_accounts m r fu fe u p).
Proof. intros [? ?]. by constructor. Qed.

Lemma apply_fill_wf p f : position_wf p -> fill_wf f -> position_wf (apply_fill p f).1.
Proof.
  intros Hp Hf. pose proof (apply_delta_wf p f Hp Hf). unfold apply_fill.
  destruct (apply_delta _ _ _). by apply set_accounts_wf.
Qed.

Lemma set_protection_wf p sl tp p' :
  position_wf p -> set_protection p sl tp = Ok p' -> position_wf p'.
Proof.
  intros [Hflat Hopen]. unfold set_protection. destruct (is_open p) eqn:E; simpl.
  - intros H. inv_guards H. inv_ok. apply is_open_true in E.
    constructor; simpl; [done|]. by intros _; apply Hopen.
  - intros [= <-]. by constructor.
Qed.

End PositionLemmas.

(** ** Accounting without rounding *)

Section ExactPosition.
Context {C : DecimalContext} {L : DecimalLaws C} {E : ExactContext C}.

Lemma fill_delta_exact f :
  fill_delta f == match f_side f with BUY => f_quantity f | SELL => - f_quantity f end.
Proof. unfold fill_delta. destruct (f_side f); by dexact. Qed.

(** Trading at a price does not change the value of the position marked at
    that price: what leaves it is realized. *)
Lemma apply_delta_value_neutral p d f :
  ~ d == 0 ->
  let out := apply_delta p d f in
  p_quantity out.1 * (f_price f - average_entry_price out.1) + out.2 ==
  p_quantity p * (f_price f - average_entry_price p).
Proof.
  intros Hd. unfold apply_delta, ZERO. destruct (p_quantity p =? 0) eqn:E0; decb; simpl.
  { rewrite E0. lra. }
  set (q := p_quantity p) in *. set (a := average_entry_price p).
  destruct (q ⊗ d >? 0) eqn:Es; decb; rewrite dmul_exact in Es; simpl.
  - dexact. assert (Qabs q * a + Qabs d * f_price f ==
      (q * a + d * f_price f) * (if Qle_bool 0 q then 1 else -1) /\
      Qabs q + Qabs d == (q + d) * (if Qle_bool 0 q then 1 else -1)) as [-> ->].
    { destruct (Qle_bool 0 q) eqn:Eq; rewrite ?Qle_bool_iff in Eq.
      - assert (0 < d) by nra. rewrite !Qabs_pos by lra. split; ring.
      - assert (q < 0) by (by apply dleb_gt). assert (d < 0) by nra.
        rewrite !Qabs_neg by lra. split; ring. }
    assert (~ q + d == 0).
    { intros Hz. assert (d == - q) as Ed by lra. rewrite Ed in Es. nra. }
    destruct (Qle_bool 0 q); field; lra.
  - assert (q * d < 0) as Hneg.
    { assert (~ q * d == 0) by (intros [?|?]%Qmult_integral; done).
      destruct (Q_dec (q * d) 0) as [[?|?]|?]; [done|lra|contradiction]. }
    rewrite !dmul_exact, !dsub_exact. unfold dmin.
    destruct (q >? 0) eqn:Eq; decb.
    + assert (d < 0) by nra. destruct (dabs d <? dabs q) eqn:Em; decb; dexact;
        rewrite (Qabs_pos q), (Qabs_neg d) in Em by lra;
        repeat case_goal; decb; dexact; simpl; dexact;
        rewrite ?(Qabs_pos q), ?(Qabs_neg d) by lra; nra.
    + assert (0 < d) by nra. destruct (dabs d <? dabs q) eqn:Em; decb; dexact;
        rewrite (Qabs_neg q), (Qabs_pos d) in Em by lra;
        repeat case_goal; decb; dexact; simpl; dexact;
        rewrite ?(Qabs_neg q), ?(Qabs_pos d) by lra; nra.
Qed.

End ExactPosition.
