(* ===== verification/Ledger.v ===== *)
(** * Portfolio ledger (domain/portfolio/ledger.py)

    Cash, positions, margin, funding and liquidation accounting.  Methods that
    can raise are computations over the ledger that keep the mutations made
    before the exception. *)

From Stdlib Require Import ZArith QArith Qabs Lia Lqa.
From stdpp Require Import base tactics list strings gmap sorting.
From S2P Require Import Prelude Decimals ExecutionModels Simulator Portfolio.

Local Open Scope Q_scope.
Local Open Scope string_scope.
Local Open Scope dec_scope.

Record Ledger := {
  initial_cash : Decimal;
  cash : Decimal;
  leverage : Decimal;
  l_rules : list (InstrumentKey * InstrumentRules);
  positions : list (InstrumentKey * Position);
  l_fills : list Fill;
  funding_records : list FundingRecord;
  snapshots : list PortfolioSnapshot;
  processed_fill_ids : gset string;
}.

Definition Ledger_new (initial_cash : Decimal)
    (rules : list (InstrumentKey * InstrumentRules)) (leverage : Decimal) : result Ledger :=
  require! negb (initial_cash <=? ZERO) else ValueError "initial_cash must be positive";
  require! negb (leverage <=? ZERO) else ValueError "leverage must be positive";
  Ok {| initial_cash := initial_cash; cash := initial_cash; leverage := leverage;
        l_rules := rules; positions := []; l_fills := []; funding_records := [];
        snapshots := []; processed_fill_ids := ∅ |}.

Definition with_positions (ps : list (InstrumentKey * Position)) (l : Ledger) : Ledger :=
  {| initial_cash := initial_cash l; cash := cash l; leverage := leverage l;
     l_rules := l_rules l; positions := ps; l_fills := l_fills l;
     funding_records := funding_records l; snapshots := snapshots l;
     processed_fill_ids := processed_fill_ids l |}.

Definition store_position (key : InstrumentKey) (p : Position) (l : Ledger) : Ledger :=
  with_positions (dict_set key p (positions l)) l.

Definition book_fill (c : Decimal) (f : Fill) (l : Ledger) : Ledger :=
  {| initial_cash := initial_cash l; cash := c; leverage := leverage l;
     l_rules := l_rules l; positions := positions l; l_fills := (l_fills l ++ [f])%list;
     funding_records := funding_records l; snapshots := snapshots l;
     processed_fill_ids := {[fill_id f]} ∪ processed_fill_ids l |}.

Definition book_funding (c : Decimal) (r : FundingRecord) (l : Ledger) : Ledger :=
  {| initial_cash := initial_cash l; cash := c; leverage := leverage l;
     l_rules := l_rules l; positions := positions l; l_fills := l_fills l;
     funding_records := (funding_records l ++ [r])%list; snapshots := snapshots l;
     processed_fill_ids := processed_fill_ids l |}.

Definition append_snapshot (s : PortfolioSnapshot) (l : Ledger) : Ledger :=
  {| initial_cash := initial_cash l; cash := cash l; leverage := leverage l;
     l_rules := l_rules l; positions := positions l; l_fills := l_fills l;
     funding_records := funding_records l; snapshots := (snapshots l ++ [s])%list;
     processed_fill_ids := processed_fill_ids l |}.

(** [self.position(exchange, symbol)]: the stored position, after creating an
    empty one when there is none. *)
Definition position_of (key : InstrumentKey) (l : Ledger) : Position :=
  default (Position_new key.1 key.2) (dict_get key (positions l)).
Definition ensure_position (key : InstrumentKey) (l : Ledger) : Ledger :=
  if dict_mem key (positions l) then l else store_position key (position_of key l) l.

Section LedgerOps.
Context {C : DecimalContext}.

Definition ledger_unrealized_pnl (self : Ledger) : Decimal :=
  dsum (map unrealized_pnl (dict_values (positions self))).
Definition equity (self : Ledger) : Decimal := cash self ⊕ ledger_unrealized_pnl self.
Definition gross_exposure (self : Ledger) : Decimal :=
  dsum (map notional (dict_values (positions self))).
Definition net_exposure (self : Ledger) : Decimal :=
  dsum (map (fun p => p_quantity p ⊗ mark_price p) (dict_values (positions self))).
Definition margin_used (self : Ledger) : Decimal := gross_exposure self ⊘ leverage self.

Definition maintenance_margin (self : Ledger) : Decimal :=
  dsum (omap (fun '(key, p) =>
                match dict_get key (l_rules self) with
                | Some r => Some (notional p ⊗ maintenance_margin_rate r)
                | None => None
                end) (positions self)).

Definition available_margin (self : Ledger) : Decimal :=
  dmax ZERO (equity self ⊖ margin_used self).

Definition reduces (q : Decimal) (sd : Side) : bool :=
  (q >? ZERO) && bool_decide (sd = SELL) || (q <? ZERO) && bool_decide (sd = BUY).

(** [set_protection] under the condition [apply_fill] calls it. *)
Definition protect_if_open (p : Position) (stop_loss take_profit : option Decimal)
  : result Position :=
  if is_open p && (bool_decide (stop_loss <> None) || bool_decide (take_profit <> None))
  then set_protection p stop_loss take_profit
  else Ok p.

Definition ledger_apply_fill (fill : Fill) (reduce_only : bool)
    (stop_loss take_profit : option Decimal) : M Ledger Decimal := fun self =>
  if decide (fill_id fill ∈ processed_fill_ids self)
  then (self, Err (DuplicateFillError ("duplicate fill: " +:+ fill_id fill)))
  else
    let key := (f_exchange fill, f_symbol fill) in
    let self := ensure_position key self in
    let position := position_of key self in
    if reduce_only && negb (is_open position)
    then (self, Err (ValueError "reduce-only fill has no open position"))
    else if reduce_only && (negb (reduces (p_quantity position) (f_side fill))
                            || (f_quantity fill >? dabs (p_quantity position)))
    then (self, Err (ValueError "reduce-only fill would increase or reverse a position"))
    else
      (* the copy *)
      let candidate := (apply_fill position fill).1 in
      match protect_if_open candidate stop_loss take_profit with
      | Err e => (self, Err e)
      | Ok _ =>
          let (position, realized) := apply_fill position fill in
          let self := store_position key position self in
          match protect_if_open position stop_loss take_profit with
          | Err e => (self, Err e)
          | Ok position =>
              let self := store_position key position self in
              (book_fill (cash self ⊕ (realized ⊖ fee fill)) fill self, Ok realized)
          end
      end.

Definition mark (snapshot : MarketSnapshot) (self : Ledger) : Ledger :=
  let key := (ms_exchange snapshot, ms_symbol snapshot) in
  match dict_get key (positions self) with
  | Some p =>
      if is_open p
      then store_position key
             (set_accounts (valuation_price snapshot) (realized_pnl p) (funding_pnl p)
                (fees p) (Some (ms_timestamp snapshot)) p) self
      else self
  | None => self
  end.

Definition apply_funding (exchange symbol : string) (timestamp : datetime)
    (rate mark_price : Decimal) : M Ledger (option FundingRecord) := fun self =>
  match timestamp with
  | Naive _ => (self, Err (ValueError "funding timestamp must be timezone-aware"))
  | Aware t =>
      if mark_price <=? ZERO
      then (self, Err (ValueError "funding mark price must be positive"))
      else
        let key := (exchange, symbol) in
        match dict_get key (positions self) with
        | None => (self, Ok None)
        | Some p =>
            if negb (is_open p) then (self, Ok None)
            else
              let amount := dneg (p_quantity p ⊗ mark_price ⊗ rate) in
              let record := {|
                fr_exchange := exchange; fr_symbol := symbol; fr_timestamp := t;
                fr_rate := rate; fr_mark_price := mark_price;
                fr_position_quantity := p_quantity p; fr_amount := amount |} in
              let p' := set_accounts (Portfolio.mark_price p) (realized_pnl p)
                          (funding_pnl p ⊕ amount) (fees p) (updated_at p) p in
              (book_funding (cash self ⊕ amount) record (store_position key p' self),
               Ok (Some record))
        end
  end.

Definition maximum_fill_quantity (self : Ledger) (order : Order) (price : Decimal) : Decimal :=
  if price <=? ZERO then ZERO
  else
    let key := (exchange order, symbol order) in
    let current := match dict_get key (positions self) with
                   | Some p => p_quantity p | None => ZERO end in
    let closing_capacity := if reduces current (side order) then dabs current else ZERO in
    if reduce_only order then dmin (remaining_quantity order) closing_capacity
    else
      let fee_rate := match dict_get key (l_rules self) with
                      | Some r => taker_fee_rate r | None => ZERO end in
      let margin_and_fee_per_unit := price ⊘ leverage self ⊕ price ⊗ fee_rate in
      let opening_capacity := if margin_and_fee_per_unit >? ZERO
                              then available_margin self ⊘ margin_and_fee_per_unit
                              else ZERO in
      dmin (remaining_quantity order) (closing_capacity ⊕ opening_capacity).

(** The order of instrument keys used by [sorted]. *)
Definition key_le (a b : InstrumentKey) : Prop :=
  (a.1 <> b.1 /\ String.le a.1 b.1) \/ (a.1 = b.1 /\ String.le a.2 b.2).
#[export] Instance key_le_dec : RelDecision key_le.
Proof. unfold RelDecision, key_le. intros. apply _. Defined.

Definition open_keys (self : Ledger) : list InstrumentKey :=
  merge_sort key_le (map fst (List.filter (fun e => is_open e.2) (positions self))).

Definition liquidation_decision (timestamp : Z) (self : Ledger) : option LiquidationDecision :=
  let keys := open_keys self in
  if bool_decide (keys = []) || (equity self >? maintenance_margin self) then None
  else Some {| ld_timestamp := timestamp; ld_equity := equity self;
               ld_maintenance_margin := maintenance_margin self; ld_instruments := keys |}.

Definition capture (timestamp : Z) (self : Ledger) : Ledger :=
  append_snapshot {|
    ps_timestamp := timestamp; ps_cash := cash self; ps_equity := equity self;
    ps_unrealized_pnl := ledger_unrealized_pnl self;
    ps_gross_exposure := gross_exposure self; ps_net_exposure := net_exposure self;
    ps_margin_used := margin_used self; ps_maintenance_margin := maintenance_margin self;
    ps_available_margin := available_margin self |} self.

End LedgerOps.

Local Close Scope string_scope.

(** ** Invariant *)

Record ledger_wf (l : Ledger) : Prop := {
  lwf_leverage : 0 < leverage l;
  lwf_rules : Forall (fun e => rules_wf e.2) (l_rules l);
  lwf_keys : NoDup (dict_keys (positions l));
  lwf_positions : Forall (fun e => e.1 = (p_exchange e.2, p_symbol e.2) /\ position_wf e.2)
                    (positions l);
  lwf_fills : Forall fill_wf (l_fills l);
  lwf_ids : forall i, i ∈ processed_fill_ids l <-> i ∈ map fill_id (l_fills l);
  lwf_once : NoDup (map fill_id (l_fills l));
}.

Lemma Ledger_new_wf c r lev l :
  Forall (fun e => rules_wf e.2) r -> Ledger_new c r lev = Ok l ->
  ledger_wf l /\ cash l = c /\ initial_cash l = c /\ 0 < c /\ positions l = [].
Proof.
  unfold Ledger_new, ZERO. intros Hr H. inv_guards H. inv_ok. decb.
  split; [|done]. constructor; simpl; auto using NoDup_nil_2. set_solver.
Qed.

Section LedgerLemmas.
Context {C : DecimalContext} {L : DecimalLaws C}.

Lemma position_of_wf key l : ledger_wf l ->
  position_wf (position_of key l) /\
  key = (p_exchange (position_of key l), p_symbol (position_of key l)).
Proof.
  intros Hl. unfold position_of. destruct (dict_get key (positions l)) as [p|] eqn:E; simpl.
  - by destruct (dict_get_Forall _ _ _ _ (lwf_positions _ Hl) E).
  - split; [apply Position_new_wf|by destruct key].
Qed.

Lemma store_position_wf key p l :
  ledger_wf l -> position_wf p -> key = (p_exchange p, p_symbol p) ->
  ledger_wf (store_position key p l).
Proof.
  intros [? ? ? ? ? ? ?] Hp Hk. constructor; simpl; auto using dict_set_NoDup.
  by apply dict_set_Forall.
Qed.

Lemma ensure_position_wf key l : ledger_wf l -> ledger_wf (ensure_position key l).
Proof.
  intros Hl. unfold ensure_position. case_goal; [done|].
  destruct (position_of_wf key l Hl). by apply store_position_wf.
Qed.

Lemma ensure_position_of key l : position_of key (ensure_position key l) = position_of key l.
Proof.
  unfold ensure_position, dict_mem. destruct (dict_get key (positions l)) eqn:E; [done|].
  unfold position_of at 1. simpl. by rewrite dict_get_set_eq.
Qed.

(** The operations on a position keep the instrument it belongs to. *)
Lemma apply_delta_frame p d f :
  let p' := (apply_delta p d f).1 in
  p_exchange p' = p_exchange p /\ p_symbol p' = p_symbol p /\
  realized_pnl p' = realized_pnl p /\ funding_pnl p' = funding_pnl p /\ fees p' = fees p.
Proof. unfold apply_delta. cbv zeta. repeat case_goal; done. Qed.

Lemma apply_fill_key p f :
  p_exchange (apply_fill p f).1 = p_exchange p /\ p_symbol (apply_fill p f).1 = p_symbol p.
Proof.
  pose proof (apply_delta_frame p (fill_delta f) f). unfold apply_fill.
  destruct (apply_delta _ _ _). simpl in *. tauto.
Qed.

Lemma protect_if_open_key p sl tp p' :
  protect_if_open p sl tp = Ok p' ->
  p_exchange p' = p_exchange p /\ p_symbol p' = p_symbol p /\
  p_quantity p' = p_quantity p /\ average_entry_price p' = average_entry_price p /\
  mark_price p' = mark_price p /\
  realized_pnl p' = realized_pnl p /\ funding_pnl p' = funding_pnl p /\ fees p' = fees p.
Proof.
  unfold protect_if_open, set_protection. intros H. repeat case_hyp H; inv_ok; done.
Qed.

Lemma protect_if_open_wf p sl tp p' :
  position_wf p -> protect_if_open p sl tp = Ok p' -> position_wf p'.
Proof.
  intros Hp. unfold protect_if_open. case_goal; [|by intros [= <-]].
  by apply set_protection_wf.
Qed.

(** The two outcomes of booking a fill: nothing but the creation of an empty
    position, or the complete update. *)
Inductive booked (fill : Fill) (ro : bool) (l : Ledger) : Ledger * result Decimal -> Prop :=
| booked_duplicate e : booked fill ro l (l, Err e)
| booked_error e :
    booked fill ro l (ensure_position (f_exchange fill, f_symbol fill) l, Err e)
| booked_ok sl tp p :
    let key := (f_exchange fill, f_symbol fill) in
    let out := apply_fill (position_of key l) fill in
    fill_id fill ∉ processed_fill_ids l ->
    (ro = true -> is_open (position_of key l) = true /\
       reduces (p_quantity (position_of key l)) (f_side fill) = true /\
       f_quantity fill <= dabs (p_quantity (position_of key l))) ->
    protect_if_open out.1 sl tp = Ok p ->
    booked fill ro l
      (book_fill (cash l ⊕ (out.2 ⊖ fee fill)) fill
         (store_position key p (ensure_position key l)), Ok out.2).

Lemma store_store_position key p q l :
  store_position key q (store_position key p l) = store_position key q l.
Proof. unfold store_position, with_positions. simpl. by rewrite dict_set_set. Qed.

Lemma ensure_frame key l :
  cash (ensure_position key l) = cash l /\
  l_fills (ensure_position key l) = l_fills l /\
  processed_fill_ids (ensure_position key l) = processed_fill_ids l.
Proof. unfold ensure_position. by case_goal. Qed.

Lemma ledger_apply_fill_booked fill ro sl tp l :
  booked fill ro l (ledger_apply_fill fill ro sl tp l).
Proof.
  unfold ledger_apply_fill. case_decide as Hid; [constructor|].
  set (key := (f_exchange fill, f_symbol fill)). rewrite ensure_position_of.
  destruct (ro && negb _) eqn:E1; [constructor|].
  destruct (ro && _) eqn:E2 in |- *; [constructor|].
  destruct (protect_if_open _ sl tp) as [p|e] eqn:Ep; [|constructor].
  destruct (apply_fill (position_of key l) fill) as [p1 realized] eqn:Ea. simpl in Ep.
  rewrite Ep. rewrite store_store_position. cbn [cash store_position with_positions].
  destruct (ensure_frame key l) as (-> & _ & _).
  replace p1 with (apply_fill (position_of key l) fill).1 in Ep by (by rewrite Ea).
  replace realized with (apply_fill (position_of key l) fill).2 by (by rewrite Ea).
  apply (booked_ok _ _ _ sl tp); [done| |done].
  intros ->. simpl in E1, E2. decb. tauto.
Qed.

Lemma ledger_apply_fill_wf fill ro sl tp l :
  ledger_wf l -> fill_wf fill -> ledger_wf (ledger_apply_fill fill ro sl tp l).1.
Proof.
  intros Hl Hf. destruct (ledger_apply_fill_booked fill ro sl tp l) as [e|e|sl' tp' p key out Hid _ Hp];
    cbn [fst]; [done|by apply ensure_position_wf|].
  destruct (position_of_wf key l Hl) as [Hwf Hkey].
  destruct (apply_fill_key (position_of key l) fill) as [Hk1 Hk2].
  destruct (protect_if_open_key _ _ _ _ Hp) as (Hk3 & Hk4 & _).
  assert (ledger_wf (store_position key p (ensure_position key l))) as [? ? ? ? ? Hids Honce].
  { apply store_position_wf; [by apply ensure_position_wf| |].
    - eapply protect_if_open_wf; [|done]. by apply apply_fill_wf.
    - fold key in Hk1, Hk2. rewrite Hkey. subst out. congruence. }
  destruct (ensure_frame key l) as (_ & E1 & E2).
  simpl in *. rewrite ?E1, ?E2 in *.
  constructor; simpl; rewrite ?E1, ?E2; auto.
  - apply Forall_app. split; [done|]. by constructor.
  - intros i. rewrite map_app, elem_of_app, elem_of_union, Hids. set_solver.
  - rewrite map_app. apply NoDup_app. split_and!; [done| |apply NoDup_singleton].
    simpl. intros x Hx ->%list_elem_of_singleton. by apply Hid, Hids.
Qed.

Lemma mark_wf snap l : ledger_wf l -> ledger_wf (mark snap l).
Proof.
  intros Hl. unfold mark. destruct (dict_get _ _) as [p|] eqn:E; [|done]. case_goal; [|done].
  destruct (dict_get_Forall _ _ _ _ (lwf_positions _ Hl) E) as [Hk Hp].
  apply store_position_wf; [done|by apply set_accounts_wf|done].
Qed.

Lemma book_funding_wf c r l : ledger_wf l -> ledger_wf (book_funding c r l).
Proof. intros []. by constructor. Qed.

Lemma apply_funding_wf ex sy t rate m l :
  ledger_wf l -> ledger_wf (apply_funding ex sy t rate m l).1.
Proof.
  intros Hl. unfold apply_funding. destruct t; [done|]. case_goal; [done|].
  destruct (dict_get _ _) as [p|] eqn:E; [|done]. case_goal; [done|].
  destruct (dict_get_Forall _ _ _ _ (lwf_positions _ Hl) E) as [Hk Hp].
  apply book_funding_wf, store_position_wf; [done|by apply set_accounts_wf|done].
Qed.

Lemma capture_wf t l : ledger_wf l -> ledger_wf (capture t l).
Proof. intros []. by constructor. Qed.

End LedgerLemmas.

(** ** Accounting without rounding *)

(** What a position contributed to cash. *)
Definition position_result (p : Position) : Q := realized_pnl p + funding_pnl p - fees p.

(** Cash is the initial cash plus realized profit and funding minus fees. *)
Definition balanced (l : Ledger) : Prop :=
  cash l == initial_cash l + Qsum (map position_result (dict_values (positions l))).

Section ExactLedger.
Context {C : DecimalContext} {L : DecimalLaws C} {E : ExactContext C}.

Lemma position_of_result key l :
  position_result (position_of key l) ==
  match dict_get key (positions l) with Some p => position_result p | None => 0 end.
Proof. unfold position_of. by destruct (dict_get key (positions l)). Qed.

Lemma ensure_position_balanced key l : balanced l -> balanced (ensure_position key l).
Proof.
  unfold balanced, ensure_position, dict_mem. destruct (dict_get key (positions l)) eqn:Eg; [done|].
  intros Hb. simpl. rewrite Qsum_dict_set, Eg.
  unfold position_of. rewrite Eg. unfold position_result at 2. simpl. unfold ZERO. lra.
Qed.

Lemma apply_fill_accounts p f :
  let out := apply_fill p f in
  realized_pnl out.1 = realized_pnl p ⊕ out.2 /\ funding_pnl out.1 = funding_pnl p /\
  fees out.1 = fees p ⊕ fee f /\ mark_price out.1 = f_price f.
Proof. unfold apply_fill. by destruct (apply_delta _ _ _). Qed.

Lemma store_ensure_positions key p l :
  positions (store_position key p (ensure_position key l)) = dict_set key p (positions l).
Proof. unfold ensure_position. case_goal; [done|]. simpl. apply dict_set_set. Qed.

Lemma ledger_apply_fill_balanced fill ro sl tp l :
  balanced l -> balanced (ledger_apply_fill fill ro sl tp l).1.
Proof.
  intros Hb. destruct (ledger_apply_fill_booked fill ro sl tp l) as [e|e|sl' tp' p key out _ _ Hp];
    cbn [fst]; [done|by apply ensure_position_balanced|].
  unfold balanced in *.
  change (initial_cash (book_fill _ _ (store_position key p (ensure_position key l))))
    with (initial_cash (ensure_position key l)).
  change (positions (book_fill _ _ ?x)) with (positions x). rewrite store_ensure_positions.
  assert (initial_cash (ensure_position key l) = initial_cash l) as ->
    by (unfold ensure_position; by case_goal).
  cbn [cash book_fill]. rewrite Qsum_dict_set, <- position_of_result.
  destruct (apply_fill_accounts (position_of key l) fill) as (A1 & A2 & A3 & _).
  destruct (protect_if_open_key _ _ _ _ Hp) as (_ & _ & _ & _ & _ & B1 & B2 & B3).
  fold out in A1, A2, A3. unfold position_result at 2 3. rewrite B1, B2, B3, A1, A2, A3.
  dexact. lra.
Qed.

Lemma apply_funding_balanced ex sy t rate m l :
  balanced l -> balanced (apply_funding ex sy t rate m l).1.
Proof.
  intros Hb. unfold apply_funding. destruct t; [done|]. case_goal; [done|].
  destruct (dict_get _ _) as [p|] eqn:Eg; [|done]. case_goal; [done|].
  unfold balanced in *. simpl. rewrite Qsum_dict_set, Eg.
  unfold position_result at 2 3. simpl. dexact. lra.
Qed.

Lemma mark_balanced snap l : balanced l -> balanced (mark snap l).
Proof.
  intros Hb. unfold mark. destruct (dict_get _ _) as [p|] eqn:Eg; [|done].
  case_goal; [|done]. unfold balanced in *. simpl. rewrite Qsum_dict_set, Eg.
  unfold position_result at 2 3. simpl. lra.
Qed.

(** The value of an open position at its mark; zero for a flat one. *)
Lemma unrealized_pnl_value p :
  (p_quantity p == 0 \/ 0 < mark_price p) ->
  unrealized_pnl p == p_quantity p * (mark_price p - average_entry_price p).
Proof.
  intros H. unfold unrealized_pnl, ZERO. destruct (is_open p) eqn:Eo; simpl.
  - apply is_open_true in Eo. destruct (mark_price p <=? 0) eqn:Em; decb; dexact; [|done].
    destruct H; [contradiction|lra].
  - apply is_open_false in Eo. rewrite Eo. lra.
Qed.

(** A fill at the price the position is marked at costs exactly its fee. *)
Lemma ledger_fill_equity fill ro sl tp l l' realized :
  fill_wf fill ->
  let key := (f_exchange fill, f_symbol fill) in
  (p_quantity (position_of key l) == 0 \/ mark_price (position_of key l) == f_price fill) ->
  ledger_apply_fill fill ro sl tp l = (l', Ok realized) ->
  equity l' == equity l - fee fill.
Proof.
  intros Hf key Hmark Hl. pose proof (fill_delta_nonzero fill Hf) as Hd.
  destruct Hf as (_ & _ & _ & Hprice & _). revert Hl.
  destruct (ledger_apply_fill_booked fill ro sl tp l) as [e|e|sl' tp' p key' out _ _ Hp];
    [done..|]. intros [= <- _].
  unfold equity, ledger_unrealized_pnl. change (positions (book_fill _ _ ?x)) with (positions x).
  rewrite store_ensure_positions. cbn [cash book_fill]. dexact. rewrite Qsum_dict_set.
  change key' with key in *.
  assert (match dict_get key (positions l) with Some w => unrealized_pnl w | None => 0 end ==
          unrealized_pnl (position_of key l)) as ->.
  { unfold position_of. by destruct (dict_get key (positions l)). }
  pose proof (apply_delta_value_neutral (position_of key l) (fill_delta fill) fill Hd) as Hn.
  destruct (protect_if_open_key _ _ _ _ Hp) as (_ & _ & Q1 & Q2 & Q3 & _).
  destruct (apply_fill_accounts (position_of key l) fill) as (_ & _ & _ & A4).
  assert (p_quantity out.1 = p_quantity (apply_delta (position_of key l) (fill_delta fill) fill).1 /\
          average_entry_price out.1 =
          average_entry_price (apply_delta (position_of key l) (fill_delta fill) fill).1 /\
          out.2 = (apply_delta (position_of key l) (fill_delta fill) fill).2) as (O1 & O2 & O3).
  { unfold out, apply_fill. by destruct (apply_delta _ _ _). }
  rewrite (unrealized_pnl_value p), (unrealized_pnl_value (position_of key l)).
  - rewrite Q1, Q2, Q3. fold out in A4. rewrite A4, O1, O2, O3.
    assert (p_quantity (position_of key l) *
              (mark_price (position_of key l) - average_entry_price (position_of key l)) ==
            p_quantity (position_of key l) *
              (f_price fill - average_entry_price (position_of key l))) as Hv
      by (destruct Hmark as [Hz|Hz]; rewrite Hz; ring).
    cbv zeta in Hn. lra.
  - destruct Hmark as [Hz|Hz]; [by left|right; lra].
  - right. fold out in A4. rewrite Q3, A4. done.
Qed.

End ExactLedger.

(** ** Fill capacity *)

Section Capacity.
Context {C : DecimalContext} {L : DecimalLaws C}.

Lemma notional_nonneg p : 0 <= notional p.
Proof.
  unfold notional, ZERO. destruct (negb (is_open p) || _) eqn:E; [lra|]. decb.
  apply dmul_nonneg; [apply dabs_nonneg|lra].
Qed.

Lemma gross_exposure_nonneg l : 0 <= gross_exposure l.
Proof.
  apply dsum_nonneg. apply Forall_forall. intros x Hx.
  apply list_elem_of_In, in_map_iff in Hx as (p & <- & _). apply notional_nonneg.
Qed.

Lemma available_margin_nonneg l : 0 <= available_margin l.
Proof. unfold available_margin, ZERO. dminmax; lra. Qed.

Lemma reduces_spec q sd :
  reduces q sd = true <-> (0 < q /\ sd = SELL) \/ (q < 0 /\ sd = BUY).
Proof.
  unfold reduces, ZERO. rewrite orb_true_iff, !andb_true_iff, !bool_decide_eq_true.
  by rewrite !dltb_lt.
Qed.

End Capacity.

(** ** A concrete ledger, used to exercise the theorems *)

Local Open Scope string_scope.

Definition sample_fill (i : string) (sd : Side) (q price fe : Decimal) (t : Z) : Fill := {|
  fill_id := i; f_order_id := "order-000000000001"; f_signal_id := "s1";
  f_exchange := "hyperliquid"; f_symbol := "BTC"; f_side := sd; f_quantity := q;
  f_price := price; liquidity := TAKER; f_signal_at := 900; order_created_at := 950;
  f_submitted_at := 1000; filled_at := t; fee := fe; spread_cost := 0;
  slippage_cost := 0; market_impact_cost := 0 |}.

Definition sample_ledger0 : Ledger := {|
  initial_cash := 1000; cash := 1000; leverage := 1;
  l_rules := [(sample_key, sample_rules)]; positions := []; l_fills := [];
  funding_records := []; snapshots := []; processed_fill_ids := ∅ |}.

(** Long 5 at 100, with a protective stop at 90. *)
Definition sample_ledger `{DecimalContext} : Ledger :=
  (ledger_apply_fill (sample_fill "fill-1" BUY 5 100 (3 # 10) 2000) false (Some 90) None
     sample_ledger0).1.

Definition sample_exit : Fill := sample_fill "fill-2" SELL 2 100 (1 # 10) 3000.

Local Close Scope string_scope.

Lemma sample_fill_wf i sd q p fe t :
  0 < q -> 0 < p -> (1000 < t)%Z -> fill_wf (sample_fill i sd q p fe t).
Proof.
  intros Hq Hp Ht. unfold fill_wf, sample_fill. cbn.
  split_and!; try assumption; try reflexivity; try lia; apply Qle_refl.
Qed.

Lemma sample_ledger0_wf : ledger_wf sample_ledger0.
Proof.
  apply (Ledger_new_wf 1000 [(sample_key, sample_rules)] 1); [|reflexivity].
  repeat constructor; apply sample_rules_wf.
Qed.

Lemma sample_ledger_wf `{DecimalLaws} : ledger_wf sample_ledger.
Proof.
  apply ledger_apply_fill_wf; [apply sample_ledger0_wf|].
  by apply sample_fill_wf.
Qed.

(** ** Main theorems *)

(** C2: the ledger invariant (one position per instrument, stored under its
    own key; flat positions carry no entry, protection or opening time; open
    ones a positive entry; every booked fill valid, registered and booked once)
    is kept by booking a fill, marking, funding and capturing, whether or not
    the operation raises. *)
Theorem ledger_invariant {C : DecimalContext} {L : DecimalLaws C}
    (l : Ledger) (fill : Fill) (ro : bool) (sl tp : option Decimal)
    (snap : MarketSnapshot) (ex sy : string) (t : datetime) (rate m : Decimal) (at_ : Z) :
  ledger_wf l -> fill_wf fill ->
  ledger_wf (ledger_apply_fill fill ro sl tp l).1 /\ ledger_wf (mark snap l) /\
  ledger_wf (apply_funding ex sy t rate m l).1 /\ ledger_wf (capture at_ l).
Proof.
  auto using ledger_apply_fill_wf, mark_wf, apply_funding_wf, capture_wf.
Qed.

Lemma ledger_invariant_witness :
  let C := default_context in
  length (l_fills (ledger_apply_fill sample_exit true None None sample_ledger).1) = 2%nat /\
  ledger_wf (ledger_apply_fill sample_exit true None None sample_ledger).1.
Proof.
  intros C. split; [vm_compute; reflexivity|].
  refine (proj1 (ledger_invariant (C := C) sample_ledger sample_exit true None None
           sample_snapshot EmptyString EmptyString (Aware 0) 0 0 0 _ _)).
  - apply sample_ledger_wf.
  - by apply sample_fill_wf.
Defined.

(** Booking a fill is atomic.  When [apply_fill] raises (a duplicate, an
    inadmissible reduce-only fill, or protection on the wrong side of the entry
    price) cash, booked fills, registered ids and funding are untouched and
    every instrument's position is what it was. *)
Theorem ledger_fill_atomic {C : DecimalContext}
    (fill : Fill) (ro : bool) (sl tp : option Decimal) (l l' : Ledger) (e : exn) :
  ledger_apply_fill fill ro sl tp l = (l', Err e) ->
  cash l' = cash l /\ l_fills l' = l_fills l /\
  processed_fill_ids l' = processed_fill_ids l /\
  funding_records l' = funding_records l /\ snapshots l' = snapshots l /\
  (forall key, position_of key l' = position_of key l).
Proof.
  intros H. assert (l' = l \/ l' = ensure_position (f_exchange fill, f_symbol fill) l) as Hl'.
  { revert H. destruct (ledger_apply_fill_booked fill ro sl tp l); intros [= <- _]; auto. }
  destruct Hl' as [->| ->]; [by split_and!|].
  set (k := (f_exchange fill, f_symbol fill)).
  split_and!; try (unfold ensure_position; by case_goal).
  intros key. destruct (decide (key = k)) as [->|Hne]; [apply ensure_position_of|].
  unfold ensure_position. case_goal; [done|]. unfold position_of. simpl.
  by rewrite dict_get_set_ne.
Qed.

Lemma ledger_fill_atomic_witness :
  let C := default_context in
  let out := ledger_apply_fill sample_exit false (Some 200) None sample_ledger in
  out.2 = Err (ValueError "stop loss is on the non-protective side of entry") /\
  cash out.1 = cash sample_ledger.
Proof.
  intros C out. split; [vm_compute; reflexivity|].
  refine (proj1 (ledger_fill_atomic (C := C) sample_exit false (Some 200) None sample_ledger
           out.1 (ValueError "stop loss is on the non-protective side of entry") _)).
  vm_compute. reflexivity.
Defined.

(** Exactly once.  A fill that was booked can never be booked again, with
    whatever flags: the second attempt raises [DuplicateFillError] and leaves
    the ledger as it is. *)
Theorem ledger_fill_once {C : DecimalContext}
    (fill : Fill) (ro : bool) (sl tp : option Decimal) (l l' : Ledger) (realized : Decimal) :
  ledger_apply_fill fill ro sl tp l = (l', Ok realized) ->
  forall ro2 sl2 tp2,
    ledger_apply_fill fill ro2 sl2 tp2 l' =
    (l', Err (DuplicateFillError ("duplicate fill: " +:+ fill_id fill)%string)).
Proof.
  intros H ro2 sl2 tp2. assert (fill_id fill ∈ processed_fill_ids l') as Hin.
  { revert H. destruct (ledger_apply_fill_booked fill ro sl tp l); intros [= <- _]. set_solver. }
  unfold ledger_apply_fill. by rewrite decide_True.
Qed.

Lemma ledger_fill_once_witness :
  let C := default_context in
  let out := ledger_apply_fill sample_exit true None None sample_ledger in
  is_ok out.2 = true /\
  (ledger_apply_fill sample_exit false None None out.1).2 =
  Err (DuplicateFillError "duplicate fill: fill-2").
Proof.
  intros C out. split; [vm_compute; reflexivity|].
  rewrite (ledger_fill_once (C := C) sample_exit true None None sample_ledger out.1
             (default 0 (ok_value out.2))); [reflexivity|].
  vm_compute. reflexivity.
Defined.

(** A reduce-only fill never opens, increases or reverses a position: it
    is booked only against an open position of the opposite side, and the
    resulting quantity lies between zero and the previous one. *)
Theorem reduce_only_reduces {C : DecimalContext} {L : DecimalLaws C}
    (fill : Fill) (sl tp : option Decimal) (l l' : Ledger) (realized : Decimal) :
  let key := (f_exchange fill, f_symbol fill) in
  let q := p_quantity (position_of key l) in
  let q' := p_quantity (position_of key l') in
  dec_fix q == q -> fill_wf fill ->
  ledger_apply_fill fill true sl tp l = (l', Ok realized) ->
  (f_side fill = SELL /\ 0 < q /\ 0 <= q' /\ q' <= q) \/
  (f_side fill = BUY /\ q < 0 /\ q <= q' /\ q' <= 0).
Proof.
  intros key q q' Hrep Hf H. pose proof Hf as (_ & _ & Hfq & _). subst q'. revert H.
  destruct (ledger_apply_fill_booked fill true sl tp l) as [e|e|sl' tp' p k out _ Hro Hp];
    [done..|]. intros [= <- _].
  destruct (Hro eq_refl) as (Hopen & Hred & Hle). change k with key in *. fold q in Hred, Hle.
  assert (p_quantity (position_of key (book_fill (cash l ⊕ (out.2 ⊖ fee fill)) fill
            (store_position key p (ensure_position key l)))) = q ⊕ fill_delta fill) as ->.
  { unfold position_of. change (positions (book_fill _ _ ?x)) with (positions x).
    rewrite store_ensure_positions, dict_get_set_eq. simpl.
    destruct (protect_if_open_key _ _ _ _ Hp) as (_ & _ & -> & _).
    unfold out, apply_fill. destruct (apply_delta _ _ _) as [p1 r1] eqn:Ed. simpl.
    change p1 with (p1, r1).1. rewrite <- Ed. unfold apply_delta. fold q. unfold ZERO.
    apply is_open_true in Hopen. fold q in Hopen.
    destruct (q =? 0) eqn:E0; decb; [contradiction|]. repeat case_goal; done. }
  apply reduces_spec in Hred. unfold dabs in Hle. unfold fill_delta.
  destruct Hred as [[Hq Hs]|[Hq Hs]]; rewrite Hs; [left|right]; split_and!; try done.
  - rewrite Qabs_pos, Hrep in Hle by lra. apply dec_fix_nonneg.
    assert (- q <= dneg (f_quantity fill)); [|lra].
    apply dec_fix_ge_repr; [by rewrite dec_fix_opp, Hrep|lra].
  - apply dec_fix_le_repr; [done|].
    assert (dneg (f_quantity fill) <= 0) by (apply dec_fix_nonpos; lra). lra.
  - apply dec_fix_ge_repr; [done|]. lra.
  - rewrite Qabs_neg, dec_fix_opp, Hrep in Hle by lra. apply dec_fix_nonpos. lra.
Qed.

Lemma reduce_only_reduces_witness :
  let C := default_context in
  let l' := (ledger_apply_fill sample_exit true None None sample_ledger).1 in
  let q := p_quantity (position_of sample_key sample_ledger) in
  let q' := p_quantity (position_of sample_key l') in
  (f_side sample_exit = SELL /\ 0 < q /\ 0 <= q' /\ q' <= q) \/
  (f_side sample_exit = BUY /\ q < 0 /\ q <= q' /\ q' <= 0).
Proof.
  intros C l' q q'.
  apply (reduce_only_reduces (C := C) sample_exit None None sample_ledger l'
           (default 0 (ok_value (ledger_apply_fill sample_exit true None None sample_ledger).2))).
  - vm_compute. reflexivity.
  - by apply sample_fill_wf.
  - vm_compute. reflexivity.
Defined.

(** Cash is accounted for.  Without rounding, cash equals the initial cash
    plus the realized and funding profit minus the fees recorded on the
    positions, after every operation and also when a booking raises. *)
Theorem cash_balance {C : DecimalContext} {L : DecimalLaws C} {E : ExactContext C}
    (l : Ledger) (fill : Fill) (ro : bool) (sl tp : option Decimal)
    (snap : MarketSnapshot) (ex sy : string) (t : datetime) (rate m : Decimal) (at_ : Z) :
  balanced l ->
  balanced (ledger_apply_fill fill ro sl tp l).1 /\ balanced (mark snap l) /\
  balanced (apply_funding ex sy t rate m l).1 /\ balanced (capture at_ l).
Proof.
  auto using ledger_apply_fill_balanced, mark_balanced, apply_funding_balanced.
Qed.

Lemma cash_balance_witness :
  let C := exact_context in
  let l' := (apply_funding "hyperliquid" "BTC" (Aware 4000) (1 # 1000) 100 sample_ledger).1 in
  cash l' == 9992 # 10 /\ balanced l'.
Proof.
  intros C l'. split; [vm_compute; reflexivity|].
  refine (proj1 (proj2 (proj2 (cash_balance (C := C) sample_ledger sample_exit true None None
    sample_snapshot "hyperliquid" "BTC" (Aware 4000) (1 # 1000) 100 0 _)))).
  vm_compute. reflexivity.
Defined.

(** Trading is value-neutral up to the fee.  Without rounding, booking a
    fill at the price the position is marked at (or into a flat position)
    lowers equity by exactly the fee: opening, averaging, partial closing,
    closing and reversing create or destroy no value. *)
Theorem fill_costs_its_fee {C : DecimalContext} {L : DecimalLaws C} {E : ExactContext C}
    (fill : Fill) (ro : bool) (sl tp : option Decimal) (l l' : Ledger) (realized : Decimal) :
  fill_wf fill ->
  (let p := position_of (f_exchange fill, f_symbol fill) l in
   p_quantity p == 0 \/ mark_price p == f_price fill) ->
  ledger_apply_fill fill ro sl tp l = (l', Ok realized) ->
  equity l' == equity l - fee fill.
Proof. apply ledger_fill_equity. Qed.

(** A reversal: selling 8 out of a long position of 5. *)
Lemma fill_costs_its_fee_witness :
  let C := exact_context in
  let f := sample_fill "fill-3" SELL 8 100 (48 # 100) 3000 in
  let out := ledger_apply_fill f false None None sample_ledger in
  p_quantity (position_of sample_key out.1) == -3 /\
  equity out.1 == equity sample_ledger - (48 # 100).
Proof.
  intros C f out. split; [vm_compute; reflexivity|].
  apply (fill_costs_its_fee (C := C) f false None None sample_ledger out.1
           (default 0 (ok_value out.2))).
  - by apply sample_fill_wf.
  - right. vm_compute. reflexivity.
  - vm_compute. reflexivity.
Defined.

(** The fill cap of an order.  It is never more than what remains of the
    order and never negative; a reduce-only order is capped by the size of the
    position it reduces, and gets nothing when it would not reduce one. *)
Theorem maximum_fill_quantity_bounds {C : DecimalContext} {L : DecimalLaws C}
    (l : Ledger) (o : Order) (price : Decimal) :
  ledger_wf l -> 0 <= remaining_quantity o ->
  let current := p_quantity (position_of (exchange o, symbol o) l) in
  let cap := maximum_fill_quantity l o price in
  0 <= cap /\ cap <= remaining_quantity o /\
  (reduce_only o = true -> cap <= dabs current /\
     (reduces current (side o) = false -> cap == 0)).
Proof.
  intros Hl Hrem current cap. subst cap. unfold maximum_fill_quantity, ZERO.
  assert (match dict_get (exchange o, symbol o) (positions l) with
          | Some p => p_quantity p | None => 0 end = current) as ->.
  { unfold current, position_of. by destruct (dict_get _ (positions l)). }
  pose proof (dabs_nonneg current) as Habs.
  destruct (price <=? 0) eqn:Ep; decb; [repeat split; try done; lra|].
  set (closing := if reduces current (side o) then dabs current else 0).
  assert (0 <= closing /\ closing <= dabs current) as [Hc0 Hc1]
    by (unfold closing; case_goal; lra).
  destruct (reduce_only o).
  - split_and!; [dminmax; lra..|]. intros _. split; [dminmax; lra|].
    intros Hr. unfold closing in *. rewrite Hr in *. dminmax; lra.
  - split; [|split; [dminmax; lra|done]].
    match goal with |- 0 <= dmin _ (closing ⊕ ?x) =>
      assert (0 <= x) as Hx;
      [|pose proof (dadd_nonneg closing x Hc0 Hx); dminmax; lra] end.
    case_goal; decb; [apply ddiv_nonneg; [apply available_margin_nonneg|done]|lra].
Qed.

Lemma maximum_fill_quantity_bounds_witness :
  let C := default_context in
  let cap := maximum_fill_quantity sample_ledger sample_order2 100 in
  cap == 3 /\ 0 <= cap /\ cap <= 3.
Proof.
  intros C cap. split; [vm_compute; reflexivity|].
  destruct (maximum_fill_quantity_bounds (C := C) sample_ledger sample_order2 100) as (H1 & H2 & _).
  - apply sample_ledger_wf.
  - discriminate.
  - exact (conj H1 H2).
Defined.

(** A new exposure is covered by margin.  Without rounding, the part of
    the cap that does not close the current position needs, at the given price,
    no more initial margin and taker fees than the margin available. *)
Theorem opening_capacity_covered {C : DecimalContext} {L : DecimalLaws C} {E : ExactContext C}
    (l : Ledger) (o : Order) (price : Decimal) (r : InstrumentRules) :
  ledger_wf l -> 0 < price -> reduce_only o = false ->
  dict_get (exchange o, symbol o) (l_rules l) = Some r ->
  let current := p_quantity (position_of (exchange o, symbol o) l) in
  let closing := if reduces current (side o) then Qabs current else 0 in
  let opening := maximum_fill_quantity l o price - closing in
  opening * (price / leverage l + price * taker_fee_rate r) <= available_margin l.
Proof.
  intros Hl Hp Hro Hr current closing opening. subst opening.
  assert (0 < leverage l) as Hlev by apply Hl.
  pose proof (dict_get_Forall _ _ _ _ (lwf_rules _ Hl) Hr) as (_&_&_&_&Hfee&_).
  simpl in Hfee. unfold maximum_fill_quantity, ZERO.
  assert (match dict_get (exchange o, symbol o) (positions l) with
          | Some p => p_quantity p | None => 0 end = current) as ->.
  { unfold current, position_of. by destruct (dict_get _ (positions l)). }
  rewrite Hro, Hr. destruct (price <=? 0) eqn:Ep; decb; [lra|].
  set (unit_cost := price / leverage l + price * taker_fee_rate r).
  assert (0 < unit_cost) as Hu.
  { assert (0 < price / leverage l) by (apply Qlt_shift_div_l; lra).
    assert (0 <= price * taker_fee_rate r) by nra. unfold unit_cost. lra. }
  pose proof (available_margin_nonneg l) as Ham.
  set (cap := dmin (remaining_quantity o) _).
  assert (cap <= closing + available_margin l / unit_cost) as Hcap.
  { unfold cap. assert (price ⊘ leverage l ⊕ price ⊗ taker_fee_rate r == unit_cost) as Eu
      by (by dexact). rewrite (proj2 (dltb_lt _ _)) by lra.
    destruct (dmin_spec (remaining_quantity o)
      ((if reduces current (side o) then dabs current else 0) ⊕
       (available_margin l ⊘ (price ⊘ leverage l ⊕ price ⊗ taker_fee_rate r))))
      as [[Hlt ->]|[Hle ->]]; rewrite ?dadd_exact, ?ddiv_exact, ?Eu in *;
      unfold closing; destruct (reduces _ _); rewrite ?dabs_exact in *; lra. }
  assert (available_margin l == available_margin l / unit_cost * unit_cost) as Em
    by (field; lra).
  set (x := available_margin l / unit_cost) in *. clearbody x. nra.
Qed.

Lemma opening_capacity_covered_witness :
  let C := exact_context in
  let o := set_quantities 100 100 (Some 101) sample_order in
  maximum_fill_quantity sample_ledger o 100 *
    (100 / 1 + 100 * (6 # 10000)) <= available_margin sample_ledger.
Proof.
  intros C o.
  assert (H : (maximum_fill_quantity sample_ledger o 100 - 0) *
    (100 / 1 + 100 * (6 # 10000)) <= available_margin sample_ledger).
  { refine (opening_capacity_covered (C := C) sample_ledger o 100 sample_rules _ _ _ _).
    - apply sample_ledger_wf.
    - reflexivity.
    - reflexivity.
    - vm_compute. reflexivity. }
  vm_compute in H |- *. exact H.
Defined.
