(* ===== verification/Events.v ===== *)
(** * Backtest events and their queue (services/backtest/events.py)

    [heapq] is used as a priority queue: its heap is represented by the list of
    its entries in the order in which [heappop] returns them.  The entries are
    totally ordered by (timestamp, priority, sequence) and no two have the same
    sequence number, so this order does not depend on the heap's layout. *)

From Stdlib Require Import ZArith QArith Lia Lqa.
From stdpp Require Import base tactics list strings sorting.
From S2P Require Import Prelude Decimals ExecutionModels.

Local Open Scope Q_scope.
Local Open Scope string_scope.
Local Open Scope dec_scope.

Record SignalEvent := {
  s_timestamp : Z;
  s_signal_id : string;
  s_exchange : string;
  s_symbol : string;
  s_side : Side;
  s_quantity : Decimal;
  s_order_type : OrderType;
  s_time_in_force : TimeInForce;
  s_limit_price : option Decimal;
  calculation_delay : Z;
  submission_delay : Z;
  s_post_only : bool;
  s_reduce_only : bool;
  s_expires_at : option Z;
  s_stop_loss : option Decimal;
  s_take_profit : option Decimal;
  s_reason : string;
}.

Definition event_utc (value : datetime) : result Z :=
  utc_or "event timestamp must be timezone-aware" value.

Definition SignalEvent_new (timestamp : datetime) (signal_id exchange symbol : string)
    (side : Side) (quantity : Decimal) (order_type : OrderType)
    (time_in_force : TimeInForce) (limit_price : option Decimal)
    (calculation_delay submission_delay : Z) (post_only reduce_only : bool)
    (expires_at : option datetime) (stop_loss take_profit : option Decimal)
    (reason : string) : result SignalEvent :=
  let! timestamp := event_utc timestamp in
  require! negb (bool_decide (signal_id = EmptyString))
    else ValueError "signal_id is required";
  require! negb (quantity <=? 0) else ValueError "signal quantity must be positive";
  require! negb ((calculation_delay <? 0)%Z || (submission_delay <? 0)%Z)
    else ValueError "delays cannot be negative";
  require! negb (bool_decide (order_type = LIMIT) && bool_decide (limit_price = None))
    else ValueError "limit signal requires limit_price";
  require! negb (bool_decide (order_type = MARKET) && bool_decide (limit_price <> None))
    else ValueError "market signal cannot include limit_price";
  let! expires_at := match expires_at with
                     | None => Ok None
                     | Some e => let! e := event_utc e in Ok (Some e)
                     end in
  require! match expires_at with
           | Some e => (timestamp + calculation_delay + submission_delay <? e)%Z
           | None => true
           end
    else ValueError "signal expiry must follow submission";
  Ok {| s_timestamp := timestamp; s_signal_id := signal_id; s_exchange := exchange;
        s_symbol := symbol; s_side := side; s_quantity := quantity;
        s_order_type := order_type; s_time_in_force := time_in_force;
        s_limit_price := limit_price; calculation_delay := calculation_delay;
        submission_delay := submission_delay; s_post_only := post_only;
        s_reduce_only := reduce_only; s_expires_at := expires_at;
        s_stop_loss := stop_loss; s_take_profit := take_profit; s_reason := reason |}.

Record FundingEvent := {
  fe_timestamp : Z;
  fe_exchange : string;
  fe_symbol : string;
  fe_rate : Decimal;
  fe_mark_price : Decimal;
}.

Definition FundingEvent_new (timestamp : datetime) (exchange symbol : string)
    (rate mark_price : Decimal) : result FundingEvent :=
  let! timestamp := event_utc timestamp in
  require! negb (mark_price <=? 0) else ValueError "funding mark price must be positive";
  Ok {| fe_timestamp := timestamp; fe_exchange := exchange; fe_symbol := symbol;
        fe_rate := rate; fe_mark_price := mark_price |}.

Inductive BacktestEvent :=
| Signal (e : SignalEvent)
| OrderCreation (timestamp : Z) (signal : SignalEvent)
| OrderSubmission (timestamp : Z) (order : Order)
| Market (snapshot : MarketSnapshot)
| Funding (e : FundingEvent).

Definition event_timestamp (event : BacktestEvent) : Z :=
  match event with
  | Signal e => s_timestamp e
  | OrderCreation t _ => t
  | OrderSubmission t _ => t
  | Market s => ms_timestamp s
  | Funding e => fe_timestamp e
  end.

(** [type(event).__name__] *)
Definition event_name (event : BacktestEvent) : string :=
  match event with
  | Signal _ => "SignalEvent"
  | OrderCreation _ _ => "OrderCreationEvent"
  | OrderSubmission _ _ => "OrderSubmissionEvent"
  | Market _ => "MarketEvent"
  | Funding _ => "FundingEvent"
  end.

Definition event_priority (event : BacktestEvent) : Z :=
  match event with
  | Market _ => 10
  | Funding _ => 20
  | Signal _ => 30
  | OrderCreation _ _ => 40
  | OrderSubmission _ _ => 50
  end.

Record QueuedEvent := {
  q_timestamp : Z;
  q_priority : Z;
  q_sequence : Z;
  q_event : BacktestEvent;
}.

(** The generated ordering of [_QueuedEvent]: lexicographic on the compared
    fields. *)
Definition queued_lt (a b : QueuedEvent) : bool :=
  (q_timestamp a <? q_timestamp b)%Z
  || (q_timestamp a =? q_timestamp b)%Z
     && ((q_priority a <? q_priority b)%Z
         || (q_priority a =? q_priority b)%Z && (q_sequence a <? q_sequence b)%Z).

Record EventQueue := {
  heap : list QueuedEvent;
  sequence : Z;
}.

Definition EventQueue_new : EventQueue := {| heap := []; sequence := 0 |}.

Fixpoint heappush (x : QueuedEvent) (h : list QueuedEvent) : list QueuedEvent :=
  match h with
  | [] => [x]
  | y :: h => if queued_lt x y then x :: y :: h else y :: heappush x h
  end.

Definition push (event : BacktestEvent) (self : EventQueue) : EventQueue :=
  let n := (sequence self + 1)%Z in
  {| heap := heappush {| q_timestamp := event_timestamp event;
                         q_priority := event_priority event;
                         q_sequence := n; q_event := event |} (heap self);
     sequence := n |}.

Definition pop : M EventQueue BacktestEvent := fun self =>
  match heap self with
  | [] => (self, Err (IndexError "event queue is empty"))
  | x :: h => ({| heap := h; sequence := sequence self |}, Ok (q_event x))
  end.

Definition queue_nonempty (self : EventQueue) : bool :=
  match heap self with [] => false | _ => true end.
Definition queue_len (self : EventQueue) : nat := length (heap self).

Local Close Scope string_scope.

(** ** Invariant: ordered entries, labelled with their event, numbered once *)

Definition entry_ok (n : Z) (x : QueuedEvent) : Prop :=
  q_timestamp x = event_timestamp (q_event x) /\
  q_priority x = event_priority (q_event x) /\ (q_sequence x <= n)%Z.

Definition queued_ltP (a b : QueuedEvent) : Prop := queued_lt a b = true.

Record queue_wf (q : EventQueue) : Prop := {
  qwf_sorted : StronglySorted queued_ltP (heap q);
  qwf_entries : Forall (entry_ok (sequence q)) (heap q);
}.

Lemma queued_lt_spec a b :
  queued_lt a b = true <->
  (q_timestamp a < q_timestamp b \/
   q_timestamp a = q_timestamp b /\
   (q_priority a < q_priority b \/
    q_priority a = q_priority b /\ q_sequence a < q_sequence b))%Z.
Proof.
  unfold queued_lt.
  rewrite orb_true_iff, andb_true_iff, orb_true_iff, andb_true_iff.
  rewrite !Z.ltb_lt, !Z.eqb_eq. tauto.
Qed.

#[export] Instance queued_ltP_trans : Transitive queued_ltP.
Proof. intros a b c. unfold queued_ltP. rewrite !queued_lt_spec. lia. Qed.

Lemma heappush_perm x h : heappush x h ≡ₚ x :: h.
Proof.
  induction h as [|y h IH]; simpl; [done|]. case_goal; [done|].
  rewrite IH. apply perm_swap.
Qed.

Lemma heappush_sorted x h :
  StronglySorted queued_ltP h -> Forall (fun y => queued_lt y x = true \/ queued_lt x y = true) h ->
  StronglySorted queued_ltP (heappush x h).
Proof.
  intros Hs Hx. induction Hs as [|y h Hs IH Hy]; simpl; [repeat constructor|].
  apply Forall_cons in Hx as [Hxy Hx]. case_goal.
  - constructor; [by constructor|]. constructor; [done|].
    eapply (Forall_impl (queued_ltP y)); [done|]. intros z Hz. by eapply queued_ltP_trans.
  - constructor; [by apply IH|]. rewrite heappush_perm. constructor; [|done].
    destruct Hxy; [done|congruence].
Qed.

Lemma push_wf e q : queue_wf q -> queue_wf (push e q).
Proof.
  intros [Hs He]. constructor; simpl.
  - apply heappush_sorted; [done|]. eapply Forall_impl; [done|].
    intros x (_ & _ & Hn). rewrite !queued_lt_spec. simpl. lia.
  - rewrite heappush_perm. constructor.
    + split_and!; simpl; [done|done|lia].
    + eapply Forall_impl; [done|]. intros x (? & ? & ?). split_and!; [done|done|lia].
Qed.

Lemma EventQueue_new_wf : queue_wf EventQueue_new.
Proof. constructor; constructor. Qed.

Lemma pop_wf q : queue_wf q -> queue_wf (pop q).1.
Proof.
  intros [Hs He]. unfold pop. destruct (heap q) as [|x h] eqn:E; simpl.
  - constructor; rewrite E; constructor.
  - apply StronglySorted_inv in Hs as [? ?]. apply Forall_cons in He as [? ?].
    by constructor.
Qed.

Definition push_all (es : list BacktestEvent) (q : EventQueue) : EventQueue :=
  fold_left (fun q e => push e q) es q.

Lemma push_all_wf es q : queue_wf q -> queue_wf (push_all es q).
Proof. revert q. induction es as [|e es IH]; intros q Hq; [done|]. by apply IH, push_wf. Qed.

(** ** Main theorems *)

(** The queue is a stable priority queue.  Popping returns an entry that
    precedes every remaining one in (timestamp, priority, insertion) order, so
    events of the same time come out market data first, then funding, signals,
    order creations and submissions, and first in first out within a kind;
    nothing is lost or duplicated. *)
Theorem queue_pops_least (q : EventQueue) (x : QueuedEvent) (h : list QueuedEvent) :
  queue_wf q -> heap q = x :: h ->
  pop q = ({| heap := h; sequence := sequence q |}, Ok (q_event x)) /\
  Forall (fun y =>
    (event_timestamp (q_event x) < event_timestamp (q_event y) \/
     event_timestamp (q_event x) = event_timestamp (q_event y) /\
     (event_priority (q_event x) < event_priority (q_event y) \/
      event_priority (q_event x) = event_priority (q_event y) /\
      q_sequence x < q_sequence y)))%Z h.
Proof.
  intros [Hs He] Eh. unfold pop. rewrite Eh in *. split; [done|].
  apply StronglySorted_inv in Hs as [_ Hs]. apply Forall_cons in He as [(E1 & E2 & _) He].
  rewrite Forall_forall in *. intros y Hy. destruct (He y Hy) as (E3 & E4 & _).
  specialize (Hs y Hy). unfold queued_ltP in Hs. rewrite queued_lt_spec in Hs.
  rewrite <- E1, <- E2, <- E3, <- E4. done.
Qed.

Definition sample_funding (t : Z) : BacktestEvent :=
  Funding {| fe_timestamp := t; fe_exchange := "x"; fe_symbol := "y";
             fe_rate := 0; fe_mark_price := 1 |}.

Lemma queue_pops_least_witness :
  let q := push_all [sample_funding 5; sample_funding 3; sample_funding 5] EventQueue_new in
  exists x h, heap q = x :: h /\ event_timestamp (q_event x) = 3%Z /\
    (pop q).2 = Ok (q_event x).
Proof.
  intros q. eexists _, _. split; [reflexivity|]. split; [reflexivity|].
  rewrite (proj1 (queue_pops_least q _ _ (push_all_wf _ _ EventQueue_new_wf) eq_refl)).
  reflexivity.
Defined.

(** Pushing adds exactly one entry, and keeps the queue in order. *)
Theorem queue_push_adds (q : EventQueue) (e : BacktestEvent) :
  queue_wf q ->
  queue_wf (push e q) /\ map q_event (heap (push e q)) ≡ₚ e :: map q_event (heap q) /\
  queue_len (push e q) = S (queue_len q).
Proof.
  intros Hq. split; [by apply push_wf|]. unfold queue_len. simpl.
  by rewrite heappush_perm.
Qed.

Lemma queue_push_adds_witness :
  let q := push_all [sample_funding 5; sample_funding 3] EventQueue_new in
  queue_wf (push (sample_funding 4) q) /\ queue_len (push (sample_funding 4) q) = 3%nat.
Proof.
  intros q. destruct (queue_push_adds q (sample_funding 4)) as (H1 & _ & H2).
  - apply push_all_wf, EventQueue_new_wf.
  - exact (conj H1 H2).
Defined.
