(* ===== verification/Engine.v ===== *)
(** * Backtest engine (services/backtest/engine.py)

    The engine owns the queue, the simulator and the ledger.  A handler is a
    computation over the record [Engine]; the callbacks it passes to
    [match_snapshot] run on the part of the engine they touch: the ledger and
    the two pending sets. *)

From Stdlib Require Import ZArith QArith Qabs Lia Lqa.
From stdpp Require Import base tactics list strings gmap sorting.
From S2P Require Import Prelude Decimals ExecutionModels Simulator Portfolio Ledger Events.

Local Open Scope Q_scope.
Local Open Scope string_scope.
Local Open Scope dec_scope.

Record RejectedSignal := {
  rs_signal_id : string;
  rs_timestamp : Z;
  rs_reason : string;
}.

Record BacktestResult := {
  processed_events : nat;
  event_trace : list (Z * string);
  r_orders : list Order;
  r_fills : list Fill;
  r_snapshots : list PortfolioSnapshot;
  r_funding : list FundingRecord;
  r_liquidations : list LiquidationDecision;
  r_rejected_signals : list RejectedSignal;
  final_cash : Decimal;
  final_equity : Decimal;
  r_run_id : string;
  r_data_snapshot_id : string;
}.

(** A Python set iterates in an order that depends on the hashes of its
    elements; all that is known is that each element comes once. *)
Class SetOrder := {
  iterate : gset InstrumentKey -> list InstrumentKey;
  iterate_elements : forall s, iterate s ≡ₚ elements s;
}.

Record Engine := {
  queue : EventQueue;
  execution : Simulator;
  portfolio : Ledger;
  order_sequence : N;
  exit_sequence : N;
  seen_signals : gset string;
  exit_pending : gset InstrumentKey;
  liquidation_pending : gset InstrumentKey;
  trace : list (Z * string);
  liquidations : list LiquidationDecision;
  rejected_signals : list RejectedSignal;
  run_id : string;
  data_snapshot_id : string;
}.

Definition Engine_new (initial_cash : Decimal)
    (rules : list (InstrumentKey * InstrumentRules)) (leverage : Decimal)
    (execution_config : option ExecutionModelConfig) (run_id data_snapshot_id : string)
  : result Engine :=
  let! portfolio := Ledger_new initial_cash rules leverage in
  Ok {| queue := EventQueue_new; execution := Simulator_new rules execution_config;
        portfolio := portfolio; order_sequence := 0; exit_sequence := 0;
        seen_signals := ∅; exit_pending := ∅; liquidation_pending := ∅; trace := [];
        liquidations := []; rejected_signals := []; run_id := run_id;
        data_snapshot_id := data_snapshot_id |}.

(** ** Assignments to attributes *)

Definition set_queue (q : EventQueue) (e : Engine) : Engine :=
  {| queue := q; execution := execution e; portfolio := portfolio e;
     order_sequence := order_sequence e; exit_sequence := exit_sequence e;
     seen_signals := seen_signals e; exit_pending := exit_pending e;
     liquidation_pending := liquidation_pending e; trace := trace e;
     liquidations := liquidations e; rejected_signals := rejected_signals e;
     run_id := run_id e; data_snapshot_id := data_snapshot_id e |}.

Definition set_execution (x : Simulator) (e : Engine) : Engine :=
  {| queue := queue e; execution := x; portfolio := portfolio e;
     order_sequence := order_sequence e; exit_sequence := exit_sequence e;
     seen_signals := seen_signals e; exit_pending := exit_pending e;
     liquidation_pending := liquidation_pending e; trace := trace e;
     liquidations := liquidations e; rejected_signals := rejected_signals e;
     run_id := run_id e; data_snapshot_id := data_snapshot_id e |}.

Definition set_portfolio (l : Ledger) (e : Engine) : Engine :=
  {| queue := queue e; execution := execution e; portfolio := l;
     order_sequence := order_sequence e; exit_sequence := exit_sequence e;
     seen_signals := seen_signals e; exit_pending := exit_pending e;
     liquidation_pending := liquidation_pending e; trace := trace e;
     liquidations := liquidations e; rejected_signals := rejected_signals e;
     run_id := run_id e; data_snapshot_id := data_snapshot_id e |}.

Definition set_sequences (orders exits : N) (seen : gset string) (e : Engine) : Engine :=
  {| queue := queue e; execution := execution e; portfolio := portfolio e;
     order_sequence := orders; exit_sequence := exits;
     seen_signals := seen; exit_pending := exit_pending e;
     liquidation_pending := liquidation_pending e; trace := trace e;
     liquidations := liquidations e; rejected_signals := rejected_signals e;
     run_id := run_id e; data_snapshot_id := data_snapshot_id e |}.

Definition set_pending (exits liqs : gset InstrumentKey) (e : Engine) : Engine :=
  {| queue := queue e; execution := execution e; portfolio := portfolio e;
     order_sequence := order_sequence e; exit_sequence := exit_sequence e;
     seen_signals := seen_signals e; exit_pending := exits;
     liquidation_pending := liqs; trace := trace e;
     liquidations := liquidations e; rejected_signals := rejected_signals e;
     run_id := run_id e; data_snapshot_id := data_snapshot_id e |}.

Definition set_logs (tr : list (Z * string)) (ls : list LiquidationDecision)
    (rs : list RejectedSignal) (e : Engine) : Engine :=
  {| queue := queue e; execution := execution e; portfolio := portfolio e;
     order_sequence := order_sequence e; exit_sequence := exit_sequence e;
     seen_signals := seen_signals e; exit_pending := exit_pending e;
     liquidation_pending := liquidation_pending e; trace := tr;
     liquidations := ls; rejected_signals := rs;
     run_id := run_id e; data_snapshot_id := data_snapshot_id e |}.

(** ** Operations *)

Definition add_event (event : BacktestEvent) (self : Engine) : Engine :=
  set_queue (push event (queue self)) self.

Definition add_events (events : list BacktestEvent) (self : Engine) : Engine :=
  fold_left (fun e ev => add_event ev e) events self.

Section EngineOps.
Context {C : DecimalContext}.

Definition on_signal (signal : SignalEvent) : M Engine unit := fun self =>
  if decide (s_signal_id signal ∈ seen_signals self)
  then (set_logs (trace self) (liquidations self)
          (rejected_signals self ++
           [{| rs_signal_id := s_signal_id signal; rs_timestamp := s_timestamp signal;
               rs_reason := "duplicate signal_id" |}])%list self, Ok tt)
  else
    let self := set_sequences (order_sequence self) (exit_sequence self)
                  ({[s_signal_id signal]} ∪ seen_signals self) self in
    (add_event (OrderCreation (s_timestamp signal + calculation_delay signal) signal) self,
     Ok tt).

Definition on_order_creation (timestamp : Z) (signal : SignalEvent) : M Engine unit :=
  fun self =>
  let self := set_sequences (order_sequence self + 1) (exit_sequence self)
                (seen_signals self) self in
  let submitted_at := (timestamp + submission_delay signal)%Z in
  match Order_new ("order-" +:+ format_012d (order_sequence self)) (s_signal_id signal)
          (s_exchange signal) (s_symbol signal) (s_side signal) (s_quantity signal)
          (s_order_type signal) (s_time_in_force signal) (Aware (s_timestamp signal))
          (Aware timestamp) (Aware submitted_at) (s_limit_price signal)
          (s_post_only signal) (s_reduce_only signal) (Aware <$> s_expires_at signal)
          (s_stop_loss signal) (s_take_profit signal) with
  | Err e => (self, Err e)
  | Ok order => (add_event (OrderSubmission submitted_at order) self, Ok tt)
  end.

Definition schedule_exit (position : Position) (timestamp : Z) (reason : string)
  : M Engine unit := fun self =>
  let key := (p_exchange position, p_symbol position) in
  let self := set_pending ({[key]} ∪ exit_pending self) (liquidation_pending self) self in
  let self := set_sequences (order_sequence self) (exit_sequence self + 1)
                (seen_signals self) self in
  let side := if p_quantity position >? 0 then SELL else BUY in
  match SignalEvent_new (Aware timestamp)
          (reason +:+ "-" +:+ format_012d (exit_sequence self))
          (p_exchange position) (p_symbol position) side (dabs (p_quantity position))
          MARKET GTC None 0 0 false true None None None reason with
  | Err e => (self, Err e)
  | Ok signal => (add_event (Signal signal) self, Ok tt)
  end.

(** The state the callbacks of [match] work on. *)
Definition CallbackState : Type := Ledger * gset InstrumentKey * gset InstrumentKey.

Definition cap (snapshot : MarketSnapshot) (p : CallbackState) (order : Order) : Decimal :=
  let price := match side order with BUY => ask snapshot | SELL => bid snapshot end in
  maximum_fill_quantity p.1.1 order price.

Definition consume (order : Order) (fill : Fill) : M CallbackState unit :=
  fun '(l, exits, liqs) =>
  match ledger_apply_fill fill (reduce_only order) (stop_loss order) (take_profit order) l with
  | (l, Err e) => ((l, exits, liqs), Err e)
  | (l, Ok _) =>
      let closed_key := (f_exchange fill, f_symbol fill) in
      let l := ensure_position closed_key l in
      if negb (is_open (position_of closed_key l))
      then ((l, exits ∖ {[closed_key]}, liqs ∖ {[closed_key]}), Ok tt)
      else ((l, exits, liqs), Ok tt)
  end.

(** [self.execution.match(snapshot, cap, consume)] *)
Definition run_match (snapshot : MarketSnapshot) : M Engine (list Fill) := fun self =>
  match match_snapshot snapshot (Some (cap snapshot)) (Some consume)
          (execution self, (portfolio self, exit_pending self, liquidation_pending self)) with
  | ((x, (l, exits, liqs)), r) =>
      (set_pending exits liqs (set_portfolio l (set_execution x self)), r)
  end.

(** The stop or target exit of the instrument of the snapshot. *)
Definition check_protection (snapshot : MarketSnapshot) : M Engine unit := fun self =>
  let key := (ms_exchange snapshot, ms_symbol snapshot) in
  match dict_get key (positions (portfolio self)) with
  | None => (self, Ok tt)
  | Some position =>
      if is_open position && negb (bool_decide (key ∈ exit_pending self)) then
        match protection_trigger position snapshot with
        | None => (self, Ok tt)
        | Some trigger => schedule_exit position (ms_timestamp snapshot) trigger self
        end
      else (self, Ok tt)
  end.

(** [for order in orders.values(): if not order.reduce_only: order.cancel(..)] *)
Definition cancel_opening_orders (x : Simulator) : Simulator :=
  with_orders (map (fun '(k, o) =>
    (k, if negb (reduce_only o) then cancel "portfolio liquidation" false o else o))
    (orders x)) x.

(** The body of the loop over the new liquidations. *)
Definition liquidation_exit (timestamp : Z) (key : InstrumentKey) : M Engine unit :=
  fun self =>
  match dict_get key (positions (portfolio self)) with
  | None => (self, Err KeyError)
  | Some position =>
      if is_open position && negb (bool_decide (key ∈ exit_pending self))
      then schedule_exit position timestamp "liquidation" self
      else (self, Ok tt)
  end.

Definition check_liquidation {SO : SetOrder} (timestamp : Z) : M Engine unit := fun self =>
  match liquidation_decision timestamp (portfolio self) with
  | None => (self, Ok tt)
  | Some liquidation =>
      let fresh : gset InstrumentKey :=
        list_to_set (ld_instruments liquidation) ∖ liquidation_pending self in
      let self :=
        if decide (fresh = ∅) then self
        else set_pending (exit_pending self) (liquidation_pending self ∪ fresh)
               (set_logs (trace self) (liquidations self ++ [liquidation])%list
                  (rejected_signals self) self) in
      let self := set_execution (cancel_opening_orders (execution self)) self in
      pfor (iterate fresh) (liquidation_exit timestamp) self
  end.

Definition on_market {SO : SetOrder} (snapshot : MarketSnapshot) : M Engine unit :=
  run! pmodify (fun self => set_portfolio (mark snapshot (portfolio self)) self);
  run! run_match snapshot;
  run! pmodify (fun self => set_portfolio (mark snapshot (portfolio self)) self);
  run! check_protection snapshot;
  run! check_liquidation (ms_timestamp snapshot);
  pmodify (fun self =>
    set_portfolio (capture (ms_timestamp snapshot) (portfolio self)) self).

Definition on_funding (event : FundingEvent) : M Engine unit := fun self =>
  match apply_funding (fe_exchange event) (fe_symbol event) (Aware (fe_timestamp event))
          (fe_rate event) (fe_mark_price event) (portfolio self) with
  | (l, Err e) => (set_portfolio l self, Err e)
  | (l, Ok _) => (set_portfolio (capture (fe_timestamp event) l) self, Ok tt)
  end.

Definition dispatch {SO : SetOrder} (event : BacktestEvent) : M Engine unit :=
  match event with
  | Market snapshot => on_market snapshot
  | Funding e => on_funding e
  | Signal s => on_signal s
  | OrderCreation t s => on_order_creation t s
  | OrderSubmission _ order => fun self =>
      let (x, r) := submit order (execution self) in
      (set_execution x self, match r with Ok _ => Ok tt | Err e => Err e end)
  end.

(** One turn of the loop: pop, trace, dispatch. *)
Definition process_next {SO : SetOrder} : M Engine unit := fun self =>
  match pop (queue self) with
  | (q, Err e) => (set_queue q self, Err e)
  | (q, Ok event) =>
      let self := set_queue q self in
      let self := set_logs (trace self ++ [(event_timestamp event, event_name event)])%list
                    (liquidations self) (rejected_signals self) self in
      dispatch event self
  end.

(** The loop of [run]; [budget] is [maximum_events - processed]. *)
Fixpoint run_loop {SO : SetOrder} (budget processed : nat) : M Engine nat := fun self =>
  if queue_nonempty (queue self) then
    match budget with
    | O => (self, Err (RuntimeError "maximum event count exceeded"))
    | S budget => pbind process_next (fun _ => run_loop budget (S processed)) self
    end
  else (self, Ok processed).

Definition backtest_result (processed : nat) (self : Engine) : BacktestResult := {|
  processed_events := processed; event_trace := trace self;
  r_orders := dict_values (orders (execution self)); r_fills := fills (execution self);
  r_snapshots := snapshots (portfolio self); r_funding := funding_records (portfolio self);
  r_liquidations := liquidations self; r_rejected_signals := rejected_signals self;
  final_cash := cash (portfolio self); final_equity := equity (portfolio self);
  r_run_id := run_id self; r_data_snapshot_id := data_snapshot_id self |}.

Definition run {SO : SetOrder} (maximum_events : Z) : M Engine BacktestResult := fun self =>
  match run_loop (Z.to_nat maximum_events) 0 self with
  | (self, Err e) => (self, Err e)
  | (self, Ok processed) => (self, Ok (backtest_result processed self))
  end.

End EngineOps.

Local Close Scope string_scope.

(** ** Invariant *)

Definition signal_wf (s : SignalEvent) : Prop :=
  s_signal_id s <> EmptyString /\ 0 < s_quantity s /\
  (0 <= calculation_delay s)%Z /\ (0 <= submission_delay s)%Z.

Definition event_wf (event : BacktestEvent) : Prop :=
  match event with
  | Signal s => signal_wf s
  | OrderCreation t s => signal_wf s /\ (s_timestamp s <= t)%Z
  | OrderSubmission _ o =>
      order_wf o /\ status o = CREATED /\ remaining_quantity o = quantity o
  | Market snapshot => snapshot_wf snapshot
  | Funding e => 0 < fe_mark_price e
  end.

(** What holds of a queued event when the clock of the run is at [now]. *)
Definition queued_wf (now : Z) (x : QueuedEvent) : Prop :=
  event_wf (q_event x) /\ (now <= event_timestamp (q_event x))%Z.

(** The ledger shares the rules of the simulator and holds positions of known
    instruments only. *)
Definition ledger_fits (rules : list (InstrumentKey * InstrumentRules)) (l : Ledger) : Prop :=
  ledger_wf l /\ l_rules l = rules /\
  forall k, k ∈ dict_keys (positions l) -> k ∈ dict_keys rules.

(** [now] is the time of the last event handled. *)
Record engine_wf `{DecimalContext} (now : Z) (e : Engine) : Prop := {
  ewf_sim : sim_wf (execution e);
  ewf_ledger : ledger_fits (sim_rules (execution e)) (portfolio e);
  ewf_queue : queue_wf (queue e);
  ewf_events : Forall (queued_wf now) (heap (queue e));
  ewf_trace : StronglySorted Z.le (map fst (trace e)) /\
              Forall (fun t => (t <= now)%Z) (map fst (trace e));
}.

Lemma SignalEvent_new_wf ts i ex sy sd q ty tif lp cd sbd po ro ea sl tp re s :
  SignalEvent_new ts i ex sy sd q ty tif lp cd sbd po ro ea sl tp re = Ok s ->
  signal_wf s /\ ts = Aware (s_timestamp s).
Proof.
  unfold SignalEvent_new, event_utc, utc_or. intros H. inv_guards H. inv_ok.
  destruct ts; [done|]. injection Ev as ->.
  rewrite ?negb_true_iff, ?orb_false_iff, ?bool_decide_eq_false, ?Z.ltb_ge in *.
  decb. destruct_and?. by split.
Qed.

Section EngineLemmas.
Context {C : DecimalContext} {L : DecimalLaws C}.

(** *** The ledger's operations keep it fitting *)

Lemma dict_keys_set_sub {K V} `{EqDecision K} (k k' : K) (v : V) d :
  k' ∈ dict_keys (dict_set k v d) -> k' = k \/ k' ∈ dict_keys d.
Proof.
  destruct (dict_get k d) eqn:E.
  - rewrite (dict_keys_set_Some _ _ _ _ E). auto.
  - rewrite dict_keys_set_None by done. set_solver.
Qed.

Lemma ensure_fits rules key l :
  key ∈ dict_keys rules -> ledger_fits rules l -> ledger_fits rules (ensure_position key l).
Proof.
  intros Hk (Hl & Hr & Hp). split_and!; [by apply ensure_position_wf| |].
  - unfold ensure_position. by case_goal.
  - unfold ensure_position. case_goal; [done|]. intros k [->|?]%dict_keys_set_sub; auto.
Qed.

Lemma apply_fill_fits rules f ro sl tp l :
  fill_wf f -> (f_exchange f, f_symbol f) ∈ dict_keys rules -> ledger_fits rules l ->
  ledger_fits rules (ledger_apply_fill f ro sl tp l).1.
Proof.
  intros Hf Hk Hl. pose proof (ensure_fits rules _ l Hk Hl) as (_ & Hr & Hp).
  split; [apply ledger_apply_fill_wf; [apply Hl|done]|].
  destruct (ledger_apply_fill_booked f ro sl tp l) as [e|e|sl' tp' p key out Hid _ _];
    [apply Hl|done|]. simpl. split; [done|].
  intros k [->|?]%dict_keys_set_sub; auto.
Qed.

Lemma mark_fits rules snap l : ledger_fits rules l -> ledger_fits rules (mark snap l).
Proof.
  intros (Hl & Hr & Hp). split; [by apply mark_wf|]. unfold mark.
  destruct (dict_get _ _) eqn:E; [|done]. case_goal; [|done]. simpl.
  by rewrite (dict_keys_set_Some _ _ _ _ E).
Qed.

Lemma apply_funding_fits rules ex sy t rate m l :
  ledger_fits rules l -> ledger_fits rules (apply_funding ex sy t rate m l).1.
Proof.
  intros (Hl & Hr & Hp). split; [by apply apply_funding_wf|]. unfold apply_funding.
  destruct t; [done|]. case_goal; [done|]. destruct (dict_get _ _) eqn:E; [|done].
  case_goal; [done|]. simpl. by rewrite (dict_keys_set_Some _ _ _ _ E).
Qed.

Lemma capture_fits rules t l : ledger_fits rules l -> ledger_fits rules (capture t l).
Proof. intros (? & ? & ?). split; [by apply capture_wf|done]. Qed.

(** *** Assignments *)

Lemma set_portfolio_wf now l e :
  engine_wf now e -> ledger_fits (sim_rules (execution e)) l ->
  engine_wf now (set_portfolio l e).
Proof. intros [] ?. by constructor. Qed.

Lemma set_execution_wf now x e :
  engine_wf now e -> sim_wf x -> sim_rules x = sim_rules (execution e) ->
  engine_wf now (set_execution x e).
Proof. intros [? Hl ? ? ?] Hx E. constructor; simpl; try done. by rewrite E. Qed.

Lemma set_pending_wf now a b e : engine_wf now e -> engine_wf now (set_pending a b e).
Proof. intros []. by constructor. Qed.

Lemma set_sequences_wf now a b c e : engine_wf now e -> engine_wf now (set_sequences a b c e).
Proof. intros []. by constructor. Qed.

Lemma set_logs_wf now ls rs e : engine_wf now e -> engine_wf now (set_logs (trace e) ls rs e).
Proof. intros []. by constructor. Qed.

Lemma add_event_wf now ev e :
  engine_wf now e -> event_wf ev -> (now <= event_timestamp ev)%Z ->
  engine_wf now (add_event ev e).
Proof.
  intros [] Hev Ht. constructor; simpl; try done; [by apply push_wf|].
  rewrite heappush_perm. by constructor.
Qed.

Lemma add_events_wf now evs e :
  engine_wf now e -> Forall (fun ev => event_wf ev /\ (now <= event_timestamp ev)%Z) evs ->
  engine_wf now (add_events evs e).
Proof.
  intros He Hevs. revert e He. induction Hevs as [|ev evs [? ?] _ IH]; intros e He; [done|].
  by apply IH, add_event_wf.
Qed.

Lemma Engine_new_wf now cash rules lev cfg i j e :
  Forall (fun r => rules_wf r.2) rules -> config_wf (default default_execution_config cfg) ->
  Engine_new cash rules lev cfg i j = Ok e -> engine_wf now e.
Proof.
  intros Hr Hc H. unfold Engine_new in H. inv_guards H. inv_ok.
  destruct (Ledger_new_wf _ _ _ _ Hr Ev) as (Hl & _ & _ & _ & Hp).
  constructor; simpl.
  - constructor; simpl; auto using NoDup_nil_2.
  - split_and!; [done| |by rewrite Hp; intros k ?%not_elem_of_nil].
    unfold Ledger_new in Ev. inv_guards Ev. by inv_ok.
  - apply EventQueue_new_wf.
  - constructor.
  - split; constructor.
Qed.

(** *** Handlers *)

Lemma on_signal_wf now s e :
  engine_wf now e -> signal_wf s -> (now <= s_timestamp s)%Z ->
  engine_wf now (on_signal s e).1.
Proof.
  intros He Hs Ht. unfold on_signal. case_decide; [by apply set_logs_wf|].
  pose proof Hs as (_ & _ & ? & _). apply add_event_wf; simpl; [|split; [done|lia]|lia].
  by apply set_sequences_wf.
Qed.

Lemma on_order_creation_wf now t s e :
  engine_wf now e -> signal_wf s -> (now <= t)%Z ->
  engine_wf now (on_order_creation t s e).1.
Proof.
  intros He (_ & _ & _ & Hd) Ht. unfold on_order_creation. cbv zeta.
  destruct (Order_new _ _ _ _ _ _ _ _ _ _ _ _ _ _ _ _ _) as [o|er] eqn:Eo;
    [|by apply set_sequences_wf].
  apply add_event_wf; [by apply set_sequences_wf|by apply Order_new_wf in Eo|simpl; lia].
Qed.

Lemma schedule_exit_wf now p t reason e :
  engine_wf now e -> (now <= t)%Z -> engine_wf now (schedule_exit p t reason e).1.
Proof.
  intros He Ht. unfold schedule_exit. cbv zeta.
  destruct (SignalEvent_new _ _ _ _ _ _ _ _ _ _ _ _ _ _ _ _ _) as [s|er] eqn:Es;
    [|by apply set_sequences_wf, set_pending_wf].
  apply SignalEvent_new_wf in Es as [Hs [= Et]].
  apply add_event_wf; [by apply set_sequences_wf, set_pending_wf|done|simpl; lia].
Qed.

Lemma consume_fits rules o f p :
  fill_wf f -> (f_exchange f, f_symbol f) ∈ dict_keys rules -> ledger_fits rules p.1.1 ->
  ledger_fits rules (consume o f p).1.1.1.
Proof.
  intros Hf Hk Hl. destruct p as [[l ex] lq]. unfold consume. simpl in Hl.
  pose proof (apply_fill_fits rules f (reduce_only o) (stop_loss o) (take_profit o) l Hf Hk Hl).
  destruct (ledger_apply_fill _ _ _ _ _) as [l1 [r|er]]; [|done].
  case_goal; simpl; by apply ensure_fits.
Qed.

Lemma run_match_wf now snap e :
  engine_wf now e -> engine_wf now (run_match snap e).1.
Proof.
  intros He. pose proof He as [Hs Hl _ _ _]. unfold run_match.
  set (p := (portfolio e, exit_pending e, liquidation_pending e)).
  pose proof (match_snapshot_wf (Some (cap snap)) (Some consume) snap (execution e) p Hs) as Hwf.
  pose proof (match_snapshot_frame (Some (cap snap)) (Some consume) snap (execution e) p Hs)
    as [Hr _].
  assert (ledger_fits (sim_rules (execution e))
    (match_snapshot snap (Some (cap snap)) (Some consume) (execution e, p)).1.2.1.1) as Hfit.
  { unfold match_snapshot. destruct (dict_get _ (sim_rules (execution e))) as [r|] eqn:Ek;
      [|done].
    assert ((ms_exchange snap, ms_symbol snap) ∈ dict_keys (sim_rules (execution e))) as Hk.
    { apply dict_get_In in Ek. by apply (list_elem_of_fmap_2 fst) in Ek. }
    pose proof (match_loop_consumer (Some (cap snap)) consume snap
      (fun _ p => ledger_fits (sim_rules (execution e)) p.1.1)
      (fun _ p => ledger_fits (sim_rules (execution e)) p.1.1) (fun _ => True)
      (fun _ _ H => H) (fun _ => I)) as H.
    specialize (H ltac:(
      intros o f fs q Hf E1 E2 Hq;
      pose proof (consume_fits _ o f q Hf ltac:(by rewrite E1, E2) Hq);
      destruct (consume o f q) as [q' [u|er]]; done)
      r (map order_id (candidates (execution e))) [] (execution e) p Hl).
    destruct (match_loop _ _ _ _ _ _ _) as [[x q] [fs|er]]; [done|by destruct H]. }
  destruct (match_snapshot _ _ _ _) as [[x [[l ex] lq]] r]. simpl in *.
  apply set_pending_wf.
  constructor; simpl; try apply He; [done|by rewrite Hr].
Qed.

Lemma check_protection_wf now snap e :
  engine_wf now e -> (now <= ms_timestamp snap)%Z ->
  engine_wf now (check_protection snap e).1.
Proof.
  intros He Ht. unfold check_protection. cbv zeta.
  repeat case_goal; try done; by apply schedule_exit_wf.
Qed.

Lemma cancel_opening_orders_wf x : sim_wf x -> sim_wf (cancel_opening_orders x).
Proof.
  intros [? ? Hk Ho ?]. constructor; simpl; auto.
  - by rewrite (dict_set_map_entries (fun o => if negb (reduce_only o) then _ else o)).
  - clear Hk. induction Ho as [|[k o] d Hb Hd IH]; simpl; constructor; [|done].
    destruct (reduce_only o); simpl; [done|].
    destruct Hb as (Hid & Hwf & Hrep). simpl in *. subst k.
    pose proof (book_entry_closes o _ (closes_cancel "portfolio liquidation" false o)) as H.
    rewrite (closes_order_id _ _ (closes_cancel _ false o)) in H. by apply H.
Qed.

Lemma liquidation_exit_wf now t k e :
  engine_wf now e -> (now <= t)%Z -> engine_wf now (liquidation_exit t k e).1.
Proof.
  intros He Ht. unfold liquidation_exit. repeat case_goal; try done.
  by apply schedule_exit_wf.
Qed.

Lemma check_liquidation_wf `{SetOrder} now t e :
  engine_wf now e -> (now <= t)%Z -> engine_wf now (check_liquidation t e).1.
Proof.
  intros He Ht. unfold check_liquidation. destruct (liquidation_decision _ _) as [ld|]; [|done].
  cbv zeta. apply (pfor_invariant (engine_wf now)); [intros; by apply liquidation_exit_wf|].
  apply set_execution_wf; case_goal; try done; try apply cancel_opening_orders_wf, He.
  apply set_pending_wf, set_logs_wf, He.
Qed.

Lemma pbind_invariant {S A B} (I : S -> Prop) (m : M S A) (k : A -> M S B) s :
  I (m s).1 -> (forall a s', I s' -> I (k a s').1) -> I (pbind m k s).1.
Proof. unfold pbind. destruct (m s) as [s1 [a|er]]; simpl; auto. Qed.

Lemma on_market_wf {SO : SetOrder} now snap e :
  engine_wf now e -> (now <= ms_timestamp snap)%Z -> engine_wf now (on_market snap e).1.
Proof.
  intros He Ht. unfold on_market.
  assert (forall s, engine_wf now s ->
    engine_wf now (set_portfolio (mark snap (portfolio s)) s)) as Hmark.
  { intros s Hs. apply set_portfolio_wf, mark_fits; [done|apply Hs]. }
  apply pbind_invariant; [by apply Hmark|]. intros _ s1 H1.
  apply pbind_invariant; [by apply run_match_wf|]. intros _ s2 H2.
  apply pbind_invariant; [by apply Hmark|]. intros _ s3 H3.
  apply pbind_invariant; [by apply check_protection_wf|]. intros _ s4 H4.
  apply pbind_invariant; [by apply check_liquidation_wf|]. intros _ s5 H5.
  apply set_portfolio_wf, capture_fits; [done|apply H5].
Qed.

Lemma on_funding_wf now f e : engine_wf now e -> engine_wf now (on_funding f e).1.
Proof.
  intros He. unfold on_funding.
  pose proof (apply_funding_fits _ (fe_exchange f) (fe_symbol f) (Aware (fe_timestamp f))
    (fe_rate f) (fe_mark_price f) _ (ewf_ledger _ _ He)) as H.
  destruct (apply_funding _ _ _ _ _ _) as [l [r|er]]; simpl in *;
    apply set_portfolio_wf; auto using capture_fits.
Qed.

Lemma submit_rules o x : sim_rules (submit o x).1 = sim_rules x.
Proof. unfold submit. repeat case_goal; done. Qed.

Lemma dispatch_wf {SO : SetOrder} now ev e :
  engine_wf now e -> event_wf ev -> (now <= event_timestamp ev)%Z ->
  engine_wf now (dispatch ev e).1.
Proof.
  intros He Hev Ht. destruct ev as [s|t s|t o|snap|f]; simpl in *.
  - by apply on_signal_wf.
  - destruct Hev. by apply on_order_creation_wf.
  - destruct Hev as (Ho & Hst & Hrem).
    pose proof (submit_wf o (execution e) (ewf_sim _ _ He) Ho Hst Hrem).
    pose proof (submit_rules o (execution e)).
    destruct (submit o (execution e)) as [x r]. by apply set_execution_wf.
  - by apply on_market_wf.
  - by apply on_funding_wf.
Qed.

(** Popping the next event moves the clock to its time. *)
Definition started (x : QueuedEvent) (h : list QueuedEvent) (e : Engine) : Engine :=
  set_logs (trace e ++ [(event_timestamp (q_event x), event_name (q_event x))])
    (liquidations e) (rejected_signals e)
    (set_queue {| heap := h; sequence := sequence (queue e) |} e).

Lemma process_next_eq {SO : SetOrder} x h e :
  heap (queue e) = x :: h -> process_next e = dispatch (q_event x) (started x h e).
Proof. intros Eh. unfold process_next, pop. by rewrite Eh. Qed.

Lemma started_wf now x h e :
  engine_wf now e -> heap (queue e) = x :: h ->
  (now <= event_timestamp (q_event x))%Z /\ event_wf (q_event x) /\
  engine_wf (event_timestamp (q_event x)) (started x h e).
Proof.
  intros [Hs Hl Hq Hev [Htr Hle]] Eh. pose proof Hq as [Hsort He].
  pose proof (pop_wf _ Hq) as Hq'. unfold pop in Hq'. rewrite Eh in *. simpl in Hq'.
  apply Forall_cons in Hev as [[Hx Hn] Hev]. split; [done|]. split; [done|].
  constructor; simpl; try done.
  - apply StronglySorted_inv in Hsort as [_ Hsort]. apply Forall_cons in He as [(E1 & _) He].
    rewrite Forall_forall in *. intros y Hy. destruct (Hev y Hy) as [Hy1 _]. split; [done|].
    specialize (Hsort y Hy). unfold queued_ltP in Hsort. rewrite queued_lt_spec in Hsort.
    destruct (He y Hy) as (E2 & _). lia.
  - rewrite map_app. simpl. split.
    + apply StronglySorted_app. split_and!; [|done|repeat constructor].
      intros a b Ha Hb%list_elem_of_singleton. subst b.
      rewrite Forall_forall in Hle. specialize (Hle a Ha). lia.
    + apply Forall_app. split; [|by repeat constructor].
      eapply Forall_impl; [exact Hle|]. simpl. intros. lia.
Qed.

Lemma process_next_wf {SO : SetOrder} now e :
  engine_wf now e -> exists now', (now <= now')%Z /\ engine_wf now' (process_next e).1.
Proof.
  intros He. destruct (heap (queue e)) as [|x h] eqn:Eh.
  - exists now. split; [lia|]. unfold process_next, pop. rewrite Eh. simpl.
    destruct He. by constructor.
  - destruct (started_wf now x h e He Eh) as (Hn & Hx & Hwf).
    exists (event_timestamp (q_event x)). split; [done|]. rewrite (process_next_eq x h) by done.
    apply dispatch_wf; [done|done|lia].
Qed.

(** A property of the engine kept by the invariant's steps holds after the
    loop, however it ends. *)
Lemma run_loop_wf {SO : SetOrder} budget processed now e :
  engine_wf now e -> exists now', (now <= now')%Z /\ engine_wf now' (run_loop budget processed e).1.
Proof.
  revert processed now e. induction budget as [|budget IH]; intros processed now e He; simpl.
  - exists now. split; [lia|]. by case_goal.
  - case_goal; [|exists now; split; [lia|done]].
    destruct (process_next_wf now e He) as (n1 & Hn1 & H1). unfold pbind.
    destruct (process_next e) as [e1 [u|er]]; simpl in *; [|by exists n1].
    destruct (IH (S processed) n1 e1 H1) as (n2 & ? & ?). exists n2. split; [lia|done].
Qed.

End EngineLemmas.

(** ** The two books *)

(** The ledger has booked all fills of the simulator but the last [n] at most. *)
Definition lag (n : nat) (e : Engine) : Prop :=
  exists late, fills (execution e) = l_fills (portfolio e) ++ late /\ (length late <= n)%nat.

Definition not_runtime (er : exn) : Prop :=
  match er with RuntimeError _ => False | _ => True end.

(** Outcomes: [I] after a normal return, [X] after an exception. *)
Definition sat {S A} (I : S -> Prop) (X : exn -> S -> Prop) (out : S * result A) : Prop :=
  match out with (s, Ok _) => I s | (s, Err er) => X er s end.

Lemma pbind_sat {S A B} (I J : S -> Prop) X (m : M S A) (k : A -> M S B) s :
  sat I X (m s) -> (forall a s', I s' -> sat J X (k a s')) -> sat J X (pbind m k s).
Proof. intros Hm Hk. unfold pbind. destruct (m s) as [s1 [a|er]]; [by apply Hk|done]. Qed.

Lemma pfor_sat {S A} (I : S -> Prop) X (body : A -> M S unit) xs :
  (forall x s, x ∈ xs -> I s -> sat I X (body x s)) ->
  forall s, I s -> sat I X (pfor xs body s).
Proof.
  induction xs as [|x xs IH]; intros Hb s Hs; [done|]. simpl.
  eapply pbind_sat; [by apply Hb; [left|]|]. intros _ s' Hs'. apply IH; [|done].
  intros y s2 Hy. apply Hb. by right.
Qed.

Section Books.
Context {C : DecimalContext} {L : DecimalLaws C}.

Definition books_ok {A} (out : Engine * result A) : Prop :=
  sat (lag 0) (fun er s => lag 1 s /\ not_runtime er) out.

Lemma lag_weaken e : lag 0 e -> lag 1 e.
Proof. intros (t & E & Ht). exists t. split; [done|lia]. Qed.

Lemma books_value_error {A} (r : result A) e :
  raises_value_error r -> lag 0 e -> books_ok (e, r).
Proof.
  intros Hr Hl. destruct r as [a|er]; [done|]. destruct Hr as [m ->].
  split; [by apply lag_weaken|done].
Qed.

Lemma SignalEvent_new_error ts i ex sy sd q ty tif lp cd sbd po ro ea sl tp re :
  raises_value_error (SignalEvent_new ts i ex sy sd q ty tif lp cd sbd po ro ea sl tp re).
Proof. unfold SignalEvent_new, event_utc, utc_or. value_errors. Qed.

Lemma Order_new_error oid sid ex sy sd q ty tif t1 t2 t3 lp po ro ea sl tp :
  raises_value_error (Order_new oid sid ex sy sd q ty tif t1 t2 t3 lp po ro ea sl tp).
Proof. unfold Order_new, opt_utc, _utc, utc_or. value_errors. Qed.

Lemma schedule_exit_books p t reason e : lag 0 e -> books_ok (schedule_exit p t reason e).
Proof.
  intros He. unfold schedule_exit. cbv zeta.
  match goal with |- context [SignalEvent_new ?a ?b ?c ?d ?e ?f ?g ?h ?i ?j ?k ?l ?m ?n ?o ?p ?q] =>
    pose proof (SignalEvent_new_error a b c d e f g h i j k l m n o p q) as H;
    destruct (SignalEvent_new a b c d e f g h i j k l m n o p q) end; [done|].
  by apply (books_value_error (Err e0)).
Qed.

Lemma protect_if_open_error p sl tp : raises_value_error (protect_if_open p sl tp).
Proof. unfold protect_if_open, set_protection. value_errors. Qed.

Lemma apply_fill_error f ro sl tp l er :
  (ledger_apply_fill f ro sl tp l).2 = Err er -> not_runtime er.
Proof.
  assert (forall p e, protect_if_open p sl tp = Err e -> not_runtime e) as Hp.
  { intros p e E. pose proof (protect_if_open_error p sl tp) as H. rewrite E in H.
    by destruct H as [m ->]. }
  unfold ledger_apply_fill. intros E. repeat case_hyp E; simpl in E; simplify_eq; eauto; done.
Qed.

Lemma apply_fill_books f ro sl tp l :
  match ledger_apply_fill f ro sl tp l with
  | (l', Ok _) => l_fills l' = l_fills l ++ [f]
  | (l', Err er) => l_fills l' = l_fills l /\ not_runtime er
  end.
Proof.
  pose proof (apply_fill_error f ro sl tp l) as He.
  destruct (ensure_frame (f_exchange f, f_symbol f) l) as (_ & Ef & _).
  destruct (ledger_apply_fill_booked f ro sl tp l) as [e|e|sl' tp' p key out Hid _ _]; simpl in *.
  - auto.
  - auto.
  - subst key. by rewrite Ef.
Qed.

Lemma run_match_books snap e : lag 0 e -> books_ok (run_match snap e).
Proof.
  intros He. unfold run_match.
  set (p := (portfolio e, exit_pending e, liquidation_pending e)).
  pose proof (match_snapshot_consumer (Some (cap snap)) consume snap
    (fun fs p => exists late, fs = l_fills p.1.1 ++ late /\ (length late <= 0)%nat)
    (fun fs p => exists late, fs = l_fills p.1.1 ++ late /\ (length late <= 1)%nat)
    not_runtime) as H.
  specialize (H ltac:(intros fs q (t & ? & ?); exists t; split; [done|lia]) (fun _ => I)).
  lapply H; clear H; [intros H|].
  - specialize (H (execution e) p He). unfold consumer_ok in H.
    destruct (match_snapshot _ _ _ _) as [[x [[l ex] lq]] [fs|er]]; exact H.
  - intros o f fs [[l ex] lq] _ _ _ (late & -> & Hlate). simpl in *.
    destruct late; simpl in Hlate; [|lia]. rewrite app_nil_r.
    pose proof (apply_fill_books f (reduce_only o) (stop_loss o) (take_profit o) l) as Hb.
    destruct (ledger_apply_fill _ _ _ _ _) as [l1 [r|er]].
    + destruct (ensure_frame (f_exchange f, f_symbol f) l1) as (_ & E & _).
      destruct (negb _); exists []; simpl; by rewrite app_nil_r, E, Hb.
    + destruct Hb as [Hb Hr]. split; [|done]. exists [f]. simpl. by rewrite Hb.
Qed.

Lemma check_protection_books snap e : lag 0 e -> books_ok (check_protection snap e).
Proof.
  intros He. unfold check_protection. cbv zeta. repeat case_goal; try done.
  by apply schedule_exit_books.
Qed.

Lemma liquidation_exit_books t k e : lag 0 e -> books_ok (liquidation_exit t k e).
Proof.
  intros He. unfold liquidation_exit. repeat case_goal; try done.
  - by apply schedule_exit_books.
  - split; [by apply lag_weaken|done].
Qed.

Lemma check_liquidation_books {SO : SetOrder} t e : lag 0 e -> books_ok (check_liquidation t e).
Proof.
  intros He. unfold check_liquidation. destruct (liquidation_decision _ _) as [ld|]; [|done].
  cbv zeta. apply pfor_sat; [intros; by apply liquidation_exit_books|]. by case_goal.
Qed.

Lemma mark_fills snap l : l_fills (mark snap l) = l_fills l.
Proof. unfold mark. by repeat case_goal. Qed.

Lemma dispatch_books {SO : SetOrder} ev e : lag 0 e -> books_ok (dispatch ev e).
Proof.
  intros He. destruct ev as [s|t s|t o|snap|f]; simpl.
  - unfold on_signal. by case_goal.
  - unfold on_order_creation. cbv zeta.
    match goal with |- context [Order_new ?a ?b ?c ?d ?e ?f ?g ?h ?i ?j ?k ?l ?m ?n ?o ?p ?q] =>
      pose proof (Order_new_error a b c d e f g h i j k l m n o p q) as H;
      destruct (Order_new a b c d e f g h i j k l m n o p q) end; [done|].
    by apply (books_value_error (Err e0)).
  - assert (fills (submit o (execution e)).1 = fills (execution e) /\
      raises_value_error (submit o (execution e)).2) as [Hf Hr].
    { unfold submit, quantize_limit_price. repeat case_goal; simpl in *; simplify_eq; eauto.
      case_hyp Heqr; simplify_eq. eauto. }
    destruct (submit o (execution e)) as [x r]. simpl in *.
    destruct He as (late & E & Hl).
    apply books_value_error; [by destruct r|]. exists late. simpl. by rewrite Hf, E.
  - assert (forall s, lag 0 s -> books_ok (pmodify (fun self =>
      set_portfolio (mark snap (portfolio self)) self) s)) as Hm.
    { intros s (late & E & Hl). exists late. simpl. by rewrite mark_fills. }
    unfold on_market. eapply pbind_sat; [by apply Hm|]. intros _ s1 H1.
    eapply pbind_sat; [by apply run_match_books|]. intros _ s2 H2.
    eapply pbind_sat; [by apply Hm|]. intros _ s3 H3.
    eapply pbind_sat; [by apply check_protection_books|]. intros _ s4 H4.
    eapply pbind_sat; [by apply check_liquidation_books|]. intros _ s5 H5. exact H5.
  - unfold on_funding.
    match goal with |- context [apply_funding ?a ?b ?c ?d ?g ?l] =>
      assert (l_fills (apply_funding a b c d g l).1 = l_fills l /\
              raises_value_error (apply_funding a b c d g l).2) as [Hf Hr];
      [unfold apply_funding; repeat case_goal; simpl; eauto|
       destruct (apply_funding a b c d g l) as [l1 [r|er]]] end; simpl in *;
      destruct He as (late & E & Hl).
    + exists late. simpl. by rewrite Hf.
    + destruct Hr as [m ->]. split; [|done]. apply lag_weaken. exists late. simpl. by rewrite Hf.
Qed.

End Books.

(** ** Termination

    Every event has a weight that exceeds the total weight of the events its
    handler may push: a signal leads to one order creation and that to one
    submission, and a snapshot may schedule one exit signal per instrument. *)

Definition rule_keys (e : Engine) : gset InstrumentKey :=
  list_to_set (dict_keys (sim_rules (execution e))).

Definition event_weight (instruments : nat) (event : BacktestEvent) : nat :=
  match event with
  | Market _ => 1 + 3 * instruments
  | Signal _ => 3
  | OrderCreation _ _ => 2
  | OrderSubmission _ _ | Funding _ => 1
  end.

Definition weight (e : Engine) : nat :=
  sum_list_with (fun x => event_weight (size (rule_keys e)) (q_event x)) (heap (queue e)).

(** The weight plus that of the exits that can still be scheduled. *)
Definition exit_slack (e : Engine) : nat :=
  weight e + 3 * (size (rule_keys e) - size (exit_pending e ∩ rule_keys e)).

Section Termination.
Context {C : DecimalContext} {L : DecimalLaws C}.

Lemma add_event_weight ev e :
  weight (add_event ev e) = (event_weight (size (rule_keys e)) ev + weight e)%nat.
Proof. unfold weight. simpl. rewrite heappush_perm. done. Qed.

Lemma schedule_exit_slack p t reason e :
  (p_exchange p, p_symbol p) ∈ rule_keys e -> (p_exchange p, p_symbol p) ∉ exit_pending e ->
  (exit_slack (schedule_exit p t reason e).1 <= exit_slack e)%nat.
Proof.
  intros Hk Hn. unfold schedule_exit. cbv zeta.
  set (key := (p_exchange p, p_symbol p)) in *.
  assert (size (({[key]} ∪ exit_pending e) ∩ rule_keys e) =
          S (size (exit_pending e ∩ rule_keys e))) as Hsize.
  { replace (({[key]} ∪ exit_pending e) ∩ rule_keys e)
      with ({[key]} ∪ (exit_pending e ∩ rule_keys e)) by set_solver.
    rewrite size_union, size_singleton by set_solver. done. }
  assert (size (({[key]} ∪ exit_pending e) ∩ rule_keys e) <= size (rule_keys e))%nat as Hle
    by (apply subseteq_size; set_solver).
  unfold exit_slack. case_goal; cbn [fst].
  - rewrite add_event_weight.
    change (rule_keys (add_event _ _)) with (rule_keys e).
    change (rule_keys (set_sequences _ _ _ _)) with (rule_keys e).
    change (weight (set_sequences _ _ _ _)) with (weight e). simpl. lia.
  - change (rule_keys (set_sequences _ _ _ _)) with (rule_keys e).
    change (weight (set_sequences _ _ _ _)) with (weight e). simpl. lia.
Qed.

Lemma position_key_known now e k p :
  engine_wf now e -> dict_get k (positions (portfolio e)) = Some p ->
  k = (p_exchange p, p_symbol p) /\ k ∈ rule_keys e.
Proof.
  intros [_ (Hl & _ & Hp) _ _ _] Hk.
  destruct (dict_get_Forall _ _ _ _ (lwf_positions _ Hl) Hk) as [? _]. split; [done|].
  apply elem_of_list_to_set, Hp. apply dict_get_In in Hk.
  by apply (list_elem_of_fmap_2 fst) in Hk.
Qed.

Lemma check_protection_slack now snap e :
  engine_wf now e -> (exit_slack (check_protection snap e).1 <= exit_slack e)%nat.
Proof.
  intros He. unfold check_protection. cbv zeta.
  destruct (dict_get _ _) as [p|] eqn:Ep; [|done].
  destruct (position_key_known _ _ _ _ He Ep) as [Ek Hk].
  destruct (is_open p && _) eqn:Eo; [|done]. case_goal; [|done].
  apply andb_true_iff in Eo as [_ Eo]. rewrite negb_true_iff, bool_decide_eq_false in Eo.
  rewrite Ek in Eo, Hk. by apply schedule_exit_slack.
Qed.

Lemma liquidation_exit_slack now t k e :
  engine_wf now e -> (exit_slack (liquidation_exit t k e).1 <= exit_slack e)%nat.
Proof.
  intros He. unfold liquidation_exit. destruct (dict_get _ _) as [p|] eqn:Ep; [|done].
  destruct (position_key_known _ _ _ _ He Ep) as [Ek Hk].
  destruct (is_open p && _) eqn:Eo; [|done].
  apply andb_true_iff in Eo as [_ Eo]. rewrite negb_true_iff, bool_decide_eq_false in Eo.
  rewrite Ek in Eo, Hk. by apply schedule_exit_slack.
Qed.

Lemma check_liquidation_slack {SO : SetOrder} now t e :
  engine_wf now e -> (now <= t)%Z ->
  (exit_slack (check_liquidation t e).1 <= exit_slack e)%nat.
Proof.
  intros He Ht. unfold check_liquidation. destruct (liquidation_decision _ _) as [ld|]; [|done].
  cbv zeta.
  apply (pfor_invariant (fun s => engine_wf now s /\ (exit_slack s <= exit_slack e)%nat)).
  - intros k s _ [Hs Hle]. split; [by apply liquidation_exit_wf|].
    pose proof (liquidation_exit_slack now t k s Hs). lia.
  - split; [|by case_goal].
    apply set_execution_wf; case_goal; try done; try apply cancel_opening_orders_wf, He.
    apply set_pending_wf, set_logs_wf, He.
Qed.

Lemma run_match_weight now snap e :
  engine_wf now e -> weight (run_match snap e).1 = weight e /\
  rule_keys (run_match snap e).1 = rule_keys e.
Proof.
  intros He. unfold run_match, weight, rule_keys.
  set (p := (portfolio e, exit_pending e, liquidation_pending e)).
  pose proof (match_snapshot_frame (Some (cap snap)) (Some consume) snap (execution e) p
    (ewf_sim _ _ He)) as [Hr _].
  destruct (match_snapshot _ _ _ _) as [[x [[l ex] lq]] r]. simpl in *. by rewrite Hr.
Qed.

Lemma sat_always {S A} (I : S -> Prop) (out : S * result A) :
  I out.1 <-> sat I (fun _ => I) out.
Proof. by destruct out as [s [a|er]]. Qed.

(** The handler of a snapshot adds at most one exit signal per instrument. *)
Lemma on_market_weight {SO : SetOrder} now snap e :
  engine_wf now e -> (now <= ms_timestamp snap)%Z ->
  (weight (on_market snap e).1 <= weight e + 3 * size (rule_keys e))%nat.
Proof.
  intros He Ht. set (B := (weight e + 3 * size (rule_keys e))%nat).
  pose (I1 s := engine_wf now s /\ weight s = weight e /\ rule_keys s = rule_keys e).
  pose (I2 s := engine_wf now s /\ (exit_slack s <= B)%nat).
  assert (forall s, I1 s -> I1 (set_portfolio (mark snap (portfolio s)) s)) as Hmark.
  { intros s [Hs ?]. split; [|done]. apply set_portfolio_wf, mark_fits; [done|apply Hs]. }
  assert (forall s, I1 s -> I2 s) as H12.
  { intros s (Hs & Hw & Hr). split; [done|]. unfold exit_slack. rewrite Hw, Hr. lia. }
  assert (forall {A} (out : Engine * result A), I2 out.1 -> sat I2 (fun _ => I2) out) as Hsat
    by (intros A out; by rewrite <- sat_always).
  assert (I2 (on_market snap e).1) as [_ H].
  { apply sat_always. unfold on_market.
    eapply (pbind_sat I1); [by apply Hmark|]. intros _ s1 H1.
    eapply (pbind_sat I1).
    { pose proof (run_match_wf now snap s1 (proj1 H1)) as Hw.
      destruct (run_match_weight now snap s1 (proj1 H1)) as [E1 E2].
      assert (I1 (run_match snap s1).1) as Hi by (split_and!; [done|..]; destruct H1 as (?&?&?); congruence).
      destruct (run_match snap s1) as [s2 [fs|er]]; [exact Hi|by apply H12]. }
    intros _ s2 H2. eapply (pbind_sat I2); [by apply H12, Hmark|]. intros _ s3 [H3 Hs3].
    eapply (pbind_sat I2).
    { apply Hsat. split; [by apply check_protection_wf|].
      pose proof (check_protection_slack now snap s3 H3). lia. }
    intros _ s4 [H4 Hs4]. eapply (pbind_sat I2).
    { apply Hsat. split; [by apply check_liquidation_wf|].
      pose proof (check_liquidation_slack now (ms_timestamp snap) s4 H4 Ht). lia. }
    intros _ s5 [H5 Hs5]. split; [|done].
    apply set_portfolio_wf, capture_fits; [done|apply H5]. }
  unfold exit_slack in H. lia.
Qed.

Lemma process_next_weight {SO : SetOrder} now e x h :
  engine_wf now e -> heap (queue e) = x :: h -> (weight (process_next e).1 < weight e)%nat.
Proof.
  intros He Eh. destruct (started_wf now x h e He Eh) as (Hn & Hx & Hwf).
  rewrite (process_next_eq x h) by done.
  assert (weight e = event_weight (size (rule_keys e)) (q_event x) + weight (started x h e))%nat
    as -> by (unfold weight; by rewrite Eh).
  set (s := started x h e) in *. change (rule_keys e) with (rule_keys s). clearbody s.
  destruct (q_event x) as [sg|t sg|t o|snap|f]; cbn [dispatch event_weight].
  - unfold on_signal. case_goal; [change (weight (_, Ok tt).1) with (weight s); lia|].
    cbn [fst]. rewrite add_event_weight. change (weight (set_sequences _ _ _ s)) with (weight s).
    simpl. lia.
  - unfold on_order_creation. cbv zeta. case_goal; cbn [fst].
    + rewrite add_event_weight. change (weight (set_sequences _ _ _ s)) with (weight s).
      simpl. lia.
    + change (weight (set_sequences _ _ _ s)) with (weight s). lia.
  - pose proof (submit_rules o (execution s)) as Hr.
    destruct (submit o (execution s)) as [y r]. cbn [fst] in *. unfold weight, rule_keys.
    simpl. rewrite Hr. lia.
  - pose proof (on_market_weight _ snap s Hwf). simpl in *. lia.
  - unfold on_funding. destruct (apply_funding _ _ _ _ _ _) as [l [r|er]]; cbn [fst];
      change (weight (set_portfolio _ s)) with (weight s); lia.
Qed.

End Termination.

(** ** One order per signal *)

Definition event_signals (event : BacktestEvent) : list string :=
  match event with
  | OrderCreation _ s => [s_signal_id s]
  | OrderSubmission _ o => [signal_id o]
  | _ => []
  end.

(** The signals that have an order in the book or on its way to it. *)
Definition pending_signals (e : Engine) : list string :=
  flat_map (fun x => event_signals (q_event x)) (heap (queue e)) ++
  map snd (book_signals (execution e)).

Definition signals_once (e : Engine) : Prop :=
  NoDup (pending_signals e) /\ Forall (fun i => i ∈ seen_signals e) (pending_signals e).

Section Signals.
Context {C : DecimalContext} {L : DecimalLaws C}.

(** Same signals, in some order. *)
Definition same_signals (e s : Engine) : Prop :=
  pending_signals s ≡ₚ pending_signals e /\ seen_signals s = seen_signals e.

Lemma same_signals_once e s : same_signals e s -> signals_once e -> signals_once s.
Proof. intros [Hp Hs] [Hn Hf]. unfold signals_once. by rewrite Hp, Hs. Qed.

Lemma add_event_signals ev e :
  pending_signals (add_event ev e) ≡ₚ event_signals ev ++ pending_signals e.
Proof.
  unfold pending_signals. simpl. rewrite heappush_perm. simpl. by rewrite <- app_assoc.
Qed.

Lemma schedule_exit_signals p t reason e : same_signals e (schedule_exit p t reason e).1.
Proof.
  unfold schedule_exit. cbv zeta. case_goal; cbn [fst]; split; try done.
  by rewrite add_event_signals.
Qed.

Lemma run_match_signals now snap e :
  engine_wf now e -> same_signals e (run_match snap e).1.
Proof.
  intros He. unfold run_match, same_signals, pending_signals.
  set (p := (portfolio e, exit_pending e, liquidation_pending e)).
  pose proof (match_snapshot_frame (Some (cap snap)) (Some consume) snap (execution e) p
    (ewf_sim _ _ He)) as [_ Hb].
  destruct (match_snapshot _ _ _ _) as [[x [[l ex] lq]] r]. simpl in *. by rewrite Hb.
Qed.

Lemma check_protection_signals snap e : same_signals e (check_protection snap e).1.
Proof.
  unfold check_protection. cbv zeta. repeat case_goal; try done. apply schedule_exit_signals.
Qed.

Lemma liquidation_exit_signals t k e : same_signals e (liquidation_exit t k e).1.
Proof. unfold liquidation_exit. repeat case_goal; try done. apply schedule_exit_signals. Qed.

Lemma same_signals_trans e1 e2 e3 :
  same_signals e1 e2 -> same_signals e2 e3 -> same_signals e1 e3.
Proof. intros [H1 H2] [H3 H4]. split; [by rewrite H3|congruence]. Qed.

Lemma cancel_opening_orders_signals x :
  book_signals (cancel_opening_orders x) = book_signals x.
Proof.
  unfold book_signals, cancel_opening_orders, with_orders. simpl.
  induction (orders x) as [|[k o] d IH]; [done|]. simpl. rewrite IH.
  unfold cancel. by repeat case_goal.
Qed.

Lemma check_liquidation_signals {SO : SetOrder} t e : same_signals e (check_liquidation t e).1.
Proof.
  unfold check_liquidation. destruct (liquidation_decision _ _) as [ld|]; [|done]. cbv zeta.
  apply (pfor_invariant (same_signals e)).
  - intros k s _ Hs. eapply same_signals_trans; [done|apply liquidation_exit_signals].
  - unfold same_signals, pending_signals. simpl.
    rewrite cancel_opening_orders_signals. by case_goal.
Qed.

Lemma on_market_signals {SO : SetOrder} now snap e :
  engine_wf now e -> (now <= ms_timestamp snap)%Z -> same_signals e (on_market snap e).1.
Proof.
  intros He Ht. pose (I s := engine_wf now s /\ same_signals e s).
  assert (forall s, I s -> I (set_portfolio (mark snap (portfolio s)) s)) as Hmark.
  { intros s [Hs ?]. split; [|done]. apply set_portfolio_wf, mark_fits; [done|apply Hs]. }
  assert (I (on_market snap e).1) as [_ H]; [|done].
  unfold on_market. apply (pbind_invariant I); [by apply Hmark|]. intros _ s1 [H1 E1].
  apply (pbind_invariant I).
  { split; [by apply run_match_wf|].
    eapply same_signals_trans; [done|by eapply run_match_signals]. }
  intros _ s2 H2. apply (pbind_invariant I); [by apply Hmark|]. intros _ s3 [H3 E3].
  apply (pbind_invariant I).
  { split; [by apply check_protection_wf|].
    eapply same_signals_trans; [done|apply check_protection_signals]. }
  intros _ s4 [H4 E4]. apply (pbind_invariant I).
  { split; [by apply check_liquidation_wf|].
    eapply same_signals_trans; [done|apply check_liquidation_signals]. }
  intros _ s5 [H5 E5]. split; [|done]. apply set_portfolio_wf, capture_fits; [done|apply H5].
Qed.

(** Submitting adds the order's signal to the book, or raises on a duplicate
    order id. *)
Lemma submit_signals o x :
  map snd (book_signals (submit o x).1) = map snd (book_signals x) ++ [signal_id o] \/
  book_signals (submit o x).1 = book_signals x.
Proof.
  unfold submit. destruct (dict_mem (order_id o) (orders x)) eqn:Em; [by right|left].
  assert (forall o', order_id o' = order_id o -> signal_id o' = signal_id o ->
    map snd (book_signals (store_order o' x)) = map snd (book_signals x) ++ [signal_id o])
    as Hst.
  { intros o' Hi Hs. unfold dict_mem in Em. destruct (dict_get _ _) eqn:Eg; [done|].
    unfold book_signals. simpl. rewrite Hi. clear Em. revert Eg.
    induction (orders x) as [|[k v] d IH]; simpl; [by rewrite Hs|].
    case_decide; [done|]. intros Eg. simpl. by rewrite IH. }
  repeat case_goal; simpl; apply Hst; unfold reject; by try case_goal.
Qed.

Lemma process_next_signals {SO : SetOrder} now e x h :
  engine_wf now e -> signals_once e -> heap (queue e) = x :: h ->
  signals_once (process_next e).1.
Proof.
  intros He [Hnd Hseen] Eh. destruct (started_wf now x h e He Eh) as (Hn & Hx & Hwf).
  rewrite (process_next_eq x h) by done.
  assert (pending_signals e = event_signals (q_event x) ++ pending_signals (started x h e))
    as Ep by (unfold pending_signals; rewrite Eh; simpl; by rewrite app_assoc).
  rewrite Ep in Hnd, Hseen. change (seen_signals e) with (seen_signals (started x h e)) in Hseen.
  set (s := started x h e) in *. clearbody s. clear Ep Eh He.
  apply NoDup_app in Hnd as (_ & Hdis & Hnd). apply Forall_app in Hseen as [Hs0 Hseen].
  assert (signals_once s) as Hone by done.
  destruct (q_event x) as [sg|t sg|t o|snap|f]; cbn [dispatch].
  - unfold on_signal. case_decide as Hin; [done|]. cbn [fst]. unfold signals_once.
    rewrite add_event_signals. simpl.
    change (pending_signals (set_sequences _ _ _ s)) with (pending_signals s).
    rewrite NoDup_cons, Forall_cons. rewrite Forall_forall in Hseen. split_and!; [|done|set_solver|].
    + intros H. by apply Hseen in H.
    + apply Forall_forall. intros i Hi. specialize (Hseen i Hi). set_solver.
  - unfold on_order_creation. cbv zeta. case_goal; cbn [fst]; [|done].
    assert (signal_id a = s_signal_id sg) as E.
    { unfold Order_new in Heqr. inv_guards Heqr. by inv_ok. }
    unfold signals_once. rewrite add_event_signals. simpl. rewrite E.
    change (pending_signals (set_sequences _ _ _ s)) with (pending_signals s).
    rewrite NoDup_cons. split_and!; [apply Hdis; left|done|]; apply (Forall_app_2 _ [_]); done.
  - pose proof (submit_signals o (execution s)) as Hsub.
    destruct (submit o (execution s)) as [y r]. cbn [fst] in *.
    destruct Hsub as [Hsub|Hsub].
    + assert (pending_signals (set_execution y s) ≡ₚ signal_id o :: pending_signals s) as Hp.
      { unfold pending_signals. simpl. rewrite Hsub. rewrite app_assoc.
        by rewrite <- Permutation_cons_append. }
      unfold signals_once. rewrite Hp. simpl. rewrite NoDup_cons.
      split_and!; [apply Hdis; left|done|]; apply (Forall_app_2 _ [_]); done.
    + apply (same_signals_once s); [|done]. split; [|done].
      unfold pending_signals. simpl. by rewrite Hsub.
  - eapply same_signals_once; [|done]. eapply on_market_signals; [done|simpl; lia].
  - unfold on_funding. by destruct (apply_funding _ _ _ _ _ _) as [l [r|er]].
Qed.

End Signals.

(** ** Whole runs *)

Section Runs.
Context {C : DecimalContext} {L : DecimalLaws C} {SO : SetOrder}.

Lemma queue_nonempty_cons q : queue_nonempty q = true -> exists x h, heap q = x :: h.
Proof. unfold queue_nonempty. destruct (heap q); [done|eauto]. Qed.

(** With a budget of at least the weight the loop drains the queue, or stops at
    an exception of a handler. *)
Lemma run_loop_drains budget processed now e :
  engine_wf now e -> lag 0 e -> (weight e <= budget)%nat ->
  sat (fun s => lag 0 s /\ heap (queue s) = []) (fun er s => lag 1 s /\ not_runtime er)
    (run_loop budget processed e).
Proof.
  revert processed now e. induction budget as [|budget IH]; intros processed now e He Hl Hw; simpl.
  - case_goal; simpl.
    + apply queue_nonempty_cons in Heqb as (x & h & Eh).
      pose proof (process_next_weight now e x h He Eh). lia.
    + split; [done|]. unfold queue_nonempty in Heqb. by destruct (heap (queue e)).
  - case_goal; simpl.
    + apply queue_nonempty_cons in Heqb as (x & h & Eh).
      pose proof (process_next_weight now e x h He Eh) as Hd.
      destruct (process_next_wf now e He) as (n1 & _ & H1).
      assert (books_ok (process_next e)) as Hb.
      { rewrite (process_next_eq x h) by done. by apply dispatch_books. }
      unfold pbind. destruct (process_next e) as [e1 [u|er]]; simpl in *; [|done].
      apply (IH _ n1); [done|done|lia].
    + split; [done|]. unfold queue_nonempty in Heqb. by destruct (heap (queue e)).
Qed.

Lemma run_loop_signals budget processed now e :
  engine_wf now e -> signals_once e -> signals_once (run_loop budget processed e).1.
Proof.
  revert processed now e. induction budget as [|budget IH]; intros processed now e He Hs; simpl.
  - by case_goal.
  - case_goal; [|done]. apply queue_nonempty_cons in Heqb as (x & h & Eh).
    pose proof (process_next_signals now e x h He Hs Eh) as H1.
    destruct (process_next_wf now e He) as (n1 & _ & H2). unfold pbind.
    destruct (process_next e) as [e1 [u|er]]; simpl in *; [|done]. by eapply IH.
Qed.

Lemma run_loop_books budget processed e :
  lag 0 e -> sat (lag 0) (fun _ => lag 1) (run_loop budget processed e).
Proof.
  revert processed e. induction budget as [|budget IH]; intros processed e Hl; simpl.
  - case_goal; simpl; [by apply lag_weaken|done].
  - case_goal; [|done]. unfold pbind. pose proof Heqb as Hq.
    apply queue_nonempty_cons in Hq as (x & h & Eh).
    assert (books_ok (process_next e)) as Hb.
    { rewrite (process_next_eq x h) by done. by apply dispatch_books. }
    destruct (process_next e) as [e1 [u|er]]; simpl in *; [by apply IH|apply Hb].
Qed.

End Runs.

(** ** A concrete backtest *)

#[export] Instance elements_order : SetOrder :=
  {| iterate := elements; iterate_elements := fun s => Permutation_refl _ |}.

Local Open Scope string_scope.

Definition sample_signal (i : string) (t : Z) (sd : Side) (q : Decimal)
    (sl : option Decimal) : SignalEvent := {|
  s_timestamp := t; s_signal_id := i; s_exchange := "hyperliquid"; s_symbol := "BTC";
  s_side := sd; s_quantity := q; s_order_type := MARKET; s_time_in_force := GTC;
  s_limit_price := None; calculation_delay := 5; submission_delay := 5;
  s_post_only := false; s_reduce_only := false; s_expires_at := None;
  s_stop_loss := sl; s_take_profit := None; s_reason := "strategy" |}.

Definition sample_market (t : Z) (price : Decimal) : BacktestEvent := Market {|
  ms_exchange := "hyperliquid"; ms_symbol := "BTC"; ms_timestamp := t;
  bid := price; ask := price + (1 # 10); bid_quantity := 50; ask_quantity := 40;
  last_price := None; trade_quantity := None; ms_mark_price := None |}.

Definition sample_engine0 : Engine := {|
  queue := EventQueue_new;
  execution := Simulator_new [(sample_key, sample_rules)] None;
  portfolio := sample_ledger0; order_sequence := 0; exit_sequence := 0;
  seen_signals := ∅; exit_pending := ∅; liquidation_pending := ∅; trace := [];
  liquidations := []; rejected_signals := []; run_id := "run"; data_snapshot_id := "data" |}.

(** A purchase, the same signal again, and a fall through the stop loss. *)
Definition sample_events : list BacktestEvent := [
  sample_market 1000 100; Signal (sample_signal "a" 1000 BUY 2 (Some 95));
  Signal (sample_signal "a" 1500 BUY 2 None); sample_market 2000 100;
  sample_market 3000 90; sample_market 4000 91].

Definition sample_engine : Engine := add_events sample_events sample_engine0.

Local Close Scope string_scope.

Lemma sample_engine_wf {C : DecimalContext} {L : DecimalLaws C} : engine_wf 0 sample_engine.
Proof.
  apply add_events_wf.
  - constructor; simpl; [|split_and!; [apply sample_ledger0_wf|done|set_solver]|
      apply EventQueue_new_wf|constructor|split; constructor].
    apply new_sim_wf. repeat constructor; apply sample_rules_wf.
  - repeat constructor; simpl; try (reflexivity || discriminate || lia).
Qed.

Lemma sample_engine_lag : lag 0 sample_engine.
Proof. exists []. split; [reflexivity|simpl; lia]. Qed.

(** ** Main theorems *)

(** Chronology and causality of a run.  However a run ends, the events it
    handled are in order of time, the invariants of queue, simulator and ledger
    hold, and every fill follows the submission, creation and signal of its
    order in time, strictly after the submission. *)
Theorem run_chronological {C : DecimalContext} {L : DecimalLaws C} {SO : SetOrder}
    (maximum_events now : Z) (e : Engine) :
  engine_wf now e ->
  let e' := (run maximum_events e).1 in
  StronglySorted Z.le (map fst (trace e')) /\
  queue_wf (queue e') /\ sim_wf (execution e') /\ ledger_wf (portfolio e') /\
  Forall (fun f => f_signal_at f <= order_created_at f <= f_submitted_at f /\
                   f_submitted_at f < filled_at f)%Z (fills (execution e')).
Proof.
  intros He. destruct (run_loop_wf (Z.to_nat maximum_events) 0 now e He) as (n & _ & H).
  unfold run. destruct (run_loop _ _ _) as [e' [k|er]]; simpl in *;
    destruct H as [Hs (Hl & _) Hq _ [Ht _]]; split_and!; try done;
    (eapply Forall_impl; [apply Hs|]); unfold fill_wf; simpl; tauto.
Qed.

Lemma run_chronological_witness :
  let C := default_context in
  let e' := (run 100 sample_engine).1 in
  length (fills (execution e')) = 2%nat /\ StronglySorted Z.le (map fst (trace e')).
Proof.
  intros C e'. split; [vm_compute; reflexivity|].
  refine (proj1 (run_chronological (C := C) 100 0 sample_engine _)). apply sample_engine_wf.
Defined.

Definition books_outcome (out : Engine * result BacktestResult) : Prop :=
  match out with
  | (e', Ok res) => r_fills res = l_fills (portfolio e')
  | (e', Err _) => exists late,
      fills (execution e') = l_fills (portfolio e') ++ late /\ (length late <= 1)%nat
  end.

(** C5: the two books agree.  After a run that returns, the ledger has booked
    exactly the fills of the simulator, in order; when a run raises, the ledger
    misses the simulator's last fill at most. *)
Theorem books_agree {C : DecimalContext} {L : DecimalLaws C} {SO : SetOrder}
    (maximum_events : Z) (e : Engine) :
  lag 0 e ->
  books_outcome (run maximum_events e).
Proof.
  intros Hl. pose proof (run_loop_books (Z.to_nat maximum_events) 0 e Hl) as H. unfold run.
  destruct (run_loop _ _ _) as [e' [k|er]]; simpl in *; [|done].
  destruct H as (late & -> & Hlen). destruct late; [by rewrite app_nil_r|simpl in Hlen; lia].
Qed.

Lemma books_agree_witness :
  let C := default_context in
  is_ok (run 100 sample_engine).2 = true /\ length (fills (execution (run 100 sample_engine).1)) = 2%nat /\
  books_outcome (run 100 sample_engine).
Proof.
  intros C. split; [vm_compute; reflexivity|]. split; [vm_compute; reflexivity|].
  exact (books_agree (C := C) 100 sample_engine sample_engine_lag).
Defined.

Definition drained (out : Engine * result BacktestResult) : Prop :=
  match out with
  | (e', Ok res) => heap (queue e') = []
  | (_, Err (RuntimeError _)) => False
  | (_, Err _) => True
  end.

(** C39: a run terminates by itself.  When [maximum_events] is at least the
    weight of the queue (three per signal, one per funding event, and one plus
    three per instrument for each snapshot), the run never raises "maximum event
    count exceeded": it drains the queue and returns, or stops at an exception
    of a handler. *)
Theorem run_terminates {C : DecimalContext} {L : DecimalLaws C} {SO : SetOrder}
    (maximum_events now : Z) (e : Engine) :
  engine_wf now e -> lag 0 e -> (Z.of_nat (weight e) <= maximum_events)%Z ->
  drained (run maximum_events e).
Proof.
  intros He Hl Hw.
  pose proof (run_loop_drains (Z.to_nat maximum_events) 0 now e He Hl ltac:(lia)) as H.
  unfold run. destruct (run_loop _ _ _) as [e' [k|er]]; simpl in *; [apply H|].
  destruct H as [_ H]. by destruct er.
Qed.

Lemma run_terminates_witness :
  let C := default_context in
  weight sample_engine = 22%nat /\ is_ok (run 22 sample_engine).2 = true /\
  drained (run 22 sample_engine).
Proof.
  intros C. split; [vm_compute; reflexivity|]. split; [vm_compute; reflexivity|].
  refine (run_terminates (C := C) 22 0 sample_engine sample_engine_wf sample_engine_lag _).
  vm_compute. discriminate.
Defined.

(** One order per signal.  If every order in the book or on its way has its
    own, already seen signal id, this still holds after a run: a signal that is
    delivered again creates no second order. *)
Theorem one_order_per_signal {C : DecimalContext} {L : DecimalLaws C} {SO : SetOrder}
    (maximum_events now : Z) (e : Engine) :
  engine_wf now e -> signals_once e ->
  let e' := (run maximum_events e).1 in
  signals_once e' /\
  NoDup (map signal_id (dict_values (orders (execution e')))).
Proof.
  intros He Hs.
  pose proof (run_loop_signals (Z.to_nat maximum_events) 0 now e He Hs) as H.
  assert ((run maximum_events e).1 = (run_loop (Z.to_nat maximum_events) 0 e).1) as ->.
  { unfold run. by destruct (run_loop _ _ _) as [e' [k|er]]. }
  split; [done|]. destruct H as [Hnd _]. unfold pending_signals in Hnd.
  apply NoDup_app in Hnd as (_ & _ & Hnd). unfold book_signals in Hnd.
  rewrite map_map in Hnd. simpl in Hnd. unfold dict_values. by rewrite map_map.
Qed.

Lemma one_order_per_signal_witness :
  let C := default_context in
  let e' := (run 100 sample_engine).1 in
  length (rejected_signals e') = 1%nat /\
  map signal_id (dict_values (orders (execution e'))) =
    ["a"; "stop_loss-000000000001"]%string /\
  NoDup (map signal_id (dict_values (orders (execution e')))).
Proof.
  intros C e'. split; [vm_compute; reflexivity|]. split; [vm_compute; reflexivity|].
  refine (proj2 (one_order_per_signal (C := C) 100 0 sample_engine _ _)).
  - apply sample_engine_wf.
  - split; vm_compute; constructor.
Defined.

(** A stop that cannot be retried.  A long position of 0.12 bought at about 100
    with a stop at 95 meets a fall to 80: the exit is scheduled, but its order
    is rejected at the next snapshot because 0.12 * 80 is below the minimum
    notional of 10.  The instrument stays in the pending set, so no later
    snapshot schedules another exit, however far the price falls. *)
Example rejected_exit_not_retried :
  let C := default_context in
  let events := [sample_market 1000 100;
                 Signal (sample_signal "a" 1000 BUY (12 # 100) (Some 95));
                 sample_market 2000 100; sample_market 3000 80; sample_market 4000 80;
                 sample_market 5000 50; sample_market 6000 20] in
  let e' := (run 100 (add_events events sample_engine0)).1 in
  bool_decide (sample_key ∈ exit_pending e') = true /\
  is_open (position_of sample_key (portfolio e')) = true /\
  map status (dict_values (orders (execution e'))) = [FILLED; REJECTED] /\
  exit_sequence e' = 1%N.
Proof. vm_compute. repeat split. Qed.
