(* ===== verification/RiskModels.v ===== *)
(** * Strategy signals and risk data (domain/strategies/models.py,
      domain/regimes/models.py, domain/risk/models.py)

    A [float] field is represented by the decimal value of its shortest
    representation, the number [Decimal(str(x))] denotes: distinct floats have
    distinct representations in the same order, so comparisons and [min] of
    floats agree with those of the represented values.  Non-finite floats occur
    only where the code checks for them.  A pydantic [ValidationError] is a
    [ValueError]; its message is abbreviated to the first violated rule. *)

From Stdlib Require Import ZArith QArith Qabs Lia Lqa.
From stdpp Require Import base tactics list strings gmap.
From S2P Require Import Prelude Decimals.

Local Open Scope Q_scope.
Local Open Scope string_scope.
Local Open Scope dec_scope.

(** ** Regimes and signals *)

Inductive Regime :=
| TREND_UP | TREND_DOWN | RANGE | HIGH_VOLATILITY | LOW_VOLATILITY | LONG_SQUEEZE
| SHORT_SQUEEZE | LIQUIDATION_CASCADE | FLASH_CRASH | FUNDING_EXTREME_POSITIVE
| FUNDING_EXTREME_NEGATIVE | OI_EXPANSION | OI_CONTRACTION | SPOT_LED_MOVE
| PERP_LED_MOVE | RISK_OFF | UNKNOWN.
#[export] Instance Regime_eq_dec : EqDecision Regime.
Proof. solve_decision. Defined.

Inductive StrategyName :=
| TREND_FOLLOWING | MEAN_REVERSION | FLASH_CRASH_REVERSAL | FUNDING_EXTREME
| RELATIVE_STRENGTH.

Inductive SignalSide := S_BUY | S_SELL | S_FLAT.
#[export] Instance SignalSide_eq_dec : EqDecision SignalSide.
Proof. solve_decision. Defined.

Inductive SignalIntent := ENTRY | EXIT | REDUCE.
#[export] Instance SignalIntent_eq_dec : EqDecision SignalIntent.
Proof. solve_decision. Defined.

Inductive pyfloat := Finite (q : Q) | NonFinite.
Definition isfinite (x : pyfloat) : bool := match x with Finite _ => true | NonFinite => false end.

Record StrategySignal := {
  sg_signal_id : string;
  sg_timestamp : Z;
  sg_strategy : StrategyName;
  sg_symbol : string;
  sg_exchange : option string;
  sg_side : SignalSide;
  sg_intent : SignalIntent;
  strength : Decimal;
  confidence : Decimal;
  suggested_risk_fraction : Decimal;
  primary_regime : Regime;
  secondary_regimes : list Regime;
  sg_data_quality_score : Decimal;
  valid_until : Z;
  evidence : list string;
  feature_snapshot : list (string * option pyfloat);
}.

(** [lo <= x <= hi] and [lo < x <= hi] of pydantic fields *)
Definition in_closed (lo x hi : Decimal) : bool := (lo <=? x) && (x <=? hi).
Definition in_open_closed (lo x hi : Decimal) : bool := (lo <? x) && (x <=? hi).

Definition StrategySignal_new (signal_id : string) (timestamp : datetime)
    (strategy : StrategyName) (symbol : string) (exchange : option string)
    (side : SignalSide) (intent : SignalIntent)
    (strength confidence suggested_risk_fraction : Decimal) (primary_regime : Regime)
    (secondary_regimes : list Regime) (data_quality_score : Decimal)
    (valid_until : datetime) (evidence : list string)
    (feature_snapshot : list (string * option pyfloat)) : result StrategySignal :=
  require! (16 <=? String.length signal_id)%nat && (String.length signal_id <=? 64)%nat
    else ValueError "signal_id";
  let! timestamp := utc_or "signal timestamps must be timezone-aware" timestamp in
  require! (1 <=? String.length symbol)%nat else ValueError "symbol";
  require! in_closed 0 strength 1 else ValueError "strength";
  require! in_closed 0 confidence 1 else ValueError "confidence";
  require! in_open_closed 0 suggested_risk_fraction (1 # 100)
    else ValueError "suggested_risk_fraction";
  require! in_closed 0 data_quality_score 1 else ValueError "data_quality_score";
  let! valid_until := utc_or "signal timestamps must be timezone-aware" valid_until in
  require! negb (bool_decide (evidence = [])) else ValueError "evidence";
  require! forallb (fun '(_, v) => match v with Some x => isfinite x | None => true end)
             feature_snapshot
    else ValueError "non-finite feature values";
  require! (timestamp <? valid_until)%Z
    else ValueError "valid_until must be later than timestamp";
  require! match side with
           | S_FLAT => (strength =? 0) && negb (bool_decide (intent = ENTRY))
           | _ => strength >? 0
           end
    else ValueError (match side with
                     | S_FLAT => "flat signals must be non-entry signals with zero strength"
                     | _ => "actionable signals require positive strength"
                     end);
  Ok {| sg_signal_id := signal_id; sg_timestamp := timestamp; sg_strategy := strategy;
        sg_symbol := symbol; sg_exchange := exchange; sg_side := side; sg_intent := intent;
        strength := strength; confidence := confidence;
        suggested_risk_fraction := suggested_risk_fraction;
        primary_regime := primary_regime; secondary_regimes := secondary_regimes;
        sg_data_quality_score := data_quality_score; valid_until := valid_until;
        evidence := evidence; feature_snapshot := feature_snapshot |}.

(** ** Limits *)

Inductive SizingMethod :=
| CONSERVATIVE_MINIMUM | FIXED_FRACTIONAL | VOLATILITY_TARGETING | ATR_BASED | MAXIMUM_LOSS.
#[export] Instance SizingMethod_eq_dec : EqDecision SizingMethod.
Proof. solve_decision. Defined.

Definition sizing_value (m : SizingMethod) : string :=
  match m with
  | CONSERVATIVE_MINIMUM => "conservative_minimum"
  | FIXED_FRACTIONAL => "fixed_fractional"
  | VOLATILITY_TARGETING => "volatility_targeting"
  | ATR_BASED => "atr_based"
  | MAXIMUM_LOSS => "maximum_loss"
  end.

Inductive RiskHaltReason :=
| MANUAL_KILL_SWITCH | DAILY_LOSS | WEEKLY_LOSS | MAX_DRAWDOWN | CONSECUTIVE_LOSSES
| DATA_ANOMALY | API_UNHEALTHY | WEBSOCKET_DISCONNECTED | PRICE_DIVERGENCE
| SPREAD_ANOMALY | COOLDOWN.
#[export] Instance RiskHaltReason_eq_dec : EqDecision RiskHaltReason.
Proof. solve_decision. Defined.

Definition halt_value (r : RiskHaltReason) : string :=
  match r with
  | MANUAL_KILL_SWITCH => "manual_kill_switch"
  | DAILY_LOSS => "daily_loss_limit"
  | WEEKLY_LOSS => "weekly_loss_limit"
  | MAX_DRAWDOWN => "maximum_drawdown"
  | CONSECUTIVE_LOSSES => "consecutive_losses"
  | DATA_ANOMALY => "data_anomaly"
  | API_UNHEALTHY => "api_unhealthy"
  | WEBSOCKET_DISCONNECTED => "websocket_disconnected"
  | PRICE_DIVERGENCE => "price_divergence"
  | SPREAD_ANOMALY => "spread_anomaly"
  | COOLDOWN => "cooldown"
  end.

Definition all_halts : list RiskHaltReason :=
  [MANUAL_KILL_SWITCH; DAILY_LOSS; WEEKLY_LOSS; MAX_DRAWDOWN; CONSECUTIVE_LOSSES;
   DATA_ANOMALY; API_UNHEALTHY; WEBSOCKET_DISCONNECTED; PRICE_DIVERGENCE; SPREAD_ANOMALY;
   COOLDOWN].
Definition halt_of_value (s : string) : option RiskHaltReason :=
  List.find (fun r => bool_decide (halt_value r = s)) all_halts.

#[export] Program Instance RiskHaltReason_countable : Countable RiskHaltReason :=
  inj_countable halt_value halt_of_value _.
Next Obligation. by intros []. Qed.

Record RiskLimits := {
  maximum_leverage : Decimal;
  maximum_risk_per_trade : Decimal;
  maximum_daily_loss : Decimal;
  maximum_weekly_loss : Decimal;
  maximum_drawdown : Decimal;
  maximum_gross_exposure : Decimal;
  maximum_symbol_exposure : Decimal;
  maximum_exchange_exposure : Decimal;
  maximum_positions : Z;
  maximum_consecutive_losses : Z;
  minimum_data_quality : Decimal;
  minimum_signal_confidence : Decimal;
  maximum_spread_fraction : Decimal;
  maximum_price_divergence_fraction : Decimal;
  cooldown_seconds : Z;
  annual_volatility_target : Decimal;
  atr_multiple : Decimal;
  maximum_loss_floor_fraction : Decimal;
  sizing_method : SizingMethod;
}.

Definition default_limits : RiskLimits := {|
  maximum_leverage := 1; maximum_risk_per_trade := 25 # 10000;
  maximum_daily_loss := 1 # 100; maximum_weekly_loss := 3 # 100;
  maximum_drawdown := 8 # 100; maximum_gross_exposure := 1;
  maximum_symbol_exposure := 35 # 100; maximum_exchange_exposure := 1 # 2;
  maximum_positions := 3; maximum_consecutive_losses := 5;
  minimum_data_quality := 8 # 10; minimum_signal_confidence := 6 # 10;
  maximum_spread_fraction := 5 # 1000; maximum_price_divergence_fraction := 2 # 100;
  cooldown_seconds := 1800; annual_volatility_target := 1 # 10; atr_multiple := 2;
  maximum_loss_floor_fraction := 1 # 100; sizing_method := CONSERVATIVE_MINIMUM |}.

Definition in_range (lo x hi : Z) : bool := (lo <=? x)%Z && (x <=? hi)%Z.

(** Field ranges, then [exposure_limits_must_be_consistent]. *)
Definition RiskLimits_validate (self : RiskLimits) : result RiskLimits :=
  require! in_open_closed 0 (maximum_leverage self) 1 else ValueError "maximum_leverage";
  require! in_open_closed 0 (maximum_risk_per_trade self) (1 # 100)
    else ValueError "maximum_risk_per_trade";
  require! in_open_closed 0 (maximum_daily_loss self) (5 # 100)
    else ValueError "maximum_daily_loss";
  require! in_open_closed 0 (maximum_weekly_loss self) (1 # 10)
    else ValueError "maximum_weekly_loss";
  require! in_open_closed 0 (maximum_drawdown self) (2 # 10) else ValueError "maximum_drawdown";
  require! in_open_closed 0 (maximum_gross_exposure self) 1
    else ValueError "maximum_gross_exposure";
  require! in_open_closed 0 (maximum_symbol_exposure self) 1
    else ValueError "maximum_symbol_exposure";
  require! in_open_closed 0 (maximum_exchange_exposure self) 1
    else ValueError "maximum_exchange_exposure";
  require! in_range 1 (maximum_positions self) 20 else ValueError "maximum_positions";
  require! in_range 1 (maximum_consecutive_losses self) 20
    else ValueError "maximum_consecutive_losses";
  require! in_closed 0 (minimum_data_quality self) 1 else ValueError "minimum_data_quality";
  require! in_closed 0 (minimum_signal_confidence self) 1
    else ValueError "minimum_signal_confidence";
  require! in_open_closed 0 (maximum_spread_fraction self) (5 # 100)
    else ValueError "maximum_spread_fraction";
  require! in_open_closed 0 (maximum_price_divergence_fraction self) (2 # 10)
    else ValueError "maximum_price_divergence_fraction";
  require! in_range 1 (cooldown_seconds self) 86400 else ValueError "cooldown_seconds";
  require! in_open_closed 0 (annual_volatility_target self) (1 # 2)
    else ValueError "annual_volatility_target";
  require! in_closed 1 (atr_multiple self) 10 else ValueError "atr_multiple";
  require! in_open_closed 0 (maximum_loss_floor_fraction self) (1 # 10)
    else ValueError "maximum_loss_floor_fraction";
  require! negb (maximum_symbol_exposure self >? maximum_gross_exposure self)
    else ValueError "symbol exposure cannot exceed gross exposure";
  require! negb (maximum_exchange_exposure self >? maximum_gross_exposure self)
    else ValueError "exchange exposure cannot exceed gross exposure";
  require! negb (maximum_weekly_loss self <? maximum_daily_loss self)
    else ValueError "weekly loss limit cannot be below the daily limit";
  Ok self.

(** ** State *)

Record RiskState := {
  rk_timestamp : Z;
  rk_equity : Decimal;
  peak_equity : Decimal;
  day_start_equity : Decimal;
  week_start_equity : Decimal;
  realized_pnl_today : Decimal;
  realized_pnl_week : Decimal;
  rk_gross_exposure : Decimal;
  symbol_exposures : list (string * Decimal);
  exchange_exposures : list (string * Decimal);
  open_positions : Z;
  consecutive_losses : Z;
  rk_data_quality_score : Decimal;
  data_healthy : bool;
  api_healthy : bool;
  websocket_connected : bool;
  spread_fraction : Decimal;
  price_divergence_fraction : Decimal;
}.

Definition exposures_non_negative (d : list (string * Decimal)) : bool :=
  negb (existsb (fun '(_, v) => v <? 0) d).

(** The validators of [RiskState], on a normalised timestamp. *)
Definition RiskState_validate (self : RiskState) : result RiskState :=
  require! (rk_equity self >? 0) && (peak_equity self >? 0) && (day_start_equity self >? 0)
           && (week_start_equity self >? 0) else ValueError "equity";
  require! rk_gross_exposure self >=? 0 else ValueError "gross_exposure";
  require! exposures_non_negative (symbol_exposures self)
           && exposures_non_negative (exchange_exposures self)
    else ValueError "exposures must be non-negative absolute notionals";
  require! (0 <=? open_positions self)%Z && (0 <=? consecutive_losses self)%Z
    else ValueError "counts";
  require! in_closed 0 (rk_data_quality_score self) 1 else ValueError "data_quality_score";
  require! (spread_fraction self >=? 0) && (price_divergence_fraction self >=? 0)
    else ValueError "fractions";
  require! negb (peak_equity self <? rk_equity self)
    else ValueError "peak_equity cannot be below current equity";
  Ok self.

Section RiskStateProps.
Context {C : DecimalContext}.

Definition daily_loss_fraction (self : RiskState) : Decimal :=
  dmax (dneg (realized_pnl_today self) ⊘ day_start_equity self) 0.
Definition weekly_loss_fraction (self : RiskState) : Decimal :=
  dmax (dneg (realized_pnl_week self) ⊘ week_start_equity self) 0.
Definition drawdown_fraction (self : RiskState) : Decimal :=
  dmax ((peak_equity self ⊖ rk_equity self) ⊘ peak_equity self) 0.

End RiskStateProps.

(** ** Results *)

(** The text of a reason; the ones with formatted numbers keep the numbers. *)
Inductive Reason :=
| Text (s : string)
| ConfidenceBelow (observed minimum : Decimal)
| DataQualityBelow (observed minimum : Decimal)
| DailyLossReached (fraction : Decimal)
| WeeklyLossReached (fraction : Decimal)
| DrawdownReached (fraction : Decimal)
| ConsecutiveLossesReached (n : Z)
| SpreadAbnormal (fraction : Decimal)
| DivergenceAbnormal (fraction : Decimal)
| SymbolExhausted (symbol : string)
| BreakerActive (reasons : list RiskHaltReason)
| NotionalBelowMinimum (notional minimum : Decimal).

#[export] Instance Q_eq_dec : EqDecision Q.
Proof. solve_decision. Defined.
#[export] Instance Reason_eq_dec : EqDecision Reason.
Proof. solve_decision. Defined.

Record PositionSizingResult := {
  accepted : bool;
  z_quantity : Decimal;
  z_notional : Decimal;
  risk_amount : Decimal;
  binding_constraint : string;
  candidate_notionals : list (string * Decimal);
  z_reason : Reason;
}.

Definition PositionSizingResult_validate (self : PositionSizingResult)
  : result PositionSizingResult :=
  require! (z_quantity self >=? 0) && (z_notional self >=? 0) && (risk_amount self >=? 0)
    else ValueError "sizes must be non-negative";
  require! accepted self || (z_quantity self =? 0) && (z_notional self =? 0)
    else ValueError "rejected sizing results must have zero quantity and notional";
  Ok self.

Record RiskDecision := {
  decision_id : string;
  allowed : bool;
  reasons : list Reason;
  sizing : option PositionSizingResult;
  evaluated_at : Z;
  breaker_reasons : list RiskHaltReason;
}.

Definition RiskDecision_validate (self : RiskDecision) : result RiskDecision :=
  require! (8 <=? String.length (decision_id self))%nat
           && (String.length (decision_id self) <=? 160)%nat else ValueError "decision_id";
  require! negb (bool_decide (reasons self = [])) else ValueError "reasons";
  require! match sizing self with
           | Some z => negb (allowed self) || accepted z
           | None => true
           end
    else ValueError "allowed risk decision cannot contain rejected sizing";
  Ok self.

Record CircuitBreakerStatus := {
  active : bool;
  cb_reasons : list RiskHaltReason;
  cb_details : list (RiskHaltReason * string);
  cb_tripped_at : option Z;
  cb_resume_at : option Z;
  cb_requires_manual_reset : bool;
}.

Local Close Scope string_scope.

(** ** What validation establishes *)

Definition limits_wf (l : RiskLimits) : Prop :=
  0 < maximum_leverage l /\ 0 < maximum_risk_per_trade l /\ 0 < maximum_gross_exposure l /\
  0 < maximum_symbol_exposure l /\ 0 < maximum_exchange_exposure l /\
  0 < maximum_daily_loss l /\ maximum_daily_loss l <= maximum_weekly_loss l /\
  0 < maximum_drawdown l /\ 0 < annual_volatility_target l /\ 1 <= atr_multiple l /\
  0 < maximum_loss_floor_fraction l /\ (1 <= cooldown_seconds l)%Z /\
  (1 <= maximum_positions l)%Z.

Definition risk_state_wf (s : RiskState) : Prop :=
  0 < rk_equity s /\ rk_equity s <= peak_equity s /\ 0 < day_start_equity s /\
  0 < week_start_equity s /\ 0 <= rk_gross_exposure s /\
  Forall (fun e => 0 <= e.2) (symbol_exposures s) /\
  Forall (fun e => 0 <= e.2) (exchange_exposures s).

Definition strategy_signal_wf (s : StrategySignal) : Prop :=
  (16 <= String.length (sg_signal_id s) <= 64)%nat /\
  0 <= strength s /\ strength s <= 1 /\ 0 <= confidence s /\ confidence s <= 1 /\
  0 < suggested_risk_fraction s /\ suggested_risk_fraction s <= 1 # 100 /\
  (sg_side s <> S_FLAT -> 0 < strength s) /\
  (sg_side s = S_FLAT -> sg_intent s <> ENTRY).

Ltac split_andb :=
  repeat match goal with
  | H : _ && _ = true |- _ => apply andb_true_iff in H as [? ?]
  | H : negb _ = true |- _ => apply negb_true_iff in H
  | H : _ || _ = false |- _ => apply orb_false_iff in H as [? ?]
  end.

Lemma RiskLimits_validate_wf l l' : RiskLimits_validate l = Ok l' -> l' = l /\ limits_wf l.
Proof.
  unfold RiskLimits_validate, limits_wf, in_open_closed, in_closed, in_range. intros H.
  repeat match type of H with (if ?b then _ else _) = _ =>
    let E := fresh "E" in destruct b eqn:E; [|discriminate H] end.
  injection H as <-. split; [done|]. split_andb. decb. rewrite !Z.leb_le in *.
  split_and!; try done.
Qed.

Lemma exposures_non_negative_spec d :
  exposures_non_negative d = true -> Forall (fun e => 0 <= e.2) d.
Proof.
  unfold exposures_non_negative. rewrite negb_true_iff. induction d as [|[k v] d IH]; simpl.
  - constructor.
  - rewrite orb_false_iff. intros [Hv Hd]. constructor; [by apply dltb_ge in Hv|auto].
Qed.

Lemma RiskState_validate_wf s s' : RiskState_validate s = Ok s' -> s' = s /\ risk_state_wf s.
Proof.
  unfold RiskState_validate, risk_state_wf. intros H.
  repeat match type of H with (if ?b then _ else _) = _ =>
    let E := fresh "E" in destruct b eqn:E; [|discriminate H] end.
  injection H as <-. split; [done|]. split_andb. decb.
  split_and!; auto using exposures_non_negative_spec.
Qed.

Lemma StrategySignal_new_wf i t st sy ex sd it sr c rf pr sec dq vu evd fs s :
  StrategySignal_new i t st sy ex sd it sr c rf pr sec dq vu evd fs = Ok s ->
  strategy_signal_wf s.
Proof.
  unfold StrategySignal_new, strategy_signal_wf, in_closed, in_open_closed, utc_or.
  intros H. destruct t as [|t]; [by repeat case_hyp H|]. cbn [rbind] in H.
  destruct vu as [|vu]; [by repeat case_hyp H|]. cbn [rbind] in H.
  repeat match type of H with (if ?b then _ else _) = _ =>
    let E := fresh "E" in destruct b eqn:E; [|discriminate H] end.
  injection H as <-. simpl. split_andb. rewrite ?Nat.leb_le in *. decb.
  split_and!; try done; destruct sd; split_andb; decb; try done.
  by rewrite bool_decide_eq_false in *.
Qed.
