(* ===== verification/Sizing.v ===== *)
(** * Position sizing (domain/risk/sizing.py) *)

From Stdlib Require Import ZArith QArith Qabs Qround Lia Lqa.
From stdpp Require Import base tactics list strings sets.
From S2P Require Import Prelude Decimals ExecutionModels RiskModels.

Local Open Scope Q_scope.
Local Open Scope string_scope.
Local Open Scope dec_scope.

Definition reject_sizing (reason : Reason) (candidates : list (string * Decimal))
    (binding_constraint : string) (risk_amount : Decimal) : result PositionSizingResult :=
  PositionSizingResult_validate {|
    accepted := false; z_quantity := ZERO; z_notional := ZERO; risk_amount := risk_amount;
    binding_constraint := binding_constraint; candidate_notionals := candidates;
    z_reason := reason |}.

(** [self._reject(reason)] *)
Definition reject_input (reason : string) : result PositionSizingResult :=
  reject_sizing (Text reason) [] "invalid_input" ZERO.

(** [min(d.items(), key=lambda item: item[1])]: the first minimal item. *)
Fixpoint min_item_from (best : string * Decimal) (items : list (string * Decimal))
  : string * Decimal :=
  match items with
  | [] => best
  | x :: items => min_item_from (if x.2 <? best.2 then x else best) items
  end.

Definition min_item (items : list (string * Decimal)) : result (string * Decimal) :=
  match items with
  | [] => Err (ValueError "min() iterable argument is empty")
  | x :: items => Ok (min_item_from x items)
  end.

Definition exposure_names : list string :=
  ["gross_exposure"; "leverage"; "symbol_exposure"; "exchange_exposure"].

Definition select_candidates (limits : RiskLimits) (candidates : list (string * Decimal))
  : result (list (string * Decimal)) :=
  let always := List.filter (fun '(name, _) => bool_decide (name ∈ exposure_names)) candidates in
  match sizing_method limits with
  | CONSERVATIVE_MINIMUM => Ok candidates
  | m =>
      match dict_get (sizing_value m) candidates with
      | None => Err (ValueError (sizing_value m +:+ " sizing requires an unavailable input"))
      | Some requested => Ok ((sizing_value m, requested) :: always)
      end
  end.

Section Sizing.
Context {C : DecimalContext}.

Definition exposure_of (key : string) (d : list (string * Decimal)) : Decimal :=
  default ZERO (dict_get key d).

(** The exposure headroom candidates. *)
Definition exposure_candidates (limits : RiskLimits) (signal : StrategySignal)
    (state : RiskState) : list (string * Decimal) :=
  let headroom limit used := dmax (rk_equity state ⊗ limit ⊖ used) ZERO in
  [("gross_exposure", headroom (maximum_gross_exposure limits) (rk_gross_exposure state));
   ("leverage", headroom (maximum_leverage limits) (rk_gross_exposure state));
   ("symbol_exposure", headroom (maximum_symbol_exposure limits)
      (exposure_of (sg_symbol signal) (symbol_exposures state)));
   ("exchange_exposure", headroom (maximum_exchange_exposure limits)
      (exposure_of (default EmptyString (sg_exchange signal)) (exchange_exposures state)))].

(** The end of [size], once the candidates are known. *)
Definition size_from (limits : RiskLimits) (entry_price : Decimal)
    (lot_size minimum_notional : option Decimal) (risk_amount : Decimal)
    (candidates : list (string * Decimal)) : result PositionSizingResult :=
  let! selected := select_candidates limits candidates in
  let! binding := min_item selected in
  let capped_notional := binding.2 in
  if (capped_notional <=? 0) || (risk_amount <=? 0)
  then reject_sizing (Text "risk or exposure budget is exhausted") candidates binding.1 risk_amount
  else
    let quantity := capped_notional ⊘ entry_price in
    let quantity := match lot_size with
                    | Some lot => to_integral_floor (quantity ⊘ lot) ⊗ lot
                    | None => quantity
                    end in
    let notional := quantity ⊗ entry_price in
    if quantity <=? 0
    then reject_sizing (Text "quantity rounds to zero at configured lot size")
           candidates binding.1 risk_amount
    else if match minimum_notional with Some m => notional <? m | None => false end
    then reject_sizing (NotionalBelowMinimum notional (default 0 minimum_notional))
           candidates binding.1 risk_amount
    else PositionSizingResult_validate {|
      accepted := true; z_quantity := quantity; z_notional := notional;
      risk_amount := risk_amount; binding_constraint := binding.1;
      candidate_notionals := candidates;
      z_reason := Text "sized to the most conservative active constraint" |}.

Definition risk_amount_of (limits : RiskLimits) (signal : StrategySignal) (state : RiskState)
  : Decimal :=
  let risk_fraction := dmin (suggested_risk_fraction signal) (maximum_risk_per_trade limits) in
  let evidence_scale := dmin (strength signal) (confidence signal) in
  rk_equity state ⊗ risk_fraction ⊗ evidence_scale.

Definition size (limits : RiskLimits) (signal : StrategySignal) (entry_price : Decimal)
    (stop_price : option Decimal) (state : RiskState) (atr : option Decimal)
    (annualized_volatility : option Decimal) (lot_size minimum_notional : option Decimal)
  : result PositionSizingResult :=
  if entry_price <=? 0 then reject_input "entry price must be positive"
  else match stop_price with
  | None => reject_input "a distinct positive stop price is required"
  | Some stop =>
      if (stop <=? 0) || (stop =? entry_price)
      then reject_input "a distinct positive stop price is required"
      else if bool_decide (sg_side signal = S_BUY) && (stop >=? entry_price)
      then reject_input "buy entry stop must be below entry price"
      else if bool_decide (sg_side signal = S_SELL) && (stop <=? entry_price)
      then reject_input "sell entry stop must be above entry price"
      else if match lot_size with Some lot => lot <=? 0 | None => false end
      then reject_input "lot_size must be positive"
      else if match minimum_notional with Some m => m <? 0 | None => false end
      then reject_input "minimum_notional cannot be negative"
      else
        let risk_amount := risk_amount_of limits signal state in
        let stop_fraction := dabs (entry_price ⊖ stop) ⊘ entry_price in
        let candidates :=
          [(sizing_value FIXED_FRACTIONAL, risk_amount ⊘ stop_fraction);
           (sizing_value MAXIMUM_LOSS,
            risk_amount ⊘ dmax stop_fraction (maximum_loss_floor_fraction limits))] in
        if match atr with Some a => a <=? 0 | None => false end
        then reject_input "ATR must be positive when supplied"
        else
          let candidates := match atr with
            | Some a => (candidates ++ [(sizing_value ATR_BASED,
                risk_amount ⊘ (atr_multiple limits ⊗ a ⊘ entry_price))])%list
            | None => candidates
            end in
          if match annualized_volatility with Some v => v <=? 0 | None => false end
          then reject_input "annualized volatility must be positive when supplied"
          else
            let candidates := match annualized_volatility with
              | Some v => (candidates ++ [(sizing_value VOLATILITY_TARGETING,
                  rk_equity state ⊗ annual_volatility_target limits ⊘ v)])%list
              | None => candidates
              end in
            size_from limits entry_price lot_size minimum_notional risk_amount
              (candidates ++ exposure_candidates limits signal state)%list
  end.

End Sizing.

Local Close Scope string_scope.

(** ** Lemmas *)

Lemma min_item_from_spec items : forall best,
  let m := min_item_from best items in
  m ∈ best :: items /\ m.2 <= best.2 /\ Forall (fun x => m.2 <= x.2) items.
Proof.
  induction items as [|x items IH]; intros best; simpl; [repeat split; [left|lra|constructor]|].
  destruct (IH (if x.2 <? best.2 then x else best)) as (Hin & Hle & Hf).
  set (m := min_item_from _ _) in *.
  assert (m.2 <= x.2 /\ m.2 <= best.2) as [H1 H2].
  { destruct (x.2 <? best.2) eqn:E; decb; lra. }
  split_and!; [|done|by constructor].
  destruct (x.2 <? best.2); set_solver.
Qed.

Lemma min_item_spec items m :
  min_item items = Ok m -> m ∈ items /\ Forall (fun x => m.2 <= x.2) items.
Proof.
  destruct items as [|x items]; [done|]. intros [= <-].
  destruct (min_item_from_spec items x) as (? & ? & ?). split; [done|by constructor].
Qed.

(** Every exposure candidate takes part in the minimum, whatever the method. *)
Lemma select_candidates_exposure l cs sel n v :
  select_candidates l cs = Ok sel -> n ∈ exposure_names -> (n, v) ∈ cs -> (n, v) ∈ sel.
Proof.
  unfold select_candidates. intros H Hn Hin.
  assert ((n, v) ∈ List.filter (fun '(name, _) => bool_decide (name ∈ exposure_names)) cs) as Hf.
  { apply list_elem_of_In, List.filter_In. split; [by apply list_elem_of_In|].
    by apply bool_decide_eq_true. }
  destruct (sizing_method l); [by inv_ok|..]; case_hyp H; inv_ok; by right.
Qed.

(** The chosen method takes part in the minimum. *)
Lemma select_candidates_method l cs sel :
  select_candidates l cs = Ok sel ->
  match sizing_method l with
  | CONSERVATIVE_MINIMUM => sel = cs
  | m => exists v, dict_get (sizing_value m) cs = Some v /\ (sizing_value m, v) ∈ sel
  end.
Proof.
  unfold select_candidates. intros H.
  destruct (sizing_method l); [by inv_ok|..]; case_hyp H; inv_ok;
    eexists; (split; [done|left]).
Qed.

Section SizingLemmas.
Context {C : DecimalContext} {L : DecimalLaws C}.

Lemma reject_sizing_rejected r cs b ra z :
  reject_sizing r cs b ra = Ok z -> accepted z = false.
Proof.
  unfold reject_sizing, PositionSizingResult_validate. intros H. repeat case_hyp H; inv_ok; done.
Qed.

Lemma reject_sizing_ok r cs b ra : 0 <= ra -> exists z, reject_sizing r cs b ra = Ok z.
Proof.
  intros Hra. unfold reject_sizing, PositionSizingResult_validate, ZERO. simpl.
  rewrite (proj2 (dleb_le 0 ra)) by done. simpl. eauto.
Qed.

(** The quantity the capped notional buys. *)
Definition sized_quantity (entry : Decimal) (lot : option Decimal) (capped : Decimal) : Decimal :=
  match lot with
  | Some lot => to_integral_floor (capped ⊘ entry ⊘ lot) ⊗ lot
  | None => capped ⊘ entry
  end.

Lemma size_from_accepted l entry lot mn ra cs z :
  size_from l entry lot mn ra cs = Ok z -> accepted z = true ->
  exists sel b, select_candidates l cs = Ok sel /\ min_item sel = Ok b /\
    0 < b.2 /\ 0 < ra /\ z_quantity z = sized_quantity entry lot b.2 /\ 0 < z_quantity z /\
    z_notional z = z_quantity z ⊗ entry /\ risk_amount z = ra /\
    match mn with Some m => m <= z_notional z | None => True end.
Proof.
  unfold size_from. intros H Ha. inv_guards H. fold (sized_quantity entry lot v0.2) in H.
  destruct (_ || _) eqn:E1; [by apply reject_sizing_rejected in H; congruence|].
  destruct (_ <=? 0) eqn:E2 in H; [by apply reject_sizing_rejected in H; congruence|].
  destruct (match mn with Some m => _ | None => _ end) eqn:E3;
    [by apply reject_sizing_rejected in H; congruence|].
  exists v, v0. unfold PositionSizingResult_validate in H. repeat case_hyp H; inv_ok.
  simpl. decb. destruct_and?. split_and!; try done. destruct mn; [|done]. by decb.
Qed.

(** An accepted size comes from valid prices and the candidates. *)
Lemma size_accepted l s entry stop_price st atr vol lot mn z :
  size l s entry stop_price st atr vol lot mn = Ok z -> accepted z = true ->
  exists stop extra,
    let ra := risk_amount_of l s st in
    let stop_fraction := dabs (entry ⊖ stop) ⊘ entry in
    stop_price = Some stop /\ 0 < entry /\ 0 < stop /\ ~ stop == entry /\
    (sg_side s = S_BUY -> stop < entry) /\ (sg_side s = S_SELL -> entry < stop) /\
    match lot with Some lot => 0 < lot | None => True end /\
    size_from l entry lot mn ra
      ([(sizing_value FIXED_FRACTIONAL, ra ⊘ stop_fraction);
        (sizing_value MAXIMUM_LOSS,
         ra ⊘ dmax stop_fraction (maximum_loss_floor_fraction l))] ++
       extra ++ exposure_candidates l s st) = Ok z.
Proof.
  unfold size, reject_input. intros H Ha.
  assert (forall r cs b ra, reject_sizing r cs b ra = Ok z -> False) as Hrej.
  { intros r cs b ra Hr. apply reject_sizing_rejected in Hr. congruence. }
  destruct (entry <=? 0) eqn:E0; [by apply Hrej in H|].
  destruct stop_price as [stop|]; [|by apply Hrej in H].
  destruct ((stop <=? 0) || _) eqn:E1; [by apply Hrej in H|].
  destruct (bool_decide (sg_side s = S_BUY) && _) eqn:E2; [by apply Hrej in H|].
  destruct (bool_decide (sg_side s = S_SELL) && _) eqn:E3; [by apply Hrej in H|].
  destruct (match lot with Some x => _ | None => _ end) eqn:E4; [by apply Hrej in H|].
  destruct (match mn with Some x => _ | None => _ end) eqn:E5; [by apply Hrej in H|].
  destruct (match atr with Some x => x <=? 0 | None => _ end) eqn:E6; [by apply Hrej in H|].
  destruct (match vol with Some x => x <=? 0 | None => _ end) eqn:E7; [by apply Hrej in H|].
  exists stop, (match atr with
    | Some a => [(sizing_value ATR_BASED, risk_amount_of l s st ⊘ (atr_multiple l ⊗ a ⊘ entry))]
    | None => [] end ++
    match vol with
    | Some v => [(sizing_value VOLATILITY_TARGETING,
                  rk_equity st ⊗ annual_volatility_target l ⊘ v)]
    | None => [] end).
  decb. destruct_and?. split_and!; try done.
  - intros Hb. rewrite bool_decide_eq_false in E2. destruct E2; [done|by decb].
  - intros Hb. rewrite bool_decide_eq_false in E3. destruct E3; [done|by decb].
  - destruct lot; [by decb|done].
  - rewrite <- H. by destruct atr, vol.
Qed.

Lemma risk_amount_of_nonneg l s st :
  limits_wf l -> strategy_signal_wf s -> risk_state_wf st -> 0 <= risk_amount_of l s st.
Proof.
  intros (_&Hr&_) (_&Hs&_&Hc&_&Hf&_) (He&_). unfold risk_amount_of.
  apply dmul_nonneg; [apply dmul_nonneg; [lra|]|]; dminmax; lra.
Qed.

Lemma size_from_total l entry lot mn ra cs :
  sizing_method l = CONSERVATIVE_MINIMUM -> cs <> [] -> 0 <= ra -> 0 < entry ->
  exists z, size_from l entry lot mn ra cs = Ok z.
Proof.
  intros Hm Hcs Hra He. unfold size_from, select_candidates. rewrite Hm. cbn [rbind].
  destruct cs as [|x cs]; [done|]. cbn [min_item rbind].
  destruct (_ || _); [by apply reject_sizing_ok|].
  destruct (_ <=? 0) eqn:Eq; [by apply reject_sizing_ok|].
  destruct (match mn with Some m => _ | None => _ end); [by apply reject_sizing_ok|].
  unfold PositionSizingResult_validate. simpl.
  apply dleb_gt in Eq.
  rewrite (proj2 (dleb_le 0 _)) by (apply Qlt_le_weak, Eq).
  rewrite (proj2 (dleb_le 0 (_ ⊗ entry))) by (apply dmul_nonneg; [apply Qlt_le_weak, Eq|lra]).
  rewrite (proj2 (dleb_le 0 ra)) by done. simpl. eauto.
Qed.

End SizingLemmas.

Section ExactSizing.
Context {C : DecimalContext} {L : DecimalLaws C} {E : ExactContext C}.

(** Rounding down to the lot never buys more than the capped notional. *)
Lemma sized_quantity_le entry lot capped :
  0 < entry -> 0 <= capped -> match lot with Some lot => 0 < lot | None => True end ->
  sized_quantity entry lot capped * entry <= capped.
Proof.
  intros He Hc Hl. unfold sized_quantity.
  assert (capped / entry * entry == capped) as Eq by (field; lra).
  destruct lot as [lot|]; [|rewrite ddiv_exact; lra].
  rewrite dmul_exact. unfold to_integral_floor.
  pose proof (Qfloor_le (capped ⊘ entry ⊘ lot)) as Hf.
  assert (capped ⊘ entry ⊘ lot == capped / entry / lot) as Ed by (by rewrite !ddiv_exact).
  set (n := inject_Z (Qfloor (capped ⊘ entry ⊘ lot))) in *.
  assert (capped / entry / lot * lot == capped / entry) as Eq2 by (field; lra).
  assert (n <= capped / entry / lot) as Hn by (rewrite <- Ed; exact Hf).
  set (x := capped / entry) in *. set (y := x / lot) in *. clear Ed Hf. clearbody n x y.
  assert (n * lot <= x) by nra. nra.
Qed.

Lemma candidate_bound l entry lot mn ra cs z n v :
  0 < entry -> match lot with Some lot => 0 < lot | None => True end ->
  size_from l entry lot mn ra cs = Ok z -> accepted z = true ->
  (n, v) ∈ cs -> n ∈ exposure_names \/ sizing_method l = CONSERVATIVE_MINIMUM ->
  z_quantity z * entry <= v.
Proof.
  intros He Hl H Ha Hin Hn.
  destruct (size_from_accepted _ _ _ _ _ _ _ H Ha) as (sel & b & Hs & Hm & Hb & _ & -> & _).
  destruct (min_item_spec _ _ Hm) as [_ Hmin].
  assert ((n, v) ∈ sel) as Hsel.
  { destruct Hn as [Hn|Hn]; [by eapply select_candidates_exposure|].
    pose proof (select_candidates_method _ _ _ Hs) as H2. rewrite Hn in H2. by subst. }
  rewrite Forall_forall in Hmin. specialize (Hmin _ Hsel). simpl in Hmin.
  pose proof (sized_quantity_le entry lot b.2 He (Qlt_le_weak _ _ Hb) Hl). lra.
Qed.

Lemma headroom_bound equity limit used n :
  0 < n -> n <= dmax (equity ⊗ limit ⊖ used) ZERO -> used + n <= equity * limit.
Proof.
  intros Hn Hle. unfold ZERO in Hle.
  destruct (dmax_spec (equity ⊗ limit ⊖ used) 0) as [[? Em]|[? Em]]; rewrite Em in Hle; [lra|].
  rewrite dsub_exact, dmul_exact in Hle. lra.
Qed.

(** Whatever of the three stop-based methods is chosen, the fixed fractional
    candidate bounds the size. *)
Lemma fixed_fractional_bound l entry lot mn ra sf extra z :
  0 < entry -> match lot with Some lot => 0 < lot | None => True end -> 0 < sf ->
  sizing_method l = CONSERVATIVE_MINIMUM \/ sizing_method l = FIXED_FRACTIONAL \/
  sizing_method l = MAXIMUM_LOSS ->
  size_from l entry lot mn ra
    ([(sizing_value FIXED_FRACTIONAL, ra ⊘ sf);
      (sizing_value MAXIMUM_LOSS, ra ⊘ dmax sf (maximum_loss_floor_fraction l))] ++ extra) = Ok z ->
  accepted z = true -> z_quantity z * entry * sf <= ra.
Proof.
  intros He Hl Hsf Hm H Ha. set (cs := _ ++ extra) in H.
  destruct (size_from_accepted _ _ _ _ _ _ _ H Ha)
    as (sel & b & Hs & Hmin & Hb & Hra & Hq & Hq0 & _).
  pose proof (sized_quantity_le entry lot b.2 He (Qlt_le_weak _ _ Hb) Hl) as Hqb.
  rewrite <- Hq in Hqb. destruct (min_item_spec _ _ Hmin) as [_ Hall].
  rewrite Forall_forall in Hall.
  assert (exists d, sf <= d /\ z_quantity z * entry <= ra / d) as (d & Hd & Hz).
  { pose proof (select_candidates_method _ _ _ Hs) as Hmeth.
    destruct Hm as [Hm|[Hm|Hm]]; rewrite Hm in Hmeth.
    - exists sf. split; [lra|]. subst sel. specialize (Hall _ (list_elem_of_here _ _)).
      simpl in Hall. rewrite ddiv_exact in Hall. lra.
    - exists sf. split; [lra|]. destruct Hmeth as (v & [= <-] & Hv). specialize (Hall _ Hv).
      simpl in Hall. rewrite ddiv_exact in Hall. lra.
    - exists (dmax sf (maximum_loss_floor_fraction l)). split; [dminmax; lra|].
      destruct Hmeth as (v & [= <-] & Hv). specialize (Hall _ Hv).
      simpl in Hall. rewrite ddiv_exact in Hall. lra. }
  assert (ra / d * d == ra) as Ed by (field; lra).
  assert (0 < z_quantity z * entry) by nra.
  set (x := z_quantity z * entry) in *. set (y := ra / d) in *. clearbody x y. nra.
Qed.

End ExactSizing.

(** ** Main theorems *)

(** An accepted size respects every exposure limit.  Without rounding, the
    accepted notional added to the gross, symbol and exchange exposure stays
    within the limits on gross exposure, leverage, symbol and exchange exposure,
    whatever sizing method is configured; the quantity is positive and a whole
    number of lots. *)
Theorem sizing_within_limits {C : DecimalContext} {L : DecimalLaws C} {E : ExactContext C}
    (l : RiskLimits) (s : StrategySignal) (entry : Decimal) (stop_price : option Decimal)
    (st : RiskState) (atr vol lot mn : option Decimal) (z : PositionSizingResult) :
  size l s entry stop_price st atr vol lot mn = Ok z -> accepted z = true ->
  let n := z_notional z in
  0 < z_quantity z /\
  rk_gross_exposure st + n <= rk_equity st * maximum_gross_exposure l /\
  rk_gross_exposure st + n <= rk_equity st * maximum_leverage l /\
  exposure_of (sg_symbol s) (symbol_exposures st) + n <=
    rk_equity st * maximum_symbol_exposure l /\
  exposure_of (default EmptyString (sg_exchange s)) (exchange_exposures st) + n <=
    rk_equity st * maximum_exchange_exposure l /\
  match lot with Some lot => exists k, z_quantity z == inject_Z k * lot | None => True end.
Proof.
  intros H Ha n.
  destruct (size_accepted _ _ _ _ _ _ _ _ _ _ H Ha)
    as (stop & extra & _ & He & _ & _ & _ & _ & Hl & Hf).
  destruct (size_from_accepted _ _ _ _ _ _ _ Hf Ha)
    as (sel & b & _ & _ & _ & _ & Hq & Hq0 & Hn & _).
  assert (n == z_quantity z * entry) as En by (subst n; rewrite Hn; apply dmul_exact).
  assert (0 < n) as Hn0 by (rewrite En; nra).
  assert (forall name v, name ∈ exposure_names -> (name, v) ∈ exposure_candidates l s st ->
    n <= v) as Hb.
  { intros name v Hname Hv. rewrite En.
    eapply (candidate_bound l entry lot mn _ _ z name); eauto.
    apply elem_of_app. right. apply elem_of_app. by right. }
  split_and!; [done|..].
  1: apply headroom_bound, (Hb "gross_exposure"%string); [done|set_solver..].
  1: apply headroom_bound, (Hb "leverage"%string); [done|set_solver..].
  1: apply headroom_bound, (Hb "symbol_exposure"%string); [done|set_solver..].
  1: apply headroom_bound, (Hb "exchange_exposure"%string); [done|set_solver..].
  destruct lot as [lot|]; [|done].
  exists (Qfloor (b.2 ⊘ entry ⊘ lot)). rewrite Hq. apply dmul_exact.
Qed.

(** The loss at the stop is bounded.  Without rounding, a size accepted by
    one of the stop-based methods loses at most the risk amount when the stop is
    hit, and the risk amount is at most the configured fraction of equity. *)
Theorem stop_loss_bounded {C : DecimalContext} {L : DecimalLaws C} {E : ExactContext C}
    (l : RiskLimits) (s : StrategySignal) (entry : Decimal) (stop : Decimal)
    (st : RiskState) (atr vol lot mn : option Decimal) (z : PositionSizingResult) :
  limits_wf l -> strategy_signal_wf s -> risk_state_wf st ->
  sizing_method l = CONSERVATIVE_MINIMUM \/ sizing_method l = FIXED_FRACTIONAL \/
  sizing_method l = MAXIMUM_LOSS ->
  size l s entry (Some stop) st atr vol lot mn = Ok z -> accepted z = true ->
  z_quantity z * Qabs (entry - stop) <= risk_amount z /\
  risk_amount z <= rk_equity st * maximum_risk_per_trade l.
Proof.
  intros Hlim Hs Hst Hm H Ha.
  destruct (size_accepted _ _ _ _ _ _ _ _ _ _ H Ha)
    as (stop' & extra & [= <-] & He & Hstop & Hne & _ & _ & Hl & Hf).
  destruct (size_from_accepted _ _ _ _ _ _ _ Hf Ha) as (_ & _ & _ & _ & _ & Hra & _ & _ & _ & Er & _).
  assert (0 < Qabs (entry - stop)) as Habs.
  { destruct (Qlt_le_dec 0 (Qabs (entry - stop))) as [?|Hle]; [done|]. exfalso. apply Hne.
    pose proof (Qle_Qabs (entry - stop)). pose proof (Qle_Qabs (- (entry - stop))) as H2.
    rewrite Qabs_opp in H2. lra. }
  rewrite Er. split.
  - assert (0 < dabs (entry ⊖ stop) ⊘ entry) as Hsf.
    { apply ddiv_pos; [|done]. rewrite dabs_exact, dsub_exact. done. }
    pose proof (fixed_fractional_bound l entry lot mn _ _ _ z He Hl Hsf Hm Hf Ha) as Hb.
    assert (z_quantity z * entry * (dabs (entry ⊖ stop) ⊘ entry) ==
            z_quantity z * Qabs (entry - stop)) as Eq.
    { rewrite ddiv_exact, dabs_exact, dsub_exact. field. lra. }
    lra.
  - destruct Hlim as (_ & Hr & _), Hs as (_ & Hs0 & Hs1 & Hc0 & Hc1 & Hf0 & _), Hst as (Heq & _).
    unfold risk_amount_of. rewrite !dmul_exact.
    set (r := dmin (suggested_risk_fraction s) (maximum_risk_per_trade l)).
    set (c := dmin (strength s) (confidence s)).
    assert (0 < r /\ r <= maximum_risk_per_trade l) as [Hr0 Hr1] by (subst r; dminmax; lra).
    assert (0 <= c /\ c <= 1) as [Hc2 Hc3] by (subst c; dminmax; lra).
    assert (0 <= rk_equity st * r) by nra. nra.
Qed.

(** ** A concrete case *)

Local Open Scope string_scope.

Definition sample_strategy_signal : StrategySignal := {|
  sg_signal_id := "0123456789abcdef"; sg_timestamp := 1000; sg_strategy := TREND_FOLLOWING;
  sg_symbol := "BTC"; sg_exchange := Some "hyperliquid"; sg_side := S_BUY; sg_intent := ENTRY;
  strength := 8 # 10; confidence := 9 # 10; suggested_risk_fraction := 25 # 10000;
  primary_regime := TREND_UP; secondary_regimes := []; sg_data_quality_score := 1;
  valid_until := 2000; evidence := ["trend"]; feature_snapshot := [] |}.

Definition sample_risk_state : RiskState := {|
  rk_timestamp := 1500; rk_equity := 10000; peak_equity := 10500; day_start_equity := 10000;
  week_start_equity := 10000; realized_pnl_today := -50; realized_pnl_week := -50;
  rk_gross_exposure := 1000; symbol_exposures := [("ETH", 1000)];
  exchange_exposures := [("hyperliquid", 1000)]; open_positions := 1;
  consecutive_losses := 1; rk_data_quality_score := 1; data_healthy := true;
  api_healthy := true; websocket_connected := true; spread_fraction := 1 # 1000;
  price_divergence_fraction := 1 # 1000 |}.

Local Close Scope string_scope.

Lemma sample_strategy_signal_wf : strategy_signal_wf sample_strategy_signal.
Proof.
  apply (StrategySignal_new_wf "0123456789abcdef" (Aware 1000) TREND_FOLLOWING "BTC"
    (Some "hyperliquid"%string) S_BUY ENTRY (8 # 10) (9 # 10) (25 # 10000) TREND_UP [] 1
    (Aware 2000) ["trend"%string] []). reflexivity.
Qed.

Lemma sample_risk_state_wf : risk_state_wf sample_risk_state.
Proof. apply (RiskState_validate_wf sample_risk_state sample_risk_state). reflexivity. Qed.

Lemma default_limits_wf : limits_wf default_limits.
Proof. apply (RiskLimits_validate_wf default_limits default_limits). reflexivity. Qed.

Definition sample_size `{DecimalContext} : result PositionSizingResult :=
  size default_limits sample_strategy_signal 100 (Some 95) sample_risk_state
    None None (Some (1 # 1000)) (Some 10).

Definition no_size : PositionSizingResult := {|
  accepted := false; z_quantity := 0; z_notional := 0; risk_amount := 0;
  binding_constraint := EmptyString; candidate_notionals := [];
  z_reason := Text EmptyString |}.

Lemma sizing_within_limits_witness :
  let C := exact_context in
  let z := default no_size (ok_value sample_size) in
  accepted z = true /\ z_notional z == 400 /\
  0 < z_quantity z /\ rk_gross_exposure sample_risk_state + z_notional z <= 10000 * 1.
Proof.
  intros C z. split; [vm_compute; reflexivity|]. split; [vm_compute; reflexivity|].
  destruct (sizing_within_limits (C := C) default_limits sample_strategy_signal 100 (Some 95)
    sample_risk_state None None (Some (1 # 1000)) (Some 10) z) as (H1 & H2 & _).
  - vm_compute. reflexivity.
  - vm_compute. reflexivity.
  - split; [exact H1|exact H2].
Defined.

Lemma stop_loss_bounded_witness :
  let C := exact_context in
  let z := default no_size (ok_value sample_size) in
  accepted z = true /\ z_quantity z * Qabs (100 - 95) <= risk_amount z /\
  risk_amount z <= 10000 * (25 # 10000).
Proof.
  intros C z. split; [vm_compute; reflexivity|].
  apply (stop_loss_bounded (C := C) default_limits sample_strategy_signal 100 95
    sample_risk_state None None (Some (1 # 1000)) (Some 10) z).
  - apply default_limits_wf.
  - apply sample_strategy_signal_wf.
  - apply sample_risk_state_wf.
  - left. reflexivity.
  - vm_compute. reflexivity.
  - vm_compute. reflexivity.
Defined.
