(* ===== verification/RiskManager.v ===== *)
(** * Circuit breaker and risk manager (domain/risk/manager.py) *)

From Stdlib Require Import ZArith QArith Qabs Lia Lqa.
From stdpp Require Import base tactics relations list strings gmap sorting.
From S2P Require Import Prelude Decimals RiskModels Sizing.

Local Open Scope Q_scope.
Local Open Scope string_scope.
Local Open Scope dec_scope.

(** ** Circuit breaker *)

Record CircuitBreaker := {
  default_cooldown_seconds : Z;
  halted : gset RiskHaltReason;
  details : list (RiskHaltReason * string);
  tripped_at : option Z;
  resume_at : option Z;
  manual_reset_required : bool;
  last_reset_at : option Z;
}.

Definition CircuitBreaker_new (default_cooldown_seconds : Z) : result CircuitBreaker :=
  require! negb (default_cooldown_seconds <=? 0)%Z
    else ValueError "default cooldown must be positive";
  Ok {| default_cooldown_seconds := default_cooldown_seconds; halted := ∅; details := [];
        tripped_at := None; resume_at := None; manual_reset_required := false;
        last_reset_at := None |}.

Definition breaker_utc (value : datetime) : result Z :=
  utc_or "circuit-breaker timestamps must be timezone-aware" value.

Definition microseconds (seconds : Z) : Z := (seconds * 1000000)%Z.

Definition trip (reason : RiskHaltReason) (at_ : datetime) (requires_manual_reset : bool)
    (cooldown_seconds : option Z) (detail : option string) : M CircuitBreaker unit :=
  fun self =>
  match breaker_utc at_ with
  | Err e => (self, Err e)
  | Ok at_ =>
      let cooldown := default (default_cooldown_seconds self) cooldown_seconds in
      if (cooldown <=? 0)%Z then (self, Err (ValueError "cooldown must be positive"))
      else
        let manual := manual_reset_required self || requires_manual_reset in
        let candidate_resume := (at_ + microseconds cooldown)%Z in
        ({| default_cooldown_seconds := default_cooldown_seconds self;
            halted := {[reason]} ∪ halted self;
            details := match detail with
                       | Some d => if bool_decide (d = EmptyString) then details self
                                   else dict_set reason d (details self)
                       | None => details self
                       end;
            tripped_at := match tripped_at self with
                          | Some t => if (at_ <? t)%Z then Some at_ else Some t
                          | None => Some at_
                          end;
            resume_at := if manual then None
                         else match resume_at self with
                              | Some r => if (candidate_resume >? r)%Z
                                          then Some candidate_resume else Some r
                              | None => Some candidate_resume
                              end;
            manual_reset_required := manual;
            last_reset_at := last_reset_at self |}, Ok tt)
  end.

Definition clear (at_ : Z) (self : CircuitBreaker) : CircuitBreaker :=
  {| default_cooldown_seconds := default_cooldown_seconds self; halted := ∅; details := [];
     tripped_at := None; resume_at := None; manual_reset_required := false;
     last_reset_at := Some at_ |}.

Definition halt_le (a b : RiskHaltReason) : Prop := String.le (halt_value a) (halt_value b).
#[export] Instance halt_le_dec : RelDecision halt_le.
Proof. unfold RelDecision, halt_le. intros. apply _. Defined.

(** [tuple(sorted(self._reasons, key=str))] *)
Definition sorted_halts (s : gset RiskHaltReason) : list RiskHaltReason :=
  merge_sort halt_le (elements s).

Definition breaker_status (self : CircuitBreaker) : CircuitBreakerStatus := {|
  active := negb (bool_decide (halted self = ∅)); cb_reasons := sorted_halts (halted self);
  cb_details := details self; cb_tripped_at := tripped_at self;
  cb_resume_at := resume_at self; cb_requires_manual_reset := manual_reset_required self |}.

Definition cooled_down (at_ : Z) (self : CircuitBreaker) : bool :=
  negb (bool_decide (halted self = ∅)) && negb (manual_reset_required self)
  && match resume_at self with Some r => (r <=? at_)%Z | None => false end.

Definition status (at_ : datetime) : M CircuitBreaker CircuitBreakerStatus := fun self =>
  match breaker_utc at_ with
  | Err e => (self, Err e)
  | Ok at_ =>
      let self := if cooled_down at_ self then clear at_ self else self in
      (self, Ok (breaker_status self))
  end.

Definition RESET_CONFIRMATION : string := "RESET_KILL_SWITCH".

Definition reset (confirmation : string) (at_ : datetime) : M CircuitBreaker unit := fun self =>
  if negb (bool_decide (confirmation = RESET_CONFIRMATION))
  then (self, Err (ValueError "exact kill-switch reset confirmation is required"))
  else match breaker_utc at_ with
       | Err e => (self, Err e)
       | Ok at_ => (clear at_ self, Ok tt)
       end.

(** ** Risk manager *)

Record RiskManager := {
  limits : RiskLimits;
  breaker : CircuitBreaker;
}.

Definition RiskManager_new (l : option RiskLimits) : result RiskManager :=
  let l := default default_limits l in
  let! b := CircuitBreaker_new (cooldown_seconds l) in
  Ok {| limits := l; breaker := b |}.

(** Calls on [self.breaker] *)
Definition on_breaker {A} (m : M CircuitBreaker A) : M RiskManager A :=
  pzoom breaker (fun b self => {| limits := limits self; breaker := b |}) m.

Definition activate_kill_switch (timestamp : datetime) (reason : string)
  : M RiskManager unit := fun self =>
  if bool_decide (strip reason = EmptyString)
  then (self, Err (ValueError "kill-switch reason is required"))
  else on_breaker (trip MANUAL_KILL_SWITCH timestamp true None (Some (strip reason))) self.

Definition reset_kill_switch (timestamp : datetime) (confirmation : string)
  : M RiskManager unit := on_breaker (reset confirmation timestamp).

Inductive Halt := NoHalt | Transient (r : RiskHaltReason) | Critical (r : RiskHaltReason).

Section Evaluate.
Context {C : DecimalContext}.

(** The checks of [evaluate] in order: condition, reason and halt. *)
Definition entry_checks (l : RiskLimits) (signal : StrategySignal) (state : RiskState)
  : list (bool * Reason * Halt) :=
  let observed_quality := dmin (sg_data_quality_score signal) (rk_data_quality_score state) in
  let equity := rk_equity state in
  let gross_limit := equity ⊗ maximum_gross_exposure l in
  let leverage_limit := equity ⊗ maximum_leverage l in
  let symbol_exposure := exposure_of (sg_symbol signal) (symbol_exposures state) in
  let exchange_exposure :=
    exposure_of (default EmptyString (sg_exchange signal)) (exchange_exposures state) in
  [((valid_until signal <? rk_timestamp state)%Z, Text "signal has expired", NoHalt);
   (bool_decide (primary_regime signal = UNKNOWN),
    Text "UNKNOWN regime cannot open risk", NoHalt);
   (confidence signal <? minimum_signal_confidence l,
    ConfidenceBelow (confidence signal) (minimum_signal_confidence l), NoHalt);
   (observed_quality <? minimum_data_quality l,
    DataQualityBelow observed_quality (minimum_data_quality l), Transient DATA_ANOMALY);
   (daily_loss_fraction state >=? maximum_daily_loss l,
    DailyLossReached (daily_loss_fraction state), Transient DAILY_LOSS);
   (weekly_loss_fraction state >=? maximum_weekly_loss l,
    WeeklyLossReached (weekly_loss_fraction state), Transient WEEKLY_LOSS);
   (drawdown_fraction state >=? maximum_drawdown l,
    DrawdownReached (drawdown_fraction state), Critical MAX_DRAWDOWN);
   ((maximum_consecutive_losses l <=? consecutive_losses state)%Z,
    ConsecutiveLossesReached (consecutive_losses state), Transient CONSECUTIVE_LOSSES);
   (negb (data_healthy state), Text "market data health check failed",
    Transient DATA_ANOMALY);
   (negb (api_healthy state), Text "exchange API health check failed",
    Transient API_UNHEALTHY);
   (negb (websocket_connected state), Text "market-data WebSocket is disconnected",
    Transient WEBSOCKET_DISCONNECTED);
   (spread_fraction state >? maximum_spread_fraction l,
    SpreadAbnormal (spread_fraction state), Transient SPREAD_ANOMALY);
   (price_divergence_fraction state >? maximum_price_divergence_fraction l,
    DivergenceAbnormal (price_divergence_fraction state), Transient PRICE_DIVERGENCE);
   (rk_gross_exposure state >=? dmin gross_limit leverage_limit,
    Text "gross exposure or leverage capacity is exhausted", NoHalt);
   (symbol_exposure >=? equity ⊗ maximum_symbol_exposure l,
    SymbolExhausted (sg_symbol signal), NoHalt);
   (exchange_exposure >=? equity ⊗ maximum_exchange_exposure l,
    Text "exchange exposure capacity is exhausted", NoHalt);
   ((maximum_positions l <=? open_positions state)%Z,
    Text "maximum simultaneous positions reached", NoHalt)].

Definition failed (checks : list (bool * Reason * Halt)) : list (bool * Reason * Halt) :=
  List.filter (fun c => c.1.1) checks.
Definition failed_reasons (checks : list (bool * Reason * Halt)) : list Reason :=
  map (fun c => c.1.2) (failed checks).
Definition transient_halts (checks : list (bool * Reason * Halt)) : list RiskHaltReason :=
  omap (fun c => match c.2 with Transient h => Some h | _ => None end) (failed checks).
Definition critical_halts (checks : list (bool * Reason * Halt)) : list RiskHaltReason :=
  omap (fun c => match c.2 with Critical h => Some h | _ => None end) (failed checks).

Definition decision_id_of (signal : StrategySignal) (state : RiskState) : string :=
  "risk:" +:+ sg_signal_id signal +:+ ":" +:+ isoformat (rk_timestamp state).

(** The result of the sizer, with its [ValueError] caught. *)
Definition sized (l : RiskLimits) (signal : StrategySignal) (entry_price : Decimal)
    (stop_price : option Decimal) (state : RiskState)
    (atr annualized_volatility lot_size minimum_notional : option Decimal)
  : result PositionSizingResult :=
  match size l signal entry_price stop_price state atr annualized_volatility lot_size
          minimum_notional with
  | Err (ValueError m) => PositionSizingResult_validate {|
      accepted := false; z_quantity := 0; z_notional := 0; risk_amount := 0;
      binding_constraint := "missing_sizing_input"; candidate_notionals := [];
      z_reason := Text m |}
  | r => r
  end.

Definition evaluate (signal : StrategySignal) (entry_price : Decimal)
    (stop_price : option Decimal) (state : RiskState)
    (atr annualized_volatility lot_size minimum_notional : option Decimal)
  : M RiskManager RiskDecision := fun self =>
  let now := Aware (rk_timestamp state) in
  let decide_with allowed reasons sizing halts :=
    RiskDecision_validate {| decision_id := decision_id_of signal state; allowed := allowed;
      reasons := reasons; sizing := sizing; evaluated_at := rk_timestamp state;
      breaker_reasons := halts |} in
  if bool_decide (sg_intent signal ∈ [EXIT; REDUCE])
  then (do! st <- on_breaker (status now);
        plift (decide_with true [Text "risk-reducing action bypasses entry limits"] None
                 (cb_reasons st))) self
  else
    let checks := entry_checks (limits self) signal state in
    (run! pfor (transient_halts checks) (fun h => on_breaker (trip h now false None None));
     run! pfor (critical_halts checks) (fun h => on_breaker (trip h now true None None));
     do! st <- on_breaker (status now);
     let reasons := (failed_reasons checks ++
       (if active st then [BreakerActive (cb_reasons st)] else []))%list in
     if negb (bool_decide (reasons = []))
     then plift (decide_with false (dict_fromkeys reasons) None (cb_reasons st))
     else
       do! sizing <- plift (sized (limits self) signal entry_price stop_price state atr
                              annualized_volatility lot_size minimum_notional);
       if negb (accepted sizing)
       then plift (decide_with false [z_reason sizing] (Some sizing) [])
       else plift (decide_with true [Text "all entry risk checks passed"] (Some sizing) []))
      self.

End Evaluate.

Local Close Scope string_scope.

(** ** Invariant of the breaker *)

Record breaker_wf (b : CircuitBreaker) : Prop := {
  bwf_cooldown : (0 < default_cooldown_seconds b)%Z;
  bwf_tripped : tripped_at b = None <-> halted b = ∅;
  bwf_details : forall r, r ∈ dict_keys (details b) -> r ∈ halted b;
  bwf_manual : manual_reset_required b = true -> resume_at b = None /\ halted b <> ∅;
  bwf_resume : halted b <> ∅ -> manual_reset_required b = false -> resume_at b <> None;
  bwf_idle : halted b = ∅ -> resume_at b = None;
}.

Lemma CircuitBreaker_new_wf n b : CircuitBreaker_new n = Ok b -> breaker_wf b.
Proof.
  unfold CircuitBreaker_new. destruct (n <=? 0)%Z eqn:E; [done|]. intros [= <-].
  apply Z.leb_gt in E. constructor; simpl; try done. set_solver.
Qed.

Lemma clear_wf t b : breaker_wf b -> breaker_wf (clear t b).
Proof. intros []. constructor; simpl; try done. set_solver. Qed.

Lemma trip_wf r t man cd d b : breaker_wf b -> breaker_wf (trip r t man cd d b).1.
Proof.
  intros Hb. unfold trip, breaker_utc. destruct t as [|t]; [done|]. simpl.
  case_goal; [done|]. simpl. destruct Hb as [H1 H2 H3 H4 H5 H6]. constructor; simpl; try done.
  - split; [destruct (tripped_at b); by try case_goal|set_solver].
  - intros k. destruct d as [d|]; [|set_solver]. case_goal; [set_solver|].
    intros Hk. destruct (dict_get r (details b)) eqn:Eg.
    + rewrite (dict_keys_set_Some _ _ _ _ Eg) in Hk. set_solver.
    + rewrite dict_keys_set_None in Hk by done. set_solver.
  - intros E. rewrite E. split; [done|set_solver].
  - intros _ E. rewrite E. destruct (resume_at b); by try case_goal.
  - set_solver.
Qed.

Lemma status_wf t b : breaker_wf b -> breaker_wf (status t b).1.
Proof.
  intros Hb. unfold status. destruct (breaker_utc t); simpl; [|done].
  case_goal; [by apply clear_wf|done].
Qed.

Lemma reset_wf c t b : breaker_wf b -> breaker_wf (reset c t b).1.
Proof.
  intros Hb. unfold reset. case_goal; [done|].
  destruct (breaker_utc t); simpl; [by apply clear_wf|done].
Qed.

#[export] Hint Resolve trip_wf status_wf reset_wf : py.

(** ** Lemmas on evaluation *)

Lemma dict_fromkeys_nonempty {A} `{EqDecision A} (xs : list A) :
  xs <> [] -> dict_fromkeys xs <> [].
Proof.
  intros Hxs. unfold dict_fromkeys.
  assert (forall (ys acc : list A), acc <> [] -> fold_left (fun (acc : list A) x =>
    if bool_decide (x ∈ acc) then acc else acc ++ [x]) ys acc <> []) as H.
  { intros ys. induction ys as [|y ys IH]; intros acc Ha; [done|]. simpl. apply IH.
    case_goal; [done|]. by destruct acc. }
  destruct xs as [|x xs]; [done|]. simpl. apply H. done.
Qed.

Section RiskLemmas.
Context {C : DecimalContext}.

Lemma decision_id_length s st :
  strategy_signal_wf s -> datetime_range (rk_timestamp st) ->
  (8 <= String.length (decision_id_of s st) <= 160)%nat.
Proof.
  intros (Hi & _) Ht%isoformat_length. unfold decision_id_of.
  rewrite !length_string_app. simpl. lia.
Qed.

Lemma RiskDecision_validate_ok d s st :
  strategy_signal_wf s -> datetime_range (rk_timestamp st) ->
  decision_id d = decision_id_of s st -> reasons d <> [] ->
  match sizing d with Some z => allowed d = true -> accepted z = true | None => True end ->
  RiskDecision_validate d = Ok d.
Proof.
  intros Hs Ht Hid Hr Hz. unfold RiskDecision_validate. rewrite Hid.
  destruct (decision_id_length s st Hs Ht) as [H1 H2].
  rewrite (proj2 (Nat.leb_le _ _) H1), (proj2 (Nat.leb_le _ _) H2). simpl.
  rewrite bool_decide_false by done. simpl.
  destruct (sizing d) as [z|]; [|done]. destruct (allowed d); simpl; [|done].
  by rewrite Hz.
Qed.

(** Tripping at an aware time succeeds and records the reason. *)
Lemma trip_aware r t man b :
  breaker_wf b -> exists b', trip r (Aware t) man None None b = (b', Ok tt) /\
    halted b' = {[r]} ∪ halted b /\
    manual_reset_required b' = manual_reset_required b || man.
Proof.
  intros Hb. unfold trip. simpl. pose proof (bwf_cooldown _ Hb).
  destruct (default_cooldown_seconds b <=? 0)%Z eqn:E; [apply Z.leb_le in E; lia|].
  eexists. split; [done|]. done.
Qed.

(** What a run of trips does to the manager. *)
Definition tripped (m m' : RiskManager) : Prop :=
  limits m' = limits m /\ breaker_wf (breaker m') /\
  halted (breaker m) ⊆ halted (breaker m') /\
  (manual_reset_required (breaker m) = true -> manual_reset_required (breaker m') = true).

Lemma trip_all t man hs m :
  breaker_wf (breaker m) ->
  exists m', pfor hs (fun h => on_breaker (trip h (Aware t) man None None)) m = (m', Ok tt) /\
    tripped m m' /\ (forall h, h ∈ hs -> h ∈ halted (breaker m')) /\
    (man = true -> hs <> [] -> manual_reset_required (breaker m') = true).
Proof.
  revert m. induction hs as [|h hs IH]; intros m Hb; simpl.
  - exists m. split; [done|]. split; [done|]. split; [|done].
    intros h Hh. by apply not_elem_of_nil in Hh.
  - unfold pbind, on_breaker, pzoom.
    destruct (trip_aware h t man (breaker m) Hb) as (b' & E & Eh & Em). rewrite E.
    set (m1 := {| limits := limits m; breaker := b' |}).
    assert (breaker_wf b') as Hb'.
    { pose proof (trip_wf h (Aware t) man None None _ Hb) as H. by rewrite E in H. }
    destruct (IH m1 Hb') as (m2 & E2 & (Hl & Hw & Hsub & Hman) & Hin & Hc).
    exists m2. split; [exact E2|]. split; [|split].
    + split; [exact Hl|]. split; [exact Hw|]. split.
      * etransitivity; [|exact Hsub]. simpl. rewrite Eh. apply union_subseteq_r.
      * intros Hm. apply Hman. simpl. by rewrite Em, Hm.
    + intros x [->|Hx]%elem_of_cons; [|auto]. apply Hsub. simpl. rewrite Eh.
      by apply elem_of_union_l, elem_of_singleton.
    + intros -> _. apply Hman. simpl. rewrite Em.
      by destruct (manual_reset_required (breaker m)).
Qed.

(** The status at an aware time: cleared when the cooldown is over, otherwise
    the breaker as it is. *)
Lemma status_aware t b :
  breaker_wf b ->
  let b' := if cooled_down t b then clear t b else b in
  status (Aware t) b = (b', Ok (breaker_status b')) /\ breaker_wf b'.
Proof.
  intros Hb b'. split; [done|]. subst b'. case_goal; [by apply clear_wf|done].
Qed.

Lemma active_halted b : active (breaker_status b) = true <-> halted b <> ∅.
Proof. simpl. rewrite negb_true_iff, bool_decide_eq_false. done. Qed.

Lemma failed_reasons_nil checks :
  failed_reasons checks = [] <-> Forall (fun c => c.1.1 = false) checks.
Proof.
  unfold failed_reasons, failed. induction checks as [|c checks IH]; simpl; [done|].
  rewrite Forall_cons. destruct c.1.1; simpl; [|tauto]. split; [done|]. by intros [? _].
Qed.

(** Sizing raises nothing but [ValueError]s, which are caught. *)
Lemma reject_sizing_value_error r cs b ra : raises_value_error (reject_sizing r cs b ra).
Proof. unfold reject_sizing, PositionSizingResult_validate. value_errors. Qed.

Lemma size_from_value_error l e lo mn ra cs : raises_value_error (size_from l e lo mn ra cs).
Proof.
  unfold size_from. apply rbind_value_error; [unfold select_candidates; value_errors|].
  intros sel. apply rbind_value_error; [unfold min_item; value_errors|]. intros b. cbv zeta.
  destruct (_ || _); [apply reject_sizing_value_error|].
  destruct (_ <=? 0); [apply reject_sizing_value_error|].
  destruct (match mn with Some m => _ | None => _ end); [apply reject_sizing_value_error|].
  unfold PositionSizingResult_validate. value_errors.
Qed.

Lemma size_value_error l s e sp st a v lo mn :
  raises_value_error (size l s e sp st a v lo mn).
Proof.
  unfold size, reject_input.
  repeat first [apply reject_sizing_value_error | apply size_from_value_error | case_goal].
Qed.

Lemma sized_total l s e sp st a v lo mn :
  exists z, sized l s e sp st a v lo mn = Ok z /\
    (accepted z = true -> size l s e sp st a v lo mn = Ok z).
Proof.
  pose proof (size_value_error l s e sp st a v lo mn) as H. unfold sized.
  destruct (size l s e sp st a v lo mn) as [z|er]; [eauto|].
  destruct H as [m ->]. eexists. split; [reflexivity|done].
Qed.

(** The manager after the trips and the status call of an entry evaluation. *)
Lemma evaluate_entry s e sp st a v lo mn m :
  breaker_wf (breaker m) -> strategy_signal_wf s -> datetime_range (rk_timestamp st) ->
  sg_intent s = ENTRY ->
  exists m1 m' d, tripped m m1 /\ limits m' = limits m /\ breaker_wf (breaker m') /\
    breaker m' = (if cooled_down (rk_timestamp st) (breaker m1)
                  then clear (rk_timestamp st) (breaker m1) else breaker m1) /\
    evaluate s e sp st a v lo mn m = (m', Ok d) /\
    (allowed d = true ->
      failed_reasons (entry_checks (limits m) s st) = [] /\ halted (breaker m') = ∅ /\
      exists z, sizing d = Some z /\ accepted z = true /\
        size (limits m) s e sp st a v lo mn = Ok z).
Proof.
  intros Hb Hs Ht Hi. unfold evaluate. rewrite Hi.
  change (bool_decide (ENTRY ∈ [EXIT; REDUCE])) with false. cbn iota.
  set (checks := entry_checks (limits m) s st). set (t := rk_timestamp st) in *.
  destruct (trip_all t false (transient_halts checks) m Hb) as (ma & Ea & Ha & _).
  destruct (trip_all t true (critical_halts checks) ma) as (m1 & E1 & H1 & _); [apply Ha|].
  assert (tripped m m1) as Htr.
  { destruct Ha as (? & ? & ? & ?), H1 as (? & ? & ? & ?).
    split_and!; [congruence|done|by etransitivity|auto]. }
  destruct (status_aware t (breaker m1)) as [Est Hwf]; [apply Htr|].
  set (b' := if cooled_down t (breaker m1) then _ else _) in *.
  unfold pbind at 1. rewrite Ea. unfold pbind at 1. rewrite E1.
  unfold pbind at 1, on_breaker, pzoom. rewrite Est.
  set (m' := {| limits := limits m1; breaker := b' |}).
  exists m1, m'. destruct Htr as (Hlim & Hrest).
  set (rs := failed_reasons checks ++ _).
  destruct (bool_decide (rs = [])) eqn:Er; simpl.
  - apply bool_decide_eq_true in Er. subst rs. apply app_eq_nil in Er as [Er1 Er2].
    destruct (sized_total (limits m) s e sp st a v lo mn) as (z & Ez & Hz).
    unfold pbind, plift. rewrite Ez. destruct (accepted z) eqn:Eacc; simpl.
    + rewrite (RiskDecision_validate_ok _ s st); simpl; try done. eexists.
      split_and!; try done. intros _. split_and!; [done| |eauto].
      destruct (decide (halted b' = ∅)) as [|Hne]; [done|].
      apply active_halted in Hne. by rewrite Hne in Er2.
    + rewrite (RiskDecision_validate_ok _ s st); simpl; try done. eexists. by split_and!.
  - apply bool_decide_eq_false in Er. unfold plift.
    rewrite (RiskDecision_validate_ok _ s st); simpl; try done;
      [|by apply dict_fromkeys_nonempty]. eexists. by split_and!.
Qed.

End RiskLemmas.

(** ** The manager as a state machine *)

(** Every operation of the manager except a reset with the exact confirmation. *)
Inductive manager_step {C : DecimalContext} : RiskManager -> RiskManager -> Prop :=
| step_evaluate s e sp st a v lo mn m :
    manager_step m (evaluate s e sp st a v lo mn m).1
| step_kill t r m : manager_step m (activate_kill_switch t r m).1
| step_refused_reset t c m :
    c <> RESET_CONFIRMATION -> manager_step m (reset_kill_switch t c m).1
| step_status t m : manager_step m (on_breaker (status t) m).1
| step_trip r t man cd d m : manager_step m (on_breaker (trip r t man cd d) m).1.

(** Latched: a halt that only a confirmed reset can end. *)
Definition latched (m : RiskManager) : Prop :=
  breaker_wf (breaker m) /\ manual_reset_required (breaker m) = true.

Section Latch.
Context {C : DecimalContext}.

Lemma on_breaker_state {A} (m : M CircuitBreaker A) self :
  breaker (on_breaker m self).1 = (m (breaker self)).1 /\
  limits (on_breaker m self).1 = limits self.
Proof. unfold on_breaker, pzoom. by destruct (m (breaker self)). Qed.

Lemma latched_breaker {A} (f : M CircuitBreaker A) m :
  latched m -> breaker_wf (f (breaker m)).1 ->
  manual_reset_required (f (breaker m)).1 = true -> latched (on_breaker f m).1.
Proof. intros _ H1 H2. unfold latched. by rewrite (proj1 (on_breaker_state f m)). Qed.

Lemma trip_latched r t man cd d m : latched m -> latched (on_breaker (trip r t man cd d) m).1.
Proof.
  intros [Hw Hm]. apply latched_breaker; [done|by apply trip_wf|].
  unfold trip. destruct (breaker_utc t); [|done]. case_goal; [done|]. simpl. by rewrite Hm.
Qed.

Lemma status_latched t m : latched m -> latched (on_breaker (status t) m).1.
Proof.
  intros [Hw Hm]. apply latched_breaker; [done|by apply status_wf|].
  unfold status. destruct (breaker_utc t); [|done]. unfold cooled_down. rewrite Hm.
  by rewrite andb_false_r.
Qed.

Lemma evaluate_latched s e sp st a v lo mn m :
  latched m -> latched (evaluate s e sp st a v lo mn m).1.
Proof.
  intros Hm. unfold evaluate. case_goal.
  - unfold pbind. pose proof (status_latched (Aware (rk_timestamp st)) m Hm).
    by destruct (on_breaker _ m) as [m1 [x|er]].
  - assert (forall hs man x, latched x ->
      latched (pfor hs (fun h => on_breaker (trip h (Aware (rk_timestamp st)) man None None)) x).1)
      as Hp.
    { intros hs man. apply (pfor_invariant latched). intros. by apply trip_latched. }
    cbv zeta. unfold pbind at 1.
    match goal with |- context [pfor ?hs _ m] => pose proof (Hp hs false m Hm) as H1 end.
    destruct (pfor _ _ m) as [m1 [u|er]]; [|done]. simpl in H1. unfold pbind at 1.
    match goal with |- context [pfor ?hs _ m1] => pose proof (Hp hs true m1 H1) as H2 end.
    destruct (pfor _ _ m1) as [m2 [u2|er]]; [|done]. simpl in H2. unfold pbind at 1.
    pose proof (status_latched (Aware (rk_timestamp st)) m2 H2) as H3.
    destruct (on_breaker _ m2) as [m3 [x|er]]; [|done]. simpl in H3.
    case_goal; [done|]. unfold pbind, plift. destruct (sized _ _ _ _ _ _ _ _ _); [|done].
    by case_goal.
Qed.

Lemma step_latched m m' : manager_step m m' -> latched m -> latched m'.
Proof.
  intros [s e sp st a v lo mn x|t r x|t c x Hc|t x|r t man cd d x] Hm.
  - by apply evaluate_latched.
  - unfold activate_kill_switch. case_goal; [done|by apply trip_latched].
  - unfold reset_kill_switch. destruct Hm as [Hw Hm]. apply latched_breaker; [done|by apply reset_wf|].
    unfold reset. by rewrite bool_decide_false.
  - by apply status_latched.
  - by apply trip_latched.
Qed.

End Latch.

(** ** Main theorems *)

(** C9: the kill switch latches.  Once a halt requires a manual reset, no
    sequence of evaluations, further trips, status queries (however much time
    passes) or resets without the exact confirmation ends it, and every
    evaluation of an entry is decided, and refused, in the meantime. *)
Theorem kill_switch_latches {C : DecimalContext} (m m' : RiskManager)
    (s : StrategySignal) (e : Decimal) (sp : option Decimal) (st : RiskState)
    (a v lo mn : option Decimal) :
  latched m -> rtc manager_step m m' ->
  strategy_signal_wf s -> datetime_range (rk_timestamp st) -> sg_intent s = ENTRY ->
  latched m' /\
  exists m2 d, evaluate s e sp st a v lo mn m' = (m2, Ok d) /\ allowed d = false.
Proof.
  intros Hm Hst Hs Ht Hi.
  assert (latched m') as [Hw Hman].
  { induction Hst as [|x y z Hxy _ IH]; [done|]. apply IH. by eapply step_latched. }
  split; [done|].
  destruct (evaluate_entry s e sp st a v lo mn m' Hw Hs Ht Hi)
    as (m1 & m2 & d & (_ & Hw1 & _ & Hman1) & _ & _ & Eb & Ee & Hal).
  exists m2, d. split; [done|]. destruct (allowed d); [|done]. exfalso.
  destruct (Hal eq_refl) as (_ & Hemp & _). specialize (Hman1 Hman).
  destruct (bwf_manual _ Hw1 Hman1) as [_ Hne].
  rewrite Eb in Hemp. unfold cooled_down in Hemp. by rewrite Hman1, andb_false_r in Hemp.
Qed.

Definition sample_manager : RiskManager := {|
  limits := default_limits;
  breaker := {| default_cooldown_seconds := 1800; halted := ∅; details := [];
                tripped_at := None; resume_at := None; manual_reset_required := false;
                last_reset_at := None |} |}.

Lemma sample_manager_wf : breaker_wf (breaker sample_manager).
Proof. apply (CircuitBreaker_new_wf 1800). reflexivity. Qed.

Definition sample_killed : RiskManager :=
  (activate_kill_switch (Aware 1000) "operator" sample_manager).1.

Lemma sample_killed_wf : breaker_wf (breaker sample_killed).
Proof.
  exact (trip_wf MANUAL_KILL_SWITCH (Aware 1000) true None (Some "operator"%string)
           (breaker sample_manager) sample_manager_wf).
Qed.

Lemma kill_switch_latches_witness :
  let C := default_context in
  let m' := (on_breaker (status (Aware 90000000000)) sample_killed).1 in
  latched m' /\
  exists m2 d, evaluate sample_strategy_signal 100 (Some 95) sample_risk_state
                 None None None None m' = (m2, Ok d) /\ allowed d = false.
Proof.
  intros C m'. apply (kill_switch_latches (C := C) sample_killed m').
  - split; [apply sample_killed_wf|reflexivity].
  - apply rtc_once. apply step_status.
  - apply sample_strategy_signal_wf.
  - split; vm_compute; discriminate.
  - reflexivity.
Defined.

(** A halt without manual reset ends by the passage of time alone.  It has
    a resume time; a status query before it leaves the breaker active and
    unchanged, and one at or after it clears the breaker, whatever the health
    of the data is. *)
Theorem breaker_cooldown (b : CircuitBreaker) :
  breaker_wf b -> halted b <> ∅ -> manual_reset_required b = false ->
  exists r, resume_at b = Some r /\ forall t,
    status (Aware t) b =
      if (t <? r)%Z then (b, Ok (breaker_status b))
      else (clear t b, Ok (breaker_status (clear t b))).
Proof.
  intros Hb Hh Hm. destruct (resume_at b) as [r|] eqn:Er; [|by destruct (bwf_resume _ Hb Hh Hm)].
  exists r. split; [done|]. intros t. unfold status. simpl. unfold cooled_down.
  rewrite Er, Hm, bool_decide_false by done. simpl.
  destruct (Z.ltb_spec t r), (Z.leb_spec r t); done || lia.
Qed.

Lemma breaker_cooldown_witness :
  let b := (trip API_UNHEALTHY (Aware 0) false None None (breaker sample_manager)).1 in
  exists r, resume_at b = Some r /\ r = 1800000000%Z /\ forall t,
    status (Aware t) b =
      if (t <? r)%Z then (b, Ok (breaker_status b))
      else (clear t b, Ok (breaker_status (clear t b))).
Proof.
  intros b. destruct (breaker_cooldown b) as (r & Er & Hr).
  - apply trip_wf, sample_manager_wf.
  - intros H. assert (API_UNHEALTHY ∈ halted b) as Hin
      by (apply elem_of_union_l, elem_of_singleton; reflexivity).
    rewrite H in Hin. by apply not_elem_of_empty in Hin.
  - reflexivity.
  - exists r. split; [exact Er|]. split; [|exact Hr].
    assert (resume_at b = Some 1800000000%Z) as E by reflexivity. congruence.
Defined.

(** Tripping never shortens a halt.  A trip adds its reason, keeps every
    earlier one, keeps a required manual reset, and moves the resume time only
    later; the breaker's invariant is kept. *)
Theorem trip_only_extends (r : RiskHaltReason) (t : Z) (man : bool) (cd : option Z)
    (d : option string) (b b' : CircuitBreaker) :
  breaker_wf b -> trip r (Aware t) man cd d b = (b', Ok tt) ->
  breaker_wf b' /\ halted b' = {[r]} ∪ halted b /\
  (manual_reset_required b = true -> manual_reset_required b' = true) /\
  match resume_at b, resume_at b' with
  | Some x, Some y => (x <= y)%Z
  | _, None => manual_reset_required b' = true
  | None, Some _ => True
  end.
Proof.
  intros Hb H. pose proof (trip_wf r (Aware t) man cd d b Hb) as Hw. rewrite H in Hw.
  split; [done|]. unfold trip in H. simpl in H. case_hyp H; [done|]. injection H as <-. simpl.
  split; [done|]. split; [by intros ->|].
  destruct (manual_reset_required b || man); [by destruct (resume_at b)|].
  destruct (resume_at b) as [x|]; [|done]. destruct (Z.gtb_spec (t +
    microseconds (default (default_cooldown_seconds b) cd)) x); lia.
Qed.

Lemma trip_only_extends_witness :
  let b := (trip API_UNHEALTHY (Aware 0) false None None (breaker sample_manager)).1 in
  let b' := (trip SPREAD_ANOMALY (Aware 5) false (Some 10%Z) None b).1 in
  resume_at b' = Some 1800000000%Z /\ halted b' = {[SPREAD_ANOMALY]} ∪ halted b.
Proof.
  intros b b'. split; [vm_compute; reflexivity|].
  refine (proj1 (proj2 (trip_only_extends SPREAD_ANOMALY 5 false (Some 10%Z) None b b' _ _))).
  - apply trip_wf, sample_manager_wf.
  - reflexivity.
Defined.

(** C34: an entry is allowed only within every limit.  An entry evaluation
    always returns a decision; when it allows the entry, the signal is current,
    of a known regime and confident enough, data quality, loss, drawdown, losing
    streak, health, spread and divergence checks pass, exposure capacity and
    position count are not exhausted, the breaker is clear afterwards, and the
    decision carries an accepted size computed by the sizer. *)
Theorem entry_allowed_sound {C : DecimalContext} (s : StrategySignal) (e : Decimal)
    (sp : option Decimal) (st : RiskState) (a v lo mn : option Decimal) (m : RiskManager) :
  breaker_wf (breaker m) -> strategy_signal_wf s -> datetime_range (rk_timestamp st) ->
  sg_intent s = ENTRY ->
  exists m' d, evaluate s e sp st a v lo mn m = (m', Ok d) /\ breaker_wf (breaker m') /\
    (allowed d = true ->
      let l := limits m in
      (rk_timestamp st <= valid_until s)%Z /\ primary_regime s <> UNKNOWN /\
      minimum_signal_confidence l <= confidence s /\
      minimum_data_quality l <= sg_data_quality_score s /\
      minimum_data_quality l <= rk_data_quality_score st /\
      daily_loss_fraction st < maximum_daily_loss l /\
      weekly_loss_fraction st < maximum_weekly_loss l /\
      drawdown_fraction st < maximum_drawdown l /\
      (consecutive_losses st < maximum_consecutive_losses l)%Z /\
      data_healthy st = true /\ api_healthy st = true /\ websocket_connected st = true /\
      spread_fraction st <= maximum_spread_fraction l /\
      price_divergence_fraction st <= maximum_price_divergence_fraction l /\
      (open_positions st < maximum_positions l)%Z /\
      halted (breaker m') = ∅ /\
      exists z, sizing d = Some z /\ accepted z = true /\
        size l s e sp st a v lo mn = Ok z).
Proof.
  intros Hb Hs Ht Hi.
  destruct (evaluate_entry s e sp st a v lo mn m Hb Hs Ht Hi)
    as (m1 & m' & d & _ & _ & Hw & _ & Ee & Hal).
  exists m', d. split; [done|]. split; [done|]. intros Ha l.
  destruct (Hal Ha) as (Hf & Hemp & Hz). apply failed_reasons_nil in Hf.
  unfold entry_checks in Hf. rewrite !Forall_cons in Hf. destruct_and! Hf. simpl in *. decb.
  rewrite ?Z.ltb_ge, ?Z.leb_gt, ?bool_decide_eq_false, ?negb_false_iff in *.
  split_and!; try done; subst l; dminmax; lra.
Qed.

Lemma entry_allowed_sound_witness :
  let C := default_context in
  exists m' d, evaluate sample_strategy_signal 100 (Some 95) sample_risk_state
                 None None (Some (1 # 1000)) (Some 10) sample_manager = (m', Ok d) /\
    allowed d = true /\ daily_loss_fraction sample_risk_state < 1 # 100.
Proof.
  intros C. destruct (entry_allowed_sound (C := C) sample_strategy_signal 100 (Some 95)
    sample_risk_state None None (Some (1 # 1000)) (Some 10) sample_manager)
    as (m' & d & E & _ & H).
  - apply sample_manager_wf.
  - apply sample_strategy_signal_wf.
  - split; vm_compute; discriminate.
  - reflexivity.
  - exists m', d. split; [exact E|].
    assert (allowed d = true) as Ha.
    { vm_compute in E. injection E as _ <-. reflexivity. }
    split; [exact Ha|]. apply (H Ha).
Defined.

(** Exits are never blocked.  An exit or reduction is allowed in every
    state of the breaker and of the account. *)
Theorem exits_always_allowed {C : DecimalContext} (s : StrategySignal) (e : Decimal)
    (sp : option Decimal) (st : RiskState) (a v lo mn : option Decimal) (m : RiskManager) :
  breaker_wf (breaker m) -> strategy_signal_wf s -> datetime_range (rk_timestamp st) ->
  sg_intent s <> ENTRY ->
  exists m' d, evaluate s e sp st a v lo mn m = (m', Ok d) /\ allowed d = true /\
    breaker_reasons d = sorted_halts (halted (breaker m')).
Proof.
  intros Hb Hs Ht Hi. unfold evaluate.
  assert (bool_decide (sg_intent s ∈ [EXIT; REDUCE]) = true) as ->.
  { destruct (sg_intent s); [done|reflexivity..]. }
  unfold pbind, on_breaker, pzoom.
  destruct (status_aware (rk_timestamp st) (breaker m) Hb) as [-> _].
  unfold plift. rewrite (RiskDecision_validate_ok _ s st); try done. by eexists _, _.
Qed.

Definition sample_exit_signal : StrategySignal := {|
  sg_signal_id := "0123456789abcdef"; sg_timestamp := 1000; sg_strategy := TREND_FOLLOWING;
  sg_symbol := "BTC"; sg_exchange := None; sg_side := S_FLAT; sg_intent := EXIT;
  strength := 0; confidence := 1 # 10; suggested_risk_fraction := 25 # 10000;
  primary_regime := UNKNOWN; secondary_regimes := []; sg_data_quality_score := 0;
  valid_until := 2000; evidence := ["exit"%string]; feature_snapshot := [] |}.

Lemma exits_always_allowed_witness :
  let C := default_context in
  exists m' d, evaluate sample_exit_signal 100 None sample_risk_state None None None None
                 sample_killed = (m', Ok d) /\ allowed d = true.
Proof.
  intros C. destruct (exits_always_allowed (C := C) sample_exit_signal 100 None sample_risk_state
    None None None None sample_killed) as (m' & d & E & Ha & _).
  - apply sample_killed_wf.
  - apply (StrategySignal_new_wf "0123456789abcdef" (Aware 1000) TREND_FOLLOWING "BTC"
      None S_FLAT EXIT 0 (1 # 10) (25 # 10000) UNKNOWN [] 0 (Aware 2000) ["exit"%string] []).
    reflexivity.
  - split; vm_compute; discriminate.
  - discriminate.
  - exists m', d. exact (conj E Ha).
Defined.
