(* ===== verification/Splits.v ===== *)
(** * Chronological data splits (services/validation/splits.py)

    Index arrays are lists of integers; [np.arange(a, b)] is [arange a b].  The
    fractions of [chronological_split] are binary64 numbers: their product and
    sum are rounded by [fl]. *)

From Stdlib Require Import ZArith QArith Qround Qpower Qabs Lia Lqa.
From stdpp Require Import base tactics list numbers strings sets.
From S2P Require Import Prelude Decimals Binary64.

Local Open Scope string_scope.
Local Open Scope Z_scope.

Definition arange (a b : Z) : list Z := seqZ a (b - a).

(** ** Splits *)

Record DatasetSplit := {
  ds_train : list Z;
  ds_validation : list Z;
  ds_out_of_sample : list Z;
  ds_purge_size : Z;
  ds_embargo_size : Z;
}.

Record PurgedFold := {
  pf_train : list Z;
  pf_test : list Z;
  pf_purged : list Z;
  pf_embargoed : list Z;
}.

Record WalkForwardWindow := {
  wf_number : Z;
  wf_train : list Z;
  wf_validation : list Z;
  wf_out_of_sample : list Z;
  wf_anchored : bool;
}.

Definition validate_gap (value : Z) (name : string) : result unit :=
  require! negb (value <? 0) else ValueError (name +:+ " must be a non-negative integer");
  Ok tt.

Definition is_empty (xs : list Z) : bool := match xs with [] => true | _ => false end.

Definition chronological_split (n_samples : Z) (train_fraction validation_fraction : Q)
    (purge_size embargo_size : Z) : result DatasetSplit :=
  require! negb (n_samples <? 3)
    else ValueError "n_samples must be an integer of at least three";
  require! dltb 0 train_fraction && dltb train_fraction 1
    else ValueError "train_fraction must be between zero and one";
  require! negb (negb (dltb 0 validation_fraction && dltb validation_fraction 1)
                 || dleb 1 (fl (Qplus train_fraction validation_fraction)))
    else ValueError "validation_fraction must leave a non-empty out-of-sample share";
  let! _ := validate_gap purge_size "purge_size" in
  let! _ := validate_gap embargo_size "embargo_size" in
  let samples := fl (inject_Z n_samples) in
  let train_boundary := Qfloor (fl (Qmult samples train_fraction)) in
  let validation_boundary :=
    Qfloor (fl (Qmult samples (fl (Qplus train_fraction validation_fraction)))) in
  let train := arange 0 (train_boundary - purge_size) in
  let validation := arange (train_boundary + embargo_size) (validation_boundary - purge_size) in
  let out_of_sample := arange (validation_boundary + embargo_size) n_samples in
  require! negb (is_empty train || is_empty validation || is_empty out_of_sample)
    else ValueError "purge/embargo settings leave an empty chronological split";
  Ok {| ds_train := train; ds_validation := validation; ds_out_of_sample := out_of_sample;
        ds_purge_size := purge_size; ds_embargo_size := embargo_size |}.

(** [np.array_split(np.arange(n), k)]: [k] contiguous blocks, the first
    [n mod k] of them one longer. *)
Definition split_bounds (n k : Z) : list (Z * Z) :=
  map (fun i => (i * (n / k) + Z.min i (n mod k),
                 (i + 1) * (n / k) + Z.min (i + 1) (n mod k))) (seqZ 0 k).

(** One iteration of the fold loop, for the test block [a, b). *)
Definition purged_fold (n_samples purge_size embargo_size a b : Z) : result PurgedFold :=
  let purge_start := Z.max 0 (a - purge_size) in
  let embargo_end := Z.min n_samples (b + embargo_size) in
  let train := List.filter (fun i => negb ((purge_start <=? i) && (i <? embargo_end)))
                 (arange 0 n_samples) in
  require! negb (is_empty train)
    else ValueError "purge/embargo settings leave an empty training fold";
  Ok {| pf_train := train; pf_test := arange a b; pf_purged := arange purge_start a;
        pf_embargoed := arange b embargo_end |}.

Fixpoint purged_folds (n_samples purge_size embargo_size : Z) (blocks : list (Z * Z))
  : result (list PurgedFold) :=
  match blocks with
  | [] => Ok []
  | (a, b) :: blocks =>
      let! f := purged_fold n_samples purge_size embargo_size a b in
      let! fs := purged_folds n_samples purge_size embargo_size blocks in
      Ok (f :: fs)
  end.

Definition purged_kfold (n_samples n_splits purge_size embargo_size : Z)
  : result (list PurgedFold) :=
  require! negb (n_samples <? 2) else ValueError "n_samples must be an integer of at least two";
  require! (2 <=? n_splits) && (n_splits <=? n_samples)
    else ValueError "n_splits must be between two and n_samples";
  let! _ := validate_gap purge_size "purge_size" in
  let! _ := validate_gap embargo_size "embargo_size" in
  purged_folds n_samples purge_size embargo_size (split_bounds n_samples n_splits).

(** ** Walk-forward windows *)

Record WalkParams := {
  n_samples : Z;
  train_size : Z;
  validation_size : Z;
  out_of_sample_size : Z;
  step : Z;
  anchored : bool;
  purge_size : Z;
  embargo_size : Z;
}.

Definition out_of_sample_start (p : WalkParams) (offset : Z) : Z :=
  let nominal_train_end := train_size p + offset in
  if negb (validation_size p =? 0)
  then nominal_train_end + embargo_size p + validation_size p + embargo_size p
  else nominal_train_end + embargo_size p.

Definition window_at (p : WalkParams) (offset number : Z) : WalkForwardWindow :=
  let train_start := if anchored p then 0 else offset in
  let nominal_train_end := train_size p + offset in
  let validation_start := nominal_train_end + embargo_size p in
  {| wf_number := number;
     wf_train := arange train_start (nominal_train_end - purge_size p);
     wf_validation :=
       if negb (validation_size p =? 0)
       then arange validation_start (validation_start + validation_size p - purge_size p)
       else [];
     wf_out_of_sample := arange (out_of_sample_start p offset)
                           (out_of_sample_start p offset + out_of_sample_size p);
     wf_anchored := anchored p |}.

(** The loop; [None] when the fuel runs out. *)
Fixpoint walk_loop (p : WalkParams) (fuel : nat) (offset : Z)
    (windows : list WalkForwardWindow) : option (list WalkForwardWindow) :=
  match fuel with
  | O => None
  | S fuel =>
      if out_of_sample_start p offset + out_of_sample_size p >? n_samples p
      then Some windows
      else walk_loop p fuel (offset + step p)
             (windows ++ [window_at p offset (Z.of_nat (length windows))])
  end.

Definition walk_forward_splits (n_samples train_size validation_size out_of_sample_size : Z)
    (step_size : option Z) (anchored : bool) (purge_size embargo_size : Z)
  : result (list WalkForwardWindow) :=
  require! negb (n_samples <? 1) else ValueError "n_samples must be a positive integer";
  require! negb (train_size <? 1) else ValueError "train_size must be an integer of at least 1";
  require! negb (validation_size <? 0)
    else ValueError "validation_size must be an integer of at least 0";
  require! negb (out_of_sample_size <? 1)
    else ValueError "out_of_sample_size must be an integer of at least 1";
  let! _ := validate_gap purge_size "purge_size" in
  let! _ := validate_gap embargo_size "embargo_size" in
  let step := default out_of_sample_size step_size in
  require! negb (step <? 1) else ValueError "step_size must be a positive integer";
  require! negb ((train_size <=? purge_size)
                 || negb (validation_size =? 0) && (validation_size <=? purge_size))
    else ValueError "purge_size must leave non-empty train and validation blocks";
  let p := {| n_samples := n_samples; train_size := train_size;
              validation_size := validation_size; out_of_sample_size := out_of_sample_size;
              step := step; anchored := anchored; purge_size := purge_size;
              embargo_size := embargo_size |} in
  match walk_loop p (S (Z.to_nat n_samples)) 0 [] with
  | None => Err (RuntimeError "out of fuel")
  | Some [] => Err (ValueError "not enough observations for one walk-forward window")
  | Some windows => Ok windows
  end.

Definition rolling_walk_forward (n_samples train_size validation_size out_of_sample_size : Z)
    (step_size : option Z) (purge_size embargo_size : Z) : result (list WalkForwardWindow) :=
  walk_forward_splits n_samples train_size validation_size out_of_sample_size step_size false
    purge_size embargo_size.

Definition anchored_walk_forward (n_samples train_size validation_size out_of_sample_size : Z)
    (step_size : option Z) (purge_size embargo_size : Z) : result (list WalkForwardWindow) :=
  walk_forward_splits n_samples train_size validation_size out_of_sample_size step_size true
    purge_size embargo_size.

Local Close Scope string_scope.

(** ** Lemmas *)

Lemma elem_of_arange a b i : i ∈ arange a b <-> a <= i < b.
Proof. unfold arange. rewrite elem_of_seqZ. lia. Qed.

Lemma is_empty_arange a b : is_empty (arange a b) = false <-> a < b.
Proof.
  split.
  - unfold arange. destruct (Z_le_gt_dec b a) as [H|]; [|lia].
    intros E. by rewrite seqZ_nil in E by lia.
  - intros H. unfold arange. by rewrite seqZ_cons by lia.
Qed.

Lemma arange_app a b c : a <= b -> b <= c -> arange a b ++ arange b c = arange a c.
Proof.
  intros H1 H2. unfold arange. replace (c - a) with ((b - a) + (c - b)) by lia.
  rewrite seqZ_app by lia. by replace (a + (b - a)) with b by lia.
Qed.

(** Consecutive blocks that start at [a] and end at [c]. *)
Fixpoint chain (a : Z) (blocks : list (Z * Z)) (c : Z) : Prop :=
  match blocks with
  | [] => a = c
  | (x, y) :: blocks => x = a /\ x < y /\ chain y blocks c
  end.

Lemma split_bounds_chain n k : 0 < k -> k <= n -> chain 0 (split_bounds n k) n.
Proof.
  intros Hk Hn. unfold split_bounds.
  pose proof (Z.div_mod n k ltac:(lia)) as Hdm. pose proof (Z.mod_pos_bound n k Hk) as Hm.
  set (d := n / k) in *. set (m := n mod k) in *. clearbody d m.
  assert (1 <= d) as Hd by nia.
  assert (forall j i, 0 <= i -> i + Z.of_nat j = k ->
    chain (i * d + Z.min i m)
      (map (fun i => (i * d + Z.min i m, (i + 1) * d + Z.min (i + 1) m)) (seqZ i (Z.of_nat j)))
      n) as H.
  { intros j. induction j as [|j IH]; intros i Hi Hj.
    - simpl. replace i with k by lia. lia.
    - rewrite seqZ_cons by lia. simpl. split; [done|]. split; [lia|].
      replace (Z.pred (Z.of_nat (S j))) with (Z.of_nat j) by lia.
      replace (Z.succ i) with (i + 1) by lia. apply IH; lia. }
  specialize (H (Z.to_nat k) 0 ltac:(lia) ltac:(lia)).
  rewrite Z2Nat.id in H by lia. by replace (0 * d + Z.min 0 m) with 0 in H by lia.
Qed.

Lemma chain_le blocks a c : chain a blocks c -> a <= c.
Proof.
  revert a. induction blocks as [|[x y] bs IH]; simpl; intros a; [lia|].
  intros (-> & Hxy & Hc). apply IH in Hc. lia.
Qed.

(** Every fold of a successful run comes from its block. *)
Lemma purged_folds_spec n pu em blocks fs c a :
  chain a blocks c -> purged_folds n pu em blocks = Ok fs ->
  concat (map pf_test fs) = arange a c /\ length fs = length blocks /\
  Forall (fun f => exists x y, a <= x /\ x < y /\ y <= c /\ purged_fold n pu em x y = Ok f) fs.
Proof.
  revert a fs. induction blocks as [|[x y] bs IH]; intros a fs Hc H; simpl in *.
  - injection H as <-. subst a. simpl. unfold arange. by rewrite Z.sub_diag.
  - destruct Hc as (-> & Hxy & Hc). pose proof (chain_le _ _ _ Hc) as Hyc.
    destruct (purged_fold n pu em a y) as [f|] eqn:Ef; [|done]. simpl in H.
    destruct (purged_folds n pu em bs) as [fs'|] eqn:Es; [|done]. injection H as <-.
    destruct (IH y fs' Hc eq_refl) as (E1 & E2 & E3). simpl. split_and!; [|lia|].
    + rewrite E1. assert (pf_test f = arange a y) as ->; [|apply arange_app; lia].
      unfold purged_fold in Ef. case_hyp Ef; [|done]. by injection Ef as <-.
    + constructor; [exists a, y; split_and!; [lia..|done]|].
      eapply Forall_impl; [exact E3|]. simpl. intros g (x1 & y1 & ? & ? & ? & ?).
      exists x1, y1. split_and!; [lia..|done].
Qed.

Lemma validate_gap_ok v name u : validate_gap v name = Ok u -> 0 <= v.
Proof. unfold validate_gap. destruct (v <? 0) eqn:E; [done|]. intros _. lia. Qed.

(** *** The walk-forward loop *)

Definition walk_wf (p : WalkParams) : Prop :=
  1 <= n_samples p /\ 1 <= train_size p /\ 0 <= validation_size p /\
  1 <= out_of_sample_size p /\ 1 <= step p /\ 0 <= purge_size p /\ 0 <= embargo_size p /\
  purge_size p < train_size p /\
  (validation_size p <> 0 -> purge_size p < validation_size p).

(** The windows that fit, from the first on. *)
Definition walk_windows (p : WalkParams) (ws : list WalkForwardWindow) : Prop :=
  forall i w, ws !! i = Some w ->
    w = window_at p (Z.of_nat i * step p) (Z.of_nat i) /\
    out_of_sample_start p (Z.of_nat i * step p) + out_of_sample_size p <= n_samples p.

Lemma walk_windows_snoc p ws :
  walk_windows p ws ->
  out_of_sample_start p (Z.of_nat (length ws) * step p) + out_of_sample_size p <= n_samples p ->
  walk_windows p (ws ++ [window_at p (Z.of_nat (length ws) * step p) (Z.of_nat (length ws))]).
Proof.
  intros Hws Hfit i w [Hi|[? Hi]]%lookup_app_Some; [by apply Hws|].
  apply list_lookup_singleton_Some in Hi as [Hi <-].
  replace i with (length ws) by lia. done.
Qed.

(** Enough fuel: the loop ends with every window that fits. *)
Lemma walk_loop_spec p fuel ws :
  walk_wf p -> walk_windows p ws ->
  n_samples p < Z.of_nat (length ws) + Z.of_nat fuel ->
  exists ws', walk_loop p fuel (Z.of_nat (length ws) * step p) ws = Some ws' /\
    walk_windows p ws' /\
    n_samples p < out_of_sample_start p (Z.of_nat (length ws') * step p) + out_of_sample_size p.
Proof.
  intros Hp. revert ws. induction fuel as [|fuel IH]; intros ws Hws Hf.
  - exfalso. destruct ws as [|w0 ws0] using rev_ind; simpl in *.
    + destruct Hp. lia.
    + destruct (Hws (length ws0) w0) as [_ Hfit]; [by rewrite lookup_app_r, Nat.sub_diag|].
      destruct Hp as (_ & Ht & Hv & Ho & Hs & _ & He & _). rewrite length_app in Hf. simpl in Hf.
      unfold out_of_sample_start in Hfit. destruct (validation_size p =? 0); simpl in *; nia.
  - simpl. destruct (_ >? _) eqn:E.
    + exists ws. split; [done|]. split; [done|]. lia.
    + destruct (IH (ws ++ [window_at p (Z.of_nat (length ws) * step p) (Z.of_nat (length ws))]))
        as (ws' & Hl & H1 & H2).
      * apply walk_windows_snoc; [done|]. lia.
      * rewrite length_app. simpl. lia.
      * exists ws'. split; [|done]. rewrite <- Hl. f_equal. rewrite length_app. simpl. lia.
Qed.

(** ** Main theorems *)

(** The three parts of a chronological split never leak.  Train, validation
    and out-of-sample indices are non-empty, lie in the data in that order, and
    are separated by at least the purge plus the embargo. *)
Theorem chronological_split_sound (n : Z) (tf vf : Q) (pu em : Z) (d : DatasetSplit) :
  chronological_split n tf vf pu em = Ok d ->
  ds_train d <> [] /\ ds_validation d <> [] /\ ds_out_of_sample d <> [] /\
  (forall i, i ∈ ds_train d ++ ds_validation d ++ ds_out_of_sample d -> 0 <= i < n) /\
  (forall t v, t ∈ ds_train d -> v ∈ ds_validation d -> t + pu + em < v) /\
  (forall v o, v ∈ ds_validation d -> o ∈ ds_out_of_sample d -> v + pu + em < o).
Proof.
  unfold chronological_split. intros H.
  destruct (n <? 3) eqn:E0; [done|]. cbn [negb] in H.
  destruct (_ && _) in H; [|done]. destruct (negb _) in H; [|done].
  destruct (validate_gap pu _) as [u|] eqn:Ep; [|done].
  destruct (validate_gap em _) as [u2|] eqn:Ee; [|done]. cbn [rbind] in H.
  apply validate_gap_ok in Ep, Ee. set (tb := Qfloor _) in H. set (vb := Qfloor _) in H.
  destruct (is_empty (arange 0 _) || _ || _) eqn:Em; [done|]. injection H as <-. simpl.
  apply orb_false_iff in Em as [[E1 E2]%orb_false_iff E3].
  pose proof E1 as L1. pose proof E2 as L2. pose proof E3 as L3.
  rewrite is_empty_arange in L1, L2, L3.
  split_and!; [intros Ex; by rewrite Ex in E1|intros Ex; by rewrite Ex in E2|
    intros Ex; by rewrite Ex in E3|..].
  - intros i. rewrite !elem_of_app, !elem_of_arange. lia.
  - intros t v. rewrite !elem_of_arange. lia.
  - intros v o. rewrite !elem_of_arange. lia.
Qed.

Lemma chronological_split_sound_witness :
  let d := default {| ds_train := []; ds_validation := []; ds_out_of_sample := [];
                      ds_purge_size := 0; ds_embargo_size := 0 |}
             (ok_value (chronological_split 20 (1 # 2) (1 # 4) 1 1)) in
  ds_train d = arange 0 9 /\ ds_validation d = arange 11 14 /\
  forall t v, t ∈ ds_train d -> v ∈ ds_validation d -> t + 1 + 1 < v.
Proof.
  intros d. split; [vm_compute; reflexivity|]. split; [vm_compute; reflexivity|].
  apply (chronological_split_sound 20 (1 # 2) (1 # 4) 1 1 d). vm_compute. reflexivity.
Defined.

(** Purged folds cover and never leak.  The test blocks of the folds are
    the data cut into [n_splits] consecutive pieces; in each fold the training
    indices keep the purge distance before the test block and the embargo
    distance after it, and every index of the data is in exactly the training,
    purged, test or embargoed part. *)
Theorem purged_kfold_sound (n k pu em : Z) (fs : list PurgedFold) :
  purged_kfold n k pu em = Ok fs ->
  concat (map pf_test fs) = arange 0 n /\ Z.of_nat (length fs) = k /\
  Forall (fun f =>
    pf_train f <> [] /\
    (forall i j, i ∈ pf_train f -> j ∈ pf_test f -> i < j - pu \/ j + em < i) /\
    (forall i, 0 <= i < n <->
       i ∈ pf_train f \/ i ∈ pf_purged f \/ i ∈ pf_test f \/ i ∈ pf_embargoed f) /\
    (forall i, i ∈ pf_train f -> i ∉ pf_purged f ++ pf_test f ++ pf_embargoed f)) fs.
Proof.
  unfold purged_kfold. intros H. destruct (n <? 2) eqn:E0; [done|]. simpl in H.
  destruct (_ && _) eqn:Ek in H; [|done]. apply andb_true_iff in Ek as [Ek1 Ek2].
  destruct (validate_gap pu _) as [u|] eqn:Ep; [|done].
  destruct (validate_gap em _) as [u2|] eqn:Ee; [|done]. simpl in H.
  apply validate_gap_ok in Ep, Ee.
  pose proof (split_bounds_chain n k ltac:(lia) ltac:(lia)) as Hc.
  destruct (purged_folds_spec n pu em _ fs n 0 Hc H) as (E1 & E2 & E3).
  split; [done|]. split.
  { rewrite E2. unfold split_bounds. rewrite length_map, length_seqZ. lia. }
  eapply Forall_impl; [exact E3|]. simpl. intros f (x & y & Hx & Hxy & Hy & Hf).
  unfold purged_fold in Hf. destruct (negb (is_empty _)) eqn:Em; [|done].
  injection Hf as <-. simpl.
  set (tr := List.filter _ _) in *.
  assert (forall i, i ∈ tr <-> 0 <= i < n /\ ~ (Z.max 0 (x - pu) <= i < Z.min n (y + em))) as Htr.
  { intros i. unfold tr. rewrite list_elem_of_In, List.filter_In, <- list_elem_of_In,
      elem_of_arange. lia. }
  split_and!.
  - intros Et. by rewrite Et in Em.
  - intros i j. rewrite Htr, elem_of_arange. lia.
  - intros i. rewrite Htr, !elem_of_arange. lia.
  - intros i. rewrite Htr, !elem_of_app, !elem_of_arange. lia.
Qed.

Lemma purged_kfold_sound_witness :
  let fs := default [] (ok_value (purged_kfold 10 3 1 1)) in
  map pf_train fs = [[5; 6; 7; 8; 9]; [0; 1; 2; 8; 9]; [0; 1; 2; 3; 4; 5]] /\
  concat (map pf_test fs) = arange 0 10.
Proof.
  intros fs. split; [vm_compute; reflexivity|].
  refine (proj1 (purged_kfold_sound 10 3 1 1 fs _)). vm_compute. reflexivity.
Defined.

(** Walk-forward windows.  The loop always terminates.  When windows are
    returned, they are the consecutive shifts by the step that fit the data, and
    no further shift fits; in each window train, validation and out-of-sample
    indices are in order, separated by at least the purge plus the embargo, and
    inside the data. *)
Theorem walk_forward_sound (n tr va oos : Z) (st : option Z) (anc : bool) (pu em : Z) :
  match walk_forward_splits n tr va oos st anc pu em with
  | Err (RuntimeError _) => False
  | Err _ => True
  | Ok ws =>
      ws <> [] /\
      forall i w, ws !! i = Some w ->
        wf_number w = Z.of_nat i /\ wf_train w <> [] /\
        Z.of_nat (length (wf_out_of_sample w)) = oos /\
        (forall o, o ∈ wf_out_of_sample w -> 0 <= o < n) /\
        (forall t o, t ∈ wf_train w -> o ∈ wf_out_of_sample w -> t + pu + em < o) /\
        (forall t v, t ∈ wf_train w -> v ∈ wf_validation w -> t + pu + em < v) /\
        (forall v o, v ∈ wf_validation w -> o ∈ wf_out_of_sample w -> v + pu + em < o)
  end.
Proof.
  unfold walk_forward_splits.
  destruct (n <? 1) eqn:E1; [done|]. destruct (tr <? 1) eqn:E2; [done|].
  destruct (va <? 0) eqn:E3; [done|]. destruct (oos <? 1) eqn:E4; [done|]. cbn [negb].
  destruct (validate_gap pu _) as [u|e] eqn:Ep; [|unfold validate_gap in Ep; case_hyp Ep; by simplify_eq].
  destruct (validate_gap em _) as [u2|e] eqn:Ee; [|unfold validate_gap in Ee; case_hyp Ee; by simplify_eq].
  apply validate_gap_ok in Ep, Ee. cbn [rbind].
  destruct (default oos st <? 1) eqn:E5; [done|]. destruct ((tr <=? pu) || _) eqn:E6; [done|].
  cbn [negb]. apply orb_false_iff in E6 as [E6 E7]. set (p := {| n_samples := n |}).
  assert (walk_wf p) as Hp.
  { unfold walk_wf; simpl; split_and!; lia. }
  destruct (walk_loop_spec p (S (Z.to_nat n)) [] Hp) as (ws & Hl & Hws & _);
    [intros i w Hi; by rewrite lookup_nil in Hi|simpl; lia|].
  replace (Z.of_nat (length (@nil WalkForwardWindow)) * step p) with 0 in Hl by (simpl; lia).
  rewrite Hl. destruct ws as [|w0 ws0]; [done|]. split; [done|]. intros i w Hi.
  destruct (Hws i w Hi) as [-> Hfit]. destruct Hp as (_ & Ht & Hv & Ho & Hs & Hpu & Hem & H8 & H9).
  assert (0 <= Z.of_nat i * step p) by nia. set (o := Z.of_nat i * step p) in *.
  unfold window_at, out_of_sample_start in *. simpl in *.
  split; [done|]. split.
  { intros Er. assert (is_empty (arange (if anc then 0 else o) (tr + o - pu)) = true) as Ex
      by (by rewrite Er). apply not_false_iff_true in Ex. apply Ex, is_empty_arange.
    destruct anc; lia. }
  split; [unfold arange; rewrite length_seqZ; lia|].
  destruct (va =? 0) eqn:Eva; simpl in *;
    (split_and!; [intros a; rewrite elem_of_arange; lia|..]; intros a b;
     rewrite ?elem_of_arange, ?elem_of_nil; lia).
Qed.
