(* ===== verification/LegState.v ===== *)
(** * Two-leg execution state machine (domain/execution/leg_state.py) *)

From Stdlib Require Import ZArith QArith Qabs Lia Lqa.
From stdpp Require Import base tactics relations list strings.
From S2P Require Import Prelude Decimals.

Local Open Scope Q_scope.
Local Open Scope string_scope.
Local Open Scope dec_scope.

Inductive LegExecutionState :=
| PLANNED | FIRST_SUBMITTED | FIRST_PARTIAL | FIRST_FILLED | SECOND_SUBMITTED | HEDGED
| UNWINDING | COMPLETED | HALTED.
#[export] Instance LegExecutionState_eq_dec : EqDecision LegExecutionState.
Proof. solve_decision. Defined.

Inductive PreflightChangeAction := CHASE | PARTIAL_HEDGE | ALTERNATE_HEDGE | UNWIND | HALT.

Record LegRiskPolicy := {
  first_leg_timeout : Z;
  second_leg_chase_limit_bps : Decimal;
  maximum_naked_exposure : Decimal;
  emergency_hedge_venue : string;
  unwind_policy : string;
}.

Definition LegRiskPolicy_validate (self : LegRiskPolicy) : result LegRiskPolicy :=
  require! second_leg_chase_limit_bps self >=? 0 else ValueError "second_leg_chase_limit_bps";
  require! maximum_naked_exposure self >? 0 else ValueError "maximum_naked_exposure";
  Ok self.

Record LegExecutionSnapshot := {
  leg_state : LegExecutionState;
  started_at : Z;
  leg_updated_at : Z;
  target_quantity : Decimal;
  first_filled_quantity : Decimal;
  second_filled_quantity : Decimal;
  reference_price : Decimal;
  leg_reason : string;
}.

Record LegExecutionMachine := {
  policy : LegRiskPolicy;
  snapshot : LegExecutionSnapshot;
}.

Definition with_snapshot (s : LegExecutionSnapshot) (m : LegExecutionMachine)
  : LegExecutionMachine := {| policy := policy m; snapshot := s |}.

Definition leg_utc (value : datetime) : result Z :=
  utc_or "timestamp must be timezone-aware" value.

(** [__init__]: the snapshot is validated. *)
Definition LegExecutionMachine_new (policy : LegRiskPolicy) (started_at : datetime)
    (quantity price : Decimal) : result LegExecutionMachine :=
  let! t := utc_or "leg timestamps must be timezone-aware" started_at in
  require! quantity >? 0 else ValueError "target_quantity";
  require! price >? 0 else ValueError "reference_price";
  Ok {| policy := policy; snapshot := {|
          leg_state := PLANNED; started_at := t; leg_updated_at := t;
          target_quantity := quantity; first_filled_quantity := 0;
          second_filled_quantity := 0; reference_price := price; leg_reason := "planned" |} |}.

(** [model_copy(update=...)] of state, time and reason. *)
Definition update_state (st : LegExecutionState) (now : Z) (reason : string)
    (s : LegExecutionSnapshot) : LegExecutionSnapshot := {|
  leg_state := st; started_at := started_at s; leg_updated_at := now;
  target_quantity := target_quantity s; first_filled_quantity := first_filled_quantity s;
  second_filled_quantity := second_filled_quantity s; reference_price := reference_price s;
  leg_reason := reason |}.

Definition update_fills (first second : Decimal) (s : LegExecutionSnapshot)
  : LegExecutionSnapshot := {|
  leg_state := leg_state s; started_at := started_at s; leg_updated_at := leg_updated_at s;
  target_quantity := target_quantity s; first_filled_quantity := first;
  second_filled_quantity := second; reference_price := reference_price s;
  leg_reason := leg_reason s |}.

Definition transition (st : LegExecutionState) (now : datetime) (reason : string)
  : M LegExecutionMachine LegExecutionSnapshot := fun self =>
  match leg_utc now with
  | Err e => (self, Err e)
  | Ok now =>
      let s := update_state st now reason (snapshot self) in (with_snapshot s self, Ok s)
  end.

Section Leg.
Context {C : DecimalContext}.

Definition naked_exposure (self : LegExecutionSnapshot) : Decimal :=
  dabs (first_filled_quantity self ⊖ second_filled_quantity self) ⊗ reference_price self.

Definition deviation_bps (price reference : Decimal) : Decimal :=
  dabs (price ⊖ reference) ⊘ reference ⊗ 10000.

Definition submit_first (now : datetime) : M LegExecutionMachine LegExecutionSnapshot :=
  transition FIRST_SUBMITTED now "first leg submitted".

Definition submit_second (now : datetime) (chase_price : Decimal)
  : M LegExecutionMachine LegExecutionSnapshot := fun self =>
  if chase_price <=? 0 then (self, Err (ValueError "chase price must be positive"))
  else if deviation_bps chase_price (reference_price (snapshot self))
          >? second_leg_chase_limit_bps (policy self)
  then transition UNWINDING now
         ("second-leg chase limit exceeded; " +:+ unwind_policy (policy self)) self
  else transition SECOND_SUBMITTED now "second leg submitted" self.

(** The state and reason [reconcile] chooses before the exposure check. *)
Definition reconciled_state (s : LegExecutionSnapshot) (first second : Decimal)
  : LegExecutionState * string :=
  let target := target_quantity s in
  if (first =? target) && (second =? target) then (COMPLETED, "both legs filled")
  else if (second >? 0) && (second =? first) then (HEDGED, "filled exposure is hedged")
  else if first =? target then (FIRST_FILLED, "partial fills reconciled")
  else if first >? 0 then (FIRST_PARTIAL, "partial fills reconciled")
  else (leg_state s, "partial fills reconciled").

Definition reconcile (now : datetime) (first_filled second_filled : Decimal)
  : M LegExecutionMachine LegExecutionSnapshot := fun self =>
  let s := snapshot self in
  if (first_filled <? first_filled_quantity s) || (second_filled <? second_filled_quantity s)
  then (self, Err (ValueError "cumulative fills cannot decrease"))
  else if (first_filled >? target_quantity s) || (second_filled >? target_quantity s)
  then (self, Err (ValueError "filled quantity exceeds target"))
  else
    let (st, reason) := reconciled_state s first_filled second_filled in
    match leg_utc now with
    | Err e => (self, Err e)
    | Ok now =>
        let updated := update_fills first_filled second_filled (update_state st now reason s) in
        let updated :=
          if naked_exposure updated >? maximum_naked_exposure (policy self)
          then update_state HALTED (leg_updated_at updated) "maximum naked exposure exceeded"
                 updated
          else updated in
        (with_snapshot updated self, Ok updated)
    end.

Definition check_timeout (now : datetime) : M LegExecutionMachine LegExecutionSnapshot :=
  fun self =>
  match leg_utc now with
  | Err e => (self, Err e)
  | Ok now =>
      if bool_decide (leg_state (snapshot self) ∈ [FIRST_SUBMITTED; FIRST_PARTIAL])
         && (first_leg_timeout (policy self) <=? now - started_at (snapshot self))%Z
      then transition UNWINDING (Aware now) (unwind_policy (policy self)) self
      else (self, Ok (snapshot self))
  end.

Definition handle_preflight_change (now : datetime) (evidence_valid execution_health : bool)
    (available_collateral fillable_quantity expected_vwap : Decimal)
    (alternate_hedge_available : bool) : M LegExecutionMachine PreflightChangeAction :=
  fun self =>
  let go st reason action := (run! transition st now reason; pret action) self in
  if negb evidence_valid then go HALTED "changed evidence is untrusted" HALT
  else if negb execution_health && alternate_hedge_available
  then go SECOND_SUBMITTED "alternate hedge selected" ALTERNATE_HEDGE
  else if negb execution_health || (available_collateral <=? 0) || (fillable_quantity <=? 0)
  then go UNWINDING (unwind_policy (policy self)) UNWIND
  else if fillable_quantity <? target_quantity (snapshot self)
  then go SECOND_SUBMITTED "partial hedge selected" PARTIAL_HEDGE
  else if deviation_bps expected_vwap (reference_price (snapshot self))
          <=? second_leg_chase_limit_bps (policy self)
  then go SECOND_SUBMITTED "chase selected" CHASE
  else go UNWINDING (unwind_policy (policy self)) UNWIND.

End Leg.

Local Close Scope string_scope.

(** ** Invariant *)

Record leg_wf (m : LegExecutionMachine) : Prop := {
  lgwf_target : 0 < target_quantity (snapshot m);
  lgwf_price : 0 < reference_price (snapshot m);
  lgwf_first : 0 <= first_filled_quantity (snapshot m) /\
               first_filled_quantity (snapshot m) <= target_quantity (snapshot m);
  lgwf_second : 0 <= second_filled_quantity (snapshot m) /\
                second_filled_quantity (snapshot m) <= target_quantity (snapshot m);
  lgwf_completed : leg_state (snapshot m) = COMPLETED ->
    first_filled_quantity (snapshot m) == target_quantity (snapshot m) /\
    second_filled_quantity (snapshot m) == target_quantity (snapshot m);
  lgwf_hedged : leg_state (snapshot m) = HEDGED ->
    0 < second_filled_quantity (snapshot m) /\
    first_filled_quantity (snapshot m) == second_filled_quantity (snapshot m);
}.

(** The operations of the machine. *)
Inductive leg_step {C : DecimalContext} : LegExecutionMachine -> LegExecutionMachine -> Prop :=
| leg_submit_first t m : leg_step m (submit_first t m).1
| leg_submit_second t p m : leg_step m (submit_second t p m).1
| leg_reconcile t a b m : leg_step m (reconcile t a b m).1
| leg_check_timeout t m : leg_step m (check_timeout t m).1
| leg_preflight t ev eh c f v alt m :
    leg_step m (handle_preflight_change t ev eh c f v alt m).1.

Definition leg_le (m m' : LegExecutionMachine) : Prop :=
  policy m' = policy m /\
  target_quantity (snapshot m') = target_quantity (snapshot m) /\
  first_filled_quantity (snapshot m) <= first_filled_quantity (snapshot m') /\
  second_filled_quantity (snapshot m) <= second_filled_quantity (snapshot m').

Section LegLemmas.
Context {C : DecimalContext}.

Lemma LegExecutionMachine_new_wf pol t q p m :
  LegExecutionMachine_new pol t q p = Ok m -> leg_wf m.
Proof.
  unfold LegExecutionMachine_new, utc_or. destruct t; [done|]. simpl. intros H.
  repeat case_hyp H; inv_ok. decb. constructor; simpl; try done; split; lra.
Qed.

(** A transition into any state but COMPLETED and HEDGED keeps the invariant. *)
Lemma transition_wf st t r m :
  leg_wf m -> st <> COMPLETED -> st <> HEDGED ->
  leg_wf (transition st t r m).1 /\ leg_le m (transition st t r m).1.
Proof.
  intros [? ? ? ? ? ?] H1 H2. unfold transition. destruct (leg_utc t); simpl.
  - split; [constructor; simpl; try done|]. split_and!; simpl; try done; lra.
  - split; [by constructor|]. split_and!; simpl; try done; lra.
Qed.

Lemma transition_then {A} st t r (a : A) m :
  (pbind (transition st t r) (fun _ => pret a) m).1 = (transition st t r m).1.
Proof. unfold pbind. by destruct (transition st t r m) as [m' [s|e]]. Qed.

Lemma reconciled_state_wf s a b t r :
  0 < target_quantity s ->
  0 <= first_filled_quantity s -> first_filled_quantity s <= a -> second_filled_quantity s <= b ->
  a <= target_quantity s -> b <= target_quantity s ->
  (leg_state s = COMPLETED -> first_filled_quantity s == target_quantity s /\
     second_filled_quantity s == target_quantity s) ->
  (leg_state s = HEDGED -> 0 < second_filled_quantity s /\
     first_filled_quantity s == second_filled_quantity s) ->
  reconciled_state s a b = (t, r) ->
  (t = COMPLETED -> a == target_quantity s /\ b == target_quantity s) /\
  (t = HEDGED -> 0 < b /\ a == b).
Proof.
  intros Ht H0 Ha Hb Hat Hbt Hc Hh. unfold reconciled_state.
  destruct ((a =? _) && (b =? _)) eqn:E1; [|destruct ((b >? 0) && _) eqn:E2;
    [|destruct (a =? target_quantity s) eqn:E3; [|destruct (a >? 0) eqn:E4]]];
    intros Ex; apply (f_equal fst) in Ex; simpl in Ex; subst t; decb; destruct_and?; split; intros Hst;
    try done; try lra.
  - destruct (Hc Hst). lra.
  - destruct (Hh Hst). lra.
Qed.

Lemma reconcile_wf t a b m :
  leg_wf m -> leg_wf (reconcile t a b m).1 /\ leg_le m (reconcile t a b m).1.
Proof.
  intros Hm. assert (leg_le m m) as Hrefl by (split_and!; try done; lra).
  pose proof Hm as [H1 H2 [H3 H4] [H5 H6] H7 H8]. unfold reconcile.
  destruct (_ || _) eqn:E1; [done|]. destruct (_ || _) eqn:E2 in |- *; [done|].
  decb. destruct_and?. destruct (reconciled_state _ a b) as [st r] eqn:Es.
  destruct (leg_utc t) as [now|]; [|done]. cbn [fst].
  destruct (reconciled_state_wf (snapshot m) a b st r) as [Hc Hh]; try done.
  case_goal; (split; [constructor|split_and!]); simpl; try done; try (split; lra).
Qed.

Lemma leg_step_wf m m' : leg_step m m' -> leg_wf m -> leg_wf m' /\ leg_le m m'.
Proof.
  intros Hst Hm. assert (leg_le m m) as Hrefl by (split_and!; try done; lra).
  destruct Hst as [t m|t p m|t a b m|t m|t ev eh c f v alt m].
  - by apply transition_wf.
  - unfold submit_second. repeat case_goal; [done|by apply transition_wf..].
  - by apply reconcile_wf.
  - unfold check_timeout. destruct (leg_utc t); [|done]. case_goal; [by apply transition_wf|done].
  - unfold handle_preflight_change. repeat case_goal; rewrite transition_then;
      by apply transition_wf.
Qed.

End LegLemmas.

(** ** Main theorems *)

(** Fills of both legs only grow, and stay within the target.  After any
    sequence of operations, whether they succeed or raise, the cumulative fills
    are between what they were and the target; the machine says COMPLETED only
    when both legs are filled, and HEDGED only when the filled quantities of the
    legs are equal and positive. *)
Theorem leg_fills_monotone {C : DecimalContext} (m m' : LegExecutionMachine) :
  leg_wf m -> rtc leg_step m m' -> leg_wf m' /\ leg_le m m'.
Proof.
  intros Hm Hst. revert Hm. induction Hst as [x|x y z Hxy _ IH]; intros Hx.
  - split; [done|]. split_and!; try done; lra.
  - destruct (leg_step_wf _ _ Hxy Hx) as [Hy (E1 & E2 & L1 & L2)].
    destruct (IH Hy) as [Hz (E3 & E4 & L3 & L4)]. split; [done|].
    split_and!; [congruence|congruence|lra|lra].
Qed.

Definition sample_leg_policy : LegRiskPolicy := {|
  first_leg_timeout := 3000000; second_leg_chase_limit_bps := 15;
  maximum_naked_exposure := 150; emergency_hedge_venue := "binance";
  unwind_policy := "cancel_remainder_then_reduce_filled_leg" |}.

Definition sample_leg : LegExecutionMachine := {|
  policy := sample_leg_policy;
  snapshot := {| leg_state := PLANNED; started_at := 0; leg_updated_at := 0;
    target_quantity := 2; first_filled_quantity := 0; second_filled_quantity := 0;
    reference_price := 100; leg_reason := "planned" |} |}.

Lemma sample_leg_wf : leg_wf sample_leg.
Proof. apply (LegExecutionMachine_new_wf sample_leg_policy (Aware 0) 2 100). reflexivity. Qed.

Lemma leg_fills_monotone_witness :
  let C := default_context in
  let m1 := (submit_first (Aware 1) sample_leg).1 in
  let m' := (reconcile (Aware 2) 1 1 m1).1 in
  leg_state (snapshot m') = HEDGED /\ leg_wf m' /\ leg_le sample_leg m'.
Proof.
  intros C m1 m'. split; [reflexivity|].
  apply (leg_fills_monotone (C := C) sample_leg m' sample_leg_wf).
  apply rtc_l with m1; [apply leg_submit_first|]. apply rtc_once. apply leg_reconcile.
Defined.

(** Reconciliation guards the naked exposure.  A successful reconciliation
    records the fills given; the machine it leaves is HALTED when the unhedged
    value exceeds the policy's maximum, and is not HALTED when it is within the
    maximum and something is filled on the first leg. *)
Theorem reconcile_guards_exposure {C : DecimalContext} (t : Z) (a b : Decimal)
    (m m' : LegExecutionMachine) (s : LegExecutionSnapshot) :
  leg_wf m -> reconcile (Aware t) a b m = (m', Ok s) ->
  snapshot m' = s /\ first_filled_quantity s = a /\ second_filled_quantity s = b /\
  (maximum_naked_exposure (policy m) < naked_exposure s -> leg_state s = HALTED) /\
  (naked_exposure s <= maximum_naked_exposure (policy m) -> 0 < a -> leg_state s <> HALTED).
Proof.
  intros Hm. unfold reconcile. destruct (_ || _) eqn:E1; [done|].
  destruct (_ || _) eqn:E2 in |- *; [done|].
  destruct (reconciled_state _ a b) as [st r] eqn:Es. simpl.
  destruct (naked_exposure _ >? _) eqn:E3; intros H; inversion H; subst; clear H; simpl.
  - apply dltb_lt in E3. split_and!; try done. intros Hle. exfalso.
    unfold naked_exposure in *. simpl in *. lra.
  - apply dltb_ge in E3. split_and!; try done.
    + intros Hlt. unfold naked_exposure in *. simpl in *. lra.
    + intros _ Ha Hst. unfold reconciled_state in Es.
      rewrite (proj2 (dltb_lt 0 a) Ha) in Es.
      repeat case_hyp Es; apply (f_equal fst) in Es; simpl in Es; congruence.
Qed.

Lemma reconcile_guards_exposure_witness :
  let C := default_context in
  let out := reconcile (Aware 2) 2 0 (submit_first (Aware 1) sample_leg).1 in
  leg_state (snapshot out.1) = HALTED.
Proof.
  intros C out. set (m := (submit_first (Aware 1) sample_leg).1).
  assert (reconcile (Aware 2) 2 0 m = (out.1, Ok (snapshot out.1))) as E by reflexivity.
  assert (leg_wf m) as Hm by (apply transition_wf; [apply sample_leg_wf|done|done]).
  destruct (reconcile_guards_exposure (C := C) 2 2 0 m out.1 (snapshot out.1) Hm E)
    as (_ & _ & _ & H & _).
  apply H. vm_compute. reflexivity.
Defined.

(** The first leg cannot outlive its timeout.  A timeout check at or after
    the deadline unwinds a machine whose first leg is submitted or partially
    filled; in every other case the machine is unchanged. *)
Theorem check_timeout_spec (t : Z) (m : LegExecutionMachine) :
  let late := (first_leg_timeout (policy m) <= t - started_at (snapshot m))%Z in
  let waiting := leg_state (snapshot m) = FIRST_SUBMITTED \/
                 leg_state (snapshot m) = FIRST_PARTIAL in
  (waiting /\ late /\ leg_state (snapshot (check_timeout (Aware t) m).1) = UNWINDING /\
   leg_updated_at (snapshot (check_timeout (Aware t) m).1) = t) \/
  (~ (waiting /\ late) /\ check_timeout (Aware t) m = (m, Ok (snapshot m))).
Proof.
  unfold check_timeout. simpl. destruct (bool_decide _) eqn:E1; simpl.
  - apply bool_decide_eq_true in E1. rewrite !elem_of_cons, elem_of_nil in E1.
    destruct (Z.leb_spec (first_leg_timeout (policy m)) (t - started_at (snapshot m))).
    + left. split_and!; try done. tauto.
    + right. split; [|done]. lia.
  - apply bool_decide_eq_false in E1. rewrite !elem_of_cons, elem_of_nil in E1. right.
    split; [tauto|done].
Qed.

(** A chase or hedge after a preflight change needs trusted evidence.  The
    action follows the state set: untrusted evidence halts; a second leg is
    submitted only for an alternate hedge when the venue is unhealthy, for a
    partial hedge of a positive fillable quantity, or for a chase within the
    limit, and everything else unwinds. *)
Theorem preflight_change_spec {C : DecimalContext} (t : Z) (ev eh : bool)
    (col fq vwap : Decimal) (alt : bool) (m m' : LegExecutionMachine)
    (act : PreflightChangeAction) :
  handle_preflight_change (Aware t) ev eh col fq vwap alt m = (m', Ok act) ->
  match act with
  | HALT => ev = false /\ leg_state (snapshot m') = HALTED
  | ALTERNATE_HEDGE =>
      ev = true /\ eh = false /\ alt = true /\ leg_state (snapshot m') = SECOND_SUBMITTED
  | PARTIAL_HEDGE =>
      ev = true /\ eh = true /\ 0 < col /\ 0 < fq /\ fq < target_quantity (snapshot m) /\
      leg_state (snapshot m') = SECOND_SUBMITTED
  | CHASE =>
      ev = true /\ eh = true /\ 0 < col /\ target_quantity (snapshot m) <= fq /\
      deviation_bps vwap (reference_price (snapshot m)) <=
        second_leg_chase_limit_bps (policy m) /\
      leg_state (snapshot m') = SECOND_SUBMITTED
  | UNWIND => ev = true /\ leg_state (snapshot m') = UNWINDING
  end.
Proof.
  unfold handle_preflight_change, pbind, transition, pret. simpl.
  destruct ev; simpl; [|by intros [= <- <-]].
  destruct (negb eh && alt) eqn:E1.
  { intros [= <- <-]. apply andb_true_iff in E1 as [E1 E2]. by destruct eh. }
  destruct (negb eh || _ || _) eqn:E2; [by intros [= <- <-]|].
  apply orb_false_iff in E2 as [[E2 E3]%orb_false_iff E4]. destruct eh; [|done].
  apply dleb_gt in E3, E4.
  destruct (fq <? _) eqn:E5; [apply dltb_lt in E5; by intros [= <- <-]|apply dltb_ge in E5].
  destruct (_ <=? _) eqn:E6; [apply dleb_le in E6|]; by intros [= <- <-].
Qed.

Lemma preflight_change_spec_witness :
  let C := default_context in
  let m' := (handle_preflight_change (Aware 5) true true 10 1 100 false sample_leg).1 in
  0 < 1 /\ leg_state (snapshot m') = SECOND_SUBMITTED.
Proof.
  intros C m'.
  destruct (preflight_change_spec (C := C) 5 true true 10 1 100 false sample_leg m' PARTIAL_HEDGE)
    as (_ & _ & _ & H1 & _ & H2); [reflexivity|]. exact (conj H1 H2).
Defined.

(** A halted machine does not stay halted: with 200 of exposure unhedged, above
    the maximum of 150, a preflight change that reports healthy conditions
    submits the second leg again, and so does a direct submission. *)
Example halted_is_left :
  let C := default_context in
  let m := (reconcile (Aware 2) 2 0 (submit_first (Aware 1) sample_leg).1).1 in
  leg_state (snapshot m) = HALTED /\
  leg_state (snapshot (handle_preflight_change (Aware 3) true true 10 2 100 false m).1)
    = SECOND_SUBMITTED /\
  leg_state (snapshot (submit_second (Aware 3) 100 m).1) = SECOND_SUBMITTED.
Proof. vm_compute. repeat split. Qed.
