(* ===== verification/PaperBroker.v ===== *)
(** * Paper broker (services/paper_trading/models.py, broker.py)

    [uuid4()] and [datetime.now(UTC)] are parameters: [uuid4 n] is the value of
    the [n]-th call of [uuid4], and [wall n] the wall clock when [n] calls of
    [uuid4] have been made.  The text of a number in an audit payload is kept as
    the number. *)

From Stdlib Require Import ZArith QArith Qabs Lia Lqa.
From stdpp Require Import base tactics list strings gmap.
From S2P Require Import Prelude Decimals ExecutionModels.

Local Open Scope Q_scope.
Local Open Scope string_scope.
Local Open Scope dec_scope.

(** ** Models *)

Inductive PaperOrderType := P_MARKET | P_LIMIT.
#[export] Instance PaperOrderType_eq_dec : EqDecision PaperOrderType.
Proof. solve_decision. Defined.

Inductive PaperOrderStatus := P_OPEN | P_PARTIALLY_FILLED | P_FILLED | P_CANCELED | P_REJECTED.
#[export] Instance PaperOrderStatus_eq_dec : EqDecision PaperOrderStatus.
Proof. solve_decision. Defined.

Record PaperOrderRequest := {
  client_order_id : string;
  rq_symbol : string;
  rq_side : Side;
  rq_quantity : Decimal;
  rq_order_type : PaperOrderType;
  rq_limit_price : option Decimal;
}.

Definition PaperOrderRequest_validate (self : PaperOrderRequest) : result PaperOrderRequest :=
  require! (1 <=? String.length (client_order_id self))%nat
           && (String.length (client_order_id self) <=? 100)%nat
    else ValueError "client_order_id";
  require! (1 <=? String.length (rq_symbol self))%nat
           && (String.length (rq_symbol self) <=? 40)%nat else ValueError "symbol";
  require! rq_quantity self >? 0 else ValueError "quantity";
  require! match rq_limit_price self with Some p => p >? 0 | None => true end
    else ValueError "limit_price";
  require! negb (bool_decide (rq_order_type self = P_LIMIT)
                 && bool_decide (rq_limit_price self = None))
    else ValueError "limit orders require limit_price";
  require! negb (bool_decide (rq_order_type self = P_MARKET)
                 && bool_decide (rq_limit_price self <> None))
    else ValueError "market orders cannot specify limit_price";
  Ok self.

Record PaperQuote := {
  qt_symbol : string;
  qt_timestamp : Z;
  qt_bid : Decimal;
  qt_ask : Decimal;
  bid_size : Decimal;
  ask_size : Decimal;
  qt_data_quality_score : Decimal;
  qt_sequence : option Z;
}.

Definition PaperQuote_validate (self : PaperQuote) : result PaperQuote :=
  require! (qt_bid self >? 0) && (qt_ask self >? 0) && (bid_size self >? 0)
           && (ask_size self >? 0) else ValueError "quote fields must be positive";
  require! (0 <=? qt_data_quality_score self) && (qt_data_quality_score self <=? 1)
    else ValueError "data_quality_score";
  require! negb (qt_bid self >=? qt_ask self) else ValueError "quote must have a positive spread";
  Ok self.

Record PaperOrder := {
  request : PaperOrderRequest;
  po_submitted_at : Z;
  po_status : PaperOrderStatus;
  po_filled_quantity : Decimal;
  po_rejection_reason : option string;
}.

Record PaperFill := {
  pf_fill_id : string;
  pf_client_order_id : string;
  pf_symbol : string;
  pf_side : Side;
  pf_timestamp : Z;
  pf_quantity : Decimal;
  pf_price : Decimal;
  pf_fee : Decimal;
  pf_slippage_cost : Decimal;
}.

Definition PaperFill_validate (self : PaperFill) : result PaperFill :=
  require! pf_quantity self >? 0 else ValueError "quantity";
  require! pf_price self >? 0 else ValueError "price";
  require! pf_fee self >=? 0 else ValueError "fee";
  require! pf_slippage_cost self >=? 0 else ValueError "slippage_cost";
  Ok self.

Record PaperPosition := {
  pp_symbol : string;
  pp_quantity : Decimal;
  average_entry : Decimal;
  pp_realized_pnl : Decimal;
  pp_funding_pnl : Decimal;
}.

Definition PaperPosition_new (symbol : string) : PaperPosition := {|
  pp_symbol := symbol; pp_quantity := 0; average_entry := 0; pp_realized_pnl := 0;
  pp_funding_pnl := 0 |}.

Record PaperAccountSnapshot := {
  pa_timestamp : Z;
  pa_cash : Decimal;
  pa_equity : Decimal;
  pa_gross_exposure : Decimal;
  pa_fees_paid : Decimal;
  pa_funding_pnl : Decimal;
  open_orders : nat;
  pa_positions : list (string * Decimal);
}.

(** A value of an audit payload; the event holds its [str()]. *)
Inductive PayloadValue :=
| PStr (s : string) | PDec (q : Decimal) | PInt (z : Z) | PSide (s : Side).

Record PaperAuditEvent := {
  event_id : string;
  ae_timestamp : Z;
  event_type : string;
  entity_id : option string;
  payload : list (string * PayloadValue);
}.

(** ** State *)

Record BrokerConfig := {
  b_initial_cash : Decimal;
  fee_rate : Decimal;
  b_slippage_bps : Decimal;
  max_participation : Decimal;
  max_gross_leverage : Decimal;
  minimum_quality : Decimal;
}.

Record PaperBroker := {
  bconf : BrokerConfig;
  b_cash : Decimal;
  b_orders : list (string * PaperOrder);
  b_positions : list (string * PaperPosition);
  b_fills : list PaperFill;
  latest_quotes : list (string * PaperQuote);
  fees_paid : Decimal;
  kill_switch_reason : option string;
  operational_halt_reason : option string;
  last_sequence : list (string * Z);
  audit_events : list PaperAuditEvent;
  data_halted_symbols : gset string;
  uuid_calls : N;
}.

Definition PaperBroker_new (c : BrokerConfig) : result PaperBroker :=
  require! negb (b_initial_cash c <=? 0) else ValueError "initial_cash must be positive";
  require! (0 <=? max_participation c) && (max_participation c <=? 1)
    else ValueError "max_participation must be in [0, 1]";
  require! negb ((max_gross_leverage c <=? 0) || (max_gross_leverage c >? 1))
    else ValueError "paper leverage must be in (0, 1]";
  require! negb ((fee_rate c <? 0) || (b_slippage_bps c <? 0))
    else ValueError "paper execution costs cannot be negative";
  require! (0 <=? minimum_quality c) && (minimum_quality c <=? 1)
    else ValueError "minimum_data_quality must be in [0, 1]";
  Ok {| bconf := c; b_cash := b_initial_cash c; b_orders := []; b_positions := [];
        b_fills := []; latest_quotes := []; fees_paid := 0; kill_switch_reason := None;
        operational_halt_reason := None; last_sequence := []; audit_events := [];
        data_halted_symbols := ∅; uuid_calls := 0 |}.

(** *** Assignments *)

Definition set_orders (os : list (string * PaperOrder)) (b : PaperBroker) : PaperBroker :=
  {| bconf := bconf b; b_cash := b_cash b; b_orders := os; b_positions := b_positions b;
     b_fills := b_fills b; latest_quotes := latest_quotes b; fees_paid := fees_paid b;
     kill_switch_reason := kill_switch_reason b;
     operational_halt_reason := operational_halt_reason b;
     last_sequence := last_sequence b; audit_events := audit_events b;
     data_halted_symbols := data_halted_symbols b; uuid_calls := uuid_calls b |}.

Definition set_account (cash : Decimal) (ps : list (string * PaperPosition)) (fees : Decimal)
    (fs : list PaperFill) (b : PaperBroker) : PaperBroker :=
  {| bconf := bconf b; b_cash := cash; b_orders := b_orders b; b_positions := ps;
     b_fills := fs; latest_quotes := latest_quotes b; fees_paid := fees;
     kill_switch_reason := kill_switch_reason b;
     operational_halt_reason := operational_halt_reason b;
     last_sequence := last_sequence b; audit_events := audit_events b;
     data_halted_symbols := data_halted_symbols b; uuid_calls := uuid_calls b |}.

Definition set_market (quotes : list (string * PaperQuote)) (seqs : list (string * Z))
    (halted : gset string) (b : PaperBroker) : PaperBroker :=
  {| bconf := bconf b; b_cash := b_cash b; b_orders := b_orders b;
     b_positions := b_positions b; b_fills := b_fills b; latest_quotes := quotes;
     fees_paid := fees_paid b; kill_switch_reason := kill_switch_reason b;
     operational_halt_reason := operational_halt_reason b; last_sequence := seqs;
     audit_events := audit_events b; data_halted_symbols := halted;
     uuid_calls := uuid_calls b |}.

Definition set_halts (kill operational : option string) (b : PaperBroker) : PaperBroker :=
  {| bconf := bconf b; b_cash := b_cash b; b_orders := b_orders b;
     b_positions := b_positions b; b_fills := b_fills b; latest_quotes := latest_quotes b;
     fees_paid := fees_paid b; kill_switch_reason := kill;
     operational_halt_reason := operational; last_sequence := last_sequence b;
     audit_events := audit_events b; data_halted_symbols := data_halted_symbols b;
     uuid_calls := uuid_calls b |}.

Definition set_log (es : list PaperAuditEvent) (calls : N) (b : PaperBroker) : PaperBroker :=
  {| bconf := bconf b; b_cash := b_cash b; b_orders := b_orders b;
     b_positions := b_positions b; b_fills := b_fills b; latest_quotes := latest_quotes b;
     fees_paid := fees_paid b; kill_switch_reason := kill_switch_reason b;
     operational_halt_reason := operational_halt_reason b;
     last_sequence := last_sequence b; audit_events := es;
     data_halted_symbols := data_halted_symbols b; uuid_calls := calls |}.

Definition store_paper_order (o : PaperOrder) (b : PaperBroker) : PaperBroker :=
  set_orders (dict_set (client_order_id (request o)) o (b_orders b)) b.

Definition set_order_status (st : PaperOrderStatus) (reason : option string)
    (filled : Decimal) (o : PaperOrder) : PaperOrder :=
  {| request := request o; po_submitted_at := po_submitted_at o; po_status := st;
     po_filled_quantity := filled; po_rejection_reason := reason |}.

(** The truth value of an optional string. *)
Definition truthy (s : option string) : bool :=
  match s with Some s => negb (bool_decide (s = EmptyString)) | None => false end.

Definition order_open (o : PaperOrder) : bool :=
  bool_decide (po_status o ∈ [P_OPEN; P_PARTIALLY_FILLED]).

Definition paper_utc (value : datetime) : result Z :=
  utc_or "paper timestamp must be timezone-aware" value.

Definition signed_quantity `{DecimalContext} (s : Side) (q : Decimal) : Decimal :=
  match s with BUY => q | SELL => dneg q end.

Section Broker.
Context {C : DecimalContext}.
Variable uuid4 : N -> string.
Variable wall : N -> Z.

Definition po_remaining (self : PaperOrder) : Decimal :=
  rq_quantity (request self) ⊖ po_filled_quantity self.

(** [_audit] at a normalised time. *)
Definition audit (timestamp : Z) (event_type : string) (entity_id : option string)
    (payload : list (string * PayloadValue)) (self : PaperBroker) : PaperBroker :=
  set_log (audit_events self ++
    [{| event_id := uuid4 (uuid_calls self); ae_timestamp := timestamp;
        event_type := event_type; entity_id := entity_id; payload := payload |}])%list
    (uuid_calls self + 1) self.

Definition audit_at (timestamp : datetime) (event_type : string) (entity_id : option string)
    (payload : list (string * PayloadValue)) : M PaperBroker unit := fun self =>
  match paper_utc timestamp with
  | Err e => (self, Err e)
  | Ok t => (audit t event_type entity_id payload self, Ok tt)
  end.

(** [timestamp or datetime.now(UTC)] *)
Definition or_now (timestamp : option datetime) (self : PaperBroker) : datetime :=
  default (Aware (wall (uuid_calls self))) timestamp.

Definition submit (rq : PaperOrderRequest) (submitted_at : datetime)
  : M PaperBroker PaperOrder := fun self =>
  match paper_utc submitted_at with
  | Err e => (self, Err e)
  | Ok t =>
      if dict_mem (client_order_id rq) (b_orders self)
      then (self, Err (ValueError "duplicate client_order_id"))
      else
        let halted := truthy (kill_switch_reason self) || truthy (operational_halt_reason self) in
        let order := {|
          request := rq; po_submitted_at := t;
          po_status := if halted then P_REJECTED else P_OPEN;
          po_filled_quantity := 0;
          po_rejection_reason :=
            if halted then
              Some (if truthy (kill_switch_reason self)
                    then "kill switch: " +:+ default EmptyString (kill_switch_reason self)
                    else "operational halt: " +:+
                         default EmptyString (operational_halt_reason self))
            else None |} in
        (audit t (if halted then "order_rejected" else "order_submitted")
           (Some (client_order_id rq))
           [("symbol", PStr (rq_symbol rq)); ("side", PSide (rq_side rq));
            ("quantity", PDec (rq_quantity rq))]
           (set_orders (dict_set (client_order_id rq) order (b_orders self)) self),
         Ok order)
  end.

Definition cancel (oid : string) (timestamp : option datetime) : M PaperBroker PaperOrder :=
  fun self =>
  match dict_get oid (b_orders self) with
  | None => (self, Err KeyError)
  | Some order =>
      if order_open order then
        let order := set_order_status P_CANCELED (po_rejection_reason order)
                       (po_filled_quantity order) order in
        let self := set_orders (dict_set oid order (b_orders self)) self in
        (run! audit_at (or_now timestamp self) "order_canceled" (Some oid)
                [("remaining_quantity", PDec (po_remaining order))];
         pret order) self
      else (self, Ok order)
  end.

Definition cancel_all : M PaperBroker unit := fun self =>
  pfor (dict_keys (b_orders self)) (fun oid => run! cancel oid None; pret tt) self.

Definition activate_kill_switch (reason : string) (timestamp : option datetime)
  : M PaperBroker unit :=
  run! pmodify (fun self => set_halts (Some reason) (operational_halt_reason self) self);
  run! cancel_all;
  fun self => audit_at (or_now timestamp self) "kill_switch" None [("reason", PStr reason)] self.

Definition clear_data_halt (symbol reason : string) (timestamp : datetime)
  : M PaperBroker unit :=
  run! pmodify (fun self =>
    set_market (latest_quotes self) (dict_pop symbol (last_sequence self))
      (data_halted_symbols self ∖ {[symbol]}) self);
  audit_at timestamp "data_halt_cleared" (Some symbol) [("reason", PStr reason)].

Definition halt (reason : string) (timestamp : datetime) : M PaperBroker unit :=
  run! pmodify (fun self => set_halts (kill_switch_reason self) (Some reason) self);
  audit_at timestamp "operational_halt" None [("reason", PStr reason)].

Definition resume (reason : string) (timestamp : datetime) : M PaperBroker unit :=
  run! pmodify (fun self => set_halts (kill_switch_reason self) None self);
  audit_at timestamp "operational_resume" None [("reason", PStr reason)].

Definition quote_mid (q : PaperQuote) : Decimal := (qt_bid q ⊕ qt_ask q) ⊘ 2.

Definition equity (self : PaperBroker) : Decimal :=
  b_cash self ⊕
  fold_left (fun u '(symbol, p) =>
    match dict_get symbol (latest_quotes self) with
    | Some q => u ⊕ (quote_mid q ⊖ average_entry p) ⊗ pp_quantity p
    | None => u
    end) (b_positions self) 0.

Definition exposure_allowed (self : PaperBroker) (symbol : string) (side : Side)
    (quantity price : Decimal) : bool :=
  let candidate := map (fun '(k, p) => (k, pp_quantity p)) (b_positions self) in
  let candidate := dict_set symbol
    (default 0 (dict_get symbol candidate) ⊕ signed_quantity side quantity) candidate in
  let gross := fold_left (fun g '(k, q) =>
    let mark := match dict_get k (latest_quotes self) with
                | Some quote => quote_mid quote | None => price end in
    g ⊕ dabs (q ⊗ mark)) candidate 0 in
  gross <=? equity self ⊗ max_gross_leverage (bconf self).

Definition paper_position (symbol : string) (self : PaperBroker) : PaperPosition :=
  default (PaperPosition_new symbol) (dict_get symbol (b_positions self)).

(** The position and the realized profit after a fill. *)
Definition fill_position (p : PaperPosition) (fill : PaperFill) : PaperPosition * Decimal :=
  let signed := signed_quantity (pf_side fill) (pf_quantity fill) in
  let old := pp_quantity p in
  let new := old ⊕ signed in
  let mk avg realized := {| pp_symbol := pp_symbol p; pp_quantity := new; average_entry := avg;
                            pp_realized_pnl := realized; pp_funding_pnl := pp_funding_pnl p |} in
  if (old =? 0) || (old ⊗ signed >? 0) then
    let total_cost := average_entry p ⊗ dabs old ⊕ pf_price fill ⊗ dabs signed in
    (mk (total_cost ⊘ dabs new) (pp_realized_pnl p), 0)
  else
    let closed := dmin (dabs old) (dabs signed) in
    let direction := if old >? 0 then 1 else -1 in
    let realized := (pf_price fill ⊖ average_entry p) ⊗ closed ⊗ direction in
    (mk (if new =? 0 then 0
         else if old ⊗ new <? 0 then pf_price fill
         else average_entry p) (pp_realized_pnl p ⊕ realized), realized).

Definition closes_position (p : PaperPosition) (fill : PaperFill) : bool :=
  negb ((pp_quantity p =? 0)
        || (pp_quantity p ⊗ signed_quantity (pf_side fill) (pf_quantity fill) >? 0)).

(** [_apply_fill]; cash is touched by the realized profit only when the fill
    closes. *)
Definition apply_paper_fill (fill : PaperFill) (self : PaperBroker) : PaperBroker :=
  let p := paper_position (pf_symbol fill) self in
  let (p', realized) := fill_position p fill in
  let cash := if closes_position p fill then b_cash self ⊕ realized else b_cash self in
  set_account (cash ⊖ pf_fee fill) (dict_set (pf_symbol fill) p' (b_positions self))
    (fees_paid self ⊕ pf_fee fill) (b_fills self) self.

(** Price and slippage cost of a fill at the touch; [None] when a limit order
    does not cross. *)
Definition fill_price (self : PaperBroker) (rq : PaperOrderRequest) (touch quantity : Decimal)
  : option (Decimal * Decimal) :=
  match rq_order_type rq with
  | P_LIMIT =>
      match rq_limit_price rq with
      | None => None
      | Some limit =>
          if match rq_side rq with BUY => touch <=? limit | SELL => touch >=? limit end
          then Some (touch, 0) else None
      end
  | P_MARKET =>
      let slip := b_slippage_bps (bconf self) ⊘ 10000 in
      let price := touch ⊗ match rq_side rq with BUY => 1 ⊕ slip | SELL => 1 ⊖ slip end in
      Some (price, dabs (price ⊖ touch) ⊗ quantity)
  end.

Definition try_fill (order : PaperOrder) (quote : PaperQuote)
  : M PaperBroker (option PaperFill) := fun self =>
  let rq := request order in
  let side_liquidity := match rq_side rq with BUY => ask_size quote | SELL => bid_size quote end in
  let available := side_liquidity ⊗ max_participation (bconf self) in
  let quantity := dmin (po_remaining order) available in
  if quantity <=? 0 then (self, Ok None)
  else if bool_decide (rq_order_type rq = P_LIMIT) && bool_decide (rq_limit_price rq = None)
  then (store_paper_order (set_order_status P_REJECTED
          (Some "limit price missing after validation") (po_filled_quantity order) order) self,
        Ok None)
  else
    let touch := match rq_side rq with BUY => qt_ask quote | SELL => qt_bid quote end in
    match fill_price self rq touch quantity with
    | None => (self, Ok None)
    | Some (price, slippage_cost) =>
        if negb (exposure_allowed self (rq_symbol rq) (rq_side rq) quantity price) then
          let order := set_order_status P_REJECTED (Some "maximum gross exposure exceeded")
                         (po_filled_quantity order) order in
          (audit (qt_timestamp quote) "order_rejected" (Some (client_order_id rq))
             [("reason", PStr "maximum gross exposure exceeded")]
             (store_paper_order order self), Ok None)
        else
          let notional := price ⊗ quantity in
          let fee := notional ⊗ fee_rate (bconf self) in
          let self := set_log (audit_events self) (uuid_calls self + 1) self in
          match PaperFill_validate {|
            pf_fill_id := uuid4 (uuid_calls self - 1); pf_client_order_id := client_order_id rq;
            pf_symbol := rq_symbol rq; pf_side := rq_side rq;
            pf_timestamp := qt_timestamp quote; pf_quantity := quantity; pf_price := price;
            pf_fee := fee; pf_slippage_cost := slippage_cost |} with
          | Err e => (self, Err e)
          | Ok fill =>
              let self := apply_paper_fill fill self in
              let filled := po_filled_quantity order ⊕ quantity in
              let order := set_order_status
                (if rq_quantity rq ⊖ filled =? 0 then P_FILLED else P_PARTIALLY_FILLED)
                (po_rejection_reason order) filled order in
              let self := store_paper_order order self in
              let self := set_account (b_cash self) (b_positions self) (fees_paid self)
                            (b_fills self ++ [fill])%list self in
              (audit (pf_timestamp fill) "fill" (Some (pf_fill_id fill))
                 [("order_id", PStr (pf_client_order_id fill)); ("symbol", PStr (pf_symbol fill));
                  ("quantity", PDec (pf_quantity fill)); ("price", PDec (pf_price fill));
                  ("fee", PDec (pf_fee fill)); ("slippage_cost", PDec (pf_slippage_cost fill))]
                 self, Ok (Some fill))
          end
    end.

(** The loop over the orders; [generated] is what it returns. *)
Fixpoint fill_orders (quote : PaperQuote) (ids : list string) (generated : list PaperFill)
  : M PaperBroker (list PaperFill) := fun self =>
  match ids with
  | [] => (self, Ok generated)
  | oid :: ids =>
      match dict_get oid (b_orders self) with
      | None => fill_orders quote ids generated self
      | Some order =>
          if negb (bool_decide (rq_symbol (request order) = qt_symbol quote))
             || (qt_timestamp quote <=? po_submitted_at order)%Z
             || negb (order_open order)
          then fill_orders quote ids generated self
          else
            (do! f <- try_fill order quote;
             fill_orders quote ids
               (generated ++ match f with Some f => [f] | None => [] end)%list) self
      end
  end.

Definition stale_sequence (self : PaperBroker) (quote : PaperQuote) : bool :=
  match qt_sequence quote, dict_get (qt_symbol quote) (last_sequence self) with
  | Some s, Some previous => (s <=? previous)%Z
  | _, _ => false
  end.

Definition sequence_gap (self : PaperBroker) (quote : PaperQuote) : option (Z * Z) :=
  match qt_sequence quote, dict_get (qt_symbol quote) (last_sequence self) with
  | Some s, Some previous => if (s >? previous + 1)%Z then Some (previous, s) else None
  | _, _ => None
  end.

(** The broker after a quote is recorded. *)
Definition record_quote (quote : PaperQuote) (self : PaperBroker) : PaperBroker :=
  set_market (dict_set (qt_symbol quote) quote (latest_quotes self))
    (match qt_sequence quote with
     | Some s => dict_set (qt_symbol quote) s (last_sequence self)
     | None => last_sequence self
     end) (data_halted_symbols self) self.

Definition trading_halted (quote : PaperQuote) (self : PaperBroker) : bool :=
  (qt_data_quality_score quote <? minimum_quality (bconf self))
  || truthy (kill_switch_reason self) || truthy (operational_halt_reason self)
  || bool_decide (qt_symbol quote ∈ data_halted_symbols self).

Definition on_quote (quote : PaperQuote) : M PaperBroker (list PaperFill) := fun self =>
  if stale_sequence self quote then (self, Ok [])
  else match sequence_gap self quote with
  | Some (previous, current) =>
      (audit (qt_timestamp quote) "data_sequence_gap" (Some (qt_symbol quote))
         [("previous", PInt previous); ("current", PInt current)]
         (set_market (latest_quotes self) (last_sequence self)
            ({[qt_symbol quote]} ∪ data_halted_symbols self) self), Ok [])
  | None =>
      let self := record_quote quote self in
      if trading_halted quote self then (self, Ok [])
      else fill_orders quote (dict_keys (b_orders self)) [] self
  end.

Definition apply_funding (symbol : string) (rate : Decimal) (timestamp : datetime)
  : M PaperBroker Decimal := fun self =>
  match dict_get symbol (b_positions self), dict_get symbol (latest_quotes self) with
  | Some p, Some quote =>
      let payment := dneg (pp_quantity p ⊗ quote_mid quote ⊗ rate) in
      let p' := {| pp_symbol := pp_symbol p; pp_quantity := pp_quantity p;
                   average_entry := average_entry p; pp_realized_pnl := pp_realized_pnl p;
                   pp_funding_pnl := pp_funding_pnl p ⊕ payment |} in
      (run! audit_at timestamp "funding" (Some symbol)
              [("rate", PDec rate); ("payment", PDec payment)];
       pret payment)
        (set_account (b_cash self ⊕ payment) (dict_set symbol p' (b_positions self))
           (fees_paid self) (b_fills self) self)
  | _, _ => (self, Ok 0)
  end.

Definition account_snapshot (timestamp : datetime) (self : PaperBroker)
  : result PaperAccountSnapshot :=
  let gross := fold_left (fun g '(symbol, p) =>
    match dict_get symbol (latest_quotes self) with
    | Some q => g ⊕ dabs (pp_quantity p ⊗ quote_mid q)
    | None => g
    end) (b_positions self) 0 in
  let! t := paper_utc timestamp in
  require! (gross >=? 0) && (fees_paid self >=? 0) else ValueError "snapshot";
  Ok {| pa_timestamp := t; pa_cash := b_cash self; pa_equity := equity self;
        pa_gross_exposure := gross; pa_fees_paid := fees_paid self;
        pa_funding_pnl := dsum (map pp_funding_pnl (dict_values (b_positions self)));
        open_orders := length (List.filter order_open (dict_values (b_orders self)));
        pa_positions := map (fun '(k, p) => (k, pp_quantity p)) (b_positions self) |}.

End Broker.

Local Close Scope string_scope.

(** ** Frames and outcomes *)

(** Everything that trading and accounting read or write, except the orders. *)
Definition same_account (b b' : PaperBroker) : Prop :=
  bconf b' = bconf b /\ b_cash b' = b_cash b /\ b_positions b' = b_positions b /\
  b_fills b' = b_fills b /\ fees_paid b' = fees_paid b.

Definition same_controls (b b' : PaperBroker) : Prop :=
  latest_quotes b' = latest_quotes b /\ kill_switch_reason b' = kill_switch_reason b /\
  operational_halt_reason b' = operational_halt_reason b /\
  data_halted_symbols b' = data_halted_symbols b /\ last_sequence b' = last_sequence b.

Definition order_touch (o : PaperOrder) (quote : PaperQuote) : Decimal :=
  match rq_side (request o) with BUY => qt_ask quote | SELL => qt_bid quote end.

(** What a produced fill says about its order, when it is tried. *)
Definition fills_order {C : DecimalContext} (b : PaperBroker) (quote : PaperQuote)
    (o : PaperOrder) (f : PaperFill) : Prop :=
  pf_client_order_id f = client_order_id (request o) /\ pf_symbol f = rq_symbol (request o) /\
  pf_side f = rq_side (request o) /\ pf_timestamp f = qt_timestamp quote /\
  0 < pf_quantity f /\ pf_quantity f <= po_remaining o /\
  pf_quantity f <= match rq_side (request o) with BUY => ask_size quote | SELL => bid_size quote end
                   ⊗ max_participation (bconf b) /\
  0 < pf_price f /\ 0 <= pf_fee f /\
  (rq_order_type (request o) = P_LIMIT -> exists limit,
     rq_limit_price (request o) = Some limit /\ pf_price f = order_touch o quote /\
     match rq_side (request o) with BUY => pf_price f <= limit | SELL => limit <= pf_price f end).

(** The order after a fill of quantity [q]. *)
Definition filled_order {C : DecimalContext} (o : PaperOrder) (q : Decimal) : PaperOrder :=
  let filled := po_filled_quantity o ⊕ q in
  set_order_status (if rq_quantity (request o) ⊖ filled =? 0 then P_FILLED else P_PARTIALLY_FILLED)
    (po_rejection_reason o) filled o.

Inductive try_outcome {C : DecimalContext} (b : PaperBroker) (quote : PaperQuote) (o : PaperOrder)
  : PaperBroker * result (option PaperFill) -> Prop :=
| try_none b' r :
    same_account b b' -> same_controls b b' -> b_orders b' = b_orders b ->
    (forall f, r <> Ok (Some f)) -> try_outcome b quote o (b', r)
| try_reject b' reason :
    same_account b b' -> same_controls b b' ->
    b_orders b' = dict_set (client_order_id (request o))
      (set_order_status P_REJECTED (Some reason) (po_filled_quantity o) o) (b_orders b) ->
    try_outcome b quote o (b', Ok None)
| try_filled b' f :
    fills_order b quote o f ->
    exposure_allowed b (pf_symbol f) (pf_side f) (pf_quantity f) (pf_price f) = true ->
    bconf b' = bconf b -> same_controls b b' ->
    b_orders b' = dict_set (client_order_id (request o)) (filled_order o (pf_quantity f))
                    (b_orders b) ->
    b_fills b' = b_fills b ++ [f] ->
    b_cash b' = b_cash (apply_paper_fill f b) ->
    b_positions b' = b_positions (apply_paper_fill f b) ->
    fees_paid b' = fees_paid (apply_paper_fill f b) ->
    try_outcome b quote o (b', Ok (Some f)).

Section BrokerLemmas.
Context {C : DecimalContext}.
Variable uuid4 : N -> string.
Variable wall : N -> Z.

Lemma fill_price_limit b rq touch q p sc :
  fill_price b rq touch q = Some (p, sc) -> rq_order_type rq = P_LIMIT ->
  exists limit, rq_limit_price rq = Some limit /\ p = touch /\
    match rq_side rq with BUY => p <= limit | SELL => limit <= p end.
Proof.
  unfold fill_price. intros H Ht. rewrite Ht in H.
  destruct (rq_limit_price rq) as [l|]; [|done]. exists l. split; [done|].
  destruct (rq_side rq); case_hyp H; inv_ok; decb; done.
Qed.

(** Accounting depends on the account part of the broker only. *)
Lemma apply_paper_fill_log f es n b :
  apply_paper_fill f (set_log es n b) = set_log es n (apply_paper_fill f b).
Proof. unfold apply_paper_fill, paper_position. simpl. by destruct (fill_position _ _). Qed.

Lemma try_fill_outcome o quote b :
  try_outcome b quote o (try_fill uuid4 o quote b).
Proof.
  unfold try_fill. cbv zeta.
  set (q := dmin (po_remaining o) _).
  destruct (q <=? 0) eqn:Eq; [by apply try_none|].
  destruct (bool_decide _ && bool_decide _) eqn:El; [by eapply try_reject|].
  fold (order_touch o quote).
  destruct (fill_price b _ _ _) as [[p sc]|] eqn:Ep; [|by apply try_none].
  destruct (exposure_allowed _ _ _ _ _) eqn:Ex; simpl; [|by eapply try_reject].
  destruct (PaperFill_validate _) as [f|e] eqn:Ef; [|by apply try_none].
  unfold PaperFill_validate in Ef. repeat case_hyp Ef; inv_ok. simpl in *. decb.
  rewrite apply_paper_fill_log. destruct (apply_paper_fill _ b) eqn:Ea.
  eapply try_filled; simpl; rewrite ?Ea; simpl; try done.
  - split_and!; simpl; try done.
    + unfold q. dminmax; lra.
    + unfold q. dminmax; lra.
    + intros Hl. by apply (fill_price_limit _ _ _ _ _ _ Ep).
  - apply (f_equal bconf) in Ea. unfold apply_paper_fill in Ea. by destruct (fill_position _ _).
  - split_and!; simpl;
      [apply (f_equal latest_quotes) in Ea|apply (f_equal kill_switch_reason) in Ea|
       apply (f_equal operational_halt_reason) in Ea|apply (f_equal data_halted_symbols) in Ea|
       apply (f_equal last_sequence) in Ea];
      unfold apply_paper_fill in Ea; by destruct (fill_position _ _).
  - apply (f_equal b_orders) in Ea. unfold apply_paper_fill in Ea.
    destruct (fill_position _ _). simpl in Ea. by rewrite Ea.
  - apply (f_equal b_fills) in Ea. unfold apply_paper_fill in Ea.
    destruct (fill_position _ _). simpl in Ea. by rewrite Ea.
Qed.

Definition eligible_order (quote : PaperQuote) (o : PaperOrder) : Prop :=
  rq_symbol (request o) = qt_symbol quote /\ (po_submitted_at o < qt_timestamp quote)%Z /\
  order_open o = true.

(** A property of the broker kept by every attempt on an eligible order of the
    book holds after the loop. *)
Lemma fill_orders_invariant (I : PaperBroker -> Prop) quote ids :
  (forall b oid o, I b -> dict_get oid (b_orders b) = Some o -> eligible_order quote o ->
     I (try_fill uuid4 o quote b).1) ->
  forall gen b, I b -> I (fill_orders uuid4 quote ids gen b).1.
Proof.
  intros Hstep. induction ids as [|oid ids IH]; intros gen b Hb; simpl; [done|].
  destruct (dict_get oid (b_orders b)) as [o|] eqn:Ho; [|by apply IH].
  destruct (_ || _ || _) eqn:E; [by apply IH|].
  apply orb_false_iff in E as [[E1 E2]%orb_false_iff E3].
  rewrite negb_false_iff in E1, E3. apply bool_decide_eq_true in E1.
  assert (I (try_fill uuid4 o quote b).1) as H1
    by (eapply Hstep; [done|done|]; split_and!; [done|lia|done]).
  unfold pbind. destruct (try_fill uuid4 o quote b) as [b1 [f|e]]; simpl in *; [by apply IH|done].
Qed.

(** The orders of the book: stored under their id, each id once. *)
Definition book_wf (b : PaperBroker) : Prop :=
  NoDup (dict_keys (b_orders b)) /\
  Forall (fun e => e.1 = client_order_id (request e.2)) (b_orders b).

Lemma set_order_wf b b' o :
  book_wf b -> b_orders b' = dict_set (client_order_id (request o)) o (b_orders b) -> book_wf b'.
Proof. intros [H1 H2] E. unfold book_wf. rewrite E. auto using dict_set_NoDup, dict_set_Forall. Qed.

Lemma try_fill_wf o quote b : book_wf b -> book_wf (try_fill uuid4 o quote b).1.
Proof.
  intros Hb. destruct (try_fill_outcome o quote b) as
    [b' r _ _ E _|b' reason _ _ E|b' f _ _ _ _ E _ _ _ _]; simpl.
  - unfold book_wf. by rewrite E.
  - by apply (set_order_wf b b' (set_order_status P_REJECTED (Some reason) (po_filled_quantity o) o)).
  - by apply (set_order_wf b b' (filled_order o (pf_quantity f))).
Qed.

(** What every fill of a quote is. *)
Definition paper_fill_sound (b : PaperBroker) (quote : PaperQuote) (f : PaperFill) : Prop :=
  exists o, dict_get (pf_client_order_id f) (b_orders b) = Some o /\
    eligible_order quote o /\ fills_order b quote o f.

(** What one attempt changes: its own order, and the fills it appends. *)
Lemma try_fill_step oid o quote b :
  book_wf b -> dict_get oid (b_orders b) = Some o -> eligible_order quote o ->
  let out := try_fill uuid4 o quote b in
  (forall k, k <> oid -> dict_get k (b_orders out.1) = dict_get k (b_orders b)) /\
  bconf out.1 = bconf b /\
  exists new, b_fills out.1 = b_fills b ++ new /\ Forall (paper_fill_sound b quote) new /\
    Forall (fun f => pf_client_order_id f = oid) new /\
    (forall r, out.2 = Ok r -> new = match r with Some f => [f] | None => [] end).
Proof.
  intros [_ Hw] Ho He out. subst out.
  pose proof (dict_get_Forall _ _ _ _ Hw Ho) as Hid. simpl in Hid.
  destruct (try_fill_outcome o quote b) as
    [b' r (Hc & _ & _ & Hf & _) _ E Hr|b' reason (Hc & _ & _ & Hf & _) _ E|b' f Hf Hx Hc _ E Ef _ _ _];
    simpl; rewrite E; (split; [intros k Hk; rewrite <- ?Hid, ?dict_get_set_ne by done; done|]);
    (split; [done|]).
  - exists []. rewrite app_nil_r. split_and!; try done. intros [f|] ->; [by destruct (Hr f)|done].
  - exists []. rewrite app_nil_r. split_and!; try done. by intros r [= <-].
  - exists [f]. split_and!; try done.
    + constructor; [|done]. exists o. destruct Hf as (E1 & ?). rewrite E1, <- Hid. done.
    + constructor; [|done]. destruct Hf as (-> & _). done.
    + by intros r [= <-].
Qed.

Lemma fill_orders_spec quote ids gen b :
  NoDup ids -> book_wf b ->
  let out := fill_orders uuid4 quote ids gen b in
  exists new, b_fills out.1 = b_fills b ++ new /\ Forall (paper_fill_sound b quote) new /\
    map pf_client_order_id new `sublist_of` ids /\
    (forall fs, out.2 = Ok fs -> fs = gen ++ new).
Proof.
  intros Hnd. revert gen b. induction Hnd as [|oid ids Hni Hnd IH]; intros gen b Hb; simpl.
  { exists []. rewrite !app_nil_r. split_and!; try done. by intros fs [= <-]. }
  assert (forall gen, exists new, b_fills (fill_orders uuid4 quote ids gen b).1 = b_fills b ++ new /\
    Forall (paper_fill_sound b quote) new /\ map pf_client_order_id new `sublist_of` oid :: ids /\
    (forall fs, (fill_orders uuid4 quote ids gen b).2 = Ok fs -> fs = gen ++ new)) as Hskip.
  { intros g. destruct (IH g b Hb) as (new & ? & ? & ? & ?). exists new. split_and!; try done.
    by apply sublist_cons. }
  destruct (dict_get oid (b_orders b)) as [o|] eqn:Ho; [|apply Hskip].
  destruct (_ || _ || _) eqn:E; [apply Hskip|].
  apply orb_false_iff in E as [[E1 E2]%orb_false_iff E3].
  rewrite negb_false_iff in E1, E3. apply bool_decide_eq_true in E1.
  assert (eligible_order quote o) as He by (split_and!; [done|lia|done]).
  pose proof (try_fill_wf o quote b Hb) as Hw1.
  destruct (try_fill_step oid o quote b Hb Ho He) as (Hframe & Hconf & new1 & F1 & S1 & I1 & R1).
  unfold pbind. destruct (try_fill uuid4 o quote b) as [b1 [f|e]] eqn:Et; cbn [fst snd] in *.
  - destruct (IH (gen ++ match f with Some f => [f] | None => [] end) b1 Hw1)
      as (new2 & F2 & S2 & I2 & R2).
    exists (new1 ++ new2). split_and!.
    + by rewrite F2, F1, (assoc_L (++)).
    + apply Forall_app. split; [done|]. rewrite Forall_forall in S2 |- *. intros g Hg.
      destruct (S2 g Hg) as (og & G1 & G2 & G3). exists og. split_and!; [|done|].
      * rewrite <- G1. symmetry. apply Hframe. intros Eg. apply Hni. rewrite <- Eg.
        eapply elem_of_submseteq; [by apply (list_elem_of_fmap_2 pf_client_order_id)|].
        by apply sublist_submseteq.
      * unfold fills_order in *. by rewrite Hconf in G3.
    + rewrite map_app. apply (sublist_app _ [oid]); [|done].
      rewrite (R1 _ eq_refl) in *. destruct f as [f|]; simpl; [|apply sublist_nil_l].
      apply Forall_cons in I1 as [-> _]. done.
    + intros fs Hfs. rewrite (R2 _ Hfs), (R1 _ eq_refl). by rewrite (assoc_L (++)).
  - exists new1. split_and!; [done|done| |done].
    destruct (try_fill_outcome o quote b) as [b' r (_ & _ & _ & Hf & _) _ _ _|b' reason _ _ _|b' f _ _ _ _ _ _ _ _ _];
      inversion Et; subst.
    rewrite Hf in F1. destruct new1; [apply sublist_nil_l|].
    apply (f_equal length) in F1. rewrite length_app in F1. simpl in F1. lia.
Qed.

End BrokerLemmas.

(** ** Operations of the broker *)

Inductive broker_step {C : DecimalContext} (uuid4 : N -> string) (wall : N -> Z)
  : PaperBroker -> PaperBroker -> Prop :=
| bs_submit rq t b : broker_step uuid4 wall b (submit uuid4 rq t b).1
| bs_cancel i t b : broker_step uuid4 wall b (cancel uuid4 wall i t b).1
| bs_cancel_all b : broker_step uuid4 wall b (cancel_all uuid4 wall b).1
| bs_kill r t b :
    r <> EmptyString -> broker_step uuid4 wall b (activate_kill_switch uuid4 wall r t b).1
| bs_clear s r t b : broker_step uuid4 wall b (clear_data_halt uuid4 s r t b).1
| bs_halt r t b : broker_step uuid4 wall b (halt uuid4 r t b).1
| bs_resume r t b : broker_step uuid4 wall b (resume uuid4 r t b).1
| bs_quote q b : broker_step uuid4 wall b (on_quote uuid4 q b).1
| bs_funding s r t b : broker_step uuid4 wall b (apply_funding uuid4 s r t b).1.

(** The broker is stopped: the kill switch has a reason and no order is open. *)
Definition killed (b : PaperBroker) : Prop :=
  truthy (kill_switch_reason b) = true /\
  forall k o, dict_get k (b_orders b) = Some o -> order_open o = false.

(** What cancelling makes of an order. *)
Definition close_order (o : PaperOrder) : PaperOrder :=
  if order_open o
  then set_order_status P_CANCELED (po_rejection_reason o) (po_filled_quantity o) o else o.

Lemma close_order_closed o : order_open (close_order o) = false.
Proof. unfold close_order. by destruct (order_open o) eqn:E. Qed.

Section StepLemmas.
Context {C : DecimalContext}.
Variable uuid4 : N -> string.
Variable wall : N -> Z.

(** Auditing touches the log only. *)
Lemma audit_at_frame t ty en pl b :
  let b' := (audit_at uuid4 t ty en pl b).1 in
  same_account b b' /\ same_controls b b' /\ b_orders b' = b_orders b.
Proof. unfold audit_at. by destruct (paper_utc t). Qed.

Lemma cancel_frame i t b :
  let b' := (cancel uuid4 wall i t b).1 in
  same_account b b' /\ same_controls b b' /\
  forall k, dict_get k (b_orders b') =
    if decide (k = i) then close_order <$> dict_get k (b_orders b) else dict_get k (b_orders b).
Proof.
  unfold cancel. destruct (dict_get i (b_orders b)) as [o|] eqn:Ei.
  - destruct (order_open o) eqn:Eo.
    + unfold pbind, audit_at. destruct (paper_utc _); simpl; (split; [done|]; split; [done|]);
        intros k; (case_decide as Ek; [subst k; rewrite dict_get_set_eq, Ei; simpl;
          unfold close_order; by rewrite Eo|by rewrite dict_get_set_ne]).
    + simpl. split; [done|]. split; [done|]. intros k. case_decide; [|done]. subst k.
      rewrite Ei. simpl. unfold close_order. by rewrite Eo.
  - simpl. split; [done|]. split; [done|]. intros k. case_decide; [|done]. subst k. by rewrite Ei.
Qed.

Lemma cancel_none_ok i b o :
  dict_get i (b_orders b) = Some o -> is_ok (cancel uuid4 wall i None b).2 = true.
Proof. intros Ei. unfold cancel. rewrite Ei. by case_goal. Qed.

Lemma same_account_trans b1 b2 b3 : same_account b1 b2 -> same_account b2 b3 -> same_account b1 b3.
Proof. intros (?&?&?&?&?) (?&?&?&?&?). split_and!; congruence. Qed.

Lemma same_controls_trans b1 b2 b3 :
  same_controls b1 b2 -> same_controls b2 b3 -> same_controls b1 b3.
Proof. intros (?&?&?&?&?) (?&?&?&?&?). split_and!; congruence. Qed.

(** Cancelling every order of a list of known ids. *)
Lemma cancel_loop ids b :
  (forall i, i ∈ ids -> is_Some (dict_get i (b_orders b))) ->
  let out := pfor ids (fun oid => run! cancel uuid4 wall oid None; pret tt) b in
  out.2 = Ok tt /\ same_account b out.1 /\ same_controls b out.1 /\
  forall k, dict_get k (b_orders out.1) =
    if decide (k ∈ ids) then close_order <$> dict_get k (b_orders b) else dict_get k (b_orders b).
Proof.
  revert b. induction ids as [|i ids IH]; intros b Hids; [done|].
  destruct (Hids i ltac:(left)) as [o Ho]. pose proof (cancel_none_ok i b o Ho) as Hok.
  destruct (cancel_frame i None b) as (A1 & B1 & D1).
  set (body := fun oid => _) in *.
  assert (pfor (i :: ids) body b = pfor ids body (cancel uuid4 wall i None b).1) as E.
  { simpl. unfold body at 1, pbind.
    by destruct (cancel uuid4 wall i None b) as [b1 [o1|e]]. }
  rewrite E. destruct (cancel uuid4 wall i None b) as [b1 r1]. cbn [fst] in *.
  destruct (IH b1) as (R & A2 & B2 & D2).
  { intros k Hk. destruct (Hids k ltac:(by right)) as [ok Hk'].
    rewrite D1, Hk'. case_decide; simpl; eauto. }
  split; [done|]. split; [by eapply same_account_trans|].
  split; [by eapply same_controls_trans|].
  intros k. rewrite D2, D1. destruct (decide (k = i)) as [->|Hne].
  - rewrite (decide_True (P := i ∈ i :: ids)) by left. case_decide; [|done].
    destruct (dict_get i (b_orders b)); [|done]. simpl. f_equal.
    pose proof (close_order_closed p) as Hc. unfold close_order at 1. by rewrite Hc.
  - destruct (decide (k ∈ ids)); [rewrite decide_True by (by right)|
      rewrite decide_False by set_solver]; done.
Qed.

Lemma cancel_all_spec b :
  let out := cancel_all uuid4 wall b in
  out.2 = Ok tt /\ same_account b out.1 /\ same_controls b out.1 /\
  forall k, dict_get k (b_orders out.1) = close_order <$> dict_get k (b_orders b).
Proof.
  destruct (cancel_loop (dict_keys (b_orders b)) b) as (R & A & B & D).
  { intros i Hi. destruct (dict_get i (b_orders b)) eqn:E; [by eexists|].
    by apply dict_get_None in E. }
  unfold cancel_all. split; [done|]. split; [done|]. split; [done|]. intros k. rewrite D.
  case_decide as Hk; [done|]. apply dict_get_None in Hk. by rewrite Hk.
Qed.

Lemma activate_kill_switch_spec r t b :
  let b' := (activate_kill_switch uuid4 wall r t b).1 in
  same_account b b' /\ kill_switch_reason b' = Some r /\
  forall k, dict_get k (b_orders b') = close_order <$> dict_get k (b_orders b).
Proof.
  unfold activate_kill_switch, pbind, pmodify.
  set (b0 := set_halts (Some r) (operational_halt_reason b) b).
  destruct (cancel_all_spec b0) as (R & A & (B1 & B2 & B3) & D).
  destruct (cancel_all uuid4 wall b0) as [b1 r1]. simpl in *. subst r1.
  destruct (audit_at_frame (or_now wall t b1) "kill_switch" None
    [("reason"%string, PStr r)] b1) as (A2 & (_ & K & _) & O).
  split; [by eapply (same_account_trans b b1)|]. split; [by rewrite K, B2|].
  intros k. by rewrite O, D.
Qed.

Lemma on_quote_halted q b :
  truthy (kill_switch_reason b) = true ->
  same_account b (on_quote uuid4 q b).1 /\ b_orders (on_quote uuid4 q b).1 = b_orders b /\
  kill_switch_reason (on_quote uuid4 q b).1 = kill_switch_reason b.
Proof.
  intros Hk. unfold on_quote. case_goal; [done|]. destruct (sequence_gap b q) as [[x y]|]; [done|].
  assert (trading_halted q (record_quote q b) = true) as ->; [|done].
  unfold trading_halted. simpl. rewrite Hk. by rewrite orb_true_r.
Qed.

Lemma killed_step b b' :
  broker_step uuid4 wall b b' -> killed b -> killed b' /\ b_fills b' = b_fills b.
Proof.
  intros Hst [Hk Ho].
  assert (forall b0 b1, kill_switch_reason b1 = kill_switch_reason b0 ->
    truthy (kill_switch_reason b0) = true -> truthy (kill_switch_reason b1) = true) as Hcongr
    by (intros b0 b1 ->; done).
  destruct Hst as [rq t b|i t b|b|r t b Hr|s r t b|r t b|r t b|q b|s r t b].
  - unfold submit. destruct (paper_utc t); [|done]. case_goal; [done|]. simpl.
    split; [|done]. split; [done|]. intros k o. simpl. rewrite Hk. simpl.
    destruct (decide (k = client_order_id rq)) as [->|Hne].
    + rewrite dict_get_set_eq. by intros [= <-].
    + rewrite dict_get_set_ne by done. apply Ho.
  - destruct (cancel_frame i t b) as ((_&_&_&F&_) & (_&K&_) & D). split; [|done].
    split; [by rewrite K|]. intros k o. rewrite D. case_decide; [|apply Ho].
    destruct (dict_get k (b_orders b)); [|done]. intros [= <-]. apply close_order_closed.
  - destruct (cancel_all_spec b) as (_ & (_&_&_&F&_) & (_&K&_) & D). split; [|done].
    split; [by rewrite K|]. intros k o. rewrite D.
    destruct (dict_get k (b_orders b)); [|done]. intros [= <-]. apply close_order_closed.
  - destruct (activate_kill_switch_spec r t b) as ((_&_&_&F&_) & K & D). split; [|done].
    split; [rewrite K; simpl; by rewrite bool_decide_false|]. intros k o. rewrite D.
    destruct (dict_get k (b_orders b)); [|done]. intros [= <-]. apply close_order_closed.
  - unfold clear_data_halt, pbind, pmodify, audit_at. by destruct (paper_utc t).
  - unfold halt, pbind, pmodify, audit_at. by destruct (paper_utc t).
  - unfold resume, pbind, pmodify, audit_at. by destruct (paper_utc t).
  - destruct (on_quote_halted q b Hk) as ((_&_&_&F&_) & O & K). split; [|done].
    split; [by rewrite K|]. intros k o. rewrite O. apply Ho.
  - unfold apply_funding. destruct (dict_get s (b_positions b)); [|done].
    destruct (dict_get s (latest_quotes b)); [|done].
    unfold pbind, audit_at. by destruct (paper_utc t).
Qed.

End StepLemmas.

(** ** Accounting without rounding *)

Definition paper_result (p : PaperPosition) : Q := pp_realized_pnl p + pp_funding_pnl p.

Definition paper_balanced (b : PaperBroker) : Prop :=
  b_cash b == b_initial_cash (bconf b) +
    Qsum (map paper_result (dict_values (b_positions b))) - fees_paid b.

Section ExactBroker.
Context {C : DecimalContext} {L : DecimalLaws C} {E : ExactContext C}.
Variable uuid4 : N -> string.
Variable wall : N -> Z.

Lemma same_account_balanced b b' : same_account b b' -> paper_balanced b -> paper_balanced b'.
Proof. intros (E1 & E2 & E3 & _ & E5). unfold paper_balanced. by rewrite E1, E2, E3, E5. Qed.

Lemma fill_position_result p f :
  paper_result (fill_position p f).1 == paper_result p + (fill_position p f).2 /\
  (closes_position p f = false -> (fill_position p f).2 = 0).
Proof.
  unfold fill_position, closes_position, paper_result. cbv zeta.
  destruct (_ || _); simpl; [split; [lra|done]|]. split; [dexact; lra|done].
Qed.

Lemma apply_paper_fill_balanced f b : paper_balanced b -> paper_balanced (apply_paper_fill f b).
Proof.
  intros Hb. unfold apply_paper_fill. set (p := paper_position (pf_symbol f) b).
  destruct (fill_position_result p f) as [Hr Hz].
  destruct (fill_position p f) as [p' realized]. cbn [fst snd] in *.
  unfold paper_balanced in *. simpl. rewrite Qsum_dict_set, Hr.
  assert (match dict_get (pf_symbol f) (b_positions b) with
          | Some w => paper_result w | None => 0 end == paper_result p) as ->.
  { unfold p, paper_position. destruct (dict_get _ (b_positions b)); simpl; [lra|].
    unfold paper_result. simpl. lra. }
  destruct (closes_position p f); dexact; [lra|]. rewrite (Hz eq_refl). lra.
Qed.

Lemma try_fill_balanced o q b : paper_balanced b -> paper_balanced (try_fill uuid4 o q b).1.
Proof.
  intros Hb. destruct (try_fill_outcome uuid4 o q b) as
    [b' r A _ _ _|b' reason A _ _|b' f _ _ Hc _ _ _ H1 H2 H3]; simpl;
    [by eapply same_account_balanced..|].
  pose proof (apply_paper_fill_balanced f b Hb) as H. unfold paper_balanced in *.
  assert (bconf (apply_paper_fill f b) = bconf b) as Ec
    by (unfold apply_paper_fill; by destruct (fill_position _ _)).
  by rewrite H1, H2, H3, Hc, <- Ec.
Qed.

Lemma on_quote_balanced q b : paper_balanced b -> paper_balanced (on_quote uuid4 q b).1.
Proof.
  intros Hb. unfold on_quote. case_goal; [done|]. destruct (sequence_gap b q) as [[x y]|]; [done|].
  case_goal; [done|]. apply fill_orders_invariant; [|done]. intros. by apply try_fill_balanced.
Qed.

Lemma step_balanced b b' : broker_step uuid4 wall b b' -> paper_balanced b -> paper_balanced b'.
Proof.
  intros [rq t x|i t x|x|r t x Hr|s r t x|r t x|r t x|q x|s r t x] Hb.
  - unfold submit. destruct (paper_utc t); [|done]. by case_goal.
  - eapply same_account_balanced; [|done]. apply cancel_frame.
  - eapply same_account_balanced; [|done]. apply cancel_all_spec.
  - eapply same_account_balanced; [|done]. apply activate_kill_switch_spec.
  - unfold clear_data_halt, pbind, pmodify, audit_at. by destruct (paper_utc t).
  - unfold halt, pbind, pmodify, audit_at. by destruct (paper_utc t).
  - unfold resume, pbind, pmodify, audit_at. by destruct (paper_utc t).
  - by apply on_quote_balanced.
  - unfold apply_funding. destruct (dict_get s (b_positions x)) as [p|] eqn:Ep; [|done].
    destruct (dict_get s (latest_quotes x)) as [q|]; [|done].
    unfold pbind, audit_at. destruct (paper_utc t); unfold paper_balanced in *; simpl;
      rewrite Qsum_dict_set, Ep; unfold paper_result at 2 3; simpl; dexact; lra.
Qed.

End ExactBroker.

(** ** Main theorems *)

(** C31: paper fills obey the book.  Whatever happens on a quote, every fill it
    produces belongs to an open order of that symbol submitted strictly before
    the quote, carries the quote's time, has a positive quantity within what
    remained and within the participation limit, and a limit order trades at the
    touch and never beyond its limit; each order is filled at most once per
    quote, and the fills returned are exactly those recorded. *)
Theorem paper_fills_sound {C : DecimalContext} (uuid4 : N -> string) (quote : PaperQuote)
    (b b' : PaperBroker) (res : result (list PaperFill)) :
  book_wf b -> on_quote uuid4 quote b = (b', res) ->
  exists new, b_fills b' = b_fills b ++ new /\ Forall (paper_fill_sound b quote) new /\
    NoDup (map pf_client_order_id new) /\ (forall fs, res = Ok fs -> fs = new).
Proof.
  intros Hb H. unfold on_quote in H.
  assert (forall b0, b_fills b0 = b_fills b -> (b0, Ok []) = (b', res) ->
    exists new, b_fills b' = b_fills b ++ new /\ Forall (paper_fill_sound b quote) new /\
    NoDup (map pf_client_order_id new) /\ (forall fs, res = Ok fs -> fs = new)) as Hnone.
  { intros b0 E0 H0. injection H0 as <- <-. exists []. rewrite app_nil_r. split_and!; try done.
    - apply NoDup_nil_2.
    - by intros fs [= <-]. }
  case_hyp H; [by apply (Hnone b)|].
  destruct (sequence_gap b quote) as [[x y]|]; [by eapply Hnone; [|exact H]|].
  case_hyp H; [by eapply Hnone; [|exact H]|].
  destruct (fill_orders_spec uuid4 quote (dict_keys (b_orders b)) [] (record_quote quote b))
    as (new & F & S & I & R); [apply Hb|done|].
  change (b_orders (record_quote quote b)) with (b_orders b) in H. rewrite H in F, R.
  exists new. split_and!; [done|done| |done]. eapply sublist_NoDup; [apply Hb|done].
Qed.

Local Open Scope string_scope.

Definition sample_paper_config : BrokerConfig := {|
  b_initial_cash := 10000; fee_rate := 6 # 10000; b_slippage_bps := 2;
  max_participation := 1 # 10; max_gross_leverage := 1; minimum_quality := 8 # 10 |}.

Definition sample_paper0 : PaperBroker := {|
  bconf := sample_paper_config; b_cash := 10000; b_orders := []; b_positions := [];
  b_fills := []; latest_quotes := []; fees_paid := 0; kill_switch_reason := None;
  operational_halt_reason := None; last_sequence := []; audit_events := [];
  data_halted_symbols := ∅; uuid_calls := 0 |}.

Definition sample_request (i : string) (sd : Side) (q : Decimal) : PaperOrderRequest := {|
  client_order_id := i; rq_symbol := "BTC"; rq_side := sd; rq_quantity := q;
  rq_order_type := P_MARKET; rq_limit_price := None |}.

Definition sample_quote (t : Z) (price : Decimal) (n : Z) : PaperQuote := {|
  qt_symbol := "BTC"; qt_timestamp := t; qt_bid := price; qt_ask := price + 1;
  bid_size := 100; ask_size := 100; qt_data_quality_score := 1; qt_sequence := Some n |}.

Definition sample_uuid (n : N) : string := "id-" +:+ format_012d n.

Local Close Scope string_scope.

Definition sample_paper `{DecimalContext} : PaperBroker :=
  (submit sample_uuid (sample_request "a" BUY 5) (Aware 1000) sample_paper0).1.

Lemma sample_paper_wf `{DecimalContext} : book_wf sample_paper.
Proof. split; simpl; [apply NoDup_singleton|by repeat constructor]. Qed.

Lemma paper_fills_sound_witness :
  let C := default_context in
  let out := on_quote sample_uuid (sample_quote 2000 100 1) sample_paper in
  length (b_fills out.1) = 1%nat /\
  exists new, b_fills out.1 = b_fills sample_paper ++ new /\
    Forall (paper_fill_sound sample_paper (sample_quote 2000 100 1)) new.
Proof.
  intros C out. split; [vm_compute; reflexivity|].
  destruct (paper_fills_sound (C := C) sample_uuid (sample_quote 2000 100 1) sample_paper
    out.1 out.2) as (new & H1 & H2 & _).
  - apply sample_paper_wf.
  - apply surjective_pairing.
  - exists new. exact (conj H1 H2).
Defined.

(** The paper kill switch is final.  Activating it with a reason cancels
    every open order and keeps the account as it is; afterwards no sequence of
    operations (submissions, quotes, resumptions, cleared data halts, further
    activations with a reason, ...) produces another fill or leaves an open
    order. *)
Theorem paper_kill_switch_final {C : DecimalContext} (uuid4 : N -> string) (wall : N -> Z)
    (r : string) (t : option datetime) (b b' : PaperBroker) :
  r <> EmptyString ->
  rtc (broker_step uuid4 wall) (activate_kill_switch uuid4 wall r t b).1 b' ->
  b_fills b' = b_fills b /\
  forall k o, dict_get k (b_orders b') = Some o -> order_open o = false.
Proof.
  intros Hr Hst. destruct (activate_kill_switch_spec uuid4 wall r t b) as ((_&_&_&F&_) & K & D).
  set (b0 := (activate_kill_switch uuid4 wall r t b).1) in *.
  assert (killed b0) as H0.
  { split; [rewrite K; simpl; by rewrite bool_decide_false|]. intros k o. rewrite D.
    destruct (dict_get k (b_orders b)); [|done]. intros [= <-]. apply close_order_closed. }
  rewrite <- F. clear F K D. clearbody b0. clear b. revert H0.
  induction Hst as [x|x y z Hxy _ IH]; intros Hx; [split; [done|apply Hx]|].
  destruct (killed_step uuid4 wall _ _ Hxy Hx) as [Hy Ey].
  destruct (IH Hy) as [Ez Hz]. split; [congruence|done].
Qed.

Lemma paper_kill_switch_final_witness :
  let C := default_context in
  let wall := fun n => Z.of_N n in
  let b := (activate_kill_switch sample_uuid wall "operator" None sample_paper).1 in
  let b' := (on_quote sample_uuid (sample_quote 2000 100 1) b).1 in
  b_fills b' = b_fills sample_paper /\
  forall k o, dict_get k (b_orders b') = Some o -> order_open o = false.
Proof.
  intros C wall b b'.
  apply (paper_kill_switch_final (C := C) sample_uuid wall "operator" None sample_paper b').
  - discriminate.
  - apply rtc_once. apply bs_quote.
Defined.

(** Paper cash is accounted for.  Without rounding, cash equals the initial
    cash plus the realized and funding profit of the positions minus the fees,
    after any sequence of operations. *)
Theorem paper_cash_balance {C : DecimalContext} {L : DecimalLaws C} {E : ExactContext C}
    (uuid4 : N -> string) (wall : N -> Z) (b b' : PaperBroker) :
  paper_balanced b -> rtc (broker_step uuid4 wall) b b' -> paper_balanced b'.
Proof.
  intros Hb Hst. induction Hst as [x|x y z Hxy _ IH]; [done|]. apply IH.
  by eapply step_balanced.
Qed.

Lemma paper_cash_balance_witness :
  let C := exact_context in
  let wall := fun n => Z.of_N n in
  let b' := (on_quote sample_uuid (sample_quote 2000 100 1) sample_paper).1 in
  length (b_fills b') = 1%nat /\ paper_balanced b'.
Proof.
  intros C wall b'. split; [vm_compute; reflexivity|].
  apply (paper_cash_balance (C := C) sample_uuid wall sample_paper0 b').
  - vm_compute. reflexivity.
  - apply rtc_l with sample_paper; [apply bs_submit|]. apply rtc_once. apply bs_quote.
Defined.

(** Bad data stops trading.  A quote that is stale or out of sequence, of
    insufficient quality, of a halted symbol, or that arrives during a halt,
    fills nothing and leaves orders and account unchanged; a gap in the sequence
    halts its symbol. *)
Theorem bad_quotes_blocked {C : DecimalContext} (uuid4 : N -> string) (quote : PaperQuote)
    (b : PaperBroker) :
  stale_sequence b quote = true \/ sequence_gap b quote <> None \/
  trading_halted quote b = true ->
  let b' := (on_quote uuid4 quote b).1 in
  (on_quote uuid4 quote b).2 = Ok [] /\ same_account b b' /\ b_orders b' = b_orders b /\
  (stale_sequence b quote = false -> sequence_gap b quote <> None ->
   qt_symbol quote ∈ data_halted_symbols b' /\
   dict_get (qt_symbol quote) (last_sequence b') = dict_get (qt_symbol quote) (last_sequence b)).
Proof.
  intros H b'. subst b'. unfold on_quote.
  destruct (stale_sequence b quote) eqn:Es; [by split_and!|].
  destruct (sequence_gap b quote) as [[x y]|] eqn:Eg.
  - simpl. split_and!; try done. intros _ _. split; [set_solver|done].
  - destruct H as [H|[H|H]]; [done..|].
    change (trading_halted quote (record_quote quote b)) with (trading_halted quote b).
    rewrite H. by split_and!.
Qed.

Lemma bad_quotes_blocked_witness :
  let C := default_context in
  let b := (on_quote sample_uuid (sample_quote 900 100 1) sample_paper).1 in
  let out := on_quote sample_uuid (sample_quote 2000 100 3) b in
  out.2 = Ok [] /\ same_account b out.1 /\ b_orders out.1 = b_orders b.
Proof.
  intros C b out. destruct (bad_quotes_blocked (C := C) sample_uuid (sample_quote 2000 100 3) b)
    as (H1 & H2 & H3 & _).
  - right. left. vm_compute. discriminate.
  - exact (conj H1 (conj H2 H3)).
Defined.

(** A kill switch without a reason does not stop trading: it cancels the open
    orders, but a later order is accepted and filled. *)
Example empty_kill_reason_trades :
  let C := default_context in
  let wall := fun n => Z.of_N n in
  let b := (activate_kill_switch sample_uuid wall EmptyString None sample_paper).1 in
  let b := (submit sample_uuid (sample_request "b" BUY 1) (Aware 1500) b).1 in
  let b := (on_quote sample_uuid (sample_quote 2000 100 1) b).1 in
  map po_status (dict_values (b_orders b)) = [P_CANCELED; P_FILLED].
Proof. vm_compute. reflexivity. Qed.

(** An order that only reduces the position is rejected when the account is
    over its leverage limit: a short of 9.8 that lost on a rise of the price cannot
    be bought back in part. *)
Example reducing_order_rejected :
  let C := default_context in
  let b := (on_quote sample_uuid (sample_quote 2000 1000 1)
             (submit sample_uuid (sample_request "a" SELL (98 # 10)) (Aware 1000) sample_paper0).1).1 in
  let b := (submit sample_uuid (sample_request "b" BUY 1) (Aware 2500) b).1 in
  let b := (on_quote sample_uuid (sample_quote 3000 1100 2) b).1 in
  map po_status (dict_values (b_orders b)) = [P_FILLED; P_REJECTED].
Proof. vm_compute. reflexivity. Qed.
