(* ===== verification/Venues.v ===== *)
(** * Venues, their capabilities and the settings of live trading

    domain/venues/models.py (eligibility and capabilities),
    domain/venues/trusted_capabilities.py (the registry of verified
    capabilities), domain/strategies/capabilities.py (what each strategy
    requires), config/settings.py (the part the live services read) and
    services/venue_eligibility.py. *)

From Stdlib Require Import ZArith QArith Lia.
From stdpp Require Import base tactics list strings sorting.
From S2P Require Import Prelude Decimals.

Local Open Scope string_scope.
Local Open Scope Z_scope.

(** [sep.join(xs)] *)
Fixpoint join (sep : string) (xs : list string) : string :=
  match xs with
  | [] => EmptyString
  | [x] => x
  | x :: xs => x +:+ sep +:+ join sep xs
  end.

Definition seconds (n : Z) : Z := n * 1000000.
Definition days (n : Z) : Z := n * 86400 * 1000000.

Definition venue_utc (value : datetime) : result Z :=
  utc_or "timestamp must be timezone-aware" value.

(** ** Eligibility *)

Inductive VenueEligibilityStatus :=
| ENABLED | DATA_ONLY | EXIT_ONLY | DISABLED | PENDING_VERIFICATION.
#[export] Instance VenueEligibilityStatus_eq_dec : EqDecision VenueEligibilityStatus.
Proof. solve_decision. Defined.

Definition eligibility_value (s : VenueEligibilityStatus) : string :=
  match s with
  | ENABLED => "enabled" | DATA_ONLY => "data_only" | EXIT_ONLY => "exit_only"
  | DISABLED => "disabled" | PENDING_VERIFICATION => "pending_verification"
  end.

Record VenueEligibility := {
  ve_venue : string;
  ve_status : VenueEligibilityStatus;
  ve_jurisdiction : string;
  ve_terms_checked_at : Z;
  ve_terms_version : option string;
  ve_operator_account_verified : bool;
  ve_api_market_data_available : bool;
  ve_api_execution_available : bool;
  ve_deposits_available : bool;
  ve_withdrawals_available : bool;
  ve_execution_smoke_test_passed : bool;
  ve_requires_location_evasion : bool;
  ve_reason : string;
}.

Definition new_order_failures (self : VenueEligibility) (now : Z) : list string :=
  ((if ve_requires_location_evasion self then ["location evasion would be required"] else [])
   ++ (if bool_decide (ve_status self <> ENABLED)
       then ["status is " +:+ eligibility_value (ve_status self)] else [])
   ++ (if negb (ve_operator_account_verified self)
       then ["operator account is not verified"] else [])
   ++ (if negb (ve_api_execution_available self)
       then ["execution API is unavailable or unverified"] else [])
   ++ (if negb (ve_withdrawals_available self)
       then ["withdrawals are unavailable or unverified"] else [])
   ++ (if negb (ve_execution_smoke_test_passed self)
       then ["minimum execution smoke test has not passed"] else [])
   ++ (if (days 30 <=? now - ve_terms_checked_at self) || (now <? ve_terms_checked_at self)
       then ["terms verification is stale or future-dated"] else []))%list.

Definition permits_new_orders (self : VenueEligibility) (now : datetime)
  : result (bool * string) :=
  let! now := venue_utc now in
  let failures := new_order_failures self now in
  Ok (bool_decide (failures = []),
      if bool_decide (failures = []) then "eligible" else join "; " failures).

Definition permits_reduction (self : VenueEligibility) (now : datetime)
  : result (bool * string) :=
  let! now := venue_utc now in
  Ok (if ve_requires_location_evasion self
      then (false, "location evasion is forbidden even for automated exit")
      else if now <? ve_terms_checked_at self
      then (false, "terms verification is future-dated")
      else if bool_decide (ve_status self ∈ [ENABLED; EXIT_ONLY])
      then (true, "reduction permitted")
      else (false, "status " +:+ eligibility_value (ve_status self)
                   +:+ " does not permit execution")).

(** ** Capabilities *)

Inductive CapabilitySupport :=
| UNAVAILABLE | DOCUMENTED | IMPLEMENTED | LIVE_VERIFIED | DEGRADED.
#[export] Instance CapabilitySupport_eq_dec : EqDecision CapabilitySupport.
Proof. solve_decision. Defined.

Inductive CapabilityUseCase :=
| RESEARCH_COLLECTION | SIGNAL_GENERATION | NEW_EXPOSURE | EMERGENCY_EXIT.
#[export] Instance CapabilityUseCase_eq_dec : EqDecision CapabilityUseCase.
Proof. solve_decision. Defined.

Definition support_value (s : CapabilitySupport) : string :=
  match s with
  | UNAVAILABLE => "unavailable" | DOCUMENTED => "documented" | IMPLEMENTED => "implemented"
  | LIVE_VERIFIED => "live_verified" | DEGRADED => "degraded"
  end.

Record VenueCapability := {
  vc_name : string;
  vc_support : CapabilitySupport;
  documented_at : option Z;
  implemented_at : option Z;
  live_verified_at : option Z;
  vc_source_url : option string;
  vc_verification_run_id : option string;
  vc_failure_reason : option string;
  emergency_exit_approved : bool;
}.

(** The truth value of an optional string. *)
Definition has_text (s : option string) : bool :=
  match s with Some s => negb (bool_decide (s = EmptyString)) | None => false end.

Definition VenueCapability_validate (self : VenueCapability) : result VenueCapability :=
  require! negb (bool_decide (vc_support self = DEGRADED)) || has_text (vc_failure_reason self)
    else ValueError "degraded capabilities require a failure_reason";
  require! negb (bool_decide (vc_support self = LIVE_VERIFIED))
           || bool_decide (live_verified_at self <> None)
    else ValueError "live-verified capabilities require live_verified_at";
  Ok self.

Definition live_is_fresh (self : VenueCapability) (now maximum_age : Z) : bool :=
  bool_decide (vc_support self = LIVE_VERIFIED) &&
  match live_verified_at self with
  | Some at_ => (0 <=? now - at_) && (now - at_ <=? maximum_age)
  | None => false
  end.

(** [_utc(now)] is only reached when the capability is live-verified. *)
Definition supports (self : VenueCapability) (use_case : CapabilityUseCase) (now : datetime)
    (maximum_age : Z) : result bool :=
  require! negb (maximum_age <? 0) else ValueError "maximum_age cannot be negative";
  let! fresh :=
    if bool_decide (vc_support self = LIVE_VERIFIED) && bool_decide (live_verified_at self <> None)
    then let! now := venue_utc now in Ok (live_is_fresh self now maximum_age)
    else Ok false in
  Ok match use_case with
     | RESEARCH_COLLECTION => bool_decide (vc_support self ∈ [IMPLEMENTED; LIVE_VERIFIED])
     | SIGNAL_GENERATION | NEW_EXPOSURE => fresh
     | EMERGENCY_EXIT =>
         fresh || bool_decide (vc_support self = DEGRADED) && emergency_exit_approved self
     end.

Definition allowed_support (s : CapabilitySupport) : list CapabilitySupport :=
  match s with
  | UNAVAILABLE => [DOCUMENTED]
  | DOCUMENTED => [IMPLEMENTED]
  | IMPLEMENTED => [LIVE_VERIFIED; DEGRADED]
  | LIVE_VERIFIED => [DEGRADED]
  | DEGRADED => [IMPLEMENTED; LIVE_VERIFIED]
  end.

(** [a or b] on optional values whose truth value is being present. *)
Definition or_else {A} (a b : option A) : option A :=
  match a with Some _ => a | None => b end.

Definition capability_transition (self : VenueCapability) (support : CapabilitySupport)
    (at_ : datetime) (source_url verification_run_id failure_reason : option string)
  : result VenueCapability :=
  require! bool_decide (support ∈ allowed_support (vc_support self))
    else ValueError ("invalid capability transition " +:+ support_value (vc_support self)
                     +:+ " -> " +:+ support_value support);
  let! when := venue_utc at_ in
  VenueCapability_validate {|
    vc_name := vc_name self;
    vc_support := support;
    documented_at := or_else (documented_at self)
      (if bool_decide (support <> UNAVAILABLE) then Some when else None);
    implemented_at := or_else (implemented_at self)
      (if bool_decide (support ∈ [IMPLEMENTED; LIVE_VERIFIED; DEGRADED])
       then Some when else None);
    live_verified_at :=
      if bool_decide (support = LIVE_VERIFIED) then Some when else live_verified_at self;
    vc_source_url := if has_text source_url then source_url else vc_source_url self;
    vc_verification_run_id := verification_run_id;
    vc_failure_reason := if bool_decide (support = DEGRADED) then failure_reason else None;
    emergency_exit_approved := false |}.

(** ** The registry of trusted capability records *)

Record TrustedCapabilityRecord := {
  tc_venue : string;
  tc_capability : string;
  tc_support : CapabilitySupport;
  tc_verification_run_id : string;
  tc_verified_at : Z;
  tc_expires_at : Z;
  tc_adapter_version : string;
  tc_source_version : string;
  tc_contract_fixture_sha256 : string;
  tc_audit_run_id : string;
  tc_canonical_instrument_id : string;
}.

Definition RecordKey : Type := string * string * string.

Record TrustedCapabilityRegistry := {
  tr_records : list (RecordKey * TrustedCapabilityRecord);
}.

Definition record_key (item : TrustedCapabilityRecord) : RecordKey :=
  (tc_venue item, tc_capability item, tc_canonical_instrument_id item).

Definition TrustedCapabilityRegistry_new (records : list TrustedCapabilityRecord)
  : result TrustedCapabilityRegistry :=
  let d := fold_left (fun d item => dict_set (record_key item) item d) records [] in
  require! (length d =? length records)%nat
    else ValueError "duplicate trusted capability records";
  Ok {| tr_records := d |}.

Definition registry_record (self : TrustedCapabilityRegistry)
    (venue capability canonical_instrument_id : string) : option TrustedCapabilityRecord :=
  match dict_get (venue, capability, canonical_instrument_id) (tr_records self) with
  | Some exact => Some exact
  | None => dict_get (venue, capability, "*") (tr_records self)
  end.

(** [require]; the caller's [now] is an aware time. *)
Definition registry_require (self : TrustedCapabilityRegistry)
    (venue capability verification_run_id : string) (verified_at : Z)
    (use_case : CapabilityUseCase) (now : Z) (canonical_instrument_id : string)
  : result TrustedCapabilityRecord :=
  match registry_record self venue capability canonical_instrument_id with
  | None => Err (ValueError "trusted capability record is missing")
  | Some record =>
      require! bool_decide (tc_support record = LIVE_VERIFIED)
        else ValueError "trusted capability is not LIVE_VERIFIED";
      require! bool_decide (tc_verification_run_id record = verification_run_id)
        else ValueError "verification run id is not trusted";
      require! (tc_verified_at record =? verified_at)
        else ValueError "capability verification timestamp does not match trusted record";
      require! (tc_verified_at record <=? now) && (now <=? tc_expires_at record)
        else ValueError "trusted capability record is expired or future-dated";
      require! bool_decide (use_case ∈ [NEW_EXPOSURE; EMERGENCY_EXIT])
        else ValueError "capability use case is not executable";
      Ok record
  end.

Definition require_live_verified (self : TrustedCapabilityRegistry)
    (venue capability : string) (now : Z) (canonical_instrument_id : string)
  : result TrustedCapabilityRecord :=
  match registry_record self venue capability canonical_instrument_id with
  | None => Err (ValueError "trusted capability record is missing")
  | Some record =>
      require! bool_decide (tc_support record = LIVE_VERIFIED)
        else ValueError "trusted capability is not LIVE_VERIFIED";
      require! (tc_verified_at record <=? now) && (now <=? tc_expires_at record)
        else ValueError "trusted capability record is expired or future-dated";
      Ok record
  end.

(** ** What each strategy requires of the venues of its legs *)

Record RequiredVenueCapability := {
  rv_venue_role : string;
  rv_capability : string;
}.

Definition role_capabilities (roles capabilities : list string)
  : list RequiredVenueCapability :=
  flat_map (fun role =>
    map (fun c => {| rv_venue_role := role; rv_capability := c |}) capabilities) roles.

Definition FUNDING_CARRY_STRATEGY_ID : string := "funding_carry".
Definition FUNDING_CARRY_REQUIRED_CAPABILITIES : list string :=
  ["funding_current"; "orderbook_snapshot"].

Definition STRATEGY_CAPABILITY_REGISTRY
  : list ((string * string) * list RequiredVenueCapability) :=
  [((FUNDING_CARRY_STRATEGY_ID, "1"),
    role_capabilities ["receive_leg"; "pay_leg"] FUNDING_CARRY_REQUIRED_CAPABILITIES);
   (("cross_venue_basis", "1"),
    role_capabilities ["receive_leg"; "pay_leg"] ["orderbook_snapshot"; "index_price"]);
   (("liquidation_exhaustion", "1"),
    role_capabilities ["order_leg"] ["market_liquidation_stream"; "open_interest"; "trades"])].

(** ** Settings read by the live services *)

Record ExchangeSettings := {
  es_name : string;
  es_data_enabled : bool;
  es_execution_enabled : bool;
}.

Record VenueSettings := {
  vs_data_enabled : bool;
  vs_execution_enabled : bool;
  vs_eligibility_status : VenueEligibilityStatus;
  vs_jurisdiction : string;
  vs_terms_checked_at : Z;
  vs_terms_version : option string;
  vs_operator_account_verified : bool;
  vs_api_market_data_available : bool;
  vs_api_execution_available : bool;
  vs_deposits_available : bool;
  vs_withdrawals_available : bool;
  vs_execution_smoke_test_passed : bool;
  vs_requires_location_evasion : bool;
  vs_reason : string;
}.

Record LiveTradingSettings := {
  live_enabled : bool;
  live_adapter_name : string;
  live_allowed_symbols : list string;
  live_maximum_order_notional : Decimal;
  live_maximum_open_orders : Z;
  live_maximum_orders_per_minute : Z;
  live_maximum_clock_skew_seconds : Decimal;
  live_preflight_ttl_seconds : Z;
  live_capability_verification_max_age_seconds : Z;
  live_source_event_max_age_seconds : Z;
  live_minimum_data_quality : Decimal;
  live_withdrawal_permission_confirmed_disabled : bool;
}.

(** [st_stale_data_seconds] is [settings.risk.stale_data_seconds] and
    [st_paper_enabled] is [settings.paper.enabled]. *)
Record Settings := {
  st_environment : string;
  st_symbols : list string;
  st_paper_trading : bool;
  st_live_trading : bool;
  st_dry_run : bool;
  st_live_confirmation : option string;
  st_exchange_api_key : option string;
  st_exchange_api_secret : option string;
  st_stale_data_seconds : Z;
  st_paper_enabled : bool;
  st_live : LiveTradingSettings;
  st_exchanges : list ExchangeSettings;
  st_venues : list (string * VenueSettings);
}.

Definition execution_enabled_names (self : Settings) : list string :=
  map es_name (filter (fun e => es_execution_enabled e = true) (st_exchanges self)).

Definition LIVE_CONFIRMATION : string := "I_ACCEPT_LIVE_TRADING_RISK".

(** [str.isalnum()] on ASCII text. *)
Definition is_alnum_char (c : Ascii.ascii) : bool :=
  let n := Ascii.N_of_ascii c in
  ((48 <=? n) && (n <=? 57) || (65 <=? n) && (n <=? 90) || (97 <=? n) && (n <=? 122))%N.
Fixpoint all_alnum (s : string) : bool :=
  match s with EmptyString => true | String c s => is_alnum_char c && all_alnum s end.
Definition isalnum (s : string) : bool := negb (bool_decide (s = EmptyString)) && all_alnum s.

(** The model validator [guard_live_mode]. *)
Definition guard_live_mode (self : Settings) : result Settings :=
  let! _ :=
    if st_live_trading self then
      require! negb (st_paper_trading self) && negb (st_dry_run self)
               && bool_decide (default EmptyString (st_live_confirmation self) = LIVE_CONFIRMATION)
        else ValueError "live mode requires paper=false, dry_run=false, and exact confirmation";
      require! negb (bool_decide (execution_enabled_names self = []))
        else ValueError "live mode requires an explicitly execution-enabled exchange";
      require! bool_decide (st_environment self = "production")
        else ValueError "live mode requires environment=production";
      require! negb (bool_decide (live_adapter_name (st_live self) = "disabled"))
        else ValueError "live mode requires a concrete execution adapter";
      require! (length (filter (fun n => n = live_adapter_name (st_live self))
                          (execution_enabled_names self)) =? 1)%nat
        else ValueError "live adapter must match exactly one execution-enabled exchange";
      require! bool_decide (st_exchange_api_key self <> None)
               && bool_decide (st_exchange_api_secret self <> None)
        else ValueError "live mode requires API credentials from the environment";
      require! live_withdrawal_permission_confirmed_disabled (st_live self)
        else ValueError "live mode forbids API keys with withdrawal permission";
      Ok tt
    else Ok tt in
  require! negb (bool_decide (st_symbols self = [])) && forallb isalnum (st_symbols self)
    else ValueError "symbols must be non-empty alphanumeric identifiers";
  require! eqb (st_paper_enabled self) (st_paper_trading self)
    else ValueError "paper.enabled and paper_trading must agree";
  require! eqb (live_enabled (st_live self)) (st_live_trading self)
    else ValueError "live.enabled and live_trading must agree";
  require! negb (bool_decide (live_allowed_symbols (st_live self) = []))
           && forallb (fun s => bool_decide (s ∈ st_symbols self))
                (live_allowed_symbols (st_live self))
    else ValueError "live allowed symbols must be a non-empty subset of symbols";
  require! negb (existsb (fun nv => bool_decide (nv.1 ∈ ["bybit"; "binance_global"])
                                    && vs_execution_enabled nv.2) (st_venues self))
    else ValueError "Bybit and Binance Global execution is forbidden for JP operators";
  require! negb (existsb (fun nv => vs_requires_location_evasion nv.2
                            && (vs_data_enabled nv.2 || vs_execution_enabled nv.2))
                   (st_venues self))
    else ValueError "venues requiring location evasion must remain disabled";
  Ok self.

(** ** services/venue_eligibility.py *)

Definition eligibility_from_settings (settings : Settings) (venue : string)
  : result VenueEligibility :=
  match dict_get venue (st_venues settings) with
  | None => Err KeyError
  | Some configured =>
      Ok {| ve_venue := venue;
            ve_status := vs_eligibility_status configured;
            ve_jurisdiction := vs_jurisdiction configured;
            ve_terms_checked_at := vs_terms_checked_at configured;
            ve_terms_version := vs_terms_version configured;
            ve_operator_account_verified := vs_operator_account_verified configured;
            ve_api_market_data_available := vs_api_market_data_available configured;
            ve_api_execution_available := vs_api_execution_available configured;
            ve_deposits_available := vs_deposits_available configured;
            ve_withdrawals_available := vs_withdrawals_available configured;
            ve_execution_smoke_test_passed := vs_execution_smoke_test_passed configured;
            ve_requires_location_evasion := vs_requires_location_evasion configured;
            ve_reason := vs_reason configured |}
  end.

Definition execution_eligibility_reason (settings : Settings) (venue : string)
    (now : datetime) (reduce_only : bool) : result (option string) :=
  let! eligibility := eligibility_from_settings settings venue in
  let! p := if reduce_only then permits_reduction eligibility now
            else permits_new_orders eligibility now in
  Ok (if p.1 then None else Some p.2).
