(* ===== verification/Evidence.v ===== *)
(** * Evidence behind a signal (domain/market_data/evidence.py,
      domain/market_data/source_event_repository.py)

    [json.dumps] of a structure, [hashlib.sha256] and [hmac.new] are
    parameters, functions of what the code passes to them.  Timestamps of a
    constructed object are instants in UTC; a [float] score is represented by
    its decimal value.  Equality of dataclasses is equality of their fields, and
    of scores by value. *)

From Stdlib Require Import ZArith QArith Lia.
From stdpp Require Import base tactics list strings sorting.
From S2P Require Import Prelude Decimals Venues.

Local Open Scope string_scope.
Local Open Scope Z_scope.

(** adapters/exchanges/websocket.py: ReconciliationState *)
Inductive ReconciliationState :=
| R_DISCONNECTED | R_WAITING_FOR_SNAPSHOT | R_BUFFERING_DELTAS | R_APPLYING_SNAPSHOT
| R_REPLAYING_DELTAS | R_GAP_DETECTED | R_SNAPSHOT_LOADING | R_DELTA_REPLAYING
| R_SYNCHRONIZED | R_DEGRADED.
#[export] Instance ReconciliationState_eq_dec : EqDecision ReconciliationState.
Proof. solve_decision. Defined.

Record SourceEventEvidence := {
  se_event_id : string;
  se_venue : string;
  se_symbol : string;
  se_event_type : string;
  se_exchange_timestamp : option Z;
  se_received_at : Z;
  se_available_at : Z;
  se_payload_sha256 : string;
  se_sequence : option Z;
  se_connection_id : option string;
  se_reconciliation_state : option ReconciliationState;
  se_data_quality_score : Decimal;
}.

(** [StoredSourceEvent] has the fields of the evidence. *)
Abbreviation StoredSourceEvent := SourceEventEvidence.

(** [__post_init__], on the timestamps as given. *)
Definition aware_field (name : string) (value : datetime) : result Z :=
  utc_or (name +:+ " must be timezone-aware") value.

Definition aware_option (name : string) (value : option datetime) : result (option Z) :=
  match value with
  | None => Ok None
  | Some v => let! t := aware_field name v in Ok (Some t)
  end.

Definition SourceEventEvidence_new (event_id venue symbol event_type : string)
    (exchange_timestamp : option datetime) (received_at available_at : datetime)
    (payload_sha256 : string) (sequence : option Z) (connection_id : option string)
    (reconciliation_state : option ReconciliationState) (data_quality_score : Decimal)
  : result SourceEventEvidence :=
  let! et := aware_option "exchange_timestamp" exchange_timestamp in
  let! ra := aware_field "received_at" received_at in
  let! aa := aware_field "available_at" available_at in
  require! dleb 0 data_quality_score && dleb data_quality_score 1
    else ValueError "data quality score must be between zero and one";
  Ok {| se_event_id := event_id; se_venue := venue; se_symbol := symbol;
        se_event_type := event_type; se_exchange_timestamp := et; se_received_at := ra;
        se_available_at := aa; se_payload_sha256 := payload_sha256; se_sequence := sequence;
        se_connection_id := connection_id; se_reconciliation_state := reconciliation_state;
        se_data_quality_score := data_quality_score |}.

Definition source_event_eqb (a b : SourceEventEvidence) : bool :=
  bool_decide (se_event_id a = se_event_id b) && bool_decide (se_venue a = se_venue b) &&
  bool_decide (se_symbol a = se_symbol b) && bool_decide (se_event_type a = se_event_type b) &&
  bool_decide (se_exchange_timestamp a = se_exchange_timestamp b) &&
  (se_received_at a =? se_received_at b) && (se_available_at a =? se_available_at b) &&
  bool_decide (se_payload_sha256 a = se_payload_sha256 b) &&
  bool_decide (se_sequence a = se_sequence b) &&
  bool_decide (se_connection_id a = se_connection_id b) &&
  bool_decide (se_reconciliation_state a = se_reconciliation_state b) &&
  deqb (se_data_quality_score a) (se_data_quality_score b).

Record CapabilityEvidence := {
  ce_venue : string;
  ce_capability : string;
  ce_use_case : CapabilityUseCase;
  ce_support : CapabilitySupport;
  ce_verified_at : Z;
  ce_verification_run_id : string;
  ce_source_events : list SourceEventEvidence;
  ce_adapter_version : string;
  ce_source_version : string;
  ce_contract_fixture_sha256 : string;
  ce_audit_run_id : string;
}.

Definition CapabilityEvidence_new (venue capability : string) (use_case : CapabilityUseCase)
    (support : CapabilitySupport) (verified_at : datetime) (verification_run_id : string)
    (source_events : list SourceEventEvidence)
    (adapter_version source_version contract_fixture_sha256 audit_run_id : string)
  : result CapabilityEvidence :=
  let! t := utc_or "verified_at must be timezone-aware" verified_at in
  require! negb (bool_decide (verification_run_id = EmptyString))
           && negb (match source_events with [] => true | _ => false end)
    else ValueError "verification run and source events are required";
  Ok {| ce_venue := venue; ce_capability := capability; ce_use_case := use_case;
        ce_support := support; ce_verified_at := t;
        ce_verification_run_id := verification_run_id; ce_source_events := source_events;
        ce_adapter_version := adapter_version; ce_source_version := source_version;
        ce_contract_fixture_sha256 := contract_fixture_sha256;
        ce_audit_run_id := audit_run_id |}.

Fixpoint list_eqb {A} (eqb : A -> A -> bool) (xs ys : list A) : bool :=
  match xs, ys with
  | [], [] => true
  | x :: xs, y :: ys => eqb x y && list_eqb eqb xs ys
  | _, _ => false
  end.

Definition capability_eqb (a b : CapabilityEvidence) : bool :=
  bool_decide (ce_venue a = ce_venue b) && bool_decide (ce_capability a = ce_capability b) &&
  bool_decide (ce_use_case a = ce_use_case b) && bool_decide (ce_support a = ce_support b) &&
  (ce_verified_at a =? ce_verified_at b) &&
  bool_decide (ce_verification_run_id a = ce_verification_run_id b) &&
  list_eqb source_event_eqb (ce_source_events a) (ce_source_events b) &&
  bool_decide (ce_adapter_version a = ce_adapter_version b) &&
  bool_decide (ce_source_version a = ce_source_version b) &&
  bool_decide (ce_contract_fixture_sha256 a = ce_contract_fixture_sha256 b) &&
  bool_decide (ce_audit_run_id a = ce_audit_run_id b).

Record SignalDataEvidence := {
  sd_signal_id : string;
  sd_capabilities : list CapabilityEvidence;
  sd_evidence_hash : string;
}.

Record LegDataEvidence := {
  ld_role : string;
  ld_venue : string;
  ld_capabilities : list CapabilityEvidence;
  ld_evidence_hash : string;
}.

Definition leg_eqb (a b : LegDataEvidence) : bool :=
  bool_decide (ld_role a = ld_role b) && bool_decide (ld_venue a = ld_venue b) &&
  list_eqb capability_eqb (ld_capabilities a) (ld_capabilities b) &&
  bool_decide (ld_evidence_hash a = ld_evidence_hash b).

Definition option_eqb {A} (eqb : A -> A -> bool) (a b : option A) : bool :=
  match a, b with Some a, Some b => eqb a b | None, None => true | _, _ => false end.

Record CrossVenueSignalEvidence := {
  cv_signal_id : string;
  cv_receive_leg : option LegDataEvidence;
  cv_pay_leg : option LegDataEvidence;
  cv_evidence_hash : string;
}.

(** The digests the code computes: [json_*] is [json.dumps] of the payload of
    the respective [build], [sha256_hex] and [hmac_hex] the hex digests. *)
Class Digest := {
  sha256_hex : string -> string;
  hmac_hex : string -> string -> string;
  json_signal : list CapabilityEvidence -> string;
  json_leg : string -> string -> list CapabilityEvidence -> string;
  json_cross : string -> option LegDataEvidence -> option LegDataEvidence -> string;
}.

Record RejectedSignal := {
  rs_signal_id : string;
  rs_reason : string;
  rs_missing_capabilities : list string;
}.

Section Build.
Context {D : Digest}.

Definition signal_build (signal_id : string) (capabilities : list CapabilityEvidence)
  : SignalDataEvidence := {|
  sd_signal_id := signal_id; sd_capabilities := capabilities;
  sd_evidence_hash := sha256_hex (json_signal capabilities) |}.

Definition signal_valid_hash (self : SignalDataEvidence) : bool :=
  let b := signal_build (sd_signal_id self) (sd_capabilities self) in
  bool_decide (sd_signal_id self = sd_signal_id b) &&
  list_eqb capability_eqb (sd_capabilities self) (sd_capabilities b) &&
  bool_decide (sd_evidence_hash self = sd_evidence_hash b).

Definition leg_build (role venue : string) (capabilities : list CapabilityEvidence)
  : LegDataEvidence := {|
  ld_role := role; ld_venue := venue; ld_capabilities := capabilities;
  ld_evidence_hash := sha256_hex (json_leg role venue capabilities) |}.

Definition leg_valid_hash (self : LegDataEvidence) : bool :=
  leg_eqb self (leg_build (ld_role self) (ld_venue self) (ld_capabilities self)).

Definition cross_build (signal_id : string) (receive_leg pay_leg : option LegDataEvidence)
  : CrossVenueSignalEvidence := {|
  cv_signal_id := signal_id; cv_receive_leg := receive_leg; cv_pay_leg := pay_leg;
  cv_evidence_hash := sha256_hex (json_cross signal_id receive_leg pay_leg) |}.

Definition cross_valid_hash (self : CrossVenueSignalEvidence) : bool :=
  let b := cross_build (cv_signal_id self) (cv_receive_leg self) (cv_pay_leg self) in
  bool_decide (cv_signal_id self = cv_signal_id b) &&
  option_eqb leg_eqb (cv_receive_leg self) (cv_receive_leg b) &&
  option_eqb leg_eqb (cv_pay_leg self) (cv_pay_leg b) &&
  bool_decide (cv_evidence_hash self = cv_evidence_hash b).

(** [leg(role)]: a missing role and an absent leg are both [None]. *)
Definition cross_leg (self : CrossVenueSignalEvidence) (role : string)
  : option LegDataEvidence :=
  if bool_decide (role = "receive_leg") then cv_receive_leg self
  else if bool_decide (role = "pay_leg") then cv_pay_leg self
  else None.

(** [{(item.venue, item.capability): item for item in capabilities}] *)
Definition capability_keys (caps : list CapabilityEvidence) : list (string * string) :=
  map (fun item => (ce_venue item, ce_capability item)) caps.

Definition available_capabilities (caps : list CapabilityEvidence)
  : list ((string * string) * CapabilityEvidence) :=
  fold_left (fun d item => dict_set (ce_venue item, ce_capability item) item d) caps [].

(** [len(keys) != len(set(keys))] *)
Definition has_duplicates {A} `{EqDecision A} (xs : list A) : bool :=
  negb (length xs =? length (dict_fromkeys xs))%nat.

Definition capability_is_missing (caps : list CapabilityEvidence) (venue name : string)
    (now maximum_age_seconds : Z) : bool :=
  match dict_get (venue, name) (available_capabilities caps) with
  | None => true
  | Some item =>
      bool_decide (ce_use_case item <> SIGNAL_GENERATION) ||
      bool_decide (ce_support item <> LIVE_VERIFIED) ||
      negb ((0 <=? now - ce_verified_at item) &&
            (now - ce_verified_at item <=? seconds maximum_age_seconds))
  end.

(** [require_signal_capabilities]; [None] accepts the signal. *)
Definition require_signal_capabilities (signal_id : string) (evidence : SignalDataEvidence)
    (required : list string) (venue : string) (now maximum_age_seconds : Z)
  : option RejectedSignal :=
  if has_duplicates (capability_keys (sd_capabilities evidence)) then
    Some {| rs_signal_id := signal_id; rs_reason := "duplicate venue and capability evidence";
            rs_missing_capabilities := required |}
  else
    let missing := filter (fun name =>
      capability_is_missing (sd_capabilities evidence) venue name now maximum_age_seconds = true)
      required in
    if bool_decide (sd_signal_id evidence <> signal_id) || negb (signal_valid_hash evidence) then
      Some {| rs_signal_id := signal_id;
              rs_reason := "invalid signal evidence identity or hash";
              rs_missing_capabilities := required |}
    else match missing with
         | [] => None
         | _ => Some {| rs_signal_id := signal_id;
                        rs_reason := "capability evidence is missing or stale";
                        rs_missing_capabilities := missing |}
         end.

End Build.

(** ** Lemmas *)

Lemma list_eqb_refl {A} (eqb : A -> A -> bool) xs :
  (forall x, eqb x x = true) -> list_eqb eqb xs xs = true.
Proof. intros H. induction xs; simpl; [done|]. by rewrite H. Qed.

Lemma option_eqb_refl {A} (eqb : A -> A -> bool) x :
  (forall x, eqb x x = true) -> option_eqb eqb x x = true.
Proof. intros H. by destruct x; simpl. Qed.

Lemma source_event_eqb_refl e : source_event_eqb e e = true.
Proof.
  unfold source_event_eqb. rewrite !bool_decide_eq_true_2 by done. rewrite !Z.eqb_refl.
  apply Qeq_bool_iff. reflexivity.
Qed.

Lemma capability_eqb_refl c : capability_eqb c c = true.
Proof.
  unfold capability_eqb. rewrite !bool_decide_eq_true_2 by done. rewrite Z.eqb_refl.
  rewrite list_eqb_refl; [done|apply source_event_eqb_refl].
Qed.

Lemma leg_eqb_refl l : leg_eqb l l = true.
Proof.
  unfold leg_eqb. rewrite !bool_decide_eq_true_2 by done.
  rewrite list_eqb_refl; [done|apply capability_eqb_refl].
Qed.

Section HashLemmas.
Context {D : Digest}.

(** An evidence object is valid exactly when its hash is the digest of its
    other fields; what [build] returns is valid. *)
Lemma leg_valid_hash_iff l :
  leg_valid_hash l = true <->
  ld_evidence_hash l = sha256_hex (json_leg (ld_role l) (ld_venue l) (ld_capabilities l)).
Proof.
  unfold leg_valid_hash, leg_eqb, leg_build. simpl.
  rewrite !bool_decide_eq_true_2 by done.
  rewrite list_eqb_refl by apply capability_eqb_refl. simpl.
  by rewrite bool_decide_eq_true.
Qed.

Lemma cross_valid_hash_iff e :
  cross_valid_hash e = true <->
  cv_evidence_hash e =
    sha256_hex (json_cross (cv_signal_id e) (cv_receive_leg e) (cv_pay_leg e)).
Proof.
  unfold cross_valid_hash, cross_build. simpl.
  rewrite bool_decide_eq_true_2 by done.
  rewrite !option_eqb_refl by apply leg_eqb_refl. simpl.
  by rewrite bool_decide_eq_true.
Qed.

Lemma signal_valid_hash_iff e :
  signal_valid_hash e = true <->
  sd_evidence_hash e = sha256_hex (json_signal (sd_capabilities e)).
Proof.
  unfold signal_valid_hash, signal_build. simpl.
  rewrite bool_decide_eq_true_2 by done.
  rewrite list_eqb_refl by apply capability_eqb_refl. simpl.
  by rewrite bool_decide_eq_true.
Qed.

End HashLemmas.
