(* ===== verification/LiveModels.v ===== *)
(** * Data of live execution (domain/execution/live_models.py)

    Each [_validate] or [_new] is the object's construction: pydantic's field
    constraints and the validators, in order.  A pydantic constraint is
    reported with the name of its field. *)

From Stdlib Require Import ZArith QArith Lia.
From stdpp Require Import base tactics list strings.
From S2P Require Import Prelude Decimals ExecutionModels Venues Evidence.

Local Open Scope string_scope.
Local Open Scope Z_scope.

Inductive LiveOrderState := L_ACCEPTED | L_REJECTED | L_DRY_RUN | L_CANCELED.
#[export] Instance LiveOrderState_eq_dec : EqDecision LiveOrderState.
Proof. solve_decision. Defined.

Inductive ReconciledOrderStatus :=
| RO_PENDING | RO_OPEN | RO_PARTIALLY_FILLED | RO_FILLED | RO_CANCELED | RO_REJECTED
| RO_EXPIRED.
#[export] Instance ReconciledOrderStatus_eq_dec : EqDecision ReconciledOrderStatus.
Proof. solve_decision. Defined.

Inductive PreflightRecoveryAction := RA_ALTERNATE_HEDGE | RA_PARTIAL_HEDGE | RA_FIRST_LEG_UNWIND.
#[export] Instance PreflightRecoveryAction_eq_dec : EqDecision PreflightRecoveryAction.
Proof. solve_decision. Defined.

Record CrossVenueExecutionPreflight := {
  cp_issuer_id : string;
  cp_issued_at : Z;
  cp_commit_sha : string;
  cp_snapshot_ids : list string;
  cp_signal_id : string;
  cp_receive_venue : string;
  cp_pay_venue : string;
  cp_canonical_instrument_id : string;
  cp_receive_capability_hash : string;
  cp_pay_capability_hash : string;
  cp_receive_source_event_hash : string;
  cp_pay_source_event_hash : string;
  cp_receive_execution_health : bool;
  cp_pay_execution_health : bool;
  cp_receive_available_collateral : Decimal;
  cp_pay_available_collateral : Decimal;
  cp_receive_fillable_quantity : Decimal;
  cp_pay_fillable_quantity : Decimal;
  cp_receive_expected_vwap : Decimal;
  cp_pay_expected_vwap : Decimal;
  cp_maximum_naked_exposure_duration_ms : Z;
  cp_created_at : Z;
  cp_expires_at : Z;
  cp_preflight_hash : string;
  cp_signature : string;
}.

(** ** Orders *)

Record LiveOrderRequest := {
  lo_request_id : string;
  lo_idempotency_key : string;
  lo_signal_id : string;
  lo_strategy_id : string;
  lo_strategy_version : string;
  lo_cross_venue_signal_evidence : CrossVenueSignalEvidence;
  lo_cross_venue_signal_hash : string;
  lo_order_leg_role : string;
  lo_order_leg_evidence : LegDataEvidence;
  lo_cross_venue_preflight : CrossVenueExecutionPreflight;
  lo_preflight_recovery_action : option PreflightRecoveryAction;
  lo_required_capabilities : list string;
  lo_risk_decision_id : string;
  lo_model_version : string;
  lo_config_version : string;
  lo_exchange : string;
  lo_symbol : string;
  lo_side : Side;
  lo_quantity : Decimal;
  lo_reference_price : Decimal;
  lo_maximum_slippage_bps : Decimal;
  lo_order_type : OrderType;
  lo_limit_price : option Decimal;
  lo_reduce_only : bool;
  lo_created_at : Z;
  lo_expires_at : Z;
}.

(** [Field(min_length=lo, max_length=hi)] *)
Definition length_in (lo hi : nat) (s : string) : bool :=
  (lo <=? String.length s)%nat && (String.length s <=? hi)%nat.

Definition positive_option (x : option Decimal) : bool :=
  match x with Some q => dltb 0 q | None => true end.

(** [timestamps_must_be_utc] *)
Definition live_order_utc (value : datetime) : result Z :=
  utc_or "live order timestamps must be timezone-aware" value.

Definition live_order_fields_ok (self : LiveOrderRequest) : bool :=
  length_in 8 100 (lo_request_id self) && length_in 16 128 (lo_idempotency_key self) &&
  length_in 8 100 (lo_signal_id self) && length_in 1 100 (lo_strategy_id self) &&
  length_in 1 40 (lo_strategy_version self) &&
  length_in 64 64 (lo_cross_venue_signal_hash self) &&
  bool_decide (lo_order_leg_role self ∈ ["receive_leg"; "pay_leg"]) &&
  negb (bool_decide (lo_required_capabilities self = [])) &&
  length_in 8 100 (lo_risk_decision_id self) && length_in 1 100 (lo_model_version self) &&
  length_in 1 100 (lo_config_version self) && length_in 1 40 (lo_exchange self) &&
  length_in 1 40 (lo_symbol self) && dltb 0 (lo_quantity self) &&
  dltb 0 (lo_reference_price self) && dltb 0 (lo_maximum_slippage_bps self) &&
  dleb (lo_maximum_slippage_bps self) 100 && positive_option (lo_limit_price self).

(** The construction of a request from its fields, the timestamps as given. *)
Definition LiveOrderRequest_new (fields : Z -> Z -> LiveOrderRequest)
    (created_at expires_at : datetime) : result LiveOrderRequest :=
  let! c := live_order_utc created_at in
  let! e := live_order_utc expires_at in
  let self := fields c e in
  require! live_order_fields_ok self else ValueError "live order field";
  require! negb (lo_expires_at self <=? lo_created_at self)
    else ValueError "live order expiry must follow creation";
  require! negb (bool_decide (lo_order_type self = LIMIT)
                 && negb (bool_decide (is_Some (lo_limit_price self))))
    else ValueError "limit live orders require limit_price";
  require! negb (bool_decide (lo_order_type self = MARKET)
                 && bool_decide (is_Some (lo_limit_price self)))
    else ValueError "market live orders cannot specify limit_price";
  Ok self.

Definition reference_notional `{DecimalContext} (self : LiveOrderRequest) : Decimal :=
  dmul (lo_quantity self) (lo_reference_price self).

Record ExecutionOrderAck := {
  ak_request_id : string;
  ak_external_order_id : option string;
  ak_state : LiveOrderState;
  ak_accepted_at : Z;
  ak_reason : string;
  ak_adapter_called : bool;
}.

Definition ExecutionOrderAck_new (request_id : string) (external_order_id : option string)
    (state : LiveOrderState) (accepted_at : datetime) (reason : string) (adapter_called : bool)
  : result ExecutionOrderAck :=
  let! t := utc_or "ack timestamp must be timezone-aware" accepted_at in
  require! (if bool_decide (state = L_ACCEPTED)
            then adapter_called && has_text external_order_id else true)
    else ValueError "accepted live orders require adapter_called and an external_order_id";
  require! (if bool_decide (state = L_ACCEPTED) then true
            else negb (bool_decide (external_order_id <> None) && negb adapter_called))
    else ValueError "an external_order_id requires an adapter call";
  Ok {| ak_request_id := request_id; ak_external_order_id := external_order_id;
        ak_state := state; ak_accepted_at := t; ak_reason := reason;
        ak_adapter_called := adapter_called |}.

Record CancelAck := {
  ca_external_order_id : string;
  ca_canceled : bool;
  ca_timestamp : Z;
  ca_reason : string;
}.

Definition CancelAck_new (external_order_id : string) (canceled : bool)
    (timestamp : datetime) (reason : string) : result CancelAck :=
  let! t := utc_or "cancel timestamp must be timezone-aware" timestamp in
  Ok {| ca_external_order_id := external_order_id; ca_canceled := canceled;
        ca_timestamp := t; ca_reason := reason |}.

Record LiveOpenOrder := {
  oo_client_order_id : string;
  oo_external_order_id : string;
  oo_exchange : string;
  oo_symbol : string;
  oo_side : Side;
  oo_quantity : Decimal;
  oo_filled_quantity : Decimal;
  oo_price : Decimal;
  oo_reduce_only : bool;
  oo_created_at : Z;
}.

Definition LiveOpenOrder_new (fields : Z -> LiveOpenOrder) (created_at : datetime)
  : result LiveOpenOrder :=
  let! t := utc_or "open-order timestamp must be timezone-aware" created_at in
  let self := fields t in
  require! negb (bool_decide (EmptyString ∈ [oo_client_order_id self; oo_external_order_id self;
                                             oo_exchange self; oo_symbol self]))
    else ValueError "open order identity";
  require! dltb 0 (oo_quantity self) && dleb 0 (oo_filled_quantity self) && dltb 0 (oo_price self)
    else ValueError "open order quantity";
  require! dleb (oo_filled_quantity self) (oo_quantity self)
    else ValueError "filled quantity cannot exceed order quantity";
  Ok self.

(** ** What the exchange reports *)

Record ExecutionFill := {
  ef_fill_id : string;
  ef_exchange_order_id : string;
  ef_client_order_id : string;
  ef_exchange : string;
  ef_symbol : string;
  ef_side : Side;
  ef_price : Decimal;
  ef_quantity : Decimal;
  ef_signed_fee : Decimal;
  ef_executed_at : Z;
  ef_liquidity_role : option string;
}.

Definition ExecutionFill_new (fields : Z -> ExecutionFill) (executed_at : datetime)
  : result ExecutionFill :=
  let self := fields 0 in
  require! negb (bool_decide (EmptyString ∈ [ef_fill_id self; ef_exchange_order_id self;
      ef_client_order_id self; ef_exchange self; ef_symbol self]))
    else ValueError "fill and order identities are required";
  require! negb (dleb (ef_price self) 0 || dleb (ef_quantity self) 0)
    else ValueError "fill price and quantity are invalid";
  let! t := utc_or "fill timestamp must be timezone-aware" executed_at in
  Ok (fields t).

Record ReconciledOrder := {
  ro_client_order_id : string;
  ro_external_order_id : string;
  ro_exchange : string;
  ro_symbol : string;
  ro_side : Side;
  ro_original_quantity : Decimal;
  ro_filled_quantity : Decimal;
  ro_average_fill_price : option Decimal;
  ro_reduce_only : bool;
  ro_status : ReconciledOrderStatus;
  ro_created_at : Z;
  ro_updated_at : Z;
}.

Definition ReconciledOrder_new (fields : Z -> Z -> ReconciledOrder)
    (created_at updated_at : datetime) : result ReconciledOrder :=
  let self := fields 0 0 in
  require! negb (bool_decide (EmptyString ∈ [ro_client_order_id self; ro_external_order_id self;
      ro_exchange self; ro_symbol self]))
    else ValueError "reconciled order identities are required";
  require! negb (dleb (ro_original_quantity self) 0 || dltb (ro_filled_quantity self) 0
                 || dltb (ro_original_quantity self) (ro_filled_quantity self))
    else ValueError "reconciled order quantities are invalid";
  require! positive_option (ro_average_fill_price self)
    else ValueError "average fill price must be positive";
  require! negb (dltb 0 (ro_filled_quantity self)
                 && negb (bool_decide (is_Some (ro_average_fill_price self))))
    else ValueError "filled reconciled orders require an average fill price";
  let! c := utc_or "reconciled order timestamps must be timezone-aware" created_at in
  let! u := utc_or "reconciled order timestamps must be timezone-aware" updated_at in
  require! negb (u <? c) else ValueError "reconciled order update cannot precede creation";
  Ok (fields c u).

Record LivePosition := {
  lp_exchange : string;
  lp_symbol : string;
  lp_quantity : Decimal;
  lp_mark_price : Decimal;
  lp_unrealized_pnl : Decimal;
  lp_observed_at : Z;
}.

Definition LivePosition_new (fields : Z -> LivePosition) (observed_at : datetime)
  : result LivePosition :=
  let! t := utc_or "position timestamp must be timezone-aware" observed_at in
  require! dltb 0 (lp_mark_price (fields t)) else ValueError "mark_price";
  Ok (fields t).

(** ** Audit *)

(** A detail of an audit event; the text of a [Decimal] is kept as its value. *)
Inductive DetailValue := DText (s : string) | DDecimal (d : Decimal).

Record ExecutionAuditEvent := {
  ea_event_id : string;
  ea_timestamp : Z;
  ea_event_type : string;
  ea_request_id : option string;
  ea_allowed : bool;
  ea_reason : string;
  ea_model_version : string;
  ea_config_version : string;
  ea_details : list (string * DetailValue);
}.

(** An accepted receipt names an order the adapter was asked to place. *)
Lemma ack_accepted_identity rid eid st t r called a :
  ExecutionOrderAck_new rid eid st t r called = Ok a ->
  ak_state a = L_ACCEPTED ->
  ak_adapter_called a = true /\ exists i, ak_external_order_id a = Some i /\ i <> EmptyString.
Proof.
  unfold ExecutionOrderAck_new. intros H Hst.
  apply rbind_ok in H as (z & _ & H).
  destruct (if bool_decide (st = L_ACCEPTED) then _ else _) eqn:E1 in H; [|done].
  destruct (if bool_decide (st = L_ACCEPTED) then _ else _) eqn:E2 in H; [|done].
  injection H as <-. simpl in *. subst st. rewrite bool_decide_eq_true_2 in E1 by done.
  apply andb_true_iff in E1 as [-> E1]. split; [done|].
  destruct eid as [i|]; [|done]. exists i. split; [done|]. simpl in E1.
  by apply negb_true_iff, bool_decide_eq_false in E1.
Qed.
