(* ===== verification/LivePreflight.v ===== *)
(** * The live preflight (services/live_trading/preflight.py) and the check of a
      report by the gateway (gateway.py: [_validate_preflight_integrity]) *)

From Stdlib Require Import ZArith QArith Lia.
From stdpp Require Import base tactics list strings.
From S2P Require Import Prelude Decimals Venues.

Local Open Scope string_scope.
Local Open Scope Z_scope.

Definition RUNTIME_CONFIRMATION : string := "ENABLE_LIVE_EXECUTION_NOW".

Record LivePreflightContext := {
  pc_timestamp : Z;
  pc_operator_confirmation : string;
  pc_adapter_name : string;
  pc_adapter_is_concrete : bool;
  pc_adapter_healthy : bool;
  pc_data_quality_score : Decimal;
  pc_websocket_connected : bool;
  pc_clock_skew_seconds : Decimal;
  pc_kill_switch_active : bool;
  pc_paper_validation_passed : bool;
  pc_out_of_sample_validation_passed : bool;
}.

(** The construction of a context, the timestamp as given. *)
Definition LivePreflightContext_new (fields : Z -> LivePreflightContext) (timestamp : datetime)
  : result LivePreflightContext :=
  let! t := utc_or "preflight timestamp must be timezone-aware" timestamp in
  let self := fields t in
  require! dleb 0 (pc_data_quality_score self) && dleb (pc_data_quality_score self) 1
    else ValueError "data_quality_score";
  require! dleb 0 (pc_clock_skew_seconds self) else ValueError "clock_skew_seconds";
  Ok self.

Record PreflightCheck := {
  ck_name : string;
  ck_passed : bool;
  ck_reason : string;
}.

Record LivePreflightReport := {
  pr_timestamp : Z;
  pr_approved : bool;
  pr_checks : list PreflightCheck;
  pr_warning : string;
}.

Definition check (name : string) (passed : bool) (reason : string) : PreflightCheck :=
  {| ck_name := name; ck_passed := passed; ck_reason := reason |}.

Definition live_checks (settings : Settings) (context : LivePreflightContext)
  : list PreflightCheck :=
  let configured_execution := execution_enabled_names settings in
  let confirmation := default EmptyString (st_live_confirmation settings) in
  let live := st_live settings in
  [check "production_environment" (bool_decide (st_environment settings = "production"))
     "environment must be production";
   check "live_enabled" (st_live_trading settings && live_enabled live)
     "both live flags must be explicitly enabled";
   check "paper_disabled" (negb (st_paper_trading settings) && negb (st_paper_enabled settings))
     "paper mode must be explicitly disabled";
   check "dry_run_disabled" (negb (st_dry_run settings)) "dry-run must be explicitly disabled";
   check "configuration_confirmation" (bool_decide (confirmation = "I_ACCEPT_LIVE_TRADING_RISK"))
     "exact configuration confirmation is required";
   check "runtime_confirmation"
     (bool_decide (pc_operator_confirmation context = RUNTIME_CONFIRMATION))
     "exact runtime confirmation is required and is never stored";
   check "concrete_adapter"
     (pc_adapter_is_concrete context
      && negb (bool_decide (pc_adapter_name context = "disabled"))
      && bool_decide (live_adapter_name live = pc_adapter_name context)
      && bool_decide (pc_adapter_name context ∈ configured_execution))
     "a matching execution-enabled concrete adapter is required";
   check "adapter_health" (pc_adapter_healthy context) "execution adapter health check must pass";
   check "credentials_present"
     (bool_decide (st_exchange_api_key settings <> None)
      && bool_decide (st_exchange_api_secret settings <> None))
     "credentials must come from the environment";
   check "withdrawal_permission_disabled" (live_withdrawal_permission_confirmed_disabled live)
     "withdrawal permission is forbidden";
   check "data_quality" (dleb (live_minimum_data_quality live) (pc_data_quality_score context))
     "live data quality must meet the stricter live threshold";
   check "websocket_connected" (pc_websocket_connected context)
     "market-data WebSocket must be connected";
   check "clock_synchronized"
     (dleb (pc_clock_skew_seconds context) (live_maximum_clock_skew_seconds live))
     "clock skew exceeds the configured maximum";
   check "kill_switch_clear" (negb (pc_kill_switch_active context))
     "kill switch must be clear at startup";
   check "paper_validation" (pc_paper_validation_passed context)
     "paper-trading acceptance must be recorded";
   check "out_of_sample_validation" (pc_out_of_sample_validation_passed context)
     "untouched OOS acceptance must be recorded"].

Definition evaluate_live_preflight (settings : Settings) (context : LivePreflightContext)
  : LivePreflightReport :=
  let checks := live_checks settings context in
  let passed := forallb ck_passed checks in
  {| pr_timestamp := pc_timestamp context;
     pr_approved := passed;
     pr_checks := checks;
     pr_warning := if passed then "LIVE EXECUTION APPROVED: real orders may be sent"
                   else "LIVE EXECUTION REFUSED: one or more safety checks failed" |}.

(** ** The gateway's check of a supplied report *)

Definition required_checks : list string :=
  ["production_environment"; "live_enabled"; "paper_disabled"; "dry_run_disabled";
   "configuration_confirmation"; "runtime_confirmation"; "concrete_adapter"; "adapter_health";
   "credentials_present"; "withdrawal_permission_disabled"; "data_quality";
   "websocket_connected"; "clock_synchronized"; "kill_switch_clear"; "paper_validation";
   "out_of_sample_validation"].

(** Equality of the sets of two lists' elements. *)
Definition same_set (xs ys : list string) : bool :=
  forallb (fun x => bool_decide (x ∈ ys)) xs && forallb (fun y => bool_decide (y ∈ xs)) ys.

Definition validate_preflight_integrity (settings : Settings) (preflight : LivePreflightReport)
    (is_concrete : bool) (adapter_name : string) : result unit :=
  let actual_checks := map ck_name (pr_checks preflight) in
  let checks_passed := forallb ck_passed (pr_checks preflight) in
  require! eqb (pr_approved preflight) checks_passed
    else ValueError "preflight approval is inconsistent with its checks";
  require! negb (pr_approved preflight && negb (same_set actual_checks required_checks))
    else ValueError "approved preflight is missing required safety checks";
  require! negb (pr_approved preflight
                 && (negb is_concrete
                     || bool_decide (adapter_name <> live_adapter_name (st_live settings))))
    else ValueError "approved preflight does not match the supplied concrete adapter";
  Ok tt.

(** ** Lemmas *)

Lemma same_set_spec xs ys : same_set xs ys = true <-> (forall x, x ∈ xs <-> x ∈ ys).
Proof.
  unfold same_set. rewrite andb_true_iff, !forallb_forall. setoid_rewrite <-list_elem_of_In.
  setoid_rewrite bool_decide_eq_true. naive_solver.
Qed.

(** What approval of live trading means. *)
Definition live_ready (settings : Settings) (context : LivePreflightContext) : Prop :=
  let live := st_live settings in
  st_environment settings = "production" /\
  st_live_trading settings = true /\ live_enabled live = true /\
  st_paper_trading settings = false /\ st_paper_enabled settings = false /\
  st_dry_run settings = false /\
  st_live_confirmation settings = Some LIVE_CONFIRMATION /\
  pc_operator_confirmation context = RUNTIME_CONFIRMATION /\
  pc_adapter_is_concrete context = true /\
  pc_adapter_name context <> "disabled" /\
  live_adapter_name live = pc_adapter_name context /\
  (exists e, e ∈ st_exchanges settings /\ es_name e = pc_adapter_name context /\
             es_execution_enabled e = true) /\
  pc_adapter_healthy context = true /\
  is_Some (st_exchange_api_key settings) /\ is_Some (st_exchange_api_secret settings) /\
  live_withdrawal_permission_confirmed_disabled live = true /\
  (live_minimum_data_quality live <= pc_data_quality_score context)%Q /\
  pc_websocket_connected context = true /\
  (pc_clock_skew_seconds context <= live_maximum_clock_skew_seconds live)%Q /\
  pc_kill_switch_active context = false /\
  pc_paper_validation_passed context = true /\
  pc_out_of_sample_validation_passed context = true.

Lemma execution_enabled_iff s n :
  n ∈ execution_enabled_names s <->
  exists e, e ∈ st_exchanges s /\ es_name e = n /\ es_execution_enabled e = true.
Proof.
  unfold execution_enabled_names. rewrite list_elem_of_fmap.
  setoid_rewrite list_elem_of_filter. naive_solver.
Qed.

Lemma confirmation_iff (o : option string) :
  default EmptyString o = LIVE_CONFIRMATION <-> o = Some LIVE_CONFIRMATION.
Proof. destruct o; simpl; naive_solver. Qed.

Lemma not_None_is_Some' {A} (o : option A) : o <> None <-> is_Some o.
Proof. by rewrite not_eq_None_Some. Qed.

(** Live trading is approved exactly when every safety condition holds: the
    production environment, both live flags, paper and dry-run off, both exact
    confirmations, a concrete healthy adapter that is the configured one and
    execution-enabled, credentials, no withdrawal permission, data quality,
    websocket, clock and kill switch, and both acceptance records.  The report
    is one the gateway's integrity check accepts whenever the adapter supplied
    is the one the context described. *)
Theorem live_preflight_iff (settings : Settings) (context : LivePreflightContext) :
  let report := evaluate_live_preflight settings context in
  (pr_approved report = true <-> live_ready settings context) /\
  validate_preflight_integrity settings report (pc_adapter_is_concrete context)
    (pc_adapter_name context) = Ok tt.
Proof.
  intros report. assert (pr_approved report = true <-> live_ready settings context) as Hiff.
  { subst report. unfold evaluate_live_preflight, live_checks, live_ready, check. cbn -[bool_decide].
    rewrite !andb_true_iff, !negb_true_iff, !bool_decide_eq_true, !bool_decide_eq_false.
    rewrite confirmation_iff, execution_enabled_iff, !not_None_is_Some'.
    unfold dleb. rewrite !Qle_bool_iff. tauto. }
  split; [done|]. unfold validate_preflight_integrity.
  assert (eqb (pr_approved report) (forallb ck_passed (pr_checks report)) = true) as ->
    by apply eqb_reflx.
  assert (same_set (map ck_name (pr_checks report)) required_checks = true) as -> by reflexivity.
  rewrite andb_false_r. cbn [negb].
  destruct (pr_approved report) eqn:E; [|done].
  destruct Hiff as [(_&_&_&_&_&_&_&_& -> & _ & -> & _) _]; [done|].
  rewrite bool_decide_eq_false_2; [done|tauto].
Qed.
