(* ===== verification/Bindings.v ===== *)
(** * Preflight bindings (services/live_trading/cross_venue_preflight.py)

    The binding of a signal records how far its two orders have got.  It lives
    in a repository that is only written by compare-and-set on its version;
    [BindingRepository] is the interface the gateway uses (the Protocol
    [PreflightBindingRepository]), [BindingLaws] what it relies on, and the
    in-memory repository an implementation.  [CrossVenuePreflightService] issues
    and verifies the signed execution snapshots. *)

From Stdlib Require Import ZArith QArith Lia.
From stdpp Require Import base tactics list strings gmap.
From S2P Require Import Prelude Decimals ExecutionModels Venues Evidence LiveModels.

Local Open Scope string_scope.
Local Open Scope Z_scope.

Inductive PreflightBindingState :=
| B_UNBOUND | B_RESERVED | B_FIRST_LEG_ACCEPTED | B_SECOND_LEG_SUBMITTED | B_HEDGING_REQUIRED
| B_RECONCILIATION_REQUIRED | B_COMPLETED | B_ABORTED | B_HALTED.
#[export] Instance PreflightBindingState_eq_dec : EqDecision PreflightBindingState.
Proof. solve_decision. Defined.

Definition binding_state_value (s : PreflightBindingState) : string :=
  match s with
  | B_UNBOUND => "unbound" | B_RESERVED => "reserved"
  | B_FIRST_LEG_ACCEPTED => "first_leg_accepted"
  | B_SECOND_LEG_SUBMITTED => "second_leg_submitted"
  | B_HEDGING_REQUIRED => "hedging_required"
  | B_RECONCILIATION_REQUIRED => "reconciliation_required"
  | B_COMPLETED => "completed" | B_ABORTED => "aborted" | B_HALTED => "halted"
  end.

Record PositionReconciliationSnapshot := {
  ps_venue : string;
  ps_symbol : string;
  ps_quantity_before : Decimal;
  ps_captured_at : Z;
}.

Definition PositionReconciliationSnapshot_new (venue symbol : string)
    (quantity_before : Decimal) (captured_at : datetime)
  : result PositionReconciliationSnapshot :=
  require! negb (bool_decide (venue = EmptyString)) && negb (bool_decide (symbol = EmptyString))
    else ValueError "position snapshot venue and symbol are required";
  let! t := utc_or "position snapshot timestamp must be timezone-aware" captured_at in
  Ok {| ps_venue := venue; ps_symbol := symbol; ps_quantity_before := quantity_before;
        ps_captured_at := t |}.

Record PreflightBinding := {
  pb_signal_id : string;
  pb_preflight_hash : option string;
  pb_state : PreflightBindingState;
  pb_first_leg_role : option string;
  pb_first_order_request_id : option string;
  pb_first_external_order_id : option string;
  pb_second_order_request_id : option string;
  pb_second_external_order_id : option string;
  pb_version : Z;
  pb_created_at : option Z;
  pb_updated_at : option Z;
  pb_failure_reason : option string;
  pb_position_snapshot : option PositionReconciliationSnapshot;
}.

(** [PreflightBinding(signal_id, None, UNBOUND)] *)
Definition unbound_binding (signal_id : string) : PreflightBinding := {|
  pb_signal_id := signal_id; pb_preflight_hash := None; pb_state := B_UNBOUND;
  pb_first_leg_role := None; pb_first_order_request_id := None;
  pb_first_external_order_id := None; pb_second_order_request_id := None;
  pb_second_external_order_id := None; pb_version := 0; pb_created_at := None;
  pb_updated_at := None; pb_failure_reason := None; pb_position_snapshot := None |}.

Definition new_binding (signal_id preflight_hash : string) (state : PreflightBindingState)
    (now : Z) : PreflightBinding := {|
  pb_signal_id := signal_id; pb_preflight_hash := Some preflight_hash; pb_state := state;
  pb_first_leg_role := None; pb_first_order_request_id := None;
  pb_first_external_order_id := None; pb_second_order_request_id := None;
  pb_second_external_order_id := None; pb_version := 1; pb_created_at := Some now;
  pb_updated_at := Some now; pb_failure_reason := None; pb_position_snapshot := None |}.

(** ** The repository *)

Class BindingRepository (R : Type) := {
  durable : R -> bool;
  repo_get : R -> string -> option PreflightBinding;
  compare_and_set : string -> Z -> PreflightBinding -> R -> R * bool;
}.

(** The version a compare-and-set is compared with. *)
Definition version_of (o : option PreflightBinding) : Z :=
  match o with Some b => pb_version b | None => 0 end.

(** A successful compare-and-set found the expected version, raises it by one
    and writes the binding under its own signal; an unsuccessful one, and any
    other signal, is left as it was. *)
Class BindingLaws (R : Type) `{BindingRepository R} : Prop := {
  cas_sound : forall sid v b r,
    (compare_and_set sid v b r).2 = true ->
    pb_signal_id b = sid /\ version_of (repo_get r sid) = v /\ pb_version b = v + 1;
  cas_written : forall sid v b r,
    (compare_and_set sid v b r).2 = true ->
    repo_get (compare_and_set sid v b r).1 sid = Some b;
  cas_other : forall sid v b r sid',
    sid' <> sid -> repo_get (compare_and_set sid v b r).1 sid' = repo_get r sid';
  cas_failed : forall sid v b r,
    (compare_and_set sid v b r).2 = false -> (compare_and_set sid v b r).1 = r;
}.

Record InMemoryPreflightBindingRepository := {
  im_bindings : gmap string PreflightBinding;
}.

Definition in_memory_get (self : InMemoryPreflightBindingRepository) (signal_id : string)
  : option PreflightBinding := im_bindings self !! signal_id.

Definition in_memory_compare_and_set (signal_id : string) (expected_version : Z)
    (binding : PreflightBinding) (self : InMemoryPreflightBindingRepository)
  : InMemoryPreflightBindingRepository * bool :=
  let current := im_bindings self !! signal_id in
  let actual_version := match current with Some c => pb_version c | None => 0 end in
  if bool_decide (pb_signal_id binding <> signal_id)
     || negb (actual_version =? expected_version)
     || negb (pb_version binding =? expected_version + 1)
  then (self, false)
  else ({| im_bindings := <[signal_id := binding]> (im_bindings self) |}, true).

#[export] Instance in_memory_repository
  : BindingRepository InMemoryPreflightBindingRepository := {|
  durable := fun _ => false;
  repo_get := in_memory_get;
  compare_and_set := in_memory_compare_and_set |}.

(** ** The preflight service *)

Record CrossVenuePreflightService := {
  ps_issuer_id : string;
  ps_signing_key : string;
  ps_commit_sha : string;
}.

Definition CrossVenuePreflightService_new (issuer_id signing_key commit_sha : string)
  : result CrossVenuePreflightService :=
  require! negb (bool_decide (issuer_id = EmptyString)
                 || (String.length signing_key <? 32)%nat
                 || bool_decide (commit_sha = EmptyString))
    else ValueError "preflight issuer, 32-byte signing key, and commit SHA are required";
  Ok {| ps_issuer_id := issuer_id; ps_signing_key := signing_key; ps_commit_sha := commit_sha |}.

(** The fields but the hash and the signature, which the payload leaves out. *)
Definition sign_with (hash signature : string) (p : CrossVenueExecutionPreflight)
  : CrossVenueExecutionPreflight := {|
  cp_issuer_id := cp_issuer_id p; cp_issued_at := cp_issued_at p;
  cp_commit_sha := cp_commit_sha p; cp_snapshot_ids := cp_snapshot_ids p;
  cp_signal_id := cp_signal_id p; cp_receive_venue := cp_receive_venue p;
  cp_pay_venue := cp_pay_venue p; cp_canonical_instrument_id := cp_canonical_instrument_id p;
  cp_receive_capability_hash := cp_receive_capability_hash p;
  cp_pay_capability_hash := cp_pay_capability_hash p;
  cp_receive_source_event_hash := cp_receive_source_event_hash p;
  cp_pay_source_event_hash := cp_pay_source_event_hash p;
  cp_receive_execution_health := cp_receive_execution_health p;
  cp_pay_execution_health := cp_pay_execution_health p;
  cp_receive_available_collateral := cp_receive_available_collateral p;
  cp_pay_available_collateral := cp_pay_available_collateral p;
  cp_receive_fillable_quantity := cp_receive_fillable_quantity p;
  cp_pay_fillable_quantity := cp_pay_fillable_quantity p;
  cp_receive_expected_vwap := cp_receive_expected_vwap p;
  cp_pay_expected_vwap := cp_pay_expected_vwap p;
  cp_maximum_naked_exposure_duration_ms := cp_maximum_naked_exposure_duration_ms p;
  cp_created_at := cp_created_at p; cp_expires_at := cp_expires_at p;
  cp_preflight_hash := hash; cp_signature := signature |}.

Definition set_issuer (issuer_id commit_sha : string) (p : CrossVenueExecutionPreflight)
  : CrossVenueExecutionPreflight := {|
  cp_issuer_id := issuer_id; cp_issued_at := cp_issued_at p;
  cp_commit_sha := commit_sha; cp_snapshot_ids := cp_snapshot_ids p;
  cp_signal_id := cp_signal_id p; cp_receive_venue := cp_receive_venue p;
  cp_pay_venue := cp_pay_venue p; cp_canonical_instrument_id := cp_canonical_instrument_id p;
  cp_receive_capability_hash := cp_receive_capability_hash p;
  cp_pay_capability_hash := cp_pay_capability_hash p;
  cp_receive_source_event_hash := cp_receive_source_event_hash p;
  cp_pay_source_event_hash := cp_pay_source_event_hash p;
  cp_receive_execution_health := cp_receive_execution_health p;
  cp_pay_execution_health := cp_pay_execution_health p;
  cp_receive_available_collateral := cp_receive_available_collateral p;
  cp_pay_available_collateral := cp_pay_available_collateral p;
  cp_receive_fillable_quantity := cp_receive_fillable_quantity p;
  cp_pay_fillable_quantity := cp_pay_fillable_quantity p;
  cp_receive_expected_vwap := cp_receive_expected_vwap p;
  cp_pay_expected_vwap := cp_pay_expected_vwap p;
  cp_maximum_naked_exposure_duration_ms := cp_maximum_naked_exposure_duration_ms p;
  cp_created_at := cp_created_at p; cp_expires_at := cp_expires_at p;
  cp_preflight_hash := cp_preflight_hash p; cp_signature := cp_signature p |}.

(** [json.dumps] of the fields of a preflight; it is given the preflight
    without hash and signature. *)
Class PreflightJson := json_preflight : CrossVenueExecutionPreflight -> string.

Section Service.
Context {D : Digest} {J : PreflightJson}.

Definition preflight_digest (p : CrossVenueExecutionPreflight) : string :=
  sha256_hex (json_preflight (sign_with EmptyString EmptyString p)).

Definition service_signature (self : CrossVenuePreflightService) (hash : string) : string :=
  hmac_hex (ps_signing_key self) hash.

Definition invalid_snapshot_ids (ids : list string) : bool :=
  bool_decide (ids = []) || has_duplicates ids.

(** [issue]; [values] carries the keyword arguments of the caller. *)
Definition issue (self : CrossVenuePreflightService) (values : CrossVenueExecutionPreflight)
  : result CrossVenueExecutionPreflight :=
  require! negb (invalid_snapshot_ids (cp_snapshot_ids values))
    else ValueError "preflight snapshot ids must be non-empty and unique";
  let payload := set_issuer (ps_issuer_id self) (ps_commit_sha self) values in
  let preflight_hash := preflight_digest payload in
  Ok (sign_with preflight_hash (service_signature self preflight_hash) payload).

Definition verify (self : CrossVenuePreflightService) (preflight : CrossVenueExecutionPreflight)
    (now : Z) : result unit :=
  require! bool_decide (cp_issuer_id preflight = ps_issuer_id self)
    else ValueError "preflight issuer is not trusted";
  require! bool_decide (cp_commit_sha preflight = ps_commit_sha self)
    else ValueError "preflight commit SHA does not match deployment";
  require! negb (invalid_snapshot_ids (cp_snapshot_ids preflight))
    else ValueError "preflight snapshot ids are invalid";
  require! (cp_issued_at preflight <=? now)
    else ValueError "preflight issuance is future-dated";
  let actual_hash := preflight_digest preflight in
  require! bool_decide (cp_preflight_hash preflight = actual_hash)
    else ValueError "preflight hash is invalid";
  require! bool_decide (cp_signature preflight = service_signature self actual_hash)
    else ValueError "preflight signature is invalid";
  Ok tt.

(** What the service issues it verifies, from the time of issue on; and the
    signature of a verified snapshot is the service's over the fields shown. *)
Lemma issue_verify self values p now :
  issue self values = Ok p -> cp_issued_at values <= now -> verify self p now = Ok tt.
Proof.
  unfold issue, verify. destruct (invalid_snapshot_ids _) eqn:E; [done|]. simpl.
  intros H Hn. injection H as <-. simpl. rewrite !bool_decide_eq_true_2 by done.
  rewrite E. by apply Z.leb_le in Hn as ->.
Qed.

Lemma verify_signed self p now :
  verify self p now = Ok tt ->
  cp_issuer_id p = ps_issuer_id self /\ cp_commit_sha p = ps_commit_sha self /\
  cp_issued_at p <= now /\ cp_preflight_hash p = preflight_digest p /\
  cp_signature p = service_signature self (preflight_digest p).
Proof.
  unfold verify. repeat (case_bool_decide || case_goal); try done. intros _.
  split_and!; try done. by apply Z.leb_le.
Qed.

End Service.

(** ** The in-memory repository keeps the contract *)

#[export] Instance in_memory_laws : BindingLaws InMemoryPreflightBindingRepository.
Proof.
  assert (forall sid v b r, (in_memory_compare_and_set sid v b r).2 = true ->
    pb_signal_id b = sid /\ version_of (in_memory_get r sid) = v /\ pb_version b = v + 1 /\
    (in_memory_compare_and_set sid v b r).1 =
      {| im_bindings := <[sid := b]> (im_bindings r) |}) as Hok.
  { intros sid v b r. unfold in_memory_compare_and_set, version_of, in_memory_get.
    case_bool_decide; simpl; [done|]. destruct (_ =? v) eqn:E1; simpl; [|done].
    destruct (_ =? v + 1) eqn:E2; simpl; [|done]. intros _. split_and!; try lia; try done. }
  split; simpl.
  - intros. edestruct Hok as (? & ? & ? & ?); eauto.
  - intros sid v b r H. destruct (Hok _ _ _ _ H) as (_ & _ & _ & ->).
    apply lookup_insert_eq.
  - intros sid v b r sid' Hne. destruct (in_memory_compare_and_set sid v b r).2 eqn:E.
    + destruct (Hok _ _ _ _ E) as (_ & _ & _ & ->). by apply lookup_insert_ne.
    + unfold in_memory_compare_and_set in *. case_goal; done.
  - intros sid v b r. unfold in_memory_compare_and_set. by case_goal.
Qed.

(** A compare-and-set with the version just read succeeds in the in-memory
    repository. *)
Lemma in_memory_cas_fresh sid b r :
  pb_signal_id b = sid -> pb_version b = version_of (in_memory_get r sid) + 1 ->
  (in_memory_compare_and_set sid (version_of (in_memory_get r sid)) b r).2 = true.
Proof.
  intros Hs Hv. unfold in_memory_compare_and_set, version_of, in_memory_get in *.
  rewrite bool_decide_eq_false_2 by tauto.
  rewrite Z.eqb_refl, Hv, Z.eqb_refl. done.
Qed.
