(* ===== verification/GatewayChecks.v ===== *)
(** * The gateway's stateless checks of an order request
      (services/live_trading/gateway.py)

    Every check returns the reason of a rejection or [None].  The order of the
    checks is the code's. *)

From Stdlib Require Import ZArith QArith Lia.
From stdpp Require Import base tactics list strings sorting.
From S2P Require Import Prelude Decimals ExecutionModels Venues Evidence LiveModels LivePreflight.
From S2P Require Import Bindings.

Local Open Scope string_scope.
Local Open Scope Z_scope.

Notation "'reject!' b 'with' r ; k" := (if b then Some r else k)
  (at level 10, b at level 100, r at level 100, k at level 200) : py_scope.

(** The first failure of a loop over checks. *)
Fixpoint first_failure {A} (f : A -> option string) (xs : list A) : option string :=
  match xs with
  | [] => None
  | x :: xs => match f x with Some r => Some r | None => first_failure f xs end
  end.

(** [age < timedelta(0) or age > timedelta(seconds=maximum)] *)
Definition out_of_age (age maximum_seconds : Z) : bool :=
  (age <? 0) || (seconds maximum_seconds <? age).

Definition error_text (e : exn) : string :=
  match e with
  | ValueError m | DuplicateFillError m | RuntimeError m | PermissionError m | IndexError m
  | ExecutionAdapterError m => m
  | KeyError | OtherError _ => EmptyString
  end.

(** The order of strings, for [sorted]. *)
Definition string_le (a b : string) : Prop := String.leb a b = true.
#[export] Instance string_le_dec a b : Decision (string_le a b).
Proof. unfold string_le. apply _. Defined.

(** ** Source events *)

Definition is_hex_char (c : Ascii.ascii) : bool :=
  let n := Ascii.N_of_ascii c in
  ((48 <=? n) && (n <=? 57) || (97 <=? n) && (n <=? 102))%N.
Fixpoint all_hex (s : string) : bool :=
  match s with EmptyString => true | String c s => is_hex_char c && all_hex s end.
(** [re.fullmatch(r"[0-9a-f]{64}", s)] *)
Definition is_sha256_hex (s : string) : bool := (String.length s =? 64)%nat && all_hex s.

Definition event_types (capability : string) : list string :=
  default [] (dict_get capability
    [("funding_current", ["funding_current"; "funding"]);
     ("funding_history", ["funding_history"]);
     ("orderbook_snapshot", ["orderbook_snapshot"; "orderbook_delta"]);
     ("index_price", ["index_price"]);
     ("market_liquidation_stream", ["market_liquidation"; "liquidation"]);
     ("open_interest", ["open_interest"]);
     ("trades", ["trade"; "trades"])]).

Definition field_mismatch (name : string) : string :=
  "source event " +:+ name +:+ " does not match repository".

Definition stored_event_mismatch (event : SourceEventEvidence) (stored : StoredSourceEvent)
  : option string :=
  reject! bool_decide (se_venue event <> se_venue stored) with field_mismatch "venue";
  reject! bool_decide (se_symbol event <> se_symbol stored) with field_mismatch "symbol";
  reject! bool_decide (se_event_type event <> se_event_type stored)
    with field_mismatch "event_type";
  reject! bool_decide (se_exchange_timestamp event <> se_exchange_timestamp stored)
    with field_mismatch "exchange_timestamp";
  reject! bool_decide (se_received_at event <> se_received_at stored)
    with field_mismatch "received_at";
  reject! bool_decide (se_available_at event <> se_available_at stored)
    with field_mismatch "available_at";
  reject! bool_decide (se_payload_sha256 event <> se_payload_sha256 stored)
    with field_mismatch "payload_sha256";
  reject! bool_decide (se_sequence event <> se_sequence stored) with field_mismatch "sequence";
  reject! bool_decide (se_connection_id event <> se_connection_id stored)
    with field_mismatch "connection_id";
  reject! bool_decide (se_reconciliation_state event <> se_reconciliation_state stored)
    with field_mismatch "reconciliation_state";
  reject! negb (deqb (se_data_quality_score event) (se_data_quality_score stored))
    with field_mismatch "data_quality_score";
  None.

Section Checks.
Context {C : DecimalContext} {D : Digest}.
Variable settings : Settings.
Variable trusted_capability_registry : option TrustedCapabilityRegistry.
(** [source_event_repository.get], when there is a repository. *)
Variable source_event_repository : option (string -> option StoredSourceEvent).

Definition validate_source_event (request : LiveOrderRequest) (capability : CapabilityEvidence)
    (timestamp : Z) (expected_venue : string) (event : SourceEventEvidence) : option string :=
  reject! bool_decide (se_event_id event = EmptyString) with "source event id is empty";
  match source_event_repository with
  | None => Some "source event repository is unavailable"
  | Some get =>
      match get (se_event_id event) with
      | None => Some "source event does not exist in repository"
      | Some stored =>
          match stored_event_mismatch event stored with
          | Some mismatch => Some mismatch
          | None =>
              reject! bool_decide (se_venue stored <> expected_venue)
                with "stored source event venue does not match order venue";
              reject! bool_decide (se_symbol stored <> lo_symbol request)
                with "stored source event symbol does not match order symbol";
              reject! negb (bool_decide (se_event_type stored
                              ∈ event_types (ce_capability capability)))
                with "source event type does not match capability";
              reject! out_of_age (timestamp - se_available_at stored)
                        (live_source_event_max_age_seconds (st_live settings))
                with "source event is stale or future-dated";
              reject! negb (is_sha256_hex (se_payload_sha256 stored))
                with "source event payload hash is invalid";
              reject! dltb (se_data_quality_score stored)
                        (live_minimum_data_quality (st_live settings))
                with "source event data quality is below threshold";
              reject! bool_decide (se_event_type stored
                        ∈ ["orderbook_snapshot"; "orderbook_delta"])
                      && bool_decide (se_reconciliation_state stored <> Some R_SYNCHRONIZED)
                with "source event is not synchronized";
              None
          end
      end
  end.

Definition validate_source_events (request : LiveOrderRequest)
    (capability : CapabilityEvidence) (timestamp : Z) (expected_venue : string)
  : option string :=
  first_failure (validate_source_event request capability timestamp expected_venue)
    (ce_source_events capability).

(** ** Capabilities *)

Definition trusted_field_mismatch (item : CapabilityEvidence)
    (trusted : TrustedCapabilityRecord) : option string :=
  reject! bool_decide (ce_adapter_version item <> tc_adapter_version trusted)
    with "adapter version does not match trusted record";
  reject! bool_decide (ce_source_version item <> tc_source_version trusted)
    with "source version does not match trusted record";
  reject! bool_decide (ce_contract_fixture_sha256 item <> tc_contract_fixture_sha256 trusted)
    with "fixture sha256 does not match trusted record";
  reject! bool_decide (ce_audit_run_id item <> tc_audit_run_id trusted)
    with "capability audit run does not match trusted record";
  None.

Definition validate_capability (request : LiveOrderRequest) (item : CapabilityEvidence)
    (expected_venue : string) (expected_use_case : CapabilityUseCase) (timestamp : Z)
  : option string :=
  reject! bool_decide (ce_venue item <> expected_venue)
    with "capability evidence venue does not match order venue";
  reject! bool_decide (ce_use_case item <> expected_use_case)
    with "capability evidence use case does not match order intent";
  reject! out_of_age (timestamp - ce_verified_at item)
            (live_capability_verification_max_age_seconds (st_live settings))
    with "capability evidence is stale or future-dated";
  match trusted_capability_registry with
  | None => Some "trusted capability registry is unavailable"
  | Some registry =>
      match registry_require registry (ce_venue item) (ce_capability item)
              (ce_verification_run_id item) (ce_verified_at item) (ce_use_case item)
              timestamp "*" with
      | Err e => Some ("trusted capability rejected evidence: " +:+ error_text e)
      | Ok trusted =>
          reject! bool_decide (ce_support item <> tc_support trusted)
            with "capability support does not match trusted record";
          match trusted_field_mismatch item trusted with
          | Some r => Some r
          | None => validate_source_events request item timestamp expected_venue
          end
      end
  end.

Definition expected_use_case (request : LiveOrderRequest) : CapabilityUseCase :=
  if lo_reduce_only request then EMERGENCY_EXIT else NEW_EXPOSURE.

Definition validate_leg (request : LiveOrderRequest) (timestamp : Z) (leg : LegDataEvidence)
  : option string :=
  first_failure (fun item =>
    validate_capability request item (ld_venue leg) (expected_use_case request) timestamp)
    (ld_capabilities leg).

(** [_source_event_hash] *)
Definition source_event_hash (leg : LegDataEvidence) : string :=
  let values := flat_map (fun capability =>
    map (fun event => se_event_id event +:+ ":" +:+ se_payload_sha256 event)
      (ce_source_events capability)) (ld_capabilities leg) in
  sha256_hex (join "|" (merge_sort string_le values)).

(** ** [_validate_request], up to the check of the cross-venue preflight *)

Definition requirement_missing (receive_leg pay_leg : LegDataEvidence)
    (requirement : RequiredVenueCapability) : bool :=
  let venue :=
    if bool_decide (rv_venue_role requirement = "receive_leg") then ld_venue receive_leg
    else if bool_decide (rv_venue_role requirement = "pay_leg") then ld_venue pay_leg
    else EmptyString in
  negb (dict_mem (venue, rv_capability requirement)
          (available_capabilities (ld_capabilities receive_leg ++ ld_capabilities pay_leg))).

Definition validate_legs (request : LiveOrderRequest) (timestamp : Z)
    (receive_leg pay_leg : LegDataEvidence) : option string :=
  let evidence := lo_cross_venue_signal_evidence request in
  reject! bool_decide (ld_venue receive_leg = ld_venue pay_leg)
    with "receive and pay venues must differ";
  reject! negb (leg_valid_hash receive_leg) || negb (leg_valid_hash pay_leg)
    with "cross-venue leg evidence hash is invalid";
  match cross_leg evidence (lo_order_leg_role request) with
  | None => Some "order leg evidence does not match full signal"
  | Some order_leg =>
      reject! negb (leg_eqb order_leg (lo_order_leg_evidence request))
        with "order leg evidence does not match full signal";
      reject! bool_decide (ld_venue order_leg <> lo_exchange request)
        with "order venue does not match leg role";
      match dict_get (lo_strategy_id request, lo_strategy_version request)
              STRATEGY_CAPABILITY_REGISTRY with
      | None => Some "unknown strategy id or version"
      | Some registered =>
          reject! bool_decide (lo_required_capabilities request <>
                    map rv_capability (filter (fun item =>
                      rv_venue_role item = lo_order_leg_role request) registered))
            with "required capabilities do not exactly match strategy registry";
          let all_capabilities := (ld_capabilities receive_leg ++ ld_capabilities pay_leg)%list in
          reject! has_duplicates (capability_keys all_capabilities)
            with "duplicate venue and capability evidence";
          reject! existsb (requirement_missing receive_leg pay_leg) registered
            with "required cross-venue capability evidence is missing";
          first_failure (validate_leg request timestamp)
            (if lo_reduce_only request then [order_leg] else [receive_leg; pay_leg])
      end
  end.

Definition validate_signal (preflight : LivePreflightReport) (request : LiveOrderRequest)
    (timestamp : Z) (preview : bool) : option string :=
  reject! negb preview && negb (pr_approved preflight) with "live preflight is not approved";
  reject! negb preview && out_of_age (timestamp - pr_timestamp preflight)
                            (live_preflight_ttl_seconds (st_live settings))
    with "live preflight is stale or future-dated";
  reject! (timestamp - lo_created_at request <? 0) with "order request is future-dated";
  reject! (seconds (st_stale_data_seconds settings) <? timestamp - lo_created_at request)
    with "order request is stale";
  reject! (lo_expires_at request <=? timestamp) with "order request has expired";
  let evidence := lo_cross_venue_signal_evidence request in
  reject! bool_decide (cv_signal_id evidence <> lo_signal_id request)
          || negb (cross_valid_hash evidence)
          || bool_decide (lo_cross_venue_signal_hash request <> cv_evidence_hash evidence)
    with "cross-venue signal evidence identity or hash is invalid";
  match cv_receive_leg evidence, cv_pay_leg evidence with
  | None, _ => Some "receive leg evidence is missing"
  | _, None => Some "pay leg evidence is missing"
  | Some receive_leg, Some pay_leg => validate_legs request timestamp receive_leg pay_leg
  end.

(** ** [_validate_request], after the check of the cross-venue preflight and
    before the rate limit *)

Definition validate_limits (request : LiveOrderRequest) (timestamp : Z) (risk_allowed : bool)
    (risk_evaluated_at : Z) (preview : bool) (risk_decision_id : option string)
    (maximum_risk_quantity : option Decimal) (kill_switch_reason : option string)
  : option string :=
  reject! negb (bool_decide (lo_exchange request ∈ execution_enabled_names settings))
    with "exchange is not execution-enabled";
  match execution_eligibility_reason settings (lo_exchange request) (Aware timestamp)
          (lo_reduce_only request) with
  | Err _ => Some "venue eligibility is not configured" (* only a KeyError can occur *)
  | Ok (Some failure) => Some ("venue eligibility rejected execution: " +:+ failure)
  | Ok None =>
      reject! negb (bool_decide (lo_symbol request ∈ live_allowed_symbols (st_live settings)))
        with "symbol is not live-allowed";
      reject! dltb (live_maximum_order_notional (st_live settings)) (reference_notional request)
        with "order reference notional exceeds live maximum";
      reject! negb risk_allowed with "risk manager rejected the order";
      reject! negb preview && bool_decide (risk_decision_id <> Some (lo_risk_decision_id request))
        with "risk decision identity does not match the order request";
      reject! negb preview && negb (lo_reduce_only request)
              && bool_decide (¬ is_Some maximum_risk_quantity)
        with "entry risk decision has no approved position size";
      reject! negb preview && negb (lo_reduce_only request)
              && match maximum_risk_quantity with
                 | Some q => dltb q (lo_quantity request)
                 | None => false
                 end
        with "order quantity exceeds the risk-approved position size";
      reject! negb preview && negb (lo_reduce_only request)
              && out_of_age (timestamp - risk_evaluated_at) (st_stale_data_seconds settings)
        with "risk decision is stale or future-dated";
      reject! has_text kill_switch_reason && negb (lo_reduce_only request)
        with "kill switch blocks new exposure";
      None
  end.

End Checks.

(** A loop of checks passes when every check does. *)
Lemma first_failure_None {A} (f : A -> option string) xs :
  first_failure f xs = None <-> Forall (fun x => f x = None) xs.
Proof.
  induction xs as [|x xs IH]; simpl; [by split; auto|].
  destruct (f x) eqn:E; rewrite Forall_cons; [naive_solver|]. rewrite IH. tauto.
Qed.
