(* ===== verification/Gateway.v ===== *)
(** * The live execution gateway (services/live_trading/gateway.py)

    The state of the gateway is a record; an operation is a computation on it
    whose exceptions keep the mutations made before them.  The execution adapter
    is a parameter: each of its methods may change the exchange and, because
    other processes run while the gateway awaits it, the shared binding
    repository, and may raise any exception.  The audit sink is a parameter of
    the same kind, [uuid4 n] is the value of the [n]-th call of [uuid4], and
    [asyncio.Lock] makes a call of [place_order] one uninterrupted computation
    of its own gateway. *)

From Stdlib Require Import ZArith QArith Lia.
From stdpp Require Import base tactics relations list strings gmap.
From S2P Require Import Prelude Decimals ExecutionModels RiskModels LegState Venues Evidence.
From S2P Require Import LiveModels LivePreflight Bindings GatewayChecks.

Local Open Scope string_scope.
Local Open Scope Z_scope.

(** ** The adapter and the state *)

(** adapters/exchanges/base.py: ExecutionAdapter.  [X] is the exchange, [R] the
    binding repository. *)
Record ExecutionAdapter (X R : Type) := {
  adapter_name : string;
  is_concrete : bool;
  ad_place_order : LiveOrderRequest -> M (X * R) ExecutionOrderAck;
  ad_cancel_order : string -> M (X * R) CancelAck;
  ad_cancel_all_orders : M (X * R) (list CancelAck);
  ad_fetch_open_orders : option string -> M (X * R) (list LiveOpenOrder);
  ad_fetch_positions : M (X * R) (list LivePosition);
  ad_fetch_recent_fills : string -> Z -> M (X * R) (list ExecutionFill);
  ad_lookup_order_by_client_id : string -> M (X * R) (option ReconciledOrder);
  ad_close_position : string -> M (X * R) ExecutionOrderAck;
  ad_health_check : M (X * R) bool;
}.
Arguments adapter_name {X R} _.
Arguments is_concrete {X R} _.
Arguments ad_place_order {X R} _ _.
Arguments ad_cancel_order {X R} _ _.
Arguments ad_cancel_all_orders {X R} _.
Arguments ad_fetch_open_orders {X R} _ _.
Arguments ad_fetch_positions {X R} _.
Arguments ad_fetch_recent_fills {X R} _ _ _.
Arguments ad_lookup_order_by_client_id {X R} _ _.
Arguments ad_close_position {X R} _ _.
Arguments ad_health_check {X R} _.

(** The attributes of the gateway that do not change. *)
Record GatewayConfig (X R : Type) := {
  gc_settings : Settings;
  gc_adapter : ExecutionAdapter X R;
  gc_preflight : LivePreflightReport;
  gc_source_event_repository : option (string -> option StoredSourceEvent);
  gc_trusted_capability_registry : option TrustedCapabilityRegistry;
  gc_audit_sink : option (ExecutionAuditEvent -> M (X * R) unit);
  gc_model_version : string;
  gc_config_version : string;
  gc_cross_venue_preflight_service : option CrossVenuePreflightService;
}.
Arguments gc_settings {X R} _.
Arguments gc_adapter {X R} _.
Arguments gc_preflight {X R} _.
Arguments gc_source_event_repository {X R} _.
Arguments gc_trusted_capability_registry {X R} _.
Arguments gc_audit_sink {X R} _.
Arguments gc_model_version {X R} _.
Arguments gc_config_version {X R} _.
Arguments gc_cross_venue_preflight_service {X R} _.

Record LiveExecutionGateway (X R : Type) := {
  gw_kill_switch_reason : option string;
  gw_audit_events : list ExecutionAuditEvent;
  gw_idempotent_receipts : list (string * ExecutionOrderAck);
  gw_order_timestamps : list Z;
  gw_leg_execution_machine : option LegExecutionMachine;
  gw_last_preflight_action : option PreflightChangeAction;
  gw_uuid_calls : N;
  gw_exchange : X;
  gw_repository : R;
}.
Arguments gw_kill_switch_reason {X R} _.
Arguments gw_audit_events {X R} _.
Arguments gw_idempotent_receipts {X R} _.
Arguments gw_order_timestamps {X R} _.
Arguments gw_leg_execution_machine {X R} _.
Arguments gw_last_preflight_action {X R} _.
Arguments gw_uuid_calls {X R} _.
Arguments gw_exchange {X R} _.
Arguments gw_repository {X R} _.

Section Setters.
Context {X R : Type}.

Definition gw_set_world (w : X * R) (g : LiveExecutionGateway X R) : LiveExecutionGateway X R :=
  {| gw_kill_switch_reason := gw_kill_switch_reason g; gw_audit_events := gw_audit_events g;
     gw_idempotent_receipts := gw_idempotent_receipts g;
     gw_order_timestamps := gw_order_timestamps g;
     gw_leg_execution_machine := gw_leg_execution_machine g;
     gw_last_preflight_action := gw_last_preflight_action g; gw_uuid_calls := gw_uuid_calls g;
     gw_exchange := w.1; gw_repository := w.2 |}.

Definition gw_set_kill_switch (k : option string) (g : LiveExecutionGateway X R)
  : LiveExecutionGateway X R :=
  {| gw_kill_switch_reason := k; gw_audit_events := gw_audit_events g;
     gw_idempotent_receipts := gw_idempotent_receipts g;
     gw_order_timestamps := gw_order_timestamps g;
     gw_leg_execution_machine := gw_leg_execution_machine g;
     gw_last_preflight_action := gw_last_preflight_action g; gw_uuid_calls := gw_uuid_calls g;
     gw_exchange := gw_exchange g; gw_repository := gw_repository g |}.

Definition gw_set_audit (events : list ExecutionAuditEvent) (calls : N)
    (g : LiveExecutionGateway X R) : LiveExecutionGateway X R :=
  {| gw_kill_switch_reason := gw_kill_switch_reason g; gw_audit_events := events;
     gw_idempotent_receipts := gw_idempotent_receipts g;
     gw_order_timestamps := gw_order_timestamps g;
     gw_leg_execution_machine := gw_leg_execution_machine g;
     gw_last_preflight_action := gw_last_preflight_action g; gw_uuid_calls := calls;
     gw_exchange := gw_exchange g; gw_repository := gw_repository g |}.

Definition gw_set_receipts (receipts : list (string * ExecutionOrderAck)) (timestamps : list Z)
    (g : LiveExecutionGateway X R) : LiveExecutionGateway X R :=
  {| gw_kill_switch_reason := gw_kill_switch_reason g; gw_audit_events := gw_audit_events g;
     gw_idempotent_receipts := receipts; gw_order_timestamps := timestamps;
     gw_leg_execution_machine := gw_leg_execution_machine g;
     gw_last_preflight_action := gw_last_preflight_action g; gw_uuid_calls := gw_uuid_calls g;
     gw_exchange := gw_exchange g; gw_repository := gw_repository g |}.

Definition gw_set_leg (m : option LegExecutionMachine) (a : option PreflightChangeAction)
    (g : LiveExecutionGateway X R) : LiveExecutionGateway X R :=
  {| gw_kill_switch_reason := gw_kill_switch_reason g; gw_audit_events := gw_audit_events g;
     gw_idempotent_receipts := gw_idempotent_receipts g;
     gw_order_timestamps := gw_order_timestamps g;
     gw_leg_execution_machine := m; gw_last_preflight_action := a;
     gw_uuid_calls := gw_uuid_calls g;
     gw_exchange := gw_exchange g; gw_repository := gw_repository g |}.

End Setters.

(** [type(exc).__name__] *)
Definition exn_name (e : exn) : string :=
  match e with
  | ValueError _ => "ValueError"
  | DuplicateFillError _ => "DuplicateFillError"
  | RuntimeError _ => "RuntimeError"
  | PermissionError _ => "PermissionError"
  | KeyError => "KeyError"
  | IndexError _ => "IndexError"
  | ExecutionAdapterError _ => "ExecutionAdapterError"
  | OtherError name => name
  end.

(** A [return] inside a block, or falling through it. *)
Inductive flow (A : Type) := Return (a : A) | Continue.
Arguments Return {A} a.
Arguments Continue {A}.

(** ** Writing a binding *)

(** [replace(current, state=..., version=current.version + 1, updated_at=...,
    failure_reason=...)] *)
Definition next_binding (current : PreflightBinding) (state : PreflightBindingState)
    (timestamp : Z) (failure_reason : option string) : PreflightBinding := {|
  pb_signal_id := pb_signal_id current; pb_preflight_hash := pb_preflight_hash current;
  pb_state := state; pb_first_leg_role := pb_first_leg_role current;
  pb_first_order_request_id := pb_first_order_request_id current;
  pb_first_external_order_id := pb_first_external_order_id current;
  pb_second_order_request_id := pb_second_order_request_id current;
  pb_second_external_order_id := pb_second_external_order_id current;
  pb_version := pb_version current + 1; pb_created_at := pb_created_at current;
  pb_updated_at := Some timestamp; pb_failure_reason := failure_reason;
  pb_position_snapshot := pb_position_snapshot current |}.

Definition set_first_request (request_id : string) (b : PreflightBinding) : PreflightBinding :=
  {| pb_signal_id := pb_signal_id b; pb_preflight_hash := pb_preflight_hash b;
     pb_state := pb_state b; pb_first_leg_role := pb_first_leg_role b;
     pb_first_order_request_id := Some request_id;
     pb_first_external_order_id := pb_first_external_order_id b;
     pb_second_order_request_id := pb_second_order_request_id b;
     pb_second_external_order_id := pb_second_external_order_id b;
     pb_version := pb_version b; pb_created_at := pb_created_at b;
     pb_updated_at := pb_updated_at b; pb_failure_reason := pb_failure_reason b;
     pb_position_snapshot := pb_position_snapshot b |}.

Definition set_first_leg (role request_id : string) (external : option string)
    (b : PreflightBinding) : PreflightBinding :=
  {| pb_signal_id := pb_signal_id b; pb_preflight_hash := pb_preflight_hash b;
     pb_state := pb_state b; pb_first_leg_role := Some role;
     pb_first_order_request_id := Some request_id;
     pb_first_external_order_id := external;
     pb_second_order_request_id := pb_second_order_request_id b;
     pb_second_external_order_id := pb_second_external_order_id b;
     pb_version := pb_version b; pb_created_at := pb_created_at b;
     pb_updated_at := pb_updated_at b; pb_failure_reason := pb_failure_reason b;
     pb_position_snapshot := pb_position_snapshot b |}.

Definition set_second_request (request_id : string) (b : PreflightBinding) : PreflightBinding :=
  {| pb_signal_id := pb_signal_id b; pb_preflight_hash := pb_preflight_hash b;
     pb_state := pb_state b; pb_first_leg_role := pb_first_leg_role b;
     pb_first_order_request_id := pb_first_order_request_id b;
     pb_first_external_order_id := pb_first_external_order_id b;
     pb_second_order_request_id := Some request_id;
     pb_second_external_order_id := pb_second_external_order_id b;
     pb_version := pb_version b; pb_created_at := pb_created_at b;
     pb_updated_at := pb_updated_at b; pb_failure_reason := pb_failure_reason b;
     pb_position_snapshot := pb_position_snapshot b |}.

Definition set_second_external (external : option string) (b : PreflightBinding)
  : PreflightBinding :=
  {| pb_signal_id := pb_signal_id b; pb_preflight_hash := pb_preflight_hash b;
     pb_state := pb_state b; pb_first_leg_role := pb_first_leg_role b;
     pb_first_order_request_id := pb_first_order_request_id b;
     pb_first_external_order_id := pb_first_external_order_id b;
     pb_second_order_request_id := pb_second_order_request_id b;
     pb_second_external_order_id := external;
     pb_version := pb_version b; pb_created_at := pb_created_at b;
     pb_updated_at := pb_updated_at b; pb_failure_reason := pb_failure_reason b;
     pb_position_snapshot := pb_position_snapshot b |}.

Definition set_version (version : Z) (created_at : option Z) (b : PreflightBinding)
  : PreflightBinding :=
  {| pb_signal_id := pb_signal_id b; pb_preflight_hash := pb_preflight_hash b;
     pb_state := pb_state b; pb_first_leg_role := pb_first_leg_role b;
     pb_first_order_request_id := pb_first_order_request_id b;
     pb_first_external_order_id := pb_first_external_order_id b;
     pb_second_order_request_id := pb_second_order_request_id b;
     pb_second_external_order_id := pb_second_external_order_id b;
     pb_version := version; pb_created_at := created_at;
     pb_updated_at := pb_updated_at b; pb_failure_reason := pb_failure_reason b;
     pb_position_snapshot := pb_position_snapshot b |}.

Definition set_position (s : option PositionReconciliationSnapshot) (reason : option string)
    (b : PreflightBinding) : PreflightBinding :=
  {| pb_signal_id := pb_signal_id b; pb_preflight_hash := pb_preflight_hash b;
     pb_state := pb_state b; pb_first_leg_role := pb_first_leg_role b;
     pb_first_order_request_id := pb_first_order_request_id b;
     pb_first_external_order_id := pb_first_external_order_id b;
     pb_second_order_request_id := pb_second_order_request_id b;
     pb_second_external_order_id := pb_second_external_order_id b;
     pb_version := pb_version b; pb_created_at := pb_created_at b;
     pb_updated_at := pb_updated_at b; pb_failure_reason := reason;
     pb_position_snapshot := s |}.

(** [_hedging_operation_allowed] *)
Definition hedging_operation_allowed (current : PreflightBinding) (request : LiveOrderRequest)
  : bool :=
  let opposite_leg := bool_decide (pb_first_leg_role current <> Some (lo_order_leg_role request)) in
  match lo_preflight_recovery_action request with
  | None | Some RA_ALTERNATE_HEDGE | Some RA_PARTIAL_HEDGE => opposite_leg
  | Some RA_FIRST_LEG_UNWIND => lo_reduce_only request && negb opposite_leg
  end.

(** ** What a snapshot of the exchange proves *)

Record ExchangeReconciliationSnapshot := {
  xs_binding : PreflightBinding;
  xs_client_order : option ReconciledOrder;
  xs_matching_fills : list ExecutionFill;
  xs_matching_open_orders : list LiveOpenOrder;
  xs_positions : list LivePosition;
  xs_captured_at : Z;
}.

Definition with_binding (b : PreflightBinding) (s : ExchangeReconciliationSnapshot)
  : ExchangeReconciliationSnapshot :=
  {| xs_binding := b; xs_client_order := xs_client_order s;
     xs_matching_fills := xs_matching_fills s;
     xs_matching_open_orders := xs_matching_open_orders s; xs_positions := xs_positions s;
     xs_captured_at := xs_captured_at s |}.

Definition is_empty {A} (xs : list A) : bool := match xs with [] => true | _ => false end.

Section Snapshot.
Context {C : DecimalContext}.

(** The start of the time window of a request. *)
Definition since_of (binding : PreflightBinding) (request : LiveOrderRequest) : Z :=
  match pb_position_snapshot binding with
  | Some before => ps_captured_at before
  | None => lo_created_at request
  end.

Definition position_delta (request : LiveOrderRequest) (s : ExchangeReconciliationSnapshot)
  : option Decimal :=
  match pb_position_snapshot (xs_binding s) with
  | None => None
  | Some before =>
      if bool_decide (ps_venue before <> lo_exchange request)
         || bool_decide (ps_symbol before <> lo_symbol request) then None
      else
        match filter (fun item => lp_exchange item = lo_exchange request /\
                                  lp_symbol item = lo_symbol request) (xs_positions s) with
        | [] => Some (dsub 0 (ps_quantity_before before))
        | [item] => Some (dsub (lp_quantity item) (ps_quantity_before before))
        | _ => None
        end
  end.

Definition client_order_matches (request : LiveOrderRequest) (s : ExchangeReconciliationSnapshot)
  : bool :=
  let since := since_of (xs_binding s) request in
  match xs_client_order s with
  | None => false
  | Some o =>
      bool_decide (ro_client_order_id o = lo_request_id request) &&
      bool_decide (ro_exchange o = lo_exchange request) &&
      bool_decide (ro_symbol o = lo_symbol request) &&
      bool_decide (ro_side o = lo_side request) &&
      deqb (ro_original_quantity o) (lo_quantity request) &&
      eqb (ro_reduce_only o) (lo_reduce_only request) &&
      ((since <=? ro_created_at o) && (ro_created_at o <=? xs_captured_at s)) &&
      ((ro_created_at o <=? ro_updated_at o) && (ro_updated_at o <=? xs_captured_at s))
  end.

Definition filled_quantity (s : ExchangeReconciliationSnapshot) : Decimal :=
  dsum (map ef_quantity (xs_matching_fills s)).

Definition fills_match_position_delta (request : LiveOrderRequest)
    (s : ExchangeReconciliationSnapshot) : bool :=
  if is_empty (xs_matching_fills s) then false
  else match position_delta request s with
       | None => false
       | Some delta =>
           let filled := filled_quantity s in
           let expected_delta := match lo_side request with BUY => filled | SELL => dneg filled end in
           dleb filled (lo_quantity request) && deqb delta expected_delta
       end.

Definition snapshot_proves_order_exists (request : LiveOrderRequest)
    (s : ExchangeReconciliationSnapshot) : bool :=
  if client_order_matches request s &&
     match xs_client_order s with
     | Some o => bool_decide (ro_status o ∈ [RO_OPEN; RO_PARTIALLY_FILLED; RO_FILLED])
     | None => false
     end
  then true
  else if (length (xs_matching_open_orders s) =? 1)%nat then true
  else fills_match_position_delta request s.

Definition snapshot_proves_order_absent (request : LiveOrderRequest)
    (s : ExchangeReconciliationSnapshot) : bool :=
  if bool_decide (is_Some (xs_client_order s)) && negb (client_order_matches request s)
  then false
  else if negb (is_empty (xs_matching_fills s)) || negb (is_empty (xs_matching_open_orders s))
  then false
  else match position_delta request s with
       | Some delta => deqb delta 0
       | None => false
       end.

Definition fills_ambiguous (request : LiveOrderRequest) (s : ExchangeReconciliationSnapshot)
  : bool :=
  let fills := xs_matching_fills s in
  has_duplicates (map ef_fill_id fills)
  || negb (length (dict_fromkeys (map ef_exchange_order_id fills)) =? 1)%nat
  || dltb (lo_quantity request) (filled_quantity s)
  || negb (fills_match_position_delta request s).

Definition snapshot_is_ambiguous (request : LiveOrderRequest)
    (s : ExchangeReconciliationSnapshot) : bool :=
  if bool_decide (is_Some (xs_client_order s)) && negb (client_order_matches request s) then true
  else if match xs_client_order s with
          | Some o => bool_decide (ro_status o = RO_PENDING)
          | None => false
          end then true
  else if (1 <? length (xs_matching_open_orders s))%nat then true
  else if negb (is_empty (xs_matching_fills s)) && fills_ambiguous request s then true
  else match position_delta request s with
       | Some delta => negb (deqb delta 0) && is_empty (xs_matching_fills s)
       | None => false
       end.

Definition snapshot_external_order_id (request : LiveOrderRequest)
    (s : ExchangeReconciliationSnapshot) : option string :=
  let otherwise :=
    match xs_matching_open_orders s, xs_matching_fills s with
    | [item], _ => Some (oo_external_order_id item)
    | _, fill :: _ => Some (ef_exchange_order_id fill)
    | _, [] => None
    end in
  match xs_client_order s with
  | Some o => if client_order_matches request s then Some (ro_external_order_id o) else otherwise
  | None => otherwise
  end.

Definition fill_matches (request : LiveOrderRequest) (since captured_at : Z)
    (item : ExecutionFill) : Prop :=
  ef_client_order_id item = lo_request_id request /\
  ef_exchange item = lo_exchange request /\
  ef_symbol item = lo_symbol request /\
  ef_side item = lo_side request /\
  since <= ef_executed_at item <= captured_at.

Definition open_order_matches (request : LiveOrderRequest) (since captured_at : Z)
    (item : LiveOpenOrder) : Prop :=
  oo_client_order_id item = lo_request_id request /\
  oo_exchange item = lo_exchange request /\
  oo_symbol item = lo_symbol request /\
  oo_side item = lo_side request /\
  oo_reduce_only item = lo_reduce_only request /\
  deqb (oo_quantity item) (lo_quantity request) = true /\
  since <= oo_created_at item <= captured_at.

#[export] Instance fill_matches_dec r a b i : Decision (fill_matches r a b i).
Proof. unfold fill_matches. apply _. Defined.
#[export] Instance open_order_matches_dec r a b i : Decision (open_order_matches r a b i).
Proof. unfold open_order_matches. apply _. Defined.

End Snapshot.

(** ** Operations *)

Section Gateway.
Context {C : DecimalContext} {D : Digest} {J : PreflightJson}.
Context {X R : Type} {B : BindingRepository R}.
Variable uuid4 : N -> string.
Variable self : GatewayConfig X R.

Abbreviation G := (LiveExecutionGateway X R).
Abbreviation settings := (gc_settings self).
Abbreviation adapter := (gc_adapter self).

(** [await] of an adapter method or a call of the sink. *)
Definition await {A} (m : M (X * R) A) : M G A :=
  pzoom (fun g => (gw_exchange g, gw_repository g)) gw_set_world m.

(** [_utc] *)
Definition gateway_utc (value : datetime) : result Z :=
  utc_or "execution timestamp must be timezone-aware" value.

Definition gw_audit (timestamp : Z) (event_type : string) (request_id : option string)
    (allowed : bool) (reason : string) (details : list (string * DetailValue)) : M G unit :=
  fun g =>
  let event := {|
    ea_event_id := uuid4 (gw_uuid_calls g); ea_timestamp := timestamp;
    ea_event_type := event_type; ea_request_id := request_id; ea_allowed := allowed;
    ea_reason := reason; ea_model_version := gc_model_version self;
    ea_config_version := gc_config_version self; ea_details := details |} in
  let g := gw_set_audit (gw_audit_events g ++ [event])%list (gw_uuid_calls g + 1)%N g in
  match gc_audit_sink self with
  | Some sink => await (sink event) g
  | None => (g, Ok tt)
  end.

(** [preflight_binding(signal_id)] *)
Definition binding_at (g : G) (signal_id : string) : PreflightBinding :=
  default (unbound_binding signal_id) (repo_get (gw_repository g) signal_id).

Definition preflight_binding (signal_id : string) : M G PreflightBinding :=
  fun g => (g, Ok (binding_at g signal_id)).

(** [_cas] *)
Definition cas (current binding : PreflightBinding) : M G bool := fun g =>
  let out := compare_and_set (pb_signal_id binding) (pb_version current) binding
               (gw_repository g) in
  (gw_set_world (gw_exchange g, out.1) g, Ok out.2).

Definition cas_conflict : string := "preflight binding CAS conflict".

(** [_transition]; [updates] sets the further fields. *)
Definition gw_transition (current : PreflightBinding) (state : PreflightBindingState)
    (timestamp : Z) (failure_reason : option string)
    (updates : PreflightBinding -> PreflightBinding) : M G unit :=
  do! ok <- cas current (updates (next_binding current state timestamp failure_reason));
  if ok then pret tt else praise (ExecutionAdapterError cas_conflict).

Definition order_details (request : LiveOrderRequest) : list (string * DetailValue) :=
  [("signal_id", DText (lo_signal_id request));
   ("risk_decision_id", DText (lo_risk_decision_id request));
   ("symbol", DText (lo_symbol request));
   ("reference_notional", DDecimal (reference_notional request))].

Definition rejected_ack (request : LiveOrderRequest) (timestamp : Z) (reason : string)
  : ExecutionOrderAck := {|
  ak_request_id := lo_request_id request; ak_external_order_id := None;
  ak_state := L_REJECTED; ak_accepted_at := timestamp; ak_reason := reason;
  ak_adapter_called := false |}.

Definition reject_and_remember (request : LiveOrderRequest) (timestamp : Z) (reason : string)
  : M G ExecutionOrderAck :=
  let receipt := rejected_ack request timestamp reason in
  run! pmodify (fun g => gw_set_receipts
         (dict_set (lo_idempotency_key request) receipt (gw_idempotent_receipts g))
         (gw_order_timestamps g) g);
  run! gw_audit timestamp "order_rejected" (Some (lo_request_id request)) false reason
         (order_details request);
  pret receipt.

Definition require_approved : M G unit :=
  if pr_approved (gc_preflight self) then pret tt
  else praise (RuntimeError "live preflight is not approved").

(** ** Validation of a request *)

(** The leg machine, if there is one, decides what to do about a changed
    preflight. *)
Definition note_preflight_change (preflight : CrossVenueExecutionPreflight) (timestamp : Z)
  : M G unit := fun g =>
  match gw_leg_execution_machine g with
  | None => (g, Ok tt)
  | Some m =>
      match handle_preflight_change (Aware timestamp) true (cp_pay_execution_health preflight)
              (cp_pay_available_collateral preflight) (cp_pay_fillable_quantity preflight)
              (cp_pay_expected_vwap preflight) true m with
      | (m, Ok action) => (gw_set_leg (Some m) (Some action) g, Ok tt)
      | (m, Err e) => (gw_set_leg (Some m) (gw_last_preflight_action g) g, Err e)
      end
  end.

(** The checks of the snapshot itself, up to the binding. *)
Definition preflight_snapshot_failure (request : LiveOrderRequest) (timestamp : Z)
    (receive_leg pay_leg : LegDataEvidence) : option string :=
  let preflight := lo_cross_venue_preflight request in
  match gc_cross_venue_preflight_service self with
  | None => Some "trusted cross-venue preflight service is unavailable"
  | Some service =>
      match verify service preflight timestamp with
      | Err e => Some ("trusted cross-venue preflight rejected snapshot: " +:+ error_text e)
      | Ok _ =>
          reject! bool_decide (cp_signal_id preflight <> lo_signal_id request)
            with "cross-venue execution preflight hash or signal is invalid";
          reject! bool_decide (cp_receive_venue preflight <> ld_venue receive_leg)
                  || bool_decide (cp_pay_venue preflight <> ld_venue pay_leg)
            with "cross-venue execution preflight venues do not match evidence";
          reject! negb ((cp_created_at preflight <=? timestamp)
                        && (timestamp <? cp_expires_at preflight))
            with "cross-venue execution preflight is stale or future-dated";
          reject! negb (cp_receive_execution_health preflight)
                  || negb (cp_pay_execution_health preflight)
            with "cross-venue execution preflight health check failed";
          reject! dleb (dmin (cp_receive_available_collateral preflight)
                          (cp_pay_available_collateral preflight)) 0
            with "cross-venue execution preflight collateral is insufficient";
          reject! dltb (dmin (cp_receive_fillable_quantity preflight)
                          (cp_pay_fillable_quantity preflight)) (lo_quantity request)
            with "cross-venue execution preflight fillable quantity is insufficient";
          None
      end
  end.

Definition preflight_hash_failure (request : LiveOrderRequest)
    (receive_leg pay_leg : LegDataEvidence) : option string :=
  let preflight := lo_cross_venue_preflight request in
  reject! bool_decide (cp_receive_capability_hash preflight <> ld_evidence_hash receive_leg)
          || bool_decide (cp_pay_capability_hash preflight <> ld_evidence_hash pay_leg)
    with "cross-venue preflight capability hashes do not match evidence";
  reject! bool_decide (cp_receive_source_event_hash preflight <> source_event_hash receive_leg)
          || bool_decide (cp_pay_source_event_hash preflight <> source_event_hash pay_leg)
    with "cross-venue preflight source event hashes do not match evidence";
  None.

Definition hash_conflict (request : LiveOrderRequest) (binding : option PreflightBinding)
  : bool :=
  match binding with
  | None => false
  | Some b =>
      negb (bool_decide (pb_state b ∈ [B_UNBOUND; B_ABORTED]))
      && bool_decide (pb_preflight_hash b <>
                      Some (cp_preflight_hash (lo_cross_venue_preflight request)))
  end.

Definition different_hashes : string := "cross-venue orders use different preflight hashes".

Definition validate_cross_venue_preflight (request : LiveOrderRequest) (timestamp : Z)
  : M G (option string) :=
  let evidence := lo_cross_venue_signal_evidence request in
  match cv_receive_leg evidence, cv_pay_leg evidence with
  | Some receive_leg, Some pay_leg =>
      match preflight_snapshot_failure request timestamp receive_leg pay_leg with
      | Some reason => pret (Some reason)
      | None =>
          fun g =>
          if hash_conflict request (repo_get (gw_repository g) (lo_signal_id request)) then
            (run! note_preflight_change (lo_cross_venue_preflight request) timestamp;
             pret (Some different_hashes)) g
          else (g, Ok (preflight_hash_failure request receive_leg pay_leg))
      end
  | _, _ => pret (Some "cross-venue execution preflight leg evidence is missing")
  end.

(** [while self._order_timestamps and self._order_timestamps[0] <= cutoff:
    popleft()] *)
Fixpoint drop_until (cutoff : Z) (timestamps : list Z) : list Z :=
  match timestamps with
  | t :: ts => if t <=? cutoff then drop_until cutoff ts else timestamps
  | [] => []
  end.

Definition check_rate_limit (timestamp : Z) : M G (option string) := fun g =>
  let kept := drop_until (timestamp - seconds 60) (gw_order_timestamps g) in
  (gw_set_receipts (gw_idempotent_receipts g) kept g,
   Ok (if live_maximum_orders_per_minute (st_live settings) <=? Z.of_nat (length kept)
       then Some "live order rate limit reached" else None)).

(** [_validate_request] *)
Definition validate_request (request : LiveOrderRequest) (timestamp : Z) (risk_allowed : bool)
    (risk_evaluated_at : Z) (preview : bool) (risk_decision_id : option string)
    (maximum_risk_quantity : option Decimal) : M G (option string) :=
  match validate_signal settings (gc_trusted_capability_registry self)
          (gc_source_event_repository self) (gc_preflight self) request timestamp preview with
  | Some reason => pret (Some reason)
  | None =>
      do! preflight_failure <- validate_cross_venue_preflight request timestamp;
      match preflight_failure with
      | Some reason => pret (Some reason)
      | None => fun g =>
          match validate_limits settings request timestamp risk_allowed risk_evaluated_at preview
                  risk_decision_id maximum_risk_quantity (gw_kill_switch_reason g) with
          | Some reason => (g, Ok (Some reason))
          | None => check_rate_limit timestamp g
          end
      end
  end.

Definition preview_order (request : LiveOrderRequest) (timestamp : datetime)
  : M G ExecutionOrderAck :=
  do! timestamp <- plift (gateway_utc timestamp);
  do! reason <- validate_request request timestamp true timestamp true None None;
  let receipt := {|
    ak_request_id := lo_request_id request; ak_external_order_id := None;
    ak_state := match reason with None => L_DRY_RUN | Some _ => L_REJECTED end;
    ak_accepted_at := timestamp;
    ak_reason := match reason with
                 | None => "dry-run preview accepted; adapter not called"
                 | Some r => if bool_decide (r = EmptyString) then "rejected" else r
                 end;
    ak_adapter_called := false |} in
  run! gw_audit timestamp "order_preview" (Some (lo_request_id request))
         (match reason with None => true | Some _ => false end) (ak_reason receipt) [];
  pret receipt.

(** ** Moving a binding *)

(** [_reserve_preflight] *)
Definition submit_second_leg (current : PreflightBinding) (request : LiveOrderRequest)
    (timestamp : Z) : M G (option string) :=
  do! ok <- cas current (set_second_request (lo_request_id request)
              (next_binding current B_SECOND_LEG_SUBMITTED timestamp None));
  pret (if ok then None else Some cas_conflict).

Definition reserve_preflight (request : LiveOrderRequest) (timestamp : Z)
  : M G (option string) :=
  do! current <- preflight_binding (lo_signal_id request);
  let preflight_hash := cp_preflight_hash (lo_cross_venue_preflight request) in
  if bool_decide (pb_state current ∈ [B_UNBOUND; B_ABORTED]) then
    match lo_preflight_recovery_action request with
    | Some _ => pret (Some "recovery action is invalid without unmatched exposure")
    | None =>
        let binding := new_binding (lo_signal_id request) preflight_hash B_RESERVED timestamp in
        let binding :=
          if bool_decide (pb_state current = B_ABORTED)
          then set_version (pb_version current + 1) (pb_created_at current) binding
          else binding in
        do! ok <- cas current binding;
        pret (if ok then None else Some cas_conflict)
    end
  else if bool_decide (pb_preflight_hash current <> Some preflight_hash)
  then pret (Some different_hashes)
  else
    match pb_state current with
    | B_FIRST_LEG_ACCEPTED =>
        if bool_decide (pb_first_leg_role current = Some (lo_order_leg_role request))
        then pret (Some "cross-venue second order must use the opposite leg role")
        else match lo_preflight_recovery_action request with
             | Some _ => pret (Some "recovery action is invalid before a hedge failure")
             | None => submit_second_leg current request timestamp
             end
    | B_HEDGING_REQUIRED =>
        if hedging_operation_allowed current request
        then submit_second_leg current request timestamp
        else pret (Some
          "hedging-required binding only permits retry, hedge, unwind, or manual halt")
    | B_COMPLETED => pret (Some "cross-venue preflight binding is already completed")
    | B_RECONCILIATION_REQUIRED =>
        pret (Some "cross-venue preflight binding requires reconciliation")
    | B_HALTED => pret (Some "cross-venue preflight binding is halted")
    | state => pret (Some ("cross-venue preflight binding is " +:+ binding_state_value state))
    end.

(** [_abort_preflight] *)
Definition abort_preflight (request : LiveOrderRequest) (timestamp : Z) (reason : string)
  : M G unit :=
  do! current <- preflight_binding (lo_signal_id request);
  gw_transition current B_ABORTED timestamp (Some reason) id.

(** [_record_preflight_ack] *)
Definition record_preflight_ack (request : LiveOrderRequest) (receipt : ExecutionOrderAck)
    (timestamp : Z) : M G unit :=
  do! current <- preflight_binding (lo_signal_id request);
  if bool_decide (ak_state receipt <> L_ACCEPTED) then
    gw_transition current
      (if bool_decide (pb_state current = B_SECOND_LEG_SUBMITTED)
       then B_HEDGING_REQUIRED else B_ABORTED)
      timestamp (Some (ak_reason receipt)) id
  else if bool_decide (pb_state current = B_SECOND_LEG_SUBMITTED) then
    gw_transition current B_COMPLETED timestamp None
      (set_second_external (ak_external_order_id receipt))
  else
    gw_transition current B_FIRST_LEG_ACCEPTED timestamp None
      (set_first_leg (lo_order_leg_role request) (lo_request_id request)
         (ak_external_order_id receipt)).

(** [_mark_reconciliation_required] *)
Definition mark_reconciliation_required (request : LiveOrderRequest) (timestamp : Z)
    (reason : string) : M G unit :=
  do! current <- preflight_binding (lo_signal_id request);
  match pb_state current with
  | B_RESERVED =>
      gw_transition current B_RECONCILIATION_REQUIRED timestamp (Some reason)
        (set_first_request (lo_request_id request))
  | B_SECOND_LEG_SUBMITTED =>
      gw_transition current B_RECONCILIATION_REQUIRED timestamp (Some reason)
        (set_second_request (lo_request_id request))
  | _ => pret tt
  end.

(** [_record_position_snapshot] *)
Definition record_position_snapshot (request : LiveOrderRequest) (timestamp : Z)
    (quantity_before : Decimal) : M G unit :=
  do! current <- preflight_binding (lo_signal_id request);
  do! s <- plift (PositionReconciliationSnapshot_new (lo_exchange request) (lo_symbol request)
                    quantity_before (Aware timestamp));
  gw_transition current (pb_state current) timestamp None (set_position (Some s) None).

(** [_refresh_binding_and_exchange_state] *)
Definition refresh_binding_and_exchange_state (request : LiveOrderRequest) (captured_at : Z)
  : M G ExchangeReconciliationSnapshot :=
  do! binding <- preflight_binding (lo_signal_id request);
  let since := since_of binding request in
  do! fills <- await (ad_fetch_recent_fills adapter (lo_symbol request) since);
  do! client_order <- await (ad_lookup_order_by_client_id adapter (lo_request_id request));
  do! open_orders <- await (ad_fetch_open_orders adapter (Some (lo_symbol request)));
  do! positions <- await (ad_fetch_positions adapter);
  pret {|
    xs_binding := binding; xs_client_order := client_order;
    xs_matching_fills := filter (fill_matches request since captured_at) fills;
    xs_matching_open_orders := filter (open_order_matches request since captured_at) open_orders;
    xs_positions := positions; xs_captured_at := captured_at |}.

(** [_ensure_reconciliation_required] *)
Definition ensure_reconciliation_required (request : LiveOrderRequest)
    (current : PreflightBinding) (timestamp : Z) (reason : string) : M G PreflightBinding :=
  do! latest <- preflight_binding (lo_signal_id request);
  let current := if pb_version latest =? pb_version current then current else latest in
  match pb_state current with
  | B_RECONCILIATION_REQUIRED => pret current
  | B_UNBOUND | B_ABORTED =>
      let binding :=
        set_position (pb_position_snapshot current) (Some reason)
          (set_first_request (lo_request_id request)
             (set_version (pb_version current + 1)
                (Some (default timestamp (pb_created_at current)))
                (new_binding (lo_signal_id request)
                   (cp_preflight_hash (lo_cross_venue_preflight request))
                   B_RECONCILIATION_REQUIRED timestamp))) in
      do! ok <- cas current binding;
      if ok then preflight_binding (lo_signal_id request)
      else praise (ExecutionAdapterError cas_conflict)
  | B_RESERVED =>
      run! gw_transition current B_RECONCILIATION_REQUIRED timestamp (Some reason)
             (set_first_request (lo_request_id request));
      preflight_binding (lo_signal_id request)
  | B_SECOND_LEG_SUBMITTED =>
      run! gw_transition current B_RECONCILIATION_REQUIRED timestamp (Some reason)
             (set_second_request (lo_request_id request));
      preflight_binding (lo_signal_id request)
  | _ => pret current
  end.

(** [_apply_reconciliation_snapshot] *)
Definition apply_reconciliation_snapshot (request : LiveOrderRequest)
    (s : ExchangeReconciliationSnapshot) (timestamp : Z) : M G unit :=
  do! current <- preflight_binding (lo_signal_id request);
  if negb (bool_decide (pb_state current = B_RECONCILIATION_REQUIRED))
  then praise (ExecutionAdapterError "binding changed during reconciliation")
  else if snapshot_is_ambiguous request s then
    gw_transition current B_HALTED timestamp (Some "exchange reconciliation is ambiguous") id
  else
    let second_leg :=
      bool_decide (pb_second_order_request_id current = Some (lo_request_id request)) in
    if snapshot_proves_order_exists request s then
      let external := snapshot_external_order_id request s in
      if second_leg
      then gw_transition current B_COMPLETED timestamp None (set_second_external external)
      else gw_transition current B_FIRST_LEG_ACCEPTED timestamp None
             (set_first_leg (lo_order_leg_role request) (lo_request_id request) external)
    else if snapshot_proves_order_absent request s then
      gw_transition current (if second_leg then B_HEDGING_REQUIRED else B_ABORTED) timestamp
        (Some "exchange reconciliation found no submitted order") id
    else
      gw_transition current B_HALTED timestamp
        (Some "exchange reconciliation could not determine order state") id.

(** [_handle_cas_snapshot]: whether the reservation can be retried. *)
Definition handle_cas_snapshot (request : LiveOrderRequest)
    (s : ExchangeReconciliationSnapshot) (timestamp : Z) : M G bool :=
  if snapshot_proves_order_exists request s then
    do! current <- ensure_reconciliation_required request (xs_binding s) timestamp
                     "CAS conflict found an existing exchange order";
    run! (if bool_decide (pb_state current = B_RECONCILIATION_REQUIRED)
          then apply_reconciliation_snapshot request (with_binding current s) timestamp
          else pret tt);
    pret false
  else if snapshot_is_ambiguous request s then
    do! current <- ensure_reconciliation_required request (xs_binding s) timestamp
                     "CAS conflict exchange state is ambiguous";
    run! (if bool_decide (pb_state current = B_RECONCILIATION_REQUIRED)
          then gw_transition current B_HALTED timestamp
                 (Some "CAS conflict exchange state is ambiguous") id
          else pret tt);
    pret false
  else if bool_decide (pb_state (xs_binding s) ∈ [B_UNBOUND; B_ABORTED])
          && snapshot_proves_order_absent request s
  then pret true
  else
    do! _ <- ensure_reconciliation_required request (xs_binding s) timestamp
               "CAS conflict requires exchange reconciliation";
    pret false.

(** [reconcile_binding] *)
Definition reconcile_binding (request : LiveOrderRequest) (timestamp : datetime)
  : M G PreflightBinding :=
  do! timestamp <- plift (gateway_utc timestamp);
  do! current <- preflight_binding (lo_signal_id request);
  if negb (bool_decide (pb_state current = B_RECONCILIATION_REQUIRED))
  then praise (ValueError "preflight binding does not require reconciliation")
  else
    do! s <- ptry (do! s <- refresh_binding_and_exchange_state request timestamp;
                   pret (Return s))
               (fun exc =>
                  run! gw_transition current B_HALTED timestamp
                         (Some ("reconciliation failed: " +:+ exn_name exc)) id;
                  pret Continue);
    run! match s with
         | Return s => apply_reconciliation_snapshot request s timestamp
         | Continue => pret tt
         end;
    preflight_binding (lo_signal_id request).

Definition halt_binding (signal_id reason : string) (timestamp : datetime)
  : M G PreflightBinding :=
  do! current <- preflight_binding signal_id;
  if negb (bool_decide (pb_state current ∈ [B_HEDGING_REQUIRED; B_RECONCILIATION_REQUIRED]))
  then praise (ValueError "only recovery-required bindings may be halted")
  else
    do! timestamp <- plift (gateway_utc timestamp);
    run! gw_transition current B_HALTED timestamp (Some reason) id;
    preflight_binding signal_id.

(** ** Placing an order *)

(** How far [_place_order_locked] had got when an exception reached its
    handler: [reserved] and [submission_started]. *)
Inductive phase := NotReserved | Reserved | SubmissionStarted.

Definition place_error {A} (p : phase) (request : LiveOrderRequest) (timestamp : Z) (exc : exn)
  : M G A :=
  run! match p with
       | NotReserved => pret tt
       | Reserved => abort_preflight request timestamp (exn_name exc)
       | SubmissionStarted => mark_reconciliation_required request timestamp (exn_name exc)
       end;
  run! gw_audit timestamp "adapter_error" (Some (lo_request_id request)) false (exn_name exc) [];
  praise (ExecutionAdapterError "execution adapter failed; details retained internally").

Definition returning {A} (m : M G A) : M G (flow A) := do! a <- m; pret (Return a).

(** The block up to [reserved = True].  [retry] is the call with
    [cas_retry=True], absent inside that call. *)
Definition place_reserve (retry : option (M G ExecutionOrderAck)) (request : LiveOrderRequest)
    (timestamp : Z) : M G (flow ExecutionOrderAck) :=
  do! healthy <- await (ad_health_check adapter);
  if negb healthy
  then returning (reject_and_remember request timestamp "adapter health check failed")
  else
    do! reservation_failure <- reserve_preflight request timestamp;
    match reservation_failure with
    | None => pret Continue
    | Some failure =>
        match retry with
        | Some retry =>
            if bool_decide (failure = cas_conflict) then
              do! s <- ptry (do! s <- refresh_binding_and_exchange_state request timestamp;
                             pret (Return s))
                         (fun _ => pret Continue);
              match s with
              | Continue =>
                  returning (reject_and_remember request timestamp
                    "preflight binding CAS conflict and exchange refresh failed")
              | Return s =>
                  do! retried <- handle_cas_snapshot request s timestamp;
                  if (retried : bool) then returning retry
                  else returning (reject_and_remember request timestamp
                         "preflight binding CAS conflict requires reconciliation")
              end
            else returning (reject_and_remember request timestamp failure)
        | None => returning (reject_and_remember request timestamp failure)
        end
    end.

(** [next((item for item in positions if ...), None)] *)
Definition position_of (request : LiveOrderRequest) (positions : list LivePosition)
  : option LivePosition :=
  head (filter (fun item => lp_exchange item = lo_exchange request /\
                            lp_symbol item = lo_symbol request) positions).

(** A reduce-only order must close part of an open position: the failure
    recorded in the binding and the reason of the rejection. *)
Definition reduce_only_failure (request : LiveOrderRequest) (position : option LivePosition)
  : option (string * string) :=
  if negb (lo_reduce_only request) then None
  else match position with
       | None => Some ("reduce-only position is absent", "reduce-only order has no open position")
       | Some p =>
           if deqb (lp_quantity p) 0 then
             Some ("reduce-only position is absent", "reduce-only order has no open position")
           else
             let closes_long := dltb 0 (lp_quantity p) && negb (is_buy (lo_side request)) in
             let closes_short := dltb (lp_quantity p) 0 && is_buy (lo_side request) in
             if negb (closes_long || closes_short) then
               Some ("reduce-only side increases exposure",
                     "reduce-only side would increase exposure")
             else if dltb (dabs (lp_quantity p)) (lo_quantity request) then
               Some ("reduce-only quantity is excessive",
                     "reduce-only quantity exceeds open position")
             else None
       end.

(** The block from [reserved = True] to [submission_started = True]. *)
Definition place_precheck (request : LiveOrderRequest) (timestamp : Z)
  : M G (flow ExecutionOrderAck) :=
  do! open_orders <- await (ad_fetch_open_orders adapter None);
  if live_maximum_open_orders (st_live settings) <=? Z.of_nat (length open_orders) then
    run! abort_preflight request timestamp "maximum open order count reached";
    returning (reject_and_remember request timestamp "maximum open order count reached")
  else
    do! positions <- await (ad_fetch_positions adapter);
    let position := position_of request positions in
    run! record_position_snapshot request timestamp
           (match position with Some p => lp_quantity p | None => 0%Q end);
    match reduce_only_failure request position with
    | Some (failure, reason) =>
        run! abort_preflight request timestamp failure;
        returning (reject_and_remember request timestamp reason)
    | None => pret Continue
    end.

(** [_record_preflight_ack], and the recovery from a lost compare-and-set. *)
Definition recover_ack (request : LiveOrderRequest) (receipt : ExecutionOrderAck)
    (timestamp : Z) : M G unit := fun g =>
  match record_preflight_ack request receipt timestamp g with
  | (g, Err (ExecutionAdapterError msg)) =>
      (do! s <- refresh_binding_and_exchange_state request timestamp;
       do! _ <- handle_cas_snapshot request s timestamp;
       do! reconciled <- preflight_binding (lo_signal_id request);
       if bool_decide (pb_state reconciled ∈ [B_FIRST_LEG_ACCEPTED; B_COMPLETED])
       then pret tt else praise (ExecutionAdapterError msg)) g
  | out => out
  end.

(** What follows the adapter's receipt. *)
Definition place_acknowledge (request : LiveOrderRequest) (receipt : ExecutionOrderAck)
    (timestamp : Z) : M G ExecutionOrderAck :=
  if bool_decide (ak_request_id receipt <> lo_request_id request) then
    run! mark_reconciliation_required request timestamp "adapter request id mismatch";
    run! gw_audit timestamp "adapter_protocol_error" (Some (lo_request_id request)) false
           "request mismatch" [];
    praise (ExecutionAdapterError "execution adapter returned a mismatched request id")
  else
    run! recover_ack request receipt timestamp;
    run! pmodify (fun g => gw_set_receipts
           (dict_set (lo_idempotency_key request) receipt (gw_idempotent_receipts g))
           (gw_order_timestamps g ++ [timestamp])%list g);
    run! gw_audit timestamp "order_acknowledged" (Some (lo_request_id request))
           (bool_decide (ak_state receipt = L_ACCEPTED)) (ak_reason receipt)
           (("external_order_id",
             DText (default EmptyString (ak_external_order_id receipt)))
            :: order_details request);
    pret receipt.

(** From the adapter's health check on. *)
Definition place_submit (retry : option (M G ExecutionOrderAck)) (request : LiveOrderRequest)
    (timestamp : Z) : M G ExecutionOrderAck :=
  do! o <- ptry (place_reserve retry request timestamp)
             (place_error NotReserved request timestamp);
  match o with
  | Return receipt => pret receipt
  | Continue =>
      do! o <- ptry (place_precheck request timestamp) (place_error Reserved request timestamp);
      match o with
      | Return receipt => pret receipt
      | Continue =>
          do! receipt <- ptry (await (ad_place_order adapter request))
                           (place_error SubmissionStarted request timestamp);
          place_acknowledge request receipt timestamp
      end
  end.

(** [_place_order_locked] at a normalised time. *)
Definition place_attempt (retry : option (M G ExecutionOrderAck)) (request : LiveOrderRequest)
    (risk_decision : RiskDecision) (timestamp : Z) : M G ExecutionOrderAck := fun g =>
  match dict_get (lo_idempotency_key request) (gw_idempotent_receipts g) with
  | Some previous =>
      (run! gw_audit timestamp "idempotent_replay" (Some (lo_request_id request))
              (bool_decide (ak_state previous = L_ACCEPTED))
              "returned prior receipt without calling adapter" [];
       pret previous) g
  | None =>
      (do! reason <- validate_request request timestamp
                       (allowed risk_decision || lo_reduce_only request)
                       (evaluated_at risk_decision) false (Some (decision_id risk_decision))
                       (option_map z_quantity (sizing risk_decision));
       match reason with
       | Some reason => reject_and_remember request timestamp reason
       | None => place_submit retry request timestamp
       end) g
  end.

Definition place_order (request : LiveOrderRequest) (risk_decision : RiskDecision)
    (timestamp : datetime) : M G ExecutionOrderAck :=
  do! timestamp <- plift (gateway_utc timestamp);
  place_attempt (Some (place_attempt None request risk_decision timestamp))
    request risk_decision timestamp.

(** ** The other operations *)

Definition cancel_order (external_order_id : string) (timestamp : datetime) : M G CancelAck :=
  do! timestamp <- plift (gateway_utc timestamp);
  run! require_approved;
  do! result <- ptry (await (ad_cancel_order adapter external_order_id)) (fun exc =>
    run! gw_audit timestamp "cancel_error" (Some external_order_id) false (exn_name exc) [];
    praise (ExecutionAdapterError "cancel failed; details retained internally"));
  run! gw_audit timestamp "order_canceled" (Some external_order_id) (ca_canceled result)
         (ca_reason result) [];
  pret result.

Definition activate_kill_switch (reason : string) (timestamp : datetime)
  : M G (list CancelAck) :=
  do! timestamp <- plift (gateway_utc timestamp);
  if bool_decide (strip reason = EmptyString)
  then praise (ValueError "kill-switch reason is required")
  else
    run! pmodify (gw_set_kill_switch (Some reason));
    run! gw_audit timestamp "kill_switch" None false reason [];
    if negb (pr_approved (gc_preflight self)) then pret []
    else ptry (await (ad_cancel_all_orders adapter)) (fun exc =>
           run! gw_audit timestamp "cancel_all_error" None false (exn_name exc) [];
           praise (ExecutionAdapterError "cancel-all failed; manual intervention required")).

Definition close_position (symbol : string) (timestamp : datetime) : M G ExecutionOrderAck :=
  do! timestamp <- plift (gateway_utc timestamp);
  run! require_approved;
  if negb (bool_decide (symbol ∈ live_allowed_symbols (st_live settings)))
  then praise (ValueError "position symbol is not live-allowed")
  else
    do! result <- ptry (await (ad_close_position adapter symbol)) (fun exc =>
      run! gw_audit timestamp "close_error" (Some symbol) false (exn_name exc) [];
      praise (ExecutionAdapterError "close-position failed; manual intervention required"));
    run! gw_audit timestamp "position_close" (Some (ak_request_id result)) true
           (ak_reason result) [];
    pret result.

End Gateway.

(** ** Construction *)

Definition RECONCILIATION_CAPABILITIES : list (string * string) :=
  [("lookup_order_by_client_id", "order_lookup_by_client_id");
   ("fetch_recent_fills", "recent_fills"); ("fetch_open_orders", "open_orders");
   ("fetch_positions", "positions")].

Section Construction.
Context {X R : Type} {B : BindingRepository R}.

(** [_validate_reconciliation_startup]; [now] is the wall clock.  Every adapter
    has the methods the loop looks up. *)
Definition validate_reconciliation_startup (self : GatewayConfig X R) (now : Z) : result unit :=
  if negb (is_concrete (gc_adapter self)) then Ok tt
  else match gc_trusted_capability_registry self with
       | None => Err (ValueError "live execution requires a trusted capability registry")
       | Some registry =>
           fold_left (fun acc mc =>
             let! _ := acc in
             match require_live_verified registry (adapter_name (gc_adapter self)) mc.2 now "*" with
             | Ok _ => Ok tt
             | Err e => Err (ValueError ("reconciliation capability " +:+ mc.2 +:+
                               " is not LIVE_VERIFIED: " +:+ error_text e))
             end) RECONCILIATION_CAPABILITIES (Ok tt)
       end.

(** [__init__], with the repository it is given or the default one. *)
Definition LiveExecutionGateway_new (self : GatewayConfig X R) (repository : R)
    (leg_execution_machine : option LegExecutionMachine) (exchange : X) (now : Z)
  : result (LiveExecutionGateway X R) :=
  let! _ :=
    if live_enabled (st_live (gc_settings self)) then
      require! durable repository
        else ValueError "live execution requires a durable preflight binding repository";
      validate_reconciliation_startup self now
    else Ok tt in
  let! _ := validate_preflight_integrity (gc_settings self) (gc_preflight self)
              (is_concrete (gc_adapter self)) (adapter_name (gc_adapter self)) in
  Ok {| gw_kill_switch_reason := None; gw_audit_events := []; gw_idempotent_receipts := [];
        gw_order_timestamps := []; gw_leg_execution_machine := leg_execution_machine;
        gw_last_preflight_action := None; gw_uuid_calls := 0%N; gw_exchange := exchange;
        gw_repository := repository |}.

End Construction.
