(* ===== verification/GatewaySample.v ===== *)
(** * A concrete gateway: a deployment with two venues, an adapter that records
      the orders it is given, and a request that passes every check.  The
      witnesses of the gateway's theorems run on it. *)

From Stdlib Require Import ZArith QArith Lia.
From stdpp Require Import base tactics list strings gmap.
From S2P Require Import Prelude Decimals ExecutionModels RiskModels Venues Evidence LiveModels.
From S2P Require Import LivePreflight Bindings GatewayChecks Gateway.

Local Open Scope string_scope.
Local Open Scope Z_scope.

(** A stand-in for the digests: any functions will do. *)
Definition sample_digest : Digest := {|
  sha256_hex := fun s => "sha256:" +:+ s;
  hmac_hex := fun k s => "hmac:" +:+ k +:+ s;
  json_signal := fun caps => join "," (map ce_capability caps);
  json_leg := fun role venue caps => role +:+ "@" +:+ venue +:+ join "," (map ce_capability caps);
  json_cross := fun sid _ _ => sid |}.
Definition sample_json : PreflightJson := fun p => cp_signal_id p +:+ cp_issuer_id p.

(** The time of the sample order, in microseconds. *)
Definition sample_now : Z := 1700000000000000.

Definition sample_event (venue ty : string) : SourceEventEvidence := {|
  se_event_id := venue +:+ ":" +:+ ty; se_venue := venue; se_symbol := "BTC";
  se_event_type := ty; se_exchange_timestamp := None; se_received_at := sample_now;
  se_available_at := sample_now; se_payload_sha256 := zeros 64 EmptyString;
  se_sequence := Some 7; se_connection_id := None;
  se_reconciliation_state := Some R_SYNCHRONIZED; se_data_quality_score := 1%Q |}.

Definition sample_capability (venue name : string) : CapabilityEvidence := {|
  ce_venue := venue; ce_capability := name; ce_use_case := NEW_EXPOSURE;
  ce_support := LIVE_VERIFIED; ce_verified_at := sample_now;
  ce_verification_run_id := "run-1"; ce_source_events := [sample_event venue name];
  ce_adapter_version := "a1"; ce_source_version := "s1"; ce_contract_fixture_sha256 := "f1";
  ce_audit_run_id := "audit-1" |}.

Definition sample_leg (role venue : string) : LegDataEvidence :=
  @leg_build sample_digest role venue
    (map (sample_capability venue) FUNDING_CARRY_REQUIRED_CAPABILITIES).

Definition receive_leg : LegDataEvidence := sample_leg "receive_leg" "hyperliquid".
Definition pay_leg : LegDataEvidence := sample_leg "pay_leg" "bitget".

Definition sample_evidence : CrossVenueSignalEvidence :=
  @cross_build sample_digest "signal-0001" (Some receive_leg) (Some pay_leg).

Definition sample_record (venue name : string) : TrustedCapabilityRecord := {|
  tc_venue := venue; tc_capability := name; tc_support := LIVE_VERIFIED;
  tc_verification_run_id := "run-1"; tc_verified_at := sample_now;
  tc_expires_at := sample_now + seconds 3600; tc_adapter_version := "a1";
  tc_source_version := "s1"; tc_contract_fixture_sha256 := "f1"; tc_audit_run_id := "audit-1";
  tc_canonical_instrument_id := "*" |}.

Definition sample_records : list TrustedCapabilityRecord :=
  (map (sample_record "hyperliquid") FUNDING_CARRY_REQUIRED_CAPABILITIES
   ++ map (sample_record "bitget") FUNDING_CARRY_REQUIRED_CAPABILITIES)%list.

Definition sample_registry : option TrustedCapabilityRegistry :=
  ok_value (TrustedCapabilityRegistry_new sample_records).

Definition sample_events : list (string * StoredSourceEvent) :=
  map (fun e => (se_event_id e, e))
    (flat_map (fun l => flat_map ce_source_events (ld_capabilities l)) [receive_leg; pay_leg]).

Definition sample_service : CrossVenuePreflightService := {|
  ps_issuer_id := "issuer"; ps_signing_key := "key"; ps_commit_sha := "commit" |}.

Definition sample_values : CrossVenueExecutionPreflight := {|
  cp_issuer_id := EmptyString; cp_issued_at := sample_now; cp_commit_sha := EmptyString;
  cp_snapshot_ids := ["snap-1"]; cp_signal_id := "signal-0001";
  cp_receive_venue := "hyperliquid"; cp_pay_venue := "bitget";
  cp_canonical_instrument_id := "BTC-PERP";
  cp_receive_capability_hash := ld_evidence_hash receive_leg;
  cp_pay_capability_hash := ld_evidence_hash pay_leg;
  cp_receive_source_event_hash := @source_event_hash sample_digest receive_leg;
  cp_pay_source_event_hash := @source_event_hash sample_digest pay_leg;
  cp_receive_execution_health := true; cp_pay_execution_health := true;
  cp_receive_available_collateral := 1000; cp_pay_available_collateral := 1000;
  cp_receive_fillable_quantity := 10; cp_pay_fillable_quantity := 10;
  cp_receive_expected_vwap := 50; cp_pay_expected_vwap := 50;
  cp_maximum_naked_exposure_duration_ms := 5000; cp_created_at := sample_now;
  cp_expires_at := sample_now + seconds 60; cp_preflight_hash := EmptyString;
  cp_signature := EmptyString |}.

Definition sample_preflight : CrossVenueExecutionPreflight :=
  default sample_values
    (ok_value (@issue sample_digest sample_json sample_service sample_values)).

(** An order of one unit for a leg of the signal. *)
Definition sample_request (id role : string) (leg : LegDataEvidence) (side : Side)
  : LiveOrderRequest := {|
  lo_request_id := "request-" +:+ id; lo_idempotency_key := "idempotency-key-" +:+ id;
  lo_signal_id := "signal-0001"; lo_strategy_id := "funding_carry"; lo_strategy_version := "1";
  lo_cross_venue_signal_evidence := sample_evidence;
  lo_cross_venue_signal_hash := cv_evidence_hash sample_evidence;
  lo_order_leg_role := role; lo_order_leg_evidence := leg;
  lo_cross_venue_preflight := sample_preflight; lo_preflight_recovery_action := None;
  lo_required_capabilities := FUNDING_CARRY_REQUIRED_CAPABILITIES;
  lo_risk_decision_id := "decision-1"; lo_model_version := "m1"; lo_config_version := "c1";
  lo_exchange := ld_venue leg; lo_symbol := "BTC"; lo_side := side; lo_quantity := 1;
  lo_reference_price := 50; lo_maximum_slippage_bps := 10; lo_order_type := MARKET;
  lo_limit_price := None; lo_reduce_only := false; lo_created_at := sample_now;
  lo_expires_at := sample_now + seconds 30 |}.

Definition first_request : LiveOrderRequest :=
  sample_request "0001" "receive_leg" receive_leg SELL.
Definition second_request : LiveOrderRequest :=
  sample_request "0002" "pay_leg" pay_leg BUY.
Definition repeated_request : LiveOrderRequest :=
  sample_request "0003" "receive_leg" receive_leg SELL.

Definition sample_decision : RiskDecision := {|
  decision_id := "decision-1"; allowed := true; reasons := [];
  sizing := Some {| accepted := true; z_quantity := 2; z_notional := 100; risk_amount := 1;
                    binding_constraint := "risk"; candidate_notionals := [];
                    z_reason := Text "accepted" |};
  evaluated_at := sample_now; breaker_reasons := [] |}.

Definition sample_venue : VenueSettings := {|
  vs_data_enabled := true; vs_execution_enabled := true; vs_eligibility_status := ENABLED;
  vs_jurisdiction := "JP"; vs_terms_checked_at := sample_now; vs_terms_version := None;
  vs_operator_account_verified := true; vs_api_market_data_available := true;
  vs_api_execution_available := true; vs_deposits_available := true;
  vs_withdrawals_available := true; vs_execution_smoke_test_passed := true;
  vs_requires_location_evasion := false; vs_reason := "verified" |}.

Definition sample_settings : Settings := {|
  st_environment := "production"; st_symbols := ["BTC"]; st_paper_trading := false;
  st_live_trading := true; st_dry_run := false;
  st_live_confirmation := Some LIVE_CONFIRMATION; st_exchange_api_key := Some "k";
  st_exchange_api_secret := Some "s"; st_stale_data_seconds := 30; st_paper_enabled := false;
  st_live := {|
    live_enabled := true; live_adapter_name := "hyperliquid"; live_allowed_symbols := ["BTC"];
    live_maximum_order_notional := 100; live_maximum_open_orders := 3;
    live_maximum_orders_per_minute := 5; live_maximum_clock_skew_seconds := 2;
    live_preflight_ttl_seconds := 30; live_capability_verification_max_age_seconds := 3600;
    live_source_event_max_age_seconds := 30; live_minimum_data_quality := (9 # 10);
    live_withdrawal_permission_confirmed_disabled := true |};
  st_exchanges :=
    [{| es_name := "hyperliquid"; es_data_enabled := true; es_execution_enabled := true |};
     {| es_name := "bitget"; es_data_enabled := true; es_execution_enabled := true |}];
  st_venues := [("hyperliquid", sample_venue); ("bitget", sample_venue)] |}.

Definition sample_context : LivePreflightContext := {|
  pc_timestamp := sample_now; pc_operator_confirmation := RUNTIME_CONFIRMATION;
  pc_adapter_name := "hyperliquid"; pc_adapter_is_concrete := true; pc_adapter_healthy := true;
  pc_data_quality_score := 1; pc_websocket_connected := true; pc_clock_skew_seconds := 0;
  pc_kill_switch_active := false; pc_paper_validation_passed := true;
  pc_out_of_sample_validation_passed := true |}.

(** The exchange: the requests it was given, and the orders it has open. *)
Record SampleExchange := {
  sx_sent : list LiveOrderRequest;
  sx_open : list LiveOpenOrder;
}.

Abbreviation SampleWorld := (SampleExchange * InMemoryPreflightBindingRepository)%type.

Definition sample_ack (rq : LiveOrderRequest) : ExecutionOrderAck := {|
  ak_request_id := lo_request_id rq; ak_external_order_id := Some "x-1";
  ak_state := L_ACCEPTED; ak_accepted_at := sample_now; ak_reason := "accepted";
  ak_adapter_called := true |}.

Definition sample_place (rq : LiveOrderRequest) : M SampleWorld ExecutionOrderAck :=
  fun w => (({| sx_sent := sx_sent w.1 ++ [rq]; sx_open := sx_open w.1 |}, w.2),
            Ok (sample_ack rq)).

Definition sample_adapter : ExecutionAdapter SampleExchange InMemoryPreflightBindingRepository := {|
  adapter_name := "hyperliquid"; is_concrete := true;
  ad_place_order := sample_place;
  ad_cancel_order := fun i => pret {| ca_external_order_id := i; ca_canceled := true;
                                      ca_timestamp := sample_now; ca_reason := "canceled" |};
  ad_cancel_all_orders := pret [];
  ad_fetch_open_orders := fun _ w => (w, Ok (sx_open w.1));
  ad_fetch_positions := pret [];
  ad_fetch_recent_fills := fun _ _ => pret [];
  ad_lookup_order_by_client_id := fun _ => pret None;
  ad_close_position := fun _ => praise (OtherError "NotImplementedError");
  ad_health_check := pret true |}.

Definition sample_config : GatewayConfig SampleExchange InMemoryPreflightBindingRepository := {|
  gc_settings := sample_settings; gc_adapter := sample_adapter;
  gc_preflight := evaluate_live_preflight sample_settings sample_context;
  gc_source_event_repository := Some (fun i => dict_get i sample_events);
  gc_trusted_capability_registry := sample_registry; gc_audit_sink := None;
  gc_model_version := "m1"; gc_config_version := "c1";
  gc_cross_venue_preflight_service := Some sample_service |}.

Abbreviation SampleGateway :=
  (LiveExecutionGateway SampleExchange InMemoryPreflightBindingRepository).

Definition sample_gateway : SampleGateway := {|
  gw_kill_switch_reason := None; gw_audit_events := []; gw_idempotent_receipts := [];
  gw_order_timestamps := []; gw_leg_execution_machine := None; gw_last_preflight_action := None;
  gw_uuid_calls := 0%N; gw_exchange := {| sx_sent := []; sx_open := [] |};
  gw_repository := {| im_bindings := ∅ |} |}.

Definition sample_uuid4 (n : N) : string := "event-" +:+ digits n.

Definition sample_place_order (rq : LiveOrderRequest) : M SampleGateway ExecutionOrderAck :=
  @place_order default_context sample_digest sample_json _ _ _ sample_uuid4 sample_config rq
    sample_decision (Aware sample_now).

(** The exchange opens further orders of its own. *)
Definition with_open_orders (n : nat) (g : SampleGateway) : SampleGateway :=
  gw_set_world
    ({| sx_sent := sx_sent (gw_exchange g);
        sx_open := repeat {|
          oo_client_order_id := "other"; oo_external_order_id := "x"; oo_exchange := "bitget";
          oo_symbol := "ETH"; oo_side := BUY; oo_quantity := 1; oo_filled_quantity := 0;
          oo_price := 1; oo_reduce_only := false; oo_created_at := 0 |} n |},
     gw_repository g) g.

(** The sample orders pass: the first leg is accepted, the second completes the
    binding. *)
Example sample_orders_pass :
  let g1 := (sample_place_order first_request sample_gateway).1 in
  let g2 := (sample_place_order second_request g1).1 in
  is_ok (sample_place_order first_request sample_gateway).2 = true /\
  map lo_request_id (sx_sent (gw_exchange g2)) = ["request-0001"; "request-0002"] /\
  pb_state (binding_at g1 "signal-0001") = B_FIRST_LEG_ACCEPTED /\
  pb_state (binding_at g2 "signal-0001") = B_COMPLETED.
Proof. vm_compute. split_and!; reflexivity. Qed.
