(* ===== verification/GatewaySafety.v ===== *)
(** * Safety of the live gateway

    Theorems about services/live_trading/gateway.py as modelled in Gateway: what
    an order that reaches the exchange has passed, how a binding moves, what a
    reconciliation may conclude, and the kill switch. *)

From Stdlib Require Import ZArith QArith Lia.
From stdpp Require Import base tactics relations list strings gmap.
From S2P Require Import Prelude Decimals ExecutionModels RiskModels LegState Venues Evidence.
From S2P Require Import LiveModels LivePreflight Bindings GatewayChecks Gateway GatewaySample.

Local Open Scope string_scope.
Local Open Scope Z_scope.

(** ** Relations that the gateway's operations keep *)

Section Frame.
Context {C : DecimalContext} {D : Digest} {J : PreflightJson}.
Context {X R : Type} {B : BindingRepository R}.
Variable uuid4 : N -> string.
Variable self : GatewayConfig X R.
Variable P : LiveExecutionGateway X R -> LiveExecutionGateway X R -> Prop.

(** A preorder that bookkeeping and the adapter's queries respect. *)
Class Framed : Prop := {
  #[global] framed_preorder :: PreOrder P;
  framed_audit : forall ev n g, P g (gw_set_audit ev n g);
  framed_receipts : forall rs ts g, P g (gw_set_receipts rs ts g);
  framed_leg : forall m a g, P g (gw_set_leg m a g);
  framed_sink : forall sink e, gc_audit_sink self = Some sink -> steps P (await (sink e));
  framed_health : steps P (await (ad_health_check (gc_adapter self)));
  framed_open_orders : forall s, steps P (await (ad_fetch_open_orders (gc_adapter self) s));
  framed_positions : steps P (await (ad_fetch_positions (gc_adapter self)));
  framed_fills : forall s t, steps P (await (ad_fetch_recent_fills (gc_adapter self) s t));
  framed_lookup : forall i, steps P (await (ad_lookup_order_by_client_id (gc_adapter self) i));
}.
Context {F : Framed}.

Hint Resolve framed_health framed_open_orders framed_positions framed_fills framed_lookup : steps.

Lemma steps_audit t ty i ok r d : steps P (gw_audit uuid4 self t ty i ok r d).
Proof.
  intros g. unfold gw_audit. destruct (gc_audit_sink self) as [sink|] eqn:E; [|apply framed_audit].
  etransitivity; [|by apply framed_sink]. apply framed_audit.
Qed.
Hint Resolve steps_audit : steps.

Lemma steps_binding sid : steps P (preflight_binding sid).
Proof. intros g. simpl. reflexivity. Qed.
Hint Resolve steps_binding : steps.

Lemma steps_reject rq t r : steps P (reject_and_remember uuid4 self rq t r).
Proof.
  unfold reject_and_remember. apply steps_bind; [apply _| |intros _; steps_go].
  apply steps_modify. intros g. apply framed_receipts.
Qed.
Hint Resolve steps_reject : steps.

Lemma steps_note p t : steps P (note_preflight_change p t).
Proof.
  intros g. unfold note_preflight_change. repeat case_goal; try apply framed_leg.
  simpl. reflexivity.
Qed.
Hint Resolve steps_note : steps.

Lemma steps_cross rq t : steps P (validate_cross_venue_preflight self rq t).
Proof.
  unfold validate_cross_venue_preflight. repeat case_goal; try (apply steps_ret; apply _).
  intros g. case_goal; [|simpl; reflexivity].
  enough (steps P (run! note_preflight_change (lo_cross_venue_preflight rq) t;
                   pret (Some different_hashes))) as H by apply H. steps_go.
Qed.
Hint Resolve steps_cross : steps.

Lemma steps_validate rq t ra re pv id q : steps P (validate_request self rq t ra re pv id q).
Proof.
  unfold validate_request. case_goal; [steps_go|]. apply steps_bind; [apply _|steps_go|].
  intros [r|]; [steps_go|].
  intros g. case_goal; [simpl; reflexivity|]. apply framed_receipts.
Qed.
Hint Resolve steps_validate : steps.

Lemma steps_refresh rq t : steps P (refresh_binding_and_exchange_state self rq t).
Proof. unfold refresh_binding_and_exchange_state. steps_go. Qed.
Hint Resolve steps_refresh : steps.

(** Operations that write bindings. *)
Hypothesis framed_cas : forall cur b, steps P (cas cur b).
Hint Resolve framed_cas : steps.

Lemma steps_transition cur st t r u : steps P (gw_transition cur st t r u).
Proof. unfold gw_transition. steps_go. Qed.
Hint Resolve steps_transition : steps.

Lemma steps_reserve rq t : steps P (reserve_preflight rq t).
Proof.
  unfold reserve_preflight, submit_second_leg. apply steps_bind; [apply _|steps_go|intros cur].
  steps_go.
Qed.

Lemma steps_abort rq t r : steps P (abort_preflight rq t r).
Proof. unfold abort_preflight. steps_go. Qed.

Lemma steps_mark rq t r : steps P (mark_reconciliation_required rq t r).
Proof. unfold mark_reconciliation_required. steps_go. Qed.

Lemma steps_ack rq a t : steps P (record_preflight_ack rq a t).
Proof. unfold record_preflight_ack. steps_go. Qed.

Lemma steps_position rq t q : steps P (record_position_snapshot rq t q).
Proof. unfold record_position_snapshot. steps_go. Qed.
Hint Resolve steps_reserve steps_abort steps_mark steps_ack steps_position : steps.

Lemma steps_ensure rq cur t r : steps P (ensure_reconciliation_required rq cur t r).
Proof. unfold ensure_reconciliation_required. steps_go. Qed.

Lemma steps_apply rq s t : steps P (apply_reconciliation_snapshot rq s t).
Proof. unfold apply_reconciliation_snapshot. steps_go. Qed.
Hint Resolve steps_ensure steps_apply : steps.

Lemma steps_handle rq s t : steps P (handle_cas_snapshot rq s t).
Proof. unfold handle_cas_snapshot. steps_go. Qed.
Hint Resolve steps_handle : steps.

Lemma steps_error {A} p rq t e : steps P (place_error (A := A) uuid4 self p rq t e).
Proof. unfold place_error. steps_go. Qed.
Hint Resolve steps_error : steps.

Lemma steps_returning {A} (m : M _ A) : steps P m -> steps P (returning m).
Proof. intros H. unfold returning. steps_go. Qed.
Hint Resolve steps_returning : steps.

Lemma steps_place_reserve retry rq t :
  (forall m, retry = Some m -> steps P m) -> steps P (place_reserve uuid4 self retry rq t).
Proof.
  intros Hr. unfold place_reserve. destruct retry as [m|].
  - specialize (Hr m eq_refl). steps_go.
  - steps_go.
Qed.

Lemma steps_precheck rq t : steps P (place_precheck uuid4 self rq t).
Proof. unfold place_precheck. steps_go. Qed.
Hint Resolve steps_precheck : steps.

Lemma steps_recover_ack rq a t : steps P (recover_ack self rq a t).
Proof.
  intros g. unfold recover_ack. pose proof (steps_ack rq a t g) as Ha.
  destruct (record_preflight_ack rq a t g) as [g1 [u|e]]; [done|]. simpl in Ha.
  destruct e; try done. etransitivity; [exact Ha|].
  match goal with |- P _ (?m g1).1 => enough (steps P m) as H by apply H end. steps_go.
Qed.
Hint Resolve steps_recover_ack : steps.

Lemma steps_acknowledge rq a t : steps P (place_acknowledge uuid4 self rq a t).
Proof.
  unfold place_acknowledge. case_goal; [steps_go|].
  apply steps_bind; [apply _|steps_go|intros _].
  apply steps_bind; [apply _| |intros _; steps_go].
  apply steps_modify. intros g. apply framed_receipts.
Qed.
Hint Resolve steps_acknowledge : steps.

Lemma steps_reconcile rq t : steps P (reconcile_binding self rq t).
Proof. unfold reconcile_binding. steps_go. Qed.

Lemma steps_halt sid r t : steps P (halt_binding sid r t).
Proof. unfold halt_binding. steps_go. Qed.

Lemma steps_preview rq t : steps P (preview_order uuid4 self rq t).
Proof. unfold preview_order. steps_go. Qed.

(** Operations that act on the exchange. *)
Lemma steps_place_submit retry rq t :
  steps P (await (ad_place_order (gc_adapter self) rq)) ->
  (forall m, retry = Some m -> steps P m) -> steps P (place_submit uuid4 self retry rq t).
Proof.
  intros Hp Hr. pose proof (steps_place_reserve retry rq t Hr) as H.
  unfold place_submit. steps_go.
Qed.

Lemma steps_place_attempt retry rq rd t :
  steps P (await (ad_place_order (gc_adapter self) rq)) ->
  (forall m, retry = Some m -> steps P m) -> steps P (place_attempt uuid4 self retry rq rd t).
Proof.
  intros Hp Hr g. pose proof (steps_place_submit retry rq t Hp Hr) as H.
  unfold place_attempt.
  case_goal; match goal with |- P _ (?m g).1 => enough (steps P m) as Hm by apply Hm end; steps_go.
Qed.

Lemma steps_place_order rq rd t :
  steps P (await (ad_place_order (gc_adapter self) rq)) ->
  steps P (place_order uuid4 self rq rd t).
Proof.
  intros Hp. unfold place_order. apply steps_bind; [apply _|steps_go|intros z].
  apply steps_place_attempt; [done|]. intros m [= <-]. by apply steps_place_attempt.
Qed.

Lemma steps_cancel i t :
  steps P (await (ad_cancel_order (gc_adapter self) i)) ->
  steps P (cancel_order uuid4 self i t).
Proof. intros H. unfold cancel_order, require_approved. steps_go. Qed.

Lemma steps_close s t :
  steps P (await (ad_close_position (gc_adapter self) s)) ->
  steps P (close_position uuid4 self s t).
Proof. intros H. unfold close_position, require_approved. steps_go. Qed.

Lemma steps_kill r t :
  (forall g, r <> EmptyString -> P g (gw_set_kill_switch (Some r) g)) ->
  steps P (await (ad_cancel_all_orders (gc_adapter self))) ->
  steps P (activate_kill_switch uuid4 self r t).
Proof.
  intros Hk H. unfold activate_kill_switch. apply steps_bind; [apply _|steps_go|intros z].
  case_bool_decide as E; [steps_go|].
  apply steps_bind; [apply _| |intros _; steps_go].
  apply steps_modify. intros g. apply Hk. intros ->. by apply E.
Qed.

End Frame.

(** ** What the theorems rely on of the adapter

    [OrderLog sent]: [sent x] lists the order requests the exchange has been
    given; placing an order adds at most that request, and nothing else adds
    any.  [Isolated]: the calls leave the binding repository alone, as when one
    gateway alone works on the signals. *)

Section Adapter.
Context {X R : Type}.
Variable self : GatewayConfig X R.

Class OrderLog (sent : X -> list LiveOrderRequest) : Prop := {
  log_place : forall rq w, let w' := (ad_place_order (gc_adapter self) rq w).1 in
    sent w'.1 = sent w.1 \/ sent w'.1 = (sent w.1 ++ [rq])%list;
  log_health : forall w, sent (ad_health_check (gc_adapter self) w).1.1 = sent w.1;
  log_open_orders : forall s w, sent (ad_fetch_open_orders (gc_adapter self) s w).1.1 = sent w.1;
  log_positions : forall w, sent (ad_fetch_positions (gc_adapter self) w).1.1 = sent w.1;
  log_fills : forall s t w, sent (ad_fetch_recent_fills (gc_adapter self) s t w).1.1 = sent w.1;
  log_lookup : forall i w,
    sent (ad_lookup_order_by_client_id (gc_adapter self) i w).1.1 = sent w.1;
  log_cancel : forall i w, sent (ad_cancel_order (gc_adapter self) i w).1.1 = sent w.1;
  log_cancel_all : forall w, sent (ad_cancel_all_orders (gc_adapter self) w).1.1 = sent w.1;
  log_close : forall s w, sent (ad_close_position (gc_adapter self) s w).1.1 = sent w.1;
  log_sink : forall sink e w, gc_audit_sink self = Some sink -> sent (sink e w).1.1 = sent w.1;
}.

Class Isolated : Prop := {
  iso_place : forall rq w, (ad_place_order (gc_adapter self) rq w).1.2 = w.2;
  iso_health : forall w, (ad_health_check (gc_adapter self) w).1.2 = w.2;
  iso_open_orders : forall s w, (ad_fetch_open_orders (gc_adapter self) s w).1.2 = w.2;
  iso_positions : forall w, (ad_fetch_positions (gc_adapter self) w).1.2 = w.2;
  iso_fills : forall s t w, (ad_fetch_recent_fills (gc_adapter self) s t w).1.2 = w.2;
  iso_lookup : forall i w, (ad_lookup_order_by_client_id (gc_adapter self) i w).1.2 = w.2;
  iso_cancel : forall i w, (ad_cancel_order (gc_adapter self) i w).1.2 = w.2;
  iso_cancel_all : forall w, (ad_cancel_all_orders (gc_adapter self) w).1.2 = w.2;
  iso_close : forall s w, (ad_close_position (gc_adapter self) s w).1.2 = w.2;
  iso_sink : forall sink e w, gc_audit_sink self = Some sink -> (sink e w).1.2 = w.2;
}.

End Adapter.

Section Relations.
Context {X R : Type} {B : BindingRepository R}.
Abbreviation G := (LiveExecutionGateway X R).

Lemma await_world {A} (m : M (X * R) A) (g : G) :
  let w' := (m (gw_exchange g, gw_repository g)).1 in
  gw_exchange (await m g).1 = w'.1 /\ gw_repository (await m g).1 = w'.2 /\
  gw_kill_switch_reason (await m g).1 = gw_kill_switch_reason g.
Proof. unfold await, pzoom. by destruct (m _) as [w r]. Qed.

Definition same_sent (sent : X -> list LiveOrderRequest) (g g' : G) : Prop :=
  sent (gw_exchange g') = sent (gw_exchange g).

(** Once set, the kill switch stays set. *)
Definition kill_kept (g g' : G) : Prop :=
  has_text (gw_kill_switch_reason g) = true -> has_text (gw_kill_switch_reason g') = true.

Definition same_repo (g g' : G) : Prop := gw_repository g' = gw_repository g.

Lemma same_sent_framed sent self `{!OrderLog self sent} : Framed self (same_sent sent).
Proof.
  split; try done; try (unfold steps; intros; unfold same_sent; rewrite (proj1 (await_world _ _))).
  - split; [by intros x|]. intros x y z H1 H2. unfold same_sent in *. congruence.
  - by apply (log_sink self (sent := sent)).
  - apply (log_health self (sent := sent)).
  - apply (log_open_orders self (sent := sent)).
  - apply (log_positions self (sent := sent)).
  - apply (log_fills self (sent := sent)).
  - apply (log_lookup self (sent := sent)).
Qed.

Lemma same_repo_framed self `{!Isolated self} : Framed self same_repo.
Proof.
  split; try done;
    try (unfold steps; intros; unfold same_repo; rewrite (proj1 (proj2 (await_world _ _)))).
  - split; [by intros x|]. intros x y z H1 H2. unfold same_repo in *. congruence.
  - by apply (iso_sink self).
  - apply (iso_health self).
  - apply (iso_open_orders self).
  - apply (iso_positions self).
  - apply (iso_fills self).
  - apply (iso_lookup self).
Qed.

Lemma kill_kept_framed self : Framed self kill_kept.
Proof.
  split; [split|..]; try (unfold steps; intros; unfold kill_kept;
                          rewrite ?(proj2 (proj2 (await_world _ _))); done).
  - by intros x H.
  - intros x y z H1 H2 H. by apply H2, H1.
Qed.

End Relations.

(** ** Orders that reach the exchange *)

(** What an order has passed when it reaches the exchange: a fresh approved
    preflight, a fresh unexpired request with signed snapshot, matching
    evidence, an eligible enabled venue, an allowed symbol, the notional limit,
    the risk decision, the kill switch and the rate limit; and no receipt is
    remembered for its idempotency key. *)
Section Permitted.
Context {C : DecimalContext} {D : Digest} {J : PreflightJson}.
Context {X R : Type} {B : BindingRepository R}.
Variable self : GatewayConfig X R.
Abbreviation live := (st_live (gc_settings self)).

Definition order_permitted (rq : LiveOrderRequest) (rd : RiskDecision) (t : Z)
    (g : LiveExecutionGateway X R) : Prop :=
  dict_get (lo_idempotency_key rq) (gw_idempotent_receipts g) = None /\
  pr_approved (gc_preflight self) = true /\
  0 <= t - pr_timestamp (gc_preflight self) <= seconds (live_preflight_ttl_seconds live) /\
  0 <= t - lo_created_at rq <= seconds (st_stale_data_seconds (gc_settings self)) /\
  t < lo_expires_at rq /\
  cross_valid_hash (lo_cross_venue_signal_evidence rq) = true /\
  (exists service, gc_cross_venue_preflight_service self = Some service /\
     verify service (lo_cross_venue_preflight rq) t = Ok tt) /\
  cp_created_at (lo_cross_venue_preflight rq) <= t < cp_expires_at (lo_cross_venue_preflight rq) /\
  (lo_quantity rq <= cp_receive_fillable_quantity (lo_cross_venue_preflight rq))%Q /\
  (lo_quantity rq <= cp_pay_fillable_quantity (lo_cross_venue_preflight rq))%Q /\
  lo_exchange rq ∈ execution_enabled_names (gc_settings self) /\
  execution_eligibility_reason (gc_settings self) (lo_exchange rq) (Aware t)
    (lo_reduce_only rq) = Ok None /\
  lo_symbol rq ∈ live_allowed_symbols live /\
  (reference_notional rq <= live_maximum_order_notional live)%Q /\
  decision_id rd = lo_risk_decision_id rq /\
  (lo_reduce_only rq = false ->
     allowed rd = true /\
     (exists z, sizing rd = Some z /\ (lo_quantity rq <= z_quantity z)%Q) /\
     0 <= t - evaluated_at rd <= seconds (st_stale_data_seconds (gc_settings self)) /\
     has_text (gw_kill_switch_reason g) = false) /\
  Z.of_nat (length (drop_until (t - seconds 60) (gw_order_timestamps g)))
    < live_maximum_orders_per_minute live.

Lemma out_of_age_false age n : out_of_age age n = false -> 0 <= age <= seconds n.
Proof. unfold out_of_age. intros [? ?]%orb_false_iff. lia. Qed.

(** Take a passed guard apart. *)
Ltac passed H :=
  match type of H with
  | (if ?b then Some _ else _) = None =>
      let E := fresh "E" in destruct b eqn:E; [discriminate H|]
  end.

Lemma validate_signal_passed rq t :
  validate_signal (gc_settings self) (gc_trusted_capability_registry self)
    (gc_source_event_repository self) (gc_preflight self) rq t false = None ->
  pr_approved (gc_preflight self) = true /\
  0 <= t - pr_timestamp (gc_preflight self) <= seconds (live_preflight_ttl_seconds live) /\
  0 <= t - lo_created_at rq <= seconds (st_stale_data_seconds (gc_settings self)) /\
  t < lo_expires_at rq /\
  cross_valid_hash (lo_cross_venue_signal_evidence rq) = true.
Proof.
  unfold validate_signal. simpl. intros H. repeat passed H. clear H.
  apply negb_false_iff in E. apply out_of_age_false in E0.
  apply orb_false_iff in E4 as [[_ E4]%orb_false_iff _]. apply negb_false_iff in E4.
  split_and!; try done; lia.
Qed.

Lemma dmin_le a b q : dltb (dmin a b) q = false -> (q <= a /\ q <= b)%Q.
Proof.
  intros H%dltb_ge. unfold dmin in H. destruct (dltb b a) eqn:E.
  - apply dltb_lt in E. split; [|done]. eapply Qle_trans; [done|]. by apply Qlt_le_weak.
  - apply dltb_ge in E. split; [done|]. by eapply Qle_trans.
Qed.

Lemma snapshot_passed rq t rl pl :
  preflight_snapshot_failure self rq t rl pl = None ->
  (exists service, gc_cross_venue_preflight_service self = Some service /\
     verify service (lo_cross_venue_preflight rq) t = Ok tt) /\
  cp_created_at (lo_cross_venue_preflight rq) <= t < cp_expires_at (lo_cross_venue_preflight rq) /\
  (lo_quantity rq <= cp_receive_fillable_quantity (lo_cross_venue_preflight rq))%Q /\
  (lo_quantity rq <= cp_pay_fillable_quantity (lo_cross_venue_preflight rq))%Q.
Proof.
  unfold preflight_snapshot_failure. intros H.
  destruct (gc_cross_venue_preflight_service self) as [service|] eqn:Es; [|done].
  destruct (verify service _ t) as [[]|e] eqn:Ev; [|done]. repeat passed H. clear H.
  apply negb_false_iff, andb_true_iff in E1 as [??].
  destruct (dmin_le _ _ _ E4). split_and!; try done; try lia. by exists service.
Qed.

Lemma limits_passed rq t ra re id q k :
  validate_limits (gc_settings self) rq t ra re false (Some id) q k = None ->
  lo_exchange rq ∈ execution_enabled_names (gc_settings self) /\
  execution_eligibility_reason (gc_settings self) (lo_exchange rq) (Aware t)
    (lo_reduce_only rq) = Ok None /\
  lo_symbol rq ∈ live_allowed_symbols live /\
  (reference_notional rq <= live_maximum_order_notional live)%Q /\
  ra = true /\ id = lo_risk_decision_id rq /\
  (lo_reduce_only rq = false ->
     (exists m, q = Some m /\ (lo_quantity rq <= m)%Q) /\
     0 <= t - re <= seconds (st_stale_data_seconds (gc_settings self)) /\
     has_text k = false).
Proof.
  unfold validate_limits. cbn [negb andb]. intros H. passed H.
  destruct (execution_eligibility_reason _ _ _ _) as [[f|]|e] eqn:Ee; try done.
  repeat passed H. clear H.
  apply negb_false_iff, bool_decide_eq_true in E, E0. apply dltb_ge in E1.
  apply negb_false_iff in E2. apply bool_decide_eq_false, dec_stable in E3.
  injection E3 as E3. split_and!; try done.
  intros Hr. rewrite Hr in *. cbn [negb andb] in *. rewrite andb_true_r in *.
  apply bool_decide_eq_false, dec_stable in E4 as [m ->]. apply dltb_ge in E5.
  apply out_of_age_false in E6. split_and!; try done; [by exists m|lia|lia].
Qed.

Lemma validate_request_passed rq t ra re id q g g' :
  validate_request self rq t ra re false (Some id) q g = (g', Ok None) ->
  validate_signal (gc_settings self) (gc_trusted_capability_registry self)
    (gc_source_event_repository self) (gc_preflight self) rq t false = None /\
  (exists rl pl, preflight_snapshot_failure self rq t rl pl = None) /\
  validate_limits (gc_settings self) rq t ra re false (Some id) q
    (gw_kill_switch_reason g) = None /\
  Z.of_nat (length (drop_until (t - seconds 60) (gw_order_timestamps g)))
    < live_maximum_orders_per_minute live.
Proof.
  unfold validate_request. destruct (validate_signal _ _ _ _ _ _ _); [done|].
  intros H. apply pbind_ok in H as (g1 & f & Hc & H).
  destruct f as [r|]; [done|]. unfold validate_cross_venue_preflight in Hc.
  destruct (cv_receive_leg _) as [rl|]; [|done]. destruct (cv_pay_leg _) as [pl|]; [|done].
  destruct (preflight_snapshot_failure self rq t rl pl) eqn:Es; [done|].
  destruct (hash_conflict _ _).
  { apply pbind_ok in Hc as (g2 & u & _ & Hc). done. }
  injection Hc as <- _. destruct (validate_limits _ _ _ _ _ _ _ _ _) eqn:El; [done|].
  split_and!; [done|by exists rl, pl|done|].
  unfold check_rate_limit in H. destruct (_ <=? _) eqn:E in H; [done|]. lia.
Qed.

Lemma order_permitted_intro rq rd t g g' :
  dict_get (lo_idempotency_key rq) (gw_idempotent_receipts g) = None ->
  validate_request self rq t (allowed rd || lo_reduce_only rq) (evaluated_at rd) false
    (Some (decision_id rd)) (option_map z_quantity (sizing rd)) g = (g', Ok None) ->
  order_permitted rq rd t g.
Proof.
  intros Hk Hv. apply validate_request_passed in Hv as (H1 & (rl & pl & H2) & H3 & H4).
  apply validate_signal_passed in H1 as (? & ? & ? & ? & ?).
  apply snapshot_passed in H2 as (? & ? & ? & ?).
  apply limits_passed in H3 as (? & ? & ? & ? & Hra & ? & Hnr).
  unfold order_permitted. split_and!; try done; try lia.
  intros Hr. destruct (Hnr Hr) as ((m & Hm & Hq) & ? & ?). rewrite Hr, orb_false_r in Hra.
  split_and!; try done; try lia. destruct (sizing rd) as [z|]; [|done].
  exists z. simpl in Hm. by simplify_eq.
Qed.

End Permitted.

Section Sends.
Context {C : DecimalContext} {D : Digest} {J : PreflightJson}.
Context {X R : Type} {B : BindingRepository R}.
Variable uuid4 : N -> string.
Variable self : GatewayConfig X R.
Variable sent : X -> list LiveOrderRequest.
Context {L : OrderLog self sent}.
Abbreviation G := (LiveExecutionGateway X R).
Existing Instance same_sent_framed.

Definition may_send (rq : LiveOrderRequest) (g g' : G) : Prop :=
  sent (gw_exchange g') = sent (gw_exchange g) \/
  sent (gw_exchange g') = (sent (gw_exchange g) ++ [rq])%list.

Lemma same_may_send rq {A} (m : M G A) : steps (same_sent sent) m -> steps (may_send rq) m.
Proof. intros H g. left. apply H. Qed.

Lemma may_send_then rq {A A'} (m : M G A) (k : A -> M G A') :
  steps (may_send rq) m -> (forall a, steps (same_sent sent) (k a)) ->
  steps (may_send rq) (pbind m k).
Proof.
  intros Hm Hk g. unfold pbind. specialize (Hm g).
  destruct (m g) as [g1 [a|e]]; simpl in *; [|done]. specialize (Hk a g1).
  unfold may_send, same_sent in *. rewrite Hk. tauto.
Qed.

Lemma then_may_send rq {A A'} (m : M G A) (k : A -> M G A') :
  steps (same_sent sent) m -> (forall a, steps (may_send rq) (k a)) ->
  steps (may_send rq) (pbind m k).
Proof.
  intros Hm Hk g. unfold pbind. specialize (Hm g).
  destruct (m g) as [g1 [a|e]]; simpl in *; [|by left]. specialize (Hk a g1).
  unfold may_send, same_sent in *. by rewrite Hm in Hk.
Qed.

Lemma try_may_send rq {A} (m : M G A) h :
  steps (may_send rq) m -> (forall e, steps (same_sent sent) (h e)) ->
  steps (may_send rq) (ptry m h).
Proof.
  intros Hm Hh g. unfold ptry. specialize (Hm g).
  destruct (m g) as [g1 [a|e]]; simpl in *; [done|]. specialize (Hh e g1).
  unfold may_send, same_sent in *. rewrite Hh. tauto.
Qed.

Lemma cas_same_sent cur b : steps (same_sent sent) (cas (X := X) cur b).
Proof. by intros g. Qed.

Lemma place_same_or_sent rq :
  steps (may_send rq) (await (ad_place_order (gc_adapter self) rq)).
Proof.
  intros g. unfold may_send. rewrite (proj1 (await_world _ _)).
  apply (log_place self (sent := sent)).
Qed.

Lemma returning_Continue {A} (m : M G A) g g' : returning m g <> (g', Ok Continue).
Proof. unfold returning, pbind. by destruct (m g) as [? [?|?]]. Qed.

Lemma place_reserve_continue retry rq t g g' :
  place_reserve uuid4 self retry rq t g = (g', Ok Continue) ->
  exists g1, ad_health_check (gc_adapter self) (gw_exchange g, gw_repository g) =
               ((gw_exchange g1, gw_repository g1), Ok true) /\
             await (ad_health_check (gc_adapter self)) g = (g1, Ok true) /\
             reserve_preflight rq t g1 = (g', Ok None).
Proof.
  unfold place_reserve. intros H. apply pbind_ok in H as (g1 & h & Hh & H).
  destruct h; cbn [negb] in H; [|by apply returning_Continue in H].
  apply pbind_ok in H as (g2 & f & Hf & H). destruct f as [f|].
  - exfalso. destruct retry as [m|]; [|by apply returning_Continue in H].
    case_bool_decide; [|by apply returning_Continue in H].
    apply pbind_ok in H as (g3 & s & _ & H).
    destruct s as [s|]; [|by apply returning_Continue in H].
    apply pbind_ok in H as (g4 & b & _ & H). by destruct b; apply returning_Continue in H.
  - injection H as <-. exists g1. split; [|done].
    unfold await, pzoom in Hh. destruct (ad_health_check _ _) as [w r]. simpl in Hh.
    injection Hh as <- ->. by destruct w.
Qed.

Lemma reject_may_send rq t r :
  steps (may_send rq) (returning (reject_and_remember uuid4 self rq t r)).
Proof.
  apply same_may_send. apply (steps_returning self (same_sent sent)).
  by apply steps_reject, same_sent_framed.
Qed.

Lemma place_reserve_may_send retry rq t :
  (forall m, retry = Some m -> steps (may_send rq) m) ->
  steps (may_send rq) (place_reserve uuid4 self retry rq t).
Proof.
  intros Hr. unfold place_reserve.
  apply then_may_send; [apply framed_health; apply _|intros [|]; cbn [negb]].
  2: { apply reject_may_send. }
  apply then_may_send; [apply (steps_reserve self _ cas_same_sent)|intros [f|]].
  2: { apply same_may_send, steps_ret; apply _. }
  destruct retry as [m|];
    [|apply reject_may_send].
  case_goal; [|apply reject_may_send].
  apply then_may_send.
  { apply steps_try; [apply _| |intros e; apply steps_ret; apply _].
    apply steps_bind; [apply _|apply steps_refresh; apply _|].
    intros s. apply steps_ret; apply _. }
  intros [s|]; [|apply reject_may_send].
  apply then_may_send; [apply (steps_handle self _ cas_same_sent)|].
  intros [|]; [|apply reject_may_send].
  unfold returning. apply may_send_then; [by apply Hr|]. intros a. apply steps_ret; apply _.
Qed.

Lemma place_submit_may_send retry rq t :
  (forall m, retry = Some m -> steps (may_send rq) m) ->
  steps (may_send rq) (place_submit uuid4 self retry rq t).
Proof.
  intros Hr g. unfold place_submit, pbind at 1.
  pose proof (place_reserve_may_send retry rq t Hr g) as H1.
  assert (forall g', place_reserve uuid4 self retry rq t g = (g', Ok Continue) ->
            same_sent sent g g') as Hcont.
  { intros g' (g1 & _ & Hh & Hres)%place_reserve_continue.
    pose proof (framed_health self (same_sent sent) g) as Ha. rewrite Hh in Ha.
    pose proof (steps_reserve self _ cas_same_sent rq t g1) as Hb. rewrite Hres in Hb.
    unfold same_sent in *. simpl in *. congruence. }
  unfold ptry at 1. destruct (place_reserve uuid4 self retry rq t g) as [g1 [o|e]]; cbn in H1.
  2: { pose proof (steps_error (A := flow ExecutionOrderAck) uuid4 self _ cas_same_sent
         NotReserved rq t e g1) as He.
       destruct (place_error _ _ _ _ _ _ _) as [g2 [o|e']] eqn:Ee; simpl in He.
       - exfalso. unfold place_error in Ee.
         apply pbind_ok in Ee as (? & ? & _ & Ee). apply pbind_ok in Ee as (? & ? & _ & Ee). done.
       - unfold may_send, same_sent in *. simpl. rewrite He. tauto. }
  destruct o as [a|]; [done|]. specialize (Hcont g1 eq_refl).
  match goal with |- may_send rq g (?k g1).1 => enough (steps (may_send rq) k) as Hk end.
  { specialize (Hk g1). unfold may_send, same_sent in *. by rewrite Hcont in Hk. }
  apply then_may_send.
  { apply steps_try; [apply _|apply (steps_precheck uuid4 self _ cas_same_sent)|].
    intros e. apply (steps_error uuid4 self _ cas_same_sent). }
  intros [a|]; [apply same_may_send, steps_ret; apply _|].
  apply may_send_then; [|intros a; apply (steps_acknowledge uuid4 self _ cas_same_sent)].
  apply try_may_send; [apply place_same_or_sent|].
  intros e. apply (steps_error uuid4 self _ cas_same_sent).
Qed.

Lemma place_attempt_sends retry rq rd t g :
  (forall m, retry = Some m -> steps (may_send rq) m) ->
  let g' := (place_attempt uuid4 self retry rq rd t g).1 in
  same_sent sent g g' \/ may_send rq g g' /\ order_permitted self rq rd t g.
Proof.
  intros Hr. unfold place_attempt.
  destruct (dict_get _ _) as [prev|] eqn:Ek; cbn zeta.
  { left. enough (steps (same_sent sent) (run! gw_audit uuid4 self t "idempotent_replay"
      (Some (lo_request_id rq)) (bool_decide (ak_state prev = L_ACCEPTED))
      "returned prior receipt without calling adapter" []; pret prev)) as H by apply H.
    apply steps_bind; [apply _|apply steps_audit; apply _|intros _; apply steps_ret; apply _]. }
  unfold pbind. pose proof (steps_validate self (same_sent sent) rq t
    (allowed rd || lo_reduce_only rq) (evaluated_at rd) false (Some (decision_id rd))
    (option_map z_quantity (sizing rd)) g) as Hv.
  destruct (validate_request _ _ _ _ _ _ _ _ g) as [g1 [[r|]|e]] eqn:Ev; simpl in Hv; [| |by left].
  - left. pose proof (steps_reject uuid4 self (same_sent sent) rq t r g1) as H.
    unfold same_sent in *. congruence.
  - right. split; [|by eapply order_permitted_intro].
    pose proof (place_submit_may_send retry rq t Hr g1) as H.
    unfold may_send, same_sent in *. by rewrite Hv in H.
Qed.

End Sends.

(** ** Theorems *)

(** One call of a public operation of the gateway. *)
Inductive gw_step {C : DecimalContext} {D : Digest} {J : PreflightJson} {X R : Type}
    {B : BindingRepository R} (uuid4 : N -> string) (self : GatewayConfig X R)
  : relation (LiveExecutionGateway X R) :=
| gs_place rq rd t g : gw_step uuid4 self g (place_order uuid4 self rq rd t g).1
| gs_preview rq t g : gw_step uuid4 self g (preview_order uuid4 self rq t g).1
| gs_reconcile rq t g : gw_step uuid4 self g (reconcile_binding self rq t g).1
| gs_halt sid r t g : gw_step uuid4 self g (halt_binding sid r t g).1
| gs_cancel i t g : gw_step uuid4 self g (cancel_order uuid4 self i t g).1
| gs_kill r t g : gw_step uuid4 self g (activate_kill_switch uuid4 self r t g).1
| gs_close s t g : gw_step uuid4 self g (close_position uuid4 self s t g).1.

Lemma place_order_sends {C : DecimalContext} {D : Digest} {J : PreflightJson} {X R : Type}
    {B : BindingRepository R} (uuid4 : N -> string) (self : GatewayConfig X R) sent
    `{!OrderLog self sent} rq rd t g :
  let g' := (place_order uuid4 self rq rd (Aware t) g).1 in
  sent (gw_exchange g') = sent (gw_exchange g) \/
  sent (gw_exchange g') = (sent (gw_exchange g) ++ [rq])%list /\ order_permitted self rq rd t g.
Proof.
  unfold place_order. simpl. unfold pbind at 1. simpl.
  edestruct (place_attempt_sends uuid4 self sent
    (Some (place_attempt uuid4 self None rq rd t)) rq rd t g) as [H|[[H|H] Hp]]; eauto.
  intros m [= <-] g1.
  edestruct (place_attempt_sends uuid4 self sent None rq rd t g1) as [H|[H _]]; [done|by left|done].
Qed.

(** C3: an order reaches the exchange only through every guard.  Whatever the
    adapter answers or raises, and whatever other processes do to the shared
    bindings meanwhile, a call of [place_order] sends nothing but the request it
    was given, at most once, and only when the preflight is approved and fresh,
    the request fresh and signed, the venue and symbol enabled, the notional,
    risk-approved size and order rate within their limits, the kill switch off
    unless the order only reduces, and no receipt is remembered for its
    idempotency key. *)
Theorem live_order_guarded {C : DecimalContext} {D : Digest} {J : PreflightJson} {X R : Type}
    {B : BindingRepository R} (uuid4 : N -> string) (self : GatewayConfig X R)
    (sent : X -> list LiveOrderRequest) (rq : LiveOrderRequest) (rd : RiskDecision) (t : Z)
    (g g' : LiveExecutionGateway X R) (r : result ExecutionOrderAck) :
  OrderLog self sent ->
  place_order uuid4 self rq rd (Aware t) g = (g', r) ->
  sent (gw_exchange g') = sent (gw_exchange g) \/
  sent (gw_exchange g') = (sent (gw_exchange g) ++ [rq])%list /\ order_permitted self rq rd t g.
Proof.
  intros HL H. pose proof (place_order_sends uuid4 self sent rq rd t g) as Hs.
  rewrite H in Hs. exact Hs.
Qed.

Lemma sample_order_log : OrderLog sample_config sx_sent.
Proof. split; try done. intros rq w. by right. Qed.

Lemma live_order_guarded_witness :
  let g' := (sample_place_order first_request sample_gateway).1 in
  map lo_request_id (sx_sent (gw_exchange g')) = ["request-0001"] /\
  @order_permitted default_context sample_digest sample_json _ _ sample_config
    first_request sample_decision sample_now sample_gateway.
Proof.
  intros g'. assert (map lo_request_id (sx_sent (gw_exchange g')) = ["request-0001"]) as Hs
    by (vm_compute; reflexivity).
  split; [exact Hs|].
  destruct (@live_order_guarded default_context sample_digest sample_json _ _ _ sample_uuid4
    sample_config sx_sent first_request sample_decision sample_now sample_gateway g'
    (sample_place_order first_request sample_gateway).2 sample_order_log
    (surjective_pairing _)) as [H|[_ H]]; [|exact H].
  rewrite H in Hs. discriminate Hs.
Defined.

Definition sends_only {X R} (sent : X -> list LiveOrderRequest) (Q : LiveOrderRequest -> Prop)
    (g g' : LiveExecutionGateway X R) : Prop :=
  exists new, sent (gw_exchange g') = (sent (gw_exchange g) ++ new)%list /\ Forall Q new.

Lemma same_sent_only {X R} sent Q (g g' : LiveExecutionGateway X R) :
  same_sent sent g g' -> sends_only sent Q g g'.
Proof. intros H. exists []. by rewrite app_nil_r. Qed.

Lemma gw_step_killed {C : DecimalContext} {D : Digest} {J : PreflightJson} {X R : Type}
    {B : BindingRepository R} uuid4 (self : GatewayConfig X R) sent `{HL : !OrderLog self sent}
    g g' :
  gw_step uuid4 self g g' -> has_text (gw_kill_switch_reason g) = true ->
  has_text (gw_kill_switch_reason g') = true /\
  sends_only sent (fun rq => lo_reduce_only rq = true) g g'.
Proof.
  intros Hst Hk. pose proof (same_sent_framed sent self) as F1.
  pose proof (kill_kept_framed self) as F2.
  assert (forall cur b, steps kill_kept (cas (X := X) cur b)) as K by (by intros cur b g0 ?).
  assert (forall cur b, steps (same_sent sent) (cas (X := X) cur b)) as S by (by intros cur b g0).
  assert (forall A (m : M _ A), steps kill_kept (await (X := X) (R := R) m)) as KA.
  { intros A m g0 H0. by rewrite (proj2 (proj2 (await_world _ _))). }
  destruct Hst as [rq rd t g|rq t g|rq t g|sid r t g|i t g|r t g|s t g].
  - split; [by apply (steps_place_order uuid4 self _ K rq rd t (KA _ _) g)|].
    destruct t as [t|t]; [by apply same_sent_only|].
    destruct (place_order_sends uuid4 self sent rq rd t g) as [H|[H Hp]];
      [by apply same_sent_only|]. exists [rq]. split; [done|].
    constructor; [|done]. destruct (lo_reduce_only rq) eqn:Er; [done|].
    destruct Hp as (_&_&_&_&_&_&_&_&_&_&_&_&_&_&_& Hn & _).
    destruct (Hn Er) as (_ & _ & _ & Hf). congruence.
  - split; [by apply (steps_preview uuid4 self kill_kept rq t g)|].
    apply same_sent_only, (steps_preview uuid4 self (same_sent sent) rq t g).
  - split; [by apply (steps_reconcile self _ K rq t g)|].
    apply same_sent_only, (steps_reconcile self _ S rq t g).
  - split; [by apply (steps_halt self _ K sid r t g)|].
    apply same_sent_only, (steps_halt self _ S sid r t g).
  - split; [by apply (steps_cancel uuid4 self kill_kept i t (KA _ _) g)|].
    apply same_sent_only, (steps_cancel uuid4 self (same_sent sent)). intros g0. unfold same_sent.
    rewrite (proj1 (await_world _ _)). apply (log_cancel self (sent := sent)).
  - split.
    { apply (steps_kill uuid4 self kill_kept); [|apply KA|done].
      intros g0 Hr _. simpl. by rewrite bool_decide_eq_false_2. }
    apply same_sent_only, (steps_kill uuid4 self (same_sent sent)); [done|]. intros g0. unfold same_sent.
    rewrite (proj1 (await_world _ _)). apply (log_cancel_all self (sent := sent)).
  - split; [by apply (steps_close uuid4 self kill_kept s t (KA _ _) g)|].
    apply same_sent_only, (steps_close uuid4 self (same_sent sent)). intros g0. unfold same_sent.
    rewrite (proj1 (await_world _ _)). apply (log_close self (sent := sent)).
Qed.

(** The live kill switch is final.  Once it is set, no sequence of
    operations clears it, and every order sent afterwards only reduces a
    position. *)
Theorem live_kill_switch_final {C : DecimalContext} {D : Digest} {J : PreflightJson}
    {X R : Type} {B : BindingRepository R} (uuid4 : N -> string) (self : GatewayConfig X R)
    (sent : X -> list LiveOrderRequest) (g g' : LiveExecutionGateway X R) :
  OrderLog self sent ->
  has_text (gw_kill_switch_reason g) = true -> rtc (gw_step uuid4 self) g g' ->
  has_text (gw_kill_switch_reason g') = true /\
  sends_only sent (fun rq => lo_reduce_only rq = true) g g'.
Proof.
  intros HL Hk Hr. induction Hr as [g|g g1 g2 Hst Hr IH].
  - split; [done|]. by apply same_sent_only.
  - destruct (gw_step_killed uuid4 self sent g g1 Hst Hk) as [Hk1 (n1 & E1 & F1)].
    destruct (IH Hk1) as [Hk2 (n2 & E2 & F2)]. split; [done|].
    exists (n1 ++ n2)%list. split; [|by apply Forall_app_2].
    by rewrite E2, E1, app_assoc.
Qed.

Definition sample_killed : SampleGateway :=
  (activate_kill_switch sample_uuid4 sample_config "drill"
     (Aware sample_now) sample_gateway).1.

Lemma live_kill_switch_final_witness :
  let g' := (sample_place_order first_request sample_killed).1 in
  has_text (gw_kill_switch_reason sample_killed) = true /\
  sends_only sx_sent (fun rq => lo_reduce_only rq = true) sample_killed g'.
Proof.
  intros g'. assert (has_text (gw_kill_switch_reason sample_killed) = true) as Hk
    by (vm_compute; reflexivity).
  split; [exact Hk|].
  apply (@live_kill_switch_final default_context sample_digest sample_json _ _ _ sample_uuid4
    sample_config sx_sent sample_killed g' sample_order_log Hk).
  apply rtc_once. apply gs_place.
Defined.
