(* ===== verification/BindingProtocol.v ===== *)
(** * The binding protocol of the live gateway

    When one gateway alone works on the bindings ([Isolated]), every binding
    moves along the edges of a fixed state machine, and an order is only sent
    when the binding of its signal allows it.  The proofs use triples over the
    repository: [triple Pre m Post] says that [m], started with a repository
    that satisfies [Pre], moves every binding along the machine and ends with
    [Post] of its outcome. *)

From Stdlib Require Import ZArith QArith Lia.
From stdpp Require Import base tactics relations list strings gmap.
From S2P Require Import Prelude Decimals ExecutionModels RiskModels LegState Venues Evidence.
From S2P Require Import LiveModels LivePreflight Bindings GatewayChecks Gateway GatewaySample.
From S2P Require Import GatewaySafety.

Local Open Scope string_scope.
Local Open Scope Z_scope.

(** ** The machine *)

Definition next_states (s : PreflightBindingState) : list PreflightBindingState :=
  match s with
  | B_UNBOUND => [B_RESERVED; B_RECONCILIATION_REQUIRED]
  | B_RESERVED => [B_RESERVED; B_ABORTED; B_FIRST_LEG_ACCEPTED; B_RECONCILIATION_REQUIRED]
  | B_FIRST_LEG_ACCEPTED => [B_SECOND_LEG_SUBMITTED]
  | B_SECOND_LEG_SUBMITTED =>
      [B_SECOND_LEG_SUBMITTED; B_ABORTED; B_COMPLETED; B_HEDGING_REQUIRED;
       B_RECONCILIATION_REQUIRED]
  | B_HEDGING_REQUIRED => [B_SECOND_LEG_SUBMITTED; B_HALTED]
  | B_RECONCILIATION_REQUIRED =>
      [B_HALTED; B_COMPLETED; B_FIRST_LEG_ACCEPTED; B_HEDGING_REQUIRED; B_ABORTED]
  | B_ABORTED => [B_ABORTED; B_RESERVED; B_RECONCILIATION_REQUIRED]
  | B_COMPLETED | B_HALTED => []
  end.

(** A write of a binding: the version goes up by one, the state along the
    machine, and the preflight hash only changes when the binding is taken
    anew. *)
Definition binding_edge (b b' : PreflightBinding) : Prop :=
  pb_signal_id b' = pb_signal_id b /\ pb_version b' = pb_version b + 1 /\
  pb_state b' ∈ next_states (pb_state b) /\
  (pb_preflight_hash b' = pb_preflight_hash b \/ pb_state b ∈ [B_UNBOUND; B_ABORTED]).

(** What an order for a signal needs of the signal's binding. *)
Definition may_order (b : PreflightBinding) (rq : LiveOrderRequest) : Prop :=
  pb_state b ∈ [B_UNBOUND; B_ABORTED] /\ lo_preflight_recovery_action rq = None \/
  pb_preflight_hash b = Some (cp_preflight_hash (lo_cross_venue_preflight rq)) /\
  (pb_state b = B_FIRST_LEG_ACCEPTED /\
     pb_first_leg_role b <> Some (lo_order_leg_role rq) /\
     lo_preflight_recovery_action rq = None \/
   pb_state b = B_HEDGING_REQUIRED /\ hedging_operation_allowed b rq = true).

Section Triples.
Context {X R : Type} {B : BindingRepository R} {BL : BindingLaws R}.
Abbreviation G := (LiveExecutionGateway X R).

Lemma same_repo_preorder : PreOrder (same_repo (X := X) (R := R)).
Proof. split; [by intros x|]. intros x y z H1 H2. unfold same_repo in *. congruence. Qed.

Definition binding_in (r : R) (sid : string) : PreflightBinding :=
  default (unbound_binding sid) (repo_get r sid).

(** Every binding is stored under its own signal, and none as unbound. *)
Definition repo_wf (r : R) : Prop :=
  forall sid b, repo_get r sid = Some b -> pb_signal_id b = sid /\ pb_state b <> B_UNBOUND.

Lemma binding_in_signal r sid : repo_wf r -> pb_signal_id (binding_in r sid) = sid.
Proof.
  intros Hw. unfold binding_in. destruct (repo_get r sid) eqn:E; [by apply Hw|done].
Qed.

Lemma binding_in_unbound r sid :
  repo_wf r -> pb_state (binding_in r sid) = B_UNBOUND -> pb_version (binding_in r sid) = 0.
Proof.
  intros Hw. unfold binding_in. destruct (repo_get r sid) as [b|] eqn:E; [|done].
  simpl. intros Hb. by destruct (Hw _ _ E).
Qed.

Lemma next_not_unbound s s' : s' ∈ next_states s -> s' <> B_UNBOUND.
Proof. destruct s; simpl; set_solver. Qed.

Definition evolves (r r' : R) : Prop :=
  forall sid, rtc binding_edge (binding_in r sid) (binding_in r' sid).

#[local] Instance evolves_preorder : PreOrder evolves.
Proof.
  split; [intros r sid; reflexivity|]. intros a b c H1 H2 sid. etransitivity; [apply H1|apply H2].
Qed.

Definition triple {A} (Pre : R -> Prop) (m : M G A) (Post : result A -> R -> Prop) : Prop :=
  forall g, repo_wf (gw_repository g) -> Pre (gw_repository g) ->
  let r' := gw_repository (m g).1 in
  repo_wf r' /\ evolves (gw_repository g) r' /\ Post (m g).2 r'.

(** Rules. *)
Lemma triple_conseq {A} (Pre Pre' : R -> Prop) (m : M G A) (Post Post' : result A -> R -> Prop) :
  triple Pre m Post -> (forall r, Pre' r -> Pre r) -> (forall o r, Post o r -> Post' o r) ->
  triple Pre' m Post'.
Proof. intros H H1 H2 g Hw Hp. destruct (H g Hw (H1 _ Hp)) as (? & ? & ?). auto. Qed.

Lemma triple_frame {A} (Pre : R -> Prop) (m : M G A) :
  steps same_repo m -> triple Pre m (fun _ => Pre).
Proof. intros H g Hw Hp. specialize (H g). simpl. rewrite H. split_and!; try done. Qed.

Lemma triple_ret {A} (Pre : R -> Prop) (a : A) (Post : result A -> R -> Prop) :
  (forall r, Pre r -> Post (Ok a) r) -> triple Pre (pret a) Post.
Proof. intros H g Hw Hp. simpl. split_and!; try done. by apply H. Qed.

Lemma triple_raise {A} (Pre : R -> Prop) e (Post : result A -> R -> Prop) :
  (forall r, Pre r -> Post (Err e) r) -> triple Pre (praise e) Post.
Proof. intros H g Hw Hp. simpl. split_and!; try done. by apply H. Qed.

Lemma triple_bind {A A'} (Pre : R -> Prop) (m : M G A) (k : A -> M G A') Mid Post :
  triple Pre m Mid -> (forall a, triple (Mid (Ok a)) (k a) Post) ->
  (forall e r, Mid (Err e) r -> Post (Err e) r) -> triple Pre (pbind m k) Post.
Proof.
  intros Hm Hk He g Hw Hp. unfold pbind. destruct (Hm g Hw Hp) as (Hw1 & Hv1 & H1).
  destruct (m g) as [g1 [a|e]]; simpl in *; [|by auto].
  destruct (Hk a g1 Hw1 H1) as (Hw2 & Hv2 & H2). split_and!; try done. by etransitivity.
Qed.

Lemma triple_try {A} (Pre : R -> Prop) (m : M G A) h Mid Post :
  triple Pre m Mid -> (forall e, triple (Mid (Err e)) (h e) Post) ->
  (forall a r, Mid (Ok a) r -> Post (Ok a) r) -> triple Pre (ptry m h) Post.
Proof.
  intros Hm Hk He g Hw Hp. unfold ptry. destruct (Hm g Hw Hp) as (Hw1 & Hv1 & H1).
  destruct (m g) as [g1 [a|e]]; simpl in *; [by auto|].
  destruct (Hk e g1 Hw1 H1) as (Hw2 & Hv2 & H2). split_and!; try done. by etransitivity.
Qed.

Lemma triple_read {A} (Pre : R -> Prop) sid (k : PreflightBinding -> M G A) Post :
  (forall cur, triple (fun r => Pre r /\ binding_in r sid = cur) (k cur) Post) ->
  triple Pre (do! cur <- preflight_binding sid; k cur) Post.
Proof. intros H g Hw Hp. apply (H (binding_at g sid) g Hw). done. Qed.

(** Sequencing when the first computation leaves the repository alone. *)
Lemma triple_quiet {A A'} (Pre : R -> Prop) (m : M G A) (k : A -> M G A') Post :
  steps same_repo m -> (forall a, triple Pre (k a) Post) ->
  (forall e r, Pre r -> Post (Err e) r) -> triple Pre (pbind m k) Post.
Proof. intros Hm Hk He. eapply triple_bind; [by apply triple_frame|done|done]. Qed.

(** A write. *)
Lemma cas_triple sid cur b :
  binding_edge cur b ->
  triple (fun r => binding_in r sid = cur) (cas cur b)
    (fun o r => o = Ok true /\ binding_in r sid = b \/ o = Ok false /\ binding_in r sid = cur).
Proof.
  intros He g Hw Hcur. unfold cas. simpl.
  assert (pb_signal_id b = sid) as Hs.
  { destruct He as (-> & _). rewrite <-Hcur. by apply binding_in_signal. }
  rewrite Hs. set (out := compare_and_set sid (pb_version cur) b (gw_repository g)).
  destruct out.2 eqn:E.
  - pose proof (cas_written _ _ _ _ E) as Hg.
    assert (forall sid', sid' <> sid -> repo_get out.1 sid' = repo_get (gw_repository g) sid') as Ho
      by (intros; by apply cas_other).
    split_and!.
    + intros sid' b'. destruct (decide (sid' = sid)) as [->|Hne].
      * fold out in Hg. rewrite Hg. intros [= <-]. split; [done|].
        destruct He as (_ & _ & He & _). by eapply next_not_unbound.
      * rewrite Ho by done. apply Hw.
    + intros sid'. unfold binding_in. destruct (decide (sid' = sid)) as [->|Hne].
      * fold out in Hg. rewrite Hg. fold (binding_in (gw_repository g) sid). rewrite Hcur.
        by apply rtc_once.
      * by rewrite Ho.
    + left. split; [done|]. unfold binding_in. fold out in Hg. by rewrite Hg.
  - pose proof (cas_failed _ _ _ _ E) as Hf. fold out in Hf. rewrite Hf.
    split_and!; try done. by right.
Qed.

Definition keeps_identity (u : PreflightBinding -> PreflightBinding) : Prop :=
  forall b, pb_signal_id (u b) = pb_signal_id b /\ pb_version (u b) = pb_version b /\
            pb_state (u b) = pb_state b /\ pb_preflight_hash (u b) = pb_preflight_hash b.

Lemma transition_triple sid cur st t reason u :
  st ∈ next_states (pb_state cur) -> keeps_identity u ->
  triple (fun r => binding_in r sid = cur) (gw_transition cur st t reason u)
    (fun o r => o = Ok tt /\ pb_state (binding_in r sid) = st \/
                o = Err (ExecutionAdapterError cas_conflict) /\ binding_in r sid = cur).
Proof.
  intros Hst Hu. unfold gw_transition.
  assert (binding_edge cur (u (next_binding cur st t reason))) as He.
  { destruct (Hu (next_binding cur st t reason)) as (H1 & H2 & H3 & H4).
    unfold binding_edge. rewrite H1, H2, H3, H4. simpl. auto. }
  eapply triple_bind; [by apply cas_triple| |].
  - intros [|]; simpl.
    + apply triple_ret. intros r [[_ H]|[? _]]; [|done]. left. split; [done|]. rewrite H.
      by destruct (Hu (next_binding cur st t reason)) as (_&_&->&_).
    + apply triple_raise. intros r [[? _]|[_ H]]; [done|]. by right.
  - intros e r [[? _]|[? _]]; done.
Qed.

Lemma id_keeps : keeps_identity id.
Proof. by intros b. Qed.
Lemma first_request_keeps i : keeps_identity (set_first_request i).
Proof. by intros b. Qed.
Lemma second_request_keeps i : keeps_identity (set_second_request i).
Proof. by intros b. Qed.
Lemma first_leg_keeps a b c : keeps_identity (set_first_leg a b c).
Proof. by intros x. Qed.
Lemma second_external_keeps a : keeps_identity (set_second_external a).
Proof. by intros x. Qed.
Lemma position_keeps s r : keeps_identity (set_position s r).
Proof. by intros x. Qed.

(** A computation whose outcome does not matter. *)
Definition safe {A} (Pre : R -> Prop) (m : M G A) : Prop := triple Pre m (fun _ _ => True).

Lemma safe_of {A} (Pre Pre' : R -> Prop) (m : M G A) Post :
  triple Pre m Post -> (forall r, Pre' r -> Pre r) -> safe Pre' m.
Proof. intros H H'. by apply (triple_conseq _ _ _ _ _ H H'). Qed.

Lemma safe_quiet {A} Pre (m : M G A) : steps same_repo m -> safe Pre m.
Proof. intros H. by apply (safe_of (fun _ => True) _ _ _ (triple_frame _ _ H)). Qed.

Lemma safe_transition sid cur st t reason u Pre :
  st ∈ next_states (pb_state cur) -> keeps_identity u ->
  (forall r, Pre r -> binding_in r sid = cur) -> safe Pre (gw_transition cur st t reason u).
Proof.
  intros H1 H2 H3. by apply (safe_of _ _ _ _ (transition_triple sid cur st t reason u H1 H2)).
Qed.

(** States in which the gateway holds the binding. *)
Definition held sid (r : R) : Prop :=
  pb_state (binding_in r sid) ∈ [B_RESERVED; B_SECOND_LEG_SUBMITTED].
Definition abortable sid (r : R) : Prop :=
  pb_state (binding_in r sid) ∈ [B_RESERVED; B_SECOND_LEG_SUBMITTED; B_ABORTED].

Lemma held_abortable sid r : held sid r -> abortable sid r.
Proof. unfold held, abortable. set_solver. Qed.

(** ** Reservation *)

Lemma submit_second_triple sid cur rq t :
  pb_state cur = B_FIRST_LEG_ACCEPTED \/ pb_state cur = B_HEDGING_REQUIRED ->
  triple (fun r => binding_in r sid = cur) (submit_second_leg cur rq t)
    (fun o r => o = Ok None -> held sid r).
Proof.
  intros Hst. unfold submit_second_leg. eapply triple_bind.
  - apply cas_triple. unfold binding_edge. simpl. split_and!; auto.
    destruct Hst as [-> | ->]; set_solver.
  - intros ok. apply triple_ret. intros r H Ho. destruct ok; [|done]. destruct H as [[_ H]|[? _]]; [|done].
    unfold held. rewrite H. simpl. set_solver.
  - by intros e r [[? _]|[? _]].
Qed.

Lemma reserve_new_edge cur rq t :
  pb_state cur ∈ [B_UNBOUND; B_ABORTED] -> pb_signal_id cur = lo_signal_id rq ->
  (pb_state cur = B_UNBOUND -> pb_version cur = 0) ->
  let b := new_binding (lo_signal_id rq) (cp_preflight_hash (lo_cross_venue_preflight rq))
             B_RESERVED t in
  binding_edge cur (if bool_decide (pb_state cur = B_ABORTED)
                    then set_version (pb_version cur + 1) (pb_created_at cur) b else b).
Proof.
  intros Hst Hs Hv b. unfold binding_edge.
  case_bool_decide as E; simpl; rewrite ?Hs; split_and!; auto.
  - rewrite E. set_solver.
  - rewrite Hv; [done|]. set_solver.
  - assert (pb_state cur = B_UNBOUND) as -> by set_solver. set_solver.
Qed.

(** Name the repository a computation starts with. *)
Lemma triple_fix {A} (Pre : R -> Prop) (m : M G A) Post :
  (forall r0, repo_wf r0 -> Pre r0 -> triple (eq r0) m Post) -> triple Pre m Post.
Proof. intros H g Hw Hp. by apply (H (gw_repository g)). Qed.

Lemma reserve_triple rq t :
  triple (fun _ => True) (reserve_preflight rq t)
    (fun o r => o = Ok None -> held (lo_signal_id rq) r).
Proof.
  unfold reserve_preflight. apply triple_read. intros cur.
  case_bool_decide as Hst.
  - case_goal; [by apply triple_ret|].
    apply triple_fix. intros r0 Hw [_ Hcur].
    assert (binding_edge cur (if bool_decide (pb_state cur = B_ABORTED)
      then set_version (pb_version cur + 1) (pb_created_at cur)
             (new_binding (lo_signal_id rq) (cp_preflight_hash (lo_cross_venue_preflight rq))
                B_RESERVED t)
      else new_binding (lo_signal_id rq) (cp_preflight_hash (lo_cross_venue_preflight rq))
                B_RESERVED t)) as He.
    { apply reserve_new_edge; [done| |]; rewrite <-Hcur;
        [by apply binding_in_signal|by apply binding_in_unbound]. }
    eapply triple_bind.
    + eapply triple_conseq; [apply (cas_triple (lo_signal_id rq) _ _ He)|by intros r <-|].
      intros o r H. exact H.
    + intros ok. apply triple_ret. intros r H Ho. destruct ok; [|done]. destruct H as [[_ H]|[? _]]; [|done].
      unfold held. rewrite H. case_bool_decide; simpl; set_solver.
    + by intros e r [[? _]|[? _]].
  - assert (forall (reason : string) Pre,
      triple Pre (pret (Some reason)) (fun o r => o = Ok None -> held (lo_signal_id rq) r)) as Hr.
    { intros reason Pre. by apply triple_ret. }
    case_goal; [apply Hr|].
    destruct (pb_state cur) eqn:Es; try apply Hr.
    + case_goal; [apply Hr|]. case_goal; [apply Hr|].
      eapply triple_conseq; [apply submit_second_triple; auto|by intros r [_ ?]|done].
    + case_goal; [|apply Hr].
      eapply triple_conseq; [apply submit_second_triple; auto|by intros r [_ ?]|done].
Qed.

(** ** The other writes *)

Lemma abort_triple rq t reason :
  triple (abortable (lo_signal_id rq)) (abort_preflight rq t reason)
    (fun _ => abortable (lo_signal_id rq)).
Proof.
  unfold abort_preflight. apply triple_read. intros cur.
  intros g Hw [Ha Hcur].
  assert (B_ABORTED ∈ next_states (pb_state cur)) as Hn.
  { unfold abortable in Ha. rewrite Hcur in Ha.
    destruct (pb_state cur); simpl; set_solver. }
  destruct (transition_triple (lo_signal_id rq) cur B_ABORTED t (Some reason) id Hn id_keeps
    g Hw Hcur) as (Hw' & He & Hp).
  split_and!; try done. unfold abortable in *.
  destruct Hp as [[_ ->]|[_ ->]]; [set_solver|]. by rewrite Hcur in Ha.
Qed.

Lemma position_triple rq t q :
  triple (held (lo_signal_id rq)) (record_position_snapshot rq t q)
    (fun _ => held (lo_signal_id rq)).
Proof.
  unfold record_position_snapshot. apply triple_read. intros cur.
  eapply triple_quiet.
  - apply steps_lift, same_repo_preorder.
  - intros s g Hw [Ha Hcur].
    assert (pb_state cur ∈ next_states (pb_state cur)) as Hn.
    { unfold held in Ha. rewrite Hcur in Ha. destruct (pb_state cur); simpl; set_solver. }
    destruct (transition_triple (lo_signal_id rq) cur (pb_state cur) t None
      (set_position (Some s) None) Hn (position_keeps _ _) g Hw Hcur) as (Hw' & He & Hp).
    split_and!; try done. unfold held in *. rewrite Hcur in Ha.
    by destruct Hp as [[_ ->]|[_ ->]].
  - by intros e r [? _].
Qed.

Lemma mark_safe rq t reason : safe (fun _ => True) (mark_reconciliation_required rq t reason).
Proof.
  unfold mark_reconciliation_required. apply triple_read. intros cur.
  destruct (pb_state cur) eqn:Es;
    try (apply safe_quiet, steps_ret; apply same_repo_preorder).
  - eapply safe_transition; [rewrite Es; simpl; set_solver|apply first_request_keeps|].
    by intros r [_ ?].
  - eapply safe_transition; [rewrite Es; simpl; set_solver|apply second_request_keeps|].
    by intros r [_ ?].
Qed.

Lemma ack_safe rq a t : safe (held (lo_signal_id rq)) (record_preflight_ack rq a t).
Proof.
  unfold record_preflight_ack. apply triple_read. intros cur. apply triple_fix.
  intros r0 _ [Ha Hcur]. unfold held in Ha. rewrite Hcur in Ha.
  destruct (pb_state cur) eqn:Es; try set_solver; repeat case_bool_decide; try done;
    (eapply safe_transition; [rewrite Es; simpl; set_solver| |by intros r <-]);
    auto using id_keeps, second_external_keeps, first_leg_keeps.
Qed.

End Triples.

(** ** Reconciliation *)

Section Protocol.
Context {C : DecimalContext} {D : Digest} {J : PreflightJson}.
Context {X R : Type} {B : BindingRepository R} {BL : BindingLaws R}.
Variable uuid4 : N -> string.
Variable self : GatewayConfig X R.
Context {I : Isolated self}.
Abbreviation G := (LiveExecutionGateway X R).
Existing Instance same_repo_framed.
#[local] Existing Instance evolves_preorder.

Lemma refresh_triple rq t (Pre : R -> Prop) :
  triple (X := X) Pre (refresh_binding_and_exchange_state self rq t)
    (fun o r => Pre r /\ forall s, o = Ok s -> xs_binding s = binding_in r (lo_signal_id rq)).
Proof.
  unfold refresh_binding_and_exchange_state. apply triple_read. intros cur.
  eapply triple_quiet; [apply framed_fills, same_repo_framed; done|intros fs|naive_solver].
  eapply triple_quiet; [apply framed_lookup, same_repo_framed; done|intros co|naive_solver].
  eapply triple_quiet; [apply framed_open_orders, same_repo_framed; done|intros os|naive_solver].
  eapply triple_quiet; [apply framed_positions, same_repo_framed; done|intros ps|naive_solver].
  apply triple_ret. intros r [Hp <-]. split; [done|]. by intros s [= <-].
Qed.

(** A transition followed by reading the binding. *)
Lemma transition_read sid cur st t reason u :
  st ∈ next_states (pb_state cur) -> keeps_identity u ->
  triple (X := X) (fun r => binding_in r sid = cur)
    (run! gw_transition cur st t reason u; preflight_binding sid)
    (fun o r => forall b, o = Ok b -> binding_in r sid = b).
Proof.
  intros Hn Hu. eapply triple_bind; [by apply transition_triple| |by intros e r _ b].
  intros _ g Hw _. simpl. split_and!; try done. by intros b [= <-].
Qed.

Lemma ensure_triple rq cur t reason :
  triple (X := X) (fun r => binding_in r (lo_signal_id rq) = cur)
    (ensure_reconciliation_required rq cur t reason)
    (fun o r => forall b, o = Ok b -> binding_in r (lo_signal_id rq) = b).
Proof.
  unfold ensure_reconciliation_required. apply triple_read. intros latest.
  apply triple_fix. intros r0 Hw [Hcur Hl]. assert (latest = cur) as -> by congruence.
  clear Hl. rewrite Z.eqb_refl. apply (triple_conseq (fun r => binding_in r (lo_signal_id rq) = cur)
    _ _ (fun o r => forall b, o = Ok b -> binding_in r (lo_signal_id rq) = b));
    [|by intros r <-|done].
  assert (triple (X := X) (fun r => binding_in r (lo_signal_id rq) = cur) (pret cur)
    (fun o r => forall b, o = Ok b -> binding_in r (lo_signal_id rq) = b)) as Hret.
  { apply triple_ret. by intros r <- b [= <-]. }
  assert (pb_state cur ∈ [B_UNBOUND; B_ABORTED] ->
    triple (X := X) (fun r => binding_in r (lo_signal_id rq) = cur)
      (do! ok <- cas cur
         (set_position (pb_position_snapshot cur) (Some reason)
            (set_first_request (lo_request_id rq)
               (set_version (pb_version cur + 1) (Some (default t (pb_created_at cur)))
                  (new_binding (lo_signal_id rq)
                     (cp_preflight_hash (lo_cross_venue_preflight rq))
                     B_RECONCILIATION_REQUIRED t))));
       if ok then preflight_binding (lo_signal_id rq)
       else praise (ExecutionAdapterError cas_conflict))
      (fun o r => forall b, o = Ok b -> binding_in r (lo_signal_id rq) = b)) as Hnew.
  { intros Hst. eapply triple_bind.
    - apply (cas_triple (lo_signal_id rq)). unfold binding_edge. simpl.
      rewrite <-Hcur, binding_in_signal, Hcur by done. split_and!; auto.
      destruct (pb_state cur); simpl; set_solver.
    - intros [|] g Hw' _; simpl; split_and!; try done. by intros b [= <-].
    - by intros e r _ b. }
  destruct (pb_state cur) eqn:Es; try apply Hret; try (apply Hnew; set_solver).
  - apply transition_read; [rewrite Es; simpl; set_solver|apply first_request_keeps].
  - apply transition_read; [rewrite Es; simpl; set_solver|apply second_request_keeps].
Qed.

Lemma apply_safe rq s t : safe (X := X) (fun _ => True) (apply_reconciliation_snapshot rq s t).
Proof.
  unfold apply_reconciliation_snapshot. apply triple_read. intros cur.
  case_bool_decide as Es; cbn [negb]; [|by apply triple_raise].
  assert (forall st reason u, st ∈ next_states B_RECONCILIATION_REQUIRED -> keeps_identity u ->
    safe (X := X) (fun r => True /\ binding_in r (lo_signal_id rq) = cur)
      (gw_transition cur st t reason u)) as Ht.
  { intros st reason u Hst Hu. eapply safe_transition; [by rewrite Es|done|by intros r [_ ?]]. }
  repeat case_goal; apply Ht; simpl; try set_solver;
    auto using id_keeps, second_external_keeps, first_leg_keeps.
Qed.

Lemma handle_safe rq s t :
  safe (X := X) (fun r => binding_in r (lo_signal_id rq) = xs_binding s) (handle_cas_snapshot rq s t).
Proof.
  unfold handle_cas_snapshot.
  case_goal; [|case_goal; [|case_goal; [by apply triple_ret|]]].
  - eapply triple_bind; [apply ensure_triple|intros cur|done].
    eapply (triple_bind _ _ _ (fun _ _ => True)); [|intros u; by apply triple_ret|done].
    case_goal; [|by apply triple_ret]. eapply safe_of; [apply apply_safe|done].
  - eapply triple_bind; [apply ensure_triple|intros cur|done].
    eapply (triple_bind _ _ _ (fun _ _ => True)); [|intros u; by apply triple_ret|done].
    case_bool_decide as Es; [|by apply triple_ret].
    eapply (safe_transition (lo_signal_id rq));
      [rewrite Es; simpl; set_solver|apply id_keeps|by intros r H; apply H].
  - eapply triple_bind; [apply ensure_triple|intros cur; by apply triple_ret|done].
Qed.

Lemma recover_ack_safe rq a t : safe (X := X) (held (lo_signal_id rq)) (recover_ack self rq a t).
Proof.
  intros g Hw Hh. unfold recover_ack. destruct (ack_safe rq a t g Hw Hh) as (Hw1 & He1 & _).
  destruct (record_preflight_ack rq a t g) as [g1 [u|e]]; simpl in *; [done|].
  destruct e; try done.
  match goal with |- context [ gw_repository (?m g1).1 ] =>
    assert (safe (X := X) (fun _ => True) m) as H end.
  { eapply triple_bind; [apply refresh_triple|intros s|done].
    eapply triple_bind; [|intros b|done].
    - eapply safe_of; [apply (handle_safe rq s t)|]. intros r [_ H]. symmetry. by apply H.
    - apply triple_read. intros cur. case_goal; [by apply triple_ret|by apply triple_raise]. }
  destruct (H g1 Hw1 Logic.I) as (Hw2 & He2 & _). split_and!; try done. by etransitivity.
Qed.

(** ** Placing an order *)

Lemma returning_quiet {A} (m : M G A) (Pre : R -> Prop) :
  steps same_repo m ->
  triple (X := X) Pre (returning m) (fun o r => Pre r /\ o <> Ok Continue).
Proof.
  intros H g Hw Hp. destruct (triple_frame Pre m H g Hw Hp) as (Hw1 & He1 & Hp1).
  unfold returning, pbind. destruct (m g) as [g1 [a|e]]; simpl in *; done.
Qed.

Lemma reject_quiet rq t reason : steps same_repo (reject_and_remember uuid4 self rq t reason).
Proof. by apply steps_reject, same_repo_framed. Qed.

Lemma place_reserve_triple retry rq t :
  (forall m, retry = Some m -> safe (X := X) (fun _ => True) m) ->
  triple (X := X) (fun _ => True) (place_reserve uuid4 self retry rq t)
    (fun o r => o = Ok Continue -> held (lo_signal_id rq) r).
Proof.
  intros Hr.
  assert (forall reason Pre, triple (X := X) Pre (returning (reject_and_remember uuid4 self rq t reason))
    (fun o r => o = Ok Continue -> held (lo_signal_id rq) r)) as Hrej.
  { intros reason Pre. eapply triple_conseq; [apply (returning_quiet _ Pre), reject_quiet|done|].
    by intros o r [_ ?]. }
  unfold place_reserve.
  eapply triple_quiet; [apply framed_health, same_repo_framed; done|intros h|done].
  destruct h; cbn [negb]; [|apply Hrej].
  eapply triple_bind; [apply reserve_triple|intros [f|]|done];
    [|apply triple_ret; intros r H _; by apply H].
  destruct retry as [m|]; [|apply Hrej]. case_goal; [|apply Hrej].
  eapply (triple_bind _ _ _ (fun o r =>
    forall s, o = Ok (Return s) -> xs_binding s = binding_in r (lo_signal_id rq))).
  - eapply (triple_try _ _ _ (fun o r =>
      forall s, o = Ok (Return s) -> xs_binding s = binding_in r (lo_signal_id rq)));
      [|intros e; by apply triple_ret|done].
    eapply triple_bind; [apply refresh_triple| |done].
    intros s. apply triple_ret. intros r [_ H] s' [= <-]. by apply H.
  - intros [s|]; [|apply Hrej]. eapply triple_bind.
    + eapply safe_of; [apply (handle_safe rq s t)|]. intros r H. symmetry. by apply H.
    + intros [|]; [|apply Hrej]. unfold returning.
      eapply triple_bind; [eapply safe_of; [by apply Hr|done]|intros a; by apply triple_ret|done].
    + done.
  - done.
Qed.

Lemma place_precheck_triple rq t :
  triple (X := X) (held (lo_signal_id rq)) (place_precheck uuid4 self rq t)
    (fun o r => abortable (lo_signal_id rq) r /\ (o = Ok Continue -> held (lo_signal_id rq) r)).
Proof.
  assert (forall failure reason, triple (X := X) (held (lo_signal_id rq))
    (run! abort_preflight rq t failure; returning (reject_and_remember uuid4 self rq t reason))
    (fun o r => abortable (lo_signal_id rq) r /\ (o = Ok Continue -> held (lo_signal_id rq) r)))
    as Hab.
  { intros failure reason.
    eapply (triple_bind _ _ _ (fun _ => abortable (lo_signal_id rq))).
    - eapply triple_conseq; [apply abort_triple|apply held_abortable|done].
    - intros u. eapply triple_conseq; [apply returning_quiet, reject_quiet|done|].
      by intros o r [? ?].
    - done. }
  unfold place_precheck.
  eapply triple_quiet; [apply framed_open_orders, same_repo_framed; done|intros os|];
    [|intros e r H; by split; [apply held_abortable|]].
  case_goal; [apply Hab|].
  eapply triple_quiet; [apply framed_positions, same_repo_framed; done|intros ps|];
    [|intros e r H; by split; [apply held_abortable|]].
  eapply triple_bind; [apply position_triple|intros u|intros e r H; by split; [apply held_abortable|]].
  case_goal; [case_goal; apply Hab|]. apply triple_ret.
  intros r H. split; [by apply held_abortable|done].
Qed.

Lemma place_error_triple {A} p rq t e (Post : result A -> R -> Prop) :
  (forall e' r, Post (Err e') r) ->
  triple (X := X) (fun r => p = Reserved -> abortable (lo_signal_id rq) r)
    (place_error (A := A) uuid4 self p rq t e) Post.
Proof.
  intros HP. unfold place_error. eapply (triple_bind _ _ _ (fun _ _ => True)).
  - destruct p.
    + by apply triple_ret.
    + eapply safe_of; [apply abort_triple|by auto].
    + eapply safe_of; [apply mark_safe|done].
  - intros u. eapply triple_quiet; [by apply steps_audit, same_repo_framed| |by auto].
    intros u'. apply triple_raise. by auto.
  - by auto.
Qed.

Lemma acknowledge_safe rq a t :
  safe (X := X) (held (lo_signal_id rq)) (place_acknowledge uuid4 self rq a t).
Proof.
  unfold place_acknowledge. case_goal.
  - eapply triple_bind; [eapply safe_of; [apply mark_safe|done]|intros u|done].
    eapply triple_quiet; [by apply steps_audit, same_repo_framed| |done].
    intros u'. by apply triple_raise.
  - eapply triple_bind; [apply recover_ack_safe|intros u|done].
    apply safe_quiet. apply steps_bind; [apply same_repo_preorder| |intros _].
    + by apply steps_modify.
    + apply steps_bind; [apply same_repo_preorder|by apply steps_audit, same_repo_framed|].
      intros _. apply steps_ret, same_repo_preorder.
Qed.

Lemma place_submit_safe retry rq t :
  (forall m, retry = Some m -> safe (X := X) (fun _ => True) m) ->
  safe (X := X) (fun _ => True) (place_submit uuid4 self retry rq t).
Proof.
  intros Hr. unfold place_submit.
  eapply (triple_bind _ _ _ (fun o r => o = Ok Continue -> held (lo_signal_id rq) r)).
  - eapply triple_try; [by apply place_reserve_triple|intros e|intros a r H; exact H].
    eapply triple_conseq; [apply (place_error_triple NotReserved rq t e
      (fun o r => o = Ok Continue -> held (lo_signal_id rq) r))|done|done]. done.
  - intros [a|]; [by apply triple_ret|].
    eapply (triple_bind _ _ _ (fun o r => o = Ok Continue -> held (lo_signal_id rq) r)).
    + eapply triple_try.
      * eapply triple_conseq; [apply place_precheck_triple|intros r H; by apply H|intros o r H; exact H].
      * intros e. eapply triple_conseq; [apply (place_error_triple Reserved rq t e
          (fun o r => o = Ok Continue -> held (lo_signal_id rq) r)); done| |done].
        by intros r [? _].
      * by intros a r [_ ?].
    + intros [a|]; [by apply triple_ret|].
      eapply (triple_bind _ _ _ (fun o r => forall a, o = Ok a -> held (lo_signal_id rq) r)).
      * eapply (triple_try _ _ _ (fun _ => held (lo_signal_id rq))).
        -- eapply triple_conseq; [apply (triple_frame (held (lo_signal_id rq)))| |].
           ++ intros g. unfold same_repo. rewrite (proj1 (proj2 (await_world _ _))).
              apply (iso_place self).
           ++ intros r H. by apply H.
           ++ done.
        -- intros e. eapply triple_conseq; [apply (place_error_triple SubmissionStarted rq t e
             (fun o r => forall a, o = Ok a -> held (lo_signal_id rq) r)); done|done|done].
        -- by auto.
      * intros a. eapply safe_of; [apply acknowledge_safe|]. intros r H. by eapply H.
      * done.
    + done.
  - done.
Qed.

Lemma place_attempt_safe retry rq rd t :
  (forall m, retry = Some m -> safe (X := X) (fun _ => True) m) ->
  safe (X := X) (fun _ => True) (place_attempt uuid4 self retry rq rd t).
Proof.
  intros Hr g Hw _. unfold place_attempt. case_goal.
  - match goal with |- context [ gw_repository (?m g).1 ] =>
      enough (safe (X := X) (fun _ => True) m) as H by (by apply H) end.
    apply safe_quiet. apply steps_bind; [apply same_repo_preorder|by apply steps_audit, same_repo_framed|].
    intros _. apply steps_ret, same_repo_preorder.
  - match goal with |- context [ gw_repository (?m g).1 ] =>
      enough (safe (X := X) (fun _ => True) m) as H by (by apply H) end.
    eapply triple_quiet; [by apply steps_validate, same_repo_framed|intros [r|]|done].
    + apply safe_quiet, reject_quiet.
    + by apply place_submit_safe.
Qed.

Lemma place_order_safe rq rd t : safe (X := X) (fun _ => True) (place_order uuid4 self rq rd t).
Proof.
  unfold place_order. eapply triple_quiet; [apply steps_lift, same_repo_preorder|intros z|done].
  apply place_attempt_safe. intros m [= <-]. by apply place_attempt_safe.
Qed.

Lemma reconcile_safe rq t : safe (X := X) (fun _ => True) (reconcile_binding self rq t).
Proof.
  unfold reconcile_binding. eapply triple_quiet; [apply steps_lift, same_repo_preorder|intros z|done].
  apply triple_read. intros cur. case_bool_decide as Es; cbn [negb]; [|by apply triple_raise].
  eapply (triple_bind _ _ _ (fun _ _ => True)).
  - eapply (triple_try _ _ _ (fun _ r => binding_in r (lo_signal_id rq) = cur)); [| |done].
    + eapply triple_bind; [apply refresh_triple|intros s|by intros e r [[_ ?] _]].
      apply triple_ret. by intros r [[_ ?] _].
    + intros e. eapply (triple_bind _ _ _ (fun _ _ => True)); [|intros u; by apply triple_ret|done].
      eapply (safe_transition (lo_signal_id rq)); [rewrite Es; simpl; set_solver|apply id_keeps|done].
  - intros s. eapply (triple_bind _ _ _ (fun _ _ => True)); [|intros u|done].
    + case_goal; [apply apply_safe|by apply triple_ret].
    + apply safe_quiet. by intros g.
  - done.
Qed.

Lemma halt_safe sid reason t : safe (X := X) (fun _ => True) (halt_binding sid reason t).
Proof.
  unfold halt_binding. apply triple_read. intros cur.
  case_bool_decide as Es; cbn [negb]; [|by apply triple_raise].
  eapply triple_quiet; [apply steps_lift, same_repo_preorder|intros z|done].
  eapply (triple_bind _ _ _ (fun _ _ => True)); [|intros u; apply safe_quiet; by intros g|done].
  eapply (safe_transition sid); [|apply id_keeps|by intros r [_ ?]].
  destruct (pb_state cur); simpl; set_solver.
Qed.

End Protocol.

(** ** Which orders are sent *)

Section Orders.
Context {C : DecimalContext} {D : Digest} {J : PreflightJson}.
Context {X R : Type} {B : BindingRepository R} {BL : BindingLaws R}.
Variable uuid4 : N -> string.
Variable self : GatewayConfig X R.
Variable sent : X -> list LiveOrderRequest.
Context {I : Isolated self} {L : OrderLog self sent}.
Abbreviation G := (LiveExecutionGateway X R).

Lemma cas_false cur b (g g' : G) : cas cur b g = (g', Ok false) -> same_repo g g'.
Proof.
  unfold cas, same_repo. intros [= <- H]. simpl. by apply cas_failed.
Qed.

Lemma reserve_allows rq t (g g' : G) :
  reserve_preflight rq t g = (g', Ok None) -> may_order (binding_at g (lo_signal_id rq)) rq.
Proof.
  unfold reserve_preflight, preflight_binding. unfold pbind at 1. cbv beta iota.
  set (cur := binding_at g (lo_signal_id rq)). unfold may_order.
  case_bool_decide as Hst.
  - destruct (lo_preflight_recovery_action rq); [done|]. by left.
  - case_bool_decide as Hh; [done|]. right. split; [done|].
    destruct (pb_state cur) eqn:Es; try done.
    + case_bool_decide; [done|]. destruct (lo_preflight_recovery_action rq); [done|]. by left.
    + destruct (hedging_operation_allowed cur rq); [|done]. by right.
Qed.

Lemma reserve_refused rq t (g g' : G) f :
  reserve_preflight rq t g = (g', Ok (Some f)) -> same_repo g g'.
Proof.
  assert (forall cur b, pbind (cas cur b) (fun ok => pret (if ok then None else Some cas_conflict)) g
    = (g', Ok (Some f)) -> same_repo g g') as Hc.
  { intros cur b H. apply pbind_ok in H as (g1 & ok & H & H'). destruct ok; [done|].
    injection H' as <- _. by eapply cas_false. }
  unfold reserve_preflight, preflight_binding. unfold pbind at 1. cbv beta iota.
  set (cur := binding_at g (lo_signal_id rq)).
  assert (forall reason : string, (g, Ok (Some reason)) = (g', Ok (Some f)) -> same_repo g g') as Hr.
  { by intros reason [= <- _]. }
  case_bool_decide; [destruct (lo_preflight_recovery_action rq); [apply Hr|apply Hc]|].
  case_bool_decide; [apply Hr|]. destruct (pb_state cur); try apply Hr.
  - case_bool_decide; [apply Hr|]. destruct (lo_preflight_recovery_action rq); [apply Hr|apply Hc].
  - destruct (hedging_operation_allowed cur rq); [apply Hc|apply Hr].
Qed.

Lemma handle_retry rq s t (g g' : G) : handle_cas_snapshot rq s t g = (g', Ok true) -> g' = g.
Proof.
  unfold handle_cas_snapshot.
  case_goal; [|case_goal; [|case_goal; [by intros [= <-]|]]]; intros H;
    apply pbind_ok in H as (g1 & b & _ & H); try done; by apply pbind_ok in H as (? & ? & _ & ?).
Qed.

(** Nothing was sent, or the binding allows the order. *)
Definition sent_if_allowed (rq : LiveOrderRequest) (g g' : G) : Prop :=
  same_sent sent g g' \/ may_order (binding_at g (lo_signal_id rq)) rq.

Lemma place_reserve_allowed retry rq t :
  (forall m, retry = Some m -> steps (sent_if_allowed rq) m) ->
  steps (sent_if_allowed rq) (place_reserve uuid4 self retry rq t).
Proof.
  intros Hr g. pose proof (same_sent_framed sent self) as F1.
  pose proof (same_repo_framed self) as F2.
  pose proof (cas_same_sent (X := X) (R := R) sent) as Hc.
  unfold place_reserve. unfold pbind at 1.
  pose proof (framed_health self (same_sent sent) g) as Hs1.
  pose proof (framed_health self same_repo g) as Hr1.
  destruct (await (ad_health_check (gc_adapter self)) g) as [g1 [h|e]]; simpl in Hs1, Hr1; [|by left].
  assert (forall reason g2, same_sent sent g g2 -> sent_if_allowed rq g
    (returning (reject_and_remember uuid4 self rq t reason) g2).1) as Hrej.
  { intros reason g2 H2. left.
    pose proof (steps_returning self (same_sent sent) _
      (steps_reject uuid4 self (same_sent sent) rq t reason) g2) as H. unfold same_sent in *. congruence. }
  destruct h; cbn [negb]; [|by apply Hrej]. unfold pbind at 1.
  pose proof (steps_reserve self (same_sent sent) Hc rq t g1) as Hs2.
  destruct (reserve_preflight rq t g1) as [g2 [[f|]|e]] eqn:Ev; simpl in Hs2.
  - assert (same_sent sent g g2) as Hs by (unfold same_sent in *; congruence).
    apply reserve_refused in Ev. destruct retry as [m|]; [|by apply Hrej].
    case_goal; [|by apply Hrej]. unfold pbind at 1.
    assert (forall (P : G -> G -> Prop), Framed self P -> steps P (ptry
      (do! s <- refresh_binding_and_exchange_state self rq t; pret (Return s))
      (fun _ => pret Continue))) as Hf.
    { intros P FP. apply steps_try; [apply FP| |intros e; apply steps_ret, FP].
      apply steps_bind; [apply FP|by apply steps_refresh|intros s; apply steps_ret, FP]. }
    pose proof (Hf _ F1 g2) as Hs3. pose proof (Hf _ F2 g2) as Hr3.
    destruct (ptry _ _ g2) as [g3 [[s|]|e]]; simpl in Hs3, Hr3.
    + unfold pbind at 1. pose proof (steps_handle self (same_sent sent) Hc rq s t g3) as Hs4.
      destruct (handle_cas_snapshot rq s t g3) as [g4 [[|]|e]] eqn:Eh; simpl in Hs4.
      * apply handle_retry in Eh as ->. specialize (Hr m eq_refl g3).
        assert (binding_at g3 (lo_signal_id rq) = binding_at g (lo_signal_id rq)) as Eb.
        { unfold binding_at, same_repo in *. by rewrite Hr3, Ev, Hr1. }
        unfold returning, pbind. unfold sent_if_allowed in *. rewrite Eb in Hr.
        destruct Hr as [Hr|Hr]; [|by right]. left.
        destruct (m g3) as [g5 [a|e]]; simpl in *; unfold same_sent in *; congruence.
      * apply Hrej. unfold same_sent in *. congruence.
      * left. unfold same_sent in *. simpl. congruence.
    + apply Hrej. unfold same_sent in *. congruence.
    + left. unfold same_sent in *. simpl. congruence.
  - right. apply reserve_allows in Ev. unfold binding_at, same_repo in *. by rewrite Hr1 in Ev.
  - left. unfold same_sent in *. simpl. congruence.
Qed.

Lemma place_submit_allowed retry rq t :
  (forall m, retry = Some m -> steps (sent_if_allowed rq) m) ->
  steps (sent_if_allowed rq) (place_submit uuid4 self retry rq t).
Proof.
  intros Hr g. pose proof (same_sent_framed sent self) as F1.
  unfold place_submit, pbind at 1. unfold ptry at 1.
  pose proof (place_reserve_allowed retry rq t Hr g) as H1.
  destruct (place_reserve uuid4 self retry rq t g) as [g1 [[a|]|e]] eqn:E; simpl in H1.
  - done.
  - right. apply place_reserve_continue in E as (g0 & Hw & _ & E). apply reserve_allows in E.
    unfold binding_at in *. pose proof (iso_health self (gw_exchange g, gw_repository g)) as Hi.
    rewrite Hw in Hi. simpl in Hi. by rewrite Hi in E.
  - pose proof (steps_error (A := flow ExecutionOrderAck) uuid4 self (same_sent sent)
      (cas_same_sent sent) NotReserved rq t e g1) as He.
    destruct (place_error _ _ _ _ _ _ _) as [g2 [o|e']] eqn:Ee; simpl in He.
    + exfalso. unfold place_error in Ee.
      apply pbind_ok in Ee as (? & ? & _ & Ee). apply pbind_ok in Ee as (? & ? & _ & Ee). done.
    + destruct H1 as [H1|H1]; [left|by right]. unfold same_sent in *. simpl. congruence.
Qed.

Lemma place_attempt_allowed retry rq rd t :
  (forall m, retry = Some m -> steps (sent_if_allowed rq) m) ->
  steps (sent_if_allowed rq) (place_attempt uuid4 self retry rq rd t).
Proof.
  intros Hr g. pose proof (same_sent_framed sent self) as F1.
  pose proof (same_repo_framed self) as F2. unfold place_attempt.
  destruct (dict_get _ _) as [prev|].
  { left. match goal with |- context [ (?m g).1 ] => enough (steps (same_sent sent) m) as H by apply H end.
    apply steps_bind; [apply F1|by apply steps_audit|intros u; apply steps_ret, F1]. }
  unfold pbind.
  pose proof (steps_validate self (same_sent sent) rq t (allowed rd || lo_reduce_only rq)
    (evaluated_at rd) false (Some (decision_id rd)) (option_map z_quantity (sizing rd)) g) as Hv.
  pose proof (steps_validate self same_repo rq t (allowed rd || lo_reduce_only rq)
    (evaluated_at rd) false (Some (decision_id rd)) (option_map z_quantity (sizing rd)) g) as Hv'.
  destruct (validate_request _ _ _ _ _ _ _ _ g) as [g1 [[r|]|e]]; simpl in Hv, Hv'; [| |by left].
  - left. pose proof (steps_reject uuid4 self (same_sent sent) rq t r g1) as H.
    unfold same_sent in *. congruence.
  - pose proof (place_submit_allowed retry rq t Hr g1) as H.
    unfold sent_if_allowed, binding_at, same_repo, same_sent in *. rewrite Hv' in H.
    destruct H as [H|H]; [left; congruence|by right].
Qed.

Lemma place_order_allowed rq rd t : steps (sent_if_allowed rq) (place_order uuid4 self rq rd t).
Proof.
  intros g. unfold place_order, pbind, plift. destruct (gateway_utc t) as [z|e]; [|by left].
  apply place_attempt_allowed. intros m [= <-]. by apply place_attempt_allowed.
Qed.

End Orders.

(** ** Theorems *)

Lemma gw_step_evolves {C : DecimalContext} {D : Digest} {J : PreflightJson} {X R : Type}
    {B : BindingRepository R} {BL : BindingLaws R} uuid4 (self : GatewayConfig X R)
    `{I : !Isolated self} g g' :
  gw_step uuid4 self g g' -> repo_wf (gw_repository g) ->
  repo_wf (gw_repository g') /\ evolves (gw_repository g) (gw_repository g').
Proof.
  intros Hst Hw. pose proof (same_repo_framed self) as F.
  assert (forall A (m : M _ A), safe (fun _ => True) m ->
    repo_wf (gw_repository (m g).1) /\ evolves (gw_repository g) (gw_repository (m g).1)) as Hs.
  { intros A m Hm. destruct (Hm g Hw Logic.I) as (? & ? & _). done. }
  assert (forall A (m : M (X * R) A), (forall w, (m w).1.2 = w.2) ->
    steps same_repo (await (X := X) m)) as Ha.
  { intros A m Hm g0. unfold same_repo. by rewrite (proj1 (proj2 (await_world _ _))), Hm. }
  destruct Hst as [rq rd t g|rq t g|rq t g|sid r t g|i t g|r t g|s t g]; apply Hs.
  - by apply place_order_safe.
  - by apply safe_quiet, steps_preview.
  - by apply reconcile_safe.
  - by apply (halt_safe self).
  - apply safe_quiet. apply (steps_cancel uuid4 self same_repo). apply Ha. apply (iso_cancel self).
  - apply safe_quiet. apply (steps_kill uuid4 self same_repo); [done|]. apply Ha. apply (iso_cancel_all self).
  - apply safe_quiet. apply (steps_close uuid4 self same_repo). apply Ha. apply (iso_close self).
Qed.

Lemma binding_edges_version b b' : rtc binding_edge b b' -> pb_version b <= pb_version b'.
Proof. induction 1 as [|b b1 b2 (_ & Hv & _) _ IH]; lia. Qed.

Lemma binding_edges_final b b' :
  rtc binding_edge b b' -> pb_state b ∈ [B_COMPLETED; B_HALTED] -> b' = b.
Proof.
  intros Hr Hst. destruct Hr as [|b b1 b2 (_ & _ & Hn & _) _]; [done|].
  exfalso. destruct (pb_state b); simpl in Hn; set_solver.
Qed.

(** C4: bindings follow their protocol.  When one gateway works on the bindings,
    any sequence of its operations, with every exception and refusal of the
    adapter, moves each signal's binding along the state machine, its version
    up by one with each write; a completed or halted binding never changes
    again. *)
Theorem binding_protocol {C : DecimalContext} {D : Digest} {J : PreflightJson} {X R : Type}
    {B : BindingRepository R} (uuid4 : N -> string) (self : GatewayConfig X R)
    (g g' : LiveExecutionGateway X R) (sid : string) :
  BindingLaws R -> Isolated self -> repo_wf (gw_repository g) ->
  rtc (gw_step uuid4 self) g g' ->
  rtc binding_edge (binding_at g sid) (binding_at g' sid) /\
  pb_version (binding_at g sid) <= pb_version (binding_at g' sid) /\
  (pb_state (binding_at g sid) ∈ [B_COMPLETED; B_HALTED] -> binding_at g' sid = binding_at g sid).
Proof.
  intros BL I Hw Hr.
  assert (rtc binding_edge (binding_at g sid) (binding_at g' sid)) as He.
  { induction Hr as [g|g g1 g2 Hst Hr IH]; [done|].
    destruct (gw_step_evolves uuid4 self g g1 Hst Hw) as [Hw1 He1].
    etransitivity; [apply (He1 sid)|by apply IH]. }
  split_and!; [done|by apply binding_edges_version|by apply binding_edges_final].
Qed.

Lemma sample_isolated : Isolated sample_config.
Proof. by split. Qed.

Lemma sample_repo_wf : repo_wf (gw_repository sample_gateway).
Proof.
  intros sid b H. change ((∅ : gmap string PreflightBinding) !! sid = Some b) in H.
  by rewrite lookup_empty in H.
Qed.

Lemma binding_protocol_witness :
  let g1 := (sample_place_order first_request sample_gateway).1 in
  let g2 := (sample_place_order second_request g1).1 in
  pb_state (binding_at g2 "signal-0001") = B_COMPLETED /\
  rtc binding_edge (binding_at sample_gateway "signal-0001") (binding_at g2 "signal-0001").
Proof.
  intros g1 g2. split; [vm_compute; reflexivity|].
  refine (proj1 (@binding_protocol default_context sample_digest sample_json _ _ _ sample_uuid4
    sample_config sample_gateway g2 "signal-0001" in_memory_laws sample_isolated
    sample_repo_wf _)).
  apply rtc_l with g1; [apply gs_place|]. apply rtc_once. apply gs_place.
Defined.

(** An order needs its binding.  When one gateway works on the bindings, a
    call of [place_order] sends nothing unless the binding of the order's signal
    allows it: it is free, or the first leg was accepted under the same
    preflight and the order is for the other leg, or a hedge is required under
    the same preflight and the order is a hedge or a reduce-only unwind of the
    first leg.  Reserved, submitted, completed, halted and unreconciled bindings
    refuse every order. *)
Theorem order_needs_binding {C : DecimalContext} {D : Digest} {J : PreflightJson} {X R : Type}
    {B : BindingRepository R} (uuid4 : N -> string) (self : GatewayConfig X R)
    (sent : X -> list LiveOrderRequest) (rq : LiveOrderRequest) (rd : RiskDecision)
    (t : datetime) (g g' : LiveExecutionGateway X R) (r : result ExecutionOrderAck) :
  BindingLaws R -> Isolated self -> OrderLog self sent ->
  place_order uuid4 self rq rd t g = (g', r) ->
  sent (gw_exchange g') <> sent (gw_exchange g) ->
  may_order (binding_at g (lo_signal_id rq)) rq.
Proof.
  intros BL I L H Hs. pose proof (place_order_allowed uuid4 self sent rq rd t g) as Ha.
  rewrite H in Ha. by destruct Ha.
Qed.

Lemma order_needs_binding_witness :
  let g1 := (sample_place_order first_request sample_gateway).1 in
  may_order (binding_at g1 "signal-0001") second_request.
Proof.
  intros g1. set (out := sample_place_order second_request g1).
  refine (@order_needs_binding default_context sample_digest sample_json _ _ _ sample_uuid4
    sample_config sx_sent second_request sample_decision (Aware sample_now) g1 out.1 out.2
    in_memory_laws sample_isolated sample_order_log (surjective_pairing _) _).
  intros H. apply (f_equal (@length _)) in H. vm_compute in H. discriminate H.
Defined.

(** The evidence a reconciliation needs to conclude that an order exists or
    does not. *)
Definition order_seen `{DecimalContext} (rq : LiveOrderRequest)
    (s : ExchangeReconciliationSnapshot) : Prop :=
  (exists o, xs_client_order s = Some o /\ client_order_matches rq s = true /\
     ro_status o ∈ [RO_OPEN; RO_PARTIALLY_FILLED; RO_FILLED]) \/
  (exists o, xs_matching_open_orders s = [o]) \/
  (xs_matching_fills s <> [] /\ (filled_quantity s <= lo_quantity rq)%Q /\
   exists d, position_delta rq s = Some d /\
     (d == match lo_side rq with BUY => filled_quantity s | SELL => dneg (filled_quantity s) end)%Q).

Definition order_absent `{DecimalContext} (rq : LiveOrderRequest)
    (s : ExchangeReconciliationSnapshot) : Prop :=
  xs_matching_fills s = [] /\ xs_matching_open_orders s = [] /\
  (exists d, position_delta rq s = Some d /\ (d == 0)%Q) /\
  (forall o, xs_client_order s = Some o -> client_order_matches rq s = true /\
     ro_status o ∈ [RO_CANCELED; RO_REJECTED; RO_EXPIRED]).

Section Verdict.
Context {C : DecimalContext}.
Variables (rq : LiveOrderRequest) (s : ExchangeReconciliationSnapshot).

Lemma exists_seen : snapshot_proves_order_exists rq s = true -> order_seen rq s.
Proof.
  unfold snapshot_proves_order_exists, order_seen.
  destruct (client_order_matches rq s && _) eqn:E1.
  { intros _. left. apply andb_true_iff in E1 as [E1 E2].
    destruct (xs_client_order s) as [o|]; [|done]. exists o.
    by apply bool_decide_eq_true in E2. }
  destruct (length _ =? 1)%nat eqn:E2.
  { intros _. right. left. apply Nat.eqb_eq in E2.
    destruct (xs_matching_open_orders s) as [|o [|]]; try done. by exists o. }
  unfold fills_match_position_delta. destruct (xs_matching_fills s) eqn:Ef; [done|]. simpl.
  destruct (position_delta rq s) as [d|] eqn:Ed; [|done].
  intros [H1 H2]%andb_true_iff. right. right. split; [done|].
  apply Qle_bool_iff in H1. apply Qeq_bool_iff in H2. split; [done|]. by exists d.
Qed.

Lemma absent_sound :
  snapshot_is_ambiguous rq s = false -> snapshot_proves_order_exists rq s = false ->
  snapshot_proves_order_absent rq s = true -> order_absent rq s.
Proof.
  intros Ha He. unfold snapshot_proves_order_absent, order_absent.
  destruct (bool_decide _ && _) eqn:E1; [done|].
  destruct (negb _ || negb _) eqn:E2; [done|].
  apply orb_false_iff in E2 as [E2%negb_false_iff E3%negb_false_iff].
  destruct (xs_matching_fills s) eqn:Ef; [|done].
  destruct (xs_matching_open_orders s) eqn:Eo; [|done].
  destruct (position_delta rq s) as [d|] eqn:Ed; [|done]. intros Hd%Qeq_bool_iff.
  split_and!; try done; [by exists d|]. intros o Hc.
  unfold snapshot_is_ambiguous in Ha. unfold snapshot_proves_order_exists in He.
  rewrite Hc in *. rewrite bool_decide_eq_true_2 in E1 by done. simpl in E1.
  apply negb_false_iff in E1. split; [done|]. rewrite E1 in *. simpl in Ha, He.
  rewrite ?andb_false_r in Ha. destruct (bool_decide (ro_status o = RO_PENDING)) eqn:E4; [done|].
  destruct (bool_decide (ro_status o ∈ _)) eqn:E5 in He; [done|].
  apply bool_decide_eq_false in E4, E5. destruct (ro_status o); set_solver.
Qed.

End Verdict.

(** Reconciliation concludes only what the exchange shows.  Applying a
    snapshot to a binding that requires reconciliation settles it in one of five
    states: accepted or completed only when the order is seen (a matching live
    or filled order, one matching open order, or fills within the quantity that
    explain the change of position), aborted or hedging-required only when it is
    absent (no fills, no open order, an unchanged position, and the order, if
    known, dead), and halted otherwise; the leg is the second one exactly when
    the binding recorded the request as its second order. *)
Theorem reconcile_verdict {C : DecimalContext} {X R : Type} {B : BindingRepository R}
    (rq : LiveOrderRequest) (s : ExchangeReconciliationSnapshot) (t : Z)
    (g g' : LiveExecutionGateway X R) (u : unit) :
  BindingLaws R -> repo_wf (gw_repository g) ->
  apply_reconciliation_snapshot rq s t g = (g', Ok u) ->
  let old := binding_at g (lo_signal_id rq) in
  let st := pb_state (binding_at g' (lo_signal_id rq)) in
  let second := pb_second_order_request_id old = Some (lo_request_id rq) in
  pb_state old = B_RECONCILIATION_REQUIRED /\
  match st with
  | B_FIRST_LEG_ACCEPTED => order_seen rq s /\ ~ second
  | B_COMPLETED => order_seen rq s /\ second
  | B_ABORTED => order_absent rq s /\ ~ second
  | B_HEDGING_REQUIRED => order_absent rq s /\ second
  | B_HALTED => True
  | _ => False
  end.
Proof.
  intros BL Hw H. cbv zeta. unfold apply_reconciliation_snapshot, preflight_binding in H.
  unfold pbind at 1 in H. cbv beta iota in H.
  set (cur := binding_at g (lo_signal_id rq)) in *.
  destruct (bool_decide (pb_state cur = _)) eqn:Es in H; cbn [negb] in H; [|done].
  apply bool_decide_eq_true in Es. split; [done|].
  assert (forall st reason upd, st ∈ next_states (pb_state cur) -> keeps_identity upd ->
    gw_transition cur st t reason upd g = (g', Ok u) ->
    pb_state (binding_at g' (lo_signal_id rq)) = st) as Ht.
  { intros st reason upd Hn Hu E.
    destruct (transition_triple (lo_signal_id rq) cur st t reason upd Hn Hu g Hw eq_refl)
      as (_ & _ & Hp). rewrite E in Hp. simpl in Hp. destruct Hp as [[_ Hp]|[? _]]; done. }
  rewrite Es in Ht. destruct (snapshot_is_ambiguous rq s) eqn:Ea in H.
  { apply Ht in H; [by rewrite H|simpl; set_solver|apply id_keeps]. }
  destruct (snapshot_proves_order_exists rq s) eqn:Ee in H.
  { apply exists_seen in Ee. destruct (bool_decide _) eqn:E2 in H.
    - apply bool_decide_eq_true in E2.
      apply Ht in H; [by rewrite H|simpl; set_solver|apply second_external_keeps].
    - apply bool_decide_eq_false in E2.
      apply Ht in H; [by rewrite H|simpl; set_solver|apply first_leg_keeps]. }
  destruct (snapshot_proves_order_absent rq s) eqn:Eb in H.
  { pose proof (absent_sound rq s Ea Ee Eb) as Hab. destruct (bool_decide _) eqn:E2 in H.
    - apply bool_decide_eq_true in E2.
      apply Ht in H; [by rewrite H|simpl; set_solver|apply id_keeps].
    - apply bool_decide_eq_false in E2.
      apply Ht in H; [by rewrite H|simpl; set_solver|apply id_keeps]. }
  apply Ht in H; [by rewrite H|simpl; set_solver|apply id_keeps].
Qed.

(** The sample gateway after the adapter raised while the first order was being
    placed: the order's fate is unknown. *)
Definition sample_open_binding : PreflightBinding :=
  set_position
    (Some {| ps_venue := "hyperliquid"; ps_symbol := "BTC"; ps_quantity_before := 0;
             ps_captured_at := sample_now |}) None
    (new_binding "signal-0001" "hash" B_RECONCILIATION_REQUIRED sample_now).

Definition sample_unreconciled : SampleGateway :=
  gw_set_world (gw_exchange sample_gateway,
    {| im_bindings := {[ "signal-0001" := sample_open_binding ]} |}) sample_gateway.

Definition sample_snapshot : ExchangeReconciliationSnapshot := {|
  xs_binding := binding_at sample_unreconciled "signal-0001"; xs_client_order := None;
  xs_matching_fills := []; xs_matching_open_orders := []; xs_positions := [];
  xs_captured_at := sample_now |}.

Lemma sample_unreconciled_wf : repo_wf (gw_repository sample_unreconciled).
Proof.
  intros sid b H.
  change (({[ "signal-0001" := sample_open_binding ]} : gmap string PreflightBinding) !! sid
          = Some b) in H.
  apply lookup_singleton_Some in H as [<- <-]. done.
Qed.

Lemma reconcile_verdict_witness :
  let C := default_context in
  let out := apply_reconciliation_snapshot first_request sample_snapshot sample_now
               sample_unreconciled in
  pb_state (binding_at out.1 "signal-0001") = B_ABORTED /\
  order_absent first_request sample_snapshot.
Proof.
  intros C out. assert (out.2 = Ok tt) as Ho by (vm_compute; reflexivity).
  assert (pb_state (binding_at out.1 "signal-0001") = B_ABORTED) as Hst
    by (vm_compute; reflexivity).
  split; [exact Hst|].
  assert (out = (out.1, Ok tt)) as E by (rewrite <-Ho; apply surjective_pairing).
  pose proof (@reconcile_verdict C _ _ _ first_request sample_snapshot sample_now
    sample_unreconciled out.1 tt in_memory_laws sample_unreconciled_wf E) as H.
  cbv zeta in H. change (lo_signal_id first_request) with "signal-0001" in H.
  rewrite Hst in H. exact (proj1 (proj2 H)).
Defined.

(** A run: the first leg, the second leg while three other orders are open, and
    another order for the first leg. *)
Definition after_first_leg : SampleGateway :=
  (sample_place_order first_request sample_gateway).1.
Definition after_refused_second : SampleGateway :=
  (sample_place_order second_request (with_open_orders 3 after_first_leg)).1.
Definition after_repeated_first : SampleGateway :=
  (sample_place_order repeated_request (with_open_orders 0 after_refused_second)).1.

(** A refused second leg forgets the first.  On a run, the first leg is
    accepted by the exchange and the second is refused because too many orders
    are open; the binding is then ABORTED, and a fresh order for the first leg
    is accepted: the exchange holds two orders of the same leg and none of the
    other. *)
Theorem abort_forgets_first_leg :
  pb_state (binding_at after_first_leg "signal-0001") = B_FIRST_LEG_ACCEPTED /\
  pb_state (binding_at after_refused_second "signal-0001") = B_ABORTED /\
  pb_state (binding_at after_repeated_first "signal-0001") = B_FIRST_LEG_ACCEPTED /\
  map lo_order_leg_role (sx_sent (gw_exchange after_repeated_first)) =
    ["receive_leg"; "receive_leg"].
Proof. vm_compute. split_and!; reflexivity. Qed.
