(* ===== verification/Websocket.v ===== *)
(** * The public-stream session (adapters/exchanges/websocket.py)

    A session reads the messages of one subscription, drops repeated payloads,
    and keeps an order book in step with the stream: deltas are applied in
    sequence, a gap is repaired from a REST snapshot and the deltas buffered
    meanwhile.

    The callbacks of the venue adapter are parameters: the classification of a
    payload ([cf_snapshot], [cf_delta], [cf_sequence], ...) is a function of it,
    while [_decode], the appliers, the REST snapshot and the sink may raise; the
    appliers work on a book of type [B].  [cf_rest_snapshot n] is the outcome of
    the [n]-th REST call; [wall n] and [mono n] are the [n]-th readings of the
    clocks.  What the network and other tasks do during one connection is the
    record [Attempt]. *)

From Stdlib Require Import ZArith QArith Lia.
From stdpp Require Import base tactics list strings gmap relations.
From S2P Require Import Prelude Decimals Binary64 Evidence.

Local Open Scope string_scope.
Local Open Scope Z_scope.

Inductive StreamClassification :=
| SNAPSHOT_DELTA | LIMITED_DEPTH_SNAPSHOT_STREAM | EVENTS.
#[export] Instance StreamClassification_eq_dec : EqDecision StreamClassification.
Proof. solve_decision. Defined.

Inductive OrderBookStreamSemantics :=
| SNAPSHOT_ONLY | SNAPSHOT_AND_DELTA | LIMITED_DEPTH_SNAPSHOT.
#[export] Instance OrderBookStreamSemantics_eq_dec : EqDecision OrderBookStreamSemantics.
Proof. solve_decision. Defined.

Inductive ConnectionState := CONNECTING | CONNECTED | RECOVERING | DEGRADED | CLOSED.
#[export] Instance ConnectionState_eq_dec : EqDecision ConnectionState.
Proof. solve_decision. Defined.

Record ConnectionReconciliationContext (Decoded : Type) := {
  rc_connection_id : string;
  rc_state : ReconciliationState;
  rc_previous_sequence : option Z;
  rc_snapshot_sequence : option Z;
  rc_buffered_deltas : list (Z * Decoded);
  rc_payload_hashes : gset string;
  rc_payload_hash_order : list string;
  rc_connection_epoch : Z;
  rc_bootstrap_completed : bool;
  rc_recovery_started_at : option Z;
  rc_recovery_completed_at : option Z;
  rc_last_recovery_failure : option string;
}.
Arguments rc_connection_id {Decoded} _.
Arguments rc_state {Decoded} _.
Arguments rc_previous_sequence {Decoded} _.
Arguments rc_snapshot_sequence {Decoded} _.
Arguments rc_buffered_deltas {Decoded} _.
Arguments rc_payload_hashes {Decoded} _.
Arguments rc_payload_hash_order {Decoded} _.
Arguments rc_connection_epoch {Decoded} _.
Arguments rc_bootstrap_completed {Decoded} _.
Arguments rc_recovery_started_at {Decoded} _.
Arguments rc_recovery_completed_at {Decoded} _.
Arguments rc_last_recovery_failure {Decoded} _.

Record WebSocketConnectionLifecycle := {
  lc_venue : string;
  lc_instrument : string;
  lc_connection_id : string;
  lc_connection_epoch : Z;
  lc_connected_at : Z;
  lc_disconnected_at : Z;
  lc_duration_ms : Z;
  lc_reason : string;
  lc_close_code : option Z;
  lc_close_message : option string;
  lc_exception_type : option string;
  lc_messages_received : Z;
  lc_heartbeat_sent : Z;
  lc_heartbeat_received : Z;
  lc_stale_timeout : bool;
  lc_server_initiated_close : bool;
  lc_client_initiated_close : bool;
}.

Record RawVenueMessage (Raw Norm : Type) := {
  rm_venue : string;
  rm_connection_id : string;
  rm_subscription_id : string;
  rm_exchange_timestamp : option Z;
  rm_received_at : Z;
  rm_available_at : Z;
  rm_monotonic_received_ns : Z;
  rm_venue_sequence : option Z;
  rm_local_sequence : Z;
  rm_is_snapshot : bool;
  rm_is_delta : bool;
  rm_payload : Raw;
  rm_payload_sha256 : string;
  rm_previous_venue_sequence : option Z;
  rm_normalized_payload : Norm;
  rm_reconciliation_state : ReconciliationState;
  rm_snapshot_sequence : option Z;
  rm_connection_epoch : Z;
  rm_stream_semantics : option OrderBookStreamSemantics;
  rm_bootstrap_completed : bool;
  rm_recovery_started_at : option Z;
  rm_recovery_completed_at : option Z;
  rm_last_recovery_failure : option string;
}.
Arguments rm_venue_sequence {Raw Norm} _.
Arguments rm_local_sequence {Raw Norm} _.
Arguments rm_is_delta {Raw Norm} _.
Arguments rm_payload_sha256 {Raw Norm} _.
Arguments rm_reconciliation_state {Raw Norm} _.

Record ConnectionStateEvent := {
  ce_venue : string;
  ce_state : ConnectionState;
  ce_occurred_at : Z;
  ce_reason : option string;
}.

(** The arguments of [__init__]. *)
Record StreamConfig (Raw Decoded Norm B : Type) := {
  cf_venue : string;
  cf_subscription_id : string;
  cf_subscribe : bool;
  cf_acknowledgement : option (Decoded -> bool);
  cf_normalize : Decoded -> Norm;
  cf_sequence : Decoded -> option Z;
  cf_exchange_timestamp : Decoded -> option Z;
  cf_snapshot : Decoded -> bool;
  cf_delta : Decoded -> bool;
  cf_heartbeat : Decoded -> bool;
  cf_rest_snapshot : option (nat -> result Decoded);
  cf_snapshot_applier : option (Decoded -> M B (option Z));
  cf_delta_applier : option (Decoded -> M B unit);
  cf_sequence_predecessor : Decoded -> option Z;
  cf_validate_snapshot : Decoded -> bool;
  cf_maximum_buffered_deltas : Z;
  cf_duplicate_cache_size : Z;
  cf_raw_message_sink : option (RawVenueMessage Raw Norm -> result unit);
  cf_classification : StreamClassification;
  cf_order_book_semantics : option OrderBookStreamSemantics;
  cf_instrument : string;
  cf_maximum_reconnects_per_minute : Z;
  cf_backoff_cap : Q;
  cf_stale_timeout : Q;
  (** [_decode] and the SHA-256 of the payload *)
  cf_decode : Raw -> result Decoded;
  cf_payload_sha256 : Raw -> string;
}.
Arguments cf_venue {Raw Decoded Norm B} _.
Arguments cf_subscription_id {Raw Decoded Norm B} _.
Arguments cf_subscribe {Raw Decoded Norm B} _.
Arguments cf_acknowledgement {Raw Decoded Norm B} _.
Arguments cf_normalize {Raw Decoded Norm B} _ _.
Arguments cf_sequence {Raw Decoded Norm B} _ _.
Arguments cf_exchange_timestamp {Raw Decoded Norm B} _ _.
Arguments cf_snapshot {Raw Decoded Norm B} _ _.
Arguments cf_delta {Raw Decoded Norm B} _ _.
Arguments cf_heartbeat {Raw Decoded Norm B} _ _.
Arguments cf_rest_snapshot {Raw Decoded Norm B} _.
Arguments cf_snapshot_applier {Raw Decoded Norm B} _.
Arguments cf_delta_applier {Raw Decoded Norm B} _.
Arguments cf_sequence_predecessor {Raw Decoded Norm B} _ _.
Arguments cf_validate_snapshot {Raw Decoded Norm B} _ _.
Arguments cf_maximum_buffered_deltas {Raw Decoded Norm B} _.
Arguments cf_duplicate_cache_size {Raw Decoded Norm B} _.
Arguments cf_raw_message_sink {Raw Decoded Norm B} _.
Arguments cf_classification {Raw Decoded Norm B} _.
Arguments cf_order_book_semantics {Raw Decoded Norm B} _.
Arguments cf_instrument {Raw Decoded Norm B} _.
Arguments cf_maximum_reconnects_per_minute {Raw Decoded Norm B} _.
Arguments cf_backoff_cap {Raw Decoded Norm B} _.
Arguments cf_stale_timeout {Raw Decoded Norm B} _.
Arguments cf_decode {Raw Decoded Norm B} _ _.
Arguments cf_payload_sha256 {Raw Decoded Norm B} _ _.

(** The attributes that change.  [ws_wall], [ws_mono], [ws_uuid] and [ws_rest]
    count the calls of the clocks, of [uuid4] and of the REST snapshot;
    [ws_slept] records the upper bounds of the pauses, [ws_yielded] and
    [ws_lifecycles] what the consumer and the lifecycle sink received. *)
Record Session (Raw Decoded Norm B : Type) := {
  ws_state : ConnectionState;
  ws_state_events : list ConnectionStateEvent;
  ws_closing : bool;
  ws_reconnects : list Q;
  ws_local_sequence : Z;
  ws_reconciliation_state : ReconciliationState;
  ws_connection_context : option (ConnectionReconciliationContext Decoded);
  ws_book : B;
  ws_wall : nat;
  ws_mono : nat;
  ws_uuid : nat;
  ws_rest : nat;
  ws_slept : list Q;
  ws_yielded : list (RawVenueMessage Raw Norm);
  ws_lifecycles : list WebSocketConnectionLifecycle;
}.
Arguments ws_state {Raw Decoded Norm B} _.
Arguments ws_state_events {Raw Decoded Norm B} _.
Arguments ws_closing {Raw Decoded Norm B} _.
Arguments ws_reconnects {Raw Decoded Norm B} _.
Arguments ws_local_sequence {Raw Decoded Norm B} _.
Arguments ws_reconciliation_state {Raw Decoded Norm B} _.
Arguments ws_connection_context {Raw Decoded Norm B} _.
Arguments ws_book {Raw Decoded Norm B} _.
Arguments ws_wall {Raw Decoded Norm B} _.
Arguments ws_mono {Raw Decoded Norm B} _.
Arguments ws_uuid {Raw Decoded Norm B} _.
Arguments ws_rest {Raw Decoded Norm B} _.
Arguments ws_slept {Raw Decoded Norm B} _.
Arguments ws_yielded {Raw Decoded Norm B} _.
Arguments ws_lifecycles {Raw Decoded Norm B} _.

(** One connection: the session, the context of the connection (the local
    [context], which is also [self.connection_context]) and the counters of
    [messages]. *)
Record Live (Raw Decoded Norm B : Type) := {
  lv_self : Session Raw Decoded Norm B;
  lv_context : ConnectionReconciliationContext Decoded;
  lv_messages_received : Z;
  lv_heartbeat_received : Z;
  lv_connected_at : option Z;
  lv_attempt : Z;
}.
Arguments lv_self {Raw Decoded Norm B} _.
Arguments lv_context {Raw Decoded Norm B} _.
Arguments lv_messages_received {Raw Decoded Norm B} _.
Arguments lv_heartbeat_received {Raw Decoded Norm B} _.
Arguments lv_connected_at {Raw Decoded Norm B} _.
Arguments lv_attempt {Raw Decoded Norm B} _.

(** What the reader task puts into the queue: a frame, or the exception that
    ended it. *)
Inductive Queued (Raw : Type) := Frame (raw : Raw) | Failure (e : exn).
Arguments Frame {Raw} raw.
Arguments Failure {Raw} e.

(** A queued item as the consumer loop meets it: whether [close()] was called
    while the loop waited for it, and whether the consumer abandons the
    generator at the message it yields. *)
Record Incoming (Raw : Type) := {
  in_item : Queued Raw;
  in_close : bool;
  in_abandon : bool;
}.
Arguments in_item {Raw} _.
Arguments in_close {Raw} _.
Arguments in_abandon {Raw} _.

(** What happens around one iteration of the loop of [messages]: the reading
    of the monotonic clock, the outcomes of opening the socket and of the
    acknowledgement, the items queued when the REST snapshot of the bootstrap
    has been loaded, the items that follow and the heartbeats sent. *)
Record Attempt (Raw : Type) := {
  at_now : Q;
  at_connect : result unit;
  at_send : result unit;
  at_ack : result Raw;
  at_queue : list (Queued Raw);
  at_incoming : list (Incoming Raw);
  at_heartbeat_sent : Z;
}.
Arguments at_now {Raw} _.
Arguments at_connect {Raw} _.
Arguments at_send {Raw} _.
Arguments at_ack {Raw} _.
Arguments at_queue {Raw} _.
Arguments at_incoming {Raw} _.
Arguments at_heartbeat_sent {Raw} _.

Section Setters.
Context {Raw Decoded Norm B : Type}.

Definition set_rc_state (v : ReconciliationState) (r : ConnectionReconciliationContext Decoded) : ConnectionReconciliationContext Decoded :=
  {|
     rc_connection_id := rc_connection_id r; rc_state := v;
     rc_previous_sequence := rc_previous_sequence r;
     rc_snapshot_sequence := rc_snapshot_sequence r;
     rc_buffered_deltas := rc_buffered_deltas r; rc_payload_hashes := rc_payload_hashes r;
     rc_payload_hash_order := rc_payload_hash_order r;
     rc_connection_epoch := rc_connection_epoch r;
     rc_bootstrap_completed := rc_bootstrap_completed r;
     rc_recovery_started_at := rc_recovery_started_at r;
     rc_recovery_completed_at := rc_recovery_completed_at r;
     rc_last_recovery_failure := rc_last_recovery_failure r |}.

Definition set_rc_previous_sequence (v : option Z) (r : ConnectionReconciliationContext Decoded) : ConnectionReconciliationContext Decoded :=
  {|
     rc_connection_id := rc_connection_id r; rc_state := rc_state r; rc_previous_sequence := v;
     rc_snapshot_sequence := rc_snapshot_sequence r;
     rc_buffered_deltas := rc_buffered_deltas r; rc_payload_hashes := rc_payload_hashes r;
     rc_payload_hash_order := rc_payload_hash_order r;
     rc_connection_epoch := rc_connection_epoch r;
     rc_bootstrap_completed := rc_bootstrap_completed r;
     rc_recovery_started_at := rc_recovery_started_at r;
     rc_recovery_completed_at := rc_recovery_completed_at r;
     rc_last_recovery_failure := rc_last_recovery_failure r |}.

Definition set_rc_snapshot_sequence (v : option Z) (r : ConnectionReconciliationContext Decoded) : ConnectionReconciliationContext Decoded :=
  {|
     rc_connection_id := rc_connection_id r; rc_state := rc_state r;
     rc_previous_sequence := rc_previous_sequence r; rc_snapshot_sequence := v;
     rc_buffered_deltas := rc_buffered_deltas r; rc_payload_hashes := rc_payload_hashes r;
     rc_payload_hash_order := rc_payload_hash_order r;
     rc_connection_epoch := rc_connection_epoch r;
     rc_bootstrap_completed := rc_bootstrap_completed r;
     rc_recovery_started_at := rc_recovery_started_at r;
     rc_recovery_completed_at := rc_recovery_completed_at r;
     rc_last_recovery_failure := rc_last_recovery_failure r |}.

Definition set_rc_buffered_deltas (v : list (Z * Decoded)) (r : ConnectionReconciliationContext Decoded) : ConnectionReconciliationContext Decoded :=
  {|
     rc_connection_id := rc_connection_id r; rc_state := rc_state r;
     rc_previous_sequence := rc_previous_sequence r;
     rc_snapshot_sequence := rc_snapshot_sequence r; rc_buffered_deltas := v;
     rc_payload_hashes := rc_payload_hashes r;
     rc_payload_hash_order := rc_payload_hash_order r;
     rc_connection_epoch := rc_connection_epoch r;
     rc_bootstrap_completed := rc_bootstrap_completed r;
     rc_recovery_started_at := rc_recovery_started_at r;
     rc_recovery_completed_at := rc_recovery_completed_at r;
     rc_last_recovery_failure := rc_last_recovery_failure r |}.

Definition set_rc_last_recovery_failure (v : option string) (r : ConnectionReconciliationContext Decoded) : ConnectionReconciliationContext Decoded :=
  {|
     rc_connection_id := rc_connection_id r; rc_state := rc_state r;
     rc_previous_sequence := rc_previous_sequence r;
     rc_snapshot_sequence := rc_snapshot_sequence r;
     rc_buffered_deltas := rc_buffered_deltas r; rc_payload_hashes := rc_payload_hashes r;
     rc_payload_hash_order := rc_payload_hash_order r;
     rc_connection_epoch := rc_connection_epoch r;
     rc_bootstrap_completed := rc_bootstrap_completed r;
     rc_recovery_started_at := rc_recovery_started_at r;
     rc_recovery_completed_at := rc_recovery_completed_at r; rc_last_recovery_failure := v |}.

Definition set_hashes (hashes : gset string) (order : list string)
    (r : ConnectionReconciliationContext Decoded) : ConnectionReconciliationContext Decoded :=
  {|
     rc_connection_id := rc_connection_id r; rc_state := rc_state r;
     rc_previous_sequence := rc_previous_sequence r;
     rc_snapshot_sequence := rc_snapshot_sequence r;
     rc_buffered_deltas := rc_buffered_deltas r; rc_payload_hashes := hashes;
     rc_payload_hash_order := order; rc_connection_epoch := rc_connection_epoch r;
     rc_bootstrap_completed := rc_bootstrap_completed r;
     rc_recovery_started_at := rc_recovery_started_at r;
     rc_recovery_completed_at := rc_recovery_completed_at r;
     rc_last_recovery_failure := rc_last_recovery_failure r |}.

(** The assignments that end a replay. *)
Definition set_completed (at_ : Z) (r : ConnectionReconciliationContext Decoded)
  : ConnectionReconciliationContext Decoded :=
  {|
     rc_connection_id := rc_connection_id r; rc_state := rc_state r;
     rc_previous_sequence := rc_previous_sequence r;
     rc_snapshot_sequence := rc_snapshot_sequence r;
     rc_buffered_deltas := []; rc_payload_hashes := rc_payload_hashes r;
     rc_payload_hash_order := rc_payload_hash_order r;
     rc_connection_epoch := rc_connection_epoch r;
     rc_bootstrap_completed := true;
     rc_recovery_started_at := rc_recovery_started_at r;
     rc_recovery_completed_at := Some at_;
     rc_last_recovery_failure := None |}.

Definition set_ws_closing (v : bool) (r : Session Raw Decoded Norm B) : Session Raw Decoded Norm B :=
  {|
     ws_state := ws_state r; ws_state_events := ws_state_events r; ws_closing := v;
     ws_reconnects := ws_reconnects r; ws_local_sequence := ws_local_sequence r;
     ws_reconciliation_state := ws_reconciliation_state r;
     ws_connection_context := ws_connection_context r; ws_book := ws_book r;
     ws_wall := ws_wall r; ws_mono := ws_mono r; ws_uuid := ws_uuid r; ws_rest := ws_rest r;
     ws_slept := ws_slept r; ws_yielded := ws_yielded r; ws_lifecycles := ws_lifecycles r |}.

Definition set_ws_reconnects (v : list Q) (r : Session Raw Decoded Norm B) : Session Raw Decoded Norm B :=
  {|
     ws_state := ws_state r; ws_state_events := ws_state_events r; ws_closing := ws_closing r;
     ws_reconnects := v; ws_local_sequence := ws_local_sequence r;
     ws_reconciliation_state := ws_reconciliation_state r;
     ws_connection_context := ws_connection_context r; ws_book := ws_book r;
     ws_wall := ws_wall r; ws_mono := ws_mono r; ws_uuid := ws_uuid r; ws_rest := ws_rest r;
     ws_slept := ws_slept r; ws_yielded := ws_yielded r; ws_lifecycles := ws_lifecycles r |}.

Definition set_ws_local_sequence (v : Z) (r : Session Raw Decoded Norm B) : Session Raw Decoded Norm B :=
  {|
     ws_state := ws_state r; ws_state_events := ws_state_events r; ws_closing := ws_closing r;
     ws_reconnects := ws_reconnects r; ws_local_sequence := v;
     ws_reconciliation_state := ws_reconciliation_state r;
     ws_connection_context := ws_connection_context r; ws_book := ws_book r;
     ws_wall := ws_wall r; ws_mono := ws_mono r; ws_uuid := ws_uuid r; ws_rest := ws_rest r;
     ws_slept := ws_slept r; ws_yielded := ws_yielded r; ws_lifecycles := ws_lifecycles r |}.

Definition set_ws_reconciliation_state (v : ReconciliationState) (r : Session Raw Decoded Norm B) : Session Raw Decoded Norm B :=
  {|
     ws_state := ws_state r; ws_state_events := ws_state_events r; ws_closing := ws_closing r;
     ws_reconnects := ws_reconnects r; ws_local_sequence := ws_local_sequence r;
     ws_reconciliation_state := v; ws_connection_context := ws_connection_context r;
     ws_book := ws_book r; ws_wall := ws_wall r; ws_mono := ws_mono r; ws_uuid := ws_uuid r;
     ws_rest := ws_rest r; ws_slept := ws_slept r; ws_yielded := ws_yielded r;
     ws_lifecycles := ws_lifecycles r |}.

Definition set_ws_connection_context (v : option (ConnectionReconciliationContext Decoded)) (r : Session Raw Decoded Norm B) : Session Raw Decoded Norm B :=
  {|
     ws_state := ws_state r; ws_state_events := ws_state_events r; ws_closing := ws_closing r;
     ws_reconnects := ws_reconnects r; ws_local_sequence := ws_local_sequence r;
     ws_reconciliation_state := ws_reconciliation_state r; ws_connection_context := v;
     ws_book := ws_book r; ws_wall := ws_wall r; ws_mono := ws_mono r; ws_uuid := ws_uuid r;
     ws_rest := ws_rest r; ws_slept := ws_slept r; ws_yielded := ws_yielded r;
     ws_lifecycles := ws_lifecycles r |}.

Definition set_ws_book (v : B) (r : Session Raw Decoded Norm B) : Session Raw Decoded Norm B :=
  {|
     ws_state := ws_state r; ws_state_events := ws_state_events r; ws_closing := ws_closing r;
     ws_reconnects := ws_reconnects r; ws_local_sequence := ws_local_sequence r;
     ws_reconciliation_state := ws_reconciliation_state r;
     ws_connection_context := ws_connection_context r; ws_book := v; ws_wall := ws_wall r;
     ws_mono := ws_mono r; ws_uuid := ws_uuid r; ws_rest := ws_rest r; ws_slept := ws_slept r;
     ws_yielded := ws_yielded r; ws_lifecycles := ws_lifecycles r |}.

Definition set_ws_wall (v : nat) (r : Session Raw Decoded Norm B) : Session Raw Decoded Norm B :=
  {|
     ws_state := ws_state r; ws_state_events := ws_state_events r; ws_closing := ws_closing r;
     ws_reconnects := ws_reconnects r; ws_local_sequence := ws_local_sequence r;
     ws_reconciliation_state := ws_reconciliation_state r;
     ws_connection_context := ws_connection_context r; ws_book := ws_book r; ws_wall := v;
     ws_mono := ws_mono r; ws_uuid := ws_uuid r; ws_rest := ws_rest r; ws_slept := ws_slept r;
     ws_yielded := ws_yielded r; ws_lifecycles := ws_lifecycles r |}.

Definition set_ws_mono (v : nat) (r : Session Raw Decoded Norm B) : Session Raw Decoded Norm B :=
  {|
     ws_state := ws_state r; ws_state_events := ws_state_events r; ws_closing := ws_closing r;
     ws_reconnects := ws_reconnects r; ws_local_sequence := ws_local_sequence r;
     ws_reconciliation_state := ws_reconciliation_state r;
     ws_connection_context := ws_connection_context r; ws_book := ws_book r;
     ws_wall := ws_wall r; ws_mono := v; ws_uuid := ws_uuid r; ws_rest := ws_rest r;
     ws_slept := ws_slept r; ws_yielded := ws_yielded r; ws_lifecycles := ws_lifecycles r |}.

Definition set_ws_uuid (v : nat) (r : Session Raw Decoded Norm B) : Session Raw Decoded Norm B :=
  {|
     ws_state := ws_state r; ws_state_events := ws_state_events r; ws_closing := ws_closing r;
     ws_reconnects := ws_reconnects r; ws_local_sequence := ws_local_sequence r;
     ws_reconciliation_state := ws_reconciliation_state r;
     ws_connection_context := ws_connection_context r; ws_book := ws_book r;
     ws_wall := ws_wall r; ws_mono := ws_mono r; ws_uuid := v; ws_rest := ws_rest r;
     ws_slept := ws_slept r; ws_yielded := ws_yielded r; ws_lifecycles := ws_lifecycles r |}.

Definition set_ws_rest (v : nat) (r : Session Raw Decoded Norm B) : Session Raw Decoded Norm B :=
  {|
     ws_state := ws_state r; ws_state_events := ws_state_events r; ws_closing := ws_closing r;
     ws_reconnects := ws_reconnects r; ws_local_sequence := ws_local_sequence r;
     ws_reconciliation_state := ws_reconciliation_state r;
     ws_connection_context := ws_connection_context r; ws_book := ws_book r;
     ws_wall := ws_wall r; ws_mono := ws_mono r; ws_uuid := ws_uuid r; ws_rest := v;
     ws_slept := ws_slept r; ws_yielded := ws_yielded r; ws_lifecycles := ws_lifecycles r |}.

Definition set_ws_slept (v : list Q) (r : Session Raw Decoded Norm B) : Session Raw Decoded Norm B :=
  {|
     ws_state := ws_state r; ws_state_events := ws_state_events r; ws_closing := ws_closing r;
     ws_reconnects := ws_reconnects r; ws_local_sequence := ws_local_sequence r;
     ws_reconciliation_state := ws_reconciliation_state r;
     ws_connection_context := ws_connection_context r; ws_book := ws_book r;
     ws_wall := ws_wall r; ws_mono := ws_mono r; ws_uuid := ws_uuid r; ws_rest := ws_rest r;
     ws_slept := v; ws_yielded := ws_yielded r; ws_lifecycles := ws_lifecycles r |}.

Definition set_ws_yielded (v : list (RawVenueMessage Raw Norm)) (r : Session Raw Decoded Norm B) : Session Raw Decoded Norm B :=
  {|
     ws_state := ws_state r; ws_state_events := ws_state_events r; ws_closing := ws_closing r;
     ws_reconnects := ws_reconnects r; ws_local_sequence := ws_local_sequence r;
     ws_reconciliation_state := ws_reconciliation_state r;
     ws_connection_context := ws_connection_context r; ws_book := ws_book r;
     ws_wall := ws_wall r; ws_mono := ws_mono r; ws_uuid := ws_uuid r; ws_rest := ws_rest r;
     ws_slept := ws_slept r; ws_yielded := v; ws_lifecycles := ws_lifecycles r |}.

Definition set_ws_lifecycles (v : list WebSocketConnectionLifecycle) (r : Session Raw Decoded Norm B) : Session Raw Decoded Norm B :=
  {|
     ws_state := ws_state r; ws_state_events := ws_state_events r; ws_closing := ws_closing r;
     ws_reconnects := ws_reconnects r; ws_local_sequence := ws_local_sequence r;
     ws_reconciliation_state := ws_reconciliation_state r;
     ws_connection_context := ws_connection_context r; ws_book := ws_book r;
     ws_wall := ws_wall r; ws_mono := ws_mono r; ws_uuid := ws_uuid r; ws_rest := ws_rest r;
     ws_slept := ws_slept r; ws_yielded := ws_yielded r; ws_lifecycles := v |}.

Definition push_state (st : ConnectionState) (event : ConnectionStateEvent)
    (r : Session Raw Decoded Norm B) : Session Raw Decoded Norm B :=
  {|
     ws_state := st; ws_state_events := ws_state_events r ++ [event];
     ws_closing := ws_closing r; ws_reconnects := ws_reconnects r;
     ws_local_sequence := ws_local_sequence r;
     ws_reconciliation_state := ws_reconciliation_state r;
     ws_connection_context := ws_connection_context r; ws_book := ws_book r;
     ws_wall := S (ws_wall r); ws_mono := ws_mono r; ws_uuid := ws_uuid r; ws_rest := ws_rest r;
     ws_slept := ws_slept r; ws_yielded := ws_yielded r; ws_lifecycles := ws_lifecycles r |}.

Definition set_lv_self (v : Session Raw Decoded Norm B) (r : Live Raw Decoded Norm B) : Live Raw Decoded Norm B :=
  {|
     lv_self := v; lv_context := lv_context r; lv_messages_received := lv_messages_received r;
     lv_heartbeat_received := lv_heartbeat_received r; lv_connected_at := lv_connected_at r;
     lv_attempt := lv_attempt r |}.

Definition set_lv_context (v : ConnectionReconciliationContext Decoded) (r : Live Raw Decoded Norm B) : Live Raw Decoded Norm B :=
  {|
     lv_self := lv_self r; lv_context := v; lv_messages_received := lv_messages_received r;
     lv_heartbeat_received := lv_heartbeat_received r; lv_connected_at := lv_connected_at r;
     lv_attempt := lv_attempt r |}.

Definition set_lv_messages_received (v : Z) (r : Live Raw Decoded Norm B) : Live Raw Decoded Norm B :=
  {|
     lv_self := lv_self r; lv_context := lv_context r; lv_messages_received := v;
     lv_heartbeat_received := lv_heartbeat_received r; lv_connected_at := lv_connected_at r;
     lv_attempt := lv_attempt r |}.

Definition set_lv_heartbeat_received (v : Z) (r : Live Raw Decoded Norm B) : Live Raw Decoded Norm B :=
  {|
     lv_self := lv_self r; lv_context := lv_context r;
     lv_messages_received := lv_messages_received r; lv_heartbeat_received := v;
     lv_connected_at := lv_connected_at r; lv_attempt := lv_attempt r |}.

Definition set_lv_connected_at (v : option Z) (r : Live Raw Decoded Norm B) : Live Raw Decoded Norm B :=
  {|
     lv_self := lv_self r; lv_context := lv_context r;
     lv_messages_received := lv_messages_received r;
     lv_heartbeat_received := lv_heartbeat_received r; lv_connected_at := v;
     lv_attempt := lv_attempt r |}.

Definition set_lv_attempt (v : Z) (r : Live Raw Decoded Norm B) : Live Raw Decoded Norm B :=
  {|
     lv_self := lv_self r; lv_context := lv_context r;
     lv_messages_received := lv_messages_received r;
     lv_heartbeat_received := lv_heartbeat_received r; lv_connected_at := lv_connected_at r;
     lv_attempt := v |}.

End Setters.

(** ** The environment *)

(** The clocks, [uuid4], and what the code asks of an exception: [str(exc)],
    [getattr(exc, "code", None)], [getattr(exc, "reason", None)], and whether a
    class named in [OtherError] is an [OSError], a [TimeoutError] or a
    [WebSocketException]. *)
Class NetEnv := {
  wall : nat -> Z;
  mono : nat -> Z;
  uuid4 : nat -> string;
  exc_str : exn -> string;
  exc_code : exn -> option Z;
  exc_reason : exn -> option string;
  transport : string -> bool;
  timeout_class : string -> bool;
}.

(** [type(exc).__name__] *)
Definition exc_name (e : exn) : string :=
  match e with
  | ValueError _ => "ValueError" | DuplicateFillError _ => "DuplicateFillError"
  | RuntimeError _ => "RuntimeError" | PermissionError _ => "PermissionError"
  | KeyError => "KeyError" | IndexError _ => "IndexError"
  | ExecutionAdapterError _ => "ExecutionAdapterError" | OtherError n => n
  end.

Section Operations.
Context {E : NetEnv}.
Context {Raw Decoded Norm B : Type}.
Variable cfg : StreamConfig Raw Decoded Norm B.

Notation Sess := (Session Raw Decoded Norm B).
Notation Conn := (Live Raw Decoded Norm B).

Definition order_book_semantics : option OrderBookStreamSemantics :=
  match cf_order_book_semantics cfg with
  | Some s => Some s
  | None =>
      match cf_classification cfg with
      | SNAPSHOT_DELTA => Some SNAPSHOT_AND_DELTA
      | LIMITED_DEPTH_SNAPSHOT_STREAM => Some LIMITED_DEPTH_SNAPSHOT
      | EVENTS => None
      end
  end.

Definition Session_new (book : B) : result Sess :=
  if bool_decide (cf_classification cfg = SNAPSHOT_DELTA)
     && (negb (bool_decide (is_Some (cf_snapshot_applier cfg)))
         || negb (bool_decide (is_Some (cf_delta_applier cfg))))
  then Err (ValueError "snapshot/delta streams require loader and snapshot/delta appliers")
  else Ok {|
    ws_state := CLOSED; ws_state_events := []; ws_closing := false; ws_reconnects := [];
    ws_local_sequence := 0; ws_reconciliation_state := R_DISCONNECTED;
    ws_connection_context := None; ws_book := book; ws_wall := 0; ws_mono := 0; ws_uuid := 0;
    ws_rest := 0; ws_slept := []; ws_yielded := []; ws_lifecycles := [] |}.

(** [self._set_state(state, reason)] *)
Definition set_state (state : ConnectionState) (reason : option string) : M Sess unit :=
  pmodify (fun s => push_state state {|
    ce_venue := cf_venue cfg; ce_state := state; ce_occurred_at := wall (ws_wall s);
    ce_reason := reason |} s).

Definition close : M Sess unit :=
  run! pmodify (set_ws_closing true);
  set_state CLOSED (Some "graceful shutdown").

(** [datetime.now(UTC)] *)
Definition utcnow : M Sess Z :=
  fun s => (set_ws_wall (S (ws_wall s)) s, Ok (wall (ws_wall s))).

Definition monotonic_ns : M Sess Z :=
  fun s => (set_ws_mono (S (ws_mono s)) s, Ok (mono (ws_mono s))).

(** Computations of a connection that run on the session or on its book. *)
Definition on_self {A} (m : M Sess A) : M Conn A := pzoom lv_self set_lv_self m.

Definition on_book {A} (m : M B A) : M Conn A := on_self (pzoom ws_book set_ws_book m).

Definition on_context (f : ConnectionReconciliationContext Decoded ->
                           ConnectionReconciliationContext Decoded) : M Conn unit :=
  pmodify (fun c => set_lv_context (f (lv_context c)) c).

Definition context : M Conn (ConnectionReconciliationContext Decoded) :=
  fun c => (c, Ok (lv_context c)).

Definition set_reconciliation (state : ReconciliationState) : M Conn unit :=
  run! on_context (set_rc_state state);
  on_self (pmodify (set_ws_reconciliation_state state)).

(** [_seen_payload]: [deque.popleft] of an empty deque raises, and so does the
    removal of an absent element from a set. *)
Definition seen_payload (digest : string) : M Conn bool :=
  do! ctx <- context;
  if bool_decide (digest ∈ rc_payload_hashes ctx) then pret true
  else
    let add hashes order :=
      run! on_context (set_hashes ({[digest]} ∪ hashes) (order ++ [digest])); pret false in
    if (cf_duplicate_cache_size cfg <=? Z.of_nat (length (rc_payload_hash_order ctx))) then
      match rc_payload_hash_order ctx with
      | [] => praise (IndexError "pop from an empty deque")
      | expired :: order =>
          run! on_context (set_hashes (rc_payload_hashes ctx) order);
          if bool_decide (expired ∈ rc_payload_hashes ctx) then
            add (rc_payload_hashes ctx ∖ {[expired]}) order
          else praise KeyError
      end
    else add (rc_payload_hashes ctx) (rc_payload_hash_order ctx).

Definition buffer_delta (sequence : option Z) (decoded : Decoded) : M Conn unit :=
  match sequence with
  | None => praise (RuntimeError "delta sequence is required")
  | Some sequence =>
      do! ctx <- context;
      if (cf_maximum_buffered_deltas cfg <=? Z.of_nat (length (rc_buffered_deltas ctx))) then
        run! set_reconciliation R_DEGRADED;
        praise (RuntimeError "delta recovery buffer overflow")
      else
        run! set_reconciliation R_BUFFERING_DELTAS;
        on_context (fun c =>
          set_rc_buffered_deltas (rc_buffered_deltas c ++ [(sequence, decoded)]) c)
  end.

Definition is_contiguous (previous current : option Z) (decoded : Decoded) : bool :=
  match current, previous with
  | Some current, Some previous =>
      match cf_sequence_predecessor cfg decoded with
      | Some predecessor => (previous <? current) && (predecessor =? previous)
      | None => (current =? previous + 1)
      end
  | _, _ => false
  end.

(** [key=lambda item: item[0]] *)
Definition item_le (a b : Z * Decoded) : bool := (a.1 <=? b.1).

(** [context.previous_sequence or current - 1]: zero is falsy. *)
Definition replay_floor (previous : option Z) (current : Z) : Z :=
  match previous with
  | Some p => if p =? 0 then current - 1 else p
  | None => current - 1
  end.

(** One buffered delta of the replay after a stream snapshot. *)
Definition replay_delta (item : Z * Decoded) : M Conn unit :=
  let '(current, delta) := item in
  do! ctx <- context;
  if (current <=? replay_floor (rc_previous_sequence ctx) current) then pret tt
  else if negb (is_contiguous (rc_previous_sequence ctx) (Some current) delta) then
    run! set_reconciliation R_DEGRADED;
    praise (RuntimeError "replayed delta predecessor is not continuous")
  else
    match cf_delta_applier cfg with
    | None => praise (RuntimeError "delta applier unavailable")
    | Some applier =>
        run! on_book (applier delta);
        on_context (set_rc_previous_sequence (Some current))
    end.

(** The assignments that end a snapshot: [recovery_completed_at] is read from
    the clock. *)
Definition complete_recovery : M Conn unit :=
  do! now <- on_self utcnow;
  run! on_context (set_completed now);
  set_reconciliation R_SYNCHRONIZED.

Definition apply_stream_snapshot (decoded : Decoded) (sequence : option Z) : M Conn unit :=
  if negb (cf_validate_snapshot cfg decoded) then
    run! set_reconciliation R_DEGRADED;
    praise (RuntimeError "order-book snapshot contract validation failed")
  else
    run! set_reconciliation R_APPLYING_SNAPSHOT;
    do! applied_sequence <- match cf_snapshot_applier cfg with
                            | Some applier => on_book (applier decoded)
                            | None => pret sequence
                            end;
    if bool_decide (order_book_semantics = Some SNAPSHOT_AND_DELTA)
       && bool_decide (applied_sequence = None) then
      run! set_reconciliation R_DEGRADED;
      praise (RuntimeError "snapshot/delta stream snapshot sequence is required")
    else
      run! on_context (set_rc_snapshot_sequence applied_sequence);
      run! on_context (set_rc_previous_sequence applied_sequence);
      run! (if bool_decide (order_book_semantics = Some SNAPSHOT_AND_DELTA) then
              do! ctx <- context;
              run! set_reconciliation R_REPLAYING_DELTAS;
              pfor (sorted_by item_le (rc_buffered_deltas ctx)) replay_delta
            else pret tt);
      complete_recovery.

(** The replay after a REST snapshot: [expected] is the next sequence. *)
Fixpoint rest_replay (applier : Decoded -> M B unit) (expected : Z)
    (replay : list (Z * Decoded)) : M Conn Z :=
  match replay with
  | [] => pret expected
  | (current, delta) :: replay =>
      if negb (current =? expected) then
        run! set_reconciliation R_DEGRADED;
        praise (RuntimeError "replayed delta sequence is not continuous")
      else
        run! on_book (applier delta);
        rest_replay applier (expected + 1) replay
  end.

Definition newer (snapshot_sequence : Z) (item : Z * Decoded) : bool :=
  (snapshot_sequence <? item.1).

Definition apply_snapshot_and_replay (snapshot : Decoded) : M Conn unit :=
  match cf_snapshot_applier cfg, cf_delta_applier cfg with
  | Some snapshot_applier, Some delta_applier =>
      run! set_reconciliation R_SNAPSHOT_LOADING;
      do! applied <- on_book (snapshot_applier snapshot);
      match applied with
      | None => praise (RuntimeError "REST snapshot sequence is required")
      | Some snapshot_sequence =>
          run! on_context (set_rc_snapshot_sequence (Some snapshot_sequence));
          do! ctx <- context;
          let replay :=
            sorted_by item_le (List.filter (newer snapshot_sequence) (rc_buffered_deltas ctx)) in
          run! set_reconciliation R_DELTA_REPLAYING;
          do! expected <- rest_replay delta_applier (snapshot_sequence + 1) replay;
          run! on_context (set_rc_previous_sequence (Some (expected - 1)));
          complete_recovery
      end
  | _, _ => praise (RuntimeError "REST snapshot recovery unavailable")
  end.

(** [await self.rest_snapshot()] *)
Definition load_rest (rest : nat -> result Decoded) : M Conn Decoded :=
  on_self (fun s => (set_ws_rest (S (ws_rest s)) s, rest (ws_rest s))).

(** One item met by the bootstrap: [_next_queued], [_decode] and the body of the
    loop. *)
Definition bootstrap_item (item : Queued Raw) : M Conn unit :=
  match item with
  | Failure e => praise e
  | Frame raw =>
      do! decoded <- plift (cf_decode cfg raw);
      if cf_heartbeat cfg decoded then pret tt
      else if negb (cf_delta cfg decoded) then
        praise (RuntimeError "non-delta message received during REST bootstrap")
      else
        do! seen <- seen_payload (cf_payload_sha256 cfg raw);
        if seen then pret tt else buffer_delta (cf_sequence cfg decoded) decoded
  end.

(** [_bootstrap]; [queue] is what the queue holds when the REST snapshot has
    been loaded: taking an item of a non-empty queue does not suspend. *)
Definition bootstrap (queue : list (Queued Raw)) : M Conn unit :=
  match cf_rest_snapshot cfg with
  | None => praise (RuntimeError "REST snapshot recovery unavailable")
  | Some rest =>
      run! set_reconciliation R_BUFFERING_DELTAS;
      run! set_reconciliation R_SNAPSHOT_LOADING;
      do! snapshot <- load_rest rest;
      run! pfor queue bootstrap_item;
      apply_snapshot_and_replay snapshot
  end.

Definition recover (sequence : Z) (decoded : Decoded) : M Conn unit :=
  run! on_self (set_state RECOVERING (Some "sequence gap"));
  run! set_reconciliation R_GAP_DETECTED;
  run! buffer_delta (Some sequence) decoded;
  match cf_rest_snapshot cfg, cf_snapshot_applier cfg, cf_delta_applier cfg with
  | Some rest, Some _, Some _ =>
      run! set_reconciliation R_SNAPSHOT_LOADING;
      do! snapshot <- load_rest rest;
      run! apply_snapshot_and_replay snapshot;
      do! ctx <- context;
      on_self (set_state CONNECTED
        (Some ("REST snapshot recovered for " +:+ rc_connection_id ctx)))
  | _, _, _ =>
      run! on_self (set_state DEGRADED (Some "sequence gap without snapshot semantics"));
      praise (RuntimeError "REST snapshot recovery unavailable")
  end.

(** The part of the loop that decides on a payload: [false] where the code
    continues with the next item. *)
Definition reconcile (decoded : Decoded) (current : option Z) : M Conn bool :=
  do! ctx <- context;
  match order_book_semantics with
  | Some _ =>
      if cf_snapshot cfg decoded then
        run! apply_stream_snapshot decoded current; pret true
      else if cf_delta cfg decoded then
        if negb (bool_decide (rc_state ctx = R_SYNCHRONIZED)) then
          run! buffer_delta current decoded; pret false
        else if negb (is_contiguous (rc_previous_sequence ctx) current decoded) then
          match current with
          | None => praise (RuntimeError "delta sequence is required")
          | Some current => run! recover current decoded; pret false
          end
        else
          match cf_delta_applier cfg with
          | None => praise (RuntimeError "delta applier unavailable")
          | Some applier =>
              run! on_book (applier decoded);
              run! on_context (set_rc_previous_sequence current);
              pret true
          end
      else praise (RuntimeError "order-book payload is neither snapshot nor delta")
  | None =>
      match current, rc_previous_sequence ctx with
      | Some current, Some previous =>
          if (current <=? previous) then
            run! on_self (set_state DEGRADED (Some "out-of-order sequence")); pret false
          else if negb (current =? previous + 1) then
            run! recover current decoded; pret false
          else pret true
      | _, _ => pret true
      end
  end.

(** The message built for the consumer. *)
Definition make_message (raw : Raw) (decoded : Decoded) (digest : string) (current : option Z)
  : M Conn (RawVenueMessage Raw Norm) :=
  do! received <- on_self utcnow;
  do! available <- on_self utcnow;
  do! ns <- on_self monotonic_ns;
  do! c <- pget;
  let ctx := lv_context c in
  pret {|
    rm_venue := cf_venue cfg; rm_connection_id := rc_connection_id ctx;
    rm_subscription_id := cf_subscription_id cfg;
    rm_exchange_timestamp := cf_exchange_timestamp cfg decoded;
    rm_received_at := received; rm_available_at := available;
    rm_monotonic_received_ns := ns; rm_venue_sequence := current;
    rm_local_sequence := ws_local_sequence (lv_self c);
    rm_is_snapshot := cf_snapshot cfg decoded;
    rm_is_delta := cf_delta cfg decoded
                   && bool_decide (cf_classification cfg = SNAPSHOT_DELTA);
    rm_payload := raw; rm_payload_sha256 := digest;
    rm_previous_venue_sequence := cf_sequence_predecessor cfg decoded;
    rm_normalized_payload := cf_normalize cfg decoded;
    rm_reconciliation_state := rc_state ctx;
    rm_snapshot_sequence := rc_snapshot_sequence ctx;
    rm_connection_epoch := rc_connection_epoch ctx;
    rm_stream_semantics := order_book_semantics;
    rm_bootstrap_completed := rc_bootstrap_completed ctx;
    rm_recovery_started_at := rc_recovery_started_at ctx;
    rm_recovery_completed_at := rc_recovery_completed_at ctx;
    rm_last_recovery_failure := rc_last_recovery_failure ctx |}.

(** The body of the receive loop for a frame. *)
Definition handle_frame (raw : Raw) (abandon : bool) : M Conn unit :=
  do! decoded <- plift (cf_decode cfg raw);
  if cf_heartbeat cfg decoded then
    pmodify (fun c => set_lv_heartbeat_received (lv_heartbeat_received c + 1) c)
  else
    run! pmodify (fun c => set_lv_messages_received (lv_messages_received c + 1) c);
    let digest := cf_payload_sha256 cfg raw in
    do! seen <- seen_payload digest;
    if seen then pret tt
    else
      let current := cf_sequence cfg decoded in
      do! emit <- reconcile decoded current;
      if negb emit then pret tt
      else
        run! on_context (set_rc_previous_sequence current);
        run! on_self (pmodify (fun s => set_ws_local_sequence (ws_local_sequence s + 1) s));
        do! message <- make_message raw decoded digest current;
        run! match cf_raw_message_sink cfg with
             | Some sink => plift (sink message)
             | None => pret tt
             end;
        run! on_self (pmodify (fun s => set_ws_yielded (ws_yielded s ++ [message]) s));
        if abandon then praise (OtherError "GeneratorExit") else pret tt.

(** [while not self._closing]: the loop ends when the session is closing; an
    exhausted list leaves it waiting for the next item. *)
Fixpoint receive_loop (incoming : list (Incoming Raw)) : M Conn unit :=
  do! c <- pget;
  if ws_closing (lv_self c) then pret tt
  else
    match incoming with
    | [] => pret tt
    | i :: incoming =>
        run! (if in_close i then on_self close else pret tt);
        run! match in_item i with
             | Failure e => praise e
             | Frame raw => handle_frame raw (in_abandon i)
             end;
        receive_loop incoming
    end.

(** The body of [async with websockets.connect(...)]. *)
Definition connection (a : Attempt Raw) : M Conn unit :=
  run! plift (at_connect a);
  do! connected_at <- on_self utcnow;
  run! pmodify (set_lv_connected_at (Some connected_at));
  run! (if cf_subscribe cfg then
          run! plift (at_send a);
          do! raw_ack <- plift (at_ack a);
          do! ack <- plift (cf_decode cfg raw_ack);
          if match cf_acknowledgement cfg with Some f => f ack | None => false end
          then pret tt
          else praise (RuntimeError "subscription acknowledgement validation failed")
        else pret tt);
  run! on_self (set_state CONNECTED None);
  run! (if bool_decide (cf_classification cfg = SNAPSHOT_DELTA)
           && bool_decide (is_Some (cf_rest_snapshot cfg)) then bootstrap (at_queue a)
        else if bool_decide (order_book_semantics = None) then
          set_reconciliation R_SYNCHRONIZED
        else pret tt);
  run! pmodify (set_lv_attempt 0);
  receive_loop (at_incoming a).

(** [min(self.backoff_cap, 2 ** min(attempt, 10))]: the bound of the random
    pause. *)
Definition backoff_bound (attempt : Z) : Q :=
  dmin (cf_backoff_cap cfg) (inject_Z (2 ^ Z.min attempt 10)).

Definition caught (e : exn) : bool :=
  match e with
  | ValueError _ | DuplicateFillError _ | RuntimeError _ | ExecutionAdapterError _
  | PermissionError _ => true
  | OtherError n => transport n
  | _ => false
  end.

(** The [except] clauses; [PermissionError] is an [OSError].  [Some e] is an exception that was swallowed. *)
Definition handle_exception (e : exn) : M Conn (option exn) :=
  if bool_decide (e = OtherError "CancelledError") then
    run! on_self close; praise e
  else if bool_decide (e = OtherError "GeneratorExit") then
    run! on_self (pmodify (set_ws_closing true)); praise e
  else if caught e then
    run! on_context (set_rc_last_recovery_failure (Some (exc_str e)));
    run! on_self (set_state DEGRADED (Some (exc_str e)));
    run! pmodify (fun c => set_lv_attempt (lv_attempt c + 1) c);
    do! c <- pget;
    run! on_self (pmodify (fun s =>
      set_ws_slept (ws_slept s ++ [backoff_bound (lv_attempt c)]) s));
    pret (Some e)
  else praise e.

Definition timed_out (e : option exn) : bool :=
  match e with Some (OtherError n) => timeout_class n | _ => false end.

(** The lifecycle record of the [finally] clause. *)
Definition record_lifecycle (a : Attempt Raw) (disconnect_exc : option exn) : M Conn unit :=
  do! c <- pget;
  match lv_connected_at c with
  | None => pret tt
  | Some connected_at =>
      do! disconnected_at <- on_self utcnow;
      let client_close := ws_closing (lv_self c) in
      let stale := timed_out disconnect_exc in
      on_self (pmodify (fun s => set_ws_lifecycles (ws_lifecycles s ++ [{|
        lc_venue := cf_venue cfg; lc_instrument := cf_instrument cfg;
        lc_connection_id := rc_connection_id (lv_context c);
        lc_connection_epoch := rc_connection_epoch (lv_context c);
        lc_connected_at := connected_at; lc_disconnected_at := disconnected_at;
        lc_duration_ms :=
          Z.max 0 (float_to_int (fl (Qmult (total_seconds (disconnected_at - connected_at)) 1000)));
        lc_reason := if client_close then "client_shutdown"
                     else match disconnect_exc with
                          | Some e => exc_str e
                          | None => "connection_ended"
                          end;
        lc_close_code := disconnect_exc ≫= exc_code;
        lc_close_message := disconnect_exc ≫= exc_reason;
        lc_exception_type := exc_name <$> disconnect_exc;
        lc_messages_received := lv_messages_received c;
        lc_heartbeat_sent := at_heartbeat_sent a;
        lc_heartbeat_received := lv_heartbeat_received c;
        lc_stale_timeout := stale;
        lc_server_initiated_close :=
          bool_decide (is_Some disconnect_exc) && negb client_close && negb stale;
        lc_client_initiated_close := client_close |}]) s))
  end.

(** [try: ... except ...: ... finally: ...]: the exception that is re-raised is
    not the [disconnect_exc] of the record. *)
Definition attempt_connection (a : Attempt Raw) : M Conn unit :=
  fun c =>
    match ptry (run! connection a; pret None) handle_exception c with
    | (c, Ok disconnect_exc) => record_lifecycle a disconnect_exc c
    | (c, Err e) => (run! record_lifecycle a None; praise e) c
    end.

(** [now - self._reconnects[0] >= 60] on floats. *)
Fixpoint expire (now : Q) (reconnects : list Q) : list Q :=
  match reconnects with
  | [] => []
  | t :: rest => if dleb 60 (fl (Qminus now t)) then expire now rest else reconnects
  end.

(** The context of a new connection. *)
Definition new_context (connection_id : string) (epoch started : Z)
  : ConnectionReconciliationContext Decoded := {|
  rc_connection_id := connection_id; rc_state := R_DISCONNECTED; rc_previous_sequence := None;
  rc_snapshot_sequence := None; rc_buffered_deltas := []; rc_payload_hashes := ∅;
  rc_payload_hash_order := []; rc_connection_epoch := epoch; rc_bootstrap_completed := false;
  rc_recovery_started_at := Some started; rc_recovery_completed_at := None;
  rc_last_recovery_failure := None |}.

(** One iteration of the outer loop, past its guard.  [counters] are the local
    variables [attempt] and [connection_epoch]. *)
Definition iteration (a : Attempt Raw) (counters : Z * Z) : M Sess (Z * Z) :=
  let '(attempt, connection_epoch) := counters in
  let now := at_now a in
  run! pmodify (fun s => set_ws_reconnects (expire now (ws_reconnects s)) s);
  do! s <- pget;
  if (cf_maximum_reconnects_per_minute cfg <=? Z.of_nat (length (ws_reconnects s))) then
    run! set_state DEGRADED (Some "maximum reconnect rate exceeded");
    run! pmodify (fun s => set_ws_slept (ws_slept s ++ [dmin (cf_stale_timeout cfg) 60]) s);
    pret counters
  else
    run! pmodify (fun s => set_ws_reconnects (ws_reconnects s ++ [now]) s);
    run! set_state CONNECTING None;
    do! connection_id <-
      (fun s => (set_ws_uuid (S (ws_uuid s)) s, Ok (uuid4 (ws_uuid s))));
    do! started <- utcnow;
    let ctx := new_context connection_id (connection_epoch + 1) started in
    fun s =>
      let c := {| lv_self := s; lv_context := ctx; lv_messages_received := 0;
                  lv_heartbeat_received := 0; lv_connected_at := None;
                  lv_attempt := attempt |} in
      let (c, r) := (run! set_reconciliation R_WAITING_FOR_SNAPSHOT; attempt_connection a) c in
      (set_ws_connection_context (Some (lv_context c)) (lv_self c),
       let! _ := r in Ok (lv_attempt c, connection_epoch + 1)).

(** [messages]: a session that is not closing after the last attempt is still
    in its loop. *)
Fixpoint messages_loop (attempts : list (Attempt Raw)) (counters : Z * Z) : M Sess unit :=
  do! s <- pget;
  if ws_closing s then set_state CLOSED None
  else
    match attempts with
    | [] => pret tt
    | a :: attempts => do! counters <- iteration a counters; messages_loop attempts counters
    end.

Definition messages (attempts : list (Attempt Raw)) : M Sess unit :=
  messages_loop attempts (0, 0).

End Operations.
