(* ===== verification/BookSync.v ===== *)
(** * The order book stays in step with its stream

    Theorems about adapters/exchanges/websocket.py as modelled in Websocket: a
    synchronized book is the replay of consecutive deltas on a snapshot, the
    cache of payload hashes and the buffer of deltas keep their bounds, payloads
    are not delivered twice, and reconnects are limited; and the one place where
    the book and its sequence part. *)

From Stdlib Require Import ZArith QArith Sorted Lia Lqa.
From stdpp Require Import base tactics list strings gmap relations.
From S2P Require Import Prelude Decimals Binary64 Evidence Websocket.

Local Open Scope string_scope.
Local Open Scope list_scope.
Local Open Scope Z_scope.

Section InStep.
Context {E : NetEnv} {Raw Decoded Norm B : Type}.
Variable cfg : StreamConfig Raw Decoded Norm B.

Notation Conn := (Live Raw Decoded Norm B).
Implicit Types (c : Conn) (b : B) (d : Decoded).

Definition book c : B := ws_book (lv_self c).
Definition previous c : option Z := rc_previous_sequence (lv_context c).
Definition phase c : ReconciliationState := rc_state (lv_context c).
Definition buffered c : list (Z * Decoded) := rc_buffered_deltas (lv_context c).

(** The delta [d] carries the sequence [n] and follows [p]: directly, or by the
    predecessor it names. *)
Definition follows (p n : Z) d : Prop :=
  cf_sequence cfg d = Some n /\
  (n = p + 1 \/ cf_sequence_predecessor cfg d = Some p /\ p < n).

(** The deltas [ds] lead from the sequence [p] to the sequence [n]. *)
Fixpoint chain (p : Z) (ds : list Decoded) (n : Z) : Prop :=
  match ds with
  | [] => p = n
  | d :: ds => exists m, follows p m d /\ chain m ds n
  end.

(** The book [b] is a snapshot with the deltas up to the sequence [n]. *)
Definition in_step b (n : Z) : Prop :=
  exists apply_snapshot apply_delta d0 b0 b1 s ds,
    cf_snapshot_applier cfg = Some apply_snapshot /\
    cf_delta_applier cfg = Some apply_delta /\
    apply_snapshot d0 b0 = (b1, Ok (Some s)) /\
    chain s ds n /\ pfor ds apply_delta b1 = (b, Ok tt).

(** What holds of a connection at all times. *)
Record Tidy c : Prop := {
  tidy_shared : ws_reconciliation_state (lv_self c) = phase c;
  tidy_hashes : rc_payload_hashes (lv_context c) =
                list_to_set (rc_payload_hash_order (lv_context c));
  tidy_nodup : NoDup (rc_payload_hash_order (lv_context c));
  tidy_cache : Z.of_nat (length (rc_payload_hash_order (lv_context c))) <=
               Z.max 0 (cf_duplicate_cache_size cfg);
  tidy_buffer : Z.of_nat (length (buffered c)) <= Z.max 0 (cf_maximum_buffered_deltas cfg);
  tidy_sequences : Forall (fun i => cf_sequence cfg i.2 = Some i.1) (buffered c);
}.

Definition Synced c : Prop :=
  phase c = R_SYNCHRONIZED -> exists n, previous c = Some n /\ in_step (book c) n.

Definition Good c : Prop := Tidy c /\ Synced c.
(** During a recovery the book may be anything. *)
Definition Recovering c : Prop := Tidy c /\ phase c <> R_SYNCHRONIZED.

Lemma recovering_good c : Recovering c -> Good c.
Proof. intros [Ht Hp]. split; [done|]. by intros H. Qed.

Lemma chain_snoc p ds n m d : chain p ds n -> follows n m d -> chain p (ds ++ [d]) m.
Proof.
  revert p. induction ds as [|d' ds IH]; intros p; simpl.
  - intros ->. exists m. done.
  - intros (k & Hf & Hc) Hm. exists k. split; [done|]. by apply IH.
Qed.

Lemma pfor_snoc {S A} (xs : list A) x (body : A -> M S unit) s s1 s2 :
  pfor xs body s = (s1, Ok tt) -> body x s1 = (s2, Ok tt) ->
  pfor (xs ++ [x]) body s = (s2, Ok tt).
Proof.
  revert s. induction xs as [|y ys IH]; intros s; simpl.
  - intros [= <-]. unfold pbind. by intros ->.
  - unfold pbind. destruct (body y s) as [s' [u|e]]; [|done]. apply IH.
Qed.

Lemma in_step_delta f d b b' p n :
  cf_delta_applier cfg = Some f -> in_step b p -> follows p n d -> f d b = (b', Ok tt) ->
  in_step b' n.
Proof.
  intros Hf (g & f' & d0 & b0 & b1 & s & ds & Hg & Hf' & H0 & Hc & Hr) Hn Ha.
  assert (f' = f) as -> by congruence.
  exists g, f, d0, b0, b1, s, (ds ++ [d]). split_and!; [done..| |].
  - by eapply chain_snoc.
  - by eapply pfor_snoc.
Qed.

Lemma contiguous_follows p n d :
  is_contiguous cfg p (Some n) d = true -> cf_sequence cfg d = Some n ->
  exists p', p = Some p' /\ follows p' n d.
Proof.
  unfold is_contiguous, follows. destruct p as [p|]; [|done]. intros H Hn. exists p.
  split; [done|]. split; [done|]. destruct (cf_sequence_predecessor cfg d) as [q|].
  - apply andb_true_iff in H as [H1 H2]. apply Z.ltb_lt in H1. apply Z.eqb_eq in H2 as ->.
    by right.
  - apply Z.eqb_eq in H. by left.
Qed.

(** ** Rules for the primitive operations *)

Lemma hoare_context P (Q : _ -> Conn -> Prop) R :
  (forall c, P c -> Q (lv_context c) c) -> hoare P context Q R.
Proof. intros H c Hc. simpl. auto. Qed.

Definition put_phase (st : ReconciliationState) c : Conn :=
  set_lv_self (set_ws_reconciliation_state st (lv_self c))
    (set_lv_context (set_rc_state st (lv_context c)) c).

Lemma hoare_set_reconciliation st P (Q : unit -> Conn -> Prop) R :
  (forall c, P c -> Q tt (put_phase st c)) -> hoare P (set_reconciliation st) Q R.
Proof. intros H c Hc. apply (H c Hc). Qed.

Definition put_book b c : Conn := set_lv_self (set_ws_book b (lv_self c)) c.

Lemma hoare_on_book {A} (m : M B A) P (Q : A -> Conn -> Prop) (R : Conn -> Prop) :
  (forall c b a, P c -> m (book c) = (b, Ok a) -> Q a (put_book b c)) ->
  (forall c b, P c -> R (put_book b c)) ->
  hoare P (on_book m) Q R.
Proof.
  intros H HR c Hc. unfold on_book, on_self, pzoom. fold (book c).
  destruct (m (book c)) as [b [a|e]] eqn:Em; simpl; [by apply H|by apply HR].
Qed.

Lemma hoare_on_self {A} (m : M (Session Raw Decoded Norm B) A) P (Q : A -> Conn -> Prop)
    (R : Conn -> Prop) :
  (forall c a, P c -> (m (lv_self c)).2 = Ok a -> Q a (set_lv_self (m (lv_self c)).1 c)) ->
  (forall c, P c -> R (set_lv_self (m (lv_self c)).1 c)) ->
  hoare P (on_self m) Q R.
Proof.
  intros H HR c Hc. unfold on_self, pzoom. specialize (H c). specialize (HR c Hc).
  destruct (m (lv_self c)) as [s [a|e]]; simpl in *; auto.
Qed.

(** A change of the session that touches neither the book nor the shared
    state. *)
Definition quiet (s s' : Session Raw Decoded Norm B) : Prop :=
  ws_book s' = ws_book s /\ ws_reconciliation_state s' = ws_reconciliation_state s.

Lemma tidy_quiet c s : quiet (lv_self c) s -> Tidy c -> Tidy (set_lv_self s c).
Proof. intros [_ Hq] []. split; simpl; try done. by rewrite Hq. Qed.

Lemma good_quiet c s : quiet (lv_self c) s -> Good c -> Good (set_lv_self s c).
Proof.
  intros Hq [Ht Hs]. split; [by apply tidy_quiet|]. intros Hp. destruct (Hs Hp) as (n & ? & Hb).
  exists n. split; [done|]. unfold book in *. simpl. by rewrite (proj1 Hq).
Qed.

Lemma recovering_quiet c s : quiet (lv_self c) s -> Recovering c -> Recovering (set_lv_self s c).
Proof. intros Hq [Ht Hp]. split; [by apply tidy_quiet|done]. Qed.

Lemma tidy_phase st c : Tidy c -> Tidy (put_phase st c).
Proof. intros []. by split. Qed.

Lemma recovering_phase st c : st <> R_SYNCHRONIZED -> Tidy c -> Recovering (put_phase st c).
Proof. intros Hst Ht. split; [by apply tidy_phase|done]. Qed.

Lemma tidy_book b c : Tidy c -> Tidy (put_book b c).
Proof. intros []. by split. Qed.

(** ** The operations *)

Definition put_hashes (h : gset string) (o : list string) c : Conn :=
  set_lv_context (set_hashes h o (lv_context c)) c.

Lemma NoDup_snoc_fresh (x : string) (o : list string) : NoDup o -> x ∉ o -> NoDup (o ++ [x]).
Proof.
  intros Ho Hx. apply NoDup_app. split_and!; [done| |apply NoDup_singleton]. set_solver.
Qed.

(** [_seen_payload] only touches the cache and keeps it tidy; it answers whether
    the payload was in it. *)
Lemma seen_payload_spec digest c :
  Tidy c ->
  exists h o, (seen_payload cfg digest c).1 = put_hashes h o c /\
    Tidy (put_hashes h o c) /\
    forall seen, (seen_payload cfg digest c).2 = Ok seen ->
      (seen = true <-> digest ∈ rc_payload_hash_order (lv_context c)) /\
      (seen = false -> digest ∈ o).
Proof.
  intros Ht. pose proof Ht as [Hsh Hh Hn Hc Hb Hs].
  assert (Tidy (put_hashes (rc_payload_hashes (lv_context c))
                           (rc_payload_hash_order (lv_context c)) c)) as Hid.
  { destruct Ht. by split. }
  unfold seen_payload, pbind, context.
  case_bool_decide as Hin.
  { exists (rc_payload_hashes (lv_context c)), (rc_payload_hash_order (lv_context c)).
    split_and!; [by destruct c as [? [] ? ? ? ?]|done|]. intros seen [= <-].
    rewrite Hh, elem_of_list_to_set in Hin. done. }
  assert (digest ∉ rc_payload_hash_order (lv_context c)) as Hfresh.
  { by rewrite Hh, elem_of_list_to_set in Hin. }
  destruct (cf_duplicate_cache_size cfg <=? _) eqn:El.
  - destruct (rc_payload_hash_order (lv_context c)) as [|x o] eqn:Eo.
    { exists (rc_payload_hashes (lv_context c)), [].
      split_and!; [destruct c as [? [] ? ? ? ?]; by simpl in *; subst|done|done]. }
    simpl. apply NoDup_cons in Hn as [Hx Ho].
    rewrite bool_decide_eq_true_2 by (rewrite Hh; set_solver).
    exists ({[digest]} ∪ rc_payload_hashes (lv_context c) ∖ {[x]}), (o ++ [digest]).
    split_and!; [done| |intros seen [= <-]; split; [split; [done|set_solver]|set_solver]].
    apply Z.leb_le in El. simpl in El, Hc. rewrite Hh. split; simpl; try done.
    + rewrite list_to_set_app_L. set_solver.
    + apply NoDup_snoc_fresh; [done|set_solver].
    + rewrite length_app. simpl. lia.
  - exists ({[digest]} ∪ rc_payload_hashes (lv_context c)),
      (rc_payload_hash_order (lv_context c) ++ [digest]).
    split_and!; [done| |intros seen [= <-]; split; [split; [done|set_solver]|set_solver]].
    apply Z.leb_gt in El. rewrite Hh. split; simpl; try done.
    + rewrite list_to_set_app_L. set_solver.
    + by apply NoDup_snoc_fresh.
    + rewrite length_app. simpl. lia.
Qed.

Lemma good_hashes h o c : Tidy (put_hashes h o c) -> Good c -> Good (put_hashes h o c).
Proof. intros Ht [_ Hs]. by split. Qed.

Lemma seen_payload_good digest :
  hoare Good (seen_payload cfg digest) (fun _ => Good) Good.
Proof.
  intros c Hc. destruct (seen_payload_spec digest c (proj1 Hc)) as (h & o & E1 & Ht & _).
  rewrite E1. pose proof (good_hashes h o c Ht Hc). by destruct (_.2).
Qed.

Lemma seen_payload_recovering digest :
  hoare Recovering (seen_payload cfg digest) (fun _ => Recovering) Recovering.
Proof.
  intros c [Ht Hp]. destruct (seen_payload_spec digest c Ht) as (h & o & E1 & Ht' & _).
  rewrite E1. assert (Recovering (put_hashes h o c)) by by split. by destruct (_.2).
Qed.

(** Buffering leaves the synchronized phase. *)
Lemma buffer_delta_recovering sequence d :
  (forall n, sequence = Some n -> cf_sequence cfg d = Some n) ->
  hoare Tidy (buffer_delta cfg sequence d) (fun _ => Recovering) Tidy.
Proof.
  intros Hd. destruct sequence as [n|]; simpl; [|by apply hoare_raise].
  intros c Ht. unfold pbind, context. simpl. fold (buffered c).
  destruct (_ <=? Z.of_nat (length (buffered c))) eqn:El; simpl.
  - by apply (tidy_phase R_DEGRADED).
  - apply Z.leb_gt in El. split; [|done]. destruct Ht. split; simpl; try done.
    + unfold buffered in *. simpl. rewrite length_app. simpl. lia.
    + unfold buffered in *. simpl. apply Forall_app. split; [done|]. apply Forall_singleton. simpl. auto.
Qed.

(** A replay keeps the book in step. *)
Definition Replaying (n : Z) c : Prop := Recovering c /\ in_step (book c) n.

Lemma rest_replay_step f e items :
  cf_delta_applier cfg = Some f ->
  Forall (fun i => cf_sequence cfg i.2 = Some i.1) items ->
  hoare (Replaying (e - 1)) (rest_replay f e items)
    (fun e' => Replaying (e' - 1)) Tidy.
Proof.
  intros Hf Hi. revert e. induction Hi as [|[n d] items Hn Hi IH]; intros e; simpl.
  { by apply hoare_ret. }
  destruct (Z.eqb_spec n e) as [->|]; simpl.
  - apply (hoare_bind _ _ _ (fun _ => Replaying (e + 1 - 1))); [|intros _; apply IH].
    apply hoare_on_book; [|by intros c b [[Ht _] _]; apply tidy_book].
    intros c b [] [[Ht Hp] Hs] Ha. split; [split; [by apply tidy_book|done]|].
    eapply in_step_delta; [done..| |exact Ha]. split; [simpl in Hn; rewrite Hn; f_equal; lia|left; lia].
  - apply (hoare_bind _ _ _ (fun _ => Tidy)); [|intros _; by apply hoare_raise].
    apply hoare_set_reconciliation. intros c [[Ht _] _]. by apply tidy_phase.
Qed.

Lemma complete_recovery_good n :
  hoare (fun c => Replaying n c /\ previous c = Some n) complete_recovery
    (fun _ => Good) Tidy.
Proof.
  intros c [[[Ht Hp] Hs] Hn]. unfold complete_recovery, pbind, on_self, pzoom, utcnow, on_context,
    set_reconciliation. simpl. split.
  - destruct Ht. split; simpl; try done. lia.
  - intros _. exists n. done.
Qed.

Lemma apply_snapshot_and_replay_good d :
  hoare Recovering (apply_snapshot_and_replay cfg d) (fun _ => Good) Tidy.
Proof.
  unfold apply_snapshot_and_replay. destruct (cf_snapshot_applier cfg) as [g|] eqn:Eg;
    [|by apply hoare_raise; intros c []].
  destruct (cf_delta_applier cfg) as [f|] eqn:Ef; [|by apply hoare_raise; intros c []].
  apply (hoare_bind _ _ _ (fun _ => Recovering)); [|intros _].
  { apply hoare_set_reconciliation. intros c [Ht _]. by apply recovering_phase. }
  apply (hoare_bind _ _ _ (fun a c => Recovering c /\ forall s, a = Some s -> in_step (book c) s));
    [|intros [s|]; [|by apply hoare_raise; intros c [[] _]]].
  { apply hoare_on_book; [|by intros c b [Ht _]; apply tidy_book].
    intros c b a [Ht Hp] Ha. split; [split; [by apply tidy_book|done]|]. intros s ->.
    exists g, f, d, (book c), b, s, []. done. }
  apply (hoare_bind _ _ _ (fun _ => Replaying s)); [|intros _].
  { apply hoare_modify. intros c [[Ht Hp] Hs]. split; [|by apply Hs].
    split; [|done]. destruct Ht. by split. }
  apply (hoare_bind _ _ _ (fun ctx c => Replaying s c /\
    Forall (fun i => cf_sequence cfg i.2 = Some i.1) (rc_buffered_deltas ctx)));
    [|intros ctx].
  { apply hoare_context. intros c H. split; [done|]. apply H. }
  intros c [Hc Hbuf]. revert c Hc. change (hoare (Replaying s)
    (run! set_reconciliation R_DELTA_REPLAYING;
     do! expected <- rest_replay f (s + 1)
       (sorted_by item_le (List.filter (newer s) (rc_buffered_deltas ctx)));
     run! on_context (set_rc_previous_sequence (Some (expected - 1)));
     complete_recovery) (fun _ => Good) Tidy).
  apply (hoare_bind _ _ _ (fun _ => Replaying (s + 1 - 1))); [|intros _].
  { apply hoare_set_reconciliation. intros c [[Ht _] Hs]. replace (s + 1 - 1) with s by lia.
    split; [by apply recovering_phase|done]. }
  eapply hoare_bind.
  { apply rest_replay_step; [done|]. rewrite sorted_by_Permutation.
    rewrite Forall_forall in Hbuf |- *. intros i Hi. apply Hbuf.
    apply list_elem_of_In, filter_In in Hi as [Hi _]. by apply list_elem_of_In. }
  intros e. apply (hoare_bind _ _ _ (fun _ c => Replaying (e - 1) c /\ previous c = Some (e - 1)));
    [|intros _; apply complete_recovery_good].
  apply hoare_modify. intros c [[Ht Hp] Hs]. split; [|done]. split; [|done].
  split; [destruct Ht; by split|done].
Qed.

(** *** Snapshots of the stream *)

Definition Stepping c : Prop := Recovering c /\ exists n, previous c = Some n /\ in_step (book c) n.

Lemma replay_delta_step item :
  cf_sequence cfg item.2 = Some item.1 ->
  hoare Stepping (replay_delta cfg item) (fun _ => Stepping) Tidy.
Proof.
  destruct item as [n d]. intros Hn. cbn [fst snd] in Hn. unfold replay_delta.
  apply (hoare_bind _ _ _ (fun ctx c => Stepping c /\ ctx = lv_context c)); [|intros ctx].
  { by apply hoare_context. }
  destruct (_ <=? _); [by apply hoare_ret; intros c []|].
  destruct (is_contiguous cfg (rc_previous_sequence ctx) (Some n) d) eqn:Ec; cbn [negb].
  - destruct (cf_delta_applier cfg) as [f|] eqn:Ef;
      [|by apply hoare_raise; intros c [[[Ht _] _] _]].
    apply contiguous_follows in Ec as (p & Hp & Hf); [|done].
    apply (hoare_bind _ _ _ (fun _ c => Recovering c /\ in_step (book c) n)).
    + apply hoare_on_book; [|by intros c b [[[Ht _] _] _]; apply tidy_book].
      intros c b [] [[[Ht Hph] (q & Hq & Hs)] ->] Ha. split; [split; [by apply tidy_book|done]|].
      eapply in_step_delta; [done| |exact Hf|exact Ha]. unfold previous in Hq. congruence.
    + intros _. apply hoare_modify. intros c [[Ht Hph] Hs]. split; [|by exists n].
      split; [destruct Ht; by split|done].
  - apply (hoare_bind _ _ _ (fun _ => Tidy)); [|intros _; by apply hoare_raise].
    apply hoare_set_reconciliation. intros c [[[Ht _] _] _]. by apply tidy_phase.
Qed.

Lemma stepping_completes :
  hoare Stepping complete_recovery (fun _ => Good) Tidy.
Proof.
  intros c [Hr (n & Hn & Hs)]. by apply (complete_recovery_good n).
Qed.

Context (Hsem : order_book_semantics cfg = Some SNAPSHOT_AND_DELTA).

Lemma apply_stream_snapshot_good d sequence :
  is_Some (cf_snapshot_applier cfg) -> is_Some (cf_delta_applier cfg) ->
  hoare Tidy (apply_stream_snapshot cfg d sequence) (fun _ => Good) Tidy.
Proof using Hsem.
  intros [g Hg] [f Hf]. unfold apply_stream_snapshot. rewrite Hg, Hsem.
  destruct (cf_validate_snapshot cfg d); simpl.
  2: { apply (hoare_bind _ _ _ (fun _ => Tidy)); [|intros _; by apply hoare_raise].
       apply hoare_set_reconciliation. intros c Ht. by apply tidy_phase. }
  apply (hoare_bind _ _ _ (fun _ => Recovering)); [|intros _].
  { apply hoare_set_reconciliation. intros c Ht. by apply recovering_phase. }
  apply (hoare_bind _ _ _ (fun a c => Recovering c /\ forall s, a = Some s -> in_step (book c) s)).
  { apply hoare_on_book; [|by intros c b [Ht _]; apply tidy_book].
    intros c b a [Ht Hp] Ha. split; [split; [by apply tidy_book|done]|]. intros s ->.
    exists g, f, d, (book c), b, s, []. done. }
  intros [s|]; simpl.
  2: { apply (hoare_bind _ _ _ (fun _ => Tidy)); [|intros _; by apply hoare_raise].
       apply hoare_set_reconciliation. intros c [[Ht _] _]. by apply tidy_phase. }
  apply (hoare_bind _ _ _ (fun _ c => Replaying s c)); [|intros _].
  { apply hoare_modify. intros c [[Ht Hp] Hs]. split; [|by apply Hs].
    split; [destruct Ht; by split|done]. }
  apply (hoare_bind _ _ _ (fun _ => Stepping)); [|intros _].
  { apply hoare_modify. intros c [[Ht Hp] Hs]. split; [|by exists s].
    split; [destruct Ht; by split|done]. }
  apply (hoare_bind _ _ _ (fun _ => Stepping)); [|intros _; apply stepping_completes].
  apply (hoare_bind _ _ _ (fun ctx c => Stepping c /\ ctx = lv_context c)); [|intros ctx].
  { by apply hoare_context. }
  intros c [Hc ->].
  assert (Forall (fun i => cf_sequence cfg i.2 = Some i.1) (rc_buffered_deltas (lv_context c)))
    as Hbuf by apply Hc.
  revert Hc. generalize (rc_buffered_deltas (lv_context c)) Hbuf. intros items Hitems Hc.
  apply (hoare_bind Stepping _ _ (fun _ => Stepping) (fun _ => Stepping) Tidy); [| |exact Hc].
  - apply hoare_set_reconciliation. intros c' [[Ht _] Hs]. split; [by apply recovering_phase|done].
  - intros _. apply hoare_for. intros i Hi. apply replay_delta_step.
    rewrite Forall_forall in Hitems. apply Hitems. by apply elem_of_sorted_by in Hi.
Qed.

(** *** REST recovery *)

Lemma load_rest_recovering rest :
  hoare Recovering (load_rest rest) (fun _ => Recovering) Tidy.
Proof.
  apply hoare_on_self; [intros c a Hc _; by apply recovering_quiet|].
  intros c [Ht _]. by apply tidy_quiet.
Qed.

Lemma bootstrap_item_recovering item :
  hoare Recovering (bootstrap_item cfg item) (fun _ => Recovering) Tidy.
Proof.
  destruct item as [raw|e]; simpl; [|by apply hoare_raise; intros c []].
  apply (hoare_bind _ _ _ (fun _ => Recovering)); [|intros d].
  { apply hoare_lift; [done|by intros c []]. }
  destruct (cf_heartbeat cfg d); [by apply hoare_ret|].
  destruct (cf_delta cfg d); simpl; [|by apply hoare_raise; intros c []].
  apply (hoare_bind _ _ _ (fun _ => Recovering)); [|intros [|]; [by apply hoare_ret|]].
  - eapply hoare_conseq; [apply seen_payload_recovering|done|done|by intros c []].
  - eapply hoare_conseq; [by apply buffer_delta_recovering|by intros c []|done|done].
Qed.

Lemma bootstrap_good queue :
  hoare Tidy (bootstrap cfg queue) (fun _ => Good) Tidy.
Proof.
  unfold bootstrap. destruct (cf_rest_snapshot cfg) as [rest|]; [|by apply hoare_raise].
  apply (hoare_bind _ _ _ (fun _ => Tidy)); [|intros _].
  { apply hoare_set_reconciliation. intros c Ht. by apply tidy_phase. }
  apply (hoare_bind _ _ _ (fun _ => Recovering)); [|intros _].
  { apply hoare_set_reconciliation. intros c Ht. by apply recovering_phase. }
  eapply hoare_bind; [apply load_rest_recovering|]. intros d.
  apply (hoare_bind _ _ _ (fun _ => Recovering)); [|intros _; apply apply_snapshot_and_replay_good].
  apply hoare_for. intros i _. apply bootstrap_item_recovering.
Qed.

Lemma set_state_tidy st reason : hoare Tidy (on_self (set_state cfg st reason)) (fun _ => Tidy) Tidy.
Proof. apply hoare_on_self; intros; by apply tidy_quiet. Qed.

Lemma set_state_good st reason : hoare Good (on_self (set_state cfg st reason)) (fun _ => Good) Tidy.
Proof.
  apply hoare_on_self; [intros; by apply good_quiet|]. intros c [Ht _]. by apply tidy_quiet.
Qed.

Lemma recover_good n d :
  cf_sequence cfg d = Some n ->
  hoare Tidy (recover cfg n d) (fun _ => Good) Tidy.
Proof.
  intros Hn. unfold recover.
  apply (hoare_bind _ _ _ (fun _ => Tidy)); [apply set_state_tidy|intros _].
  apply (hoare_bind _ _ _ (fun _ => Tidy)); [|intros _].
  { apply hoare_set_reconciliation. intros c Ht. by apply tidy_phase. }
  eapply hoare_bind; [apply buffer_delta_recovering; congruence|]. intros [].
  destruct (cf_rest_snapshot cfg) as [rest|] eqn:Er, (cf_snapshot_applier cfg) as [g|] eqn:Eg,
    (cf_delta_applier cfg) as [f|] eqn:Ef;
    try (apply (hoare_bind _ _ _ (fun _ => Tidy)); [|intros _; by apply hoare_raise];
         eapply hoare_conseq; [apply set_state_tidy|by intros c []|done|done]).
  apply (hoare_bind _ _ _ (fun _ => Recovering)); [|intros _].
  { apply hoare_set_reconciliation. intros c [Ht _]. by apply recovering_phase. }
  eapply hoare_bind; [apply load_rest_recovering|]. intros d0.
  eapply hoare_bind; [apply apply_snapshot_and_replay_good|]. intros [].
  apply (hoare_bind _ _ _ (fun _ => Good)); [by apply hoare_context|]. intros ctx.
  apply set_state_good.
Qed.

(** *** The receive loop of a stream without snapshots of its own *)

Context (Hdeltas : forall d, cf_snapshot cfg d = false).

Lemma reconcile_good d :
  hoare Good (reconcile cfg d (cf_sequence cfg d))
    (fun emit c => Good c /\ (emit = true -> previous c = cf_sequence cfg d)) Tidy.
Proof using Hsem Hdeltas.
  unfold reconcile. rewrite Hsem, Hdeltas.
  apply (hoare_bind _ _ _ (fun ctx c => Good c /\ ctx = lv_context c)); [|intros ctx].
  { by apply hoare_context. }
  destruct (cf_delta cfg d); [|by apply hoare_raise; intros c [[Ht _] _]].
  case_bool_decide as Hph; cbn [negb].
  2: { apply (hoare_bind _ _ _ (fun _ => Recovering)).
       - eapply hoare_conseq; [by apply buffer_delta_recovering|by intros c [[Ht _] _]|done|done].
       - intros _. apply hoare_ret. intros c Hc. split; [by apply recovering_good|done]. }
  destruct (is_contiguous _ _ _ _) eqn:Ec; cbn [negb].
  - destruct (cf_delta_applier cfg) as [f|] eqn:Ef; [|by apply hoare_raise; intros c [[Ht _] _]].
    destruct (cf_sequence cfg d) as [n|] eqn:En; [|done].
    apply contiguous_follows in Ec as (p & Hp & Hf); [|done].
    apply (hoare_bind _ _ _ (fun _ c => Tidy c /\ in_step (book c) n)); [|intros _].
    + apply hoare_on_book; [|by intros c b [[Ht _] _]; apply tidy_book].
      intros c b [] [[Ht Hs] ->] Ha. split; [by apply tidy_book|].
      destruct (Hs Hph) as (q & Hq & Hb).
      eapply in_step_delta; [done| |exact Hf|exact Ha]. unfold previous in Hq. congruence.
    + apply (hoare_bind _ _ _ (fun _ c => Good c /\ previous c = Some n)).
      * apply hoare_modify. intros c [Ht Hb]. split; [|done].
        split; [destruct Ht; by split|]. intros _. by exists n.
      * intros _. apply hoare_ret. intros c [Hc Hq]. done.
  - destruct (cf_sequence cfg d) as [n|] eqn:En; [|by apply hoare_raise; intros c [[Ht _] _]].
    apply (hoare_bind _ _ _ (fun _ => Good)).
    + eapply hoare_conseq; [by apply recover_good|by intros c [[Ht _] _]|done|done].
    + intros _. by apply hoare_ret.
Qed.

Lemma quiet_self f P (Q : unit -> Conn -> Prop) R :
  (forall s, quiet s (f s)) -> (forall c, P c -> Good c) -> (forall c, Good c -> Q tt c) ->
  hoare P (on_self (pmodify f)) Q R.
Proof. intros Hf HP HQ c Hc. apply HQ, good_quiet; [apply Hf|auto]. Qed.

Lemma make_message_good raw d digest n :
  hoare Good (make_message cfg raw d digest n) (fun _ => Good) Tidy.
Proof.
  intros c Hc. unfold make_message, pbind, on_self, pzoom, utcnow, monotonic_ns, pget. simpl.
  repeat (apply good_quiet; [done|]). done.
Qed.

Lemma handle_frame_good raw abandon :
  hoare Good (handle_frame cfg raw abandon) (fun _ => Good) Tidy.
Proof using Hsem Hdeltas.
  unfold handle_frame.
  apply (hoare_bind _ _ _ (fun _ => Good)); [|intros d].
  { apply hoare_lift; [done|by intros c []]. }
  destruct (cf_heartbeat cfg d).
  { apply hoare_modify. intros c [[] ?]. split; [by split|done]. }
  apply (hoare_bind _ _ _ (fun _ => Good)); [|intros _].
  { apply hoare_modify. intros c [[] ?]. split; [by split|done]. }
  apply (hoare_bind _ _ _ (fun _ => Good)); [|intros [|]; [by apply hoare_ret|]].
  { eapply hoare_conseq; [apply seen_payload_good|done|done|by intros c []]. }
  eapply hoare_bind; [apply reconcile_good|]. intros [|]; [|apply hoare_ret; by intros c []].
  cbn [negb].
  apply (hoare_bind _ _ _ (fun _ => Good)); [|intros _].
  { apply hoare_modify. intros c [[Ht Hs] Hp]. specialize (Hp eq_refl). split.
    - destruct Ht. by split.
    - intros Hph. destruct (Hs Hph) as (n & Hn & Hb). exists n. split; [|done].
      unfold previous in *. simpl. congruence. }
  apply (hoare_bind _ _ _ (fun _ => Good)); [by apply quiet_self|intros _].
  eapply hoare_bind; [apply make_message_good|]. intros msg.
  apply (hoare_bind _ _ _ (fun _ => Good)); [|intros _].
  { destruct (cf_raw_message_sink cfg); [|by apply hoare_ret].
    apply hoare_lift; [done|by intros c []]. }
  apply (hoare_bind _ _ _ (fun _ => Good)); [by apply quiet_self|intros _].
  destruct abandon; [apply hoare_raise; by intros c []|by apply hoare_ret].
Qed.

Lemma close_good : hoare Good (on_self (close cfg)) (fun _ => Good) Tidy.
Proof.
  apply hoare_on_self; [intros; by apply good_quiet|]. intros c [Ht _]. by apply tidy_quiet.
Qed.

Lemma receive_loop_good incoming :
  hoare Good (receive_loop cfg incoming) (fun _ => Good) Tidy.
Proof using Hsem Hdeltas.
  induction incoming as [|i incoming IH]; simpl.
  { apply (hoare_bind _ _ _ (fun _ => Good)); [by apply hoare_get|]. intros c.
    destruct (ws_closing _); by apply hoare_ret. }
  apply (hoare_bind _ _ _ (fun _ => Good)); [by apply hoare_get|]. intros c.
  destruct (ws_closing _); [by apply hoare_ret|].
  apply (hoare_bind _ _ _ (fun _ => Good)); [|intros _].
  { destruct (in_close i); [apply close_good|by apply hoare_ret]. }
  apply (hoare_bind _ _ _ (fun _ => Good)); [|intros _; apply IH].
  destruct (in_item i); [apply handle_frame_good|apply hoare_raise; by intros ? []].
Qed.

(** The connection as it is opened: nothing buffered, nothing seen. *)
Definition opened c : Prop :=
  (exists connection_id epoch started,
     lv_context c = set_rc_state R_WAITING_FOR_SNAPSHOT
       (new_context connection_id epoch started)) /\
  ws_reconciliation_state (lv_self c) = R_WAITING_FOR_SNAPSHOT.

Lemma opened_recovering c : opened c -> Recovering c.
Proof.
  intros ((i & e & t & Hc) & Hs). split; [|unfold phase; by rewrite Hc].
  split; unfold buffered, phase; rewrite ?Hs, Hc; simpl; try done; [constructor|lia|lia].
Qed.

Lemma connection_good a :
  hoare opened (connection cfg a) (fun _ => Good) Tidy.
Proof using Hsem Hdeltas.
  unfold connection.
  apply (hoare_bind _ _ _ (fun _ => Recovering)); [|intros _].
  { apply hoare_lift; [intros; by apply opened_recovering|].
    intros c Hc. by apply opened_recovering in Hc as []. }
  apply (hoare_bind _ _ _ (fun _ => Recovering)); [|intros t].
  { apply hoare_on_self; [intros; by apply recovering_quiet|].
    intros c [Ht _]. by apply tidy_quiet. }
  apply (hoare_bind _ _ _ (fun _ => Recovering)); [|intros _].
  { apply hoare_modify. intros c [[] ?]. split; [by split|done]. }
  apply (hoare_bind _ _ _ (fun _ => Recovering)); [|intros _].
  { destruct (cf_subscribe cfg); [|by apply hoare_ret].
    do 3 (apply (hoare_bind _ _ _ (fun _ => Recovering));
      [apply hoare_lift; [done|by intros c []]|intros ?]).
    case_goal; [by apply hoare_ret|apply hoare_raise; by intros c []]. }
  apply (hoare_bind _ _ _ (fun _ => Recovering)); [|intros _].
  { apply hoare_on_self; [intros; by apply recovering_quiet|].
    intros c [Ht _]. by apply tidy_quiet. }
  apply (hoare_bind _ _ _ (fun _ => Good)); [|intros _].
  { rewrite Hsem. case_goal.
    - eapply hoare_conseq; [apply bootstrap_good|by intros c []|done|done].
    - apply hoare_ret. intros c. apply recovering_good. }
  apply (hoare_bind _ _ _ (fun _ => Good)); [|intros _; apply receive_loop_good].
  apply hoare_modify. intros c [[] ?]. split; [by split|done].
Qed.

End InStep.

(** ** Reconnects are limited *)

Section Reconnects.
Context {E : NetEnv} {Raw Decoded Norm B : Type}.
Variable cfg : StreamConfig Raw Decoded Norm B.

Notation Conn := (Live Raw Decoded Norm B).
Notation Sess := (Session Raw Decoded Norm B).

(** Whether an iteration opens a connection. *)
Definition dialed (a : Attempt Raw) (s : Sess) : bool :=
  Z.of_nat (length (expire (at_now a) (ws_reconnects s))) <? cf_maximum_reconnects_per_minute cfg.

(** The times at which a run of [messages] opens connections. *)
Fixpoint dials (attempts : list (Attempt Raw)) (counters : Z * Z) (s : Sess) : list Q :=
  match attempts with
  | [] => []
  | a :: attempts =>
      if ws_closing s then []
      else
        let r := iteration cfg a counters s in
        (if dialed a s then [at_now a] else []) ++
        match r.2 with Ok counters => dials attempts counters r.1 | Err _ => [] end
  end.

(** What runs inside a connection leaves the list of reconnects alone. *)
Definition same_reconnects (c c' : Conn) : Prop :=
  ws_reconnects (lv_self c') = ws_reconnects (lv_self c).

#[local] Instance same_reconnects_preorder : PreOrder same_reconnects.
Proof. split; [done|]. intros a b c. unfold same_reconnects. congruence. Qed.

Lemma steps_self {A} (m : M Sess A) :
  (forall s, ws_reconnects (m s).1 = ws_reconnects s) -> steps same_reconnects (on_self m).
Proof.
  intros H c. unfold on_self, pzoom, same_reconnects. specialize (H (lv_self c)).
  by destruct (m (lv_self c)).
Qed.

Lemma steps_book {A} (m : M B A) : steps same_reconnects (on_book m).
Proof. apply steps_self. intros s. unfold pzoom. by destruct (m (ws_book s)). Qed.

Lemma steps_context f : steps same_reconnects (on_context f).
Proof. by apply steps_modify. Qed.

Lemma session_read : steps same_reconnects (@context Raw Decoded Norm B).
Proof. done. Qed.

Lemma steps_get : steps same_reconnects (@pget Conn).
Proof. done. Qed.

Lemma steps_state st reason : steps same_reconnects (on_self (set_state cfg st reason)).
Proof. by apply steps_self. Qed.
Lemma session_close : steps same_reconnects (on_self (close cfg)).
Proof. by apply steps_self. Qed.
Lemma session_now : steps same_reconnects (on_self utcnow).
Proof. by apply steps_self. Qed.
Lemma steps_ns : steps same_reconnects (on_self monotonic_ns).
Proof. by apply steps_self. Qed.
Lemma steps_reconciliation st : steps same_reconnects (set_reconciliation st).
Proof. by intros c. Qed.
Lemma steps_rest rest : steps same_reconnects (load_rest rest).
Proof. by apply steps_self. Qed.

#[local] Hint Resolve steps_book steps_context session_read steps_get steps_state session_close
  session_now steps_ns steps_reconciliation steps_rest same_reconnects_preorder : steps.

Lemma steps_seen digest : steps same_reconnects (seen_payload cfg digest).
Proof. unfold seen_payload. steps_go. Qed.
Lemma steps_buffer n d : steps same_reconnects (buffer_delta cfg n d).
Proof. unfold buffer_delta. steps_go. Qed.
Lemma steps_complete : steps same_reconnects (@complete_recovery E Raw Decoded Norm B).
Proof. unfold complete_recovery. steps_go. Qed.
Lemma steps_rest_replay f e items : steps same_reconnects (rest_replay f e items).
Proof. revert e. induction items as [|[n d] items IH]; intros e; simpl; steps_go; apply IH. Qed.
#[local] Hint Resolve steps_seen steps_buffer steps_complete steps_rest_replay : steps.

Lemma steps_replay_delta item : steps same_reconnects (replay_delta cfg item).
Proof. destruct item. unfold replay_delta. steps_go. Qed.
Lemma steps_rest_snapshot d : steps same_reconnects (apply_snapshot_and_replay cfg d).
Proof. unfold apply_snapshot_and_replay. steps_go. Qed.
#[local] Hint Resolve steps_replay_delta steps_rest_snapshot : steps.

Lemma steps_stream_snapshot d n : steps same_reconnects (apply_stream_snapshot cfg d n).
Proof. unfold apply_stream_snapshot. steps_go. Qed.
Lemma steps_bootstrap queue : steps same_reconnects (bootstrap cfg queue).
Proof.
  unfold bootstrap. steps_go. destruct x as [raw|e]; simpl; steps_go.
Qed.
Lemma steps_recover n d : steps same_reconnects (recover cfg n d).
Proof. unfold recover. steps_go. Qed.
#[local] Hint Resolve steps_stream_snapshot steps_bootstrap steps_recover : steps.

Lemma session_reconcile d n : steps same_reconnects (reconcile cfg d n).
Proof. unfold reconcile. steps_go. Qed.
Lemma steps_message raw d digest n : steps same_reconnects (make_message cfg raw d digest n).
Proof. unfold make_message. steps_go. Qed.
#[local] Hint Resolve session_reconcile steps_message : steps.

Lemma steps_frame raw abandon : steps same_reconnects (handle_frame cfg raw abandon).
Proof.
  unfold handle_frame. steps_go; try (by apply steps_modify); by apply steps_self.
Qed.
#[local] Hint Resolve steps_frame : steps.

Lemma steps_receive incoming : steps same_reconnects (receive_loop cfg incoming).
Proof. induction incoming as [|i incoming IH]; simpl; steps_go; apply IH. Qed.
#[local] Hint Resolve steps_receive : steps.

Lemma steps_attempt a : steps same_reconnects (attempt_connection cfg a).
Proof.
  assert (forall e, steps same_reconnects (record_lifecycle cfg a e)) as Hl.
  { intros e. unfold record_lifecycle. steps_go; by apply steps_self. }
  assert (steps same_reconnects (ptry (run! connection cfg a; pret None) (handle_exception cfg)))
    as Ht.
  { unfold connection, handle_exception. steps_go; first [by apply steps_modify|by apply steps_self]. }
  intros c. unfold attempt_connection. specialize (Ht c).
  destruct (ptry _ _ c) as [c1 [e|e]]; simpl in *; (etransitivity; [exact Ht|]); [apply Hl|].
  apply (steps_bind same_reconnects (record_lifecycle cfg a None) (fun _ => praise e));
    [apply Hl|]. intros _ c'. done.
Qed.

Lemma iteration_reconnects a counters s :
  ws_reconnects (iteration cfg a counters s).1 =
  expire (at_now a) (ws_reconnects s) ++ (if dialed a s then [at_now a] else []).
Proof.
  destruct counters as [attempt epoch]. unfold iteration, dialed.
  unfold pbind at 1. cbn [pmodify]. unfold pbind at 1. cbn [pget]. cbn [set_ws_reconnects ws_reconnects].
  set (rs := expire _ _). rewrite Z.ltb_antisym.
  destruct (_ <=? _); cbn [negb]; [by rewrite app_nil_r|].
  unfold pbind at 1 2 3 4. simpl.
  set (c := {| lv_self := _ |}).
  pose proof (steps_bind same_reconnects _ (fun _ => attempt_connection cfg a)
    (steps_reconciliation R_WAITING_FOR_SNAPSHOT) (fun _ => steps_attempt a) c) as Hc.
  destruct (pbind _ _ c) as [c1 r]. simpl in *. exact Hc.
Qed.

(** Any [m] connections in a row take a minute. *)
Definition spaced (m : nat) (times : list Q) : Prop :=
  forall i t t', times !! i = Some t -> times !! (i + m)%nat = Some t' ->
    (60 <= fl (t' - t))%Q.

Lemma expire_spec now rs :
  exists old, rs = old ++ expire now rs /\ Forall (fun t => (60 <= fl (now - t))%Q) old.
Proof.
  induction rs as [|t rs (old & E1 & H)]; simpl; [by exists []|].
  destruct (dleb 60 (fl (now - t))) eqn:Ed; [|by exists []].
  exists (t :: old). simpl. rewrite <- E1. split; [done|]. constructor; [|done].
  by apply dleb_le in Ed.
Qed.

Lemma spaced_snoc m times old rs now :
  times = old ++ rs -> (length rs < m)%nat ->
  Forall (fun t => (60 <= fl (now - t))%Q) old ->
  spaced m times -> spaced m (times ++ [now]).
Proof.
  intros -> Hl Ho Hs i t t' Hi Hj. apply lookup_lt_Some in Hj as Hlt.
  rewrite length_app in Hlt. simpl in Hlt.
  destruct (decide (i + m < length (old ++ rs))%nat) as [Hin|Hout].
  - rewrite lookup_app_l in Hi, Hj by lia. by eapply Hs.
  - rewrite lookup_app_r in Hj by lia.
    replace (i + m - length (old ++ rs))%nat with 0%nat in Hj by lia. injection Hj as <-.
    rewrite length_app in *. rewrite lookup_app_l in Hi by (rewrite length_app; lia).
    rewrite lookup_app_l in Hi by lia. rewrite Forall_forall in Ho. apply Ho.
    by eapply list_elem_of_lookup_2.
Qed.

Lemma dials_spaced m attempts counters s history old now0 :
  cf_maximum_reconnects_per_minute cfg = Z.of_nat m ->
  history = old ++ ws_reconnects s ->
  (forall t now, t ∈ old -> (now0 <= now)%Q -> (60 <= fl (now - t))%Q) ->
  Sorted Qle (now0 :: map at_now attempts) ->
  spaced m history -> spaced m (history ++ dials attempts counters s).
Proof.
  intros Hm. revert counters s history old now0.
  induction attempts as [|a attempts IH]; intros counters s history old now0 -> Hold Hsort Hs;
    simpl; [by rewrite app_nil_r|].
  destruct (ws_closing s); [by rewrite app_nil_r|].
  apply Sorted_inv in Hsort as [Hsort Hle]. apply HdRel_inv in Hle. simpl in Hle.
  pose proof (iteration_reconnects a counters s) as Hr.
  destruct (expire_spec (at_now a) (ws_reconnects s)) as (gone & Egone & Hgone).
  set (rs := expire (at_now a) (ws_reconnects s)) in *.
  assert (forall t now, t ∈ old ++ gone -> (at_now a <= now)%Q -> (60 <= fl (now - t))%Q) as Hold'.
  { intros t now [Ht|Ht]%elem_of_app Hn.
    - apply Hold; [done|]. lra.
    - rewrite Forall_forall in Hgone. eapply Qle_trans; [by apply Hgone|]. apply fl_mono. lra. }
  assert (spaced m (old ++ ws_reconnects s ++ (if dialed a s then [at_now a] else []))) as Hs'.
  { destruct (dialed a s) eqn:Ed; [|by rewrite app_nil_r]. rewrite app_assoc.
    apply (spaced_snoc _ _ (old ++ gone) rs); [rewrite <- app_assoc; f_equal; exact Egone| | |done].
    - unfold dialed in Ed. fold rs in Ed. apply Z.ltb_lt in Ed. lia.
    - apply Forall_forall. intros t Ht. apply Hold'; [done|apply Qle_refl]. }
  rewrite app_assoc. rewrite <- (app_assoc old).
  destruct (iteration cfg a counters s) as [s' [counters'|e]]; simpl in *;
    [|by rewrite app_nil_r].
  eapply (IH counters' s' _ (old ++ gone) (at_now a)); [|done|done|done].
  rewrite Hr, <- !app_assoc. f_equal. rewrite app_assoc. by f_equal.
Qed.

End Reconnects.

(** ** A concrete stream

    A payload is a flag for snapshots, a sequence number and its hash; the book
    records what was applied to it. *)
Module Sample.

Definition payload : Type := bool * Z * string.

Definition env : NetEnv := {|
  wall n := Z.of_nat n; mono n := Z.of_nat n; uuid4 n := "connection";
  exc_str e := match e with ValueError m | RuntimeError m => m | e => exc_name e end;
  exc_code _ := None; exc_reason _ := None;
  transport n := bool_decide (n ∈ ["OSError"; "TimeoutError"; "ConnectionClosed"]);
  timeout_class n := bool_decide (n = "TimeoutError") |}.

Definition config (rest : option (nat -> result payload)) (snapshots : bool)
  : StreamConfig payload payload unit (list Z) := {|
  cf_venue := "bitget"; cf_subscription_id := "books"; cf_subscribe := true;
  cf_acknowledgement := Some (fun _ => true); cf_normalize _ := tt;
  cf_sequence p := Some p.1.2; cf_exchange_timestamp _ := None;
  cf_snapshot p := snapshots && p.1.1; cf_delta p := negb p.1.1; cf_heartbeat _ := false;
  cf_rest_snapshot := rest;
  cf_snapshot_applier := Some (fun p _ => ([p.1.2], Ok (Some p.1.2)));
  cf_delta_applier := Some (fun p b => (b ++ [p.1.2], Ok tt));
  cf_sequence_predecessor _ := None; cf_validate_snapshot _ := true;
  cf_maximum_buffered_deltas := 10000; cf_duplicate_cache_size := 4096;
  cf_raw_message_sink := None; cf_classification := SNAPSHOT_DELTA;
  cf_order_book_semantics := None; cf_instrument := "BTC";
  cf_maximum_reconnects_per_minute := 2; cf_backoff_cap := 30; cf_stale_timeout := 30;
  cf_decode := Ok; cf_payload_sha256 p := p.2 |}.

Definition delta (n : Z) (hash : string) : payload := (false, n, hash).
Definition incoming (p : payload) : Incoming payload :=
  {| in_item := Frame p; in_close := false; in_abandon := false |}.

Definition attempt (now : Q) (queue : list payload) (items : list payload) : Attempt payload := {|
  at_now := now; at_connect := Ok tt; at_send := Ok tt; at_ack := Ok (false, 0, "ack");
  at_queue := map Frame queue; at_incoming := map incoming items; at_heartbeat_sent := 0 |}.

Definition session : Session payload payload unit (list Z) := {|
  ws_state := CONNECTING; ws_state_events := []; ws_closing := false; ws_reconnects := [];
  ws_local_sequence := 0; ws_reconciliation_state := R_WAITING_FOR_SNAPSHOT;
  ws_connection_context := None; ws_book := []; ws_wall := 0; ws_mono := 0; ws_uuid := 0;
  ws_rest := 0; ws_slept := []; ws_yielded := []; ws_lifecycles := [] |}.

Definition start : Live payload payload unit (list Z) := {|
  lv_self := session;
  lv_context := set_rc_state R_WAITING_FOR_SNAPSHOT (new_context "connection" 1 0);
  lv_messages_received := 0; lv_heartbeat_received := 0; lv_connected_at := None;
  lv_attempt := 0 |}.

(** A REST snapshot at 10, and one at 14 when a gap is repaired. *)
Definition rest (n : nat) : result payload :=
  Ok (true, match n with O => 10 | _ => 14 end, "rest").

End Sample.

#[local] Existing Instance Sample.env.



(** Reconnects are limited.  In a run of [messages] over any sequence of
    connection attempts, made at times that do not decrease, the times at which
    connections are opened are spaced: from any connection to the
    [maximum_reconnects_per_minute]-th after it at least sixty seconds pass, as
    the code measures them. *)
Theorem reconnects_limited {E : NetEnv} {Raw Decoded Norm B : Type}
    (cfg : StreamConfig Raw Decoded Norm B) (m : nat) (attempts : list (Attempt Raw))
    (s : Session Raw Decoded Norm B) (t0 : Q) :
  cf_maximum_reconnects_per_minute cfg = Z.of_nat m ->
  ws_reconnects s = [] ->
  Sorted Qle (t0 :: map at_now attempts) ->
  spaced m (dials cfg attempts (0, 0) s).
Proof.
  intros Hm Hs Ht. apply (dials_spaced cfg m attempts (0, 0) s [] [] t0);
    [done|by rewrite Hs|intros t now Hin; by apply not_elem_of_nil in Hin|done|].
  intros i t t' Hi. by rewrite lookup_nil in Hi.
Qed.

Lemma reconnects_limited_witness :
  let cfg := Sample.config None true in
  let down now := {| at_now := now; at_connect := Err (OtherError "OSError");
                     at_send := Ok tt; at_ack := Ok (Sample.delta 0 "ack"); at_queue := [];
                     at_incoming := []; at_heartbeat_sent := 0 |} in
  let times := dials cfg (map down [0; 1; 2; 61; 62]%Q) (0, 0) Sample.session in
  times = [0; 1; 61; 62]%Q /\ spaced 2 times.
Proof.
  intros cfg down times. split; [by vm_compute|].
  apply (reconnects_limited cfg 2 _ Sample.session 0%Q); [done|done|].
  repeat constructor; by vm_compute.
Defined.

(** A snapshot of the stream rewinds the sequence.  After a snapshot and
    the replay of the deltas buffered before it, [messages] overwrites the
    recorded sequence, that of the last replayed delta, with the snapshot's own.
    On the run below the book then holds the deltas 11 and 12 on the snapshot
    10: the next delta 13 is taken for a gap and the connection is given up,
    while a delta 11 that comes again is applied a second time. *)
Theorem stream_snapshot_rewinds :
  let cfg := Sample.config None true in
  let run items := connection cfg (Sample.attempt 0 [] items) Sample.start in
  let before := [Sample.delta 11 "a"; Sample.delta 12 "b"; (true, 10, "s")] in
  (run before).2 = Ok tt /\ book (run before).1 = [10; 11; 12] /\
  previous (run before).1 = Some 10 /\
  (run (before ++ [Sample.delta 13 "c"])).2 =
    Err (RuntimeError "REST snapshot recovery unavailable") /\
  (run (before ++ [Sample.delta 11 "again"])).2 = Ok tt /\
  book (run (before ++ [Sample.delta 11 "again"])).1 = [10; 11; 12; 11].
Proof. by vm_compute. Qed.
