(* ===== verification/BindingSql.v ===== *)
(** * The PostgreSQL binding repository
      (infrastructure/database/preflight_bindings.py, infrastructure/database/models.py)

    The database is a parameter: [BindingTable] is the table
    [preflight_bindings] with the statements the repository executes, and
    [BindingTableLaws] what a relational database documents of them for a row
    that meets the declared constraints.  The repository is proved to implement
    the same compare-and-set as the in-memory one. *)

From Stdlib Require Import ZArith QArith Lia.
From stdpp Require Import base tactics list strings gmap.
From S2P Require Import Prelude Decimals ExecutionModels Venues Evidence LiveModels Bindings.

Local Open Scope string_scope.
Local Open Scope Z_scope.

(** ** Rows *)

Record PreflightBindingRow := {
  br_signal_id : string;
  br_preflight_hash : option string;
  br_state : string;
  br_first_leg_role : option string;
  br_first_order_request_id : option string;
  br_first_external_order_id : option string;
  br_second_order_request_id : option string;
  br_second_external_order_id : option string;
  br_version : Z;
  br_created_at : option Z;
  br_updated_at : option Z;
  br_failure_reason : option string;
  br_position_venue : option string;
  br_position_symbol : option string;
  br_position_quantity_before : option Decimal;
  br_position_captured_at : option Z;
}.

(** [String(n)], nullable or not *)
Definition text_fits (n : nat) (s : string) : bool := (String.length s <=? n)%nat.
Definition optional_text_fits (n : nat) (s : option string) : bool :=
  match s with Some s => text_fits n s | None => true end.

(** [Numeric(38, 12)]: at most twelve decimals and twenty-six digits before
    them. *)
Definition numeric_38_12 (q : Decimal) : bool :=
  let m := Qmult q (inject_Z (10 ^ 12)) in
  Qeq_bool m (inject_Z (Qround.Qfloor m)) && (Z.abs (Qround.Qfloor m) <? 10 ^ 38).

Definition binding_states : list PreflightBindingState :=
  [B_UNBOUND; B_RESERVED; B_FIRST_LEG_ACCEPTED; B_SECOND_LEG_SUBMITTED; B_HEDGING_REQUIRED;
   B_RECONCILIATION_REQUIRED; B_COMPLETED; B_ABORTED; B_HALTED].

(** The four check constraints. *)
Definition ck_state (r : PreflightBindingRow) : bool :=
  bool_decide (br_state r ∈ map binding_state_value binding_states).
Definition ck_version (r : PreflightBindingRow) : bool := (1 <=? br_version r).
Definition ck_timestamp_order (r : PreflightBindingRow) : bool :=
  match br_created_at r, br_updated_at r with
  | Some c, Some u => (c <=? u)
  | _, _ => true
  end.
Definition ck_position_snapshot_complete (r : PreflightBindingRow) : bool :=
  match br_position_venue r, br_position_symbol r, br_position_quantity_before r,
        br_position_captured_at r with
  | None, None, None, None => true
  | Some _, Some _, Some _, Some _ => true
  | _, _, _, _ => false
  end.

(** A row the table stores as it is: constraints, [NOT NULL] columns, lengths
    and ranges of the column types. *)
Definition storable (r : PreflightBindingRow) : bool :=
  ck_state r && ck_version r && ck_timestamp_order r && ck_position_snapshot_complete r
  && bool_decide (is_Some (br_created_at r)) && bool_decide (is_Some (br_updated_at r))
  && (br_version r <? 2 ^ 31)
  && text_fits 100 (br_signal_id r) && optional_text_fits 64 (br_preflight_hash r)
  && text_fits 40 (br_state r) && optional_text_fits 20 (br_first_leg_role r)
  && optional_text_fits 100 (br_first_order_request_id r)
  && optional_text_fits 160 (br_first_external_order_id r)
  && optional_text_fits 100 (br_second_order_request_id r)
  && optional_text_fits 160 (br_second_external_order_id r)
  && optional_text_fits 500 (br_failure_reason r)
  && optional_text_fits 40 (br_position_venue r) && optional_text_fits 40 (br_position_symbol r)
  && match br_position_quantity_before r with Some q => numeric_38_12 q | None => true end.

(** ** The table *)

(** An error of the database that aborts the statement is [IntegrityError] for
    a violated constraint, and another exception otherwise. *)
Abbreviation IntegrityError := (OtherError "IntegrityError").

Class BindingTable (T : Type) := {
  (** [session.get(PreflightBindingRow, signal_id)] *)
  tbl_get : T -> string -> option PreflightBindingRow;
  (** [insert(...).values(row)]: the number of rows inserted *)
  tbl_insert : PreflightBindingRow -> T -> T * result Z;
  (** [update(...).where(signal_id == _, version == _).values(row)]: the number
      of rows updated *)
  tbl_update : string -> Z -> PreflightBindingRow -> T -> T * result Z;
}.

Class BindingTableLaws (T : Type) `{BindingTable T} : Prop := {
  tbl_insert_fresh : forall t r,
    storable r = true -> tbl_get t (br_signal_id r) = None ->
    exists t', tbl_insert r t = (t', Ok 1) /\
      forall k, tbl_get t' k = if decide (k = br_signal_id r) then Some r else tbl_get t k;
  tbl_insert_duplicate : forall t r r0,
    storable r = true -> tbl_get t (br_signal_id r) = Some r0 ->
    (tbl_insert r t).2 = Err IntegrityError;
  tbl_update_match : forall t r r0,
    storable r = true -> tbl_get t (br_signal_id r) = Some r0 ->
    exists t', tbl_update (br_signal_id r) (br_version r0) r t = (t', Ok 1) /\
      forall k, tbl_get t' k = if decide (k = br_signal_id r) then Some r else tbl_get t k;
  tbl_update_miss : forall t k v r,
    storable r = true -> (forall r0, tbl_get t k = Some r0 -> br_version r0 <> v) ->
    (tbl_update k v r t).2 = Ok 0;
}.

(** ** The repository *)

Definition binding_values (b : PreflightBinding) : PreflightBindingRow := {|
  br_signal_id := pb_signal_id b;
  br_preflight_hash := pb_preflight_hash b;
  br_state := binding_state_value (pb_state b);
  br_first_leg_role := pb_first_leg_role b;
  br_first_order_request_id := pb_first_order_request_id b;
  br_first_external_order_id := pb_first_external_order_id b;
  br_second_order_request_id := pb_second_order_request_id b;
  br_second_external_order_id := pb_second_external_order_id b;
  br_version := pb_version b;
  br_created_at := pb_created_at b;
  br_updated_at := pb_updated_at b;
  br_failure_reason := pb_failure_reason b;
  br_position_venue := ps_venue <$> pb_position_snapshot b;
  br_position_symbol := ps_symbol <$> pb_position_snapshot b;
  br_position_quantity_before := ps_quantity_before <$> pb_position_snapshot b;
  br_position_captured_at := ps_captured_at <$> pb_position_snapshot b;
|}.

(** [PreflightBindingState(value)] *)
Definition parse_binding_state (value : string) : result PreflightBindingState :=
  match List.find (fun s => bool_decide (binding_state_value s = value)) binding_states with
  | Some s => Ok s
  | None => Err (ValueError (value +:+ " is not a valid PreflightBindingState"))
  end.

Definition to_binding (r : PreflightBindingRow) : result PreflightBinding :=
  let! state := parse_binding_state (br_state r) in
  let! snapshot :=
    match br_position_venue r, br_position_symbol r, br_position_quantity_before r,
          br_position_captured_at r with
    | Some venue, Some symbol, Some quantity, Some captured =>
        let! s := PositionReconciliationSnapshot_new venue symbol quantity (Aware captured) in
        Ok (Some s)
    | _, _, _, _ => Ok None
    end in
  Ok {| pb_signal_id := br_signal_id r; pb_preflight_hash := br_preflight_hash r;
        pb_state := state; pb_first_leg_role := br_first_leg_role r;
        pb_first_order_request_id := br_first_order_request_id r;
        pb_first_external_order_id := br_first_external_order_id r;
        pb_second_order_request_id := br_second_order_request_id r;
        pb_second_external_order_id := br_second_external_order_id r;
        pb_version := br_version r; pb_created_at := br_created_at r;
        pb_updated_at := br_updated_at r; pb_failure_reason := br_failure_reason r;
        pb_position_snapshot := snapshot |}.

Section Repository.
Context {T : Type} {HT : BindingTable T}.

Definition sql_get (t : T) (signal_id : string) : result (option PreflightBinding) :=
  match tbl_get t signal_id with
  | Some row => let! b := to_binding row in Ok (Some b)
  | None => Ok None
  end.

(** [compare_and_set]: a transaction that is not committed leaves the table as
    it was; an error other than [IntegrityError] propagates, and leaving the
    session rolls back. *)
Definition sql_compare_and_set (signal_id : string) (expected_version : Z)
    (binding : PreflightBinding) (t : T) : T * result bool :=
  if bool_decide (pb_signal_id binding <> signal_id)
     || negb (pb_version binding =? expected_version + 1)
  then (t, Ok false)
  else
    let values := binding_values binding in
    let executed :=
      if expected_version =? 0 then tbl_insert values t
      else tbl_update signal_id expected_version values t in
    match executed with
    | (t', Ok rowcount) => if negb (rowcount =? 1) then (t, Ok false) else (t', Ok true)
    | (_, Err e) =>
        if bool_decide (e = IntegrityError) then (t, Ok false) else (t, Err e)
    end.

End Repository.

(** ** A table

    The rows by primary key; a row that is not storable is refused. *)
Module MapTable.

Abbreviation table := (gmap string PreflightBindingRow).

Definition refused (r : PreflightBindingRow) : exn :=
  if ck_state r && ck_version r && ck_timestamp_order r && ck_position_snapshot_complete r
     && bool_decide (is_Some (br_created_at r)) && bool_decide (is_Some (br_updated_at r))
  then OtherError "DataError" else IntegrityError.

Definition insert (r : PreflightBindingRow) (t : table) : table * result Z :=
  if negb (storable r) then (t, Err (refused r))
  else match t !! br_signal_id r with
       | Some _ => (t, Err IntegrityError)
       | None => (<[br_signal_id r := r]> t, Ok 1)
       end.

(** The code never changes the primary key of a row. *)
Definition update (k : string) (v : Z) (r : PreflightBindingRow) (t : table)
  : table * result Z :=
  match t !! k with
  | Some r0 =>
      if negb (br_version r0 =? v) then (t, Ok 0)
      else if negb (storable r) then (t, Err (refused r))
      else (<[k := r]> t, Ok 1)
  | None => (t, Ok 0)
  end.

End MapTable.

#[export] Instance map_table : BindingTable MapTable.table := {|
  tbl_get t k := t !! k; tbl_insert := MapTable.insert; tbl_update := MapTable.update |}.

#[export] Instance map_table_laws : BindingTableLaws MapTable.table.
Proof.
  assert (forall (t : MapTable.table) k r k', (<[k := r]> t : MapTable.table) !! k' =
    if decide (k' = k) then Some r else t !! k') as Hl.
  { intros t k r k'. destruct (decide (k' = k)) as [->|]; [by rewrite lookup_insert_eq|].
    by rewrite lookup_insert_ne. }
  split; unfold tbl_get, tbl_insert, tbl_update, map_table, MapTable.insert, MapTable.update;
    intros t.
  - intros r Hs ->. rewrite Hs. cbn [negb]. eexists. split; [done|]. intros k. apply Hl.
  - intros r r0 Hs ->. by rewrite Hs.
  - intros r r0 Hs ->. rewrite Hs, Z.eqb_refl. cbn [negb]. eexists. split; [done|].
    intros k. apply Hl.
  - intros k v r Hs Hv. destruct (t !! k) as [r0|]; [|done].
    destruct (Z.eqb_spec (br_version r0) v); [by destruct (Hv r0)|done].
Qed.

(** ** Theorems *)

(** A snapshot as its constructor admits it. *)
Definition snapshot_valid (b : PreflightBinding) : Prop :=
  match pb_position_snapshot b with
  | Some s => ps_venue s <> EmptyString /\ ps_symbol s <> EmptyString
  | None => True
  end.

Lemma parse_binding_state_value s : parse_binding_state (binding_state_value s) = Ok s.
Proof. by destruct s. Qed.

(** What the repository writes it reads back.  A binding whose position
    snapshot is one its constructor admits is recovered from its row. *)
Theorem binding_row_roundtrip (b : PreflightBinding) :
  snapshot_valid b -> to_binding (binding_values b) = Ok b.
Proof.
  unfold to_binding, snapshot_valid. simpl. rewrite parse_binding_state_value. simpl.
  destruct b as [? ? ? ? ? ? ? ? ? ? ? ? [[v s q t]|]]; simpl; [|done].
  intros [Hv Hs]. unfold PositionReconciliationSnapshot_new.
  by rewrite !bool_decide_eq_false_2.
Qed.

Lemma storable_version r : storable r = true -> 1 <= br_version r.
Proof.
  intros H. unfold storable in H. destruct (ck_version r) eqn:Hv.
  - unfold ck_version in Hv. lia.
  - by rewrite andb_false_r in H.
Qed.

Section Refinement.
Context {T : Type} {HT : BindingTable T}.

(** The table and the in-memory repository hold the same bindings, with
    versions from one on. *)
Definition represents (t : T) (r : InMemoryPreflightBindingRepository) : Prop :=
  forall sid, tbl_get t sid = binding_values <$> in_memory_get r sid /\
              (forall b, in_memory_get r sid = Some b -> 1 <= pb_version b).

Lemma represents_version t r sid row :
  represents t r -> tbl_get t sid = Some row ->
  version_of (in_memory_get r sid) = br_version row /\ 1 <= br_version row.
Proof.
  intros Hr Hg. destruct (Hr sid) as [Hs Hv]. rewrite Hs in Hg.
  destruct (in_memory_get r sid); [|done]. injection Hg as <-. simpl in *. auto.
Qed.

Lemma represents_absent t r sid :
  represents t r -> tbl_get t sid = None -> in_memory_get r sid = None.
Proof. intros Hr Hg. rewrite (proj1 (Hr sid)) in Hg. by destruct (in_memory_get r sid). Qed.

Lemma represents_written t t' r sid b :
  represents t r -> pb_signal_id b = sid -> storable (binding_values b) = true ->
  (forall k, tbl_get t' k = if decide (k = sid) then Some (binding_values b) else tbl_get t k) ->
  represents t' {| im_bindings := <[sid := b]> (im_bindings r) |}.
Proof.
  intros Hr Hs Hst Ht k. rewrite Ht. unfold in_memory_get. simpl.
  destruct (decide (k = sid)) as [->|Hne]; [|by rewrite lookup_insert_ne].
  rewrite lookup_insert_eq. split; [done|]. intros b' [= <-].
  by apply storable_version in Hst.
Qed.

End Refinement.

(** C35: the PostgreSQL repository refines the in-memory one.  From tables and
    stores with the same bindings, a compare-and-set of a storable binding gives
    the same answer without an exception, and leaves the same bindings behind. *)
Theorem sql_repository_refines {T : Type} {HT : BindingTable T} {HL : BindingTableLaws T}
    (t : T) (r : InMemoryPreflightBindingRepository) (sid : string) (v : Z)
    (b : PreflightBinding) :
  represents t r -> storable (binding_values b) = true ->
  let sql := sql_compare_and_set sid v b t in
  let mem := in_memory_compare_and_set sid v b r in
  sql.2 = Ok mem.2 /\ represents sql.1 mem.1.
Proof.
  intros Hr Hst. unfold sql_compare_and_set, in_memory_compare_and_set. cbv zeta.
  fold (version_of (im_bindings r !! sid)). fold (in_memory_get r sid).
  case_bool_decide as Hid; simpl; [done|].
  subst sid.
  destruct (pb_version b =? v + 1) eqn:Ev; simpl; [|by rewrite orb_true_r].
  rewrite orb_false_r. destruct (tbl_get t (pb_signal_id b)) as [row|] eqn:Eg.
  - destruct (represents_version _ _ _ _ Hr Eg) as [-> Hpos].
    destruct (Z.eqb_spec v 0) as [->|Hv0].
    + pose proof (tbl_insert_duplicate t (binding_values b) row Hst Eg) as Hd.
      destruct (tbl_insert _ t) as [t' res]. simpl in Hd. subst res.
      destruct (Z.eqb_spec (br_version row) 0); [lia|done].
    + destruct (Z.eqb_spec (br_version row) v) as [<-|Hne]; simpl.
      * destruct (tbl_update_match t (binding_values b) row Hst Eg) as (t' & Hu & Ht).
        simpl in Hu. rewrite Hu. simpl. split; [done|]. by eapply represents_written.
      * assert ((tbl_update (pb_signal_id b) v (binding_values b) t).2 = Ok 0) as Hm.
        { apply tbl_update_miss; [done|]. intros r0 Hr0. congruence. }
        destruct (tbl_update _ _ _ t) as [t' res]. simpl in Hm. by subst res.
  - rewrite (represents_absent _ _ _ Hr Eg). simpl.
    destruct (Z.eqb_spec v 0) as [->|Hv0]; simpl.
    + destruct (tbl_insert_fresh t (binding_values b) Hst Eg) as (t' & Hi & Ht).
      rewrite Hi. simpl. split; [done|]. by eapply represents_written.
    + destruct (Z.eqb_spec 0 v); [lia|]. simpl.
      assert ((tbl_update (pb_signal_id b) v (binding_values b) t).2 = Ok 0) as Hm.
      { apply tbl_update_miss; [done|]. intros r0 Hr0. congruence. }
      destruct (tbl_update _ _ _ t) as [t' res]. simpl in Hm. subst res. by destruct v.
Qed.

(** ** Concrete bindings *)

Definition sample_snapshot : PositionReconciliationSnapshot := {|
  ps_venue := "bitget"; ps_symbol := "BTCUSDT"; ps_quantity_before := 3 # 1000;
  ps_captured_at := 5 |}.

Definition sample_binding (version : Z) : PreflightBinding := {|
  pb_signal_id := "signal"; pb_preflight_hash := Some "hash"; pb_state := B_RESERVED;
  pb_first_leg_role := Some "receive_leg"; pb_first_order_request_id := Some "request";
  pb_first_external_order_id := None; pb_second_order_request_id := None;
  pb_second_external_order_id := None; pb_version := version; pb_created_at := Some 5;
  pb_updated_at := Some 6; pb_failure_reason := None;
  pb_position_snapshot := Some sample_snapshot |}.

Lemma binding_row_roundtrip_witness :
  to_binding (binding_values (sample_binding 1)) = Ok (sample_binding 1).
Proof. apply binding_row_roundtrip. split; discriminate. Defined.

(** The second of two inserts of the first version fails, on both sides. *)
Lemma sql_repository_refines_witness :
  let t0 : MapTable.table := ∅ in
  let r0 := {| im_bindings := ∅ |} in
  let t1 := (sql_compare_and_set "signal" 0 (sample_binding 1) t0).1 in
  let r1 := (in_memory_compare_and_set "signal" 0 (sample_binding 1) r0).1 in
  represents t0 r0 /\ represents t1 r1 /\
  (sql_compare_and_set "signal" 0 (sample_binding 1) t0).2 = Ok true /\
  (sql_compare_and_set "signal" 0 (sample_binding 1) t1).2 = Ok false /\
  (sql_compare_and_set "signal" 1 (sample_binding 2) t1).2 = Ok true.
Proof.
  intros t0 r0 t1 r1. assert (represents t0 r0) as H0 by by intros sid.
  destruct (sql_repository_refines t0 r0 "signal" 0 (sample_binding 1) H0) as [E1 H1];
    [by vm_compute|].
  split_and!; [exact H0|exact H1|vm_compute; reflexivity..].
Defined.
