(* ===== verification/Json.v ===== *)
(** * The [json] module of the standard library

    [dumps] with [ensure_ascii] and [loads].  A string is a sequence of code
    points below 256.  An object is the [dict] of its pairs, in order; a number
    that is not an integer is kept as its literal. *)

From Stdlib Require Import ZArith NArith Lia.
From stdpp Require Import base tactics list strings.
From S2P Require Import Prelude.

Local Open Scope string_scope.
Local Open Scope list_scope.

(** The characters of a text. *)
Abbreviation chars := (list Ascii.ascii).

Inductive json :=
| JNull
| JBool (b : bool)
| JInt (z : Z)
| JReal (literal : chars)
| JString (s : chars)
| JArray (items : list json)
| JObject (fields : list (chars * json)).

(** Characters by code. *)
Definition chr (n : N) : Ascii.ascii := Ascii.ascii_of_N n.
Definition ord (c : Ascii.ascii) : N := Ascii.N_of_ascii c.

Definition quote : Ascii.ascii := chr 34.
Definition backslash : Ascii.ascii := chr 92.

Definition text (s : string) : chars := String.list_ascii_of_string s.
Definition untext (s : chars) : string := String.string_of_list_ascii s.

(** ** Printing *)

Definition hex_digit (n : N) : Ascii.ascii := chr (if (n <? 10)%N then 48 + n else 87 + n)%N.

(** The escapes of [py_encode_basestring_ascii]. *)
Definition escape (c : Ascii.ascii) : chars :=
  let n := ord c in
  if (n =? 34)%N then [backslash; quote]
  else if (n =? 92)%N then [backslash; backslash]
  else if (n =? 10)%N then [backslash; chr 110]
  else if (n =? 13)%N then [backslash; chr 114]
  else if (n =? 9)%N then [backslash; chr 116]
  else if (n =? 12)%N then [backslash; chr 102]
  else if (n =? 8)%N then [backslash; chr 98]
  else if (32 <=? n)%N && (n <? 127)%N || (n =? 127)%N then [c]
  else [backslash; chr 117; chr 48; chr 48; hex_digit (n / 16); hex_digit (n mod 16)].

Definition dump_string (s : chars) : chars := quote :: flat_map escape s ++ [quote].

Definition dump_int (z : Z) : chars :=
  (if (z <? 0)%Z then [chr 45] else []) ++ text (digits (Z.to_N (Z.abs z))).

(** [sep.join(parts)] *)
Fixpoint join_chars (sep : chars) (parts : list chars) : chars :=
  match parts with
  | [] => []
  | [p] => p
  | p :: parts => p ++ sep ++ join_chars sep parts
  end.

(** [separators=(item, key)] *)
Record style := { item_separator : chars; key_separator : chars }.
Definition default_style : style :=
  {| item_separator := text ", "; key_separator := text ": " |}.
Definition compact_style : style := {| item_separator := text ","; key_separator := text ":" |}.

Fixpoint dumps (st : style) (v : json) : chars :=
  match v with
  | JNull => text "null"
  | JBool true => text "true"
  | JBool false => text "false"
  | JInt z => dump_int z
  | JReal l => l
  | JString s => dump_string s
  | JArray items => chr 91 :: join_chars (item_separator st) (map (dumps st) items) ++ [chr 93]
  | JObject fields =>
      chr 123 :: join_chars (item_separator st)
        (map (fun f => dump_string f.1 ++ key_separator st ++ dumps st f.2) fields) ++ [chr 125]
  end.

(** ** Parsing *)

Definition JSONDecodeError : exn := ValueError "JSONDecodeError".

Definition is_blank (c : Ascii.ascii) : bool :=
  let n := ord c in (n =? 32)%N || (n =? 9)%N || (n =? 10)%N || (n =? 13)%N.
Definition is_digit (c : Ascii.ascii) : bool := (48 <=? ord c)%N && (ord c <=? 57)%N.

Fixpoint skip (s : chars) : chars :=
  match s with
  | c :: s' => if is_blank c then skip s' else s
  | [] => []
  end.

Fixpoint take_digits (s : chars) : chars * chars :=
  match s with
  | c :: s' => if is_digit c then let (d, r) := take_digits s' in (c :: d, r) else ([], s)
  | [] => ([], [])
  end.

Definition hex_value (c : Ascii.ascii) : option N :=
  let n := ord c in
  if is_digit c then Some (n - 48)%N
  else if (97 <=? n)%N && (n <=? 102)%N then Some (n - 87)%N
  else if (65 <=? n)%N && (n <=? 70)%N then Some (n - 55)%N
  else None.

(** The character after a backslash, and what remains.  A code point from 256
    on is outside the model of strings. *)
Definition unescape (s : chars) : option (Ascii.ascii * chars) :=
  match s with
  | c :: s =>
      let n := ord c in
      if (n =? 34)%N then Some (quote, s)
      else if (n =? 92)%N then Some (backslash, s)
      else if (n =? 47)%N then Some (chr 47, s)
      else if (n =? 98)%N then Some (chr 8, s)
      else if (n =? 102)%N then Some (chr 12, s)
      else if (n =? 110)%N then Some (chr 10, s)
      else if (n =? 114)%N then Some (chr 13, s)
      else if (n =? 116)%N then Some (chr 9, s)
      else if (n =? 117)%N then
        match s with
        | a :: b :: c :: d :: s =>
            match hex_value a, hex_value b, hex_value c, hex_value d with
            | Some 0%N, Some 0%N, Some h, Some l => Some (chr (16 * h + l), s)
            | _, _, _, _ => None
            end
        | _ => None
        end
      else None
  | [] => None
  end.

(** The rest of a string literal after its opening quote; [strict] refuses
    control characters.  The fuel is the length of the input. *)
Fixpoint parse_string (fuel : nat) (s : chars) : result (chars * chars) :=
  match fuel with
  | O => Err JSONDecodeError
  | S fuel =>
      match s with
      | [] => Err JSONDecodeError
      | c :: s =>
          if (ord c =? 34)%N then Ok ([], s)
          else if (ord c =? 92)%N then
            match unescape s with
            | Some (c, s) =>
                let! r := parse_string fuel s in Ok (c :: r.1, r.2)
            | None => Err JSONDecodeError
            end
          else if (ord c <? 32)%N then Err JSONDecodeError
          else let! r := parse_string fuel s in Ok (c :: r.1, r.2)
      end
  end.

(** A number: an optional sign, digits without a leading zero, and for a number
    that is not an integer a fraction or an exponent. *)
Definition parse_fraction (s : chars) : chars * chars :=
  match s with
  | c :: s' => if (ord c =? 46)%N then
                 match take_digits s' with
                 | ([], _) => ([], s)
                 | (d, r) => (c :: d, r)
                 end
               else ([], s)
  | [] => ([], [])
  end.

Definition parse_exponent (s : chars) : chars * chars :=
  match s with
  | c :: s' =>
      if (ord c =? 69)%N || (ord c =? 101)%N then
        let '(sign, r) := match s' with
                          | x :: r => if (ord x =? 43)%N || (ord x =? 45)%N then ([x], r) else ([], s')
                          | [] => ([], [])
                          end in
        match take_digits r with
        | ([], _) => ([], s)
        | (d, r) => (c :: sign ++ d, r)
        end
      else ([], s)
  | [] => ([], [])
  end.

Definition parse_number (s : chars) : result (json * chars) :=
  let '(sign, s) := match s with
                    | c :: r => if (ord c =? 45)%N then ([c], r) else ([], s)
                    | [] => ([], [])
                    end in
  let '(whole, s) := match s with
                     | c :: r => if (ord c =? 48)%N then ([c], r) else take_digits s
                     | [] => ([], [])
                     end in
  match whole with
  | [] => Err JSONDecodeError
  | _ =>
      let '(fraction, s) := parse_fraction s in
      let '(exponent, s) := parse_exponent s in
      match fraction, exponent with
      | [], [] =>
          let n := Z.of_N (undigits 0 (untext whole)) in
          Ok (JInt (match sign with [] => n | _ => - n end)%Z, s)
      | _, _ => Ok (JReal (sign ++ whole ++ fraction ++ exponent), s)
      end
  end.

Fixpoint strip_prefix (p s : chars) : option chars :=
  match p, s with
  | [], _ => Some s
  | a :: p, b :: s => if bool_decide (a = b) then strip_prefix p s else None
  | _, [] => None
  end.

(** Values, the elements of an array after its bracket or a comma, and the
    fields of an object. *)
Fixpoint parse_value (fuel : nat) (s : chars) : result (json * chars) :=
  match fuel with
  | O => Err JSONDecodeError
  | S fuel =>
      match s with
      | [] => Err JSONDecodeError
      | c :: s' =>
          let n := ord c in
          if (n =? 34)%N then
            let! r := parse_string fuel s' in Ok (JString r.1, r.2)
          else if (n =? 91)%N then
            match skip s' with
            | d :: r => if (ord d =? 93)%N then Ok (JArray [], r)
                        else let! e := parse_elements fuel (d :: r) in Ok (JArray e.1, e.2)
            | [] => Err JSONDecodeError
            end
          else if (n =? 123)%N then
            match skip s' with
            | d :: r => if (ord d =? 125)%N then Ok (JObject [], r)
                        else let! e := parse_fields fuel [] (d :: r) in Ok (JObject e.1, e.2)
            | [] => Err JSONDecodeError
            end
          else
            match strip_prefix (text "null") s, strip_prefix (text "true") s,
                  strip_prefix (text "false") s with
            | Some r, _, _ => Ok (JNull, r)
            | _, Some r, _ => Ok (JBool true, r)
            | _, _, Some r => Ok (JBool false, r)
            | _, _, _ =>
                match parse_number s with
                | Ok r => Ok r
                | Err e =>
                    match strip_prefix (text "NaN") s, strip_prefix (text "Infinity") s,
                          strip_prefix (text "-Infinity") s with
                    | Some r, _, _ => Ok (JReal (text "NaN"), r)
                    | _, Some r, _ => Ok (JReal (text "Infinity"), r)
                    | _, _, Some r => Ok (JReal (text "-Infinity"), r)
                    | _, _, _ => Err e
                    end
                end
            end
      end
  end
with parse_elements (fuel : nat) (s : chars) : result (list json * chars) :=
  match fuel with
  | O => Err JSONDecodeError
  | S fuel =>
      let! v := parse_value fuel s in
      match skip v.2 with
      | c :: r =>
          if (ord c =? 93)%N then Ok ([v.1], r)
          else if (ord c =? 44)%N then
            let! e := parse_elements fuel (skip r) in Ok (v.1 :: e.1, e.2)
          else Err JSONDecodeError
      | [] => Err JSONDecodeError
      end
  end
with parse_fields (fuel : nat) (acc : list (chars * json)) (s : chars)
  : result (list (chars * json) * chars) :=
  match fuel with
  | O => Err JSONDecodeError
  | S fuel =>
      match s with
      | q :: s =>
          if negb (ord q =? 34)%N then Err JSONDecodeError
          else
            let! k := parse_string fuel s in
            match skip k.2 with
            | c :: r =>
                if negb (ord c =? 58)%N then Err JSONDecodeError
                else
                  let! v := parse_value fuel (skip r) in
                  let acc := dict_set k.1 v.1 acc in
                  match skip v.2 with
                  | c :: r =>
                      if (ord c =? 125)%N then Ok (acc, r)
                      else if (ord c =? 44)%N then parse_fields fuel acc (skip r)
                      else Err JSONDecodeError
                  | [] => Err JSONDecodeError
                  end
            | [] => Err JSONDecodeError
            end
      | [] => Err JSONDecodeError
      end
  end.

(** [loads(s)]: the fuel, one more than the length of the text, is enough since
    every call consumes a character. *)
Definition loads (s : chars) : result json :=
  let! v := parse_value (S (length s)) (skip s) in
  match skip v.2 with
  | [] => Ok v.1
  | _ => Err JSONDecodeError
  end.

(** ** Round trip *)

(** The literal of a non-negative number with a fraction and no exponent. *)
Definition fixed_literal (l : chars) : Prop :=
  exists c w f, l = (c :: w) ++ chr 46 :: f /\ f <> [] /\ forallb is_digit (c :: w) = true /\
    forallb is_digit f = true /\ (c = chr 48 -> w = []).

(** What the printed text determines: fixed literals, and keys that differ. *)
Fixpoint json_wf (v : json) : Prop :=
  match v with
  | JReal l => fixed_literal l
  | JArray items => foldr (fun v P => json_wf v /\ P) True items
  | JObject fields => NoDup (map fst fields) /\ foldr (fun f P => json_wf f.2 /\ P) True fields
  | _ => True
  end.

Definition style_ok (st : style) : Prop :=
  exists b1 b2, item_separator st = chr 44 :: b1 /\ key_separator st = chr 58 :: b2 /\
    forallb is_blank b1 = true /\ forallb is_blank b2 = true.

Lemma default_style_ok : style_ok default_style.
Proof. by exists [chr 32], [chr 32]. Qed.
Lemma compact_style_ok : style_ok compact_style.
Proof. by exists [], []. Qed.

(** A text after which a number ends. *)
Definition delimited (s : chars) : Prop :=
  match s with
  | [] => True
  | c :: _ => ord c = 44%N \/ ord c = 93%N \/ ord c = 125%N
  end.

Section JsonInd.
Variable P : json -> Prop.
Hypothesis Hnull : P JNull.
Hypothesis Hbool : forall b, P (JBool b).
Hypothesis Hint : forall z, P (JInt z).
Hypothesis Hreal : forall l, P (JReal l).
Hypothesis Hstring : forall s, P (JString s).
Hypothesis Harray : forall items, Forall P items -> P (JArray items).
Hypothesis Hobject : forall fields, Forall (fun f => P f.2) fields -> P (JObject fields).

Fixpoint json_nested_ind (v : json) : P v :=
  match v with
  | JNull => Hnull
  | JBool b => Hbool b
  | JInt z => Hint z
  | JReal l => Hreal l
  | JString s => Hstring s
  | JArray items =>
      Harray items ((fix go l : Forall P l :=
        match l with
        | [] => Forall_nil_2 P
        | v :: l => Forall_cons_2 P v l (json_nested_ind v) (go l)
        end) items)
  | JObject fields =>
      Hobject fields ((fix go l : Forall (fun f => P f.2) l :=
        match l with
        | [] => Forall_nil_2 _
        | f :: l => Forall_cons_2 _ f l (json_nested_ind f.2) (go l)
        end) fields)
  end.
End JsonInd.

(** *** Strings *)

Lemma ord_chr n : (n < 256)%N -> ord (chr n) = n.
Proof. apply Ascii.N_ascii_embedding. Qed.
Lemma chr_ord c : chr (ord c) = c.
Proof. apply Ascii.ascii_N_embedding. Qed.
Lemma ord_bound c : (ord c < 256)%N.
Proof. apply Ascii.N_ascii_bounded. Qed.

Lemma hex_value_digit n : (n < 16)%N -> hex_value (hex_digit n) = Some n.
Proof.
  intros Hn. unfold hex_value, hex_digit, is_digit.
  destruct (N.ltb_spec n 10); rewrite ord_chr by lia.
  - destruct (N.leb_spec 48 (48 + n)); [|lia]. destruct (N.leb_spec (48 + n) 57); [|lia].
    simpl. f_equal. lia.
  - destruct (N.leb_spec 48 (87 + n)); [|lia]. destruct (N.leb_spec (87 + n) 57); [lia|].
    destruct (N.leb_spec 97 (87 + n)); [|lia]. destruct (N.leb_spec (87 + n) 102); [|lia].
    simpl. f_equal. lia.
Qed.

(** Reading an escaped character gives it back. *)
Lemma parse_escape fuel c s :
  parse_string (S fuel) (escape c ++ s) =
  let! r := parse_string fuel s in Ok (c :: r.1, r.2).
Proof.
  unfold escape. pose proof (ord_bound c) as Hb.
  repeat match goal with
  | |- context [if (ord c =? ?k)%N then _ else _] =>
      destruct (N.eqb_spec (ord c) k) as [Hk|]; [rewrite <- (chr_ord c), Hk; reflexivity|]
  end.
  destruct (_ || _) eqn:Ep; simpl.
  - rewrite (proj2 (N.eqb_neq (ord c) 34)), (proj2 (N.eqb_neq (ord c) 92)) by done.
    destruct (N.ltb_spec (ord c) 32); [|done]. exfalso.
    destruct (N.leb_spec 32 (ord c)), (N.eqb_spec (ord c) 127); simpl in Ep; lia || done.
  - change (hex_value (chr 48)) with (Some 0%N).
    pose proof (N.div_lt_upper_bound (ord c) 16 16). pose proof (N.mod_lt (ord c) 16).
    rewrite !hex_value_digit by lia. cbv beta iota.
    replace (16 * (ord c / 16) + ord c mod 16)%N with (ord c)
      by (rewrite (N.div_mod (ord c) 16) at 1; lia).
    by rewrite chr_ord.
Qed.

Lemma escape_length c : (1 <= length (escape c))%nat.
Proof. unfold escape. repeat case_goal; simpl; lia. Qed.

Lemma parse_dump_string s rest fuel :
  (length (flat_map escape s) < fuel)%nat ->
  parse_string fuel (flat_map escape s ++ quote :: rest) = Ok (s, rest).
Proof.
  revert fuel. induction s as [|c s IH]; intros [|fuel] Hf; cbn [flat_map app length] in *;
    [lia| |lia|].
  - done.
  - rewrite length_app in Hf. pose proof (escape_length c).
    rewrite <- app_assoc, parse_escape, IH by lia. done.
Qed.

(** *** Numbers *)

Lemma digit_char_spec d : (d < 10)%N -> is_digit (digit_char d) = true /\ ord (digit_char d) = (48 + d)%N.
Proof.
  intros Hd. unfold is_digit, digit_char. fold (chr (48 + d)). rewrite ord_chr by lia.
  split; [|done]. apply andb_true_iff. split; apply N.leb_le; lia.
Qed.

Lemma digits_go_chars fuel n acc :
  (n < 2 ^ N.of_nat fuel)%N -> forallb is_digit (text acc) = true ->
  forallb is_digit (text (digits_go (S fuel) n acc)) = true /\
  exists c t, text (digits_go (S fuel) n acc) = c :: t /\ (n <> 0 -> ord c <> 48)%N /\
    (n = 0%N -> t = text acc /\ ord c = 48%N).
Proof.
  revert n acc. induction fuel as [|fuel IH]; intros n acc Hn Hacc.
  - change (2 ^ N.of_nat 0)%N with 1%N in Hn. assert (n = 0)%N as -> by lia.
    split; [exact Hacc|]. by exists (digit_char 0), (text acc).
  - rewrite digits_go_S. pose proof (N.mod_lt n 10 ltac:(lia)) as Hm.
    destruct (digit_char_spec (n mod 10) Hm) as [H1 H2].
    assert (forallb is_digit (text (String (digit_char (n mod 10)) acc)) = true) as Hacc'.
    { simpl. by rewrite H1. }
    destruct (N.eqb_spec (n / 10) 0) as [E|E].
    + split; [done|]. exists (digit_char (n mod 10)), (text acc). split; [done|].
      pose proof (N.div_mod n 10 ltac:(lia)). rewrite H2. split; [lia|]. intros ->. done.
    + destruct (IH (n / 10)%N (String (digit_char (n mod 10)) acc)) as (Hd & c & t & Ec & Hc & _);
        [|done|].
      { rewrite Nat2N.inj_succ, N.pow_succ_r' in Hn. apply N.Div0.div_lt_upper_bound. lia. }
      split; [done|]. exists c, t. split; [done|]. split; [auto|]. intros ->. by destruct E.
Qed.

Lemma digits_chars n :
  forallb is_digit (text (digits n)) = true /\
  exists c t, text (digits n) = c :: t /\ (n <> 0 -> ord c <> 48)%N /\
    (n = 0%N -> t = [] /\ ord c = 48%N).
Proof.
  apply (digits_go_chars (N.size_nat n) n EmptyString); [|done].
  destruct (N.eq_dec n 0%N) as [->|Hz]; [reflexivity|]. pose proof (N.size_gt n).
  assert (N.of_nat (N.size_nat n) = N.size n) as ->; [|done].
  destruct n; simpl; [done|]. clear. induction p; simpl; lia.
Qed.

Lemma take_digits_app d rest :
  forallb is_digit d = true -> delimited rest -> take_digits (d ++ rest) = (d, rest).
Proof.
  induction d as [|c d IH]; simpl; intros Hd Hr.
  - destruct rest as [|c rest]; simpl; [done|]. unfold is_digit.
    destruct Hr as [->|[->| ->]]; done.
  - apply andb_true_iff in Hd as [-> Hd]. by rewrite IH.
Qed.

Lemma parse_number_end sign whole rest :
  whole <> [] -> delimited rest ->
  (let '(fraction, s) := parse_fraction rest in
   let '(exponent, s) := parse_exponent s in
   match fraction, exponent with
   | [], [] => Ok (JInt (match sign with [] => Z.of_N (undigits 0 (untext whole))
                         | _ => - Z.of_N (undigits 0 (untext whole)) end)%Z, s)
   | _, _ => Ok (JReal (sign ++ whole ++ fraction ++ exponent), s)
   end) =
  Ok (JInt (match sign with [] => Z.of_N (undigits 0 (untext whole))
            | _ => - Z.of_N (undigits 0 (untext whole)) end)%Z, rest).
Proof.
  intros _ Hr. destruct rest as [|c rest]; [done|].
  unfold parse_fraction, parse_exponent. destruct Hr as [E|[E|E]]; rewrite E; simpl;
    rewrite E; done.
Qed.

Lemma parse_dump_int z rest :
  delimited rest -> parse_number (dump_int z ++ rest) = Ok (JInt z, rest).
Proof.
  intros Hr. unfold dump_int. set (n := Z.to_N (Z.abs z)).
  destruct (digits_chars n) as (Hd & c & t & Ec & Hnz & Hz).
  pose proof (undigits_digits n) as Hu.
  assert (untext (text (digits n)) = digits n) as Ht
    by apply String.string_of_list_ascii_of_string.
  assert (is_digit c = true) as Hc 
    by (rewrite Ec in Hd; simpl in Hd; by apply andb_true_iff in Hd as [? _]).
  assert (parse_number ((if (z <? 0)%Z then [chr 45] else []) ++ text (digits n) ++ rest) =
    Ok (JInt (if (z <? 0)%Z then - Z.of_N n else Z.of_N n), rest)) as Hp.
  2: { rewrite <- app_assoc, Hp. do 3 f_equal. subst n. destruct (Z.ltb_spec z 0); lia. }
  assert (match text (digits n) ++ rest with
          | c :: r => if (ord c =? 48)%N then ([c], r) else take_digits (text (digits n) ++ rest)
          | [] => ([], [])
          end = (text (digits n), rest)) as Hw.
  { rewrite Ec. cbn [app]. destruct (N.eqb_spec (ord c) 48) as [E0|E0].
    - destruct (N.eq_dec n 0%N) as [En|En]; [|by destruct (Hnz En)].
      destruct (Hz En) as [-> _]. done.
    - change (c :: t ++ rest) with ((c :: t) ++ rest). rewrite <- Ec. by apply take_digits_app. }
  assert (text (digits n) <> []) as Hne by by rewrite Ec.
  unfold parse_number. destruct (z <? 0)%Z.
  - change ([chr 45] ++ text (digits n) ++ rest) with (chr 45 :: (text (digits n) ++ rest)).
    cbv iota beta. change (ord (chr 45) =? 45)%N with true. cbv iota beta.
    rewrite Hw. destruct (text (digits n)) as [|c' t'] eqn:E'; [done|]. rewrite <- E' in *.
    rewrite (parse_number_end [chr 45]) by done. rewrite Ht, Hu. done.
  - cbn [app]. assert ((ord c =? 45)%N = false) as E45.
    { unfold is_digit in Hc. apply N.eqb_neq. intros E. rewrite E in Hc. done. }
    assert (match text (digits n) ++ rest with
            | c :: r => if (ord c =? 45)%N then ([c], r) else ([], text (digits n) ++ rest)
            | [] => ([], [])
            end = (@nil Ascii.ascii, text (digits n) ++ rest)) as Hs.
    { rewrite Ec. cbn [app]. by rewrite E45. }
    rewrite Hs, Hw. destruct (text (digits n)) as [|c' t'] eqn:E'; [done|]. rewrite <- E' in *.
    rewrite (parse_number_end []) by done. rewrite Ht, Hu. done.
Qed.

Lemma digit_range c : is_digit c = true -> (48 <= ord c <= 57)%N.
Proof.
  unfold is_digit. intros [H1 H2]%andb_true_iff. apply N.leb_le in H1, H2. done.
Qed.

Lemma take_digits_stop d c rest :
  forallb is_digit d = true -> is_digit c = false -> take_digits (d ++ c :: rest) = (d, c :: rest).
Proof.
  intros Hd Hc. induction d as [|x d IH]; simpl in *; [by rewrite Hc|].
  apply andb_true_iff in Hd as [-> Hd]. by rewrite IH.
Qed.

Lemma parse_fixed_literal l rest :
  fixed_literal l -> delimited rest -> parse_number (l ++ rest) = Ok (JReal l, rest).
Proof.
  intros (c & w & f & -> & Hf & Hw & Hfd & Hz) Hr.
  pose proof Hw as [Hc Hw']%andb_true_iff. apply digit_range in Hc as Hcr.
  rewrite <- app_assoc. unfold parse_number. cbn [app].
  rewrite (proj2 (N.eqb_neq (ord c) 45)) by lia.
  assert ((if (ord c =? 48)%N then ([c], w ++ chr 46 :: f ++ rest)
           else take_digits (c :: w ++ chr 46 :: f ++ rest)) = (c :: w, chr 46 :: f ++ rest)) as ->.
  { destruct (N.eqb_spec (ord c) 48) as [E|_].
    - rewrite Hz by (rewrite <- (chr_ord c), E; done). done.
    - apply (take_digits_stop (c :: w)); done. }
  cbv iota beta. unfold parse_fraction at 1. change (ord (chr 46) =? 46)%N with true. cbv iota.
  rewrite take_digits_app by done. destruct f as [|d f]; [done|].
  assert (parse_exponent rest = ([], rest)) as ->.
  { destruct rest as [|x rest]; [done|]. unfold parse_exponent. by destruct Hr as [->|[->| ->]]. }
  by rewrite app_nil_r.
Qed.

(** *** Values *)

Section RoundTrip.
Variable st : style.
Hypothesis Hst : style_ok st.

Definition blank_free (s : chars) : Prop :=
  match s with
  | c :: _ => is_blank c = false /\ ord c <> 93%N /\ ord c <> 125%N
  | [] => False
  end.

Lemma dump_int_head z : exists c t, dump_int z = c :: t /\
  (ord c = 45%N \/ is_digit c = true).
Proof.
  unfold dump_int. destruct (digits_chars (Z.to_N (Z.abs z))) as (Hd & c & t & Ec & _).
  destruct (z <? 0)%Z.
  - exists (chr 45), (text (digits (Z.to_N (Z.abs z)))). split; [done|]. by left.
  - exists c, t. split; [done|]. right. rewrite Ec in Hd. simpl in Hd.
    by apply andb_true_iff in Hd as [? _].
Qed.

Lemma range_blank_free c t : (45 <= ord c <= 57)%N -> blank_free (c :: t).
Proof.
  intros Hc. simpl. unfold is_blank.
  rewrite (proj2 (N.eqb_neq (ord c) 32)), (proj2 (N.eqb_neq (ord c) 9)),
    (proj2 (N.eqb_neq (ord c) 10)), (proj2 (N.eqb_neq (ord c) 13)) by lia.
  split_and!; [done|lia|lia].
Qed.

Lemma dumps_blank_free v rest : json_wf v -> blank_free (dumps st v ++ rest).
Proof.
  destruct v as [|[]|z|l|s|items|fields]; simpl; try done.
  - intros _. destruct (dump_int_head z) as (c & t & -> & [Hc|Hc]); simpl app;
      apply range_blank_free; [lia|]. apply digit_range in Hc. lia.
  - intros (c & w & f & -> & _ & [Hc _]%andb_true_iff & _). simpl app.
    apply range_blank_free. apply digit_range in Hc. lia.
Qed.

Lemma skip_blanks b s : forallb is_blank b = true -> blank_free s -> skip (b ++ s) = s.
Proof.
  induction b as [|c b IH]; simpl.
  - intros _. destruct s as [|c s]; simpl; [done|]. intros [-> _]. done.
  - intros [-> Hb]%andb_true_iff Hs. auto.
Qed.

Lemma skip_blank_free s : blank_free s -> skip s = s.
Proof. by apply (skip_blanks []). Qed.

(** The parser gives back a printed value, whatever follows it. *)
Definition parses (v : json) : Prop :=
  json_wf v -> forall rest fuel, delimited rest -> (length (dumps st v) < fuel)%nat ->
  parse_value fuel (dumps st v ++ rest) = Ok (v, rest).

Lemma parse_elements_items items rest fuel :
  items <> [] -> Forall parses items -> foldr (fun v P => json_wf v /\ P) True items ->
  (length (join_chars (item_separator st) (map (dumps st) items)) + 1 < fuel)%nat ->
  parse_elements fuel (join_chars (item_separator st) (map (dumps st) items) ++ chr 93 :: rest) =
  Ok (items, rest).
Proof using Hst.
  destruct Hst as (b1 & b2 & Hi & _ & Hb1 & _). rewrite Hi. clear Hi.
  intros Hne Hp. revert fuel Hne. induction Hp as [|v items Hv Hp IH]; intros fuel Hne Hwf Hf; [done|].
  destruct Hwf as [Hwv Hwf]. destruct fuel as [|fuel]; [lia|]. clear Hne.
  destruct items as [|w items].
  - cbn [map join_chars] in *. cbn [parse_elements].
    rewrite (Hv Hwv (chr 93 :: rest) fuel) by (try (right; left; done); lia). done.
  - cbn [map] in *.
    change (join_chars (chr 44 :: b1) (dumps st v :: dumps st w :: map (dumps st) items))
      with (dumps st v ++ (chr 44 :: b1) ++
            join_chars (chr 44 :: b1) (dumps st w :: map (dumps st) items)) in *.
    set (tail := join_chars _ _) in *. cbn [parse_elements].
    rewrite <- app_assoc. rewrite !length_app in Hf. cbn [length] in Hf.
    change (((chr 44 :: b1) ++ tail) ++ chr 93 :: rest)
      with (chr 44 :: ((b1 ++ tail) ++ chr 93 :: rest)).
    rewrite (Hv Hwv _ fuel) by (try (left; done); lia).
    cbn [rbind snd fst].
    change (skip (chr 44 :: ((b1 ++ tail) ++ chr 93 :: rest)))
      with (chr 44 :: ((b1 ++ tail) ++ chr 93 :: rest)). cbv iota.
    change (ord (chr 44) =? 93)%N with false. change (ord (chr 44) =? 44)%N with true. cbv iota.
    rewrite <- app_assoc, skip_blanks; [|done|].
    + rewrite (IH fuel); [done|done|done|]. cbn [map]. fold tail. lia.
    + subst tail. destruct items as [|u items]; cbn [join_chars map].
      * apply dumps_blank_free, Hwf.
      * rewrite <- app_assoc. apply dumps_blank_free, Hwf.
Qed.

Definition dump_field (f : chars * json) : chars :=
  dump_string f.1 ++ key_separator st ++ dumps st f.2.

Lemma dict_set_fresh (k : chars) (v : json) (d : list (chars * json)) :
  k ∉ map fst d -> dict_set k v d = d ++ [(k, v)].
Proof.
  induction d as [|[k' v'] d IH]; simpl; [done|]. intros Hk.
  apply not_elem_of_cons in Hk as [Hne Hk]. rewrite decide_False by done. by rewrite IH.
Qed.

(** One field: its key and its value, up to the separator or the brace. *)
Lemma parse_field_key k w rest fuel :
  (length (dump_string k) <= fuel)%nat ->
  match dump_string k ++ w ++ rest with
  | q :: s => (ord q =? 34)%N = true /\ parse_string fuel s = Ok (k, w ++ rest)
  | [] => False
  end.
Proof.
  unfold dump_string. cbn [app length]. rewrite length_app. cbn [length]. intros Hf.
  split; [done|]. rewrite <- app_assoc. apply parse_dump_string. lia.
Qed.

Lemma parse_fields_items fields acc rest fuel :
  fields <> [] -> Forall (fun f => parses f.2) fields ->
  foldr (fun f P => json_wf f.2 /\ P) True fields ->
  NoDup (map fst (acc ++ fields)) ->
  (length (join_chars (item_separator st) (map dump_field fields)) + 1 < fuel)%nat ->
  parse_fields fuel acc (join_chars (item_separator st) (map dump_field fields) ++ chr 125 :: rest) =
  Ok (acc ++ fields, rest).
Proof using Hst.
  pose proof Hst as (b1 & b2 & Hi & Hk & Hb1 & Hb2). rewrite Hi. clear Hi.
  intros Hne Hp. revert fuel acc Hne.
  induction Hp as [|[k v] fields Hv Hp IH]; intros fuel acc Hne Hwf Hnd Hf; [done|].
  destruct Hwf as [Hwv Hwf]. destruct fuel as [|fuel]; [lia|]. clear Hne.
  assert (k ∉ map fst acc) as Hfresh.
  { rewrite map_app in Hnd. simpl in Hnd. apply NoDup_app in Hnd as (_ & Hd & _).
    intros Hin. apply (Hd k Hin). left. }
  assert (forall tail, delimited tail ->
    (length (dump_field (k, v)) < S fuel)%nat ->
    parse_fields (S fuel) acc (dump_field (k, v) ++ tail) =
    match skip tail with
    | c :: r =>
        if (ord c =? 125)%N then Ok (acc ++ [(k, v)], r)
        else if (ord c =? 44)%N then parse_fields fuel (acc ++ [(k, v)]) (skip r)
        else Err JSONDecodeError
    | [] => Err JSONDecodeError
    end) as Hone.
  { intros tail Ht Hl. unfold dump_field in *. cbn [fst snd] in *. rewrite Hk in *.
    rewrite !length_app in Hl. cbn [length] in Hl.
    rewrite <- app_assoc. cbn [parse_fields].
    pose proof (parse_field_key k ((chr 58 :: b2) ++ dumps st v) tail fuel ltac:(lia)) as Hkey.
    destruct (dump_string k ++ ((chr 58 :: b2) ++ dumps st v) ++ tail) as [|q s]; [done|].
    destruct Hkey as [-> ->]. cbn [negb rbind fst snd].
    change (skip (((chr 58 :: b2) ++ dumps st v) ++ tail))
      with (chr 58 :: ((b2 ++ dumps st v) ++ tail)). cbv iota.
    change (ord (chr 58) =? 58)%N with true. cbn [negb].
    rewrite <- app_assoc, skip_blanks by (try done; by apply dumps_blank_free).
    rewrite (Hv Hwv tail fuel) by (done || simpl; lia). cbn [rbind fst snd].
    by rewrite dict_set_fresh. }
  destruct fields as [|f fields].
  - cbn [map join_chars] in *. rewrite Hone; [done|by right; right|lia].
  - cbn [map] in *.
    change (join_chars (chr 44 :: b1) (dump_field (k, v) :: dump_field f :: map dump_field fields))
      with (dump_field (k, v) ++ (chr 44 :: b1) ++
            join_chars (chr 44 :: b1) (dump_field f :: map dump_field fields)) in *.
    set (tail := join_chars _ _) in *. rewrite !length_app in Hf. cbn [length] in Hf.
    rewrite <- app_assoc, Hone; [|by left|lia].
    change (skip (((chr 44 :: b1) ++ tail) ++ chr 125 :: rest))
      with (chr 44 :: ((b1 ++ tail) ++ chr 125 :: rest)). cbv iota.
    change (ord (chr 44) =? 125)%N with false. change (ord (chr 44) =? 44)%N with true. cbv iota.
    assert (blank_free (tail ++ chr 125 :: rest)) as Hb.
    { subst tail. destruct fields; cbn [join_chars map]; by unfold dump_field. }
    rewrite <- app_assoc, skip_blanks by done.
    change ((k, v) :: f :: fields) with ([(k, v)] ++ (f :: fields)) in *.
    rewrite app_assoc in *. rewrite (IH fuel); [done|done|done|done|]. cbn [map]. fold tail. lia.
Qed.

Lemma parse_value_numeral fuel c t r :
  (45 <= ord c <= 57)%N -> parse_number (c :: t) = Ok r -> parse_value (S fuel) (c :: t) = Ok r.
Proof using Type.
  intros Hrange Hp. cbn [parse_value].
  rewrite (proj2 (N.eqb_neq (ord c) 34)), (proj2 (N.eqb_neq (ord c) 91)),
    (proj2 (N.eqb_neq (ord c) 123)) by lia.
  assert (forall d p, (57 < ord d)%N -> strip_prefix (d :: p) (c :: t) = None) as Hs.
  { intros d p Hd. simpl. rewrite bool_decide_eq_false_2; [done|]. intros ->. lia. }
  change (text "null") with (chr 110 :: text "ull"). change (text "true") with (chr 116 :: text "rue").
  change (text "false") with (chr 102 :: text "alse").
  rewrite !Hs by (by vm_compute). by rewrite Hp.
Qed.

Lemma dumps_parses v : parses v.
Proof using Hst.
  induction v as [|b|z|l|s|items IH|fields IH] using json_nested_ind;
    intros Hwf rest [|fuel] Hr Hf; try lia.
  - done.
  - by destruct b.
  - cbn [dumps] in *. destruct (dump_int_head z) as (c & t & E & Hc).
    pose proof (parse_dump_int z rest Hr) as Hp. rewrite E in Hp |- *.
    apply parse_value_numeral; [|done].
    destruct Hc as [->|Hc]; [lia|]. apply digit_range in Hc. lia.
  - cbn [dumps] in *. pose proof (parse_fixed_literal l rest Hwf Hr) as Hp.
    destruct Hwf as (c & w & f & -> & _ & [Hc _]%andb_true_iff & _).
    apply parse_value_numeral; [|done]. apply digit_range in Hc. lia.
  - cbn [dumps] in *. unfold dump_string in *. cbn [app length] in *. rewrite length_app in Hf.
    cbn [parse_value]. change (ord quote =? 34)%N with true. cbv iota.
    rewrite <- app_assoc. cbn [app length] in *. rewrite parse_dump_string by lia. done.
  - cbn [dumps app length] in *. rewrite length_app in Hf. cbn [length] in Hf.
    cbn [parse_value]. change (ord (chr 91) =? 34)%N with false.
    change (ord (chr 91) =? 91)%N with true. cbv iota. rewrite <- app_assoc. cbn [app].
    destruct items as [|v items]; [done|].
    rewrite skip_blank_free.
    2: { cbn [map]. destruct items; cbn [join_chars map]; rewrite <- ?app_assoc;
         apply dumps_blank_free, Hwf. }
    assert (blank_free (join_chars (item_separator st) (map (dumps st) (v :: items)) ++
      chr 93 :: rest)) as Hb.
    { cbn [map]. destruct items; cbn [join_chars map]; rewrite <- ?app_assoc;
         apply dumps_blank_free, Hwf. }
    pose proof (parse_elements_items (v :: items) rest fuel ltac:(done) IH Hwf ltac:(lia)) as Hp.
    destruct (join_chars _ _ ++ _) as [|d r]; [done|]. destruct Hb as (_ & Hd & _).
    rewrite (proj2 (N.eqb_neq (ord d) 93)) by done. by rewrite Hp.
  - cbn [dumps app length] in *. rewrite length_app in Hf. cbn [length] in Hf.
    fold dump_field in *. cbn [parse_value]. change (ord (chr 123) =? 34)%N with false.
    change (ord (chr 123) =? 91)%N with false.
    change (ord (chr 123) =? 123)%N with true. cbv iota. rewrite <- app_assoc. cbn [app].
    destruct fields as [|f fields]; [done|]. destruct Hwf as [Hnd Hwf].
    assert (blank_free (join_chars (item_separator st) (map dump_field (f :: fields)) ++
      chr 125 :: rest)) as Hb.
    { cbn [map]. destruct fields; cbn [join_chars map]; by unfold dump_field. }
    change (fun f0 : chars * json => dump_string f0.1 ++ key_separator st ++ dumps st f0.2)
      with dump_field in *.
    rewrite skip_blank_free by done.
    pose proof (parse_fields_items (f :: fields) [] rest fuel ltac:(done) IH Hwf Hnd ltac:(lia)) as Hp.
    destruct (join_chars _ _ ++ _) as [|d r]; [done|]. destruct Hb as (_ & _ & Hd).
    rewrite (proj2 (N.eqb_neq (ord d) 125)) by done. by rewrite Hp.
Qed.

(** [loads(dumps(v))] is [v]. *)
Theorem loads_dumps v : json_wf v -> loads (dumps st v) = Ok v.
Proof using Hst.
  intros Hwf. unfold loads.
  pose proof (dumps_blank_free v [] Hwf) as Hb. rewrite app_nil_r in Hb.
  rewrite skip_blank_free by done.
  pose proof (dumps_parses v Hwf [] (S (length (dumps st v))) I ltac:(lia)) as Hp.
  rewrite app_nil_r in Hp. by rewrite Hp.
Qed.

Lemma untext_inj a b : untext a = untext b -> a = b.
Proof using Type.
  intros H. rewrite <- (String.list_ascii_of_string_of_list_ascii a).
  unfold untext in H. by rewrite H, String.list_ascii_of_string_of_list_ascii.
Qed.

(** Values with the same hash are the same value, or the hash collides. *)
Lemma hash_separates (h : string -> string) v w :
  json_wf v -> json_wf w -> h (untext (dumps st v)) = h (untext (dumps st w)) ->
  v = w \/ exists x y, x <> y /\ h x = h y.
Proof using Hst.
  intros Hv Hw H. destruct (decide (untext (dumps st v) = untext (dumps st w))) as [Heq|Hne].
  - left. apply untext_inj, (f_equal loads) in Heq. rewrite !loads_dumps in Heq by done.
    by injection Heq.
  - right. by eexists _, _.
Qed.

End RoundTrip.

Lemma untext_text s : untext (text s) = s.
Proof. apply String.string_of_list_ascii_of_string. Qed.

Lemma text_inj a b : text a = text b -> a = b.
Proof. intros H. by rewrite <- (untext_text a), H, untext_text. Qed.

(** Arrays of strings. *)
Lemma strings_inj xs ys :
  map (fun x => JString (text x)) xs = map (fun x => JString (text x)) ys -> xs = ys.
Proof.
  revert ys. induction xs as [|x xs IH]; intros [|y ys] H; simpl in H; try done.
  injection H as Hx Hxs. f_equal; [by apply text_inj|by apply IH].
Qed.

Lemma strings_wf xs : json_wf (JArray (map (fun x => JString (text x)) xs)).
Proof. cbn [json_wf]. induction xs; by constructor. Qed.
