(* ===== verification/PyText.v ===== *)
(** * Texts of numbers and dates

    [str] and the constructors of [Decimal], [int], [float] and [datetime], as the
    code uses them on values that come out of a JSON document: a [Decimal] with its
    exponent (two decimals of the same value may have different texts), the shortest
    text of a [float], and dates in ISO format.  [Decimal(str(d))] is [d], and a
    timestamp is read back from its text. *)

From Stdlib Require Import ZArith QArith Qround Qabs NArith Ascii Lia Lqa.
From stdpp Require Import base tactics list strings.
From S2P Require Import Prelude Decimals Binary64 Json.

Local Open Scope string_scope.
Local Open Scope list_scope.

(** ** Decimals with their exponent *)

(** [(-1)^fd_neg * fd_coef * 10^fd_exp] *)
Record finite_decimal := { fd_neg : bool; fd_coef : N; fd_exp : Z }.

#[export] Instance finite_decimal_eq_dec : EqDecision finite_decimal.
Proof. solve_decision. Defined.

Inductive PyDecimal := DFinite (d : finite_decimal) | DInfinity (neg : bool) | DNaN.

Definition fd_value (d : finite_decimal) : Decimal :=
  (inject_Z (if fd_neg d then - Z.of_N (fd_coef d) else Z.of_N (fd_coef d)) *
   pow_radix 10 (fd_exp d))%Q.

Definition zero_chars (n : Z) : chars := repeat (chr 48) (Z.to_nat n).

(** The exponent, if any: ['E%+d' % e]. *)
Definition exponent_text (e : Z) : chars :=
  if (e =? 0)%Z then []
  else chr 69 :: (if (e <? 0)%Z then chr 45 else chr 43) :: text (digits (Z.to_N (Z.abs e))).

(** [str(d)] *)
Definition fd_str (d : finite_decimal) : chars :=
  let int := text (digits (fd_coef d)) in
  let len := Z.of_nat (length int) in
  let leftdigits := (fd_exp d + len)%Z in
  let dotplace := if (fd_exp d <=? 0)%Z && (-6 <? leftdigits)%Z then leftdigits else 1%Z in
  let '(intpart, fracpart) :=
    if (dotplace <=? 0)%Z then ([chr 48], chr 46 :: zero_chars (- dotplace) ++ int)
    else if (len <=? dotplace)%Z then (int ++ zero_chars (dotplace - len), [])
    else (take (Z.to_nat dotplace) int, chr 46 :: drop (Z.to_nat dotplace) int) in
  let exponent := exponent_text (leftdigits - dotplace) in
  (if fd_neg d then [chr 45] else []) ++ intpart ++ fracpart ++ exponent.

(** Whitespace among the code points below 256. *)
Definition is_white (c : Ascii.ascii) : bool :=
  is_space c || (ord c =? 133)%N || (ord c =? 160)%N.

Fixpoint lstrip_chars (s : chars) : chars :=
  match s with
  | c :: s' => if is_white c then lstrip_chars s' else s
  | [] => []
  end.
Definition strip_chars (s : chars) : chars := lstrip_chars (rev (lstrip_chars (rev s))).

(** An optional sign. *)
Definition take_sign (s : chars) : bool * chars :=
  match s with
  | c :: r => if (ord c =? 45)%N then (true, r) else if (ord c =? 43)%N then (false, r) else (false, s)
  | [] => (false, [])
  end.

Definition chars_to_N (s : chars) : N := undigits 0 (untext s).

Definition take_fraction (s : chars) : chars * chars :=
  match s with
  | c :: r => if (ord c =? 46)%N then take_digits r else ([], s)
  | [] => ([], [])
  end.

(** The exponent of a numeral that ends with it. *)
Definition take_exponent (s : chars) : option Z :=
  match s with
  | [] => Some 0%Z
  | c :: r =>
      if (ord c =? 69)%N || (ord c =? 101)%N then
        let '(neg, r) := take_sign r in
        match take_digits r with
        | ((_ :: _) as e, []) => Some (if neg then - Z.of_N (chars_to_N e) else Z.of_N (chars_to_N e))%Z
        | _ => None
        end
      else None
  end.

(** Digits with an optional point and exponent. *)
Definition parse_unsigned (neg : bool) (s : chars) : option finite_decimal :=
  let '(whole, s) := take_digits s in
  let '(fraction, s) := take_fraction s in
  match whole ++ fraction, take_exponent s with
  | (_ :: _) as ds, Some e =>
      Some {| fd_neg := neg; fd_coef := chars_to_N ds; fd_exp := e - Z.of_nat (length fraction) |}
  | _, _ => None
  end.

Definition lower (c : Ascii.ascii) : Ascii.ascii :=
  if (65 <=? ord c)%N && (ord c <=? 90)%N then chr (ord c + 32) else c.

Definition all_digits (s : chars) : bool := forallb is_digit s.

(** [Decimal(s)]: [None] when it raises [InvalidOperation]. *)
Definition parse_decimal (s : chars) : option PyDecimal :=
  let '(neg, s) := take_sign (List.filter (fun c => negb (ord c =? 95)%N) (strip_chars s)) in
  match parse_unsigned neg s with
  | Some d => Some (DFinite d)
  | None =>
      let l := map lower s in
      if bool_decide (l = text "inf") || bool_decide (l = text "infinity") then Some (DInfinity neg)
      else
        match strip_prefix (text "nan") l, strip_prefix (text "snan") l with
        | Some diag, _ => if all_digits diag then Some DNaN else None
        | _, Some diag => if all_digits diag then Some DNaN else None
        | None, None => None
        end
  end.

(** [int(s)] in base ten: single underscores may separate digits. *)
Fixpoint underscored (after_digit : bool) (s : chars) : option chars :=
  match s with
  | [] => if after_digit then Some [] else None
  | c :: s =>
      if is_digit c then option_map (cons c) (underscored true s)
      else if (ord c =? 95)%N && after_digit then underscored false s
      else None
  end.

Definition parse_int (s : chars) : option Z :=
  let '(neg, s) := take_sign (strip_chars s) in
  match underscored false s with
  | Some ds => Some (if neg then - Z.of_N (chars_to_N ds) else Z.of_N (chars_to_N ds))%Z
  | None => None
  end.

(** ** Floats *)

Inductive pyfloat := FFinite (neg : bool) (magnitude : Q) | FInfinity (neg : bool) | FNaN.

(** [float] rounds a magnitude from [2^1024 - 2^970] on to infinity. *)
Definition float_overflow : Q := inject_Z (2 ^ 1024 - 2 ^ 970).
Definition float_min_normal : Q := pow_radix 2 (-1022).

(** The float nearest to a magnitude below the overflow threshold. *)
Definition double (q : Q) : Q :=
  if dltb q float_min_normal
  then Qred (inject_Z (round_half_even (q * pow_radix 2 1074)) * pow_radix 2 (-1074))
  else fl q.

(** [math.isfinite(float(d))] of a finite decimal *)
Definition float_finite (q : Q) : bool := dltb (Qabs q) float_overflow.

(** [float(l)] of a JSON number *)
Definition float_of_literal (l : chars) : pyfloat :=
  match parse_decimal l with
  | Some (DFinite d) =>
      let q := Qabs (fd_value d) in
      if float_finite q then FFinite (fd_neg d) (double q) else FInfinity (fd_neg d)
  | Some (DInfinity neg) => FInfinity neg
  | _ => FNaN
  end.

(** The integer with [n] digits, and its exponent, nearest to a float among those
    that read back as it. *)
Definition digits_of_length (q : Q) (n : nat) : option (Z * Z) :=
  let e := (adjusted 10 q - Z.of_nat n + 1)%Z in
  let scaled := (q * pow_radix 10 (- e))%Q in
  let down := Qfloor scaled in
  let near := round_half_even scaled in
  let far := (2 * down + 1 - near)%Z in
  let reads m := deqb (double (inject_Z m * pow_radix 10 e)) q in
  if reads near then Some (near, e) else if reads far then Some (far, e) else None.

Fixpoint shortest_digits (q : Q) (tries n : nat) : Z * Z :=
  match tries with
  | O => (0, 0)%Z
  | S tries =>
      match digits_of_length q n with
      | Some r => r
      | None => shortest_digits q tries (S n)
      end
  end.

Fixpoint drop_zeros (s : chars) : chars :=
  match s with
  | c :: s' => if (ord c =? 48)%N then drop_zeros s' else s
  | [] => []
  end.

(** [repr] of a positive float: at most 17 digits determine it. *)
Definition repr_positive (q : Q) : chars :=
  let '(m, e) := shortest_digits q 17 1 in
  let all := text (digits (Z.to_N m)) in
  let ds := rev (drop_zeros (rev all)) in
  let len := Z.of_nat (length ds) in
  let decpt := (Z.of_nat (length all) + e)%Z in
  if (-4 <? decpt)%Z && (decpt <=? 16)%Z then
    if (decpt <=? 0)%Z then text "0." ++ zero_chars (- decpt) ++ ds
    else if (len <=? decpt)%Z then ds ++ zero_chars (decpt - len) ++ text ".0"
    else take (Z.to_nat decpt) ds ++ chr 46 :: drop (Z.to_nat decpt) ds
  else
    take 1 ds ++ (if (1 <? len)%Z then chr 46 :: drop 1 ds else []) ++ chr 101
    :: (if (decpt - 1 <? 0)%Z then chr 45 else chr 43) :: text (zpad 2 (Z.abs (decpt - 1))).

Definition repr_float (f : pyfloat) : chars :=
  match f with
  | FNaN => text "nan"
  | FInfinity neg => text (if neg then "-inf" else "inf")
  | FFinite neg q =>
      (if neg then [chr 45] else []) ++
      (if deqb q 0 then text "0.0" else repr_positive (Qred q))
  end.

Example repr_float_examples :
  map (fun l => untext (repr_float (float_of_literal (text l))))
    ["0.10"; "1e16"; "123456.789"; "5e-324"; "9007199254740993.0"; "-0.0"; "0.00001"; "1e400";
     "5.684341886080802e-14"; "100.5"; "NaN"; "2.5e-5"]
  = ["0.1"; "1e+16"; "123456.789"; "5e-324"; "9007199254740992.0"; "-0.0"; "1e-05"; "inf";
     "5.684341886080802e-14"; "100.5"; "nan"; "2.5e-05"].
Proof. by vm_compute. Qed.

(** [Decimal(str(delta.total_seconds()))] of a number of microseconds *)
Definition signed_float (q : Q) : pyfloat := FFinite (dltb q 0) (Qabs q).
Definition seconds_decimal (us : Z) : finite_decimal :=
  match parse_decimal (repr_float (signed_float (total_seconds us))) with
  | Some (DFinite d) => d
  | _ => {| fd_neg := false; fd_coef := 0; fd_exp := 0 |}
  end.

Example seconds_decimal_examples :
  map (fun us => untext (fd_str (seconds_decimal us))) [30000000; 1500000; -250; 0; 10000000000000000]%Z
  = ["30.0"; "1.5"; "-0.00025"; "0.0"; "10000000000.0"].
Proof. by vm_compute. Qed.

(** ** Python values of a JSON document *)

(** [bool(v)] *)
Definition truthy (v : json) : bool :=
  match v with
  | JNull => false
  | JBool b => b
  | JInt z => negb (z =? 0)%Z
  | JReal l => match float_of_literal l with FFinite _ q => negb (deqb q 0) | _ => true end
  | JString s => match s with [] => false | _ => true end
  | JArray items => match items with [] => false | _ => true end
  | JObject fields => match fields with [] => false | _ => true end
  end.

(** [repr(s)] of a string *)
Definition repr_char (q c : Ascii.ascii) : chars :=
  let n := ord c in
  if (n =? ord q)%N || (n =? 92)%N then [backslash; c]
  else if (n =? 9)%N then [backslash; chr 116]
  else if (n =? 10)%N then [backslash; chr 110]
  else if (n =? 13)%N then [backslash; chr 114]
  else if (n <? 32)%N || ((127 <=? n)%N && (n <=? 160)%N) || (n =? 173)%N
       then [backslash; chr 120; hex_digit (n / 16); hex_digit (n mod 16)]
  else [c].

Definition repr_string (s : chars) : chars :=
  let q := if bool_decide (chr 39 ∈ s) && negb (bool_decide (quote ∈ s)) then quote else chr 39 in
  q :: flat_map (repr_char q) s ++ [q].

Fixpoint py_repr (v : json) : chars :=
  match v with
  | JNull => text "None"
  | JBool true => text "True"
  | JBool false => text "False"
  | JInt z => dump_int z
  | JReal l => repr_float (float_of_literal l)
  | JString s => repr_string s
  | JArray items => chr 91 :: join_chars (text ", ") (map py_repr items) ++ [chr 93]
  | JObject fields =>
      chr 123 :: join_chars (text ", ")
        (map (fun f => repr_string f.1 ++ text ": " ++ py_repr f.2) fields) ++ [chr 125]
  end.

(** [str(v)] *)
Definition py_str (v : json) : chars := match v with JString s => s | _ => py_repr v end.

(** [Decimal(str(v))] and [int(str(v))] *)
Definition json_decimal (v : json) : option PyDecimal := parse_decimal (py_str v).
Definition json_int (v : json) : option Z := parse_int (py_str v).

(** [d.get(key)], [None] being the value of an absent key *)
Definition get_field (d : list (chars * json)) (key : string) : json :=
  match dict_get (text key) d with Some v => v | None => JNull end.

(** ** A decimal is read back from its text *)

Lemma untext_app a b : untext (a ++ b) = untext a +:+ untext b.
Proof. induction a as [|c a IH]; simpl; [done|]. unfold untext in *. simpl. by rewrite IH. Qed.

Lemma chars_to_N_app a b : chars_to_N (a ++ b) = undigits (chars_to_N a) (untext b).
Proof. unfold chars_to_N. by rewrite untext_app, undigits_app. Qed.

Lemma chars_to_N_zeros n b : chars_to_N (zero_chars n ++ b) = chars_to_N b.
Proof.
  unfold zero_chars, chars_to_N. induction (Z.to_nat n) as [|k IH]; simpl; [done|]. exact IH.
Qed.

Lemma chars_to_N_digits n : chars_to_N (text (digits n)) = n.
Proof. unfold chars_to_N. rewrite untext_text. apply undigits_digits. Qed.

(** A text without blanks and underscores. *)
Definition plain_char (c : Ascii.ascii) : bool := negb (is_white c) && negb (ord c =? 95)%N.

Lemma lstrip_plain s : forallb plain_char s = true -> lstrip_chars s = s.
Proof.
  destruct s as [|c s]; [done|]. simpl. unfold plain_char.
  destruct (is_white c); [done|]. done.
Qed.

Lemma forallb_rev {A} (f : A -> bool) xs : forallb f (rev xs) = forallb f xs.
Proof.
  apply forallb_Permutation. symmetry. apply Permutation_rev.
Qed.

Lemma strip_plain s : forallb plain_char s = true -> strip_chars s = s.
Proof.
  intros H. unfold strip_chars. rewrite (lstrip_plain (rev s)) by by rewrite forallb_rev.
  rewrite rev_involutive. by apply lstrip_plain.
Qed.

Lemma filter_plain s :
  forallb plain_char s = true -> List.filter (fun c => negb (ord c =? 95)%N) s = s.
Proof.
  induction s as [|c s IH]; simpl; [done|]. intros [Hc Hs]%andb_true_iff.
  unfold plain_char in Hc. apply andb_true_iff in Hc as [_ ->]. by rewrite IH.
Qed.

Lemma digit_plain c : is_digit c = true -> plain_char c = true.
Proof.
  intros Hc%digit_range. unfold plain_char, is_white, is_space. unfold ord in *.
  set (n := Ascii.N_of_ascii c) in *. clearbody n.
  repeat match goal with |- context [(?a <=? ?b)%N] => destruct (N.leb_spec a b); try lia end;
  repeat match goal with |- context [(?a =? ?b)%N] => destruct (N.eqb_spec a b); try lia end; done.
Qed.

Lemma digits_plain s : forallb is_digit s = true -> forallb plain_char s = true.
Proof.
  rewrite !forallb_forall. intros H c Hc. by apply digit_plain, H.
Qed.

Lemma zero_chars_digits n : forallb is_digit (zero_chars n) = true.
Proof. unfold zero_chars. induction (Z.to_nat n); simpl; by f_equal/=. Qed.

Lemma forallb_take {A} (f : A -> bool) n xs : forallb f xs = true -> forallb f (take n xs) = true.
Proof.
  rewrite !forallb_forall. intros H x Hx. apply H. rewrite <- (take_drop n xs).
  apply in_or_app. by left.
Qed.

Lemma forallb_drop {A} (f : A -> bool) n xs : forallb f xs = true -> forallb f (drop n xs) = true.
Proof.
  rewrite !forallb_forall. intros H x Hx. apply H. rewrite <- (take_drop n xs).
  apply in_or_app. by right.
Qed.

Lemma take_digits_all s : forallb is_digit s = true -> take_digits s = (s, []).
Proof. intros H. rewrite <- (app_nil_r s) at 1. by apply take_digits_app. Qed.

Lemma take_exponent_text e : take_exponent (exponent_text e) = Some e.
Proof.
  unfold exponent_text. destruct (Z.eqb_spec e 0) as [->|He]; [done|].
  destruct (digits_chars (Z.to_N (Z.abs e))) as (Hd & c & t & Ec & _).
  unfold take_exponent. change ((ord (chr 69) =? 69)%N) with true. cbv iota beta.
  assert (take_sign ((if (e <? 0)%Z then chr 45 else chr 43) :: text (digits (Z.to_N (Z.abs e)))) =
    ((e <? 0)%Z, text (digits (Z.to_N (Z.abs e))))) as -> by by destruct (e <? 0)%Z.
  rewrite take_digits_all by done. pose proof (chars_to_N_digits (Z.to_N (Z.abs e))) as Hn.
  rewrite Ec in Hn |- *. rewrite Hn. f_equal. destruct (Z.ltb_spec e 0); lia.
Qed.

Lemma exponent_text_head e : match exponent_text e with [] => True | c :: _ => c = chr 69 end.
Proof. unfold exponent_text. by destruct (e =? 0)%Z. Qed.

Lemma take_digits_exponent ds e :
  forallb is_digit ds = true -> take_digits (ds ++ exponent_text e) = (ds, exponent_text e).
Proof.
  intros Hd. pose proof (exponent_text_head e) as H.
  destruct (exponent_text e) as [|c r]; [rewrite app_nil_r; by apply take_digits_all|].
  subst c. by apply take_digits_stop.
Qed.

(** A numeral: digits, possibly a point and digits, and an exponent. *)
Lemma parse_unsigned_numeral neg whole fraction (point : bool) e :
  forallb is_digit whole = true -> forallb is_digit fraction = true -> whole ++ fraction <> [] ->
  (point = false -> fraction = []) ->
  parse_unsigned neg (whole ++ (if point then chr 46 :: fraction else []) ++ exponent_text e) =
  Some {| fd_neg := neg; fd_coef := chars_to_N (whole ++ fraction);
          fd_exp := (e - Z.of_nat (length fraction))%Z |}.
Proof.
  intros Hw Hf Hne Hp. unfold parse_unsigned. destruct point.
  - cbn [app]. rewrite take_digits_stop by done. unfold take_fraction.
    change (ord (chr 46) =? 46)%N with true. cbv iota beta. rewrite take_digits_exponent by done.
    rewrite take_exponent_text. by destruct (whole ++ fraction).
  - rewrite (Hp eq_refl) in *. cbn [app]. rewrite take_digits_exponent by done.
    assert (take_fraction (exponent_text e) = ([], exponent_text e)) as ->.
    { pose proof (exponent_text_head e). unfold take_fraction.
      destruct (exponent_text e) as [|c r]; [done|]. by subst c. }
    rewrite take_exponent_text. by destruct (whole ++ []).
Qed.

(** The parts of a printed decimal. *)
Lemma fd_str_parts d : exists whole fraction point e,
  fd_str d = (if fd_neg d then [chr 45] else []) ++
    whole ++ (if point : bool then chr 46 :: fraction else []) ++ exponent_text e /\
  forallb is_digit whole = true /\ forallb is_digit fraction = true /\ whole <> [] /\
  (point = false -> fraction = []) /\ chars_to_N (whole ++ fraction) = fd_coef d /\
  (e - Z.of_nat (length fraction) = fd_exp d)%Z.
Proof.
  unfold fd_str. destruct (digits_chars (fd_coef d)) as (Hd & c & t & Ec & _).
  pose proof (chars_to_N_digits (fd_coef d)) as Hn.
  set (int := text (digits (fd_coef d))) in *.
  assert (1 <= length int)%nat as Hl by (rewrite Ec; simpl; lia).
  set (left := (fd_exp d + Z.of_nat (length int))%Z).
  set (dot := if (fd_exp d <=? 0)%Z && (-6 <? left)%Z then left else 1%Z).
  assert (dot = left \/ dot = 1)%Z as Hdot
    by (subst dot; destruct ((fd_exp d <=? 0)%Z && (-6 <? left)%Z); auto).
  destruct (Z.leb_spec dot 0) as [H0|H0].
  - exists [chr 48], (zero_chars (- dot) ++ int), true, (left - dot)%Z.
    split_and!; try done.
    + by rewrite forallb_app, zero_chars_digits.
    + etransitivity; [apply (chars_to_N_zeros 1)|]. by rewrite chars_to_N_zeros.
    + rewrite length_app. unfold zero_chars. rewrite repeat_length. subst left. lia.
  - destruct (Z.leb_spec (Z.of_nat (length int)) dot) as [H1|H1].
    + assert (dot = Z.of_nat (length int)) as Hdl.
      { subst dot. destruct (Z.leb_spec (fd_exp d) 0); destruct (Z.ltb_spec (-6) left); simpl in *; lia. }
      exists int, [], false, (left - dot)%Z. rewrite app_nil_r. split_and!; try done.
      * rewrite Hdl, Z.sub_diag. change (zero_chars 0) with (@nil Ascii.ascii). by rewrite app_nil_r.
      * by rewrite Ec.
      * simpl. subst left. lia.
    + exists (take (Z.to_nat dot) int), (drop (Z.to_nat dot) int), true, (left - dot)%Z.
      rewrite take_drop. split_and!; try done.
      * by apply forallb_take.
      * by apply forallb_drop.
      * rewrite Ec. destruct (Z.to_nat dot) eqn:E; [lia|done].
      * rewrite length_drop. subst left. lia.
Qed.

(** [Decimal(str(d))] is [d], with its sign and exponent. *)
Lemma parse_decimal_str d : parse_decimal (fd_str d) = Some (DFinite d).
Proof.
  destruct (fd_str_parts d) as (w & f & point & e & E & Hw & Hf & Hne & Hp & Hc & He).
  assert (forallb plain_char (fd_str d) = true) as Hplain.
  { rewrite E, !forallb_app, (digits_plain w) by done.
    assert (forallb plain_char (exponent_text e) = true) as ->.
    { unfold exponent_text. destruct (e =? 0)%Z; [done|]. cbn [forallb].
      rewrite (digits_plain (text _)) by apply digits_chars. by destruct (e <? 0)%Z. }
    destruct point; cbn [forallb]; rewrite ?(digits_plain f) by done; by destruct (fd_neg d). }
  unfold parse_decimal. rewrite strip_plain, filter_plain by done. rewrite E.
  assert (forall neg, take_sign ((if neg : bool then [chr 45] else []) ++
     w ++ (if point then chr 46 :: f else []) ++ exponent_text e) =
     (neg, w ++ (if point then chr 46 :: f else []) ++ exponent_text e)) as ->.
  { intros [|]; [done|]. cbn [app]. destruct w as [|c w]; [done|]. cbn [app take_sign].
    simpl in Hw. apply andb_true_iff in Hw as [Hd%digit_range _].
    rewrite (proj2 (N.eqb_neq (ord c) 45)), (proj2 (N.eqb_neq (ord c) 43)) by lia. done. }
  rewrite parse_unsigned_numeral; try done.
  - rewrite Hc, He. by destruct d.
  - by destruct w.
Qed.

(** ** Dates *)

(** [str(d)]; an aware timestamp is printed in UTC *)
Definition str_datetime (d : datetime) : chars :=
  text (match d with
        | Naive t => isoformat_with " " EmptyString t
        | Aware t => isoformat_with " " "+00:00" t
        end).

Definition instant (d : datetime) : Z := match d with Naive t | Aware t => t end.

(** [datetime.fromisoformat] accepts every ISO 8601 format; it reads back what [str]
    prints. *)
Class IsoParser := fromisoformat : chars -> result datetime.
Class IsoLaws (P : IsoParser) : Prop :=
  fromisoformat_str : forall d, datetime_range (instant d) -> fromisoformat (str_datetime d) = Ok d.

(** A parser of the extended format, naive or in UTC: the day number of a date, fields of
    fixed width, and the separators between them. *)
Definition days_of_civil (y m d : Z) : Z :=
  (let y := if m <=? 2 then y - 1 else y in
   let era := y / 400 in
   let yoe := y - era * 400 in
   let doy := (153 * (if m <=? 2 then m + 9 else m - 3) + 2) / 5 + d - 1 in
   let doe := yoe * 365 + yoe / 4 - yoe / 100 + doy in
   era * 146097 + doe - 719468)%Z.

Definition read_fixed (width : nat) (s : chars) : option (Z * chars) :=
  let d := take width s in
  if (length d =? width)%nat && all_digits d then Some (Z.of_N (chars_to_N d), drop width s) else None.

Definition read_char (code : N) (s : chars) : option chars :=
  match s with c :: s => if (ord c =? code)%N then Some s else None | [] => None end.

Definition read_micro (s : chars) : option (Z * chars) :=
  match read_char (ord "."%char) s with Some s => read_fixed 6 s | None => Some (0%Z, s) end.

Local Notation "'let?' x := m 'in' k" := (match m with Some x => k | None => None end)
  (at level 200, x name, right associativity).

Definition read_iso_utc (s : chars) : option datetime :=
  let? f := read_fixed 4 s in let '(y, s) := f in let? s := read_char (ord "-"%char) s in
  let? f := read_fixed 2 s in let '(m, s) := f in let? s := read_char (ord "-"%char) s in
  let? f := read_fixed 2 s in let '(d, s) := f in let? s := read_char (ord " "%char) s in
  let? f := read_fixed 2 s in let '(hh, s) := f in let? s := read_char (ord ":"%char) s in
  let? f := read_fixed 2 s in let '(mm, s) := f in let? s := read_char (ord ":"%char) s in
  let? f := read_fixed 2 s in let '(ss, s) := f in
  let? f := read_micro s in let '(micro, s) := f in
  let days := days_of_civil y m d in
  if bool_decide (civil_year days = (y, m, d)) && (hh <? 24)%Z && (mm <? 60)%Z && (ss <? 60)%Z
  then
    let t := ((days * 86400 + hh * 3600 + mm * 60 + ss) * 1000000 + micro)%Z in
    if bool_decide (s = text "+00:00") then Some (Aware t)
    else if bool_decide (s = []) then Some (Naive t) else None
  else None.

#[export] Instance iso_utc_parser : IsoParser := fun s =>
  match read_iso_utc s with
  | Some d => Ok d
  | None => Err (ValueError "Invalid isoformat string")
  end.

(** The year and the day of the year of a day of an era. *)
Lemma year_of_era_bounds doe :
  (0 <= doe < 146097)%Z ->
  let yoe := ((doe - doe / 1460 + doe / 36524 - doe / 146096) / 365)%Z in
  let doy := (doe - (365 * yoe + yoe / 4 - yoe / 100))%Z in
  (0 <= yoe <= 399 /\ 0 <= doy <= 366 /\ (doe <= 146036 -> yoe = 399 -> doy <= 305))%Z.
Proof.
  intros H. cbv zeta. split_and!; Z.div_mod_to_equations; lia.
Qed.

(** The day number is read back from the date. *)
Lemma days_of_civil_year days y m d : civil_year days = (y, m, d) ->
  days_of_civil y m d = days /\ (1 <= m <= 12 /\ 1 <= d <= 31)%Z /\
  (-719162 <= days <= 2932896 -> 0 <= y <= 9999)%Z.
Proof.
  unfold civil_year. set (era := ((days + 719468) / 146097)%Z).
  set (doe := (days + 719468 - era * 146097)%Z).
  assert (0 <= doe < 146097)%Z as Hdoe.
  { subst doe era. pose proof (Z.mod_pos_bound (days + 719468) 146097 ltac:(lia)).
    rewrite Z.mod_eq in * by lia. lia. }
  destruct (year_of_era_bounds doe Hdoe) as (Hyoe & Hdoy & Hlast).
  set (yoe := ((doe - doe / 1460 + doe / 36524 - doe / 146096) / 365)%Z) in *.
  set (doy := (doe - (365 * yoe + yoe / 4 - yoe / 100))%Z) in *.
  set (mp := ((5 * doy + 2) / 153)%Z).
  assert (153 * mp <= 5 * doy + 2 < 153 * mp + 153)%Z as Hmp
    by (subst mp; Z.div_mod_to_equations; lia).
  set (k := ((153 * mp + 2) / 5)%Z).
  assert (5 * k <= 153 * mp + 2 < 5 * k + 5)%Z as Hk by (subst k; Z.div_mod_to_equations; lia).
  intros E. injection E as <- <- <-. split_and!; [|destruct (Z.ltb_spec mp 10); lia..|].
  - unfold days_of_civil. set (m := if (mp <? 10)%Z then _ else _).
    assert ((if (m <=? 2)%Z then m + 9 else m - 3) = mp)%Z as ->.
    { subst m. destruct (Z.ltb_spec mp 10); destruct (Z.leb_spec (mp + 3) 2);
        destruct (Z.leb_spec (mp - 9) 2); lia. }
    fold k.
    assert ((if (m <=? 2)%Z then yoe + era * 400 + (if (m <=? 2)%Z then 1 else 0) - 1
             else yoe + era * 400 + (if (m <=? 2)%Z then 1 else 0)) = yoe + era * 400)%Z as ->
      by (destruct (m <=? 2)%Z; lia).
    assert ((yoe + era * 400) / 400 = era)%Z as ->
      by (symmetry; apply (Z.div_unique _ _ _ yoe); lia).
    replace (yoe + era * 400 - era * 400)%Z with yoe by lia. subst doy doe. lia.
  - intros Hdays. assert (0 <= era <= 24)%Z by (subst doe; lia).
    destruct (Z.ltb_spec mp 10); destruct (Z.leb_spec (mp + 3) 2);
      destruct (Z.leb_spec (mp - 9) 2); lia.
Qed.

(** *** Fields of fixed width *)

Lemma text_app a b : text (a +:+ b) = text a ++ text b.
Proof. induction a as [|c a IH]; simpl; [done|]. unfold text in *. by rewrite IH. Qed.

Lemma length_text s : length (text s) = String.length s.
Proof. induction s as [|c s IH]; simpl; [done|]. unfold text in *. by rewrite IH. Qed.

Lemma text_zeros k s : text (zeros k s) = repeat (chr 48) k ++ text s.
Proof. induction k as [|k IH]; simpl; [done|]. by rewrite IH. Qed.

Lemma zpad_text w n : (0 <= n < 10 ^ Z.of_nat w)%Z -> (1 <= w)%nat ->
  length (text (zpad w n)) = w /\ all_digits (text (zpad w n)) = true /\
  Z.of_N (chars_to_N (text (zpad w n))) = n.
Proof.
  intros Hn Hw. split_and!.
  - rewrite length_text. pose proof (zpad_length w n w ltac:(lia) Hw) as Hle.
    unfold zpad in *. rewrite length_zeros in *. lia.
  - unfold zpad, all_digits. rewrite text_zeros, forallb_app.
    rewrite (proj1 (digits_chars _)), andb_true_r.
    generalize (w - String.length (digits (Z.to_N n)))%nat. intros k.
    induction k; simpl; [done|]. by f_equal/=.
  - unfold chars_to_N, zpad. rewrite untext_text, undigits_zeros, undigits_digits. lia.
Qed.

Lemma read_fixed_zpad w n rest : (0 <= n < 10 ^ Z.of_nat w)%Z -> (1 <= w)%nat ->
  read_fixed w (text (zpad w n) ++ rest) = Some (n, rest).
Proof.
  intros Hn Hw. destruct (zpad_text w n Hn Hw) as (Hl & Hd & Hv).
  unfold read_fixed. rewrite take_app_length', drop_app_length' by done.
  by rewrite Hl, Nat.eqb_refl, Hd, Hv.
Qed.

Lemma read_separator c rest :
  read_char (ord c) (text (String c EmptyString) ++ rest) = Some rest.
Proof. simpl. by rewrite N.eqb_refl. Qed.

Lemma read_micro_text micro offset : (0 <= micro < 1000000)%Z ->
  (forall s, offset <> String "." s) ->
  read_micro (text (if (micro =? 0)%Z then EmptyString else "." +:+ zpad 6 micro) ++ text offset)
  = Some (micro, text offset).
Proof.
  intros H Ho. destruct (Z.eqb_spec micro 0) as [->|].
  { unfold read_micro. destruct offset as [|c offset]; [done|]. cbn [read_char text].
    unfold read_char. cbn [text String.list_ascii_of_string app].
    destruct (N.eqb_spec (ord c) (ord "."%char)) as [E|]; [|done]. destruct (Ho offset).
    f_equal. by rewrite <- (chr_ord c), E. } rewrite text_app, <- app_assoc.
  unfold read_micro. rewrite (read_separator "."%char). by rewrite read_fixed_zpad by (simpl; lia).
Qed.

Lemma str_datetime_shape d : exists offset,
  str_datetime d = text (isoformat_with " " offset (instant d)) /\
  (forall s, offset <> String "." s) /\
  (if bool_decide (text offset = text "+00:00") then Some (Aware (instant d))
   else if bool_decide (text offset = []) then Some (Naive (instant d)) else None) = Some d.
Proof. destruct d; [exists EmptyString|exists "+00:00"]; done. Qed.

#[export] Instance iso_utc_laws : IsoLaws iso_utc_parser.
Proof.
  intros dt Hr. unfold fromisoformat, iso_utc_parser.
  enough (read_iso_utc (str_datetime dt) = Some dt) as -> by done.
  destruct (str_datetime_shape dt) as (offset & -> & Hoff & Hread).
  set (t := instant dt) in *. destruct Hr as [Hlo Hhi]. unfold isoformat_with.
  set (secs := (t / 1000000)%Z). set (micro := (t mod 1000000)%Z).
  assert (0 <= micro < 1000000)%Z as Hmicro by (apply Z.mod_pos_bound; lia).
  assert (t = secs * 1000000 + micro)%Z as Ht by (subst secs micro; pose proof (Z.div_mod t 1000000); lia).
  set (days := (secs / 86400)%Z). set (sod := (secs mod 86400)%Z).
  assert (0 <= sod < 86400)%Z as Hsod by (apply Z.mod_pos_bound; lia).
  assert (secs = days * 86400 + sod)%Z as Hs by (subst days sod; pose proof (Z.div_mod secs 86400); lia).
  clearbody secs micro days sod.
  destruct (civil_year days) as [[y m] d] eqn:E.
  destruct (days_of_civil_year _ _ _ _ E) as (Hdays & [Hm Hd] & Hy).
  specialize (Hy ltac:(lia)).
  assert (0 <= sod / 3600 < 24 /\ 0 <= sod / 60 mod 60 < 60 /\ 0 <= sod mod 60 < 60 /\
    sod = sod / 3600 * 3600 + sod / 60 mod 60 * 60 + sod mod 60)%Z as (Hh & Hmi & Hse & Hsum)
    by (Z.div_mod_to_equations; lia).
  rewrite !text_app. unfold read_iso_utc.
  do 5 (rewrite read_fixed_zpad, read_separator by (simpl; lia || done); cbv beta iota).
  rewrite read_fixed_zpad by (simpl; lia). cbv beta iota. rewrite read_micro_text by done.
  cbv beta iota. rewrite Hdays, E, !bool_decide_eq_true_2 by done.
  rewrite !(proj2 (Z.ltb_lt _ _)) by lia. cbv beta iota. rewrite <- Hread. clear Hread.
  assert (((days * 86400 + sod / 3600 * 3600 + sod / 60 mod 60 * 60 + sod mod 60) * 1000000 + micro)%Z
    = t) as -> by lia. done.
Qed.

Lemma utc_roundtrip `{P : IsoParser} `{!IsoLaws P} msg t :
  datetime_range t -> rbind (fromisoformat (str_datetime (Aware t))) (utc_or msg) = Ok t.
Proof. intros H. by rewrite fromisoformat_str. Qed.
