(* ===== verification/CollectorRuns.v ===== *)
(** * Collector leases and runs (services/research/collector_runs.py)

    A collector works on a group of streams under a lease.  Two repositories
    keep the leases: a dictionary behind a lock, and a database table whose row
    is read [FOR UPDATE].  The table is a parameter ([LeaseTable]): a row is
    locked by the transaction that reads it, but two transactions that find no
    row may both insert one, and the second gets an [IntegrityError].
    [datetime.now(UTC)] is the argument [now] of an operation. *)

From Stdlib Require Import ZArith QArith Lia.
From stdpp Require Import base tactics list strings gmap.
From S2P Require Import Prelude Decimals Evidence BindingSql Json.

Local Open Scope string_scope.
Local Open Scope list_scope.
Local Open Scope Z_scope.

(** [CollectorLeaseConflict] is a subclass of [RuntimeError]. *)
Definition CollectorLeaseConflict (message : string) : exn := RuntimeError message.

Inductive CollectorRunStatus :=
| RUNNING | STOP_REQUESTED | COMPLETED | FAILED | CANCELED_DUE_TO_OVERLAP.

Definition run_status_value (s : CollectorRunStatus) : string :=
  match s with
  | RUNNING => "RUNNING" | STOP_REQUESTED => "STOP_REQUESTED" | COMPLETED => "COMPLETED"
  | FAILED => "FAILED" | CANCELED_DUE_TO_OVERLAP => "CANCELED_DUE_TO_OVERLAP"
  end.

Record CollectorLease := {
  cl_collector_group : string;
  cl_run_id : string;
  cl_owner_id : string;
  cl_expires_at : Z;
  cl_acquired_at : Z;
  cl_renewed_at : Z;
}.

Record CollectorRunRecord := {
  cr_run_id : string;
  cr_collector_group : string;
  cr_owner_id : string;
  cr_commit_sha : string;
  cr_config_path : string;
  cr_database_identity : string;
  cr_schema_name : string;
  cr_checkpoint_namespace : string;
  cr_artifact_namespace : string;
  cr_venues : list string;
  cr_instruments : list string;
  cr_event_types : list string;
  cr_duration_seconds : option Q;
  cr_pid : Z;
  cr_process_started_at : Z;
  cr_hostname : string;
  cr_command_sha256 : string;
  cr_run_token_sha256 : string;
  cr_status : CollectorRunStatus;
  cr_started_at : Z;
  cr_heartbeat_at : Z;
  cr_stop_requested_at : option Z;
  cr_stopped_at : option Z;
  cr_artifact_directory : option string;
  cr_failure_reason : option string;
}.

(** The payload of the group key; its keys are in order as written. *)
Definition group_payload (database_identity schema_name venue instrument event_type channel : string)
  : json :=
  JObject [(text "channel", JString (text channel));
           (text "database_identity", JString (text database_identity));
           (text "event_type", JString (text event_type));
           (text "instrument", JString (text instrument));
           (text "schema", JString (text schema_name));
           (text "venue", JString (text venue))].

Definition collector_group_key {D : Digest}
    (database_identity schema_name venue instrument event_type channel : string) : string :=
  "collector-" +:+ sha256_hex (untext (dumps compact_style
    (group_payload database_identity schema_name venue instrument event_type channel))).

(** ** In memory *)

Record InMemoryCollectorLeaseRepository := {
  cm_leases : gmap string CollectorLease;
  cm_runs : list (string * CollectorRunRecord);
}.

Definition cm_set_lease (group : string) (lease : CollectorLease)
    (s : InMemoryCollectorLeaseRepository) : InMemoryCollectorLeaseRepository :=
  {| cm_leases := <[group := lease]> (cm_leases s); cm_runs := cm_runs s |}.

Definition held_by (lease : CollectorLease) (run_id owner_id : string) : bool :=
  bool_decide (cl_run_id lease = run_id) && bool_decide (cl_owner_id lease = owner_id).

Definition memory_acquire (now : Z) (collector_group run_id owner_id : string) (expires_at : Z)
  : M InMemoryCollectorLeaseRepository CollectorLease :=
  fun self =>
    let current := cm_leases self !! collector_group in
    match current with
    | Some current =>
        if (now <? cl_expires_at current) && negb (held_by current run_id owner_id)
        then (self, Err (CollectorLeaseConflict
               ("collector lease is held by " +:+ cl_run_id current)))
        else
          let lease := {| cl_collector_group := collector_group; cl_run_id := run_id;
                          cl_owner_id := owner_id; cl_expires_at := expires_at;
                          cl_acquired_at := now; cl_renewed_at := now |} in
          (cm_set_lease collector_group lease self, Ok lease)
    | None =>
        let lease := {| cl_collector_group := collector_group; cl_run_id := run_id;
                        cl_owner_id := owner_id; cl_expires_at := expires_at;
                        cl_acquired_at := now; cl_renewed_at := now |} in
        (cm_set_lease collector_group lease self, Ok lease)
    end.

Definition memory_renew (now : Z) (collector_group run_id owner_id : string) (expires_at : Z)
  : M InMemoryCollectorLeaseRepository CollectorLease :=
  fun self =>
    match cm_leases self !! collector_group with
    | Some current =>
        if negb (held_by current run_id owner_id)
        then (self, Err (CollectorLeaseConflict "collector lease ownership changed"))
        else if (cl_expires_at current <=? now)
        then (self, Err (CollectorLeaseConflict "collector lease expired before renewal"))
        else
          let lease := {| cl_collector_group := cl_collector_group current;
                          cl_run_id := cl_run_id current; cl_owner_id := cl_owner_id current;
                          cl_expires_at := expires_at;
                          cl_acquired_at := cl_acquired_at current; cl_renewed_at := now |} in
          (cm_set_lease collector_group lease self, Ok lease)
    | None => (self, Err (CollectorLeaseConflict "collector lease ownership changed"))
    end.

Definition memory_release (collector_group run_id owner_id : string)
  : M InMemoryCollectorLeaseRepository unit :=
  fun self =>
    match cm_leases self !! collector_group with
    | Some current =>
        if held_by current run_id owner_id
        then ({| cm_leases := delete collector_group (cm_leases self); cm_runs := cm_runs self |},
              Ok tt)
        else (self, Ok tt)
    | None => (self, Ok tt)
    end.

Definition memory_save_run (run : CollectorRunRecord)
  : M InMemoryCollectorLeaseRepository unit :=
  pmodify (fun self => {| cm_leases := cm_leases self;
                          cm_runs := dict_set (cr_run_id run) run (cm_runs self) |}).

Definition memory_get_run (self : InMemoryCollectorLeaseRepository) (run_id : string)
  : option CollectorRunRecord := dict_get run_id (cm_runs self).

Definition started_le (a b : CollectorRunRecord) : bool := (cr_started_at a <=? cr_started_at b).

Definition memory_list_runs (self : InMemoryCollectorLeaseRepository)
  : list CollectorRunRecord := sorted_by started_le (dict_values (cm_runs self)).

(** ** In the database *)

(** Timestamps come back from the database aware or naive. *)
Record CollectorLeaseRow := {
  lr_collector_group : string;
  lr_run_id : string;
  lr_owner_id : string;
  lr_acquired_at : datetime;
  lr_renewed_at : datetime;
  lr_expires_at : datetime;
}.

(** [value.replace(tzinfo=UTC) if value.tzinfo is None else value.astimezone(UTC)] *)
Definition aware (value : datetime) : Z := match value with Naive t | Aware t => t end.

(** The lease a row stands for. *)
Definition row_lease (r : CollectorLeaseRow) : CollectorLease := {|
  cl_collector_group := lr_collector_group r; cl_run_id := lr_run_id r;
  cl_owner_id := lr_owner_id r; cl_expires_at := aware (lr_expires_at r);
  cl_acquired_at := aware (lr_acquired_at r); cl_renewed_at := aware (lr_renewed_at r) |}.

Class LeaseTable (T : Type) := {
  (** [session.get(CollectorLeaseRow, group, with_for_update=True)] *)
  lt_get : T -> string -> option CollectorLeaseRow;
  (** [session.add(row)] and the commit *)
  lt_insert : CollectorLeaseRow -> T -> T * result unit;
  (** the commit of a change of the locked row *)
  lt_write : CollectorLeaseRow -> T -> T;
  lt_delete : string -> T -> T;
}.

(** The leases of a table. *)
Definition table_lease {T} `{LeaseTable T} (t : T) (group : string) : option CollectorLease :=
  row_lease <$> lt_get t group.

(** The lengths of the columns. *)
Definition lease_fits (r : CollectorLeaseRow) : bool :=
  text_fits 160 (lr_collector_group r) && text_fits 160 (lr_run_id r)
  && text_fits 240 (lr_owner_id r).

(** What is read back of a row that fits is the lease that was written; an
    insert may lose the race, and then nothing of it remains. *)
Class LeaseTableLaws (T : Type) `{LeaseTable T} : Prop := {
  lt_insert_law : forall t r,
    lease_fits r = true -> lt_get t (lr_collector_group r) = None ->
    (exists t', lt_insert r t = (t', Ok tt) /\
       forall g, table_lease t' g =
         if decide (g = lr_collector_group r) then Some (row_lease r) else table_lease t g) \/
    (lt_insert r t).2 = Err (OtherError "IntegrityError");
  lt_write_law : forall t r g,
    lease_fits r = true ->
    table_lease (lt_write r t) g =
    if decide (g = lr_collector_group r) then Some (row_lease r) else table_lease t g;
  lt_delete_law : forall t k g,
    table_lease (lt_delete k t) g = if decide (g = k) then None else table_lease t g;
}.

Section Sql.
Context {T : Type} {HT : LeaseTable T}.

(** Leaving [session.begin()] with an exception rolls back. *)
Definition sql_acquire (now : Z) (collector_group run_id owner_id : string) (expires_at : Z)
  : M T CollectorLease :=
  fun t =>
    let lease := {| cl_collector_group := collector_group; cl_run_id := run_id;
                    cl_owner_id := owner_id; cl_expires_at := expires_at;
                    cl_acquired_at := now; cl_renewed_at := now |} in
    let fresh := {| lr_collector_group := collector_group; lr_run_id := run_id;
                    lr_owner_id := owner_id; lr_acquired_at := Aware now;
                    lr_renewed_at := Aware now; lr_expires_at := Aware expires_at |} in
    match lt_get t collector_group with
    | Some row =>
        if (now <? aware (lr_expires_at row))
           && (negb (bool_decide (lr_run_id row = run_id))
               || negb (bool_decide (lr_owner_id row = owner_id)))
        then (t, Err (CollectorLeaseConflict ("collector lease is held by " +:+ lr_run_id row)))
        else
          (lt_write {| lr_collector_group := lr_collector_group row; lr_run_id := run_id;
                       lr_owner_id := owner_id; lr_acquired_at := Aware now;
                       lr_renewed_at := Aware now; lr_expires_at := Aware expires_at |} t,
           Ok lease)
    | None =>
        match lt_insert fresh t with
        | (t', Ok _) => (t', Ok lease)
        | (_, Err e) =>
            (t, Err (if bool_decide (e = OtherError "IntegrityError")
                     then CollectorLeaseConflict "collector lease acquisition raced" else e))
        end
    end.

Definition sql_renew (now : Z) (collector_group run_id owner_id : string) (expires_at : Z)
  : M T CollectorLease :=
  fun t =>
    match lt_get t collector_group with
    | Some row =>
        if negb (bool_decide (lr_run_id row = run_id))
           || negb (bool_decide (lr_owner_id row = owner_id))
        then (t, Err (CollectorLeaseConflict "collector lease ownership changed"))
        else if (aware (lr_expires_at row) <=? now)
        then (t, Err (CollectorLeaseConflict "collector lease expired before renewal"))
        else
          let acquired_at := aware (lr_acquired_at row) in
          (lt_write {| lr_collector_group := lr_collector_group row; lr_run_id := lr_run_id row;
                       lr_owner_id := lr_owner_id row; lr_acquired_at := lr_acquired_at row;
                       lr_renewed_at := Aware now; lr_expires_at := Aware expires_at |} t,
           Ok {| cl_collector_group := collector_group; cl_run_id := run_id;
                 cl_owner_id := owner_id; cl_expires_at := expires_at;
                 cl_acquired_at := acquired_at; cl_renewed_at := now |})
    | None => (t, Err (CollectorLeaseConflict "collector lease ownership changed"))
    end.

Definition sql_release (collector_group run_id owner_id : string) : M T unit :=
  fun t =>
    match lt_get t collector_group with
    | Some row =>
        if bool_decide (lr_run_id row = run_id) && bool_decide (lr_owner_id row = owner_id)
        then (lt_delete collector_group t, Ok tt)
        else (t, Ok tt)
    | None => (t, Ok tt)
    end.

End Sql.

(** ** Rows of runs *)

Record CollectorRunRow := {
  rr_run_id : string;
  rr_collector_group : string;
  rr_owner_id : string;
  rr_commit_sha : string;
  rr_config_path : string;
  rr_database_identity : string;
  rr_schema_name : string;
  rr_checkpoint_namespace : string;
  rr_artifact_namespace : string;
  rr_venues_json : chars;
  rr_instruments_json : chars;
  rr_event_types_json : chars;
  rr_duration_seconds : option Q;
  rr_pid : Z;
  rr_process_started_at : datetime;
  rr_hostname : string;
  rr_command_sha256 : string;
  rr_run_token_sha256 : string;
  rr_status : string;
  rr_started_at : datetime;
  rr_heartbeat_at : datetime;
  rr_stop_requested_at : option datetime;
  rr_stopped_at : option datetime;
  rr_artifact_directory : option string;
  rr_failure_reason : option string;
}.

(** [json.dumps(xs)] and [tuple(json.loads(text))]; only an array of strings is
    read as a tuple of strings. *)
Definition dump_strings (xs : list string) : chars :=
  dumps default_style (JArray (map (fun x => JString (text x)) xs)).

Fixpoint json_strings (items : list json) : option (list string) :=
  match items with
  | [] => Some []
  | JString s :: items => rest ← json_strings items; Some (untext s :: rest)
  | _ => None
  end.

Definition load_strings (s : chars) : result (list string) :=
  let! v := loads s in
  match v with
  | JArray items => match json_strings items with Some xs => Ok xs | None => Err (OtherError "TypeError") end
  | _ => Err (OtherError "TypeError")
  end.

(** [_run_values] with the key: the row as it is written. *)
Definition run_row (run : CollectorRunRecord) : CollectorRunRow := {|
  rr_run_id := cr_run_id run; rr_collector_group := cr_collector_group run;
  rr_owner_id := cr_owner_id run; rr_commit_sha := cr_commit_sha run;
  rr_config_path := cr_config_path run; rr_database_identity := cr_database_identity run;
  rr_schema_name := cr_schema_name run; rr_checkpoint_namespace := cr_checkpoint_namespace run;
  rr_artifact_namespace := cr_artifact_namespace run;
  rr_venues_json := dump_strings (cr_venues run);
  rr_instruments_json := dump_strings (cr_instruments run);
  rr_event_types_json := dump_strings (cr_event_types run);
  rr_duration_seconds := cr_duration_seconds run; rr_pid := cr_pid run;
  rr_process_started_at := Aware (cr_process_started_at run); rr_hostname := cr_hostname run;
  rr_command_sha256 := cr_command_sha256 run; rr_run_token_sha256 := cr_run_token_sha256 run;
  rr_status := run_status_value (cr_status run); rr_started_at := Aware (cr_started_at run);
  rr_heartbeat_at := Aware (cr_heartbeat_at run);
  rr_stop_requested_at := Aware <$> cr_stop_requested_at run;
  rr_stopped_at := Aware <$> cr_stopped_at run;
  rr_artifact_directory := cr_artifact_directory run;
  rr_failure_reason := cr_failure_reason run |}.

Definition run_statuses : list CollectorRunStatus :=
  [RUNNING; STOP_REQUESTED; COMPLETED; FAILED; CANCELED_DUE_TO_OVERLAP].

(** [CollectorRunStatus(value)] *)
Definition parse_run_status (value : string) : result CollectorRunStatus :=
  match List.find (fun s => bool_decide (run_status_value s = value)) run_statuses with
  | Some s => Ok s
  | None => Err (ValueError (value +:+ " is not a valid CollectorRunStatus"))
  end.

Definition row_run (row : CollectorRunRow) : result CollectorRunRecord :=
  let! venues := load_strings (rr_venues_json row) in
  let! instruments := load_strings (rr_instruments_json row) in
  let! event_types := load_strings (rr_event_types_json row) in
  let! status := parse_run_status (rr_status row) in
  Ok {| cr_run_id := rr_run_id row; cr_collector_group := rr_collector_group row;
        cr_owner_id := rr_owner_id row; cr_commit_sha := rr_commit_sha row;
        cr_config_path := rr_config_path row; cr_database_identity := rr_database_identity row;
        cr_schema_name := rr_schema_name row;
        cr_checkpoint_namespace := rr_checkpoint_namespace row;
        cr_artifact_namespace := rr_artifact_namespace row;
        cr_venues := venues; cr_instruments := instruments; cr_event_types := event_types;
        cr_duration_seconds := rr_duration_seconds row; cr_pid := rr_pid row;
        cr_process_started_at := aware (rr_process_started_at row);
        cr_hostname := rr_hostname row; cr_command_sha256 := rr_command_sha256 row;
        cr_run_token_sha256 := rr_run_token_sha256 row; cr_status := status;
        cr_started_at := aware (rr_started_at row); cr_heartbeat_at := aware (rr_heartbeat_at row);
        cr_stop_requested_at := aware <$> rr_stop_requested_at row;
        cr_stopped_at := aware <$> rr_stopped_at row;
        cr_artifact_directory := rr_artifact_directory row;
        cr_failure_reason := rr_failure_reason row |}.

(** The table of runs: [session.get], the commit of an added or changed row, the
    rows ordered by [started_at], and the number of leases of a run. *)
Class RunTable (T : Type) := {
  rt_get : T -> string -> option CollectorRunRow;
  rt_put : CollectorRunRow -> T -> T;
  rt_rows : T -> list CollectorRunRow;
  rt_lease_count : T -> string -> Z;
}.

(** The lengths of the columns, and the range of [Integer]. *)
Definition run_fits (r : CollectorRunRow) : bool :=
  text_fits 160 (rr_run_id r) && text_fits 160 (rr_collector_group r)
  && text_fits 240 (rr_owner_id r) && text_fits 64 (rr_commit_sha r)
  && text_fits 1000 (rr_config_path r) && text_fits 1000 (rr_database_identity r)
  && text_fits 160 (rr_schema_name r) && text_fits 200 (rr_checkpoint_namespace r)
  && text_fits 500 (rr_artifact_namespace r) && (Z.abs (rr_pid r) <? 2 ^ 31)
  && text_fits 255 (rr_hostname r) && text_fits 64 (rr_command_sha256 r)
  && text_fits 64 (rr_run_token_sha256 r) && text_fits 40 (rr_status r)
  && optional_text_fits 1000 (rr_artifact_directory r)
  && optional_text_fits 1000 (rr_failure_reason r).

Class RunTableLaws (T : Type) `{RunTable T} : Prop := {
  rt_put_law : forall t r k,
    run_fits r = true ->
    rt_get (rt_put r t) k = if decide (k = rr_run_id r) then Some r else rt_get t k;
}.

Section SqlRuns.
Context {T : Type} {HT : RunTable T}.

(** A new row and a changed one hold the same values. *)
Definition sql_save_run (run : CollectorRunRecord) : M T unit := pmodify (rt_put (run_row run)).

Definition sql_get_run (t : T) (run_id : string) : result (option CollectorRunRecord) :=
  match rt_get t run_id with
  | Some row => let! run := row_run row in Ok (Some run)
  | None => Ok None
  end.

Fixpoint row_runs (rows : list CollectorRunRow) : result (list CollectorRunRecord) :=
  match rows with
  | [] => Ok []
  | row :: rows => let! run := row_run row in let! runs := row_runs rows in Ok (run :: runs)
  end.

Definition sql_list_runs (t : T) : result (list CollectorRunRecord) := row_runs (rt_rows t).

Definition sql_has_leases (t : T) (run_id : string) : bool := negb (rt_lease_count t run_id =? 0).

End SqlRuns.

(** ** Sequences of lease operations *)

Inductive LeaseOp :=
| Acquire (collector_group run_id owner_id : string) (expires_at : Z)
| Renew (collector_group run_id owner_id : string) (expires_at : Z)
| Release (collector_group run_id owner_id : string).

(** Who asks. *)
Definition op_holder (op : LeaseOp) : string * string :=
  match op with Acquire _ r o _ | Renew _ r o _ | Release _ r o => (r, o) end.

(** An operation at a time; a release returns no lease. *)
Definition memory_op (now : Z) (op : LeaseOp)
  : M InMemoryCollectorLeaseRepository (option CollectorLease) :=
  match op with
  | Acquire g r o e => do! l <- memory_acquire now g r o e; pret (Some l)
  | Renew g r o e => do! l <- memory_renew now g r o e; pret (Some l)
  | Release g r o => run! memory_release g r o; pret None
  end.

Definition sql_op {T} `{LeaseTable T} (now : Z) (op : LeaseOp) : M T (option CollectorLease) :=
  match op with
  | Acquire g r o e => do! l <- sql_acquire now g r o e; pret (Some l)
  | Renew g r o e => do! l <- sql_renew now g r o e; pret (Some l)
  | Release g r o => run! sql_release g r o; pret None
  end.

(** The names of an operation fit the columns. *)
Definition op_fits (op : LeaseOp) : bool :=
  match op with
  | Acquire g r o _ | Renew g r o _ | Release g r o =>
      text_fits 160 g && text_fits 160 r && text_fits 240 o
  end.

(** The repository after a sequence of operations, and their outcomes. *)
Fixpoint memory_ops (ops : list (Z * LeaseOp)) (s : InMemoryCollectorLeaseRepository)
  : InMemoryCollectorLeaseRepository * list (result (option CollectorLease)) :=
  match ops with
  | [] => (s, [])
  | (now, op) :: ops =>
      let (s, r) := memory_op now op s in
      let (s, rs) := memory_ops ops s in (s, r :: rs)
  end.

(** ** Theorems *)

Lemma held_by_spec l r o : held_by l r o = true <-> (cl_run_id l, cl_owner_id l) = (r, o).
Proof.
  unfold held_by. rewrite andb_true_iff, !bool_decide_eq_true. split; [by intros [-> ->]|].
  by intros [= -> ->].
Qed.

Lemma held_by_other l r o : (cl_run_id l, cl_owner_id l) <> (r, o) -> held_by l r o = false.
Proof. intros H. apply not_true_iff_false. by rewrite held_by_spec. Qed.

(** An operation on one group leaves the others alone. *)
Lemma memory_op_other now op s g :
  (match op with Acquire g' _ _ _ | Renew g' _ _ _ | Release g' _ _ => g' end) <> g ->
  cm_leases (memory_op now op s).1 !! g = cm_leases s !! g.
Proof.
  destruct op as [g' r o e|g' r o e|g' r o]; simpl; intros Hne;
    unfold pbind, memory_acquire, memory_renew, memory_release, cm_set_lease;
    destruct (cm_leases s !! g') as [c|]; simpl; try done;
    repeat case_match; simplify_eq; simpl;
    rewrite ?lookup_insert_ne, ?lookup_delete_ne by done; done.
Qed.

(** While a lease runs, nobody else moves it. *)
Lemma memory_op_held now op s g l :
  cm_leases s !! g = Some l -> now < cl_expires_at l ->
  op_holder op <> (cl_run_id l, cl_owner_id l) ->
  cm_leases (memory_op now op s).1 !! g = Some l.
Proof.
  intros Hl Hn Hh. destruct (decide
    ((match op with Acquire g' _ _ _ | Renew g' _ _ _ | Release g' _ _ => g' end) = g)) as [Hg|Hg].
  2: { by rewrite memory_op_other. }
  destruct op as [g' r o e|g' r o e|g' r o]; simpl in *; subst g';
    unfold pbind, memory_acquire, memory_renew, memory_release; rewrite Hl;
    rewrite held_by_other by congruence; simpl; [|done|done].
  apply Z.ltb_lt in Hn as ->. done.
Qed.

(** C33: a running lease excludes everybody else.  As long as a lease has not
    expired, no sequence of acquisitions, renewals and releases by other runs or
    owners takes it away or changes it, and each acquisition of its group among
    them is refused. *)
Theorem lease_exclusive (ops : list (Z * LeaseOp)) (s : InMemoryCollectorLeaseRepository)
    (g : string) (l : CollectorLease) :
  cm_leases s !! g = Some l ->
  (forall now op, (now, op) ∈ ops ->
     now < cl_expires_at l /\ op_holder op <> (cl_run_id l, cl_owner_id l)) ->
  cm_leases (memory_ops ops s).1 !! g = Some l /\
  forall i now r o e, ops !! i = Some (now, Acquire g r o e) ->
    exists m, (memory_ops ops s).2 !! i = Some (Err (CollectorLeaseConflict m)).
Proof.
  revert s. induction ops as [|[now op] ops IH]; intros s Hl Hops; simpl.
  { split; [done|]. intros i. by rewrite lookup_nil. }
  destruct (Hops now op ltac:(left)) as [Hn Hh].
  pose proof (memory_op_held now op s g l Hl Hn Hh) as Hl'.
  destruct (memory_op now op s) as [s1 r1] eqn:E1. simpl in Hl'.
  destruct (IH s1 Hl') as [Hf Ha]; [by intros now' op' Hin; apply Hops; right|].
  destruct (memory_ops ops s1) as [s2 rs]. simpl in *. split; [done|].
  intros [|i] now' r o e Hi; [|by eapply Ha]. simpl in Hi. injection Hi as -> ->.
  simpl in E1. unfold pbind, memory_acquire in E1. rewrite Hl in E1. simpl in Hh.
  rewrite held_by_other in E1 by congruence. apply Z.ltb_lt in Hn. rewrite Hn in E1.
  simpl in E1. injection E1 as _ <-. by eexists.
Qed.

Definition sample_lease : CollectorLease := {|
  cl_collector_group := "g"; cl_run_id := "a"; cl_owner_id := "host"; cl_expires_at := 100;
  cl_acquired_at := 0; cl_renewed_at := 0 |}.

Lemma lease_exclusive_witness :
  let s := {| cm_leases := {["g" := sample_lease]}; cm_runs := [] |} in
  let ops := [(50, Acquire "g" "b" "host" 200); (60, Release "g" "b" "host");
              (99, Acquire "g" "a" "other" 300)] in
  cm_leases (memory_ops ops s).1 !! "g" = Some sample_lease.
Proof.
  intros s ops. apply (lease_exclusive ops s "g" sample_lease); [done|].
  intros now op Hin. subst ops. rewrite !elem_of_cons in Hin.
  destruct Hin as [[= -> ->]|[[= -> ->]|[[= -> ->]|Hin]]]; [by split..|].
  by apply not_elem_of_nil in Hin.
Defined.

(** The table and the dictionary hold the same leases. *)
Definition same_leases {T} `{LeaseTable T} (t : T) (s : InMemoryCollectorLeaseRepository) : Prop :=
  forall g, table_lease t g = cm_leases s !! g /\
            (forall l, cm_leases s !! g = Some l -> cl_collector_group l = g).

Lemma same_leases_set {T} `{LeaseTable T} (t t' : T) s g l :
  same_leases t s -> cl_collector_group l = g ->
  (forall k, table_lease t' k = if decide (k = g) then Some l else table_lease t k) ->
  same_leases t' (cm_set_lease g l s).
Proof.
  intros Hs Hg Ht k. rewrite Ht. unfold cm_set_lease. simpl.
  destruct (decide (k = g)) as [->|Hne].
  - rewrite lookup_insert_eq. split; [done|]. by intros ? [= <-].
  - rewrite lookup_insert_ne by done. apply Hs.
Qed.

Lemma same_leases_row {T} `{LeaseTable T} (t : T) s g row :
  same_leases t s -> lt_get t g = Some row ->
  cm_leases s !! g = Some (row_lease row) /\ lr_collector_group row = g.
Proof.
  intros Hs Hr. destruct (Hs g) as [Hl Hg]. unfold table_lease in Hl. rewrite Hr in Hl.
  simpl in Hl. symmetry in Hl. split; [done|]. by apply Hg in Hl.
Qed.

Lemma held_by_row row r o :
  held_by (row_lease row) r o =
  negb (negb (bool_decide (lr_run_id row = r)) || negb (bool_decide (lr_owner_id row = o))).
Proof. unfold held_by. simpl. by rewrite negb_orb, !negb_involutive. Qed.

(** The row written for an operation that fits, fits. *)
Lemma op_row_fits row g r o :
  lr_collector_group row = g -> lr_run_id row = r -> lr_owner_id row = o ->
  text_fits 160 g && text_fits 160 r && text_fits 240 o = true -> lease_fits row = true.
Proof. unfold lease_fits. by intros -> -> ->. Qed.

(** The two lease repositories agree.  On the same leases every operation
    whose names fit the columns has the same outcome and leaves the same leases,
    except that an acquisition of a free group in the database may lose a race:
    then it raises [CollectorLeaseConflict] and changes nothing. *)
Theorem lease_repositories_agree {T : Type} {HT : LeaseTable T} {HL : LeaseTableLaws T}
    (t : T) (s : InMemoryCollectorLeaseRepository) (now : Z) (op : LeaseOp) :
  same_leases t s -> op_fits op = true ->
  (sql_op now op t).2 = (memory_op now op s).2 /\
  same_leases (sql_op now op t).1 (memory_op now op s).1 \/
  (sql_op now op t).2 = Err (CollectorLeaseConflict "collector lease acquisition raced") /\
  (sql_op now op t).1 = t.
Proof.
  intros Hs Hfit. destruct op as [g r o e|g r o e|g r o]; simpl in *; unfold pbind.
  - unfold sql_acquire, memory_acquire. destruct (lt_get t g) as [row|] eqn:Er.
    + destruct (same_leases_row _ _ _ _ Hs Er) as [-> Hg]. left.
      rewrite held_by_row, negb_involutive. simpl.
      destruct ((now <? _) && _); simpl; [done|]. split; [done|]. eapply same_leases_set; [done|done|].
      intros k. rewrite lt_write_law by (by eapply op_row_fits). simpl. by rewrite Hg.
    + assert (cm_leases s !! g = None) as ->.
      { destruct (Hs g) as [Hl _]. unfold table_lease in Hl. rewrite Er in Hl. done. }
      set (fresh := {| lr_collector_group := g |}).
      destruct (lt_insert_law t fresh ltac:(by eapply op_row_fits) Er) as [(t' & Hi & Ht)|Hi].
      * left. rewrite Hi. simpl. split; [done|]. by eapply same_leases_set.
      * right. destruct (lt_insert fresh t) as [t' res]. simpl in Hi. subst res. done.
  - left. unfold sql_renew, memory_renew. destruct (lt_get t g) as [row|] eqn:Er.
    + destruct (same_leases_row _ _ _ _ Hs Er) as [-> Hg]. rewrite held_by_row, negb_involutive.
      destruct (negb (bool_decide (lr_run_id row = r)) || _) eqn:Eh; simpl; [done|].
      apply orb_false_iff in Eh as [E1 E2]. apply negb_false_iff, bool_decide_eq_true in E1, E2.
      destruct (_ <=? now); simpl; [done|].
      split; [by rewrite E1, E2, Hg|]. eapply same_leases_set; [done|done|].
      intros k. rewrite lt_write_law by (by eapply op_row_fits). simpl. by rewrite Hg.
    + destruct (Hs g) as [Hl _]. unfold table_lease in Hl. rewrite Er in Hl. simpl in Hl.
      by rewrite <- Hl.
  - left. unfold sql_release, memory_release. destruct (lt_get t g) as [row|] eqn:Er.
    + destruct (same_leases_row _ _ _ _ Hs Er) as [-> Hg]. unfold held_by. simpl.
      destruct (bool_decide _ && _); simpl; [|done]. split; [done|]. intros k. rewrite lt_delete_law. simpl.
      destruct (decide (k = g)) as [->|Hne]; [by rewrite lookup_delete_eq|].
      rewrite lookup_delete_ne by done. apply Hs.
    + destruct (Hs g) as [Hl _]. unfold table_lease in Hl. rewrite Er in Hl. simpl in Hl.
      by rewrite <- Hl.
Qed.

(** A table kept in a map, in which an insert never races. *)
#[export] Instance gmap_lease_table : LeaseTable (gmap string CollectorLeaseRow) := {
  lt_get := fun t g => t !! g;
  lt_insert := fun r t => (<[lr_collector_group r := r]> t, Ok tt);
  lt_write := fun r t => <[lr_collector_group r := r]> t;
  lt_delete := fun g t => delete g t;
}.

#[export] Instance gmap_lease_laws : LeaseTableLaws (gmap string CollectorLeaseRow).
Proof.
  assert (forall (t : gmap string CollectorLeaseRow) r g,
    table_lease (<[lr_collector_group r := r]> t) g =
    if decide (g = lr_collector_group r) then Some (row_lease r) else table_lease t g) as Hins.
  { intros t r g. unfold table_lease. simpl. case_decide as Hg.
    - by rewrite Hg, lookup_insert_eq.
    - by rewrite lookup_insert_ne. }
  split; simpl.
  - intros t r _ _. left. eexists; split; [done|]. apply Hins.
  - intros. apply Hins.
  - intros t k g. unfold table_lease. simpl. case_decide as Hg.
    + by rewrite Hg, lookup_delete_eq.
    + by rewrite lookup_delete_ne.
Qed.

Lemma lease_repositories_agree_witness :
  let row := {| lr_collector_group := "g"; lr_run_id := "a"; lr_owner_id := "host";
                lr_acquired_at := Naive 0; lr_renewed_at := Naive 0;
                lr_expires_at := Naive 100 |} in
  let t := {["g" := row]} : gmap string CollectorLeaseRow in
  let s := {| cm_leases := {["g" := sample_lease]}; cm_runs := [] |} in
  let op := Renew "g" "a" "host" 150 in
  (sql_op 50 op t).2 = (memory_op 50 op s).2.
Proof.
  intros row t s op. destruct (lease_repositories_agree t s 50 op) as [[H _]|[H _]].
  - intros g. unfold table_lease, t, s. simpl. destruct (decide (g = "g")) as [->|Hne].
    + split; [reflexivity|]. by intros l [= <-].
    + rewrite !lookup_singleton_ne by done. done.
  - reflexivity.
  - exact H.
  - exfalso. revert H. vm_compute. discriminate.
Defined.

(** ** Runs *)

Lemma load_dump_strings xs : load_strings (dump_strings xs) = Ok xs.
Proof.
  unfold load_strings, dump_strings. rewrite (loads_dumps _ default_style_ok).
  2: { apply strings_wf. }
  simpl. replace (json_strings _) with (Some xs); [done|].
  induction xs as [|x xs IH]; simpl; [done|]. rewrite <- IH. simpl. by rewrite untext_text.
Qed.

Lemma parse_run_status_value s : parse_run_status (run_status_value s) = Ok s.
Proof. by destruct s. Qed.

(** The row of a run stands for the run. *)
Lemma row_run_row run : row_run (run_row run) = Ok run.
Proof.
  unfold row_run. simpl. rewrite !load_dump_strings. simpl. rewrite parse_run_status_value.
  simpl. destruct run as []; simpl. do 2 f_equal; by destruct_all (option Z).
Qed.

(** A run that is saved is read back whole: [get_run] after [save_run]
    returns the very record, through the JSON of its venues, instruments and event
    types, the text of its status and its timestamps, and no other run changes. *)
Theorem collector_run_roundtrip {T : Type} {HT : RunTable T} {HL : RunTableLaws T}
    (t : T) (run : CollectorRunRecord) :
  run_fits (run_row run) = true ->
  let t' := (sql_save_run run t).1 in
  sql_get_run t' (cr_run_id run) = Ok (Some run) /\
  forall k, k <> cr_run_id run -> sql_get_run t' k = sql_get_run t k.
Proof.
  intros Hf t'. subst t'. unfold sql_save_run, sql_get_run. simpl. split.
  - rewrite rt_put_law by done. simpl. rewrite decide_True by done. by rewrite row_run_row.
  - intros k Hk. rewrite rt_put_law by done. simpl. by rewrite decide_False.
Qed.

#[export] Instance gmap_run_table : RunTable (gmap string CollectorRunRow) := {
  rt_get := fun t k => t !! k;
  rt_put := fun r t => <[rr_run_id r := r]> t;
  rt_rows := fun t => (map_to_list t).*2;
  rt_lease_count := fun t k => 0;
}.

#[export] Instance gmap_run_laws : RunTableLaws (gmap string CollectorRunRow).
Proof.
  split. intros t r k _. simpl. case_decide as Hk.
  - by rewrite Hk, lookup_insert_eq.
  - by rewrite lookup_insert_ne.
Qed.

Definition sample_run : CollectorRunRecord := {|
  cr_run_id := "run-1"; cr_collector_group := "g"; cr_owner_id := "host:1";
  cr_commit_sha := "abc"; cr_config_path := "config.yaml"; cr_database_identity := "db";
  cr_schema_name := "public"; cr_checkpoint_namespace := "production";
  cr_artifact_namespace := "artifacts"; cr_venues := ["binance"; "bybit"];
  cr_instruments := ["BTC-USDT"]; cr_event_types := []; cr_duration_seconds := Some (3 # 2);
  cr_pid := 4711; cr_process_started_at := 5; cr_hostname := "host"; cr_command_sha256 := "c";
  cr_run_token_sha256 := "t"; cr_status := STOP_REQUESTED; cr_started_at := 6;
  cr_heartbeat_at := 7; cr_stop_requested_at := Some 8; cr_stopped_at := None;
  cr_artifact_directory := None; cr_failure_reason := Some "stopped" |}.

Lemma collector_run_roundtrip_witness :
  let t' := (sql_save_run sample_run (∅ : gmap string CollectorRunRow)).1 in
  sql_get_run t' "run-1" = Ok (Some sample_run).
Proof. apply (collector_run_roundtrip ∅ sample_run). reflexivity. Defined.

(** ** Group keys *)

Lemma group_payload_wf d s v i e c : json_wf (group_payload d s v i e c).
Proof.
  split; [|by repeat constructor]. apply (bool_decide_unpack _). by vm_compute.
Qed.

(** Two streams share a collector group only when they are the same stream
    of the same database, or when SHA-256 collides on their payloads. *)
Theorem group_key_separates {D : Digest} (d s v i e c d' s' v' i' e' c' : string) :
  collector_group_key d s v i e c = collector_group_key d' s' v' i' e' c' ->
  (d, s, v, i, e, c) = (d', s', v', i', e', c') \/
  exists x y, x <> y /\ sha256_hex x = sha256_hex y.
Proof.
  unfold collector_group_key. intros H. apply (inj (String.append _)) in H.
  apply (hash_separates _ compact_style_ok) in H as [Heq|H];
    [left|by right|apply group_payload_wf..].
  injection Heq as H1 H2 H3 H4 H5 H6.
  by rewrite (text_inj _ _ H1), (text_inj _ _ H2), (text_inj _ _ H3), (text_inj _ _ H4),
    (text_inj _ _ H5), (text_inj _ _ H6).
Qed.

(** The digest of which every two texts collide. *)
Definition constant_digest : Digest := {|
  sha256_hex := fun _ => "0"; hmac_hex := fun _ _ => "0";
  json_signal := fun _ => "s"; json_leg := fun _ _ _ => "l"; json_cross := fun _ _ _ => "c" |}.

Lemma group_key_separates_witness :
  ("db", "public", "binance", "BTC", "trade", "a")
    = ("db", "public", "binance", "BTC", "trad", "ea") \/
  exists x y, x <> y /\ @sha256_hex constant_digest x = @sha256_hex constant_digest y.
Proof. apply (@group_key_separates constant_digest). reflexivity. Defined.
