(* ===== verification/FundingCarry.v ===== *)
(** * The funding-carry shadow strategy (domain/strategies/funding_carry.py)

    [FundingCarryShadowEvaluator.evaluate] reads one funding observation and one
    order book of each of two venues, and returns a candidate: long on the venue
    with the lower hourly funding rate, short on the other, with the income and
    the costs of a fixed notional.  Everything that can fail is inside one [try];
    the handler turns the exception and the stage it was raised in into a rejected
    candidate.

    A [Decimal] that comes from a venue may be NaN or infinite, and is a [number];
    [_finite] separates the others before anything is computed. *)

From Stdlib Require Import ZArith QArith Qabs Lqa Lia.
From stdpp Require Import base tactics list strings.
From S2P Require Import Prelude Decimals Evidence Json.

Local Open Scope string_scope.
Local Open Scope list_scope.
Local Open Scope Z_scope.

(** ** Data *)

Definition FUNDING_CARRY_STRATEGY_ID : string := "funding_carry".
Definition FUNDING_CARRY_REQUIRED_VENUES : list string := ["hyperliquid"; "bitget"].
Definition FUNDING_CARRY_SHADOW_ALLOWED_INSTRUMENTS : list string := ["BTC"; "SOL"].

Inductive ShadowDisposition := CANDIDATE | REJECTED.

Inductive FundingCarryEvaluationStage :=
| INPUT_VALIDATION | FUNDING_NORMALIZATION | BOOK_PRICING | ECONOMICS_CALCULATED
| THRESHOLD_EVALUATED.

Inductive FundingCarryRejectCode :=
| MISSING_RECEIVE_LEG | MISSING_PAY_LEG | MISSING_FUNDING_CURRENT | MISSING_ORDERBOOK_SNAPSHOT
| STALE_DATA | FUTURE_TIMESTAMP | INSTRUMENT_MISMATCH | VENUE_MISMATCH | UNKNOWN_FUNDING_UNIT
| UNKNOWN_FUNDING_INTERVAL | INVALID_BID_ASK | CROSSED_ORDERBOOK | EMPTY_USABLE_DEPTH
| UNSYNCHRONIZED_VENUE_TIMESTAMPS | DUPLICATE_SOURCE_EVENT | NON_FINITE_NUMERIC_VALUE
| EDGE_CALCULATION_FAILURE | INSUFFICIENT_ORDERBOOK_DEPTH | UNKNOWN_FEE | EDGE_BELOW_THRESHOLD
| MISSING_HYPERLIQUID_FUNDING_CURRENT | MISSING_BITGET_FUNDING_CURRENT
| MISSING_HYPERLIQUID_ORDERBOOK_SNAPSHOT | MISSING_BITGET_ORDERBOOK_SNAPSHOT
| BITGET_ORDERBOOK_STATE_NOT_INITIALIZED | BITGET_ORDERBOOK_SEQUENCE_GAP
| BITGET_ORDERBOOK_STATE_INVALID | HYPERLIQUID_FUNDING_STALE | BITGET_FUNDING_STALE
| FUNDING_OBSERVATION_UNSYNCHRONIZED | HYPERLIQUID_ORDERBOOK_STALE | BITGET_ORDERBOOK_STALE
| ORDERBOOK_VENUES_UNSYNCHRONIZED.

#[export] Instance reject_code_eq_dec : EqDecision FundingCarryRejectCode.
Proof. solve_decision. Defined.
#[export] Instance stage_eq_dec : EqDecision FundingCarryEvaluationStage.
Proof. solve_decision. Defined.

(** A [Decimal] read from a venue. *)
Inductive number := Finite (q : Decimal) | NonFinite.

Record FundingObservation := {
  fo_event_id : string;
  fo_venue : string;
  fo_instrument : string;
  fo_raw_funding_rate : number;
  fo_funding_unit : string;
  fo_funding_interval_seconds : option Z;
  fo_next_funding_at : option datetime;
  fo_source_timestamp : datetime;
  fo_received_at : datetime;
  fo_experimental : bool;
}.

Record OrderBookObservation := {
  ob_event_id : string;
  ob_venue : string;
  ob_instrument : string;
  ob_bids : list (number * number);
  ob_asks : list (number * number);
  ob_source_timestamp : datetime;
  ob_received_at : datetime;
  ob_experimental : bool;
  ob_source_event_ids : list string;
}.

Record CanonicalFunding := {
  cf_raw_funding_rate : Decimal;
  cf_canonical_funding_rate : Decimal;
  cf_funding_interval_seconds : Z;
  cf_funding_rate_per_hour : Decimal;
  cf_next_funding_at : option datetime;
  cf_source_timestamp : datetime;
  cf_received_at : datetime;
}.

Record FundingCarryShadowConfig := {
  fcc_instrument : string;
  fcc_venues : string * string;
  fcc_shadow_notional : Decimal;
  fcc_minimum_net_edge : Decimal;
  fcc_maximum_age_seconds : Z;
  fcc_maximum_future_seconds : Z;
  fcc_funding_max_age_seconds : Z;
  fcc_funding_max_observation_skew_seconds : Z;
  fcc_maximum_orderbook_venue_skew_seconds : Z;
  fcc_maximum_venue_timestamp_skew_seconds : Z;
  fcc_economics_currency : string;
  fcc_evaluation_horizon_seconds : Z;
  fcc_venue_taker_fee_rates : list (string * Decimal);
}.

Definition default_shadow_config : FundingCarryShadowConfig := {|
  fcc_instrument := "BTC"; fcc_venues := ("hyperliquid", "bitget"); fcc_shadow_notional := 10;
  fcc_minimum_net_edge := 0; fcc_maximum_age_seconds := 30; fcc_maximum_future_seconds := 1;
  fcc_funding_max_age_seconds := 40; fcc_funding_max_observation_skew_seconds := 30;
  fcc_maximum_orderbook_venue_skew_seconds := 5; fcc_maximum_venue_timestamp_skew_seconds := 5;
  fcc_economics_currency := "USD"; fcc_evaluation_horizon_seconds := 3600;
  fcc_venue_taker_fee_rates := [("hyperliquid", 6 # 10000); ("bitget", 6 # 10000)]%Q |}.

(** [dict(pairs)]: the last pair of a key wins. *)
Definition dict_of {V} (pairs : list (string * V)) : list (string * V) :=
  fold_left (fun d kv => dict_set kv.1 kv.2 d) pairs [].

Definition fee_rate (config : FundingCarryShadowConfig) (venue : string) : option Decimal :=
  dict_get venue (dict_of (fcc_venue_taker_fee_rates config)).

Record FundingCarryEconomics := {
  ec_long_venue : string;
  ec_short_venue : string;
  ec_receive_leg : string;
  ec_pay_leg : string;
  ec_funding_timestamps : list (string * datetime);
  ec_orderbook_timestamps : list (string * datetime);
  ec_raw_funding_rates : list (string * Decimal);
  ec_canonical_funding_rates : list (string * Decimal);
  ec_funding_intervals : list (string * Z);
  ec_funding_rates_per_hour : list (string * Decimal);
  ec_long_entry_vwap : Decimal;
  ec_short_entry_vwap : Decimal;
  ec_long_available_quantity : Decimal;
  ec_short_available_quantity : Decimal;
  ec_long_slippage_bps : Decimal;
  ec_short_slippage_bps : Decimal;
  ec_gross_funding_edge_per_hour : Decimal;
  ec_gross_funding_cashflow_per_hour : Decimal;
  ec_expected_funding_income : Decimal;
  ec_long_entry_fee : Decimal;
  ec_short_entry_fee : Decimal;
  ec_entry_fee_total : Decimal;
  ec_estimated_exit_fee : Decimal;
  ec_long_entry_slippage : Decimal;
  ec_short_entry_slippage : Decimal;
  ec_entry_slippage_total : Decimal;
  ec_estimated_exit_slippage : Decimal;
  ec_basis_cost : Decimal;
  ec_round_trip_cost : Decimal;
  ec_expected_net_income : Decimal;
  ec_expected_net_edge : Decimal;
  ec_break_even_holding_hours : option Decimal;
  ec_economics_currency : string;
  ec_notional : Decimal;
  ec_evaluation_horizon_seconds : Z;
  ec_funding_income_horizon : string;
}.

(** The fields [missing_venue] to [orderbook_synchronization_pass] keep their
    defaults in this file: the runtime that calls the evaluator sets them. *)
Record FundingCarryShadowCandidate := {
  ca_candidate_id : string;
  ca_run_id : string;
  ca_strategy_id : string;
  ca_instrument : string;
  ca_long_venue : option string;
  ca_short_venue : option string;
  ca_receive_leg : option string;
  ca_pay_leg : option string;
  ca_source_event_ids : list string;
  ca_funding_timestamps : list (string * datetime);
  ca_orderbook_timestamps : list (string * datetime);
  ca_raw_funding_rates : list (string * Decimal);
  ca_canonical_funding_rates : list (string * Decimal);
  ca_funding_intervals : list (string * Z);
  ca_funding_rates_per_hour : list (string * Decimal);
  ca_long_entry_vwap : option Decimal;
  ca_short_entry_vwap : option Decimal;
  ca_long_available_quantity : option Decimal;
  ca_short_available_quantity : option Decimal;
  ca_long_slippage_bps : option Decimal;
  ca_short_slippage_bps : option Decimal;
  ca_gross_funding_edge : option Decimal;
  ca_expected_funding_income : option Decimal;
  ca_long_entry_fee : option Decimal;
  ca_short_entry_fee : option Decimal;
  ca_estimated_exit_fee : option Decimal;
  ca_long_entry_slippage : option Decimal;
  ca_short_entry_slippage : option Decimal;
  ca_estimated_exit_slippage : option Decimal;
  ca_entry_basis_cost : option Decimal;
  ca_expected_net_edge : option Decimal;
  ca_disposition : ShadowDisposition;
  ca_rejection_reason : option FundingCarryRejectCode;
  ca_created_at : Z;
  ca_code_commit_sha : string;
  ca_config_sha : string;
  ca_missing_venue : option string;
  ca_missing_capability : option string;
  ca_last_seen_event_at : option Z;
  ca_last_valid_event_at : option Z;
  ca_source_event_count : Z;
  ca_venue_timestamp_skew_seconds : option Decimal;
  ca_hyperliquid_funding_age_seconds : option Decimal;
  ca_bitget_funding_age_seconds : option Decimal;
  ca_funding_observation_skew_seconds : option Decimal;
  ca_hyperliquid_orderbook_age_seconds : option Decimal;
  ca_bitget_orderbook_age_seconds : option Decimal;
  ca_orderbook_venue_skew_seconds : option Decimal;
  ca_funding_freshness_pass : option bool;
  ca_orderbook_freshness_pass : option bool;
  ca_orderbook_synchronization_pass : option bool;
  ca_evaluation_stage : FundingCarryEvaluationStage;
  ca_economics_calculated : bool;
  ca_economics_currency : string;
  ca_economics_notional : option Decimal;
  ca_evaluation_horizon_seconds : option Z;
  ca_funding_income_horizon : option string;
  ca_gross_funding_edge_per_hour : option Decimal;
  ca_gross_funding_cashflow_per_hour : option Decimal;
  ca_entry_fee_total : option Decimal;
  ca_entry_slippage_total : option Decimal;
  ca_round_trip_cost : option Decimal;
  ca_expected_net_income : option Decimal;
  ca_break_even_holding_hours : option Decimal;
}.

(** ** Exceptions of the [try] *)

(** [ValueError(code)], an [ArithmeticError], or a [KeyError], which the handler
    does not catch. *)
Inductive failure := Reject (code : FundingCarryRejectCode) | Arithmetic | Lookup.

Inductive step (A : Type) := Done (a : A) | Raised (f : failure).
Arguments Done {A} _.
Arguments Raised {A} _.

Definition step_bind {A B} (m : step A) (k : A -> step B) : step B :=
  match m with Done a => k a | Raised f => Raised f end.

Notation "'try!' x := m 'in' k" := (step_bind m (fun x => k))
  (at level 200, x pattern, m at level 100, k at level 200).
Notation "'guard!' b 'else' c ; k" := (if b then k else Raised (Reject c))
  (at level 200, b at level 100, c at level 100, k at level 200).

(** [a / b], which raises [DivisionByZero] or [InvalidOperation]. *)
Definition divide `{DecimalContext} (a b : Decimal) : step Decimal :=
  if deqb b 0 then Raised Arithmetic else Done (ddiv a b).

(** ** Numbers *)

(** [math.isfinite(float(value))]: the values from [2^1024 - 2^970] on round to
    an infinity. *)
Definition float_finite (q : Decimal) : bool :=
  dltb (Qabs q) (inject_Z (2 ^ 1024 - 2 ^ 970)).

Definition finite (n : number) : bool :=
  match n with Finite q => float_finite q | NonFinite => false end.

(** The value of a finite number. *)
Definition value (n : number) : Decimal := match n with Finite q => q | NonFinite => 0 end.

(** The instant of an aware timestamp. *)
Definition instant (t : datetime) : Z := match t with Naive t | Aware t => t end.
Definition is_aware (t : datetime) : bool := match t with Naive _ => false | Aware _ => true end.

(** [timedelta(seconds=n)] in microseconds. *)
Definition seconds (n : Z) : Z := n * 1000000.

Definition string_leb (a b : string) : bool := String.leb a b.

(** [sorted] on pairs of which the keys differ. *)
Definition sorted_items {V} (items : list (string * V)) : list (string * V) :=
  sorted_by (fun a b => string_leb a.1 b.1) items.

(** ** Identity *)

Definition identity_payload (strategy_id instrument : string) (source_event_ids : list string)
  : json :=
  JObject [(text "instrument", JString (text instrument));
           (text "source_event_ids",
            JArray (map (fun x => JString (text x)) (sorted_by string_leb source_event_ids)));
           (text "strategy_id", JString (text strategy_id))].

Definition identity {D : Digest} (strategy_id instrument : string) (source_event_ids : list string)
  : string :=
  sha256_hex (untext (dumps compact_style
    (identity_payload strategy_id instrument source_event_ids))).

(** ** Inputs *)

Inductive observation := OFunding (f : FundingObservation) | OBook (b : OrderBookObservation).

Definition obs_event_id (o : observation) : string :=
  match o with OFunding f => fo_event_id f | OBook b => ob_event_id b end.
Definition obs_venue (o : observation) : string :=
  match o with OFunding f => fo_venue f | OBook b => ob_venue b end.
Definition obs_instrument (o : observation) : string :=
  match o with OFunding f => fo_instrument f | OBook b => ob_instrument b end.
Definition obs_source_timestamp (o : observation) : datetime :=
  match o with OFunding f => fo_source_timestamp f | OBook b => ob_source_timestamp b end.
Definition obs_received_at (o : observation) : datetime :=
  match o with OFunding f => fo_received_at f | OBook b => ob_received_at b end.

Definition all_inputs (funding : list FundingObservation) (orderbooks : list OrderBookObservation)
  : list observation := map OFunding funding ++ map OBook orderbooks.

(** The events an observation was built from. *)
Definition obs_sources (o : observation) : list string :=
  match o with
  | OBook b => match ob_source_event_ids b with [] => [ob_event_id b] | ids => ids end
  | OFunding f => [fo_event_id f]
  end.

Section Strategy.
Context {C : DecimalContext}.
Local Open Scope dec_scope.

(** ** Funding *)

Definition normalize_funding (observation : FundingObservation) : step CanonicalFunding :=
  guard! bool_decide (fo_funding_unit observation = "fraction_per_interval")
    else UNKNOWN_FUNDING_UNIT;
  match fo_funding_interval_seconds observation with
  | None => Raised (Reject UNKNOWN_FUNDING_INTERVAL)
  | Some interval =>
      guard! (0 <? interval)%Z else UNKNOWN_FUNDING_INTERVAL;
      guard! bool_decide (fo_venue observation ∈ FUNDING_CARRY_REQUIRED_VENUES) else VENUE_MISMATCH;
      guard! finite (fo_raw_funding_rate observation) else NON_FINITE_NUMERIC_VALUE;
      let rate := value (fo_raw_funding_rate observation) in
      let canonical := rate ⊗ 1 in
      Done {| cf_raw_funding_rate := rate;
              cf_canonical_funding_rate := canonical;
              cf_funding_interval_seconds := interval;
              cf_funding_rate_per_hour := canonical ⊗ 3600 ⊘ inject_Z interval;
              cf_next_funding_at := fo_next_funding_at observation;
              cf_source_timestamp := fo_source_timestamp observation;
              cf_received_at := fo_received_at observation |}
  end.

(** [{item.venue: normalize_funding(item) for item in funding}] *)
Fixpoint normalize_all (d : list (string * CanonicalFunding)) (funding : list FundingObservation)
  : step (list (string * CanonicalFunding)) :=
  match funding with
  | [] => Done d
  | item :: funding =>
      try! c := normalize_funding item in normalize_all (dict_set (fo_venue item) c d) funding
  end.

(** [{item.venue: item for item in items}] *)
Definition by_venue {A} (venue : A -> string) (items : list A) : list (string * A) :=
  dict_of (map (fun item => (venue item, item)) items).

(** ** Book pricing *)

Definition EPSILON : Decimal := (1 # 1000000000000)%Q.

Fixpoint take_levels (usable : list (Decimal * Decimal)) (remaining cost filled : Decimal)
  : Decimal * Decimal * Decimal :=
  match usable with
  | [] => (remaining, cost, filled)
  | (price, size) :: usable =>
      let take := dmin size (remaining ⊘ price) in
      let cost := cost ⊕ (take ⊗ price) in
      let filled := filled ⊕ take in
      let remaining := remaining ⊖ (take ⊗ price) in
      if remaining <=? EPSILON then (remaining, cost, filled)
      else take_levels usable remaining cost filled
  end.

Definition usable_levels (levels : list (number * number)) : list (Decimal * Decimal) :=
  List.filter (fun l => (0 <? l.1) && (0 <? l.2)) (map (fun l => (value l.1, value l.2)) levels).

Definition vwap (levels : list (number * number)) (notional : Decimal) (buying : bool)
  : step (Decimal * Decimal * Decimal * Decimal) :=
  match levels with
  | [] => Raised (Reject EMPTY_USABLE_DEPTH)
  | _ =>
      guard! forallb (fun l => finite l.1 && finite l.2) levels else NON_FINITE_NUMERIC_VALUE;
      let usable := usable_levels levels in
      match usable with
      | [] => Raised (Reject EMPTY_USABLE_DEPTH)
      | (best, _) :: _ =>
          let '(remaining, cost, filled) := take_levels usable notional 0 0 in
          guard! negb ((remaining >? EPSILON) || (filled <=? 0)) else INSUFFICIENT_ORDERBOOK_DEPTH;
          try! vwap := divide cost filled in
          try! ratio := (if buying then divide vwap best else divide best vwap) in
          let slippage_bps := (ratio ⊖ 1) ⊗ 10000 in
          let available := dsum (map snd usable) in
          Done (vwap, filled, available, slippage_bps)
      end
  end.

(** ** Validation *)

(** [d[key]] *)
Definition subscript {V} (d : list (string * V)) (key : string) : step V :=
  match dict_get key d with Some v => Done v | None => Raised Lookup end.

(** One pass over an order book. *)
Definition validate_book (book : OrderBookObservation) : step unit :=
  match ob_bids book, ob_asks book with
  | (bid, _) :: _, (ask, _) :: _ =>
      guard! finite bid && finite ask else NON_FINITE_NUMERIC_VALUE;
      guard! negb ((value bid <=? 0) || (value ask <=? 0)) else INVALID_BID_ASK;
      guard! value bid <? value ask else CROSSED_ORDERBOOK;
      Done tt
  | _, _ => Raised (Reject EMPTY_USABLE_DEPTH)
  end.

Fixpoint validate_books (orderbooks : list OrderBookObservation) : step unit :=
  match orderbooks with
  | [] => Done tt
  | book :: orderbooks => try! _ := validate_book book in validate_books orderbooks
  end.

(** The first half of the checks: who sent what. *)
Definition validate_shape (config : FundingCarryShadowConfig)
    (funding : list FundingObservation) (orderbooks : list OrderBookObservation) : step unit :=
  let inputs := all_inputs funding orderbooks in
  let '(first, second) := fcc_venues config in
  let funding_venues := map fo_venue funding in
  let book_venues := map ob_venue orderbooks in
  guard! bool_decide (fcc_instrument config ∈ FUNDING_CARRY_SHADOW_ALLOWED_INSTRUMENTS)
    else INSTRUMENT_MISMATCH;
  guard! bool_decide ([first; second] = FUNDING_CARRY_REQUIRED_VENUES) else VENUE_MISMATCH;
  guard! bool_decide (NoDup (map obs_event_id inputs)) else DUPLICATE_SOURCE_EVENT;
  guard! forallb (fun o => bool_decide (obs_instrument o = fcc_instrument config)) inputs
    else INSTRUMENT_MISMATCH;
  guard! forallb (fun o => bool_decide (obs_venue o ∈ [first; second])) inputs else VENUE_MISMATCH;
  guard! bool_decide (funding <> []) else MISSING_FUNDING_CURRENT;
  guard! bool_decide (orderbooks <> []) else MISSING_ORDERBOOK_SNAPSHOT;
  guard! bool_decide (first ∈ funding_venues) && bool_decide (first ∈ book_venues)
    else MISSING_RECEIVE_LEG;
  guard! bool_decide (second ∈ funding_venues) && bool_decide (second ∈ book_venues)
    else MISSING_PAY_LEG;
  guard! (length funding =? 2)%nat else MISSING_FUNDING_CURRENT;
  guard! (length orderbooks =? 2)%nat else MISSING_ORDERBOOK_SNAPSHOT;
  Done tt.

(** The second half: when, and what the books hold. *)
Definition validate_content (config : FundingCarryShadowConfig)
    (funding : list FundingObservation) (orderbooks : list OrderBookObservation) (now : Z)
  : step unit :=
  let maximum_funding_age := seconds (fcc_funding_max_age_seconds config) in
  let maximum_orderbook_age := seconds (fcc_maximum_age_seconds config) in
  let maximum_future := seconds (fcc_maximum_future_seconds config) in
  guard! forallb (fun o => is_aware (obs_source_timestamp o) && is_aware (obs_received_at o)
                    && (instant (obs_source_timestamp o) <=? now + maximum_future)%Z)
           (all_inputs funding orderbooks) else FUTURE_TIMESTAMP;
  let funding_by_venue := by_venue fo_venue funding in
  let books_by_venue := by_venue ob_venue orderbooks in
  try! hf := subscript funding_by_venue "hyperliquid" in
  guard! (now - instant (fo_source_timestamp hf) <=? maximum_funding_age)%Z
    else HYPERLIQUID_FUNDING_STALE;
  try! bf := subscript funding_by_venue "bitget" in
  guard! (now - instant (fo_source_timestamp bf) <=? maximum_funding_age)%Z
    else BITGET_FUNDING_STALE;
  guard! (Z.abs (instant (fo_source_timestamp hf) - instant (fo_source_timestamp bf))
          <=? seconds (fcc_funding_max_observation_skew_seconds config))%Z
    else FUNDING_OBSERVATION_UNSYNCHRONIZED;
  try! hb := subscript books_by_venue "hyperliquid" in
  guard! (now - instant (ob_source_timestamp hb) <=? maximum_orderbook_age)%Z
    else HYPERLIQUID_ORDERBOOK_STALE;
  try! bb := subscript books_by_venue "bitget" in
  guard! (now - instant (ob_source_timestamp bb) <=? maximum_orderbook_age)%Z
    else BITGET_ORDERBOOK_STALE;
  guard! (Z.abs (instant (ob_source_timestamp hb) - instant (ob_source_timestamp bb))
          <=? seconds (fcc_maximum_orderbook_venue_skew_seconds config))%Z
    else ORDERBOOK_VENUES_UNSYNCHRONIZED;
  validate_books orderbooks.

Definition validate_inputs (config : FundingCarryShadowConfig)
    (funding : list FundingObservation) (orderbooks : list OrderBookObservation) (now : Z)
  : step unit :=
  try! _ := validate_shape config funding orderbooks in
  validate_content config funding orderbooks now.

(** ** Economics *)

(** The best price of a side, read after [vwap] found every level finite. *)
Definition best_price (levels : list (number * number)) : Decimal :=
  match levels with (price, _) :: _ => value price | [] => 0 end.

(** [sorted(normalized, key=...)], then its first and last venue. *)
Definition ordered_venues (normalized : list (string * CanonicalFunding)) : list string :=
  map fst (sorted_by (fun a b => cf_funding_rate_per_hour a.2 <=? cf_funding_rate_per_hour b.2)
             normalized).

Definition select_venues (normalized : list (string * CanonicalFunding)) : step (string * string) :=
  match ordered_venues normalized with
  | [] => Raised Lookup
  | long_venue :: rest => Done (long_venue, List.last rest long_venue)
  end.

Definition economics (config : FundingCarryShadowConfig)
    (normalized : list (string * CanonicalFunding)) (books : list (string * OrderBookObservation))
    (long_venue short_venue : string) (long_rate short_rate : CanonicalFunding)
    (long_book short_book : OrderBookObservation) : step FundingCarryEconomics :=
  let notional := fcc_shadow_notional config in
  try! (long_vwap, long_qty, long_available, long_bps) := vwap (ob_asks long_book) notional true in
  try! (short_vwap, short_qty, short_available, short_bps)
    := vwap (ob_bids short_book) notional false in
  match fee_rate config long_venue, fee_rate config short_venue with
  | Some long_fee_rate, Some short_fee_rate =>
      let gross_edge := cf_funding_rate_per_hour short_rate ⊖ cf_funding_rate_per_hour long_rate in
      let gross_cashflow_per_hour := gross_edge ⊗ notional in
      let funding_income :=
        gross_cashflow_per_hour ⊗ inject_Z (fcc_evaluation_horizon_seconds config) ⊘ 3600 in
      let long_fee := notional ⊗ long_fee_rate in
      let short_fee := notional ⊗ short_fee_rate in
      let entry_fee_total := long_fee ⊕ short_fee in
      let exit_fee := long_fee ⊕ short_fee in
      let long_slippage := long_qty ⊗ (long_vwap ⊖ best_price (ob_asks long_book)) in
      let short_slippage := short_qty ⊗ (best_price (ob_bids short_book) ⊖ short_vwap) in
      let entry_slippage_total := long_slippage ⊕ short_slippage in
      let exit_slippage := long_slippage ⊕ short_slippage in
      let midpoint := (long_vwap ⊕ short_vwap) ⊘ 2 in
      try! basis := divide (long_vwap ⊖ short_vwap) midpoint in
      let basis_cost := basis ⊗ notional in
      let round_trip_cost :=
        entry_fee_total ⊕ exit_fee ⊕ entry_slippage_total ⊕ exit_slippage ⊕ basis_cost in
      let net_income := funding_income ⊖ round_trip_cost in
      try! net_edge := divide net_income notional in
      let break_even :=
        if gross_cashflow_per_hour >? 0
        then Some (dmax round_trip_cost 0 ⊘ gross_cashflow_per_hour) else None in
      guard! forallb float_finite
               ([gross_edge; gross_cashflow_per_hour; funding_income; long_fee; short_fee;
                 entry_fee_total; exit_fee; long_slippage; short_slippage; entry_slippage_total;
                 exit_slippage; basis_cost; round_trip_cost; net_income; net_edge]
                ++ option_list break_even) else NON_FINITE_NUMERIC_VALUE;
      Done {|
        ec_long_venue := long_venue; ec_short_venue := short_venue;
        ec_receive_leg := short_venue; ec_pay_leg := long_venue;
        ec_funding_timestamps :=
          sorted_items (map (fun kv => (kv.1, cf_source_timestamp kv.2)) normalized);
        ec_orderbook_timestamps :=
          sorted_items (map (fun kv => (kv.1, ob_source_timestamp kv.2)) books);
        ec_raw_funding_rates :=
          sorted_items (map (fun kv => (kv.1, cf_raw_funding_rate kv.2)) normalized);
        ec_canonical_funding_rates :=
          sorted_items (map (fun kv => (kv.1, cf_canonical_funding_rate kv.2)) normalized);
        ec_funding_intervals :=
          sorted_items (map (fun kv => (kv.1, cf_funding_interval_seconds kv.2)) normalized);
        ec_funding_rates_per_hour :=
          sorted_items (map (fun kv => (kv.1, cf_funding_rate_per_hour kv.2)) normalized);
        ec_long_entry_vwap := long_vwap; ec_short_entry_vwap := short_vwap;
        ec_long_available_quantity := long_available;
        ec_short_available_quantity := short_available;
        ec_long_slippage_bps := long_bps; ec_short_slippage_bps := short_bps;
        ec_gross_funding_edge_per_hour := gross_edge;
        ec_gross_funding_cashflow_per_hour := gross_cashflow_per_hour;
        ec_expected_funding_income := funding_income;
        ec_long_entry_fee := long_fee; ec_short_entry_fee := short_fee;
        ec_entry_fee_total := entry_fee_total; ec_estimated_exit_fee := exit_fee;
        ec_long_entry_slippage := long_slippage; ec_short_entry_slippage := short_slippage;
        ec_entry_slippage_total := entry_slippage_total;
        ec_estimated_exit_slippage := exit_slippage;
        ec_basis_cost := basis_cost; ec_round_trip_cost := round_trip_cost;
        ec_expected_net_income := net_income; ec_expected_net_edge := net_edge;
        ec_break_even_holding_hours := break_even;
        ec_economics_currency := fcc_economics_currency config;
        ec_notional := notional;
        ec_evaluation_horizon_seconds := fcc_evaluation_horizon_seconds config;
        ec_funding_income_horizon := "configured_evaluation_horizon" |}
  | _, _ => Raised (Reject UNKNOWN_FEE)
  end.

(** ** Candidates *)

Definition candidate_from_economics (config : FundingCarryShadowConfig)
    (candidate_id run_id : string) (source_ids : list string) (now : Z)
    (code_commit_sha config_sha : string) (economics : FundingCarryEconomics)
    (disposition : ShadowDisposition) (rejection_reason : option FundingCarryRejectCode)
  : FundingCarryShadowCandidate := {|
    ca_candidate_id := candidate_id; ca_run_id := run_id;
    ca_strategy_id := FUNDING_CARRY_STRATEGY_ID; ca_instrument := fcc_instrument config;
    ca_long_venue := Some (ec_long_venue economics);
    ca_short_venue := Some (ec_short_venue economics);
    ca_receive_leg := Some (ec_receive_leg economics); ca_pay_leg := Some (ec_pay_leg economics);
    ca_source_event_ids := sorted_by string_leb source_ids;
    ca_funding_timestamps := ec_funding_timestamps economics;
    ca_orderbook_timestamps := ec_orderbook_timestamps economics;
    ca_raw_funding_rates := ec_raw_funding_rates economics;
    ca_canonical_funding_rates := ec_canonical_funding_rates economics;
    ca_funding_intervals := ec_funding_intervals economics;
    ca_funding_rates_per_hour := ec_funding_rates_per_hour economics;
    ca_long_entry_vwap := Some (ec_long_entry_vwap economics);
    ca_short_entry_vwap := Some (ec_short_entry_vwap economics);
    ca_long_available_quantity := Some (ec_long_available_quantity economics);
    ca_short_available_quantity := Some (ec_short_available_quantity economics);
    ca_long_slippage_bps := Some (ec_long_slippage_bps economics);
    ca_short_slippage_bps := Some (ec_short_slippage_bps economics);
    ca_gross_funding_edge := Some (ec_gross_funding_edge_per_hour economics);
    ca_expected_funding_income := Some (ec_expected_funding_income economics);
    ca_long_entry_fee := Some (ec_long_entry_fee economics);
    ca_short_entry_fee := Some (ec_short_entry_fee economics);
    ca_estimated_exit_fee := Some (ec_estimated_exit_fee economics);
    ca_long_entry_slippage := Some (ec_long_entry_slippage economics);
    ca_short_entry_slippage := Some (ec_short_entry_slippage economics);
    ca_estimated_exit_slippage := Some (ec_estimated_exit_slippage economics);
    ca_entry_basis_cost := Some (ec_basis_cost economics);
    ca_expected_net_edge := Some (ec_expected_net_edge economics); ca_disposition := disposition;
    ca_rejection_reason := rejection_reason; ca_created_at := now;
    ca_code_commit_sha := code_commit_sha; ca_config_sha := config_sha; ca_missing_venue := None;
    ca_missing_capability := None; ca_last_seen_event_at := None; ca_last_valid_event_at := None;
    ca_source_event_count := 0; ca_venue_timestamp_skew_seconds := None;
    ca_hyperliquid_funding_age_seconds := None; ca_bitget_funding_age_seconds := None;
    ca_funding_observation_skew_seconds := None; ca_hyperliquid_orderbook_age_seconds := None;
    ca_bitget_orderbook_age_seconds := None; ca_orderbook_venue_skew_seconds := None;
    ca_funding_freshness_pass := None; ca_orderbook_freshness_pass := None;
    ca_orderbook_synchronization_pass := None; ca_evaluation_stage := THRESHOLD_EVALUATED;
    ca_economics_calculated := true; ca_economics_currency := ec_economics_currency economics;
    ca_economics_notional := Some (ec_notional economics);
    ca_evaluation_horizon_seconds := Some (ec_evaluation_horizon_seconds economics);
    ca_funding_income_horizon := Some (ec_funding_income_horizon economics);
    ca_gross_funding_edge_per_hour := Some (ec_gross_funding_edge_per_hour economics);
    ca_gross_funding_cashflow_per_hour := Some (ec_gross_funding_cashflow_per_hour economics);
    ca_entry_fee_total := Some (ec_entry_fee_total economics);
    ca_entry_slippage_total := Some (ec_entry_slippage_total economics);
    ca_round_trip_cost := Some (ec_round_trip_cost economics);
    ca_expected_net_income := Some (ec_expected_net_income economics);
    ca_break_even_holding_hours := ec_break_even_holding_hours economics |}.

Definition pre_economics_rejection (config : FundingCarryShadowConfig)
    (candidate_id run_id : string) (source_ids : list string) (now : Z)
    (code_commit_sha config_sha : string) (stage : FundingCarryEvaluationStage)
    (rejection_reason : FundingCarryRejectCode)
  : FundingCarryShadowCandidate := {|
    ca_candidate_id := candidate_id; ca_run_id := run_id;
    ca_strategy_id := FUNDING_CARRY_STRATEGY_ID; ca_instrument := fcc_instrument config;
    ca_long_venue := None; ca_short_venue := None; ca_receive_leg := None; ca_pay_leg := None;
    ca_source_event_ids := sorted_by string_leb source_ids; ca_funding_timestamps := [];
    ca_orderbook_timestamps := []; ca_raw_funding_rates := []; ca_canonical_funding_rates := [];
    ca_funding_intervals := []; ca_funding_rates_per_hour := []; ca_long_entry_vwap := None;
    ca_short_entry_vwap := None; ca_long_available_quantity := None;
    ca_short_available_quantity := None; ca_long_slippage_bps := None;
    ca_short_slippage_bps := None; ca_gross_funding_edge := None;
    ca_expected_funding_income := None; ca_long_entry_fee := None; ca_short_entry_fee := None;
    ca_estimated_exit_fee := None; ca_long_entry_slippage := None;
    ca_short_entry_slippage := None; ca_estimated_exit_slippage := None;
    ca_entry_basis_cost := None; ca_expected_net_edge := None; ca_disposition := REJECTED;
    ca_rejection_reason := Some rejection_reason; ca_created_at := now;
    ca_code_commit_sha := code_commit_sha; ca_config_sha := config_sha; ca_missing_venue := None;
    ca_missing_capability := None; ca_last_seen_event_at := None; ca_last_valid_event_at := None;
    ca_source_event_count := 0; ca_venue_timestamp_skew_seconds := None;
    ca_hyperliquid_funding_age_seconds := None; ca_bitget_funding_age_seconds := None;
    ca_funding_observation_skew_seconds := None; ca_hyperliquid_orderbook_age_seconds := None;
    ca_bitget_orderbook_age_seconds := None; ca_orderbook_venue_skew_seconds := None;
    ca_funding_freshness_pass := None; ca_orderbook_freshness_pass := None;
    ca_orderbook_synchronization_pass := None; ca_evaluation_stage := stage;
    ca_economics_calculated := false; ca_economics_currency := fcc_economics_currency config;
    ca_economics_notional := Some (fcc_shadow_notional config);
    ca_evaluation_horizon_seconds := Some (fcc_evaluation_horizon_seconds config);
    ca_funding_income_horizon := Some "configured_evaluation_horizon";
    ca_gross_funding_edge_per_hour := None; ca_gross_funding_cashflow_per_hour := None;
    ca_entry_fee_total := None; ca_entry_slippage_total := None; ca_round_trip_cost := None;
    ca_expected_net_income := None; ca_break_even_holding_hours := None |}.

(** What the body of the [try] up to the threshold computes, with the stage an
    exception is raised in. *)
Definition evaluate_economics (config : FundingCarryShadowConfig)
    (funding : list FundingObservation) (orderbooks : list OrderBookObservation) (now : Z)
  : FundingCarryEvaluationStage * step FundingCarryEconomics :=
  match validate_inputs config funding orderbooks now with
  | Raised f => (INPUT_VALIDATION, Raised f)
  | Done _ =>
      let books := by_venue ob_venue orderbooks in
      match
        try! normalized := normalize_all [] funding in
        try! (long_venue, short_venue) := select_venues normalized in
        try! long_rate := subscript normalized long_venue in
        try! short_rate := subscript normalized short_venue in
        try! long_book := subscript books long_venue in
        try! short_book := subscript books short_venue in
        Done (normalized, long_venue, short_venue, long_rate, short_rate, long_book, short_book)
      with
      | Raised f => (FUNDING_NORMALIZATION, Raised f)
      | Done (normalized, long_venue, short_venue, long_rate, short_rate, long_book, short_book) =>
          (BOOK_PRICING,
           economics config normalized books long_venue short_venue long_rate short_rate
             long_book short_book)
      end
  end.

Context {D : Digest}.

Definition source_ids (funding : list FundingObservation) (orderbooks : list OrderBookObservation)
  : list string := flat_map obs_sources (all_inputs funding orderbooks).

Definition evaluate (config : FundingCarryShadowConfig) (run_id : string)
    (funding : list FundingObservation) (orderbooks : list OrderBookObservation) (now : Z)
    (code_commit_sha config_sha : string) : result FundingCarryShadowCandidate :=
  let ids := source_ids funding orderbooks in
  let candidate_id := identity FUNDING_CARRY_STRATEGY_ID (fcc_instrument config) ids in
  let rejected stage reason :=
    Ok (pre_economics_rejection config candidate_id run_id ids now code_commit_sha config_sha
          stage reason) in
  match evaluate_economics config funding orderbooks now with
  | (_, Done economics) =>
      let '(disposition, reason) :=
        if ec_expected_net_edge economics <? fcc_minimum_net_edge config
        then (REJECTED, Some EDGE_BELOW_THRESHOLD) else (CANDIDATE, None) in
      Ok (candidate_from_economics config candidate_id run_id ids now code_commit_sha config_sha
            economics disposition reason)
  | (stage, Raised (Reject code)) => rejected stage code
  | (stage, Raised Arithmetic) => rejected stage EDGE_CALCULATION_FAILURE
  | (_, Raised Lookup) => Err KeyError
  end.

End Strategy.

(** ** Book pricing: lemmas *)

Ltac step_inv H :=
  repeat match type of H with
  | step_bind ?m _ = Done _ =>
      let E := fresh "E" in destruct m eqn:E; cbn [step_bind] in H; [|discriminate H]
  | (if ?b then _ else Raised _) = Done _ =>
      let E := fresh "E" in destruct b eqn:E; [|discriminate H]
  end.

Definition positive_level (l : Decimal * Decimal) : Prop := (0 < l.1 /\ 0 < l.2)%Q.

Lemma usable_levels_positive levels : Forall positive_level (usable_levels levels).
Proof.
  unfold usable_levels. apply Forall_forall. intros l Hl. apply list_elem_of_In, filter_In in Hl.
  destruct Hl as [_ Hl]. apply andb_prop in Hl as [H1 H2]. by split; apply dltb_lt.
Qed.

Section Pricing.
Context {C : DecimalContext} {L : DecimalLaws C}.
Local Open Scope Q_scope.

Lemma take_pos size remaining price :
  0 < size -> 0 < remaining -> 0 < price -> 0 < dmin size (ddiv remaining price) <= size.
Proof using L.
  intros Hs Hr Hp. pose proof (ddiv_pos _ _ Hr Hp).
  destruct (dmin_spec size (ddiv remaining price)) as [[H1 ->]|[H1 ->]]; lra.
Qed.

Lemma fold_dadd_mono xs a b : a <= b -> fold_left dadd xs a <= fold_left dadd xs b.
Proof using L.
  revert a b. induction xs as [|x xs IH]; simpl; intros a b Hab; [done|].
  apply IH. apply dec_fix_mono. lra.
Qed.

Lemma fold_dadd_ge xs a :
  Forall (fun x => 0 < x) xs -> dec_fix a == a -> a <= fold_left dadd xs a.
Proof using L.
  intros Hx. revert a. induction Hx as [|x xs Hx Hxs IH]; simpl; intros a Ha; [lra|].
  assert (a <= dadd a x) by (apply dec_fix_ge_repr; [done|lra]).
  pose proof (IH (dadd a x) (dec_fix_idem _)). lra.
Qed.

(** What is taken is positive and at most what the levels hold. *)
Lemma take_levels_bounds usable remaining cost filled r c f :
  Forall positive_level usable -> usable <> [] -> 0 < remaining -> 0 <= cost -> 0 <= filled ->
  take_levels usable remaining cost filled = (r, c, f) ->
  0 < c /\ 0 < f /\ f <= fold_left dadd (map snd usable) filled.
Proof using L.
  intros Hu. revert remaining cost filled.
  induction Hu as [|[price size] usable [Hp Hs] Hu IH]; simpl in *; [done|].
  intros remaining cost filled _ Hr Hc Hf Ht.
  destruct (take_pos size remaining price Hs Hr Hp) as [Htk1 Htk2].
  set (take := dmin size _) in *.
  assert (0 < dadd cost (dmul take price)) as Hc'.
  { apply dec_fix_pos. pose proof (dmul_pos take price Htk1 Hp). lra. }
  assert (0 < dadd filled take) as Hf' by (apply dec_fix_pos; lra).
  assert (dadd filled take <= dadd filled size) as Hle by (apply dec_fix_mono; lra).
  assert (Forall (fun x => 0 < x) (map snd usable)) as Hsz.
  { apply Forall_fmap. eapply Forall_impl; [exact Hu|]. by intros l []. }
  pose proof (fold_dadd_ge _ (dadd filled size) Hsz (dec_fix_idem _)) as Hge.
  destruct (dleb (dsub remaining (dmul take price)) EPSILON) eqn:Eb.
  { injection Ht as <- <- <-. split_and!; [done|done|lra]. }
  apply dleb_gt in Eb. destruct usable as [|l usable].
  { simpl in *. injection Ht as <- <- <-. split_and!; [done|done|lra]. }
  destruct (IH (dsub remaining (dmul take price)) (dadd cost (dmul take price)) (dadd filled take))
    as (H1 & H2 & H3); [done| |lra|lra|exact Ht|].
  { unfold EPSILON in Eb. lra. }
  split_and!; [done|done|]. pose proof (fold_dadd_mono (map snd (l :: usable)) _ _ Hle). lra.
Qed.

Lemma divide_pos a b : 0 < a -> 0 < b -> exists q, divide a b = Done q /\ 0 < q.
Proof using L.
  intros Ha Hb. unfold divide. destruct (deqb b 0) eqn:E; [apply deqb_eq in E; lra|].
  eexists; split; [done|]. by apply ddiv_pos.
Qed.

(** The price and the quantities of a successful pricing; a failed one is a
    rejection with a code. *)
Lemma vwap_cases levels notional buying :
  0 < notional ->
  (exists v f a bps, vwap levels notional buying = Done (v, f, a, bps) /\
     0 < v /\ 0 < f /\ f <= a) \/
  exists code, vwap levels notional buying = Raised (Reject code) /\
    code ∈ [EMPTY_USABLE_DEPTH; NON_FINITE_NUMERIC_VALUE; INSUFFICIENT_ORDERBOOK_DEPTH].
Proof using L.
  intros Hn. destruct levels as [|l0 levels]; [right; by eexists; split; [done|left]|].
  set (ls := l0 :: levels). unfold vwap. subst ls. cbv iota beta.
  destruct (forallb _ _); [|right; eexists; split; [done|]; right; left].
  pose proof (usable_levels_positive (l0 :: levels)) as Hp. cbv zeta.
  destruct (usable_levels (l0 :: levels)) as [|[best size] usable] eqn:Eu;
    [right; by eexists; split; [done|left]|].
  destruct (take_levels ((best, size) :: usable) notional 0 0) as [[r c] f] eqn:Et.
  destruct (take_levels_bounds _ notional 0 0 r c f Hp ltac:(done) Hn ltac:(lra) ltac:(lra) Et)
    as (Hc & Hf & Hle).
  destruct (negb _); [|right; eexists; split; [done|]; right; right; left].
  destruct (divide_pos c f Hc Hf) as (v & Ev & Hv). rewrite Ev. cbn [step_bind].
  assert (0 < best) as Hb by (by apply Forall_cons in Hp as [[] _]).
  left. destruct buying.
  - destruct (divide_pos v best Hv Hb) as (q & Eq & _). rewrite Eq. cbn [step_bind].
    by eexists _, _, _, _.
  - destruct (divide_pos best v Hb Hv) as (q & Eq & _). rewrite Eq. cbn [step_bind].
    by eexists _, _, _, _.
Qed.

End Pricing.

(** ** Validation: lemmas *)

(** Either fine or rejected with a code of its own. *)
Definition rejects {A} (m : step A) : Prop :=
  match m with
  | Done _ => True
  | Raised (Reject c) => c <> EDGE_CALCULATION_FAILURE /\ c <> EDGE_BELOW_THRESHOLD
  | Raised _ => False
  end.

Lemma rejects_bind {A B} (m : step A) (k : A -> step B) :
  rejects m -> (forall a, m = Done a -> rejects (k a)) -> rejects (step_bind m k).
Proof. destruct m as [a|[]]; simpl; auto. Qed.

Lemma rejects_guard {A} (b : bool) c (k : step A) :
  c <> EDGE_CALCULATION_FAILURE -> c <> EDGE_BELOW_THRESHOLD -> rejects k ->
  rejects (guard! b else c; k).
Proof. by destruct b. Qed.

Lemma rejects_subscript {V} (d : list (string * V)) k v :
  dict_get k d = Some v -> rejects (subscript d k).
Proof. unfold subscript. by intros ->. Qed.

Ltac rejects_go := repeat (apply rejects_guard; [done|done|]).

(** A pair that has an element for each of two different keys. *)
Lemma pair_by_key {A} (key : A -> string) (items : list A) (k1 k2 : string) :
  k1 <> k2 -> length items = 2%nat -> k1 ∈ map key items -> k2 ∈ map key items ->
  exists x y, key x = k1 /\ key y = k2 /\ (items = [x; y] \/ items = [y; x]).
Proof.
  intros Hne Hlen H1 H2. destruct items as [|a [|b [|]]]; try done. simpl in H1, H2.
  rewrite !elem_of_cons in H1, H2.
  destruct H1 as [H1|[H1|H1]]; [| |by apply not_elem_of_nil in H1];
    (destruct H2 as [H2|[H2|H2]]; [| |by apply not_elem_of_nil in H2]); try congruence.
  - exists a, b. auto.
  - exists b, a. auto.
Qed.

(** One item of each venue, in either order. *)
Definition one_each {A} (venue : A -> string) (items : list A) (h b : A) : Prop :=
  venue h = "hyperliquid" /\ venue b = "bitget" /\ (items = [h; b] \/ items = [b; h]).

Lemma one_each_get {A} (venue : A -> string) items h b :
  one_each venue items h b ->
  dict_get "hyperliquid" (by_venue venue items) = Some h /\
  dict_get "bitget" (by_venue venue items) = Some b.
Proof.
  intros (Hh & Hb & [->| ->]); unfold by_venue, dict_of; simpl; rewrite Hh, Hb; done.
Qed.

Lemma validate_shape_spec config funding orderbooks :
  validate_shape config funding orderbooks = Done tt ->
  NoDup (map obs_event_id (all_inputs funding orderbooks)) /\
  (exists hf bf, one_each fo_venue funding hf bf) /\
  (exists hb bb, one_each ob_venue orderbooks hb bb).
Proof.
  unfold validate_shape. destruct (fcc_venues config) as [first second]. intros H. step_inv H.
  apply bool_decide_eq_true in E0, E1. injection E0 as -> ->.
  apply andb_prop in E6 as [H1 H2], E7 as [H3 H4].
  apply bool_decide_eq_true in H1, H2, H3, H4. apply Nat.eqb_eq in E8, E9.
  split; [done|]. by split; apply pair_by_key.
Qed.

Lemma validate_shape_rejects config funding orderbooks :
  rejects (validate_shape config funding orderbooks).
Proof. unfold validate_shape. destruct (fcc_venues config) as [first second]. by rejects_go. Qed.

(** The best bid and ask of a book are positive and not crossed. *)
Definition book_ok (book : OrderBookObservation) : Prop :=
  exists bid bs bids ask as_ asks,
    ob_bids book = (Finite bid, bs) :: bids /\ ob_asks book = (Finite ask, as_) :: asks /\
    (0 < bid /\ bid < ask)%Q.

Lemma validate_book_spec book : validate_book book = Done tt -> book_ok book.
Proof.
  unfold validate_book. destruct (ob_bids book) as [|[bid bs] bids] eqn:Eb; [done|].
  destruct (ob_asks book) as [|[ask as_] asks] eqn:Ea; [done|]. intros H. step_inv H.
  apply andb_prop in E as [F1 F2]. destruct bid as [bid|]; [|done]. destruct ask as [ask|]; [|done].
  apply negb_true_iff, orb_false_iff in E0 as [P1 P2]. simpl in *.
  exists bid, bs, bids, ask, as_, asks. rewrite Eb, Ea. split_and!; [done|done| |].
  - by apply dleb_gt.
  - by apply dltb_lt.
Qed.

Lemma validate_books_spec orderbooks :
  validate_books orderbooks = Done tt -> Forall book_ok orderbooks.
Proof.
  induction orderbooks as [|b bs IH]; simpl; [constructor|]. intros H. step_inv H. destruct a.
  constructor; [by apply validate_book_spec|by apply IH].
Qed.

Lemma validate_books_rejects orderbooks : rejects (validate_books orderbooks).
Proof.
  induction orderbooks as [|b bs IH]; simpl; [done|]. apply rejects_bind; [|done].
  unfold validate_book. destruct (ob_bids b) as [|[]]; [done|].
  destruct (ob_asks b) as [|[]]; [done|]. by rejects_go.
Qed.

Lemma validate_content_rejects config funding orderbooks now hf bf hb bb :
  one_each fo_venue funding hf bf -> one_each ob_venue orderbooks hb bb ->
  rejects (validate_content config funding orderbooks now).
Proof.
  intros [H1 H2]%one_each_get [H3 H4]%one_each_get. unfold validate_content. rejects_go.
  apply rejects_bind; [by eapply rejects_subscript|]. intros ? _. rejects_go.
  apply rejects_bind; [by eapply rejects_subscript|]. intros ? _. rejects_go.
  apply rejects_bind; [by eapply rejects_subscript|]. intros ? _. rejects_go.
  apply rejects_bind; [by eapply rejects_subscript|]. intros ? _. rejects_go.
  apply validate_books_rejects.
Qed.

Lemma validate_inputs_rejects config funding orderbooks now :
  rejects (validate_inputs config funding orderbooks now).
Proof.
  apply rejects_bind; [apply validate_shape_rejects|]. intros [] H.
  apply validate_shape_spec in H as (_ & (hf & bf & Hf) & hb & bb & Hb).
  by eapply validate_content_rejects.
Qed.

(** What the accepted inputs satisfy. *)
Record accepted (config : FundingCarryShadowConfig) (now : Z)
    (funding : list FundingObservation) (orderbooks : list OrderBookObservation)
    (hf bf : FundingObservation) (hb bb : OrderBookObservation) : Prop := {
  acc_funding : one_each fo_venue funding hf bf;
  acc_books : one_each ob_venue orderbooks hb bb;
  acc_distinct : NoDup (map obs_event_id (all_inputs funding orderbooks));
  acc_future : Forall (fun o => instant (obs_source_timestamp o)
                 <= now + seconds (fcc_maximum_future_seconds config))
                 (all_inputs funding orderbooks);
  acc_funding_age : Forall (fun f => now - instant (fo_source_timestamp f)
                 <= seconds (fcc_funding_max_age_seconds config)) [hf; bf];
  acc_funding_skew : Z.abs (instant (fo_source_timestamp hf) - instant (fo_source_timestamp bf))
                 <= seconds (fcc_funding_max_observation_skew_seconds config);
  acc_book_age : Forall (fun b => now - instant (ob_source_timestamp b)
                 <= seconds (fcc_maximum_age_seconds config)) [hb; bb];
  acc_book_skew : Z.abs (instant (ob_source_timestamp hb) - instant (ob_source_timestamp bb))
                 <= seconds (fcc_maximum_orderbook_venue_skew_seconds config);
  acc_book_ok : book_ok hb /\ book_ok bb;
}.

Lemma validate_inputs_spec config funding orderbooks now :
  validate_inputs config funding orderbooks now = Done tt ->
  exists hf bf hb bb, accepted config now funding orderbooks hf bf hb bb.
Proof.
  unfold validate_inputs. intros H. step_inv H. destruct a.
  apply validate_shape_spec in E as (Hd & (hf & bf & Hf) & hb & bb & Hb).
  exists hf, bf, hb, bb. unfold validate_content, subscript in H.
  destruct (one_each_get _ _ _ _ Hf) as [G1 G2], (one_each_get _ _ _ _ Hb) as [G3 G4].
  rewrite G1, G2, G3, G4 in H. cbn [step_bind] in H. step_inv H.
  apply Z.leb_le in E0, E1, E2, E3, E4, E5. apply validate_books_spec in H.
  split; try done; [..|by repeat constructor|by repeat constructor|].
  - apply Forall_forall. intros o Ho. apply list_elem_of_In in Ho.
    rewrite forallb_forall in E. apply E, andb_prop in Ho as [_ Ho]. by apply Z.leb_le.
  - by destruct Hb as (_ & _ & [->| ->]); rewrite !Forall_cons in H; destruct H as (? & ? & _).
Qed.

(** ** The evaluation: lemmas *)

Section Evaluation.
Context {C : DecimalContext} {L : DecimalLaws C}.
Local Open Scope Q_scope.

Lemma normalize_funding_rejects o : rejects (normalize_funding o).
Proof using Type.
  unfold normalize_funding. apply rejects_guard; [done|done|].
  destruct (fo_funding_interval_seconds o); [|done]. by rejects_go.
Qed.

Lemma normalize_all_rejects d funding : rejects (normalize_all d funding).
Proof using Type.
  revert d. induction funding as [|o funding IH]; simpl; intros d; [done|].
  apply rejects_bind; [apply normalize_funding_rejects|]. auto.
Qed.

Lemma normalize_pair a b d :
  fo_venue a <> fo_venue b -> normalize_all [] [a; b] = Done d ->
  exists ca cb, normalize_funding a = Done ca /\ normalize_funding b = Done cb /\
    d = [(fo_venue a, ca); (fo_venue b, cb)].
Proof using Type.
  intros Hne H. cbn [normalize_all] in H. step_inv H. injection H as <-.
  eexists _, _. split_and!; [done|done|]. simpl. by case_decide.
Qed.

(** The long venue of two has the lower rate; the first one wins a tie. *)
Lemma select_pair va ca vb cb :
  select_venues [(va, ca); (vb, cb)] =
  Done (if dleb (cf_funding_rate_per_hour ca) (cf_funding_rate_per_hour cb)
        then (va, vb) else (vb, va)).
Proof using Type. unfold select_venues, ordered_venues. simpl. by destruct (dleb _ _). Qed.

Lemma vwap_rejects levels notional buying : 0 < notional -> rejects (vwap levels notional buying).
Proof using L.
  intros Hn. destruct (vwap_cases levels notional buying Hn)
    as [(v & f & a & b & -> & _)|(code & -> & Hc)]; [done|].
  rewrite !elem_of_cons in Hc. destruct Hc as [->|[->|[->|Hc]]]; [done..|].
  by apply not_elem_of_nil in Hc.
Qed.

Lemma vwap_done levels notional buying v f a bps :
  0 < notional -> vwap levels notional buying = Done (v, f, a, bps) -> 0 < v /\ 0 < f /\ f <= a.
Proof using L.
  intros Hn H. destruct (vwap_cases levels notional buying Hn)
    as [(v' & f' & a' & b' & E & Hv)|(code & E & _)]; rewrite H in E; [|done].
  by injection E as <- <- <- <-.
Qed.

Lemma divide_done a b : 0 < b -> divide a b = Done (ddiv a b).
Proof using Type. intros Hb. unfold divide. destruct (deqb b 0) eqn:E; [|done]. apply deqb_eq in E. lra. Qed.

Lemma midpoint_pos a b : 0 < a -> 0 < b -> 0 < ddiv (dadd a b) 2.
Proof using L. intros Ha Hb. apply ddiv_pos; [|lra]. apply dec_fix_pos. lra. Qed.

Lemma economics_rejects config normalized books lv sv lr sr lb sb :
  0 < fcc_shadow_notional config ->
  rejects (economics config normalized books lv sv lr sr lb sb).
Proof using L.
  intros Hn. unfold economics.
  apply rejects_bind; [by apply vwap_rejects|]. intros [[[v1 f1] a1] b1] H1.
  apply rejects_bind; [by apply vwap_rejects|]. intros [[[v2 f2] a2] b2] H2.
  apply vwap_done in H1 as (H1 & _), H2 as (H2 & _); [|done..].
  destruct (fee_rate config lv); [|done]. destruct (fee_rate config sv); [|done].
  rewrite divide_done by (by apply midpoint_pos). cbn [step_bind].
  rewrite divide_done by done. cbn [step_bind]. by rejects_go.
Qed.

Lemma edge_covers income cost notional :
  0 < notional -> 0 <= ddiv (dsub income cost) notional -> cost <= income.
Proof using L.
  intros Hn He. destruct (Qlt_le_dec income cost) as [Hlt|]; [|done]. exfalso.
  assert (dsub income cost < 0) as Hd by (apply dec_fix_neg; lra).
  assert (ddiv (dsub income cost) notional < 0); [|lra].
  apply dec_fix_neg. apply Qlt_shift_div_r; [done|]. lra.
Qed.

(** The economics of two legs: who is long and short, and what a non-negative
    edge means. *)
Lemma economics_spec config normalized books lv sv lr sr lb sb ec :
  0 < fcc_shadow_notional config ->
  economics config normalized books lv sv lr sr lb sb = Done ec ->
  ec_long_venue ec = lv /\ ec_short_venue ec = sv /\
  0 < ec_long_entry_vwap ec /\ 0 < ec_short_entry_vwap ec /\
  (cf_funding_rate_per_hour lr <= cf_funding_rate_per_hour sr ->
     0 <= ec_gross_funding_edge_per_hour ec) /\
  (0 <= ec_expected_net_edge ec -> ec_round_trip_cost ec <= ec_expected_funding_income ec).
Proof using L.
  intros Hn H. unfold economics in H. step_inv H. destruct a as [[[v1 f1] a1] b1].
  cbn [step_bind] in H. step_inv H. destruct a as [[[v2 f2] a2] b2].
  apply vwap_done in E as (P1 & _), E0 as (P2 & _); [|done..].
  destruct (fee_rate config lv) as [r1|]; [|done]. destruct (fee_rate config sv) as [r2|]; [|done].
  rewrite divide_done in H by (by apply midpoint_pos). cbn [step_bind] in H.
  rewrite divide_done in H by done. cbn [step_bind] in H. step_inv H. injection H as <-.
  cbn [ec_long_venue ec_short_venue ec_long_entry_vwap ec_short_entry_vwap
       ec_gross_funding_edge_per_hour ec_expected_net_edge ec_round_trip_cost
       ec_expected_funding_income].
  split_and!; try done.
  - intros Hr. apply dec_fix_nonneg. lra.
  - by apply edge_covers.
Qed.

(** The trichotomy of an evaluation: rejected while the inputs are read, or
    rejected while the books are priced, or priced. *)
Lemma evaluate_economics_rejects config funding orderbooks now :
  0 < fcc_shadow_notional config -> rejects (evaluate_economics config funding orderbooks now).2.
Proof using L.
  intros Hn. unfold evaluate_economics.
  pose proof (validate_inputs_rejects config funding orderbooks now) as Hv.
  destruct (validate_inputs _ _ _ _) as [[]|f] eqn:Ev; [|exact Hv]. clear Hv.
  apply validate_inputs_spec in Ev as (hf & bf & hb & bb & Ha).
  destruct (one_each_get _ _ _ _ (acc_books _ _ _ _ _ _ _ _ Ha)) as [Gh Gb].
  pose proof (normalize_all_rejects [] funding) as Hr.
  destruct (normalize_all [] funding) as [d|f] eqn:En; [|exact Hr]. clear Hr. cbn [step_bind].
  destruct (acc_funding _ _ _ _ _ _ _ _ Ha) as (V1 & V2 & [-> | ->]).
  all: apply normalize_pair in En as (c1 & c2 & _ & _ & ->); [|congruence].
  all: rewrite V1, V2, select_pair; cbn [step_bind].
  all: destruct (dleb _ _); unfold subscript; rewrite Gh, Gb; simpl.
  all: by apply economics_rejects.
Qed.

(** Where the economics come from: the accepted inputs, their rates, and the
    choice of the legs. *)
Lemma evaluate_economics_done config funding orderbooks now st ec :
  evaluate_economics config funding orderbooks now = (st, Done ec) ->
  exists hf bf hb bb ch cb nd lv sv lr sr lb sb,
    accepted config now funding orderbooks hf bf hb bb /\
    normalize_funding hf = Done ch /\ normalize_funding bf = Done cb /\
    nd ≡ₚ [("hyperliquid", ch); ("bitget", cb)] /\
    ((lv, sv, lr, sr, lb, sb) = ("hyperliquid", "bitget", ch, cb, hb, bb) \/
     (lv, sv, lr, sr, lb, sb) = ("bitget", "hyperliquid", cb, ch, bb, hb)) /\
    cf_funding_rate_per_hour lr <= cf_funding_rate_per_hour sr /\
    economics config nd (by_venue ob_venue orderbooks) lv sv lr sr lb sb = Done ec.
Proof using Type.
  unfold evaluate_economics. intros H.
  destruct (validate_inputs _ _ _ _) as [[]|f] eqn:Ev; [|done].
  apply validate_inputs_spec in Ev as (hf & bf & hb & bb & Ha).
  destruct (one_each_get _ _ _ _ (acc_books _ _ _ _ _ _ _ _ Ha)) as [Gh Gb].
  destruct (normalize_all [] funding) as [d|f] eqn:En; [|done]. cbn [step_bind] in H.
  destruct (acc_funding _ _ _ _ _ _ _ _ Ha) as (V1 & V2 & [-> | ->]).
  all: apply normalize_pair in En as (c1 & c2 & N1 & N2 & ->); [|congruence].
  all: rewrite V1, V2, select_pair in H; cbn [step_bind] in H.
  all: destruct (dleb _ _) eqn:El; unfold subscript in H; rewrite Gh, Gb in H; simpl in H;
    injection H as <- H.
  all: first [apply dleb_le in El | apply dleb_gt, Qlt_le_weak in El].
  - eexists hf, bf, hb, bb, c1, c2, _, _, _, _, _, _, _.
    split_and!; [done|done|done| |by left|exact El|exact H]. done.
  - eexists hf, bf, hb, bb, c1, c2, _, _, _, _, _, _, _.
    split_and!; [done|done|done| |by right|exact El|exact H]. done.
  - eexists hf, bf, hb, bb, c2, c1, _, _, _, _, _, _, _.
    split_and!; [done|done|done| |by right|exact El|exact H]. constructor.
  - eexists hf, bf, hb, bb, c2, c1, _, _, _, _, _, _, _.
    split_and!; [done|done|done| |by left|exact El|exact H]. constructor.
Qed.

Lemma evaluate_economics_stage config funding orderbooks now :
  (evaluate_economics config funding orderbooks now).1
    ∈ [INPUT_VALIDATION; FUNDING_NORMALIZATION; BOOK_PRICING].
Proof using Type.
  unfold evaluate_economics. destruct (validate_inputs _ _ _ _); [|left].
  destruct (step_bind _ _) as [[[[[[[]]]]]]|]; [right; right; left|right; left].
Qed.

End Evaluation.

(** ** Theorems *)

(** The shape of a candidate follows from the reason it was rejected for. *)
Definition well_formed (config : FundingCarryShadowConfig) (c : FundingCarryShadowCandidate) : Prop :=
  match ca_rejection_reason c with
  | None =>
      ca_disposition c = CANDIDATE /\ ca_evaluation_stage c = THRESHOLD_EVALUATED /\
      ca_economics_calculated c = true /\
      exists e, ca_expected_net_edge c = Some e /\ (fcc_minimum_net_edge config <= e)%Q
  | Some EDGE_BELOW_THRESHOLD =>
      ca_disposition c = REJECTED /\ ca_evaluation_stage c = THRESHOLD_EVALUATED /\
      ca_economics_calculated c = true /\
      exists e, ca_expected_net_edge c = Some e /\ (e < fcc_minimum_net_edge config)%Q
  | Some _ =>
      ca_disposition c = REJECTED /\ ca_economics_calculated c = false /\
      ca_expected_net_edge c = None /\
      ca_evaluation_stage c ∈ [INPUT_VALIDATION; FUNDING_NORMALIZATION; BOOK_PRICING]
  end.



(** ** The order of the inputs *)

Lemma string_leb_total a b : string_leb a b = true \/ string_leb b a = true.
Proof. apply String.leb_total. Qed.

Lemma string_leb_trans a b c :
  string_leb a b = true -> string_leb b c = true -> string_leb a c = true.
Proof.
  unfold string_leb. intros H1 H2. apply Is_true_true in H1, H2. apply Is_true_true.
  change (String.le a c). change (String.le a b) in H1. change (String.le b c) in H2.
  by etrans.
Qed.

Lemma sorted_strings_perm xs ys :
  xs ≡ₚ ys -> sorted_by string_leb xs = sorted_by string_leb ys.
Proof.
  apply sorted_by_unique; [apply string_leb_total|apply string_leb_trans|].
  intros x y _ _. apply String.leb_antisym.
Qed.

Lemma sorted_items_perm {V} (xs ys : list (string * V)) :
  NoDup (map fst xs) -> xs ≡ₚ ys -> sorted_items xs = sorted_items ys.
Proof.
  intros Hnd. apply sorted_by_unique.
  - intros a b. apply string_leb_total.
  - intros a b c. apply string_leb_trans.
  - intros [k v] [k' v'] Hx Hy H1 H2. simpl in *.
    assert (k = k') as <- by (by apply String.leb_antisym). f_equal.
    apply dict_In_get in Hx, Hy; [congruence|done|done].
Qed.

Lemma all_inputs_perm f f' b b' : f ≡ₚ f' -> b ≡ₚ b' -> all_inputs f b ≡ₚ all_inputs f' b'.
Proof. intros Hf Hb. unfold all_inputs. by rewrite Hf, Hb. Qed.

Lemma source_ids_perm f f' b b' :
  f ≡ₚ f' -> b ≡ₚ b' -> source_ids f b ≡ₚ source_ids f' b'.
Proof.
  intros Hf Hb. unfold source_ids. apply Permutation_flat_map. by apply all_inputs_perm.
Qed.

Lemma validate_shape_perm config f f' b b' :
  f ≡ₚ f' -> b ≡ₚ b' -> validate_shape config f b = validate_shape config f' b'.
Proof.
  intros Hf Hb. pose proof (all_inputs_perm f f' b b' Hf Hb) as Hi. unfold validate_shape.
  destruct (fcc_venues config) as [first second].
  rewrite !(forallb_Permutation _ _ _ Hi).
  rewrite (bool_decide_ext (NoDup (map obs_event_id (all_inputs f b)))
    (NoDup (map obs_event_id (all_inputs f' b')))) by (by rewrite Hi).
  rewrite (bool_decide_ext (f <> []) (f' <> [])) by (by rewrite <- !Permutation_nil_r, Hf).
  rewrite (bool_decide_ext (b <> []) (b' <> [])) by (by rewrite <- !Permutation_nil_r, Hb).
  rewrite !(bool_decide_ext (_ ∈ map fo_venue f) (_ ∈ map fo_venue f')) by (by rewrite Hf).
  rewrite !(bool_decide_ext (_ ∈ map ob_venue b) (_ ∈ map ob_venue b')) by (by rewrite Hb).
  by rewrite (Permutation_length Hf), (Permutation_length Hb).
Qed.

Lemma one_each_perm {A} (venue : A -> string) items items' h b :
  one_each venue items h b -> items ≡ₚ items' -> one_each venue items' h b.
Proof.
  intros (H1 & H2 & H3) Hp. split; [done|]. split; [done|].
  destruct H3 as [-> | ->]; apply Permutation_length_2_inv in Hp; tauto.
Qed.

Lemma validate_books_perm b b' : b ≡ₚ b' -> validate_books b = Done tt -> validate_books b' = Done tt.
Proof.
  assert (forall bs, validate_books bs = Done tt <-> Forall (fun x => validate_book x = Done tt) bs)
    as Hiff.
  { induction bs as [|x bs IH]; simpl; [by split|]. rewrite Forall_cons, <- IH.
    destruct (validate_book x) as [[]|]; simpl; naive_solver. }
  intros Hp. rewrite !Hiff. by rewrite Hp.
Qed.

Lemma validate_inputs_perm config f f' b b' now :
  f ≡ₚ f' -> b ≡ₚ b' ->
  validate_inputs config f b now = Done tt -> validate_inputs config f' b' now = Done tt.
Proof.
  intros Hf Hb. unfold validate_inputs. rewrite (validate_shape_perm config f f' b b') by done.
  intros H. step_inv H. destruct a. cbn [step_bind].
  rewrite <- (validate_shape_perm config f f' b b') in E by done.
  apply validate_shape_spec in E as (_ & (hf & bf & H1) & hb & bb & H2).
  pose proof (one_each_get _ _ _ _ H1) as [G1 G2]. pose proof (one_each_get _ _ _ _ H2) as [G3 G4].
  apply one_each_perm with (items' := f') in H1; [|done].
  apply one_each_perm with (items' := b') in H2; [|done].
  pose proof (one_each_get _ _ _ _ H1) as [G1' G2'].
  pose proof (one_each_get _ _ _ _ H2) as [G3' G4'].
  unfold validate_content, subscript in *. rewrite G1, G2, G3, G4 in H.
  rewrite G1', G2', G3', G4'. cbn [step_bind] in *.
  rewrite (forallb_Permutation _ _ _ (all_inputs_perm _ _ _ _ Hf Hb)) in H.
  step_inv H. by eapply validate_books_perm.
Qed.

Lemma one_each_items {A} (venue : A -> string) items h b :
  one_each venue items h b -> by_venue venue items ≡ₚ [("hyperliquid", h); ("bitget", b)].
Proof.
  intros (Hh & Hb & [->| ->]); unfold by_venue, dict_of; simpl; rewrite Hh, Hb; [done|constructor].
Qed.

Lemma sorted_values_perm {V W} (g : V -> W) (xs : list (string * V)) v w :
  xs ≡ₚ [("hyperliquid", v); ("bitget", w)] ->
  sorted_items (map (fun kv => (kv.1, g kv.2)) xs) =
  sorted_items [("hyperliquid", g v); ("bitget", g w)].
Proof.
  intros Hp. symmetry. apply sorted_items_perm; [|by rewrite Hp].
  simpl. apply NoDup_cons. split; [|apply NoDup_singleton]. by rewrite list_elem_of_singleton.
Qed.

(** The economics read the two dictionaries in the order of their keys. *)
Lemma economics_perm {C : DecimalContext} config nd nd' books books' ch cb hb bb
    lv sv lr sr lb sb :
  nd ≡ₚ [("hyperliquid", ch); ("bitget", cb)] -> nd' ≡ₚ [("hyperliquid", ch); ("bitget", cb)] ->
  books ≡ₚ [("hyperliquid", hb); ("bitget", bb)] ->
  books' ≡ₚ [("hyperliquid", hb); ("bitget", bb)] ->
  economics config nd books lv sv lr sr lb sb = economics config nd' books' lv sv lr sr lb sb.
Proof.
  intros H1 H2 H3 H4. unfold economics.
  rewrite !(sorted_values_perm _ _ _ _ H1), !(sorted_values_perm _ _ _ _ H2),
    !(sorted_values_perm _ _ _ _ H3), !(sorted_values_perm _ _ _ _ H4). done.
Qed.

Section Order.
Context {C : DecimalContext}.

Lemma economics_rates config nd books lv sv lr sr lb sb ec :
  economics config nd books lv sv lr sr lb sb = Done ec ->
  ec_funding_rates_per_hour ec =
  sorted_items (map (fun kv => (kv.1, cf_funding_rate_per_hour kv.2)) nd).
Proof using Type.
  intros H. unfold economics in H. step_inv H. destruct a as [[[v1 f1] a1] b1].
  cbn [step_bind] in H. step_inv H. destruct a as [[[v2 f2] a2] b2].
  destruct (fee_rate config lv) as [r1|]; [|done]. destruct (fee_rate config sv) as [r2|]; [|done].
  cbv zeta in H. step_inv H. injection H as <-. reflexivity.
Qed.

Lemma normalize_one_each funding hf bf ch cb :
  one_each fo_venue funding hf bf ->
  normalize_funding hf = Done ch -> normalize_funding bf = Done cb ->
  exists nd, normalize_all [] funding = Done nd /\
    (nd = [("hyperliquid", ch); ("bitget", cb)] \/ nd = [("bitget", cb); ("hyperliquid", ch)]).
Proof using Type.
  intros (V1 & V2 & [->| ->]) N1 N2; simpl; rewrite N1, N2; simpl; rewrite V1, V2; eauto.
Qed.

(** The legs do not depend on the order when the rates differ. *)
Lemma select_strict ch cb nd lv sv lr sr :
  (lv, sv, lr, sr) = ("hyperliquid", "bitget", ch, cb) \/
  (lv, sv, lr, sr) = ("bitget", "hyperliquid", cb, ch) ->
  (cf_funding_rate_per_hour lr < cf_funding_rate_per_hour sr)%Q ->
  nd = [("hyperliquid", ch); ("bitget", cb)] \/ nd = [("bitget", cb); ("hyperliquid", ch)] ->
  select_venues nd = Done (lv, sv) /\ subscript nd lv = Done lr /\ subscript nd sv = Done sr.
Proof using Type.
  intros Hl Hlt Hn. destruct Hl as [Hl|Hl]; injection Hl as -> -> -> ->;
    destruct Hn as [->| ->]; rewrite select_pair; destruct (dleb _ _) eqn:E; try done;
    first [apply dleb_le in E|apply dleb_gt in E]; lra.
Qed.

Lemma evaluate_economics_perm config f f' b b' now st ec :
  f ≡ₚ f' -> b ≡ₚ b' ->
  evaluate_economics config f b now = (st, Done ec) ->
  (forall v r v' r', (v, r) ∈ ec_funding_rates_per_hour ec ->
     (v', r') ∈ ec_funding_rates_per_hour ec -> v <> v' -> ~ (r == r')%Q) ->
  evaluate_economics config f' b' now = (BOOK_PRICING, Done ec).
Proof using Type.
  intros Hf Hb He Hne. pose proof He as He'. unfold evaluate_economics in He.
  destruct (validate_inputs config f b now) as [[]|] eqn:Ev; [|done]. clear He.
  apply evaluate_economics_done in He'
    as (hf & bf & hb & bb & ch & cb & nd & lv & sv & lr & sr & lb & sb & Ha & N1 & N2 & Hnd & Hl & Hr & Hec).
  pose proof (acc_funding _ _ _ _ _ _ _ _ Ha) as Of. pose proof (acc_books _ _ _ _ _ _ _ _ Ha) as Ob.
  assert (cf_funding_rate_per_hour lr < cf_funding_rate_per_hour sr)%Q as Hlt.
  { apply Qle_lteq in Hr as [Hr|Hr]; [done|exfalso].
    assert (ec_funding_rates_per_hour ec =
      sorted_items [("hyperliquid", cf_funding_rate_per_hour ch);
                    ("bitget", cf_funding_rate_per_hour cb)]) as Hrates.
    { by rewrite (economics_rates _ _ _ _ _ _ _ _ _ _ Hec), (sorted_values_perm _ _ _ _ Hnd). }
    apply (Hne "hyperliquid" (cf_funding_rate_per_hour ch) "bitget" (cf_funding_rate_per_hour cb)).
    - rewrite Hrates. apply elem_of_sorted_by. left.
    - rewrite Hrates. apply elem_of_sorted_by. right. left.
    - done.
    - destruct Hl as [Hl|Hl]; injection Hl as -> -> -> -> -> ->; [done|by symmetry]. }
  unfold evaluate_economics. rewrite (validate_inputs_perm config f f' b b' now Hf Hb Ev).
  apply one_each_perm with (items' := f') in Of; [|done].
  apply one_each_perm with (items' := b') in Ob as Ob'; [|done].
  destruct (normalize_one_each _ _ _ _ _ Of N1 N2) as (nd' & -> & Hnd'). cbn [step_bind].
  destruct (select_strict ch cb nd' lv sv lr sr) as (-> & Hlr & Hsr); [naive_solver|done|done|].
  cbn [step_bind]. rewrite Hlr, Hsr. cbn [step_bind].
  destruct (one_each_get _ _ _ _ Ob') as [G1 G2].
  assert (subscript (by_venue ob_venue b') lv = Done lb /\
          subscript (by_venue ob_venue b') sv = Done sb) as [-> ->].
  { unfold subscript. destruct Hl as [Hl|Hl]; injection Hl as -> -> -> -> -> ->;
      by rewrite G1, G2. }
  cbn [step_bind]. f_equal. rewrite <- Hec.
  apply (economics_perm _ _ _ _ _ ch cb hb bb).
  - destruct Hnd' as [->| ->]; [done|constructor].
  - done.
  - by apply one_each_items.
  - by apply one_each_items.
Qed.

End Order.

(** A quiet market: bitget pays one per cent an hour. *)
Definition sample_funding (venue : string) (rate : Decimal) : FundingObservation := {|
  fo_event_id := "f-" +:+ venue; fo_venue := venue; fo_instrument := "BTC";
  fo_raw_funding_rate := Finite rate; fo_funding_unit := "fraction_per_interval";
  fo_funding_interval_seconds := Some 28800; fo_next_funding_at := None;
  fo_source_timestamp := Aware 0; fo_received_at := Aware 0; fo_experimental := true |}.

Definition sample_book (venue : string) : OrderBookObservation := {|
  ob_event_id := "b-" +:+ venue; ob_venue := venue; ob_instrument := "BTC";
  ob_bids := [(Finite 100, Finite 1)]; ob_asks := [(Finite (1001 # 10), Finite 1)];
  ob_source_timestamp := Aware 0; ob_received_at := Aware 0; ob_experimental := true;
  ob_source_event_ids := [] |}.

Definition sample_fundings : list FundingObservation :=
  [sample_funding "hyperliquid" (1 # 10000); sample_funding "bitget" (8 # 100)].
Definition sample_books : list OrderBookObservation := [sample_book "bitget"; sample_book "hyperliquid"].

(** A digest of the length of the text. *)
Definition length_digest : Digest := {|
  sha256_hex := fun x => digits (N.of_nat (String.length x)); hmac_hex := fun _ x => x;
  json_signal := fun _ => "s"; json_leg := fun _ _ _ => "l"; json_cross := fun _ _ _ => "c" |}.

Definition sample_evaluate (f : list FundingObservation) (b : list OrderBookObservation)
  : result FundingCarryShadowCandidate :=
  @evaluate default_context length_digest default_shadow_config "run" f b 1000000 "commit" "sha".

(** The candidate of the sample. *)
Definition sample_candidate : FundingCarryShadowCandidate :=
  Eval vm_compute in
  match sample_evaluate sample_fundings sample_books with
  | Ok c => c
  | Err _ => pre_economics_rejection default_shadow_config "c" "run" [] 0 "commit" "sha"
               INPUT_VALIDATION STALE_DATA
  end.

Lemma sample_evaluates : sample_evaluate sample_fundings sample_books = Ok sample_candidate.
Proof. vm_compute. reflexivity. Qed.



(** The candidate is a function of what was observed, not of the order it
    came in.  When the inputs were priced and the two hourly rates differ,
    evaluating the same observations in any other order returns the very same
    candidate, its identity included. *)
Theorem candidate_order_independent {C : DecimalContext} {D : Digest}
    (config : FundingCarryShadowConfig) (run_id : string) (f f' : list FundingObservation)
    (b b' : list OrderBookObservation) (now : Z) (commit sha : string)
    (c : FundingCarryShadowCandidate) :
  f ≡ₚ f' -> b ≡ₚ b' ->
  evaluate config run_id f b now commit sha = Ok c -> ca_economics_calculated c = true ->
  (forall v r v' r', (v, r) ∈ ca_funding_rates_per_hour c ->
     (v', r') ∈ ca_funding_rates_per_hour c -> v <> v' -> ~ (r == r')%Q) ->
  evaluate config run_id f' b' now commit sha = Ok c.
Proof.
  intros Hf Hb He Hcalc Hne. unfold evaluate in *.
  pose proof (source_ids_perm _ _ _ _ Hf Hb) as Hids.
  assert (identity FUNDING_CARRY_STRATEGY_ID (fcc_instrument config) (source_ids f' b') =
          identity FUNDING_CARRY_STRATEGY_ID (fcc_instrument config) (source_ids f b)) as ->.
  { unfold identity, identity_payload. by rewrite (sorted_strings_perm _ _ Hids). }
  destruct (evaluate_economics config f b now) as [st [ec|[code| |]]] eqn:Ee.
  2-4: try discriminate He; injection He as <-; discriminate Hcalc.
  rewrite (evaluate_economics_perm config f f' b b' now st ec Hf Hb Ee).
  - rewrite <- He. unfold candidate_from_economics. rewrite (sorted_strings_perm _ _ Hids). done.
  - destruct (dltb _ _); injection He as <-; exact Hne.
Qed.

Lemma candidate_order_independent_witness :
  sample_evaluate (rev sample_fundings) (rev sample_books) = Ok sample_candidate.
Proof.
  apply (@candidate_order_independent default_context length_digest default_shadow_config "run"
    sample_fundings (rev sample_fundings) sample_books (rev sample_books)).
  - constructor.
  - constructor.
  - exact sample_evaluates.
  - reflexivity.
  - intros v r v' r' H1 H2 Hne. unfold sample_candidate in H1, H2. cbn in H1, H2.
    rewrite !elem_of_cons in H1, H2.
    destruct H1 as [H1|[H1|H1]]; [| |by apply not_elem_of_nil in H1];
      (destruct H2 as [H2|[H2|H2]]; [| |by apply not_elem_of_nil in H2]);
      injection H1 as -> ->; injection H2 as -> ->; done.
Defined.

(** Candidates are the same only for the same sources: two evaluations of
    one instrument have the same candidate id exactly when they read the same
    events (with multiplicity, in any order), unless SHA-256 collides. *)
Theorem identity_separates {D : Digest} (s i : string) (xs ys : list string) :
  (xs ≡ₚ ys -> identity s i xs = identity s i ys) /\
  (identity s i xs = identity s i ys -> xs ≡ₚ ys \/ exists x y, x <> y /\ sha256_hex x = sha256_hex y).
Proof.
  split.
  - intros Hp. unfold identity, identity_payload. by rewrite (sorted_strings_perm _ _ Hp).
  - intros H. apply (hash_separates _ compact_style_ok) in H as [H|H]; [left|by right|..].
    + injection H as H. apply strings_inj in H.
      by rewrite <- (sorted_by_Permutation string_leb xs), H, sorted_by_Permutation.
    + split; [apply (bool_decide_unpack _); by vm_compute|].
      repeat constructor. apply strings_wf.
    + split; [apply (bool_decide_unpack _); by vm_compute|].
      repeat constructor. apply strings_wf.
Qed.

Lemma identity_separates_witness :
  @identity length_digest "funding_carry" "BTC" ["a"; "b"; "a"] =
  @identity length_digest "funding_carry" "BTC" ["b"; "a"; "a"].
Proof.
  apply (@identity_separates length_digest). apply Permutation_swap.
Defined.
