(* ===== verification/ShadowBook.v ===== *)
(** * The canonical order book of the shadow runtime
      (services/operations/shadow_runtime.py: CanonicalOrderBookStateBuilder;
       services/research/models.py: RawMarketEvent)

    The builder turns stored market events into order books: a snapshot of
    hyperliquid stands alone, the books of bitget are kept from a snapshot and the
    deltas after it.  A side of a book is a [dict] from price to quantity whose keys
    are decimals, equal when their values are; the text of a key is that of its first
    insertion.  [zlib.crc32] is computed, [hashlib.sha256] is a parameter. *)

From Stdlib Require Import ZArith QArith Qround Qabs NArith Lia Lqa.
From stdpp Require Import base tactics list strings.
From S2P Require Import Prelude Decimals Binary64 Evidence Json PyText FundingCarry.

Local Open Scope string_scope.
Local Open Scope list_scope.

(** ** Stored market events *)

Inductive TimestampSemantic :=
| REALTIME_EVENT | SEMANTIC_HISTORICAL_EFFECTIVE_TIME | CANDLE_OPEN_TIME | CANDLE_CLOSE_TIME
| FUNDING_EFFECTIVE_TIME | RECEIPT_ONLY.

Inductive AvailabilityProvenance :=
| HISTORICAL_EFFECTIVE_TIME | OBSERVED_RETRIEVAL_TIME | EXCHANGE_PUBLISHED_TIME | UNKNOWN.

Record RawMarketEvent := {
  re_event_id : string;
  re_venue : string;
  re_canonical_instrument_id : string;
  re_venue_symbol : string;
  re_event_type : string;
  re_exchange_timestamp : option Z;
  re_received_at : Z;
  re_available_at : Z;
  re_sequence : option Z;
  re_connection_id : option string;
  re_reconciliation_state : option string;
  re_payload_sha256 : string;
  re_raw_payload : string;
  re_normalizer_version : string;
  re_capability_verification_run_id : string;
  re_created_at : Z;
  re_raw_payload_id : option string;
  re_source_payload_sha256 : option string;
  re_channel : string;
  re_snapshot_sequence : option Z;
  re_delta_sequence : option Z;
  re_connection_epoch : option Z;
  re_timestamp_semantic : TimestampSemantic;
  re_availability_provenance : AvailabilityProvenance;
  re_exchange_server_time : option Z;
  re_timeframe : option string;
}.

(** [__post_init__] of an event whose timestamps are aware *)
Definition RawMarketEvent_validate {D : Digest} (e : RawMarketEvent) : result RawMarketEvent :=
  if negb (forallb (fun s => negb (bool_decide (s = EmptyString)))
      [re_event_id e; re_venue e; re_canonical_instrument_id e; re_venue_symbol e;
       re_event_type e; re_normalizer_version e; re_capability_verification_run_id e])
  then Err (ValueError "raw market event identities are required")
  else if negb (bool_decide (sha256_hex (re_raw_payload e) = re_payload_sha256 e))
  then Err (ValueError "raw payload hash mismatch")
  else Ok e.

(** [payload()] *)
Definition payload (e : RawMarketEvent) : result (list (chars * json)) :=
  let! v := loads (text (re_raw_payload e)) in
  match v with
  | JObject fields => Ok fields
  | _ => Err (ValueError "raw payload must be a JSON object")
  end.

(** ** Data of the builder *)

Inductive BookStateStatus := BOOK_UNINITIALIZED | BOOK_VALID | BOOK_INVALID.
#[export] Instance book_status_eq_dec : EqDecision BookStateStatus.
Proof. solve_decision. Defined.

Definition book_status_value (s : BookStateStatus) : string :=
  match s with
  | BOOK_UNINITIALIZED => "uninitialized" | BOOK_VALID => "valid" | BOOK_INVALID => "invalid"
  end.

Definition level : Type := finite_decimal * finite_decimal.

Record CanonicalOrderBookSnapshot := {
  cs_venue : string;
  cs_instrument : string;
  cs_bids : list level;
  cs_asks : list level;
  cs_best_bid : finite_decimal;
  cs_best_ask : finite_decimal;
  cs_depth_level_count : Z;
  cs_source_snapshot_event_id : string;
  cs_applied_delta_event_ids : list string;
  cs_last_sequence : option Z;
  cs_connection_epoch : Z;
  cs_exchange_timestamp : Z;
  cs_received_at : Z;
  cs_available_at : Z;
  cs_state_status : BookStateStatus;
  cs_state_hash : string;
  cs_normalizer_version : string;
}.

Record OrderBookStateMetrics := {
  om_snapshot_count : Z;
  om_delta_count : Z;
  om_valid_snapshot_count : Z;
  om_invalid_count : Z;
  om_sequence_gap_count : Z;
  om_out_of_order_count : Z;
  om_reconnect_reset_count : Z;
  om_checksum_failure_count : Z;
}.

Definition set_om_snapshot_count (v : Z) (r : OrderBookStateMetrics) : OrderBookStateMetrics :=
  {|
     om_snapshot_count := v; om_delta_count := om_delta_count r;
     om_valid_snapshot_count := om_valid_snapshot_count r;
     om_invalid_count := om_invalid_count r; om_sequence_gap_count := om_sequence_gap_count r;
     om_out_of_order_count := om_out_of_order_count r;
     om_reconnect_reset_count := om_reconnect_reset_count r;
     om_checksum_failure_count := om_checksum_failure_count r |}.

Definition set_om_delta_count (v : Z) (r : OrderBookStateMetrics) : OrderBookStateMetrics :=
  {|
     om_snapshot_count := om_snapshot_count r; om_delta_count := v;
     om_valid_snapshot_count := om_valid_snapshot_count r;
     om_invalid_count := om_invalid_count r; om_sequence_gap_count := om_sequence_gap_count r;
     om_out_of_order_count := om_out_of_order_count r;
     om_reconnect_reset_count := om_reconnect_reset_count r;
     om_checksum_failure_count := om_checksum_failure_count r |}.

Definition set_om_valid_snapshot_count (v : Z) (r : OrderBookStateMetrics) : OrderBookStateMetrics :=
  {|
     om_snapshot_count := om_snapshot_count r; om_delta_count := om_delta_count r;
     om_valid_snapshot_count := v; om_invalid_count := om_invalid_count r;
     om_sequence_gap_count := om_sequence_gap_count r;
     om_out_of_order_count := om_out_of_order_count r;
     om_reconnect_reset_count := om_reconnect_reset_count r;
     om_checksum_failure_count := om_checksum_failure_count r |}.

Definition set_om_invalid_count (v : Z) (r : OrderBookStateMetrics) : OrderBookStateMetrics :=
  {|
     om_snapshot_count := om_snapshot_count r; om_delta_count := om_delta_count r;
     om_valid_snapshot_count := om_valid_snapshot_count r; om_invalid_count := v;
     om_sequence_gap_count := om_sequence_gap_count r;
     om_out_of_order_count := om_out_of_order_count r;
     om_reconnect_reset_count := om_reconnect_reset_count r;
     om_checksum_failure_count := om_checksum_failure_count r |}.

Definition set_om_sequence_gap_count (v : Z) (r : OrderBookStateMetrics) : OrderBookStateMetrics :=
  {|
     om_snapshot_count := om_snapshot_count r; om_delta_count := om_delta_count r;
     om_valid_snapshot_count := om_valid_snapshot_count r;
     om_invalid_count := om_invalid_count r; om_sequence_gap_count := v;
     om_out_of_order_count := om_out_of_order_count r;
     om_reconnect_reset_count := om_reconnect_reset_count r;
     om_checksum_failure_count := om_checksum_failure_count r |}.

Definition set_om_out_of_order_count (v : Z) (r : OrderBookStateMetrics) : OrderBookStateMetrics :=
  {|
     om_snapshot_count := om_snapshot_count r; om_delta_count := om_delta_count r;
     om_valid_snapshot_count := om_valid_snapshot_count r;
     om_invalid_count := om_invalid_count r; om_sequence_gap_count := om_sequence_gap_count r;
     om_out_of_order_count := v; om_reconnect_reset_count := om_reconnect_reset_count r;
     om_checksum_failure_count := om_checksum_failure_count r |}.

Definition set_om_reconnect_reset_count (v : Z) (r : OrderBookStateMetrics) : OrderBookStateMetrics :=
  {|
     om_snapshot_count := om_snapshot_count r; om_delta_count := om_delta_count r;
     om_valid_snapshot_count := om_valid_snapshot_count r;
     om_invalid_count := om_invalid_count r; om_sequence_gap_count := om_sequence_gap_count r;
     om_out_of_order_count := om_out_of_order_count r; om_reconnect_reset_count := v;
     om_checksum_failure_count := om_checksum_failure_count r |}.

Definition set_om_checksum_failure_count (v : Z) (r : OrderBookStateMetrics) : OrderBookStateMetrics :=
  {|
     om_snapshot_count := om_snapshot_count r; om_delta_count := om_delta_count r;
     om_valid_snapshot_count := om_valid_snapshot_count r;
     om_invalid_count := om_invalid_count r; om_sequence_gap_count := om_sequence_gap_count r;
     om_out_of_order_count := om_out_of_order_count r;
     om_reconnect_reset_count := om_reconnect_reset_count r; om_checksum_failure_count := v |}.

Definition OrderBookStateMetrics_new : OrderBookStateMetrics := {|
  om_snapshot_count := 0; om_delta_count := 0; om_valid_snapshot_count := 0; om_invalid_count := 0;
  om_sequence_gap_count := 0; om_out_of_order_count := 0; om_reconnect_reset_count := 0;
  om_checksum_failure_count := 0 |}.

Record BookState := {
  bs_venue : string;
  bs_instrument : string;
  bs_channel : string;
  bs_connection_epoch : Z;
  bs_bids : list level;
  bs_asks : list level;
  bs_source_snapshot_event_id : string;
  bs_source_snapshot_available_at : Z;
  bs_applied_delta_event_ids : list string;
  bs_last_sequence : option Z;
  bs_exchange_timestamp : Z;
  bs_received_at : Z;
  bs_available_at : Z;
  bs_normalizer_version : string;
  bs_status : BookStateStatus;
}.

Definition set_bs_bids (v : list level) (r : BookState) : BookState :=
  {|
     bs_venue := bs_venue r; bs_instrument := bs_instrument r; bs_channel := bs_channel r;
     bs_connection_epoch := bs_connection_epoch r; bs_bids := v; bs_asks := bs_asks r;
     bs_source_snapshot_event_id := bs_source_snapshot_event_id r;
     bs_source_snapshot_available_at := bs_source_snapshot_available_at r;
     bs_applied_delta_event_ids := bs_applied_delta_event_ids r;
     bs_last_sequence := bs_last_sequence r; bs_exchange_timestamp := bs_exchange_timestamp r;
     bs_received_at := bs_received_at r; bs_available_at := bs_available_at r;
     bs_normalizer_version := bs_normalizer_version r; bs_status := bs_status r |}.

Definition set_bs_asks (v : list level) (r : BookState) : BookState :=
  {|
     bs_venue := bs_venue r; bs_instrument := bs_instrument r; bs_channel := bs_channel r;
     bs_connection_epoch := bs_connection_epoch r; bs_bids := bs_bids r; bs_asks := v;
     bs_source_snapshot_event_id := bs_source_snapshot_event_id r;
     bs_source_snapshot_available_at := bs_source_snapshot_available_at r;
     bs_applied_delta_event_ids := bs_applied_delta_event_ids r;
     bs_last_sequence := bs_last_sequence r; bs_exchange_timestamp := bs_exchange_timestamp r;
     bs_received_at := bs_received_at r; bs_available_at := bs_available_at r;
     bs_normalizer_version := bs_normalizer_version r; bs_status := bs_status r |}.

Definition set_bs_applied_delta_event_ids (v : list string) (r : BookState) : BookState :=
  {|
     bs_venue := bs_venue r; bs_instrument := bs_instrument r; bs_channel := bs_channel r;
     bs_connection_epoch := bs_connection_epoch r; bs_bids := bs_bids r; bs_asks := bs_asks r;
     bs_source_snapshot_event_id := bs_source_snapshot_event_id r;
     bs_source_snapshot_available_at := bs_source_snapshot_available_at r;
     bs_applied_delta_event_ids := v; bs_last_sequence := bs_last_sequence r;
     bs_exchange_timestamp := bs_exchange_timestamp r; bs_received_at := bs_received_at r;
     bs_available_at := bs_available_at r; bs_normalizer_version := bs_normalizer_version r;
     bs_status := bs_status r |}.

Definition set_bs_last_sequence (v : option Z) (r : BookState) : BookState :=
  {|
     bs_venue := bs_venue r; bs_instrument := bs_instrument r; bs_channel := bs_channel r;
     bs_connection_epoch := bs_connection_epoch r; bs_bids := bs_bids r; bs_asks := bs_asks r;
     bs_source_snapshot_event_id := bs_source_snapshot_event_id r;
     bs_source_snapshot_available_at := bs_source_snapshot_available_at r;
     bs_applied_delta_event_ids := bs_applied_delta_event_ids r; bs_last_sequence := v;
     bs_exchange_timestamp := bs_exchange_timestamp r; bs_received_at := bs_received_at r;
     bs_available_at := bs_available_at r; bs_normalizer_version := bs_normalizer_version r;
     bs_status := bs_status r |}.

Definition set_bs_exchange_timestamp (v : Z) (r : BookState) : BookState :=
  {|
     bs_venue := bs_venue r; bs_instrument := bs_instrument r; bs_channel := bs_channel r;
     bs_connection_epoch := bs_connection_epoch r; bs_bids := bs_bids r; bs_asks := bs_asks r;
     bs_source_snapshot_event_id := bs_source_snapshot_event_id r;
     bs_source_snapshot_available_at := bs_source_snapshot_available_at r;
     bs_applied_delta_event_ids := bs_applied_delta_event_ids r;
     bs_last_sequence := bs_last_sequence r; bs_exchange_timestamp := v;
     bs_received_at := bs_received_at r; bs_available_at := bs_available_at r;
     bs_normalizer_version := bs_normalizer_version r; bs_status := bs_status r |}.

Definition set_bs_received_at (v : Z) (r : BookState) : BookState :=
  {|
     bs_venue := bs_venue r; bs_instrument := bs_instrument r; bs_channel := bs_channel r;
     bs_connection_epoch := bs_connection_epoch r; bs_bids := bs_bids r; bs_asks := bs_asks r;
     bs_source_snapshot_event_id := bs_source_snapshot_event_id r;
     bs_source_snapshot_available_at := bs_source_snapshot_available_at r;
     bs_applied_delta_event_ids := bs_applied_delta_event_ids r;
     bs_last_sequence := bs_last_sequence r; bs_exchange_timestamp := bs_exchange_timestamp r;
     bs_received_at := v; bs_available_at := bs_available_at r;
     bs_normalizer_version := bs_normalizer_version r; bs_status := bs_status r |}.

Definition set_bs_available_at (v : Z) (r : BookState) : BookState :=
  {|
     bs_venue := bs_venue r; bs_instrument := bs_instrument r; bs_channel := bs_channel r;
     bs_connection_epoch := bs_connection_epoch r; bs_bids := bs_bids r; bs_asks := bs_asks r;
     bs_source_snapshot_event_id := bs_source_snapshot_event_id r;
     bs_source_snapshot_available_at := bs_source_snapshot_available_at r;
     bs_applied_delta_event_ids := bs_applied_delta_event_ids r;
     bs_last_sequence := bs_last_sequence r; bs_exchange_timestamp := bs_exchange_timestamp r;
     bs_received_at := bs_received_at r; bs_available_at := v;
     bs_normalizer_version := bs_normalizer_version r; bs_status := bs_status r |}.

Definition set_bs_status (v : BookStateStatus) (r : BookState) : BookState :=
  {|
     bs_venue := bs_venue r; bs_instrument := bs_instrument r; bs_channel := bs_channel r;
     bs_connection_epoch := bs_connection_epoch r; bs_bids := bs_bids r; bs_asks := bs_asks r;
     bs_source_snapshot_event_id := bs_source_snapshot_event_id r;
     bs_source_snapshot_available_at := bs_source_snapshot_available_at r;
     bs_applied_delta_event_ids := bs_applied_delta_event_ids r;
     bs_last_sequence := bs_last_sequence r; bs_exchange_timestamp := bs_exchange_timestamp r;
     bs_received_at := bs_received_at r; bs_available_at := bs_available_at r;
     bs_normalizer_version := bs_normalizer_version r; bs_status := v |}.

(** ** Reading levels *)

(** [_finite] of a parsed decimal *)
Definition decimal_finite (d : PyDecimal) : bool :=
  match d with DFinite d => float_finite (fd_value d) | _ => false end.

(** [a or b] *)
Definition or_else (a b : json) : json := if truthy a then a else b.

(** The price and the quantity of one item of a side. *)
Definition level_fields (item : json) : result (json * json) :=
  match item with
  | JObject fields =>
      Ok (or_else (get_field fields "px") (get_field fields "price"),
          or_else (get_field fields "sz")
            (or_else (get_field fields "quantity") (get_field fields "size")))
  | JArray (price :: quantity :: _) => Ok (price, quantity)
  | _ => Err (ValueError "invalid order-book level")
  end.

Definition read_level (item : json) : result level :=
  let! pq := level_fields item in
  match json_decimal pq.1, json_decimal pq.2 with
  | Some p, Some q =>
      match p, q with
      | DFinite price, DFinite quantity =>
          if float_finite (fd_value price) && float_finite (fd_value quantity)
          then Ok (price, quantity)
          else Err (ValueError "non-finite order-book level")
      | _, _ => Err (ValueError "non-finite order-book level")
      end
  | _, _ => Err (ValueError "non-decimal order-book level")
  end.

Fixpoint read_levels (items : list json) : result (list level) :=
  match items with
  | [] => Ok []
  | item :: items =>
      let! l := read_level item in
      let! ls := read_levels items in
      Ok (l :: ls)
  end.

(** [_levels(payload, side)]: the value of the side, and its levels *)
Definition raw_side (fields : list (chars * json)) (side : string) : json :=
  match get_field fields side, get_field fields "levels" with
  | JNull, JArray levels =>
      match levels with
      | bids :: asks :: _ => if bool_decide (side = "bids") then bids else asks
      | _ => JNull
      end
  | raw, _ => raw
  end.

Definition levels_of (fields : list (chars * json)) (side : string) : result (list level) :=
  match raw_side fields side with
  | JArray items => read_levels items
  | _ => Ok []
  end.

(** ** Sides *)

(** [d[price] = quantity] and [d.pop(price, None)] with keys equal by value *)
Definition same_price (a b : finite_decimal) : bool := deqb (fd_value a) (fd_value b).

Fixpoint side_set (price quantity : finite_decimal) (side : list level) : list level :=
  match side with
  | [] => [(price, quantity)]
  | (p, q) :: side =>
      if same_price price p then (p, quantity) :: side else (p, q) :: side_set price quantity side
  end.

Fixpoint side_pop (price : finite_decimal) (side : list level) : list level :=
  match side with
  | [] => []
  | (p, q) :: side => if same_price price p then side else (p, q) :: side_pop price side
  end.

(** [dict(levels)] *)
Definition side_of (levels : list level) : list level :=
  fold_left (fun side l => side_set l.1 l.2 side) levels [].

(** [_update_side]: the updates before an invalid one are kept *)
Fixpoint update_side (updates : list level) : M (list level) unit :=
  match updates with
  | [] => pret tt
  | (price, quantity) :: updates =>
      if dleb (fd_value price) 0 || dltb (fd_value quantity) 0
      then praise (ValueError "invalid order-book delta")
      else
        run! pmodify (if deqb (fd_value quantity) 0 then side_pop price
                      else side_set price quantity);
        update_side updates
  end%py.

(** Comparison of [(price, quantity)] pairs. *)
Definition level_leb (a b : level) : bool :=
  dltb (fd_value a.1) (fd_value b.1) ||
  deqb (fd_value a.1) (fd_value b.1) && dleb (fd_value a.2) (fd_value b.2).

Definition sorted_asks (side : list level) : list level := sorted_by level_leb side.
Definition sorted_bids (side : list level) : list level :=
  sorted_by (fun a b => level_leb b a) side.

(** ** Hash and checksum *)

Definition level_json (l : level) : json := JArray [JString (fd_str l.1); JString (fd_str l.2)].
Definition opt_int (z : option Z) : json := match z with Some z => JInt z | None => JNull end.

Definition book_payload (venue instrument : string) (bids asks : list level) (epoch : Z)
    (sequence : option Z) : json :=
  JObject [(text "asks", JArray (map level_json asks)); (text "bids", JArray (map level_json bids));
           (text "connection_epoch", JInt epoch); (text "instrument", JString (text instrument));
           (text "last_sequence", opt_int sequence); (text "venue", JString (text venue))].

(** [_book_hash] *)
Definition book_hash {D : Digest} (venue instrument : string) (bids asks : list level) (epoch : Z)
    (sequence : option Z) : string :=
  sha256_hex (untext (dumps compact_style (book_payload venue instrument bids asks epoch sequence))).

(** [zlib.crc32] *)
Definition crc_bit (crc : N) : N :=
  if N.odd crc then N.lxor (N.shiftr crc 1) 3988292384 else N.shiftr crc 1.
Definition crc_byte (crc : N) (c : Ascii.ascii) : N :=
  Nat.iter 8 crc_bit (N.lxor crc (ord c)).
Definition crc32 (s : chars) : N := N.lxor (fold_left crc_byte s 4294967295%N) 4294967295.

Example crc32_check : crc32 (text "123456789") = 3421780262%N.
Proof. by vm_compute. Qed.

(** The first 25 levels of the two sides, interleaved. *)
Fixpoint checksum_values (bids asks : list level) : list chars :=
  match bids, asks with
  | [], [] => []
  | b :: bids, [] => fd_str b.1 :: fd_str b.2 :: checksum_values bids []
  | [], _ => flat_map (fun a : level => [fd_str a.1; fd_str a.2]) asks
  | b :: bids, a :: asks =>
      fd_str b.1 :: fd_str b.2 :: fd_str a.1 :: fd_str a.2 :: checksum_values bids asks
  end.

(** The message of [int(s)] *)
Definition int_error (s : chars) : exn :=
  ValueError ("invalid literal for int() with base 10: " +:+ untext (take 200 (repr_string s))).

(** ** The builder *)

Definition book_key : Type := string * string * string.

Record Builder := {
  cb_maximum_age : Z;
  cb_maximum_future : Z;
  cb_states : list (book_key * BookState);
  cb_metrics : OrderBookStateMetrics;
  cb_last_invalid_reason : list ((string * string) * FundingCarryRejectCode);
}.

Definition set_cb_states (v : list (book_key * BookState)) (r : Builder) : Builder :=
  {|
     cb_maximum_age := cb_maximum_age r; cb_maximum_future := cb_maximum_future r;
     cb_states := v; cb_metrics := cb_metrics r;
     cb_last_invalid_reason := cb_last_invalid_reason r |}.

Definition set_cb_metrics (v : OrderBookStateMetrics) (r : Builder) : Builder :=
  {|
     cb_maximum_age := cb_maximum_age r; cb_maximum_future := cb_maximum_future r;
     cb_states := cb_states r; cb_metrics := v;
     cb_last_invalid_reason := cb_last_invalid_reason r |}.

Definition set_cb_last_invalid_reason (v : list ((string * string) * FundingCarryRejectCode)) (r : Builder) : Builder :=
  {|
     cb_maximum_age := cb_maximum_age r; cb_maximum_future := cb_maximum_future r;
     cb_states := cb_states r; cb_metrics := cb_metrics r; cb_last_invalid_reason := v |}.

Definition SECOND : Z := 1000000.

(** [__init__] *)
Definition Builder_new (maximum_age_seconds maximum_future_seconds : Z) : Builder := {|
  cb_maximum_age := maximum_age_seconds * SECOND; cb_maximum_future := maximum_future_seconds * SECOND;
  cb_states := []; cb_metrics := OrderBookStateMetrics_new; cb_last_invalid_reason := [] |}.

(** [self.metrics.x += 1] *)
Definition count (get : OrderBookStateMetrics -> Z)
    (set : Z -> OrderBookStateMetrics -> OrderBookStateMetrics) : M Builder unit :=
  pmodify (fun b => set_cb_metrics (set (get (cb_metrics b) + 1)%Z (cb_metrics b)) b).
Definition count_snapshot := count om_snapshot_count set_om_snapshot_count.
Definition count_delta := count om_delta_count set_om_delta_count.
Definition count_valid := count om_valid_snapshot_count set_om_valid_snapshot_count.
Definition count_invalid := count om_invalid_count set_om_invalid_count.
Definition count_gap := count om_sequence_gap_count set_om_sequence_gap_count.
Definition count_out_of_order := count om_out_of_order_count set_om_out_of_order_count.
Definition count_reconnect := count om_reconnect_reset_count set_om_reconnect_reset_count.
Definition count_checksum := count om_checksum_failure_count set_om_checksum_failure_count.

Definition mark_reason (venue instrument : string) (reason : FundingCarryRejectCode)
  : M Builder unit :=
  pmodify (fun b => set_cb_last_invalid_reason
    (dict_set (venue, instrument) reason (cb_last_invalid_reason b)) b).

(** [current] is the object stored under [key]: its mutations are seen there. *)
Definition on_state (key : book_key) (f : BookState -> BookState) : M Builder unit :=
  pmodify (fun b => match dict_get key (cb_states b) with
                    | Some s => set_cb_states (dict_set key (f s) (cb_states b)) b
                    | None => b
                    end).
Definition get_state (key : book_key) : M Builder (option BookState) :=
  fun b => (b, Ok (dict_get key (cb_states b))).
Definition invalidate (key : book_key) : M Builder unit := on_state key (set_bs_status BOOK_INVALID).

(** [_validation_reason] *)
Definition validation_reason (message : string) : FundingCarryRejectCode :=
  if contains "future" message then FUTURE_TIMESTAMP
  else if contains "stale" message then STALE_DATA
  else if contains "crossed" message then CROSSED_ORDERBOOK
  else BITGET_ORDERBOOK_STATE_INVALID.

Definition FUNDING_CARRY_SHADOW_ALLOWED_INSTRUMENTS : list string := ["BTC"; "SOL"].

Section Operations.
Context {D : Digest}.

(** [_canonical]: the checks and the snapshot, once the arguments are resolved *)
Definition canonical_book (bids asks : list level) (source_snapshot_event_id : string)
    (applied_delta_event_ids : list string) (last_sequence : option Z) (epoch now : Z)
    (venue instrument : string) (exchange_timestamp received_at available_at : Z)
    (normalizer_version : option string) : M Builder CanonicalOrderBookSnapshot := fun self =>
  if bool_decide (bids = []) || bool_decide (asks = [])
  then (self, Err (ValueError "empty order book"))
  else if existsb (fun l => dleb (fd_value l.1) 0 || dleb (fd_value l.2) 0) (bids ++ asks)
  then (self, Err (ValueError "non-positive order-book level"))
  else if existsb (fun l => negb (float_finite (fd_value l.1)) ||
                            negb (float_finite (fd_value l.2))) (bids ++ asks)
  then (self, Err (ValueError "non-finite order-book level"))
  else
    match sorted_bids bids, sorted_asks asks with
    | (best_bid, bid_size) :: more_bids, (best_ask, ask_size) :: more_asks =>
        let bids := (best_bid, bid_size) :: more_bids in
        let asks := (best_ask, ask_size) :: more_asks in
        if dleb (fd_value best_ask) (fd_value best_bid)
        then (self, Err (ValueError "crossed order book"))
        else if (now + cb_maximum_future self <? exchange_timestamp)%Z
        then (self, Err (ValueError "future order book"))
        else if (cb_maximum_age self <? now - exchange_timestamp)%Z
        then (self, Err (ValueError "stale order book"))
        else
          (run! count_valid;
           pret {|
             cs_venue := venue; cs_instrument := instrument; cs_bids := bids; cs_asks := asks;
             cs_best_bid := best_bid; cs_best_ask := best_ask;
             cs_depth_level_count := Z.of_nat (length bids) + Z.of_nat (length asks);
             cs_source_snapshot_event_id := source_snapshot_event_id;
             cs_applied_delta_event_ids := applied_delta_event_ids;
             cs_last_sequence := last_sequence; cs_connection_epoch := epoch;
             cs_exchange_timestamp := exchange_timestamp; cs_received_at := received_at;
             cs_available_at := available_at; cs_state_status := BOOK_VALID;
             cs_state_hash := book_hash venue instrument bids asks epoch last_sequence;
             cs_normalizer_version :=
               match normalizer_version with
               | Some v => if bool_decide (v = EmptyString) then "unknown" else v
               | None => "unknown"
               end |})%py self
    | _, _ => (self, Err (IndexError "tuple index out of range"))
    end.

Definition canonical (event : option RawMarketEvent) (bids asks : list level)
    (source_snapshot_event_id : string) (applied_delta_event_ids : list string)
    (last_sequence : option Z) (epoch now : Z) (venue instrument : option string)
    (exchange_timestamp received_at available_at : option Z) (normalizer_version : option string)
  : M Builder CanonicalOrderBookSnapshot :=
  let '(venue, instrument, exchange_timestamp, received_at, available_at, normalizer_version) :=
    match event with
    | Some e =>
        (Some (re_venue e), Some (re_canonical_instrument_id e),
         Some (default (re_available_at e) (re_exchange_timestamp e)), Some (re_received_at e),
         Some (re_available_at e), Some (re_normalizer_version e))
    | None => (venue, instrument, exchange_timestamp, received_at, available_at, normalizer_version)
    end in
  match venue, instrument with
  | Some venue, Some instrument =>
      match exchange_timestamp, received_at, available_at with
      | Some exchange_timestamp, Some received_at, Some available_at =>
          canonical_book bids asks source_snapshot_event_id applied_delta_event_ids last_sequence
            epoch now venue instrument exchange_timestamp received_at available_at normalizer_version
      | _, _, _ => praise (ValueError "missing canonical order-book timestamp")
      end
  | _, _ => praise (ValueError "missing canonical order-book identity")
  end.

(** [_from_state] *)
Definition from_state (state : BookState) (now : Z) : M Builder CanonicalOrderBookSnapshot :=
  canonical None (sorted_bids (bs_bids state)) (sorted_asks (bs_asks state))
    (bs_source_snapshot_event_id state) (bs_applied_delta_event_ids state) (bs_last_sequence state)
    (bs_connection_epoch state) now (Some (bs_venue state)) (Some (bs_instrument state))
    (Some (bs_exchange_timestamp state)) (Some (bs_received_at state)) (Some (bs_available_at state))
    (Some (bs_normalizer_version state)).

(** [_standalone_snapshot] *)
Definition standalone_snapshot (event : RawMarketEvent) (now : Z)
  : M Builder CanonicalOrderBookSnapshot :=
  do! fields <- plift (payload event);
  do! bids <- plift (levels_of fields "bids");
  do! asks <- plift (levels_of fields "asks");
  canonical (Some event) bids asks (re_event_id event) [] (re_sequence event)
    (default 0%Z (re_connection_epoch event)) now None None None None None None.

(** [_validate_checksum] *)
Definition validate_checksum (update : list (chars * json)) (snapshot : CanonicalOrderBookSnapshot)
  : M Builder unit :=
  match get_field update "checksum" with
  | JNull => pret tt
  | provided =>
      let values := checksum_values (take 25 (cs_bids snapshot)) (take 25 (cs_asks snapshot)) in
      let computed := Z.of_N (crc32 (join_chars (text ":") values)) in
      let signed := if (computed <? 2 ^ 31)%Z then computed else (computed - 2 ^ 32)%Z in
      match json_int provided with
      | None => praise (int_error (py_str provided))
      | Some z =>
          if (z =? computed)%Z || (z =? signed)%Z then pret tt
          else run! count_checksum; praise (ValueError "order-book checksum mismatch")
      end
  end%py.

(** The handler [except ValueError]: other exceptions pass. *)
Definition except_value_error {A} (handler : string -> M Builder A) (e : exn) : M Builder A :=
  match e with
  | ValueError message => handler message
  | e => praise e
  end.

(** The branches of [_apply_bitget]: a snapshot *)
Definition bitget_snapshot (event : RawMarketEvent) (update : list (chars * json)) (channel : string)
    (epoch now : Z) : M Builder (option CanonicalOrderBookSnapshot) :=
  let key := (re_venue event, re_canonical_instrument_id event, channel) in
  run! count_snapshot;
  ptry
    (do! bids <- plift (levels_of update "bids");
     do! asks <- plift (levels_of update "asks");
     let current := {|
       bs_venue := re_venue event; bs_instrument := re_canonical_instrument_id event;
       bs_channel := channel; bs_connection_epoch := epoch;
       bs_bids := side_of bids; bs_asks := side_of asks;
       bs_source_snapshot_event_id := re_event_id event;
       bs_source_snapshot_available_at := re_available_at event;
       bs_applied_delta_event_ids := []; bs_last_sequence := re_sequence event;
       bs_exchange_timestamp := default (re_available_at event) (re_exchange_timestamp event);
       bs_received_at := re_received_at event; bs_available_at := re_available_at event;
       bs_normalizer_version := re_normalizer_version event; bs_status := BOOK_VALID |} in
     run! pmodify (fun b => set_cb_states (dict_set key current (cb_states b)) b);
     do! snapshot <- from_state current now;
     run! validate_checksum update snapshot;
     pret (Some snapshot))
    (except_value_error (fun message =>
       run! count_invalid;
       run! mark_reason "bitget" (re_canonical_instrument_id event) (validation_reason message);
       run! invalidate key;
       pret None)).

(** [int(str(value))] of the previous sequence, unless it is absent *)
Definition previous_sequence (update : list (chars * json)) : option (option Z) :=
  match get_field update "previous_sequence" with
  | JNull => Some None
  | v => option_map Some (json_int v)
  end.

(** the gap of a delta *)
Definition sequence_gap (key : book_key) (instrument : string)
  : M Builder (option CanonicalOrderBookSnapshot) :=
  run! invalidate key;
  run! count_gap;
  run! count_invalid;
  run! mark_reason "bitget" instrument BITGET_ORDERBOOK_SEQUENCE_GAP;
  pret None.

(** the update of one side of the current book *)
Definition update_bids (key : book_key) (updates : list level) : M Builder unit := fun b =>
  match dict_get key (cb_states b) with
  | Some s =>
      let '(side, r) := update_side updates (bs_bids s) in
      (set_cb_states (dict_set key (set_bs_bids side s) (cb_states b)) b, r)
  | None => (b, Ok tt)
  end.
Definition update_asks (key : book_key) (updates : list level) : M Builder unit := fun b =>
  match dict_get key (cb_states b) with
  | Some s =>
      let '(side, r) := update_side updates (bs_asks s) in
      (set_cb_states (dict_set key (set_bs_asks side s) (cb_states b)) b, r)
  | None => (b, Ok tt)
  end.

(** a delta that is in sequence *)
Definition apply_delta (event : RawMarketEvent) (update : list (chars * json)) (key : book_key)
    (now : Z) : M Builder (option CanonicalOrderBookSnapshot) :=
  ptry
    (do! bids <- plift (levels_of update "bids");
     run! update_bids key bids;
     do! asks <- plift (levels_of update "asks");
     run! update_asks key asks;
     run! on_state key (fun s =>
       set_bs_available_at (re_available_at event)
       (set_bs_received_at (re_received_at event)
       (set_bs_exchange_timestamp (default (re_available_at event) (re_exchange_timestamp event))
       (set_bs_last_sequence (match re_sequence event with Some n => Some n | None => bs_last_sequence s end)
       (set_bs_applied_delta_event_ids (bs_applied_delta_event_ids s ++ [re_event_id event]) s)))));
     do! current <- get_state key;
     match current with
     | Some current =>
         do! snapshot <- from_state current now;
         run! validate_checksum update snapshot;
         pret (Some snapshot)
     | None => praise KeyError
     end)
    (except_value_error (fun message =>
       run! invalidate key;
       run! count_invalid;
       run! mark_reason "bitget" (re_canonical_instrument_id event) (validation_reason message);
       pret None)).

(** a delta *)
Definition bitget_delta (event : RawMarketEvent) (update : list (chars * json)) (key : book_key)
    (now : Z) : M Builder (option CanonicalOrderBookSnapshot) :=
  let instrument := re_canonical_instrument_id event in
  run! count_delta;
  do! current <- get_state key;
  match current with
  | None => run! mark_reason "bitget" instrument BITGET_ORDERBOOK_STATE_NOT_INITIALIZED; pret None
  | Some current =>
      if bool_decide (bs_status current = BOOK_INVALID) then pret None
      else
        match previous_sequence update with
        | None => sequence_gap key instrument
        | Some previous =>
            match re_sequence event, bs_last_sequence current with
            | Some sequence, Some last =>
                if (sequence <=? last)%Z then run! count_out_of_order; pret None
                else if match previous with
                        | Some previous => negb (previous =? last)%Z
                        | None => negb (sequence =? last + 1)%Z
                        end
                then sequence_gap key instrument
                else apply_delta event update key now
            | _, _ => apply_delta event update key now
            end
        end
  end.

(** the part of the payload that holds the update, and its kind *)
Definition update_of (fields : list (chars * json)) : list (chars * json) :=
  match get_field fields "_book_update" with JObject u => u | _ => fields end.
Definition is_snapshot (event : RawMarketEvent) (update : list (chars * json)) : bool :=
  bool_decide (re_event_type event = "orderbook_snapshot") ||
  match get_field update "action" with JString a => bool_decide (a = text "snapshot") | _ => false end.

Definition channel_of (event : RawMarketEvent) : string :=
  if bool_decide (re_channel event = EmptyString) then "orderbook" else re_channel event.
Definition epoch_of (event : RawMarketEvent) : Z := default 0%Z (re_connection_epoch event).

(** [_apply_bitget] *)
Definition apply_bitget (event : RawMarketEvent) (now : Z)
  : M Builder (option CanonicalOrderBookSnapshot) :=
  let channel := channel_of event in
  let key := (re_venue event, re_canonical_instrument_id event, channel) in
  let epoch := epoch_of event in
  do! current <- get_state key;
  run! match current with
       | Some current =>
           if (bs_connection_epoch current =? epoch)%Z then pret tt
           else run! count_reconnect;
                pmodify (fun b => set_cb_states (dict_pop key (cb_states b)) b)
       | None => pret tt
       end;
  do! fields <- plift (payload event);
  let update := update_of fields in
  if is_snapshot event update
  then bitget_snapshot event update channel epoch now
  else bitget_delta event update key now.

(** [apply] *)
Definition apply (event : RawMarketEvent) (now : Z) : M Builder (option CanonicalOrderBookSnapshot) :=
  if negb (bool_decide (re_venue event ∈ ["hyperliquid"; "bitget"])) ||
     negb (bool_decide (re_canonical_instrument_id event ∈ FUNDING_CARRY_SHADOW_ALLOWED_INSTRUMENTS))
  then pret None
  else if negb (bool_decide (re_event_type event ∈ ["orderbook_snapshot"; "orderbook_delta"]))
  then pret None
  else if bool_decide (re_venue event = "hyperliquid") then
    if negb (bool_decide (re_event_type event = "orderbook_snapshot")) then pret None
    else
      run! count_snapshot;
      ptry
        (do! snapshot <- standalone_snapshot event now; pret (Some snapshot))
        (except_value_error (fun message =>
           run! count_invalid;
           run! mark_reason (re_venue event) (re_canonical_instrument_id event)
                  (validation_reason message);
           pret None))
  else apply_bitget event now.

End Operations.

(** ** The durable state of the builder *)

(** [FundingCarryRejectCode.value] and [FundingCarryRejectCode(value)] *)
Definition reject_code_value (c : FundingCarryRejectCode) : string :=
  match c with
  | MISSING_RECEIVE_LEG => "missing_receive_leg"
  | MISSING_PAY_LEG => "missing_pay_leg"
  | MISSING_FUNDING_CURRENT => "missing_funding_current"
  | MISSING_ORDERBOOK_SNAPSHOT => "missing_orderbook_snapshot"
  | STALE_DATA => "stale_data"
  | FUTURE_TIMESTAMP => "future_timestamp"
  | INSTRUMENT_MISMATCH => "instrument_mismatch"
  | VENUE_MISMATCH => "venue_mismatch"
  | UNKNOWN_FUNDING_UNIT => "unknown_funding_unit"
  | UNKNOWN_FUNDING_INTERVAL => "unknown_funding_interval"
  | INVALID_BID_ASK => "invalid_bid_ask"
  | CROSSED_ORDERBOOK => "crossed_orderbook"
  | EMPTY_USABLE_DEPTH => "empty_usable_depth"
  | UNSYNCHRONIZED_VENUE_TIMESTAMPS => "unsynchronized_venue_timestamps"
  | DUPLICATE_SOURCE_EVENT => "duplicate_source_event"
  | NON_FINITE_NUMERIC_VALUE => "non_finite_numeric_value"
  | EDGE_CALCULATION_FAILURE => "edge_calculation_failure"
  | INSUFFICIENT_ORDERBOOK_DEPTH => "insufficient_orderbook_depth"
  | UNKNOWN_FEE => "unknown_fee"
  | EDGE_BELOW_THRESHOLD => "edge_below_threshold"
  | MISSING_HYPERLIQUID_FUNDING_CURRENT => "missing_hyperliquid_funding_current"
  | MISSING_BITGET_FUNDING_CURRENT => "missing_bitget_funding_current"
  | MISSING_HYPERLIQUID_ORDERBOOK_SNAPSHOT => "missing_hyperliquid_orderbook_snapshot"
  | MISSING_BITGET_ORDERBOOK_SNAPSHOT => "missing_bitget_orderbook_snapshot"
  | BITGET_ORDERBOOK_STATE_NOT_INITIALIZED => "bitget_orderbook_state_not_initialized"
  | BITGET_ORDERBOOK_SEQUENCE_GAP => "bitget_orderbook_sequence_gap"
  | BITGET_ORDERBOOK_STATE_INVALID => "bitget_orderbook_state_invalid"
  | HYPERLIQUID_FUNDING_STALE => "hyperliquid_funding_stale"
  | BITGET_FUNDING_STALE => "bitget_funding_stale"
  | FUNDING_OBSERVATION_UNSYNCHRONIZED => "funding_observation_unsynchronized"
  | HYPERLIQUID_ORDERBOOK_STALE => "hyperliquid_orderbook_stale"
  | BITGET_ORDERBOOK_STALE => "bitget_orderbook_stale"
  | ORDERBOOK_VENUES_UNSYNCHRONIZED => "orderbook_venues_unsynchronized"
  end.

Definition all_reject_codes : list FundingCarryRejectCode :=
  [MISSING_RECEIVE_LEG; MISSING_PAY_LEG; MISSING_FUNDING_CURRENT;
   MISSING_ORDERBOOK_SNAPSHOT; STALE_DATA; FUTURE_TIMESTAMP; INSTRUMENT_MISMATCH;
   VENUE_MISMATCH; UNKNOWN_FUNDING_UNIT; UNKNOWN_FUNDING_INTERVAL; INVALID_BID_ASK;
   CROSSED_ORDERBOOK; EMPTY_USABLE_DEPTH; UNSYNCHRONIZED_VENUE_TIMESTAMPS;
   DUPLICATE_SOURCE_EVENT; NON_FINITE_NUMERIC_VALUE; EDGE_CALCULATION_FAILURE;
   INSUFFICIENT_ORDERBOOK_DEPTH; UNKNOWN_FEE; EDGE_BELOW_THRESHOLD;
   MISSING_HYPERLIQUID_FUNDING_CURRENT; MISSING_BITGET_FUNDING_CURRENT;
   MISSING_HYPERLIQUID_ORDERBOOK_SNAPSHOT; MISSING_BITGET_ORDERBOOK_SNAPSHOT;
   BITGET_ORDERBOOK_STATE_NOT_INITIALIZED; BITGET_ORDERBOOK_SEQUENCE_GAP;
   BITGET_ORDERBOOK_STATE_INVALID; HYPERLIQUID_FUNDING_STALE; BITGET_FUNDING_STALE;
   FUNDING_OBSERVATION_UNSYNCHRONIZED; HYPERLIQUID_ORDERBOOK_STALE; BITGET_ORDERBOOK_STALE;
   ORDERBOOK_VENUES_UNSYNCHRONIZED].

Definition parse_reject_code (s : chars) : result FundingCarryRejectCode :=
  match List.find (fun c => bool_decide (text (reject_code_value c) = s)) all_reject_codes with
  | Some c => Ok c
  | None => Err (ValueError "is not a valid FundingCarryRejectCode")
  end.

Definition parse_book_status (s : chars) : result BookStateStatus :=
  match List.find (fun c => bool_decide (text (book_status_value c) = s))
          [BOOK_UNINITIALIZED; BOOK_VALID; BOOK_INVALID] with
  | Some c => Ok c
  | None => Err (ValueError "is not a valid BookStateStatus")
  end.

Definition jstr (s : string) : json := JString (text s).
Definition jtime (t : Z) : json := JString (str_datetime (Aware t)).

(** The comparison of the keys of [_states] and [last_invalid_reason]. *)
Definition pair_leb (a b : string * string) : bool :=
  if bool_decide (a.1 = b.1) then string_leb a.2 b.2 else string_leb a.1 b.1.
Definition key_leb (a b : book_key) : bool :=
  if bool_decide (a.1 = b.1) then string_leb a.2 b.2 else pair_leb a.1 b.1.

(** The objects of [export_state], with their keys sorted *)
Definition state_json (s : BookState) : json :=
  JObject [(text "asks", JArray (map level_json (bs_asks s)));
           (text "available_at", jtime (bs_available_at s));
           (text "bids", JArray (map level_json (bs_bids s)));
           (text "channel", jstr (bs_channel s));
           (text "connection_epoch", JInt (bs_connection_epoch s));
           (text "exchange_timestamp", jtime (bs_exchange_timestamp s));
           (text "instrument", jstr (bs_instrument s));
           (text "last_sequence", opt_int (bs_last_sequence s));
           (text "normalizer_version", jstr (bs_normalizer_version s));
           (text "received_at", jtime (bs_received_at s));
           (text "source_snapshot_available_at", jtime (bs_source_snapshot_available_at s));
           (text "source_snapshot_event_id", jstr (bs_source_snapshot_event_id s));
           (text "status", jstr (book_status_value (bs_status s)));
           (text "venue", jstr (bs_venue s))].

Definition metrics_json (m : OrderBookStateMetrics) : json :=
  JObject [(text "checksum_failure_count", JInt (om_checksum_failure_count m));
           (text "delta_count", JInt (om_delta_count m));
           (text "invalid_count", JInt (om_invalid_count m));
           (text "out_of_order_count", JInt (om_out_of_order_count m));
           (text "reconnect_reset_count", JInt (om_reconnect_reset_count m));
           (text "sequence_gap_count", JInt (om_sequence_gap_count m));
           (text "snapshot_count", JInt (om_snapshot_count m));
           (text "valid_snapshot_count", JInt (om_valid_snapshot_count m))].

Definition reason_json (r : (string * string) * FundingCarryRejectCode) : json :=
  JObject [(text "instrument", jstr r.1.2); (text "reason", jstr (reject_code_value r.2));
           (text "venue", jstr r.1.1)].

(** [export_state] *)
Definition export_state (b : Builder) : json :=
  JObject [(text "last_invalid_reason",
            JArray (map reason_json
              (sorted_by (fun x y => pair_leb x.1 y.1) (cb_last_invalid_reason b))));
           (text "metrics", metrics_json (cb_metrics b));
           (text "states",
            JArray (map (fun kv => state_json kv.2)
              (sorted_by (fun x y => key_leb x.1 y.1) (cb_states b))))].

(** [d[key]] *)
Definition item_of (fields : list (chars * json)) (key : string) : result json :=
  match dict_get (text key) fields with Some v => Ok v | None => Err KeyError end.

(** [str(d[key])] *)
Definition str_item (fields : list (chars * json)) (key : string) : result chars :=
  let! v := item_of fields key in Ok (py_str v).

(** [int(v)] *)
Definition py_int (v : json) : result Z :=
  match v with
  | JInt z => Ok z
  | JBool b => Ok (if b then 1 else 0)%Z
  | JString s => match parse_int s with Some z => Ok z | None => Err (int_error s) end
  | JReal l =>
      match float_of_literal l with
      | FFinite neg q => Ok (if neg then - Qfloor q else Qfloor q)%Z
      | FInfinity _ => Err (OtherError "OverflowError")
      | FNaN => Err (ValueError "cannot convert float NaN to integer")
      end
  | _ => Err (OtherError "TypeError")
  end.

Definition int_item (fields : list (chars * json)) (key : string) : result Z :=
  let! v := item_of fields key in py_int v.

(** [Decimal(str(v))]; a decimal that is not finite is outside the model of a book. *)
Definition decimal_item (v : json) : result finite_decimal :=
  match json_decimal v with
  | Some (DFinite d) => Ok d
  | _ => Err (OtherError "InvalidOperation")
  end.

Section Restore.
Context {P : IsoParser}.

(** [datetime.fromisoformat(str(v))] of an aware timestamp; the state holds no other *)
Definition time_value (v : json) : result Z :=
  let! d := fromisoformat (py_str v) in utc_or "timestamp must be timezone-aware" d.
Definition time_item (fields : list (chars * json)) (key : string) : result Z :=
  let! v := item_of fields key in time_value v.

Definition read_pair (v : json) : result level :=
  match v with
  | JArray [price; size] =>
      let! p := decimal_item price in
      let! q := decimal_item size in
      Ok (p, q)
  | _ => Err (ValueError "not a pair")
  end.

Fixpoint read_pairs (items : list json) : result (list level) :=
  match items with
  | [] => Ok []
  | v :: items => let! l := read_pair v in let! ls := read_pairs items in Ok (l :: ls)
  end.

Definition side_item (fields : list (chars * json)) (key : string) : result (list level) :=
  let! v := item_of fields key in
  match v with
  | JArray items => let! ls := read_pairs items in Ok (side_of ls)
  | _ => Err (OtherError "TypeError")
  end.

(** One [_BookState] of [restore_state], its fields in the order of evaluation *)
Definition restore_book (item : list (chars * json)) : result BookState :=
  let! venue := str_item item "venue" in
  let! instrument := str_item item "instrument" in
  let! channel := str_item item "channel" in
  let! epoch := int_item item "connection_epoch" in
  let! bids := side_item item "bids" in
  let! asks := side_item item "asks" in
  let! snapshot_id := str_item item "source_snapshot_event_id" in
  let! snapshot_at := time_item item "source_snapshot_available_at" in
  let! sequence :=
    match get_field item "last_sequence" with
    | JNull => Ok None
    | v => let! z := py_int v in Ok (Some z)
    end in
  let! exchange := time_item item "exchange_timestamp" in
  let! received := time_item item "received_at" in
  let! available := time_item item "available_at" in
  let! version := str_item item "normalizer_version" in
  let! status := let! s := str_item item "status" in parse_book_status s in
  Ok {| bs_venue := untext venue; bs_instrument := untext instrument; bs_channel := untext channel;
        bs_connection_epoch := epoch; bs_bids := bids; bs_asks := asks;
        bs_source_snapshot_event_id := untext snapshot_id;
        bs_source_snapshot_available_at := snapshot_at; bs_applied_delta_event_ids := [];
        bs_last_sequence := sequence; bs_exchange_timestamp := exchange; bs_received_at := received;
        bs_available_at := available; bs_normalizer_version := untext version; bs_status := status |}.

Definition restore_one_state (item : json) : M Builder unit :=
  match item with
  | JObject fields =>
      do! state <- plift (restore_book fields);
      pmodify (fun b => set_cb_states
        (dict_set (bs_venue state, bs_instrument state, bs_channel state) state (cb_states b)) b)
  | _ => pret tt
  end%py.

Definition metric (fields : list (chars * json)) (key : string) : result Z :=
  match dict_get (text key) fields with Some v => py_int v | None => Ok 0%Z end.

Definition restore_metrics (fields : list (chars * json)) : result OrderBookStateMetrics :=
  let! snapshot := metric fields "snapshot_count" in
  let! delta := metric fields "delta_count" in
  let! valid := metric fields "valid_snapshot_count" in
  let! invalid := metric fields "invalid_count" in
  let! gap := metric fields "sequence_gap_count" in
  let! order := metric fields "out_of_order_count" in
  let! reset := metric fields "reconnect_reset_count" in
  let! checksum := metric fields "checksum_failure_count" in
  Ok {| om_snapshot_count := snapshot; om_delta_count := delta; om_valid_snapshot_count := valid;
        om_invalid_count := invalid; om_sequence_gap_count := gap; om_out_of_order_count := order;
        om_reconnect_reset_count := reset; om_checksum_failure_count := checksum |}.

Definition restore_reason (item : json) : M Builder unit :=
  match item with
  | JObject fields =>
      do! reason <- plift (let! s := str_item fields "reason" in parse_reject_code s);
      do! venue <- plift (str_item fields "venue");
      do! instrument <- plift (str_item fields "instrument");
      mark_reason (untext venue) (untext instrument) reason
  | _ => pret tt
  end%py.

(** [value.get(key, [])] *)
Definition get_or (fields : list (chars * json)) (key : string) (otherwise : json) : json :=
  default otherwise (dict_get (text key) fields).

(** [restore_state] *)
Definition restore_state (fields : list (chars * json)) : M Builder unit :=
  run! pmodify (set_cb_states []);
  run! match get_or fields "states" (JArray []) with
       | JArray states => pfor states restore_one_state
       | _ => pret tt
       end;
  run! match get_or fields "metrics" (JObject []) with
       | JObject m => do! metrics <- plift (restore_metrics m); pmodify (set_cb_metrics metrics)
       | _ => pret tt
       end;
  run! pmodify (set_cb_last_invalid_reason []);
  match get_or fields "last_invalid_reason" (JArray []) with
  | JArray reasons => pfor reasons restore_reason
  | _ => pret tt
  end%py.

End Restore.

(** [recovery_boundaries] *)
Definition recovery_boundaries (b : Builder) : list (string * string * string * Z * string) :=
  map (fun kv => let s := kv.2 in
         (bs_venue s, bs_instrument s, bs_channel s, bs_source_snapshot_available_at s,
          bs_source_snapshot_event_id s))
      (sorted_by (fun x y => key_leb x.1 y.1) (cb_states b)).

(** [restore_applied_delta_event_ids] *)
Definition restore_applied_delta_event_ids (venue instrument channel : string) (event_ids : list string)
  : M Builder unit :=
  on_state (venue, instrument, channel) (set_bs_applied_delta_event_ids event_ids).
