(* ===== verification/BookReplay.v ===== *)
(** * The canonical book is the replay of its events

    Theorems about CanonicalOrderBookStateBuilder as modelled in ShadowBook.  The
    abstract book is a pair of functions from price to quantity: a snapshot writes its
    levels on the empty book, a delta in sequence writes its updates.  Every book the
    builder holds as valid, and every snapshot it returns, is such a replay of events
    it has been given. *)

From Stdlib Require Import ZArith QArith Qround Qabs NArith Sorted Lia Lqa.
From stdpp Require Import base tactics list strings.
From S2P Require Import Prelude Decimals Binary64 Evidence Json PyText FundingCarry ShadowBook.

Local Open Scope string_scope.
Local Open Scope list_scope.
Local Open Scope Q_scope.

(** ** Sides as functions of the price *)

Definition price (l : level) : Q := fd_value l.1.
Definition quantity (l : level) : Q := fd_value l.2.

(** The quantity a side holds at a price, zero where it has no level. *)
Fixpoint depth (side : list level) (x : Q) : Q :=
  match side with
  | [] => 0
  | l :: side => if deqb x (price l) then quantity l else depth side x
  end.

(** The last write at a price wins. *)
Fixpoint write (updates : list level) (f : Q -> Q) : Q -> Q :=
  match updates with
  | [] => f
  | l :: updates => write updates (fun x => if deqb x (price l) then quantity l else f x)
  end.

#[local] Instance Q_eq_decision : EqDecision Q.
Proof. solve_decision. Defined.

Definition distinct_prices (side : list level) : Prop := NoDup (map (fun l => Qred (price l)) side).

Lemma Qred_deqb a b : deqb a b = true <-> Qred a = Qred b.
Proof.
  rewrite deqb_eq. split; [apply Qred_complete|]. intros H.
  by rewrite <- (Qred_correct a), H, Qred_correct.
Qed.

Lemma deqb_sym a b : deqb a b = deqb b a.
Proof. apply eq_true_iff_eq. rewrite !Qred_deqb. done. Qed.

Lemma depth_compat side x y : deqb x y = true -> depth side x = depth side y.
Proof.
  intros H. induction side as [|l side IH]; simpl; [done|]. rewrite IH.
  replace (deqb x (price l)) with (deqb y (price l)); [done|].
  apply eq_true_iff_eq. rewrite !Qred_deqb in *. by rewrite H.
Qed.

Lemma same_price_deqb p l : same_price p l.1 = deqb (fd_value p) (price l).
Proof. done. Qed.

Lemma depth_set p q side x :
  depth (side_set p q side) x = if deqb x (fd_value p) then fd_value q else depth side x.
Proof.
  induction side as [|[a b] side IH]; simpl; [done|]. unfold same_price.
  destruct (deqb (fd_value p) (fd_value a)) eqn:E; simpl; unfold price, quantity; simpl.
  - rewrite Qred_deqb in E. replace (deqb x (fd_value a)) with (deqb x (fd_value p));
      [by destruct (deqb x (fd_value p))|].
    apply eq_true_iff_eq. rewrite !Qred_deqb. by rewrite E.
  - rewrite IH. destruct (deqb x (fd_value a)) eqn:Ea; [|done].
    destruct (deqb x (fd_value p)) eqn:Ep; [|done].
    rewrite Qred_deqb in Ea, Ep. rewrite Ep in Ea. apply Qred_deqb in Ea. congruence.
Qed.

Lemma depth_absent side x : Qred x ∉ map (fun l => Qred (price l)) side -> depth side x = 0%Q.
Proof.
  induction side as [|l side IH]; simpl; [done|]. rewrite not_elem_of_cons. intros [Hne Hni].
  destruct (deqb x (price l)) eqn:E; [|by apply IH]. apply Qred_deqb in E. done.
Qed.

Lemma depth_pop p side x : distinct_prices side ->
  depth (side_pop p side) x = if deqb x (fd_value p) then 0%Q else depth side x.
Proof.
  unfold distinct_prices.
  induction side as [|[a b] side IH]; simpl; [by destruct (deqb x _)|].
  rewrite NoDup_cons. intros [Hni Hnd]. unfold same_price, price, quantity in *. simpl in *.
  destruct (deqb (fd_value p) (fd_value a)) eqn:E; simpl.
  - apply Qred_deqb in E. destruct (deqb x (fd_value p)) eqn:Ep.
    + apply depth_absent. apply Qred_deqb in Ep. by rewrite Ep, E.
    + destruct (deqb x (fd_value a)) eqn:Ea; [|done]. apply Qred_deqb in Ea.
      rewrite <- E in Ea. apply Qred_deqb in Ea. congruence.
  - rewrite IH by done. unfold price, quantity. simpl. destruct (deqb x (fd_value a)) eqn:Ea; [|done].
    destruct (deqb x (fd_value p)) eqn:Ep; [|done].
    apply Qred_deqb in Ea, Ep. rewrite Ep in Ea. apply Qred_deqb in Ea. congruence.
Qed.

Lemma side_set_prices p q side :
  map (fun l => Qred (price l)) (side_set p q side) =
  if bool_decide (Qred (fd_value p) ∈ map (fun l => Qred (price l)) side)
  then map (fun l => Qred (price l)) side
  else map (fun l => Qred (price l)) side ++ [Qred (fd_value p)].
Proof.
  induction side as [|[a b] side IH]; simpl; [done|]. unfold same_price.
  destruct (deqb (fd_value p) (fd_value a)) eqn:E; simpl.
  - apply Qred_deqb in E. rewrite bool_decide_eq_true_2; [done|]. rewrite E. left.
  - rewrite IH. assert (Qred (fd_value p) <> Qred (fd_value a)) as Hne
      by (intros H; apply Qred_deqb in H; congruence).
    destruct (bool_decide (Qred (fd_value p) ∈ map _ side)) eqn:Eb.
    + apply bool_decide_eq_true in Eb. rewrite bool_decide_eq_true_2; [done|by right].
    + apply bool_decide_eq_false in Eb. rewrite bool_decide_eq_false_2; [done|].
      by rewrite not_elem_of_cons.
Qed.

Lemma side_set_distinct p q side : distinct_prices side -> distinct_prices (side_set p q side).
Proof.
  unfold distinct_prices. rewrite side_set_prices. destruct (bool_decide _) eqn:E; [done|].
  apply bool_decide_eq_false in E. intros H. apply NoDup_app. split_and!; [done| |apply NoDup_singleton].
  intros x Hx ->%list_elem_of_singleton. done.
Qed.

Lemma side_pop_sublist p side : side_pop p side `sublist_of` side.
Proof.
  induction side as [|[a b] side IH]; simpl; [constructor|].
  destruct (same_price p a); [by constructor|by constructor].
Qed.

Lemma side_pop_distinct p side : distinct_prices side -> distinct_prices (side_pop p side).
Proof.
  unfold distinct_prices. intros H. eapply sublist_NoDup; [exact H|].
  apply (fmap_sublist (fun l => Qred (price l))), side_pop_sublist.
Qed.

Lemma write_ext updates f g x : (forall y, f y = g y) -> write updates f x = write updates g x.
Proof.
  revert f g. induction updates as [|l updates IH]; intros f g H; simpl; [done|].
  apply IH. intros y. by rewrite H.
Qed.

Lemma write_equiv updates f g x : (forall y, f y == g y) -> write updates f x == write updates g x.
Proof.
  revert f g. induction updates as [|l updates IH]; intros f g H; simpl; [apply H|].
  apply IH. intros y. destruct (deqb y (price l)); [reflexivity|apply H].
Qed.

Lemma side_of_go levels acc : distinct_prices acc ->
  distinct_prices (fold_left (fun side l => side_set l.1 l.2 side) levels acc) /\
  forall x, depth (fold_left (fun side l => side_set l.1 l.2 side) levels acc) x =
            write levels (depth acc) x.
Proof.
  revert acc. induction levels as [|l levels IH]; intros acc Hacc; simpl; [done|].
  destruct (IH (side_set l.1 l.2 acc) (side_set_distinct _ _ _ Hacc)) as [Hd Hw].
  split; [done|]. intros x. rewrite Hw. apply write_ext. intros y. apply depth_set.
Qed.

Lemma side_of_spec levels :
  distinct_prices (side_of levels) /\
  forall x, depth (side_of levels) x = write levels (fun _ => 0%Q) x.
Proof. apply (side_of_go levels []). constructor. Qed.

(** A delta: the outcome of [_update_side]. *)
Lemma update_side_distinct updates side :
  distinct_prices side -> distinct_prices (update_side updates side).1.
Proof.
  revert side. induction updates as [|[p q] updates IH]; intros side H; simpl; [done|].
  destruct (_ || _); [done|]. unfold pbind, pmodify. simpl. apply IH.
  destruct (deqb _ 0); [by apply side_pop_distinct|by apply side_set_distinct].
Qed.

Lemma update_side_spec updates side side' :
  distinct_prices side -> update_side updates side = (side', Ok tt) ->
  forall x, depth side' x == write updates (depth side) x.
Proof.
  revert side. induction updates as [|[p q] updates IH]; intros side Hd H x; simpl in *.
  { injection H as <-. reflexivity. }
  destruct (_ || _); [done|]. unfold pbind, pmodify in H. simpl in H.
  destruct (deqb (fd_value q) 0) eqn:E.
  - rewrite (IH _ (side_pop_distinct _ _ Hd) H). apply write_equiv. intros y.
    rewrite depth_pop by done. apply deqb_eq in E. unfold price, quantity. simpl.
    destruct (deqb y (fd_value p)); [by rewrite E|reflexivity].
  - rewrite (IH _ (side_set_distinct _ _ _ Hd) H). apply write_equiv. intros y.
    rewrite depth_set. reflexivity.
Qed.

Lemma depth_permutation side side' : distinct_prices side -> side ≡ₚ side' ->
  forall x, depth side x = depth side' x.
Proof.
  intros Hd Hp x. destruct (decide (Qred x ∈ map (fun l => Qred (price l)) side)) as [Hin|Hni].
  - apply list_elem_of_fmap in Hin as (l & Hl & Hin).
    assert (forall s, distinct_prices s -> l ∈ s -> depth s x = quantity l) as H.
    { clear -Hl. unfold distinct_prices. induction s as [|m s IH]; simpl; [by intros _ ?%elem_of_nil|].
      rewrite NoDup_cons, elem_of_cons. intros [Hni Hnd] [->|Hin].
      - by rewrite (proj2 (Qred_deqb _ _) Hl).
      - destruct (deqb x (price m)) eqn:E; [|by apply IH]. apply Qred_deqb in E.
        destruct Hni. rewrite <- E, Hl. apply (list_elem_of_fmap_2 (fun l => Qred (price l))), Hin. }
    rewrite !H; try done; [unfold distinct_prices; by rewrite <- Hp|by rewrite <- Hp].
  - rewrite !depth_absent; try done. by rewrite <- Hp.
Qed.

(** ** What a snapshot says *)

Lemma level_leb_total a b : level_leb a b = true \/ level_leb b a = true.
Proof.
  unfold level_leb. rewrite !orb_true_iff, !andb_true_iff, !dltb_lt, !deqb_eq, !dleb_le.
  destruct (Qlt_le_dec (fd_value a.1) (fd_value b.1)) as [|H1]; [tauto|].
  destruct (Qle_lt_or_eq _ _ H1) as [|H2]; [tauto|].
  destruct (Qlt_le_dec (fd_value a.2) (fd_value b.2)) as [H3|H3].
  - left. right. split; [by symmetry|]. by apply Qlt_le_weak.
  - right. right. split; [done|done].
Qed.

Lemma level_leb_trans a b c : level_leb a b = true -> level_leb b c = true -> level_leb a c = true.
Proof.
  unfold level_leb. rewrite !orb_true_iff, !andb_true_iff, !dltb_lt, !deqb_eq, !dleb_le.
  intros [H1|[H1 H1']] [H2|[H2 H2']]; [left; lra|left; lra|left; lra|right; split; lra].
Qed.

Lemma level_leb_price a b : level_leb a b = true -> price a <= price b.
Proof.
  unfold level_leb, price. rewrite orb_true_iff, andb_true_iff, dltb_lt, deqb_eq. lra.
Qed.

Lemma StronglySorted_impl {A} (R S : A -> A -> Prop) xs :
  (forall a b, R a b -> S a b) -> StronglySorted R xs -> StronglySorted S xs.
Proof.
  intros H. induction 1 as [|x xs Hs IH Hx]; constructor; [done|].
  eapply Forall_impl; [exact Hx|]. auto.
Qed.

Lemma sorted_asks_spec side :
  sorted_asks side ≡ₚ side /\ StronglySorted (fun a b => price a <= price b) (sorted_asks side).
Proof.
  split; [apply sorted_by_Permutation|].
  eapply StronglySorted_impl; [|apply (sorted_by_sorted _ level_leb_total level_leb_trans)].
  intros a b. apply level_leb_price.
Qed.

Lemma sorted_bids_spec side :
  sorted_bids side ≡ₚ side /\ StronglySorted (fun a b => price b <= price a) (sorted_bids side).
Proof.
  split; [apply sorted_by_Permutation|].
  apply (StronglySorted_impl (fun a b => level_leb b a = true)).
  - intros a b. apply level_leb_price.
  - apply (sorted_by_sorted (fun a b => level_leb b a)).
    + intros a b. destruct (level_leb_total a b); tauto.
    + intros a b c H1 H2. by apply (level_leb_trans c b a).
Qed.

(** A snapshot that can be traded on: sorted, positive, not crossed, timely. *)
Definition snapshot_ok (b : Builder) (now : Z) (snap : CanonicalOrderBookSnapshot) : Prop :=
  StronglySorted (fun x y => price y <= price x) (cs_bids snap) /\
  StronglySorted (fun x y => price x <= price y) (cs_asks snap) /\
  (forall l, l ∈ cs_bids snap ++ cs_asks snap -> 0 < price l /\ 0 < quantity l) /\
  option_map fst (head (cs_bids snap)) = Some (cs_best_bid snap) /\
  option_map fst (head (cs_asks snap)) = Some (cs_best_ask snap) /\
  (forall x y, x ∈ cs_bids snap -> y ∈ cs_asks snap -> price x < price y) /\
  (cs_exchange_timestamp snap <= now + cb_maximum_future b)%Z /\
  (now - cs_exchange_timestamp snap <= cb_maximum_age b)%Z.

(** The states, the limits and the reasons are not touched by the metrics. *)
Definition same_books (b b' : Builder) : Prop :=
  cb_states b' = cb_states b /\ cb_maximum_age b' = cb_maximum_age b /\
  cb_maximum_future b' = cb_maximum_future b /\ cb_last_invalid_reason b' = cb_last_invalid_reason b.

Lemma same_books_trans b1 b2 b3 : same_books b1 b2 -> same_books b2 b3 -> same_books b1 b3.
Proof. unfold same_books. intros (?&?&?&?) (?&?&?&?). split_and!; congruence. Qed.

Section Replay.
Context {D : Digest}.

Lemma canonical_book_spec bids asks id ids seq epoch now venue instrument exchange received available
    version b b' snap :
  canonical_book bids asks id ids seq epoch now venue instrument exchange received available version b
    = (b', Ok snap) ->
  same_books b b' /\ snapshot_ok b now snap /\ cs_bids snap ≡ₚ bids /\ cs_asks snap ≡ₚ asks /\
  cs_source_snapshot_event_id snap = id /\ cs_applied_delta_event_ids snap = ids /\
  cs_last_sequence snap = seq /\ cs_connection_epoch snap = epoch /\ cs_venue snap = venue /\
  cs_instrument snap = instrument /\ cs_exchange_timestamp snap = exchange /\
  cs_received_at snap = received /\ cs_available_at snap = available.
Proof.
  unfold canonical_book.
  destruct (_ || _); [done|]. destruct (existsb _ _) eqn:Epos; [done|].
  destruct (existsb (fun l => negb _ || _) _); [done|].
  destruct (sorted_bids_spec bids) as [Hbp Hbs]. destruct (sorted_asks_spec asks) as [Hap Has].
  destruct (sorted_bids bids) as [|[bb bs] more_bids]; [done|].
  destruct (sorted_asks asks) as [|[ba as_] more_asks]; [done|].
  destruct (dleb _ _) eqn:Ecross; [done|]. apply dleb_gt in Ecross.
  destruct (Z.ltb_spec (now + cb_maximum_future b) exchange); [done|].
  destruct (Z.ltb_spec (cb_maximum_age b) (now - exchange)); [done|].
  intros H1. injection H1 as <- <-. split; [done|]. split; [|done].
  unfold snapshot_ok. simpl cs_bids. simpl cs_asks. split_and!; try done.
  - intros l Hl. change ((bb, bs) :: more_bids ++ (ba, as_) :: more_asks)
      with (((bb, bs) :: more_bids) ++ (ba, as_) :: more_asks) in Hl.
    rewrite Hbp, Hap in Hl. apply not_true_iff_false in Epos.
    assert (dleb (fd_value l.1) 0 || dleb (fd_value l.2) 0 = false) as Hf.
    { apply not_true_iff_false. intros Ht. apply Epos, existsb_exists. exists l.
      split; [by apply list_elem_of_In|done]. }
    apply orb_false_iff in Hf as [H2%dleb_gt H3%dleb_gt]. done.
  - intros x y Hx Hy. apply StronglySorted_inv in Hbs as [_ Hb], Has as [_ Ha].
    rewrite Forall_forall in Hb, Ha.
    assert (price x <= fd_value bb) by (apply elem_of_cons in Hx as [->|Hx];
      [apply Qle_refl|by apply (Hb x)]).
    assert (fd_value ba <= price y) by (apply elem_of_cons in Hy as [->|Hy];
      [apply Qle_refl|by apply (Ha y)]).
    lra.
Qed.

Lemma canonical_book_frame bids asks id ids seq epoch now venue instrument exchange received available
    version b :
  same_books b (canonical_book bids asks id ids seq epoch now venue instrument exchange received
    available version b).1.
Proof.
  unfold canonical_book. repeat (case_match; try done).
Qed.
(** ** The abstract book *)

Definition book_key_of (e : RawMarketEvent) : book_key :=
  (re_venue e, re_canonical_instrument_id e, channel_of e).

(** A delta follows the last sequence: where both are known it is later, and names it as
    its predecessor or is its successor. *)
Definition in_sequence (last : option Z) (e : RawMarketEvent) (update : list (chars * json)) : Prop :=
  match re_sequence e, last with
  | Some sequence, Some last =>
      (last < sequence)%Z /\
      match previous_sequence update with
      | Some (Some previous) => previous = last
      | Some None => sequence = (last + 1)%Z
      | None => False
      end
  | _, _ => True
  end.

Definition next_sequence (last : option Z) (e : RawMarketEvent) : option Z :=
  match re_sequence e with Some n => Some n | None => last end.

(** [replays e ds bids asks last]: the snapshot [e] and the deltas [ds] on it. *)
Inductive replays : RawMarketEvent -> list RawMarketEvent -> (Q -> Q) -> (Q -> Q) -> option Z -> Prop :=
| replay_snapshot e fields bids asks :
    payload e = Ok fields -> is_snapshot e (update_of fields) = true ->
    levels_of (update_of fields) "bids" = Ok bids -> levels_of (update_of fields) "asks" = Ok asks ->
    replays e [] (write bids (fun _ => 0)) (write asks (fun _ => 0)) (re_sequence e)
| replay_delta e ds db da last d fields bids asks :
    replays e ds db da last ->
    book_key_of d = book_key_of e -> epoch_of d = epoch_of e ->
    payload d = Ok fields -> is_snapshot d (update_of fields) = false ->
    in_sequence last d (update_of fields) ->
    levels_of (update_of fields) "bids" = Ok bids -> levels_of (update_of fields) "asks" = Ok asks ->
    replays e (ds ++ [d]) (write bids db) (write asks da) (next_sequence last d).

(** A book that is the replay of events of the history, in their order. *)
Definition traced (h : list RawMarketEvent) (key : book_key) (id : string) (ids : list string)
    (epoch : Z) (last : option Z) (bids asks : list level) : Prop :=
  exists e ds db da, replays e ds db da last /\ (e :: ds) `sublist_of` h /\ book_key_of e = key /\
    epoch_of e = epoch /\ re_event_id e = id /\ map re_event_id ds = ids /\
    (forall x, depth bids x == db x) /\ (forall x, depth asks x == da x).

Lemma traced_extend h e key id ids epoch last bids asks :
  traced h key id ids epoch last bids asks -> traced (h ++ [e]) key id ids epoch last bids asks.
Proof.
  intros (s & ds & db & da & Hr & Hh & Hrest). exists s, ds, db, da. split; [done|]. split; [|done].
  by apply sublist_inserts_r.
Qed.

Lemma traced_permutation h key id ids epoch last bids asks bids' asks' :
  traced h key id ids epoch last bids asks -> distinct_prices bids -> distinct_prices asks ->
  bids ≡ₚ bids' -> asks ≡ₚ asks' -> traced h key id ids epoch last bids' asks'.
Proof.
  intros (s & ds & db & da & Hr & Hh & Hk & He & Hi & His & Hb & Ha) Hdb Hda Hpb Hpa.
  exists s, ds, db, da. split_and!; try done; intros x.
  - by rewrite <- (depth_permutation bids bids').
  - by rewrite <- (depth_permutation asks asks').
Qed.

(** *** The state of one book *)

Definition times_ok (s : BookState) : Prop :=
  datetime_range (bs_source_snapshot_available_at s) /\ datetime_range (bs_exchange_timestamp s) /\
  datetime_range (bs_received_at s) /\ datetime_range (bs_available_at s).

Record state_shape (key : book_key) (s : BookState) : Prop := {
  sh_key : (bs_venue s, bs_instrument s, bs_channel s) = key;
  sh_bids : distinct_prices (bs_bids s);
  sh_asks : distinct_prices (bs_asks s);
  sh_times : times_ok s;
}.

Definition state_traced (h : list RawMarketEvent) (key : book_key) (s : BookState) : Prop :=
  traced h key (bs_source_snapshot_event_id s) (bs_applied_delta_event_ids s) (bs_connection_epoch s)
    (bs_last_sequence s) (bs_bids s) (bs_asks s).

(** The invariant of the builder. *)
Record builder_inv (h : list RawMarketEvent) (b : Builder) : Prop := {
  bi_keys : NoDup (dict_keys (cb_states b));
  bi_shape : forall key s, dict_get key (cb_states b) = Some s -> state_shape key s;
  bi_traced : forall key s, dict_get key (cb_states b) = Some s -> bs_status s <> BOOK_INVALID ->
    state_traced h key s;
}.

Lemma builder_inv_same h b b' : cb_states b' = cb_states b -> builder_inv h b -> builder_inv h b'.
Proof. intros E [H1 H2 H3]. constructor; by rewrite E. Qed.

Lemma builder_inv_extend h e b : builder_inv h b -> builder_inv (h ++ [e]) b.
Proof.
  intros [H1 H2 H3]. constructor; [done|done|]. intros key s Hg Hs. by apply traced_extend, H3.
Qed.

Lemma builder_inv_set h b b' key s :
  builder_inv h b -> cb_states b' = dict_set key s (cb_states b) ->
  state_shape key s -> (bs_status s <> BOOK_INVALID -> state_traced h key s) -> builder_inv h b'.
Proof.
  intros [H1 H2 H3] E Hs Ht. constructor; rewrite E.
  - by apply dict_set_NoDup.
  - intros k t. destruct (decide (k = key)) as [->|Hne].
    + rewrite dict_get_set_eq. by intros [= <-].
    + rewrite dict_get_set_ne by done. apply H2.
  - intros k t. destruct (decide (k = key)) as [->|Hne].
    + rewrite dict_get_set_eq. intros [= <-]. done.
    + rewrite dict_get_set_ne by done. apply H3.
Qed.

Definition event_times (e : RawMarketEvent) : Prop :=
  datetime_range (re_received_at e) /\ datetime_range (re_available_at e) /\
  match re_exchange_timestamp e with Some t => datetime_range t | None => True end.

Lemma exchange_time e : event_times e ->
  datetime_range (default (re_available_at e) (re_exchange_timestamp e)).
Proof. intros (_ & Ha & He). by destruct (re_exchange_timestamp e). Qed.

(** *** The steps of the builder *)

Lemma canonical_book_error bids asks id ids seq epoch now venue instrument exchange received available
    version b b' e :
  canonical_book bids asks id ids seq epoch now venue instrument exchange received available version b
    = (b', Err e) -> exists m, e = ValueError m.
Proof.
  unfold canonical_book. destruct (_ || _) eqn:Ee; [intros [= _ <-]; eauto|].
  destruct (existsb _ _); [intros [= _ <-]; eauto|].
  destruct (existsb _ _); [intros [= _ <-]; eauto|].
  apply orb_false_iff in Ee as [Hb%bool_decide_eq_false Ha%bool_decide_eq_false].
  destruct (sorted_bids_spec bids) as [Hbp _]. destruct (sorted_asks_spec asks) as [Hap _].
  destruct (sorted_bids bids) as [|[bb bs] more_bids]; [by apply Permutation_nil_l in Hbp|].
  destruct (sorted_asks asks) as [|[ba as_] more_asks]; [by apply Permutation_nil_l in Hap|].
  repeat (case_match; [intros [= _ <-]; eauto|]). done.
Qed.

Lemma validate_checksum_spec update snap b :
  same_books b (validate_checksum update snap b).1 /\
  match (validate_checksum update snap b).2 with
  | Ok _ => True
  | Err e => exists m, e = ValueError m
  end.
Proof.
  unfold validate_checksum.
  destruct (get_field update "checksum"); try done;
    (destruct (json_int _) as [?|]; [|split; [done|by eexists]]);
    (destruct (_ || _); [done|split; [done|by eexists]]).
Qed.

(** The end of a snapshot or a delta: the snapshot of the state, if its checksum agrees. *)
Definition emit (s : BookState) (update : list (chars * json)) (now : Z)
  : M Builder (option CanonicalOrderBookSnapshot) :=
  do! snapshot <- from_state s now;
  run! validate_checksum update snapshot;
  pret (Some snapshot).

(** A snapshot of a state. *)
Definition shows (s : BookState) (snap : CanonicalOrderBookSnapshot) : Prop :=
  cs_bids snap ≡ₚ bs_bids s /\ cs_asks snap ≡ₚ bs_asks s /\
  cs_source_snapshot_event_id snap = bs_source_snapshot_event_id s /\
  cs_applied_delta_event_ids snap = bs_applied_delta_event_ids s /\
  cs_last_sequence snap = bs_last_sequence s /\ cs_connection_epoch snap = bs_connection_epoch s /\
  cs_venue snap = bs_venue s /\ cs_instrument snap = bs_instrument s /\
  cs_exchange_timestamp snap = bs_exchange_timestamp s /\ cs_received_at snap = bs_received_at s /\
  cs_available_at snap = bs_available_at s.

Lemma emit_spec s update now b :
  same_books b (emit s update now b).1 /\
  match (emit s update now b).2 with
  | Ok None => False
  | Ok (Some snap) => snapshot_ok b now snap /\ shows s snap
  | Err e => exists m, e = ValueError m
  end.
Proof.
  unfold emit, pbind, from_state, canonical.
  pose proof (canonical_book_frame (sorted_bids (bs_bids s)) (sorted_asks (bs_asks s))
    (bs_source_snapshot_event_id s) (bs_applied_delta_event_ids s) (bs_last_sequence s)
    (bs_connection_epoch s) now (bs_venue s) (bs_instrument s) (bs_exchange_timestamp s)
    (bs_received_at s) (bs_available_at s) (Some (bs_normalizer_version s)) b) as Hf.
  destruct (canonical_book _ _ _ _ _ _ _ _ _ _ _ _ _ b) as [b1 [snap|e]] eqn:E.
  - apply canonical_book_spec in E as (Hs & Hok & Hb & Ha & ? & ? & ? & ? & ? & ? & ? & ? & ?).
    pose proof (validate_checksum_spec update snap b1) as [Hv He].
    destruct (validate_checksum update snap b1) as [b2 [[]|e]]; simpl in *.
    + split; [by eapply same_books_trans|]. split; [done|]. unfold shows.
      rewrite Hb, Ha, (proj1 (sorted_bids_spec _)), (proj1 (sorted_asks_spec _)). done.
    + split; [by eapply same_books_trans|done].
  - apply canonical_book_error in E. done.
Qed.

(** The three effects of the handlers. *)
Lemma count_frame get set b : same_books b (count get set b).1.
Proof. done. Qed.

Definition same_limits (b b' : Builder) : Prop :=
  cb_maximum_age b' = cb_maximum_age b /\ cb_maximum_future b' = cb_maximum_future b.

(** What the handlers and the gap do to the states. *)
Definition spoiled (b : Builder) (key : book_key) (b' : Builder) : Prop :=
  same_limits b b' /\
  cb_states b' = match dict_get key (cb_states b) with
                 | Some s => dict_set key (set_bs_status BOOK_INVALID s) (cb_states b)
                 | None => cb_states b
                 end.

Lemma invalidate_spoiled key b : spoiled b key (invalidate key b).1.
Proof. unfold spoiled, invalidate, on_state. simpl. by destruct (dict_get key (cb_states b)). Qed.

Lemma sequence_gap_spoiled key instrument b :
  spoiled b key (sequence_gap key instrument b).1 /\ (sequence_gap key instrument b).2 = Ok None.
Proof.
  unfold spoiled, sequence_gap, invalidate, on_state, pbind, pmodify. simpl.
  by destruct (dict_get key (cb_states b)).
Qed.

Lemma builder_inv_spoiled h b b' key : builder_inv h b -> spoiled b key b' -> builder_inv h b'.
Proof.
  intros H [_ E]. destruct (dict_get key (cb_states b)) as [s|] eqn:Eg.
  - destruct (bi_shape h b H key s Eg) as [? ? ? ?].
    eapply builder_inv_set; [exact H|exact E|by constructor|done].
  - by eapply builder_inv_same.
Qed.

Lemma read_levels_error items e : read_levels items = Err e -> exists m, e = ValueError m.
Proof.
  induction items as [|i items IH]; simpl; [done|]. unfold rbind at 1.
  destruct (read_level i) as [l|e'] eqn:E.
  - destruct (read_levels items); simpl; [done|]. intros [= <-]. by apply IH.
  - intros [= <-]. revert E. unfold read_level, level_fields, rbind.
    repeat case_match; intros; simplify_eq; eauto.
Qed.

Lemma levels_of_error fields side e : levels_of fields side = Err e -> exists m, e = ValueError m.
Proof.
  unfold levels_of. destruct (raw_side fields side); try done. apply read_levels_error.
Qed.

Lemma update_side_error updates side side' e :
  update_side updates side = (side', Err e) -> exists m, e = ValueError m.
Proof.
  revert side. induction updates as [|[p q] updates IH]; intros side; simpl; [done|].
  destruct (_ || _); [intros [= _ <-]; eauto|]. apply IH.
Qed.

(** A delta in sequence on the state [s]. *)
Definition delta_state (event : RawMarketEvent) (bids asks : list level) (s : BookState) : BookState :=
  set_bs_available_at (re_available_at event)
    (set_bs_received_at (re_received_at event)
    (set_bs_exchange_timestamp (default (re_available_at event) (re_exchange_timestamp event))
    (set_bs_last_sequence (next_sequence (bs_last_sequence s) event)
    (set_bs_applied_delta_event_ids (bs_applied_delta_event_ids s ++ [re_event_id event])
    (set_bs_asks asks (set_bs_bids bids s)))))).

Lemma set_states_set x y b : set_cb_states x (set_cb_states y b) = set_cb_states x b.
Proof. done. Qed.

(** What the body of a delta leaves: the snapshot of the new state, or a [ValueError] and
    a state that the handler will spoil. *)
Definition delta_body_post (event : RawMarketEvent) (update : list (chars * json)) (key : book_key)
    (now : Z) (b : Builder) (s : BookState)
    (r : Builder * result (option CanonicalOrderBookSnapshot)) : Prop :=
  same_limits b r.1 /\
  match r.2 with
  | Ok (Some snap) =>
      exists bids asks ubids uasks,
        levels_of update "bids" = Ok ubids /\ levels_of update "asks" = Ok uasks /\
        update_side ubids (bs_bids s) = (bids, Ok tt) /\ update_side uasks (bs_asks s) = (asks, Ok tt) /\
        cb_states r.1 = dict_set key (delta_state event bids asks s) (cb_states b) /\
        snapshot_ok b now snap /\ shows (delta_state event bids asks s) snap
  | Ok None => exists t, cb_states r.1 = dict_set key t (cb_states b) /\ state_shape key t /\
                         bs_status t = BOOK_INVALID
  | Err e => (exists m, e = ValueError m) /\
      exists t, cb_states r.1 = dict_set key t (cb_states b) /\ state_shape key t
  end.

Lemma apply_delta_spec event update key now b s :
  dict_get key (cb_states b) = Some s -> state_shape key s -> event_times event ->
  is_ok (apply_delta event update key now b).2 = true /\
  delta_body_post event update key now b s (apply_delta event update key now b).
Proof.
  intros Hg Hsh Ht. unfold apply_delta, ptry.
  match goal with |- context [match ?m with _ => _ end] =>
    assert (delta_body_post event update key now b s m) as Hbody end.
  2: { destruct (pbind _ _ b) as [b1 [o|e]]; [done|].
       destruct Hbody as (Hl & [m ->] & t & Et & Hsh'). simpl in *.
       unfold delta_body_post, invalidate, on_state, pbind, pmodify, count_invalid, count, mark_reason.
       simpl. rewrite Et, dict_get_set_eq. simpl. split; [done|]. split; [done|].
       exists (set_bs_status BOOK_INVALID t). rewrite dict_set_set.
       destruct Hsh'. split; [done|]. by split. }
  unfold pbind at 1, plift at 1.
  destruct (levels_of update "bids") as [ubids|e] eqn:Eb.
  2: { split; [done|]. split; [by eapply levels_of_error|]. exists s. by rewrite dict_set_id. }
  unfold pbind at 1, update_bids. rewrite Hg. cbv beta iota.
  pose proof (update_side_distinct ubids (bs_bids s) (sh_bids _ _ Hsh)) as Hdb.
  destruct (update_side ubids (bs_bids s)) as [bids [[]|e]] eqn:Eub.
  2: { split; [done|]. split; [by eapply update_side_error|]. exists (set_bs_bids bids s).
       split; [done|]. destruct Hsh. by split. }
  unfold pbind at 1, plift at 1.
  destruct (levels_of update "asks") as [uasks|e] eqn:Ea.
  2: { split; [done|]. split; [by eapply levels_of_error|]. exists (set_bs_bids bids s).
       split; [done|]. destruct Hsh. by split. }
  unfold pbind at 1, update_asks. simpl cb_states. rewrite dict_get_set_eq. cbv beta iota.
  pose proof (update_side_distinct uasks (bs_asks s) (sh_asks _ _ Hsh)) as Hda.
  simpl bs_asks. destruct (update_side uasks (bs_asks s)) as [asks [[]|e]] eqn:Eua.
  2: { split; [done|]. split; [by eapply update_side_error|].
       exists (set_bs_asks asks (set_bs_bids bids s)). simpl. rewrite dict_set_set.
       split; [done|]. destruct Hsh. by split. }
  unfold pbind at 1, on_state, pmodify. simpl cb_states. rewrite dict_set_set, dict_get_set_eq.
  cbv beta iota. rewrite dict_set_set. unfold pbind at 1, get_state.
  cbn [cb_states set_cb_states]. rewrite dict_get_set_eq. cbv beta iota.
  set (t := delta_state event bids asks s).
  set (b1 := set_cb_states (dict_set key t (cb_states b)) b).
  rewrite !set_states_set.
  match goal with |- delta_body_post _ _ _ _ _ _ (_ ?b') => change b' with b1 end.
  match goal with |- context [from_state ?x now] => change x with t end.
  fold (emit t update now).
  destruct (emit_spec t update now b1) as [(Es & Ema & Emf & _) He].
  unfold delta_body_post.
  destruct (emit t update now b1) as [b2 [[snap|]|e]]; simpl in *; [|done|].
  - split; [done|]. exists bids, asks, ubids, uasks. split_and!; try done; apply He.
  - split; [done|]. split; [done|]. exists t. split; [done|]. destruct Hsh, Ht as (?&?&?).
    split; try done. split_and!; try done; [by destruct sh_times0|].
    apply exchange_time. done.
Qed.

(** *** One event *)

(** A snapshot of hyperliquid shows the levels of its own event; one of bitget is the replay of
    events of the history, the last of which is this one. *)
Definition emitted (h : list RawMarketEvent) (event : RawMarketEvent)
    (snap : CanonicalOrderBookSnapshot) : Prop :=
  cs_venue snap = re_venue event /\ cs_instrument snap = re_canonical_instrument_id event /\
  datetime_range (cs_exchange_timestamp snap) /\ datetime_range (cs_received_at snap) /\
  datetime_range (cs_available_at snap) /\
  if bool_decide (re_venue event = "hyperliquid")
  then exists fields bids asks, payload event = Ok fields /\ levels_of fields "bids" = Ok bids /\
         levels_of fields "asks" = Ok asks /\ cs_bids snap ≡ₚ bids /\ cs_asks snap ≡ₚ asks
  else traced (h ++ [event]) (book_key_of event) (cs_source_snapshot_event_id snap)
         (cs_applied_delta_event_ids snap) (cs_connection_epoch snap) (cs_last_sequence snap)
         (cs_bids snap) (cs_asks snap).

Definition apply_post (h : list RawMarketEvent) (event : RawMarketEvent) (now : Z) (b : Builder)
    (r : Builder * result (option CanonicalOrderBookSnapshot)) : Prop :=
  builder_inv (h ++ [event]) r.1 /\ same_limits b r.1 /\
  match r.2 with Ok (Some snap) => snapshot_ok b now snap /\ emitted h event snap | _ => True end.

(** Nothing changed but metrics and reasons. *)
Lemma apply_post_unchanged h event now b b' o :
  builder_inv h b -> cb_states b' = cb_states b -> same_limits b b' ->
  match o with Ok (Some _) => False | _ => True end -> apply_post h event now b (b', o).
Proof.
  intros Hi E Hl Ho. split; [by eapply builder_inv_same, builder_inv_extend|].
  split; [done|]. simpl. by destruct o as [[]|].
Qed.

Lemma apply_post_spoiled h event now b key b' o :
  builder_inv (h ++ [event]) b -> spoiled b key b' ->
  match o with Ok (Some _) => False | _ => True end -> apply_post h event now b (b', o).
Proof.
  intros Hi Hs Ho. split; [by eapply builder_inv_spoiled|]. split; [apply Hs|]. simpl.
  by destruct o as [[]|].
Qed.

(** The limits are the only part of the builder that [snapshot_ok] looks at. *)
Lemma apply_post_limits h event now b b' r :
  same_limits b b' -> apply_post h event now b' r -> apply_post h event now b r.
Proof.
  intros [Ha Hf] (Hi & [Ha' Hf'] & Ho). split; [done|]. split; [split; congruence|].
  unfold snapshot_ok in *. destruct r.2 as [[]|]; try done. by rewrite <- Ha, <- Hf.
Qed.

Lemma traced_shown h key s snap :
  state_shape key s -> state_traced h key s -> shows s snap ->
  traced h key (cs_source_snapshot_event_id snap) (cs_applied_delta_event_ids snap)
    (cs_connection_epoch snap) (cs_last_sequence snap) (cs_bids snap) (cs_asks snap).
Proof.
  intros [_ Hb Ha _] Ht (Hpb & Hpa & -> & -> & -> & -> & _).
  eapply traced_permutation; [exact Ht|done|done|done|done].
Qed.

Lemma shown_times key s snap : state_shape key s -> shows s snap ->
  datetime_range (cs_exchange_timestamp snap) /\ datetime_range (cs_received_at snap) /\
  datetime_range (cs_available_at snap).
Proof. intros [_ _ _ (_ & ? & ? & ?)] (_&_&_&_&_&_&_&_&->&->&->). done. Qed.

Lemma bitget_snapshot_post h event fields now b :
  builder_inv h b -> event_times event -> re_venue event = "bitget" -> payload event = Ok fields ->
  is_snapshot event (update_of fields) = true ->
  apply_post h event now b
    (bitget_snapshot event (update_of fields) (channel_of event) (epoch_of event) now b).
Proof.
  intros Hi Ht Hv Hp Hs. set (u := update_of fields) in *. set (key := book_key_of event).
  unfold bitget_snapshot. fold (book_key_of event) key. unfold pbind at 1.
  set (b0 := (count_snapshot b).1). change (count_snapshot b) with (b0, Ok (A := unit) tt). cbv iota beta.
  assert (builder_inv (h ++ [event]) b0) as Hi0 by (apply builder_inv_extend, (builder_inv_same h b); done).
  apply (apply_post_limits _ _ _ b b0); [done|]. clearbody b0. clear b Hi.
  set (handler := except_value_error _).
  assert (forall b1 e, (exists m, e = ValueError m) -> builder_inv (h ++ [event]) b1 -> same_limits b0 b1 ->
    apply_post h event now b0 (handler e b1)) as Hh.
  { intros b1 e [m ->] Hb1 Hl. apply (apply_post_limits _ _ _ b0 b1); [done|].
    unfold handler, except_value_error, pbind. simpl.
    apply (apply_post_spoiled _ _ _ _ key); [done| |done].
    unfold spoiled, invalidate, on_state, pmodify. simpl. by destruct (dict_get key (cb_states b1)). }
  clearbody handler. unfold ptry, pbind at 1, plift at 1.
  destruct (levels_of u "bids") as [bids|e] eqn:Eb; [|apply Hh; [by eapply levels_of_error|done|done]].
  unfold pbind at 1, plift at 1.
  destruct (levels_of u "asks") as [asks|e] eqn:Ea; [|apply Hh; [by eapply levels_of_error|done|done]].
  set (s := Build_BookState _ _ _ _ _ _ _ _ _ _ _ _ _ _ _). cbv zeta.
  unfold pbind at 1, pmodify. fold (emit s u now).
  set (b1 := set_cb_states (dict_set key s (cb_states b0)) b0).
  destruct (side_of_spec bids) as [Hdb Hwb]. destruct (side_of_spec asks) as [Hda Hwa].
  assert (state_shape key s) as Hsh.
  { destruct Ht as (Hr & Hav & Hex). constructor; [done|done|done|]. split_and!; try done.
    by apply exchange_time. }
  assert (state_traced (h ++ [event]) key s) as Htr.
  { exists event, [], (write bids (fun _ => 0)), (write asks (fun _ => 0)).
    split_and!; try done.
    - by apply (replay_snapshot event fields).
    - apply sublist_inserts_l. done.
    - intros x. rewrite Hwb. reflexivity.
    - intros x. rewrite Hwa. reflexivity. }
  assert (builder_inv (h ++ [event]) b1) as Hi1 by (by eapply builder_inv_set).
  change (set_cb_states (dict_set key s (cb_states b0)) b0) with b1.
  destruct (emit_spec s u now b1) as [(Es & Ema & Emf & _) He].
  destruct (emit s u now b1) as [b2 [[snap|]|e]]; simpl in He; [|done|].
  - split; [by apply (builder_inv_same _ b1)|]. split; [done|]. simpl. destruct He as [Hok Hsn].
    destruct (shown_times _ _ _ Hsh Hsn) as (? & ? & ?).
    split; [done|]. split; [apply Hsn|]. split; [apply Hsn|]. rewrite Hv. simpl.
    split_and!; try done. by eapply traced_shown.
  - apply Hh; [done|by apply (builder_inv_same _ b1)|done].
Qed.

Lemma traced_delta h event key s fields bids asks ubids uasks :
  state_shape key s -> state_traced h key s -> book_key_of event = key ->
  epoch_of event = bs_connection_epoch s -> payload event = Ok fields ->
  is_snapshot event (update_of fields) = false ->
  in_sequence (bs_last_sequence s) event (update_of fields) ->
  levels_of (update_of fields) "bids" = Ok ubids -> levels_of (update_of fields) "asks" = Ok uasks ->
  update_side ubids (bs_bids s) = (bids, Ok tt) -> update_side uasks (bs_asks s) = (asks, Ok tt) ->
  state_traced (h ++ [event]) key (delta_state event bids asks s).
Proof.
  intros [_ Hdb Hda _] (e & ds & db & da & Hr & Hh & Hk & He & Hid & Hids & Hb & Ha) Hke Hep Hp Hs Hseq
    Hlb Hla Hub Hua.
  exists e, (ds ++ [event]), (write ubids db), (write uasks da). split_and!; try done.
  - eapply replay_delta; try done; congruence.
  - change (e :: ds ++ [event]) with ((e :: ds) ++ [event]). by apply sublist_app.
  - by rewrite map_app, Hids.
  - intros x. rewrite (update_side_spec _ _ _ Hdb Hub). by apply write_equiv.
  - intros x. rewrite (update_side_spec _ _ _ Hda Hua). by apply write_equiv.
Qed.

Lemma delta_shape key event bids asks s :
  state_shape key s -> event_times event -> distinct_prices bids -> distinct_prices asks ->
  state_shape key (delta_state event bids asks s).
Proof.
  intros [Hk _ _ (Hsn & _)] Ht Hb Ha. pose proof (exchange_time event Ht). destruct Ht as (?&?&?).
  by constructor.
Qed.

Lemma apply_delta_post h event fields now b s :
  builder_inv h b -> event_times event -> re_venue event = "bitget" ->
  dict_get (book_key_of event) (cb_states b) = Some s -> bs_status s <> BOOK_INVALID ->
  epoch_of event = bs_connection_epoch s -> payload event = Ok fields ->
  is_snapshot event (update_of fields) = false ->
  in_sequence (bs_last_sequence s) event (update_of fields) ->
  apply_post h event now b (apply_delta event (update_of fields) (book_key_of event) now b).
Proof.
  intros Hi Ht Hv Hg Hst Hep Hp Hs Hseq. set (key := book_key_of event) in *.
  pose proof (bi_shape _ _ Hi _ _ Hg) as Hsh. pose proof (bi_traced _ _ Hi _ _ Hg Hst) as Htr.
  destruct (apply_delta_spec event (update_of fields) key now b s Hg Hsh Ht) as [Hok [Hl Hpost]].
  destruct (apply_delta event (update_of fields) key now b) as [b' [[snap|]|e]]; simpl in *; [| |done].
  - destruct Hpost as (bids & asks & ubids & uasks & Hlb & Hla & Hub & Hua & Es & Hsok & Hsn).
    pose proof (update_side_distinct ubids _ (sh_bids _ _ Hsh)) as Hdb. rewrite Hub in Hdb.
    pose proof (update_side_distinct uasks _ (sh_asks _ _ Hsh)) as Hda. rewrite Hua in Hda.
    assert (state_shape key (delta_state event bids asks s)) as Hsh' by (by apply delta_shape).
    assert (state_traced (h ++ [event]) key (delta_state event bids asks s)) as Htr'
      by (by eapply traced_delta).
    split; [eapply builder_inv_set; [apply builder_inv_extend; exact Hi|exact Es|done|done]|].
    split; [done|]. simpl. split; [done|].
    assert ((bs_venue s, bs_instrument s, bs_channel s) = key) as Hkey by apply Hsh.
    injection Hkey as Hkv Hki Hkc.
    split; [destruct Hsn as (_&_&_&_&_&_&->&_); exact Hkv|].
    split; [destruct Hsn as (_&_&_&_&_&_&_&->&_); exact Hki|].
    destruct (shown_times _ _ _ Hsh' Hsn) as (? & ? & ?).
    rewrite Hv. simpl. split_and!; try done. by eapply traced_shown.
  - destruct Hpost as (t & Es & Hsh' & Hinv).
    split; [eapply builder_inv_set; [apply builder_inv_extend; exact Hi|exact Es|done|done]|]. done.
Qed.

Lemma bitget_delta_post h event fields now b :
  builder_inv h b -> event_times event -> re_venue event = "bitget" ->
  (forall s, dict_get (book_key_of event) (cb_states b) = Some s -> bs_connection_epoch s = epoch_of event) ->
  payload event = Ok fields -> is_snapshot event (update_of fields) = false ->
  apply_post h event now b (bitget_delta event (update_of fields) (book_key_of event) now b).
Proof.
  intros Hi Ht Hv Hep Hp Hs. unfold bitget_delta, pbind at 1.
  set (b0 := (count_delta b).1). change (count_delta b) with (b0, Ok (A := unit) tt). cbv iota beta.
  assert (builder_inv h b0) as Hi0 by (by apply (builder_inv_same h b)).
  assert (forall s, dict_get (book_key_of event) (cb_states b0) = Some s ->
    bs_connection_epoch s = epoch_of event) as Hep0 by done.
  apply (apply_post_limits _ _ _ b b0); [done|]. clearbody b0. clear b Hi Hep.
  unfold pbind at 1, get_state.
  destruct (dict_get (book_key_of event) (cb_states b0)) as [s|] eqn:Eg.
  2: { by apply apply_post_unchanged. }
  destruct (bool_decide (bs_status s = BOOK_INVALID)) eqn:Est; [by apply apply_post_unchanged|].
  apply bool_decide_eq_false in Est.
  assert (forall i, apply_post h event now b0 (sequence_gap (book_key_of event) i b0)) as Hgap.
  { intros i. destruct (sequence_gap_spoiled (book_key_of event) i b0) as [Hsp Ho].
    destruct (sequence_gap (book_key_of event) i b0) as [b1 o]. simpl in *. subst o.
    by eapply apply_post_spoiled; [apply builder_inv_extend| |]. }
  destruct (previous_sequence (update_of fields)) as [previous|] eqn:Ep; [|apply Hgap].
  specialize (Hep0 s eq_refl). symmetry in Hep0.
  assert (in_sequence (bs_last_sequence s) event (update_of fields) ->
    apply_post h event now b0 (apply_delta event (update_of fields) (book_key_of event) now b0)) as Happ.
  { intros Hseq. by eapply apply_delta_post. }
  unfold in_sequence in Happ. rewrite Ep in Happ.
  destruct (re_sequence event) as [sequence|]; [|by apply Happ].
  destruct (bs_last_sequence s) as [last|]; [|by apply Happ].
  destruct (Z.leb_spec sequence last); [by apply apply_post_unchanged|].
  destruct previous as [previous|].
  - destruct (Z.eqb_spec previous last); simpl; [by apply Happ|apply Hgap].
  - destruct (Z.eqb_spec sequence (last + 1)); simpl; [by apply Happ|apply Hgap].
Qed.

Lemma dict_pop_inv h b key :
  builder_inv h b -> builder_inv h (set_cb_states (dict_pop key (cb_states b)) b).
Proof.
  intros [H1 H2 H3]. constructor; simpl.
  - by apply dict_pop_NoDup.
  - intros k s Hg. apply H2. by eapply dict_pop_get.
  - intros k s Hg. apply H3. by eapply dict_pop_get.
Qed.

Lemma apply_bitget_post h event now b :
  builder_inv h b -> event_times event -> re_venue event = "bitget" ->
  apply_post h event now b (apply_bitget event now b).
Proof.
  intros Hi Ht Hv. unfold apply_bitget. fold (book_key_of event). set (key := book_key_of event).
  unfold pbind at 1, get_state. unfold pbind at 1.
  match goal with |- apply_post _ _ _ _ (let (_, _) := ?m in _) => set (r := m) end.
  assert (r.2 = Ok tt /\ builder_inv h r.1 /\ same_limits b r.1 /\
    forall s, dict_get key (cb_states r.1) = Some s -> bs_connection_epoch s = epoch_of event)
    as (Ho & Hi1 & Hl1 & Hep).
  { subst r. destruct (dict_get key (cb_states b)) as [s|] eqn:Eg.
    - destruct (Z.eqb_spec (bs_connection_epoch s) (epoch_of event)) as [E|E].
      + split_and!; try done. intros s'. simpl. rewrite Eg. by intros [= <-].
      + split_and!; try done; [by apply (dict_pop_inv h (count_reconnect b).1 key), (builder_inv_same h b)|].
        intros s'. simpl. rewrite dict_get_pop_eq by apply Hi. done.
    - split_and!; try done. intros s'. simpl. by rewrite Eg. }
  destruct r as [b1 o]. simpl in *. subst o.
  apply (apply_post_limits _ _ _ b b1); [done|]. unfold pbind at 1, plift at 1.
  destruct (payload event) as [fields|e] eqn:Ep; [|by apply apply_post_unchanged].
  cbv zeta. destruct (is_snapshot event (update_of fields)) eqn:Es.
  - by apply bitget_snapshot_post.
  - by apply bitget_delta_post.
Qed.

Lemma standalone_post event now b :
  re_venue event = "hyperliquid" -> event_times event ->
  same_books b (standalone_snapshot event now b).1 /\
  match (standalone_snapshot event now b).2 with
  | Ok snap => snapshot_ok b now snap /\ forall h, emitted h event snap
  | Err _ => True
  end.
Proof.
  intros Hv Ht. unfold standalone_snapshot, pbind, plift.
  destruct (payload event) as [fields|e] eqn:Ep; [|done].
  destruct (levels_of fields "bids") as [bids|e] eqn:Eb; [|done].
  destruct (levels_of fields "asks") as [asks|e] eqn:Ea; [|done].
  unfold canonical. cbv iota beta.
  match goal with |- same_books _ (?m b).1 /\ _ =>
    pose proof (canonical_book_frame bids asks (re_event_id event) [] (re_sequence event)
      (default 0%Z (re_connection_epoch event)) now (re_venue event) (re_canonical_instrument_id event)
      (default (re_available_at event) (re_exchange_timestamp event)) (re_received_at event)
      (re_available_at event) (Some (re_normalizer_version event)) b) as Hf;
    destruct (m b) as [b' [snap|e]] eqn:E end; [|done].
  split; [done|]. apply canonical_book_spec in E as (_ & Hok & Hb & Ha & _ & _ & _ & _ & Hve & Hin & Hex & Hre & Hav).
  split; [done|]. intros h. split; [done|]. split; [done|]. rewrite Hv, Hex, Hre, Hav. simpl.
  pose proof (exchange_time event Ht). destruct Ht as (? & ? & _).
  split_and!; try done. by exists fields, bids, asks.
Qed.

Lemma apply_event_post h event now b :
  builder_inv h b -> event_times event -> apply_post h event now b (apply event now b).
Proof.
  intros Hi Ht. unfold apply.
  destruct (bool_decide (re_venue event ∈ _)) eqn:Ev; [|by apply apply_post_unchanged].
  destruct (bool_decide (re_canonical_instrument_id event ∈ _)); [|by apply apply_post_unchanged].
  destruct (bool_decide (re_event_type event ∈ _)); [|by apply apply_post_unchanged].
  cbn [negb orb].
  destruct (bool_decide (re_venue event = "hyperliquid")) eqn:Eh.
  2: { apply apply_bitget_post; [done|done|]. apply bool_decide_eq_true in Ev.
       apply bool_decide_eq_false in Eh.
       apply elem_of_cons in Ev as [?|?%list_elem_of_singleton]; done. }
  destruct (bool_decide (re_event_type event = _)); [|by apply apply_post_unchanged].
  apply bool_decide_eq_true in Eh. cbn [negb]. unfold pbind at 1.
  set (b0 := (count_snapshot b).1). change (count_snapshot b) with (b0, Ok (A := unit) tt). cbv iota beta.
  apply (apply_post_limits _ _ _ b b0); [done|].
  assert (builder_inv h b0) as Hi0 by (by apply (builder_inv_same h b)). clearbody b0. clear b Hi.
  unfold ptry, pbind at 1. pose proof (standalone_post event now b0 Eh Ht) as [(Es & Ha & Hf & Hr) Hpost].
  destruct (standalone_snapshot event now b0) as [b1 [snap|e]]; simpl in *.
  - split; [by apply (builder_inv_same _ b0), builder_inv_extend|]. split; [done|]. simpl.
    destruct Hpost as [Hok Hem]. by split.
  - apply (apply_post_limits _ _ _ b0 b1); [done|].
    assert (builder_inv h b1) by (by apply (builder_inv_same _ b0)).
    destruct e; by apply apply_post_unchanged.
Qed.

(** ** Runs *)

(** The events a builder is given, in order, with the times of the calls. *)
Definition builder_run (events : list (RawMarketEvent * Z)) (b : Builder) : Builder :=
  fold_left (fun b e => (apply e.1 e.2 b).1) events b.

Lemma builder_run_inv h events b :
  builder_inv h b -> Forall (fun e => event_times e.1) events ->
  builder_inv (h ++ map fst events) (builder_run events b) /\
  same_limits b (builder_run events b).
Proof.
  revert h b. induction events as [|e events IH]; intros h b Hi Ht; simpl.
  { by rewrite app_nil_r. }
  inversion Ht as [|? ? He Hes]; subst.
  destruct (apply_event_post h e.1 e.2 b Hi He) as (Hi1 & [Ha Hf] & _).
  destruct (IH _ _ Hi1 Hes) as [Hi2 [Ha' Hf']].
  split; [by rewrite <- app_assoc in Hi2|]. split; congruence.
Qed.

Lemma Builder_new_inv age future : builder_inv [] (Builder_new age future).
Proof. constructor; [constructor|done|done]. Qed.

End Replay.


(** ** A run *)

Module BookSample.

Definition dec (c : N) (e : Z) : finite_decimal := {| fd_neg := false; fd_coef := c; fd_exp := e |}.
Definition levels_json (ls : list (string * string)) : json :=
  JArray (map (fun l => JArray [jstr l.1; jstr l.2]) ls).

Definition sample_payload (bids asks : list (string * string)) (more : list (chars * json)) : string :=
  untext (dumps compact_style
    (JObject ([(text "bids", levels_json bids); (text "asks", levels_json asks)] ++ more))).

Definition sample_event (id type : string) (sequence at_ : Z) (raw : string) : RawMarketEvent := {|
  re_event_id := id; re_venue := "bitget"; re_canonical_instrument_id := "BTC";
  re_venue_symbol := "BTCUSDT"; re_event_type := type; re_exchange_timestamp := Some at_;
  re_received_at := at_; re_available_at := at_; re_sequence := Some sequence;
  re_connection_id := None; re_reconciliation_state := None; re_payload_sha256 := "";
  re_raw_payload := raw; re_normalizer_version := "1"; re_capability_verification_run_id := "run";
  re_created_at := at_; re_raw_payload_id := None; re_source_payload_sha256 := None;
  re_channel := "books"; re_snapshot_sequence := None; re_delta_sequence := None;
  re_connection_epoch := Some 1%Z; re_timestamp_semantic := REALTIME_EVENT;
  re_availability_provenance := OBSERVED_RETRIEVAL_TIME; re_exchange_server_time := None;
  re_timeframe := None |}.

Definition t0 : Z := 1700000000000000.
Definition snapshot_event : RawMarketEvent :=
  sample_event "s1" "orderbook_snapshot" 10 t0
    (sample_payload [("100.0", "2"); ("99.5", "1")] [("100.5", "3")] []).
(** The delta removes the best bid and adds a level. *)
Definition delta_event : RawMarketEvent :=
  sample_event "d1" "orderbook_delta" 11 (t0 + 1000000)
    (sample_payload [("100", "0"); ("99.8", "4.50")] [] [(text "previous_sequence", JInt 10)]).

Definition built : Builder := builder_run (D := length_digest) [(snapshot_event, t0)] (Builder_new 30 1).

Definition outcome : Builder * result (option CanonicalOrderBookSnapshot) :=
  Eval vm_compute in apply (D := length_digest) delta_event (t0 + 1000000) built.

Definition snap : CanonicalOrderBookSnapshot :=
  match outcome.2 with Ok (Some s) => s | _ =>
    {| cs_venue := ""; cs_instrument := ""; cs_bids := []; cs_asks := []; cs_best_bid := dec 0 0;
       cs_best_ask := dec 0 0; cs_depth_level_count := 0; cs_source_snapshot_event_id := "";
       cs_applied_delta_event_ids := []; cs_last_sequence := None; cs_connection_epoch := 0;
       cs_exchange_timestamp := 0; cs_received_at := 0; cs_available_at := 0;
       cs_state_status := BOOK_INVALID; cs_state_hash := ""; cs_normalizer_version := "" |} end.

End BookSample.

