(* ===== verification/ShadowStore.v ===== *)
(** * The store of experimental events (services/research/repository.py,
      services/research/models.py)

    The shadow runtime reads stored market events after a cursor per stream, and
    commits the cursors together with a checkpoint of its state.  [EventRepository]
    is the Protocol it uses (ExperimentalEventRepository); the in-memory repository
    implements it, and [sql_list_after] is the listing of the PostgreSQL repository
    over the query of one stream. *)

From Stdlib Require Import ZArith QArith Qround NArith Lia.
From stdpp Require Import base tactics list strings.
From S2P Require Import Prelude Decimals Binary64 Evidence Json PyText FundingCarry ShadowBook.

Local Open Scope string_scope.
Local Open Scope list_scope.

Record ExperimentalEventCursor := {
  ec_run_id : string;
  ec_venue : string;
  ec_instrument : string;
  ec_event_stream : string;
  ec_last_available_at : option Z;
  ec_last_event_id : option string;
  ec_updated_at : Z;
}.

Definition cursor_id (c : ExperimentalEventCursor) : string * string := (ec_venue c, ec_event_stream c).

(** [__post_init__] *)
Definition ExperimentalEventCursor_validate (c : ExperimentalEventCursor)
  : result ExperimentalEventCursor :=
  if negb (forallb (fun s => negb (bool_decide (s = EmptyString)))
             [ec_run_id c; ec_venue c; ec_instrument c; ec_event_stream c])
  then Err (ValueError "experimental event cursor identity is required")
  else
    match ec_last_available_at c, ec_last_event_id c with
    | Some _, Some _ | None, None => Ok c
    | _, _ => Err (ValueError "cursor ordering fields must be both present or both absent")
    end.

Record ShadowInputCheckpoint := {
  cp_run_id : string;
  cp_state_json : chars;
  cp_events_fetched_total : Z;
  cp_events_processed_total : Z;
  cp_events_failed_total : Z;
  cp_batch_count : Z;
  cp_last_batch_size : Z;
  cp_scan_duration_ms : finite_decimal;
  cp_processing_duration_ms : finite_decimal;
  cp_latest_db_event_available_at : option Z;
  cp_shadow_input_lag_seconds : option finite_decimal;
  cp_shadow_input_backlog_estimate : Z;
  cp_strategy_observation_first_at : option Z;
  cp_strategy_observation_last_at : option Z;
  cp_last_cursor_advanced_at : option Z;
  cp_runtime_status : string;
  cp_updated_at : Z;
  cp_instrument : string;
}.

(** [__post_init__] *)
Definition ShadowInputCheckpoint_validate (c : ShadowInputCheckpoint) : result ShadowInputCheckpoint :=
  if bool_decide (cp_run_id c = EmptyString)
  then Err (ValueError "shadow input checkpoint run identity is required")
  else Ok c.

(** [_shadow_event_stream] *)
Definition shadow_event_stream (event_type : string) : string :=
  if bool_decide (event_type = "funding_current") then "funding_current" else "orderbook_snapshot".

Definition event_stream_id (e : RawMarketEvent) : string * string :=
  (re_venue e, shadow_event_stream (re_event_type e)).

(** The position of an event, and the order of positions. *)
Definition position : Type := Z * string.
Definition event_position (e : RawMarketEvent) : position := (re_available_at e, re_event_id e).
Definition position_leb (a b : position) : bool :=
  (a.1 <? b.1)%Z || (a.1 =? b.1)%Z && string_leb a.2 b.2.
Definition position_ltb (a b : position) : bool := negb (position_leb b a).
Definition event_leb (a b : RawMarketEvent) : bool :=
  position_leb (event_position a) (event_position b).

Definition cursor_position (c : ExperimentalEventCursor) : option position :=
  match ec_last_available_at c with
  | Some at_ => Some (at_, default EmptyString (ec_last_event_id c))
  | None => None
  end.

(** An event after the cursor of its stream, if it has one. *)
Definition after_cursor (cursor : option ExperimentalEventCursor) (e : RawMarketEvent) : bool :=
  match cursor with
  | Some c =>
      match cursor_position c with
      | Some p => position_ltb p (event_position e)
      | None => true
      end
  | None => true
  end.

(** [{(item.venue, item.event_stream): item for item in cursors}] *)
Definition cursor_map (cursors : list ExperimentalEventCursor)
  : list ((string * string) * ExperimentalEventCursor) :=
  fold_left (fun m c => dict_set (cursor_id c) c m) cursors [].

(** ** The interface of the runtime *)

Class EventRepository (R : Type) := {
  list_experimental_events_after : list ExperimentalEventCursor -> list string -> string ->
    list string -> Z -> M R (list RawMarketEvent);
  experimental_event_backlog : list ExperimentalEventCursor -> list string -> string ->
    list string -> M R (Z * option Z);
  shadow_input_checkpoint : string -> string ->
    M R (list ExperimentalEventCursor * option ShadowInputCheckpoint);
  commit_shadow_input_checkpoint : list ExperimentalEventCursor -> ShadowInputCheckpoint -> M R unit;
  list_experimental_event_ids_between : string -> string -> string -> Z -> string -> Z -> string ->
    M R (list string);
}.

(** ** The in-memory repository *)

Record MemoryRepository := {
  mr_experimental_events : list (string * RawMarketEvent);
  mr_shadow_cursors : list ((string * string * string * string) * ExperimentalEventCursor);
  mr_shadow_checkpoints : list ((string * string) * ShadowInputCheckpoint);
}.

Definition selected (venues : list string) (instrument : string) (event_types : list string)
    (e : RawMarketEvent) : bool :=
  bool_decide (re_venue e ∈ venues) &&
  bool_decide (re_canonical_instrument_id e = instrument) &&
  bool_decide (re_event_type e ∈ event_types).

(** [xs[:limit]] *)
Definition slice {A} (limit : Z) (xs : list A) : list A :=
  if (0 <=? limit)%Z then take (Z.to_nat limit) xs
  else take (Z.to_nat (Z.of_nat (length xs) + limit)) xs.

Definition memory_list_after (self : MemoryRepository) (cursors : list ExperimentalEventCursor)
    (venues : list string) (instrument : string) (event_types : list string) (limit : Z)
  : list RawMarketEvent :=
  let cursors := cursor_map cursors in
  let unseen e := after_cursor (dict_get (event_stream_id e) cursors) e in
  slice limit (sorted_by event_leb
    (List.filter (fun e => selected venues instrument event_types e && unseen e)
       (dict_values (mr_experimental_events self)))).

(** [max(xs, default=None)] *)
Definition max_time (xs : list Z) : option Z :=
  match xs with [] => None | x :: xs => Some (fold_left Z.max xs x) end.

Definition memory_backlog (self : MemoryRepository) (cursors : list ExperimentalEventCursor)
    (venues : list string) (instrument : string) (event_types : list string) : Z * option Z :=
  (Z.of_nat (length (memory_list_after self cursors venues instrument event_types
     (Z.of_nat (length (mr_experimental_events self)) + 1))),
   max_time (map re_available_at (List.filter (selected venues instrument event_types)
     (dict_values (mr_experimental_events self))))).

Definition memory_shadow_checkpoint (self : MemoryRepository) (run_id instrument : string)
  : list ExperimentalEventCursor * option ShadowInputCheckpoint :=
  (sorted_by (fun a b => pair_leb (cursor_id a) (cursor_id b))
     (map snd (List.filter (fun kc => bool_decide (kc.1.1.1.1 = run_id) &&
                                       bool_decide (ec_instrument kc.2 = instrument))
        (mr_shadow_cursors self))),
   dict_get (run_id, instrument) (mr_shadow_checkpoints self)).

Definition memory_commit (self : MemoryRepository) (cursors : list ExperimentalEventCursor)
    (checkpoint : ShadowInputCheckpoint) : MemoryRepository := {|
  mr_experimental_events := mr_experimental_events self;
  mr_shadow_cursors :=
    fold_left (fun m c => dict_set (ec_run_id c, ec_venue c, ec_instrument c, ec_event_stream c) c m)
      cursors (mr_shadow_cursors self);
  mr_shadow_checkpoints :=
    dict_set (cp_run_id checkpoint, cp_instrument checkpoint) checkpoint (mr_shadow_checkpoints self) |}.

Definition memory_ids_between (self : MemoryRepository) (venue instrument event_type : string)
    (after_available_at : Z) (after_event_id : string) (through_available_at : Z)
    (through_event_id : string) : list string :=
  map re_event_id (sorted_by event_leb
    (List.filter (fun e =>
       selected [venue] instrument [event_type] e &&
       position_ltb (after_available_at, after_event_id) (event_position e) &&
       position_leb (event_position e) (through_available_at, through_event_id))
       (dict_values (mr_experimental_events self)))).

#[export] Instance memory_event_repository : EventRepository MemoryRepository := {|
  list_experimental_events_after cursors venues instrument types limit r :=
    (r, Ok (memory_list_after r cursors venues instrument types limit));
  experimental_event_backlog cursors venues instrument types r :=
    (r, Ok (memory_backlog r cursors venues instrument types));
  shadow_input_checkpoint run_id instrument r := (r, Ok (memory_shadow_checkpoint r run_id instrument));
  commit_shadow_input_checkpoint cursors checkpoint r := (memory_commit r cursors checkpoint, Ok tt);
  list_experimental_event_ids_between venue instrument type after_at after_id through_at through_id r :=
    (r, Ok (memory_ids_between r venue instrument type after_at after_id through_at through_id));
|}.

(** ** The listing of the PostgreSQL repository

    [select venue instrument types cursor limit] is the query of one stream: its rows
    after the cursor in order of position, [limit] at most. *)
Section Sql.
Variable select : string -> string -> list string -> option ExperimentalEventCursor -> nat ->
  list RawMarketEvent.

Definition stream_types (stream : string) : list string :=
  if bool_decide (stream = "funding_current") then ["funding_current"]
  else ["orderbook_snapshot"; "orderbook_delta"].

Definition stream_queries (venues event_types : list string) : list (string * string) :=
  List.filter (fun q : string * string => existsb (fun t => bool_decide (t ∈ event_types)) (stream_types q.2))
    (flat_map (fun v => [(v, "funding_current"); (v, "orderbook_snapshot")]) venues).

(** [max(1, math.ceil(limit / n))] *)
Definition per_stream_limit (limit : Z) (n : nat) : nat :=
  Z.to_nat (Z.max 1 (Qceiling (fl (Qdiv (inject_Z limit) (inject_Z (Z.of_nat n)))))).

Definition sql_list_after (cursors : list ExperimentalEventCursor) (venues : list string)
    (instrument : string) (event_types : list string) (limit : Z) : list RawMarketEvent :=
  let cursors := cursor_map cursors in
  match stream_queries venues event_types with
  | [] => []
  | queries =>
      slice limit (sorted_by event_leb
        (flat_map (fun q : string * string =>
           select q.1 instrument
             (List.filter (fun t => bool_decide (t ∈ event_types)) (stream_types q.2))
             (dict_get q cursors) (per_stream_limit limit (length queries))) queries))
  end.
End Sql.
