(* ===== verification/ShadowRuntime.v ===== *)
(** * The shadow runtime (services/operations/shadow_runtime.py)

    [FundingCarryShadowInstrumentRuntime] reads the stored events of one instrument
    batch by batch, keeps the latest funding observation and order book of each
    venue, and pairs them when they are fresh and synchronized.  A batch that fails
    is rolled back to the state before it; the state is kept as a JSON text, so that
    the rollback and a restart read what the checkpoint says.
    [FundingCarryShadowRuntime] owns one such machine per instrument.

    A step works on the runtime and the repository together.  The durations measured
    by [perf_counter] and [datetime.now(UTC)] of the constructor are arguments. *)

From Stdlib Require Import ZArith QArith Qround Qabs NArith Lia Lqa.
From stdpp Require Import base tactics list strings.
From S2P Require Import Prelude Decimals Binary64 Evidence Json PyText FundingCarry.
From S2P Require Import ShadowBook ShadowStore.

Local Open Scope string_scope.
Local Open Scope list_scope.

(** ** Data *)

(** A [LiveSignalInput] whose decimals keep their exponent. *)
Record SignalInput := {
  si_event_id : string;
  si_venue : string;
  si_instrument : string;
  si_event_type : string;
  si_available_at : Z;
  (** the text of the float *)
  si_data_quality_score : chars;
  si_capability_support : string;
  si_reconciliation_state : option string;
  si_bid : option finite_decimal;
  si_ask : option finite_decimal;
  si_bid_size : option finite_decimal;
  si_ask_size : option finite_decimal;
  si_funding_rate : option finite_decimal;
  si_bids : list level;
  si_asks : list level;
  si_funding_unit : option string;
  si_funding_interval_seconds : option Z;
  si_next_funding_at : option datetime;
  si_source_timestamp : option Z;
  si_received_at : option Z;
  si_source_table : string;
  si_normalizer_version : string;
  si_connection_epoch : option Z;
  si_sequence : option Z;
  si_state_hash : option string;
  si_source_event_id : option string;
  si_applied_source_event_ids : list string;
  si_timestamp_semantic : option string;
  si_exchange_timestamp : option Z;
  si_freshness_age_seconds : option finite_decimal;
}.

Definition set_si_applied_source_event_ids (v : list string) (r : SignalInput) : SignalInput :=
  {|
     si_event_id := si_event_id r; si_venue := si_venue r; si_instrument := si_instrument r;
     si_event_type := si_event_type r; si_available_at := si_available_at r; si_data_quality_score := si_data_quality_score r;
     si_capability_support := si_capability_support r;
     si_reconciliation_state := si_reconciliation_state r; si_bid := si_bid r;
     si_ask := si_ask r; si_bid_size := si_bid_size r; si_ask_size := si_ask_size r;
     si_funding_rate := si_funding_rate r; si_bids := si_bids r; si_asks := si_asks r;
     si_funding_unit := si_funding_unit r;
     si_funding_interval_seconds := si_funding_interval_seconds r;
     si_next_funding_at := si_next_funding_at r; si_source_timestamp := si_source_timestamp r;
     si_received_at := si_received_at r; si_source_table := si_source_table r;
     si_normalizer_version := si_normalizer_version r;
     si_connection_epoch := si_connection_epoch r; si_sequence := si_sequence r;
     si_state_hash := si_state_hash r; si_source_event_id := si_source_event_id r;
     si_applied_source_event_ids := v; si_timestamp_semantic := si_timestamp_semantic r;
     si_exchange_timestamp := si_exchange_timestamp r;
     si_freshness_age_seconds := si_freshness_age_seconds r |}.

Definition set_si_exchange_timestamp (v : option Z) (r : SignalInput) : SignalInput :=
  {|
     si_event_id := si_event_id r; si_venue := si_venue r; si_instrument := si_instrument r;
     si_event_type := si_event_type r; si_available_at := si_available_at r; si_data_quality_score := si_data_quality_score r;
     si_capability_support := si_capability_support r;
     si_reconciliation_state := si_reconciliation_state r; si_bid := si_bid r;
     si_ask := si_ask r; si_bid_size := si_bid_size r; si_ask_size := si_ask_size r;
     si_funding_rate := si_funding_rate r; si_bids := si_bids r; si_asks := si_asks r;
     si_funding_unit := si_funding_unit r;
     si_funding_interval_seconds := si_funding_interval_seconds r;
     si_next_funding_at := si_next_funding_at r; si_source_timestamp := si_source_timestamp r;
     si_received_at := si_received_at r; si_source_table := si_source_table r;
     si_normalizer_version := si_normalizer_version r;
     si_connection_epoch := si_connection_epoch r; si_sequence := si_sequence r;
     si_state_hash := si_state_hash r; si_source_event_id := si_source_event_id r;
     si_applied_source_event_ids := si_applied_source_event_ids r;
     si_timestamp_semantic := si_timestamp_semantic r; si_exchange_timestamp := v;
     si_freshness_age_seconds := si_freshness_age_seconds r |}.

Definition set_si_freshness_age_seconds (v : option finite_decimal) (r : SignalInput) : SignalInput :=
  {|
     si_event_id := si_event_id r; si_venue := si_venue r; si_instrument := si_instrument r;
     si_event_type := si_event_type r; si_available_at := si_available_at r; si_data_quality_score := si_data_quality_score r;
     si_capability_support := si_capability_support r;
     si_reconciliation_state := si_reconciliation_state r; si_bid := si_bid r;
     si_ask := si_ask r; si_bid_size := si_bid_size r; si_ask_size := si_ask_size r;
     si_funding_rate := si_funding_rate r; si_bids := si_bids r; si_asks := si_asks r;
     si_funding_unit := si_funding_unit r;
     si_funding_interval_seconds := si_funding_interval_seconds r;
     si_next_funding_at := si_next_funding_at r; si_source_timestamp := si_source_timestamp r;
     si_received_at := si_received_at r; si_source_table := si_source_table r;
     si_normalizer_version := si_normalizer_version r;
     si_connection_epoch := si_connection_epoch r; si_sequence := si_sequence r;
     si_state_hash := si_state_hash r; si_source_event_id := si_source_event_id r;
     si_applied_source_event_ids := si_applied_source_event_ids r;
     si_timestamp_semantic := si_timestamp_semantic r;
     si_exchange_timestamp := si_exchange_timestamp r; si_freshness_age_seconds := v |}.

Record MissingShadowInput := {
  mi_reason : FundingCarryRejectCode;
  mi_venue : string;
  mi_capability : string;
  mi_last_seen_event_at : option Z;
  mi_last_valid_event_at : option Z;
  mi_source_event_count : Z;
}.

Record ShadowTimingMetrics := {
  tm_hyperliquid_funding_age_seconds : Decimal;
  tm_bitget_funding_age_seconds : Decimal;
  tm_funding_observation_skew_seconds : Decimal;
  tm_hyperliquid_orderbook_age_seconds : Decimal;
  tm_bitget_orderbook_age_seconds : Decimal;
  tm_orderbook_venue_skew_seconds : Decimal;
  tm_funding_freshness_pass : bool;
  tm_orderbook_freshness_pass : bool;
  tm_orderbook_synchronization_pass : bool;
}.

Record ShadowInputBatch := {
  ib_events : list SignalInput;
  ib_matched : bool;
  ib_pair_identity : option string;
  ib_source_pair_duplicate : bool;
  ib_missing : option MissingShadowInput;
  ib_timing : option ShadowTimingMetrics;
  ib_instrument : string;
}.

(** The attributes that do not change after [__init__]. *)
Record RuntimeConfig := {
  rc_run_id : string;
  rc_instrument : string;
  rc_fair_consumption : bool;
  rc_batch_size : Z;
  rc_maximum_shadow_input_stall_seconds : Z;
  rc_maximum_orderbook_age : Z;
  rc_maximum_future : Z;
  rc_funding_max_age_seconds : Z;
  rc_funding_max_observation_skew_seconds : Z;
  rc_maximum_orderbook_venue_skew_seconds : Z;
}.

(** [_stream_metrics] holds its entries as they are serialized. *)
Record Runtime := {
  rt_book_builder : Builder;
  rt_latest_funding : list (string * SignalInput);
  rt_latest_books : list (string * SignalInput);
  rt_last_pair_identity : option string;
  rt_source_event_count : Z;
  rt_last_seen : list ((string * string) * Z);
  rt_last_valid : list ((string * string) * Z);
  rt_funding_invalid_reason : list (string * FundingCarryRejectCode);
  rt_events_fetched_total : Z;
  rt_events_processed_total : Z;
  rt_events_failed_total : Z;
  rt_batch_count : Z;
  rt_last_batch_size : Z;
  rt_scan_duration_ms : finite_decimal;
  rt_processing_duration_ms : finite_decimal;
  rt_latest_db_event_available_at : option Z;
  rt_lag_seconds : option finite_decimal;
  rt_backlog_estimate : Z;
  rt_backlog_event_count : Z;
  rt_stream_metrics : list json;
  rt_strategy_observation_first_at : option Z;
  rt_strategy_observation_last_at : option Z;
  rt_last_cursor_advanced_at : option Z;
  rt_runtime_status : string;
  rt_processed_by_stream : list ((string * string) * Z);
  rt_started_at : Z;
  rt_cursors : list ExperimentalEventCursor;
}.

Definition set_rt_book_builder (v : Builder) (r : Runtime) : Runtime :=
  {|
     rt_book_builder := v; rt_latest_funding := rt_latest_funding r;
     rt_latest_books := rt_latest_books r; rt_last_pair_identity := rt_last_pair_identity r;
     rt_source_event_count := rt_source_event_count r; rt_last_seen := rt_last_seen r;
     rt_last_valid := rt_last_valid r;
     rt_funding_invalid_reason := rt_funding_invalid_reason r;
     rt_events_fetched_total := rt_events_fetched_total r;
     rt_events_processed_total := rt_events_processed_total r;
     rt_events_failed_total := rt_events_failed_total r; rt_batch_count := rt_batch_count r;
     rt_last_batch_size := rt_last_batch_size r; rt_scan_duration_ms := rt_scan_duration_ms r;
     rt_processing_duration_ms := rt_processing_duration_ms r;
     rt_latest_db_event_available_at := rt_latest_db_event_available_at r;
     rt_lag_seconds := rt_lag_seconds r; rt_backlog_estimate := rt_backlog_estimate r;
     rt_backlog_event_count := rt_backlog_event_count r;
     rt_stream_metrics := rt_stream_metrics r;
     rt_strategy_observation_first_at := rt_strategy_observation_first_at r;
     rt_strategy_observation_last_at := rt_strategy_observation_last_at r;
     rt_last_cursor_advanced_at := rt_last_cursor_advanced_at r;
     rt_runtime_status := rt_runtime_status r;
     rt_processed_by_stream := rt_processed_by_stream r; rt_started_at := rt_started_at r;
     rt_cursors := rt_cursors r |}.

Definition set_rt_latest_funding (v : list (string * SignalInput)) (r : Runtime) : Runtime :=
  {|
     rt_book_builder := rt_book_builder r; rt_latest_funding := v;
     rt_latest_books := rt_latest_books r; rt_last_pair_identity := rt_last_pair_identity r;
     rt_source_event_count := rt_source_event_count r; rt_last_seen := rt_last_seen r;
     rt_last_valid := rt_last_valid r;
     rt_funding_invalid_reason := rt_funding_invalid_reason r;
     rt_events_fetched_total := rt_events_fetched_total r;
     rt_events_processed_total := rt_events_processed_total r;
     rt_events_failed_total := rt_events_failed_total r; rt_batch_count := rt_batch_count r;
     rt_last_batch_size := rt_last_batch_size r; rt_scan_duration_ms := rt_scan_duration_ms r;
     rt_processing_duration_ms := rt_processing_duration_ms r;
     rt_latest_db_event_available_at := rt_latest_db_event_available_at r;
     rt_lag_seconds := rt_lag_seconds r; rt_backlog_estimate := rt_backlog_estimate r;
     rt_backlog_event_count := rt_backlog_event_count r;
     rt_stream_metrics := rt_stream_metrics r;
     rt_strategy_observation_first_at := rt_strategy_observation_first_at r;
     rt_strategy_observation_last_at := rt_strategy_observation_last_at r;
     rt_last_cursor_advanced_at := rt_last_cursor_advanced_at r;
     rt_runtime_status := rt_runtime_status r;
     rt_processed_by_stream := rt_processed_by_stream r; rt_started_at := rt_started_at r;
     rt_cursors := rt_cursors r |}.

Definition set_rt_latest_books (v : list (string * SignalInput)) (r : Runtime) : Runtime :=
  {|
     rt_book_builder := rt_book_builder r; rt_latest_funding := rt_latest_funding r;
     rt_latest_books := v; rt_last_pair_identity := rt_last_pair_identity r;
     rt_source_event_count := rt_source_event_count r; rt_last_seen := rt_last_seen r;
     rt_last_valid := rt_last_valid r;
     rt_funding_invalid_reason := rt_funding_invalid_reason r;
     rt_events_fetched_total := rt_events_fetched_total r;
     rt_events_processed_total := rt_events_processed_total r;
     rt_events_failed_total := rt_events_failed_total r; rt_batch_count := rt_batch_count r;
     rt_last_batch_size := rt_last_batch_size r; rt_scan_duration_ms := rt_scan_duration_ms r;
     rt_processing_duration_ms := rt_processing_duration_ms r;
     rt_latest_db_event_available_at := rt_latest_db_event_available_at r;
     rt_lag_seconds := rt_lag_seconds r; rt_backlog_estimate := rt_backlog_estimate r;
     rt_backlog_event_count := rt_backlog_event_count r;
     rt_stream_metrics := rt_stream_metrics r;
     rt_strategy_observation_first_at := rt_strategy_observation_first_at r;
     rt_strategy_observation_last_at := rt_strategy_observation_last_at r;
     rt_last_cursor_advanced_at := rt_last_cursor_advanced_at r;
     rt_runtime_status := rt_runtime_status r;
     rt_processed_by_stream := rt_processed_by_stream r; rt_started_at := rt_started_at r;
     rt_cursors := rt_cursors r |}.

Definition set_rt_last_pair_identity (v : option string) (r : Runtime) : Runtime :=
  {|
     rt_book_builder := rt_book_builder r; rt_latest_funding := rt_latest_funding r;
     rt_latest_books := rt_latest_books r; rt_last_pair_identity := v;
     rt_source_event_count := rt_source_event_count r; rt_last_seen := rt_last_seen r;
     rt_last_valid := rt_last_valid r;
     rt_funding_invalid_reason := rt_funding_invalid_reason r;
     rt_events_fetched_total := rt_events_fetched_total r;
     rt_events_processed_total := rt_events_processed_total r;
     rt_events_failed_total := rt_events_failed_total r; rt_batch_count := rt_batch_count r;
     rt_last_batch_size := rt_last_batch_size r; rt_scan_duration_ms := rt_scan_duration_ms r;
     rt_processing_duration_ms := rt_processing_duration_ms r;
     rt_latest_db_event_available_at := rt_latest_db_event_available_at r;
     rt_lag_seconds := rt_lag_seconds r; rt_backlog_estimate := rt_backlog_estimate r;
     rt_backlog_event_count := rt_backlog_event_count r;
     rt_stream_metrics := rt_stream_metrics r;
     rt_strategy_observation_first_at := rt_strategy_observation_first_at r;
     rt_strategy_observation_last_at := rt_strategy_observation_last_at r;
     rt_last_cursor_advanced_at := rt_last_cursor_advanced_at r;
     rt_runtime_status := rt_runtime_status r;
     rt_processed_by_stream := rt_processed_by_stream r; rt_started_at := rt_started_at r;
     rt_cursors := rt_cursors r |}.

Definition set_rt_source_event_count (v : Z) (r : Runtime) : Runtime :=
  {|
     rt_book_builder := rt_book_builder r; rt_latest_funding := rt_latest_funding r;
     rt_latest_books := rt_latest_books r; rt_last_pair_identity := rt_last_pair_identity r;
     rt_source_event_count := v; rt_last_seen := rt_last_seen r;
     rt_last_valid := rt_last_valid r;
     rt_funding_invalid_reason := rt_funding_invalid_reason r;
     rt_events_fetched_total := rt_events_fetched_total r;
     rt_events_processed_total := rt_events_processed_total r;
     rt_events_failed_total := rt_events_failed_total r; rt_batch_count := rt_batch_count r;
     rt_last_batch_size := rt_last_batch_size r; rt_scan_duration_ms := rt_scan_duration_ms r;
     rt_processing_duration_ms := rt_processing_duration_ms r;
     rt_latest_db_event_available_at := rt_latest_db_event_available_at r;
     rt_lag_seconds := rt_lag_seconds r; rt_backlog_estimate := rt_backlog_estimate r;
     rt_backlog_event_count := rt_backlog_event_count r;
     rt_stream_metrics := rt_stream_metrics r;
     rt_strategy_observation_first_at := rt_strategy_observation_first_at r;
     rt_strategy_observation_last_at := rt_strategy_observation_last_at r;
     rt_last_cursor_advanced_at := rt_last_cursor_advanced_at r;
     rt_runtime_status := rt_runtime_status r;
     rt_processed_by_stream := rt_processed_by_stream r; rt_started_at := rt_started_at r;
     rt_cursors := rt_cursors r |}.

Definition set_rt_last_seen (v : list ((string * string) * Z)) (r : Runtime) : Runtime :=
  {|
     rt_book_builder := rt_book_builder r; rt_latest_funding := rt_latest_funding r;
     rt_latest_books := rt_latest_books r; rt_last_pair_identity := rt_last_pair_identity r;
     rt_source_event_count := rt_source_event_count r; rt_last_seen := v;
     rt_last_valid := rt_last_valid r;
     rt_funding_invalid_reason := rt_funding_invalid_reason r;
     rt_events_fetched_total := rt_events_fetched_total r;
     rt_events_processed_total := rt_events_processed_total r;
     rt_events_failed_total := rt_events_failed_total r; rt_batch_count := rt_batch_count r;
     rt_last_batch_size := rt_last_batch_size r; rt_scan_duration_ms := rt_scan_duration_ms r;
     rt_processing_duration_ms := rt_processing_duration_ms r;
     rt_latest_db_event_available_at := rt_latest_db_event_available_at r;
     rt_lag_seconds := rt_lag_seconds r; rt_backlog_estimate := rt_backlog_estimate r;
     rt_backlog_event_count := rt_backlog_event_count r;
     rt_stream_metrics := rt_stream_metrics r;
     rt_strategy_observation_first_at := rt_strategy_observation_first_at r;
     rt_strategy_observation_last_at := rt_strategy_observation_last_at r;
     rt_last_cursor_advanced_at := rt_last_cursor_advanced_at r;
     rt_runtime_status := rt_runtime_status r;
     rt_processed_by_stream := rt_processed_by_stream r; rt_started_at := rt_started_at r;
     rt_cursors := rt_cursors r |}.

Definition set_rt_last_valid (v : list ((string * string) * Z)) (r : Runtime) : Runtime :=
  {|
     rt_book_builder := rt_book_builder r; rt_latest_funding := rt_latest_funding r;
     rt_latest_books := rt_latest_books r; rt_last_pair_identity := rt_last_pair_identity r;
     rt_source_event_count := rt_source_event_count r; rt_last_seen := rt_last_seen r;
     rt_last_valid := v; rt_funding_invalid_reason := rt_funding_invalid_reason r;
     rt_events_fetched_total := rt_events_fetched_total r;
     rt_events_processed_total := rt_events_processed_total r;
     rt_events_failed_total := rt_events_failed_total r; rt_batch_count := rt_batch_count r;
     rt_last_batch_size := rt_last_batch_size r; rt_scan_duration_ms := rt_scan_duration_ms r;
     rt_processing_duration_ms := rt_processing_duration_ms r;
     rt_latest_db_event_available_at := rt_latest_db_event_available_at r;
     rt_lag_seconds := rt_lag_seconds r; rt_backlog_estimate := rt_backlog_estimate r;
     rt_backlog_event_count := rt_backlog_event_count r;
     rt_stream_metrics := rt_stream_metrics r;
     rt_strategy_observation_first_at := rt_strategy_observation_first_at r;
     rt_strategy_observation_last_at := rt_strategy_observation_last_at r;
     rt_last_cursor_advanced_at := rt_last_cursor_advanced_at r;
     rt_runtime_status := rt_runtime_status r;
     rt_processed_by_stream := rt_processed_by_stream r; rt_started_at := rt_started_at r;
     rt_cursors := rt_cursors r |}.

Definition set_rt_funding_invalid_reason (v : list (string * FundingCarryRejectCode)) (r : Runtime) : Runtime :=
  {|
     rt_book_builder := rt_book_builder r; rt_latest_funding := rt_latest_funding r;
     rt_latest_books := rt_latest_books r; rt_last_pair_identity := rt_last_pair_identity r;
     rt_source_event_count := rt_source_event_count r; rt_last_seen := rt_last_seen r;
     rt_last_valid := rt_last_valid r; rt_funding_invalid_reason := v;
     rt_events_fetched_total := rt_events_fetched_total r;
     rt_events_processed_total := rt_events_processed_total r;
     rt_events_failed_total := rt_events_failed_total r; rt_batch_count := rt_batch_count r;
     rt_last_batch_size := rt_last_batch_size r; rt_scan_duration_ms := rt_scan_duration_ms r;
     rt_processing_duration_ms := rt_processing_duration_ms r;
     rt_latest_db_event_available_at := rt_latest_db_event_available_at r;
     rt_lag_seconds := rt_lag_seconds r; rt_backlog_estimate := rt_backlog_estimate r;
     rt_backlog_event_count := rt_backlog_event_count r;
     rt_stream_metrics := rt_stream_metrics r;
     rt_strategy_observation_first_at := rt_strategy_observation_first_at r;
     rt_strategy_observation_last_at := rt_strategy_observation_last_at r;
     rt_last_cursor_advanced_at := rt_last_cursor_advanced_at r;
     rt_runtime_status := rt_runtime_status r;
     rt_processed_by_stream := rt_processed_by_stream r; rt_started_at := rt_started_at r;
     rt_cursors := rt_cursors r |}.

Definition set_rt_events_fetched_total (v : Z) (r : Runtime) : Runtime :=
  {|
     rt_book_builder := rt_book_builder r; rt_latest_funding := rt_latest_funding r;
     rt_latest_books := rt_latest_books r; rt_last_pair_identity := rt_last_pair_identity r;
     rt_source_event_count := rt_source_event_count r; rt_last_seen := rt_last_seen r;
     rt_last_valid := rt_last_valid r;
     rt_funding_invalid_reason := rt_funding_invalid_reason r; rt_events_fetched_total := v;
     rt_events_processed_total := rt_events_processed_total r;
     rt_events_failed_total := rt_events_failed_total r; rt_batch_count := rt_batch_count r;
     rt_last_batch_size := rt_last_batch_size r; rt_scan_duration_ms := rt_scan_duration_ms r;
     rt_processing_duration_ms := rt_processing_duration_ms r;
     rt_latest_db_event_available_at := rt_latest_db_event_available_at r;
     rt_lag_seconds := rt_lag_seconds r; rt_backlog_estimate := rt_backlog_estimate r;
     rt_backlog_event_count := rt_backlog_event_count r;
     rt_stream_metrics := rt_stream_metrics r;
     rt_strategy_observation_first_at := rt_strategy_observation_first_at r;
     rt_strategy_observation_last_at := rt_strategy_observation_last_at r;
     rt_last_cursor_advanced_at := rt_last_cursor_advanced_at r;
     rt_runtime_status := rt_runtime_status r;
     rt_processed_by_stream := rt_processed_by_stream r; rt_started_at := rt_started_at r;
     rt_cursors := rt_cursors r |}.

Definition set_rt_events_processed_total (v : Z) (r : Runtime) : Runtime :=
  {|
     rt_book_builder := rt_book_builder r; rt_latest_funding := rt_latest_funding r;
     rt_latest_books := rt_latest_books r; rt_last_pair_identity := rt_last_pair_identity r;
     rt_source_event_count := rt_source_event_count r; rt_last_seen := rt_last_seen r;
     rt_last_valid := rt_last_valid r;
     rt_funding_invalid_reason := rt_funding_invalid_reason r;
     rt_events_fetched_total := rt_events_fetched_total r; rt_events_processed_total := v;
     rt_events_failed_total := rt_events_failed_total r; rt_batch_count := rt_batch_count r;
     rt_last_batch_size := rt_last_batch_size r; rt_scan_duration_ms := rt_scan_duration_ms r;
     rt_processing_duration_ms := rt_processing_duration_ms r;
     rt_latest_db_event_available_at := rt_latest_db_event_available_at r;
     rt_lag_seconds := rt_lag_seconds r; rt_backlog_estimate := rt_backlog_estimate r;
     rt_backlog_event_count := rt_backlog_event_count r;
     rt_stream_metrics := rt_stream_metrics r;
     rt_strategy_observation_first_at := rt_strategy_observation_first_at r;
     rt_strategy_observation_last_at := rt_strategy_observation_last_at r;
     rt_last_cursor_advanced_at := rt_last_cursor_advanced_at r;
     rt_runtime_status := rt_runtime_status r;
     rt_processed_by_stream := rt_processed_by_stream r; rt_started_at := rt_started_at r;
     rt_cursors := rt_cursors r |}.

Definition set_rt_events_failed_total (v : Z) (r : Runtime) : Runtime :=
  {|
     rt_book_builder := rt_book_builder r; rt_latest_funding := rt_latest_funding r;
     rt_latest_books := rt_latest_books r; rt_last_pair_identity := rt_last_pair_identity r;
     rt_source_event_count := rt_source_event_count r; rt_last_seen := rt_last_seen r;
     rt_last_valid := rt_last_valid r;
     rt_funding_invalid_reason := rt_funding_invalid_reason r;
     rt_events_fetched_total := rt_events_fetched_total r;
     rt_events_processed_total := rt_events_processed_total r; rt_events_failed_total := v;
     rt_batch_count := rt_batch_count r; rt_last_batch_size := rt_last_batch_size r;
     rt_scan_duration_ms := rt_scan_duration_ms r;
     rt_processing_duration_ms := rt_processing_duration_ms r;
     rt_latest_db_event_available_at := rt_latest_db_event_available_at r;
     rt_lag_seconds := rt_lag_seconds r; rt_backlog_estimate := rt_backlog_estimate r;
     rt_backlog_event_count := rt_backlog_event_count r;
     rt_stream_metrics := rt_stream_metrics r;
     rt_strategy_observation_first_at := rt_strategy_observation_first_at r;
     rt_strategy_observation_last_at := rt_strategy_observation_last_at r;
     rt_last_cursor_advanced_at := rt_last_cursor_advanced_at r;
     rt_runtime_status := rt_runtime_status r;
     rt_processed_by_stream := rt_processed_by_stream r; rt_started_at := rt_started_at r;
     rt_cursors := rt_cursors r |}.

Definition set_rt_batch_count (v : Z) (r : Runtime) : Runtime :=
  {|
     rt_book_builder := rt_book_builder r; rt_latest_funding := rt_latest_funding r;
     rt_latest_books := rt_latest_books r; rt_last_pair_identity := rt_last_pair_identity r;
     rt_source_event_count := rt_source_event_count r; rt_last_seen := rt_last_seen r;
     rt_last_valid := rt_last_valid r;
     rt_funding_invalid_reason := rt_funding_invalid_reason r;
     rt_events_fetched_total := rt_events_fetched_total r;
     rt_events_processed_total := rt_events_processed_total r;
     rt_events_failed_total := rt_events_failed_total r; rt_batch_count := v;
     rt_last_batch_size := rt_last_batch_size r; rt_scan_duration_ms := rt_scan_duration_ms r;
     rt_processing_duration_ms := rt_processing_duration_ms r;
     rt_latest_db_event_available_at := rt_latest_db_event_available_at r;
     rt_lag_seconds := rt_lag_seconds r; rt_backlog_estimate := rt_backlog_estimate r;
     rt_backlog_event_count := rt_backlog_event_count r;
     rt_stream_metrics := rt_stream_metrics r;
     rt_strategy_observation_first_at := rt_strategy_observation_first_at r;
     rt_strategy_observation_last_at := rt_strategy_observation_last_at r;
     rt_last_cursor_advanced_at := rt_last_cursor_advanced_at r;
     rt_runtime_status := rt_runtime_status r;
     rt_processed_by_stream := rt_processed_by_stream r; rt_started_at := rt_started_at r;
     rt_cursors := rt_cursors r |}.

Definition set_rt_last_batch_size (v : Z) (r : Runtime) : Runtime :=
  {|
     rt_book_builder := rt_book_builder r; rt_latest_funding := rt_latest_funding r;
     rt_latest_books := rt_latest_books r; rt_last_pair_identity := rt_last_pair_identity r;
     rt_source_event_count := rt_source_event_count r; rt_last_seen := rt_last_seen r;
     rt_last_valid := rt_last_valid r;
     rt_funding_invalid_reason := rt_funding_invalid_reason r;
     rt_events_fetched_total := rt_events_fetched_total r;
     rt_events_processed_total := rt_events_processed_total r;
     rt_events_failed_total := rt_events_failed_total r; rt_batch_count := rt_batch_count r;
     rt_last_batch_size := v; rt_scan_duration_ms := rt_scan_duration_ms r;
     rt_processing_duration_ms := rt_processing_duration_ms r;
     rt_latest_db_event_available_at := rt_latest_db_event_available_at r;
     rt_lag_seconds := rt_lag_seconds r; rt_backlog_estimate := rt_backlog_estimate r;
     rt_backlog_event_count := rt_backlog_event_count r;
     rt_stream_metrics := rt_stream_metrics r;
     rt_strategy_observation_first_at := rt_strategy_observation_first_at r;
     rt_strategy_observation_last_at := rt_strategy_observation_last_at r;
     rt_last_cursor_advanced_at := rt_last_cursor_advanced_at r;
     rt_runtime_status := rt_runtime_status r;
     rt_processed_by_stream := rt_processed_by_stream r; rt_started_at := rt_started_at r;
     rt_cursors := rt_cursors r |}.

Definition set_rt_scan_duration_ms (v : finite_decimal) (r : Runtime) : Runtime :=
  {|
     rt_book_builder := rt_book_builder r; rt_latest_funding := rt_latest_funding r;
     rt_latest_books := rt_latest_books r; rt_last_pair_identity := rt_last_pair_identity r;
     rt_source_event_count := rt_source_event_count r; rt_last_seen := rt_last_seen r;
     rt_last_valid := rt_last_valid r;
     rt_funding_invalid_reason := rt_funding_invalid_reason r;
     rt_events_fetched_total := rt_events_fetched_total r;
     rt_events_processed_total := rt_events_processed_total r;
     rt_events_failed_total := rt_events_failed_total r; rt_batch_count := rt_batch_count r;
     rt_last_batch_size := rt_last_batch_size r; rt_scan_duration_ms := v;
     rt_processing_duration_ms := rt_processing_duration_ms r;
     rt_latest_db_event_available_at := rt_latest_db_event_available_at r;
     rt_lag_seconds := rt_lag_seconds r; rt_backlog_estimate := rt_backlog_estimate r;
     rt_backlog_event_count := rt_backlog_event_count r;
     rt_stream_metrics := rt_stream_metrics r;
     rt_strategy_observation_first_at := rt_strategy_observation_first_at r;
     rt_strategy_observation_last_at := rt_strategy_observation_last_at r;
     rt_last_cursor_advanced_at := rt_last_cursor_advanced_at r;
     rt_runtime_status := rt_runtime_status r;
     rt_processed_by_stream := rt_processed_by_stream r; rt_started_at := rt_started_at r;
     rt_cursors := rt_cursors r |}.

Definition set_rt_processing_duration_ms (v : finite_decimal) (r : Runtime) : Runtime :=
  {|
     rt_book_builder := rt_book_builder r; rt_latest_funding := rt_latest_funding r;
     rt_latest_books := rt_latest_books r; rt_last_pair_identity := rt_last_pair_identity r;
     rt_source_event_count := rt_source_event_count r; rt_last_seen := rt_last_seen r;
     rt_last_valid := rt_last_valid r;
     rt_funding_invalid_reason := rt_funding_invalid_reason r;
     rt_events_fetched_total := rt_events_fetched_total r;
     rt_events_processed_total := rt_events_processed_total r;
     rt_events_failed_total := rt_events_failed_total r; rt_batch_count := rt_batch_count r;
     rt_last_batch_size := rt_last_batch_size r; rt_scan_duration_ms := rt_scan_duration_ms r;
     rt_processing_duration_ms := v;
     rt_latest_db_event_available_at := rt_latest_db_event_available_at r;
     rt_lag_seconds := rt_lag_seconds r; rt_backlog_estimate := rt_backlog_estimate r;
     rt_backlog_event_count := rt_backlog_event_count r;
     rt_stream_metrics := rt_stream_metrics r;
     rt_strategy_observation_first_at := rt_strategy_observation_first_at r;
     rt_strategy_observation_last_at := rt_strategy_observation_last_at r;
     rt_last_cursor_advanced_at := rt_last_cursor_advanced_at r;
     rt_runtime_status := rt_runtime_status r;
     rt_processed_by_stream := rt_processed_by_stream r; rt_started_at := rt_started_at r;
     rt_cursors := rt_cursors r |}.

Definition set_rt_latest_db_event_available_at (v : option Z) (r : Runtime) : Runtime :=
  {|
     rt_book_builder := rt_book_builder r; rt_latest_funding := rt_latest_funding r;
     rt_latest_books := rt_latest_books r; rt_last_pair_identity := rt_last_pair_identity r;
     rt_source_event_count := rt_source_event_count r; rt_last_seen := rt_last_seen r;
     rt_last_valid := rt_last_valid r;
     rt_funding_invalid_reason := rt_funding_invalid_reason r;
     rt_events_fetched_total := rt_events_fetched_total r;
     rt_events_processed_total := rt_events_processed_total r;
     rt_events_failed_total := rt_events_failed_total r; rt_batch_count := rt_batch_count r;
     rt_last_batch_size := rt_last_batch_size r; rt_scan_duration_ms := rt_scan_duration_ms r;
     rt_processing_duration_ms := rt_processing_duration_ms r;
     rt_latest_db_event_available_at := v; rt_lag_seconds := rt_lag_seconds r;
     rt_backlog_estimate := rt_backlog_estimate r;
     rt_backlog_event_count := rt_backlog_event_count r;
     rt_stream_metrics := rt_stream_metrics r;
     rt_strategy_observation_first_at := rt_strategy_observation_first_at r;
     rt_strategy_observation_last_at := rt_strategy_observation_last_at r;
     rt_last_cursor_advanced_at := rt_last_cursor_advanced_at r;
     rt_runtime_status := rt_runtime_status r;
     rt_processed_by_stream := rt_processed_by_stream r; rt_started_at := rt_started_at r;
     rt_cursors := rt_cursors r |}.

Definition set_rt_lag_seconds (v : option finite_decimal) (r : Runtime) : Runtime :=
  {|
     rt_book_builder := rt_book_builder r; rt_latest_funding := rt_latest_funding r;
     rt_latest_books := rt_latest_books r; rt_last_pair_identity := rt_last_pair_identity r;
     rt_source_event_count := rt_source_event_count r; rt_last_seen := rt_last_seen r;
     rt_last_valid := rt_last_valid r;
     rt_funding_invalid_reason := rt_funding_invalid_reason r;
     rt_events_fetched_total := rt_events_fetched_total r;
     rt_events_processed_total := rt_events_processed_total r;
     rt_events_failed_total := rt_events_failed_total r; rt_batch_count := rt_batch_count r;
     rt_last_batch_size := rt_last_batch_size r; rt_scan_duration_ms := rt_scan_duration_ms r;
     rt_processing_duration_ms := rt_processing_duration_ms r;
     rt_latest_db_event_available_at := rt_latest_db_event_available_at r; rt_lag_seconds := v;
     rt_backlog_estimate := rt_backlog_estimate r;
     rt_backlog_event_count := rt_backlog_event_count r;
     rt_stream_metrics := rt_stream_metrics r;
     rt_strategy_observation_first_at := rt_strategy_observation_first_at r;
     rt_strategy_observation_last_at := rt_strategy_observation_last_at r;
     rt_last_cursor_advanced_at := rt_last_cursor_advanced_at r;
     rt_runtime_status := rt_runtime_status r;
     rt_processed_by_stream := rt_processed_by_stream r; rt_started_at := rt_started_at r;
     rt_cursors := rt_cursors r |}.

Definition set_rt_backlog_estimate (v : Z) (r : Runtime) : Runtime :=
  {|
     rt_book_builder := rt_book_builder r; rt_latest_funding := rt_latest_funding r;
     rt_latest_books := rt_latest_books r; rt_last_pair_identity := rt_last_pair_identity r;
     rt_source_event_count := rt_source_event_count r; rt_last_seen := rt_last_seen r;
     rt_last_valid := rt_last_valid r;
     rt_funding_invalid_reason := rt_funding_invalid_reason r;
     rt_events_fetched_total := rt_events_fetched_total r;
     rt_events_processed_total := rt_events_processed_total r;
     rt_events_failed_total := rt_events_failed_total r; rt_batch_count := rt_batch_count r;
     rt_last_batch_size := rt_last_batch_size r; rt_scan_duration_ms := rt_scan_duration_ms r;
     rt_processing_duration_ms := rt_processing_duration_ms r;
     rt_latest_db_event_available_at := rt_latest_db_event_available_at r;
     rt_lag_seconds := rt_lag_seconds r; rt_backlog_estimate := v;
     rt_backlog_event_count := rt_backlog_event_count r;
     rt_stream_metrics := rt_stream_metrics r;
     rt_strategy_observation_first_at := rt_strategy_observation_first_at r;
     rt_strategy_observation_last_at := rt_strategy_observation_last_at r;
     rt_last_cursor_advanced_at := rt_last_cursor_advanced_at r;
     rt_runtime_status := rt_runtime_status r;
     rt_processed_by_stream := rt_processed_by_stream r; rt_started_at := rt_started_at r;
     rt_cursors := rt_cursors r |}.

Definition set_rt_backlog_event_count (v : Z) (r : Runtime) : Runtime :=
  {|
     rt_book_builder := rt_book_builder r; rt_latest_funding := rt_latest_funding r;
     rt_latest_books := rt_latest_books r; rt_last_pair_identity := rt_last_pair_identity r;
     rt_source_event_count := rt_source_event_count r; rt_last_seen := rt_last_seen r;
     rt_last_valid := rt_last_valid r;
     rt_funding_invalid_reason := rt_funding_invalid_reason r;
     rt_events_fetched_total := rt_events_fetched_total r;
     rt_events_processed_total := rt_events_processed_total r;
     rt_events_failed_total := rt_events_failed_total r; rt_batch_count := rt_batch_count r;
     rt_last_batch_size := rt_last_batch_size r; rt_scan_duration_ms := rt_scan_duration_ms r;
     rt_processing_duration_ms := rt_processing_duration_ms r;
     rt_latest_db_event_available_at := rt_latest_db_event_available_at r;
     rt_lag_seconds := rt_lag_seconds r; rt_backlog_estimate := rt_backlog_estimate r;
     rt_backlog_event_count := v; rt_stream_metrics := rt_stream_metrics r;
     rt_strategy_observation_first_at := rt_strategy_observation_first_at r;
     rt_strategy_observation_last_at := rt_strategy_observation_last_at r;
     rt_last_cursor_advanced_at := rt_last_cursor_advanced_at r;
     rt_runtime_status := rt_runtime_status r;
     rt_processed_by_stream := rt_processed_by_stream r; rt_started_at := rt_started_at r;
     rt_cursors := rt_cursors r |}.

Definition set_rt_stream_metrics (v : list json) (r : Runtime) : Runtime :=
  {|
     rt_book_builder := rt_book_builder r; rt_latest_funding := rt_latest_funding r;
     rt_latest_books := rt_latest_books r; rt_last_pair_identity := rt_last_pair_identity r;
     rt_source_event_count := rt_source_event_count r; rt_last_seen := rt_last_seen r;
     rt_last_valid := rt_last_valid r;
     rt_funding_invalid_reason := rt_funding_invalid_reason r;
     rt_events_fetched_total := rt_events_fetched_total r;
     rt_events_processed_total := rt_events_processed_total r;
     rt_events_failed_total := rt_events_failed_total r; rt_batch_count := rt_batch_count r;
     rt_last_batch_size := rt_last_batch_size r; rt_scan_duration_ms := rt_scan_duration_ms r;
     rt_processing_duration_ms := rt_processing_duration_ms r;
     rt_latest_db_event_available_at := rt_latest_db_event_available_at r;
     rt_lag_seconds := rt_lag_seconds r; rt_backlog_estimate := rt_backlog_estimate r;
     rt_backlog_event_count := rt_backlog_event_count r; rt_stream_metrics := v;
     rt_strategy_observation_first_at := rt_strategy_observation_first_at r;
     rt_strategy_observation_last_at := rt_strategy_observation_last_at r;
     rt_last_cursor_advanced_at := rt_last_cursor_advanced_at r;
     rt_runtime_status := rt_runtime_status r;
     rt_processed_by_stream := rt_processed_by_stream r; rt_started_at := rt_started_at r;
     rt_cursors := rt_cursors r |}.

Definition set_rt_strategy_observation_first_at (v : option Z) (r : Runtime) : Runtime :=
  {|
     rt_book_builder := rt_book_builder r; rt_latest_funding := rt_latest_funding r;
     rt_latest_books := rt_latest_books r; rt_last_pair_identity := rt_last_pair_identity r;
     rt_source_event_count := rt_source_event_count r; rt_last_seen := rt_last_seen r;
     rt_last_valid := rt_last_valid r;
     rt_funding_invalid_reason := rt_funding_invalid_reason r;
     rt_events_fetched_total := rt_events_fetched_total r;
     rt_events_processed_total := rt_events_processed_total r;
     rt_events_failed_total := rt_events_failed_total r; rt_batch_count := rt_batch_count r;
     rt_last_batch_size := rt_last_batch_size r; rt_scan_duration_ms := rt_scan_duration_ms r;
     rt_processing_duration_ms := rt_processing_duration_ms r;
     rt_latest_db_event_available_at := rt_latest_db_event_available_at r;
     rt_lag_seconds := rt_lag_seconds r; rt_backlog_estimate := rt_backlog_estimate r;
     rt_backlog_event_count := rt_backlog_event_count r;
     rt_stream_metrics := rt_stream_metrics r; rt_strategy_observation_first_at := v;
     rt_strategy_observation_last_at := rt_strategy_observation_last_at r;
     rt_last_cursor_advanced_at := rt_last_cursor_advanced_at r;
     rt_runtime_status := rt_runtime_status r;
     rt_processed_by_stream := rt_processed_by_stream r; rt_started_at := rt_started_at r;
     rt_cursors := rt_cursors r |}.

Definition set_rt_strategy_observation_last_at (v : option Z) (r : Runtime) : Runtime :=
  {|
     rt_book_builder := rt_book_builder r; rt_latest_funding := rt_latest_funding r;
     rt_latest_books := rt_latest_books r; rt_last_pair_identity := rt_last_pair_identity r;
     rt_source_event_count := rt_source_event_count r; rt_last_seen := rt_last_seen r;
     rt_last_valid := rt_last_valid r;
     rt_funding_invalid_reason := rt_funding_invalid_reason r;
     rt_events_fetched_total := rt_events_fetched_total r;
     rt_events_processed_total := rt_events_processed_total r;
     rt_events_failed_total := rt_events_failed_total r; rt_batch_count := rt_batch_count r;
     rt_last_batch_size := rt_last_batch_size r; rt_scan_duration_ms := rt_scan_duration_ms r;
     rt_processing_duration_ms := rt_processing_duration_ms r;
     rt_latest_db_event_available_at := rt_latest_db_event_available_at r;
     rt_lag_seconds := rt_lag_seconds r; rt_backlog_estimate := rt_backlog_estimate r;
     rt_backlog_event_count := rt_backlog_event_count r;
     rt_stream_metrics := rt_stream_metrics r;
     rt_strategy_observation_first_at := rt_strategy_observation_first_at r;
     rt_strategy_observation_last_at := v;
     rt_last_cursor_advanced_at := rt_last_cursor_advanced_at r;
     rt_runtime_status := rt_runtime_status r;
     rt_processed_by_stream := rt_processed_by_stream r; rt_started_at := rt_started_at r;
     rt_cursors := rt_cursors r |}.

Definition set_rt_last_cursor_advanced_at (v : option Z) (r : Runtime) : Runtime :=
  {|
     rt_book_builder := rt_book_builder r; rt_latest_funding := rt_latest_funding r;
     rt_latest_books := rt_latest_books r; rt_last_pair_identity := rt_last_pair_identity r;
     rt_source_event_count := rt_source_event_count r; rt_last_seen := rt_last_seen r;
     rt_last_valid := rt_last_valid r;
     rt_funding_invalid_reason := rt_funding_invalid_reason r;
     rt_events_fetched_total := rt_events_fetched_total r;
     rt_events_processed_total := rt_events_processed_total r;
     rt_events_failed_total := rt_events_failed_total r; rt_batch_count := rt_batch_count r;
     rt_last_batch_size := rt_last_batch_size r; rt_scan_duration_ms := rt_scan_duration_ms r;
     rt_processing_duration_ms := rt_processing_duration_ms r;
     rt_latest_db_event_available_at := rt_latest_db_event_available_at r;
     rt_lag_seconds := rt_lag_seconds r; rt_backlog_estimate := rt_backlog_estimate r;
     rt_backlog_event_count := rt_backlog_event_count r;
     rt_stream_metrics := rt_stream_metrics r;
     rt_strategy_observation_first_at := rt_strategy_observation_first_at r;
     rt_strategy_observation_last_at := rt_strategy_observation_last_at r;
     rt_last_cursor_advanced_at := v; rt_runtime_status := rt_runtime_status r;
     rt_processed_by_stream := rt_processed_by_stream r; rt_started_at := rt_started_at r;
     rt_cursors := rt_cursors r |}.

Definition set_rt_runtime_status (v : string) (r : Runtime) : Runtime :=
  {|
     rt_book_builder := rt_book_builder r; rt_latest_funding := rt_latest_funding r;
     rt_latest_books := rt_latest_books r; rt_last_pair_identity := rt_last_pair_identity r;
     rt_source_event_count := rt_source_event_count r; rt_last_seen := rt_last_seen r;
     rt_last_valid := rt_last_valid r;
     rt_funding_invalid_reason := rt_funding_invalid_reason r;
     rt_events_fetched_total := rt_events_fetched_total r;
     rt_events_processed_total := rt_events_processed_total r;
     rt_events_failed_total := rt_events_failed_total r; rt_batch_count := rt_batch_count r;
     rt_last_batch_size := rt_last_batch_size r; rt_scan_duration_ms := rt_scan_duration_ms r;
     rt_processing_duration_ms := rt_processing_duration_ms r;
     rt_latest_db_event_available_at := rt_latest_db_event_available_at r;
     rt_lag_seconds := rt_lag_seconds r; rt_backlog_estimate := rt_backlog_estimate r;
     rt_backlog_event_count := rt_backlog_event_count r;
     rt_stream_metrics := rt_stream_metrics r;
     rt_strategy_observation_first_at := rt_strategy_observation_first_at r;
     rt_strategy_observation_last_at := rt_strategy_observation_last_at r;
     rt_last_cursor_advanced_at := rt_last_cursor_advanced_at r; rt_runtime_status := v;
     rt_processed_by_stream := rt_processed_by_stream r; rt_started_at := rt_started_at r;
     rt_cursors := rt_cursors r |}.

Definition set_rt_processed_by_stream (v : list ((string * string) * Z)) (r : Runtime) : Runtime :=
  {|
     rt_book_builder := rt_book_builder r; rt_latest_funding := rt_latest_funding r;
     rt_latest_books := rt_latest_books r; rt_last_pair_identity := rt_last_pair_identity r;
     rt_source_event_count := rt_source_event_count r; rt_last_seen := rt_last_seen r;
     rt_last_valid := rt_last_valid r;
     rt_funding_invalid_reason := rt_funding_invalid_reason r;
     rt_events_fetched_total := rt_events_fetched_total r;
     rt_events_processed_total := rt_events_processed_total r;
     rt_events_failed_total := rt_events_failed_total r; rt_batch_count := rt_batch_count r;
     rt_last_batch_size := rt_last_batch_size r; rt_scan_duration_ms := rt_scan_duration_ms r;
     rt_processing_duration_ms := rt_processing_duration_ms r;
     rt_latest_db_event_available_at := rt_latest_db_event_available_at r;
     rt_lag_seconds := rt_lag_seconds r; rt_backlog_estimate := rt_backlog_estimate r;
     rt_backlog_event_count := rt_backlog_event_count r;
     rt_stream_metrics := rt_stream_metrics r;
     rt_strategy_observation_first_at := rt_strategy_observation_first_at r;
     rt_strategy_observation_last_at := rt_strategy_observation_last_at r;
     rt_last_cursor_advanced_at := rt_last_cursor_advanced_at r;
     rt_runtime_status := rt_runtime_status r; rt_processed_by_stream := v;
     rt_started_at := rt_started_at r; rt_cursors := rt_cursors r |}.

Definition set_rt_started_at (v : Z) (r : Runtime) : Runtime :=
  {|
     rt_book_builder := rt_book_builder r; rt_latest_funding := rt_latest_funding r;
     rt_latest_books := rt_latest_books r; rt_last_pair_identity := rt_last_pair_identity r;
     rt_source_event_count := rt_source_event_count r; rt_last_seen := rt_last_seen r;
     rt_last_valid := rt_last_valid r;
     rt_funding_invalid_reason := rt_funding_invalid_reason r;
     rt_events_fetched_total := rt_events_fetched_total r;
     rt_events_processed_total := rt_events_processed_total r;
     rt_events_failed_total := rt_events_failed_total r; rt_batch_count := rt_batch_count r;
     rt_last_batch_size := rt_last_batch_size r; rt_scan_duration_ms := rt_scan_duration_ms r;
     rt_processing_duration_ms := rt_processing_duration_ms r;
     rt_latest_db_event_available_at := rt_latest_db_event_available_at r;
     rt_lag_seconds := rt_lag_seconds r; rt_backlog_estimate := rt_backlog_estimate r;
     rt_backlog_event_count := rt_backlog_event_count r;
     rt_stream_metrics := rt_stream_metrics r;
     rt_strategy_observation_first_at := rt_strategy_observation_first_at r;
     rt_strategy_observation_last_at := rt_strategy_observation_last_at r;
     rt_last_cursor_advanced_at := rt_last_cursor_advanced_at r;
     rt_runtime_status := rt_runtime_status r;
     rt_processed_by_stream := rt_processed_by_stream r; rt_started_at := v;
     rt_cursors := rt_cursors r |}.

Definition set_rt_cursors (v : list ExperimentalEventCursor) (r : Runtime) : Runtime :=
  {|
     rt_book_builder := rt_book_builder r; rt_latest_funding := rt_latest_funding r;
     rt_latest_books := rt_latest_books r; rt_last_pair_identity := rt_last_pair_identity r;
     rt_source_event_count := rt_source_event_count r; rt_last_seen := rt_last_seen r;
     rt_last_valid := rt_last_valid r;
     rt_funding_invalid_reason := rt_funding_invalid_reason r;
     rt_events_fetched_total := rt_events_fetched_total r;
     rt_events_processed_total := rt_events_processed_total r;
     rt_events_failed_total := rt_events_failed_total r; rt_batch_count := rt_batch_count r;
     rt_last_batch_size := rt_last_batch_size r; rt_scan_duration_ms := rt_scan_duration_ms r;
     rt_processing_duration_ms := rt_processing_duration_ms r;
     rt_latest_db_event_available_at := rt_latest_db_event_available_at r;
     rt_lag_seconds := rt_lag_seconds r; rt_backlog_estimate := rt_backlog_estimate r;
     rt_backlog_event_count := rt_backlog_event_count r;
     rt_stream_metrics := rt_stream_metrics r;
     rt_strategy_observation_first_at := rt_strategy_observation_first_at r;
     rt_strategy_observation_last_at := rt_strategy_observation_last_at r;
     rt_last_cursor_advanced_at := rt_last_cursor_advanced_at r;
     rt_runtime_status := rt_runtime_status r;
     rt_processed_by_stream := rt_processed_by_stream r; rt_started_at := rt_started_at r;
     rt_cursors := v |}.

Definition SOURCE_TABLE : string := "experimental_market_events".
Definition FUNDING_TIMESTAMP_SEMANTIC : string := "funding_observation".
Definition ORDERBOOK_TIMESTAMP_SEMANTIC : string := "orderbook_market_event".

(** [a or b] of a text that may be absent or empty *)
Definition text_else (a : option string) (b : string) : string :=
  match a with Some s => if bool_decide (s = EmptyString) then b else s | None => b end.

(** ** Events *)

(** [_age_seconds] *)
Definition age_seconds (now timestamp : Z) : finite_decimal := seconds_decimal (now - timestamp).

Section Events.
Context {C : DecimalContext} {D : Digest} {P : IsoParser}.

Definition refuse_funding (venue : string) (reason : FundingCarryRejectCode)
  : M Runtime (option SignalInput) :=
  run! pmodify (fun s => set_rt_funding_invalid_reason
         (dict_set venue reason (rt_funding_invalid_reason s)) s);
  pret None.

(** [_funding] *)
Definition funding (event : RawMarketEvent) (now : Z) : M Runtime (option SignalInput) :=
  let timestamp := default (re_available_at event) (re_exchange_timestamp event) in
  do! fields <- plift (payload event);
  let rate := or_else (get_field fields "rate") (get_field fields "funding_rate") in
  let interval := get_field fields "funding_interval_seconds" in
  match rate, interval with
  | JNull, _ => refuse_funding (re_venue event) MISSING_FUNDING_CURRENT
  | _, JNull => refuse_funding (re_venue event) UNKNOWN_FUNDING_INTERVAL
  | _, _ =>
      match json_decimal rate, json_int interval with
      | Some parsed_rate, Some parsed_interval =>
          match parsed_rate with
          | DFinite funding_rate =>
              if negb (float_finite (fd_value funding_rate))
              then refuse_funding (re_venue event) NON_FINITE_NUMERIC_VALUE
              else if (parsed_interval <=? 0)%Z
              then refuse_funding (re_venue event) UNKNOWN_FUNDING_INTERVAL
              else
                run! pmodify (fun s => set_rt_funding_invalid_reason
                       (dict_pop (re_venue event) (rt_funding_invalid_reason s)) s);
                let next := or_else (get_field fields "next_funding_at")
                                    (get_field fields "next_funding_time") in
                do! next_funding <- (if truthy next
                                     then do! d <- plift (fromisoformat (py_str next)); pret (Some d)
                                     else pret None);
                pret (Some {|
                  si_event_id := re_event_id event; si_venue := re_venue event;
                  si_instrument := re_canonical_instrument_id event;
                  si_event_type := "funding_current"; si_available_at := re_available_at event;
                  si_data_quality_score := text "1.0"; si_capability_support := "experimental"; si_reconciliation_state := None;
                  si_bid := None; si_ask := None; si_bid_size := None; si_ask_size := None;
                  si_funding_rate := Some funding_rate; si_bids := []; si_asks := [];
                  si_funding_unit := Some "fraction_per_interval";
                  si_funding_interval_seconds := Some parsed_interval;
                  si_next_funding_at := next_funding; si_source_timestamp := Some timestamp;
                  si_received_at := Some (re_received_at event); si_source_table := SOURCE_TABLE;
                  si_normalizer_version := re_normalizer_version event;
                  si_connection_epoch := re_connection_epoch event; si_sequence := re_sequence event;
                  si_state_hash := None; si_source_event_id := Some (re_event_id event);
                  si_applied_source_event_ids := [];
                  si_timestamp_semantic := Some FUNDING_TIMESTAMP_SEMANTIC;
                  si_exchange_timestamp := Some timestamp;
                  si_freshness_age_seconds := Some (age_seconds now timestamp) |})
          | _ => refuse_funding (re_venue event) NON_FINITE_NUMERIC_VALUE
          end
      | _, _ => refuse_funding (re_venue event) NON_FINITE_NUMERIC_VALUE
      end
  end%py.

(** [_book] *)
Definition book (snapshot : CanonicalOrderBookSnapshot) (now : Z) : SignalInput := {|
  si_event_id := "canonical-book-" +:+ cs_state_hash snapshot; si_venue := cs_venue snapshot;
  si_instrument := cs_instrument snapshot; si_event_type := "canonical_orderbook_snapshot";
  si_available_at := cs_available_at snapshot; si_data_quality_score := text "1.0";
  si_capability_support := "experimental";
  si_reconciliation_state := Some "synchronized"; si_bid := Some (cs_best_bid snapshot);
  si_ask := Some (cs_best_ask snapshot); si_bid_size := option_map snd (head (cs_bids snapshot));
  si_ask_size := option_map snd (head (cs_asks snapshot)); si_funding_rate := None;
  si_bids := cs_bids snapshot; si_asks := cs_asks snapshot; si_funding_unit := None;
  si_funding_interval_seconds := None; si_next_funding_at := None;
  si_source_timestamp := Some (cs_exchange_timestamp snapshot);
  si_received_at := Some (cs_received_at snapshot); si_source_table := SOURCE_TABLE;
  si_normalizer_version := cs_normalizer_version snapshot;
  si_connection_epoch := Some (cs_connection_epoch snapshot); si_sequence := cs_last_sequence snapshot;
  si_state_hash := Some (cs_state_hash snapshot);
  si_source_event_id := Some (cs_source_snapshot_event_id snapshot);
  si_applied_source_event_ids := cs_applied_delta_event_ids snapshot;
  si_timestamp_semantic := Some ORDERBOOK_TIMESTAMP_SEMANTIC;
  si_exchange_timestamp := Some (cs_exchange_timestamp snapshot);
  si_freshness_age_seconds := Some (age_seconds now (cs_exchange_timestamp snapshot)) |}.

(** The reasons that remove the latest book. *)
Definition dropping_reasons : list FundingCarryRejectCode :=
  [BITGET_ORDERBOOK_STATE_NOT_INITIALIZED; BITGET_ORDERBOOK_SEQUENCE_GAP;
   BITGET_ORDERBOOK_STATE_INVALID; STALE_DATA; FUTURE_TIMESTAMP; CROSSED_ORDERBOOK].

Definition on_builder {A} (m : M Builder A) : M Runtime A :=
  pzoom rt_book_builder set_rt_book_builder m.

Definition funding_event (event : RawMarketEvent) (key : string * string) (now : Z)
  : M Runtime unit :=
  do! parsed <- funding event now;
  pmodify (fun s =>
    match parsed with
    | Some input =>
        if match dict_get (re_venue event) (rt_latest_funding s) with
           | Some latest => (si_available_at latest <=? si_available_at input)%Z
           | None => true
           end
        then set_rt_last_valid (dict_set key (re_available_at event) (rt_last_valid s))
               (set_rt_latest_funding (dict_set (re_venue event) input (rt_latest_funding s)) s)
        else s
    | None => set_rt_latest_funding (dict_pop (re_venue event) (rt_latest_funding s)) s
    end)%py.

Definition book_event (cfg : RuntimeConfig) (event : RawMarketEvent) (key : string * string) (now : Z)
  : M Runtime unit :=
  do! snapshot <- on_builder (apply event now);
  pmodify (fun s =>
    match snapshot with
    | Some snapshot =>
        set_rt_last_valid (dict_set key (re_available_at event) (rt_last_valid s))
          (set_rt_latest_books (dict_set (re_venue event) (book snapshot now) (rt_latest_books s)) s)
    | None =>
        if bool_decide (re_venue event = "hyperliquid") ||
           match dict_get (re_venue event, rc_instrument cfg)
                   (cb_last_invalid_reason (rt_book_builder s)) with
           | Some reason => bool_decide (reason ∈ dropping_reasons)
           | None => false
           end
        then set_rt_latest_books (dict_pop (re_venue event) (rt_latest_books s)) s
        else s
    end)%py.

(** [_process_event] *)
Definition process_event (cfg : RuntimeConfig) (now : Z) (event : RawMarketEvent) : M Runtime unit :=
  if negb (bool_decide (re_canonical_instrument_id event = rc_instrument cfg))
  then praise (ValueError "cross-instrument shadow input rejected")
  else
    let key := event_stream_id event in
    run! pmodify (fun s =>
      set_rt_last_seen (dict_set key (re_available_at event) (rt_last_seen s))
        (set_rt_processed_by_stream
           (dict_set key (default 0 (dict_get key (rt_processed_by_stream s)) + 1)%Z
              (rt_processed_by_stream s)) s));
    if bool_decide (re_event_type event = "funding_current")
    then funding_event event key now
    else book_event cfg event key now.

(** ** Pairing *)

(** [_missing] *)
Definition expectations : list (string * string * FundingCarryRejectCode) :=
  [("hyperliquid", "funding_current", MISSING_HYPERLIQUID_FUNDING_CURRENT);
   ("bitget", "funding_current", MISSING_BITGET_FUNDING_CURRENT);
   ("hyperliquid", "orderbook_snapshot", MISSING_HYPERLIQUID_ORDERBOOK_SNAPSHOT);
   ("bitget", "orderbook_snapshot", MISSING_BITGET_ORDERBOOK_SNAPSHOT)].

Definition missing_reason (cfg : RuntimeConfig) (s : Runtime) (venue capability : string)
    (reason : FundingCarryRejectCode) : FundingCarryRejectCode :=
  if bool_decide (capability = "funding_current")
  then default reason (dict_get venue (rt_funding_invalid_reason s))
  else
    match default reason (dict_get (venue, rc_instrument cfg)
                            (cb_last_invalid_reason (rt_book_builder s))) with
    | STALE_DATA =>
        if bool_decide (venue = "hyperliquid") then HYPERLIQUID_ORDERBOOK_STALE else BITGET_ORDERBOOK_STALE
    | reason => reason
    end.

Definition describe (s : Runtime) (reason : FundingCarryRejectCode) (venue capability : string)
  : MissingShadowInput := {|
  mi_reason := reason; mi_venue := venue; mi_capability := capability;
  mi_last_seen_event_at := dict_get (venue, capability) (rt_last_seen s);
  mi_last_valid_event_at := dict_get (venue, capability) (rt_last_valid s);
  mi_source_event_count := rt_source_event_count s |}.

Fixpoint missing_from (cfg : RuntimeConfig) (s : Runtime)
    (wanted : list (string * string * FundingCarryRejectCode)) : option MissingShadowInput :=
  match wanted with
  | [] => None
  | (venue, capability, reason) :: wanted =>
      if dict_mem venue (if bool_decide (capability = "funding_current")
                         then rt_latest_funding s else rt_latest_books s)
      then missing_from cfg s wanted
      else Some (describe s (missing_reason cfg s venue capability reason) venue capability)
  end.
Definition missing (cfg : RuntimeConfig) (s : Runtime) : option MissingShadowInput :=
  missing_from cfg s expectations.

(** [_available_events] *)
Definition available_events (s : Runtime) : list SignalInput :=
  omap id (flat_map (fun venue => [dict_get venue (rt_latest_funding s); dict_get venue (rt_latest_books s)])
             ["hyperliquid"; "bitget"]).

(** [_source_event_ids] *)
Definition source_event_ids (events : list SignalInput) : list string :=
  sorted_by string_leb
    (flat_map (fun i => text_else (si_source_event_id i) (si_event_id i) :: si_applied_source_event_ids i)
       events).

Definition timestamp_of (i : SignalInput) : Z := default (si_available_at i) (si_exchange_timestamp i).

(** [_with_freshness] *)
Definition with_freshness (now : Z) (i : SignalInput) : SignalInput :=
  let timestamp := timestamp_of i in
  set_si_freshness_age_seconds (Some (age_seconds now timestamp))
    (set_si_exchange_timestamp (Some timestamp) i).

(** [_semantic_event] *)
Definition semantic_event (events : list SignalInput) (venue semantic : string) : result SignalInput :=
  match List.find (fun i => bool_decide (si_venue i = venue) &&
                            bool_decide (si_timestamp_semantic i = Some semantic)) events with
  | Some i => Ok i
  | None => Err (OtherError "StopIteration")
  end.

Definition age_of (i : SignalInput) : Decimal :=
  match si_freshness_age_seconds i with Some d => fd_value d | None => 0%Q end.

Definition skew (a b : SignalInput) : Decimal :=
  dabs (fd_value (seconds_decimal (timestamp_of a - timestamp_of b))).

Definition maximum_book_age (cfg : RuntimeConfig) : Decimal :=
  fd_value (seconds_decimal (rc_maximum_orderbook_age cfg)).

(** [_timing_metrics] *)
Definition timing_metrics (cfg : RuntimeConfig) (events : list SignalInput)
  : result ShadowTimingMetrics :=
  let! hl_funding := semantic_event events "hyperliquid" FUNDING_TIMESTAMP_SEMANTIC in
  let! bg_funding := semantic_event events "bitget" FUNDING_TIMESTAMP_SEMANTIC in
  let! hl_book := semantic_event events "hyperliquid" ORDERBOOK_TIMESTAMP_SEMANTIC in
  let! bg_book := semantic_event events "bitget" ORDERBOOK_TIMESTAMP_SEMANTIC in
  let funding_skew := skew hl_funding bg_funding in
  let book_skew := skew hl_book bg_book in
  let max_age := inject_Z (rc_funding_max_age_seconds cfg) in
  Ok {| tm_hyperliquid_funding_age_seconds := age_of hl_funding;
        tm_bitget_funding_age_seconds := age_of bg_funding;
        tm_funding_observation_skew_seconds := funding_skew;
        tm_hyperliquid_orderbook_age_seconds := age_of hl_book;
        tm_bitget_orderbook_age_seconds := age_of bg_book;
        tm_orderbook_venue_skew_seconds := book_skew;
        tm_funding_freshness_pass :=
          dleb (age_of hl_funding) max_age && dleb (age_of bg_funding) max_age &&
          dleb funding_skew (inject_Z (rc_funding_max_observation_skew_seconds cfg));
        tm_orderbook_freshness_pass :=
          dleb (age_of hl_book) (maximum_book_age cfg) && dleb (age_of bg_book) (maximum_book_age cfg);
        tm_orderbook_synchronization_pass :=
          dleb book_skew (inject_Z (rc_maximum_orderbook_venue_skew_seconds cfg)) |}.

(** [_timing_rejection] *)
Definition timing_rejection (cfg : RuntimeConfig) (events : list SignalInput)
    (timing : ShadowTimingMetrics)
  : result (option (SignalInput * string * FundingCarryRejectCode)) :=
  let! hl_funding := semantic_event events "hyperliquid" FUNDING_TIMESTAMP_SEMANTIC in
  let! bg_funding := semantic_event events "bitget" FUNDING_TIMESTAMP_SEMANTIC in
  let! hl_book := semantic_event events "hyperliquid" ORDERBOOK_TIMESTAMP_SEMANTIC in
  let! bg_book := semantic_event events "bitget" ORDERBOOK_TIMESTAMP_SEMANTIC in
  let max_age := inject_Z (rc_funding_max_age_seconds cfg) in
  Ok (if dltb max_age (tm_hyperliquid_funding_age_seconds timing)
      then Some (hl_funding, "funding_current", HYPERLIQUID_FUNDING_STALE)
      else if dltb max_age (tm_bitget_funding_age_seconds timing)
      then Some (bg_funding, "funding_current", BITGET_FUNDING_STALE)
      else if dltb (inject_Z (rc_funding_max_observation_skew_seconds cfg))
                (tm_funding_observation_skew_seconds timing)
      then Some (hl_funding, "funding_observation_synchronization", FUNDING_OBSERVATION_UNSYNCHRONIZED)
      else if dltb (maximum_book_age cfg) (tm_hyperliquid_orderbook_age_seconds timing)
      then Some (hl_book, "orderbook_snapshot", HYPERLIQUID_ORDERBOOK_STALE)
      else if dltb (maximum_book_age cfg) (tm_bitget_orderbook_age_seconds timing)
      then Some (bg_book, "orderbook_snapshot", BITGET_ORDERBOOK_STALE)
      else if dltb (inject_Z (rc_maximum_orderbook_venue_skew_seconds cfg))
                (tm_orderbook_venue_skew_seconds timing)
      then Some (hl_book, "orderbook_synchronization", ORDERBOOK_VENUES_UNSYNCHRONIZED)
      else None).

Definition pair_identity_of (instrument : string) (events : list SignalInput) : string :=
  sha256_hex (untext (dumps compact_style
    (JArray [jstr instrument; JArray (map jstr (source_event_ids events))]))).

Definition DEFAULT_SHADOW_INSTRUMENT : string := "BTC".

Definition unmatched (events : list SignalInput) (m : MissingShadowInput)
    (timing : option ShadowTimingMetrics) : ShadowInputBatch := {|
  ib_events := events; ib_matched := false; ib_pair_identity := None; ib_source_pair_duplicate := false;
  ib_missing := Some m; ib_timing := timing; ib_instrument := DEFAULT_SHADOW_INSTRUMENT |}.

(** [_evaluate] *)
Definition evaluate_inputs (cfg : RuntimeConfig) (now : Z) : M Runtime ShadowInputBatch := fun s =>
  match missing cfg s with
  | Some m => (s, Ok (unmatched (available_events s) m None))
  | None =>
      match dict_get "hyperliquid" (rt_latest_funding s), dict_get "hyperliquid" (rt_latest_books s),
            dict_get "bitget" (rt_latest_funding s), dict_get "bitget" (rt_latest_books s) with
      | Some hf, Some hb, Some bf, Some bb =>
          let paired := map (with_freshness now) [hf; hb; bf; bb] in
          match List.find (fun i => (now + rc_maximum_future cfg <? timestamp_of i)%Z) paired with
          | Some item =>
              let capability := if bool_decide (si_timestamp_semantic item = Some FUNDING_TIMESTAMP_SEMANTIC)
                                then "funding_current" else "orderbook_snapshot" in
              (s, Ok (unmatched paired (describe s FUTURE_TIMESTAMP (si_venue item) capability) None))
          | None =>
              match timing_metrics cfg paired with
              | Err e => (s, Err e)
              | Ok timing =>
                  match timing_rejection cfg paired timing with
                  | Err e => (s, Err e)
                  | Ok (Some (item, capability, reason)) =>
                      (s, Ok (unmatched paired (describe s reason (si_venue item) capability) (Some timing)))
                  | Ok None =>
                      let identity := pair_identity_of (rc_instrument cfg) paired in
                      (set_rt_last_pair_identity (Some identity) s,
                       Ok {| ib_events := paired; ib_matched := true; ib_pair_identity := Some identity;
                             ib_source_pair_duplicate :=
                               bool_decide (Some identity = rt_last_pair_identity s);
                             ib_missing := None; ib_timing := Some timing;
                             ib_instrument := DEFAULT_SHADOW_INSTRUMENT |})
                  end
              end
          end
      | _, _, _, _ => (s, Err KeyError)
      end
  end.

End Events.

(** ** The durable state *)

Definition opt_json {A} (f : A -> json) (a : option A) : json :=
  match a with Some a => f a | None => JNull end.
Definition jdec (d : finite_decimal) : json := JString (fd_str d).
Definition jdatetime (d : datetime) : json := JString (str_datetime d).

(** [_input_payload], with its keys sorted *)
Definition input_payload (i : SignalInput) : json :=
  let applied := if bool_decide (si_event_type i = "canonical_orderbook_snapshot") then []
                 else si_applied_source_event_ids i in
  JObject [(text "applied_source_event_ids", JArray (map jstr applied));
           (text "ask", opt_json jdec (si_ask i)); (text "ask_size", opt_json jdec (si_ask_size i));
           (text "asks", JArray (map level_json (si_asks i)));
           (text "available_at", jtime (si_available_at i));
           (text "bid", opt_json jdec (si_bid i)); (text "bid_size", opt_json jdec (si_bid_size i));
           (text "bids", JArray (map level_json (si_bids i)));
           (text "capability_support", jstr (si_capability_support i));
           (text "connection_epoch", opt_int (si_connection_epoch i));
           (text "data_quality_score", JReal (si_data_quality_score i));
           (text "event_id", jstr (si_event_id i)); (text "event_type", jstr (si_event_type i));
           (text "exchange_timestamp", opt_json jtime (si_exchange_timestamp i));
           (text "freshness_age_seconds", opt_json jdec (si_freshness_age_seconds i));
           (text "funding_interval_seconds", opt_int (si_funding_interval_seconds i));
           (text "funding_rate", opt_json jdec (si_funding_rate i));
           (text "funding_unit", opt_json jstr (si_funding_unit i));
           (text "instrument", jstr (si_instrument i));
           (text "next_funding_at", opt_json jdatetime (si_next_funding_at i));
           (text "normalizer_version", jstr (si_normalizer_version i));
           (text "received_at", opt_json jtime (si_received_at i));
           (text "reconciliation_state", opt_json jstr (si_reconciliation_state i));
           (text "sequence", opt_int (si_sequence i));
           (text "source_event_id", opt_json jstr (si_source_event_id i));
           (text "source_table", jstr (si_source_table i));
           (text "source_timestamp", opt_json jtime (si_source_timestamp i));
           (text "state_hash", opt_json jstr (si_state_hash i));
           (text "timestamp_semantic", opt_json jstr (si_timestamp_semantic i));
           (text "venue", jstr (si_venue i))].

(** A [dict] keyed by venue, and a list of [[venue, capability, value]] *)
Definition venue_json {A} (f : A -> json) (d : list (string * A)) : json :=
  JObject (map (fun kv => (text kv.1, f kv.2)) (sorted_by (fun x y => string_leb x.1 y.1) d)).
Definition stream_json {A} (f : A -> json) (d : list ((string * string) * A)) : json :=
  JArray (map (fun kv => JArray [jstr kv.1.1; jstr kv.1.2; f kv.2])
            (sorted_by (fun x y => pair_leb x.1 y.1) d)).

Definition state_value (s : Runtime) : json :=
  JObject [(text "book_builder", export_state (rt_book_builder s));
           (text "funding_invalid_reason",
            venue_json (fun c => jstr (reject_code_value c)) (rt_funding_invalid_reason s));
           (text "last_pair_identity", opt_json jstr (rt_last_pair_identity s));
           (text "last_seen", stream_json jtime (rt_last_seen s));
           (text "last_valid", stream_json jtime (rt_last_valid s));
           (text "latest_books", venue_json input_payload (rt_latest_books s));
           (text "latest_funding", venue_json input_payload (rt_latest_funding s));
           (text "processed_by_stream", stream_json JInt (rt_processed_by_stream s));
           (text "started_at", jtime (rt_started_at s));
           (text "stream_metrics", JArray (rt_stream_metrics s))].

(** [_state_json] *)
Definition state_text (s : Runtime) : chars := dumps compact_style (state_value s).

Section Restore.
Context {P : IsoParser}.

(** A value that is absent when it is [null], and a text; other types are outside the
    state the runtime writes. *)
Definition opt_value {A} (f : json -> result A) (v : json) : result (option A) :=
  match v with JNull => Ok None | v => let! a := f v in Ok (Some a) end.
Definition text_value (v : json) : result string :=
  match v with JString s => Ok (untext s) | _ => Err (OtherError "TypeError") end.
Definition int_value (v : json) : result Z :=
  match v with JInt z => Ok z | _ => Err (OtherError "TypeError") end.
Definition real_value (v : json) : result chars :=
  match v with JReal l => Ok l | _ => Err (OtherError "TypeError") end.

Definition field {A} (f : json -> result A) (fields : list (chars * json)) (key : string) : result A :=
  match dict_get (text key) fields with
  | Some v => f v
  | None => Err (OtherError "TypeError")
  end.

(** [tuple((Decimal(str(price)), Decimal(str(quantity))) for price, quantity in levels)] *)
Definition levels_value (v : json) : result (list level) :=
  match v with JArray items => read_pairs items | _ => Ok [] end.

Definition strings_value (v : json) : list string :=
  match v with JArray items => map (fun i => untext (py_str i)) items | _ => [] end.

(** [_restore_input]: dates, decimals and levels are converted, then the object is built *)
Definition restore_input (v : json) : result SignalInput :=
  match v with
  | JObject d =>
      let! available_at := field time_value d "available_at" in
      let! next_funding_at := field (opt_value (fun v => fromisoformat (py_str v))) d "next_funding_at" in
      let! source_timestamp := field (opt_value time_value) d "source_timestamp" in
      let! received_at := field (opt_value time_value) d "received_at" in
      let! exchange_timestamp := field (opt_value time_value) d "exchange_timestamp" in
      let! bid := field (opt_value decimal_item) d "bid" in
      let! ask := field (opt_value decimal_item) d "ask" in
      let! bid_size := field (opt_value decimal_item) d "bid_size" in
      let! ask_size := field (opt_value decimal_item) d "ask_size" in
      let! funding_rate := field (opt_value decimal_item) d "funding_rate" in
      let! freshness := field (opt_value decimal_item) d "freshness_age_seconds" in
      let! bids := levels_value (get_or d "bids" (JArray [])) in
      let! asks := levels_value (get_or d "asks" (JArray [])) in
      let applied := strings_value (get_or d "applied_source_event_ids" (JArray [])) in
      let! event_id := field text_value d "event_id" in
      let! venue := field text_value d "venue" in
      let! instrument := field text_value d "instrument" in
      let! event_type := field text_value d "event_type" in
      let! score := field real_value d "data_quality_score" in
      let! support := field text_value d "capability_support" in
      let! reconciliation := field (opt_value text_value) d "reconciliation_state" in
      let! unit_ := field (opt_value text_value) d "funding_unit" in
      let! interval := field (opt_value int_value) d "funding_interval_seconds" in
      let! table := field text_value d "source_table" in
      let! version := field text_value d "normalizer_version" in
      let! epoch := field (opt_value int_value) d "connection_epoch" in
      let! sequence := field (opt_value int_value) d "sequence" in
      let! hash := field (opt_value text_value) d "state_hash" in
      let! source_id := field (opt_value text_value) d "source_event_id" in
      let! semantic := field (opt_value text_value) d "timestamp_semantic" in
      Ok {| si_event_id := event_id; si_venue := venue; si_instrument := instrument;
            si_event_type := event_type; si_available_at := available_at;
            si_data_quality_score := score; si_capability_support := support;
            si_reconciliation_state := reconciliation; si_bid := bid; si_ask := ask;
            si_bid_size := bid_size; si_ask_size := ask_size; si_funding_rate := funding_rate;
            si_bids := bids; si_asks := asks; si_funding_unit := unit_;
            si_funding_interval_seconds := interval; si_next_funding_at := next_funding_at;
            si_source_timestamp := source_timestamp; si_received_at := received_at;
            si_source_table := table; si_normalizer_version := version; si_connection_epoch := epoch;
            si_sequence := sequence; si_state_hash := hash; si_source_event_id := source_id;
            si_applied_source_event_ids := applied; si_timestamp_semantic := semantic;
            si_exchange_timestamp := exchange_timestamp; si_freshness_age_seconds := freshness |}
  | _ => Err (OtherError "TypeError")
  end.

(** [{venue: f(item) for venue, item in payload.get(key, {}).items()}] *)
Fixpoint read_fields {A} (f : json -> result A) (d : list (chars * json)) : result (list (string * A)) :=
  match d with
  | [] => Ok []
  | (k, v) :: d =>
      let! a := f v in
      let! rest := read_fields f d in
      Ok ((untext k, a) :: rest)
  end.
Definition read_venues {A} (f : json -> result A) (d : list (chars * json)) (key : string)
  : result (list (string * A)) :=
  match get_or d key (JObject []) with
  | JObject fields => read_fields f fields
  | _ => Err (OtherError "AttributeError")
  end.

(** [{(str(a), str(b)): f(v) for a, b, v in payload.get(key, [])}] *)
Fixpoint read_triples {A} (f : json -> result A) (items : list json)
    (acc : list ((string * string) * A)) : result (list ((string * string) * A)) :=
  match items with
  | [] => Ok acc
  | JArray [a; b; v] :: items =>
      let! x := f v in
      read_triples f items (dict_set (untext (py_str a), untext (py_str b)) x acc)
  | _ :: _ => Err (ValueError "cannot unpack")
  end.
Definition read_streams {A} (f : json -> result A) (d : list (chars * json)) (key : string)
  : result (list ((string * string) * A)) :=
  match get_or d key (JArray []) with
  | JArray items => read_triples f items []
  | _ => Err (OtherError "TypeError")
  end.

(** [sum(int(str(m["backlog_event_count"])) for m in metrics)] *)
Fixpoint backlog_sum (metrics : list json) : result Z :=
  match metrics with
  | [] => Ok 0%Z
  | JObject m :: metrics =>
      let! v := item_of m "backlog_event_count" in
      match json_int v with
      | Some n => let! rest := backlog_sum metrics in Ok (n + rest)%Z
      | None => Err (int_error (py_str v))
      end
  | _ :: _ => Err (OtherError "TypeError")
  end.

(** [_restore_state_json] *)
Definition restore_fields (d : list (chars * json)) : M Runtime unit :=
  let started := get_field d "started_at" in
  run! (if truthy started
        then do! t <- plift (time_value started); pmodify (set_rt_started_at t)
        else pret tt);
  do! metrics <- plift (match get_or d "stream_metrics" (JArray []) with
                        | JArray items => Ok items
                        | _ => Err (OtherError "TypeError")
                        end);
  run! pmodify (set_rt_stream_metrics metrics);
  do! backlog <- plift (backlog_sum metrics);
  run! pmodify (set_rt_backlog_event_count backlog);
  do! latest_funding <- plift (read_venues restore_input d "latest_funding");
  run! pmodify (set_rt_latest_funding latest_funding);
  do! latest_books <- plift (read_venues restore_input d "latest_books");
  run! pmodify (set_rt_latest_books latest_books);
  do! pair <- plift (opt_value text_value (get_field d "last_pair_identity"));
  run! pmodify (set_rt_last_pair_identity pair);
  do! seen <- plift (read_streams time_value d "last_seen");
  run! pmodify (set_rt_last_seen seen);
  do! valid <- plift (read_streams time_value d "last_valid");
  run! pmodify (set_rt_last_valid valid);
  do! reasons <- plift (read_venues (fun v => parse_reject_code (py_str v)) d "funding_invalid_reason");
  run! pmodify (set_rt_funding_invalid_reason reasons);
  do! processed <- plift (read_streams py_int d "processed_by_stream");
  run! pmodify (set_rt_processed_by_stream processed);
  match get_or d "book_builder" (JObject []) with
  | JObject builder => on_builder (restore_state builder)
  | _ => pret tt
  end%py.

Definition restore_state_text (value : chars) : M Runtime unit :=
  do! v <- plift (if bool_decide (value = []) then Ok (JObject []) else loads value);
  match v with
  | JObject d => restore_fields d
  | _ => praise (OtherError "AttributeError")
  end%py.

(** [_restore_checkpoint] *)
Definition restore_checkpoint (cp : ShadowInputCheckpoint) : M Runtime unit :=
  run! restore_state_text (cp_state_json cp);
  pmodify (fun s =>
    set_rt_source_event_count (cp_events_processed_total cp)
    (set_rt_runtime_status (cp_runtime_status cp)
    (set_rt_last_cursor_advanced_at (cp_last_cursor_advanced_at cp)
    (set_rt_strategy_observation_last_at (cp_strategy_observation_last_at cp)
    (set_rt_strategy_observation_first_at (cp_strategy_observation_first_at cp)
    (set_rt_backlog_estimate (cp_shadow_input_backlog_estimate cp)
    (set_rt_lag_seconds (cp_shadow_input_lag_seconds cp)
    (set_rt_latest_db_event_available_at (cp_latest_db_event_available_at cp)
    (set_rt_processing_duration_ms (cp_processing_duration_ms cp)
    (set_rt_scan_duration_ms (cp_scan_duration_ms cp)
    (set_rt_last_batch_size (cp_last_batch_size cp)
    (set_rt_batch_count (cp_batch_count cp)
    (set_rt_events_failed_total (cp_events_failed_total cp)
    (set_rt_events_processed_total (cp_events_processed_total cp)
    (set_rt_events_fetched_total (cp_events_fetched_total cp) s)))))))))))))))%py.

End Restore.

(** [_checkpoint] *)
Definition checkpoint_of (cfg : RuntimeConfig) (now : Z) (s : Runtime) : result ShadowInputCheckpoint :=
  ShadowInputCheckpoint_validate {|
    cp_run_id := rc_run_id cfg; cp_state_json := state_text s;
    cp_events_fetched_total := rt_events_fetched_total s;
    cp_events_processed_total := rt_events_processed_total s;
    cp_events_failed_total := rt_events_failed_total s; cp_batch_count := rt_batch_count s;
    cp_last_batch_size := rt_last_batch_size s; cp_scan_duration_ms := rt_scan_duration_ms s;
    cp_processing_duration_ms := rt_processing_duration_ms s;
    cp_latest_db_event_available_at := rt_latest_db_event_available_at s;
    cp_shadow_input_lag_seconds := rt_lag_seconds s;
    cp_shadow_input_backlog_estimate := rt_backlog_estimate s;
    cp_strategy_observation_first_at := rt_strategy_observation_first_at s;
    cp_strategy_observation_last_at := rt_strategy_observation_last_at s;
    cp_last_cursor_advanced_at := rt_last_cursor_advanced_at s;
    cp_runtime_status := rt_runtime_status s; cp_updated_at := now;
    cp_instrument := rc_instrument cfg |}.

(** [_advance_cursors] *)
Definition latest_events (events : list RawMarketEvent) : list ((string * string) * RawMarketEvent) :=
  fold_left (fun latest e =>
    let key := event_stream_id e in
    if match dict_get key latest with
       | Some previous => position_ltb (event_position previous) (event_position e)
       | None => true
       end
    then dict_set key e latest else latest) events [].

Definition advance_cursor (latest : list ((string * string) * RawMarketEvent)) (now : Z)
    (c : ExperimentalEventCursor) : ExperimentalEventCursor :=
  match dict_get (cursor_id c) latest with
  | Some e => {| ec_run_id := ec_run_id c; ec_venue := ec_venue c; ec_instrument := ec_instrument c;
                 ec_event_stream := ec_event_stream c; ec_last_available_at := Some (re_available_at e);
                 ec_last_event_id := Some (re_event_id e); ec_updated_at := now |}
  | None => c
  end.

Definition advance_cursors (events : list RawMarketEvent) (now : Z) (s : Runtime) : Runtime :=
  set_rt_cursors (map (advance_cursor (latest_events events) now) (rt_cursors s)) s.

(** [_stream_event_types] *)
Definition stream_event_types (stream : string) : list string := stream_types stream.

(** ** Reading a batch *)

Section Read.
Context {C : DecimalContext} {D : Digest} {P : IsoParser} {R : Type} {E : EventRepository R}.

Definition World : Type := Runtime * R.

Definition on_runtime {A} (m : M Runtime A) : M World A :=
  fun w => let '(s, r) := m w.1 in ((s, w.2), r).
Definition on_repository {A} (m : M R A) : M World A :=
  fun w => let '(r, a) := m w.2 in ((w.1, r), a).
Definition runtime : M World Runtime := fun w => (w, Ok w.1).
Definition update (f : Runtime -> Runtime) : M World unit := on_runtime (pmodify f).

(** [_fetch_events] *)
Fixpoint fetch_streams (instrument : string) (quota : Z) (cursors : list ExperimentalEventCursor)
  : M World (list RawMarketEvent) :=
  match cursors with
  | [] => pret []
  | c :: cursors =>
      do! events <- on_repository (list_experimental_events_after [c] [ec_venue c] instrument
                                     (stream_event_types (ec_event_stream c)) quota);
      do! rest <- fetch_streams instrument quota cursors;
      pret (events ++ rest)
  end.

Definition fetch_events (cfg : RuntimeConfig) : M World (list RawMarketEvent) :=
  do! s <- runtime;
  if rc_fair_consumption cfg then
    do! events <- fetch_streams (rc_instrument cfg)
                    (rc_batch_size cfg / Z.of_nat (length (rt_cursors s)))%Z (rt_cursors s);
    pret (sorted_by event_leb events)
  else
    on_repository (list_experimental_events_after (rt_cursors s) ["hyperliquid"; "bitget"]
      (rc_instrument cfg) ["funding_current"; "orderbook_snapshot"; "orderbook_delta"]
      (rc_batch_size cfg)).

(** The entry of one cursor in [_stream_metrics]. *)
Definition stream_metric (cfg : RuntimeConfig) (c : ExperimentalEventCursor) (backlog : Z)
    (lag : option finite_decimal) (latest : option Z) (stalled : bool) : json :=
  JObject [(text "backlog_event_count", JInt backlog); (text "event_stream", jstr (ec_event_stream c));
           (text "instrument", jstr (rc_instrument cfg)); (text "lag_seconds", opt_json jdec lag);
           (text "latest_db_event_available_at", opt_json jtime latest);
           (text "runtime_status", jstr (if stalled then "degraded" else "healthy"));
           (text "venue", jstr (ec_venue c))].

Record StreamLag := {
  sl_backlog : Z;
  sl_lag : option finite_decimal;
  sl_latest : option Z;
  sl_stalled : bool;
}.

Fixpoint measure_streams (cfg : RuntimeConfig) (now : Z) (cursors : list ExperimentalEventCursor)
  : M World (list StreamLag) :=
  match cursors with
  | [] => pret []
  | c :: cursors =>
      do! b <- on_repository (experimental_event_backlog [c] [ec_venue c] (rc_instrument cfg)
                                (stream_event_types (ec_event_stream c)));
      let lag := match b.2, ec_last_available_at c with
                 | Some latest, Some last => Some (seconds_decimal (Z.max 0 (latest - last)))
                 | _, _ => None
                 end in
      let stalled := (0 <? b.1)%Z &&
        dltb (inject_Z (rc_maximum_shadow_input_stall_seconds cfg)) (total_seconds (now - ec_updated_at c)) in
      run! update (fun s => set_rt_stream_metrics
             (rt_stream_metrics s ++ [stream_metric cfg c b.1 lag b.2 stalled]) s);
      do! rest <- measure_streams cfg now cursors;
      pret ({| sl_backlog := b.1; sl_lag := lag; sl_latest := b.2; sl_stalled := stalled |} :: rest)
  end.

(** [max(lags, default=None)] by value; the first of equal values *)
Definition max_decimal (xs : list finite_decimal) : option finite_decimal :=
  match xs with
  | [] => None
  | x :: xs => Some (fold_left (fun a b => if dltb (fd_value a) (fd_value b) then b else a) xs x)
  end.

(** [_refresh_lag] *)
Definition refresh_lag (cfg : RuntimeConfig) (now : Z) : M World unit :=
  run! update (set_rt_stream_metrics []);
  do! s <- runtime;
  do! lags <- measure_streams cfg now (rt_cursors s);
  update (fun s =>
    set_rt_runtime_status (if existsb sl_stalled lags then "degraded" else "healthy")
    (set_rt_lag_seconds (max_decimal (omap sl_lag lags))
    (set_rt_latest_db_event_available_at (max_time (omap sl_latest lags))
    (set_rt_backlog_estimate (Z.of_nat (length (List.filter (fun l => 0 <? sl_backlog l)%Z lags)))
    (set_rt_backlog_event_count (fold_left Z.add (map sl_backlog lags) 0%Z) s))))).

(** [_restore_delta_identities] *)
Definition restore_identities (boundary : string * string * string * Z * string) : M World unit :=
  let '(venue, instrument, channel, snapshot_at, snapshot_id) := boundary in
  do! s <- runtime;
  match dict_get (venue, "orderbook_snapshot") (cursor_map (rt_cursors s)) with
  | Some cursor =>
      if negb (bool_decide (venue = "bitget")) then pret tt
      else
        match ec_last_available_at cursor, ec_last_event_id cursor with
        | Some through_at, Some through_id =>
            do! identities <- on_repository (list_experimental_event_ids_between venue instrument
              "orderbook_delta" snapshot_at snapshot_id through_at through_id);
            run! on_runtime (on_builder
                   (restore_applied_delta_event_ids venue instrument channel identities));
            update (fun s =>
              match dict_get venue (rt_latest_books s) with
              | Some b => set_rt_latest_books
                  (dict_set venue (set_si_applied_source_event_ids identities b) (rt_latest_books s)) s
              | None => s
              end)
        | _, _ => pret tt
        end
  | None => pret tt
  end.

Definition restore_delta_identities : M World unit :=
  do! s <- runtime;
  pfor (recovery_boundaries (rt_book_builder s)) restore_identities.

Definition commit (cfg : RuntimeConfig) (now : Z) : M World unit :=
  do! s <- runtime;
  do! cp <- plift (checkpoint_of cfg now s);
  on_repository (commit_shadow_input_checkpoint (rt_cursors s) cp).

Definition or_time (a : option Z) (now : Z) : option Z :=
  match a with Some t => Some t | None => Some now end.

Definition with_instrument (instrument : string) (b : ShadowInputBatch) : ShadowInputBatch := {|
  ib_events := ib_events b; ib_matched := ib_matched b; ib_pair_identity := ib_pair_identity b;
  ib_source_pair_duplicate := ib_source_pair_duplicate b; ib_missing := ib_missing b;
  ib_timing := ib_timing b; ib_instrument := instrument |}.

(** The body of the [try] of [read]. *)
Definition read_batch (cfg : RuntimeConfig) (now : Z) (processing_ms : finite_decimal)
    (events : list RawMarketEvent) : M World ShadowInputBatch :=
  run! on_runtime (pfor events (process_event cfg now));
  run! update (fun s =>
    let total := (rt_events_processed_total s + Z.of_nat (length events))%Z in
    set_rt_source_event_count total (set_rt_events_processed_total total
      (set_rt_processing_duration_ms processing_ms s)));
  run! update (fun s =>
    match events with
    | [] => s
    | _ => set_rt_last_cursor_advanced_at (Some now) (advance_cursors events now s)
    end);
  do! result <- on_runtime (evaluate_inputs cfg now);
  run! update (fun s =>
    if ib_matched result
    then set_rt_strategy_observation_last_at (Some now)
           (set_rt_strategy_observation_first_at (or_time (rt_strategy_observation_first_at s) now) s)
    else s);
  run! refresh_lag cfg now;
  run! commit cfg now;
  pret (with_instrument (rc_instrument cfg) result).

(** The handler of [read]: back to the state [before], its cursors and its counters. *)
Definition roll_back (cfg : RuntimeConfig) (now : Z) (before : Runtime) (before_text : chars)
    (events : list RawMarketEvent) : M World unit :=
  run! update (fun s =>
    set_rt_cursors (rt_cursors before)
      (set_rt_events_failed_total (rt_events_failed_total s + Z.of_nat (length events))%Z s));
  run! on_runtime (restore_state_text before_text);
  run! restore_delta_identities;
  run! update (fun s =>
    set_rt_last_cursor_advanced_at (rt_last_cursor_advanced_at before)
    (set_rt_strategy_observation_last_at (rt_strategy_observation_last_at before)
    (set_rt_strategy_observation_first_at (rt_strategy_observation_first_at before)
    (set_rt_source_event_count (rt_events_processed_total before)
    (set_rt_events_processed_total (rt_events_processed_total before) s)))));
  run! refresh_lag cfg now;
  run! update (set_rt_runtime_status "degraded");
  commit cfg now.

(** [read] *)
Definition read (cfg : RuntimeConfig) (now : Z) (scan_ms processing_ms : finite_decimal)
  : M World ShadowInputBatch :=
  do! before <- runtime;
  do! events <- fetch_events cfg;
  run! update (fun s =>
    set_rt_batch_count (rt_batch_count s + 1)%Z
    (set_rt_last_batch_size (Z.of_nat (length events))
    (set_rt_events_fetched_total (rt_events_fetched_total s + Z.of_nat (length events))%Z
    (set_rt_scan_duration_ms scan_ms s))));
  ptry (read_batch cfg now processing_ms events)
       (fun e => run! roll_back cfg now before (state_text before) events; praise e).

(** ** Construction *)

Definition validate_shadow_instruments (instruments : list string) : result unit :=
  if bool_decide (instruments = []) || negb (bool_decide (NoDup instruments)) ||
     negb (subset instruments FUNDING_CARRY_SHADOW_ALLOWED_INSTRUMENTS)
  then Err (ValueError "shadow instruments must be a non-empty unique subset of BTC/SOL")
  else Ok tt.

(** The derived limits of [__init__]: [math.ceil] of float sums. *)
Definition RuntimeConfig_new (run_id instrument : string) (fair_consumption : bool) (batch_size : Z)
    (maximum_stall_seconds : option Z) (maximum_age_seconds maximum_future_seconds : Z)
    (poll_interval refresh_interval : Q) (funding_max_age funding_max_skew : option Z)
    (maximum_book_skew : Z) (maximum_venue_skew : option Z) : result RuntimeConfig :=
  let! _ := validate_shadow_instruments [instrument] in
  if (batch_size <=? 0)%Z || fair_consumption && (batch_size <? 4)%Z
  then Err (ValueError "shadow input batch size must be positive")
  else
    let total := fl (poll_interval + refresh_interval) in
    Ok {| rc_run_id := run_id; rc_instrument := instrument; rc_fair_consumption := fair_consumption;
          rc_batch_size := batch_size;
          rc_maximum_shadow_input_stall_seconds :=
            default (Qceiling (fl (inject_Z 2 * total)%Q)) maximum_stall_seconds;
          rc_maximum_orderbook_age := maximum_age_seconds * SECOND;
          rc_maximum_future := maximum_future_seconds * SECOND;
          rc_funding_max_age_seconds := default (Qceiling total) funding_max_age;
          rc_funding_max_observation_skew_seconds := default (Qceiling poll_interval) funding_max_skew;
          rc_maximum_orderbook_venue_skew_seconds := default maximum_book_skew maximum_venue_skew |}.

Definition zero_decimal : finite_decimal := {| fd_neg := false; fd_coef := 0; fd_exp := 0 |}.

Definition initial_runtime (maximum_age_seconds maximum_future_seconds started_at : Z)
    (cursors : list ExperimentalEventCursor) : Runtime := {|
  rt_book_builder := Builder_new maximum_age_seconds maximum_future_seconds;
  rt_latest_funding := []; rt_latest_books := []; rt_last_pair_identity := None;
  rt_source_event_count := 0; rt_last_seen := []; rt_last_valid := []; rt_funding_invalid_reason := [];
  rt_events_fetched_total := 0; rt_events_processed_total := 0; rt_events_failed_total := 0;
  rt_batch_count := 0; rt_last_batch_size := 0; rt_scan_duration_ms := zero_decimal;
  rt_processing_duration_ms := zero_decimal; rt_latest_db_event_available_at := None;
  rt_lag_seconds := None; rt_backlog_estimate := 0; rt_backlog_event_count := 0;
  rt_stream_metrics := []; rt_strategy_observation_first_at := None;
  rt_strategy_observation_last_at := None; rt_last_cursor_advanced_at := None;
  rt_runtime_status := "healthy"; rt_processed_by_stream := []; rt_started_at := started_at;
  rt_cursors := cursors |}.

Definition initial_streams : list (string * string) :=
  [("hyperliquid", "funding_current"); ("hyperliquid", "orderbook_snapshot");
   ("bitget", "funding_current"); ("bitget", "orderbook_snapshot")].

Fixpoint initial_cursors (cfg : RuntimeConfig) (initial_available_at : option Z) (initialized_at : Z)
    (saved : list ((string * string) * ExperimentalEventCursor)) (streams : list (string * string))
  : result (list ExperimentalEventCursor) :=
  match streams with
  | [] => Ok []
  | q :: streams =>
      let! c := match dict_get q saved with
                | Some c => Ok c
                | None => ExperimentalEventCursor_validate {|
                    ec_run_id := rc_run_id cfg; ec_venue := q.1; ec_instrument := rc_instrument cfg;
                    ec_event_stream := q.2; ec_last_available_at := initial_available_at;
                    ec_last_event_id := option_map (fun _ => EmptyString) initial_available_at;
                    ec_updated_at := initialized_at |}
                end in
      let! cs := initial_cursors cfg initial_available_at initialized_at saved streams in
      Ok (c :: cs)
  end.

(** [__init__], with the checkpoint of an earlier process of the run, if any *)
Definition Runtime_init (cfg : RuntimeConfig) (maximum_age_seconds maximum_future_seconds : Z)
    (initial_available_at : option Z) (initialized_at : Z) : M R Runtime := fun r =>
  match shadow_input_checkpoint (rc_run_id cfg) (rc_instrument cfg) r with
  | (r, Err e) => (r, Err e)
  | (r, Ok (saved, checkpoint)) =>
      match initial_cursors cfg initial_available_at initialized_at (cursor_map saved) initial_streams with
      | Err e => (r, Err e)
      | Ok cursors =>
          let s := initial_runtime maximum_age_seconds maximum_future_seconds
                     (default initialized_at initial_available_at) cursors in
          match checkpoint with
          | Some cp =>
              let '((s, r), o) := (run! on_runtime (restore_checkpoint cp);
                                   restore_delta_identities)%py (s, r) in
              (r, let! _ := o in Ok s)
          | None => (r, Ok (set_rt_last_cursor_advanced_at (Some initialized_at) s))
          end
      end
  end.

(** ** The machines of several instruments *)

(** [f"{type(exc).__name__}: {exc}"] *)
Definition exn_text (e : exn) : string :=
  match e with
  | ValueError m => "ValueError: " +:+ m
  | DuplicateFillError m => "DuplicateFillError: " +:+ m
  | RuntimeError m => "RuntimeError: " +:+ m
  | PermissionError m => "PermissionError: " +:+ m
  | KeyError => "KeyError: "
  | IndexError m => "IndexError: " +:+ m
  | ExecutionAdapterError m => "ExecutionAdapterError: " +:+ m
  | OtherError n => n +:+ ": "
  end.

Record ShadowRuntime := {
  sr_instrument_sources : list (string * (RuntimeConfig * Runtime));
  sr_last_errors : list (string * string);
}.

(** [FundingCarryShadowRuntime.read]; [durations] are those measured for each instrument *)
Fixpoint read_sources (now : Z) (durations : string -> finite_decimal * finite_decimal)
    (sources : list (string * (RuntimeConfig * Runtime))) (errors : list (string * string)) (r : R)
  : list (string * (RuntimeConfig * Runtime)) * list (string * string) * R * list ShadowInputBatch :=
  match sources with
  | [] => ([], errors, r, [])
  | (instrument, (cfg, s)) :: sources =>
      let '((s, r), o) := read cfg now (durations instrument).1 (durations instrument).2 (s, r) in
      let '(s, errors, batch) :=
        match o with
        | Ok b => (s, dict_pop instrument errors, [b])
        | Err e => (set_rt_runtime_status "degraded" s, dict_set instrument (exn_text e) errors, [])
        end in
      let '(sources, errors, r, batches) := read_sources now durations sources errors r in
      ((instrument, (cfg, s)) :: sources, errors, r, batch ++ batches)
  end.

Definition read_all (self : ShadowRuntime) (now : Z)
    (durations : string -> finite_decimal * finite_decimal) (r : R)
  : ShadowRuntime * R * list ShadowInputBatch :=
  let '(sources, errors, r, batches) :=
    read_sources now durations (sr_instrument_sources self) (sr_last_errors self) r in
  ({| sr_instrument_sources := sources; sr_last_errors := errors |}, r, batches).

(** [runtime_status], [source_event_count] *)
Definition runtime_status (self : ShadowRuntime) : string :=
  if existsb (fun s => bool_decide (rt_runtime_status s.2.2 = "degraded")) (sr_instrument_sources self)
  then "degraded" else "healthy".
Definition total_source_event_count (self : ShadowRuntime) : Z :=
  fold_left (fun n s => n + rt_source_event_count s.2.2)%Z (sr_instrument_sources self) 0%Z.

End Read.
