(* ===== verification/ShadowState.v ===== *)
(** * The durable state of the shadow runtime is read back

    The runtime writes its state as a JSON text, and restores from it after a failed
    batch and after a restart.  The theorems say what the text keeps: everything but the
    identities of the applied deltas, which are read from the repository again, and the
    order of the dictionaries, which are sorted. *)

From Stdlib Require Import ZArith QArith Qround Qabs NArith Sorted Lia Lqa.
From stdpp Require Import base tactics list strings.
From S2P Require Import Prelude Decimals Binary64 Evidence Json PyText FundingCarry.
From S2P Require Import ShadowBook BookReplay ShadowStore ShadowRuntime.

Local Open Scope string_scope.
Local Open Scope list_scope.

(** Looks up the literal keys of a literal object. *)
Ltac json_get :=
  repeat match goal with
         | |- context [dict_get (text ?k) ?fs] =>
             let v := eval hnf in (dict_get (text k) fs) in
             change (dict_get (text k) fs) with v; cbv beta iota
         end.

(** ** Values *)

Lemma decimal_item_str d : decimal_item (JString (fd_str d)) = Ok d.
Proof. unfold decimal_item, json_decimal. simpl. by rewrite parse_decimal_str. Qed.

Lemma read_pairs_levels ls : read_pairs (map level_json ls) = Ok ls.
Proof.
  induction ls as [|[p q] ls IH]; [done|]. cbn [map read_pairs read_pair level_json fst snd].
  rewrite !decimal_item_str. cbn [rbind]. by rewrite IH.
Qed.

Lemma side_set_fresh p q side :
  Qred (fd_value p) ∉ map (fun l => Qred (price l)) side -> side_set p q side = side ++ [(p, q)].
Proof.
  induction side as [|[a b] side IH]; simpl; [done|]. rewrite not_elem_of_cons. intros [Hne Hni].
  unfold same_price. destruct (deqb (fd_value p) (fd_value a)) eqn:E; [by apply Qred_deqb in E|].
  by rewrite IH.
Qed.

Lemma side_of_distinct ls : distinct_prices ls -> side_of ls = ls.
Proof.
  unfold side_of, distinct_prices. change ls with ([] ++ ls) at 1 3. generalize (@nil level).
  induction ls as [|[p q] ls IH]; intros acc Hd; simpl; [by rewrite app_nil_r|].
  rewrite side_set_fresh.
  - transitivity ((acc ++ [(p, q)]) ++ ls); [apply IH|]; by rewrite <- app_assoc.
  - rewrite map_app in Hd. apply NoDup_app in Hd as (_ & Hd & _). intros Hin.
    apply (Hd _ Hin). simpl. left.
Qed.

Section Values.
Context {P : IsoParser} {L : IsoLaws P}.

Lemma time_value_jtime t : datetime_range t -> time_value (jtime t) = Ok t.
Proof using L. intros H. unfold time_value. simpl. by apply utc_roundtrip. Qed.

Lemma datetime_value d : datetime_range (instant d) -> fromisoformat (py_str (jdatetime d)) = Ok d.
Proof using L. intros H. by apply fromisoformat_str. Qed.

Lemma opt_value_json {A} (f : json -> result A) (g : A -> json) (a : option A) :
  (forall x, a = Some x -> g x <> JNull /\ f (g x) = Ok x) -> opt_value f (opt_json g a) = Ok a.
Proof using Type.
  intros H. destruct a as [x|]; [|done]. destruct (H x eq_refl) as [Hn Hf]. simpl.
  unfold opt_value. destruct (g x); try done; rewrite Hf; done.
Qed.

Lemma opt_decimal (a : option finite_decimal) : opt_value decimal_item (opt_json jdec a) = Ok a.
Proof using Type. apply opt_value_json. intros x _. split; [done|]. apply decimal_item_str. Qed.

Lemma text_value_jstr s : text_value (jstr s) = Ok s.
Proof using Type. unfold text_value, jstr. by rewrite untext_text. Qed.

Lemma opt_text (a : option string) : opt_value text_value (opt_json jstr a) = Ok a.
Proof using Type. apply opt_value_json. intros x _. split; [done|]. apply text_value_jstr. Qed.

Lemma opt_int_value (a : option Z) : opt_value int_value (opt_int a) = Ok a.
Proof using Type. by destruct a. Qed.

Definition opt_range (a : option Z) : Prop := match a with Some t => datetime_range t | None => True end.

Lemma opt_time (a : option Z) : opt_range a -> opt_value time_value (opt_json jtime a) = Ok a.
Proof using L.
  intros H. apply opt_value_json. intros x ->. split; [done|]. by apply time_value_jtime.
Qed.

(** ** The builder *)

Definition forget_deltas (s : BookState) : BookState := set_bs_applied_delta_event_ids [] s.

Lemma status_roundtrip s : parse_book_status (text (book_status_value s)) = Ok s.
Proof using Type. by destruct s. Qed.

Lemma reject_code_roundtrip c : parse_reject_code (text (reject_code_value c)) = Ok c.
Proof using Type. by destruct c. Qed.

Definition fields_of (v : json) : list (chars * json) := match v with JObject d => d | _ => [] end.

Lemma restore_book_json key s : state_shape key s ->
  restore_book (fields_of (state_json s)) = Ok (forget_deltas s).
Proof using L.
  intros [_ Hb Ha (H1 & H2 & H3 & H4)]. unfold restore_book, str_item, int_item, time_item, side_item,
    item_of, get_field. cbn [fields_of state_json].
  json_get. cbn [rbind jstr py_str py_int].
  rewrite !read_pairs_levels, !time_value_jtime, status_roundtrip by done. cbn [rbind].
  rewrite !side_of_distinct, !untext_text by done.
  by destruct s as [? ? ? ? ? ? ? ? ? [z|] ? ? ? ? ?].
Qed.

(** The states in the order of their keys. *)
Definition sorted_states (b : Builder) : list (book_key * BookState) :=
  sorted_by (fun x y => key_leb x.1 y.1) (cb_states b).
Definition sorted_reasons (b : Builder) : list ((string * string) * FundingCarryRejectCode) :=
  sorted_by (fun x y => pair_leb x.1 y.1) (cb_last_invalid_reason b).

(** What [restore_state] makes of [export_state]. *)
Definition reloaded (b : Builder) : Builder :=
  set_cb_states (map (fun kv => (kv.1, forget_deltas kv.2)) (sorted_states b))
    (set_cb_last_invalid_reason (sorted_reasons b) b).

Lemma dict_set_snoc {K V} `{EqDecision K} (k : K) (v : V) d :
  k ∉ dict_keys d -> dict_set k v d = d ++ [(k, v)].
Proof using Type.
  unfold dict_keys. induction d as [|[k' v'] d IH]; simpl; [done|]. rewrite not_elem_of_cons.
  intros [Hne Hni]. rewrite decide_False by done. by rewrite IH.
Qed.

Lemma restore_states states acc b :
  (forall kv, kv ∈ states -> state_shape kv.1 kv.2) -> NoDup (dict_keys (acc ++ states)) ->
  pfor (map (fun kv => state_json kv.2) states) restore_one_state (set_cb_states acc b) =
  (set_cb_states (acc ++ map (fun kv => (kv.1, forget_deltas kv.2)) states) b, Ok tt).
Proof using L.
  revert acc. induction states as [|[k s] states IH]; intros acc Hs Hn; cbn [map pfor fst snd].
  { by rewrite app_nil_r. }
  unfold pbind at 1. unfold restore_one_state at 1.
  change (state_json s) with (JObject (fields_of (state_json s))). cbv iota.
  pose proof (Hs (k, s) ltac:(left)) as Hk. simpl in Hk.
  unfold pbind, plift. rewrite (restore_book_json k) by done. unfold pmodify. simpl.
  rewrite set_states_set. destruct Hk as [Hkey _ _ _]. simpl in Hkey. rewrite Hkey.
  assert (NoDup (dict_keys ((acc ++ [(k, forget_deltas s)]) ++ states))) as Hn'.
  { unfold dict_keys in *. rewrite !map_app in *. simpl in *. by rewrite <- app_assoc. }
  rewrite dict_set_snoc.
  - rewrite IH; [|intros kv Hkv; apply Hs; by right|done]. by rewrite <- app_assoc.
  - unfold dict_keys in *. rewrite map_app in Hn. apply NoDup_app in Hn as (_ & Hd & _).
    intros Hin. apply (Hd _ Hin). left.
Qed.

Lemma restore_reasons reasons acc b :
  NoDup (dict_keys (acc ++ reasons)) ->
  pfor (map reason_json reasons) restore_reason (set_cb_last_invalid_reason acc b) =
  (set_cb_last_invalid_reason (acc ++ reasons) b, Ok tt).
Proof using Type.
  revert acc. induction reasons as [|[[v i] c] reasons IH]; intros acc Hn; cbn [map pfor].
  { by rewrite app_nil_r. }
  unfold pbind at 1, restore_reason at 1, reason_json at 1, str_item, item_of. json_get.
  cbn [rbind jstr py_str fst snd]. unfold pbind, plift. rewrite reject_code_roundtrip.
  unfold mark_reason, pmodify. rewrite !untext_text. cbn [cb_last_invalid_reason set_cb_last_invalid_reason].
  rewrite dict_set_snoc.
  - change (set_cb_last_invalid_reason (acc ++ [(v, i, c)]) (set_cb_last_invalid_reason acc b))
      with (set_cb_last_invalid_reason (acc ++ [(v, i, c)]) b).
    rewrite IH; [by rewrite <- app_assoc|].
    unfold dict_keys in *. rewrite !map_app in *. simpl in *. by rewrite <- app_assoc.
  - unfold dict_keys in *. rewrite map_app in Hn. apply NoDup_app in Hn as (_ & Hd & _).
    intros Hin. apply (Hd _ Hin). left.
Qed.

(** The builder after an export and a restore into any builder with the same limits. *)
Lemma restore_export b b0 h :
  builder_inv h b -> NoDup (dict_keys (cb_last_invalid_reason b)) ->
  cb_maximum_age b0 = cb_maximum_age b -> cb_maximum_future b0 = cb_maximum_future b ->
  restore_state (fields_of (export_state b)) b0 = (reloaded b, Ok tt).
Proof using L.
  intros Hi Hr Ha Hf. unfold restore_state, export_state, get_or. cbn [fields_of]. json_get.
  cbn [default]. unfold id. unfold pbind at 1, pmodify at 1. unfold pbind at 1.
  fold (sorted_states b) (sorted_reasons b).
  assert (sorted_states b ≡ₚ cb_states b) as Hsp by apply sorted_by_Permutation.
  assert (sorted_reasons b ≡ₚ cb_last_invalid_reason b) as Hrp by apply sorted_by_Permutation.
  rewrite (restore_states (sorted_states b) [] b0).
  2: { intros [k s] Hk. rewrite Hsp in Hk. apply dict_In_get in Hk; [|apply Hi]. by apply (bi_shape h b). }
  2: { unfold dict_keys. simpl. rewrite Hsp. apply Hi. }
  cbn [app]. unfold pbind at 1, metrics_json. unfold restore_metrics, metric. json_get.
  cbn [rbind py_int]. unfold pbind at 1, plift, pmodify at 1. unfold pbind at 1, pmodify at 1.
  rewrite restore_reasons by (unfold dict_keys; simpl; by rewrite Hrp).
  unfold reloaded. destruct b as [age future states metrics reasons], b0. simpl in *. subst.
  by destruct metrics.
Qed.

(** ** Inputs *)

Definition input_wf (i : SignalInput) : Prop :=
  datetime_range (si_available_at i) /\ opt_range (si_exchange_timestamp i) /\
  opt_range (si_received_at i) /\ opt_range (si_source_timestamp i) /\
  match si_next_funding_at i with Some d => datetime_range (instant d) | None => True end /\
  fixed_literal (si_data_quality_score i).

(** The identities of the deltas of a book are left out. *)
Definition forget_applied (i : SignalInput) : SignalInput :=
  if bool_decide (si_event_type i = "canonical_orderbook_snapshot")
  then set_si_applied_source_event_ids [] i else i.

Lemma strings_value_map xs : strings_value (JArray (map jstr xs)) = xs.
Proof using Type.
  unfold strings_value. induction xs as [|x xs IH]; [done|]. cbn [map jstr py_str].
  rewrite untext_text. f_equal. exact IH.
Qed.

Lemma opt_datetime (a : option datetime) :
  match a with Some d => datetime_range (instant d) | None => True end ->
  opt_value (fun v => fromisoformat (py_str v)) (opt_json jdatetime a) = Ok a.
Proof using L.
  intros H. apply opt_value_json. intros d ->. split; [done|]. by apply datetime_value.
Qed.

Lemma restore_input_payload i : input_wf i -> restore_input (input_payload i) = Ok (forget_applied i).
Proof using L.
  intros (H1 & H2 & H3 & H4 & H5 & _). unfold restore_input, input_payload, field, get_or.
  json_get. cbn [default]. unfold id, levels_value.
  rewrite time_value_jtime, opt_datetime, !opt_time, !opt_decimal, !read_pairs_levels, !text_value_jstr,
    !opt_text, !opt_int_value by done.
  cbn [rbind real_value]. rewrite strings_value_map. unfold forget_applied.
  destruct i. simpl. by destruct (bool_decide _).
Qed.

(** ** Dictionaries *)

Lemma read_fields_map {A} (f : json -> result A) (g : A -> json) (norm : A -> A) (d : list (string * A)) :
  (forall kv, kv ∈ d -> f (g kv.2) = Ok (norm kv.2)) ->
  read_fields f (map (fun kv => (text kv.1, g kv.2)) d) = Ok (map (fun kv => (kv.1, norm kv.2)) d).
Proof using Type.
  induction d as [|[k v] d IH]; intros H; [done|]. cbn [map read_fields fst snd].
  pose proof (H (k, v) ltac:(left)) as Hv. cbn [snd] in Hv. rewrite Hv. cbn [rbind].
  rewrite IH by (intros kv Hkv; apply H; by right). cbn [rbind]. by rewrite untext_text.
Qed.

Definition sorted_venues {A} (d : list (string * A)) : list (string * A) :=
  sorted_by (fun x y => string_leb x.1 y.1) d.
Definition sorted_streams {A} (d : list ((string * string) * A)) : list ((string * string) * A) :=
  sorted_by (fun x y => pair_leb x.1 y.1) d.

Lemma sorted_venues_perm {A} (d : list (string * A)) : sorted_venues d ≡ₚ d.
Proof using Type. apply sorted_by_Permutation. Qed.
Lemma sorted_streams_perm {A} (d : list ((string * string) * A)) : sorted_streams d ≡ₚ d.
Proof using Type. apply sorted_by_Permutation. Qed.

Lemma read_triples_map {A} (f : json -> result A) (g : A -> json) (d acc : list ((string * string) * A)) :
  (forall kv, kv ∈ d -> f (g kv.2) = Ok kv.2) -> NoDup (dict_keys (acc ++ d)) ->
  read_triples f (map (fun kv => JArray [jstr kv.1.1; jstr kv.1.2; g kv.2]) d) acc = Ok (acc ++ d).
Proof using Type.
  revert acc. induction d as [|[[v c] x] d IH]; intros acc H Hn; cbn [map read_triples fst snd].
  { by rewrite app_nil_r. }
  pose proof (H (v, c, x) ltac:(left)) as Hv. cbn [snd] in Hv. rewrite Hv. cbn [rbind jstr py_str]. rewrite !untext_text.
  unfold dict_keys in *. rewrite map_app in Hn. rewrite dict_set_snoc.
  - rewrite IH; [by rewrite <- app_assoc|intros kv Hkv; apply H; by right|].
    rewrite !map_app. simpl. by rewrite <- app_assoc.
  - apply NoDup_app in Hn as (_ & Hd & _). intros Hin. apply (Hd _ Hin). left.
Qed.

(** ** The text is well formed JSON *)

Lemma strings_json_wf xs : json_wf (JArray (map jstr xs)).
Proof using Type. apply strings_wf. Qed.

Lemma json_wf_array xs : (forall v, v ∈ xs -> json_wf v) -> json_wf (JArray xs).
Proof using Type.
  intros H. cbn [json_wf]. induction xs as [|v xs IH]; simpl; [done|].
  split; [apply H; left|]. apply IH. intros w Hw. apply H. by right.
Qed.

Lemma json_wf_object d :
  NoDup (map fst d) -> (forall f, f ∈ d -> json_wf f.2) -> json_wf (JObject d).
Proof using Type.
  intros Hn H. cbn [json_wf]. split; [done|]. clear Hn. induction d as [|f d IH]; simpl; [done|].
  split; [apply H; left|]. apply IH. intros g Hg. apply H. by right.
Qed.

Lemma levels_json_wf ls : json_wf (JArray (map level_json ls)).
Proof using Type. apply json_wf_array. intros v (l & -> & _)%list_elem_of_fmap. done. Qed.

Lemma opt_json_wf {A} (g : A -> json) (a : option A) : (forall x, json_wf (g x)) -> json_wf (opt_json g a).
Proof using Type. by destruct a; simpl. Qed.
Lemma opt_int_wf a : json_wf (opt_int a).
Proof using Type. by destruct a. Qed.

End Values.

(** Proves [json_wf] of an object with literal keys. *)
Ltac json_object :=
  apply json_wf_object;
  [ cbn [map fst]; apply (bool_decide_unpack _); vm_compute; exact I
  | let f := fresh "f" in let H := fresh "H" in
    intros f H; repeat (apply elem_of_cons in H as [->|H]; [cbn [snd]|]);
    [..|by apply elem_of_nil in H] ].

#[local] Hint Resolve strings_json_wf levels_json_wf opt_int_wf : json_wf.

Lemma input_payload_wf i : input_wf i -> json_wf (input_payload i).
Proof.
  intros (_ & _ & _ & _ & _ & Hs). unfold input_payload. json_object; auto with json_wf;
    try (apply opt_json_wf; done); done.
Qed.

Lemma export_state_wf b : json_wf (export_state b).
Proof.
  unfold export_state. json_object.
  - apply json_wf_array. intros v ([[k i] c] & -> & _)%list_elem_of_fmap. unfold reason_json. json_object; done.
  - unfold metrics_json. json_object; done.
  - apply json_wf_array. intros v ([k s] & -> & _)%list_elem_of_fmap. cbn [snd]. unfold state_json.
    json_object; auto with json_wf; done.
Qed.

(** ** The runtime *)

(** An entry of [_stream_metrics]. *)
Definition metric_wf (m : json) : Prop :=
  json_wf m /\ exists d n, m = JObject d /\ dict_get (text "backlog_event_count") d = Some (JInt n).

Record runtime_wf (s : Runtime) : Prop := {
  rw_builder : exists h, builder_inv h (rt_book_builder s);
  rw_reasons : NoDup (dict_keys (cb_last_invalid_reason (rt_book_builder s)));
  rw_funding : NoDup (dict_keys (rt_latest_funding s));
  rw_books : NoDup (dict_keys (rt_latest_books s));
  rw_inputs : forall kv, kv ∈ rt_latest_funding s ++ rt_latest_books s -> input_wf kv.2;
  rw_seen : NoDup (dict_keys (rt_last_seen s));
  rw_valid : NoDup (dict_keys (rt_last_valid s));
  rw_times : forall kv, kv ∈ rt_last_seen s ++ rt_last_valid s -> datetime_range kv.2;
  rw_invalid : NoDup (dict_keys (rt_funding_invalid_reason s));
  rw_processed : NoDup (dict_keys (rt_processed_by_stream s));
  rw_started : datetime_range (rt_started_at s);
  rw_metrics : Forall metric_wf (rt_stream_metrics s);
}.

Lemma venue_json_wf {A} (g : A -> json) (d : list (string * A)) :
  NoDup (dict_keys d) -> (forall kv, kv ∈ d -> json_wf (g kv.2)) -> json_wf (venue_json g d).
Proof.
  intros Hn H. unfold venue_json. fold (sorted_venues d). apply json_wf_object.
  - rewrite map_map. change (fun x : string * A => (text x.1, g x.2).1) with (fun x : string * A => text x.1).
    rewrite <- (map_map fst text). apply NoDup_fmap; [intros x y; apply text_inj|].
    rewrite (sorted_venues_perm d). exact Hn.
  - intros f (kv & -> & Hkv)%list_elem_of_fmap. cbn [snd]. apply H. by rewrite <- (sorted_venues_perm d).
Qed.

Lemma stream_json_wf {A} (g : A -> json) (d : list ((string * string) * A)) :
  (forall x, json_wf (g x)) -> json_wf (stream_json g d).
Proof.
  intros H. apply json_wf_array. intros v (kv & -> & _)%list_elem_of_fmap. cbn [json_wf foldr jstr]. auto.
Qed.

Lemma state_value_wf s : runtime_wf s -> json_wf (state_value s).
Proof.
  intros [_ _ Hf Hb Hi _ _ _ Hr _ _ Hm]. unfold state_value. json_object.
  - apply export_state_wf.
  - by apply venue_json_wf.
  - by apply opt_json_wf.
  - by apply stream_json_wf.
  - by apply stream_json_wf.
  - apply venue_json_wf; [done|]. intros kv Hkv. apply input_payload_wf, Hi, elem_of_app. by right.
  - apply venue_json_wf; [done|]. intros kv Hkv. apply input_payload_wf, Hi, elem_of_app. by left.
  - by apply stream_json_wf.
  - done.
  - apply json_wf_array. intros v Hv. rewrite Forall_forall in Hm. by apply Hm.
Qed.

(** [sum] of the backlogs *)
Definition backlog_of (m : json) : Z :=
  match dict_get (text "backlog_event_count") (fields_of m) with Some (JInt n) => n | _ => 0 end.

(** What a restore makes of the state [s], in a runtime [s0] whose other attributes stay. *)
Definition reload (s s0 : Runtime) : Runtime :=
  set_rt_book_builder (reloaded (rt_book_builder s))
  (set_rt_processed_by_stream (sorted_streams (rt_processed_by_stream s))
  (set_rt_funding_invalid_reason (sorted_venues (rt_funding_invalid_reason s))
  (set_rt_last_valid (sorted_streams (rt_last_valid s))
  (set_rt_last_seen (sorted_streams (rt_last_seen s))
  (set_rt_last_pair_identity (rt_last_pair_identity s)
  (set_rt_latest_books (map (fun kv => (kv.1, forget_applied kv.2)) (sorted_venues (rt_latest_books s)))
  (set_rt_latest_funding (map (fun kv => (kv.1, forget_applied kv.2)) (sorted_venues (rt_latest_funding s)))
  (set_rt_backlog_event_count (foldr Z.add 0%Z (map backlog_of (rt_stream_metrics s)))
  (set_rt_stream_metrics (rt_stream_metrics s)
  (set_rt_started_at (rt_started_at s) s0)))))))))).

Lemma underscored_digits s b : forallb is_digit s = true -> (s <> [] \/ b = true) ->
  underscored b s = Some s.
Proof.
  revert b. induction s as [|c s IH]; intros b Hd Hb; [by destruct Hb as [?| ->]|].
  simpl in Hd |- *. apply andb_true_iff in Hd as [-> Hd]. rewrite IH by auto. done.
Qed.

Lemma parse_int_dump z : parse_int (dump_int z) = Some z.
Proof.
  unfold parse_int, dump_int. set (n := Z.to_N (Z.abs z)).
  destruct (digits_chars n) as (Hd & c & t & Ec & _).
  assert (is_digit c = true) as Hc by (rewrite Ec in Hd; by apply andb_true_iff in Hd as [? _]).
  rewrite strip_plain.
  2: { rewrite forallb_app, (digits_plain (text (digits n))) by done. by destruct (z <? 0)%Z. }
  assert (take_sign ((if (z <? 0)%Z then [chr 45] else []) ++ text (digits n)) =
    ((z <? 0)%Z, text (digits n))) as ->.
  { destruct (z <? 0)%Z; [done|]. rewrite Ec. cbn [app take_sign]. apply digit_range in Hc.
    rewrite (proj2 (N.eqb_neq (ord c) 45)), (proj2 (N.eqb_neq (ord c) 43)) by lia. done. }
  rewrite underscored_digits by (done || left; by rewrite Ec).
  rewrite chars_to_N_digits. subst n. f_equal. destruct (Z.ltb_spec z 0); lia.
Qed.

Lemma backlog_sum_wf ms : Forall metric_wf ms ->
  backlog_sum ms = Ok (foldr Z.add 0%Z (map backlog_of ms)).
Proof.
  induction 1 as [|m ms (_ & d & n & -> & Hn) _ IH]; [done|].
  cbn [backlog_sum map foldr]. unfold item_of, backlog_of at 1. cbn [fields_of]. rewrite Hn.
  cbn [rbind]. unfold json_int. cbn [py_str py_repr]. rewrite parse_int_dump, IH. done.
Qed.

Lemma map_pair_id {K A} (d : list (K * A)) : map (fun kv => (kv.1, id kv.2)) d = d.
Proof. induction d as [|[k v] d IH]; simpl; by f_equal. Qed.

Lemma jtime_truthy t : truthy (jtime t) = true.
Proof.
  unfold jtime, truthy, str_datetime, isoformat_with. destruct (civil_year _) as [[y m] d].
  rewrite text_app. destruct (text (zpad 4 y)); [|done]. cbn [app]. rewrite text_app. done.
Qed.

Section Roundtrip.
Context {P : IsoParser} {L : IsoLaws P}.

Lemma read_venues_json {A} (f : json -> result A) (g : A -> json) norm (d : list (string * A)) v fs key :
  dict_get (text key) fs = Some v -> v = venue_json g d ->
  (forall kv, kv ∈ d -> f (g kv.2) = Ok (norm kv.2)) ->
  read_venues f fs key = Ok (map (fun kv => (kv.1, norm kv.2)) (sorted_venues d)).
Proof using Type.
  intros Hg -> H. unfold read_venues, get_or. rewrite Hg. cbn [default]. unfold id, venue_json.
  apply read_fields_map. intros kv Hkv. apply H. by rewrite <- (sorted_venues_perm d).
Qed.

Lemma read_streams_json {A} (f : json -> result A) (g : A -> json) (d : list ((string * string) * A)) v fs key :
  dict_get (text key) fs = Some v -> v = stream_json g d -> NoDup (dict_keys d) ->
  (forall kv, kv ∈ d -> f (g kv.2) = Ok kv.2) -> read_streams f fs key = Ok (sorted_streams d).
Proof using Type.
  intros Hg -> Hn H. unfold read_streams, get_or. rewrite Hg. cbn [default]. unfold id, stream_json.
  apply (read_triples_map f g (sorted_streams d) []).
  - intros kv Hkv. apply H. by rewrite <- (sorted_streams_perm d).
  - unfold dict_keys. simpl. rewrite (sorted_streams_perm d). exact Hn.
Qed.

Lemma restore_state_value s s0 :
  runtime_wf s -> cb_maximum_age (rt_book_builder s0) = cb_maximum_age (rt_book_builder s) ->
  cb_maximum_future (rt_book_builder s0) = cb_maximum_future (rt_book_builder s) ->
  restore_fields (fields_of (state_value s)) s0 = (reload s s0, Ok tt).
Proof using L.
  intros [[h Hh] Hre Hf Hb Hi Hse Hva Hti Hin Hpr Hst Hme] Ha Hfu.
  unfold restore_fields. set (d := fields_of (state_value s)).
  assert (get_field d "started_at" = jtime (rt_started_at s)) as -> by done.
  rewrite jtime_truthy, time_value_jtime by done.
  unfold pbind at 1. unfold pbind at 1, plift at 1, pmodify at 1.
  unfold pbind at 1.
  assert (get_or d "stream_metrics" (JArray []) = JArray (rt_stream_metrics s)) as -> by done.
  unfold plift at 1. unfold pbind at 1, pmodify at 1. rewrite backlog_sum_wf by done.
  unfold pbind at 1, plift at 1. unfold pbind at 1, pmodify at 1.
  rewrite (read_venues_json _ input_payload forget_applied (rt_latest_funding s) _ d "latest_funding" eq_refl eq_refl)
    by (intros; apply restore_input_payload, Hi, elem_of_app; by left).
  unfold pbind at 1, plift at 1. unfold pbind at 1, pmodify at 1.
  rewrite (read_venues_json _ input_payload forget_applied (rt_latest_books s) _ d "latest_books" eq_refl eq_refl)
    by (intros; apply restore_input_payload, Hi, elem_of_app; by right).
  unfold pbind at 1, plift at 1. unfold pbind at 1, pmodify at 1.
  assert (get_field d "last_pair_identity" = opt_json jstr (rt_last_pair_identity s)) as -> by done.
  rewrite opt_text. unfold pbind at 1, plift at 1. unfold pbind at 1, pmodify at 1.
  rewrite (read_streams_json _ jtime (rt_last_seen s) _ d "last_seen" eq_refl eq_refl Hse)
    by (intros; apply time_value_jtime, Hti, elem_of_app; by left).
  unfold pbind at 1, plift at 1. unfold pbind at 1, pmodify at 1.
  rewrite (read_streams_json _ jtime (rt_last_valid s) _ d "last_valid" eq_refl eq_refl Hva)
    by (intros; apply time_value_jtime, Hti, elem_of_app; by right).
  unfold pbind at 1, plift at 1. unfold pbind at 1, pmodify at 1.
  rewrite (read_venues_json _ (fun c => jstr (reject_code_value c)) id (rt_funding_invalid_reason s) _ d
    "funding_invalid_reason" eq_refl eq_refl)
    by (intros; apply reject_code_roundtrip).
  rewrite map_pair_id. unfold pbind at 1, plift at 1. unfold pbind at 1, pmodify at 1.
  rewrite (read_streams_json py_int JInt (rt_processed_by_stream s) _ d "processed_by_stream" eq_refl eq_refl Hpr) by done.
  unfold pbind at 1, plift at 1. unfold pbind at 1, pmodify at 1.
  assert (get_or d "book_builder" (JObject []) = JObject (fields_of (export_state (rt_book_builder s)))) as -> by done.
  cbv iota. unfold on_builder, pzoom. cbn [rt_book_builder].
  rewrite (restore_export (rt_book_builder s) (rt_book_builder s0) h) by done. done.
Qed.

(** [_restore_state_json(_state_json())] *)
Lemma restore_state_text_of s s0 :
  runtime_wf s -> cb_maximum_age (rt_book_builder s0) = cb_maximum_age (rt_book_builder s) ->
  cb_maximum_future (rt_book_builder s0) = cb_maximum_future (rt_book_builder s) ->
  restore_state_text (state_text s) s0 = (reload s s0, Ok tt).
Proof using L.
  intros Hw Ha Hf. unfold restore_state_text.
  rewrite bool_decide_eq_false_2 by (unfold state_text, state_value; by cbn [dumps]).
  unfold state_text. rewrite (loads_dumps _ compact_style_ok) by (by apply state_value_wf).
  unfold pbind, plift. apply (restore_state_value s s0 Hw Ha Hf).
Qed.

End Roundtrip.
