(* ===== verification/ShadowSafety.v ===== *)
(** * Theorems on the shadow runtime

    No operation of the runtime leaves the states that can be written and read back, and
    a pair of venues is matched exactly when its four inputs are there, timely and
    synchronized. *)

From Stdlib Require Import ZArith QArith Qround Qabs NArith Sorted Lia Lqa.
From stdpp Require Import base tactics list strings.
From S2P Require Import Prelude Decimals Binary64 Evidence Json PyText FundingCarry.
From S2P Require Import ShadowBook BookReplay ShadowStore ShadowRuntime ShadowState.

Local Open Scope string_scope.
Local Open Scope list_scope.

(** ** Lookups do not see the order of a dictionary *)

Lemma dict_get_perm {K V} `{EqDecision K} (k : K) (d d' : list (K * V)) :
  NoDup (dict_keys d) -> d ≡ₚ d' -> dict_get k d = dict_get k d'.
Proof.
  intros Hn Hp. assert (NoDup (dict_keys d')) as Hn' by (unfold dict_keys; by rewrite <- Hp).
  destruct (dict_get k d) as [v|] eqn:E.
  - symmetry. apply dict_In_get; [done|]. rewrite <- Hp. by apply dict_get_In.
  - symmetry. apply dict_get_None. apply dict_get_None in E. unfold dict_keys in *. by rewrite <- Hp.
Qed.

Lemma dict_get_map {K V W} `{EqDecision K} (f : V -> W) (k : K) (d : list (K * V)) :
  dict_get k (map (fun kv => (kv.1, f kv.2)) d) = option_map f (dict_get k d).
Proof. induction d as [|[k' v] d IH]; simpl; [done|]. by destruct (decide (k = k')). Qed.

Lemma dict_keys_map {K V W} (f : V -> W) (d : list (K * V)) :
  dict_keys (map (fun kv => (kv.1, f kv.2)) d) = dict_keys d.
Proof. unfold dict_keys. rewrite map_map. done. Qed.

(** ** What no operation of the builder changes: the limits, and that the reasons are a
    dictionary *)

Definition builder_frame (b b' : Builder) : Prop :=
  same_limits b b' /\
  (NoDup (dict_keys (cb_last_invalid_reason b)) -> NoDup (dict_keys (cb_last_invalid_reason b'))).

#[local] Instance builder_frame_preorder : PreOrder builder_frame.
Proof.
  split; [by intros b|]. intros a b c [[H1 H2] H3] [[H4 H5] H6]. split; [split; congruence|auto].
Qed.

Lemma frame_same b b' :
  same_limits b b' -> cb_last_invalid_reason b' = cb_last_invalid_reason b -> builder_frame b b'.
Proof. intros H E. split; [done|]. by rewrite E. Qed.

Lemma frame_books b b' : same_books b b' -> builder_frame b b'.
Proof. intros (_ & ? & ? & ?). by apply frame_same. Qed.

Section Frames.
Context {C : DecimalContext} {D : Digest} {P : IsoParser}.

Lemma frame_count get set : steps builder_frame (count get set).
Proof. done. Qed.
Lemma frame_reason v i c : steps builder_frame (mark_reason v i c).
Proof. intros b. split; [done|]. intros H. by apply dict_set_NoDup. Qed.
Lemma frame_on_state key f : steps builder_frame (on_state key f).
Proof. intros b. unfold on_state, pmodify. simpl. by destruct (dict_get key (cb_states b)). Qed.
Lemma frame_get key : steps builder_frame (get_state key).
Proof. done. Qed.
Lemma frame_canonical_book a b c d e f g h i j k l m :
  steps builder_frame (canonical_book a b c d e f g h i j k l m).
Proof. intros s. apply frame_books, canonical_book_frame. Qed.
Lemma frame_checksum u s : steps builder_frame (validate_checksum u s).
Proof. intros b. apply frame_books, validate_checksum_spec. Qed.
Lemma frame_update_bids key us : steps builder_frame (update_bids key us).
Proof.
  intros b. unfold update_bids. destruct (dict_get key _); [|done]. by destruct (update_side _ _).
Qed.
Lemma frame_update_asks key us : steps builder_frame (update_asks key us).
Proof.
  intros b. unfold update_asks. destruct (dict_get key _); [|done]. by destruct (update_side _ _).
Qed.

#[local] Hint Resolve frame_count frame_reason frame_on_state frame_get frame_canonical_book
  frame_checksum frame_update_bids frame_update_asks builder_frame_preorder : steps.

Lemma frame_from_state s now : steps builder_frame (from_state s now).
Proof. apply frame_canonical_book. Qed.
#[local] Hint Resolve frame_from_state : steps.

Lemma frame_except {A} (h : string -> M Builder A) e :
  (forall m, steps builder_frame (h m)) -> steps builder_frame (except_value_error h e).
Proof. intros H. destruct e; try apply H; apply steps_raise; apply _. Qed.

Lemma frame_apply event now : steps builder_frame (apply event now).
Proof.
  unfold apply, apply_bitget, bitget_snapshot, bitget_delta, sequence_gap, invalidate, apply_delta,
    standalone_snapshot, canonical, count_snapshot, count_delta, count_invalid, count_gap,
    count_out_of_order, count_reconnect.
  steps_go; try (apply frame_except; intros m; unfold invalidate; steps_go); done.
Qed.

(** ** Every operation keeps the state well formed *)

(** An event whose times, and the next funding time it names, are dates of the calendar. *)
Definition event_ok (e : RawMarketEvent) : Prop :=
  event_times e /\
  forall fields d, payload e = Ok fields ->
    fromisoformat (py_str (or_else (get_field fields "next_funding_at")
                                   (get_field fields "next_funding_time"))) = Ok d ->
    datetime_range (instant d).

Definition wf_kept (s s' : Runtime) : Prop := runtime_wf s -> runtime_wf s'.
#[local] Instance wf_kept_preorder : PreOrder wf_kept.
Proof. split; unfold wf_kept; [intros s|intros a b c]; auto. Qed.
#[local] Hint Resolve wf_kept_preorder : steps.

Lemma one_literal : fixed_literal (text "1.0").
Proof. by exists (chr 49), [], [chr 48]. Qed.

Lemma wf_builder s b :
  runtime_wf s -> (exists h, builder_inv h b) -> NoDup (dict_keys (cb_last_invalid_reason b)) ->
  runtime_wf (set_rt_book_builder b s).
Proof. intros [] ? ?. by constructor. Qed.

Lemma keeps_apply event now : event_ok event -> steps wf_kept (on_builder (apply event now)).
Proof.
  intros [Ht _] s Hs. unfold on_builder, pzoom. destruct (rw_builder s Hs) as [h Hh].
  pose proof (apply_event_post h event now (rt_book_builder s) Hh Ht) as (Hi & _ & _).
  pose proof (proj2 (frame_apply event now (rt_book_builder s)) (rw_reasons s Hs)) as Hr.
  destruct (apply event now (rt_book_builder s)) as [b o]. simpl in *. apply wf_builder; eauto.
Qed.

Lemma dict_set_values {K V} `{EqDecision K} (Q : V -> Prop) (k : K) v d :
  (forall kv, kv ∈ d -> Q kv.2) -> Q v -> forall kv, kv ∈ dict_set k v d -> Q kv.2.
Proof.
  intros Hd Hv kv Hkv. assert (Forall (fun kv => Q kv.2) (dict_set k v d)) as H.
  { apply dict_set_Forall; [by apply Forall_forall|done]. }
  rewrite Forall_forall in H. by apply H.
Qed.

Lemma dict_pop_values {K V} `{EqDecision K} (Q : V -> Prop) (k : K) d :
  (forall kv, kv ∈ d -> Q kv.2) -> forall kv, kv ∈ dict_pop k d -> Q kv.2.
Proof.
  intros Hd kv Hkv. apply Hd. eapply sublist_subseteq; [apply (dict_pop_sublist k)|done].
Qed.

Lemma wf_invalid s d : runtime_wf s -> NoDup (dict_keys d) -> runtime_wf (set_rt_funding_invalid_reason d s).
Proof. intros [] ?. by constructor. Qed.

Lemma wf_funding s d :
  runtime_wf s -> NoDup (dict_keys d) -> (forall kv, kv ∈ d -> input_wf kv.2) ->
  runtime_wf (set_rt_latest_funding d s).
Proof.
  intros Hs ? H. pose proof (rw_inputs s Hs) as Hin. destruct Hs. constructor; try done.
  intros kv [?|?]%elem_of_app; [by apply H|]. apply Hin, elem_of_app. by right.
Qed.

Lemma wf_books s d :
  runtime_wf s -> NoDup (dict_keys d) -> (forall kv, kv ∈ d -> input_wf kv.2) ->
  runtime_wf (set_rt_latest_books d s).
Proof.
  intros Hs ? H. pose proof (rw_inputs s Hs) as Hin. destruct Hs. constructor; try done.
  intros kv [?|?]%elem_of_app; [|by apply H]. apply Hin, elem_of_app. by left.
Qed.

Lemma wf_valid s k t d :
  runtime_wf s -> datetime_range t -> d = rt_last_valid s ->
  runtime_wf (set_rt_last_valid (dict_set k t d) s).
Proof.
  intros Hs ? ->. pose proof (rw_times s Hs) as Hti. destruct Hs.
  constructor; try done; simpl; [by apply dict_set_NoDup|].
  intros kv [?|Hkv]%elem_of_app; [apply Hti, elem_of_app; by left|].
  revert kv Hkv. apply dict_set_values; [|done]. intros kv ?. apply Hti, elem_of_app. by right.
Qed.

Lemma wf_seen s k t n :
  runtime_wf s -> datetime_range t ->
  runtime_wf (set_rt_last_seen (dict_set k t (rt_last_seen s))
    (set_rt_processed_by_stream (dict_set k n (rt_processed_by_stream s)) s)).
Proof.
  intros Hs ?. pose proof (rw_times s Hs) as Hti. destruct Hs.
  constructor; try done; simpl; [by apply dict_set_NoDup| |by apply dict_set_NoDup].
  intros kv [Hkv|?]%elem_of_app; [|apply Hti, elem_of_app; by right].
  revert kv Hkv. apply dict_set_values; [|done]. intros kv ?. apply Hti, elem_of_app. by left.
Qed.

Lemma inputs_funding s kv : runtime_wf s -> kv ∈ rt_latest_funding s -> input_wf kv.2.
Proof. intros Hs Hk. apply (rw_inputs s Hs), elem_of_app. by left. Qed.
Lemma inputs_books s kv : runtime_wf s -> kv ∈ rt_latest_books s -> input_wf kv.2.
Proof. intros Hs Hk. apply (rw_inputs s Hs), elem_of_app. by right. Qed.

(** Funding observations. *)
Lemma keeps_refuse v c : steps wf_kept (refuse_funding v c).
Proof. intros s Hs. apply wf_invalid; [done|]. apply dict_set_NoDup, Hs. Qed.

Lemma two_nulls {A} (Q : A -> Prop) (rate interval : json) (a b c : A) :
  Q a -> Q b -> Q c ->
  Q (match rate, interval with JNull, _ => a | _, JNull => b | _, _ => c end).
Proof. by destruct rate, interval. Qed.

(** The three ends of [_funding]: the payload is no JSON, the observation is refused, or the
    venue's invalid reason is removed and the next funding time read. *)
Inductive funding_ends (event : RawMarketEvent) (now : Z) (s : Runtime) :
    Runtime * result (option SignalInput) -> Prop :=
| funding_no_payload e : funding_ends event now s (s, Err e)
| funding_refused code : funding_ends event now s (refuse_funding (re_venue event) code s)
| funding_read o :
    match o with
    | Ok i => exists input, i = Some input /\ (event_ok event -> input_wf input) /\
        si_venue input = re_venue event /\ si_instrument input = re_canonical_instrument_id event /\
        si_timestamp_semantic input = Some FUNDING_TIMESTAMP_SEMANTIC
    | Err _ => True
    end ->
    funding_ends event now s
      (set_rt_funding_invalid_reason (dict_pop (re_venue event) (rt_funding_invalid_reason s)) s, o).

Lemma funding_end event now s : funding_ends event now s (funding event now s).
Proof.
  unfold funding, pbind, plift. destruct (payload event) as [fields|e] eqn:Ep; [|constructor].
  set (next := or_else (get_field fields "next_funding_at") _).
  assert (event_ok event -> forall d, fromisoformat (py_str next) = Ok d -> datetime_range (instant d))
    as Hnext by (intros [_ Hn] d; by apply (Hn fields)).
  clearbody next.
  set (rate := or_else _ _). set (interval := get_field fields "funding_interval_seconds").
  clearbody rate interval.
  apply (two_nulls (fun m => funding_ends event now s (m s))); [constructor| |]. 
  { constructor. }
  destruct (json_decimal rate) as [d|]; [|constructor].
  destruct (json_int interval) as [n|]; [|constructor].
  destruct d as [q| |]; [|constructor..].
  destruct (negb _); [constructor|]. destruct (n <=? 0)%Z; [constructor|].
  unfold pmodify. cbv beta iota.
  destruct (truthy next); [destruct (fromisoformat (py_str next)) as [d|e] eqn:Ed|];
    apply funding_read; try done; (eexists; split_and!; [reflexivity| |done..]).
  - intros He. pose proof He as [Ht _]. pose proof (exchange_time event Ht). pose proof one_literal.
    destruct Ht as (? & ? & _). split_and!; try done. by apply Hnext.
  - intros He. pose proof He as [Ht _]. pose proof (exchange_time event Ht). pose proof one_literal.
    destruct Ht as (? & ? & _). by split_and!.
Qed.

Lemma keeps_funding event now : steps wf_kept (funding event now).
Proof.
  intros s Hs. destruct (funding_end event now s); [done|by apply keeps_refuse|].
  apply wf_invalid; [done|]. apply dict_pop_NoDup, Hs.
Qed.

Lemma funding_input event now s s' i :
  event_ok event -> funding event now s = (s', Ok (Some i)) -> input_wf i.
Proof.
  intros He H. pose proof (funding_end event now s) as Hf. rewrite H in Hf.
  inversion Hf as [| |o Ho]; simplify_eq. destruct Ho as (j & ? & Hj & _). simplify_eq. by apply Hj.
Qed.

Lemma keeps_funding_event event key now : event_ok event -> steps wf_kept (funding_event event key now).
Proof.
  intros He s Hs. unfold funding_event, pbind. pose proof (keeps_funding event now s Hs) as Hk.
  destruct (funding event now s) as [s1 [[i|]|e]] eqn:E; simpl in *; [| |done].
  - apply funding_input in E as Hi; [|done]. 
    match goal with |- runtime_wf (if ?b then _ else _) => destruct b; [|done] end.
    apply wf_valid; [|apply He|done].
    apply wf_funding; [done|apply dict_set_NoDup, Hk|].
    apply dict_set_values; [|done]. intros kv. by apply inputs_funding.
  - apply wf_funding; [done|apply dict_pop_NoDup, Hk|].
    apply dict_pop_values. intros kv. by apply inputs_funding.
Qed.

(** Books. *)
Lemma snapshot_input h event now b b' snap :
  event_ok event -> builder_inv h b -> apply event now b = (b', Ok (Some snap)) ->
  input_wf (book snap now).
Proof.
  intros [Ht _] Hi E. destruct (apply_event_post h event now b Hi Ht) as (_ & _ & Hpost).
  rewrite E in Hpost. destruct Hpost as (_ & _ & _ & ? & ? & ? & _).
  pose proof one_literal. split_and!; done.
Qed.

Lemma keeps_book_event cfg event key now : event_ok event -> steps wf_kept (book_event cfg event key now).
Proof.
  intros He s Hs. unfold book_event, pbind. pose proof (keeps_apply event now He s Hs) as Hk.
  destruct (rw_builder s Hs) as [h Hh].
  unfold on_builder, pzoom in *. destruct (apply event now (rt_book_builder s)) as [b o] eqn:E.
  simpl in Hk |- *. destruct o as [[snap|]|e]; simpl; [| |done].
  - apply (snapshot_input h) in E as Hi; [|done|done].
    apply wf_valid; [|apply He|done]. apply wf_books; [done|apply dict_set_NoDup, Hs|].
    apply dict_set_values; [|done]. intros kv. by apply inputs_books.
  - destruct (_ || _); [|done]. apply wf_books; [done|apply dict_pop_NoDup, Hs|].
    apply dict_pop_values. intros kv. by apply inputs_books.
Qed.

Lemma keeps_process_event cfg now event : event_ok event -> steps wf_kept (process_event cfg now event).
Proof.
  intros He. unfold process_event.
  assert (steps wf_kept (pmodify (fun s =>
      set_rt_last_seen (dict_set (event_stream_id event) (re_available_at event) (rt_last_seen s))
        (set_rt_processed_by_stream
           (dict_set (event_stream_id event)
              (default 0 (dict_get (event_stream_id event) (rt_processed_by_stream s)) + 1)%Z
              (rt_processed_by_stream s)) s)))) as Hm.
  { intros s Hs. apply wf_seen; [done|apply He]. }
  pose proof (keeps_funding_event event (event_stream_id event) now He).
  pose proof (keeps_book_event cfg event (event_stream_id event) now He). steps_go.
Qed.

Lemma keeps_evaluate cfg now : steps wf_kept (evaluate_inputs cfg now).
Proof.
  intros s Hs. unfold evaluate_inputs. repeat (case_match; try done). simpl. destruct Hs. by constructor.
Qed.

(** ** The inputs are those of their venue, of the instrument of the machine *)

Definition labelled_in (cfg : RuntimeConfig) (semantic : string) (d : list (string * SignalInput)) : Prop :=
  forall v i, dict_get v d = Some i ->
    si_venue i = v /\ si_instrument i = rc_instrument cfg /\ si_timestamp_semantic i = Some semantic.

Definition labelled (cfg : RuntimeConfig) (s : Runtime) : Prop :=
  labelled_in cfg FUNDING_TIMESTAMP_SEMANTIC (rt_latest_funding s) /\
  labelled_in cfg ORDERBOOK_TIMESTAMP_SEMANTIC (rt_latest_books s).

Lemma labelled_set cfg semantic v i d :
  labelled_in cfg semantic d -> si_venue i = v -> si_instrument i = rc_instrument cfg ->
  si_timestamp_semantic i = Some semantic -> labelled_in cfg semantic (dict_set v i d).
Proof.
  intros Hd Hv Hi Hs w j. destruct (decide (w = v)) as [->|Hne].
  - rewrite dict_get_set_eq. by intros [= <-].
  - rewrite dict_get_set_ne by done. apply Hd.
Qed.

Lemma labelled_pop cfg semantic v d :
  NoDup (dict_keys d) -> labelled_in cfg semantic d -> labelled_in cfg semantic (dict_pop v d).
Proof. intros Hn Hd w j Hj. by eapply Hd, dict_pop_get. Qed.

Lemma process_labelled cfg now event s :
  event_ok event -> runtime_wf s -> labelled cfg s -> labelled cfg (process_event cfg now event s).1.
Proof.
  intros He Hs [Hf Hb]. unfold process_event.
  destruct (bool_decide (re_canonical_instrument_id event = _)) eqn:Ei; [|done].
  apply bool_decide_eq_true in Ei. cbn [negb]. unfold pbind at 1, pmodify at 1. cbv iota beta.
  set (s0 := set_rt_last_seen _ _).
  assert (rt_latest_funding s0 = rt_latest_funding s /\ rt_latest_books s0 = rt_latest_books s /\
          rt_book_builder s0 = rt_book_builder s) as (Ef & Eb & Eu) by done. clearbody s0.
  destruct (bool_decide (re_event_type event = _)).
  - unfold funding_event, pbind. destruct (funding_end event now s0) as [e|c|o Ho].
    + split; simpl; by rewrite ?Ef, ?Eb.
    + split; simpl; [|by rewrite Eb]. rewrite Ef. apply labelled_pop; [apply Hs|done].
    + destruct o as [i|e]; [|by split; simpl; rewrite ?Ef, ?Eb].
      destruct Ho as (j & -> & _ & Hv & Hi & Hse). simpl.
      match goal with |- labelled _ (if ?b then _ else _) => destruct b end;
        split; simpl; rewrite ?Ef, ?Eb; try done.
      apply labelled_set; congruence || done.
  - unfold book_event, pbind, on_builder, pzoom. rewrite Eu.
    destruct (rw_builder s Hs) as [h Hh]. destruct He as [Ht _].
    pose proof (apply_event_post h event now _ Hh Ht) as (_ & _ & Hpost).
    destruct (apply event now (rt_book_builder s)) as [b [[snap|]|e]]; simpl in *.
    + destruct Hpost as (_ & Hv & Hi & _). split; simpl; rewrite ?Ef, ?Eb; [done|].
      apply labelled_set; simpl; congruence || done.
    + match goal with |- labelled _ (if ?b then _ else _) => destruct b end;
        split; simpl; rewrite ?Ef, ?Eb; try done. apply labelled_pop; [apply Hs|done].
    + split; simpl; by rewrite ?Ef, ?Eb.
Qed.

(** ** When a pair is matched *)

Definition age_at (now : Z) (i : SignalInput) : Decimal := fd_value (age_seconds now (timestamp_of i)).

(** The four latest inputs: funding and book of hyperliquid, funding and book of bitget. *)
Definition four_inputs (s : Runtime) (hf hb bf bb : SignalInput) : Prop :=
  dict_get "hyperliquid" (rt_latest_funding s) = Some hf /\
  dict_get "hyperliquid" (rt_latest_books s) = Some hb /\
  dict_get "bitget" (rt_latest_funding s) = Some bf /\
  dict_get "bitget" (rt_latest_books s) = Some bb.

(** None is from the future, none is old, and the two of a kind were observed together. *)
Definition timely (cfg : RuntimeConfig) (now : Z) (hf hb bf bb : SignalInput) : Prop :=
  Forall (fun i => timestamp_of i <= now + rc_maximum_future cfg)%Z [hf; hb; bf; bb] /\
  (age_at now hf <= inject_Z (rc_funding_max_age_seconds cfg) /\
   age_at now bf <= inject_Z (rc_funding_max_age_seconds cfg) /\
   skew hf bf <= inject_Z (rc_funding_max_observation_skew_seconds cfg) /\
   age_at now hb <= maximum_book_age cfg /\
   age_at now bb <= maximum_book_age cfg /\
   skew hb bb <= inject_Z (rc_maximum_orderbook_venue_skew_seconds cfg))%Q.

Lemma missing_none cfg s :
  missing cfg s = None <-> exists hf hb bf bb, four_inputs s hf hb bf bb.
Proof.
  unfold missing, four_inputs. cbn [missing_from expectations]. unfold dict_mem.
  repeat rewrite (bool_decide_eq_true_2 ("funding_current" = "funding_current")) by done.
  repeat rewrite (bool_decide_eq_false_2 ("orderbook_snapshot" = "funding_current")) by done.
  split.
  - intros H.
    destruct (dict_get "hyperliquid" (rt_latest_funding s)) as [hf|]; [|done].
    destruct (dict_get "bitget" (rt_latest_funding s)) as [bf|]; [|done].
    destruct (dict_get "hyperliquid" (rt_latest_books s)) as [hb|]; [|done].
    destruct (dict_get "bitget" (rt_latest_books s)) as [bb|]; [|done]. by exists hf, hb, bf, bb.
  - by intros (? & ? & ? & ? & -> & -> & -> & ->).
Qed.

Definition paired_inputs (now : Z) (hf hb bf bb : SignalInput) : list SignalInput :=
  map (with_freshness now) [hf; hb; bf; bb].

Lemma semantic_inputs cfg s now hf hb bf bb :
  labelled cfg s -> four_inputs s hf hb bf bb ->
  let paired := paired_inputs now hf hb bf bb in
  semantic_event paired "hyperliquid" FUNDING_TIMESTAMP_SEMANTIC = Ok (with_freshness now hf) /\
  semantic_event paired "bitget" FUNDING_TIMESTAMP_SEMANTIC = Ok (with_freshness now bf) /\
  semantic_event paired "hyperliquid" ORDERBOOK_TIMESTAMP_SEMANTIC = Ok (with_freshness now hb) /\
  semantic_event paired "bitget" ORDERBOOK_TIMESTAMP_SEMANTIC = Ok (with_freshness now bb).
Proof.
  intros [Hf Hb] (H1 & H2 & H3 & H4).
  apply Hf in H1 as (V1 & _ & S1). apply Hb in H2 as (V2 & _ & S2).
  apply Hf in H3 as (V3 & _ & S3). apply Hb in H4 as (V4 & _ & S4).
  assert (forall i, si_venue (with_freshness now i) = si_venue i) as Ev by done.
  assert (forall i, si_timestamp_semantic (with_freshness now i) = si_timestamp_semantic i) as Es by done.
  rewrite <- Ev in V1, V2, V3, V4. rewrite <- Es in S1, S2, S3, S4.
  unfold paired_inputs. cbn [map]. generalize dependent (with_freshness now hf).
  generalize dependent (with_freshness now hb). generalize dependent (with_freshness now bf).
  generalize dependent (with_freshness now bb). clear.
  intros i4 V4 S4 i3 V3 S3 i2 V2 S2 i1 V1 S1. unfold semantic_event. cbn [List.find].
  rewrite V1, V2, V3, V4, S1, S2, S3, S4. by vm_compute.
Qed.

Lemma future_none cfg now hf hb bf bb :
  List.find (fun i => (now + rc_maximum_future cfg <? timestamp_of i)%Z) (paired_inputs now hf hb bf bb) = None
  <-> Forall (fun i => timestamp_of i <= now + rc_maximum_future cfg)%Z [hf; hb; bf; bb].
Proof.
  unfold paired_inputs. split.
  - intros H. apply Forall_forall. intros i Hi.
    pose proof (List.find_none _ _ H (with_freshness now i)) as Hn. cbv beta in Hn.
    apply Z.ltb_ge. apply Hn. apply in_map. by apply list_elem_of_In.
  - intros H. destruct (List.find _ _) as [j|] eqn:E; [|done].
    apply find_some in E as [(i & <- & Hi)%in_map_iff Hj]. apply list_elem_of_In in Hi.
    rewrite Forall_forall in H. specialize (H i Hi). apply Z.ltb_lt in Hj.
    change (timestamp_of (with_freshness now i)) with (timestamp_of i) in Hj. lia.
Qed.

(** [_timing_rejection(_timing_metrics(...))] *)
Lemma timing_verdict cfg s now hf hb bf bb :
  labelled cfg s -> four_inputs s hf hb bf bb ->
  let paired := paired_inputs now hf hb bf bb in
  exists timing rejection, timing_metrics cfg paired = Ok timing /\
    timing_rejection cfg paired timing = Ok rejection /\
    (Forall (fun i => timestamp_of i <= now + rc_maximum_future cfg)%Z [hf; hb; bf; bb] ->
     rejection = None <-> timely cfg now hf hb bf bb).
Proof.
  intros Hl H4 paired. destruct (semantic_inputs cfg s now _ _ _ _ Hl H4) as (E1 & E2 & E3 & E4).
  fold paired in E1, E2, E3, E4. unfold timing_metrics, timing_rejection.
  rewrite E1, E2, E3, E4. cbn [rbind]. eexists _, _. split; [reflexivity|]. split; [reflexivity|].
  intros Hfut. cbn [tm_hyperliquid_funding_age_seconds tm_bitget_funding_age_seconds
    tm_funding_observation_skew_seconds tm_hyperliquid_orderbook_age_seconds
    tm_bitget_orderbook_age_seconds tm_orderbook_venue_skew_seconds].
  change (age_of (with_freshness now ?i)) with (age_at now i).
  change (skew (with_freshness now ?i) (with_freshness now ?j)) with (skew i j).
  unfold timely. repeat match goal with
  | |- context [if dltb ?a ?b then _ else _] =>
      let E := fresh "E" in destruct (dltb a b) eqn:E;
        [apply dltb_lt in E; split; [done|]; intros H; lra | apply dltb_ge in E]
  end; tauto.
Qed.

(** The verdict of [_evaluate]. *)
Lemma evaluate_verdict cfg now s :
  labelled cfg s ->
  exists s' b, evaluate_inputs cfg now s = (s', Ok b) /\
    ((s' = s /\ ib_matched b = false /\ is_Some (ib_missing b) /\
      ~ exists hf hb bf bb, four_inputs s hf hb bf bb /\ timely cfg now hf hb bf bb) \/
     exists hf hb bf bb, four_inputs s hf hb bf bb /\ timely cfg now hf hb bf bb /\
       let paired := paired_inputs now hf hb bf bb in
       let identity := pair_identity_of (rc_instrument cfg) paired in
       s' = set_rt_last_pair_identity (Some identity) s /\ ib_matched b = true /\
       ib_missing b = None /\ ib_events b = paired /\ ib_pair_identity b = Some identity /\
       (ib_source_pair_duplicate b = true <-> rt_last_pair_identity s = Some identity)).
Proof.
  intros Hl. unfold evaluate_inputs. destruct (missing cfg s) as [m|] eqn:Em.
  { eexists _, _. split; [reflexivity|]. left. split_and!; [done..|].
    intros (hf & hb & bf & bb & H4 & _). rewrite (proj2 (missing_none cfg s)) in Em; [done|].
    by exists hf, hb, bf, bb. }
  apply missing_none in Em as (hf & hb & bf & bb & H4). pose proof H4 as (E1 & E2 & E3 & E4).
  rewrite E1, E2, E3, E4. fold (paired_inputs now hf hb bf bb).
  assert (forall Q, (exists a b c d, four_inputs s a b c d /\ Q a b c d) -> Q hf hb bf bb) as Huniq.
  { intros Q (a & b & c & d & (? & ? & ? & ?) & HQ). by simplify_eq. }
  destruct (List.find _ _) as [i|] eqn:Ef.
  { eexists _, _. split; [reflexivity|]. left. split_and!; [done..|].
    intros [Hn _]%Huniq. apply (future_none cfg now) in Hn. congruence. }
  apply future_none in Ef.
  destruct (timing_verdict cfg s now _ _ _ _ Hl H4) as (timing & rejection & -> & -> & Hv).
  specialize (Hv Ef). destruct rejection as [[[item capability] reason]|].
  - eexists _, _. split; [reflexivity|]. left. split_and!; [done..|].
    intros H%Huniq. by apply Hv in H.
  - eexists _, _. split; [reflexivity|]. right. exists hf, hb, bf, bb.
    split_and!; try done; [by apply Hv|]. simpl. rewrite bool_decide_eq_true. split; congruence.
Qed.

Lemma evaluate_labelled cfg now s : labelled cfg s -> labelled cfg (evaluate_inputs cfg now s).1.
Proof.
  intros Hl. destruct (evaluate_verdict cfg now s Hl) as (s' & b & -> & [(-> & _)|H]); [done|].
  by destruct H as (? & ? & ? & ? & _ & _ & -> & _).
Qed.

(** ** The states of a machine: events are processed and pairs evaluated, in any order *)
Inductive machine_state (cfg : RuntimeConfig) : Runtime -> Prop :=
| machine_start age future started cursors :
    datetime_range started -> machine_state cfg (initial_runtime age future started cursors)
| machine_event s now event :
    machine_state cfg s -> event_ok event -> machine_state cfg (process_event cfg now event s).1
| machine_evaluate s now :
    machine_state cfg s -> machine_state cfg (evaluate_inputs cfg now s).1.

Lemma machine_invariant cfg s : machine_state cfg s -> runtime_wf s /\ labelled cfg s.
Proof.
  induction 1 as [age future started cursors Hst|s now event _ [Hw Hl] He|s now _ [Hw Hl]].
  - split; [|by split]. constructor; simpl; try done; try apply NoDup_nil_2; try (by intros kv ?%elem_of_nil).
    + exists []. apply Builder_new_inv.
  - split; [by apply (keeps_process_event cfg now event He)|by apply process_labelled].
  - split; [by apply keeps_evaluate|by apply evaluate_labelled].
Qed.

End Frames.


Module PairSample.

Definition cfg : RuntimeConfig := {|
  rc_run_id := "run"; rc_instrument := "BTC"; rc_fair_consumption := true; rc_batch_size := 100;
  rc_maximum_shadow_input_stall_seconds := 60; rc_maximum_orderbook_age := 30 * SECOND;
  rc_maximum_future := 1 * SECOND; rc_funding_max_age_seconds := 60;
  rc_funding_max_observation_skew_seconds := 30; rc_maximum_orderbook_venue_skew_seconds := 2 |}.

Definition event (id venue type : string) (sequence at_ : Z) (raw : string) : RawMarketEvent := {|
  re_event_id := id; re_venue := venue; re_canonical_instrument_id := "BTC";
  re_venue_symbol := "BTCUSDT"; re_event_type := type; re_exchange_timestamp := Some at_;
  re_received_at := at_; re_available_at := at_; re_sequence := Some sequence;
  re_connection_id := None; re_reconciliation_state := None; re_payload_sha256 := "";
  re_raw_payload := raw; re_normalizer_version := "1"; re_capability_verification_run_id := "run";
  re_created_at := at_; re_raw_payload_id := None; re_source_payload_sha256 := None;
  re_channel := "books"; re_snapshot_sequence := None; re_delta_sequence := None;
  re_connection_epoch := Some 1%Z; re_timestamp_semantic := REALTIME_EVENT;
  re_availability_provenance := OBSERVED_RETRIEVAL_TIME; re_exchange_server_time := None;
  re_timeframe := None |}.

Definition t0 : Z := 1700000000000000.
Definition funding_payload (rate : string) : string :=
  untext (dumps compact_style (JObject [(text "rate", jstr rate);
                                        (text "funding_interval_seconds", JInt 3600)])).
Definition book_payload (bid ask : string) : string :=
  BookSample.sample_payload [(bid, "2")] [(ask, "3")] [].

Definition events : list RawMarketEvent := Eval vm_compute in
  [event "hf" "hyperliquid" "funding_current" 1 t0 (funding_payload "0.0001");
   event "bf" "bitget" "funding_current" 1 (t0 + 1000000) (funding_payload "-0.0002");
   event "hb" "hyperliquid" "orderbook_snapshot" 1 (t0 + 2000000) (book_payload "100" "101");
   event "bb" "bitget" "orderbook_snapshot" 7 (t0 + 3000000) (book_payload "100.5" "101.5")].

Definition now : Z := t0 + 4000000.
Definition start : Runtime := initial_runtime 30 1 t0 [].
Definition paired : Runtime :=
  fold_left (fun s e => (process_event (D := length_digest) cfg now e s).1) events start.

Lemma event_ok_no_funding_time e :
  event_times e ->
  match payload e with
  | Ok fields => py_str (or_else (get_field fields "next_funding_at") (get_field fields "next_funding_time"))
                 = text "None"
  | Err _ => True
  end -> event_ok e.
Proof.
  intros Ht H. split; [done|]. intros fields d Hp. rewrite Hp in H. rewrite H.
  assert (fromisoformat (text "None") = Err (ValueError "Invalid isoformat string")) as -> by done. done.
Qed.

Lemma events_ok : Forall event_ok events.
Proof.
  repeat apply Forall_cons_2; try apply Forall_nil_2; 
    (apply event_ok_no_funding_time; [repeat constructor; vm_compute; discriminate|vm_compute; reflexivity]).
Qed.

Lemma paired_state : machine_state (C := default_context) (D := length_digest) cfg paired.
Proof.
  unfold paired. assert (machine_state (C := default_context) (D := length_digest) cfg start) as Hs
    by (constructor; split; vm_compute; discriminate).
  pose proof events_ok as He. revert Hs He. generalize start, events. intros s es. revert s.
  induction es as [|e es IH]; intros s Hs He; [exact Hs|]. cbn [fold_left].
  inversion He; subst. apply IH; [by constructor|done].
Qed.

End PairSample.


(** ** A valid book that is dropped

    The reason of an invalidation is kept after the next snapshot has made the book valid
    again.  A delta that comes late, and changes nothing in the book, then removes the
    latest book of the venue. *)
Module LateDelta.

Definition snapshot (id : string) (sequence at_ : Z) : RawMarketEvent :=
  PairSample.event id "bitget" "orderbook_snapshot" sequence at_ (PairSample.book_payload "100" "101").
Definition delta (id : string) (sequence previous at_ : Z) : RawMarketEvent :=
  PairSample.event id "bitget" "orderbook_delta" sequence at_
    (BookSample.sample_payload [("100", "5")] [] [(text "previous_sequence", JInt previous)]).

(** A snapshot, a delta after a gap, a new snapshot; and a delta older than that snapshot. *)
Definition recovery : list RawMarketEvent :=
  [snapshot "s1" 10 PairSample.t0; delta "d1" 15 14 (PairSample.t0 + 1000000);
   snapshot "s2" 20 (PairSample.t0 + 2000000)].
Definition late : RawMarketEvent := delta "d2" 18 17 (PairSample.t0 + 2000001).

Definition after (events : list RawMarketEvent) : Runtime :=
  fold_left (fun s e => (process_event (D := length_digest) PairSample.cfg PairSample.now e s).1) events
    PairSample.start.

Lemma recovered_book_dropped :
  dict_mem "bitget" (rt_latest_books (after recovery)) = true /\
  cb_states (rt_book_builder (after (recovery ++ [late]))) = cb_states (rt_book_builder (after recovery)) /\
  dict_mem "bitget" (rt_latest_books (after (recovery ++ [late]))) = false.
Proof. vm_compute. auto. Qed.

End LateDelta.
