(* ===== verification/ShadowBatches.v ===== *)
(** * Batches of the shadow runtime

    A batch that fails is rolled back, a restart resumes from the committed checkpoint, and
    every stored event is read in exactly one batch.  The theorems are proved for every
    repository that satisfies [ReliableRepository]; the in-memory repository does. *)

From Stdlib Require Import ZArith QArith Qround Qabs NArith Sorted Lia Lqa.
From stdpp Require Import base tactics list strings.
From S2P Require Import Prelude Decimals Binary64 Evidence Json PyText FundingCarry.
From S2P Require Import ShadowBook BookReplay ShadowStore ShadowRuntime ShadowState ShadowSafety.

Local Open Scope string_scope.
Local Open Scope list_scope.

(** ** What the runtime asks of the store *)

Class ReliableRepository (R : Type) {E : EventRepository R} := {
  (** The invariant of the store. *)
  coherent : R -> Prop;
  list_reads : forall cursors venues instrument types limit r,
    exists events, list_experimental_events_after cursors venues instrument types limit r = (r, Ok events);
  backlog_reads : forall cursors venues instrument types r,
    exists b, experimental_event_backlog cursors venues instrument types r = (r, Ok b);
  ids_read : forall venue instrument type t1 i1 t2 i2 r,
    exists ids, list_experimental_event_ids_between venue instrument type t1 i1 t2 i2 r = (r, Ok ids);
  commit_succeeds : forall cursors cp r,
    exists r', commit_shadow_input_checkpoint cursors cp r = (r', Ok tt);
  commit_coherent : forall cursors cp r r',
    coherent r -> commit_shadow_input_checkpoint cursors cp r = (r', Ok tt) -> coherent r';
  (** What was committed is what a later process of the run reads. *)
  commit_read : forall cursors cp r r', coherent r ->
    commit_shadow_input_checkpoint cursors cp r = (r', Ok tt) ->
    Forall (fun c => ec_run_id c = cp_run_id cp /\ ec_instrument c = cp_instrument cp) cursors ->
    NoDup (map cursor_id cursors) ->
    exists saved, shadow_input_checkpoint (cp_run_id cp) (cp_instrument cp) r' = (r', Ok (saved, Some cp)) /\
      forall c, c ∈ cursors -> dict_get (cursor_id c) (cursor_map saved) = Some c;
}.

(** *** The in-memory repository *)

Definition cursor_key (c : ExperimentalEventCursor) : string * string * string * string :=
  (ec_run_id c, ec_venue c, ec_instrument c, ec_event_stream c).

(** Every cursor is stored under its own key. *)
Definition memory_coherent (r : MemoryRepository) : Prop :=
  NoDup (dict_keys (mr_shadow_cursors r)) /\ Forall (fun kc => kc.1 = cursor_key kc.2) (mr_shadow_cursors r).

Definition store_cursors (cursors : list ExperimentalEventCursor)
    (d : list ((string * string * string * string) * ExperimentalEventCursor)) :=
  fold_left (fun m c => dict_set (cursor_key c) c m) cursors d.

Lemma store_cursors_coherent cursors d :
  NoDup (dict_keys d) -> Forall (fun kc => kc.1 = cursor_key kc.2) d ->
  NoDup (dict_keys (store_cursors cursors d)) /\
  Forall (fun kc => kc.1 = cursor_key kc.2) (store_cursors cursors d).
Proof.
  revert d. induction cursors as [|c cursors IH]; intros d Hn Hf; [done|].
  apply IH; [by apply dict_set_NoDup|by apply dict_set_Forall].
Qed.

(** A dictionary built from items with distinct keys holds each of them. *)
Lemma fold_set_get {K A} `{EqDecision K} (key : A -> K) xs (d : list (K * A)) x :
  NoDup (map key xs) -> x ∈ xs ->
  dict_get (key x) (fold_left (fun m y => dict_set (key y) y m) xs d) = Some x.
Proof.
  revert d. induction xs as [|y xs IH]; intros d Hn Hx; [by apply elem_of_nil in Hx|].
  cbn [map] in Hn. apply NoDup_cons in Hn as [Hni Hn]. cbn [fold_left].
  apply elem_of_cons in Hx as [<-|Hx]; [|by apply IH]. clear IH Hn.
  assert (dict_get (key x) (dict_set (key x) x d) = Some x) as Hg by apply dict_get_set_eq.
  revert Hg. generalize (dict_set (key x) x d). clear d. revert Hni.
  induction xs as [|y xs IH]; intros Hni d Hg; [done|].
  cbn [map] in Hni. apply not_elem_of_cons in Hni as [Hne Hni]. cbn [fold_left].
  apply IH; [done|]. by rewrite dict_get_set_ne.
Qed.

Lemma NoDup_map_via {A B B'} (f : A -> B) (g : A -> B') xs :
  NoDup (map f xs) -> (forall x y, x ∈ xs -> y ∈ xs -> g x = g y -> f x = f y) -> NoDup (map g xs).
Proof.
  induction xs as [|x xs IH]; intros Hn Hi; [by apply NoDup_nil_2|]. cbn [map] in *.
  apply NoDup_cons in Hn as [Hni Hn]. apply NoDup_cons. split.
  - intros (y & E & Hy)%list_elem_of_fmap. apply Hni, list_elem_of_fmap. exists y.
    split; [|done]. apply Hi; [left|by right|done].
  - apply IH; [done|]. intros a b Ha Hb. apply Hi; by right.
Qed.

Lemma filter_bool_sublist {A} (f : A -> bool) xs : sublist (List.filter f xs) xs.
Proof. induction xs as [|x xs IH]; simpl; [done|]. by destruct (f x); constructor. Qed.

Lemma memory_commit_read cursors cp r :
  memory_coherent r ->
  Forall (fun c => ec_run_id c = cp_run_id cp /\ ec_instrument c = cp_instrument cp) cursors ->
  NoDup (map cursor_id cursors) ->
  exists saved, memory_shadow_checkpoint (memory_commit r cursors cp) (cp_run_id cp) (cp_instrument cp) =
      (saved, Some cp) /\
    forall c, c ∈ cursors -> dict_get (cursor_id c) (cursor_map saved) = Some c.
Proof.
  intros [Hn Hf] Hown Hids. unfold memory_shadow_checkpoint. cbn [mr_shadow_checkpoints memory_commit].
  rewrite dict_get_set_eq. eexists. split; [reflexivity|]. 
  change (mr_shadow_cursors (memory_commit r cursors cp)) with (store_cursors cursors (mr_shadow_cursors r)).
  destruct (store_cursors_coherent cursors (mr_shadow_cursors r) Hn Hf) as [Hn' Hf'].
  assert (forall c, c ∈ cursors -> (cursor_key c, c) ∈ store_cursors cursors (mr_shadow_cursors r)) as Hin.
  { intros c Hc. apply dict_get_In. apply (fold_set_get cursor_key); [|done].
    apply (NoDup_map_via cursor_id); [done|]. unfold cursor_id, cursor_key. intros; congruence. }
  revert Hn' Hf' Hin. generalize (store_cursors cursors (mr_shadow_cursors r)). intros d Hn' Hf' Hin c Hc.
  rewrite Forall_forall in Hf'. rewrite Forall_forall in Hown.
  set (own := fun kc : _ * ExperimentalEventCursor =>
    bool_decide (kc.1.1.1.1 = cp_run_id cp) && bool_decide (ec_instrument kc.2 = cp_instrument cp)).
  assert (forall kc, kc ∈ List.filter own d -> kc ∈ d /\ kc.1.1.1.1 = cp_run_id cp /\
    ec_instrument kc.2 = cp_instrument cp) as Hown'.
  { intros kc H%list_elem_of_In%filter_In. destruct H as [H1 H2]. apply list_elem_of_In in H1.
    unfold own in H2. apply andb_true_iff in H2 as [?%bool_decide_eq_true ?%bool_decide_eq_true]. done. }
  apply (fold_set_get cursor_id).
  - rewrite (sorted_by_Permutation _). rewrite map_map.
    apply (NoDup_map_via fst).
    + eapply sublist_NoDup; [exact Hn'|]. apply fmap_sublist, filter_bool_sublist.
    + intros x y Hx Hy E. apply Hown' in Hx as (Hx & Rx & Ix), Hy as (Hy & Ry & Iy).
      rewrite (Hf' x Hx) in Rx |- *. rewrite (Hf' y Hy) in Ry |- *.
      unfold cursor_key, cursor_id in *. simpl in Rx, Ry. congruence.
  - apply elem_of_sorted_by, list_elem_of_fmap. exists (cursor_key c, c). split; [done|].
    apply list_elem_of_In, filter_In. split; [apply list_elem_of_In; by apply Hin|].
    destruct (Hown c Hc) as [Hr Hi]. unfold own. cbn [fst snd cursor_key].
    by rewrite !bool_decide_eq_true_2.
Qed.

#[export] Instance memory_reliable : ReliableRepository MemoryRepository.
Proof.
  refine {| coherent := memory_coherent |}; try (intros; by eexists).
  - intros cursors cp r r' [Hn Hf] [= <-]. by apply store_cursors_coherent.
  - intros cursors cp r r' Hr [= <-] Hown Hids.
    destruct (memory_commit_read cursors cp r Hr Hown Hids) as (saved & Es & Hs).
    exists saved. split; [|done]. cbn [shadow_input_checkpoint memory_event_repository]. by rewrite Es.
Defined.

(** ** States that agree on everything but the order of dictionaries, the identities of the
    applied deltas, the counters and the lag *)

Definition erase (i : SignalInput) : SignalInput := set_si_applied_source_event_ids [] i.

Definition builder_rest (b : Builder) : Builder := set_cb_states [] (set_cb_last_invalid_reason [] b).

Record same_view (s s' : Runtime) : Prop := {
  sv_funding : forall v, option_map erase (dict_get v (rt_latest_funding s')) =
                         option_map erase (dict_get v (rt_latest_funding s));
  sv_books : forall v, option_map erase (dict_get v (rt_latest_books s')) =
                       option_map erase (dict_get v (rt_latest_books s));
  sv_pair : rt_last_pair_identity s' = rt_last_pair_identity s;
  sv_seen : forall k, dict_get k (rt_last_seen s') = dict_get k (rt_last_seen s);
  sv_valid : forall k, dict_get k (rt_last_valid s') = dict_get k (rt_last_valid s);
  sv_invalid : forall v, dict_get v (rt_funding_invalid_reason s') = dict_get v (rt_funding_invalid_reason s);
  sv_processed : forall k, dict_get k (rt_processed_by_stream s') = dict_get k (rt_processed_by_stream s);
  sv_started : rt_started_at s' = rt_started_at s;
  sv_states : forall k, option_map forget_deltas (dict_get k (cb_states (rt_book_builder s'))) =
                        option_map forget_deltas (dict_get k (cb_states (rt_book_builder s)));
  sv_reasons : forall k, dict_get k (cb_last_invalid_reason (rt_book_builder s')) =
                         dict_get k (cb_last_invalid_reason (rt_book_builder s));
  sv_rest : builder_rest (rt_book_builder s') = builder_rest (rt_book_builder s);
}.

#[export] Instance same_view_equivalence : Equivalence same_view.
Proof.
  split.
  - by intros s.
  - intros s s' []. constructor; intros; by symmetry.
  - intros s1 s2 s3 [] []. constructor; intros; etrans; eauto.
Qed.

Lemma erase_forget i : erase (forget_applied i) = erase i.
Proof. unfold forget_applied. by destruct (bool_decide _). Qed.

Lemma option_map_comp {A B C} (f : A -> B) (g : B -> C) (h : A -> C) (a : option A) :
  (forall x, g (f x) = h x) -> option_map g (option_map f a) = option_map h a.
Proof. intros H. destruct a; simpl; [by rewrite H|done]. Qed.

(** A dictionary rebuilt in another order, with its values changed by [f]. *)
Lemma dict_get_rebuilt {K V W} `{EqDecision K} (f : V -> W) (k : K) (d d' : list (K * V)) :
  NoDup (dict_keys d) -> d' ≡ₚ d ->
  dict_get k (map (fun kv => (kv.1, f kv.2)) d') = option_map f (dict_get k d).
Proof. intros Hn Hp. by rewrite dict_get_map, (dict_get_perm k d d') by done. Qed.

(** [_restore_state_json] brings the state back. *)
Lemma reload_view s s0 : runtime_wf s -> same_view s (reload s s0).
Proof.
  intros Hw. pose proof (rw_builder s Hw) as [h Hh].
  constructor; try done; intros k; unfold reload; simpl.
  - rewrite (dict_get_rebuilt forget_applied k (rt_latest_funding s)); [|apply Hw|apply sorted_venues_perm].
    apply option_map_comp, erase_forget.
  - rewrite (dict_get_rebuilt forget_applied k (rt_latest_books s)); [|apply Hw|apply sorted_venues_perm].
    apply option_map_comp, erase_forget.
  - symmetry. apply dict_get_perm; [apply Hw|]. symmetry. apply sorted_streams_perm.
  - symmetry. apply dict_get_perm; [apply Hw|]. symmetry. apply sorted_streams_perm.
  - symmetry. apply dict_get_perm; [apply Hw|]. symmetry. apply sorted_venues_perm.
  - symmetry. apply dict_get_perm; [apply Hw|]. symmetry. apply sorted_streams_perm.
  - unfold reloaded. simpl.
    rewrite (dict_get_rebuilt forget_deltas k (cb_states (rt_book_builder s)));
      [|apply Hh|apply sorted_by_Permutation]. by apply option_map_comp.
  - unfold reloaded. simpl. symmetry. apply dict_get_perm; [apply Hw|]. symmetry. apply sorted_by_Permutation.
Qed.

(** ** What processing and evaluating do not touch *)

Definition untouched (s : Runtime) :=
  (rt_cursors s, (rt_events_fetched_total s, rt_events_processed_total s, rt_events_failed_total s),
   (rt_batch_count s, rt_last_batch_size s, rt_scan_duration_ms s, rt_stream_metrics s, rt_started_at s),
   (rt_strategy_observation_first_at s, rt_strategy_observation_last_at s, rt_last_cursor_advanced_at s),
   (cb_maximum_age (rt_book_builder s), cb_maximum_future (rt_book_builder s))).

Definition undisturbed (s s' : Runtime) : Prop := untouched s' = untouched s.
#[local] Instance undisturbed_preorder : PreOrder undisturbed.
Proof. split; unfold undisturbed; [done|]. intros ? ? ?. by intros -> ->. Qed.

Section Processing.
Context {C : DecimalContext} {D : Digest} {P : IsoParser}.

Lemma process_undisturbed cfg now event : steps undisturbed (process_event cfg now event).
Proof.
  intros s. unfold process_event. destruct (negb _); [done|]. unfold pbind at 1, pmodify at 1. cbv iota beta.
  set (s0 := set_rt_last_seen _ _). assert (undisturbed s s0) as H0 by done. clearbody s0.
  etrans; [exact H0|]. clear H0 s. destruct (bool_decide _).
  - unfold funding_event, pbind. destruct (funding_end event now s0) as [e|c|[i|e] Ho]; try done.
    destruct Ho as (j & -> & _). simpl.
    by match goal with |- undisturbed _ (if ?b then _ else _) => destruct b end.
  - unfold book_event, pbind, on_builder, pzoom.
    pose proof (proj1 (frame_apply event now (rt_book_builder s0))) as [Ha Hf].
    destruct (apply event now (rt_book_builder s0)) as [b [[snap|]|e]]; simpl in *;
      try match goal with |- undisturbed _ (if ?b then _ else _) => destruct b end;
      unfold undisturbed, untouched; simpl; by rewrite Ha, Hf.
Qed.

Lemma evaluate_undisturbed cfg now : steps undisturbed (evaluate_inputs cfg now).
Proof. intros s. unfold evaluate_inputs. repeat (case_match; try done). Qed.

Lemma evaluate_source cfg now s :
  rt_source_event_count (evaluate_inputs cfg now s).1 = rt_source_event_count s /\
  rt_events_processed_total (evaluate_inputs cfg now s).1 = rt_events_processed_total s.
Proof. unfold evaluate_inputs. repeat (case_match; try done). Qed.

Lemma processing_undisturbed cfg now events : steps undisturbed (pfor events (process_event cfg now)).
Proof. apply steps_for; [apply _|]. intros e. apply process_undisturbed. Qed.

Lemma processing_wf cfg now events :
  Forall event_ok events -> steps wf_kept (pfor events (process_event cfg now)).
Proof.
  intros He s Hs. revert s Hs. apply (pfor_invariant runtime_wf). intros e s Hin Hs.
  rewrite Forall_forall in He. by apply (keeps_process_event cfg now e (He e Hin)).
Qed.

End Processing.

(** ** Reading the store *)

Section Batches.
Context {C : DecimalContext} {D : Digest} {P : IsoParser} {L : IsoLaws P}.
Context {R : Type} {E : EventRepository R} {Hrel : ReliableRepository R}.

Implicit Types (s : Runtime) (r : R).

(** [_refresh_lag] changes these attributes only. *)
Definition lag_changed s s' : Prop :=
  exists status lag latest estimate count metrics,
    Forall metric_wf metrics /\
    s' = set_rt_runtime_status status (set_rt_lag_seconds lag (set_rt_latest_db_event_available_at latest
           (set_rt_backlog_estimate estimate (set_rt_backlog_event_count count
              (set_rt_stream_metrics metrics s))))).

Lemma stream_metric_wf cfg c backlog lag latest stalled :
  metric_wf (stream_metric cfg c backlog lag latest stalled).
Proof using Type.
  split; [|by eexists _, _].
  unfold stream_metric. json_object; try done; by apply opt_json_wf.
Qed.

Lemma measure_streams_spec cfg now cursors s r :
  exists lags metrics, Forall metric_wf metrics /\
    measure_streams cfg now cursors (s, r) =
      ((set_rt_stream_metrics (rt_stream_metrics s ++ metrics) s, r), Ok lags).
Proof using Hrel.
  revert s. induction cursors as [|c cursors IH]; intros s; cbn [measure_streams].
  { exists [], []. split; [constructor|]. rewrite app_nil_r. by destruct s. }
  unfold pbind at 1, on_repository at 1. cbn [fst snd].
  destruct (backlog_reads [c] [ec_venue c] (rc_instrument cfg) (stream_event_types (ec_event_stream c)) r)
    as [b ->]. unfold pbind at 1, update, on_runtime at 1, pmodify at 1. cbn [fst snd].
  set (m := stream_metric _ _ _ _ _ _).
  destruct (IH (set_rt_stream_metrics (rt_stream_metrics s ++ [m]) s)) as (lags & metrics & Hm & Eq).
  unfold pbind at 1. rewrite Eq. eexists _, (m :: metrics).
  split; [by constructor; [apply stream_metric_wf|]|].
  cbn [rt_stream_metrics set_rt_stream_metrics]. by rewrite <- app_assoc.
Qed.

Lemma refresh_lag_spec cfg now s r :
  exists s', refresh_lag cfg now (s, r) = ((s', r), Ok tt) /\ lag_changed s s'.
Proof using Hrel.
  unfold refresh_lag, pbind at 1, update at 1, on_runtime at 1, pmodify at 1. cbn [fst snd].
  unfold pbind at 1, runtime. cbn [fst snd].
  destruct (measure_streams_spec cfg now (rt_cursors (set_rt_stream_metrics [] s))
              (set_rt_stream_metrics [] s) r) as (lags & metrics & Hm & Eq).
  unfold pbind at 1. rewrite Eq. unfold update, on_runtime, pmodify. cbn [fst snd].
  eexists. split; [reflexivity|]. by eexists _, _, _, _, _, metrics.
Qed.

(** [_restore_delta_identities] changes identities only. *)
Definition ids_changed s s' : Prop :=
  same_view s s' /\ exists b d, s' = set_rt_latest_books d (set_rt_book_builder b s).

#[local] Instance ids_changed_preorder : PreOrder ids_changed.
Proof.
  split.
  - intros s. split; [done|]. exists (rt_book_builder s), (rt_latest_books s). by destruct s.
  - intros s1 s2 s3 [H1 (b & d & ->)] [H2 (b' & d' & ->)]. split; [by etrans|]. by exists b', d'.
Qed.

Lemma restore_applied_view venue instrument channel ids s :
  ids_changed s (on_builder (restore_applied_delta_event_ids venue instrument channel ids) s).1.
Proof using Type.
  unfold on_builder, pzoom, restore_applied_delta_event_ids, on_state, pmodify. cbn [fst snd]. cbv beta.
  set (key := (venue, instrument, channel)).
  match goal with |- context [match ?x with Some _ => _ | None => _ end] => destruct x as [st|] eqn:Es end.
  - split.
    + constructor; try done. intros k. simpl. destruct (decide (k = key)) as [->|Hne].
      * rewrite dict_get_set_eq. symmetry. exact (f_equal (option_map forget_deltas) Es).
      * by rewrite dict_get_set_ne.
    + by eexists _, (rt_latest_books s).
  - simpl. split; [by destruct s|]. by eexists _, (rt_latest_books s).
Qed.

Lemma restore_identities_spec boundary s r :
  exists s', restore_identities boundary (s, r) = ((s', r), Ok tt) /\ ids_changed s s'.
Proof using Hrel.
  destruct boundary as [[[[venue instrument] channel] at_] id]. unfold restore_identities.
  unfold pbind at 1, runtime. cbn [fst snd].
  destruct (dict_get _ (cursor_map _)) as [cursor|]; [|by exists s].
  destruct (negb _); [by exists s|].
  destruct (ec_last_available_at cursor) as [through_at|]; [|by exists s].
  destruct (ec_last_event_id cursor) as [through_id|]; [|by exists s].
  unfold pbind at 1, on_repository. cbn [fst snd].
  destruct (ids_read venue instrument "orderbook_delta" at_ id through_at through_id r) as [ids ->].
  unfold pbind at 1, on_runtime at 1. cbn [fst snd].
  pose proof (restore_applied_view venue instrument channel ids s) as H1.
  assert (exists s1, on_builder (restore_applied_delta_event_ids venue instrument channel ids) s = (s1, Ok tt))
    as [s1 Es1] by (unfold on_builder, pzoom, restore_applied_delta_event_ids, on_state, pmodify; eauto).
  rewrite Es1 in H1 |- *. unfold update, on_runtime, pmodify. cbn [fst snd] in *.
  eexists. split; [reflexivity|]. etrans; [exact H1|]. clear H1 Es1 s.
  destruct (dict_get venue (rt_latest_books s1)) as [b|] eqn:Eb; [|done]. split.
  - constructor; try done. intros v. simpl. destruct (decide (v = venue)) as [->|Hne].
    + rewrite dict_get_set_eq. simpl. by rewrite Eb.
    + by rewrite dict_get_set_ne.
  - by eexists (rt_book_builder s1), _.
Qed.

Lemma restore_delta_identities_spec s r :
  exists s', restore_delta_identities (s, r) = ((s', r), Ok tt) /\ ids_changed s s'.
Proof using Hrel.
  unfold restore_delta_identities, pbind at 1, runtime. cbn [fst snd].
  generalize (recovery_boundaries (rt_book_builder s)). intros bs. revert s.
  induction bs as [|b bs IH]; intros s; cbn [pfor]; [by exists s|].
  destruct (restore_identities_spec b s r) as (s1 & E1 & H1). unfold pbind. rewrite E1.
  destruct (IH s1) as (s2 & E2 & H2). exists s2. split; [done|]. by etrans.
Qed.

(** The updates of [read] after the loop, and after the evaluation. *)
Definition settle (events : list RawMarketEvent) (now : Z) (ms : finite_decimal) s : Runtime :=
  let total := (rt_events_processed_total s + Z.of_nat (length events))%Z in
  let s := set_rt_source_event_count total (set_rt_events_processed_total total
             (set_rt_processing_duration_ms ms s)) in
  match events with
  | [] => s
  | _ => set_rt_last_cursor_advanced_at (Some now) (advance_cursors events now s)
  end.

Definition observe (matched : bool) (now : Z) s : Runtime :=
  if matched
  then set_rt_strategy_observation_last_at (Some now)
         (set_rt_strategy_observation_first_at (or_time (rt_strategy_observation_first_at s) now) s)
  else s.

(** The counters of a batch that does not end. *)
Definition kept s s' : Prop :=
  rt_events_failed_total s' = rt_events_failed_total s /\
  rt_events_fetched_total s' = rt_events_fetched_total s /\
  rt_batch_count s' = rt_batch_count s /\ rt_last_batch_size s' = rt_last_batch_size s /\
  rt_scan_duration_ms s' = rt_scan_duration_ms s /\
  cb_maximum_age (rt_book_builder s') = cb_maximum_age (rt_book_builder s) /\
  cb_maximum_future (rt_book_builder s') = cb_maximum_future (rt_book_builder s).

Lemma undisturbed_kept s s' : undisturbed s s' -> kept s s'.
Proof using Type. intros H. unfold undisturbed, untouched in H. simplify_eq. by repeat split. Qed.

(** How a batch ends: with an error before anything is committed, or with a commit. *)
Inductive batch_ends (cfg : RuntimeConfig) (now : Z) (ms : finite_decimal) (events : list RawMarketEvent)
    s r : (World (R := R)) * result ShadowInputBatch -> Prop :=
| batch_fails s' e : kept s s' -> batch_ends cfg now ms events s r ((s', r), Err e)
| batch_commits s1 s2 s' r' b cp :
    pfor events (process_event cfg now) s = (s1, Ok tt) ->
    evaluate_inputs cfg now (settle events now ms s1) = (s2, Ok b) ->
    lag_changed (observe (ib_matched b) now s2) s' ->
    checkpoint_of cfg now s' = Ok cp ->
    commit_shadow_input_checkpoint (rt_cursors s') cp r = (r', Ok tt) ->
    batch_ends cfg now ms events s r ((s', r'), Ok (with_instrument (rc_instrument cfg) b)).

Lemma commit_spec cfg now s r :
  rc_run_id cfg <> "" ->
  exists cp r', checkpoint_of cfg now s = Ok cp /\
    commit_shadow_input_checkpoint (rt_cursors s) cp r = (r', Ok tt) /\
    commit cfg now (s, r) = ((s, r'), Ok tt).
Proof using Hrel.
  intros Hid. unfold commit, pbind at 1, runtime, checkpoint_of, ShadowInputCheckpoint_validate.
  cbn [cp_run_id fst snd]. rewrite bool_decide_eq_false_2 by done.
  set (cp := Build_ShadowInputCheckpoint _ _ _ _ _ _ _ _ _ _ _ _ _ _ _ _ _ _).
  destruct (commit_succeeds (rt_cursors s) cp r) as [r' Er]. exists cp, r'. split_and!; [done..|].
  unfold pbind, plift, on_repository. cbn [fst snd]. by rewrite Er.
Qed.

Lemma read_batch_ends cfg now ms events s r :
  rc_run_id cfg <> "" ->
  batch_ends cfg now ms events s r (read_batch cfg now ms events (s, r)).
Proof using Hrel.
  intros Hid. unfold read_batch. unfold pbind at 1, on_runtime at 1. cbn [fst snd].
  pose proof (processing_undisturbed cfg now events s) as H1.
  destruct (pfor events (process_event cfg now) s) as [s1 [[]|e]] eqn:E1; cbn [fst] in H1;
    [|constructor; by apply undisturbed_kept].
  unfold pbind at 1, update at 1, on_runtime at 1, pmodify at 1. cbn [fst snd].
  unfold pbind at 1, update at 1, on_runtime at 1, pmodify at 1. cbn [fst snd].
  change (match events with [] => _ | _ :: _ => _ end) with (settle events now ms s1).
  assert (kept s (settle events now ms s1)) as H2.
  { apply undisturbed_kept in H1. unfold settle. by destruct events. }
  unfold pbind at 1, on_runtime at 1. cbn [fst snd].
  pose proof (evaluate_undisturbed cfg now (settle events now ms s1)) as H3%undisturbed_kept.
  destruct (evaluate_inputs cfg now (settle events now ms s1)) as [s2 [b|e]] eqn:E2; cbn [fst] in H3.
  2: { constructor. unfold kept in *. naive_solver congruence. }
  unfold pbind at 1, update at 1, on_runtime at 1, pmodify at 1. cbn [fst snd].
  change (if ib_matched b then _ else s2) with (observe (ib_matched b) now s2).
  destruct (refresh_lag_spec cfg now (observe (ib_matched b) now s2) r) as (s3 & E3 & H4).
  unfold pbind at 1. rewrite E3.
  destruct (commit_spec cfg now s3 r Hid) as (cp & r' & Ecp & Er & E5).
  unfold pbind. rewrite E5. by eapply batch_commits.
Qed.

Lemma lag_changed_view s s' : lag_changed s s' -> same_view s s'.
Proof using Type. by intros (? & ? & ? & ? & ? & ? & _ & ->). Qed.

(** The state after a failed batch of [n] events read in state [before]. *)
Record rolled_back (before s' : Runtime) (n : Z) : Prop := {
  rb_view : same_view before s';
  rb_cursors : rt_cursors s' = rt_cursors before;
  rb_processed : rt_events_processed_total s' = rt_events_processed_total before;
  rb_source : rt_source_event_count s' = rt_events_processed_total before;
  rb_first : rt_strategy_observation_first_at s' = rt_strategy_observation_first_at before;
  rb_last : rt_strategy_observation_last_at s' = rt_strategy_observation_last_at before;
  rb_advanced : rt_last_cursor_advanced_at s' = rt_last_cursor_advanced_at before;
  rb_failed : rt_events_failed_total s' = (rt_events_failed_total before + n)%Z;
  rb_fetched : rt_events_fetched_total s' = (rt_events_fetched_total before + n)%Z;
  rb_batches : rt_batch_count s' = (rt_batch_count before + 1)%Z;
  rb_size : rt_last_batch_size s' = n;
  rb_status : rt_runtime_status s' = "degraded";
}.

(** The counters of [read] before the [try]. *)
Definition fetched (events : list RawMarketEvent) (ms : finite_decimal) s : Runtime :=
  set_rt_batch_count (rt_batch_count s + 1)%Z
    (set_rt_last_batch_size (Z.of_nat (length events))
    (set_rt_events_fetched_total (rt_events_fetched_total s + Z.of_nat (length events))%Z
    (set_rt_scan_duration_ms ms s))).

Lemma bind_ok {S A B} (m : M S A) (k : A -> M S B) w w' a :
  m w = (w', Ok a) -> pbind m k w = k a w'.
Proof using Type. unfold pbind. by intros ->. Qed.

Lemma bind_update {B} f (k : unit -> M (World (R := R)) B) s r :
  pbind (update f) k (s, r) = k tt (f s, r).
Proof using Type. done. Qed.

Lemma bind_runtime {A B} (m : M Runtime A) (k : A -> M (World (R := R)) B) s s' r a :
  m s = (s', Ok a) -> pbind (on_runtime m) k (s, r) = k a (s', r).
Proof using Type. intros H. unfold pbind, on_runtime. cbn [fst snd]. by rewrite H. Qed.

(** The counters that [kept] speaks of, and the cursors. *)
Definition tallies s :=
  (rt_cursors s, rt_events_failed_total s, rt_events_fetched_total s, rt_batch_count s, rt_last_batch_size s).

Lemma reload_tallies s s0 : tallies (reload s s0) = tallies s0.
Proof using Type. done. Qed.

Lemma rolled_back_intro before s (n : Z) f :
  same_view before s ->
  tallies s = (rt_cursors before, rt_events_failed_total before + n, rt_events_fetched_total before + n,
               rt_batch_count before + 1, n)%Z ->
  f = (fun s => set_rt_last_cursor_advanced_at (rt_last_cursor_advanced_at before)
        (set_rt_strategy_observation_last_at (rt_strategy_observation_last_at before)
        (set_rt_strategy_observation_first_at (rt_strategy_observation_first_at before)
        (set_rt_source_event_count (rt_events_processed_total before)
        (set_rt_events_processed_total (rt_events_processed_total before) s))))) ->
  rolled_back before (set_rt_runtime_status "degraded" (f s)) n.
Proof using Type.
  intros Hv Ht ->. unfold tallies in Ht. simplify_eq. constructor; simpl; try done.
  etrans; [exact Hv|]. by constructor.
Qed.

Lemma rolled_back_lag before s s' n :
  rolled_back before (set_rt_runtime_status "degraded" s) n -> lag_changed s s' ->
  rolled_back before (set_rt_runtime_status "degraded" s') n.
Proof using Type.
  intros [Hv] (? & ? & ? & ? & ? & ? & _ & ->). constructor; try done.
  etrans; [exact Hv|]. by constructor.
Qed.

Lemma roll_back_spec cfg now before events ms s r :
  rc_run_id cfg <> "" -> runtime_wf before -> kept (fetched events ms before) s ->
  exists s' r' cp,
    roll_back cfg now before (state_text before) events (s, r) = ((s', r'), Ok tt) /\
    rolled_back before s' (Z.of_nat (length events)) /\
    checkpoint_of cfg now s' = Ok cp /\
    commit_shadow_input_checkpoint (rt_cursors before) cp r = (r', Ok tt).
Proof using Hrel L.
  intros Hid Hw (K1 & K2 & K3 & K4 & K5 & K6 & K7). set (n := Z.of_nat (length events)).
  unfold roll_back. rewrite bind_update. cbv beta.
  set (s0 := set_rt_cursors _ _).
  assert (tallies s0 = (rt_cursors before, rt_events_failed_total before + n,
    rt_events_fetched_total before + n, rt_batch_count before + 1, n)%Z) as T0.
  { unfold tallies. subst s0. simpl. by rewrite K1, K2, K3, K4. }
  pose proof (restore_state_text_of before s0 Hw K6 K7) as E1.
  pose proof (reload_view before s0 Hw) as V1. rewrite <- (reload_tallies before s0) in T0.
  revert E1 V1 T0. generalize (reload before s0). intros s1 E1 V1 T1.
  rewrite (bind_runtime _ _ _ _ _ _ E1). cbv beta. clearbody s0.
  destruct (restore_delta_identities_spec s1 r) as (s2 & E2 & V2 & b & d & E2').
  rewrite (bind_ok _ _ _ _ _ E2). cbv beta. rewrite bind_update.
  assert (tallies s2 = tallies s1) as T2 by (by rewrite E2'). clear E2'. rewrite T1 in T2.
  pose proof (rolled_back_intro before s2 n _ ltac:(by etrans) T2 eq_refl) as H3. cbv beta in H3 |- *.
  match type of H3 with rolled_back _ (set_rt_runtime_status _ ?x) _ => generalize dependent x end.
  intros s3 H3. destruct (refresh_lag_spec cfg now s3 r) as (s4 & E4 & V4).
  rewrite (bind_ok _ _ _ _ _ E4). cbv beta. rewrite bind_update.
  pose proof (rolled_back_lag _ _ _ _ H3 V4) as H4.
  destruct (commit_spec cfg now (set_rt_runtime_status "degraded" s4) r Hid) as (cp & r' & Ecp & Er & E5).
  eexists _, r', cp. split; [exact E5|]. split; [exact H4|]. split; [exact Ecp|].
  by rewrite (rb_cursors _ _ _ H4) in Er.
Qed.

Lemma fetch_streams_spec instrument quota cursors s r :
  exists events, fetch_streams instrument quota cursors (s, r) = ((s, r), Ok events).
Proof using Hrel.
  induction cursors as [|c cursors [events IH]]; cbn [fetch_streams]; [by exists []|].
  unfold pbind at 1, on_repository at 1. cbn [fst snd].
  destruct (list_reads [c] [ec_venue c] instrument (stream_event_types (ec_event_stream c)) quota r) as [es ->].
  unfold pbind. rewrite IH. by eexists.
Qed.

Lemma fetch_events_spec cfg s r : exists events, fetch_events cfg (s, r) = ((s, r), Ok events).
Proof using Hrel.
  unfold fetch_events, pbind at 1, runtime. cbn [fst snd]. destruct (rc_fair_consumption cfg).
  - destruct (fetch_streams_spec (rc_instrument cfg) (rc_batch_size cfg / Z.of_nat (length (rt_cursors s)))%Z
      (rt_cursors s) s r) as [events Ev]. unfold pbind. rewrite Ev. by eexists.
  - unfold on_repository. cbn [fst snd].
    destruct (list_reads (rt_cursors s) ["hyperliquid"; "bitget"] (rc_instrument cfg)
      ["funding_current"; "orderbook_snapshot"; "orderbook_delta"] (rc_batch_size cfg) r) as [es ->].
    by eexists.
Qed.

(** [read]: the events are fetched, then the batch ends, or is rolled back. *)
Lemma read_ends cfg now scan_ms ms s r :
  rc_run_id cfg <> "" -> runtime_wf s ->
  exists events, fetch_events cfg (s, r) = ((s, r), Ok events) /\
    match read cfg now scan_ms ms (s, r) with
    | (w, Ok b) => batch_ends cfg now ms events (fetched events scan_ms s) r (w, Ok b)
    | ((s', r'), Err e) => rolled_back s s' (Z.of_nat (length events)) /\
        exists cp, checkpoint_of cfg now s' = Ok cp /\
          commit_shadow_input_checkpoint (rt_cursors s) cp r = (r', Ok tt)
    end.
Proof using Hrel L.
  intros Hid Hw. destruct (fetch_events_spec cfg s r) as [events Ev]. exists events. split; [done|].
  unfold read, pbind at 1, runtime. cbn [fst snd]. unfold pbind at 1. rewrite Ev.
  unfold pbind at 1, update at 1, on_runtime at 1, pmodify at 1. cbn [fst snd].
  fold (fetched events scan_ms s). unfold ptry.
  pose proof (read_batch_ends cfg now ms events (fetched events scan_ms s) r Hid) as Hb.
  destruct (read_batch cfg now ms events (fetched events scan_ms s, r)) as [[s1 r1] [b|e]]; [exact Hb|].
  inversion Hb as [? ? Hk|]; subst.
  destruct (roll_back_spec cfg now s events scan_ms s1 r1 Hid Hw Hk) as (s' & r' & cp & Er & H1 & H2 & H3).
  unfold pbind. rewrite Er. cbv beta iota. split; [exact H1|]. exists cp. split; [exact H2|exact H3].
Qed.

(** ** The state a batch commits is well formed *)

Definition wf_fields s :=
  (rt_book_builder s, (rt_latest_funding s, rt_latest_books s), (rt_last_seen s, rt_last_valid s),
   (rt_funding_invalid_reason s, rt_processed_by_stream s), (rt_started_at s, rt_stream_metrics s)).

Lemma runtime_wf_ext s s' : wf_fields s' = wf_fields s -> runtime_wf s -> runtime_wf s'.
Proof using Type.
  unfold wf_fields. intros [= E1 E2 E3 E4 E5 E6 E7 E8 E9] [].
  constructor; by rewrite ?E1, ?E2, ?E3, ?E4, ?E5, ?E6, ?E7, ?E8, ?E9.
Qed.

Lemma runtime_wf_metrics s m : Forall metric_wf m -> runtime_wf s -> runtime_wf (set_rt_stream_metrics m s).
Proof using Type. intros Hm []. by constructor. Qed.

Lemma lag_changed_wf s s' : lag_changed s s' -> runtime_wf s -> runtime_wf s'.
Proof using Type.
  intros (? & ? & ? & ? & ? & m & Hm & ->) Hw.
  apply (runtime_wf_ext (set_rt_stream_metrics m s)); [done|by apply runtime_wf_metrics].
Qed.

(** The cursors of a machine: one for each stream, of its run and its instrument. *)
Definition own_cursors (cfg : RuntimeConfig) (cursors : list ExperimentalEventCursor) : Prop :=
  map cursor_id cursors = initial_streams /\
  Forall (fun c => ec_run_id c = rc_run_id cfg /\ ec_instrument c = rc_instrument cfg) cursors.

Lemma advance_own_cursors cfg events now s :
  own_cursors cfg (rt_cursors s) -> own_cursors cfg (rt_cursors (advance_cursors events now s)).
Proof using Type.
  intros [Hi Hc]. unfold advance_cursors. cbn [rt_cursors set_rt_cursors]. split.
  - rewrite map_map, <- Hi. apply map_ext. intros c. unfold advance_cursor. by destruct (dict_get _ _).
  - apply Forall_map. eapply Forall_impl; [exact Hc|]. intros c Hr. unfold compose, advance_cursor.
    by destruct (dict_get _ _).
Qed.

Lemma settle_own_cursors cfg events now ms s :
  own_cursors cfg (rt_cursors s) -> own_cursors cfg (rt_cursors (settle events now ms s)).
Proof using Type.
  intros H. unfold settle. destruct events as [|e es]; [done|]. by apply (advance_own_cursors cfg (e :: es) now).
Qed.

Lemma undisturbed_cursors s s' : undisturbed s s' -> rt_cursors s' = rt_cursors s.
Proof using Type. unfold undisturbed, untouched. congruence. Qed.

Definition limits s : Z * Z := (cb_maximum_age (rt_book_builder s), cb_maximum_future (rt_book_builder s)).
Lemma undisturbed_limits s s' : undisturbed s s' -> limits s' = limits s.
Proof using Type. unfold undisturbed, untouched, limits. congruence. Qed.
Lemma settle_limits events now ms s : limits (settle events now ms s) = limits s.
Proof using Type. by destruct events. Qed.
Lemma observe_limits matched now s : limits (observe matched now s) = limits s.
Proof using Type. by destruct matched. Qed.
Lemma lag_limits s s' : lag_changed s s' -> limits s' = limits s.
Proof using Type. by intros (? & ? & ? & ? & ? & ? & _ & ->). Qed.

(** What a batch that ends well leaves. *)
Lemma batch_state cfg now ms events s r s' r' b :
  batch_ends cfg now ms events s r ((s', r'), Ok b) ->
  runtime_wf s -> Forall event_ok events -> own_cursors cfg (rt_cursors s) ->
  runtime_wf s' /\ own_cursors cfg (rt_cursors s') /\
  limits s' = limits s /\
  rt_source_event_count s' = rt_events_processed_total s' /\
  exists cp, checkpoint_of cfg now s' = Ok cp /\
    commit_shadow_input_checkpoint (rt_cursors s') cp r = (r', Ok tt).
Proof using Type.
  intros Hb Hw He Ho. inversion Hb as [|s1 s2 ? ? b0 cp E1 E2 Hl Ecp Er]; subst.
  pose proof (processing_wf cfg now events He s Hw) as W1. rewrite E1 in W1. cbn [fst] in W1.
  pose proof (processing_undisturbed cfg now events s) as U1. rewrite E1 in U1. cbn [fst] in U1.
  set (s1' := settle events now ms s1) in *.
  assert (runtime_wf s1') as W2.
  { apply (runtime_wf_ext s1); [|done]. subst s1'. unfold settle. by destruct events. }
  pose proof (keeps_evaluate cfg now s1' W2) as W3. pose proof (evaluate_undisturbed cfg now s1') as U3.
  rewrite E2 in W3, U3. cbn [fst] in W3, U3.
  assert (runtime_wf (observe (ib_matched b0) now s2)) as W4.
  { apply (runtime_wf_ext s2); [|done]. unfold observe. by destruct (ib_matched b0). }
  assert (rt_cursors s' = rt_cursors s2) as Ec.
  { destruct Hl as (? & ? & ? & ? & ? & ? & _ & ->). unfold observe. by destruct (ib_matched b0). }
  split_and!.
  - by apply (lag_changed_wf _ _ Hl).
  - rewrite Ec, (undisturbed_cursors _ _ U3). apply settle_own_cursors. by rewrite (undisturbed_cursors _ _ U1).
  - rewrite (lag_limits _ _ Hl), observe_limits, (undisturbed_limits _ _ U3). subst s1'.
    by rewrite settle_limits, (undisturbed_limits _ _ U1).
  - assert (rt_source_event_count s2 = rt_events_processed_total s2) as Hs2.
    { destruct (evaluate_source cfg now s1') as [Ea Eb]. rewrite E2 in Ea, Eb. cbn [fst] in Ea, Eb.
      rewrite Ea, Eb. subst s1'. unfold settle. by destruct events. }
    destruct Hl as (? & ? & ? & ? & ? & ? & _ & ->). unfold observe. by destruct (ib_matched b0).
  - by exists cp.
Qed.

Lemma batch_progress cfg now ms events s r s' r' b :
  batch_ends cfg now ms events s r ((s', r'), Ok b) ->
  rt_cursors s' = map (advance_cursor (latest_events events) now) (rt_cursors s) /\
  rt_events_processed_total s' = (rt_events_processed_total s + Z.of_nat (length events))%Z.
Proof using Type.
  intros Hb. inversion Hb as [|s1 s2 ? ? b0 cp E1 E2 Hl Ecp Er]; subst.
  pose proof (processing_undisturbed cfg now events s) as U1. rewrite E1 in U1. cbn [fst] in U1.
  pose proof (evaluate_undisturbed cfg now (settle events now ms s1)) as U2. rewrite E2 in U2. cbn [fst] in U2.
  assert (rt_cursors s' = rt_cursors s2 /\ rt_events_processed_total s' = rt_events_processed_total s2) as [-> ->].
  { destruct Hl as (? & ? & ? & ? & ? & ? & _ & ->). unfold observe. by destruct (ib_matched b0). }
  unfold undisturbed, untouched in U1, U2. injection U1 as C1 _ T1 _. injection U2 as C2 _ T2 _.
  rewrite C2, T2. unfold settle. destruct events as [|e es]; cbn; rewrite <- C1, <- T1; [|done].
  split; [|lia]. rewrite <- (map_id (rt_cursors s1)) at 1. apply map_ext. done.
Qed.

(** ** A new process of the run *)

(** The attributes a checkpoint carries beside the state text. *)
Definition durable s :=
  (rt_cursors s, (rt_events_fetched_total s, rt_events_processed_total s, rt_events_failed_total s),
   (rt_source_event_count s, rt_batch_count s, rt_last_batch_size s),
   (rt_scan_duration_ms s, rt_processing_duration_ms s), (rt_latest_db_event_available_at s, rt_lag_seconds s),
   (rt_backlog_estimate s, rt_stream_metrics s),
   (rt_strategy_observation_first_at s, rt_strategy_observation_last_at s, rt_last_cursor_advanced_at s),
   rt_runtime_status s).

Lemma initial_cursors_saved cfg at_ t saved cursors streams :
  map cursor_id cursors = streams ->
  (forall c, c ∈ cursors -> dict_get (cursor_id c) saved = Some c) ->
  initial_cursors cfg at_ t saved streams = Ok cursors.
Proof using Type.
  revert streams. induction cursors as [|c cursors IH]; intros streams <- Hs; [done|].
  cbn [map initial_cursors]. rewrite Hs by left. cbn [rbind].
  rewrite (IH _ eq_refl); [done|]. intros c' Hc'. apply Hs. by right.
Qed.

Definition checkpointed (cp : ShadowInputCheckpoint) s : Runtime :=
  set_rt_source_event_count (cp_events_processed_total cp)
    (set_rt_runtime_status (cp_runtime_status cp)
    (set_rt_last_cursor_advanced_at (cp_last_cursor_advanced_at cp)
    (set_rt_strategy_observation_last_at (cp_strategy_observation_last_at cp)
    (set_rt_strategy_observation_first_at (cp_strategy_observation_first_at cp)
    (set_rt_backlog_estimate (cp_shadow_input_backlog_estimate cp)
    (set_rt_lag_seconds (cp_shadow_input_lag_seconds cp)
    (set_rt_latest_db_event_available_at (cp_latest_db_event_available_at cp)
    (set_rt_processing_duration_ms (cp_processing_duration_ms cp)
    (set_rt_scan_duration_ms (cp_scan_duration_ms cp)
    (set_rt_last_batch_size (cp_last_batch_size cp)
    (set_rt_batch_count (cp_batch_count cp)
    (set_rt_events_failed_total (cp_events_failed_total cp)
    (set_rt_events_processed_total (cp_events_processed_total cp)
    (set_rt_events_fetched_total (cp_events_fetched_total cp) s)))))))))))))).

Lemma checkpointed_view cp s s' : same_view s s' -> same_view s (checkpointed cp s').
Proof using Type. intros Hv. etrans; [exact Hv|]. by constructor. Qed.

Lemma checkpointed_durable cfg now s s' cp :
  checkpoint_of cfg now s = Ok cp -> rt_source_event_count s = rt_events_processed_total s ->
  rt_cursors s' = rt_cursors s -> rt_stream_metrics s' = rt_stream_metrics s ->
  durable (checkpointed cp s') = durable s.
Proof using Type.
  unfold checkpoint_of, ShadowInputCheckpoint_validate. case_match; [done|].
  intros [= <-] H1 H2 H3. unfold durable, checkpointed. simpl. by rewrite H1, H2, H3.
Qed.

Lemma ids_changed_durable s s' : ids_changed s s' -> durable s' = durable s.
Proof using Type. by intros [_ (b & d & ->)]. Qed.

Lemma restart cfg now at_ t age future s r r' cp :
  coherent r -> runtime_wf s -> own_cursors cfg (rt_cursors s) ->
  limits s = (cb_maximum_age (Builder_new age future), cb_maximum_future (Builder_new age future)) ->
  rt_source_event_count s = rt_events_processed_total s -> checkpoint_of cfg now s = Ok cp ->
  commit_shadow_input_checkpoint (rt_cursors s) cp r = (r', Ok tt) ->
  exists s', Runtime_init cfg age future at_ t r' = (r', Ok s') /\ same_view s s' /\ durable s' = durable s.
Proof using Hrel L.
  intros Hco Hw [Hids Hown] [= Ha Hf] Hsrc Ecp Er. pose proof Ecp as Ecp'.
  unfold checkpoint_of, ShadowInputCheckpoint_validate in Ecp. case_match; [done|].
  assert (cp_run_id cp = rc_run_id cfg /\ cp_instrument cp = rc_instrument cfg /\
          cp_state_json cp = state_text s) as (Hr & Hi & Hj) by (by injection Ecp as <-).
  destruct (commit_read (rt_cursors s) cp r r' Hco Er) as (saved & Eload & Hsaved).
  { rewrite Hr, Hi. exact Hown. }
  { rewrite Hids. apply (bool_decide_unpack _). by vm_compute. }
  unfold Runtime_init. rewrite Hr, Hi in Eload. rewrite Eload.
  rewrite (initial_cursors_saved cfg at_ t (cursor_map saved) _ _ Hids Hsaved).
  set (s0 := initial_runtime _ _ _ _).
  assert (on_runtime (restore_checkpoint cp) (s0, r') = ((checkpointed cp (reload s s0), r'), Ok tt)) as E1.
  { unfold on_runtime, restore_checkpoint. cbn [fst snd]. rewrite Hj.
    by rewrite (bind_ok _ _ _ _ _ (restore_state_text_of s s0 Hw (eq_sym Ha) (eq_sym Hf))). }
  pose proof (checkpointed_view cp _ _ (reload_view s s0 Hw)) as V1.
  pose proof (checkpointed_durable cfg now s (reload s s0) cp Ecp' Hsrc eq_refl eq_refl) as D1.
  revert E1 V1 D1. generalize (checkpointed cp (reload s s0)). intros s1 E1 V1 D1.
  rewrite (bind_ok _ _ _ _ _ E1). cbv beta.
  destruct (restore_delta_identities_spec s1 r') as (s2 & E2 & V2). rewrite E2. cbn [rbind].
  exists s2. split; [done|]. split; [etrans; [exact V1|apply V2]|]. by rewrite (ids_changed_durable _ _ V2).
Qed.

End Batches.




Module BatchSample.

Definition store_of (events : list RawMarketEvent) : MemoryRepository := {|
  mr_experimental_events := map (fun e => (re_event_id e, e)) events;
  mr_shadow_cursors := []; mr_shadow_checkpoints := [] |}.

Definition cursor (venue stream : string) : ExperimentalEventCursor := {|
  ec_run_id := "run"; ec_venue := venue; ec_instrument := "BTC"; ec_event_stream := stream;
  ec_last_available_at := None; ec_last_event_id := None; ec_updated_at := PairSample.t0 |}.
Definition cursors : list ExperimentalEventCursor := Eval vm_compute in
  map (fun q => cursor q.1 q.2) initial_streams.

Definition start : Runtime := initial_runtime 30 1 PairSample.t0 cursors.
Definition store : MemoryRepository := store_of PairSample.events.
(** The same store with an event whose payload is not JSON. *)
Definition poisoned : MemoryRepository :=
  store_of (PairSample.events ++ [PairSample.event "x" "bitget" "funding_current" 2 PairSample.now "{"]).

Abbreviation read_ok := (read (C := default_context) (D := length_digest) PairSample.cfg PairSample.now
  zero_decimal zero_decimal (start, store)).
Abbreviation read_bad := (read (C := default_context) (D := length_digest) PairSample.cfg PairSample.now
  zero_decimal zero_decimal (start, poisoned)).
Definition value {A} (d : A) (o : result A) : A := match o with Ok a => a | Err _ => d end.
Definition error {A} (o : result A) : exn := match o with Ok _ => KeyError | Err e => e end.
Lemma is_ok_pair {V W A} (d : A) (x : (V * W) * result A) :
  is_ok x.2 = true -> x = ((x.1.1, x.1.2), Ok (value d x.2)).
Proof. by destruct x as [[v w] [a|e]]. Qed.
Lemma is_error_pair {V W A} (x : (V * W) * result A) :
  is_ok x.2 = false -> x = ((x.1.1, x.1.2), Err (error x.2)).
Proof. by destruct x as [[v w] [a|e]]. Qed.

Lemma start_state : machine_state (C := default_context) (D := length_digest) PairSample.cfg start.
Proof. constructor. split; vm_compute; discriminate. Qed.

Lemma start_cursors : own_cursors PairSample.cfg (rt_cursors start).
Proof. split; [done|by repeat constructor]. Qed.

Lemma store_coherent : memory_coherent store.
Proof. split; constructor. Qed.

Definition no_batch : ShadowInputBatch := unmatched [] (describe start STALE_DATA "" "") None.
Abbreviation batch := (value no_batch read_ok.2).
Abbreviation failure := (error read_bad.2).

Lemma read_ok_is : is_ok read_ok.2 = true.
Proof. vm_compute. reflexivity. Qed.
Lemma read_bad_is : is_ok read_bad.2 = false.
Proof. vm_compute. reflexivity. Qed.
Lemma read_ok_eq : read_ok = ((read_ok.1.1, read_ok.1.2), Ok batch).
Proof. exact (is_ok_pair no_batch read_ok read_ok_is). Qed.
Lemma read_bad_eq : read_bad = ((read_bad.1.1, read_bad.1.2), Err failure).
Proof. exact (is_error_pair read_bad read_bad_is). Qed.

Lemma fetched_ok events :
  fetch_events PairSample.cfg (start, store) = ((start, store), Ok events) -> Forall event_ok events.
Proof.
  assert (fetch_events PairSample.cfg (start, store) = ((start, store), Ok PairSample.events)) as ->
    by (vm_compute; reflexivity).
  intros [= <-]. apply PairSample.events_ok.
Qed.

End BatchSample.


