(* ===== verification/ShadowOnce.v ===== *)
(** * Every stored event is read in exactly one batch

    The events of a stream are ordered by position (time of availability, identity), a batch
    takes the first ones after the cursor of the stream, and the cursor moves to the last
    of them.  Proved for the in-memory repository. *)

From Stdlib Require Import ZArith QArith NArith Sorted Lia.
From stdpp Require Import base tactics sets list sorting strings.
From S2P Require Import Prelude Decimals Evidence Json PyText FundingCarry.
From S2P Require Import ShadowBook BookReplay ShadowStore ShadowRuntime ShadowState ShadowSafety ShadowBatches.

Local Open Scope string_scope.
Local Open Scope list_scope.

(** ** The order of positions *)

Lemma string_leb_antisym a b : string_leb a b = true -> string_leb b a = true -> a = b.
Proof.
  unfold string_leb. intros H1 H2. apply Is_true_true in H1, H2.
  by apply (anti_symm String.le).
Qed.

Lemma position_leb_spec a b :
  position_leb a b = true <-> (a.1 < b.1)%Z \/ a.1 = b.1 /\ string_leb a.2 b.2 = true.
Proof. unfold position_leb. rewrite orb_true_iff, andb_true_iff, Z.ltb_lt, Z.eqb_eq. done. Qed.

Lemma position_leb_total a b : position_leb a b = true \/ position_leb b a = true.
Proof.
  rewrite !position_leb_spec. destruct (Z.lt_trichotomy a.1 b.1) as [?|[E|?]]; [by left; left| |by right; left].
  destruct (string_leb_total a.2 b.2); [left|right]; by right.
Qed.

Lemma position_leb_trans a b c :
  position_leb a b = true -> position_leb b c = true -> position_leb a c = true.
Proof.
  rewrite !position_leb_spec. intros [?|[E1 H1]] [?|[E2 H2]]; try (left; lia).
  right. split; [lia|]. by eapply string_leb_trans.
Qed.

Lemma position_leb_antisym a b : position_leb a b = true -> position_leb b a = true -> a = b.
Proof.
  rewrite !position_leb_spec. intros [?|[E1 H1]] [?|[E2 H2]]; try lia.
  apply injective_projections; [done|]. by apply string_leb_antisym.
Qed.

Lemma position_ltb_leb a b : position_ltb a b = true -> position_leb a b = true.
Proof. unfold position_ltb. intros H%negb_true_iff. destruct (position_leb_total a b); congruence. Qed.

(** ** Prefixes of sorted lists *)

Lemma slice_prefix {A} (n : Z) (xs : list A) : exists k, slice n xs = take k xs.
Proof. unfold slice. case_match; by eexists. Qed.

(** What comes before an element of a prefix is in the prefix. *)
Lemma slice_closed {A} (le : A -> A -> bool) n xs x y :
  StronglySorted (fun a b => le a b = true) xs -> x ∈ slice n xs -> y ∈ xs -> le x y = false -> y ∈ slice n xs.
Proof.
  destruct (slice_prefix n xs) as [k ->]. intros Hs Hx Hy Hl.
  rewrite <- (take_drop k xs) in Hs, Hy. apply elem_of_app in Hy as [Hy|Hy]; [done|].
  pose proof (StronglySorted_app_1_elem_of _ _ _ _ _ Hs Hx Hy). congruence.
Qed.

Lemma slice_sub {A} n (xs : list A) x : x ∈ slice n xs -> x ∈ xs.
Proof. destruct (slice_prefix n xs) as [k ->]. intros (i & Hi & _)%elem_of_take. by eapply list_elem_of_lookup_2. Qed.

Lemma slice_nonempty {A} n (xs : list A) : (0 < n)%Z -> xs <> [] -> slice n xs <> [].
Proof.
  intros Hn Hx. unfold slice. rewrite (proj2 (Z.leb_le 0 n)) by lia.
  destruct xs as [|x xs]; [done|]. by destruct (Z.to_nat n) eqn:E; [lia|].
Qed.

Lemma event_sorted xs : StronglySorted (fun a b => event_leb a b = true) (sorted_by event_leb xs).
Proof.
  apply sorted_by_sorted.
  - intros a b. apply position_leb_total.
  - intros a b c. apply position_leb_trans.
Qed.

(** ** The last event of each stream *)

Lemma latest_events_spec q events :
  match dict_get q (latest_events events) with
  | Some m => m ∈ events /\ event_stream_id m = q /\
      forall e, e ∈ events -> event_stream_id e = q -> event_leb e m = true
  | None => forall e, e ∈ events -> event_stream_id e <> q
  end.
Proof.
  induction events as [|e events IH] using rev_ind; [by intros e ?%elem_of_nil|].
  unfold latest_events in *. rewrite fold_left_app. cbn [fold_left].
  set (d := fold_left _ events []) in *.
  destruct (decide (event_stream_id e = q)) as [Eq|Hne].
  - rewrite Eq. destruct (dict_get q d) as [m|] eqn:Ed.
    + destruct IH as (Hm & Hs & Hmax).
      destruct (position_ltb (event_position m) (event_position e)) eqn:El.
      * rewrite dict_get_set_eq. split; [set_solver|]. split; [done|].
        intros e' [He'| ->%list_elem_of_singleton]%elem_of_app Hq.
        -- apply position_ltb_leb in El. by eapply position_leb_trans; [apply Hmax|].
        -- by destruct (position_leb_total (event_position e) (event_position e)).
      * rewrite Ed. split; [set_solver|]. split; [done|].
        intros e' [He'| ->%list_elem_of_singleton]%elem_of_app Hq; [by apply Hmax|].
        by apply negb_false_iff in El.
    + rewrite dict_get_set_eq. split; [set_solver|]. split; [done|].
      intros e' [He'| ->%list_elem_of_singleton]%elem_of_app Hq; [by destruct (IH e' He')|].
      by destruct (position_leb_total (event_position e) (event_position e)).
  - assert (forall d', (d' = d \/ d' = dict_set (event_stream_id e) e d) -> dict_get q d' = dict_get q d) as Hd'.
    { intros d' [-> | ->]; [done|]. by apply dict_get_set_ne. }
    match goal with |- context [if ?b then _ else _] => rewrite (Hd' (if b then _ else _)) by (destruct b; auto) end.
    destruct (dict_get q d) as [m|].
    + destruct IH as (Hm & Hs & Hmax). split; [set_solver|]. split; [done|].
      intros e' [He'| ->%list_elem_of_singleton]%elem_of_app Hq; [by apply Hmax|done].
    + intros e' [He'| ->%list_elem_of_singleton]%elem_of_app; [by apply IH|done].
Qed.

(** ** What a batch fetches *)

Definition stored (r : MemoryRepository) : list RawMarketEvent := dict_values (mr_experimental_events r).

(** An event of the machine's streams, and one its cursors have not passed. *)
Definition relevant (cfg : RuntimeConfig) (e : RawMarketEvent) : bool :=
  selected ["hyperliquid"; "bitget"] (rc_instrument cfg)
    ["funding_current"; "orderbook_snapshot"; "orderbook_delta"] e.
Definition pending (cursors : list ExperimentalEventCursor) (e : RawMarketEvent) : bool :=
  after_cursor (dict_get (event_stream_id e) (cursor_map cursors)) e.

Lemma selected_spec venues instrument types e :
  selected venues instrument types e = true <->
  re_venue e ∈ venues /\ re_canonical_instrument_id e = instrument /\ re_event_type e ∈ types.
Proof. unfold selected. rewrite !andb_true_iff, !bool_decide_eq_true. tauto. Qed.

Lemma stream_selected cfg c e :
  cursor_id c ∈ initial_streams ->
  selected [ec_venue c] (rc_instrument cfg) (stream_event_types (ec_event_stream c)) e = true <->
  relevant cfg e = true /\ event_stream_id e = cursor_id c.
Proof.
  unfold relevant. rewrite !selected_spec. unfold event_stream_id, cursor_id, stream_event_types, stream_types,
    shadow_event_stream. intros Hc.
  assert (ec_venue c ∈ ["hyperliquid"; "bitget"] /\
    (ec_event_stream c = "funding_current" \/ ec_event_stream c = "orderbook_snapshot")) as [Hv Hs].
  { unfold initial_streams in Hc. 
    repeat (apply elem_of_cons in Hc as [Hc|Hc]); [..|by apply elem_of_nil in Hc];
      injection Hc as -> ->; split; auto; apply (bool_decide_unpack _); by vm_compute. }
  rewrite list_elem_of_singleton. rewrite !elem_of_cons, elem_of_nil in Hv. rewrite !elem_of_cons, !elem_of_nil.
  destruct Hs as [-> | ->]; [rewrite (bool_decide_eq_true_2 ("funding_current" = "funding_current")) by done|
    rewrite (bool_decide_eq_false_2 ("orderbook_snapshot" = "funding_current")) by done];
    rewrite ?elem_of_cons, ?elem_of_nil; destruct (decide (re_event_type e = "funding_current")) as [Et|Et];
    [rewrite (bool_decide_eq_true_2 _ Et)|rewrite (bool_decide_eq_false_2 _ Et)|
     rewrite (bool_decide_eq_true_2 _ Et)|rewrite (bool_decide_eq_false_2 _ Et)];
    split; naive_solver congruence.
Qed.

Lemma relevant_stream cfg e : relevant cfg e = true -> event_stream_id e ∈ initial_streams.
Proof.
  unfold relevant. rewrite selected_spec. unfold event_stream_id, shadow_event_stream, initial_streams.
  rewrite !elem_of_cons, !elem_of_nil. intros ([->|[->|[]]] & _ & _); case_bool_decide; auto.
Qed.

(** The part of a batch that comes from one cursor. *)
Definition stream_batch (cfg : RuntimeConfig) (quota : Z) (r : MemoryRepository) (c : ExperimentalEventCursor) :=
  memory_list_after r [c] [ec_venue c] (rc_instrument cfg) (stream_event_types (ec_event_stream c)) quota.

Lemma own_cursor_get cfg cursors c :
  own_cursors cfg cursors -> c ∈ cursors -> dict_get (cursor_id c) (cursor_map cursors) = Some c.
Proof.
  intros [Hi _] Hc. apply (fold_set_get cursor_id); [|done]. rewrite Hi.
  apply (bool_decide_unpack _). by vm_compute.
Qed.

Lemma own_cursor_of cfg cursors e :
  own_cursors cfg cursors -> relevant cfg e = true -> exists c, c ∈ cursors /\ cursor_id c = event_stream_id e.
Proof.
  intros [Hi _] He%relevant_stream. rewrite <- Hi in He. apply list_elem_of_fmap in He as (c & -> & Hc). by exists c.
Qed.

Lemma own_cursor_stream cfg cursors c : own_cursors cfg cursors -> c ∈ cursors -> cursor_id c ∈ initial_streams.
Proof. intros [<- _] Hc. apply list_elem_of_fmap. by exists c. Qed.

(** A batch: stored events of the machine that its cursors have not passed; with an event
    it has those before it in its stream. *)
Record batch_of (cfg : RuntimeConfig) (cursors : list ExperimentalEventCursor) (r : MemoryRepository)
    (events : list RawMarketEvent) : Prop := {
  bo_stored : forall e, e ∈ events -> e ∈ stored r /\ relevant cfg e = true /\ pending cursors e = true;
  bo_closed : forall e e', e ∈ events -> e' ∈ stored r -> relevant cfg e' = true ->
    pending cursors e' = true -> event_stream_id e' = event_stream_id e -> event_leb e e' = false -> e' ∈ events;
  bo_progress : (0 < rc_batch_size cfg)%Z -> (rc_fair_consumption cfg = true -> 4 <= rc_batch_size cfg)%Z ->
    forall e, e ∈ stored r -> relevant cfg e = true -> pending cursors e = true -> events <> [];
  bo_once : NoDup (stored r) -> NoDup events;
}.

Lemma list_elem_of_filter_bool {A} (f : A -> bool) x xs : x ∈ List.filter f xs <-> x ∈ xs /\ f x = true.
Proof. by rewrite list_elem_of_In, filter_In, <- list_elem_of_In. Qed.

Lemma slice_NoDup {A} n (le : A -> A -> bool) (f : A -> bool) xs :
  NoDup xs -> NoDup (slice n (sorted_by le (List.filter f xs))).
Proof.
  intros Hn. destruct (slice_prefix n (sorted_by le (List.filter f xs))) as [k ->].
  eapply sublist_NoDup; [|apply sublist_take]. rewrite (sorted_by_Permutation le).
  eapply sublist_NoDup; [exact Hn|apply filter_bool_sublist].
Qed.

Lemma NoDup_flat_map {A B K} (f : A -> list B) (key : B -> K) (index : A -> K) xs :
  NoDup (map index xs) -> (forall a, a ∈ xs -> NoDup (f a)) ->
  (forall a b, a ∈ xs -> b ∈ f a -> key b = index a) -> NoDup (flat_map f xs).
Proof.
  induction xs as [|a xs IH]; intros Hn Hf Hk; cbn [flat_map map] in *; [by apply NoDup_nil_2|].
  apply NoDup_cons in Hn as [Hni Hn]. apply NoDup_app. split_and!.
  - apply Hf. left.
  - intros b Hb Hb'%list_elem_of_In%in_flat_map. destruct Hb' as (a' & Ha'%list_elem_of_In & Hb').
    apply list_elem_of_In in Hb'. apply Hni, list_elem_of_fmap. exists a'. split; [|done].
    rewrite <- (Hk a b), <- (Hk a' b); [done|by right|done|left|done].
  - apply IH; [done| |]; intros; [apply Hf|apply Hk]; try done; by right.
Qed.

Lemma stream_batch_spec cfg cursors r c e :
  own_cursors cfg cursors -> c ∈ cursors ->
  e ∈ List.filter (fun e => selected [ec_venue c] (rc_instrument cfg) (stream_event_types (ec_event_stream c)) e &&
                            after_cursor (dict_get (event_stream_id e) (cursor_map [c])) e) (stored r) <->
  e ∈ stored r /\ relevant cfg e = true /\ pending cursors e = true /\ event_stream_id e = cursor_id c.
Proof.
  intros Ho Hc. rewrite list_elem_of_filter_bool, andb_true_iff.
  rewrite (stream_selected cfg c e) by (by eapply own_cursor_stream). unfold pending.
  pose proof (own_cursor_get cfg cursors c Ho Hc) as Hg.
  assert (dict_get (cursor_id c) (cursor_map [c]) = Some c) as Hg' by apply dict_get_set_eq.
  split.
  - intros (Hs & [Hr Hq] & Ha). rewrite Hq, Hg' in Ha. by rewrite Hq, Hg.
  - intros (Hs & Hr & Hp & Hq). rewrite Hq, Hg in Hp. by rewrite Hq, Hg'.
Qed.

Lemma fair_batch cfg quota cursors r events :
  own_cursors cfg cursors ->
  (rc_fair_consumption cfg = true -> quota = rc_batch_size cfg / 4)%Z -> rc_fair_consumption cfg = true ->
  events ≡ₚ flat_map (stream_batch cfg quota r) cursors -> batch_of cfg cursors r events.
Proof.
  intros Ho Hq Hfair Hp.
  assert (forall e, e ∈ events <-> exists c, c ∈ cursors /\ e ∈ stream_batch cfg quota r c) as Hin.
  { intros e. rewrite Hp, list_elem_of_In, in_flat_map.
    split; intros (c & H1 & H2); exists c; rewrite ?list_elem_of_In in *; done. }
  unfold stream_batch, memory_list_after in Hin. fold (stored r) in Hin. constructor.
  - intros e (c & Hc & He%slice_sub%elem_of_sorted_by)%Hin. apply (stream_batch_spec cfg cursors) in He; naive_solver.
  - intros e e' (c & Hc & He)%Hin Hs Hr Hpe Hst Hl. apply Hin. exists c. split; [done|].
    pose proof He as Hm%slice_sub%elem_of_sorted_by. apply (stream_batch_spec cfg cursors) in Hm; [|done..].
    eapply slice_closed; [apply event_sorted|exact He| |exact Hl].
    apply elem_of_sorted_by, (stream_batch_spec cfg cursors); [done..|].
    destruct Hm as (_ & _ & _ & Hm). split_and!; congruence.
  - intros H0 H4 e Hs Hr Hpe. destruct (own_cursor_of cfg cursors e Ho Hr) as (c & Hc & Hce).
    set (l := sorted_by event_leb (List.filter (fun e =>
      selected [ec_venue c] (rc_instrument cfg) (stream_event_types (ec_event_stream c)) e &&
      after_cursor (dict_get (event_stream_id e) (cursor_map [c])) e) (stored r))).
    assert (slice quota l <> []) as Hne.
    { apply slice_nonempty.
      - rewrite (Hq Hfair). specialize (H4 Hfair). apply Z.div_str_pos. lia.
      - intros El. assert (e ∈ l) as He; [|rewrite El in He; by apply elem_of_nil in He].
        by apply elem_of_sorted_by, (stream_batch_spec cfg cursors). }
    destruct (slice quota l) as [|x xs] eqn:El; [done|]. intros ->. apply (elem_of_nil x), Hin.
    exists c. split; [done|]. fold l. rewrite El. left.
  - intros Hn. rewrite Hp. apply (NoDup_flat_map _ event_stream_id cursor_id).
    + rewrite (proj1 Ho). apply (bool_decide_unpack _). by vm_compute.
    + intros c _. by apply slice_NoDup.
    + intros c e Hc He%slice_sub%elem_of_sorted_by. apply (stream_batch_spec cfg cursors) in He; naive_solver.
Qed.

Lemma merged_batch cfg cursors r :
  own_cursors cfg cursors -> rc_fair_consumption cfg = false ->
  batch_of cfg cursors r (memory_list_after r cursors ["hyperliquid"; "bitget"] (rc_instrument cfg)
    ["funding_current"; "orderbook_snapshot"; "orderbook_delta"] (rc_batch_size cfg)).
Proof.
  intros Ho Hfair. unfold memory_list_after. fold (stored r).
  set (l := sorted_by _ _).
  assert (forall e, e ∈ l <-> e ∈ stored r /\ relevant cfg e = true /\ pending cursors e = true) as Hin.
  { intros e. subst l. rewrite elem_of_sorted_by, list_elem_of_filter_bool, andb_true_iff. done. }
  constructor.
  - intros e He%slice_sub. by apply Hin.
  - intros e e' He Hs Hr Hp _ Hl. eapply slice_closed; [apply event_sorted|exact He| |exact Hl]. by apply Hin.
  - intros H0 _ e Hs Hr Hp. apply slice_nonempty; [done|]. intros El.
    assert (e ∈ l) as He by (by apply Hin). rewrite El in He. by apply elem_of_nil in He.
  - apply slice_NoDup.
Qed.

Lemma fetch_streams_memory instrument quota cursors s r :
  fetch_streams instrument quota cursors (s, r) =
  ((s, r), Ok (flat_map (fun c => memory_list_after r [c] [ec_venue c] instrument
                                    (stream_event_types (ec_event_stream c)) quota) cursors)).
Proof.
  induction cursors as [|c cursors IH]; [done|]. cbn [fetch_streams flat_map].
  rewrite (bind_ok _ _ (s, r) (s, r) (memory_list_after r [c] [ec_venue c] instrument
    (stream_event_types (ec_event_stream c)) quota)) by reflexivity.
  cbv beta. by rewrite (bind_ok _ _ _ _ _ IH).
Qed.

Lemma fetch_batch cfg s r events :
  own_cursors cfg (rt_cursors s) -> fetch_events cfg (s, r) = ((s, r), Ok events) ->
  batch_of cfg (rt_cursors s) r events.
Proof.
  intros Ho. unfold fetch_events, pbind at 1, runtime. cbn [fst snd].
  destruct (rc_fair_consumption cfg) eqn:Ef.
  - unfold pbind. rewrite fetch_streams_memory. intros [= <-].
    assert (length (rt_cursors s) = 4) as Hlen.
    { destruct Ho as [Hi _]. apply (f_equal (@length _)) in Hi. by rewrite length_map in Hi. }
    rewrite Hlen. eapply fair_batch; [done| |done|apply sorted_by_Permutation]. done.
  - intros [= <-]. by apply merged_batch.
Qed.

(** ** The cursors after a batch *)

(** Events are stored under their identity. *)
Definition store_ok (r : MemoryRepository) : Prop :=
  NoDup (dict_keys (mr_experimental_events r)) /\
  Forall (fun kv => kv.1 = re_event_id kv.2) (mr_experimental_events r).

Lemma stored_id r e e' : store_ok r -> e ∈ stored r -> e' ∈ stored r -> re_event_id e = re_event_id e' -> e = e'.
Proof.
  intros [Hn Hf]. rewrite Forall_forall in Hf. unfold stored, dict_values.
  intros ([k v] & -> & H1)%list_elem_of_fmap ([k' v'] & -> & H2)%list_elem_of_fmap. simpl. intros E.
  pose proof (Hf _ H1) as E1. pose proof (Hf _ H2) as E2. simpl in E1, E2. subst.
  apply dict_In_get in H1, H2; [|done..]. congruence.
Qed.

Lemma stored_NoDup r : store_ok r -> NoDup (stored r).
Proof.
  intros [Hn Hf]. rewrite Forall_forall in Hf. unfold stored, dict_values.
  apply (NoDup_map_via fst); [done|]. intros x y Hx Hy E. rewrite (Hf x Hx), (Hf y Hy). congruence.
Qed.

Definition advanced (events : list RawMarketEvent) (now : Z) (cursors : list ExperimentalEventCursor) :=
  map (advance_cursor (latest_events events) now) cursors.

Lemma advance_cursor_id latest now c : cursor_id (advance_cursor latest now c) = cursor_id c.
Proof. unfold advance_cursor. by destruct (dict_get _ _). Qed.

Lemma advanced_get cfg events now cursors c :
  own_cursors cfg cursors -> c ∈ cursors ->
  dict_get (cursor_id c) (cursor_map (advanced events now cursors)) =
  Some (advance_cursor (latest_events events) now c).
Proof.
  intros [Hi Ho] Hc. rewrite <- (advance_cursor_id (latest_events events) now c).
  apply (own_cursor_get cfg); [|apply list_elem_of_fmap; by exists c].
  split; [|apply Forall_map; eapply Forall_impl; [exact Ho|]; intros c'; unfold compose, advance_cursor; by destruct (dict_get _ _)].
  rewrite <- Hi. unfold advanced. rewrite map_map. apply map_ext. intros c'. apply advance_cursor_id.
Qed.

(** An event is pending after a batch when it comes after the last one of its stream. *)
Lemma advanced_pending cfg events now cursors e :
  own_cursors cfg cursors -> relevant cfg e = true ->
  pending (advanced events now cursors) e =
  match dict_get (event_stream_id e) (latest_events events) with
  | Some m => position_ltb (event_position m) (event_position e)
  | None => pending cursors e
  end.
Proof.
  intros Ho Hr. destruct (own_cursor_of cfg cursors e Ho Hr) as (c & Hc & Hce).
  unfold pending. rewrite <- Hce, (advanced_get cfg), (own_cursor_get cfg cursors c) by done.
  unfold advance_cursor, after_cursor. by destruct (dict_get (cursor_id c) _).
Qed.

Lemma pending_after cfg cursors e m :
  own_cursors cfg cursors -> relevant cfg m = true -> event_stream_id m = event_stream_id e ->
  pending cursors m = true -> position_ltb (event_position m) (event_position e) = true ->
  pending cursors e = true.
Proof.
  intros Ho Hr Hs. unfold pending. rewrite Hs. unfold after_cursor.
  destruct (dict_get _ _) as [c|]; [|done]. destruct (cursor_position c) as [p|]; [|done].
  unfold position_ltb. rewrite !negb_true_iff. intros H1 H2.
  destruct (position_leb (event_position e) p) eqn:E; [|done].
  destruct (position_leb_total (event_position m) (event_position e)) as [H|H]; [|congruence].
  by rewrite (position_leb_trans _ _ _ H E) in H1.
Qed.

Lemma batch_window cfg cursors r events now e :
  own_cursors cfg cursors -> store_ok r -> batch_of cfg cursors r events ->
  e ∈ stored r -> relevant cfg e = true ->
  (e ∈ events <-> pending cursors e = true /\ pending (advanced events now cursors) e = false) /\
  (pending (advanced events now cursors) e = true -> pending cursors e = true).
Proof.
  intros Ho Hst Hb Hs Hr. rewrite (advanced_pending cfg) by done.
  pose proof (latest_events_spec (event_stream_id e) events) as Hl.
  destruct (dict_get (event_stream_id e) (latest_events events)) as [m|].
  - destruct Hl as (Hm & Hq & Hmax). destruct (bo_stored _ _ _ _ Hb m Hm) as (Hms & Hmr & Hmp).
    split; [split|].
    + intros He. split; [by apply (bo_stored _ _ _ _ Hb)|]. apply negb_false_iff. by apply Hmax.
    + intros [Hp Hn%negb_false_iff]. destruct (event_leb m e) eqn:El.
      * assert (event_position m = event_position e) as E by (by apply position_leb_antisym).
        injection E as _ Eid. by rewrite <- (stored_id r m e Hst Hms Hs Eid).
      * by apply (bo_closed _ _ _ _ Hb m e).
    + by apply (pending_after cfg).
  - split; [|done]. split; [intros He; by destruct (Hl e He)|]. intros [H1 H2]. congruence.
Qed.


Lemma sample_store_ok : store_ok BatchSample.store.
Proof. split; [apply (bool_decide_unpack _); vm_compute; exact I|by repeat constructor]. Qed.

