(* ===== verification/Certification.v ===== *)
(** * Evidence on market data (services/research/certification.py)

    What a certification measures: the contract of a capability and its validation, the
    normalization of the sampled events, their timing, order, windows and values, and the
    metrics.  Files are arguments: [files path] is the content of the file at [root / path],
    [None] when it is no file.  Texts are ASCII.  CertificationService.v has the service
    that judges, stores and promotes. *)

From Stdlib Require Import ZArith QArith Qround Qabs NArith Lia.
From stdpp Require Import base tactics list strings.
From S2P Require Import Prelude Decimals Binary64 Evidence Json PyText FundingCarry ShadowBook.

Local Open Scope string_scope.
Local Open Scope list_scope.

(** ** Lists and texts *)

(** [[y for x in xs for y in f(x)]] with an [f] that may raise *)
Fixpoint gather {A B} (f : A -> result (list B)) (xs : list A) : result (list B) :=
  match xs with
  | [] => Ok []
  | x :: xs => let! ys := f x in let! rest := gather f xs in Ok (ys ++ rest)
  end.

(** [itertools.pairwise] *)
Fixpoint pairwise {A} (xs : list A) : list (A * A) :=
  match xs with
  | x :: ((y :: _) as rest) => (x, y) :: pairwise rest
  | _ => []
  end.

Definition count {A} (f : A -> bool) (xs : list A) : Z := Z.of_nat (length (List.filter f xs)).
Definition size {A} (xs : list A) : Z := Z.of_nat (length xs).
Definition lower_string (s : string) : string := untext (map lower (text s)).
Definition nonempty (s : string) : bool := negb (bool_decide (s = EmptyString)).
(** [max(xs, default=None)], [xs[i]] *)
Definition max_of (xs : list Decimal) : option Decimal :=
  match xs with [] => None | x :: xs => Some (fold_left dmax xs x) end.
Definition nth_of (i : Z) (xs : list Decimal) : option Decimal := xs !! Z.to_nat i.
Definition SECOND_ : Z := 1000000.

#[export] Instance timestamp_semantic_eq_dec : EqDecision TimestampSemantic.
Proof. solve_decision. Defined.
#[export] Instance availability_provenance_eq_dec : EqDecision AvailabilityProvenance.
Proof. solve_decision. Defined.

(** ** Decimals read from a payload: comparisons with a NaN raise *)

Definition invalid_operation : exn := OtherError "InvalidOperation".

Inductive extended := Finite (q : Decimal) | Infinite (neg : bool) | NotANumber.

(** [Decimal(str(v))]: [None] when it raises [InvalidOperation] *)
Definition read_decimal (v : json) : option extended :=
  match json_decimal v with
  | Some (DFinite d) => Some (Finite (fd_value d))
  | Some (DInfinity neg) => Some (Infinite neg)
  | Some DNaN => Some NotANumber
  | None => None
  end.

(** The order of the values that are numbers or infinite. *)
Definition ext_leb (a b : extended) : bool :=
  match a, b with
  | NotANumber, _ | _, NotANumber => false
  | Infinite true, _ | _, Infinite false => true
  | Infinite false, _ | _, Infinite true => false
  | Finite a, Finite b => dleb a b
  end.
Definition is_nan (a : extended) : bool := match a with NotANumber => true | _ => false end.
Definition ext_le (a b : extended) : result bool :=
  if is_nan a || is_nan b then Err invalid_operation else Ok (ext_leb a b).
Definition ext_lt (a b : extended) : result bool :=
  if is_nan a || is_nan b then Err invalid_operation else Ok (negb (ext_leb b a)).
Definition ext_eqb (a b : extended) : bool := ext_leb a b && ext_leb b a.

(** [max(a, b)] and [min(a, b)] *)
Definition ext_max (a b : extended) : result extended :=
  let! above := ext_lt a b in Ok (if above then b else a).
Definition ext_min (a b : extended) : result extended :=
  let! below := ext_lt b a in Ok (if below then b else a).

(** ** Data *)

Definition TIER_ONE_CAPABILITIES : list string :=
  ["funding_current"; "funding_history"; "mark_price"; "index_price"; "open_interest"; "trade"; "ohlcv"].
Definition SUPPORTED_CERTIFICATION_VENUES : list string := ["hyperliquid"; "bitget"].
Definition SUPPORTED_CERTIFICATION_INSTRUMENTS : list string := ["BTC"; "ETH"; "SOL"; "HYPE"].
Definition EVENT_CAPABILITY : list (string * string) :=
  map (fun c => (c, c)) ["funding_current"; "funding_history"; "mark_price"; "index_price"; "open_interest";
                         "trade"; "ohlcv"; "orderbook_snapshot"; "orderbook_delta"].

Definition HISTORICAL_TIMESTAMP_SEMANTICS : list TimestampSemantic :=
  [SEMANTIC_HISTORICAL_EFFECTIVE_TIME; CANDLE_OPEN_TIME; CANDLE_CLOSE_TIME; FUNDING_EFFECTIVE_TIME].

Inductive CertificationVerdict := VERDICT_PASS | VERDICT_FAIL | VERDICT_INSUFFICIENT_EVIDENCE.
#[export] Instance certification_verdict_eq_dec : EqDecision CertificationVerdict.
Proof. solve_decision. Defined.

Inductive StrictPaperReadiness := NOT_READY | READY_FOR_OPERATOR_APPROVAL.
#[export] Instance strict_paper_readiness_eq_dec : EqDecision StrictPaperReadiness.
Proof. solve_decision. Defined.

Record CapabilityContractVerdict := {
  cv_schema_valid : bool;
  cv_units_valid : bool;
  cv_timestamp_semantic_valid : bool;
  cv_value_domain_valid : bool;
  cv_source_identity_valid : bool;
}.

Record HistoricalResearchUsability := {
  hu_point_in_time_available : option bool;
  hu_availability_provenance : AvailabilityProvenance;
  hu_verdict : CertificationVerdict;
  hu_reasons : list string;
}.

(** The seconds are kept by value. *)
Record EventTimingMetrics := {
  et_exchange_timestamp : option Z;
  et_received_at : Z;
  et_available_at : Z;
  et_exchange_server_time : option Z;
  et_event_age_seconds : option Decimal;
  et_transport_latency_seconds : option Decimal;
  et_clock_skew_seconds : option Decimal;
  et_event_id : string;
  et_timestamp_semantic : TimestampSemantic;
  et_availability_provenance : AvailabilityProvenance;
  et_source_endpoint : string;
  et_raw_payload_sha256 : string;
  et_clock_skew_formula : option string;
}.

Record FundingIntervalObservation := {
  fo_previous_effective_at : Z;
  fo_current_effective_at : Z;
  fo_expected_interval_seconds : Z;
  fo_actual_interval_seconds : Z;
  fo_difference_seconds : Z;
  fo_missing_window_count : Z;
  fo_duplicate_window : bool;
  fo_schedule_change : bool;
}.

Record FundingIntervalResult := {
  fr_observations : list FundingIntervalObservation;
  fr_duplicate_count : Z;
  fr_missing_window_count : option Z;
  fr_schedule_change_count : Z;
  fr_violations : list string;
  fr_insufficiencies : list string;
  fr_window_assessment : string;
}.

Record CertificationMetrics := {
  cm_event_count : Z;
  cm_coverage_ratio : Decimal;
  cm_missing_interval_count : Z;
  cm_duplicate_ratio : Decimal;
  cm_stale_ratio : Decimal;
  cm_out_of_order_count : Z;
  cm_sequence_gap_count : Z;
  cm_median_latency_ms : option Decimal;
  cm_p95_latency_ms : option Decimal;
  cm_maximum_latency_ms : option Decimal;
  cm_maximum_clock_skew_ms : option Decimal;
  cm_cross_source_absolute_error : option Decimal;
  cm_cross_source_relative_error : option Decimal;
  cm_live_out_of_order_count : Z;
  cm_historical_source_order_reversed : Z;
  cm_historical_duplicate_count : Z;
  cm_historical_timestamp_collision_count : Z;
  cm_clock_skew_unknown_count : Z;
  cm_clock_skew_known_sample_count : Z;
  cm_clock_skew_violation_count : Z;
  cm_clock_skew_violation_ratio : option Decimal;
  cm_median_clock_skew_ms : option Decimal;
  cm_p95_clock_skew_ms : option Decimal;
  cm_clock_skew_threshold_ms : Decimal;
  cm_clock_skew_minimum_sample_count : Z;
  cm_clock_skew_maximum_violation_ratio : Decimal;
  cm_candle_interval_alignment_violation_count : Z;
  cm_candle_missing_count : Z;
  cm_future_timestamp_count : Z;
  cm_timing : list EventTimingMetrics;
}.

Record ContractValidationSpec := {
  sp_venue : string;
  sp_capability : string;
  sp_canonical_instrument_id : string;
  sp_source_endpoint : string;
  sp_request_parameters : list string;
  sp_response_fields : list string;
  sp_symbol : string;
  sp_price_unit : string;
  sp_quantity_unit : string;
  sp_funding_unit : option string;
  sp_funding_interval_seconds : option Z;
  sp_timestamp_unit : string;
  sp_timestamp_timezone : string;
  sp_sequence_semantics : string;
  sp_snapshot_delta_semantics : string;
  sp_null_behavior : string;
  sp_rate_limit_behavior : string;
  sp_error_behavior : string;
  sp_fixture_path : string;
  sp_fixture_sha256 : string;
  sp_normalization_test_node_id : string;
  sp_normalization_test_passed : bool;
  sp_minimum_event_count : Z;
  sp_minimum_coverage_ratio : Decimal;
  sp_maximum_stale_ratio : Decimal;
  sp_maximum_clock_skew_ms : Decimal;
  sp_maximum_relative_error : Decimal;
  sp_maximum_absolute_error : option Decimal;
  sp_timestamp_semantic : TimestampSemantic;
  sp_minimum_clock_skew_sample_count : Z;
  sp_maximum_clock_skew_violation_ratio : Decimal;
}.

Definition historical (s : TimestampSemantic) : bool := bool_decide (s ∈ HISTORICAL_TIMESTAMP_SEMANTICS).

(** ** The contract *)

Section Contract.
Context {D : Digest}.

(** [ContractValidationSpec.validate] *)
Definition spec_validate (spec : ContractValidationSpec) (files : string -> option string) : list string :=
  let required_text := [sp_source_endpoint spec; sp_symbol spec; sp_price_unit spec; sp_quantity_unit spec;
    sp_timestamp_unit spec; sp_timestamp_timezone spec; sp_sequence_semantics spec;
    sp_snapshot_delta_semantics spec; sp_null_behavior spec; sp_rate_limit_behavior spec;
    sp_error_behavior spec; sp_normalization_test_node_id spec] in
  (if negb (forallb nonempty required_text) || bool_decide (sp_request_parameters spec = []) ||
      bool_decide (sp_response_fields spec = [])
   then ["contract metadata is incomplete"] else []) ++
  match files (sp_fixture_path spec) with
  | None => ["contract fixture is missing"]
  | Some content =>
      if bool_decide (sha256_hex content = sp_fixture_sha256 spec) then []
      else ["contract fixture SHA-256 mismatch"]
  end ++
  (if sp_normalization_test_passed spec then [] else ["normalization test did not pass"]).

(** *** The audit of a capability *)

Record CapabilityAuditBinding := {
  ab_venue : string;
  ab_capability : string;
  ab_commit_sha : string;
  ab_adapter_version : string;
  ab_source_version : string;
  ab_fixture_sha256 : string;
  ab_audit_run_id : string;
  ab_audit_artifact_sha256 : string;
  ab_ci_run_id : string;
  ab_passed : bool;
}.

(** [d.get(key) == s] *)
Definition field_is (d : list (chars * json)) (key s : string) : bool :=
  match get_field d key with JString t => bool_decide (t = text s) | _ => false end.
(** [str(d.get(key, "")] *)
Definition field_str (d : list (chars * json)) (key : string) : string :=
  match dict_get (text key) d with Some v => untext (py_str v) | None => EmptyString end.

Fixpoint find_audit (findings : list json) (venue capability commit_sha adapter_version source_version
    fixture_sha256 artifact_sha : string) : result (option CapabilityAuditBinding) :=
  match findings with
  | [] => Ok None
  | JObject finding :: findings =>
      if field_is finding "venue" venue && field_is finding "capability" capability &&
         field_is finding "adapter_version" adapter_version &&
         field_is finding "source_version" source_version &&
         field_is finding "contract_fixture_sha256" fixture_sha256 &&
         match get_field finding "passed" with JBool b => b | _ => false end &&
         field_is finding "test_result" "passed"
      then Ok (Some {| ab_venue := venue; ab_capability := capability; ab_commit_sha := commit_sha;
                       ab_adapter_version := adapter_version; ab_source_version := source_version;
                       ab_fixture_sha256 := fixture_sha256;
                       ab_audit_run_id := field_str finding "audit_run_id";
                       ab_audit_artifact_sha256 := artifact_sha;
                       ab_ci_run_id := field_str finding "ci_run_id"; ab_passed := true |})
      else find_audit findings venue capability commit_sha adapter_version source_version fixture_sha256
             artifact_sha
  | _ :: _ => Err (OtherError "AttributeError")
  end.

(** [CapabilityAuditArtifactResolver.resolve] *)
Definition resolve (directory : string -> option string) (venue capability commit_sha adapter_version
    source_version fixture_sha256 : string) : result (option CapabilityAuditBinding) :=
  match directory "manifest.json" with
  | None => Ok None
  | Some manifest_text =>
      let! manifest := loads (text manifest_text) in
      match manifest with
      | JObject manifest =>
          match directory (field_str manifest "report_file") with
          | None => Ok None
          | Some report_bytes =>
              let artifact_sha := sha256_hex report_bytes in
              if negb (field_is manifest "commit_sha" commit_sha) ||
                 negb (field_is manifest "report_sha256" artifact_sha)
              then Ok None
              else
                let! report := loads (text report_bytes) in
                match report with
                | JObject report =>
                    match get_or report "findings" (JArray []) with
                    | JArray findings => find_audit findings venue capability commit_sha adapter_version
                                           source_version fixture_sha256 artifact_sha
                    | JObject [] | JString [] => Ok None
                    | JObject _ | JString _ => Err (OtherError "AttributeError")
                    | _ => Err (OtherError "TypeError")
                    end
                | _ => Err (OtherError "AttributeError")
                end
          end
      | _ => Err (OtherError "AttributeError")
      end
  end.

End Contract.

(** ** Rates and times *)

Section Values.
Context {C : DecimalContext}.

(** [normalize_funding_rate] of a value of a payload *)
Definition ext_div (a : extended) (n : Z) : extended :=
  match a with Finite q => Finite (ddiv q (inject_Z n)) | a => a end.

Definition normalize_funding_rate (value : json) (unit : string) : result extended :=
  match read_decimal value with
  | None => Err (ValueError "funding rate is not decimal")
  | Some raw =>
      if bool_decide (unit = "decimal") then Ok raw
      else if bool_decide (unit = "percent") then Ok (ext_div raw 100)
      else if bool_decide (unit = "basis_points") then Ok (ext_div raw 10000)
      else Err (ValueError "unknown funding rate unit")
  end.

Definition funding_payment_direction (rate position_quantity : Decimal) : string :=
  let payment := dmul rate position_quantity in
  if dltb 0 payment then "long_pays" else if dltb payment 0 then "long_receives" else "neutral".

(** [datetime.fromtimestamp(x, tz=UTC)]: the fraction is rounded to microseconds, half to even *)
Definition fromtimestamp (x : Q) : result Z :=
  let whole := float_to_int x in
  let t := (whole * 1000000 + round_half_even (fl ((x - inject_Z whole) * inject_Z 1000000)))%Z in
  if (-62135596800000000 <=? t)%Z && (t <=? 253402300799999999)%Z then Ok t
  else Err (ValueError "year is out of range").

(** [normalize_exchange_timestamp]; [value] is the number or text the venue sent *)
Definition timestamp_scale (unit : string) : option Z :=
  if bool_decide (unit = "seconds") then Some 1%Z
  else if bool_decide (unit = "milliseconds") then Some 1000%Z
  else if bool_decide (unit = "microseconds") then Some 1000000%Z else None.

Definition normalize_exchange_timestamp (value : json) (unit : string) (received_at : Z) : result Z :=
  match timestamp_scale unit with
  | None => Err (ValueError "unsupported timestamp unit")
  | Some scale =>
      match read_decimal value with
      | None => Err invalid_operation
      | Some seconds =>
          let converted := match ext_div seconds scale with
                           | Finite q =>
                               if dltb (Qabs q) float_overflow
                               then fromtimestamp (if dltb q 0 then - double (Qabs q) else double q)%Q
                               else Err (OtherError "OverflowError")
                           | _ => Err (ValueError "cannot convert float")
                           end in
          match converted with
          | Err _ => Err (ValueError "timestamp unit mismatch")
          | Ok result =>
              if (received_at + 5 * SECOND_ <? result)%Z then Err (ValueError "future exchange timestamp")
              else if dltb (inject_Z (10 * 365 * 24 * 3600)) (Qabs (total_seconds (received_at - result)))
              then Err (ValueError "timestamp unit mismatch")
              else Ok result
          end
      end
  end.

(** [validate_funding_interval] *)
Definition validate_funding_interval (previous_at current_at expected_seconds tolerance_seconds : Z)
  : result unit :=
  let actual := total_seconds (current_at - previous_at) in
  if dltb (inject_Z tolerance_seconds) (Qabs (fl (actual - inject_Z expected_seconds)))
  then Err (ValueError "funding interval mismatch") else Ok tt.

Definition reconcile_funding_current_history (current_rate history_rate tolerance : Decimal) : result Decimal :=
  let error := dabs (dsub current_rate history_rate) in
  if dltb tolerance error then Err (ValueError "funding current/history mismatch") else Ok error.

(** [max(abs(left), abs(right), Decimal("0.000000000001"))] *)
Definition scale_of (left right : Decimal) : Decimal := dmax (dmax (dabs left) (dabs right)) (1 # 1000000000000).
Definition relative_error (left right : Decimal) : Decimal := ddiv (dabs (dsub left right)) (scale_of left right).

Definition reconcile_values (left right maximum_relative_error : Decimal) : result (Decimal * Decimal) :=
  let absolute := dabs (dsub left right) in
  let relative := relative_error left right in
  if dltb maximum_relative_error relative then Err (ValueError "cross-source reconciliation mismatch")
  else Ok (absolute, relative).

(** ** Events of a sample *)

(** [event_timing_metrics] *)
Definition seconds_value (us : Z) : Decimal := Qred (fd_value (seconds_decimal us)).

Definition event_timing_metrics (source_endpoint : string) (e : RawMarketEvent) : EventTimingMetrics :=
  let hist := historical (re_timestamp_semantic e) in
  let event_age := match re_exchange_timestamp e with
                   | Some t => if hist then Some (seconds_value (re_received_at e - t)) else None
                   | None => None
                   end in
  let transport := match re_exchange_timestamp e with
                   | Some t => if bool_decide (re_timestamp_semantic e = REALTIME_EVENT)
                               then Some (seconds_value (re_available_at e - t)) else None
                   | None => None
                   end in
  let skew := match re_exchange_server_time e with
              | Some t => if hist then None else Some (seconds_value (re_received_at e - t))
              | None => None
              end in
  {| et_exchange_timestamp := re_exchange_timestamp e; et_received_at := re_received_at e;
     et_available_at := re_available_at e; et_exchange_server_time := re_exchange_server_time e;
     et_event_age_seconds := event_age; et_transport_latency_seconds := transport;
     et_clock_skew_seconds := skew; et_event_id := re_event_id e;
     et_timestamp_semantic := re_timestamp_semantic e;
     et_availability_provenance := re_availability_provenance e; et_source_endpoint := source_endpoint;
     et_raw_payload_sha256 :=
       match re_source_payload_sha256 e with
       | Some s => if nonempty s then s else re_payload_sha256 e
       | None => re_payload_sha256 e
       end;
     et_clock_skew_formula :=
       match skew with Some _ => Some "received_at - exchange_server_time" | None => None end |}.

(** [live_trade_out_of_order_count] *)
Definition stream_key (e : RawMarketEvent) : string * string * string * Z :=
  (re_venue e, re_canonical_instrument_id e, re_channel e, default 0%Z (re_connection_epoch e)).

Definition live_trade (e : RawMarketEvent) : bool :=
  bool_decide (re_event_type e = "trade") && bool_decide (re_timestamp_semantic e = REALTIME_EVENT).

Definition live_streams (events : list RawMarketEvent)
  : list ((string * string * string * Z) * list RawMarketEvent) :=
  fold_left (fun d e =>
    if live_trade e then dict_set (stream_key e) (default [] (dict_get (stream_key e) d) ++ [e]) d else d)
    events [].

(** [str(e.payload().get("trade_id", ""))], and [s.isdecimal()] *)
Definition trade_id_text (e : RawMarketEvent) : result chars :=
  let! p := payload e in
  Ok (match dict_get (text "trade_id") p with Some v => py_str v | None => [] end).
Definition isdecimal (s : chars) : bool := negb (bool_decide (s = [])) && all_digits s.

Definition optional_eqb (a b : option Z) : bool := bool_decide (a = b).

Definition reversed_pair (pair : RawMarketEvent * RawMarketEvent) : result Z :=
  let '(previous, current) := pair in
  if match re_exchange_timestamp previous with
     | Some t => optional_eqb (re_exchange_timestamp current) (Some t)
     | None => false
     end
  then Ok 0%Z
  else
    match re_sequence previous, re_sequence current with
    | Some p, Some c => Ok (if (c <? p)%Z then 1 else 0)%Z
    | _, _ =>
        let! previous_id := trade_id_text previous in
        let! current_id := trade_id_text current in
        if isdecimal previous_id && isdecimal current_id
        then Ok (if (chars_to_N current_id <? chars_to_N previous_id)%N then 1 else 0)%Z
        else
          match re_exchange_timestamp previous, re_exchange_timestamp current with
          | Some p, Some c => Ok (if (c <? p)%Z then 1 else 0)%Z
          | _, _ => Ok 0%Z
          end
    end.

Fixpoint sum_result {A} (f : A -> result Z) (xs : list A) : result Z :=
  match xs with
  | [] => Ok 0%Z
  | x :: xs => let! n := f x in let! rest := sum_result f xs in Ok (n + rest)%Z
  end.

Definition received_leb (a b : RawMarketEvent) : bool := (re_received_at a <=? re_received_at b)%Z.

Definition live_trade_out_of_order_count (events : list RawMarketEvent) : result Z :=
  sum_result (fun stream => sum_result reversed_pair (pairwise (sorted_by received_leb stream.2)))
    (live_streams events).

(** [_timeframe_seconds] *)
Definition timeframe_seconds (value : string) : option Z :=
  match rev (text value) with
  | unit :: ((_ :: _) as digits_) =>
      if all_digits digits_ then
        let n := Z.of_N (chars_to_N (rev digits_)) in
        match ord unit with
        | 109%N => Some (n * 60)%Z
        | 104%N => Some (n * 3600)%Z
        | 100%N => Some (n * 86400)%Z
        | _ => None
        end
      else None
  | _ => None
  end.

(** [ohlcv_time_metrics] *)
Definition sample_timeframe (events : list RawMarketEvent) : option Z :=
  match List.find (fun e => match re_timeframe e with Some s => nonempty s | None => false end) events with
  | Some e => match re_timeframe e with Some s => timeframe_seconds s | None => None end
  | None => None
  end.

Definition ohlcv_time_metrics (events : list RawMarketEvent) (spec : ContractValidationSpec)
  : result (Z * Z * Z) :=
  if negb (bool_decide (sp_capability spec = "ohlcv")) then Ok (0, 0, 0)%Z
  else
    let timestamps := sorted_by Z.leb (omap re_exchange_timestamp events) in
    let now := match map re_received_at events with [] => 0%Z | t :: ts => fold_left Z.max ts t end in
    let future := count (fun t => now + 5 * SECOND_ <? t)%Z timestamps in
    match sample_timeframe events with
    | None => Ok (0%Z, 0%Z, future)
    | Some timeframe =>
        if (timeframe =? 0)%Z && negb (bool_decide (timestamps = []))
        then Err (OtherError "ZeroDivisionError")
        else
          let alignment := count (fun t =>
            negb (float_to_int (total_seconds t) mod timeframe =? 0)%Z) timestamps in
          let missing := fold_left Z.add
            (map (fun p : Z * Z => Z.max 0 (float_to_int (total_seconds (p.2 - p.1)) / timeframe - 1))
               (List.filter (fun p : Z * Z => (p.1 <? p.2)%Z) (pairwise timestamps))) 0%Z in
          Ok (alignment, missing, future)
    end.

End Values.

(** ** Normalization of a sample *)

Section Normalize.
Context {C : DecimalContext} {D : Digest}.

(** A document read from JSON, as [json.dumps(..., sort_keys=True)] writes it *)
Definition float_json (f : pyfloat) : chars :=
  match f with
  | FNaN => text "NaN"
  | FInfinity neg => text (if neg then "-Infinity" else "Infinity")
  | f => repr_float f
  end.
Definition key_order (a b : chars * json) : bool := string_leb (untext a.1) (untext b.1).

Fixpoint sorted_json (v : json) : json :=
  match v with
  | JReal l => JReal (float_json (float_of_literal l))
  | JArray items => JArray (map sorted_json items)
  | JObject fields => JObject (sorted_by key_order (map (fun f => (f.1, sorted_json f.2)) fields))
  | v => v
  end.

(** services/research/models.py: [canonical_sha256] of JSON values *)
Definition canonical_sha256 (v : json) : string := sha256_hex (untext (dumps compact_style (sorted_json v))).

(** services/research/data_operations.py: [canonical_market_event_content] *)
Definition content_keys (event_type : string) : option (list string) :=
  if bool_decide (event_type = "funding_history")
  then Some ["rate"; "funding_rate"; "funding_interval_seconds"; "is_finalized"]
  else if bool_decide (event_type = "ohlcv")
  then Some ["open"; "high"; "low"; "close"; "volume"; "closed"; "timeframe"]
  else if bool_decide (event_type = "trade") then Some ["trade_id"; "price"; "quantity"; "side"]
  else None.

Definition canonical_market_event_content (e : RawMarketEvent) : result string :=
  let! p := payload e in
  Ok (match content_keys (re_event_type e) with
      | None => re_payload_sha256 e
      | Some keys => canonical_sha256 (JObject
          [(text "venue", jstr (re_venue e)); (text "instrument", jstr (re_canonical_instrument_id e));
           (text "event_type", jstr (re_event_type e));
           (text "exchange_timestamp",
            match re_exchange_timestamp e with Some t => jstr (isoformat t) | None => JNull end);
           (text "values", JObject (map (fun k => (text k, get_field p k)) keys))])
      end).

(** The loop of [normalize_certification_events] *)
Fixpoint by_identity (events : list RawMarketEvent) (known : list (string * RawMarketEvent))
    (duplicates collisions : Z) : result (list (string * RawMarketEvent) * Z * Z) :=
  match events with
  | [] => Ok (known, duplicates, collisions)
  | e :: events =>
      match dict_get (re_event_id e) known with
      | None => by_identity events (dict_set (re_event_id e) e known) duplicates collisions
      | Some current =>
          let! a := canonical_market_event_content current in
          let! b := canonical_market_event_content e in
          if bool_decide (a = b) then by_identity events known (duplicates + 1)%Z collisions
          else by_identity events known duplicates (collisions + 1)%Z
      end
  end.

Definition effective_at (e : RawMarketEvent) : Z := default (re_received_at e) (re_exchange_timestamp e).
Definition effective_leb (a b : RawMarketEvent) : bool :=
  (effective_at a <? effective_at b)%Z ||
  (effective_at a =? effective_at b)%Z && string_leb (re_event_id a) (re_event_id b).

Record NormalizedSample := {
  ns_events : list RawMarketEvent;
  ns_duplicates : Z;
  ns_collisions : Z;
  ns_reversed : Z;
}.

Definition normalize_certification_events (events : list RawMarketEvent) (spec : ContractValidationSpec)
  : result NormalizedSample :=
  if negb (historical (sp_timestamp_semantic spec))
  then Ok {| ns_events := events; ns_duplicates := 0; ns_collisions := 0; ns_reversed := 0 |}
  else
    let timestamps := omap re_exchange_timestamp events in
    let reversed := count (fun p : Z * Z => p.2 <? p.1)%Z (pairwise timestamps) in
    let! r := by_identity events [] 0 0 in
    let '(known, duplicates, collisions) := r in
    Ok {| ns_events := sorted_by effective_leb (dict_values known); ns_duplicates := duplicates;
          ns_collisions := collisions; ns_reversed := reversed |}.

(** ** Funding windows *)

(** [payload.get(key, default)] *)
Definition get_default (d : list (chars * json)) (key : string) (v : json) : json :=
  default v (dict_get (text key) d).

Fixpoint finalized_funding (events : list RawMarketEvent) (finalized : list (Z * list (chars * json)))
    (duplicates : Z) : result (list (Z * list (chars * json)) * Z) :=
  match events with
  | [] => Ok (finalized, duplicates)
  | e :: events =>
      let! p := payload e in
      if negb (truthy (get_default p "is_finalized" (JBool true))) ||
         truthy (get_default p "predicted" (JBool false))
      then finalized_funding events finalized duplicates
      else
        match re_exchange_timestamp e with
        | None => finalized_funding events finalized duplicates
        | Some t =>
            if dict_mem t finalized then finalized_funding events finalized (duplicates + 1)%Z
            else finalized_funding events (dict_set t p finalized) duplicates
        end
  end.

(** [int(payload.get("funding_interval_seconds") or fallback)] *)
Definition interval_or (p : list (chars * json)) (fallback : Z) : result Z :=
  let v := get_field p "funding_interval_seconds" in
  if truthy v then py_int v else Ok fallback.

Definition funding_observation (finalized : list (Z * list (chars * json))) (declared : Z) (pair : Z * Z)
  : result FundingIntervalObservation :=
  let '(previous, current) := pair in
  let! previous_expected := interval_or (default [] (dict_get previous finalized)) declared in
  let! expected := interval_or (default [] (dict_get current finalized)) previous_expected in
  let actual := float_to_int (total_seconds (current - previous)) in
  Ok {| fo_previous_effective_at := previous; fo_current_effective_at := current;
        fo_expected_interval_seconds := expected; fo_actual_interval_seconds := actual;
        fo_difference_seconds := actual - expected;
        fo_missing_window_count :=
          if (0 <? expected)%Z && (actual mod expected =? 0)%Z then Z.max 0 (actual / expected - 1) else 0;
        fo_duplicate_window := false;
        fo_schedule_change := negb (expected =? previous_expected)%Z |}.

Definition window_violation (o : FundingIntervalObservation) : bool :=
  (fo_missing_window_count o =? 0)%Z && (300 <? Z.abs (fo_difference_seconds o))%Z.
Definition window_missing (o : FundingIntervalObservation) : bool := negb (fo_missing_window_count o =? 0)%Z.

(** [analyze_funding_intervals] *)
Definition analyze_funding_intervals (events : list RawMarketEvent) (spec : ContractValidationSpec)
  : result FundingIntervalResult :=
  match sp_funding_interval_seconds spec with
  | None =>
      Ok {| fr_observations := []; fr_duplicate_count := 0; fr_missing_window_count := None;
            fr_schedule_change_count := 0; fr_violations := ["funding interval is not declared"];
            fr_insufficiencies := []; fr_window_assessment := "NOT_EVALUATED" |}
  | Some declared =>
      let! r := finalized_funding events [] 0 in
      let '(finalized, duplicates) := r in
      let timestamps := sorted_by Z.leb (dict_keys finalized) in
      let! observations := gather (fun p => let! o := funding_observation finalized declared p in Ok [o])
                             (pairwise timestamps) in
      let few := (size timestamps <? 2)%Z in
      Ok {| fr_observations := observations; fr_duplicate_count := duplicates;
            fr_missing_window_count :=
              if few then None else Some (fold_left Z.add (map fo_missing_window_count observations) 0%Z);
            fr_schedule_change_count := count fo_schedule_change observations;
            fr_violations := dict_fromkeys (map (fun _ => "funding interval mismatch")
                                              (List.filter window_violation observations));
            fr_insufficiencies := dict_fromkeys
              (map (fun _ => "funding history has missing windows") (List.filter window_missing observations) ++
               if few then ["funding window evidence is insufficient"] else []);
            fr_window_assessment := if few then "NOT_EVALUATED" else "EVALUATED" |}
  end.

(** ** Values of a capability *)

Definition has_field (p : list (chars * json)) (key : string) : bool := dict_mem (text key) p.
(** [if b: reasons.append(s)] *)
Definition reason_if (b : bool) (s : string) : list string := if b then [s] else [].

(** The loop body of [validate_funding_current] *)
Definition funding_current_reasons (spec : ContractValidationSpec) (e : RawMarketEvent) : result (list string) :=
  let! p := payload e in
  let rate :=
    if has_field p "rate" || has_field p "funding_rate"
    then normalize_funding_rate (get_field p (if has_field p "rate" then "rate" else "funding_rate"))
           (default EmptyString (sp_funding_unit spec))
    else Err KeyError in
  match rate with
  | Err _ => Ok ["funding rate unit validation failed"]
  | Ok NotANumber => Err invalid_operation
  | Ok rate =>
      let implausible := match rate with Finite q => dltb (1 # 10) (dabs q) | _ => true end in
      let observed := get_field p "funding_interval_seconds" in
      let! interval :=
        match observed with
        | JNull => Ok ["funding interval evidence is missing"]
        | v => let! n := py_int v in
               Ok (reason_if (negb (bool_decide (sp_funding_interval_seconds spec = Some n)))
                     "funding interval mismatch")
        end in
      Ok (reason_if implausible "funding rate magnitude is implausible" ++
          reason_if (negb (has_field p "next_funding_at") && negb (has_field p "next_funding_time"))
            "next funding time is missing" ++
          interval ++
          reason_if (negb (truthy (get_field p "funding_schedule_source"))) "funding schedule source is missing")
  end.

Definition validate_funding_current (events : list RawMarketEvent) (spec : ContractValidationSpec)
  : result (list string) := gather (funding_current_reasons spec) events.

(** [validate_funding_series] *)
Definition validate_funding_series (events : list RawMarketEvent) (spec : ContractValidationSpec) : list string :=
  match sp_funding_interval_seconds spec with
  | None => ["funding interval is not declared"]
  | Some expected =>
      flat_map (fun p : Z * Z =>
        match validate_funding_interval p.1 p.2 expected 300 with
        | Ok _ => [] | Err _ => ["funding interval mismatch"]
        end) (pairwise (sorted_by Z.leb (omap re_exchange_timestamp events)))
  end.

(** *** Order books *)

(** [(Decimal(str(item["price"])), Decimal(str(item["quantity"])))]; [None] for the
    exceptions that are caught *)
Definition book_item (v : json) : option (extended * extended) :=
  match v with
  | JObject d =>
      match dict_get (text "price") d, dict_get (text "quantity") d with
      | Some p, Some q =>
          match read_decimal p, read_decimal q with
          | Some p, Some q => Some (p, q)
          | _, _ => None
          end
      | _, _ => None
      end
  | _ => None
  end.

Fixpoint book_items (items : list json) : option (list (extended * extended)) :=
  match items with
  | [] => Some []
  | v :: items =>
      match book_item v, book_items items with
      | Some l, Some ls => Some (l :: ls)
      | _, _ => None
      end
  end.

Definition book_side (p : list (chars * json)) (side : string) : option (list (extended * extended)) :=
  match dict_get (text side) p with
  | Some (JArray items) => book_items items
  | Some (JString []) | Some (JObject []) => Some []
  | _ => None
  end.

(** [any(quantity <= 0 for ...)] *)
Fixpoint any_result {A} (f : A -> result bool) (xs : list A) : result bool :=
  match xs with
  | [] => Ok false
  | x :: xs => let! b := f x in if b then Ok true else any_result f xs
  end.

(** [sorted(prices)]: two prices or more are compared *)
Definition sorted_prices (le : extended -> extended -> bool) (prices : list extended) : result (list extended) :=
  if (1 <? size prices)%Z && existsb is_nan prices then Err invalid_operation
  else Ok (sorted_by le prices).

(** Tuples are compared item by item, an item being equal to itself. *)
Fixpoint same_prices (a b : list extended) : bool :=
  match a, b with
  | [], [] => true
  | x :: a, y :: b => (ext_eqb x y || is_nan x && is_nan y) && same_prices a b
  | _, _ => false
  end.

(** [len({price for price, _ in side})] *)
Definition distinct_prices (prices : list extended) : Z :=
  size (fold_left (fun acc p => if existsb (ext_eqb p) acc then acc else acc ++ [p]) prices []).

(** The loop body of [validate_order_book_events] *)
Definition order_book_reasons (spec : ContractValidationSpec) (e : RawMarketEvent) : result (list string) :=
  let! p := payload e in
  match book_side p "bids", book_side p "asks" with
  | Some bids, Some asks =>
      match bids, asks with
      | (bid, _) :: _, (ask, _) :: _ =>
          let bid_prices := map fst bids in
          let ask_prices := map fst asks in
          let! non_positive := any_result (fun l : extended * extended => ext_le l.2 (Finite 0)) (bids ++ asks) in
          let! descending := sorted_prices (fun a b => ext_leb b a) bid_prices in
          let! ascending := sorted_prices ext_leb ask_prices in
          let! crossed := ext_le ask bid in
          Ok (reason_if non_positive "order-book quantity is non-positive" ++
              reason_if (negb (same_prices bid_prices descending)) "bids are not descending" ++
              reason_if (negb (same_prices ask_prices ascending)) "asks are not ascending" ++
              reason_if crossed "order-book is crossed or locked" ++
              reason_if (negb (distinct_prices bid_prices =? size bids)%Z ||
                         negb (distinct_prices ask_prices =? size asks)%Z)
                "duplicate order-book price level" ++
              reason_if (negb (bool_decide (re_reconciliation_state e = Some "synchronized")))
                "order-book is not synchronized" ++
              reason_if (bool_decide (sp_venue spec = "hyperliquid") &&
                         negb (bool_decide (sp_snapshot_delta_semantics spec = "snapshot_only")))
                "Hyperliquid order-book semantics must be snapshot_only" ++
              reason_if (bool_decide (sp_venue spec = "bitget") &&
                         negb (bool_decide (sp_snapshot_delta_semantics spec = "snapshot_and_delta")))
                "Bitget order-book semantics must be snapshot_and_delta")
      | _, _ => Ok ["order-book side is empty"]
      end
  | _, _ => Ok ["order-book schema is invalid"]
  end.

Definition validate_order_book_events (events : list RawMarketEvent) (spec : ContractValidationSpec)
  : result (list string) := gather (order_book_reasons spec) events.

End Normalize.

(** ** Metrics *)

Section Metrics.
Context {C : DecimalContext} {D : Digest}.

(** [spec.funding_interval_seconds or max(1, int(seconds / max(1, minimum_event_count)))] *)
Definition sample_interval (spec : ContractValidationSpec) (sample_start sample_end : Z) : Z :=
  let derived := Z.max 1 (float_to_int (fl (total_seconds (sample_end - sample_start) /
                                            inject_Z (Z.max 1 (sp_minimum_event_count spec))))) in
  match sp_funding_interval_seconds spec with
  | Some n => if (n =? 0)%Z then derived else n
  | None => derived
  end.

Definition expected_count (interval sample_start sample_end : Z) : Z :=
  Z.max 1 (float_to_int (fl (total_seconds (sample_end - sample_start) / inject_Z interval)) + 1).

(** [statistics.median] of sorted values *)
Definition median (xs : list Decimal) : option Decimal :=
  let n := length xs in
  if Nat.even n
  then match xs !! (n / 2 - 1)%nat, xs !! (n / 2)%nat with
       | Some a, Some b => Some (ddiv (dadd a b) 2)
       | _, _ => None
       end
  else xs !! (n / 2)%nat.

(** [latencies[min(len - 1, int(len * 0.95))]], [skews[max(0, (95 * len + 99) // 100 - 1)]] *)
Definition p95_latency (xs : list Decimal) : option Decimal :=
  nth_of (Z.min (size xs - 1) (float_to_int (fl (inject_Z (size xs) * fl (95 # 100))))) xs.
Definition p95_skew (xs : list Decimal) : option Decimal :=
  nth_of (Z.max 0 ((95 * size xs + 99) / 100 - 1)) xs.

Definition ratio (a b : Z) : Decimal := ddiv (inject_Z a) (inject_Z b).

Definition milliseconds (d : Decimal) : Decimal := dmul d (inject_Z 1000).

(** [certification_metrics] *)
Definition certification_metrics (events : list RawMarketEvent) (spec : ContractValidationSpec)
    (sample_start sample_end : Z) (cross_source_pairs : list (Decimal * Decimal))
  : result CertificationMetrics :=
  let! sample := normalize_certification_events events spec in
  let normalized := ns_events sample in
  let interval := sample_interval spec sample_start sample_end in
  let expected := expected_count interval sample_start sample_end in
  let unique := size (dict_fromkeys (map (fun e => (re_event_id e, re_payload_sha256 e)) normalized)) in
  let stale := count (fun e => dltb (inject_Z (interval * 2)) (total_seconds (sample_end - re_available_at e)))
                 normalized in
  let ordered := sorted_by received_leb normalized in
  let! out_of_order := live_trade_out_of_order_count ordered in
  let gaps := count (fun p : Z * Z => negb (p.2 =? p.1 + 1)%Z) (pairwise (omap re_sequence ordered)) in
  let timing := map (event_timing_metrics (sp_source_endpoint spec)) normalized in
  let latencies := sorted_by dleb (map milliseconds (omap et_transport_latency_seconds timing)) in
  let clock_skews := sorted_by dleb (map (fun d => dabs (milliseconds d)) (omap et_clock_skew_seconds timing)) in
  let violations := List.filter (fun d => dltb (sp_maximum_clock_skew_ms spec) d) clock_skews in
  let! candles := ohlcv_time_metrics normalized spec in
  let '(candle_alignment, candle_missing, future_timestamps) := candles in
  Ok {| cm_event_count := size normalized;
        cm_coverage_ratio := dmin 1 (ratio unique expected);
        cm_missing_interval_count := Z.max 0 (expected - unique);
        cm_duplicate_ratio := ratio (size events - size normalized) (Z.max 1 (size events));
        cm_stale_ratio := ratio stale (Z.max 1 (size normalized));
        cm_out_of_order_count := out_of_order; cm_sequence_gap_count := gaps;
        cm_median_latency_ms := median latencies; cm_p95_latency_ms := p95_latency latencies;
        cm_maximum_latency_ms := max_of latencies; cm_maximum_clock_skew_ms := max_of clock_skews;
        cm_cross_source_absolute_error :=
          max_of (map (fun p : Decimal * Decimal => dabs (dsub p.1 p.2)) cross_source_pairs);
        cm_cross_source_relative_error :=
          max_of (map (fun p : Decimal * Decimal => relative_error p.1 p.2) cross_source_pairs);
        cm_live_out_of_order_count := out_of_order;
        cm_historical_source_order_reversed := ns_reversed sample;
        cm_historical_duplicate_count := ns_duplicates sample;
        cm_historical_timestamp_collision_count := ns_collisions sample;
        cm_clock_skew_unknown_count :=
          count (fun t => bool_decide (et_clock_skew_seconds t = None)) timing;
        cm_clock_skew_known_sample_count := size clock_skews;
        cm_clock_skew_violation_count := size violations;
        cm_clock_skew_violation_ratio :=
          match clock_skews with [] => None | _ => Some (ratio (size violations) (size clock_skews)) end;
        cm_median_clock_skew_ms := median clock_skews; cm_p95_clock_skew_ms := p95_skew clock_skews;
        cm_clock_skew_threshold_ms := Qred (sp_maximum_clock_skew_ms spec);
        cm_clock_skew_minimum_sample_count := sp_minimum_clock_skew_sample_count spec;
        cm_clock_skew_maximum_violation_ratio := Qred (sp_maximum_clock_skew_violation_ratio spec);
        cm_candle_interval_alignment_violation_count := candle_alignment;
        cm_candle_missing_count := candle_missing; cm_future_timestamp_count := future_timestamps;
        cm_timing := timing |}.

(** ** Verdicts on parts of the evidence *)

(** [_validate_events]: the failures and the insufficiencies of one event *)
Definition ohlcv_reasons (p : list (chars * json)) : result (list string) :=
  let field key := match dict_get (text key) p with Some v => read_decimal v | None => None end in
  match field "open", field "high", field "low", field "close", field "volume" with
  | Some opened, Some high, Some low, Some closed, Some volume =>
      let! top := ext_max opened closed in
      let! below_top := ext_lt high top in
      let! broken :=
        if below_top then Ok true
        else let! bottom := ext_min opened closed in
             let! above_bottom := ext_lt bottom low in
             if above_bottom then Ok true else ext_lt high low in
      let! negative := ext_lt volume (Finite 0) in
      Ok (reason_if broken "OHLCV structure is invalid" ++ reason_if negative "OHLCV volume is negative")
  | _, _, _, _, _ => Ok ["OHLCV value domain is invalid"]
  end.

Definition missing_fields (spec : ContractValidationSpec) (p : list (chars * json)) : list string :=
  List.filter (fun name => negb (has_field p name)) (sp_response_fields spec).

Definition event_reasons (spec : ContractValidationSpec) (sample_end : Z) (e : RawMarketEvent)
  : result (list string * list string) :=
  let! p := payload e in
  let missing := missing_fields spec p in
  let! ohlcv := if bool_decide (sp_capability spec = "ohlcv") then ohlcv_reasons p else Ok [] in
  Ok (reason_if (re_available_at e <? re_received_at e)%Z "available_at precedes received_at" ++
      reason_if (match re_exchange_timestamp e with
                 | Some t => (re_received_at e + 5 * SECOND_ <? t)%Z
                 | None => false
                 end) "future exchange timestamp" ++
      reason_if (sample_end <? re_available_at e)%Z "event became available after sample end" ++
      reason_if (negb (bool_decide (re_timestamp_semantic e = sp_timestamp_semantic spec)))
        "timestamp semantic does not match capability contract" ++
      reason_if (negb (bool_decide (missing = [])))
        ("response fields missing: " +:+ String.concat "," missing) ++
      ohlcv,
      reason_if (bool_decide (sp_capability spec = "trade") && negb (truthy (get_field p "trade_id")))
        "exchange trade id unavailable; uniqueness is not proven").

Fixpoint validate_events (spec : ContractValidationSpec) (sample_end : Z) (events : list RawMarketEvent)
  : result (list string * list string) :=
  match events with
  | [] => Ok ([], [])
  | e :: events =>
      let! r := event_reasons spec sample_end e in
      let! rest := validate_events spec sample_end events in
      Ok (r.1 ++ rest.1, r.2 ++ rest.2)
  end.

(** [any(token in reason for reason in lowered for token in tokens)] *)
Definition mentions (lowered tokens : list string) : bool :=
  existsb (fun reason => existsb (fun token => contains token reason) tokens) lowered.

Definition capability_contract_verdict (failures : list string) : CapabilityContractVerdict :=
  let lowered := map lower_string failures in
  {| cv_schema_valid := negb (mentions lowered ["schema"; "response fields missing"; "contract metadata"; "fixture"]);
     cv_units_valid := negb (mentions lowered ["unit"]);
     cv_timestamp_semantic_valid :=
       negb (mentions lowered ["timestamp semantic"; "future exchange timestamp"; "timestamp unit"]);
     cv_value_domain_valid :=
       negb (mentions lowered ["value domain"; "ohlcv structure"; "negative"; "magnitude"; "sign"]);
     cv_source_identity_valid := negb (mentions lowered ["source identity"]) |}.

(** [historical_research_usability] *)
Definition proven (p : AvailabilityProvenance) : bool :=
  bool_decide (p ∈ [HISTORICAL_EFFECTIVE_TIME; EXCHANGE_PUBLISHED_TIME]).

Definition common_provenance (events : list RawMarketEvent) : AvailabilityProvenance :=
  match events with
  | [] => UNKNOWN
  | e :: _ => if forallb (fun i => bool_decide (re_availability_provenance i = re_availability_provenance e)) events
              then re_availability_provenance e else UNKNOWN
  end.

Definition historical_research_usability (events : list RawMarketEvent) (spec : ContractValidationSpec)
  : option HistoricalResearchUsability :=
  if negb (historical (sp_timestamp_semantic spec)) then None
  else
    let proven_events := List.filter (fun e => proven (re_availability_provenance e)) events in
    let provenance := common_provenance events in
    Some (if negb (bool_decide (length events = 0%nat)) && (length proven_events =? length events)%nat
          then {| hu_point_in_time_available := Some true; hu_availability_provenance := provenance;
                  hu_verdict := VERDICT_PASS; hu_reasons := [] |}
          else {| hu_point_in_time_available := None; hu_availability_provenance := provenance;
                  hu_verdict := VERDICT_INSUFFICIENT_EVIDENCE;
                  hu_reasons := [if bool_decide (length events = 0%nat) then "historical event count is zero"
                                 else "historical availability is not point-in-time proven"] |}).

(** [validate_certification_reason_invariants] *)
Definition skew_exceeded (metrics : CertificationMetrics) : bool :=
  (cm_clock_skew_minimum_sample_count metrics <=? cm_clock_skew_known_sample_count metrics)%Z &&
  (0 <? cm_clock_skew_violation_count metrics)%Z &&
  match cm_clock_skew_violation_ratio metrics with
  | Some r => dltb (cm_clock_skew_maximum_violation_ratio metrics) r
  | None => false
  end.

Definition contradictions (reasons : list string) (metrics : CertificationMetrics)
    (funding_interval : option FundingIntervalResult) : list string :=
  let lowered := map lower_string reasons in
  reason_if (mentions lowered ["out-of-order"] && (cm_live_out_of_order_count metrics <=? 0)%Z)
    "out-of-order reason requires live_out_of_order_count > 0" ++
  reason_if (mentions lowered ["clock skew above"] && negb (skew_exceeded metrics))
    "clock skew reason requires minimum samples and violation ratio above threshold" ++
  reason_if (mentions lowered ["interval mismatch"] &&
             match funding_interval with
             | None => true
             | Some r => negb (mentions (map lower_string (fr_violations r)) ["interval mismatch"])
             end)
    "interval mismatch reason requires an interval violation".

Definition validate_certification_reason_invariants (reasons : list string) (metrics : CertificationMetrics)
    (funding_interval : option FundingIntervalResult) : result unit :=
  match contradictions reasons metrics funding_interval with
  | [] => Ok tt
  | found => Err (ValueError ("certification metric/reason invariant failed: " +:+ String.concat "; " found))
  end.

End Metrics.
