(* ===== verification/CertificationService.v ===== *)
(** * Certification of market data (services/research/certification.py)

    The service that judges a sample of events and stores the judgement with its evidence,
    the promotion of a certified capability to a trusted one, the gate of production
    events, and the readiness for strict paper trading.  The store is an interface
    ([CertificationRepository], the Protocol of the code) with the in-memory
    implementation; the text whose SHA-256 is the manifest hash is a parameter. *)

From Stdlib Require Import ZArith QArith Qround Qabs NArith Lia.
From stdpp Require Import base tactics list strings.
From S2P Require Import Prelude Decimals Binary64 Evidence Json PyText FundingCarry Venues ShadowBook Certification.

Local Open Scope string_scope.
Local Open Scope list_scope.

(** ** Data *)

Record MarketDataCertification := {
  mc_certification_id : string;
  mc_venue : string;
  mc_capability : string;
  mc_canonical_instrument_id : string;
  mc_adapter_version : string;
  mc_commit_sha : string;
  mc_source_version : string;
  mc_contract_fixture_sha256 : string;
  mc_sample_start : Z;
  mc_sample_end : Z;
  mc_event_count : Z;
  mc_verdict : CertificationVerdict;
  mc_verified_at : Z;
  mc_expires_at : Z;
  mc_evidence_manifest_sha256 : string;
  mc_reasons : list string;
}.

(** [__post_init__] *)
Definition MarketDataCertification_validate (c : MarketDataCertification) : result MarketDataCertification :=
  require! bool_decide (mc_venue c ∈ SUPPORTED_CERTIFICATION_VENUES)
    else ValueError "certification venue is outside the R4 allowlist";
  require! bool_decide (mc_canonical_instrument_id c ∈ SUPPORTED_CERTIFICATION_INSTRUMENTS)
    else ValueError "certification instrument is outside the R4 allowlist";
  require! (String.length (mc_commit_sha c) =? 40)%nat && (String.length (mc_contract_fixture_sha256 c) =? 64)%nat
    else ValueError "certification source hashes are invalid";
  require! (String.length (mc_evidence_manifest_sha256 c) =? 64)%nat
    else ValueError "evidence manifest hash is invalid";
  require! (mc_sample_start c <=? mc_sample_end c)%Z && (mc_sample_end c <=? mc_verified_at c)%Z &&
           (mc_verified_at c <=? mc_expires_at c)%Z
    else ValueError "certification timestamps are not monotonic";
  Ok c.

Record CertificationEvidence := {
  ce_certification_id : string;
  ce_metrics : CertificationMetrics;
  ce_event_manifest : list (string * string);
  ce_contract_passed : bool;
  ce_normalization_passed : bool;
  ce_live_smoke_passed : bool;
  ce_reconciliation_passed : bool;
  ce_audit_passed : bool;
  ce_audit_run_id : string;
  ce_ci_run_id : string;
  ce_manifest_sha256 : string;
  ce_audit_artifact_sha256 : string;
  ce_funding_interval : option FundingIntervalResult;
  ce_capability_contract : option CapabilityContractVerdict;
  ce_historical_research_usability : option HistoricalResearchUsability;
}.

#[local] Instance decimal_eq_dec : EqDecision Q.
Proof. solve_decision. Defined.
#[export] Instance contract_verdict_eq_dec : EqDecision CapabilityContractVerdict.
Proof. solve_decision. Defined.
#[export] Instance usability_eq_dec : EqDecision HistoricalResearchUsability.
Proof. solve_decision. Defined.
#[export] Instance timing_eq_dec : EqDecision EventTimingMetrics.
Proof. solve_decision. Defined.
#[export] Instance observation_eq_dec : EqDecision FundingIntervalObservation.
Proof. solve_decision. Defined.
#[export] Instance interval_result_eq_dec : EqDecision FundingIntervalResult.
Proof. solve_decision. Defined.
#[export] Instance metrics_eq_dec : EqDecision CertificationMetrics.
Proof. solve_decision. Defined.
#[export] Instance certification_eq_dec : EqDecision MarketDataCertification.
Proof. solve_decision. Defined.
#[export] Instance evidence_eq_dec : EqDecision CertificationEvidence.
Proof. solve_decision. Defined.
#[export] Instance trusted_record_eq_dec : EqDecision TrustedCapabilityRecord.
Proof. solve_decision. Defined.

(** ** The store *)

Class CertificationRepository (R : Type) := {
  certification_save : MarketDataCertification -> CertificationEvidence -> M R unit;
  certification_get : string -> M R (option (MarketDataCertification * CertificationEvidence));
  certification_list : M R (list MarketDataCertification);
  certification_save_promotion : string -> string -> TrustedCapabilityRecord -> M R unit;
}.

(** *** [InMemoryCertificationRepository] *)

Record InMemoryCertifications := {
  ic_records : list (string * (MarketDataCertification * CertificationEvidence));
  ic_promotions : list (string * TrustedCapabilityRecord);
}.

Definition memory_save_certification (c : MarketDataCertification) (e : CertificationEvidence)
  : M InMemoryCertifications unit := fun r =>
  if negb (bool_decide (ce_certification_id e = mc_certification_id c))
  then (r, Err (ValueError "certification evidence identity mismatch"))
  else
    match dict_get (mc_certification_id c) (ic_records r) with
    | Some current =>
        if bool_decide (current = (c, e))
        then ({| ic_records := dict_set (mc_certification_id c) (c, e) (ic_records r);
                 ic_promotions := ic_promotions r |}, Ok tt)
        else (r, Err (ValueError "certification is immutable"))
    | None => ({| ic_records := dict_set (mc_certification_id c) (c, e) (ic_records r);
                  ic_promotions := ic_promotions r |}, Ok tt)
    end.

Definition memory_get_certification (id : string)
  : M InMemoryCertifications (option (MarketDataCertification * CertificationEvidence)) := fun r =>
  (r, Ok (dict_get id (ic_records r))).

Definition memory_list_certifications : M InMemoryCertifications (list MarketDataCertification) := fun r =>
  (r, Ok (map fst (dict_values (ic_records r)))).

Definition memory_save_promotion (id instrument : string) (record : TrustedCapabilityRecord)
  : M InMemoryCertifications unit := fun r =>
  let stored := ({| ic_records := ic_records r;
                    ic_promotions := dict_set id record (ic_promotions r) |}, Ok tt) in
  if negb (bool_decide (tc_canonical_instrument_id record = instrument))
  then (r, Err (ValueError "promotion instrument mismatch"))
  else
    match dict_get id (ic_promotions r) with
    | Some current => if bool_decide (current = record) then stored
                      else (r, Err (ValueError "promotion is immutable"))
    | None => stored
    end.

#[export] Instance memory_certifications : CertificationRepository InMemoryCertifications := {|
  certification_save := memory_save_certification;
  certification_get := memory_get_certification;
  certification_list := memory_list_certifications;
  certification_save_promotion := memory_save_promotion |}.

(** ** The service *)

(** The canonical JSON of the certification id, the spec, the event manifest, the metrics,
    the commit and the adapter version. *)
Class CertificationJson := manifest_text :
  string -> ContractValidationSpec -> list (string * string) -> CertificationMetrics -> string -> string -> string.

Record CertificationService := {
  cs_commit_sha : string;
  cs_adapter_version : string;
  cs_source_version : string;
  cs_certification_ttl : Z;
}.

Section Service.
Context {C : DecimalContext} {D : Digest} {J : CertificationJson} {R : Type} {S : CertificationRepository R}.

Definition sampled (spec : ContractValidationSpec) (start end_ : Z) (e : RawMarketEvent) : bool :=
  bool_decide (re_venue e = sp_venue spec) &&
  bool_decide (re_canonical_instrument_id e = sp_canonical_instrument_id spec) &&
  bool_decide (dict_get (re_event_type e) EVENT_CAPABILITY = Some (sp_capability spec)) &&
  (start <=? re_received_at e)%Z && (re_received_at e <=? end_)%Z.

Definition reconciliation_missing (spec : ContractValidationSpec) (pairs : list (Decimal * Decimal)) : bool :=
  bool_decide (sp_capability spec ∈ ["funding_current"; "mark_price"; "ohlcv"]) && bool_decide (length pairs = 0%nat).

(** The insufficiencies that metrics show. *)
Definition metric_insufficiencies (spec : ContractValidationSpec) (pairs : list (Decimal * Decimal))
    (m : CertificationMetrics) : list string :=
  reason_if (reconciliation_missing spec pairs) "cross-source reconciliation evidence is missing" ++
  reason_if (cm_event_count m <? sp_minimum_event_count spec)%Z "minimum event count not reached" ++
  reason_if (dltb (cm_coverage_ratio m) (sp_minimum_coverage_ratio spec)) "coverage ratio below threshold" ++
  reason_if (dltb (sp_maximum_stale_ratio spec) (cm_stale_ratio m)) "stale ratio above threshold" ++
  reason_if ((cm_clock_skew_known_sample_count m <? sp_minimum_clock_skew_sample_count spec)%Z &&
             negb (bool_decide (sp_timestamp_semantic spec ∈ [CANDLE_OPEN_TIME; CANDLE_CLOSE_TIME])))
    "exchange server time unavailable".

Definition skew_above (spec : ContractValidationSpec) (m : CertificationMetrics) : bool :=
  (sp_minimum_clock_skew_sample_count spec <=? cm_clock_skew_known_sample_count m)%Z &&
  match cm_clock_skew_violation_ratio m with
  | Some r => dltb (sp_maximum_clock_skew_violation_ratio spec) r
  | None => false
  end.

Definition relative_above (spec : ContractValidationSpec) (m : CertificationMetrics) : bool :=
  match cm_cross_source_relative_error m, sp_maximum_absolute_error spec with
  | Some r, None => dltb (sp_maximum_relative_error spec) r
  | _, _ => false
  end.
Definition absolute_above (spec : ContractValidationSpec) (m : CertificationMetrics) : bool :=
  match cm_cross_source_absolute_error m, sp_maximum_absolute_error spec with
  | Some a, Some limit => dltb limit a
  | _, _ => false
  end.

(** The failures that metrics show. *)
Definition metric_failures (spec : ContractValidationSpec) (m : CertificationMetrics) : list string :=
  reason_if (skew_above spec m) "clock skew above threshold" ++
  reason_if (0 <? cm_live_out_of_order_count m)%Z "live out-of-order events detected" ++
  reason_if (relative_above spec m) "cross-source relative error above threshold" ++
  reason_if (absolute_above spec m) "cross-source absolute error above threshold".

Definition verdict_of (failures insufficiencies : list string) (events : list RawMarketEvent)
  : CertificationVerdict :=
  match failures, events, insufficiencies with
  | _ :: _, _, _ => VERDICT_FAIL
  | [], [], _ | [], _, _ :: _ => VERDICT_INSUFFICIENT_EVIDENCE
  | [], _ :: _, [] => VERDICT_PASS
  end.

Definition manifest_leb (a b : string * string) : bool := pair_leb a b.

Record CertifyRequest := {
  cq_certification_id : string;
  cq_spec : ContractValidationSpec;
  cq_events : list RawMarketEvent;
  cq_sample_start : Z;
  cq_sample_end : Z;
  cq_cross_source_pairs : list (Decimal * Decimal);
  cq_audit_passed : bool;
  cq_audit_run_id : string;
  cq_ci_run_id : string;
  cq_audit_artifact_sha256 : string;
}.

(** What [certify] finds in a sample. *)
Record Assessment := {
  as_normalized : list RawMarketEvent;
  as_metrics : CertificationMetrics;
  as_event_failures : list string;
  as_failures : list string;
  as_insufficiencies : list string;
  as_funding_interval : option FundingIntervalResult;
}.

Definition assess (files : string -> option string) (q : CertifyRequest) : result Assessment :=
  let spec := cq_spec q in
  let selected := List.filter (sampled spec (cq_sample_start q) (cq_sample_end q)) (cq_events q) in
  let! sample := normalize_certification_events selected spec in
  let normalized := ns_events sample in
  let! event_reasons := validate_events spec (cq_sample_end q) normalized in
  let! metrics := certification_metrics selected spec (cq_sample_start q) (cq_sample_end q)
                    (cq_cross_source_pairs q) in
  let! current := if bool_decide (sp_capability spec = "funding_current")
                  then validate_funding_current normalized spec else Ok [] in
  let! funding := if bool_decide (sp_capability spec = "funding_history")
                  then let! r := analyze_funding_intervals normalized spec in Ok (Some r) else Ok None in
  let! books := if bool_decide (sp_capability spec ∈ ["orderbook_snapshot"; "orderbook_delta"])
                then validate_order_book_events normalized spec else Ok [] in
  Ok {| as_normalized := normalized; as_metrics := metrics; as_event_failures := event_reasons.1;
        as_failures := spec_validate spec files ++ event_reasons.1 ++ metric_failures spec metrics ++ current ++
                       match funding with Some r => fr_violations r | None => [] end ++ books;
        as_insufficiencies := event_reasons.2 ++ metric_insufficiencies spec (cq_cross_source_pairs q) metrics ++
                              match funding with Some r => fr_insufficiencies r | None => [] end;
        as_funding_interval := funding |}.

Definition certification_of (self : CertificationService) (q : CertifyRequest) (a : Assessment)
    (manifest_hash : string) : MarketDataCertification := {|
  mc_certification_id := cq_certification_id q; mc_venue := sp_venue (cq_spec q);
  mc_capability := sp_capability (cq_spec q);
  mc_canonical_instrument_id := sp_canonical_instrument_id (cq_spec q);
  mc_adapter_version := cs_adapter_version self; mc_commit_sha := cs_commit_sha self;
  mc_source_version := cs_source_version self; mc_contract_fixture_sha256 := sp_fixture_sha256 (cq_spec q);
  mc_sample_start := cq_sample_start q; mc_sample_end := cq_sample_end q;
  mc_event_count := size (as_normalized a);
  mc_verdict := verdict_of (as_failures a) (as_insufficiencies a) (as_normalized a);
  mc_verified_at := cq_sample_end q; mc_expires_at := cq_sample_end q + cs_certification_ttl self;
  mc_evidence_manifest_sha256 := manifest_hash;
  mc_reasons := dict_fromkeys (as_failures a ++ as_insufficiencies a) |}.

Definition evidence_of (files : string -> option string) (q : CertifyRequest) (a : Assessment)
    (manifest : list (string * string)) (manifest_hash : string) : CertificationEvidence := {|
  ce_certification_id := cq_certification_id q; ce_metrics := as_metrics a; ce_event_manifest := manifest;
  ce_contract_passed := bool_decide (spec_validate (cq_spec q) files = []);
  ce_normalization_passed := sp_normalization_test_passed (cq_spec q);
  ce_live_smoke_passed := negb (bool_decide (length (as_normalized a) = 0%nat)) &&
    bool_decide (as_event_failures a = []) && negb (historical (sp_timestamp_semantic (cq_spec q)));
  ce_reconciliation_passed := negb (reconciliation_missing (cq_spec q) (cq_cross_source_pairs q)) &&
    negb (existsb (contains "cross-source") (as_failures a));
  ce_audit_passed := cq_audit_passed q; ce_audit_run_id := cq_audit_run_id q;
  ce_ci_run_id := cq_ci_run_id q; ce_manifest_sha256 := manifest_hash;
  ce_audit_artifact_sha256 := cq_audit_artifact_sha256 q;
  ce_funding_interval := as_funding_interval a;
  ce_capability_contract := Some (capability_contract_verdict (as_failures a));
  ce_historical_research_usability := historical_research_usability (as_normalized a) (cq_spec q) |}.

(** [certify] *)
Definition certify (self : CertificationService) (files : string -> option string) (q : CertifyRequest)
  : M R MarketDataCertification :=
  do! a <- plift (assess files q);
  run! plift (validate_certification_reason_invariants
                (dict_fromkeys (as_failures a ++ as_insufficiencies a)) (as_metrics a) (as_funding_interval a));
  let manifest := sorted_by manifest_leb (map (fun e => (re_event_id e, re_payload_sha256 e)) (as_normalized a)) in
  let manifest_hash := sha256_hex (manifest_text (cq_certification_id q) (cq_spec q) manifest (as_metrics a)
                                     (cs_commit_sha self) (cs_adapter_version self)) in
  do! c <- plift (MarketDataCertification_validate (certification_of self q a manifest_hash));
  run! certification_save c (evidence_of files q a manifest manifest_hash);
  pret c.

(** ** Promotion *)

Record PromotionService := {
  ps_commit_sha : string;
  ps_adapter_version : string;
}.

Definition promotion_record (c : MarketDataCertification) (e : CertificationEvidence) : TrustedCapabilityRecord := {|
  tc_venue := mc_venue c; tc_capability := mc_capability c; tc_support := LIVE_VERIFIED;
  tc_verification_run_id := mc_certification_id c; tc_verified_at := mc_verified_at c;
  tc_expires_at := mc_expires_at c; tc_adapter_version := mc_adapter_version c;
  tc_source_version := mc_source_version c; tc_contract_fixture_sha256 := mc_contract_fixture_sha256 c;
  tc_audit_run_id := ce_audit_run_id e; tc_canonical_instrument_id := mc_canonical_instrument_id c |}.

Definition evidence_complete (e : CertificationEvidence) : bool :=
  ce_contract_passed e && ce_normalization_passed e && ce_live_smoke_passed e && ce_reconciliation_passed e &&
  ce_audit_passed e && nonempty (ce_audit_run_id e) && nonempty (ce_ci_run_id e) &&
  (String.length (ce_audit_artifact_sha256 e) =? 64)%nat.

(** [promote]; [now] is read from the clock *)
Definition promote (self : PromotionService) (now : Z) (c : MarketDataCertification)
  : M R TrustedCapabilityRecord :=
  do! stored <- certification_get (mc_certification_id c);
  match stored with
  | Some (c', e) =>
      let check :=
        require! bool_decide (c' = c) else ValueError "certification is not repository-trusted";
        require! bool_decide (mc_verdict c = VERDICT_PASS)
          else ValueError "failed or insufficient certification cannot be promoted";
        require! bool_decide (mc_commit_sha c = ps_commit_sha self)
          else ValueError "certification commit SHA mismatch";
        require! bool_decide (mc_adapter_version c = ps_adapter_version self)
          else ValueError "certification adapter version mismatch";
        require! (mc_verified_at c <=? now)%Z && (now <=? mc_expires_at c)%Z
          else ValueError "certification is expired or future-dated";
        require! bool_decide (ce_manifest_sha256 e = mc_evidence_manifest_sha256 c)
          else ValueError "evidence manifest hash mismatch";
        require! evidence_complete e else ValueError "certification evidence gates are incomplete";
        Ok tt in
      run! plift check;
      let record := promotion_record c e in
      run! certification_save_promotion (mc_certification_id c) (mc_canonical_instrument_id c) record;
      pret record
  | None => praise (ValueError "certification is not repository-trusted")
  end.

End Service.

(** ** The gate of production events *)

(** [ProductionEventCertificationGate.require] *)
Definition gate_require (e : RawMarketEvent) (c : MarketDataCertification) (record : TrustedCapabilityRecord)
    (adapter_version : string) (now : Z) : result unit :=
  require! bool_decide (re_venue e = mc_venue c) && bool_decide (mc_venue c = tc_venue record) &&
           bool_decide (dict_get (re_event_type e) EVENT_CAPABILITY = Some (mc_capability c)) &&
           bool_decide (mc_capability c = tc_capability record) &&
           bool_decide (re_canonical_instrument_id e = mc_canonical_instrument_id c) &&
           bool_decide (mc_canonical_instrument_id c = tc_canonical_instrument_id record) &&
           bool_decide (mc_certification_id c = tc_verification_run_id record) &&
           bool_decide (mc_adapter_version c = adapter_version) &&
           bool_decide (adapter_version = tc_adapter_version record)
    else ValueError "production event does not exactly match certified identity";
  require! bool_decide (mc_verdict c = VERDICT_PASS) else ValueError "production event certification is not PASS";
  require! (mc_verified_at c <=? now)%Z && (now <=? mc_expires_at c)%Z
    else ValueError "production event certification is expired";
  Ok tt.

(** ** Readiness *)

Definition evaluate_strict_paper_readiness (capabilities_live_verified snapshot_eligible research_completed
    strategy_eligible instrument_rules_complete paper_risk_enabled observation_candidate_exists : bool)
  : StrictPaperReadiness :=
  if capabilities_live_verified && snapshot_eligible && research_completed && strategy_eligible &&
     instrument_rules_complete && paper_risk_enabled && observation_candidate_exists
  then READY_FOR_OPERATOR_APPROVAL else NOT_READY.

Definition require_operator_approval (readiness : StrictPaperReadiness) (operator_approved : bool) : result unit :=
  require! bool_decide (readiness = READY_FOR_OPERATOR_APPROVAL)
    else ValueError "strict paper readiness gate has not passed";
  require! operator_approved else ValueError "strict paper requires explicit operator approval";
  Ok tt.
