(* ===== verification/CertificationSafety.v ===== *)
(** * Theorems on certification

    What a passed certification shows of its sample, what a trusted capability rests on,
    and the bounds of the metrics. *)

From Stdlib Require Import ZArith QArith Qround Qabs NArith Sorted Lia Lqa.
From stdpp Require Import base tactics sets list sorting strings.
From S2P Require Import Prelude Decimals Binary64 Evidence Json PyText FundingCarry Venues ShadowBook.
From S2P Require Import Certification CertificationService.

Local Open Scope string_scope.
Local Open Scope list_scope.

(** ** Lists of reasons *)

Lemma reason_if_nil b s : reason_if b s = [] <-> b = false.
Proof. by destruct b. Qed.

Lemma gather_elem_of {A B} (f : A -> result (list B)) xs ys :
  gather f xs = Ok ys -> forall z, z ∈ ys <-> exists x zs, x ∈ xs /\ f x = Ok zs /\ z ∈ zs.
Proof.
  revert ys. induction xs as [|y xs IH]; intros ys; simpl.
  { intros [= <-] z. split; [by intros ?%not_elem_of_nil|]. by intros (x & _ & ?%not_elem_of_nil & _). }
  intros (us & Hy & (rest & Hrest & [= <-])%rbind_ok)%rbind_ok z. rewrite elem_of_app, (IH rest Hrest z). split.
  - intros [Hz|(x & zs & Hx & Hf & Hz)]; [exists y, us|exists x, zs]; split_and!; try done; [by left|by right].
  - intros (x & zs & Hx & Hf & Hz). apply elem_of_cons in Hx as [->|Hx]; [left; congruence|eauto 6].
Qed.

Lemma gather_defined {A B} (f : A -> result (list B)) xs ys x :
  gather f xs = Ok ys -> x ∈ xs -> exists zs, f x = Ok zs.
Proof.
  revert ys. induction xs as [|y xs IH]; intros ys; simpl; [by intros _ ?%not_elem_of_nil|].
  intros (us & Hy & (rest & Hrest & [= <-])%rbind_ok)%rbind_ok [->|Hx]%elem_of_cons; eauto.
Qed.

Lemma gather_nil {A B} (f : A -> result (list B)) xs :
  gather f xs = Ok [] <-> Forall (fun x => f x = Ok []) xs.
Proof.
  induction xs as [|x xs IH]; simpl; [by split|]. rewrite Forall_cons, <- IH.
  destruct (f x) as [ys|e]; simpl; [|split; [done|by intros [? _]]].
  destruct (gather f xs) as [zs|e]; simpl; [|split; [done|by intros [_ ?]]].
  split; [intros [= [-> ->]%app_eq_nil]; done|]. by intros [[= ->] [= ->]].
Qed.

Lemma dict_fromkeys_elem {A} `{EqDecision A} (x : A) xs : x ∈ dict_fromkeys xs <-> x ∈ xs.
Proof.
  unfold dict_fromkeys. enough (forall acc, x ∈ fold_left (fun acc y => if bool_decide (y ∈ acc) then acc else acc ++ [y]) xs acc
    <-> x ∈ acc \/ x ∈ xs) as H by (rewrite H; set_solver).
  induction xs as [|y xs IH]; intros acc; simpl; [set_solver|].
  rewrite IH. case_bool_decide; set_solver.
Qed.

Lemma dict_fromkeys_NoDup {A} `{EqDecision A} (xs : list A) : NoDup (dict_fromkeys xs).
Proof.
  unfold dict_fromkeys. enough (forall acc, NoDup acc ->
    NoDup (fold_left (fun acc x => if bool_decide (x ∈ acc) then acc else acc ++ [x]) xs acc)) as H by by apply H; constructor.
  induction xs as [|x xs IH]; intros acc Ha; simpl; [done|]. apply IH. case_bool_decide; [done|].
  apply NoDup_app. split_and!; [done|set_solver|apply NoDup_singleton].
Qed.

Lemma dict_mem_spec {K V} `{EqDecision K} (k : K) (d : list (K * V)) : dict_mem k d = true <-> is_Some (dict_get k d).
Proof. unfold dict_mem. destruct (dict_get k d); simpl; [|by split; [|intros []]]. by split; [eexists|]. Qed.

Lemma string_ne_or (s t : string) (P : Prop) : s <> t \/ P <-> (s = t -> P).
Proof. destruct (decide (s = t)); tauto. Qed.

(** ** The order of extended decimals *)

Lemma ext_leb_refl a : is_nan a = false -> ext_leb a a = true.
Proof. destruct a as [q|[]|]; try done. intros _. apply dleb_le. apply Qle_refl. Qed.

Lemma ext_leb_total a b : is_nan a = false -> is_nan b = false -> ext_leb a b = false -> ext_leb b a = true.
Proof.
  destruct a as [q|[]|], b as [q'|[]|]; try done. simpl. intros _ _ H.
  apply dleb_gt in H. apply dleb_le. by apply Qlt_le_weak.
Qed.

Lemma ext_leb_trans a b c : is_nan b = false -> ext_leb a b = true -> ext_leb b c = true -> ext_leb a c = true.
Proof.
  destruct a as [q|[]|], b as [q'|[]|], c as [q''|[]|]; try done. simpl. intros _ H1 H2.
  apply dleb_le in H1, H2. apply dleb_le. by eapply Qle_trans.
Qed.

Lemma ext_lt_ok a b r : ext_lt a b = Ok r <-> is_nan a = false /\ is_nan b = false /\ r = negb (ext_leb b a).
Proof. unfold ext_lt. destruct (is_nan a), (is_nan b); simpl; naive_solver. Qed.

Lemma ext_le_ok a b r : ext_le a b = Ok r <-> is_nan a = false /\ is_nan b = false /\ r = ext_leb a b.
Proof. unfold ext_le. destruct (is_nan a), (is_nan b); simpl; naive_solver. Qed.

Lemma ext_leb_number a b : ext_leb a b = true -> is_nan a = false /\ is_nan b = false.
Proof. by destruct a as [q|[]|], b as [q'|[]|]. Qed.

(** The larger of two numbers is the one whose upper bounds bound both, dually the smaller. *)
Lemma ext_max_ok a b m :
  ext_max a b = Ok m ->
  is_nan a = false /\ is_nan b = false /\ is_nan m = false /\
  forall x, ext_leb m x = true <-> ext_leb a x = true /\ ext_leb b x = true.
Proof.
  unfold ext_max. intros (r & (Ha & Hb & ->)%ext_lt_ok & [= <-])%rbind_ok.
  destruct (ext_leb b a) eqn:E; simpl; split_and!; try done; intros x; split;
    naive_solver eauto using ext_leb_trans, ext_leb_total.
Qed.

Lemma ext_min_ok a b m :
  ext_min a b = Ok m ->
  is_nan a = false /\ is_nan b = false /\ is_nan m = false /\
  forall x, ext_leb x m = true <-> ext_leb x a = true /\ ext_leb x b = true.
Proof.
  unfold ext_min. intros (r & (Hb & Ha & ->)%ext_lt_ok & [= <-])%rbind_ok.
  destruct (ext_leb a b) eqn:E; simpl; split_and!; try done; intros x; split;
    naive_solver eauto using ext_leb_trans, ext_leb_total.
Qed.

Lemma ext_max_total a b : is_nan a = false -> is_nan b = false -> exists m, ext_max a b = Ok m.
Proof. intros Ha Hb. unfold ext_max, ext_lt. rewrite Ha, Hb. simpl. eauto. Qed.

Lemma ext_min_total a b : is_nan a = false -> is_nan b = false -> exists m, ext_min a b = Ok m.
Proof. intros Ha Hb. unfold ext_min, ext_lt. rewrite Ha, Hb. simpl. eauto. Qed.

(** ** What an event of a passed sample satisfies *)

(** The number a field holds *)
Definition number_field (p : list (chars * json)) (key : string) : option extended :=
  match dict_get (text key) p with Some v => read_decimal v | None => None end.

(** A candle: numbers, of which the high is the largest and the low the smallest, and a
    volume that is not negative. *)
Definition candle_ok (p : list (chars * json)) : Prop :=
  exists o h l c v,
    number_field p "open" = Some o /\ number_field p "high" = Some h /\ number_field p "low" = Some l /\
    number_field p "close" = Some c /\ number_field p "volume" = Some v /\
    Forall (fun x => is_nan x = false) [o; h; l; c; v] /\
    Forall (fun x => ext_leb x h = true /\ ext_leb l x = true) [o; c] /\ ext_leb (Finite 0) v = true.

Lemma ohlcv_reasons_nil p : ohlcv_reasons p = Ok [] <-> candle_ok p.
Proof.
  unfold ohlcv_reasons. change (fun key => match dict_get (text key) p with Some v => _ v | None => None end)
    with (number_field p). fold (number_field p "open") (number_field p "high") (number_field p "low")
      (number_field p "close") (number_field p "volume"). split.
  - destruct (number_field p "open") as [o|] eqn:Eo; [|done]. destruct (number_field p "high") as [h|] eqn:Eh; [|done].
    destruct (number_field p "low") as [l|] eqn:El; [|done]. destruct (number_field p "close") as [c|] eqn:Ec; [|done].
    destruct (number_field p "volume") as [v|] eqn:Ev; [|done].
    intros (top & (Ho & Hc & Ht & Htop)%ext_max_ok & Hrest)%rbind_ok.
    apply rbind_ok in Hrest as (below & (Hh & _ & ->)%ext_lt_ok & Hrest).
    apply rbind_ok in Hrest as (broken & Hbroken & Hrest).
    apply rbind_ok in Hrest as (negative & (Hv & _ & ->)%ext_lt_ok & Hrest).
    injection Hrest as [->%reason_if_nil Hneg%reason_if_nil]%app_eq_nil. apply negb_false_iff in Hneg.
    destruct (ext_leb top h) eqn:Eth; [|done].
    apply rbind_ok in Hbroken as (bottom & (_ & _ & Hb & Hbottom)%ext_min_ok & Hrest).
    apply rbind_ok in Hrest as (above & (_ & Hl & ->)%ext_lt_ok & Hrest).
    destruct (ext_leb l bottom) eqn:Elb; [|done]. simpl in Hrest.
    apply Htop in Eth as [? ?]. apply Hbottom in Elb as [? ?].
    exists o, h, l, c, v. split_and!; auto 10 using Forall_cons_2, Forall_nil_2.
  - intros (o & h & l & c & v & -> & -> & -> & -> & -> & Hnum & Hin & Hv).
    repeat rewrite Forall_cons in *. destruct Hnum as (Ho & Hh & Hl & Hc & Hvn & _).
    destruct Hin as ((? & ?) & (? & ?) & _).
    destruct (ext_max_total o c) as [top Etop]; [done..|]. destruct (ext_min_total o c) as [bottom Ebot]; [done..|].
    rewrite Etop, Ebot. apply ext_max_ok in Etop as (_ & _ & Ht & Htop). apply ext_min_ok in Ebot as (_ & _ & Hb & Hbot).
    simpl. unfold ext_lt. rewrite Hh, Ht, Hvn, Hb, Hl, Hv, (proj2 (Htop h)), (proj2 (Hbot l)); try done. simpl.
    by rewrite (ext_leb_trans l o h).
Qed.

(** ** Order books of a passed sample *)

Section SortedOn.
Context {A : Type} (P : A -> Prop) (le : A -> A -> bool).
Context (Htotal : forall x y, P x -> P y -> le x y = false -> le y x = true).
Context (Htrans : forall x y z, P y -> le x y = true -> le y z = true -> le x z = true).

(** [sorted_by_sorted] where the order is total on the elements only *)
Lemma sorted_by_sorted_on xs : Forall P xs -> StronglySorted (fun a b => le a b = true) (sorted_by le xs).
Proof using Htotal Htrans.
  induction 1 as [|x xs Hx Hxs IH]; simpl; [constructor|].
  assert (Forall P (sorted_by le xs)) as Hs by by rewrite sorted_by_Permutation.
  induction IH as [|y ys Hys IHys Hy]; simpl; [by repeat constructor|]. apply Forall_cons in Hs as [Py Hs].
  destruct (le x y) eqn:E.
  - constructor; [by constructor|]. constructor; [done|]. eapply Forall_impl; [exact Hy|]. simpl. eauto.
  - constructor; [by apply IHys|]. rewrite insert_by_Permutation. constructor; [|done]. by apply Htotal.
Qed.

End SortedOn.

Lemma StronglySorted_Forall2 {A} (R E : A -> A -> Prop) xs ys :
  (forall x x' y y', E x y -> E x' y' -> R y y' -> R x x') ->
  Forall2 E xs ys -> StronglySorted R ys -> StronglySorted R xs.
Proof.
  intros HR. induction 1 as [|x y xs ys Hxy Hrest IH]; intros Hs; [constructor|].
  apply StronglySorted_inv in Hs as [Hs Hy]. constructor; [by apply IH|]. clear IH Hs.
  induction Hrest as [|x' y' xs ys Hx' Hrest IH]; [constructor|]. apply Forall_cons in Hy as [Hy Hys].
  constructor; [by eapply HR|by apply IH].
Qed.

Abbreviation numbers := (Forall (fun x => is_nan x = false)).

Lemma same_prices_spec xs ys :
  numbers xs -> same_prices xs ys = true ->
  Forall2 (fun x y => is_nan x = false /\ ext_leb x y = true /\ ext_leb y x = true) xs ys.
Proof.
  intros Hx. revert ys. induction Hx as [|x xs Hx Hxs IH]; intros [|y ys]; try done.
  simpl. rewrite Hx. simpl. rewrite orb_false_r. unfold ext_eqb. rewrite !andb_true_iff.
  intros [[? ?] ?]. constructor; auto.
Qed.

Lemma same_prices_refl xs : numbers xs -> same_prices xs xs = true.
Proof. induction 1 as [|x xs Hx Hxs IH]; simpl; [done|]. unfold ext_eqb. by rewrite ext_leb_refl, IH. Qed.

Lemma ext_eqb_sym a b : ext_eqb a b = ext_eqb b a.
Proof. unfold ext_eqb. apply andb_comm. Qed.

(** The prices that are told apart *)
Lemma distinct_prices_spec ps :
  distinct_prices ps = size ps <-> StronglySorted (fun a b => ext_eqb a b = false) ps.
Proof.
  unfold distinct_prices, size. set (step := fun acc p => if existsb (ext_eqb p) acc then acc else acc ++ [p]).
  assert (forall ps acc, length (fold_left step ps acc) <= length acc + length ps)%nat as Hle.
  { clear ps. induction ps as [|p ps IH]; intros acc; simpl; [lia|]. etrans; [apply IH|].
    unfold step. case_match; rewrite ?length_app; simpl; lia. }
  enough (forall ps acc, length (fold_left step ps acc) = (length acc + length ps)%nat <->
    StronglySorted (fun a b => ext_eqb a b = false) ps /\
    Forall (fun p => Forall (fun a => ext_eqb p a = false) acc) ps) as H.
  { specialize (H ps []). simpl in H. rewrite Nat2Z.inj_iff, H. split; [by intros [? _]|].
    intros ?. split; [done|]. by apply Forall_true. }
  clear ps. induction ps as [|p ps IH]; intros acc; simpl.
  { rewrite Nat.add_0_r. split; [|done]. intros _. split; constructor. }
  assert (step acc p = acc /\ ~ Forall (fun a => ext_eqb p a = false) acc \/
          step acc p = acc ++ [p] /\ Forall (fun a => ext_eqb p a = false) acc) as [[-> Hnew]|[-> Hnew]].
  { unfold step. destruct (existsb (ext_eqb p) acc) eqn:E; [left|right]; (split; [done|]).
    - apply existsb_exists in E as (a & Ha%list_elem_of_In & Hpa). rewrite Forall_forall. intros Hall.
      by rewrite (Hall a Ha) in Hpa.
    - apply Forall_forall. intros a Ha%list_elem_of_In. apply not_true_iff_false. intros Hpa.
      apply not_true_iff_false in E. apply E, existsb_exists. eauto. }
  - specialize (Hle ps acc). split; [lia|]. rewrite Forall_cons. by intros (_ & ? & _).
  - specialize (IH (acc ++ [p])). rewrite length_app in IH. simpl in IH.
    replace (length acc + S (length ps))%nat with (length acc + 1 + length ps)%nat by lia. rewrite IH.
    setoid_rewrite Forall_app. setoid_rewrite Forall_singleton. rewrite Forall_and, Forall_cons. split.
    + intros (Hs & Hacc & Hp). split_and!; try done. constructor; [done|].
      eapply Forall_impl; [exact Hp|]. intros x. by rewrite ext_eqb_sym.
    + intros (Hs & _ & Hacc). apply StronglySorted_inv in Hs as [Hs Hp]. split_and!; try done.
      eapply Forall_impl; [exact Hp|]. intros x. by rewrite ext_eqb_sym.
Qed.

Section PriceOrder.
Context (le : extended -> extended -> bool).
Context (Htotal : forall x y, is_nan x = false -> is_nan y = false -> le x y = false -> le y x = true).
Context (Htrans : forall x y z, is_nan y = false -> le x y = true -> le y z = true -> le x z = true).
Context (Heqb : forall x y, ext_eqb x y = le x y && le y x).

(** A side equals its sorted copy and has no price twice when each price is strictly
    before the ones that follow. *)
Lemma side_strictly_sorted ps :
  numbers ps ->
  same_prices ps (sorted_by le ps) = true /\ distinct_prices ps = size ps <->
  StronglySorted (fun a b => le b a = false) ps.
Proof using Type*.
  intros Hn. rewrite distinct_prices_spec.
  assert (forall ys, numbers ys -> StronglySorted (fun a b => le a b = true) ys /\
    StronglySorted (fun a b => ext_eqb a b = false) ys <-> StronglySorted (fun a b => le b a = false) ys) as Hboth.
  { induction 1 as [|y ys Hy Hys IH]; [split; [intros _|split]; constructor|]. split.
    - intros [[Hs1 Hy1]%StronglySorted_inv [Hs2 Hy2]%StronglySorted_inv]. constructor; [by apply IH|].
      rewrite Forall_forall in *. intros z Hz. specialize (Hy1 z Hz). specialize (Hy2 z Hz). simpl in *.
      rewrite Heqb, Hy1 in Hy2. done.
    - intros [Hs Hlt]%StronglySorted_inv. apply IH in Hs as [? ?]. rewrite Forall_forall in Hys, Hlt.
      split; (constructor; [done|]); apply Forall_forall; intros z Hz; specialize (Hlt z Hz); simpl in Hlt; [by apply Htotal; auto|].
      by rewrite Heqb, Hlt, andb_false_r. }
  rewrite <- Hboth by done. split; intros [H1 H2]; (split; [|done]).
  - apply same_prices_spec in H1; [|done].
    eapply StronglySorted_Forall2; [|exact H1|]; [|by apply (sorted_by_sorted_on (fun x => is_nan x = false))].
    intros x x' y y' (Hx & Hxy & Hyx) (Hx' & Hxy' & Hyx') Hyy. simpl in *.
    pose proof (ext_leb_number _ _ Hyx) as [Hy _]. pose proof (ext_leb_number _ _ Hyx') as [Hy' _].
    assert (le x y = true /\ le y' x' = true) as [? ?]; [|by eauto].
    pose proof (Heqb x y) as E1. pose proof (Heqb x' y') as E2. unfold ext_eqb in E1, E2.
    rewrite Hxy, Hyx in E1. rewrite Hxy', Hyx' in E2. symmetry in E1, E2.
    apply andb_true_iff in E1 as [? ?], E2 as [? ?]. done.
  - rewrite sorted_by_id by done. by apply same_prices_refl.
Qed.

End PriceOrder.

Lemma any_result_false {A} (f : A -> result bool) xs :
  any_result f xs = Ok false <-> Forall (fun x => f x = Ok false) xs.
Proof.
  induction xs as [|x xs IH]; simpl; [by split|]. rewrite Forall_cons, <- IH.
  destruct (f x) as [[]|]; simpl; naive_solver.
Qed.

Lemma sorted_prices_ok le ps qs :
  sorted_prices le ps = Ok qs <-> (length ps <= 1 \/ numbers ps)%nat /\ qs = sorted_by le ps.
Proof.
  unfold sorted_prices, size. destruct (existsb is_nan ps) eqn:E.
  - assert (~ numbers ps).
    { apply existsb_exists in E as (x & Hx%list_elem_of_In & E). rewrite Forall_forall. intros H. by rewrite H in E. }
    rewrite andb_true_r. destruct (1 <? _)%Z eqn:En; simpl; [split; [done|]; intros [[?|?] _]; [lia|done]|].
    split; [intros [= <-]; split; [left; lia|done]|by intros [_ ->]].
  - rewrite andb_false_r. split; [|by intros [_ ->]]. intros [= <-]. split; [right|done].
    apply Forall_forall. intros x Hx%list_elem_of_In. apply not_true_iff_false. intros Hn.
    apply not_true_iff_false in E. apply E, existsb_exists. eauto.
Qed.

(** A book: numbers, positive quantities, bids strictly descending below asks strictly
    ascending, of a synchronized stream with the semantics of the venue. *)
Definition book_ok (spec : ContractValidationSpec) (e : RawMarketEvent) : Prop :=
  exists p bids asks bid ask, payload e = Ok p /\ book_side p "bids" = Some bids /\ book_side p "asks" = Some asks /\
    head (map fst bids) = Some bid /\ head (map fst asks) = Some ask /\
    numbers (map fst (bids ++ asks)) /\
    Forall (fun l : extended * extended => is_nan l.2 = false /\ ext_leb l.2 (Finite 0) = false) (bids ++ asks) /\
    StronglySorted (fun a b => ext_leb a b = false) (map fst bids) /\
    StronglySorted (fun a b => ext_leb b a = false) (map fst asks) /\
    ext_leb ask bid = false /\
    re_reconciliation_state e = Some "synchronized" /\
    (sp_venue spec = "hyperliquid" -> sp_snapshot_delta_semantics spec = "snapshot_only") /\
    (sp_venue spec = "bitget" -> sp_snapshot_delta_semantics spec = "snapshot_and_delta").

Lemma bids_sorted ps :
  numbers ps ->
  same_prices ps (sorted_by (fun a b => ext_leb b a) ps) = true /\ distinct_prices ps = size ps <->
  StronglySorted (fun a b => ext_leb a b = false) ps.
Proof.
  apply (side_strictly_sorted (fun a b => ext_leb b a)); eauto using ext_leb_total, ext_leb_trans.
  intros x y. unfold ext_eqb. apply andb_comm.
Qed.

Lemma asks_sorted ps :
  numbers ps ->
  same_prices ps (sorted_by ext_leb ps) = true /\ distinct_prices ps = size ps <->
  StronglySorted (fun a b => ext_leb b a = false) ps.
Proof. apply (side_strictly_sorted ext_leb); eauto using ext_leb_total, ext_leb_trans. Qed.

Lemma sorted_prices_numbers le p ps qs :
  is_nan p = false -> sorted_prices le (p :: ps) = Ok qs -> numbers (p :: ps) /\ qs = sorted_by le (p :: ps).
Proof.
  intros Hp [[Hlen|Hn] ->]%sorted_prices_ok; split; try done. destruct ps; [by repeat constructor|simpl in Hlen; lia].
Qed.

Lemma order_book_passed spec e : order_book_reasons spec e = Ok [] -> book_ok spec e.
Proof.
  unfold order_book_reasons, book_ok. intros (p & Hp & H)%rbind_ok. destruct (book_side p "bids") as [bids|] eqn:Eb; [|done].
  destruct (book_side p "asks") as [asks|] eqn:Ea; [|done].
  destruct bids as [|[bid bq] bids]; [done|]. destruct asks as [|[ask aq] asks]; [done|].
  apply rbind_ok in H as (non_positive & Hq & H).
  apply rbind_ok in H as (descending & Hd & H). apply rbind_ok in H as (ascending & Hasc & H).
  apply rbind_ok in H as (crossed & (Hask & Hbid & ->)%ext_le_ok & H).
  injection H as H. repeat rewrite app_nil in H. repeat rewrite reason_if_nil in H.
  destruct H as (-> & Hbs & Has & Hx & Hdup & Hsync & Hhl & Hbg).
  simpl in Hd, Hasc.
  apply sorted_prices_numbers in Hd as [Hnb ->]; [|done]. apply sorted_prices_numbers in Hasc as [Hna ->]; [|done].
  apply negb_false_iff in Hbs, Has, Hsync. apply orb_false_iff in Hdup as [Hdb Hda].
  apply negb_false_iff, Z.eqb_eq in Hdb, Hda. apply bool_decide_eq_true in Hsync.
  exists p, ((bid, bq) :: bids), ((ask, aq) :: asks), bid, ask. split_and!; try done.
  - rewrite map_app. by apply Forall_app.
  - apply any_result_false in Hq. eapply Forall_impl; [exact Hq|]. intros l (? & _ & ?)%ext_le_ok. done.
  - apply bids_sorted; [done|]. split; [done|]. unfold size in *. simpl in *. by rewrite length_map.
  - apply asks_sorted; [done|]. split; [done|]. unfold size in *. simpl in *. by rewrite length_map.
  - intros E. apply andb_false_iff in Hhl as [Hhl|Hhl]; [by apply bool_decide_eq_false in Hhl|].
    by apply negb_false_iff, bool_decide_eq_true in Hhl.
  - intros E. apply andb_false_iff in Hbg as [Hbg|Hbg]; [by apply bool_decide_eq_false in Hbg|].
    by apply negb_false_iff, bool_decide_eq_true in Hbg.
Qed.

Lemma book_passes spec e : book_ok spec e -> order_book_reasons spec e = Ok [].
Proof.
  intros (p & bids & asks & bid & ask & Hp & Eb & Ea & Hbid & Hask & Hn & Hq & Hbs & Has & Hx & Hsync & Hhl & Hbg).
  unfold order_book_reasons. rewrite Hp. simpl. rewrite Eb, Ea.
  destruct bids as [|[b bq] bids]; [done|]. destruct asks as [|[a aq] asks]; [done|].
  injection Hbid as ->. injection Hask as ->. rewrite map_app in Hn. apply Forall_app in Hn as [Hnb Hna].
  apply bids_sorted in Hbs as [Hbs Hdb]; [|done]. apply asks_sorted in Has as [Has Hda]; [|done].
  rewrite (proj2 (any_result_false _ _)).
  2: { eapply Forall_impl; [exact Hq|]. intros l [? ?]. by apply ext_le_ok. }
  rewrite !(proj2 (sorted_prices_ok _ _ _)) by eauto. unfold rbind.
  assert (ext_le ask bid = Ok false) as -> by (apply Forall_cons in Hnb as [? _], Hna as [? _]; by apply ext_le_ok).
  rewrite Hbs, Has, Hdb, Hda. unfold size. rewrite !length_map, !Z.eqb_refl, (bool_decide_true _ Hsync). simpl.
  repeat case_bool_decide; naive_solver.
Qed.

Lemma order_book_reasons_nil spec e : order_book_reasons spec e = Ok [] <-> book_ok spec e.
Proof. split; [apply order_book_passed|apply book_passes]. Qed.

(** ** Events, contract, metrics *)

Definition event_passes (spec : ContractValidationSpec) (sample_end : Z) (e : RawMarketEvent) : Prop :=
  exists p, payload e = Ok p /\
    (re_received_at e <= re_available_at e <= sample_end)%Z /\
    (forall t, re_exchange_timestamp e = Some t -> (t <= re_received_at e + 5 * SECOND_)%Z) /\
    re_timestamp_semantic e = sp_timestamp_semantic spec /\
    Forall (fun name => has_field p name = true) (sp_response_fields spec) /\
    (sp_capability spec = "trade" -> truthy (get_field p "trade_id") = true) /\
    (sp_capability spec = "ohlcv" -> candle_ok p).

Lemma missing_fields_nil spec p :
  missing_fields spec p = [] <-> Forall (fun name => has_field p name = true) (sp_response_fields spec).
Proof.
  unfold missing_fields. induction (sp_response_fields spec) as [|x xs IH]; simpl; [by split|].
  rewrite Forall_cons, <- IH. destruct (has_field p x); simpl; naive_solver.
Qed.

Lemma event_reasons_nil spec sample_end e :
  event_reasons spec sample_end e = Ok ([], []) <-> event_passes spec sample_end e.
Proof.
  unfold event_reasons, event_passes. destruct (payload e) as [p|x]; simpl; [|naive_solver].
  transitivity ((if bool_decide (sp_capability spec = "ohlcv") then ohlcv_reasons p else Ok []) = Ok [] /\
    (re_received_at e <= re_available_at e <= sample_end)%Z /\
    (forall t, re_exchange_timestamp e = Some t -> (t <= re_received_at e + 5 * SECOND_)%Z) /\
    re_timestamp_semantic e = sp_timestamp_semantic spec /\
    Forall (fun name => has_field p name = true) (sp_response_fields spec) /\
    (sp_capability spec = "trade" -> truthy (get_field p "trade_id") = true)).
  - rewrite <- missing_fields_nil.
    destruct (if bool_decide _ then _ else _) as [reasons|x]; simpl; [|naive_solver].
    transitivity ((reason_if (re_available_at e <? re_received_at e)%Z "available_at precedes received_at" ++
      reason_if (match re_exchange_timestamp e with Some t => (re_received_at e + 5 * SECOND_ <? t)%Z | None => false end)
        "future exchange timestamp" ++
      reason_if (sample_end <? re_available_at e)%Z "event became available after sample end" ++
      reason_if (negb (bool_decide (re_timestamp_semantic e = sp_timestamp_semantic spec)))
        "timestamp semantic does not match capability contract" ++
      reason_if (negb (bool_decide (missing_fields spec p = [])))
        ("response fields missing: " +:+ String.concat "," (missing_fields spec p)) ++ reasons) = [] /\
      reason_if (bool_decide (sp_capability spec = "trade") && negb (truthy (get_field p "trade_id")))
        "exchange trade id unavailable; uniqueness is not proven" = []); [by split; [intros [= -> ->]|intros [-> ->]]|].
    rewrite !app_nil, !reason_if_nil, andb_false_iff, !negb_false_iff, bool_decide_eq_false, !bool_decide_eq_true.
    rewrite !Z.ltb_ge. destruct (re_exchange_timestamp e) as [t|]; rewrite ?Z.ltb_ge, string_ne_or;
      (split; [intros [(?&?&?&?&?&->) ?]|intros ([= ->]&[? ?]&?&?&?&?)]); split_and!; try done; auto; by intros ? [= <-].
  - split.
    + intros (H & ? & ? & ? & ? & ?). exists p. split_and!; try done; try lia. intros E.
      rewrite bool_decide_true in H by done. by apply ohlcv_reasons_nil.
    + intros (p' & [= <-] & ? & ? & ? & ? & ? & H). split_and!; try done; try lia.
      case_bool_decide; [by apply ohlcv_reasons_nil, H|done].
Qed.

Lemma validate_events_nil spec sample_end events :
  validate_events spec sample_end events = Ok ([], []) <-> Forall (event_passes spec sample_end) events.
Proof.
  induction events as [|e events IH]; simpl; [by split|]. rewrite Forall_cons, <- IH, <- event_reasons_nil.
  destruct (event_reasons spec sample_end e) as [[f i]|x]; simpl; [|naive_solver].
  destruct (validate_events spec sample_end events) as [[fs ins]|x]; simpl; [|naive_solver].
  split; [|by intros [[= -> ->] [= -> ->]]]. by intros [= [-> ->]%app_eq_nil [-> ->]%app_eq_nil].
Qed.

(** The metadata is there, the fixture has the hash of the contract, and its
    normalization test passed. *)
Definition contract_ok `{Digest} (spec : ContractValidationSpec) (files : string -> option string) : Prop :=
  Forall (fun s => s <> EmptyString)
    [sp_source_endpoint spec; sp_symbol spec; sp_price_unit spec; sp_quantity_unit spec;
     sp_timestamp_unit spec; sp_timestamp_timezone spec; sp_sequence_semantics spec;
     sp_snapshot_delta_semantics spec; sp_null_behavior spec; sp_rate_limit_behavior spec;
     sp_error_behavior spec; sp_normalization_test_node_id spec] /\
  sp_request_parameters spec <> [] /\ sp_response_fields spec <> [] /\
  (exists content, files (sp_fixture_path spec) = Some content /\ sha256_hex content = sp_fixture_sha256 spec) /\
  sp_normalization_test_passed spec = true.

Lemma forallb_nonempty xs : forallb nonempty xs = true <-> Forall (fun s => s <> EmptyString) xs.
Proof.
  induction xs as [|x xs IH]; simpl; [by split|]. rewrite Forall_cons, <- IH. unfold nonempty.
  case_bool_decide; simpl; naive_solver.
Qed.

Lemma spec_validate_nil `{Digest} spec files : spec_validate spec files = [] <-> contract_ok spec files.
Proof.
  unfold spec_validate, contract_ok. rewrite <- forallb_nonempty. cbv zeta.
  match goal with |- context [forallb nonempty ?xs] => generalize (forallb nonempty xs) end. intros complete.
  rewrite !app_nil. destruct complete; simpl; [|naive_solver].
  repeat case_bool_decide; simpl; destruct (files (sp_fixture_path spec)) as [content|];
    try case_bool_decide; destruct (sp_normalization_test_passed spec); naive_solver.
Qed.

(** What the thresholds of the contract ask of the metrics. *)
Definition metrics_pass (spec : ContractValidationSpec) (pairs : list (Decimal * Decimal)) (m : CertificationMetrics)
  : Prop :=
  (sp_minimum_event_count spec <= cm_event_count m)%Z /\
  (sp_minimum_coverage_ratio spec <= cm_coverage_ratio m)%Q /\
  (cm_stale_ratio m <= sp_maximum_stale_ratio spec)%Q /\
  (cm_live_out_of_order_count m <= 0)%Z /\
  (sp_timestamp_semantic spec <> CANDLE_OPEN_TIME -> sp_timestamp_semantic spec <> CANDLE_CLOSE_TIME ->
   (sp_minimum_clock_skew_sample_count spec <= cm_clock_skew_known_sample_count m)%Z) /\
  (forall r, (sp_minimum_clock_skew_sample_count spec <= cm_clock_skew_known_sample_count m)%Z ->
             cm_clock_skew_violation_ratio m = Some r -> (r <= sp_maximum_clock_skew_violation_ratio spec)%Q) /\
  (sp_capability spec ∈ ["funding_current"; "mark_price"; "ohlcv"] -> pairs <> []) /\
  match sp_maximum_absolute_error spec with
  | Some limit => forall a, cm_cross_source_absolute_error m = Some a -> (a <= limit)%Q
  | None => forall r, cm_cross_source_relative_error m = Some r -> (r <= sp_maximum_relative_error spec)%Q
  end.

Lemma reconciliation_missing_false spec pairs :
  reconciliation_missing spec pairs = false <->
  (sp_capability spec ∈ ["funding_current"; "mark_price"; "ohlcv"] -> pairs <> []).
Proof.
  unfold reconciliation_missing. destruct pairs; simpl; rewrite ?andb_false_r; [|naive_solver].
  rewrite andb_true_r, bool_decide_eq_false. naive_solver.
Qed.

Lemma skew_above_false spec m :
  skew_above spec m = false <->
  (forall r, (sp_minimum_clock_skew_sample_count spec <= cm_clock_skew_known_sample_count m)%Z ->
             cm_clock_skew_violation_ratio m = Some r -> (r <= sp_maximum_clock_skew_violation_ratio spec)%Q).
Proof.
  unfold skew_above. destruct (Z.leb_spec (sp_minimum_clock_skew_sample_count spec) (cm_clock_skew_known_sample_count m));
    destruct (cm_clock_skew_violation_ratio m) as [r|]; simpl; rewrite ?dltb_ge; naive_solver lia.
Qed.

Lemma errors_above_false spec m :
  relative_above spec m = false /\ absolute_above spec m = false <->
  match sp_maximum_absolute_error spec with
  | Some limit => forall a, cm_cross_source_absolute_error m = Some a -> (a <= limit)%Q
  | None => forall r, cm_cross_source_relative_error m = Some r -> (r <= sp_maximum_relative_error spec)%Q
  end.
Proof.
  unfold relative_above, absolute_above.
  destruct (sp_maximum_absolute_error spec), (cm_cross_source_relative_error m), (cm_cross_source_absolute_error m);
    rewrite ?dltb_ge; naive_solver.
Qed.

Lemma metrics_pass_nil spec pairs m :
  metric_failures spec m = [] /\ metric_insufficiencies spec pairs m = [] <-> metrics_pass spec pairs m.
Proof.
  unfold metric_failures, metric_insufficiencies, metrics_pass.
  rewrite !app_nil, !reason_if_nil, reconciliation_missing_false, skew_above_false, !Z.ltb_ge, !dltb_ge,
    andb_false_iff, Z.ltb_ge, negb_false_iff, bool_decide_eq_true, <- errors_above_false.
  assert ((sp_minimum_clock_skew_sample_count spec <= cm_clock_skew_known_sample_count m)%Z \/
    sp_timestamp_semantic spec ∈ [CANDLE_OPEN_TIME; CANDLE_CLOSE_TIME] <->
    (sp_timestamp_semantic spec <> CANDLE_OPEN_TIME -> sp_timestamp_semantic spec <> CANDLE_CLOSE_TIME ->
     (sp_minimum_clock_skew_sample_count spec <= cm_clock_skew_known_sample_count m)%Z)) as ->.
  { destruct (sp_timestamp_semantic spec); set_solver. }
  clear. tauto.
Qed.

(** ** Funding of a passed sample *)

Section Verdict.
Context {C : DecimalContext} {D : Digest}.

(** The rate a payload carries, by the unit of the contract. *)
Definition current_rate (spec : ContractValidationSpec) (p : list (chars * json)) : result extended :=
  if has_field p "rate" || has_field p "funding_rate"
  then normalize_funding_rate (get_field p (if has_field p "rate" then "rate" else "funding_rate"))
         (default EmptyString (sp_funding_unit spec))
  else Err KeyError.

(** A plausible rate, when it is paid next, the interval of the contract, and who says so. *)
Definition funding_current_ok (spec : ContractValidationSpec) (e : RawMarketEvent) : Prop :=
  exists p q n, payload e = Ok p /\ current_rate spec p = Ok (Finite q) /\ (dabs q <= 1 # 10)%Q /\
    (has_field p "next_funding_at" = true \/ has_field p "next_funding_time" = true) /\
    get_field p "funding_interval_seconds" <> JNull /\
    py_int (get_field p "funding_interval_seconds") = Ok n /\ sp_funding_interval_seconds spec = Some n /\
    truthy (get_field p "funding_schedule_source") = true.

Lemma funding_current_passed spec e : funding_current_reasons spec e = Ok [] -> funding_current_ok spec e.
Proof.
  unfold funding_current_reasons, funding_current_ok. intros (p & Hp & H)%rbind_ok. fold (current_rate spec p) in H.
  destruct (current_rate spec p) as [rate|] eqn:Er; [|done].
  assert (exists q interval, rate = Finite q /\ (dabs q <= 1 # 10)%Q /\
    match get_field p "funding_interval_seconds" with
    | JNull => Ok ["funding interval evidence is missing"]
    | _ => let! n := py_int (get_field p "funding_interval_seconds") in
           Ok (reason_if (negb (bool_decide (sp_funding_interval_seconds spec = Some n))) "funding interval mismatch")
    end = Ok interval /\
    reason_if (negb (has_field p "next_funding_at") && negb (has_field p "next_funding_time"))
      "next funding time is missing" ++ interval ++
    reason_if (negb (truthy (get_field p "funding_schedule_source"))) "funding schedule source is missing" = [])
    as (q & interval & -> & Hq & Hi & Hrest).
  { destruct rate as [q|neg|]; [|apply rbind_ok in H as (interval & Hi & H); done|done].
    apply rbind_ok in H as (interval & Hi & H). injection H as [Hq%reason_if_nil Hrest]%app_eq_nil.
    apply dltb_ge in Hq. exists q, interval. split_and!; [done|done|exact Hi|exact Hrest]. }
  rewrite !app_nil, !reason_if_nil, andb_false_iff, !negb_false_iff in Hrest. destruct Hrest as (Hnext & -> & Hsource).
  assert (exists n, get_field p "funding_interval_seconds" <> JNull /\
    py_int (get_field p "funding_interval_seconds") = Ok n /\ sp_funding_interval_seconds spec = Some n)
    as (n & Hnull & Hint & Hs).
  { destruct (get_field p "funding_interval_seconds"); try done;
      (apply rbind_ok in Hi as (n & Hint & [= Heq%reason_if_nil]);
       apply negb_false_iff, bool_decide_eq_true in Heq; by exists n). }
  by exists p, q, n.
Qed.

Lemma funding_current_passes spec e : funding_current_ok spec e -> funding_current_reasons spec e = Ok [].
Proof.
  intros (p & q & n & Hp & Hr & Hq & Hnext & Hnull & Hint & Hs & Hsource).
  unfold funding_current_reasons. rewrite Hp. simpl. fold (current_rate spec p). rewrite Hr.
  assert (dltb (1 # 10) (dabs q) = false) as -> by by apply dltb_ge. rewrite Hsource.
  assert (negb (has_field p "next_funding_at") && negb (has_field p "next_funding_time") = false) as ->
    by (apply andb_false_iff; rewrite !negb_false_iff; done).
  revert Hnull Hint. destruct (get_field p "funding_interval_seconds"); try done; intros _ ->; simpl;
    by rewrite bool_decide_true.
Qed.

(** Two windows or more, each as long as announced, within five minutes. *)
Definition window_ok (finalized : list (Z * list (chars * json))) (declared : Z) (pair : Z * Z) : Prop :=
  exists o, funding_observation finalized declared pair = Ok o /\
    fo_missing_window_count o = 0%Z /\ (Z.abs (fo_difference_seconds o) <= 300)%Z.

Definition funding_history_ok (spec : ContractValidationSpec) (events : list RawMarketEvent) : Prop :=
  exists declared finalized duplicates, sp_funding_interval_seconds spec = Some declared /\
    finalized_funding events [] 0 = Ok (finalized, duplicates) /\ (2 <= length finalized)%nat /\
    Forall (window_ok finalized declared) (pairwise (sorted_by Z.leb (dict_keys finalized))).

Lemma dict_fromkeys_nil {A} `{EqDecision A} (xs : list A) : dict_fromkeys xs = [] <-> xs = [].
Proof.
  split; [|by intros ->]. destruct xs as [|x xs]; [done|]. intros E.
  assert (x ∈ dict_fromkeys (x :: xs)) as H by (rewrite dict_fromkeys_elem; set_solver). rewrite E in H. set_solver.
Qed.

Lemma map_filter_nil {A B} (f : A -> bool) (g : A -> B) xs :
  map g (List.filter f xs) = [] <-> Forall (fun x => f x = false) xs.
Proof.
  induction xs as [|x xs IH]; simpl; [by split|]. rewrite Forall_cons, <- IH. destruct (f x); naive_solver.
Qed.

(** [gather] of one result each *)
Lemma gather_single {A B} (f : A -> result B) xs ys :
  gather (fun x => let! y := f x in Ok [y]) xs = Ok ys <-> Forall2 (fun x y => f x = Ok y) xs ys.
Proof.
  revert ys. induction xs as [|x xs IH]; intros ys; simpl.
  { split; [intros [= <-]; constructor|]. by intros ->%Forall2_nil_inv_l. }
  destruct (f x) as [y|err] eqn:E; simpl.
  - destruct (gather _ xs) as [zs|err'] eqn:Ez; simpl.
    + split; [intros [= <-]; constructor; [done|by apply IH]|].
      intros (y' & ys' & Hy & Hys & ->)%Forall2_cons_inv_l. apply IH in Hys. rewrite E in Hy. injection Hy as ->. by injection Hys as ->.
    + split; [done|]. intros (y' & ys' & Hy & Hys & ->)%Forall2_cons_inv_l. by apply IH in Hys.
  - split; [done|]. intros (y' & ys' & Hy & _)%Forall2_cons_inv_l. congruence.
Qed.

Lemma funding_history_reasons spec events r :
  analyze_funding_intervals events spec = Ok r ->
  fr_violations r = [] /\ fr_insufficiencies r = [] <-> funding_history_ok spec events.
Proof.
  unfold analyze_funding_intervals, funding_history_ok.
  destruct (sp_funding_interval_seconds spec) as [declared|]; [|naive_solver].
  intros ([finalized duplicates] & Hf & (obs & Hobs%gather_single & [= <-])%rbind_ok)%rbind_ok. simpl.
  rewrite !dict_fromkeys_nil, app_nil, !map_filter_nil.
  assert (size (sorted_by Z.leb (dict_keys finalized)) = Z.of_nat (length finalized)) as ->.
  { unfold size. rewrite sorted_by_Permutation. unfold dict_keys. by rewrite length_fmap. }
  transitivity ((2 <= length finalized)%nat /\ Forall (window_ok finalized declared)
    (pairwise (sorted_by Z.leb (dict_keys finalized)))); [|rewrite Hf; naive_solver].
  assert (Forall (window_ok finalized declared) (pairwise (sorted_by Z.leb (dict_keys finalized))) <->
    Forall (fun o => fo_missing_window_count o = 0 /\ Z.abs (fo_difference_seconds o) <= 300)%Z obs) as ->.
  { unfold window_ok. induction Hobs as [|x o xs os Hx Hxs IH]; [by split|]. rewrite !Forall_cons, IH.
    apply and_iff_compat_r. rewrite Hx. split; [by intros (? & [= <-] & ?)|eauto]. }
  assert (Forall (fun x => window_violation x = false) obs /\ Forall (fun x => window_missing x = false) obs <->
    Forall (fun o => fo_missing_window_count o = 0 /\ Z.abs (fo_difference_seconds o) <= 300)%Z obs) as H.
  { rewrite <- Forall_and. apply Forall_iff. intros o. unfold window_violation, window_missing. lia. }
  destruct (Z.ltb_spec (Z.of_nat (length finalized)) 2); [|naive_solver lia]. split; [by intros (_ & _ & ?)|lia].
Qed.

Definition capability_ok (spec : ContractValidationSpec) (events : list RawMarketEvent) : Prop :=
  (sp_capability spec = "funding_current" -> Forall (funding_current_ok spec) events) /\
  (sp_capability spec = "funding_history" -> funding_history_ok spec events) /\
  (sp_capability spec ∈ ["orderbook_snapshot"; "orderbook_delta"] -> Forall (book_ok spec) events).

Definition selected (q : CertifyRequest) : list RawMarketEvent :=
  List.filter (sampled (cq_spec q) (cq_sample_start q) (cq_sample_end q)) (cq_events q).

(** What a request must show for its capability to be certified. *)
Definition sample_passes (files : string -> option string) (q : CertifyRequest) : Prop :=
  exists sample m,
    normalize_certification_events (selected q) (cq_spec q) = Ok sample /\
    certification_metrics (selected q) (cq_spec q) (cq_sample_start q) (cq_sample_end q)
      (cq_cross_source_pairs q) = Ok m /\
    contract_ok (cq_spec q) files /\ ns_events sample <> [] /\
    Forall (event_passes (cq_spec q) (cq_sample_end q)) (ns_events sample) /\
    metrics_pass (cq_spec q) (cq_cross_source_pairs q) m /\ capability_ok (cq_spec q) (ns_events sample).

Lemma verdict_of_pass failures insufficiencies events :
  verdict_of failures insufficiencies events = VERDICT_PASS <->
  failures = [] /\ insufficiencies = [] /\ events <> [].
Proof. destruct failures, insufficiencies, events; naive_solver. Qed.

Lemma forall_reasons_nil (f : RawMarketEvent -> result (list string)) (P : RawMarketEvent -> Prop) events reasons :
  (forall e, f e = Ok [] <-> P e) -> gather f events = Ok reasons -> reasons = [] <-> Forall P events.
Proof.
  intros HP Hg. rewrite <- (Forall_iff _ _ _ HP), <- gather_nil, Hg. split; [by intros ->|by intros [= ->]].
Qed.

Lemma funding_current_reasons_nil spec e : funding_current_reasons spec e = Ok [] <-> funding_current_ok spec e.
Proof. split; [apply funding_current_passed|apply funding_current_passes]. Qed.

(** An optional check *)
Lemma optional_reasons_nil (b : bool) (r : result (list string)) reasons (P Q : Prop) :
  (b = true <-> P) -> (r = Ok reasons -> reasons = [] <-> Q) ->
  (if b then r else Ok []) = Ok reasons -> reasons = [] <-> (P -> Q).
Proof. destruct b; intros HP HQ; [intros H%HQ; rewrite H; naive_solver|intros [= <-]; naive_solver]. Qed.

Lemma assess_pass files q a :
  assess files q = Ok a ->
  verdict_of (as_failures a) (as_insufficiencies a) (as_normalized a) = VERDICT_PASS <-> sample_passes files q.
Proof.
  unfold assess. fold (selected q). intros (sample & Hs & H)%rbind_ok.
  apply rbind_ok in H as ([failures insufficiencies] & He & H). apply rbind_ok in H as (m & Hm & H).
  apply rbind_ok in H as (current & Hc & H). apply rbind_ok in H as (funding & Hf & H).
  apply rbind_ok in H as (books & Hb & [= <-]). simpl.
  apply (optional_reasons_nil _ _ _ (sp_capability (cq_spec q) = "funding_current")
    (Forall (funding_current_ok (cq_spec q)) (ns_events sample))) in Hc;
    [|apply bool_decide_eq_true|apply forall_reasons_nil, funding_current_reasons_nil].
  apply (optional_reasons_nil _ _ _ (sp_capability (cq_spec q) ∈ ["orderbook_snapshot"; "orderbook_delta"])
    (Forall (book_ok (cq_spec q)) (ns_events sample))) in Hb;
    [|apply bool_decide_eq_true|apply forall_reasons_nil, order_book_reasons_nil].
  assert (match funding with Some r => fr_violations r | None => [] end = [] /\
          match funding with Some r => fr_insufficiencies r | None => [] end = [] <->
    (sp_capability (cq_spec q) = "funding_history" -> funding_history_ok (cq_spec q) (ns_events sample))) as Hh.
  { case_bool_decide.
    - apply rbind_ok in Hf as (r & Hr & [= <-]). rewrite (funding_history_reasons _ _ _ Hr). naive_solver.
    - injection Hf as <-. naive_solver. }
  assert (failures = [] /\ insufficiencies = [] <->
    Forall (event_passes (cq_spec q) (cq_sample_end q)) (ns_events sample)) as Hev.
  { rewrite <- validate_events_nil, He. split; [by intros [-> ->]|by intros [= -> ->]]. }
  rewrite verdict_of_pass, !app_nil, Hc, Hb, spec_validate_nil. unfold sample_passes. rewrite Hs, Hm.
  transitivity (contract_ok (cq_spec q) files /\ ns_events sample <> [] /\
    Forall (event_passes (cq_spec q) (cq_sample_end q)) (ns_events sample) /\
    metrics_pass (cq_spec q) (cq_cross_source_pairs q) m /\ capability_ok (cq_spec q) (ns_events sample)).
  - unfold capability_ok. rewrite <- Hev, <- metrics_pass_nil, <- Hh. clear. tauto.
  - split; [eauto 10|]. intros (? & ? & [= <-] & [= <-] & ?). done.
Qed.

Lemma validate_same c c' : MarketDataCertification_validate c = Ok c' -> c' = c.
Proof. unfold MarketDataCertification_validate. repeat (case_match; [|done]). by intros [= <-]. Qed.

(** The manifest of a sample *)
Definition manifest_of (a : Assessment) : list (string * string) :=
  sorted_by manifest_leb (map (fun e => (re_event_id e, re_payload_sha256 e)) (as_normalized a)).

Lemma certify_ok `{CertificationJson, CertificationRepository R} self files q (r r' : R) c :
  certify self files q r = (r', Ok c) ->
  exists a hash, assess files q = Ok a /\ c = certification_of self q a hash /\
    MarketDataCertification_validate c = Ok c /\
    certification_save c (evidence_of files q a (manifest_of a) hash) r = (r', Ok tt).
Proof.
  unfold certify. intros (r1 & a & Ha & E)%pbind_ok. apply pbind_ok in E as (r2 & u & Hu & E). cbv zeta in E.
  apply pbind_ok in E as (r3 & c' & Hc & E). apply pbind_ok in E as (r4 & u' & Hsave & E).
  unfold plift in Ha, Hu, Hc. injection Ha as <- Ha. injection Hu as <- Hu. injection Hc as <- Hc.
  unfold pret in E. injection E as <- <-. destruct u'. pose proof (validate_same _ _ Hc) as ->.
  eauto 10.
Qed.

(** C25: a certification that is recorded has the verdict PASS exactly when its request
    shows what the contract asks: complete metadata, a fixture with the declared hash and
    a passed normalization test; at least one event, and of each that it was available
    after it was received and before the sample ended, not from the future, of the declared
    timestamp semantic and with every declared field (a candle's prices within its range, a
    trade with its id); metrics within the thresholds; and for funding a plausible rate
    with the declared interval or windows without gaps, for order books strictly sorted,
    uncrossed, synchronized sides. *)
Theorem certification_pass_iff `{CertificationJson, CertificationRepository R} self files q (r r' : R) c :
  certify self files q r = (r', Ok c) ->
  mc_verdict c = VERDICT_PASS <-> sample_passes files q.
Proof. intros (a & hash & Ha & -> & _)%certify_ok. by apply assess_pass. Qed.

End Verdict.
