(* ===== verification/CertificationTrust.v ===== *)
(** * What a trusted capability rests on

    Over any sequence of certifications and promotions on the in-memory store: what is
    stored stays, and a promoted capability was earned. *)

From Stdlib Require Import ZArith QArith NArith Lia.
From stdpp Require Import base tactics sets list strings.
From S2P Require Import Prelude Decimals Binary64 Evidence Json PyText FundingCarry Venues ShadowBook.
From S2P Require Import Certification CertificationService CertificationSafety.

Local Open Scope string_scope.
Local Open Scope list_scope.

(** The calls the two services get. *)
Inductive CertificationOp :=
  | Certify (self : CertificationService) (files : string -> option string) (q : CertifyRequest)
  | Promote (self : PromotionService) (now : Z) (c : MarketDataCertification).

Section Trust.
Context {C : DecimalContext} {D : Digest} {J : CertificationJson}.

Definition certification_step (r : InMemoryCertifications) (op : CertificationOp) : InMemoryCertifications :=
  match op with
  | Certify self files q => (certify self files q r).1
  | Promote self now c => (promote self now c r).1
  end.

Definition certification_run (ops : list CertificationOp) (r : InMemoryCertifications) : InMemoryCertifications :=
  fold_left certification_step ops r.

Definition no_certifications : InMemoryCertifications := {| ic_records := []; ic_promotions := [] |}.

(** ** What one call does to the store *)

Lemma memory_save_ok c e r r' :
  memory_save_certification c e r = (r', Ok tt) ->
  ic_promotions r' = ic_promotions r /\
  ic_records r' = dict_set (mc_certification_id c) (c, e) (ic_records r) /\
  (dict_get (mc_certification_id c) (ic_records r) = None \/
   dict_get (mc_certification_id c) (ic_records r) = Some (c, e)).
Proof.
  unfold memory_save_certification. case_match; [done|].
  destruct (dict_get _ _) as [current|] eqn:E.
  - destruct (bool_decide (current = (c, e))) eqn:Hc; [|done]. apply bool_decide_eq_true in Hc. subst current.
    intros [= <-]. auto.
  - intros [= <-]. auto.
Qed.

Lemma memory_save_failed c e r : (memory_save_certification c e r).2 <> Ok tt -> (memory_save_certification c e r).1 = r.
Proof. unfold memory_save_certification. repeat case_match; done. Qed.

(** Certifications and promotions, once stored, are never changed. *)
Definition extends (r r' : InMemoryCertifications) : Prop :=
  (forall id x, dict_get id (ic_records r) = Some x -> dict_get id (ic_records r') = Some x) /\
  (forall id x, dict_get id (ic_promotions r) = Some x -> dict_get id (ic_promotions r') = Some x).

#[local] Instance extends_preorder : PreOrder extends.
Proof. split; [split; auto|]. intros r1 r2 r3 [H1 H2] [H3 H4]. split; eauto. Qed.

Lemma dict_set_keeps {K V} `{EqDecision K} (k : K) (v : V) d :
  dict_get k d = None \/ dict_get k d = Some v ->
  forall k' x, dict_get k' d = Some x -> dict_get k' (dict_set k v d) = Some x.
Proof.
  intros Hk k' x Hx. destruct (decide (k' = k)) as [->|Hne]; [|by rewrite dict_get_set_ne].
  rewrite dict_get_set_eq. destruct Hk; congruence.
Qed.

(** The state after [certify] that raised *)
Lemma certify_failed self files q r e : (certify self files q r).2 = Err e -> (certify self files q r).1 = r.
Proof.
  unfold certify, pbind, plift. destruct (assess files q) as [a|]; [simpl|done].
  destruct (validate_certification_reason_invariants _ _ _) as [[]|]; [cbv zeta|done].
  destruct (MarketDataCertification_validate _) as [c|]; [|done].
  match goal with |- context [memory_save_certification c ?ev r] => generalize ev end. intros ev.
  pose proof (memory_save_failed c ev r) as H.
  destruct (memory_save_certification _ _ _) as [r' [[]|x]]; simpl in *; [done|]. intros _. by apply H.
Qed.

(** A promotion that is accepted stores the record of a stored certification that passed,
    with complete evidence, and while it is valid. *)
Lemma promote_ok self now c r r' record :
  promote self now c r = (r', Ok record) ->
  exists e, dict_get (mc_certification_id c) (ic_records r) = Some (c, e) /\ record = promotion_record c e /\
    mc_verdict c = VERDICT_PASS /\ mc_commit_sha c = ps_commit_sha self /\
    mc_adapter_version c = ps_adapter_version self /\ (mc_verified_at c <= now <= mc_expires_at c)%Z /\
    evidence_complete e = true /\
    memory_save_promotion (mc_certification_id c) (mc_canonical_instrument_id c) record r = (r', Ok tt).
Proof.
  unfold promote. intros (r1 & stored & Hget & H)%pbind_ok. injection Hget as <- Hget.
  destruct stored as [[c' e]|]; [|done]. cbv zeta in H. apply pbind_ok in H as (r2 & [] & Hcheck & H).
  injection Hcheck as <- Hcheck. apply pbind_ok in H as (r3 & [] & Hsave & H). injection H as -> <-.
  repeat (case_match; [|done]). repeat match goal with
    | H : bool_decide _ = true |- _ => apply bool_decide_eq_true in H
    | H : _ && _ = true |- _ => apply andb_true_iff in H as [? ?]
    end.
  exists e. subst c'. split_and!; try done; lia.
Qed.

Lemma memory_promotion_failed id instrument record r :
  (memory_save_promotion id instrument record r).2 <> Ok tt -> (memory_save_promotion id instrument record r).1 = r.
Proof. unfold memory_save_promotion. repeat case_match; done. Qed.

Lemma promote_failed self now c r e : (promote self now c r).2 = Err e -> (promote self now c r).1 = r.
Proof.
  unfold promote, pbind, plift. simpl. destruct (dict_get _ _) as [[c' ev]|]; [|done]. cbv zeta.
  match goal with |- context [match ?x with Ok _ => _ | Err _ => _ end] => destruct x as [[]|] end; [|done].
  pose proof (memory_promotion_failed (mc_certification_id c) (mc_canonical_instrument_id c) (promotion_record c ev) r) as H.
  destruct (memory_save_promotion _ _ _ _) as [r' [[]|x]]; simpl in *; [done|]. intros _. by apply H.
Qed.

Lemma memory_promotion_ok id instrument record r r' :
  memory_save_promotion id instrument record r = (r', Ok tt) ->
  ic_records r' = ic_records r /\ ic_promotions r' = dict_set id record (ic_promotions r) /\
  (dict_get id (ic_promotions r) = None \/ dict_get id (ic_promotions r) = Some record).
Proof.
  unfold memory_save_promotion. case_match; [done|]. destruct (dict_get id (ic_promotions r)) as [current|] eqn:E.
  - destruct (bool_decide (current = record)) eqn:Hc; [|done]. apply bool_decide_eq_true in Hc. subst current.
    intros [= <-]. auto.
  - intros [= <-]. auto.
Qed.

Lemma step_extends r op : extends r (certification_step r op).
Proof.
  destruct op as [self files q|self now c]; simpl.
  - destruct (certify self files q r) as [r' [c|e]] eqn:E; simpl.
    + apply certify_ok in E as (a & hash & _ & -> & _ & (Hp & Hr & Hfresh)%memory_save_ok).
      split; [rewrite Hr; by apply dict_set_keeps|by rewrite Hp].
    + pose proof (certify_failed self files q r e) as H. rewrite E in H. simpl in H. by rewrite H.
  - destruct (promote self now c r) as [r' [record|e]] eqn:E; simpl.
    + apply promote_ok in E as (ev & _ & -> & _ & _ & _ & _ & _ & (Hr & Hp & Hfresh)%memory_promotion_ok).
      split; [by rewrite Hr|rewrite Hp; by apply dict_set_keeps].
    + pose proof (promote_failed self now c r e) as H. rewrite E in H. simpl in H. by rewrite H.
Qed.

(** ** What is stored was earned *)

(** The certification and evidence are what [certify] found in a request that was made. *)
Definition certified (ops : list CertificationOp) (c : MarketDataCertification) (e : CertificationEvidence) : Prop :=
  exists self files q a hash, Certify self files q ∈ ops /\ assess files q = Ok a /\
    c = certification_of self q a hash /\ e = evidence_of files q a (manifest_of a) hash.

Definition promoted (ops : list CertificationOp) (r : InMemoryCertifications) (record : TrustedCapabilityRecord)
  : Prop :=
  exists self now c e, Promote self now c ∈ ops /\ dict_get (mc_certification_id c) (ic_records r) = Some (c, e) /\
    record = promotion_record c e /\ mc_verdict c = VERDICT_PASS /\ mc_commit_sha c = ps_commit_sha self /\
    mc_adapter_version c = ps_adapter_version self /\ (mc_verified_at c <= now <= mc_expires_at c)%Z /\
    evidence_complete e = true.

Definition store_earned (ops : list CertificationOp) (r : InMemoryCertifications) : Prop :=
  (forall id c e, dict_get id (ic_records r) = Some (c, e) -> mc_certification_id c = id /\ certified ops c e) /\
  (forall id record, dict_get id (ic_promotions r) = Some record ->
     tc_verification_run_id record = id /\ promoted ops r record).

Lemma promoted_mono ops ops' r r' record :
  ops ⊆ ops' -> extends r r' -> promoted ops r record -> promoted ops' r' record.
Proof.
  intros Hops [Hr _] (self & now & c & e & Hin & Hget & Hrest). exists self, now, c, e.
  split; [by apply Hops|]. split; [by apply Hr|done].
Qed.

Lemma certified_mono ops ops' c e : ops ⊆ ops' -> certified ops c e -> certified ops' c e.
Proof. intros Hops (self & files & q & a & hash & Hin & Hrest). exists self, files, q, a, hash. split; [by apply Hops|done]. Qed.

Lemma store_earned_mono ops ops' r : ops ⊆ ops' -> store_earned ops r -> store_earned ops' r.
Proof.
  intros Hops [H1 H2]. split.
  - intros id c e [? ?]%H1. split; [done|]. by eapply certified_mono.
  - intros id record [? ?]%H2. split; [done|]. by eapply promoted_mono.
Qed.

Lemma certify_earned ops self files q r :
  store_earned ops r -> store_earned (ops ++ [Certify self files q]) (certification_step r (Certify self files q)).
Proof.
  intros Hst. pose proof (step_extends r (Certify self files q)) as Hext. simpl in *.
  destruct (certify self files q r) as [r' [c|x]] eqn:E; simpl in *.
  - pose proof E as (a & hash & Ha & Hc & _ & (Hp & Hr & _)%memory_save_ok)%certify_ok.
    apply (store_earned_mono _ (ops ++ [Certify self files q])) in Hst as [H1 H2]; [|set_solver]. split.
    + intros id c' e'. rewrite Hr. destruct (decide (id = mc_certification_id c)) as [->|Hne].
      * rewrite dict_get_set_eq. intros [= <- <-]. split; [done|].
        exists self, files, q, a, hash. split; [set_solver|done].
      * rewrite dict_get_set_ne by done. apply H1.
    + intros id record. rewrite Hp. intros [? ?]%H2. split; [done|]. by eapply promoted_mono.
  - pose proof (certify_failed self files q r x) as H. rewrite E in H. simpl in H. rewrite H by done.
    eapply store_earned_mono; [|done]. set_solver.
Qed.

Lemma promote_earned ops self now c r :
  store_earned ops r -> store_earned (ops ++ [Promote self now c]) (certification_step r (Promote self now c)).
Proof.
  intros Hst. pose proof (step_extends r (Promote self now c)) as Hext. simpl in *.
  destruct (promote self now c r) as [r' [record|x]] eqn:E; simpl in *.
  - apply promote_ok in E as (e & Hget & -> & Hv & Hcommit & Had & Hnow & Hcomplete & Hsave).
    apply memory_promotion_ok in Hsave as (Hr & Hp & _).
    apply (store_earned_mono _ (ops ++ [Promote self now c])) in Hst as [H1 H2]; [|set_solver]. split.
    + intros id c' e'. rewrite Hr. apply H1.
    + intros id record. rewrite Hp. destruct (decide (id = mc_certification_id c)) as [->|Hne].
      * rewrite dict_get_set_eq. intros [= <-]. split; [done|]. exists self, now, c, e.
        rewrite Hr. split_and!; try done; try lia. set_solver.
      * rewrite dict_get_set_ne by done. intros [? ?]%H2. split; [done|]. by eapply promoted_mono.
  - pose proof (promote_failed self now c r x) as H. rewrite E in H. simpl in H. rewrite H by done.
    eapply store_earned_mono; [|done]. set_solver.
Qed.

Lemma run_earned ops : store_earned ops (certification_run ops no_certifications).
Proof.
  induction ops as [|op ops IH] using rev_ind; [split; by intros|].
  unfold certification_run. rewrite fold_left_app. simpl.
  destruct op; [by apply certify_earned|by apply promote_earned].
Qed.

Lemma run_extends ops r : extends r (certification_run ops r).
Proof.
  revert r. induction ops as [|op ops IH]; intros r; simpl; [reflexivity|].
  etrans; [apply step_extends|apply IH].
Qed.

(** C24: over any sequence of certifications and promotions, a capability is trusted only
    when it was certified by a request that passed (see [sample_passes]) on live data, with
    an audit, at the same commit and adapter version, and was promoted while that
    certification was valid; the trusted record names the venue, capability, instrument and
    fixture that were certified and ends with the certification; and no later call
    changes it. *)
Theorem trusted_capability_earned ops id record :
  dict_get id (ic_promotions (certification_run ops no_certifications)) = Some record ->
  (exists self now c service files q,
    Promote self now c ∈ ops /\ Certify service files q ∈ ops /\ sample_passes files q /\
    historical (sp_timestamp_semantic (cq_spec q)) = false /\ cq_audit_passed q = true /\
    cs_commit_sha service = ps_commit_sha self /\ cs_adapter_version service = ps_adapter_version self /\
    (cq_sample_end q <= now <= cq_sample_end q + cs_certification_ttl service)%Z /\
    tc_venue record = sp_venue (cq_spec q) /\ tc_capability record = sp_capability (cq_spec q) /\
    tc_canonical_instrument_id record = sp_canonical_instrument_id (cq_spec q) /\
    tc_contract_fixture_sha256 record = sp_fixture_sha256 (cq_spec q) /\
    tc_adapter_version record = cs_adapter_version service /\
    tc_expires_at record = (cq_sample_end q + cs_certification_ttl service)%Z /\
    tc_verification_run_id record = cq_certification_id q /\ cq_certification_id q = id) /\
  (forall later, dict_get id (ic_promotions (certification_run (ops ++ later) no_certifications)) = Some record).
Proof.
  intros Hget. destruct (run_earned ops) as [H1 H2]. pose proof (H2 _ _ Hget) as [Hid Hp]. split.
  - destruct Hp as (self & now & c & e & Hin & Hstored & -> & Hv & Hcommit & Had & Hnow & Hcomplete).
    apply H1 in Hstored as (_ & service & files & q & a & hash & Hcert & Ha & -> & ->).
    exists self, now, (certification_of service q a hash), service, files, q.
    simpl in Hv. apply (assess_pass files q a) in Hv; [|done]. unfold evidence_complete in Hcomplete. simpl in *.
    repeat match goal with H : _ && _ = true |- _ => apply andb_true_iff in H as [? ?] end.
    split_and!; try done; try lia. by apply negb_true_iff.
  - intros later. unfold certification_run. rewrite fold_left_app. by apply run_extends.
Qed.

(** ** A reason that stops the certification *)

Lemma mentions_elem lowered tokens reason token :
  reason ∈ lowered -> token ∈ tokens -> contains token reason = true -> mentions lowered tokens = true.
Proof.
  intros Hr Ht Hc. unfold mentions. apply existsb_exists. exists reason. split; [by apply list_elem_of_In|].
  apply existsb_exists. exists token. split; [by apply list_elem_of_In|done].
Qed.

(** A current funding rate whose interval is not the contract's is a failure of the
    sample, but [certify] raises instead of recording the verdict FAIL: the reason is held
    to the analysis of funding windows, which only funding history has. *)
Theorem funding_current_mismatch_raises {R : Type} {S : CertificationRepository R} self files q a (r : R) :
  assess files q = Ok a -> sp_capability (cq_spec q) = "funding_current" ->
  "funding interval mismatch" ∈ as_failures a ->
  exists m, certify self files q r = (r, Err (ValueError m)).
Proof.
  intros Ha Hcap Hin.
  assert (as_funding_interval a = None) as Hnone.
  { unfold assess in Ha. repeat (apply rbind_ok in Ha as (? & ? & Ha)). rewrite Hcap in *.
    injection Ha as <-. simpl. rewrite bool_decide_false in * by done. naive_solver. }
  unfold certify, pbind, plift. rewrite Ha. unfold validate_certification_reason_invariants, contradictions.
  rewrite Hnone, (mentions_elem _ ["interval mismatch"] "funding interval mismatch" "interval mismatch");
    [|by apply list_elem_of_fmap; exists "funding interval mismatch"; rewrite dict_fromkeys_elem; set_solver|set_solver|done].
  match goal with |- context [?xs ++ ?ys ++ reason_if (true && true) ?s] =>
    destruct (xs ++ ys ++ reason_if (true && true) s) eqn:E end; [|by eexists].
  by repeat apply app_eq_nil in E as [_ E].
Qed.

End Trust.
