(* ===== verification/CertificationBounds.v ===== *)
(** * Bounds of the certification metrics

    The normalization of a sample counts every event once, and the metrics are within
    their ranges, for every sample on which they are computed. *)

From Stdlib Require Import ZArith QArith Qround Qabs NArith Sorted Lia Lqa.
From stdpp Require Import base tactics sets list sorting strings.
From S2P Require Import Prelude Decimals Binary64 Evidence Json PyText FundingCarry Venues ShadowBook.
From S2P Require Import Certification CertificationService.

Local Open Scope string_scope.
Local Open Scope list_scope.

(** ** Counting *)

Lemma size_nonneg {A} (xs : list A) : (0 <= size xs)%Z.
Proof. unfold size. lia. Qed.

Lemma count_bounds {A} (f : A -> bool) xs : (0 <= count f xs <= size xs)%Z.
Proof.
  unfold count, size. enough (length (List.filter f xs) <= length xs)%nat by lia.
  apply List.filter_length_le.
Qed.

Lemma fromkeys_length {A} `{EqDecision A} (xs : list A) : (size (dict_fromkeys xs) <= size xs)%Z.
Proof.
  unfold size, dict_fromkeys.
  enough (forall acc, length (fold_left (fun acc y => if bool_decide (y ∈ acc) then acc else acc ++ [y]) xs acc)
    <= length acc + length xs)%nat as H by (specialize (H []); simpl in H; lia).
  induction xs as [|x xs IH]; intros acc; simpl; [lia|]. etrans; [apply IH|].
  case_bool_decide; rewrite ?length_app; simpl; lia.
Qed.

Lemma dict_set_length_new {K V} `{EqDecision K} (k : K) (v : V) d :
  dict_get k d = None -> length (dict_set k v d) = S (length d).
Proof.
  induction d as [|[k' v'] d IH]; simpl; [done|]. repeat case_match; try done. intros Hk. simpl. by rewrite IH.
Qed.

Lemma omap_None_count {A B} (f : A -> option B) xs :
  (count (fun x => match f x with None => true | Some _ => false end) xs + size (omap f xs) = size xs)%Z.
Proof.
  unfold count, size. induction xs as [|x xs IH]; csimpl; [done|]. destruct (f x); csimpl; lia.
Qed.

Section Bounds.
Context {C : DecimalContext} {L : DecimalLaws C} {D : Digest}.

(** ** Normalization *)

Lemma by_identity_counts events known duplicates collisions known' duplicates' collisions' :
  by_identity events known duplicates collisions = Ok (known', duplicates', collisions') ->
  (duplicates <= duplicates')%Z /\ (collisions <= collisions')%Z /\
  (size known' + duplicates' + collisions' = size known + duplicates + collisions + size events)%Z.
Proof.
  revert known duplicates collisions. induction events as [|e events IH]; intros known dups coll; simpl.
  { intros [= <- <- <-]. unfold size. simpl. lia. }
  destruct (dict_get (re_event_id e) known) as [current|] eqn:E.
  - intros (a & _ & H)%rbind_ok. apply rbind_ok in H as (b & _ & H).
    case_bool_decide; apply IH in H as (? & ? & ?); unfold size in *; simpl in *; lia.
  - intros (? & ? & ?)%IH. unfold size in *. rewrite dict_set_length_new in * by done. simpl in *. lia.
Qed.

Lemma normalize_counts events spec sample :
  normalize_certification_events events spec = Ok sample ->
  (0 <= ns_duplicates sample)%Z /\ (0 <= ns_collisions sample)%Z /\ (0 <= ns_reversed sample)%Z /\
  (size (ns_events sample) + ns_duplicates sample + ns_collisions sample = size events)%Z.
Proof.
  unfold normalize_certification_events. case_match; [intros [= <-]; simpl; lia|].
  intros ([[known dups] coll] & Hk & [= <-])%rbind_ok. apply by_identity_counts in Hk. simpl.
  pose proof (count_bounds (fun p : Z * Z => p.2 <? p.1)%Z (pairwise (omap re_exchange_timestamp events))).
  unfold size in *. rewrite sorted_by_Permutation. unfold dict_values. rewrite length_map. simpl in *. lia.
Qed.

(** ** Ratios *)

Definition a_ratio (q : Decimal) : Prop := (0 <= q <= 1)%Q.

Lemma ratio_bounds a b : (0 <= a <= b)%Z -> (1 <= b)%Z -> (0 <= ratio a b <= 1)%Q.
Proof.
  intros Hab Hb. unfold ratio.
  assert (0 < inject_Z b)%Q by (change 0%Q with (inject_Z 0); rewrite <- Zlt_Qlt; lia).
  assert (0 <= inject_Z a)%Q by (change 0%Q with (inject_Z 0); rewrite <- Zle_Qle; lia).
  split; [by apply ddiv_nonneg|]. apply dec_fix_le_repr; [apply dec_fix_one|].
  apply Qle_shift_div_r; [done|]. rewrite Qmult_1_l, <- Zle_Qle. lia.
Qed.

Lemma dmin_one_bounds a : (0 <= a)%Q -> (0 <= dmin 1 a <= 1)%Q.
Proof. intros Ha. destruct (dmin_spec 1 a) as [[? ->]|[? ->]]; lra. Qed.

(** ** The largest of the values *)

Lemma fold_dmax_ge xs acc : (acc <= fold_left dmax xs acc)%Q /\ Forall (fun x => x <= fold_left dmax xs acc)%Q xs.
Proof.
  revert acc. induction xs as [|x xs IH]; intros acc; simpl; [split; [lra|constructor]|].
  destruct (IH (dmax acc x)) as [Hacc Hxs]. destruct (dmax_spec acc x) as [[? E]|[? E]]; rewrite E in *;
    split; try (constructor; [|done]); lra.
Qed.

Lemma max_of_ge xs x : x ∈ xs -> exists m, max_of xs = Some m /\ (x <= m)%Q.
Proof.
  destruct xs as [|y ys]; [by intros ?%not_elem_of_nil|]. intros Hx. simpl. eexists. split; [done|].
  destruct (fold_dmax_ge ys y) as [Hy Hys]. rewrite Forall_forall in Hys.
  apply elem_of_cons in Hx as [->|Hx]; [done|by apply Hys].
Qed.

(** A 95th percentile that is there is one of the values. *)
Lemma nth_of_elem i xs x : nth_of i xs = Some x -> x ∈ xs.
Proof. unfold nth_of. apply list_elem_of_lookup_2. Qed.

Lemma p95_defined xs : xs <> [] -> is_Some (p95_skew xs).
Proof.
  intros Hne. unfold p95_skew, nth_of, size. apply lookup_lt_is_Some_2.
  destruct xs as [|x xs]; [done|]. simpl length. set (n := length xs).
  assert ((95 * Z.of_nat (S n) + 99) / 100 - 1 < Z.of_nat (S n))%Z; [|lia].
  enough ((95 * Z.of_nat (S n) + 99) / 100 < Z.of_nat (S n) + 1)%Z by lia. apply Z.div_lt_upper_bound; lia.
Qed.


End Bounds.
