(* ===== verification/CertificationSample.v ===== *)
(** * A sample certification

    A current funding rate of one venue, certified and promoted: the theorems on
    certification applied to it. *)

From Stdlib Require Import ZArith QArith NArith Lia.
From stdpp Require Import base tactics list strings.
From S2P Require Import Prelude Decimals Binary64 Evidence Json PyText FundingCarry Venues ShadowBook.
From S2P Require Import Certification CertificationService CertificationSafety CertificationTrust CertificationBounds.

Local Open Scope string_scope.
Local Open Scope list_scope.

Module CertificationSample.

#[local] Existing Instance default_context.

Definition hex64 : string := "0123456789abcdef0123456789abcdef0123456789abcdef0123456789abcdef".
#[local] Instance digest64 : Digest := {|
  sha256_hex := fun _ => hex64; hmac_hex := fun _ x => x;
  json_signal := fun _ => "s"; json_leg := fun _ _ _ => "l"; json_cross := fun _ _ _ => "c" |}.
#[local] Instance manifest_json : CertificationJson := fun id _ _ _ commit version => id +:+ commit +:+ version.

Definition t0 : Z := 1700000000000000.

Definition spec (interval : Z) : ContractValidationSpec := {|
  sp_venue := "bitget"; sp_capability := "funding_current"; sp_canonical_instrument_id := "BTC";
  sp_source_endpoint := "/funding"; sp_request_parameters := ["symbol"]; sp_response_fields := ["rate"];
  sp_symbol := "BTCUSDT"; sp_price_unit := "USDT"; sp_quantity_unit := "BTC"; sp_funding_unit := Some "decimal";
  sp_funding_interval_seconds := Some interval; sp_timestamp_unit := "milliseconds"; sp_timestamp_timezone := "UTC";
  sp_sequence_semantics := "none"; sp_snapshot_delta_semantics := "snapshot_only"; sp_null_behavior := "reject";
  sp_rate_limit_behavior := "retry"; sp_error_behavior := "raise"; sp_fixture_path := "fixture.json";
  sp_fixture_sha256 := hex64; sp_normalization_test_node_id := "tests::funding";
  sp_normalization_test_passed := true; sp_minimum_event_count := 1; sp_minimum_coverage_ratio := 1;
  sp_maximum_stale_ratio := 0; sp_maximum_clock_skew_ms := 500; sp_maximum_relative_error := 1 # 100;
  sp_maximum_absolute_error := None; sp_timestamp_semantic := REALTIME_EVENT;
  sp_minimum_clock_skew_sample_count := 1; sp_maximum_clock_skew_violation_ratio := 0 |}.

Definition funding_event : RawMarketEvent := Eval vm_compute in {|
  re_event_id := "e1"; re_venue := "bitget"; re_canonical_instrument_id := "BTC";
  re_venue_symbol := "BTCUSDT"; re_event_type := "funding_current"; re_exchange_timestamp := Some t0;
  re_received_at := t0 + 100000; re_available_at := t0 + 200000; re_sequence := None;
  re_connection_id := None; re_reconciliation_state := None; re_payload_sha256 := hex64;
  re_raw_payload := untext (dumps compact_style (JObject
    [(text "rate", jstr "0.0001"); (text "funding_interval_seconds", JInt 3600);
     (text "next_funding_at", jstr "2023-11-15T00:00:00+00:00");
     (text "funding_schedule_source", jstr "exchange")]));
  re_normalizer_version := "1"; re_capability_verification_run_id := "run";
  re_created_at := t0 + 200000; re_raw_payload_id := None; re_source_payload_sha256 := None;
  re_channel := "funding"; re_snapshot_sequence := None; re_delta_sequence := None;
  re_connection_epoch := Some 1%Z; re_timestamp_semantic := REALTIME_EVENT;
  re_availability_provenance := OBSERVED_RETRIEVAL_TIME; re_exchange_server_time := Some (t0 + 50000)%Z;
  re_timeframe := None |}.

Definition request (interval : Z) : CertifyRequest := {|
  cq_certification_id := "cert-1"; cq_spec := spec interval; cq_events := [funding_event];
  cq_sample_start := t0; cq_sample_end := t0 + 1000000;
  cq_cross_source_pairs := [(1 # 10000, 1 # 10000)]; cq_audit_passed := true; cq_audit_run_id := "audit-1";
  cq_ci_run_id := "ci-1"; cq_audit_artifact_sha256 := hex64 |}.

Definition files (path : string) : option string := if bool_decide (path = "fixture.json") then Some "{}" else None.
Definition commit : string := "0123456789abcdef0123456789abcdef01234567".
Definition service : CertificationService := {|
  cs_commit_sha := commit; cs_adapter_version := "1"; cs_source_version := "v2";
  cs_certification_ttl := 86400000000 |}.
Definition promotion_service : PromotionService := {| ps_commit_sha := commit; ps_adapter_version := "1" |}.

Definition certification : MarketDataCertification := {|
  mc_certification_id := "cert-1"; mc_venue := "bitget"; mc_capability := "funding_current";
  mc_canonical_instrument_id := "BTC"; mc_adapter_version := "1"; mc_commit_sha := commit;
  mc_source_version := "v2"; mc_contract_fixture_sha256 := hex64; mc_sample_start := t0;
  mc_sample_end := t0 + 1000000; mc_event_count := 1; mc_verdict := VERDICT_PASS;
  mc_verified_at := t0 + 1000000; mc_expires_at := t0 + 1000000 + 86400000000;
  mc_evidence_manifest_sha256 := hex64; mc_reasons := [] |}.

(** The sample passes. *)
Example sample_certified :
  (certify service files (request 3600) no_certifications).2 = Ok certification.
Proof. vm_compute. reflexivity. Qed.

Lemma certification_pass_iff_witness :
  mc_verdict certification = VERDICT_PASS <-> sample_passes files (request 3600).
Proof.
  apply (certification_pass_iff service files (request 3600) no_certifications
    (certify service files (request 3600) no_certifications).1).
  rewrite <- sample_certified. apply surjective_pairing.
Defined.

Definition ops : list CertificationOp :=
  [Certify service files (request 3600); Promote promotion_service (t0 + 2000000) certification].

Definition record : TrustedCapabilityRecord := {|
  tc_venue := "bitget"; tc_capability := "funding_current"; tc_support := LIVE_VERIFIED;
  tc_verification_run_id := "cert-1"; tc_verified_at := t0 + 1000000;
  tc_expires_at := t0 + 1000000 + 86400000000; tc_adapter_version := "1"; tc_source_version := "v2";
  tc_contract_fixture_sha256 := hex64; tc_audit_run_id := "audit-1"; tc_canonical_instrument_id := "BTC" |}.

Example record_stored : dict_get "cert-1" (ic_promotions (certification_run ops no_certifications)) = Some record.
Proof. vm_compute. reflexivity. Qed.

Lemma trusted_capability_earned_witness :
  dict_get "cert-1" (ic_promotions (certification_run ops no_certifications)) = Some record /\
  dict_get "cert-1" (ic_promotions (certification_run (ops ++ ops) no_certifications)) = Some record.
Proof. split; [exact record_stored|]. apply (trusted_capability_earned ops "cert-1" record record_stored). Defined.


(** The contract asks for another interval. *)
Lemma funding_current_mismatch_raises_witness :
  exists m, certify service files (request 28800) no_certifications = (no_certifications, Err (ValueError m)).
Proof.
  destruct (assess files (request 28800)) as [a|e] eqn:E; [|vm_compute in E; discriminate].
  apply (funding_current_mismatch_raises service files (request 28800) a no_certifications E eq_refl).
  vm_compute in E. injection E as <-. apply list_elem_of_here.
Defined.

End CertificationSample.
