(* ===== verification/ResearchStore.v ===== *)
(** * The research store (services/research/models.py, services/research/repository.py)

    Market events, their quarantine, the payloads they came from, the checkpoints of
    collected streams, finalized snapshots, instrument rules, collection failures, runs,
    artifacts and frozen hypotheses, with the operations of the in-memory repository.
    Checkpoints live in namespaces, so that test collectors share the events but not the
    checkpoints.  The cursors of the shadow runtime are in ShadowStore.v. *)

From Stdlib Require Import ZArith QArith NArith Lia.
From stdpp Require Import base tactics list strings.
From S2P Require Import Prelude Decimals Binary64 Evidence Websocket Json PyText FundingCarry ShadowBook.
From S2P Require Import Certification CertificationService.

Local Open Scope string_scope.
Local Open Scope list_scope.

(** ** Data *)

(** The values of [ReconciliationState] *)
Definition reconciliation_value (s : ReconciliationState) : string :=
  match s with
  | R_DISCONNECTED => "disconnected" | R_WAITING_FOR_SNAPSHOT => "waiting_for_snapshot"
  | R_BUFFERING_DELTAS => "buffering_deltas" | R_APPLYING_SNAPSHOT => "applying_snapshot"
  | R_REPLAYING_DELTAS => "replaying_deltas" | R_GAP_DETECTED => "gap_detected"
  | R_SNAPSHOT_LOADING => "snapshot_loading" | R_DELTA_REPLAYING => "delta_replaying"
  | R_SYNCHRONIZED => "synchronized" | R_DEGRADED => "degraded"
  end.

Record CollectionCheckpoint := {
  ck_venue : string;
  ck_stream_key : string;
  ck_connection_id : string;
  ck_last_sequence : option Z;
  ck_last_event_id : option string;
  ck_reconciliation_state : ReconciliationState;
  ck_checkpointed_at : Z;
  ck_canonical_instrument_id : string;
  ck_venue_symbol : string;
  ck_event_type : string;
  ck_channel : string;
  ck_last_available_at : option Z;
  ck_last_funding_at : option Z;
  ck_last_trade_id : option string;
  ck_snapshot_sequence : option Z;
  ck_delta_sequence : option Z;
  ck_connection_epoch : Z;
  ck_recovery_required : bool;
  ck_bootstrap_completed : bool;
  ck_recovery_started_at : option Z;
  ck_recovery_completed_at : option Z;
  ck_last_recovery_failure : option string;
  ck_checkpoint_namespace : string;
}.

Record CollectionFailureEvent := {
  fe_venue : string;
  fe_stream_key : string;
  fe_instrument : string;
  fe_event_type : string;
  fe_endpoint : string;
  fe_error_type : string;
  fe_error_message : string;
  fe_occurred_at : Z;
  fe_retry_count : Z;
}.

Record DataSnapshotManifest := {
  sm_snapshot_id : string;
  sm_cutoff_at : Z;
  sm_events : list (Z * string * string);
  sm_quarantine_count : Z;
  sm_quarantine_reasons : list (string * Z);
  sm_outage_event_ids : list string;
  sm_degraded_event_ids : list string;
  sm_content_sha256 : string;
  sm_manifest_sha256 : string;
  sm_finalized_at : Z;
  sm_eligibility_status : string;
  sm_eligibility_reasons : list string;
}.
#[export] Instance manifest_eq_dec : EqDecision DataSnapshotManifest.
Proof. solve_decision. Defined.

Inductive RuleVerificationStatus := RULE_UNKNOWN | RULE_OBSERVED | RULE_VERIFIED.
#[export] Instance rule_status_eq_dec : EqDecision RuleVerificationStatus.
Proof. solve_decision. Defined.
Definition rule_status_value (s : RuleVerificationStatus) : string :=
  match s with RULE_UNKNOWN => "unknown" | RULE_OBSERVED => "observed" | RULE_VERIFIED => "verified" end.

Inductive FeeTierKind := FEE_UNKNOWN | FEE_DEFAULT_PUBLIC | FEE_OPERATOR_ACCOUNT | FEE_HISTORICAL.
#[export] Instance fee_tier_eq_dec : EqDecision FeeTierKind.
Proof. solve_decision. Defined.

(** Decimals are kept reduced. *)
Record InstrumentRuleSnapshot := {
  ir_rule_snapshot_id : string;
  ir_venue : string;
  ir_canonical_instrument_id : string;
  ir_venue_symbol : string;
  ir_tick_size : option Decimal;
  ir_lot_size : option Decimal;
  ir_minimum_quantity : option Decimal;
  ir_minimum_notional : option Decimal;
  ir_maker_fee : option Decimal;
  ir_taker_fee : option Decimal;
  ir_maker_rebate : option Decimal;
  ir_funding_interval : option Z;
  ir_margin_asset : option string;
  ir_source_endpoint : string;
  ir_source_payload_sha256 : string;
  ir_retrieved_at : Z;
  ir_valid_from : Z;
  ir_valid_until : option Z;
  ir_field_evidence : list (string * list (string * option string));
  ir_fee_tier : FeeTierKind;
  ir_verification_status : RuleVerificationStatus;
}.
#[local] Instance rule_decimal_eq_dec : EqDecision Q.
Proof. solve_decision. Defined.
#[export] Instance instrument_rule_eq_dec : EqDecision InstrumentRuleSnapshot.
Proof. solve_decision. Defined.

(** [__post_init__] *)
Definition InstrumentRuleSnapshot_validate (r : InstrumentRuleSnapshot) : result InstrumentRuleSnapshot :=
  require! forallb nonempty [ir_rule_snapshot_id r; ir_venue r; ir_canonical_instrument_id r; ir_venue_symbol r;
                             ir_source_endpoint r]
    else ValueError "instrument rule snapshot identities are required";
  require! (String.length (ir_source_payload_sha256 r) =? 64)%nat
    else ValueError "source_payload_sha256 must be a SHA-256 digest";
  Ok r.

Record ResearchRunIdentity := {
  ri_run_id : string;
  ri_commit_sha : string;
  ri_config_sha256 : string;
  ri_data_snapshot_id : string;
  ri_hypothesis_version : string;
  ri_strategy_id : string;
  ri_strategy_version : string;
  ri_created_at : Z;
}.
#[export] Instance run_identity_eq_dec : EqDecision ResearchRunIdentity.
Proof. solve_decision. Defined.

(** [any(character not in "0123456789abcdef" for character in s.lower())] *)
Definition hexadecimal (s : string) : bool :=
  forallb (fun c => bool_decide (c ∈ text "0123456789abcdef")) (text (lower_string s)).

(** [__post_init__] *)
Definition ResearchRunIdentity_validate (r : ResearchRunIdentity) : result ResearchRunIdentity :=
  require! forallb nonempty [ri_run_id r; ri_commit_sha r; ri_config_sha256 r; ri_data_snapshot_id r;
                             ri_hypothesis_version r; ri_strategy_id r; ri_strategy_version r]
    else ValueError "research run identity fields are required";
  require! (String.length (ri_commit_sha r) =? 40)%nat && hexadecimal (ri_commit_sha r)
    else ValueError "commit_sha must be a 40-character hexadecimal SHA";
  require! (String.length (ri_config_sha256 r) =? 64)%nat && hexadecimal (ri_config_sha256 r)
    else ValueError "config_sha256 must be a SHA-256 digest";
  Ok r.

Record FrozenHypothesis := {
  fh_hypothesis_version : string;
  fh_strategy_id : string;
  fh_parameter_grid : list (string * list json);
  fh_primary_metric : string;
  fh_secondary_metrics : list string;
  fh_acceptance_thresholds : list (string * Decimal);
  fh_frozen_at : Z;
  fh_content_sha256 : string;
}.

(** ** The in-memory repository *)

Record RawPayload := {
  rp_payload_id : string;
  rp_venue : string;
  rp_source_endpoint : string;
  rp_raw_payload : string;
  rp_received_at : Z;
}.

Record ResearchStore := {
  rs_events : list (string * RawMarketEvent);
  rs_quarantined : list (RawMarketEvent * string * Z);
  rs_snapshots : list (string * (Z * Z * string));
  rs_snapshot_manifests : list (string * DataSnapshotManifest);
  rs_experimental_events : list (string * (RawMarketEvent * string));
  rs_raw_payloads : list (string * RawPayload);
  rs_checkpoints : list ((string * string * string) * CollectionCheckpoint);
  rs_rules : list (string * InstrumentRuleSnapshot);
  rs_failures : list CollectionFailureEvent;
  rs_runs : list (string * (ResearchRunIdentity * string * option string));
  rs_artifacts : list (string * string * string * string * string * Z);
  rs_hypotheses : list ((string * string) * FrozenHypothesis);
}.

Definition empty_store : ResearchStore := {|
  rs_events := []; rs_quarantined := []; rs_snapshots := []; rs_snapshot_manifests := [];
  rs_experimental_events := []; rs_raw_payloads := []; rs_checkpoints := []; rs_rules := []; rs_failures := [];
  rs_runs := []; rs_artifacts := []; rs_hypotheses := [] |}.

Definition set_rs_events v (s : ResearchStore) : ResearchStore := {|
  rs_events := v; rs_quarantined := rs_quarantined s; rs_snapshots := rs_snapshots s; rs_snapshot_manifests :=
  rs_snapshot_manifests s; rs_experimental_events := rs_experimental_events s; rs_raw_payloads := rs_raw_payloads
  s; rs_checkpoints := rs_checkpoints s; rs_rules := rs_rules s; rs_failures := rs_failures s; rs_runs := rs_runs
  s; rs_artifacts := rs_artifacts s; rs_hypotheses := rs_hypotheses s |}.
Definition set_rs_quarantined v (s : ResearchStore) : ResearchStore := {|
  rs_events := rs_events s; rs_quarantined := v; rs_snapshots := rs_snapshots s; rs_snapshot_manifests :=
  rs_snapshot_manifests s; rs_experimental_events := rs_experimental_events s; rs_raw_payloads := rs_raw_payloads
  s; rs_checkpoints := rs_checkpoints s; rs_rules := rs_rules s; rs_failures := rs_failures s; rs_runs := rs_runs
  s; rs_artifacts := rs_artifacts s; rs_hypotheses := rs_hypotheses s |}.
Definition set_rs_snapshots v (s : ResearchStore) : ResearchStore := {|
  rs_events := rs_events s; rs_quarantined := rs_quarantined s; rs_snapshots := v; rs_snapshot_manifests :=
  rs_snapshot_manifests s; rs_experimental_events := rs_experimental_events s; rs_raw_payloads := rs_raw_payloads
  s; rs_checkpoints := rs_checkpoints s; rs_rules := rs_rules s; rs_failures := rs_failures s; rs_runs := rs_runs
  s; rs_artifacts := rs_artifacts s; rs_hypotheses := rs_hypotheses s |}.
Definition set_rs_snapshot_manifests v (s : ResearchStore) : ResearchStore := {|
  rs_events := rs_events s; rs_quarantined := rs_quarantined s; rs_snapshots := rs_snapshots s;
  rs_snapshot_manifests := v; rs_experimental_events := rs_experimental_events s; rs_raw_payloads :=
  rs_raw_payloads s; rs_checkpoints := rs_checkpoints s; rs_rules := rs_rules s; rs_failures := rs_failures s;
  rs_runs := rs_runs s; rs_artifacts := rs_artifacts s; rs_hypotheses := rs_hypotheses s |}.
Definition set_rs_experimental_events v (s : ResearchStore) : ResearchStore := {|
  rs_events := rs_events s; rs_quarantined := rs_quarantined s; rs_snapshots := rs_snapshots s;
  rs_snapshot_manifests := rs_snapshot_manifests s; rs_experimental_events := v; rs_raw_payloads :=
  rs_raw_payloads s; rs_checkpoints := rs_checkpoints s; rs_rules := rs_rules s; rs_failures := rs_failures s;
  rs_runs := rs_runs s; rs_artifacts := rs_artifacts s; rs_hypotheses := rs_hypotheses s |}.
Definition set_rs_raw_payloads v (s : ResearchStore) : ResearchStore := {|
  rs_events := rs_events s; rs_quarantined := rs_quarantined s; rs_snapshots := rs_snapshots s;
  rs_snapshot_manifests := rs_snapshot_manifests s; rs_experimental_events := rs_experimental_events s;
  rs_raw_payloads := v; rs_checkpoints := rs_checkpoints s; rs_rules := rs_rules s; rs_failures := rs_failures s;
  rs_runs := rs_runs s; rs_artifacts := rs_artifacts s; rs_hypotheses := rs_hypotheses s |}.
Definition set_rs_checkpoints v (s : ResearchStore) : ResearchStore := {|
  rs_events := rs_events s; rs_quarantined := rs_quarantined s; rs_snapshots := rs_snapshots s;
  rs_snapshot_manifests := rs_snapshot_manifests s; rs_experimental_events := rs_experimental_events s;
  rs_raw_payloads := rs_raw_payloads s; rs_checkpoints := v; rs_rules := rs_rules s; rs_failures := rs_failures s;
  rs_runs := rs_runs s; rs_artifacts := rs_artifacts s; rs_hypotheses := rs_hypotheses s |}.
Definition set_rs_rules v (s : ResearchStore) : ResearchStore := {|
  rs_events := rs_events s; rs_quarantined := rs_quarantined s; rs_snapshots := rs_snapshots s;
  rs_snapshot_manifests := rs_snapshot_manifests s; rs_experimental_events := rs_experimental_events s;
  rs_raw_payloads := rs_raw_payloads s; rs_checkpoints := rs_checkpoints s; rs_rules := v; rs_failures :=
  rs_failures s; rs_runs := rs_runs s; rs_artifacts := rs_artifacts s; rs_hypotheses := rs_hypotheses s |}.
Definition set_rs_failures v (s : ResearchStore) : ResearchStore := {|
  rs_events := rs_events s; rs_quarantined := rs_quarantined s; rs_snapshots := rs_snapshots s;
  rs_snapshot_manifests := rs_snapshot_manifests s; rs_experimental_events := rs_experimental_events s;
  rs_raw_payloads := rs_raw_payloads s; rs_checkpoints := rs_checkpoints s; rs_rules := rs_rules s; rs_failures :=
  v; rs_runs := rs_runs s; rs_artifacts := rs_artifacts s; rs_hypotheses := rs_hypotheses s |}.
Definition set_rs_runs v (s : ResearchStore) : ResearchStore := {|
  rs_events := rs_events s; rs_quarantined := rs_quarantined s; rs_snapshots := rs_snapshots s;
  rs_snapshot_manifests := rs_snapshot_manifests s; rs_experimental_events := rs_experimental_events s;
  rs_raw_payloads := rs_raw_payloads s; rs_checkpoints := rs_checkpoints s; rs_rules := rs_rules s; rs_failures :=
  rs_failures s; rs_runs := v; rs_artifacts := rs_artifacts s; rs_hypotheses := rs_hypotheses s |}.
Definition set_rs_artifacts v (s : ResearchStore) : ResearchStore := {|
  rs_events := rs_events s; rs_quarantined := rs_quarantined s; rs_snapshots := rs_snapshots s;
  rs_snapshot_manifests := rs_snapshot_manifests s; rs_experimental_events := rs_experimental_events s;
  rs_raw_payloads := rs_raw_payloads s; rs_checkpoints := rs_checkpoints s; rs_rules := rs_rules s; rs_failures :=
  rs_failures s; rs_runs := rs_runs s; rs_artifacts := v; rs_hypotheses := rs_hypotheses s |}.
Definition set_rs_hypotheses v (s : ResearchStore) : ResearchStore := {|
  rs_events := rs_events s; rs_quarantined := rs_quarantined s; rs_snapshots := rs_snapshots s;
  rs_snapshot_manifests := rs_snapshot_manifests s; rs_experimental_events := rs_experimental_events s;
  rs_raw_payloads := rs_raw_payloads s; rs_checkpoints := rs_checkpoints s; rs_rules := rs_rules s; rs_failures :=
  rs_failures s; rs_runs := rs_runs s; rs_artifacts := rs_artifacts s; rs_hypotheses := v |}.

(** *** Events *)

Definition add_raw_event (e : RawMarketEvent) : M ResearchStore bool := fun s =>
  if dict_mem (re_event_id e) (rs_events s) then (s, Ok false)
  else (set_rs_events (dict_set (re_event_id e) e (rs_events s)) s, Ok true).

Definition get_raw_event (id : string) : M ResearchStore (option RawMarketEvent) := fun s =>
  (s, Ok (dict_get id (rs_events s))).

Definition raw_events (s : ResearchStore) : list RawMarketEvent := dict_values (rs_events s).

Definition add_experimental_event (e : RawMarketEvent) (support : string) : M ResearchStore bool := fun s =>
  if dict_mem (re_event_id e) (rs_experimental_events s) then (s, Ok false)
  else (set_rs_experimental_events (dict_set (re_event_id e) (e, support) (rs_experimental_events s)) s, Ok true).

Definition get_experimental_event (id : string) : M ResearchStore (option RawMarketEvent) := fun s =>
  (s, Ok (option_map fst (dict_get id (rs_experimental_events s)))).

Definition experimental_event_count (s : ResearchStore) : Z := size (rs_experimental_events s).
Definition list_experimental_events (s : ResearchStore) : list RawMarketEvent :=
  map fst (dict_values (rs_experimental_events s)).

(** *** Payloads *)

Definition save_raw_payload (payload_sha256 : string) (p : RawPayload) : M ResearchStore bool := fun s =>
  if dict_mem payload_sha256 (rs_raw_payloads s) then (s, Ok false)
  else (set_rs_raw_payloads (dict_set payload_sha256 p (rs_raw_payloads s)) s, Ok true).

(** The payloads of the events of finalized snapshots; [None]: an event is missing
    ([KeyError]). *)
Definition member_id (m : Z * string * string) : string := m.1.2.
Definition snapshot_members (s : ResearchStore) : list string :=
  flat_map (fun m => map member_id (sm_events m)) (dict_values (rs_snapshot_manifests s)).

Definition protected_hash (s : ResearchStore) (id : string) : result (list string) :=
  match dict_get id (rs_events s) with
  | Some e => Ok (match re_source_payload_sha256 e with Some h => [h] | None => [] end)
  | None => Err KeyError
  end.

Definition purge_raw_payloads_before (cutoff_at : Z) : M ResearchStore Z := fun s =>
  match gather (protected_hash s) (snapshot_members s) with
  | Err e => (s, Err e)
  | Ok protected =>
      let removable (kv : string * RawPayload) :=
        (rp_received_at kv.2 <? cutoff_at)%Z && negb (bool_decide (kv.1 ∈ protected)) in
      (set_rs_raw_payloads (List.filter (fun kv => negb (removable kv)) (rs_raw_payloads s)) s,
       Ok (count removable (rs_raw_payloads s)))
  end.

(** *** Quarantine and failures *)

Definition quarantine (e : RawMarketEvent) (reason : string) (at_ : Z) : M ResearchStore unit :=
  pmodify (fun s => set_rs_quarantined (rs_quarantined s ++ [(e, reason, at_)]) s).

Definition quarantine_count (s : ResearchStore) (event_ids : option (list string)) : Z :=
  count (fun q : RawMarketEvent * string * Z =>
    match event_ids with Some ids => bool_decide (re_event_id q.1.1 ∈ ids) | None => true end) (rs_quarantined s).

(** [quarantine_summary]: the ids quarantined by then, and how often for each reason *)
Definition reason_counts (reasons : list string) : list (string * Z) :=
  fold_left (fun counts reason => dict_set reason (default 0 (dict_get reason counts) + 1)%Z counts) reasons [].
Definition quarantine_summary (s : ResearchStore) (cutoff_at : Z) : list string * list (string * Z) :=
  let records := List.filter (fun q : RawMarketEvent * string * Z => (q.2 <=? cutoff_at)%Z) (rs_quarantined s) in
  (sorted_by string_leb (dict_fromkeys (map (fun q => re_event_id q.1.1) records)),
   sorted_by (fun a b : string * Z => string_leb a.1 b.1) (reason_counts (map (fun q => q.1.2) records))).

Definition save_collection_failure (f : CollectionFailureEvent) : M ResearchStore unit :=
  pmodify (fun s => set_rs_failures (rs_failures s ++ [f]) s).

(** *** Snapshots *)

Definition save_snapshot (id : string) (cutoff_at event_count : Z) (content_sha256 : string)
  : M ResearchStore unit := fun s =>
  let value := (cutoff_at, event_count, content_sha256) in
  let stored := (set_rs_snapshots (dict_set id value (rs_snapshots s)) s, Ok tt) in
  match dict_get id (rs_snapshots s) with
  | Some existing => if bool_decide (existing = value) then stored
                     else (s, Err (ValueError "snapshot id is already bound to different data"))
  | None => stored
  end.

Definition member_stored (s : ResearchStore) (m : Z * string * string) : bool :=
  match dict_get (member_id m) (rs_events s) with
  | Some e => bool_decide (re_payload_sha256 e = m.2)
  | None => false
  end.

Definition finalize_snapshot (m : DataSnapshotManifest) : M ResearchStore unit := fun s =>
  match dict_get (sm_snapshot_id m) (rs_snapshot_manifests s) with
  | Some current => (s, if bool_decide (current = m) then Ok tt
                        else Err (ValueError "finalized snapshot is immutable"))
  | None =>
      if negb (forallb (member_stored s) (sm_events m))
      then (s, Err (ValueError "snapshot membership references missing or changed event"))
      else (run! save_snapshot (sm_snapshot_id m) (sm_cutoff_at m) (size (sm_events m)) (sm_content_sha256 m);
            pmodify (fun s => set_rs_snapshot_manifests
                                (dict_set (sm_snapshot_id m) m (rs_snapshot_manifests s)) s)) s
  end.

Definition snapshot_manifest (s : ResearchStore) (id : string) : option DataSnapshotManifest :=
  dict_get id (rs_snapshot_manifests s).

Definition stored_event (s : ResearchStore) (id : string) : result (list RawMarketEvent) :=
  match dict_get id (rs_events s) with Some e => Ok [e] | None => Err KeyError end.

Definition snapshot_events (s : ResearchStore) (id : string) : result (list RawMarketEvent) :=
  match snapshot_manifest s id with
  | None => Ok []
  | Some m => gather (fun member => stored_event s (member_id member)) (sm_events m)
  end.

(** *** Checkpoints, by namespace *)

Definition save_checkpoint (c : CollectionCheckpoint) : M ResearchStore unit :=
  pmodify (fun s => set_rs_checkpoints
    (dict_set (ck_checkpoint_namespace c, ck_venue c, ck_stream_key c) c (rs_checkpoints s)) s).

Definition get_checkpoint (s : ResearchStore) (namespace venue stream_key : string) : option CollectionCheckpoint :=
  dict_get (namespace, venue, stream_key) (rs_checkpoints s).

Definition list_checkpoints (s : ResearchStore) (namespace : string) : list CollectionCheckpoint :=
  map snd (List.filter (fun kv : (string * string * string) * CollectionCheckpoint =>
    bool_decide (kv.1.1.1 = namespace)) (rs_checkpoints s)).

(** [NamespacedResearchRepository.__init__] *)
Definition NamespacedResearchRepository_new (namespace : string) : result string :=
  require! nonempty namespace && negb (bool_decide (namespace = "production"))
    else ValueError "test collectors require a non-production checkpoint namespace";
  Ok namespace.

(** *** Rules, runs, hypotheses, artifacts *)

(** [==] on rules: the order of the keys of their evidence does not matter. *)
Definition sorted_items {A} (d : list (string * A)) : list (string * A) :=
  sorted_by (fun a b => string_leb a.1 b.1) d.
Definition sorted_evidence (evidence : list (string * list (string * option string))) :=
  sorted_items (map (fun kv => (kv.1, sorted_items kv.2)) evidence).
Definition with_evidence (r : InstrumentRuleSnapshot) (evidence : list (string * list (string * option string)))
  : InstrumentRuleSnapshot := {|
  ir_rule_snapshot_id := ir_rule_snapshot_id r; ir_venue := ir_venue r;
  ir_canonical_instrument_id := ir_canonical_instrument_id r; ir_venue_symbol := ir_venue_symbol r;
  ir_tick_size := ir_tick_size r; ir_lot_size := ir_lot_size r; ir_minimum_quantity := ir_minimum_quantity r;
  ir_minimum_notional := ir_minimum_notional r; ir_maker_fee := ir_maker_fee r; ir_taker_fee := ir_taker_fee r;
  ir_maker_rebate := ir_maker_rebate r; ir_funding_interval := ir_funding_interval r;
  ir_margin_asset := ir_margin_asset r; ir_source_endpoint := ir_source_endpoint r;
  ir_source_payload_sha256 := ir_source_payload_sha256 r; ir_retrieved_at := ir_retrieved_at r;
  ir_valid_from := ir_valid_from r; ir_valid_until := ir_valid_until r; ir_field_evidence := evidence;
  ir_fee_tier := ir_fee_tier r; ir_verification_status := ir_verification_status r |}.
Definition canonical_rule (r : InstrumentRuleSnapshot) : InstrumentRuleSnapshot :=
  with_evidence r (sorted_evidence (ir_field_evidence r)).

Definition save_instrument_rule (r : InstrumentRuleSnapshot) : M ResearchStore unit := fun s =>
  let stored := (set_rs_rules (dict_set (ir_rule_snapshot_id r) r (rs_rules s)) s, Ok tt) in
  match dict_get (ir_rule_snapshot_id r) (rs_rules s) with
  | Some current => if bool_decide (canonical_rule current = canonical_rule r) then stored
                    else (s, Err (ValueError "instrument rule snapshot is immutable"))
  | None => stored
  end.

Definition instrument_rules (s : ResearchStore) (ids : list string) : result (list InstrumentRuleSnapshot) :=
  gather (fun id => match dict_get id (rs_rules s) with Some r => Ok [r] | None => Err KeyError end) ids.

Definition instrument_rules_at (s : ResearchStore) (cutoff_at : Z) : list InstrumentRuleSnapshot :=
  List.filter (fun r => (ir_valid_from r <=? cutoff_at)%Z &&
    match ir_valid_until r with Some t => (cutoff_at <? t)%Z | None => true end) (dict_values (rs_rules s)).

Definition save_run (r : ResearchRunIdentity) (status : string) (verdict : option string)
  : M ResearchStore unit := fun s =>
  let stored := (set_rs_runs (dict_set (ri_run_id r) (r, status, verdict) (rs_runs s)) s, Ok tt) in
  match dict_get (ri_run_id r) (rs_runs s) with
  | Some existing => if bool_decide (existing.1.1 = r) then stored
                     else (s, Err (ValueError "run id is already bound to a different identity"))
  | None => stored
  end.

Definition freeze_hypothesis (h : FrozenHypothesis) : M ResearchStore unit := fun s =>
  let key := (fh_strategy_id h, fh_hypothesis_version h) in
  let stored := (set_rs_hypotheses (dict_set key h (rs_hypotheses s)) s, Ok tt) in
  match dict_get key (rs_hypotheses s) with
  | Some existing => if bool_decide (fh_content_sha256 existing = fh_content_sha256 h) then stored
                     else (s, Err (ValueError "parameter changes require a new hypothesis_version"))
  | None => stored
  end.

Definition save_artifact (run_id data_snapshot_id artifact_type path content_sha256 : string) (created_at : Z)
  : M ResearchStore unit :=
  pmodify (fun s => set_rs_artifacts
    (rs_artifacts s ++ [(run_id, data_snapshot_id, artifact_type, path, content_sha256, created_at)]) s).
