(* ===== verification/Collector.v ===== *)
(** * The research collector (services/research/data_operations.py)

    What a collected envelope becomes: an event with a canonical identity, stored as a
    production event when the capability of its venue is trusted and as an experimental
    one otherwise, quarantined when it is malformed, conflicting, out of sequence, of an
    old connection or not synchronized, with a checkpoint per stream.  The gate of
    capabilities is a parameter, [trusted_gate] the one of the code; the clock, the fresh
    connection id and the measured durations are arguments ([Readings]).  The namespace of
    the checkpoints is "production" for the plain repository, and that of the run for
    [NamespacedResearchRepository]. *)

From Stdlib Require Import ZArith QArith NArith Lia.
From stdpp Require Import base tactics list strings.
From S2P Require Import Prelude Decimals Binary64 Evidence Venues Websocket Json PyText FundingCarry ShadowBook.
From S2P Require Import Certification ResearchStore.

Local Open Scope string_scope.
Local Open Scope list_scope.

(** ** Envelopes and streams *)

Definition CONTROL_EVENT_TYPES : list string :=
  ["venue_health"; "websocket_disconnect"; "sequence_gap"; "stale_stream"; "clock_skew"; "snapshot_recovery"].
Definition BOOK_EVENT_TYPES : list string := ["orderbook_snapshot"; "orderbook_delta"].
Definition EVENT_CAPABILITIES : list (string * string) :=
  map (fun c => (c, c)) ["ohlcv"; "trade"; "orderbook_snapshot"; "orderbook_delta"; "funding_current";
                         "funding_history"; "open_interest"; "mark_price"; "index_price"].

(** [_timing_semantics] *)
Definition timing_semantics (event_type channel : string) : TimestampSemantic * AvailabilityProvenance :=
  if bool_decide (event_type = "funding_history") then (FUNDING_EFFECTIVE_TIME, OBSERVED_RETRIEVAL_TIME)
  else if bool_decide (event_type = "ohlcv") then (CANDLE_OPEN_TIME, OBSERVED_RETRIEVAL_TIME)
  else if bool_decide (event_type = "trade") && negb (bool_decide (channel ∈ ["trades"; "websocket"]))
  then (SEMANTIC_HISTORICAL_EFFECTIVE_TIME, OBSERVED_RETRIEVAL_TIME)
  else if bool_decide (event_type ∈ ["trade"; "mark_price"; "index_price"; "orderbook_snapshot"; "orderbook_delta"])
  then (REALTIME_EVENT, OBSERVED_RETRIEVAL_TIME)
  else if bool_decide (event_type = "funding_current") then (RECEIPT_ONLY, OBSERVED_RETRIEVAL_TIME)
  else (RECEIPT_ONLY, UNKNOWN).

Record CollectedEnvelope := {
  ev_venue : string;
  ev_canonical_instrument_id : string;
  ev_venue_symbol : string;
  ev_event_type : string;
  ev_source_endpoint : string;
  ev_raw_payload : string;
  ev_exchange_timestamp : option Z;
  ev_received_at : Z;
  ev_available_at : Z;
  ev_channel : string;
  ev_sequence : option Z;
  ev_connection_id : option string;
  ev_reconciliation_state : option ReconciliationState;
  ev_stable_event_key : option string;
  ev_normalized_payload : option string;
  ev_trade_id : option string;
  ev_snapshot_sequence : option Z;
  ev_delta_sequence : option Z;
  ev_previous_delta_sequence : option Z;
  ev_connection_epoch : Z;
  ev_recovery_completed : bool;
  ev_stream_semantics : option OrderBookStreamSemantics;
  ev_bootstrap_completed : bool;
  ev_recovery_started_at : option Z;
  ev_recovery_completed_at : option Z;
  ev_last_recovery_failure : option string;
  ev_logical_stream_event_type : option string;
  ev_timestamp_semantic : TimestampSemantic;
  ev_availability_provenance : AvailabilityProvenance;
  ev_exchange_server_time : option Z;
  ev_timeframe : option string;
}.

Record ResearchStreamIdentity := {
  si_venue : string;
  si_canonical_instrument_id : string;
  si_venue_symbol : string;
  si_event_type : string;
  si_channel : string;
}.

Definition stream_key_of (i : ResearchStreamIdentity) : string :=
  si_venue i +:+ ":" +:+ si_event_type i +:+ ":" +:+ si_venue_symbol i +:+ ":" +:+ si_channel i.

(** [s or otherwise] *)
Definition text_or (s : option string) (otherwise : string) : string :=
  match s with Some s => if nonempty s then s else otherwise | None => otherwise end.

Definition is_book (e : CollectedEnvelope) : bool := bool_decide (ev_event_type e ∈ BOOK_EVENT_TYPES).

Definition stream_identity (e : CollectedEnvelope) : ResearchStreamIdentity := {|
  si_venue := ev_venue e; si_canonical_instrument_id := ev_canonical_instrument_id e;
  si_venue_symbol := ev_venue_symbol e;
  si_event_type := text_or (ev_logical_stream_event_type e) (if is_book e then "orderbook" else ev_event_type e);
  si_channel := ev_channel e |}.

(** [envelope.delta_sequence if envelope.delta_sequence is not None else envelope.sequence] *)
Definition envelope_sequence (e : CollectedEnvelope) : option Z :=
  match ev_delta_sequence e with Some n => Some n | None => ev_sequence e end.

(** ** The gate *)

Record CapabilityDecision := {
  cd_support : CapabilitySupport;
  cd_verification_run_id : string;
}.
Definition production_eligible (d : CapabilityDecision) : bool := bool_decide (cd_support d = LIVE_VERIFIED).

(** [decide(venue, capability, canonical_instrument_id, now)] *)
Definition CapabilityGate : Type := string -> string -> string -> Z -> CapabilityDecision.

(** [TrustedResearchCapabilityGate.decide] *)
Definition trusted_gate (registry : TrustedCapabilityRegistry) : CapabilityGate :=
  fun venue capability instrument now =>
    match require_live_verified registry venue capability now instrument with
    | Ok record => {| cd_support := tc_support record; cd_verification_run_id := tc_verification_run_id record |}
    | Err _ => {| cd_support := IMPLEMENTED; cd_verification_run_id := EmptyString |}
    end.

(** ** Metrics *)

Record CollectorHealthMetrics := {
  hm_events : list ((string * string * string) * Z);
  hm_disconnect_count : Z;
  hm_reconnect_count : Z;
  hm_sequence_gaps : Z;
  hm_snapshot_recoveries : Z;
  hm_stale_duration_seconds : Q;
  hm_quarantine_count : Z;
  hm_experimental_count : Z;
  hm_production_count : Z;
  hm_duplicate_count : Z;
  hm_checkpoint_lag_seconds : Q;
  hm_production_by_venue : list (string * Z);
  hm_experimental_by_venue : list (string * Z);
  hm_queue_peak : Z;
  hm_database_write_count : Z;
  hm_database_write_latency_total_seconds : Q;
  hm_database_write_latency_peak_seconds : Q;
  hm_task_count_start : Z;
  hm_task_count_end : Z;
  hm_task_count_peak : Z;
  hm_rss_start_bytes : Z;
  hm_rss_end_bytes : Z;
  hm_rss_peak_bytes : Z;
}.

Definition new_metrics : CollectorHealthMetrics := {|
  hm_events := []; hm_disconnect_count := 0; hm_reconnect_count := 0; hm_sequence_gaps := 0;
  hm_snapshot_recoveries := 0; hm_stale_duration_seconds := 0; hm_quarantine_count := 0; hm_experimental_count :=
  0; hm_production_count := 0; hm_duplicate_count := 0; hm_checkpoint_lag_seconds := 0; hm_production_by_venue :=
  []; hm_experimental_by_venue := []; hm_queue_peak := 0; hm_database_write_count := 0;
  hm_database_write_latency_total_seconds := 0; hm_database_write_latency_peak_seconds := 0; hm_task_count_start
  := 0; hm_task_count_end := 0; hm_task_count_peak := 0; hm_rss_start_bytes := 0; hm_rss_end_bytes := 0;
  hm_rss_peak_bytes := 0 |}.

Definition set_hm_events v (m : CollectorHealthMetrics) : CollectorHealthMetrics := {|
  hm_events := v; hm_disconnect_count := hm_disconnect_count m; hm_reconnect_count := hm_reconnect_count m;
  hm_sequence_gaps := hm_sequence_gaps m; hm_snapshot_recoveries := hm_snapshot_recoveries m;
  hm_stale_duration_seconds := hm_stale_duration_seconds m; hm_quarantine_count := hm_quarantine_count m;
  hm_experimental_count := hm_experimental_count m; hm_production_count := hm_production_count m;
  hm_duplicate_count := hm_duplicate_count m; hm_checkpoint_lag_seconds := hm_checkpoint_lag_seconds m;
  hm_production_by_venue := hm_production_by_venue m; hm_experimental_by_venue := hm_experimental_by_venue m;
  hm_queue_peak := hm_queue_peak m; hm_database_write_count := hm_database_write_count m;
  hm_database_write_latency_total_seconds := hm_database_write_latency_total_seconds m;
  hm_database_write_latency_peak_seconds := hm_database_write_latency_peak_seconds m; hm_task_count_start :=
  hm_task_count_start m; hm_task_count_end := hm_task_count_end m; hm_task_count_peak := hm_task_count_peak m;
  hm_rss_start_bytes := hm_rss_start_bytes m; hm_rss_end_bytes := hm_rss_end_bytes m; hm_rss_peak_bytes :=
  hm_rss_peak_bytes m |}.
Definition set_hm_disconnect_count v (m : CollectorHealthMetrics) : CollectorHealthMetrics := {|
  hm_events := hm_events m; hm_disconnect_count := v; hm_reconnect_count := hm_reconnect_count m; hm_sequence_gaps
  := hm_sequence_gaps m; hm_snapshot_recoveries := hm_snapshot_recoveries m; hm_stale_duration_seconds :=
  hm_stale_duration_seconds m; hm_quarantine_count := hm_quarantine_count m; hm_experimental_count :=
  hm_experimental_count m; hm_production_count := hm_production_count m; hm_duplicate_count := hm_duplicate_count
  m; hm_checkpoint_lag_seconds := hm_checkpoint_lag_seconds m; hm_production_by_venue := hm_production_by_venue m;
  hm_experimental_by_venue := hm_experimental_by_venue m; hm_queue_peak := hm_queue_peak m;
  hm_database_write_count := hm_database_write_count m; hm_database_write_latency_total_seconds :=
  hm_database_write_latency_total_seconds m; hm_database_write_latency_peak_seconds :=
  hm_database_write_latency_peak_seconds m; hm_task_count_start := hm_task_count_start m; hm_task_count_end :=
  hm_task_count_end m; hm_task_count_peak := hm_task_count_peak m; hm_rss_start_bytes := hm_rss_start_bytes m;
  hm_rss_end_bytes := hm_rss_end_bytes m; hm_rss_peak_bytes := hm_rss_peak_bytes m |}.
Definition set_hm_reconnect_count v (m : CollectorHealthMetrics) : CollectorHealthMetrics := {|
  hm_events := hm_events m; hm_disconnect_count := hm_disconnect_count m; hm_reconnect_count := v;
  hm_sequence_gaps := hm_sequence_gaps m; hm_snapshot_recoveries := hm_snapshot_recoveries m;
  hm_stale_duration_seconds := hm_stale_duration_seconds m; hm_quarantine_count := hm_quarantine_count m;
  hm_experimental_count := hm_experimental_count m; hm_production_count := hm_production_count m;
  hm_duplicate_count := hm_duplicate_count m; hm_checkpoint_lag_seconds := hm_checkpoint_lag_seconds m;
  hm_production_by_venue := hm_production_by_venue m; hm_experimental_by_venue := hm_experimental_by_venue m;
  hm_queue_peak := hm_queue_peak m; hm_database_write_count := hm_database_write_count m;
  hm_database_write_latency_total_seconds := hm_database_write_latency_total_seconds m;
  hm_database_write_latency_peak_seconds := hm_database_write_latency_peak_seconds m; hm_task_count_start :=
  hm_task_count_start m; hm_task_count_end := hm_task_count_end m; hm_task_count_peak := hm_task_count_peak m;
  hm_rss_start_bytes := hm_rss_start_bytes m; hm_rss_end_bytes := hm_rss_end_bytes m; hm_rss_peak_bytes :=
  hm_rss_peak_bytes m |}.
Definition set_hm_sequence_gaps v (m : CollectorHealthMetrics) : CollectorHealthMetrics := {|
  hm_events := hm_events m; hm_disconnect_count := hm_disconnect_count m; hm_reconnect_count := hm_reconnect_count
  m; hm_sequence_gaps := v; hm_snapshot_recoveries := hm_snapshot_recoveries m; hm_stale_duration_seconds :=
  hm_stale_duration_seconds m; hm_quarantine_count := hm_quarantine_count m; hm_experimental_count :=
  hm_experimental_count m; hm_production_count := hm_production_count m; hm_duplicate_count := hm_duplicate_count
  m; hm_checkpoint_lag_seconds := hm_checkpoint_lag_seconds m; hm_production_by_venue := hm_production_by_venue m;
  hm_experimental_by_venue := hm_experimental_by_venue m; hm_queue_peak := hm_queue_peak m;
  hm_database_write_count := hm_database_write_count m; hm_database_write_latency_total_seconds :=
  hm_database_write_latency_total_seconds m; hm_database_write_latency_peak_seconds :=
  hm_database_write_latency_peak_seconds m; hm_task_count_start := hm_task_count_start m; hm_task_count_end :=
  hm_task_count_end m; hm_task_count_peak := hm_task_count_peak m; hm_rss_start_bytes := hm_rss_start_bytes m;
  hm_rss_end_bytes := hm_rss_end_bytes m; hm_rss_peak_bytes := hm_rss_peak_bytes m |}.
Definition set_hm_snapshot_recoveries v (m : CollectorHealthMetrics) : CollectorHealthMetrics := {|
  hm_events := hm_events m; hm_disconnect_count := hm_disconnect_count m; hm_reconnect_count := hm_reconnect_count
  m; hm_sequence_gaps := hm_sequence_gaps m; hm_snapshot_recoveries := v; hm_stale_duration_seconds :=
  hm_stale_duration_seconds m; hm_quarantine_count := hm_quarantine_count m; hm_experimental_count :=
  hm_experimental_count m; hm_production_count := hm_production_count m; hm_duplicate_count := hm_duplicate_count
  m; hm_checkpoint_lag_seconds := hm_checkpoint_lag_seconds m; hm_production_by_venue := hm_production_by_venue m;
  hm_experimental_by_venue := hm_experimental_by_venue m; hm_queue_peak := hm_queue_peak m;
  hm_database_write_count := hm_database_write_count m; hm_database_write_latency_total_seconds :=
  hm_database_write_latency_total_seconds m; hm_database_write_latency_peak_seconds :=
  hm_database_write_latency_peak_seconds m; hm_task_count_start := hm_task_count_start m; hm_task_count_end :=
  hm_task_count_end m; hm_task_count_peak := hm_task_count_peak m; hm_rss_start_bytes := hm_rss_start_bytes m;
  hm_rss_end_bytes := hm_rss_end_bytes m; hm_rss_peak_bytes := hm_rss_peak_bytes m |}.
Definition set_hm_stale_duration_seconds v (m : CollectorHealthMetrics) : CollectorHealthMetrics := {|
  hm_events := hm_events m; hm_disconnect_count := hm_disconnect_count m; hm_reconnect_count := hm_reconnect_count
  m; hm_sequence_gaps := hm_sequence_gaps m; hm_snapshot_recoveries := hm_snapshot_recoveries m;
  hm_stale_duration_seconds := v; hm_quarantine_count := hm_quarantine_count m; hm_experimental_count :=
  hm_experimental_count m; hm_production_count := hm_production_count m; hm_duplicate_count := hm_duplicate_count
  m; hm_checkpoint_lag_seconds := hm_checkpoint_lag_seconds m; hm_production_by_venue := hm_production_by_venue m;
  hm_experimental_by_venue := hm_experimental_by_venue m; hm_queue_peak := hm_queue_peak m;
  hm_database_write_count := hm_database_write_count m; hm_database_write_latency_total_seconds :=
  hm_database_write_latency_total_seconds m; hm_database_write_latency_peak_seconds :=
  hm_database_write_latency_peak_seconds m; hm_task_count_start := hm_task_count_start m; hm_task_count_end :=
  hm_task_count_end m; hm_task_count_peak := hm_task_count_peak m; hm_rss_start_bytes := hm_rss_start_bytes m;
  hm_rss_end_bytes := hm_rss_end_bytes m; hm_rss_peak_bytes := hm_rss_peak_bytes m |}.
Definition set_hm_quarantine_count v (m : CollectorHealthMetrics) : CollectorHealthMetrics := {|
  hm_events := hm_events m; hm_disconnect_count := hm_disconnect_count m; hm_reconnect_count := hm_reconnect_count
  m; hm_sequence_gaps := hm_sequence_gaps m; hm_snapshot_recoveries := hm_snapshot_recoveries m;
  hm_stale_duration_seconds := hm_stale_duration_seconds m; hm_quarantine_count := v; hm_experimental_count :=
  hm_experimental_count m; hm_production_count := hm_production_count m; hm_duplicate_count := hm_duplicate_count
  m; hm_checkpoint_lag_seconds := hm_checkpoint_lag_seconds m; hm_production_by_venue := hm_production_by_venue m;
  hm_experimental_by_venue := hm_experimental_by_venue m; hm_queue_peak := hm_queue_peak m;
  hm_database_write_count := hm_database_write_count m; hm_database_write_latency_total_seconds :=
  hm_database_write_latency_total_seconds m; hm_database_write_latency_peak_seconds :=
  hm_database_write_latency_peak_seconds m; hm_task_count_start := hm_task_count_start m; hm_task_count_end :=
  hm_task_count_end m; hm_task_count_peak := hm_task_count_peak m; hm_rss_start_bytes := hm_rss_start_bytes m;
  hm_rss_end_bytes := hm_rss_end_bytes m; hm_rss_peak_bytes := hm_rss_peak_bytes m |}.
Definition set_hm_experimental_count v (m : CollectorHealthMetrics) : CollectorHealthMetrics := {|
  hm_events := hm_events m; hm_disconnect_count := hm_disconnect_count m; hm_reconnect_count := hm_reconnect_count
  m; hm_sequence_gaps := hm_sequence_gaps m; hm_snapshot_recoveries := hm_snapshot_recoveries m;
  hm_stale_duration_seconds := hm_stale_duration_seconds m; hm_quarantine_count := hm_quarantine_count m;
  hm_experimental_count := v; hm_production_count := hm_production_count m; hm_duplicate_count :=
  hm_duplicate_count m; hm_checkpoint_lag_seconds := hm_checkpoint_lag_seconds m; hm_production_by_venue :=
  hm_production_by_venue m; hm_experimental_by_venue := hm_experimental_by_venue m; hm_queue_peak := hm_queue_peak
  m; hm_database_write_count := hm_database_write_count m; hm_database_write_latency_total_seconds :=
  hm_database_write_latency_total_seconds m; hm_database_write_latency_peak_seconds :=
  hm_database_write_latency_peak_seconds m; hm_task_count_start := hm_task_count_start m; hm_task_count_end :=
  hm_task_count_end m; hm_task_count_peak := hm_task_count_peak m; hm_rss_start_bytes := hm_rss_start_bytes m;
  hm_rss_end_bytes := hm_rss_end_bytes m; hm_rss_peak_bytes := hm_rss_peak_bytes m |}.
Definition set_hm_production_count v (m : CollectorHealthMetrics) : CollectorHealthMetrics := {|
  hm_events := hm_events m; hm_disconnect_count := hm_disconnect_count m; hm_reconnect_count := hm_reconnect_count
  m; hm_sequence_gaps := hm_sequence_gaps m; hm_snapshot_recoveries := hm_snapshot_recoveries m;
  hm_stale_duration_seconds := hm_stale_duration_seconds m; hm_quarantine_count := hm_quarantine_count m;
  hm_experimental_count := hm_experimental_count m; hm_production_count := v; hm_duplicate_count :=
  hm_duplicate_count m; hm_checkpoint_lag_seconds := hm_checkpoint_lag_seconds m; hm_production_by_venue :=
  hm_production_by_venue m; hm_experimental_by_venue := hm_experimental_by_venue m; hm_queue_peak := hm_queue_peak
  m; hm_database_write_count := hm_database_write_count m; hm_database_write_latency_total_seconds :=
  hm_database_write_latency_total_seconds m; hm_database_write_latency_peak_seconds :=
  hm_database_write_latency_peak_seconds m; hm_task_count_start := hm_task_count_start m; hm_task_count_end :=
  hm_task_count_end m; hm_task_count_peak := hm_task_count_peak m; hm_rss_start_bytes := hm_rss_start_bytes m;
  hm_rss_end_bytes := hm_rss_end_bytes m; hm_rss_peak_bytes := hm_rss_peak_bytes m |}.
Definition set_hm_duplicate_count v (m : CollectorHealthMetrics) : CollectorHealthMetrics := {|
  hm_events := hm_events m; hm_disconnect_count := hm_disconnect_count m; hm_reconnect_count := hm_reconnect_count
  m; hm_sequence_gaps := hm_sequence_gaps m; hm_snapshot_recoveries := hm_snapshot_recoveries m;
  hm_stale_duration_seconds := hm_stale_duration_seconds m; hm_quarantine_count := hm_quarantine_count m;
  hm_experimental_count := hm_experimental_count m; hm_production_count := hm_production_count m;
  hm_duplicate_count := v; hm_checkpoint_lag_seconds := hm_checkpoint_lag_seconds m; hm_production_by_venue :=
  hm_production_by_venue m; hm_experimental_by_venue := hm_experimental_by_venue m; hm_queue_peak := hm_queue_peak
  m; hm_database_write_count := hm_database_write_count m; hm_database_write_latency_total_seconds :=
  hm_database_write_latency_total_seconds m; hm_database_write_latency_peak_seconds :=
  hm_database_write_latency_peak_seconds m; hm_task_count_start := hm_task_count_start m; hm_task_count_end :=
  hm_task_count_end m; hm_task_count_peak := hm_task_count_peak m; hm_rss_start_bytes := hm_rss_start_bytes m;
  hm_rss_end_bytes := hm_rss_end_bytes m; hm_rss_peak_bytes := hm_rss_peak_bytes m |}.
Definition set_hm_checkpoint_lag_seconds v (m : CollectorHealthMetrics) : CollectorHealthMetrics := {|
  hm_events := hm_events m; hm_disconnect_count := hm_disconnect_count m; hm_reconnect_count := hm_reconnect_count
  m; hm_sequence_gaps := hm_sequence_gaps m; hm_snapshot_recoveries := hm_snapshot_recoveries m;
  hm_stale_duration_seconds := hm_stale_duration_seconds m; hm_quarantine_count := hm_quarantine_count m;
  hm_experimental_count := hm_experimental_count m; hm_production_count := hm_production_count m;
  hm_duplicate_count := hm_duplicate_count m; hm_checkpoint_lag_seconds := v; hm_production_by_venue :=
  hm_production_by_venue m; hm_experimental_by_venue := hm_experimental_by_venue m; hm_queue_peak := hm_queue_peak
  m; hm_database_write_count := hm_database_write_count m; hm_database_write_latency_total_seconds :=
  hm_database_write_latency_total_seconds m; hm_database_write_latency_peak_seconds :=
  hm_database_write_latency_peak_seconds m; hm_task_count_start := hm_task_count_start m; hm_task_count_end :=
  hm_task_count_end m; hm_task_count_peak := hm_task_count_peak m; hm_rss_start_bytes := hm_rss_start_bytes m;
  hm_rss_end_bytes := hm_rss_end_bytes m; hm_rss_peak_bytes := hm_rss_peak_bytes m |}.
Definition set_hm_production_by_venue v (m : CollectorHealthMetrics) : CollectorHealthMetrics := {|
  hm_events := hm_events m; hm_disconnect_count := hm_disconnect_count m; hm_reconnect_count := hm_reconnect_count
  m; hm_sequence_gaps := hm_sequence_gaps m; hm_snapshot_recoveries := hm_snapshot_recoveries m;
  hm_stale_duration_seconds := hm_stale_duration_seconds m; hm_quarantine_count := hm_quarantine_count m;
  hm_experimental_count := hm_experimental_count m; hm_production_count := hm_production_count m;
  hm_duplicate_count := hm_duplicate_count m; hm_checkpoint_lag_seconds := hm_checkpoint_lag_seconds m;
  hm_production_by_venue := v; hm_experimental_by_venue := hm_experimental_by_venue m; hm_queue_peak :=
  hm_queue_peak m; hm_database_write_count := hm_database_write_count m; hm_database_write_latency_total_seconds
  := hm_database_write_latency_total_seconds m; hm_database_write_latency_peak_seconds :=
  hm_database_write_latency_peak_seconds m; hm_task_count_start := hm_task_count_start m; hm_task_count_end :=
  hm_task_count_end m; hm_task_count_peak := hm_task_count_peak m; hm_rss_start_bytes := hm_rss_start_bytes m;
  hm_rss_end_bytes := hm_rss_end_bytes m; hm_rss_peak_bytes := hm_rss_peak_bytes m |}.
Definition set_hm_experimental_by_venue v (m : CollectorHealthMetrics) : CollectorHealthMetrics := {|
  hm_events := hm_events m; hm_disconnect_count := hm_disconnect_count m; hm_reconnect_count := hm_reconnect_count
  m; hm_sequence_gaps := hm_sequence_gaps m; hm_snapshot_recoveries := hm_snapshot_recoveries m;
  hm_stale_duration_seconds := hm_stale_duration_seconds m; hm_quarantine_count := hm_quarantine_count m;
  hm_experimental_count := hm_experimental_count m; hm_production_count := hm_production_count m;
  hm_duplicate_count := hm_duplicate_count m; hm_checkpoint_lag_seconds := hm_checkpoint_lag_seconds m;
  hm_production_by_venue := hm_production_by_venue m; hm_experimental_by_venue := v; hm_queue_peak :=
  hm_queue_peak m; hm_database_write_count := hm_database_write_count m; hm_database_write_latency_total_seconds
  := hm_database_write_latency_total_seconds m; hm_database_write_latency_peak_seconds :=
  hm_database_write_latency_peak_seconds m; hm_task_count_start := hm_task_count_start m; hm_task_count_end :=
  hm_task_count_end m; hm_task_count_peak := hm_task_count_peak m; hm_rss_start_bytes := hm_rss_start_bytes m;
  hm_rss_end_bytes := hm_rss_end_bytes m; hm_rss_peak_bytes := hm_rss_peak_bytes m |}.
Definition set_hm_queue_peak v (m : CollectorHealthMetrics) : CollectorHealthMetrics := {|
  hm_events := hm_events m; hm_disconnect_count := hm_disconnect_count m; hm_reconnect_count := hm_reconnect_count
  m; hm_sequence_gaps := hm_sequence_gaps m; hm_snapshot_recoveries := hm_snapshot_recoveries m;
  hm_stale_duration_seconds := hm_stale_duration_seconds m; hm_quarantine_count := hm_quarantine_count m;
  hm_experimental_count := hm_experimental_count m; hm_production_count := hm_production_count m;
  hm_duplicate_count := hm_duplicate_count m; hm_checkpoint_lag_seconds := hm_checkpoint_lag_seconds m;
  hm_production_by_venue := hm_production_by_venue m; hm_experimental_by_venue := hm_experimental_by_venue m;
  hm_queue_peak := v; hm_database_write_count := hm_database_write_count m;
  hm_database_write_latency_total_seconds := hm_database_write_latency_total_seconds m;
  hm_database_write_latency_peak_seconds := hm_database_write_latency_peak_seconds m; hm_task_count_start :=
  hm_task_count_start m; hm_task_count_end := hm_task_count_end m; hm_task_count_peak := hm_task_count_peak m;
  hm_rss_start_bytes := hm_rss_start_bytes m; hm_rss_end_bytes := hm_rss_end_bytes m; hm_rss_peak_bytes :=
  hm_rss_peak_bytes m |}.
Definition set_hm_database_write_count v (m : CollectorHealthMetrics) : CollectorHealthMetrics := {|
  hm_events := hm_events m; hm_disconnect_count := hm_disconnect_count m; hm_reconnect_count := hm_reconnect_count
  m; hm_sequence_gaps := hm_sequence_gaps m; hm_snapshot_recoveries := hm_snapshot_recoveries m;
  hm_stale_duration_seconds := hm_stale_duration_seconds m; hm_quarantine_count := hm_quarantine_count m;
  hm_experimental_count := hm_experimental_count m; hm_production_count := hm_production_count m;
  hm_duplicate_count := hm_duplicate_count m; hm_checkpoint_lag_seconds := hm_checkpoint_lag_seconds m;
  hm_production_by_venue := hm_production_by_venue m; hm_experimental_by_venue := hm_experimental_by_venue m;
  hm_queue_peak := hm_queue_peak m; hm_database_write_count := v; hm_database_write_latency_total_seconds :=
  hm_database_write_latency_total_seconds m; hm_database_write_latency_peak_seconds :=
  hm_database_write_latency_peak_seconds m; hm_task_count_start := hm_task_count_start m; hm_task_count_end :=
  hm_task_count_end m; hm_task_count_peak := hm_task_count_peak m; hm_rss_start_bytes := hm_rss_start_bytes m;
  hm_rss_end_bytes := hm_rss_end_bytes m; hm_rss_peak_bytes := hm_rss_peak_bytes m |}.
Definition set_hm_database_write_latency_total_seconds v (m : CollectorHealthMetrics) : CollectorHealthMetrics := {|
  hm_events := hm_events m; hm_disconnect_count := hm_disconnect_count m; hm_reconnect_count := hm_reconnect_count
  m; hm_sequence_gaps := hm_sequence_gaps m; hm_snapshot_recoveries := hm_snapshot_recoveries m;
  hm_stale_duration_seconds := hm_stale_duration_seconds m; hm_quarantine_count := hm_quarantine_count m;
  hm_experimental_count := hm_experimental_count m; hm_production_count := hm_production_count m;
  hm_duplicate_count := hm_duplicate_count m; hm_checkpoint_lag_seconds := hm_checkpoint_lag_seconds m;
  hm_production_by_venue := hm_production_by_venue m; hm_experimental_by_venue := hm_experimental_by_venue m;
  hm_queue_peak := hm_queue_peak m; hm_database_write_count := hm_database_write_count m;
  hm_database_write_latency_total_seconds := v; hm_database_write_latency_peak_seconds :=
  hm_database_write_latency_peak_seconds m; hm_task_count_start := hm_task_count_start m; hm_task_count_end :=
  hm_task_count_end m; hm_task_count_peak := hm_task_count_peak m; hm_rss_start_bytes := hm_rss_start_bytes m;
  hm_rss_end_bytes := hm_rss_end_bytes m; hm_rss_peak_bytes := hm_rss_peak_bytes m |}.
Definition set_hm_database_write_latency_peak_seconds v (m : CollectorHealthMetrics) : CollectorHealthMetrics := {|
  hm_events := hm_events m; hm_disconnect_count := hm_disconnect_count m; hm_reconnect_count := hm_reconnect_count
  m; hm_sequence_gaps := hm_sequence_gaps m; hm_snapshot_recoveries := hm_snapshot_recoveries m;
  hm_stale_duration_seconds := hm_stale_duration_seconds m; hm_quarantine_count := hm_quarantine_count m;
  hm_experimental_count := hm_experimental_count m; hm_production_count := hm_production_count m;
  hm_duplicate_count := hm_duplicate_count m; hm_checkpoint_lag_seconds := hm_checkpoint_lag_seconds m;
  hm_production_by_venue := hm_production_by_venue m; hm_experimental_by_venue := hm_experimental_by_venue m;
  hm_queue_peak := hm_queue_peak m; hm_database_write_count := hm_database_write_count m;
  hm_database_write_latency_total_seconds := hm_database_write_latency_total_seconds m;
  hm_database_write_latency_peak_seconds := v; hm_task_count_start := hm_task_count_start m; hm_task_count_end :=
  hm_task_count_end m; hm_task_count_peak := hm_task_count_peak m; hm_rss_start_bytes := hm_rss_start_bytes m;
  hm_rss_end_bytes := hm_rss_end_bytes m; hm_rss_peak_bytes := hm_rss_peak_bytes m |}.
Definition set_hm_task_count_start v (m : CollectorHealthMetrics) : CollectorHealthMetrics := {|
  hm_events := hm_events m; hm_disconnect_count := hm_disconnect_count m; hm_reconnect_count := hm_reconnect_count
  m; hm_sequence_gaps := hm_sequence_gaps m; hm_snapshot_recoveries := hm_snapshot_recoveries m;
  hm_stale_duration_seconds := hm_stale_duration_seconds m; hm_quarantine_count := hm_quarantine_count m;
  hm_experimental_count := hm_experimental_count m; hm_production_count := hm_production_count m;
  hm_duplicate_count := hm_duplicate_count m; hm_checkpoint_lag_seconds := hm_checkpoint_lag_seconds m;
  hm_production_by_venue := hm_production_by_venue m; hm_experimental_by_venue := hm_experimental_by_venue m;
  hm_queue_peak := hm_queue_peak m; hm_database_write_count := hm_database_write_count m;
  hm_database_write_latency_total_seconds := hm_database_write_latency_total_seconds m;
  hm_database_write_latency_peak_seconds := hm_database_write_latency_peak_seconds m; hm_task_count_start := v;
  hm_task_count_end := hm_task_count_end m; hm_task_count_peak := hm_task_count_peak m; hm_rss_start_bytes :=
  hm_rss_start_bytes m; hm_rss_end_bytes := hm_rss_end_bytes m; hm_rss_peak_bytes := hm_rss_peak_bytes m |}.
Definition set_hm_task_count_end v (m : CollectorHealthMetrics) : CollectorHealthMetrics := {|
  hm_events := hm_events m; hm_disconnect_count := hm_disconnect_count m; hm_reconnect_count := hm_reconnect_count
  m; hm_sequence_gaps := hm_sequence_gaps m; hm_snapshot_recoveries := hm_snapshot_recoveries m;
  hm_stale_duration_seconds := hm_stale_duration_seconds m; hm_quarantine_count := hm_quarantine_count m;
  hm_experimental_count := hm_experimental_count m; hm_production_count := hm_production_count m;
  hm_duplicate_count := hm_duplicate_count m; hm_checkpoint_lag_seconds := hm_checkpoint_lag_seconds m;
  hm_production_by_venue := hm_production_by_venue m; hm_experimental_by_venue := hm_experimental_by_venue m;
  hm_queue_peak := hm_queue_peak m; hm_database_write_count := hm_database_write_count m;
  hm_database_write_latency_total_seconds := hm_database_write_latency_total_seconds m;
  hm_database_write_latency_peak_seconds := hm_database_write_latency_peak_seconds m; hm_task_count_start :=
  hm_task_count_start m; hm_task_count_end := v; hm_task_count_peak := hm_task_count_peak m; hm_rss_start_bytes :=
  hm_rss_start_bytes m; hm_rss_end_bytes := hm_rss_end_bytes m; hm_rss_peak_bytes := hm_rss_peak_bytes m |}.
Definition set_hm_task_count_peak v (m : CollectorHealthMetrics) : CollectorHealthMetrics := {|
  hm_events := hm_events m; hm_disconnect_count := hm_disconnect_count m; hm_reconnect_count := hm_reconnect_count
  m; hm_sequence_gaps := hm_sequence_gaps m; hm_snapshot_recoveries := hm_snapshot_recoveries m;
  hm_stale_duration_seconds := hm_stale_duration_seconds m; hm_quarantine_count := hm_quarantine_count m;
  hm_experimental_count := hm_experimental_count m; hm_production_count := hm_production_count m;
  hm_duplicate_count := hm_duplicate_count m; hm_checkpoint_lag_seconds := hm_checkpoint_lag_seconds m;
  hm_production_by_venue := hm_production_by_venue m; hm_experimental_by_venue := hm_experimental_by_venue m;
  hm_queue_peak := hm_queue_peak m; hm_database_write_count := hm_database_write_count m;
  hm_database_write_latency_total_seconds := hm_database_write_latency_total_seconds m;
  hm_database_write_latency_peak_seconds := hm_database_write_latency_peak_seconds m; hm_task_count_start :=
  hm_task_count_start m; hm_task_count_end := hm_task_count_end m; hm_task_count_peak := v; hm_rss_start_bytes :=
  hm_rss_start_bytes m; hm_rss_end_bytes := hm_rss_end_bytes m; hm_rss_peak_bytes := hm_rss_peak_bytes m |}.
Definition set_hm_rss_start_bytes v (m : CollectorHealthMetrics) : CollectorHealthMetrics := {|
  hm_events := hm_events m; hm_disconnect_count := hm_disconnect_count m; hm_reconnect_count := hm_reconnect_count
  m; hm_sequence_gaps := hm_sequence_gaps m; hm_snapshot_recoveries := hm_snapshot_recoveries m;
  hm_stale_duration_seconds := hm_stale_duration_seconds m; hm_quarantine_count := hm_quarantine_count m;
  hm_experimental_count := hm_experimental_count m; hm_production_count := hm_production_count m;
  hm_duplicate_count := hm_duplicate_count m; hm_checkpoint_lag_seconds := hm_checkpoint_lag_seconds m;
  hm_production_by_venue := hm_production_by_venue m; hm_experimental_by_venue := hm_experimental_by_venue m;
  hm_queue_peak := hm_queue_peak m; hm_database_write_count := hm_database_write_count m;
  hm_database_write_latency_total_seconds := hm_database_write_latency_total_seconds m;
  hm_database_write_latency_peak_seconds := hm_database_write_latency_peak_seconds m; hm_task_count_start :=
  hm_task_count_start m; hm_task_count_end := hm_task_count_end m; hm_task_count_peak := hm_task_count_peak m;
  hm_rss_start_bytes := v; hm_rss_end_bytes := hm_rss_end_bytes m; hm_rss_peak_bytes := hm_rss_peak_bytes m |}.
Definition set_hm_rss_end_bytes v (m : CollectorHealthMetrics) : CollectorHealthMetrics := {|
  hm_events := hm_events m; hm_disconnect_count := hm_disconnect_count m; hm_reconnect_count := hm_reconnect_count
  m; hm_sequence_gaps := hm_sequence_gaps m; hm_snapshot_recoveries := hm_snapshot_recoveries m;
  hm_stale_duration_seconds := hm_stale_duration_seconds m; hm_quarantine_count := hm_quarantine_count m;
  hm_experimental_count := hm_experimental_count m; hm_production_count := hm_production_count m;
  hm_duplicate_count := hm_duplicate_count m; hm_checkpoint_lag_seconds := hm_checkpoint_lag_seconds m;
  hm_production_by_venue := hm_production_by_venue m; hm_experimental_by_venue := hm_experimental_by_venue m;
  hm_queue_peak := hm_queue_peak m; hm_database_write_count := hm_database_write_count m;
  hm_database_write_latency_total_seconds := hm_database_write_latency_total_seconds m;
  hm_database_write_latency_peak_seconds := hm_database_write_latency_peak_seconds m; hm_task_count_start :=
  hm_task_count_start m; hm_task_count_end := hm_task_count_end m; hm_task_count_peak := hm_task_count_peak m;
  hm_rss_start_bytes := hm_rss_start_bytes m; hm_rss_end_bytes := v; hm_rss_peak_bytes := hm_rss_peak_bytes m |}.
Definition set_hm_rss_peak_bytes v (m : CollectorHealthMetrics) : CollectorHealthMetrics := {|
  hm_events := hm_events m; hm_disconnect_count := hm_disconnect_count m; hm_reconnect_count := hm_reconnect_count
  m; hm_sequence_gaps := hm_sequence_gaps m; hm_snapshot_recoveries := hm_snapshot_recoveries m;
  hm_stale_duration_seconds := hm_stale_duration_seconds m; hm_quarantine_count := hm_quarantine_count m;
  hm_experimental_count := hm_experimental_count m; hm_production_count := hm_production_count m;
  hm_duplicate_count := hm_duplicate_count m; hm_checkpoint_lag_seconds := hm_checkpoint_lag_seconds m;
  hm_production_by_venue := hm_production_by_venue m; hm_experimental_by_venue := hm_experimental_by_venue m;
  hm_queue_peak := hm_queue_peak m; hm_database_write_count := hm_database_write_count m;
  hm_database_write_latency_total_seconds := hm_database_write_latency_total_seconds m;
  hm_database_write_latency_peak_seconds := hm_database_write_latency_peak_seconds m; hm_task_count_start :=
  hm_task_count_start m; hm_task_count_end := hm_task_count_end m; hm_task_count_peak := hm_task_count_peak m;
  hm_rss_start_bytes := hm_rss_start_bytes m; hm_rss_end_bytes := hm_rss_end_bytes m; hm_rss_peak_bytes := v |}.

(** [counter[key] += 1] *)
Definition counter_add {K} `{EqDecision K} (key : K) (counter : list (K * Z)) : list (K * Z) :=
  dict_set key (default 0 (dict_get key counter) + 1)%Z counter.

(** [observe_runtime] with the memory and the tasks it reads *)
Definition observe_runtime (queue_depth rss task_count : Z) (m : CollectorHealthMetrics) : CollectorHealthMetrics :=
  let m := if (hm_rss_start_bytes m =? 0)%Z
           then set_hm_task_count_start task_count (set_hm_rss_start_bytes rss m) else m in
  set_hm_queue_peak (Z.max (hm_queue_peak m) queue_depth)
    (set_hm_task_count_peak (Z.max (hm_task_count_peak m) task_count)
      (set_hm_task_count_end task_count
        (set_hm_rss_peak_bytes (Z.max (hm_rss_peak_bytes m) rss) (set_hm_rss_end_bytes rss m)))).

(** [observe_database_write] *)
Definition observe_database_write (elapsed : Q) (m : CollectorHealthMetrics) : CollectorHealthMetrics :=
  set_hm_database_write_latency_peak_seconds (dmax (hm_database_write_latency_peak_seconds m) elapsed)
    (set_hm_database_write_latency_total_seconds (fl (hm_database_write_latency_total_seconds m + elapsed))
      (set_hm_database_write_count (hm_database_write_count m + 1)%Z m)).

(** ** Events of envelopes *)

Section Identity.
Context {D : Digest}.

Definition jopt {A} (f : A -> json) (x : option A) : json := match x with Some x => f x | None => JNull end.
Definition jtime_utc (t : Z) : json := jstr (isoformat t).

(** [canonical_market_event_identity] *)
Definition canonical_market_event_identity (e : CollectedEnvelope) (p : list (chars * json)) : result string :=
  let venue := jstr (ev_venue e) in
  let instrument := jstr (ev_canonical_instrument_id e) in
  let common := [venue; instrument; jstr (ev_event_type e)] in
  let hash items := Ok (canonical_sha256 (JArray (common ++ items))) in
  if nonempty (text_or (ev_stable_event_key e) EmptyString)
  then Ok (canonical_sha256 (JArray [venue; instrument; jopt jstr (ev_stable_event_key e)]))
  else if bool_decide (ev_event_type e = "funding_history")
  then match ev_exchange_timestamp e with
       | Some t => hash [jtime_utc t]
       | None => Err (ValueError "funding history requires funding effective time")
       end
  else if bool_decide (ev_event_type e = "ohlcv")
  then match ev_exchange_timestamp e with
       | Some t =>
           if nonempty (text_or (ev_timeframe e) EmptyString)
           then hash [jopt jstr (ev_timeframe e); jtime_utc t]
           else Err (ValueError "OHLCV requires candle open time and timeframe")
       | None => Err (ValueError "OHLCV requires candle open time and timeframe")
       end
  else if bool_decide (ev_event_type e = "trade")
  then if nonempty (text_or (ev_trade_id e) EmptyString)
       then hash [jopt jstr (ev_trade_id e)]
       else match ev_exchange_timestamp e, get_field p "price", get_field p "quantity" with
            | None, _, _ | _, JNull, _ | _, _, JNull =>
                Err (ValueError "trade without exchange id lacks canonical fallback fields")
            | Some t, price, quantity => hash [jtime_utc t; price; quantity; get_field p "side"]
            end
  else hash [jopt jtime_utc (ev_exchange_timestamp e); jopt JInt (ev_sequence e);
             jstr (sha256_hex (untext (dumps default_style (sorted_json (JObject p)))))].

(** [_event] *)
Definition event_of (e : CollectedEnvelope) : result RawMarketEvent :=
  let normalized := text_or (ev_normalized_payload e) (ev_raw_payload e) in
  let! stable :=
    if nonempty (text_or (ev_stable_event_key e) EmptyString) then Ok (text_or (ev_stable_event_key e) EmptyString)
    else let! v := loads (text normalized) in
         match v with
         | JObject p => canonical_market_event_identity e p
         | _ => Err (ValueError "normalized market event must be an object")
         end in
  RawMarketEvent_validate {|
    re_event_id := ev_venue e +:+ "-" +:+ stable; re_venue := ev_venue e;
    re_canonical_instrument_id := ev_canonical_instrument_id e; re_venue_symbol := ev_venue_symbol e;
    re_event_type := ev_event_type e; re_exchange_timestamp := ev_exchange_timestamp e;
    re_received_at := ev_received_at e; re_available_at := ev_available_at e;
    re_sequence := envelope_sequence e; re_connection_id := ev_connection_id e;
    re_reconciliation_state := option_map reconciliation_value (ev_reconciliation_state e);
    re_payload_sha256 := sha256_hex normalized; re_raw_payload := normalized;
    re_normalizer_version := "research-collector-r2.1-v1"; re_capability_verification_run_id := "pending";
    re_created_at := ev_received_at e; re_raw_payload_id := None; re_source_payload_sha256 := None;
    re_channel := ev_channel e; re_snapshot_sequence := ev_snapshot_sequence e;
    re_delta_sequence := ev_delta_sequence e; re_connection_epoch := Some (ev_connection_epoch e);
    re_timestamp_semantic := ev_timestamp_semantic e; re_availability_provenance := ev_availability_provenance e;
    re_exchange_server_time := ev_exchange_server_time e; re_timeframe := ev_timeframe e |}.

(** The event with the decision of the gate and its source payload *)
Definition sourced (run_id source_hash : string) (e : RawMarketEvent) : RawMarketEvent := {|
  re_event_id := re_event_id e; re_venue := re_venue e;
  re_canonical_instrument_id := re_canonical_instrument_id e; re_venue_symbol := re_venue_symbol e;
  re_event_type := re_event_type e; re_exchange_timestamp := re_exchange_timestamp e;
  re_received_at := re_received_at e; re_available_at := re_available_at e; re_sequence := re_sequence e;
  re_connection_id := re_connection_id e; re_reconciliation_state := re_reconciliation_state e;
  re_payload_sha256 := re_payload_sha256 e; re_raw_payload := re_raw_payload e;
  re_normalizer_version := re_normalizer_version e; re_capability_verification_run_id := run_id;
  re_created_at := re_created_at e; re_raw_payload_id := Some ("payload-" +:+ source_hash);
  re_source_payload_sha256 := Some source_hash; re_channel := re_channel e;
  re_snapshot_sequence := re_snapshot_sequence e; re_delta_sequence := re_delta_sequence e;
  re_connection_epoch := re_connection_epoch e; re_timestamp_semantic := re_timestamp_semantic e;
  re_availability_provenance := re_availability_provenance e;
  re_exchange_server_time := re_exchange_server_time e; re_timeframe := re_timeframe e |}.

(** [str(exc)]; where a JSON text is broken is left out *)
Definition exn_message (x : exn) : string :=
  match x with
  | ValueError m | DuplicateFillError m | RuntimeError m | PermissionError m | IndexError m
  | ExecutionAdapterError m => m
  | KeyError | OtherError _ => EmptyString
  end.
Definition is_value_error (x : exn) : bool :=
  match x with ValueError _ => true | OtherError n => bool_decide (n = "JSONDecodeError") | _ => false end.

(** [_invalid_reason]: other exceptions of [payload()] are raised *)
Definition invalid_reason (e : RawMarketEvent) : result (option string) :=
  match payload e with
  | Err x => if is_value_error x then Ok (Some ("normalization failure: " +:+ exn_message x)) else Err x
  | Ok _ =>
      Ok (if (re_available_at e <? re_received_at e)%Z then Some "available_at precedes received_at"
          else match re_exchange_timestamp e with
               | Some t => if (re_received_at e <? t)%Z then Some "abnormal future exchange timestamp" else None
               | None => None
               end)
  end.

End Identity.

(** ** Sequences and recovery *)

Definition snapshot_stream (s : option OrderBookStreamSemantics) : bool :=
  match s with Some SNAPSHOT_ONLY | Some LIMITED_DEPTH_SNAPSHOT => true | _ => false end.

(** [_sequence_gap] *)
Definition sequence_gap (checkpoint : option CollectionCheckpoint) (e : CollectedEnvelope) : bool :=
  if negb (bool_decide (ev_event_type e = "orderbook_delta")) && bool_decide (is_Some (ev_stream_semantics e))
  then false
  else if snapshot_stream (ev_stream_semantics e) then false
  else
    match ev_previous_delta_sequence e with
    | Some claimed =>
        match checkpoint with
        | Some c =>
            match match ck_delta_sequence c with Some n => Some n | None => ck_snapshot_sequence c end with
            | Some previous => negb (claimed =? previous)%Z
            | None => false
            end
        | None => false
        end
    | None =>
        match checkpoint, envelope_sequence e with
        | Some c, Some current =>
            match ck_last_sequence c with Some last => negb (current =? last + 1)%Z | None => false end
        | _, _ => false
        end
    end.

(** [_recovery_completed] *)
Definition recovery_completed (e : CollectedEnvelope) (state : option ReconciliationState) : bool :=
  if negb (ev_recovery_completed e) || negb (bool_decide (state = Some R_SYNCHRONIZED)) ||
     (bool_decide (is_Some (ev_stream_semantics e)) && negb (ev_bootstrap_completed e))
  then false
  else if snapshot_stream (ev_stream_semantics e) then bool_decide (ev_event_type e = "orderbook_snapshot")
  else
    match ev_snapshot_sequence e with
    | Some snapshot =>
        bool_decide (ev_event_type e = "orderbook_snapshot") ||
        match ev_delta_sequence e with Some delta => (snapshot <=? delta)%Z | None => false end
    | None => false
    end.

(** ** The consumer *)

Record Consumer := {
  co_store : ResearchStore;
  co_metrics : CollectorHealthMetrics;
}.
Definition set_co_store v (s : Consumer) : Consumer := {| co_store := v; co_metrics := co_metrics s |}.
Definition set_co_metrics v (s : Consumer) : Consumer := {| co_store := co_store s; co_metrics := v |}.

Definition on_store {A} : M ResearchStore A -> M Consumer A := pzoom co_store set_co_store.
Definition on_metrics (f : CollectorHealthMetrics -> CollectorHealthMetrics) : M Consumer unit :=
  pmodify (fun s => set_co_metrics (f (co_metrics s)) s).

(** What one envelope reads from its surroundings: a fresh connection id, the clock at the
    checkpoint, at the age of the event and at a failure, the texts of a failure without
    their secrets, and the measurements of the run. *)
Record Readings := {
  rd_uuid : string;
  rd_endpoint : string;
  rd_error_message : string;
  rd_lag_now : Z;
  rd_stale_now : Z;
  rd_failed_at : Z;
  rd_elapsed : Q;
  rd_queue_depth : Z;
  rd_rss : Z;
  rd_tasks : Z;
}.

Section Consume.
Context {D : Digest}.
Variable gate : CapabilityGate.
Variable namespace : string.
Variable stale_after : Z.

(** [x if x is not None else previous.y if previous else None] *)
Definition or_previous {A} (x : option A) (f : CollectionCheckpoint -> option A)
    (previous : option CollectionCheckpoint) : option A :=
  match x with Some _ => x | None => match previous with Some c => f c | None => None end end.
Definition of_previous {A} (f : CollectionCheckpoint -> option A) (previous : option CollectionCheckpoint) : option A :=
  match previous with Some c => f c | None => None end.

(** The [last_funding_at] of [CheckpointWriter.write] *)
Definition next_funding_at (e : CollectedEnvelope) (previous : option CollectionCheckpoint) : result (option Z) :=
  let last := of_previous ck_last_funding_at previous in
  if bool_decide (ev_event_type e = "funding_history")
  then match ev_exchange_timestamp e, last with
       | Some a, Some b => Ok (Some (Z.max a b))
       | Some a, None => Ok (Some a)
       | None, Some b => Ok (Some b)
       | None, None => Err (ValueError "max() iterable argument is empty")
       end
  else Ok last.

(** [CheckpointWriter.write] *)
Definition checkpoint_of_envelope (uuid : string) (previous : option CollectionCheckpoint) (e : CollectedEnvelope)
    (event_id : string) (state : ReconciliationState) (recovery_required : bool) : result CollectionCheckpoint :=
  let identity := stream_identity e in
  let! funding_at := next_funding_at e previous in
  Ok {| ck_venue := si_venue identity; ck_stream_key := stream_key_of identity;
        ck_connection_id :=
          default (match previous with Some c => ck_connection_id c | None => uuid end) (ev_connection_id e);
        ck_last_sequence := or_previous (envelope_sequence e) ck_last_sequence previous;
        ck_last_event_id := Some event_id; ck_reconciliation_state := state;
        ck_checkpointed_at := ev_received_at e;
        ck_canonical_instrument_id := si_canonical_instrument_id identity;
        ck_venue_symbol := si_venue_symbol identity; ck_event_type := si_event_type identity;
        ck_channel := si_channel identity;
        ck_last_available_at :=
          if bool_decide (si_channel identity = "rest") then Some (ev_available_at e)
          else of_previous ck_last_available_at previous;
        ck_last_funding_at := funding_at;
        ck_last_trade_id := if bool_decide (ev_event_type e = "trade") then ev_trade_id e
                            else of_previous ck_last_trade_id previous;
        ck_snapshot_sequence := or_previous (ev_snapshot_sequence e) ck_snapshot_sequence previous;
        ck_delta_sequence := or_previous (ev_delta_sequence e) ck_delta_sequence previous;
        ck_connection_epoch :=
          Z.max (ev_connection_epoch e) (match previous with Some c => ck_connection_epoch c | None => 0 end);
        ck_recovery_required := recovery_required;
        ck_bootstrap_completed :=
          if is_book e then ev_bootstrap_completed e
          else match previous with Some c => ck_bootstrap_completed c | None => false end;
        ck_recovery_started_at := or_previous (ev_recovery_started_at e) ck_recovery_started_at previous;
        ck_recovery_completed_at := or_previous (ev_recovery_completed_at e) ck_recovery_completed_at previous;
        ck_last_recovery_failure :=
          match ev_last_recovery_failure e with
          | Some m => Some m
          | None => if ev_bootstrap_completed e then None else of_previous ck_last_recovery_failure previous
          end;
        ck_checkpoint_namespace := namespace |}.

Definition stream_checkpoint (s : Consumer) (e : CollectedEnvelope) : option CollectionCheckpoint :=
  let identity := stream_identity e in
  get_checkpoint (co_store s) namespace (si_venue identity) (stream_key_of identity).

Definition write_checkpoint (uuid : string) (e : CollectedEnvelope) (event_id : string) (state : ReconciliationState)
    (recovery_required : bool) : M Consumer unit :=
  do! s <- pget;
  do! c <- plift (checkpoint_of_envelope uuid (stream_checkpoint s e) e event_id state recovery_required);
  on_store (save_checkpoint c).

(** [_persist_raw], [_quarantine], [_record_stale], [_record_checkpoint_lag] *)
Definition persist_raw (e : RawMarketEvent) : M Consumer unit :=
  do! added <- on_store (add_raw_event e);
  if added then on_metrics (fun m =>
    set_hm_production_by_venue (counter_add (re_venue e) (hm_production_by_venue m))
      (set_hm_production_count (hm_production_count m + 1)%Z m))
  else pret tt.

Definition quarantine_event (e : RawMarketEvent) (reason : string) : M Consumer unit :=
  run! on_store (quarantine e reason (re_received_at e));
  on_metrics (fun m => set_hm_quarantine_count (hm_quarantine_count m + 1)%Z m).

Definition record_stale (now : Z) (e : RawMarketEvent) : M Consumer unit :=
  let age := (now - re_available_at e)%Z in
  if (stale_after <? age)%Z
  then on_metrics (fun m => set_hm_stale_duration_seconds (fl (hm_stale_duration_seconds m + total_seconds age)) m)
  else pret tt.

Definition record_checkpoint_lag (now : Z) (e : CollectedEnvelope) : M Consumer unit :=
  on_metrics (set_hm_checkpoint_lag_seconds (dmax 0 (total_seconds (now - ev_available_at e)))).

Definition add_duplicate : M Consumer unit :=
  on_metrics (fun m => set_hm_duplicate_count (hm_duplicate_count m + 1)%Z m).
Definition add_gap : M Consumer unit :=
  on_metrics (fun m => set_hm_sequence_gaps (hm_sequence_gaps m + 1)%Z m).

(** [_record_gap_control] *)
Definition gap_payload (e : RawMarketEvent) (envelope : CollectedEnvelope) : string :=
  untext (dumps compact_style (sorted_json (JObject
    [(text "affected_event_id", jstr (re_event_id e));
     (text "delta_sequence", jopt JInt (ev_delta_sequence envelope));
     (text "sequence", jopt JInt (ev_sequence envelope));
     (text "stream_key", jstr (stream_key_of (stream_identity envelope)))]))).

Definition gap_event (e : RawMarketEvent) (envelope : CollectedEnvelope) : RawMarketEvent :=
  let p := gap_payload e envelope in
  {| re_event_id := re_venue e +:+ "-sequence-gap-" +:+ sha256_hex p; re_venue := re_venue e;
     re_canonical_instrument_id := re_canonical_instrument_id e; re_venue_symbol := re_venue_symbol e;
     re_event_type := "sequence_gap"; re_exchange_timestamp := re_exchange_timestamp e;
     re_received_at := re_received_at e; re_available_at := re_available_at e; re_sequence := re_sequence e;
     re_connection_id := re_connection_id e; re_reconciliation_state := Some (reconciliation_value R_GAP_DETECTED);
     re_payload_sha256 := sha256_hex p; re_raw_payload := p;
     re_normalizer_version := "research-collector-r2.1-v1";
     re_capability_verification_run_id := "collector-control-plane"; re_created_at := re_created_at e;
     re_raw_payload_id := None; re_source_payload_sha256 := None; re_channel := "control";
     re_snapshot_sequence := re_snapshot_sequence e; re_delta_sequence := re_delta_sequence e;
     re_connection_epoch := re_connection_epoch e; re_timestamp_semantic := RECEIPT_ONLY;
     re_availability_provenance := UNKNOWN; re_exchange_server_time := None; re_timeframe := None |}.

Definition record_gap_control (e : RawMarketEvent) (envelope : CollectedEnvelope) : M Consumer unit :=
  do! control <- plift (RawMarketEvent_validate (gap_event e envelope));
  persist_raw control.

(** The end of a stored event whose stream is refused *)
Definition refuse (uuid : string) (e : RawMarketEvent) (envelope : CollectedEnvelope) (reason : string)
    (state : ReconciliationState) : M Consumer unit :=
  run! persist_raw e;
  run! quarantine_event e reason;
  write_checkpoint uuid envelope (re_event_id e) state true.

Definition refuse_gap (uuid : string) (e : RawMarketEvent) (envelope : CollectedEnvelope) (reason : string)
  : M Consumer unit :=
  run! persist_raw e;
  run! quarantine_event e reason;
  run! record_gap_control e envelope;
  run! add_gap;
  write_checkpoint uuid envelope (re_event_id e) R_DEGRADED true.

(** [_persist_book] *)
Definition requires_recovery (checkpoint : option CollectionCheckpoint) : bool :=
  match checkpoint with Some c => ck_recovery_required c | None => false end.

Definition recovered (checkpoint : option CollectionCheckpoint) (envelope : CollectedEnvelope) : bool :=
  requires_recovery checkpoint && recovery_completed envelope (ev_reconciliation_state envelope).

Definition persist_book (r : Readings) (e : RawMarketEvent) (envelope : CollectedEnvelope)
    (checkpoint : option CollectionCheckpoint) : M Consumer unit :=
  let again := recovered checkpoint envelope in
  if bool_decide (ev_event_type envelope = "orderbook_delta") && negb again && sequence_gap checkpoint envelope
  then refuse_gap (rd_uuid r) e envelope "order-book gap detected; snapshot recovery required"
  else if requires_recovery checkpoint && negb again
  then refuse (rd_uuid r) e envelope "order-book recovery has not completed"
         (default R_DEGRADED (ev_reconciliation_state envelope))
  else if negb (bool_decide (ev_reconciliation_state envelope = Some R_SYNCHRONIZED))
  then refuse (rd_uuid r) e envelope "order-book event is not synchronized"
         (default R_DEGRADED (ev_reconciliation_state envelope))
  else
    run! persist_raw e;
    run! write_checkpoint (rd_uuid r) envelope (re_event_id e) R_SYNCHRONIZED false;
    run! record_checkpoint_lag (rd_lag_now r) envelope;
    run! (if again then on_metrics (fun m => set_hm_snapshot_recoveries (hm_snapshot_recoveries m + 1)%Z m)
          else pret tt);
    record_stale (rd_stale_now r) e.

(** The state an experimental event leaves its stream in *)
Definition experimental_state (checkpoint : option CollectionCheckpoint) (envelope : CollectedEnvelope)
  : ReconciliationState * bool :=
  let gap := sequence_gap checkpoint envelope in
  let state := if gap then R_DEGRADED
               else default (if is_book envelope then R_DEGRADED else R_SYNCHRONIZED)
                      (ev_reconciliation_state envelope) in
  let completed := recovery_completed envelope (Some state) in
  let required := gap || (is_book envelope &&
                          (negb (bool_decide (state = R_SYNCHRONIZED)) ||
                           (requires_recovery checkpoint && negb completed))) in
  (if required && bool_decide (state = R_SYNCHRONIZED) then R_DEGRADED else state, required).

(** The events of venues that are not trusted *)
Definition persist_experimental (r : Readings) (e : RawMarketEvent) (envelope : CollectedEnvelope)
    (checkpoint : option CollectionCheckpoint) (support : CapabilitySupport) : M Consumer unit :=
  do! existing <- on_store (get_experimental_event (re_event_id e));
  do! conflict <-
    match existing with
    | Some other =>
        do! a <- plift (canonical_market_event_content other);
        do! b <- plift (canonical_market_event_content e);
        if negb (bool_decide (a = b)) then pret true
        else run! add_duplicate; pret false
    | None =>
        do! added <- on_store (add_experimental_event e (support_value support));
        run! (if added : bool
              then on_metrics (fun m =>
                     set_hm_experimental_by_venue (counter_add (re_venue e) (hm_experimental_by_venue m))
                       (set_hm_experimental_count (hm_experimental_count m + 1)%Z m))
              else pret tt);
        pret false
    end;
  if conflict then quarantine_event e "canonical event identity collision"
  else
    let '(state, required) := experimental_state checkpoint envelope in
    run! (if sequence_gap checkpoint envelope then add_gap else pret tt);
    run! write_checkpoint (rd_uuid r) envelope (re_event_id e) state required;
    record_checkpoint_lag (rd_lag_now r) envelope.

Definition old_connection (checkpoint : option CollectionCheckpoint) (envelope : CollectedEnvelope) : bool :=
  is_book envelope &&
  match checkpoint with
  | Some c =>
      (ev_connection_epoch envelope <? ck_connection_epoch c)%Z ||
      ((ev_connection_epoch envelope =? ck_connection_epoch c)%Z &&
       match ev_connection_id envelope with
       | Some id => negb (bool_decide (id = ck_connection_id c))
       | None => false
       end)
  | None => false
  end.

Definition decision_of (envelope : CollectedEnvelope) : CapabilityDecision :=
  match dict_get (ev_event_type envelope) EVENT_CAPABILITIES with
  | Some capability => gate (ev_venue envelope) capability (ev_canonical_instrument_id envelope)
                         (ev_received_at envelope)
  | None => {| cd_support := LIVE_VERIFIED; cd_verification_run_id := "collector-control-plane" |}
  end.

(** The events of trusted venues, and of the control plane *)
Definition persist_production (r : Readings) (e : RawMarketEvent) (envelope : CollectedEnvelope)
    (checkpoint : option CollectionCheckpoint) (invalid : option string) : M Consumer unit :=
  do! existing <- on_store (get_raw_event (re_event_id e));
  match existing, invalid with
  | Some other, _ =>
      if bool_decide (re_payload_sha256 other = re_payload_sha256 e) then add_duplicate
      else quarantine_event e "event_id payload conflict"
  | None, Some reason => run! persist_raw e; quarantine_event e reason
  | None, None =>
      if is_book envelope then persist_book r e envelope checkpoint
      else if bool_decide (ev_event_type envelope = "websocket_disconnect") &&
              bool_decide (ev_logical_stream_event_type envelope = Some "orderbook")
      then
        run! persist_raw e;
        do! p <- plift (payload e);
        if truthy (get_field p "client_initiated_close") then pret tt
        else
          run! write_checkpoint (rd_uuid r) envelope (re_event_id e) R_DISCONNECTED true;
          on_metrics (fun m => set_hm_reconnect_count (hm_reconnect_count m + 1)%Z
                                 (set_hm_disconnect_count (hm_disconnect_count m + 1)%Z m))
      else if sequence_gap checkpoint envelope
      then refuse_gap (rd_uuid r) e envelope "sequence gap: snapshot recovery required"
      else
        run! persist_raw e;
        run! write_checkpoint (rd_uuid r) envelope (re_event_id e)
               (default R_SYNCHRONIZED (ev_reconciliation_state envelope)) false;
        run! record_checkpoint_lag (rd_lag_now r) envelope;
        record_stale (rd_stale_now r) e
  end.

(** [persist] *)
Definition persist (r : Readings) (envelope : CollectedEnvelope) : M Consumer unit :=
  do! raw <- plift (event_of envelope);
  do! s <- pget;
  let checkpoint := stream_checkpoint s envelope in
  let decision := decision_of envelope in
  let source_hash := sha256_hex (ev_raw_payload envelope) in
  do! e <- plift (RawMarketEvent_validate
             (sourced (text_or (Some (cd_verification_run_id decision)) "unverified-experimental") source_hash raw));
  do! _added <- on_store (save_raw_payload source_hash
    {| rp_payload_id := "payload-" +:+ source_hash; rp_venue := re_venue e;
       rp_source_endpoint := ev_source_endpoint envelope; rp_raw_payload := ev_raw_payload envelope;
       rp_received_at := re_received_at e |});
  run! on_metrics (fun m => set_hm_events
         (counter_add (re_venue e, re_event_type e, re_canonical_instrument_id e) (hm_events m)) m);
  if old_connection checkpoint envelope
  then quarantine_event e "order-book event belongs to an old connection epoch"
  else
    do! invalid <- plift (invalid_reason e);
    if production_eligible decision then persist_production r e envelope checkpoint invalid
    else persist_experimental r e envelope checkpoint (cd_support decision).

(** [type(exc).__name__] *)
Definition exn_name (x : exn) : string :=
  match x with
  | ValueError _ => "ValueError" | DuplicateFillError _ => "DuplicateFillError" | RuntimeError _ => "RuntimeError"
  | PermissionError _ => "PermissionError" | KeyError => "KeyError" | IndexError _ => "IndexError"
  | ExecutionAdapterError _ => "ExecutionAdapterError" | OtherError n => n
  end.

(** [persist_failure] *)
Definition persist_failure (r : Readings) (identity : ResearchStreamIdentity) (x : exn) (retry_count : Z)
  : M Consumer unit :=
  on_store (save_collection_failure {|
    fe_venue := si_venue identity; fe_stream_key := stream_key_of identity;
    fe_instrument := si_canonical_instrument_id identity; fe_event_type := si_event_type identity;
    fe_endpoint := rd_endpoint r; fe_error_type := exn_name x; fe_error_message := rd_error_message r;
    fe_occurred_at := rd_failed_at r; fe_retry_count := retry_count |}).

(** One turn of [run] *)
Definition consume (r : Readings) (envelope : CollectedEnvelope) : M Consumer unit :=
  run! on_metrics (observe_runtime (rd_queue_depth r) (rd_rss r) (rd_tasks r));
  run! ptry (persist r envelope) (fun x => persist_failure r (stream_identity envelope) x 0);
  on_metrics (observe_database_write (rd_elapsed r)).

(** [run] on the envelopes of the queue *)
Definition consume_all (items : list (Readings * CollectedEnvelope)) (s : Consumer) : Consumer :=
  fold_left (fun s item => (consume item.1 item.2 s).1) items s.

End Consume.
