(* ===== verification/Snapshots.v ===== *)
(** * Data snapshots and datasets (services/research/data_operations.py, services/research/dataset.py)

    [DataSnapshotService] finalizes the events that were available at a cutoff, judges
    whether research may use them and verifies a snapshot against the store;
    [PointInTimeDatasetBuilder] reads the values of a snapshot; [evaluate_data_quality]
    measures a dataset.  The clock is an argument. *)

From Stdlib Require Import ZArith QArith Qabs NArith Lia.
From stdpp Require Import base tactics list strings.
From S2P Require Import Prelude Decimals Binary64 Evidence Json PyText FundingCarry ShadowBook ShadowStore.
From S2P Require Import Certification ResearchStore Collector.

Local Open Scope string_scope.
Local Open Scope list_scope.

(** ** Eligibility *)

Record SnapshotEligibilityPolicy := {
  ep_required_event_types : list string;
  ep_required_venues : list string;
  ep_minimum_production_events : Z;
  ep_maximum_gap_ratio : Decimal;
  ep_maximum_stale_ratio : Decimal;
  ep_require_complete_instrument_rules : bool;
  ep_minimum_venue_event_coverage_ratio : Decimal;
  ep_minimum_history_windows_per_venue_event : Z;
  ep_require_point_in_time_availability : bool;
}.

Definition default_policy : SnapshotEligibilityPolicy := {|
  ep_required_event_types := []; ep_required_venues := []; ep_minimum_production_events := 1;
  ep_maximum_gap_ratio := 1 # 100; ep_maximum_stale_ratio := 5 # 100;
  ep_require_complete_instrument_rules := false; ep_minimum_venue_event_coverage_ratio := 0;
  ep_minimum_history_windows_per_venue_event := 0; ep_require_point_in_time_availability := false |}.

(** [_rule_is_complete] *)
Definition rule_names : list string :=
  ["tick_size"; "lot_size"; "minimum_quantity"; "minimum_notional"; "maker_fee"; "taker_fee"; "maker_rebate";
   "funding_interval"; "margin_asset"].
Definition rule_values (r : InstrumentRuleSnapshot) : list bool :=
  [bool_decide (is_Some (ir_tick_size r)); bool_decide (is_Some (ir_lot_size r));
   bool_decide (is_Some (ir_minimum_quantity r)); bool_decide (is_Some (ir_minimum_notional r));
   bool_decide (is_Some (ir_maker_fee r)); bool_decide (is_Some (ir_taker_fee r));
   bool_decide (is_Some (ir_maker_rebate r)); bool_decide (is_Some (ir_funding_interval r));
   bool_decide (is_Some (ir_margin_asset r))].
(** [evidence.get(key)] *)
Definition evidence_field (evidence : list (string * option string)) (key : string) : option string :=
  match dict_get key evidence with Some v => v | None => None end.
Definition has_evidence (r : InstrumentRuleSnapshot) (name : string) : bool :=
  match dict_get name (ir_field_evidence r) with
  | None => false
  | Some evidence =>
      negb (bool_decide (evidence_field evidence "verification_status" = Some (rule_status_value RULE_UNKNOWN))) &&
      nonempty (text_or (evidence_field evidence "source_endpoint") EmptyString) &&
      (String.length (text_or (evidence_field evidence "source_payload_sha256") EmptyString) =? 64)%nat &&
      nonempty (text_or (evidence_field evidence "retrieved_at") EmptyString)
  end.
Definition rule_is_complete (r : InstrumentRuleSnapshot) : bool :=
  negb (bool_decide (ir_fee_tier r = FEE_UNKNOWN)) && negb (bool_decide (ir_verification_status r = RULE_UNKNOWN)) &&
  forallb id (rule_values r) && forallb (has_evidence r) rule_names.

(** [",".join(sorted(set(required) - present))] *)
Definition missing_names (required present : list string) : list string :=
  sorted_by string_leb (List.filter (fun x => negb (bool_decide (x ∈ present))) (dict_fromkeys required)).

Definition unproven_history (e : RawMarketEvent) : bool :=
  historical (re_timestamp_semantic e) && negb (proven (re_availability_provenance e)).

Section Service.
Context {C : DecimalContext} {D : Digest}.

Definition is_market (e : RawMarketEvent) : bool := negb (bool_decide (re_event_type e ∈ CONTROL_EVENT_TYPES)).
Definition of_type (t : string) (e : RawMarketEvent) : bool := bool_decide (re_event_type e = t).

Definition pair_count (market : list RawMarketEvent) (pair : string * string) : Z :=
  count (fun e => bool_decide ((re_venue e, re_event_type e) = pair)) market.

(** The reasons about required venues and event types together *)
Definition coverage_reasons (policy : SnapshotEligibilityPolicy) (market : list RawMarketEvent) : list string :=
  let pairs := flat_map (fun v => map (fun t => (v, t)) (ep_required_event_types policy)) (ep_required_venues policy) in
  let minimum := ep_minimum_history_windows_per_venue_event policy in
  match pairs with
  | [] => []
  | _ =>
      let covered := count (fun p => minimum <=? pair_count market p)%Z pairs in
      let incomplete := List.filter (fun p => pair_count market p <? minimum)%Z pairs in
      reason_if (dltb (ratio covered (size pairs)) (ep_minimum_venue_event_coverage_ratio policy))
        "venue/event capability coverage ratio below threshold" ++
      reason_if (negb (bool_decide (incomplete = [])))
        ("insufficient history windows: " +:+
         String.concat "," (map (fun p : string * string => p.1 +:+ ":" +:+ p.2) incomplete))
  end.

(** The reasons about instrument rules *)
Definition rules_incomplete (s : ResearchStore) (cutoff : Z) (market : list RawMarketEvent) : bool :=
  let complete := map (fun r => (ir_venue r, ir_canonical_instrument_id r))
                    (List.filter rule_is_complete (instrument_rules_at s cutoff)) in
  negb (forallb (fun e => bool_decide ((re_venue e, re_canonical_instrument_id e) ∈ complete)) market).

(** [_eligibility_reasons] *)
Definition eligibility_reasons (s : ResearchStore) (events source : list RawMarketEvent) (cutoff : Z)
    (policy : SnapshotEligibilityPolicy) (unsynchronized_books : list string) : list string :=
  let market := List.filter is_market events in
  let missing_types := missing_names (ep_required_event_types policy) (map re_event_type market) in
  let missing_venues := missing_names (ep_required_venues policy) (map re_venue market) in
  let denominator := Z.max 1 (size market) in
  reason_if (size market <? ep_minimum_production_events policy)%Z "production market event count below threshold" ++
  reason_if (negb (bool_decide (missing_types = [])))
    ("missing required event types: " +:+ String.concat "," missing_types) ++
  reason_if (negb (bool_decide (missing_venues = [])))
    ("missing required venues: " +:+ String.concat "," missing_venues) ++
  coverage_reasons policy market ++
  reason_if (negb (bool_decide (unsynchronized_books = []))) "unsynchronized order-book events present" ++
  reason_if (ep_require_point_in_time_availability policy && existsb unproven_history market)
    "historical availability is not point-in-time proven" ++
  reason_if (dltb (ep_maximum_gap_ratio policy) (ratio (count (of_type "sequence_gap") source) denominator))
    "sequence-gap ratio above threshold" ++
  reason_if (dltb (ep_maximum_stale_ratio policy) (ratio (count (of_type "stale_stream") source) denominator))
    "stale ratio above threshold" ++
  reason_if (ep_require_complete_instrument_rules policy && rules_incomplete s cutoff market)
    "instrument rules are incomplete or UNKNOWN".

(** ** Finalizing *)

(** [cutoff.strftime("%Y%m%dT%H%M%SZ")] *)
Definition compact_time (t : Z) : string :=
  let secs := (t / 1000000)%Z in
  let '(y, m, d) := civil_year (secs / 86400)%Z in
  let sod := (secs mod 86400)%Z in
  zpad 4 y +:+ zpad 2 m +:+ zpad 2 d +:+ "T" +:+ zpad 2 (sod / 3600) +:+ zpad 2 (sod / 60 mod 60) +:+
  zpad 2 (sod mod 60) +:+ "Z".

(** [enumerate(events)] with the id and the hash of each *)
Definition membership_of (events : list RawMarketEvent) : list (Z * string * string) :=
  imap (fun i e => (Z.of_nat i, re_event_id e, re_payload_sha256 e)) events.

Definition member_json (m : Z * string * string) : json :=
  let '(ordinal, id, hash) := m in JArray [JInt ordinal; jstr id; jstr hash].
Definition content_hash_of (members : list (Z * string * string)) : string :=
  canonical_sha256 (JArray (map member_json members)).

(** The manifest without its own hash *)
Definition unsigned_json (m : DataSnapshotManifest) : json := JObject
  [(text "snapshot_id", jstr (sm_snapshot_id m)); (text "cutoff_at", jtime_utc (sm_cutoff_at m));
   (text "events", JArray (map member_json (sm_events m))); (text "quarantine_count", JInt (sm_quarantine_count m));
   (text "quarantine_reasons",
    JArray (map (fun r : string * Z => JArray [jstr r.1; JInt r.2]) (sm_quarantine_reasons m)));
   (text "outage_event_ids", JArray (map jstr (sm_outage_event_ids m)));
   (text "degraded_event_ids", JArray (map jstr (sm_degraded_event_ids m)));
   (text "content_sha256", jstr (sm_content_sha256 m)); (text "finalized_at", jtime_utc (sm_finalized_at m));
   (text "eligibility_status", jstr (sm_eligibility_status m));
   (text "eligibility_reasons", JArray (map jstr (sm_eligibility_reasons m)))].

Definition sign (m : DataSnapshotManifest) : DataSnapshotManifest := {|
  sm_snapshot_id := sm_snapshot_id m; sm_cutoff_at := sm_cutoff_at m; sm_events := sm_events m;
  sm_quarantine_count := sm_quarantine_count m; sm_quarantine_reasons := sm_quarantine_reasons m;
  sm_outage_event_ids := sm_outage_event_ids m; sm_degraded_event_ids := sm_degraded_event_ids m;
  sm_content_sha256 := sm_content_sha256 m; sm_manifest_sha256 := canonical_sha256 (unsigned_json m);
  sm_finalized_at := sm_finalized_at m; sm_eligibility_status := sm_eligibility_status m;
  sm_eligibility_reasons := sm_eligibility_reasons m |}.

(** [x is None or y in x] *)
Definition included (names : option (list string)) (name : string) : bool :=
  match names with Some names => bool_decide (name ∈ names) | None => true end.

Definition unsynchronized_book (e : RawMarketEvent) : bool :=
  bool_decide (re_event_type e ∈ BOOK_EVENT_TYPES) &&
  negb (bool_decide (re_reconciliation_state e = Some (reconciliation_value R_SYNCHRONIZED))).

Record SnapshotRequest := {
  sr_cutoff_at : Z;
  sr_snapshot_id : option string;
  sr_finalized_at : Z;
  sr_policy : SnapshotEligibilityPolicy;
  sr_included_event_types : option (list string);
  sr_included_venues : option (list string);
}.

(** What was available by the cutoff, in order, and the part of it that is usable *)
Definition snapshot_source (s : ResearchStore) (q : SnapshotRequest) : list RawMarketEvent :=
  List.filter (fun e => (re_available_at e <=? sr_cutoff_at q)%Z && included (sr_included_event_types q) (re_event_type e) &&
                        included (sr_included_venues q) (re_venue e))
    (sorted_by event_leb (raw_events s)).
Definition unsynchronized_ids (source : list RawMarketEvent) : list string :=
  dict_fromkeys (map re_event_id (List.filter unsynchronized_book source)).
Definition usable_events (s : ResearchStore) (q : SnapshotRequest) : list RawMarketEvent :=
  let source := snapshot_source s q in
  List.filter (fun e => negb (bool_decide (re_event_id e ∈ (quarantine_summary s (sr_cutoff_at q)).1)) &&
                        negb (bool_decide (re_event_id e ∈ unsynchronized_ids source))) source.

Definition ids_of_types (types : list string) (events : list RawMarketEvent) : list string :=
  map re_event_id (List.filter (fun e => bool_decide (re_event_type e ∈ types)) events).

Definition manifest_of (s : ResearchStore) (q : SnapshotRequest) : DataSnapshotManifest :=
  let source := snapshot_source s q in
  let events := usable_events s q in
  let summary := quarantine_summary s (sr_cutoff_at q) in
  let members := membership_of events in
  let content_hash := content_hash_of members in
  let reasons := eligibility_reasons s events source (sr_cutoff_at q) (sr_policy q) (unsynchronized_ids source) in
  sign {|
    sm_snapshot_id := text_or (sr_snapshot_id q)
      ("snapshot-" +:+ compact_time (sr_cutoff_at q) +:+ "-" +:+ String.substring 0 12 content_hash);
    sm_cutoff_at := sr_cutoff_at q; sm_events := members;
    sm_quarantine_count := size summary.1; sm_quarantine_reasons := summary.2;
    sm_outage_event_ids := ids_of_types ["venue_outage"; "websocket_disconnect"] events;
    sm_degraded_event_ids := ids_of_types ["sequence_gap"; "stale_stream"; "clock_skew"] events;
    sm_content_sha256 := content_hash; sm_manifest_sha256 := EmptyString; sm_finalized_at := sr_finalized_at q;
    sm_eligibility_status :=
      if bool_decide (reasons = []) then "FINALIZED_RESEARCH_ELIGIBLE" else "FINALIZED_NOT_ELIGIBLE";
    sm_eligibility_reasons := reasons |}.

(** [finalize] *)
Definition finalize (q : SnapshotRequest) : M ResearchStore DataSnapshotManifest :=
  do! s <- pget;
  let m := manifest_of s q in
  match snapshot_manifest s (sm_snapshot_id m) with
  | Some existing => pret existing
  | None => run! finalize_snapshot m; pret m
  end.

(** [verify] *)
Definition verify (s : ResearchStore) (id : string) : result DataSnapshotManifest :=
  match snapshot_manifest s id with
  | None => Err (ValueError "snapshot does not exist or is not finalized")
  | Some m =>
      let! events := snapshot_events s id in
      let actual := membership_of events in
      require! bool_decide (actual = sm_events m)
        else ValueError "snapshot membership does not reproduce exactly";
      require! bool_decide (content_hash_of actual = sm_content_sha256 m)
        else ValueError "snapshot content hash mismatch";
      require! bool_decide (canonical_sha256 (unsigned_json m) = sm_manifest_sha256 m)
        else ValueError "snapshot manifest hash mismatch";
      Ok m
  end.

(** [raw_event_is_protected] *)
Definition raw_event_is_protected (s : ResearchStore) (id : string) : bool :=
  bool_decide (id ∈ snapshot_members s).

End Service.
