(* ===== verification/Dataset.v ===== *)
(** * Datasets (services/research/dataset.py)

    [PointInTimeDatasetBuilder.build] selects the values of a snapshot that a decision at
    its cutoff may use, and quarantines the rest; [evaluate_data_quality] measures what was
    selected. *)

From Stdlib Require Import ZArith QArith Qabs NArith Lia.
From stdpp Require Import base tactics list strings.
From S2P Require Import Prelude Decimals Binary64 Evidence Json PyText FundingCarry ShadowBook ShadowStore.
From S2P Require Import Certification ResearchStore Collector Snapshots.

Local Open Scope string_scope.
Local Open Scope list_scope.

(** ** Data *)

Record PointInTimeValue := {
  pv_event_id : string;
  pv_venue : string;
  pv_canonical_instrument_id : string;
  pv_venue_symbol : string;
  pv_event_type : string;
  pv_exchange_timestamp : option Z;
  pv_received_at : Z;
  pv_available_at : Z;
  pv_payload : list (chars * json);
  pv_sequence : option Z;
}.

(** [require_available] *)
Definition require_available (v : PointInTimeValue) (decision_time : Z) : result unit :=
  require! negb (decision_time <? pv_available_at v)%Z
    else ValueError "future data leakage: value was not available at decision time";
  Ok tt.

Record PointInTimeDataset := {
  pd_snapshot_id : string;
  pd_cutoff_at : Z;
  pd_instruments : list string;
  pd_venues : list string;
  pd_event_types : list string;
  pd_values : list PointInTimeValue;
  pd_excluded_future_event_ids : list string;
  pd_retained_delisted_event_ids : list string;
  pd_retained_outage_event_ids : list string;
  pd_content_sha256 : string;
}.

Record DataQualityResult := {
  dq_run_id : string;
  dq_data_snapshot_id : string;
  dq_passed : bool;
  dq_coverage_ratio : Decimal;
  dq_stale_ratio : Decimal;
  dq_duplicate_ratio : Decimal;
  dq_sequence_gap_count : Z;
  dq_out_of_order_count : Z;
  dq_quarantine_ratio : Decimal;
  dq_venue_outage_duration_seconds : extended;
  dq_maximum_clock_skew_seconds : Decimal;
  dq_cross_venue_divergence : extended;
  dq_missing_funding_windows : Z;
  dq_missing_oi_windows : Z;
  dq_book_depth_availability : Decimal;
  dq_reasons : list string;
}.

(** ** The builder *)

(** [Decimal(str(payload[key]))] *)
Definition decimal_field (p : list (chars * json)) (key : string) : result extended :=
  match dict_get (text key) p with
  | None => Err KeyError
  | Some v => match read_decimal v with Some x => Ok x | None => Err invalid_operation end
  end.

(** [_validate_payload] *)
Definition validate_payload (event_type : string) (p : list (chars * json)) : result unit :=
  if bool_decide (event_type = "orderbook_snapshot")
  then
    let! bid := decimal_field p "bid" in
    let! ask := decimal_field p "ask" in
    let! bid_depth := decimal_field p "bid_depth" in
    let! ask_depth := decimal_field p "ask_depth" in
    let! broken :=
      let! low := ext_le bid (Finite 0) in
      if low then Ok true
      else let! crossed := ext_le ask bid in
           if crossed then Ok true
           else let! depth := ext_min bid_depth ask_depth in ext_lt depth (Finite 0) in
    require! negb broken else ValueError "invalid orderbook schema"; Ok tt
  else if bool_decide (event_type ∈ ["funding_rate"; "funding_current"; "funding_history"])
  then
    let! _rate := decimal_field p "rate" in
    let! mark := decimal_field p "mark_price" in
    let! low := ext_le mark (Finite 0) in
    require! negb low else ValueError "invalid funding schema"; Ok tt
  else if bool_decide (event_type = "open_interest")
  then
    let! value := decimal_field p "value" in
    let! negative := ext_lt value (Finite 0) in
    require! negb negative else ValueError "invalid open-interest schema"; Ok tt
  else Ok tt.

(** [except (KeyError, ValueError, TypeError)] *)
Definition normalization_error (x : exn) : bool :=
  match x with
  | KeyError => true
  | OtherError n => bool_decide (n ∈ ["JSONDecodeError"; "TypeError"])
  | x => is_value_error x
  end.

Definition checked_payload (e : RawMarketEvent) : result (list (chars * json)) :=
  let! p := payload e in
  let! _ok := validate_payload (re_event_type e) p in
  Ok p.

Definition sequence_key : Type := string * string * string * option string.
Definition sequence_key_of (e : RawMarketEvent) : sequence_key :=
  (re_venue e, re_canonical_instrument_id e, re_event_type e, re_connection_id e).

Record BuildRequest := {
  bq_snapshot_id : string;
  bq_cutoff_at : Z;
  bq_instruments : list string;
  bq_venues : list string;
  bq_event_types : list string;
}.

(** What the loop has gathered: the values with the record of each that is hashed *)
Record BuildState := {
  bs_selected : list (PointInTimeValue * json);
  bs_excluded : list string;
  bs_delisted : list string;
  bs_outages : list string;
  bs_previous_sequences : list (sequence_key * Z);
}.
Definition no_values : BuildState := {|
  bs_selected := []; bs_excluded := []; bs_delisted := []; bs_outages := []; bs_previous_sequences := [] |}.

Definition value_of (e : RawMarketEvent) (p : list (chars * json)) : PointInTimeValue := {|
  pv_event_id := re_event_id e; pv_venue := re_venue e;
  pv_canonical_instrument_id := re_canonical_instrument_id e; pv_venue_symbol := re_venue_symbol e;
  pv_event_type := re_event_type e; pv_exchange_timestamp := re_exchange_timestamp e;
  pv_received_at := re_received_at e; pv_available_at := re_available_at e; pv_payload := p;
  pv_sequence := re_sequence e |}.

Definition hash_record (e : RawMarketEvent) : json := JArray
  [jstr (re_event_id e); jstr (re_venue e); jstr (re_canonical_instrument_id e); jstr (re_event_type e);
   jopt jtime_utc (re_exchange_timestamp e); jtime_utc (re_received_at e); jtime_utc (re_available_at e);
   jopt JInt (re_sequence e); jopt jstr (re_connection_id e); jopt jstr (re_reconciliation_state e);
   jstr (re_payload_sha256 e); jstr (re_normalizer_version e); jstr (re_capability_verification_run_id e)].

Definition requested (q : BuildRequest) (e : RawMarketEvent) : bool :=
  bool_decide (re_canonical_instrument_id e ∈ bq_instruments q) && bool_decide (re_venue e ∈ bq_venues q) &&
  bool_decide (re_event_type e ∈ bq_event_types q).

(** The sequence of an event, compared with the one before in its connection: the new
    sequences, and why it is refused *)
Definition check_sequence (e : RawMarketEvent) (previous : list (sequence_key * Z))
  : list (sequence_key * Z) * option string :=
  match re_sequence e with
  | None => (previous, None)
  | Some n =>
      (dict_set (sequence_key_of e) n previous,
       match dict_get (sequence_key_of e) previous with
       | Some last => if (n =? last + 1)%Z then None
                      else Some (if (last + 1 <? n)%Z then "sequence gap" else "out-of-order sequence")
       | None => None
       end)
  end.

Definition is_outage (event_type : string) (p : list (chars * json)) : bool :=
  bool_decide (event_type ∈ ["venue_outage"; "websocket_disconnect"]) || truthy (get_field p "outage").

Definition set_bs_previous_sequences v (b : BuildState) : BuildState := {|
  bs_selected := bs_selected b; bs_excluded := bs_excluded b; bs_delisted := bs_delisted b;
  bs_outages := bs_outages b; bs_previous_sequences := v |}.
Definition exclude (id : string) (b : BuildState) : BuildState := {|
  bs_selected := bs_selected b; bs_excluded := bs_excluded b ++ [id]; bs_delisted := bs_delisted b;
  bs_outages := bs_outages b; bs_previous_sequences := bs_previous_sequences b |}.
Definition select (e : RawMarketEvent) (p : list (chars * json)) (b : BuildState) : BuildState := {|
  bs_selected := bs_selected b ++ [(value_of e p, hash_record e)]; bs_excluded := bs_excluded b;
  bs_delisted := bs_delisted b ++ (if truthy (get_field p "delisted") then [re_event_id e] else []);
  bs_outages := bs_outages b ++ (if is_outage (re_event_type e) p then [re_event_id e] else []);
  bs_previous_sequences := bs_previous_sequences b |}.

(** The loop body *)
Definition build_event (q : BuildRequest) (e : RawMarketEvent) (b : BuildState) : M ResearchStore BuildState :=
  let refuse reason b := run! quarantine e reason (bq_cutoff_at q); pret b in
  if negb (requested q e) then pret b
  else if (bq_cutoff_at q <? re_available_at e)%Z then pret (exclude (re_event_id e) b)
  else
    match checked_payload e with
    | Err x => if normalization_error x then refuse ("normalization failure: " +:+ exn_message x) b else praise x
    | Ok p =>
        if match re_exchange_timestamp e with Some t => (re_received_at e <? t)%Z | None => false end
        then refuse "abnormal future exchange timestamp" b
        else if (re_available_at e <? re_received_at e)%Z then refuse "available_at precedes received_at" b
        else
          let '(previous, refused) := check_sequence e (bs_previous_sequences b) in
          let b := set_bs_previous_sequences previous b in
          match refused with
          | Some reason => refuse reason b
          | None =>
              run! plift (require_available (value_of e p) (bq_cutoff_at q));
              pret (select e p b)
          end
    end.

Fixpoint build_events (q : BuildRequest) (events : list RawMarketEvent) (b : BuildState)
  : M ResearchStore BuildState :=
  match events with
  | [] => pret b
  | e :: events => do! b <- build_event q e b; build_events q events b
  end.

Section Build.
Context {C : DecimalContext} {D : Digest}.

Definition ELIGIBLE : string := "FINALIZED_RESEARCH_ELIGIBLE".
Definition require_eligible (m : DataSnapshotManifest) : result unit :=
  require! bool_decide (sm_eligibility_status m = ELIGIBLE)
    else ValueError "data snapshot is finalized but not research eligible";
  Ok tt.

Definition dataset_of (q : BuildRequest) (b : BuildState) : PointInTimeDataset := {|
  pd_snapshot_id := bq_snapshot_id q; pd_cutoff_at := bq_cutoff_at q; pd_instruments := bq_instruments q;
  pd_venues := bq_venues q; pd_event_types := bq_event_types q; pd_values := map fst (bs_selected b);
  pd_excluded_future_event_ids := bs_excluded b; pd_retained_delisted_event_ids := bs_delisted b;
  pd_retained_outage_event_ids := bs_outages b;
  pd_content_sha256 := canonical_sha256 (JArray (map snd (bs_selected b))) |}.

(** [build] *)
Definition build (q : BuildRequest) : M ResearchStore PointInTimeDataset :=
  do! s <- pget;
  let finalized := snapshot_manifest s (bq_snapshot_id q) in
  run! plift (match finalized with
              | Some m =>
                  require! (sm_cutoff_at m =? bq_cutoff_at q)%Z
                    else ValueError "requested cutoff does not match finalized snapshot";
                  require_eligible m
              | None => Ok tt
              end);
  do! source <- plift (match finalized with
                       | Some _ => snapshot_events s (bq_snapshot_id q)
                       | None => Ok (raw_events s)
                       end);
  do! b <- build_events q (sorted_by event_leb source) no_values;
  run! (match finalized with
        | Some _ => pret tt
        | None =>
            do! m <- finalize {| sr_cutoff_at := bq_cutoff_at q; sr_snapshot_id := Some (bq_snapshot_id q);
                                 sr_finalized_at := bq_cutoff_at q; sr_policy := default_policy;
                                 sr_included_event_types := None; sr_included_venues := None |};
            plift (require_eligible m)
        end);
  pret (dataset_of q b).

(** ** Quality *)

Record QualityPolicy := {
  qp_minimum_coverage : Decimal;
  qp_maximum_stale_ratio : Decimal;
  qp_maximum_quarantine_ratio : Decimal;
  qp_maximum_duplicate_ratio : Decimal;
  qp_maximum_clock_skew_seconds : Decimal;
  qp_maximum_cross_venue_divergence : Decimal;
  qp_minimum_book_depth_availability : Decimal;
  qp_maximum_outage_duration_seconds : Decimal;
}.
Definition default_quality : QualityPolicy := {|
  qp_minimum_coverage := 80 # 100; qp_maximum_stale_ratio := 20 # 100; qp_maximum_quarantine_ratio := 5 # 100;
  qp_maximum_duplicate_ratio := 0; qp_maximum_clock_skew_seconds := 300;
  qp_maximum_cross_venue_divergence := 20 # 100; qp_minimum_book_depth_availability := 80 # 100;
  qp_maximum_outage_duration_seconds := 0 |}.

(** Decimal arithmetic with the infinities *)
Definition ext_add (a b : extended) : result extended :=
  match a, b with
  | NotANumber, _ | _, NotANumber => Ok NotANumber
  | Finite a, Finite b => Ok (Finite (dadd a b))
  | Infinite a, Infinite b => if Bool.eqb a b then Ok (Infinite a) else Err invalid_operation
  | Infinite a, Finite _ | Finite _, Infinite a => Ok (Infinite a)
  end.
Definition ext_opp (a : extended) : extended :=
  match a with Finite q => Finite (- q) | Infinite n => Infinite (negb n) | NotANumber => NotANumber end.
Definition ext_sub (a b : extended) : result extended := ext_add a (ext_opp b).
(** The divisor is positive. *)
Definition ext_quotient (a b : extended) : result extended :=
  match a, b with
  | NotANumber, _ | _, NotANumber => Ok NotANumber
  | Infinite _, Infinite _ => Err invalid_operation
  | Finite a, Finite b => Ok (Finite (ddiv a b))
  | Infinite a, Finite _ => Ok (Infinite a)
  | Finite _, Infinite _ => Ok (Finite 0)
  end.

(** [max(xs)] and [min(xs)] of values that are there *)
Fixpoint ext_extreme (pick : extended -> extended -> result extended) (x : extended) (xs : list extended)
  : result extended :=
  match xs with [] => Ok x | y :: ys => let! x := pick x y in ext_extreme pick x ys end.

(** [Decimal(str(payload.get(key, 0)))] *)
Definition decimal_or_zero (p : list (chars * json)) (key : string) : result extended :=
  match read_decimal (get_default p key (JInt 0)) with Some x => Ok x | None => Err invalid_operation end.

Fixpoint sum_extended (xs : list (result extended)) (acc : extended) : result extended :=
  match xs with
  | [] => Ok acc
  | x :: xs => let! x := x in let! acc := ext_add acc x in sum_extended xs acc
  end.

(** The middles of the books, by instrument and time *)
Fixpoint book_prices (books : list PointInTimeValue) (prices : list ((string * Z) * list extended))
  : result (list ((string * Z) * list extended)) :=
  match books with
  | [] => Ok prices
  | v :: books =>
      let! bid := decimal_or_zero (pv_payload v) "bid" in
      let! ask := decimal_or_zero (pv_payload v) "ask" in
      let! positive := ext_lt (Finite 0) bid in
      let! valid := if positive then ext_lt bid ask else Ok false in
      if valid : bool then
        let! total := ext_add bid ask in
        let! middle := ext_quotient total (Finite 2) in
        let key := (pv_canonical_instrument_id v, pv_available_at v) in
        book_prices books (dict_set key (default [] (dict_get key prices) ++ [middle]) prices)
      else book_prices books prices
  end.

Definition divergence_of (items : list extended) : result (list extended) :=
  match items with
  | x :: ((_ :: _) as rest) =>
      let! low := ext_extreme ext_min x rest in
      let! positive := ext_lt (Finite 0) low in
      if positive : bool then
        let! high := ext_extreme ext_max x rest in
        let! spread := ext_sub high low in
        let! d := ext_quotient spread low in
        Ok [d]
      else Ok []
  | _ => Ok []
  end.

Definition sequences_of (values : list PointInTimeValue) : list ((string * string) * list Z) :=
  fold_left (fun d v =>
    match pv_sequence v with
    | Some n => let key := (pv_venue v, pv_canonical_instrument_id v) in
                dict_set key (default [] (dict_get key d) ++ [n]) d
    | None => d
    end) values [].

Definition sum_Z (xs : list Z) : Z := fold_left Z.add xs 0%Z.
Definition distinct {A} `{EqDecision A} (xs : list A) : Z := size (dict_fromkeys xs).

(** [evaluate_data_quality] *)
Definition evaluate_data_quality (run_id : string) (dataset : PointInTimeDataset) (quarantined : Z)
    (policy : QualityPolicy) : result DataQualityResult :=
  let values := pd_values dataset in
  let pair_of v := (pv_venue v, pv_canonical_instrument_id v) in
  let expected := Z.max 1 (size (pd_instruments dataset) * size (pd_venues dataset) * size (pd_event_types dataset)) in
  let keys := distinct (map (fun v => (pv_venue v, pv_canonical_instrument_id v, pv_event_type v)) values) in
  let coverage := dmin 1 (ratio keys expected) in
  let duplicate_ratio := ratio (size values - distinct (map pv_event_id values)) (Z.max 1 (size values)) in
  let stale := count (fun v => dltb 3600 (total_seconds (pd_cutoff_at dataset - pv_available_at v))) values in
  let stale_ratio := ratio stale (Z.max 1 (size values)) in
  let pairs := flat_map (fun kv => pairwise kv.2) (sequences_of values) in
  let gap_count := sum_Z (map (fun p : Z * Z => Z.max 0 (p.2 - p.1 - 1)) pairs) in
  let out_of_order := count (fun p : Z * Z => p.2 <=? p.1)%Z pairs in
  let quarantine_ratio := ratio quarantined (Z.max 1 (size values + quarantined)) in
  let! outage_seconds := sum_extended
    (map (fun v => decimal_or_zero (pv_payload v) "duration_seconds")
       (List.filter (fun v => is_outage (pv_event_type v) (pv_payload v)) values)) (Finite 0) in
  let maximum_skew := default 0%Q (max_of (omap (fun v =>
    option_map (fun t => seconds_value (Z.abs (pv_received_at v - t))) (pv_exchange_timestamp v)) values)) in
  let books := List.filter (fun v => bool_decide (pv_event_type v = "orderbook_snapshot")) values in
  let book_available := ratio (count (fun v => truthy (get_field (pv_payload v) "bid_depth") &&
                                               truthy (get_field (pv_payload v) "ask_depth")) books)
                          (Z.max 1 (size books)) in
  let funding_types := ["funding_rate"; "funding_current"; "funding_history"] in
  let funding_keys := distinct (map pair_of (List.filter (fun v => bool_decide (pv_event_type v ∈ funding_types)) values)) in
  let oi_keys := distinct (map pair_of (List.filter (fun v => bool_decide (pv_event_type v = "open_interest")) values)) in
  let windows := (size (pd_venues dataset) * size (pd_instruments dataset))%Z in
  let! prices := book_prices books [] in
  let! divergences := gather divergence_of (dict_values prices) in
  let! divergence := match divergences with [] => Ok (Finite 0) | d :: ds => ext_extreme ext_max d ds end in
  let! long_outage := ext_lt (Finite (qp_maximum_outage_duration_seconds policy)) outage_seconds in
  let! diverged := ext_lt (Finite (qp_maximum_cross_venue_divergence policy)) divergence in
  let reasons :=
    reason_if (dltb coverage (qp_minimum_coverage policy)) "coverage below threshold" ++
    reason_if (dltb (qp_maximum_stale_ratio policy) stale_ratio) "stale ratio above threshold" ++
    reason_if (dltb (qp_maximum_quarantine_ratio policy) quarantine_ratio) "quarantine ratio above threshold" ++
    reason_if (dltb (qp_maximum_duplicate_ratio policy) duplicate_ratio) "duplicate ratio above threshold" ++
    reason_if (negb (gap_count =? 0)%Z) "sequence gaps detected" ++
    reason_if (negb (out_of_order =? 0)%Z) "out-of-order events detected" ++
    reason_if (negb (quarantined =? 0)%Z) "quarantined events present" ++
    reason_if long_outage "venue outage duration above threshold" ++
    reason_if (dltb (qp_maximum_clock_skew_seconds policy) maximum_skew) "clock skew above threshold" ++
    reason_if diverged "cross-venue divergence above threshold" ++
    reason_if (existsb (fun t => bool_decide (t ∈ pd_event_types dataset)) funding_types && (funding_keys <? windows)%Z)
      "missing funding windows" ++
    reason_if (bool_decide ("open_interest" ∈ pd_event_types dataset) && (oi_keys <? windows)%Z)
      "missing open-interest windows" ++
    reason_if (bool_decide ("orderbook_snapshot" ∈ pd_event_types dataset) &&
               dltb book_available (qp_minimum_book_depth_availability policy))
      "book depth availability below threshold" ++
    reason_if (bool_decide (length values = 0%nat)) "dataset is empty" in
  Ok {| dq_run_id := run_id; dq_data_snapshot_id := pd_snapshot_id dataset;
        dq_passed := bool_decide (reasons = []); dq_coverage_ratio := coverage; dq_stale_ratio := stale_ratio;
        dq_duplicate_ratio := duplicate_ratio; dq_sequence_gap_count := gap_count;
        dq_out_of_order_count := out_of_order; dq_quarantine_ratio := quarantine_ratio;
        dq_venue_outage_duration_seconds := outage_seconds; dq_maximum_clock_skew_seconds := maximum_skew;
        dq_cross_venue_divergence := divergence;
        dq_missing_funding_windows := Z.max 0 (windows - funding_keys);
        dq_missing_oi_windows := Z.max 0 (windows - oi_keys);
        dq_book_depth_availability := book_available; dq_reasons := reasons |}.

End Build.
