(* ===== verification/Sources.v ===== *)
(** * Where envelopes come from (services/research/data_operations.py)

    [PublicAdapterCollectorSource] turns what an adapter yields into envelopes, drains the
    life cycles of its connections and reads instrument rules; the workers put envelopes on
    the queue and report failures; [_identities] says which streams a venue has.  What an
    adapter yields ([StreamedValue], [Market]) and when it fails ([Attempt]) are arguments:
    the adapters are public code of another component. *)

From Stdlib Require Import ZArith QArith NArith Lia.
From stdpp Require Import base tactics list strings.
From S2P Require Import Prelude Decimals Binary64 Evidence Venues Websocket Json PyText FundingCarry ShadowBook ShadowStore.
From S2P Require Import Certification ResearchStore Collector Snapshots.

Local Open Scope string_scope.
Local Open Scope list_scope.

(** ** Streams *)

Definition SUPPORTED_VENUES : list string :=
  ["hyperliquid"; "bitget"; "aster"; "mexc"; "dydx"; "paradex"; "lighter"].
Definition SUPPORTED_INSTRUMENTS : list string := ["BTC"; "ETH"; "SOL"; "HYPE"].
Definition REST_EVENT_TYPES : list string := ["ohlcv"; "funding_current"; "funding_history"; "open_interest"].
Definition WEBSOCKET_EVENT_TYPES : list string :=
  ["trade"; "orderbook_snapshot"; "orderbook_delta"; "mark_price"; "index_price"].

Definition symbols (suffix : string) : list (string * string) :=
  map (fun item => (item, item +:+ suffix)) SUPPORTED_INSTRUMENTS.
Definition VENUE_SYMBOLS : list (string * list (string * string)) :=
  [("hyperliquid", symbols ""); ("bitget", symbols "USDT"); ("aster", symbols "USDT"); ("mexc", symbols "_USDT");
   ("dydx", symbols "-USD"); ("paradex", symbols "-USD-PERP"); ("lighter", symbols "")].

Definition canonical_symbol (venue instrument : string) : result string :=
  match dict_get venue VENUE_SYMBOLS with
  | Some table =>
      match dict_get instrument table with
      | Some symbol => Ok symbol
      | None => Err (ValueError ("unsupported venue/instrument mapping: " +:+ venue +:+ "/" +:+ instrument))
      end
  | None => Err (ValueError ("unsupported venue/instrument mapping: " +:+ venue +:+ "/" +:+ instrument))
  end.

#[export] Instance stream_identity_eq_dec : EqDecision ResearchStreamIdentity.
Proof. solve_decision. Defined.

(** [_identities]: the streams that are polled, and those of the websocket *)
Definition add_identity (venue instrument symbol event_type : string)
    (found : list ResearchStreamIdentity * list ResearchStreamIdentity)
  : list ResearchStreamIdentity * list ResearchStreamIdentity :=
  let '(rest, websocket) := found in
  let identity t c := {| si_venue := venue; si_canonical_instrument_id := instrument; si_venue_symbol := symbol;
                         si_event_type := t; si_channel := c |} in
  if bool_decide (event_type ∈ REST_EVENT_TYPES) then (rest ++ [identity event_type "rest"], websocket)
  else if bool_decide (event_type ∈ BOOK_EVENT_TYPES)
  then (rest, if bool_decide (identity "orderbook" "orderbook" ∈ websocket) then websocket
              else websocket ++ [identity "orderbook" "orderbook"])
  else if bool_decide (event_type ∈ WEBSOCKET_EVENT_TYPES)
  then (rest, websocket ++ [identity event_type (if bool_decide (event_type = "trade") then "trades" else "ticker")])
  else (rest, websocket).

Fixpoint identities_from (venue : string) (instruments event_types : list string)
    (found : list ResearchStreamIdentity * list ResearchStreamIdentity)
  : result (list ResearchStreamIdentity * list ResearchStreamIdentity) :=
  match instruments with
  | [] => Ok found
  | instrument :: instruments =>
      let! symbol := canonical_symbol venue instrument in
      identities_from venue instruments event_types
        (fold_left (fun found t => add_identity venue instrument symbol t found) event_types found)
  end.
Definition identities (venue : string) (instruments event_types : list string)
  : result (list ResearchStreamIdentity * list ResearchStreamIdentity) :=
  identities_from venue instruments event_types ([], []).

(** ** Control envelopes *)

Section Source.
Context {D : Digest}.

(** What a control envelope leaves at the defaults of [CollectedEnvelope] *)
Definition control_envelope (venue instrument symbol event_type endpoint payload : string) (now : Z)
    (stable_event_key : string) : CollectedEnvelope := {|
  ev_venue := venue; ev_canonical_instrument_id := instrument; ev_venue_symbol := symbol;
  ev_event_type := event_type; ev_source_endpoint := endpoint; ev_raw_payload := payload;
  ev_exchange_timestamp := None; ev_received_at := now; ev_available_at := now; ev_channel := "control";
  ev_sequence := None; ev_connection_id := None; ev_reconciliation_state := None;
  ev_stable_event_key := Some stable_event_key; ev_normalized_payload := Some payload; ev_trade_id := None;
  ev_snapshot_sequence := None; ev_delta_sequence := None; ev_previous_delta_sequence := None;
  ev_connection_epoch := 0; ev_recovery_completed := false; ev_stream_semantics := None;
  ev_bootstrap_completed := false; ev_recovery_started_at := None; ev_recovery_completed_at := None;
  ev_last_recovery_failure := None; ev_logical_stream_event_type := None; ev_timestamp_semantic := RECEIPT_ONLY;
  ev_availability_provenance := UNKNOWN; ev_exchange_server_time := None; ev_timeframe := None |}.

Definition compact_sorted (fields : list (chars * json)) : string :=
  untext (dumps compact_style (sorted_json (JObject fields))).

(** [str(n)] *)
Definition int_text (n : Z) : string := untext (dumps compact_style (JInt n)).

(** [_health_envelope] *)
Definition health_envelope (venue : string) (now : Z) : CollectedEnvelope :=
  control_envelope venue "SYSTEM" "SYSTEM" "venue_health" "collector:health"
    (compact_sorted [(text "status", jstr "collector_started"); (text "venue", jstr venue)])
    now ("collector-started-" +:+ isoformat now).

(** [_control_event] *)
Definition control_event (identity : ResearchStreamIdentity) (event_type status : string) (retry_count now : Z)
  : CollectedEnvelope :=
  control_envelope (si_venue identity) (si_canonical_instrument_id identity) (si_venue_symbol identity) event_type
    ("websocket:" +:+ si_channel identity)
    (compact_sorted [(text "channel", jstr (si_channel identity)); (text "retry_count", JInt retry_count);
                     (text "status", jstr status)])
    now (event_type +:+ "-" +:+ stream_key_of identity +:+ "-" +:+ isoformat now).

(** [_connection_lifecycle_envelope] *)
Definition lifecycle_payload (identity : ResearchStreamIdentity) (event : WebSocketConnectionLifecycle) (epoch : Z)
  : string :=
  compact_sorted
    [(text "channel", jstr (si_channel identity)); (text "close_code", jopt JInt (lc_close_code event));
     (text "close_message", jopt jstr (lc_close_message event)); (text "connected_at", jtime_utc (lc_connected_at event));
     (text "connection_epoch", JInt epoch); (text "connection_id", jstr (lc_connection_id event));
     (text "disconnected_at", jtime_utc (lc_disconnected_at event)); (text "duration_ms", JInt (lc_duration_ms event));
     (text "exception_type", jopt jstr (lc_exception_type event));
     (text "heartbeat_received", JInt (lc_heartbeat_received event));
     (text "heartbeat_sent", JInt (lc_heartbeat_sent event));
     (text "messages_received", JInt (lc_messages_received event)); (text "reason", jstr (lc_reason event));
     (text "server_initiated_close", JBool (lc_server_initiated_close event));
     (text "client_initiated_close", JBool (lc_client_initiated_close event));
     (text "stale_timeout", JBool (lc_stale_timeout event))].

Definition lifecycle_envelope (identity : ResearchStreamIdentity) (event : WebSocketConnectionLifecycle)
    (base_connection_epoch : Z) : CollectedEnvelope :=
  let epoch := (base_connection_epoch - 1 + lc_connection_epoch event)%Z in
  let payload := lifecycle_payload identity event epoch in
  {| ev_venue := si_venue identity; ev_canonical_instrument_id := si_canonical_instrument_id identity;
     ev_venue_symbol := si_venue_symbol identity; ev_event_type := "websocket_disconnect";
     ev_source_endpoint := "websocket:" +:+ si_channel identity; ev_raw_payload := payload;
     ev_exchange_timestamp := None; ev_received_at := lc_disconnected_at event;
     ev_available_at := lc_disconnected_at event; ev_channel := "control"; ev_sequence := None;
     ev_connection_id := Some (lc_connection_id event); ev_reconciliation_state := None;
     ev_stable_event_key := Some ("disconnect-" +:+ lc_connection_id event +:+ "-" +:+
       int_text (lc_connection_epoch event) +:+ "-" +:+ isoformat (lc_disconnected_at event));
     ev_normalized_payload := Some payload; ev_trade_id := None; ev_snapshot_sequence := None;
     ev_delta_sequence := None; ev_previous_delta_sequence := None; ev_connection_epoch := epoch;
     ev_recovery_completed := false; ev_stream_semantics := None; ev_bootstrap_completed := false;
     ev_recovery_started_at := Some (lc_disconnected_at event); ev_recovery_completed_at := None;
     ev_last_recovery_failure := Some (lc_reason event);
     ev_logical_stream_event_type := Some (si_event_type identity); ev_timestamp_semantic := RECEIPT_ONLY;
     ev_availability_provenance := UNKNOWN; ev_exchange_server_time := None; ev_timeframe := None |}.

(** [_drain_connection_lifecycle]: the queue of the adapter is rotated once *)
Fixpoint drain_turns (symbol : string) (turns : nat) (queue matched : list WebSocketConnectionLifecycle)
  : list WebSocketConnectionLifecycle * list WebSocketConnectionLifecycle :=
  match turns, queue with
  | S turns, event :: queue =>
      if bool_decide (lc_instrument event = symbol) then drain_turns symbol turns queue (matched ++ [event])
      else drain_turns symbol turns (queue ++ [event]) matched
  | _, _ => (queue, matched)
  end.
Definition drain_connection_lifecycle (identity : ResearchStreamIdentity)
    (queue : list WebSocketConnectionLifecycle)
  : list WebSocketConnectionLifecycle * list WebSocketConnectionLifecycle :=
  drain_turns (si_venue_symbol identity) (length queue) queue [].

(** ** Envelopes of what an adapter yields *)

(** The attributes of a value of an adapter, [None] where it has none; [sv_json] is the
    value as JSON ([_json_value]), and the source payload that of the value or, for a
    dictionary, of its metadata. *)
Record StreamedValue := {
  sv_json : json;
  sv_source_raw_payload : option string;
  sv_source_payload_sha256 : option string;
  sv_exchange_timestamp : option Z;
  sv_received_at : option Z;
  sv_available_at : option Z;
  sv_sequence : option Z;
  sv_trade_id : option string;
  sv_timeframe : option string;
  sv_reconciliation_state : option ReconciliationState;
  sv_snapshot_sequence : option Z;
  sv_previous_delta_sequence : option Z;
  sv_stream_semantics : option OrderBookStreamSemantics;
  sv_connection_id : option string;
  sv_connection_epoch : option Z;
  sv_bootstrap_completed : bool;
  sv_recovery_started_at : option Z;
  sv_recovery_completed_at : option Z;
  sv_last_recovery_failure : option string;
}.

(** [d.get(key, [])] *)
Definition get_list (d : list (chars * json)) (key : string) : json :=
  match dict_get (text key) d with Some v => v | None => JArray [] end.

(** [source_data[0]] when there is one, and it is an object *)
Definition first_object (data : json) : result (option (list (chars * json))) :=
  match data with
  | JArray (JObject book :: _) => Ok (Some book)
  | JArray _ | JString _ | JNull => Ok None
  | JObject [] => Ok None
  | JObject _ => Err KeyError
  | v => if truthy v then Err (OtherError "TypeError") else Ok None
  end.

(** The update of a Bitget book, taken from the source message *)
Definition book_update (message book : list (chars * json)) : json := JObject
  [(text "action", get_field message "action"); (text "bids", get_list book "bids");
   (text "asks", get_list book "asks"); (text "checksum", get_field book "checksum");
   (text "sequence", get_field book "seq"); (text "previous_sequence", get_field book "pseq")].
Definition normalized_value (identity : ResearchStreamIdentity) (v : StreamedValue) : result json :=
  match sv_source_raw_payload v, sv_json v with
  | Some raw, JObject fields =>
      if bool_decide (si_venue identity = "bitget") && bool_decide (si_channel identity = "orderbook")
      then
        let! message := loads (text raw) in
        match message with
        | JObject message =>
            let! book := first_object (get_list message "data") in
            Ok (match book with
                | Some book => JObject (dict_set (text "_book_update") (book_update message book) fields)
                | None => sv_json v
                end)
        | _ => Ok (sv_json v)
        end
      else Ok (sv_json v)
  | _, _ => Ok (sv_json v)
  end.

(** The keyword arguments of [_envelope] *)
Record EnvelopeArguments := {
  ea_event_type : option string;
  ea_reconciliation_state : option ReconciliationState;
  ea_snapshot_sequence : option Z;
  ea_delta_sequence : option Z;
  ea_previous_delta_sequence : option Z;
  ea_connection_id : option string;
  ea_connection_epoch : Z;
  ea_recovery_completed : bool;
  ea_stream_semantics : option OrderBookStreamSemantics;
  ea_bootstrap_completed : bool;
  ea_recovery_started_at : option Z;
  ea_recovery_completed_at : option Z;
  ea_last_recovery_failure : option string;
  ea_use_captured_response : bool;
}.
Definition rest_arguments : EnvelopeArguments := {|
  ea_event_type := None; ea_reconciliation_state := None; ea_snapshot_sequence := None; ea_delta_sequence := None;
  ea_previous_delta_sequence := None; ea_connection_id := None; ea_connection_epoch := 0;
  ea_recovery_completed := false; ea_stream_semantics := None; ea_bootstrap_completed := false;
  ea_recovery_started_at := None; ea_recovery_completed_at := None; ea_last_recovery_failure := None;
  ea_use_captured_response := true |}.

(** [n or m] on integers that may be missing *)
Definition int_or (n m : option Z) : option Z :=
  match n with Some k => if (k =? 0)%Z then m else n | None => m end.

(** [_envelope]; [adapter] is the name of the class, [captured] the responses of the HTTP
    client *)
Definition envelope (adapter : string) (captured : list string) (now : Z) (identity : ResearchStreamIdentity)
    (v : StreamedValue) (a : EnvelopeArguments) : result CollectedEnvelope :=
  let! value := normalized_value identity v in
  let normalized := untext (dumps compact_style (sorted_json value)) in
  require! match sv_source_raw_payload v, sv_source_payload_sha256 v with
           | Some raw, Some hash => bool_decide (sha256_hex raw = hash)
           | _, _ => true
           end else ValueError "websocket source payload hash mismatch";
  let own := text_or (sv_source_raw_payload v) normalized in
  let source_payload := if ea_use_captured_response a then default own (last captured) else own in
  let event_type := text_or (ea_event_type a) (si_event_type identity) in
  let '(semantic, provenance) := timing_semantics event_type (si_channel identity) in
  Ok {| ev_venue := si_venue identity; ev_canonical_instrument_id := si_canonical_instrument_id identity;
        ev_venue_symbol := si_venue_symbol identity; ev_event_type := event_type;
        ev_source_endpoint := "public-adapter:" +:+ adapter +:+ ":" +:+ si_channel identity;
        ev_raw_payload := source_payload; ev_exchange_timestamp := sv_exchange_timestamp v;
        ev_received_at := default now (sv_received_at v); ev_available_at := default now (sv_available_at v);
        ev_channel := si_channel identity; ev_sequence := int_or (ea_delta_sequence a) (sv_sequence v);
        ev_connection_id := ea_connection_id a; ev_reconciliation_state := ea_reconciliation_state a;
        ev_stable_event_key := None; ev_normalized_payload := Some normalized; ev_trade_id := sv_trade_id v;
        ev_snapshot_sequence := ea_snapshot_sequence a; ev_delta_sequence := ea_delta_sequence a;
        ev_previous_delta_sequence := ea_previous_delta_sequence a; ev_connection_epoch := ea_connection_epoch a;
        ev_recovery_completed := ea_recovery_completed a; ev_stream_semantics := ea_stream_semantics a;
        ev_bootstrap_completed := ea_bootstrap_completed a; ev_recovery_started_at := ea_recovery_started_at a;
        ev_recovery_completed_at := ea_recovery_completed_at a;
        ev_last_recovery_failure := ea_last_recovery_failure a; ev_logical_stream_event_type := None;
        ev_timestamp_semantic := semantic; ev_availability_provenance := provenance;
        ev_exchange_server_time := None; ev_timeframe := sv_timeframe v |}.

(** The end of [_rest_events] and of [historical_events]: every value with the last
    response *)
Fixpoint rest_envelopes (adapter : string) (captured : list string) (identity : ResearchStreamIdentity)
    (values : list (Z * StreamedValue)) : result (list CollectedEnvelope) :=
  match values with
  | [] => Ok []
  | (now, v) :: values =>
      let! e := envelope adapter captured now identity v rest_arguments in
      let! rest := rest_envelopes adapter captured identity values in
      Ok (e :: rest)
  end.

(** The type of what a stream of the websocket yields *)
Definition raw_type (identity : ResearchStreamIdentity) : result string :=
  if bool_decide (si_event_type identity = "trade") then Ok "trade"
  else if bool_decide (si_event_type identity = "orderbook") then Ok "orderbook_delta"
  else if bool_decide (si_event_type identity ∈ ["mark_price"; "index_price"]) then Ok (si_event_type identity)
  else Err (OtherError "CapabilityUnavailableError").

Definition self_contained_snapshot (v : StreamedValue) : bool :=
  snapshot_stream (sv_stream_semantics v) ||
  (bool_decide (sv_stream_semantics v = None) && bool_decide (sv_snapshot_sequence v = None)).

(** [_websocket_events]: the keyword arguments of one value *)
Definition websocket_arguments (raw_type : string) (connection_epoch : Z) (v : StreamedValue) : EnvelopeArguments :=
  let alone := self_contained_snapshot v in
  {| ea_event_type := Some (if bool_decide (raw_type = "orderbook_delta") && alone then "orderbook_snapshot"
                            else raw_type);
     ea_reconciliation_state := sv_reconciliation_state v;
     ea_snapshot_sequence := if alone then None else sv_snapshot_sequence v;
     ea_delta_sequence := if alone then None else sv_sequence v;
     ea_previous_delta_sequence := if alone then None else sv_previous_delta_sequence v;
     ea_connection_id := sv_connection_id v;
     ea_connection_epoch := (connection_epoch - 1 + Z.max 1 (default 0 (sv_connection_epoch v)))%Z;
     ea_recovery_completed :=
       sv_bootstrap_completed v && bool_decide (sv_reconciliation_state v = Some R_SYNCHRONIZED);
     ea_stream_semantics := sv_stream_semantics v; ea_bootstrap_completed := sv_bootstrap_completed v;
     ea_recovery_started_at := sv_recovery_started_at v; ea_recovery_completed_at := sv_recovery_completed_at v;
     ea_last_recovery_failure := sv_last_recovery_failure v; ea_use_captured_response := false |}.

Definition next_epoch (checkpoint : option CollectionCheckpoint) : Z :=
  match checkpoint with Some c => ck_connection_epoch c + 1 | None => 1 end.

(** What one value of the iterator yields: the life cycles drained before it, then it *)
Definition websocket_item (adapter : string) (identity : ResearchStreamIdentity)
    (checkpoint : option CollectionCheckpoint) (now : Z) (drained : list WebSocketConnectionLifecycle)
    (v : StreamedValue) : list CollectedEnvelope * option exn :=
  match raw_type identity with
  | Err x => ([], Some x)
  | Ok t =>
      let epoch := next_epoch checkpoint in
      let before := map (fun event => lifecycle_envelope identity event epoch) drained in
      match envelope adapter [] now identity v (websocket_arguments t epoch v) with
      | Ok e => (before ++ [e], None)
      | Err x => (before, Some x)
      end
  end.

(** ** Instrument rules *)

(** [Market] with its dump *)
Record Market := {
  mk_symbol : string;
  mk_quote : string;
  mk_tick_size : option Decimal;
  mk_lot_size : option Decimal;
  mk_minimum_notional : option Decimal;
  mk_json : json;
}.

(** [now.strftime("%Y%m%dT%H%M%S%fZ")] *)
Definition compact_time_micros (t : Z) : string :=
  let secs := (t / 1000000)%Z in
  let '(y, m, d) := civil_year (secs / 86400)%Z in
  let sod := (secs mod 86400)%Z in
  zpad 4 y +:+ zpad 2 m +:+ zpad 2 d +:+ "T" +:+ zpad 2 (sod / 3600) +:+ zpad 2 (sod / 60 mod 60) +:+
  zpad 2 (sod mod 60) +:+ zpad 6 (t mod 1000000) +:+ "Z".

Definition observed_evidence (endpoint hash : string) (now : Z) : list (string * option string) :=
  [("source_endpoint", Some endpoint); ("source_payload_sha256", Some hash); ("retrieved_at", Some (isoformat now));
   ("verification_status", Some (rule_status_value RULE_OBSERVED))].
Definition unknown_evidence : list (string * option string) :=
  [("source_endpoint", None); ("source_payload_sha256", None); ("retrieved_at", None);
   ("verification_status", Some (rule_status_value RULE_UNKNOWN))].

Definition rule_of_market (adapter venue : string) (captured : option string) (now : Z) (canonical : string)
    (market : Market) : InstrumentRuleSnapshot :=
  let payload := untext (dumps compact_style (sorted_json (mk_json market))) in
  let hash := sha256_hex (text_or captured payload) in
  let endpoint := "public-adapter:" +:+ adapter +:+ ":fetch_markets" in
  let evidence {A} (x : option A) := match x with
                                     | Some _ => observed_evidence endpoint hash now
                                     | None => unknown_evidence
                                     end in
  {| ir_rule_snapshot_id := "rule-" +:+ venue +:+ "-" +:+ canonical +:+ "-" +:+ compact_time_micros now +:+ "-" +:+
       String.substring 0 12 hash;
     ir_venue := venue; ir_canonical_instrument_id := canonical; ir_venue_symbol := mk_symbol market;
     ir_tick_size := mk_tick_size market; ir_lot_size := mk_lot_size market; ir_minimum_quantity := None;
     ir_minimum_notional := mk_minimum_notional market; ir_maker_fee := None; ir_taker_fee := None;
     ir_maker_rebate := None; ir_funding_interval := None; ir_margin_asset := Some (mk_quote market);
     ir_source_endpoint := endpoint; ir_source_payload_sha256 := hash; ir_retrieved_at := now; ir_valid_from := now;
     ir_valid_until := None;
     ir_field_evidence :=
       [("tick_size", evidence (mk_tick_size market)); ("lot_size", evidence (mk_lot_size market));
        ("minimum_notional", evidence (mk_minimum_notional market)); ("minimum_quantity", unknown_evidence);
        ("maker_fee", unknown_evidence); ("taker_fee", unknown_evidence); ("maker_rebate", unknown_evidence);
        ("funding_interval", unknown_evidence); ("margin_asset", observed_evidence endpoint hash now)];
     ir_fee_tier := FEE_UNKNOWN; ir_verification_status := RULE_OBSERVED |}.

(** [{canonical_symbol(venue, item): item for item in instruments}] *)
Fixpoint requested_symbols (venue : string) (instruments : list string) (found : list (string * string))
  : result (list (string * string)) :=
  match instruments with
  | [] => Ok found
  | item :: instruments =>
      let! symbol := canonical_symbol venue item in
      requested_symbols venue instruments (dict_set symbol item found)
  end.

(** [instrument_rules] after the markets are fetched *)
Definition source_rules (adapter venue : string) (captured : option string) (now : Z) (instruments : list string)
    (markets : list Market) : result (list InstrumentRuleSnapshot) :=
  let! requested := requested_symbols venue instruments [] in
  gather (fun market =>
    match dict_get (mk_symbol market) requested with
    | Some canonical =>
        let! rule := InstrumentRuleSnapshot_validate (rule_of_market adapter venue captured now canonical market) in
        Ok [rule]
    | None => Ok []
    end) markets.

End Source.
