(* ===== verification/SourceSafety.v ===== *)
(** * Draining life cycles, and recovery as the sources report it

    The rotation of the adapter's queue takes exactly the life cycles of the stream, in
    order, and leaves the others in order; and what a source says of a recovery. *)

From Stdlib Require Import ZArith QArith NArith Lia.
From stdpp Require Import base tactics list strings.
From S2P Require Import Prelude Decimals Binary64 Evidence Venues Websocket Json PyText FundingCarry ShadowBook ShadowStore.
From S2P Require Import Certification ResearchStore Collector Snapshots Sources.

Local Open Scope string_scope.
Local Open Scope list_scope.

Definition of_stream (symbol : string) (event : WebSocketConnectionLifecycle) : bool :=
  bool_decide (lc_instrument event = symbol).

Lemma drain_turns_split symbol todo kept matched :
  drain_turns symbol (length todo) (todo ++ kept) matched =
  (kept ++ List.filter (fun e => negb (of_stream symbol e)) todo, matched ++ List.filter (of_stream symbol) todo).
Proof.
  revert kept matched. induction todo as [|e todo IH]; intros kept matched; simpl; [by rewrite !app_nil_r|].
  change (bool_decide (lc_instrument e = symbol)) with (of_stream symbol e).
  destruct (of_stream symbol e); simpl.
  - by rewrite IH, <- app_assoc.
  - by rewrite <- app_assoc, IH, <- app_assoc.
Qed.

(** Draining is a partition of the queue. *)
Lemma drain_partition identity queue :
  drain_connection_lifecycle identity queue =
  (List.filter (fun e => negb (of_stream (si_venue_symbol identity) e)) queue,
   List.filter (of_stream (si_venue_symbol identity)) queue).
Proof.
  unfold drain_connection_lifecycle. pose proof (drain_turns_split (si_venue_symbol identity) queue [] []) as H.
  by rewrite app_nil_r in H.
Qed.

Section Recovery.
Context {D : Digest}.

(** An ordinary delta of a synchronized session, bootstrapped long ago, reports its recovery
    as complete: after a gap that only the consumer saw, the next delta of the same
    connection ends the recovery, whatever was missed. *)
Theorem next_delta_ends_recovery adapter now identity epoch v e c :
  si_event_type identity = "orderbook" -> sv_stream_semantics v = Some SNAPSHOT_AND_DELTA ->
  sv_reconciliation_state v = Some R_SYNCHRONIZED -> sv_bootstrap_completed v = true ->
  (exists snapshot n, sv_snapshot_sequence v = Some snapshot /\ sv_sequence v = Some n /\ (snapshot <= n)%Z) ->
  envelope adapter [] now identity v (websocket_arguments "orderbook_delta" epoch v) = Ok e ->
  ck_recovery_required c = true -> recovered (Some c) e = true.
Proof.
  intros _ Hsem Hstate Hboot (snapshot & n & Hsnap & Hn & Hle) He Hc.
  unfold envelope in He. apply rbind_ok in He as (value & _ & He). cbv zeta in He. case_match; [|done].
  destruct (timing_semantics _ _) as [semantic provenance]. injection He as <-.
  unfold recovered, recovery_completed. simpl. rewrite Hc, Hsem, Hstate, Hboot. simpl.
  unfold self_contained_snapshot. rewrite Hsem. simpl. rewrite Hsnap, Hn. simpl. by apply Z.leb_le.
Qed.

(** The checkpoint of a disconnect is that of the control stream. *)
Theorem disconnect_checkpoint_elsewhere identity event epoch :
  si_channel identity <> "control" ->
  let e := lifecycle_envelope identity event epoch in
  stream_identity e <> identity /\ si_channel (stream_identity e) = "control".
Proof. intros Hne e. split; [|done]. intros Heq. apply Hne. by rewrite <- Heq. Qed.

End Recovery.
