(* ===== verification/CollectorSafety.v ===== *)
(** * Theorems on the research collector

    What the collector stores stays, its counters agree with the store, what it stores
    without quarantine is sound, and a stream that lost its order book gives no usable book
    before its recovery. *)

From Stdlib Require Import ZArith QArith NArith Lia.
From stdpp Require Import base tactics sets list strings.
From S2P Require Import Prelude Decimals Binary64 Evidence Venues Websocket Json PyText FundingCarry ShadowBook.
From S2P Require Import Certification CertificationBounds ResearchStore Collector.

Local Open Scope string_scope.
Local Open Scope list_scope.

(** ** What stays in the store *)

(** Events and finalized snapshots are kept as they are, and quarantine is for good. *)
Record store_extends (s s' : ResearchStore) : Prop := {
  ex_events : forall id e, dict_get id (rs_events s) = Some e -> dict_get id (rs_events s') = Some e;
  ex_experimental : forall id e, dict_get id (rs_experimental_events s) = Some e ->
                                 dict_get id (rs_experimental_events s') = Some e;
  ex_manifests : forall id m, dict_get id (rs_snapshot_manifests s) = Some m ->
                              dict_get id (rs_snapshot_manifests s') = Some m;
  ex_quarantined : exists l, rs_quarantined s' = rs_quarantined s ++ l;
}.

#[export] Instance store_extends_preorder : PreOrder store_extends.
Proof.
  split.
  - intros s. constructor; auto. exists []. by rewrite app_nil_r.
  - intros a b c [H1 H2 H3 [l Hl]] [H4 H5 H6 [l' Hl']]. constructor; auto.
    exists (l ++ l'). by rewrite Hl', Hl, app_assoc.
Qed.

Lemma dict_set_grows {K V} `{EqDecision K} (k : K) (v : V) d :
  dict_get k d = None -> forall k' x, dict_get k' d = Some x -> dict_get k' (dict_set k v d) = Some x.
Proof. intros Hk k' x Hx. rewrite dict_get_set_ne; [done|]. intros ->. congruence. Qed.

(** ** What the consumer does to the store and its counters *)

(** The counters move with the store. *)
Record consumed (s s' : Consumer) : Prop := {
  cd_extends : store_extends (co_store s) (co_store s');
  cd_payloads : forall h p, dict_get h (rs_raw_payloads (co_store s)) = Some p ->
                            dict_get h (rs_raw_payloads (co_store s')) = Some p;
  cd_manifests : rs_snapshot_manifests (co_store s') = rs_snapshot_manifests (co_store s);
  cd_production : (hm_production_count (co_metrics s') - size (rs_events (co_store s')) =
                   hm_production_count (co_metrics s) - size (rs_events (co_store s)))%Z;
  cd_experimental : (hm_experimental_count (co_metrics s') - size (rs_experimental_events (co_store s')) =
                     hm_experimental_count (co_metrics s) - size (rs_experimental_events (co_store s)))%Z;
  cd_quarantine : (hm_quarantine_count (co_metrics s') - size (rs_quarantined (co_store s')) =
                   hm_quarantine_count (co_metrics s) - size (rs_quarantined (co_store s)))%Z;
}.

#[export] Instance consumed_preorder : PreOrder consumed.
Proof.
  split.
  - intros s. constructor; auto. reflexivity.
  - intros a b c [H1 H2 H3 H4 H5 H6] [H7 H8 H9 H10 H11 H12]. constructor; auto; try lia; try congruence.
    by etransitivity.
Qed.

Section Consume.
Context {D : Digest} (gate : CapabilityGate) (namespace : string) (stale_after : Z).

(** Counters that no invariant is about *)
Lemma steps_on_metrics f :
  (forall m, hm_production_count (f m) = hm_production_count m /\
             hm_experimental_count (f m) = hm_experimental_count m /\
             hm_quarantine_count (f m) = hm_quarantine_count m) ->
  steps consumed (on_metrics f).
Proof.
  intros Hf. apply steps_modify. intros s. destruct (Hf (co_metrics s)) as (H1 & H2 & H3).
  constructor; simpl; auto; try reflexivity; lia.
Qed.

Lemma steps_persist_raw e : steps consumed (persist_raw e).
Proof.
  intros s. unfold persist_raw, on_store, pzoom, pbind, add_raw_event. unfold dict_mem.
  destruct (dict_get (re_event_id e) (rs_events (co_store s))) as [x|] eqn:E; simpl.
  { destruct s. simpl. reflexivity. }
  constructor; simpl; auto; try reflexivity.
  - constructor; simpl; auto; [by apply dict_set_grows|]. exists []. by rewrite app_nil_r.
  - unfold size. rewrite dict_set_length_new by done. lia.
Qed.

Lemma steps_quarantine e reason : steps consumed (quarantine_event e reason).
Proof.
  intros s. unfold quarantine_event. simpl. constructor; simpl; auto; try reflexivity.
  - constructor; simpl; eauto.
  - unfold size. rewrite length_app. simpl. lia.
Qed.

Lemma steps_on_store {A} (m : M ResearchStore A) :
  (forall s, store_extends s (m s).1) ->
  (forall s, rs_snapshot_manifests (m s).1 = rs_snapshot_manifests s /\ rs_events (m s).1 = rs_events s /\
             rs_experimental_events (m s).1 = rs_experimental_events s /\
             rs_quarantined (m s).1 = rs_quarantined s /\
             forall h p, dict_get h (rs_raw_payloads s) = Some p -> dict_get h (rs_raw_payloads (m s).1) = Some p) ->
  steps consumed (on_store m).
Proof.
  intros He Hs s. unfold on_store, pzoom. specialize (He (co_store s)). destruct (Hs (co_store s)) as (H1 & H2 & H3 & H4 & H5).
  destruct (m (co_store s)) as [s' r]. simpl in *. constructor; simpl; auto; rewrite ?H2, ?H3, ?H4; done.
Qed.

Lemma steps_read {A} (m : M ResearchStore A) : (forall s, (m s).1 = s) -> steps consumed (on_store m).
Proof. intros H. apply steps_on_store; intros s; rewrite H; [reflexivity|done]. Qed.

Lemma same_lists_extend s s' :
  rs_snapshot_manifests s' = rs_snapshot_manifests s -> rs_events s' = rs_events s ->
  rs_experimental_events s' = rs_experimental_events s -> rs_quarantined s' = rs_quarantined s ->
  store_extends s s'.
Proof. intros H1 H2 H3 H4. constructor; rewrite ?H1, ?H2, ?H3, ?H4; auto. exists []. by rewrite app_nil_r. Qed.

Lemma steps_write uuid env id state required : steps consumed (write_checkpoint namespace uuid env id state required).
Proof.
  apply steps_bind; [typeclasses eauto|by intros s; simpl; reflexivity|intros s].
  apply steps_bind; [typeclasses eauto|apply steps_lift; typeclasses eauto|intros c].
  apply steps_on_store; intros st; [by apply same_lists_extend|done].
Qed.

Lemma steps_save_payload h p : steps consumed (on_store (save_raw_payload h p)).
Proof.
  apply steps_on_store; intros s; unfold save_raw_payload, dict_mem;
    (destruct (dict_get h (rs_raw_payloads s)) eqn:E; simpl); [reflexivity|by apply same_lists_extend|done|].
  split_and!; try done. by apply dict_set_grows.
Qed.

Lemma steps_get_raw id : steps consumed (on_store (get_raw_event id)).
Proof. by apply steps_read. Qed.
Lemma steps_get_experimental id : steps consumed (on_store (get_experimental_event id)).
Proof. by apply steps_read. Qed.
Lemma steps_add_duplicate : steps consumed add_duplicate.
Proof. by apply steps_on_metrics. Qed.
Lemma steps_add_gap : steps consumed add_gap.
Proof. by apply steps_on_metrics. Qed.
Lemma steps_lag now e : steps consumed (record_checkpoint_lag now e).
Proof. by apply steps_on_metrics. Qed.
Lemma steps_stale now e : steps consumed (record_stale stale_after now e).
Proof. unfold record_stale. case_match; [by apply steps_on_metrics|apply steps_ret; typeclasses eauto]. Qed.
Lemma steps_pget_consumer : steps consumed pget.
Proof. intros s. simpl. reflexivity. Qed.

(** Storing an experimental event, and counting it *)
Lemma steps_experimental e support :
  steps consumed (do! added <- on_store (add_experimental_event e support);
                  run! (if added : bool
                        then on_metrics (fun m =>
                               set_hm_experimental_by_venue (counter_add (re_venue e) (hm_experimental_by_venue m))
                                 (set_hm_experimental_count (hm_experimental_count m + 1)%Z m))
                        else pret tt);
                  pret false).
Proof.
  intros s. unfold on_store, pzoom, pbind, add_experimental_event, dict_mem.
  destruct (dict_get (re_event_id e) (rs_experimental_events (co_store s))) as [x|] eqn:E; simpl.
  { destruct s. simpl. reflexivity. }
  constructor; simpl; auto; try reflexivity.
  - constructor; simpl; auto; [by apply dict_set_grows|]. exists []. by rewrite app_nil_r.
  - unfold size. rewrite dict_set_length_new by done. lia.
Qed.

Hint Resolve steps_persist_raw steps_quarantine steps_write steps_save_payload steps_get_raw steps_get_experimental
  steps_add_duplicate steps_add_gap steps_lag steps_stale steps_pget_consumer steps_experimental consumed_preorder : steps.

Lemma steps_gap_control e env : steps consumed (record_gap_control e env).
Proof. unfold record_gap_control. steps_go. Qed.
Hint Resolve steps_gap_control : steps.

Lemma steps_persist_book r e env checkpoint : steps consumed (persist_book namespace stale_after r e env checkpoint).
Proof.
  unfold persist_book, refuse_gap, refuse. steps_go; by apply steps_on_metrics.
Qed.
Hint Resolve steps_persist_book : steps.

Lemma steps_persist_experimental r e env checkpoint support :
  steps consumed (persist_experimental namespace r e env checkpoint support).
Proof.
  unfold persist_experimental. destruct (experimental_state checkpoint env) as [state required]. steps_go.
Qed.
Hint Resolve steps_persist_experimental : steps.

Lemma steps_persist_production r e env checkpoint invalid :
  steps consumed (persist_production namespace stale_after r e env checkpoint invalid).
Proof.
  unfold persist_production, refuse_gap. steps_go; by apply steps_on_metrics.
Qed.
Hint Resolve steps_persist_production : steps.

Lemma steps_persist r env : steps consumed (persist gate namespace stale_after r env).
Proof. unfold persist. steps_go; by apply steps_on_metrics. Qed.

Lemma steps_observe_runtime depth rss tasks : steps consumed (on_metrics (observe_runtime depth rss tasks)).
Proof. apply steps_on_metrics. intros m. unfold observe_runtime. by case_match. Qed.

Lemma steps_consume r env : steps consumed (consume gate namespace stale_after r env).
Proof.
  unfold consume. apply steps_bind; [apply _|apply steps_observe_runtime|intros _].
  apply steps_bind; [apply _| |intros _; by apply steps_on_metrics].
  apply steps_try; [apply _|apply steps_persist|intros x].
  apply steps_on_store; intros s; [by apply same_lists_extend|done].
Qed.

Lemma consume_all_consumed items s : consumed s (consume_all gate namespace stale_after items s).
Proof.
  revert s. induction items as [|[r env] items IH]; intros s; simpl; [reflexivity|].
  etransitivity; [apply steps_consume|apply IH].
Qed.

(** ** What is stored without quarantine is sound *)

(** An object, available after it was received, not from the future, and for a book
    synchronized *)
Definition sound_event (e : RawMarketEvent) : Prop :=
  (exists p, payload e = Ok p) /\ (re_received_at e <= re_available_at e)%Z /\
  (forall t, re_exchange_timestamp e = Some t -> (t <= re_received_at e)%Z) /\
  (re_event_type e ∈ BOOK_EVENT_TYPES -> re_reconciliation_state e = Some (reconciliation_value R_SYNCHRONIZED)).

Definition in_quarantine (s : ResearchStore) (e : RawMarketEvent) : Prop :=
  exists q, q ∈ rs_quarantined s /\ re_event_id q.1.1 = re_event_id e /\ q.2 = re_received_at e.

Definition store_sound (s : ResearchStore) : Prop :=
  NoDup (dict_keys (rs_events s)) /\
  forall id e, dict_get id (rs_events s) = Some e -> re_event_id e = id /\ (sound_event e \/ in_quarantine s e).

Definition keeps_sound (s s' : Consumer) : Prop := store_sound (co_store s) -> store_sound (co_store s').
#[local] Instance keeps_sound_preorder : PreOrder keeps_sound.
Proof. split; unfold keeps_sound; [intros s|intros a b c]; auto. Qed.

Lemma quarantine_mono s s' e : (exists l, rs_quarantined s' = rs_quarantined s ++ l) -> in_quarantine s e -> in_quarantine s' e.
Proof. intros [l Hl] (q & Hq & Hrest). exists q. rewrite Hl. split; [set_solver|done]. Qed.

Lemma sound_same_events s s' :
  rs_events s' = rs_events s -> (exists l, rs_quarantined s' = rs_quarantined s ++ l) ->
  store_sound s -> store_sound s'.
Proof.
  intros He Hq [Hnd Hs]. split; [by rewrite He|]. intros id e. rewrite He. intros [? Hor]%Hs. split; [done|]. destruct Hor; [by left|right]. by eapply quarantine_mono.
Qed.

Lemma sound_metrics f : steps keeps_sound (on_metrics f).
Proof. intros s Hs. apply Hs. Qed.
Lemma sound_read {A} (m : M ResearchStore A) : (forall s, (m s).1 = s) -> steps keeps_sound (on_store m).
Proof. intros Hm s Hs. unfold on_store, pzoom. specialize (Hm (co_store s)). destruct (m (co_store s)). simpl in *. by subst. Qed.
Lemma sound_pget : steps keeps_sound pget.
Proof. by intros s Hs. Qed.
Lemma sound_write uuid env id state required :
  steps keeps_sound (write_checkpoint namespace uuid env id state required).
Proof.
  intros s Hs. unfold write_checkpoint, pbind, pget, plift, on_store, pzoom.
  destruct (checkpoint_of_envelope _ _ _ _ _ _ _) as [c|x]; [|done]. simpl.
  eapply sound_same_events; [| |exact Hs]; [done|]. exists []. by rewrite app_nil_r.
Qed.
Lemma sound_save_payload h p : steps keeps_sound (on_store (save_raw_payload h p)).
Proof.
  intros s Hs. unfold on_store, pzoom, save_raw_payload. destruct (dict_mem h _); simpl; [done|].
  eapply sound_same_events; [| |exact Hs]; [done|]. exists []. by rewrite app_nil_r.
Qed.
Lemma sound_quarantine e reason : steps keeps_sound (quarantine_event e reason).
Proof.
  intros s Hs. unfold quarantine_event. simpl. eapply sound_same_events; [| |exact Hs]; [done|]. by eexists.
Qed.

(** A sound event may be stored. *)
Lemma sound_persist_raw e : sound_event e -> steps keeps_sound (persist_raw e).
Proof.
  intros He s Hs. unfold persist_raw, on_store, pzoom, pbind, add_raw_event, dict_mem.
  destruct (dict_get (re_event_id e) (rs_events (co_store s))) as [x|] eqn:E; [done|].
  simpl. split; [apply dict_set_NoDup, Hs|]. intros id x. simpl. destruct (decide (id = re_event_id e)) as [->|Hne].
  - rewrite dict_get_set_eq. intros [= <-]. auto.
  - rewrite dict_get_set_ne by done. apply Hs.
Qed.

(** Any event may be stored when it is then quarantined. *)
Lemma sound_refused e reason : steps keeps_sound (run! persist_raw e; quarantine_event e reason).
Proof.
  intros s Hs. unfold persist_raw, on_store, pzoom, pbind, add_raw_event, dict_mem.
  destruct (dict_get (re_event_id e) (rs_events (co_store s))) as [x|] eqn:E; simpl.
  - eapply sound_same_events; [| |exact Hs]; [done|]. by eexists.
  - destruct Hs as [Hnd Hs]. split; [by apply dict_set_NoDup|].
    intros id x. simpl. destruct (decide (id = re_event_id e)) as [->|Hne].
    + rewrite dict_get_set_eq. intros [= <-]. split; [done|]. right.
      eexists. split; [apply elem_of_app; right; by left|done].
    + rewrite dict_get_set_ne by done. intros [? Hor]%Hs. split; [done|]. destruct Hor; [by left|right].
      eapply quarantine_mono; [|done]. by eexists.
Qed.

Lemma steps_refused {P : Consumer -> Consumer -> Prop} `{!PreOrder P} {A B} (m1 : M Consumer A) (m2 : M Consumer B)
    {E} (k : M Consumer E) :
  steps P (run! m1; m2) -> steps P k -> steps P (run! m1; run! m2; k).
Proof.
  intros Hm Hk s. specialize (Hm s). unfold pbind in *. destruct (m1 s) as [s1 [a|x]]; [|done].
  destruct (m2 s1) as [s2 [b|x]]; [|done]. etransitivity; [exact Hm|apply Hk].
Qed.

Lemma gap_payload_object e env : exists p, loads (text (gap_payload e env)) = Ok (JObject p).
Proof.
  unfold gap_payload. match goal with |- context [dumps compact_style ?v] => set (value := v) end.
  assert (exists p, value = JObject p) as [p Hp] by by eexists.
  exists p. rewrite <- Hp. unfold untext, text. rewrite String.list_ascii_of_string_of_list_ascii.
  apply (loads_dumps _ compact_style_ok). subst value.
  match goal with |- json_wf (sorted_json (JObject ?fs)) =>
    change (json_wf (JObject (sorted_by key_order (map (fun f => (f.1, sorted_json f.2)) fs)))) end.
  destruct (ev_delta_sequence env), (ev_sequence env); (split; [apply (bool_decide_unpack (NoDup _)); by vm_compute|by vm_compute]).
Qed.

Lemma gap_event_sound e env :
  (re_received_at e <= re_available_at e)%Z ->
  (forall t, re_exchange_timestamp e = Some t -> (t <= re_received_at e)%Z) -> sound_event (gap_event e env).
Proof.
  intros Ha Ht. split_and!; try done.
  - unfold payload. change (re_raw_payload (gap_event e env)) with (gap_payload e env).
    destruct (gap_payload_object e env) as [p ->]. simpl. by eexists.
  - simpl. intros H. exfalso. revert H. unfold BOOK_EVENT_TYPES. set_solver.
Qed.

Lemma invalid_none e :
  invalid_reason e = Ok None ->
  (exists p, payload e = Ok p) /\ (re_received_at e <= re_available_at e)%Z /\
  (forall t, re_exchange_timestamp e = Some t -> (t <= re_received_at e)%Z).
Proof.
  unfold invalid_reason. destruct (payload e) as [p|x]; [|by case_match].
  destruct (Z.ltb_spec (re_available_at e) (re_received_at e)); [done|].
  destruct (re_exchange_timestamp e) as [t|]; [|by naive_solver].
  destruct (Z.ltb_spec (re_received_at e) t); [done|]. intros _. split_and!; eauto. by intros t' [= <-].
Qed.

#[local] Hint Resolve sound_metrics sound_pget sound_write sound_save_payload sound_quarantine sound_refused
  keeps_sound_preorder : steps.

Lemma sound_get_raw id : steps keeps_sound (on_store (get_raw_event id)).
Proof. by apply sound_read. Qed.
Lemma sound_get_experimental id : steps keeps_sound (on_store (get_experimental_event id)).
Proof. by apply sound_read. Qed.
Lemma sound_add_experimental e support : steps keeps_sound (on_store (add_experimental_event e support)).
Proof.
  intros s Hs. unfold on_store, pzoom, add_experimental_event. destruct (dict_mem _ _); simpl; [done|].
  eapply sound_same_events; [| |exact Hs]; [done|]. exists []. by rewrite app_nil_r.
Qed.
Lemma sound_stale now e : steps keeps_sound (record_stale stale_after now e).
Proof. unfold record_stale. steps_go. Qed.
#[local] Hint Resolve sound_get_raw sound_get_experimental sound_add_experimental sound_stale : steps.

Lemma validate_event_ok e e' : RawMarketEvent_validate e = Ok e' -> e' = e.
Proof. unfold RawMarketEvent_validate. repeat (case_match; [done|]). by intros [= <-]. Qed.

Lemma sound_gap_control e env : invalid_reason e = Ok None -> steps keeps_sound (record_gap_control e env).
Proof.
  intros (_ & Ha & Ht)%invalid_none. unfold record_gap_control.
  intros s. unfold pbind, plift. destruct (RawMarketEvent_validate (gap_event e env)) as [c|x] eqn:E; [|done].
  apply validate_event_ok in E as ->. apply (sound_persist_raw _ (gap_event_sound e env Ha Ht) s).
Qed.

Lemma sound_refuse_gap uuid e env reason :
  invalid_reason e = Ok None -> steps keeps_sound (refuse_gap namespace uuid e env reason).
Proof.
  intros Hi. unfold refuse_gap. apply (steps_refused (P := keeps_sound)); [apply sound_refused|].
  apply steps_bind; [apply _|by apply sound_gap_control|intros _]. unfold add_gap. steps_go.
Qed.

Lemma sound_refuse uuid e env reason state : steps keeps_sound (refuse namespace uuid e env reason state).
Proof. unfold refuse. apply (steps_refused (P := keeps_sound)); [apply sound_refused|apply sound_write]. Qed.

(** The event keeps the type and the state of its envelope. *)
Definition event_matches (e : RawMarketEvent) (env : CollectedEnvelope) : Prop :=
  re_event_type e = ev_event_type env /\
  re_reconciliation_state e = option_map reconciliation_value (ev_reconciliation_state env).

Lemma is_book_spec env : is_book env = true <-> ev_event_type env ∈ BOOK_EVENT_TYPES.
Proof. unfold is_book. apply bool_decide_eq_true. Qed.

Lemma sound_persist_book r e env checkpoint :
  event_matches e env -> invalid_reason e = Ok None ->
  steps keeps_sound (persist_book namespace stale_after r e env checkpoint).
Proof.
  intros [Htype Hstate] Hi. unfold persist_book.
  case_match; [by apply sound_refuse_gap|]. case_match; [apply sound_refuse|].
  destruct (bool_decide (ev_reconciliation_state env = Some R_SYNCHRONIZED)) eqn:Hsync; [|apply sound_refuse].
  apply bool_decide_eq_true in Hsync. simpl.
  apply steps_bind; [apply _|apply sound_persist_raw|intros _; steps_go].
  apply invalid_none in Hi as (? & ? & ?). split_and!; try done. by rewrite Hstate, Hsync.
Qed.

Lemma sound_persist_production r e env checkpoint invalid :
  event_matches e env -> invalid_reason e = Ok invalid ->
  steps keeps_sound (persist_production namespace stale_after r e env checkpoint invalid).
Proof.
  intros Hm Hi. unfold persist_production, add_duplicate.
  apply steps_bind; [apply _|apply sound_get_raw|intros existing].
  destruct existing as [other|]; [steps_go|]. destruct invalid as [reason|]; [apply sound_refused|].
  destruct (is_book env) eqn:Hb; [by apply sound_persist_book|].
  assert (sound_event e) as He.
  { pose proof (invalid_none e Hi) as (? & ? & ?). split_and!; try done.
    destruct Hm as [-> _]. intros Hb'%is_book_spec. congruence. }
  apply sound_persist_raw in He.
  case_match; [|case_match; [by apply sound_refuse_gap|]]; steps_go.
Qed.

Lemma sound_persist_experimental r e env checkpoint support :
  steps keeps_sound (persist_experimental namespace r e env checkpoint support).
Proof.
  unfold persist_experimental, add_duplicate, add_gap, record_checkpoint_lag.
  destruct (experimental_state checkpoint env) as [state required]. steps_go.
Qed.

Lemma event_of_matches env e : event_of env = Ok e -> event_matches e env.
Proof. unfold event_of. by intros (stable & _ & ->%validate_event_ok)%rbind_ok. Qed.

Lemma sound_persist r env : steps keeps_sound (persist gate namespace stale_after r env).
Proof.
  intros s. unfold persist, pbind at 1, plift at 1. destruct (event_of env) as [raw|x] eqn:Eraw; [|done].
  apply event_of_matches in Eraw. revert s.
  match goal with |- forall s, keeps_sound s (?m s).1 => enough (steps keeps_sound m) as H by exact H end.
  apply steps_bind; [apply _|apply sound_pget|intros s0]. cbv zeta.
  intros s. unfold pbind at 1, plift at 1.
  destruct (RawMarketEvent_validate _) as [e|x] eqn:Ev; [|done]. apply validate_event_ok in Ev as ->.
  revert s. match goal with |- forall s, keeps_sound s (?m s).1 => enough (steps keeps_sound m) as H by exact H end.
  apply steps_bind; [apply _|apply sound_save_payload|intros _].
  apply steps_bind; [apply _|apply sound_metrics|intros _].
  case_match; [apply sound_quarantine|].
  intros s. unfold pbind at 1, plift at 1. destruct (invalid_reason _) as [invalid|x] eqn:Ei; [|done].
  case_match; [by apply sound_persist_production|apply sound_persist_experimental].
Qed.

Lemma sound_consume r env : steps keeps_sound (consume gate namespace stale_after r env).
Proof.
  unfold consume. apply steps_bind; [apply _|apply sound_metrics|intros _].
  apply steps_bind; [apply _| |intros _; apply sound_metrics].
  apply steps_try; [apply _|apply sound_persist|intros x s Hs].
  eapply sound_same_events; [| |exact Hs]; [done|]. exists []. by rewrite app_nil_r.
Qed.

Lemma consume_all_sound items s : keeps_sound s (consume_all gate namespace stale_after items s).
Proof.
  revert s. induction items as [|[r env] items IH]; intros s; simpl; [reflexivity|].
  etransitivity; [apply sound_consume|apply IH].
Qed.

(** ** A stream that lost its book *)

(** The stream of an envelope, and of a stored book event *)
Definition stream_of (env : CollectedEnvelope) : string * string :=
  (ev_venue env, stream_key_of (stream_identity env)).
Definition book_stream (e : RawMarketEvent) : string * string :=
  (re_venue e, re_venue e +:+ ":" +:+ "orderbook" +:+ ":" +:+ re_venue_symbol e +:+ ":" +:+ re_channel e).

Definition recovering (k : string * string) (s : Consumer) : Prop :=
  requires_recovery (get_checkpoint (co_store s) namespace k.1 k.2) = true.

(** While the stream is recovering: it stays so, and each new book event of it is in
    quarantine. *)
Definition gated (k : string * string) (s s' : Consumer) : Prop :=
  (exists l, rs_quarantined (co_store s') = rs_quarantined (co_store s) ++ l) /\
  (recovering k s -> recovering k s' /\
   forall id e, dict_get id (rs_events (co_store s')) = Some e -> re_event_type e ∈ BOOK_EVENT_TYPES ->
     book_stream e = k -> dict_get id (rs_events (co_store s)) = Some e \/
     exists q, q ∈ rs_quarantined (co_store s') /\ re_event_id q.1.1 = id).

#[local] Instance gated_preorder k : PreOrder (gated k).
Proof.
  split.
  - intros s. split; [exists []; by rewrite app_nil_r|]. auto.
  - intros a b c [[l Hl] H1] [[l' Hl'] H2]. split; [exists (l ++ l'); by rewrite Hl', Hl, app_assoc|].
    intros Ha. destruct (H1 Ha) as [Hb Hnew1]. destruct (H2 Hb) as [Hc Hnew2]. split; [done|].
    intros id e Hget Hbook Hstream. destruct (Hnew2 id e) as [Hget'|Hq]; [done..| |by right].
    destruct (Hnew1 id e) as [?|(q & Hq & Hid)]; [done..|by left|right]. exists q. rewrite Hl'. set_solver.
Qed.

(** What touches neither events nor checkpoints *)
Lemma gated_neutral k s s' :
  rs_events (co_store s') = rs_events (co_store s) -> rs_checkpoints (co_store s') = rs_checkpoints (co_store s) ->
  (exists l, rs_quarantined (co_store s') = rs_quarantined (co_store s) ++ l) -> gated k s s'.
Proof.
  intros He Hc Hq. split; [done|]. unfold recovering, get_checkpoint. rewrite Hc, He. auto.
Qed.

Lemma no_quarantine (s s' : Consumer) :
  rs_quarantined (co_store s') = rs_quarantined (co_store s) ->
  exists l, rs_quarantined (co_store s') = rs_quarantined (co_store s) ++ l.
Proof. intros ->. exists []. by rewrite app_nil_r. Qed.

Lemma gated_metrics k f : steps (gated k) (on_metrics f).
Proof. intros s. by apply gated_neutral, no_quarantine. Qed.
Lemma gated_read {A} k (m : M ResearchStore A) : (forall s, (m s).1 = s) -> steps (gated k) (on_store m).
Proof.
  intros Hm s. unfold on_store, pzoom. specialize (Hm (co_store s)). destruct (m (co_store s)) as [st x].
  simpl in *. subst st. by apply gated_neutral, no_quarantine.
Qed.
Lemma gated_get_raw k id : steps (gated k) (on_store (get_raw_event id)).
Proof. by apply gated_read. Qed.
Lemma gated_get_experimental k id : steps (gated k) (on_store (get_experimental_event id)).
Proof. by apply gated_read. Qed.
Lemma gated_save_payload k h p : steps (gated k) (on_store (save_raw_payload h p)).
Proof.
  intros s. unfold on_store, pzoom, save_raw_payload. destruct (dict_mem h _); simpl; by apply gated_neutral, no_quarantine.
Qed.
Lemma gated_add_experimental k e support : steps (gated k) (on_store (add_experimental_event e support)).
Proof.
  intros s. unfold on_store, pzoom, add_experimental_event. destruct (dict_mem _ _); simpl; by apply gated_neutral, no_quarantine.
Qed.
Lemma gated_quarantine k e reason : steps (gated k) (quarantine_event e reason).
Proof. intros s. unfold quarantine_event. apply gated_neutral; simpl; [done|done|by eexists]. Qed.
Lemma gated_pget k : steps (gated k) pget.
Proof. intros s. simpl. reflexivity. Qed.

Lemma checkpoint_namespace_of uuid previous env id state required c :
  checkpoint_of_envelope namespace uuid previous env id state required = Ok c ->
  ck_checkpoint_namespace c = namespace /\ (ck_venue c, ck_stream_key c) = stream_of env /\
  ck_recovery_required c = required.
Proof. unfold checkpoint_of_envelope. by intros (f & _ & [= <-])%rbind_ok. Qed.

(** A checkpoint of the stream must require recovery. *)
Lemma gated_write k uuid env id state required :
  (stream_of env = k -> required = true) ->
  steps (gated k) (write_checkpoint namespace uuid env id state required).
Proof.
  intros Hreq s. unfold write_checkpoint, pbind, pget, plift.
  destruct (checkpoint_of_envelope _ _ _ _ _ _ _) as [c|x] eqn:E; [|reflexivity].
  apply checkpoint_namespace_of in E as (Hns & Hkey & Hrec). simpl.
  split; [by apply no_quarantine|]. intros Hs. simpl. split; [|by auto].
  unfold recovering, get_checkpoint in *. simpl. rewrite Hns.
  destruct (decide (k = stream_of env)) as [->|Hne].
  - rewrite <- Hkey. simpl. rewrite dict_get_set_eq. simpl. rewrite Hrec. by apply Hreq.
  - rewrite dict_get_set_ne; [done|]. destruct k as [kv kk]. simpl. intros [= -> ->]. by apply Hne.
Qed.

(** An event of another stream, or one that is then quarantined, may be stored. *)
Lemma gated_persist_raw k e :
  (re_event_type e ∈ BOOK_EVENT_TYPES -> book_stream e <> k) -> steps (gated k) (persist_raw e).
Proof.
  intros He s. unfold persist_raw, on_store, pzoom, pbind, add_raw_event, dict_mem.
  destruct (dict_get (re_event_id e) (rs_events (co_store s))) as [x|] eqn:E.
  { by apply gated_neutral, no_quarantine. }
  split; [by apply no_quarantine|]. intros Hs. split; [done|]. simpl. intros id x.
  destruct (decide (id = re_event_id e)) as [->|Hne]; [|rewrite dict_get_set_ne by done; auto].
  rewrite dict_get_set_eq. intros [= <-] Hb Hk. by apply He in Hb.
Qed.

Lemma gated_refused k e reason : steps (gated k) (run! persist_raw e; quarantine_event e reason).
Proof.
  intros s. unfold persist_raw, on_store, pzoom, pbind, add_raw_event, dict_mem.
  destruct (dict_get (re_event_id e) (rs_events (co_store s))) as [x|] eqn:E; simpl.
  { apply gated_neutral; simpl; [done|done|by eexists]. }
  split; [by eexists|]. intros Hs. split; [done|]. simpl. intros id x.
  destruct (decide (id = re_event_id e)) as [->|Hne]; [|rewrite dict_get_set_ne by done; auto].
  intros _ _ _. right. eexists. split; [apply elem_of_app; right; by left|done].
Qed.

Lemma gated_gap_control k e env : steps (gated k) (record_gap_control e env).
Proof.
  intros s. unfold record_gap_control, pbind, plift.
  destruct (RawMarketEvent_validate (gap_event e env)) as [c|x] eqn:E; [|reflexivity].
  apply validate_event_ok in E as ->. apply gated_persist_raw. simpl. intros H. exfalso. revert H.
  unfold BOOK_EVENT_TYPES. set_solver.
Qed.

Lemma gated_refuse_gap k uuid e env reason : steps (gated k) (refuse_gap namespace uuid e env reason).
Proof.
  unfold refuse_gap. apply (steps_refused (P := gated k)); [apply gated_refused|].
  apply steps_bind; [apply _|apply gated_gap_control|intros _].
  apply steps_bind; [apply _|apply gated_metrics|intros _]. by apply gated_write.
Qed.
Lemma gated_refuse k uuid e env reason state : steps (gated k) (refuse namespace uuid e env reason state).
Proof. unfold refuse. apply (steps_refused (P := gated k)); [apply gated_refused|by apply gated_write]. Qed.
Lemma gated_stale k now e : steps (gated k) (record_stale stale_after now e).
Proof. unfold record_stale. case_match; [apply gated_metrics|apply steps_ret, _]. Qed.

#[local] Hint Resolve gated_metrics gated_get_raw gated_get_experimental gated_save_payload gated_add_experimental
  gated_quarantine gated_pget gated_refused gated_refuse_gap gated_refuse gated_stale gated_preorder : steps.

(** Book envelopes name no other stream, and the envelopes of the stream are books that
    complete no recovery. *)
Definition no_recovery (k : string * string) (env : CollectedEnvelope) : Prop :=
  (is_book env = true -> ev_logical_stream_event_type env = None) /\
  (stream_of env = k -> is_book env = true /\ recovery_completed env (ev_reconciliation_state env) = false).

Definition event_place (e : RawMarketEvent) (env : CollectedEnvelope) : Prop :=
  re_event_type e = ev_event_type env /\ re_venue e = ev_venue env /\ re_venue_symbol e = ev_venue_symbol env /\
  re_channel e = ev_channel env.

Lemma event_of_place env e : event_of env = Ok e -> event_place e env.
Proof. unfold event_of. by intros (stable & _ & ->%validate_event_ok)%rbind_ok. Qed.

Lemma book_stream_of k env e :
  no_recovery k env -> event_place e env -> re_event_type e ∈ BOOK_EVENT_TYPES -> book_stream e = stream_of env.
Proof.
  intros [Hl _] (Ht & Hv & Hs & Hc). rewrite Ht. intros Hb%is_book_spec. specialize (Hl Hb).
  unfold book_stream, stream_of, stream_key_of, stream_identity. simpl. by rewrite Hv, Hs, Hc, Hl, Hb.
Qed.

(** An experimental book event that completes no recovery leaves the stream recovering. *)
Lemma experimental_recovering checkpoint env :
  is_book env = true -> recovery_completed env (ev_reconciliation_state env) = false ->
  requires_recovery checkpoint = true -> (experimental_state checkpoint env).2 = true.
Proof.
  intros Hb Hc Hr. unfold experimental_state. rewrite Hb, Hr. simpl. destruct (sequence_gap checkpoint env); [done|].
  destruct (ev_reconciliation_state env) as [st|]; simpl; [|done]. rewrite Hc. simpl. apply orb_true_r.
Qed.

Lemma gated_experimental k r e env checkpoint support :
  no_recovery k env -> (stream_of env = k -> requires_recovery checkpoint = true) ->
  steps (gated k) (persist_experimental namespace r e env checkpoint support).
Proof.
  intros [_ Henv] Hreq. unfold persist_experimental, add_duplicate, add_gap, record_checkpoint_lag.
  destruct (experimental_state checkpoint env) as [state required] eqn:Es.
  assert (steps (gated k) (write_checkpoint namespace (rd_uuid r) env (re_event_id e) state required)) as Hw.
  { apply gated_write. intros Hk. destruct (Henv Hk) as [Hb Hc].
    pose proof (experimental_recovering checkpoint env Hb Hc (Hreq Hk)) as H. by rewrite Es in H. }
  steps_go.
Qed.

Lemma gated_production k r e env checkpoint invalid :
  no_recovery k env -> event_place e env -> (stream_of env = k -> requires_recovery checkpoint = true) ->
  steps (gated k) (persist_production namespace stale_after r e env checkpoint invalid).
Proof.
  intros Henv Hplace Hreq. pose proof (book_stream_of k env e Henv Hplace) as Hbook.
  unfold persist_production, add_duplicate. apply steps_bind; [apply _|apply gated_get_raw|intros existing].
  destruct existing as [other|]; [steps_go|]. destruct invalid as [reason|]; [apply gated_refused|].
  destruct (is_book env) eqn:Hb.
  - unfold persist_book. case_match; [apply gated_refuse_gap|].
    destruct (decide (stream_of env = k)) as [Hk|Hk].
    + destruct (proj2 Henv Hk) as [_ Hc]. unfold recovered. rewrite (Hreq Hk), Hc. simpl. apply gated_refuse.
    + case_match; [apply gated_refuse|]. case_match; [apply gated_refuse|].
      apply steps_bind; [apply _|apply gated_persist_raw; by intros ->%Hbook|intros _].
      apply steps_bind; [apply _|by apply gated_write|intros _]. unfold record_checkpoint_lag. steps_go.
  - assert (stream_of env <> k) as Hk.
    { intros Hk. destruct (proj2 Henv Hk) as [Hb' _]. congruence. }
    assert (steps (gated k) (persist_raw e)) as Hraw.
    { apply gated_persist_raw. destruct Hplace as [-> _]. intros H%is_book_spec. congruence. }
    assert (forall id st req, steps (gated k) (write_checkpoint namespace (rd_uuid r) env id st req)) as Hw
      by (intros; by apply gated_write).
    unfold record_checkpoint_lag. steps_go.
Qed.

Lemma gated_persist k r env : no_recovery k env -> steps (gated k) (persist gate namespace stale_after r env).
Proof.
  intros Henv s. destruct (requires_recovery (get_checkpoint (co_store s) namespace k.1 k.2)) eqn:Hrec.
  2: { split; [apply ex_quarantined, cd_extends, steps_persist|]. unfold recovering. congruence. }
  unfold persist, pbind at 1, plift at 1. destruct (event_of env) as [raw|x] eqn:Eraw; [|reflexivity].
  apply event_of_place in Eraw. unfold pbind at 1, pget. cbv zeta.
  assert (stream_of env = k -> requires_recovery (stream_checkpoint namespace s env) = true) as Hreq.
  { intros <-. apply Hrec. }
  generalize dependent (stream_checkpoint namespace s env). intros checkpoint Hreq.
  unfold pbind at 1, plift at 1. destruct (RawMarketEvent_validate _) as [e|x] eqn:Ev; [|reflexivity].
  assert (event_place e env) as Hplace by by apply validate_event_ok in Ev as ->.
  clear Ev Hrec Eraw. revert s.
  match goal with |- forall s, gated k s (?m s).1 => enough (steps (gated k) m) as H by exact H end.
  apply steps_bind; [apply _|apply gated_save_payload|intros _].
  apply steps_bind; [apply _|apply gated_metrics|intros _]. case_match; [apply gated_quarantine|].
  apply steps_bind; [apply _|apply steps_lift, _|intros invalid].
  case_match; [by apply gated_production|by apply gated_experimental].
Qed.

Lemma gated_consume k r env : no_recovery k env -> steps (gated k) (consume gate namespace stale_after r env).
Proof.
  intros Henv. unfold consume. apply steps_bind; [apply _|apply gated_metrics|intros _].
  apply steps_bind; [apply _| |intros _; apply gated_metrics].
  apply steps_try; [apply _|by apply gated_persist|intros x s]. by apply gated_neutral, no_quarantine.
Qed.

Lemma gated_consume_all k items s :
  Forall (fun item => no_recovery k item.2) items -> gated k s (consume_all gate namespace stale_after items s).
Proof.
  intros Hitems. revert s. induction Hitems as [|[r env] items Henv Hitems IH]; intros s; simpl; [reflexivity|].
  etransitivity; [by apply gated_consume|apply IH].
Qed.

(** C20: whatever is collected, from an empty store: every stored production event is an
    object, available after it was received, not from the future and, if it is a book,
    synchronized, or it is in quarantine from when it was received; the counters of
    production, experimental and quarantined events are the sizes of the store; and what
    is collected later changes no stored event and no payload, and takes nothing out of
    quarantine. *)
Theorem collector_sound items later :
  let fresh := {| co_store := empty_store; co_metrics := new_metrics |} in
  let s := consume_all gate namespace stale_after items fresh in
  let s' := consume_all gate namespace stale_after later s in
  store_sound (co_store s) /\
  hm_production_count (co_metrics s) = size (rs_events (co_store s)) /\
  hm_experimental_count (co_metrics s) = size (rs_experimental_events (co_store s)) /\
  hm_quarantine_count (co_metrics s) = size (rs_quarantined (co_store s)) /\
  store_extends (co_store s) (co_store s') /\
  (forall h p, dict_get h (rs_raw_payloads (co_store s)) = Some p ->
               dict_get h (rs_raw_payloads (co_store s')) = Some p).
Proof.
  intros fresh s s'. destruct (consume_all_consumed items fresh) as [_ _ _ H1 H2 H3].
  destruct (consume_all_consumed later s) as [He Hp _ _ _ _].
  split_and!; try done; try (subst s; unfold size in *; simpl in *; lia).
  apply (consume_all_sound items fresh). split; [apply NoDup_nil_2|done].
Qed.

(** C29: while a stream requires the recovery of its order book, and no envelope completes
    it, every book event of the stream that is stored is put in quarantine, and the stream
    still requires recovery, whatever else is collected, however long. *)
Theorem recovery_gates_books k items s :
  recovering k s -> Forall (fun item => no_recovery k item.2) items ->
  let s' := consume_all gate namespace stale_after items s in
  recovering k s' /\
  forall id e, dict_get id (rs_events (co_store s')) = Some e -> re_event_type e ∈ BOOK_EVENT_TYPES ->
    book_stream e = k -> dict_get id (rs_events (co_store s)) = Some e \/
    exists q, q ∈ rs_quarantined (co_store s') /\ re_event_id q.1.1 = id.
Proof. intros Hs Hitems s'. by apply (gated_consume_all k items s Hitems). Qed.

End Consume.
