(* ===== verification/SnapshotSafety.v ===== *)
(** * Theorems on snapshots and datasets

    A finalized snapshot holds only what was known and usable at its cutoff, verifies for
    good, and keeps its payloads; a dataset holds nothing from after its cutoff and is
    reproduced from its snapshot at any later time. *)

From Stdlib Require Import ZArith QArith NArith Sorted Lia.
From stdpp Require Import base tactics sets list sorting strings.
From S2P Require Import Prelude Decimals Binary64 Evidence Json PyText FundingCarry ShadowBook ShadowStore ShadowOnce.
From S2P Require Import Certification CertificationSafety ResearchStore Collector Snapshots Dataset CollectorSafety.

Local Open Scope string_scope.
Local Open Scope list_scope.

Section Snapshots.
Context {C : DecimalContext} {D : Digest}.

(** ** Members of a snapshot *)

Lemma gather_stored {A} (s : ResearchStore) (id_of : A -> string) (xs : list A) (es : list RawMarketEvent) :
  Forall2 (fun x e => dict_get (id_of x) (rs_events s) = Some e) xs es ->
  gather (fun x => stored_event s (id_of x)) xs = Ok es.
Proof.
  induction 1 as [|x e xs es Hx Hxs IH]; simpl; [done|]. unfold stored_event at 1. by rewrite Hx, IH.
Qed.

Lemma membership_stored (s : ResearchStore) es :
  Forall (fun e => dict_get (re_event_id e) (rs_events s) = Some e) es ->
  Forall2 (fun m e => dict_get (member_id m) (rs_events s) = Some e) (membership_of es) es.
Proof.
  intros Hes. unfold membership_of. apply Forall2_same_length_lookup_2; [by rewrite length_imap|].
  intros i m e Hm He. rewrite list_lookup_imap, He in Hm. simpl in Hm. injection Hm as <-.
  rewrite Forall_lookup in Hes. by eapply Hes.
Qed.

(** The snapshot of usable events of the store *)
Definition snapshot_ok (s : ResearchStore) (m : DataSnapshotManifest) : Prop :=
  exists es, Forall (fun e => dict_get (re_event_id e) (rs_events s) = Some e) es /\
    sm_events m = membership_of es /\ sm_content_sha256 m = content_hash_of (sm_events m) /\
    sm_manifest_sha256 m = canonical_sha256 (unsigned_json m).

Definition snapshots_ok (s : ResearchStore) : Prop :=
  forall id m, snapshot_manifest s id = Some m -> snapshot_ok s m.

Lemma snapshot_ok_verifies s id m :
  snapshot_manifest s id = Some m -> snapshot_ok s m -> verify s id = Ok m.
Proof.
  intros Hm (es & Hes & Hmem & Hcontent & Hhash). unfold verify, snapshot_events. rewrite Hm.
  rewrite (gather_stored s member_id (sm_events m) es) by (rewrite Hmem; by apply membership_stored). simpl.
  rewrite !bool_decide_true; try done. by rewrite <- Hmem.
Qed.

Lemma snapshot_ok_extends s s' m : store_extends s s' -> snapshot_ok s m -> snapshot_ok s' m.
Proof.
  intros Hext (es & Hes & Hrest). exists es. split; [|done]. eapply Forall_impl; [exact Hes|].
  simpl. intros e. by apply (ex_events _ _ Hext).
Qed.

(** ** What finalizing does *)

Lemma store_value_get s e : store_sound s -> e ∈ raw_events s -> dict_get (re_event_id e) (rs_events s) = Some e.
Proof.
  intros [Hnd Hs] (id & He)%list_elem_of_fmap. destruct He as [He Hin]. destruct id as [id e']. simpl in He. subst e'.
  pose proof (dict_In_get id e (rs_events s) Hnd Hin) as Hget. by destruct (Hs id e Hget) as [-> _].
Qed.

Lemma elem_usable s q e :
  e ∈ usable_events s q <->
  e ∈ raw_events s /\ (re_available_at e <= sr_cutoff_at q)%Z /\ included (sr_included_event_types q) (re_event_type e) = true /\
  included (sr_included_venues q) (re_venue e) = true /\
  re_event_id e ∉ (quarantine_summary s (sr_cutoff_at q)).1 /\
  re_event_id e ∉ unsynchronized_ids (snapshot_source s q).
Proof.
  unfold usable_events. rewrite list_elem_of_filter_bool. unfold snapshot_source at 1.
  rewrite list_elem_of_filter_bool, elem_of_sorted_by, !andb_true_iff, !negb_true_iff, !bool_decide_eq_false, Z.leb_le.
  tauto.
Qed.

Lemma usable_stored s q :
  store_sound s -> Forall (fun e => dict_get (re_event_id e) (rs_events s) = Some e) (usable_events s q).
Proof. intros Hs. apply Forall_forall. intros e (He & _)%elem_usable. by apply store_value_get. Qed.

Lemma manifest_of_ok s q : store_sound s -> snapshot_ok s (manifest_of s q).
Proof. intros Hs. exists (usable_events s q). split; [by apply usable_stored|done]. Qed.

Lemma finalize_snapshot_ok m s s' :
  snapshot_manifest s (sm_snapshot_id m) = None -> finalize_snapshot m s = (s', Ok tt) ->
  rs_snapshot_manifests s' = dict_set (sm_snapshot_id m) m (rs_snapshot_manifests s) /\
  rs_events s' = rs_events s /\ rs_quarantined s' = rs_quarantined s /\
  rs_experimental_events s' = rs_experimental_events s.
Proof.
  unfold snapshot_manifest, finalize_snapshot. intros ->. case_match; [done|].
  intros (s1 & u & Hsave & Hm)%pbind_ok. unfold pmodify in Hm. injection Hm as <-.
  unfold save_snapshot in Hsave. repeat case_match; try done; by injection Hsave as <-.
Qed.

Lemma finalize_ok q s s' m :
  finalize q s = (s', Ok m) ->
  s' = s /\ snapshot_manifest s (sm_snapshot_id (manifest_of s q)) = Some m \/
  m = manifest_of s q /\ snapshot_manifest s (sm_snapshot_id m) = None /\
  rs_snapshot_manifests s' = dict_set (sm_snapshot_id m) m (rs_snapshot_manifests s) /\
  rs_events s' = rs_events s /\ rs_quarantined s' = rs_quarantined s /\
  rs_experimental_events s' = rs_experimental_events s.
Proof.
  unfold finalize, pbind at 1, pget. cbv zeta. destruct (snapshot_manifest s _) as [x|] eqn:E.
  - intros [= <- <-]. auto.
  - intros (s1 & [] & Hf & H)%pbind_ok. injection H as -> <-. right. split; [done|]. split; [done|].
    by apply finalize_snapshot_ok.
Qed.

(** ** The operations on the store *)

Lemma finalize_snapshot_failed m s s' x : finalize_snapshot m s = (s', Err x) -> s' = s.
Proof.
  unfold finalize_snapshot. destruct (dict_get _ (rs_snapshot_manifests s)); [by intros [= <- _]|].
  destruct (negb _); [by intros [= <- _]|]. unfold pbind, save_snapshot, pmodify.
  destruct (dict_get _ (rs_snapshots s)) as [existing|]; [|done]. by destruct (bool_decide _); [|intros [= <- _]].
Qed.

Lemma finalize_failed q s s' x : finalize q s = (s', Err x) -> s' = s.
Proof.
  unfold finalize, pbind at 1, pget. cbv zeta. destruct (snapshot_manifest s _) as [y|] eqn:Em; [done|].
  unfold pbind. destruct (finalize_snapshot _ s) as [s1 [[]|x1]] eqn:E; [done|]. intros [= <- _].
  by apply finalize_snapshot_failed in E.
Qed.

Lemma finalize_extends q s : store_extends s (finalize q s).1.
Proof.
  destruct (finalize q s) as [s' [m|x]] eqn:E; simpl.
  - apply finalize_ok in E as [[-> _]|(_ & Hnone & Hm & He & Hq & Hx)]; [reflexivity|].
    constructor; rewrite ?He, ?Hx, ?Hm; auto; [by apply dict_set_grows|]. exists []. by rewrite Hq, app_nil_r.
  - by apply finalize_failed in E as ->.
Qed.

Lemma finalize_sound q s : store_sound s -> store_sound (finalize q s).1.
Proof.
  intros Hs. pose proof (finalize_extends q s) as Hext. destruct (finalize q s) as [s' [m|x]] eqn:E; simpl in *.
  - apply finalize_ok in E as [[-> _]|(_ & _ & _ & He & Hq & _)]; [done|].
    eapply sound_same_events; [exact He| |exact Hs]. exists []. by rewrite Hq, app_nil_r.
  - by apply finalize_failed in E as ->.
Qed.

Lemma finalize_snapshots_ok q s : store_sound s -> snapshots_ok s -> snapshots_ok (finalize q s).1.
Proof.
  intros Hs Hok. pose proof (finalize_extends q s) as Hext. destruct (finalize q s) as [s' [m|x]] eqn:E; simpl in *.
  - apply finalize_ok in E as [[-> _]|(-> & Hnone & Hm & He & _ & _)]; [done|].
    intros id m'. unfold snapshot_manifest. rewrite Hm.
    destruct (decide (id = sm_snapshot_id (manifest_of s q))) as [->|Hne].
    + rewrite dict_get_set_eq. intros [= <-]. eapply snapshot_ok_extends; [done|]. by apply manifest_of_ok.
    + rewrite dict_get_set_ne by done. intros Hget%Hok. by eapply snapshot_ok_extends.
  - by apply finalize_failed in E as ->.
Qed.

(** The builder only adds to the quarantine. *)
Definition only_quarantines (s s' : ResearchStore) : Prop :=
  exists l, s' = set_rs_quarantined (rs_quarantined s ++ l) s.
#[local] Instance only_quarantines_preorder : PreOrder only_quarantines.
Proof.
  split.
  - intros s. exists []. rewrite app_nil_r. by destruct s.
  - intros a b c [l ->] [l' ->]. exists (l ++ l'). simpl. by rewrite app_assoc.
Qed.

Lemma only_quarantines_extends s s' : only_quarantines s s' -> store_extends s s'.
Proof. intros [l ->]. constructor; simpl; auto. by exists l. Qed.

Lemma only_quarantines_sound s s' : only_quarantines s s' -> store_sound s -> store_sound s'.
Proof. intros [l ->]. apply sound_same_events; [done|by exists l]. Qed.

Lemma only_quarantines_ok s s' : only_quarantines s s' -> snapshots_ok s -> snapshots_ok s'.
Proof.
  intros Hq Hok id m Hm. eapply snapshot_ok_extends; [by apply only_quarantines_extends|].
  apply (Hok id). by destruct Hq as [l ->].
Qed.

Lemma build_event_quarantines q e b : steps only_quarantines (build_event q e b).
Proof.
  unfold build_event. destruct (check_sequence e (bs_previous_sequences b)) as [previous refused].
  assert (forall reason, steps only_quarantines (quarantine e reason (bq_cutoff_at q))) as Hq.
  { intros reason s. by eexists. }
  repeat case_match; steps_go.
Qed.

Lemma build_events_quarantines q es b : steps only_quarantines (build_events q es b).
Proof.
  revert b. induction es as [|e es IH]; intros b; simpl; [apply steps_ret, _|].
  apply steps_bind; [apply _|apply build_event_quarantines|apply IH].
Qed.

(** What it gathers does not depend on the store. *)
Lemma build_event_result q e b s s' : (build_event q e b s).2 = (build_event q e b s').2.
Proof.
  unfold build_event. destruct (check_sequence e (bs_previous_sequences b)) as [previous refused].
  unfold pbind, quarantine, pmodify, pret, praise, plift. repeat case_match; done.
Qed.

Lemma build_events_result q es b s s' : (build_events q es b s).2 = (build_events q es b s').2.
Proof.
  revert b s s'. induction es as [|e es IH]; intros b s s'; simpl; [done|]. unfold pbind.
  pose proof (build_event_result q e b s s') as H.
  destruct (build_event q e b s) as [s1 [b1|x1]], (build_event q e b s') as [s2 [b2|x2]]; simpl in *;
    try congruence. injection H as <-. apply IH.
Qed.

(** ** Point in time *)

(** A value was selected from an event, at the cutoff. *)
Definition value_from (q : BuildRequest) (es : list RawMarketEvent) (v : PointInTimeValue) : Prop :=
  exists e p, e ∈ es /\ v = value_of e p /\ checked_payload e = Ok p /\ requested q e = true /\
    (re_received_at e <= re_available_at e <= bq_cutoff_at q)%Z /\
    (forall t, re_exchange_timestamp e = Some t -> (t <= re_received_at e)%Z).

Lemma build_event_values q e b s s' b' :
  build_event q e b s = (s', Ok b') ->
  bs_selected b' = bs_selected b \/
  exists v r, bs_selected b' = bs_selected b ++ [(v, r)] /\ value_from q [e] v.
Proof.
  unfold build_event. destruct (requested q e) eqn:Hr; [|intros [= _ <-]; by left]. simpl.
  destruct (Z.ltb_spec (bq_cutoff_at q) (re_available_at e)); [intros [= _ <-]; by left|].
  destruct (checked_payload e) as [p|x] eqn:Ep; [|case_match; [intros [= _ <-]; by left|done]].
  destruct (match re_exchange_timestamp e with Some t => (re_received_at e <? t)%Z | None => false end) eqn:Et;
    [intros [= _ <-]; by left|].
  destruct (Z.ltb_spec (re_available_at e) (re_received_at e)); [intros [= _ <-]; by left|].
  destruct (check_sequence e (bs_previous_sequences b)) as [previous [reason|]]; [intros [= _ <-]; by left|].
  unfold pbind, plift. destruct (require_available _ _); [|done]. intros [= _ <-]. right.
  exists (value_of e p), (hash_record e). split; [done|]. exists e, p. split_and!; try done; [by left|].
  intros t Ht. rewrite Ht in Et. by apply Z.ltb_ge in Et.
Qed.

Lemma value_from_mono q es es' v : es ⊆ es' -> value_from q es v -> value_from q es' v.
Proof. intros Hsub (e & p & He & Hrest). exists e, p. split; [by apply Hsub|done]. Qed.

Lemma build_events_values q es b s s' b' :
  build_events q es b s = (s', Ok b') ->
  Forall (fun vr => value_from q es vr.1 \/ vr ∈ bs_selected b) (bs_selected b').
Proof.
  revert b s. induction es as [|e es IH]; intros b s; simpl.
  { intros [= _ <-]. apply Forall_forall. auto. }
  intros (s1 & b1 & H1 & H2)%pbind_ok. apply IH in H2. eapply Forall_impl; [exact H2|].
  intros vr [Hv|Hin]; [left; eapply value_from_mono; [|done]; set_solver|].
  apply build_event_values in H1 as [Heq|(v & r & Heq & Hv)]; rewrite Heq in Hin; [by right|].
  apply elem_of_app in Hin as [?|Hin]; [by right|left]. apply list_elem_of_singleton in Hin as ->.
  eapply value_from_mono; [|done]. set_solver.
Qed.

(** ** Everything that is done to the store *)

Inductive ResearchOp :=
  | Collect (items : list (Readings * CollectedEnvelope))
  | Finalize (q : SnapshotRequest)
  | Build (q : BuildRequest)
  | Purge (cutoff_at : Z)
  | SaveRule (r : InstrumentRuleSnapshot)
  | SaveRun (r : ResearchRunIdentity) (status : string) (verdict : option string)
  | Freeze (h : FrozenHypothesis).

Variable gate : CapabilityGate.
Variable namespace : string.
Variable stale_after : Z.

Definition on_research {A} (m : M ResearchStore A) (s : Consumer) : Consumer := set_co_store (m (co_store s)).1 s.

Definition research_step (s : Consumer) (op : ResearchOp) : Consumer :=
  match op with
  | Collect items => consume_all gate namespace stale_after items s
  | Finalize q => on_research (finalize q) s
  | Build q => on_research (build q) s
  | Purge cutoff_at => on_research (purge_raw_payloads_before cutoff_at) s
  | SaveRule r => on_research (save_instrument_rule r) s
  | SaveRun r status verdict => on_research (save_run r status verdict) s
  | Freeze h => on_research (freeze_hypothesis h) s
  end.

Definition research_run (ops : list ResearchOp) (s : Consumer) : Consumer := fold_left research_step ops s.

(** Each keeps what is stored, its soundness and the snapshots. *)
Definition preserves (s s' : ResearchStore) : Prop :=
  store_extends s s' /\ (store_sound s -> store_sound s') /\
  (store_sound s -> snapshots_ok s -> snapshots_ok s').

#[local] Instance preserves_preorder : PreOrder preserves.
Proof.
  split.
  - intros s. split; [reflexivity|]. auto.
  - intros a b c (H1 & H2 & H3) (H4 & H5 & H6). split; [by etransitivity|]. auto.
Qed.

Lemma preserves_quarantine s s' : only_quarantines s s' -> preserves s s'.
Proof.
  intros Hq. split_and!; [by apply only_quarantines_extends|by apply only_quarantines_sound|].
  intros _. by apply only_quarantines_ok.
Qed.

Lemma preserves_same s s' :
  rs_snapshot_manifests s' = rs_snapshot_manifests s -> rs_events s' = rs_events s ->
  rs_experimental_events s' = rs_experimental_events s -> rs_quarantined s' = rs_quarantined s -> preserves s s'.
Proof.
  intros H1 H2 H3 H4. pose proof (same_lists_extend s s' H1 H2 H3 H4) as Hext. split_and!; [done| |].
  - apply sound_same_events; [done|]. exists []. by rewrite H4, app_nil_r.
  - intros _ Hok id m. unfold snapshot_manifest. rewrite H1. intros Hm%Hok. by eapply snapshot_ok_extends.
Qed.

Lemma preserves_finalize q s : preserves s (finalize q s).1.
Proof. split_and!; [apply finalize_extends|apply finalize_sound|apply finalize_snapshots_ok]. Qed.

Lemma preserves_build q : steps preserves (build q).
Proof.
  unfold build. apply steps_bind; [apply _|by intros s; simpl; reflexivity|intros s]. cbv zeta.
  apply steps_bind; [apply _|apply steps_lift, _|intros _].
  apply steps_bind; [apply _|apply steps_lift, _|intros source].
  apply steps_bind; [apply _|intros s0; apply preserves_quarantine, build_events_quarantines|intros b].
  apply steps_bind; [apply _| |intros _; apply steps_ret, _].
  destruct (snapshot_manifest s (bq_snapshot_id q)); [apply steps_ret, _|].
  apply steps_bind; [apply _|intros s0; apply preserves_finalize|intros m; apply steps_lift, _].
Qed.

Lemma preserves_consume items s : preserves (co_store s) (co_store (consume_all gate namespace stale_after items s)).
Proof.
  pose proof (consume_all_consumed gate namespace stale_after items s) as Hc. split_and!.
  - apply Hc.
  - apply consume_all_sound.
  - intros _ Hok id m. unfold snapshot_manifest. rewrite (cd_manifests _ _ Hc). intros Hm%Hok.
    eapply snapshot_ok_extends; [apply Hc|done].
Qed.

Lemma preserves_step s op : preserves (co_store s) (co_store (research_step s op)).
Proof.
  destruct op as [items|q|q|cutoff|r|r status verdict|h]; simpl.
  - apply preserves_consume.
  - apply preserves_finalize.
  - apply preserves_build.
  - unfold purge_raw_payloads_before. case_match; [by apply preserves_same|reflexivity].
  - unfold save_instrument_rule. repeat case_match; try reflexivity; by apply preserves_same.
  - unfold save_run. repeat case_match; try reflexivity; by apply preserves_same.
  - unfold freeze_hypothesis. repeat case_match; try reflexivity; by apply preserves_same.
Qed.

Lemma preserves_run ops s : preserves (co_store s) (co_store (research_run ops s)).
Proof.
  revert s. induction ops as [|op ops IH]; intros s; simpl; [reflexivity|].
  etransitivity; [apply preserves_step|apply IH].
Qed.

Definition fresh_research : Consumer := {| co_store := empty_store; co_metrics := new_metrics |}.

Lemma run_sound ops : store_sound (co_store (research_run ops fresh_research)).
Proof. apply (preserves_run ops fresh_research). split; [apply NoDup_nil_2|done]. Qed.

Lemma run_snapshots_ok ops : snapshots_ok (co_store (research_run ops fresh_research)).
Proof. apply (preserves_run ops fresh_research); [split; [apply NoDup_nil_2|done]|done]. Qed.

(** C23: a snapshot that is finalized, at any point of any sequence of collection,
    finalization, dataset building, purging and recording, verifies: its events are
    reproduced from the store and its hashes are right.  It stays the same and verifies
    after whatever is done later. *)
Theorem snapshots_permanent ops later id m :
  snapshot_manifest (co_store (research_run ops fresh_research)) id = Some m ->
  verify (co_store (research_run ops fresh_research)) id = Ok m /\
  verify (co_store (research_run (ops ++ later) fresh_research)) id = Ok m.
Proof.
  intros Hm. split; [apply snapshot_ok_verifies; [done|]; by apply (run_snapshots_ok ops id)|].
  assert (snapshot_manifest (co_store (research_run (ops ++ later) fresh_research)) id = Some m) as Hm'.
  { unfold research_run. rewrite fold_left_app. eapply (ex_manifests _ _); [apply preserves_run|done]. }
  apply snapshot_ok_verifies; [done|]. by apply (run_snapshots_ok _ id).
Qed.

(** ** What a snapshot holds *)

Lemma elem_quarantine_summary s cutoff id :
  id ∈ (quarantine_summary s cutoff).1 <->
  exists q, q ∈ rs_quarantined s /\ (q.2 <= cutoff)%Z /\ re_event_id q.1.1 = id.
Proof.
  unfold quarantine_summary. simpl. rewrite elem_of_sorted_by, dict_fromkeys_elem, list_elem_of_fmap. split.
  - intros (q & -> & (Hq & Hle%Z.leb_le)%list_elem_of_filter_bool). eauto.
  - intros (q & Hq & Hle & <-). exists q. split; [done|]. apply list_elem_of_filter_bool. by rewrite Z.leb_le.
Qed.

Definition quarantined_by (s : ResearchStore) (cutoff : Z) (e : RawMarketEvent) : Prop :=
  exists q, q ∈ rs_quarantined s /\ (q.2 <= cutoff)%Z /\ re_event_id q.1.1 = re_event_id e.

(** Ids are unique, so an event is left out for its own state. *)
Lemma elem_unsynchronized s q e :
  store_sound s -> e ∈ snapshot_source s q ->
  re_event_id e ∈ unsynchronized_ids (snapshot_source s q) <-> unsynchronized_book e = true.
Proof.
  intros Hs He. unfold unsynchronized_ids. rewrite dict_fromkeys_elem, list_elem_of_fmap. split.
  - intros (e' & Hid & (He' & Hu)%list_elem_of_filter_bool).
    assert (forall x, x ∈ snapshot_source s q -> dict_get (re_event_id x) (rs_events s) = Some x) as Hget.
    { intros x (Hx & _)%list_elem_of_filter_bool. apply store_value_get; [done|]. by rewrite elem_of_sorted_by in Hx. }
    pose proof (Hget e He) as H1. pose proof (Hget e' He') as H2. rewrite Hid in H1. congruence.
  - intros Hu. exists e. split; [done|]. by apply list_elem_of_filter_bool.
Qed.

(** Available by the cutoff, asked for, not quarantined by then, and synchronized *)
Definition belongs (s : ResearchStore) (q : SnapshotRequest) (e : RawMarketEvent) : Prop :=
  dict_get (re_event_id e) (rs_events s) = Some e /\ (re_available_at e <= sr_cutoff_at q)%Z /\
  included (sr_included_event_types q) (re_event_type e) = true /\ included (sr_included_venues q) (re_venue e) = true /\
  ~ quarantined_by s (sr_cutoff_at q) e /\ unsynchronized_book e = false.

Lemma usable_belongs s q e : store_sound s -> e ∈ usable_events s q <-> belongs s q e.
Proof.
  intros Hs. rewrite elem_usable, elem_quarantine_summary. unfold belongs, quarantined_by.
  assert (forall (P Q : Prop), (P -> Q) -> P /\ Q <-> P) as _ by tauto.
  split.
  - intros (He & Ha & Ht & Hv & Hq & Hu). split_and!; try done; [by apply store_value_get|].
    apply not_true_iff_false. intros H. apply Hu. apply elem_unsynchronized; [done| |done].
    unfold snapshot_source. apply list_elem_of_filter_bool. rewrite elem_of_sorted_by.
    split; [done|]. by rewrite Ht, Hv, !andb_true_r, Z.leb_le.
  - intros (He & Ha & Ht & Hv & Hq & Hu). apply dict_get_In in He.
    assert (e ∈ raw_events s) as Hin by (apply list_elem_of_fmap; by exists (re_event_id e, e)).
    split_and!; try done. intros H. apply elem_unsynchronized in H; [congruence|done|].
    unfold snapshot_source. apply list_elem_of_filter_bool. rewrite elem_of_sorted_by.
    split; [done|]. by rewrite Ht, Hv, !andb_true_r, Z.leb_le.
Qed.

Lemma filter_sorted {A} (R : A -> A -> Prop) (f : A -> bool) xs : StronglySorted R xs -> StronglySorted R (List.filter f xs).
Proof.
  induction 1 as [|x xs Hs IH Hx]; simpl; [constructor|]. case_match; [|done]. constructor; [done|].
  apply Forall_forall. intros y (Hy & _)%list_elem_of_filter_bool. rewrite Forall_forall in Hx. by apply Hx.
Qed.

Lemma usable_sorted s q : StronglySorted (fun a b => event_leb a b = true) (usable_events s q).
Proof. apply filter_sorted, filter_sorted, event_sorted. Qed.

(** C26: a snapshot that is finalized holds exactly the stored events that were available
    by the cutoff, were asked for, were not quarantined by then, and are no
    unsynchronized books, in the order in which they became available; each of them is
    sound, or was received only after the cutoff; and the snapshot is research eligible
    exactly when no reason stands against it. *)
Theorem snapshot_exact ops q s' m :
  let s := co_store (research_run ops fresh_research) in
  snapshot_manifest s (sm_snapshot_id (manifest_of s q)) = None -> finalize q s = (s', Ok m) ->
  exists es, sm_events m = membership_of es /\ StronglySorted (fun a b => event_leb a b = true) es /\
    (forall e, e ∈ es <-> belongs s q e) /\
    (forall e, e ∈ es -> sound_event e \/ (sr_cutoff_at q < re_received_at e)%Z) /\
    sm_cutoff_at m = sr_cutoff_at q /\
    (sm_eligibility_status m = ELIGIBLE <-> sm_eligibility_reasons m = []).
Proof.
  intros s Hnew Hf. pose proof (run_sound ops) as Hs. fold s in Hs.
  apply finalize_ok in Hf as [[_ Hold]|(-> & _)]; [congruence|].
  exists (usable_events s q). split; [done|]. split; [apply usable_sorted|].
  split; [intros e; by apply usable_belongs|]. split; [|split; [done|]].
  - intros e He. apply usable_belongs in He as (Hget & Ha & _ & _ & Hq & _); [|done].
    destruct (proj2 Hs _ _ Hget) as [_ [?|(r & Hr & Hid & Hat)]]; [by left|right].
    apply Z.nle_gt. intros Hle. apply Hq. exists r. split_and!; try done. lia.
  - unfold ELIGIBLE. simpl. case_bool_decide; naive_solver.
Qed.

(** ** Datasets *)

Lemma snapshot_events_extends s s' id es m :
  store_extends s s' -> snapshot_manifest s id = Some m -> snapshot_events s id = Ok es ->
  snapshot_events s' id = Ok es.
Proof.
  intros Hext Hm. unfold snapshot_events. rewrite Hm. unfold snapshot_manifest in *.
  rewrite (ex_manifests _ _ Hext id m Hm). clear Hm. revert es.
  induction (sm_events m) as [|x xs IH]; intros es; simpl; [done|].
  intros (y & Hy & H)%rbind_ok. apply rbind_ok in H as (ys & Hys & [= <-]).
  unfold stored_event in Hy at 1. destruct (dict_get (member_id x) (rs_events s)) as [e|] eqn:E; [|done].
  injection Hy as <-. unfold stored_event at 1. rewrite (ex_events _ _ Hext _ _ E). simpl. by rewrite (IH ys Hys).
Qed.

Lemma build_finalized q s s' d m :
  snapshot_manifest s (bq_snapshot_id q) = Some m -> build q s = (s', Ok d) ->
  exists es b, snapshot_events s (bq_snapshot_id q) = Ok es /\ sm_cutoff_at m = bq_cutoff_at q /\
    sm_eligibility_status m = ELIGIBLE /\
    (build_events q (sorted_by event_leb es) no_values s).2 = Ok b /\ d = dataset_of q b.
Proof.
  intros Hm. unfold build. unfold pbind at 1, pget. cbv zeta. rewrite Hm.
  intros (s1 & u & Hcheck & H)%pbind_ok. injection Hcheck as <- Hcheck.
  apply pbind_ok in H as (s2 & es & Hes & H). injection Hes as <- Hes.
  apply pbind_ok in H as (s3 & b & Hb & H). apply pbind_ok in H as (s4 & u' & _ & H). injection H as <- <-.
  exists es, b. unfold require_eligible in Hcheck. repeat (case_match; [|done]).
  apply Z.eqb_eq in H. apply bool_decide_eq_true in H0. split_and!; try done. by rewrite Hb.
Qed.

(** C27: a dataset of a finalized snapshot holds only values of its events that were
    received and available by the cutoff, are not from the future, are of the
    instruments, venues and types asked for and have a valid payload; and it is
    reproduced, value by value and hash by hash, from the store at any later time. *)
Theorem dataset_point_in_time q s s' d m :
  snapshot_manifest s (bq_snapshot_id q) = Some m -> build q s = (s', Ok d) ->
  (exists es, snapshot_events s (bq_snapshot_id q) = Ok es /\ Forall (value_from q es) (pd_values d)) /\
  sm_cutoff_at m = bq_cutoff_at q /\ sm_eligibility_status m = ELIGIBLE /\
  forall t, store_extends s t -> (build q t).2 = Ok d.
Proof.
  intros Hm Hb. destruct (build_finalized q s s' d m Hm Hb) as (es & b & Hes & Hcut & Hel & Hrun & ->).
  split_and!; try done.
  - exists es. split; [done|]. destruct (build_events q (sorted_by event_leb es) no_values s) as [s1 x] eqn:E.
    simpl in Hrun. subst x. apply build_events_values in E. simpl. apply Forall_map.
    eapply Forall_impl; [exact E|]. intros vr [Hv|Hv]; [|by apply not_elem_of_nil in Hv].
    eapply value_from_mono; [|exact Hv]. intros e. by rewrite elem_of_sorted_by.
  - intros t Hext. pose proof (snapshot_events_extends s t _ es m Hext Hm Hes) as Hes'.
    unfold snapshot_manifest in Hm. pose proof (ex_manifests _ _ Hext _ _ Hm) as Hm'.
    unfold build, pbind, pget, plift. cbv zeta. unfold snapshot_manifest at 1 2 3. rewrite Hm', Hcut, Z.eqb_refl. simpl.
    unfold require_eligible. rewrite bool_decide_true by done. simpl. rewrite Hes'.
    pose proof (build_events_result q (sorted_by event_leb es) no_values s t) as Hres. rewrite Hrun in Hres.
    destruct (build_events q (sorted_by event_leb es) no_values t) as [t1 x]. simpl in Hres. by subst x.
Qed.

(** ** Payloads of snapshots *)

Lemma count_filter_size {A} (f : A -> bool) xs :
  (count f xs + size (List.filter (fun x => negb (f x)) xs) = size xs)%Z.
Proof.
  unfold count, size. induction xs as [|x xs IH]; simpl; [done|]. destruct (f x); simpl in *; lia.
Qed.

(** The hash is that of the source of an event of a snapshot. *)
Definition protected_payload (s : ResearchStore) (h : string) : Prop :=
  exists id e, id ∈ snapshot_members s /\ dict_get id (rs_events s) = Some e /\ re_source_payload_sha256 e = Some h.

(** The retention of raw payloads keeps the payload of every event of every snapshot,
    removes only payloads received before the cutoff, and reports how many it removed. *)
Theorem purge_protected cutoff s s' n :
  purge_raw_payloads_before cutoff s = (s', Ok n) ->
  (forall h p, protected_payload s h -> (h, p) ∈ rs_raw_payloads s -> (h, p) ∈ rs_raw_payloads s') /\
  (forall h p, (h, p) ∈ rs_raw_payloads s -> (h, p) ∉ rs_raw_payloads s' -> (rp_received_at p < cutoff)%Z) /\
  (n + size (rs_raw_payloads s') = size (rs_raw_payloads s))%Z.
Proof.
  unfold purge_raw_payloads_before. destruct (gather _ _) as [protected|x] eqn:E; [|done]. cbv zeta.
  intros [= <- <-]. simpl. split_and!.
  - intros h p (id & e & Hid & He & Hh) Hp. apply list_elem_of_filter_bool. split; [done|]. simpl.
    rewrite bool_decide_true, andb_false_r; [done|].
    apply (gather_elem_of _ _ _ E). exists id, [h]. split_and!; [done| |by left]. unfold protected_hash. by rewrite He, Hh.
  - intros h p Hp Hnot. destruct (Z.ltb_spec (rp_received_at p) cutoff) as [|Hge]; [done|]. destruct Hnot.
    apply list_elem_of_filter_bool. split; [done|]. simpl. apply Z.ltb_ge in Hge. by rewrite Hge.
  - apply count_filter_size.
Qed.

End Snapshots.
