(* ===== verification/Collecting.v ===== *)
(** * The running collector (services/research/data_operations.py)

    [ResearchMarketDataCollector.run]: the main task announces each venue and starts its
    workers, a polling worker per venue and a streaming worker per stream of its websocket,
    which put envelopes on one bounded queue; the consumer takes them off.  A worker is its
    tasks to come and the actions of the task it is in; an action is what it does between
    two points where another task may run, and a schedule is a list of choices of who runs
    next.  What the sources yield is an argument, a function of the checkpoint they are
    given; a worker that is told to stop has no further tasks.  The monitor of resources
    and the timers are left out. *)

From Stdlib Require Import ZArith QArith NArith Lia.
From stdpp Require Import base tactics list strings.
From S2P Require Import Prelude Decimals Binary64 Evidence Venues Websocket Json PyText FundingCarry ShadowBook ShadowStore.
From S2P Require Import Certification ResearchStore Collector Snapshots Sources.

Local Open Scope string_scope.
Local Open Scope list_scope.

Definition queue_maxsize : nat := Z.to_nat 10000.

(** ** Tasks and actions *)

(** [asyncio.Event]s: a venue's workers exist, its first polling cycle is complete *)
Inductive Flag := Started (venue : string) | Backfilled (venue : string).
#[export] Instance flag_eq_dec : EqDecision Flag.
Proof. solve_decision. Defined.

Inductive Action :=
  | Put (e : CollectedEnvelope)
  | SetFlag (f : Flag)
  | SaveRules (rules : list InstrumentRuleSnapshot) (identity : ResearchStreamIdentity) (cycles : Z)
  | Report (identity : ResearchStreamIdentity) (x : exn) (retry : Z)
  | CountDisconnect
  | CountReconnect.

(** One connection of a streaming worker: the values with the clock and the life cycles
    drained before each, how the iteration ends, and whether the worker is then told to
    stop *)
Record Attempt := {
  at_values : list (Z * list WebSocketConnectionLifecycle * StreamedValue);
  at_error : option exn;
  at_shutdown : bool;
  at_connected_now : Z;
  at_failed_now : Z;
}.

Definition Fetch : Type := option CollectionCheckpoint -> result (list CollectedEnvelope).

Inductive Task :=
  | Announce (venue : string) (now : Z) (polled : bool)
  | Await (f : Flag)
  | LoadRules (identity : ResearchStreamIdentity) (loaded : result (list InstrumentRuleSnapshot)) (cycles : Z)
  | Poll (identity : ResearchStreamIdentity) (fetch : Fetch) (cycles : Z)
  | EndCycle (venue : string)
  | Connect (adapter : string) (identity : ResearchStreamIdentity) (attempt : Attempt).

Record Worker := {
  wk_tasks : list Task;
  wk_pending : list Action;
  wk_retry : Z;
  wk_received : Z;
}.

Record Collecting := {
  cl_consumer : Consumer;
  cl_queue : list CollectedEnvelope;
  cl_flags : list Flag;
  cl_workers : list Worker;
  cl_put : list CollectedEnvelope;
  cl_taken : list CollectedEnvelope;
}.

Section Run.
Context {D : Digest}.
Variable gate : CapabilityGate.
Variable namespace : string.
Variable stale_after : Z.
Variable maximum : option Z.

(** ** The workers *)

(** The envelopes of one connection, and how it ends *)
Fixpoint stream_envelopes (adapter : string) (identity : ResearchStreamIdentity)
    (checkpoint : option CollectionCheckpoint) (values : list (Z * list WebSocketConnectionLifecycle * StreamedValue))
    (error : option exn) : list CollectedEnvelope * option exn :=
  match values with
  | [] => ([], error)
  | (now, drained, v) :: values =>
      match websocket_item adapter identity checkpoint now drained v with
      | (es, Some x) => (es, Some x)
      | (es, None) =>
          let '(rest, x) := stream_envelopes adapter identity checkpoint values error in (es ++ rest, x)
      end
  end.

Definition reached (received : Z) : bool :=
  match maximum with Some m => (m <=? received)%Z | None => false end.

(** The loop over the events of a connection: what is put, how many were received, and
    whether the worker returns *)
Fixpoint put_events (identity : ResearchStreamIdentity) (retry now : Z) (connected : bool) (received : Z)
    (events : list CollectedEnvelope) : list Action * Z * bool :=
  match events with
  | [] => ([], received, false)
  | e :: events =>
      let puts := Put e :: (if connected then []
                            else [Put (control_event identity "venue_health" "connected" retry now)]) in
      if reached (received + 1) then (puts, (received + 1)%Z, true)
      else let '(rest, received, returned) := put_events identity retry now true (received + 1) events in
           (puts ++ rest, received, returned)
  end.

Definition failure_type (x : exn) : string :=
  if bool_decide (exn_name x = "TimeoutError") then "stale_stream" else "websocket_disconnect".

(** [WebSocketStreamingWorker.run], one turn of the loop *)
Definition connect (adapter : string) (identity : ResearchStreamIdentity) (a : Attempt)
    (checkpoint : option CollectionCheckpoint) (w : Worker) (tasks : list Task) : Worker :=
  let '(events, error) := stream_envelopes adapter identity checkpoint (at_values a) (at_error a) in
  let '(puts, received, returned) :=
    put_events identity (wk_retry w) (at_connected_now a) false (wk_received w) events in
  let finish pending tasks retry :=
    {| wk_tasks := tasks; wk_pending := pending; wk_retry := retry; wk_received := received |} in
  let retry := (wk_retry w + 1)%Z in
  let next := if at_shutdown a then [] else tasks in
  if returned then finish puts [] (wk_retry w)
  else
    match error with
    | None =>
        if at_shutdown a || bool_decide (is_Some maximum) then finish puts [] (wk_retry w)
        else finish (puts ++ [CountReconnect]) next retry
    | Some x =>
        finish (puts ++ [CountDisconnect; Report identity x retry;
                         Put (control_event identity (failure_type x) (exn_name x) retry (at_failed_now a));
                         CountReconnect]) next retry
    end.

(** [min(1.0, retry / 10)]: how long the worker then sleeps, in seconds *)
Definition backoff_seconds (retry : Z) : Q := dmin 1 (fl (inject_Z retry / 10)).

(** A worker takes its next task; a flag that is not set keeps it waiting *)
Definition take (s : Collecting) (w : Worker) : option Worker :=
  let continue pending tasks :=
    Some {| wk_tasks := tasks; wk_pending := pending; wk_retry := wk_retry w; wk_received := wk_received w |} in
  let checkpoint identity :=
    get_checkpoint (co_store (cl_consumer s)) namespace (si_venue identity) (stream_key_of identity) in
  match wk_tasks w with
  | [] => None
  | Announce venue now polled :: tasks =>
      continue (Put (health_envelope venue now) :: SetFlag (Started venue) ::
                (if polled then [] else [SetFlag (Backfilled venue)])) tasks
  | Await f :: tasks => if bool_decide (f ∈ cl_flags s) then continue [] tasks else None
  | LoadRules identity loaded cycles :: tasks =>
      continue [match loaded with
                | Ok rules => SaveRules rules identity cycles
                | Err x => Report identity x cycles
                end] tasks
  | Poll identity fetch cycles :: tasks =>
      continue (match fetch (checkpoint identity) with
                | Ok es => map Put es
                | Err x => [Report identity x cycles]
                end) tasks
  | EndCycle venue :: tasks => continue [SetFlag (Backfilled venue)] tasks
  | Connect adapter identity a :: tasks => Some (connect adapter identity a (checkpoint identity) w tasks)
  end.

(** ** Steps *)

Definition set_worker (i : nat) (w : Worker) (s : Collecting) : Collecting := {|
  cl_consumer := cl_consumer s; cl_queue := cl_queue s; cl_flags := cl_flags s;
  cl_workers := <[i := w]> (cl_workers s); cl_put := cl_put s; cl_taken := cl_taken s |}.
Definition set_consumer (c : Consumer) (s : Collecting) : Collecting := {|
  cl_consumer := c; cl_queue := cl_queue s; cl_flags := cl_flags s; cl_workers := cl_workers s;
  cl_put := cl_put s; cl_taken := cl_taken s |}.

Definition save_rules (rules : list InstrumentRuleSnapshot) : M Consumer unit :=
  pfor rules (fun rule => on_store (save_instrument_rule rule)).

(** What an action does: [put] waits while the queue is full *)
Definition act (r : Readings) (a : Action) (s : Collecting) : option Collecting :=
  let on (m : M Consumer unit) := Some (set_consumer (m (cl_consumer s)).1 s) in
  match a with
  | Put e =>
      if (length (cl_queue s) <? queue_maxsize)%nat
      then Some {| cl_consumer := cl_consumer s; cl_queue := cl_queue s ++ [e]; cl_flags := cl_flags s;
                   cl_workers := cl_workers s; cl_put := cl_put s ++ [e]; cl_taken := cl_taken s |}
      else None
  | SetFlag f =>
      Some {| cl_consumer := cl_consumer s; cl_queue := cl_queue s; cl_flags := f :: cl_flags s;
              cl_workers := cl_workers s; cl_put := cl_put s; cl_taken := cl_taken s |}
  | SaveRules rules identity cycles =>
      on (ptry (save_rules rules) (fun x => persist_failure r identity x cycles))
  | Report identity x retry => on (persist_failure r identity x retry)
  | CountDisconnect => on (on_metrics (fun m => set_hm_disconnect_count (hm_disconnect_count m + 1)%Z m))
  | CountReconnect => on (on_metrics (fun m => set_hm_reconnect_count (hm_reconnect_count m + 1)%Z m))
  end.

Definition pending_done (w : Worker) (rest : list Action) : Worker := {|
  wk_tasks := wk_tasks w; wk_pending := rest; wk_retry := wk_retry w; wk_received := wk_received w |}.

(** The consumer handles an envelope, or worker [i] goes on *)
Inductive Choice := Consume (r : Readings) | Work (i : nat) (r : Readings).

Definition collect_step (c : Choice) (s : Collecting) : option Collecting :=
  match c with
  | Consume r =>
      match cl_queue s with
      | e :: queue =>
          Some {| cl_consumer := (consume gate namespace stale_after r e (cl_consumer s)).1; cl_queue := queue;
                  cl_flags := cl_flags s; cl_workers := cl_workers s; cl_put := cl_put s;
                  cl_taken := cl_taken s ++ [e] |}
      | [] => None
      end
  | Work i r =>
      match cl_workers s !! i with
      | Some w =>
          match wk_pending w with
          | a :: rest => option_map (set_worker i (pending_done w rest)) (act r a s)
          | [] => option_map (fun w' => set_worker i w' s) (take s w)
          end
      | None => None
      end
  end.

Fixpoint run_schedule (schedule : list Choice) (s : Collecting) : option Collecting :=
  match schedule with
  | [] => Some s
  | c :: schedule => match collect_step c s with Some s' => run_schedule schedule s' | None => None end
  end.

(** ** The start *)

(** What a source will do: the polling cycles it completes, and the connections of each
    of its streams *)
Record Cycle := {
  cy_rules : result (list InstrumentRuleSnapshot);
  cy_fetch : ResearchStreamIdentity -> Fetch;
}.
Record SourcePlan := {
  pl_venue : string;
  pl_adapter : string;
  pl_now : Z;
  pl_cycles : list Cycle;
  pl_attempts : ResearchStreamIdentity -> list Attempt;
}.

Definition new_worker (tasks : list Task) : Worker := {|
  wk_tasks := tasks; wk_pending := []; wk_retry := 0; wk_received := 0 |}.

(** [RestPollingWorker.run] *)
Definition cycle_tasks (venue : string) (first : ResearchStreamIdentity) (rest : list ResearchStreamIdentity)
    (n : Z) (cycle : Cycle) : list Task :=
  LoadRules first (cy_rules cycle) n ::
  map (fun identity => Poll identity (cy_fetch cycle identity) n) (first :: rest) ++ [EndCycle venue].
Fixpoint cycles_from (venue : string) (first : ResearchStreamIdentity) (rest : list ResearchStreamIdentity)
    (n : Z) (cycles : list Cycle) : list Task :=
  match cycles with
  | [] => []
  | cycle :: cycles =>
      cycle_tasks venue first rest n cycle ++
      (if reached (n + 1) then [] else cycles_from venue first rest (n + 1) cycles)
  end.

Definition source_workers (plan : SourcePlan) (streams : list ResearchStreamIdentity * list ResearchStreamIdentity)
  : list Worker :=
  let venue := pl_venue plan in
  match streams.1 with
  | [] => []
  | first :: rest => [new_worker (Await (Started venue) :: cycles_from venue first rest 0 (pl_cycles plan))]
  end ++
  map (fun identity => new_worker (Await (Started venue) :: Await (Backfilled venue) ::
                                   map (Connect (pl_adapter plan) identity) (pl_attempts plan identity))) streams.2.

Definition planned_streams (instruments event_types : list string) (plan : SourcePlan) :=
  identities (pl_venue plan) instruments event_types.

(** [__init__] and the start of [run] *)
Definition start_collector (enabled : bool) (instruments event_types : list string) (plans : list SourcePlan)
    (consumer : Consumer) : result Collecting :=
  require! forallb (fun item => bool_decide (item ∈ SUPPORTED_INSTRUMENTS)) instruments
    else ValueError "collector instrument is outside the R2 allowlist";
  require! enabled else RuntimeError "research collection requires collection_enabled=true";
  let! announced := gather (fun plan =>
    let! streams := planned_streams instruments event_types plan in
    Ok [Announce (pl_venue plan) (pl_now plan) (negb (bool_decide (streams.1 = [])))]) plans in
  let! workers := gather (fun plan =>
    let! streams := planned_streams instruments event_types plan in Ok (source_workers plan streams)) plans in
  Ok {| cl_consumer := consumer; cl_queue := []; cl_flags := []; cl_workers := new_worker announced :: workers;
        cl_put := []; cl_taken := [] |}.

(** [result] *)
Record CollectorResult := {
  cr_production_counts : list (string * Z);
  cr_experimental_counts : list (string * Z);
  cr_quarantine_count : Z;
}.
Definition collector_result (m : CollectorHealthMetrics) : CollectorResult := {|
  cr_production_counts := hm_production_by_venue m; cr_experimental_counts := hm_experimental_by_venue m;
  cr_quarantine_count := hm_quarantine_count m |}.

End Run.
