(* ===== verification/CollectingSafety.v ===== *)
(** * The running collector is sound, loses nothing and ends

    Every interleaving of the workers and the consumer: the queue is first in, first out
    and bounded, the store stays sound whoever runs, no schedule is infinite, and the only
    states in which nobody can go on are those where every worker is done and every
    envelope that was put has been taken. *)

From Stdlib Require Import ZArith QArith NArith Lia Wellfounded Relation_Operators.
From stdpp Require Import base tactics list strings sets well_founded.
From S2P Require Import Prelude Decimals Binary64 Evidence Venues Websocket Json PyText FundingCarry ShadowBook ShadowStore.
From S2P Require Import Certification CertificationSafety ResearchStore Collector Snapshots Sources CollectorSafety Collecting.

Local Open Scope string_scope.
Local Open Scope list_scope.

Section Collecting.
Context {D : Digest} (gate : CapabilityGate) (namespace : string) (stale_after : Z) (maximum : option Z).

Notation step := (collect_step gate namespace stale_after maximum).
Notation run := (run_schedule gate namespace stale_after maximum).

(** ** Invariants along a schedule *)

Lemma run_invariant (P : Collecting -> Prop) :
  (forall c s s', P s -> step c s = Some s' -> P s') ->
  forall schedule s s', P s -> run schedule s = Some s' -> P s'.
Proof.
  intros Hstep schedule. induction schedule as [|c schedule IH]; intros s s' Hs; simpl; [by intros [= <-]|].
  destruct (step c s) as [s1|] eqn:E; [|done]. eauto.
Qed.

(** What a step of worker [i] does: an action, or the start of a task *)
Lemma work_step i r s s' :
  step (Work i r) s = Some s' ->
  exists w, cl_workers s !! i = Some w /\
    ((exists a rest s1, wk_pending w = a :: rest /\ act r a s = Some s1 /\ s' = set_worker i (pending_done w rest) s1) \/
     (wk_pending w = [] /\ exists w', take namespace maximum s w = Some w' /\ s' = set_worker i w' s)).
Proof.
  simpl. destruct (cl_workers s !! i) as [w|]; [|done]. intros H. exists w. split; [done|].
  destruct (wk_pending w) as [|a rest] eqn:Ep.
  - right. split; [done|]. destruct (take namespace maximum s w) as [w'|]; [|done]. injection H as <-. eauto.
  - left. destruct (act r a s) as [s1|] eqn:Ea; [|done]. injection H as <-. exists a, rest, s1. done.
Qed.

Lemma act_workers r a s s1 : act r a s = Some s1 -> cl_workers s1 = cl_workers s.
Proof. destruct a; simpl; try case_match; by intros [= <-]. Qed.

Lemma act_flags r a s s1 : act r a s = Some s1 -> cl_flags s1 = match a with SetFlag f => f :: cl_flags s | _ => cl_flags s end.
Proof. destruct a; simpl; try case_match; by intros [= <-]. Qed.

(** ** The queue *)

(** What was put is what was taken, then what is in the queue, which is bounded. *)
Definition fifo (s : Collecting) : Prop :=
  cl_put s = cl_taken s ++ cl_queue s /\ length (cl_queue s) <= queue_maxsize.

Lemma fifo_step c s s' : fifo s -> step c s = Some s' -> fifo s'.
Proof.
  intros [Hput Hlen]. destruct c as [r|i r].
  - simpl. destruct (cl_queue s) as [|e queue] eqn:Eq; [done|]. intros [= <-]. split; simpl.
    + by rewrite Hput, <- app_assoc.
    + simpl in Hlen. lia.
  - intros (w & _ & [(a & rest & s1 & _ & Ha & ->)|(_ & w' & _ & ->)])%work_step; [|done].
    destruct a; simpl in Ha; try (case_match; [|done]); injection Ha as <-; split; simpl; try done.
    + by rewrite Hput, app_assoc.
    + rewrite length_app. simpl. apply Nat.ltb_lt in H. lia.
Qed.

(** ** The store *)

Definition kept (s s' : Consumer) : Prop :=
  consumed s s' /\ (store_sound (co_store s) -> store_sound (co_store s')).
#[local] Instance kept_preorder : PreOrder kept.
Proof.
  split; [intros s; split; [reflexivity|done]|].
  intros a b c [H1 H2] [H3 H4]. split; [by etransitivity|auto].
Qed.

Lemma kept_consume r e : steps kept (consume gate namespace stale_after r e).
Proof. intros s. split; [apply steps_consume|apply sound_consume]. Qed.

(** The store changes outside of its events. *)
Lemma kept_on_store {A} (m : M ResearchStore A) :
  (forall s, rs_snapshot_manifests (m s).1 = rs_snapshot_manifests s /\ rs_events (m s).1 = rs_events s /\
             rs_experimental_events (m s).1 = rs_experimental_events s /\
             rs_quarantined (m s).1 = rs_quarantined s /\ rs_raw_payloads (m s).1 = rs_raw_payloads s) ->
  steps kept (on_store m).
Proof.
  intros Hm s. split.
  - apply steps_on_store; intros s0; destruct (Hm s0) as (H1 & H2 & H3 & H4 & H5);
      [by apply same_lists_extend|]. split_and!; try done. intros h p. by rewrite H5.
  - unfold on_store, pzoom. destruct (Hm (co_store s)) as (_ & H2 & _ & H4 & _).
    destruct (m (co_store s)) as [s' x]. simpl in *. apply sound_same_events; [done|].
    exists []. by rewrite H4, app_nil_r.
Qed.

Lemma kept_metrics f :
  (forall m, hm_production_count (f m) = hm_production_count m /\
             hm_experimental_count (f m) = hm_experimental_count m /\
             hm_quarantine_count (f m) = hm_quarantine_count m) -> steps kept (on_metrics f).
Proof. intros Hf s. split; [by apply steps_on_metrics|done]. Qed.

Lemma kept_failure r identity x retry : steps kept (persist_failure r identity x retry).
Proof. by apply kept_on_store. Qed.

Lemma kept_save_rules rules : steps kept (save_rules rules).
Proof.
  apply steps_for; [apply _|intros rule]. apply kept_on_store. intros s. unfold save_instrument_rule.
  by repeat case_match.
Qed.

Lemma kept_act r a s s1 : act r a s = Some s1 -> kept (cl_consumer s) (cl_consumer s1).
Proof.
  destruct a; simpl; try case_match; intros [= <-]; simpl; try reflexivity.
  - eapply (steps_try kept); [apply kept_save_rules|intros x; apply kept_failure].
  - apply kept_failure.
  - by apply kept_metrics.
  - by apply kept_metrics.
Qed.

Lemma kept_step c s s' : step c s = Some s' -> kept (cl_consumer s) (cl_consumer s').
Proof.
  destruct c as [r|i r].
  - simpl. destruct (cl_queue s); [done|]. intros [= <-]. apply kept_consume.
  - intros (w & _ & [(a & rest & s1 & _ & Ha & ->)|(_ & w' & _ & ->)])%work_step; [|reflexivity].
    simpl. by eapply kept_act.
Qed.

(** ** Termination *)

Definition tasks_left (s : Collecting) : nat := sum_list_with (fun w => length (wk_tasks w)) (cl_workers s).
Definition work_left (s : Collecting) : nat :=
  2 * sum_list_with (fun w => length (wk_pending w)) (cl_workers s) + length (cl_queue s).

Lemma sum_list_with_insert {A} (f : A -> nat) xs i x y :
  xs !! i = Some x -> sum_list_with f (<[i := y]> xs) + f x = sum_list_with f xs + f y.
Proof.
  revert i. induction xs as [|z xs IH]; intros [|i]; simpl; [done|done|intros [= ->]; lia|].
  intros H. specialize (IH i H). lia.
Qed.

Lemma take_shorter s w w' : take namespace maximum s w = Some w' -> length (wk_tasks w') < length (wk_tasks w).
Proof.
  unfold take. destruct (wk_tasks w) as [|[] tasks]; simpl; [done|..]; try case_match; try done;
    intros [= <-]; simpl; try lia.
  unfold connect. destruct (stream_envelopes _ _ _ _ _) as [events error].
  destruct (put_events _ _ _ _ _ _ _) as [[puts received] []]; simpl; [lia|].
  destruct error, (at_shutdown attempt); simpl; try (case_match); simpl; lia.
Qed.

Definition smaller (s' s : Collecting) : Prop :=
  tasks_left s' < tasks_left s \/ tasks_left s' = tasks_left s /\ work_left s' < work_left s.

Lemma smaller_wf : well_founded smaller.
Proof.
  apply (wf_projected (slexprod nat nat lt lt) (fun s => (tasks_left s, work_left s)));
    [|apply wf_slexprod; apply lt_wf].
  intros s' s [H|[H1 H2]]; [by left|rewrite H1; by right].
Qed.

Lemma step_smaller c s s' : step c s = Some s' -> smaller s' s.
Proof.
  destruct c as [r|i r].
  - simpl. destruct (cl_queue s) as [|e queue] eqn:Eq; [done|]. intros [= <-]. right.
    unfold tasks_left, work_left. simpl. rewrite Eq. simpl. lia.
  - intros (w & Hw & [(a & rest & s1 & Hp & Ha & ->)|(_ & w' & Ht & ->)])%work_step.
    + right. unfold tasks_left, work_left. simpl. rewrite (act_workers _ _ _ _ Ha).
      pose proof (sum_list_with_insert (fun w => length (wk_tasks w)) _ _ _ (pending_done w rest) Hw).
      pose proof (sum_list_with_insert (fun w => length (wk_pending w)) _ _ _ (pending_done w rest) Hw) as H2.
      cbv beta in H2. rewrite Hp in H2. simpl in *.
      assert (length (cl_queue s1) <= S (length (cl_queue s))) as H3; [|lia].
      destruct a; simpl in Ha; try case_match; simplify_eq/=; rewrite ?length_app; simpl; lia.
    + left. unfold tasks_left. simpl.
      pose proof (sum_list_with_insert (fun w => length (wk_tasks w)) _ _ _ w' Hw).
      pose proof (take_shorter s w w' Ht). simpl in *. lia.
Qed.

Lemma step_wf s : Acc (fun t u => exists c, step c u = Some t) s.
Proof.
  induction (smaller_wf s) as [s _ IH]. constructor. intros t [c Hc]. apply IH. by eapply step_smaller.
Qed.

(** ** Waiting *)

(** A task that will set a flag, and the tasks of a worker that others rely on for it: it
    may itself wait for an earlier flag only. *)
Definition gives (f : Flag) (t : Task) : Prop :=
  match t with
  | Announce venue _ polled => f = Started venue \/ polled = false /\ f = Backfilled venue
  | EndCycle venue => f = Backfilled venue
  | _ => False
  end.
Definition before (f : Flag) (t : Task) : Prop :=
  match t, f with
  | Await (Started _), Backfilled _ => True
  | Await _, _ | Connect _ _ _, _ => False
  | _, _ => True
  end.

Definition promises (f : Flag) (w : Worker) : Prop :=
  (SetFlag f ∈ wk_pending w \/ Exists (gives f) (wk_tasks w)) /\ Forall (before f) (wk_tasks w).

Definition served (s : Collecting) (f : Flag) : Prop :=
  f ∈ cl_flags s \/ exists i w, cl_workers s !! i = Some w /\ promises f w.
Definition all_served (s : Collecting) : Prop :=
  forall i w f, cl_workers s !! i = Some w -> Await f ∈ wk_tasks w -> served s f.

Lemma take_tasks s w w' t : take namespace maximum s w = Some w' -> t ∈ wk_tasks w' -> t ∈ wk_tasks w.
Proof.
  unfold take. destruct (wk_tasks w) as [|[] tasks]; simpl; [done|..]; try case_match; try done;
    intros [= <-]; simpl; try by apply list_elem_of_further.
  unfold connect. destruct (stream_envelopes _ _ _ _ _) as [events error].
  destruct (put_events _ _ _ _ _ _ _) as [[puts received] []]; simpl; [by intros ?%not_elem_of_nil|].
  destruct error, (at_shutdown attempt); simpl; try (case_match); simpl;
    try (by intros ?%not_elem_of_nil); by apply list_elem_of_further.
Qed.

(** A promise is kept: it is handed on, or fulfilled. *)
Lemma take_promises s w w' f :
  take namespace maximum s w = Some w' -> wk_pending w = [] -> promises f w -> promises f w'.
Proof.
  intros Ht Hp [[Hin|Hex] Hall]; [rewrite Hp in Hin; by apply not_elem_of_nil in Hin|].
  split; [|apply Forall_forall; intros t Hin; rewrite Forall_forall in Hall; apply Hall; by eapply take_tasks].
  unfold take in Ht. destruct (wk_tasks w) as [|t tasks]; [by inversion Hex|].
  apply Exists_cons in Hex. apply Forall_cons in Hall as [Hbefore _].
  destruct t as [venue now polled|f'|identity loaded n|identity fetch n|venue|adapter identity a]; simpl in *;
    try done; [| case_bool_decide; [|done] | | |]; injection Ht as <-; simpl; try (destruct Hex as [[]|Hex]; by right).
  - destruct Hex as [[->|[-> ->]]|Hex]; [left|left|by right]; simpl; set_solver.
  - destruct Hex as [->|Hex]; [left|by right]. set_solver.
Qed.

Lemma act_promises r a rest s s1 w f :
  wk_pending w = a :: rest -> act r a s = Some s1 -> promises f w ->
  f ∈ cl_flags s1 \/ promises f (pending_done w rest).
Proof.
  intros Hp Ha [[Hin|Hex] Hall]; [|right; split; [by right|done]].
  rewrite Hp in Hin. apply elem_of_cons in Hin as [<-|Hin]; [|right; split; [by left|done]].
  left. rewrite (act_flags _ _ _ _ Ha). by left.
Qed.

Lemma flags_mono c s s' f : step c s = Some s' -> f ∈ cl_flags s -> f ∈ cl_flags s'.
Proof.
  destruct c as [r|i r].
  - simpl. destruct (cl_queue s); [done|]. by intros [= <-].
  - intros (w & _ & [(a & rest & s1 & _ & Ha & ->)|(_ & w' & _ & ->)])%work_step Hf; [|done].
    simpl. rewrite (act_flags _ _ _ _ Ha). destruct a; set_solver.
Qed.

Lemma lookup_insert_worker {A} (xs : list A) i j x y :
  xs !! i = Some x -> <[i := y]> xs !! j = if decide (i = j) then Some y else xs !! j.
Proof.
  intros Hx. case_decide as Hij; [subst|by apply list_lookup_insert_ne].
  apply list_lookup_insert_eq. by eapply lookup_lt_Some.
Qed.

Lemma served_step c s s' f : step c s = Some s' -> served s f -> served s' f.
Proof.
  intros Hstep [Hf|(j & v & Hj & Hv)]; [left; by eapply flags_mono|].
  destruct c as [r|i r].
  - right. exists j, v. simpl in Hstep. destruct (cl_queue s); [done|]. injection Hstep as <-. done.
  - apply work_step in Hstep as (w & Hw & [(a & rest & s1 & Hp & Ha & ->)|(Hp & w' & Ht & ->)]);
      unfold served; simpl.
    + rewrite (act_workers _ _ _ _ Ha). destruct (decide (i = j)) as [->|Hij].
      * assert (v = w) as -> by congruence. destruct (act_promises r a rest s s1 w f Hp Ha Hv); [by left|right].
        exists j, (pending_done w rest). split; [|done]. rewrite (lookup_insert_worker _ _ _ _ _ Hw). by case_decide.
      * right. exists j, v. split; [|done]. rewrite (lookup_insert_worker _ _ _ _ _ Hw). by case_decide.
    + right. destruct (decide (i = j)) as [->|Hij].
      * assert (v = w) as -> by congruence. exists j, w'. split; [|by eapply take_promises].
        rewrite (lookup_insert_worker _ _ _ _ _ Hw). by case_decide.
      * exists j, v. split; [|done]. rewrite (lookup_insert_worker _ _ _ _ _ Hw). by case_decide.
Qed.

Lemma all_served_step c s s' : all_served s -> step c s = Some s' -> all_served s'.
Proof.
  intros Hall Hstep j v f Hj Hin. apply (served_step c s); [done|]. destruct c as [r|i r].
  - simpl in Hstep. destruct (cl_queue s); [done|]. injection Hstep as <-. by eapply Hall.
  - apply work_step in Hstep as (w & Hw & [(a & rest & s1 & Hp & Ha & ->)|(Hp & w' & Ht & ->)]); simpl in Hj.
    + rewrite (act_workers _ _ _ _ Ha), (lookup_insert_worker _ _ _ _ _ Hw) in Hj.
      case_decide; simplify_eq/=; by eapply Hall.
    + rewrite (lookup_insert_worker _ _ _ _ _ Hw) in Hj. case_decide; simplify_eq/=; [|by eapply Hall].
      eapply Hall; [done|]. by eapply take_tasks.
Qed.

(** ** Where nobody can go on *)

Definition stuck (s : Collecting) : Prop := forall c, step c s = None.
Definition finished (s : Collecting) : Prop :=
  cl_queue s = [] /\ Forall (fun w => wk_tasks w = [] /\ wk_pending w = []) (cl_workers s).

Definition some_readings : Readings := {|
  rd_uuid := ""; rd_endpoint := ""; rd_error_message := ""; rd_lag_now := 0; rd_stale_now := 0; rd_failed_at := 0;
  rd_elapsed := 0%Q; rd_queue_depth := 0; rd_rss := 0; rd_tasks := 0 |}.

Lemma stuck_queue s : stuck s -> cl_queue s = [].
Proof. intros Hs. specialize (Hs (Consume some_readings)). simpl in Hs. by destruct (cl_queue s). Qed.

(** A worker that cannot go on is done, or waits for a flag. *)
Lemma stuck_worker s i w :
  stuck s -> cl_workers s !! i = Some w ->
  wk_pending w = [] /\ (wk_tasks w = [] \/ exists f tasks, wk_tasks w = Await f :: tasks /\ f ∉ cl_flags s).
Proof.
  intros Hs Hw. pose proof (stuck_queue s Hs) as Hq. specialize (Hs (Work i some_readings)). simpl in Hs.
  rewrite Hw in Hs. destruct (wk_pending w) as [|a rest] eqn:Ep.
  - split; [done|]. destruct (take namespace maximum s w) as [w'|] eqn:Et; [done|]. unfold take in Et.
    destruct (wk_tasks w) as [|[] tasks]; [by left|..]; try done. right. case_bool_decide; [done|]. eauto.
  - assert (is_Some (act some_readings a s)) as [s1 Ha]; [|by rewrite Ha in Hs].
    destruct a; simpl; try done. rewrite Hq. by eexists.
Qed.

Lemma stuck_promise s i w f :
  stuck s -> cl_workers s !! i = Some w -> promises f w ->
  exists v tasks, f = Backfilled v /\ exists v', wk_tasks w = Await (Started v') :: tasks /\ Started v' ∉ cl_flags s.
Proof.
  intros Hs Hw [Hgives Hbefore]. destruct (stuck_worker s i w Hs Hw) as [Hp [Ht|(f' & tasks & Ht & Hf')]].
  - destruct Hgives as [Hin|Hex]; [rewrite Hp in Hin; by apply not_elem_of_nil in Hin|].
    rewrite Ht in Hex. by inversion Hex.
  - rewrite Ht in Hbefore. apply Forall_cons in Hbefore as [Hb _].
    destruct f' as [v'|v'], f as [v|v]; simpl in Hb; try done. eauto 6.
Qed.

Lemma stuck_finished s : all_served s -> stuck s -> finished s.
Proof.
  intros Hall Hs. split; [by apply stuck_queue|]. apply Forall_lookup. intros i w Hw.
  destruct (stuck_worker s i w Hs Hw) as [Hp [Ht|(f & tasks & Ht & Hf)]]; [done|]. exfalso.
  assert (forall j v x rest, cl_workers s !! j = Some v -> wk_tasks v = Await (Started x) :: rest ->
            Started x ∉ cl_flags s -> False) as Hstarted.
  { intros j v x rest Hj Hv Hx. destruct (Hall j v (Started x) Hj) as [?|(k & u & Hk & Hu)];
      [rewrite Hv; by left|done|].
    by destruct (stuck_promise s k u _ Hs Hk Hu) as (? & ? & ? & _). }
  destruct f as [x|x]; [by eapply Hstarted|].
  destruct (Hall i w (Backfilled x) Hw) as [?|(k & u & Hk & Hu)]; [rewrite Ht; by left|done|].
  destruct (stuck_promise s k u _ Hs Hk Hu) as (? & rest & _ & x' & Hu' & Hx'). by eapply Hstarted.
Qed.

(** ** The start *)

Lemma cycles_end venue first rest n cycles :
  cycles <> [] -> EndCycle venue ∈ cycles_from maximum venue first rest n cycles.
Proof. destruct cycles as [|cycle cycles]; [done|]. intros _. simpl. set_solver. Qed.

Lemma cycles_before venue first rest n cycles v :
  Forall (before (Backfilled v)) (cycles_from maximum venue first rest n cycles).
Proof.
  revert n. induction cycles as [|cycle cycles IH]; intros n; simpl; [done|].
  constructor; [done|]. constructor; [done|]. rewrite !Forall_app. split_and!.
  - apply Forall_fmap. by apply Forall_true.
  - by repeat constructor.
  - case_match; [done|apply IH].
Qed.

Lemma cycles_no_await venue first rest n cycles f : Await f ∉ cycles_from maximum venue first rest n cycles.
Proof.
  revert n. induction cycles as [|cycle cycles IH]; intros n; simpl; [by apply not_elem_of_nil|].
  rewrite !elem_of_cons, !elem_of_app, list_elem_of_fmap, list_elem_of_singleton.
  intros [?|[?|[[(x & ? & _)|?]|Hin]]]; try done. case_match; [by apply not_elem_of_nil in Hin|by eapply IH].
Qed.

(** Every source that is polled completes a cycle. *)
Definition plans_poll (plans : list SourcePlan) : Prop := Forall (fun plan => pl_cycles plan <> []) plans.

Lemma start_collector_ok enabled instruments event_types plans consumer s :
  start_collector maximum enabled instruments event_types plans consumer = Ok s ->
  cl_consumer s = consumer /\ cl_queue s = [] /\ cl_put s = [] /\ cl_taken s = [] /\
  exists announced workers, cl_workers s = new_worker announced :: workers /\
    gather (fun plan =>
      let! streams := planned_streams instruments event_types plan in
      Ok [Announce (pl_venue plan) (pl_now plan) (negb (bool_decide (streams.1 = [])))]) plans = Ok announced /\
    gather (fun plan =>
      let! streams := planned_streams instruments event_types plan in
      Ok (source_workers maximum plan streams)) plans = Ok workers.
Proof.
  unfold start_collector. destruct (forallb _ instruments); [|done]. destruct enabled; [|done].
  intros (announced & Ha & (workers & Hw & [= <-])%rbind_ok)%rbind_ok. simpl. split_and!; try done. eauto.
Qed.

Lemma source_workers_served plan streams w f :
  w ∈ source_workers maximum plan streams -> Await f ∈ wk_tasks w ->
  f = Started (pl_venue plan) \/ f = Backfilled (pl_venue plan).
Proof.
  unfold source_workers. rewrite elem_of_app, list_elem_of_fmap. intros [Hw|(identity & -> & _)]; simpl.
  - destruct streams.1 as [|first rest]; [by apply not_elem_of_nil in Hw|].
    apply list_elem_of_singleton in Hw as ->. simpl. intros [[= ->]|Hin]%elem_of_cons; [by left|].
    by apply cycles_no_await in Hin.
  - rewrite !elem_of_cons, list_elem_of_fmap. intros [[= ->]|[[= ->]|(a & ? & _)]]; [by left|by right|done].
Qed.

Lemma source_workers_backfill plan streams first rest :
  pl_cycles plan <> [] -> streams.1 = first :: rest ->
  exists w, w ∈ source_workers maximum plan streams /\ promises (Backfilled (pl_venue plan)) w.
Proof.
  intros Hc Hs. unfold source_workers. rewrite Hs. eexists. split; [apply elem_of_app; left; by left|].
  split; simpl; [right|].
  - apply Exists_cons. right. apply Exists_exists. exists (EndCycle (pl_venue plan)). split; [by apply cycles_end|done].
  - constructor; [done|]. apply cycles_before.
Qed.

Lemma announced_promises announced venue now polled f :
  Forall (fun t => exists v n p, t = Announce v n p) announced -> Announce venue now polled ∈ announced ->
  gives f (Announce venue now polled) -> promises f (new_worker announced).
Proof.
  intros Hall Hin Hg. split; simpl; [right; apply Exists_exists; eauto|].
  eapply Forall_impl; [exact Hall|]. by intros t (v & n & p & ->).
Qed.

Lemma start_served enabled instruments event_types plans consumer s :
  plans_poll plans -> start_collector maximum enabled instruments event_types plans consumer = Ok s -> all_served s.
Proof.
  intros Hplans (_ & _ & _ & _ & announced & workers & Hws & Ha & Hw)%start_collector_ok.
  assert (Forall (fun t => exists v n p, t = Announce v n p) announced) as Hall.
  { apply Forall_forall. intros t (plan & ts & _ & Hts & Hin)%(gather_elem_of _ _ _ Ha).
    apply rbind_ok in Hts as (streams & _ & [= <-]). apply list_elem_of_singleton in Hin as ->. eauto. }
  intros i w f Hi Hf. rewrite Hws in Hi. destruct i as [|i]; simpl in Hi.
  { injection Hi as <-. simpl in Hf. rewrite Forall_forall in Hall. by destruct (Hall _ Hf) as (? & ? & ? & ?). }
  apply list_elem_of_lookup_2 in Hi.
  apply (gather_elem_of _ _ _ Hw) in Hi as (plan & ws & Hplan & Hok & Hin).
  apply rbind_ok in Hok as (streams & Hstreams & [= <-]).
  assert (Announce (pl_venue plan) (pl_now plan) (negb (bool_decide (streams.1 = []))) ∈ announced) as Hann.
  { apply (gather_elem_of _ _ _ Ha). exists plan. eexists. split; [done|]. rewrite Hstreams. split; [done|by left]. }
  right. pose proof (announced_promises _ _ _ _ f Hall Hann) as Hmain. simpl in Hmain.
  destruct (source_workers_served plan streams w f Hin Hf) as [->| ->].
  { exists 0, (new_worker announced). rewrite Hws. split; [done|]. apply Hmain. by left. }
  destruct streams.1 as [|first rest] eqn:Es.
  { exists 0, (new_worker announced). rewrite Hws. split; [done|]. apply Hmain. by right. }
  unfold plans_poll in Hplans. rewrite Forall_forall in Hplans.
  destruct (source_workers_backfill plan streams first rest (Hplans _ Hplan) Es) as (w' & Hw' & Hp').
  assert (w' ∈ workers) as [j Hj]%list_elem_of_lookup_1.
  { apply (gather_elem_of _ _ _ Hw). exists plan. eexists. split; [done|]. rewrite Hstreams. by split. }
  exists (S j), w'. by rewrite Hws.
Qed.

(** C28: whoever runs when, the collector keeps the envelopes in order and takes each once:
    what was put is what was taken followed by what is in the queue, which never holds
    more than its maximum; and the store it leaves is sound, its counters are the sizes of
    the store, and nothing that was stored is lost. *)
Theorem collecting_sound enabled instruments event_types plans schedule later s0 s s' :
  let fresh := {| co_store := empty_store; co_metrics := new_metrics |} in
  start_collector maximum enabled instruments event_types plans fresh = Ok s0 ->
  run schedule s0 = Some s -> run later s = Some s' ->
  fifo s /\ store_sound (co_store (cl_consumer s)) /\
  hm_production_count (co_metrics (cl_consumer s)) = size (rs_events (co_store (cl_consumer s))) /\
  hm_experimental_count (co_metrics (cl_consumer s)) = size (rs_experimental_events (co_store (cl_consumer s))) /\
  hm_quarantine_count (co_metrics (cl_consumer s)) = size (rs_quarantined (co_store (cl_consumer s))) /\
  store_extends (co_store (cl_consumer s)) (co_store (cl_consumer s')).
Proof.
  intros fresh (Hc & Hq & Hp & Ht & _)%start_collector_ok Hrun Hlater.
  assert (fifo s) as Hfifo.
  { eapply (run_invariant fifo); [|split; [|]|exact Hrun]; [intros; by eapply fifo_step|..].
    - by rewrite Hq, Hp, Ht.
    - rewrite Hq. simpl. lia. }
  assert (forall t u sched, run sched t = Some u -> kept (cl_consumer t) (cl_consumer u)) as Hkept.
  { intros t u sched Hu. eapply (run_invariant (fun x => kept (cl_consumer t) (cl_consumer x))); [|reflexivity|exact Hu].
    intros c x x' Hx Hstep. etransitivity; [exact Hx|by eapply kept_step]. }
  destruct (Hkept _ _ _ Hrun) as [[_ _ _ H1 H2 H3] H4]. rewrite Hc in *.
  split_and!; try done; try (unfold size in *; simpl in *; lia).
  - apply H4. split; [apply NoDup_nil_2|done].
  - apply (Hkept _ _ _ Hlater).
Qed.


End Collecting.
