(* ===== verification/ResearchSample.v ===== *)
(** * A sample of collected market data

    An order book and a current funding rate of one venue, collected, finalized and read:
    the theorems on the collector, the snapshots and the datasets applied to it, and what
    the code does in the cases its authors did not mean. *)

From Stdlib Require Import ZArith QArith NArith Lia.
From stdpp Require Import base tactics list strings.
From S2P Require Import Prelude Decimals Binary64 Evidence Venues Websocket Json PyText FundingCarry ShadowBook ShadowStore.
From S2P Require Import Certification ResearchStore Collector Snapshots Dataset Sources SourceSafety.
From S2P Require Import CollectorSafety SnapshotSafety Collecting CollectingSafety.

Local Open Scope string_scope.
Local Open Scope list_scope.

Module ResearchSample.

#[local] Existing Instance default_context.

Fixpoint repeat_char (n : nat) : string := match n with O => EmptyString | S n => "0" +:+ repeat_char n end.
(** The end of a text stands for its digest. *)
Definition tail64 (s : string) : string := String.substring (String.length s) 64 (repeat_char 64 +:+ s).
#[local] Instance tail_digest : Digest := {|
  sha256_hex := tail64; hmac_hex := fun _ x => x;
  json_signal := fun _ => "s"; json_leg := fun _ _ _ => "l"; json_cross := fun _ _ _ => "c" |}.

Definition t0 : Z := 1700000000000000.
Definition second : Z := 1000000.

Definition live_gate : CapabilityGate := fun _ _ _ _ =>
  {| cd_support := LIVE_VERIFIED; cd_verification_run_id := "cert-1" |}.
Notation fresh := fresh_research.
Definition collect (items : list (Readings * CollectedEnvelope)) (s : Consumer) : Consumer :=
  consume_all live_gate "production" (120 * second) items s.
Definition here (e : CollectedEnvelope) : Readings * CollectedEnvelope := (some_readings, e).

Definition book_identity : ResearchStreamIdentity := {|
  si_venue := "bitget"; si_canonical_instrument_id := "BTC"; si_venue_symbol := "BTCUSDT";
  si_event_type := "orderbook"; si_channel := "orderbook" |}.

(** The value of a session whose book is synchronized *)
Definition book_value (n previous : Z) (state : ReconciliationState) (at_ : Z) : StreamedValue := {|
  sv_json := JObject [(text "n", JInt n)]; sv_source_raw_payload := None; sv_source_payload_sha256 := None;
  sv_exchange_timestamp := None; sv_received_at := Some at_; sv_available_at := Some at_; sv_sequence := Some n;
  sv_trade_id := None; sv_timeframe := None; sv_reconciliation_state := Some state;
  sv_snapshot_sequence := Some 10%Z; sv_previous_delta_sequence := Some previous;
  sv_stream_semantics := Some SNAPSHOT_AND_DELTA; sv_connection_id := Some "c1"; sv_connection_epoch := Some 1%Z;
  sv_bootstrap_completed := true; sv_recovery_started_at := None; sv_recovery_completed_at := None;
  sv_last_recovery_failure := None |}.

Definition no_envelope : CollectedEnvelope := health_envelope "bitget" t0.
Definition book (n previous : Z) (state : ReconciliationState) (at_ : Z) : CollectedEnvelope :=
  let v := book_value n previous state at_ in
  match envelope "Adapter" [] at_ book_identity v (websocket_arguments "orderbook_delta" 1 v) with
  | Ok e => e
  | Err _ => no_envelope
  end.

Definition book_key : string * string := ("bitget", "bitget:orderbook:BTCUSDT:orderbook").

Definition recovery_of (s : Consumer) (key : string) : option bool :=
  option_map ck_recovery_required (get_checkpoint (co_store s) "production" "bitget" key).

(** ** Recovery *)

(** A delta that follows no known one: the stream requires recovery. *)
Definition gapped : Consumer :=
  collect [here (book 11 10 R_SYNCHRONIZED t0); here (book 13 12 R_SYNCHRONIZED (t0 + second))] fresh.

Example gap_recovering : recovering "production" book_key gapped.
Proof. vm_compute. reflexivity. Qed.
Example degraded_completes_nothing : no_recovery book_key (book 14 13 R_DEGRADED (t0 + 2 * second)).
Proof. split; [done|]. intros _. vm_compute. split; reflexivity. Qed.

Lemma recovery_gates_books_witness :
  recovering "production" book_key gapped /\
  recovering "production" book_key (collect [here (book 14 13 R_DEGRADED (t0 + 2 * second))] gapped).
Proof.
  split; [exact gap_recovering|].
  apply (recovery_gates_books live_gate "production" (120 * second) book_key
           [here (book 14 13 R_DEGRADED (t0 + 2 * second))] gapped gap_recovering).
  apply Forall_singleton. exact degraded_completes_nothing.
Defined.

(** The next ordinary delta of the same session ends it, although delta 12 is missing. *)
Example gap_forgiven :
  let s := collect [here (book 14 13 R_SYNCHRONIZED (t0 + 2 * second))] gapped in
  recovery_of gapped book_key.2 = Some true /\ recovery_of s book_key.2 = Some false /\
  (size (rs_quarantined (co_store s)), hm_snapshot_recoveries (co_metrics s)) = (1%Z, 1%Z).
Proof. vm_compute. repeat split. Qed.

Lemma next_delta_ends_recovery_witness :
  exists c, get_checkpoint (co_store gapped) "production" "bitget" book_key.2 = Some c /\
    recovered (Some c) (book 14 13 R_SYNCHRONIZED (t0 + 2 * second)) = true.
Proof.
  destruct (get_checkpoint (co_store gapped) "production" "bitget" book_key.2) as [c|] eqn:E; [|vm_compute in E; done].
  exists c. split; [done|].
  apply (next_delta_ends_recovery "Adapter" (t0 + 2 * second) book_identity 1
           (book_value 14 13 R_SYNCHRONIZED (t0 + 2 * second)) _ c eq_refl eq_refl eq_refl eq_refl).
  - exists 10%Z, 14%Z. repeat split. lia.
  - vm_compute. reflexivity.
  - vm_compute in E. by injection E as <-.
Defined.

(** The life cycle of a connection the exchange closed *)
Definition closed : WebSocketConnectionLifecycle := {|
  lc_venue := "bitget"; lc_instrument := "BTCUSDT"; lc_connection_id := "c1"; lc_connection_epoch := 1;
  lc_connected_at := t0; lc_disconnected_at := t0 + second; lc_duration_ms := 1000; lc_reason := "closed";
  lc_close_code := Some 1006%Z; lc_close_message := None; lc_exception_type := None; lc_messages_received := 1;
  lc_heartbeat_sent := 0; lc_heartbeat_received := 0; lc_stale_timeout := false; lc_server_initiated_close := true;
  lc_client_initiated_close := false |}.

(** The recovery is required of the control stream, and the book goes on unchecked. *)
Example disconnect_not_gated :
  let s := collect [here (book 11 10 R_SYNCHRONIZED t0); here (lifecycle_envelope book_identity closed 1)] fresh in
  let s' := collect [here (book 12 11 R_SYNCHRONIZED (t0 + 2 * second))] s in
  recovery_of s book_key.2 = Some false /\
  recovery_of s "bitget:orderbook:BTCUSDT:control" = Some true /\
  recovery_of s' "bitget:orderbook:BTCUSDT:control" = Some true /\
  (hm_disconnect_count (co_metrics s'), size (rs_quarantined (co_store s')),
   hm_snapshot_recoveries (co_metrics s')) = (1%Z, 0%Z, 0%Z).
Proof. vm_compute. repeat split. Qed.

Lemma disconnect_checkpoint_elsewhere_witness :
  si_channel (stream_identity (lifecycle_envelope book_identity closed 1)) = "control".
Proof. apply (disconnect_checkpoint_elsewhere book_identity closed 1). discriminate. Defined.

(** ** Snapshots *)

Definition funding_identity : ResearchStreamIdentity := {|
  si_venue := "bitget"; si_canonical_instrument_id := "BTC"; si_venue_symbol := "BTCUSDT";
  si_event_type := "funding_current"; si_channel := "rest" |}.
Definition rest_value (trade_id : option string) (fields : list (chars * json)) (received available : Z) : StreamedValue := {|
  sv_json := JObject fields; sv_source_raw_payload := None; sv_source_payload_sha256 := None;
  sv_exchange_timestamp := None; sv_received_at := Some received; sv_available_at := Some available;
  sv_sequence := None; sv_trade_id := trade_id; sv_timeframe := None; sv_reconciliation_state := None;
  sv_snapshot_sequence := None; sv_previous_delta_sequence := None; sv_stream_semantics := None;
  sv_connection_id := None; sv_connection_epoch := None; sv_bootstrap_completed := false;
  sv_recovery_started_at := None; sv_recovery_completed_at := None; sv_last_recovery_failure := None |}.
Definition rest_envelope (identity : ResearchStreamIdentity) (trade_id : option string) (fields : list (chars * json))
    (received available : Z) : CollectedEnvelope :=
  match envelope "Adapter" [] received identity (rest_value trade_id fields received available) rest_arguments with
  | Ok e => e
  | Err _ => no_envelope
  end.
Definition rate (r mark : string) : list (chars * json) :=
  [(text "rate", jstr r); (text "mark_price", jstr mark)].
Definition funding (r : string) (received available : Z) : CollectedEnvelope :=
  rest_envelope funding_identity None (rate r "100") received available.

Definition trade_identity : ResearchStreamIdentity := {|
  si_venue := "bitget"; si_canonical_instrument_id := "BTC"; si_venue_symbol := "BTCUSDT";
  si_event_type := "trade"; si_channel := "trades" |}.
Definition trade (id price : string) (at_ : Z) : CollectedEnvelope :=
  rest_envelope trade_identity (Some id) [(text "price", jstr price)] at_ at_.

Notation research := (research_run live_gate "production" (120 * second)).

Definition collected : list ResearchOp :=
  [Collect [here (funding "0.0001" t0 (t0 + second)); here (trade "7" "100" (t0 + second));
            here (trade "7" "101" (t0 + 2 * second))]].
Definition request (id : string) (cutoff : Z) : SnapshotRequest := {|
  sr_cutoff_at := cutoff; sr_snapshot_id := Some id; sr_finalized_at := cutoff; sr_policy := default_policy;
  sr_included_event_types := None; sr_included_venues := None |}.
Definition finalized : list ResearchOp := collected ++ [Finalize (request "snap-1" (t0 + 10 * second))].
Definition manifest : DataSnapshotManifest :=
  manifest_of (co_store (research collected fresh)) (request "snap-1" (t0 + 10 * second)).

Example manifest_stored : snapshot_manifest (co_store (research finalized fresh)) "snap-1" = Some manifest.
Proof. vm_compute. reflexivity. Qed.
Example manifest_eligible : (sm_eligibility_status manifest, size (sm_events manifest)) = (ELIGIBLE, 1%Z).
Proof. vm_compute. reflexivity. Qed.

Lemma snapshots_permanent_witness :
  snapshot_manifest (co_store (research finalized fresh)) "snap-1" = Some manifest /\
  verify (co_store (research (finalized ++ [Purge (t0 + 20 * second)]) fresh)) "snap-1" = Ok manifest.
Proof.
  split; [exact manifest_stored|].
  apply (snapshots_permanent live_gate "production" (120 * second) finalized [Purge (t0 + 20 * second)] "snap-1"
           manifest manifest_stored).
Defined.

Notation before_snapshot := (co_store (research collected fresh)).
Example finalize_sample :
  finalize (request "snap-1" (t0 + 10 * second)) before_snapshot =
  ((finalize (request "snap-1" (t0 + 10 * second)) before_snapshot).1, Ok manifest).
Proof. vm_compute. reflexivity. Qed.
Example not_finalized :
  snapshot_manifest before_snapshot (sm_snapshot_id (manifest_of before_snapshot (request "snap-1" (t0 + 10 * second)))) = None.
Proof. vm_compute. reflexivity. Qed.

Lemma snapshot_exact_witness :
  sm_eligibility_status manifest = ELIGIBLE /\
  exists es, sm_events manifest = membership_of es /\
    forall e, e ∈ es <-> belongs before_snapshot (request "snap-1" (t0 + 10 * second)) e.
Proof.
  split; [vm_compute; reflexivity|].
  destruct (snapshot_exact live_gate "production" (120 * second) collected (request "snap-1" (t0 + 10 * second)) _ _
              not_finalized finalize_sample) as (es & Hes & _ & Hin & _).
  exact (ex_intro _ es (conj Hes Hin)).
Defined.

(** The conflicting copy of the trade is quarantined under the id of the first, which is
    then missing from the snapshot. *)
Example conflict_drops_original :
  (map re_event_type (raw_events before_snapshot), map re_event_type (usable_events before_snapshot (request "snap-1" (t0 + 10 * second))))
  = (["funding_current"; "trade"], ["funding_current"]).
Proof. vm_compute. reflexivity. Qed.

(** An event that claims to be available before it was received is quarantined from then
    on, and a snapshot between the two holds it. *)
Example quarantined_event_finalized :
  let s := co_store (research [Collect [here (funding "0.0001" (t0 + 10 * second) t0)]] fresh) in
  let q := request "snap-1" (t0 + 5 * second) in
  size (rs_quarantined s) = 1%Z /\ size (usable_events s q) = 1%Z /\
  sm_eligibility_status (manifest_of s q) = ELIGIBLE.
Proof. vm_compute. repeat split. Qed.

(** ** Datasets *)

Definition asked (id : string) : BuildRequest := {|
  bq_snapshot_id := id; bq_cutoff_at := t0 + 10 * second; bq_instruments := ["BTC"]; bq_venues := ["bitget"];
  bq_event_types := ["funding_current"; "trade"] |}.
Notation finalized_store := (co_store (research finalized fresh)).
Definition no_dataset : PointInTimeDataset := dataset_of (asked "") no_values.
Definition dataset_or (x : result PointInTimeDataset) : PointInTimeDataset :=
  match x with Ok d => d | Err _ => no_dataset end.
Definition dataset : PointInTimeDataset := dataset_or (build (asked "snap-1") finalized_store).2.

Example dataset_built :
  build (asked "snap-1") finalized_store = ((build (asked "snap-1") finalized_store).1, Ok dataset).
Proof. vm_compute. reflexivity. Qed.
Example manifest_asked : snapshot_manifest finalized_store (bq_snapshot_id (asked "snap-1")) = Some manifest.
Proof. exact manifest_stored. Qed.
Example dataset_size : map pv_event_type (pd_values dataset) = ["funding_current"].
Proof. vm_compute. reflexivity. Qed.

Lemma dataset_point_in_time_witness :
  size (pd_values dataset) = 1%Z /\ sm_eligibility_status manifest = ELIGIBLE /\
  (build (asked "snap-1") finalized_store).2 = Ok dataset.
Proof.
  split; [vm_compute; reflexivity|].
  destruct (dataset_point_in_time (asked "snap-1") finalized_store _ dataset manifest manifest_asked dataset_built)
    as (_ & _ & Hel & Hlater).
  split; [exact Hel|]. apply Hlater. reflexivity.
Defined.

(** The first build of a snapshot reads every event, also the quarantined ones; the second
    reads the snapshot. *)
Example first_build_differs :
  let first := build (asked "snap-2") before_snapshot in
  let second := build (asked "snap-2") first.1 in
  (size (pd_values (dataset_or first.2)), size (pd_values (dataset_or second.2))) = (2%Z, 1%Z).
Proof. vm_compute. reflexivity. Qed.

(** A number that is none is not a [ValueError]. *)
Example malformed_number_aborts :
  let s := co_store (research [Collect [here (rest_envelope funding_identity None (rate "x" "100") t0 t0)]] fresh) in
  build (asked "snap-3") s = (s, Err invalid_operation).
Proof. vm_compute. reflexivity. Qed.

Definition purged : ResearchStore := (purge_raw_payloads_before (t0 + 20 * second) finalized_store).1.
Example purge_sample : purge_raw_payloads_before (t0 + 20 * second) finalized_store = (purged, Ok 2%Z).
Proof. vm_compute. reflexivity. Qed.

Lemma purge_protected_witness :
  (2 + size (rs_raw_payloads purged) = size (rs_raw_payloads finalized_store))%Z /\ size (rs_raw_payloads purged) = 1%Z.
Proof.
  split; [apply (purge_protected (t0 + 20 * second) finalized_store purged 2 purge_sample)|vm_compute; reflexivity].
Defined.

(** ** A run of the collector *)

Definition attempt : Attempt := {|
  at_values := []; at_error := Some (OtherError "TimeoutError"); at_shutdown := true;
  at_connected_now := t0; at_failed_now := t0 + second |}.
Definition plan (cycles : list Cycle) : SourcePlan := {|
  pl_venue := "bitget"; pl_adapter := "Adapter"; pl_now := t0; pl_cycles := cycles;
  pl_attempts := fun _ => [attempt] |}.
Definition cycle : Cycle := {|
  cy_rules := Err (OtherError "TimeoutError"); cy_fetch := fun _ _ => Ok [funding "0.0001" t0 (t0 + second)] |}.

Definition start (cycles : list Cycle) : result Collecting :=
  start_collector None true ["BTC"] ["funding_current"; "trade"] [plan cycles]
    {| co_store := empty_store; co_metrics := new_metrics |}.
Definition idle : Collecting := {|
  cl_consumer := {| co_store := empty_store; co_metrics := new_metrics |}; cl_queue := []; cl_flags := [];
  cl_workers := []; cl_put := []; cl_taken := [] |}.
Definition started (cycles : list Cycle) : Collecting :=
  match start cycles with Ok s => s | Err _ => idle end.
Notation run := (run_schedule live_gate "production" (120 * second) None).
Definition work (i n : nat) : list Choice := repeat (Work i some_readings) n.
Definition schedule : list Choice :=
  work 0 3 ++ work 2 1 ++ work 1 3 ++ [Consume some_readings] ++ work 1 4 ++ work 2 6 ++
  repeat (Consume some_readings) 2.
Definition ended : Collecting := match run schedule (started [cycle]) with Some s => s | None => idle end.

Example start_sample : start [cycle] = Ok (started [cycle]).
Proof. vm_compute. reflexivity. Qed.
Example run_sample : run schedule (started [cycle]) = Some ended.
Proof. vm_compute. reflexivity. Qed.
(** The health of the collector, the funding rate and the failed stream are consumed. *)
Example taken_sample :
  (map ev_event_type (cl_taken ended), length (rs_failures (co_store (cl_consumer ended)))) =
  (["venue_health"; "funding_current"; "stale_stream"], 2).
Proof. vm_compute. reflexivity. Qed.

Lemma collecting_sound_witness :
  fifo ended /\ length (cl_taken ended) = 3.
Proof.
  split; [|vm_compute; reflexivity].
  apply (collecting_sound live_gate "production" (120 * second) None true ["BTC"] ["funding_current"; "trade"]
           [plan [cycle]] schedule [] _ _ ended start_sample run_sample eq_refl).
Defined.

Example sample_stuck : stuck live_gate "production" (120 * second) None ended.
Proof. intros [r|[|[|[|i]]] r]; try (vm_compute; reflexivity). Qed.


(** Told to stop before its first polling cycle, the collector never ends: the stream waits
    for a cycle that is not made. *)
Definition abandoned : Collecting :=
  match run (work 0 3 ++ work 1 1 ++ work 2 1 ++ [Consume some_readings]) (started []) with Some s => s | None => idle end.
Example early_shutdown_hangs :
  stuck live_gate "production" (120 * second) None abandoned /\
  map (fun w => length (wk_tasks w)) (cl_workers abandoned) = [0; 0; 2].
Proof.
  split; [|vm_compute; reflexivity]. intros [r|[|[|[|i]]] r]; try (vm_compute; reflexivity).
Qed.

End ResearchSample.
