(* ===== verification/ResearchSql.v ===== *)
(** * The research repository in PostgreSQL
      (services/research/repository.py, infrastructure/database/models.py)

    [PostgreSQLResearchRepository]: what [InMemoryResearchRepository] keeps in dictionaries
    and lists, kept in tables.  The database is a parameter ([PostgreSQL]): [content] is
    what its tables hold, [commit] the commit of a session that leaves them so, and [scan]
    the order in which a query without [ORDER BY] gives its rows; [PostgreSQLLaws] is what
    a relational database documents of them for rows that fit their columns.  One session
    runs at a time.  A [UUID] is its text, and texts are without the character NUL, which
    PostgreSQL does not store. *)

From Stdlib Require Import ZArith QArith NArith Lia.
From stdpp Require Import base tactics list strings.
From S2P Require Import Prelude Decimals Binary64 Evidence BindingSql Json PyText FundingCarry Websocket ShadowBook.
From S2P Require Import Certification ResearchStore Collector Snapshots.

Local Open Scope string_scope.
Local Open Scope list_scope.

(** ** Rows *)

Record RawMarketEventRow := {
  er_event_id : string;
  er_venue : string;
  er_canonical_instrument_id : string;
  er_venue_symbol : string;
  er_event_type : string;
  er_exchange_timestamp : option Z;
  er_received_at : Z;
  er_available_at : Z;
  er_sequence : option Z;
  er_connection_id : option string;
  er_reconciliation_state : option string;
  er_payload_sha256 : string;
  er_raw_payload : string;
  er_normalizer_version : string;
  er_capability_verification_run_id : string;
  er_raw_payload_id : option string;
  er_source_payload_sha256 : option string;
  er_channel : string;
  er_snapshot_sequence : option Z;
  er_delta_sequence : option Z;
  er_connection_epoch : option Z;
  er_timestamp_semantic : string;
  er_availability_provenance : string;
  er_exchange_server_time : option Z;
  er_timeframe : option string;
  er_created_at : Z;
}.

Record RawMarketPayloadRow := {
  pw_payload_id : string;
  pw_venue : string;
  pw_source_endpoint : string;
  pw_payload_sha256 : string;
  pw_raw_payload : string;
  pw_received_at : Z;
}.

Record ExperimentalMarketEventRow := {
  xr_event_id : string;
  xr_venue : string;
  xr_canonical_instrument_id : string;
  xr_venue_symbol : string;
  xr_event_type : string;
  xr_payload_sha256 : string;
  xr_raw_payload : string;
  xr_capability_support : string;
  xr_capability_verification_run_id : option string;
  xr_exchange_timestamp : option Z;
  xr_received_at : Z;
  xr_available_at : Z;
  xr_sequence : option Z;
  xr_connection_id : option string;
  xr_reconciliation_state : option string;
  xr_normalizer_version : string;
  xr_channel : string;
  xr_connection_epoch : option Z;
  xr_timestamp_semantic : string;
  xr_availability_provenance : string;
  xr_exchange_server_time : option Z;
  xr_timeframe : option string;
}.

Record MarketDataQuarantineRow := {
  qr_event_id : string;
  qr_reason : string;
  qr_raw_payload : string;
  qr_quarantined_at : Z;
}.

Record MarketDataCheckpointRow := {
  kr_venue : string;
  kr_stream_key : string;
  kr_connection_id : string;
  kr_last_sequence : option Z;
  kr_last_event_id : option string;
  kr_reconciliation_state : string;
  kr_checkpointed_at : Z;
  kr_canonical_instrument_id : string;
  kr_venue_symbol : string;
  kr_event_type : string;
  kr_channel : string;
  kr_last_available_at : option Z;
  kr_last_funding_at : option Z;
  kr_last_trade_id : option string;
  kr_snapshot_sequence : option Z;
  kr_delta_sequence : option Z;
  kr_connection_epoch : Z;
  kr_recovery_required : bool;
  kr_bootstrap_completed : bool;
  kr_recovery_started_at : option Z;
  kr_recovery_completed_at : option Z;
  kr_last_recovery_failure : option string;
  kr_checkpoint_namespace : string;
}.

Record DataSnapshotRow := {
  nr_snapshot_id : string;
  nr_cutoff_at : Z;
  nr_event_count : Z;
  nr_content_sha256 : string;
  nr_manifest_sha256 : option string;
  nr_manifest_json : option string;
  nr_quarantine_count : Z;
  nr_finalized_at : option Z;
  nr_eligibility_status : string;
  nr_eligibility_reasons_json : string;
  nr_created_at : Z;
}.

Record DataSnapshotEventRow := {
  me_snapshot_id : string;
  me_event_id : string;
  me_ordinal : Z;
  me_event_payload_sha256 : string;
  me_included_at : Z;
}.

Record InstrumentRuleSnapshotRow := {
  ur_rule_snapshot_id : string;
  ur_venue : string;
  ur_canonical_instrument_id : string;
  ur_venue_symbol : string;
  ur_tick_size : option Decimal;
  ur_lot_size : option Decimal;
  ur_minimum_quantity : option Decimal;
  ur_minimum_notional : option Decimal;
  ur_maker_fee : option Decimal;
  ur_taker_fee : option Decimal;
  ur_maker_rebate : option Decimal;
  ur_funding_interval : option Z;
  ur_margin_asset : option string;
  ur_source_endpoint : string;
  ur_source_payload_sha256 : string;
  ur_retrieved_at : Z;
  ur_valid_from : Z;
  ur_valid_until : option Z;
  ur_field_evidence_json : string;
  ur_fee_tier : string;
  ur_verification_status : string;
}.

Record ResearchRunRow := {
  gr_run_id : string;
  gr_commit_sha : string;
  gr_config_sha256 : string;
  gr_data_snapshot_id : string;
  gr_hypothesis_version : string;
  gr_strategy_id : string;
  gr_strategy_version : string;
  gr_status : string;
  gr_acceptance_verdict : option string;
  gr_created_at : Z;
  gr_completed_at : option Z;
}.

Record FrozenHypothesisRow := {
  hr_hypothesis_version : string;
  hr_strategy_id : string;
  hr_content_sha256 : string;
  hr_content_json : string;
  hr_frozen_at : Z;
}.

Record ResearchArtifactRow := {
  ar_run_id : string;
  ar_data_snapshot_id : string;
  ar_artifact_type : string;
  ar_path : string;
  ar_content_sha256 : string;
  ar_created_at : Z;
}.

(** The tables; the row of a failure has the fields of the record, and the numbers that the
    database gives to rows are their places. *)
Record Database := {
  db_events : list RawMarketEventRow;
  db_payloads : list RawMarketPayloadRow;
  db_experimental : list ExperimentalMarketEventRow;
  db_quarantine : list MarketDataQuarantineRow;
  db_checkpoints : list MarketDataCheckpointRow;
  db_failures : list CollectionFailureEvent;
  db_snapshots : list DataSnapshotRow;
  db_members : list DataSnapshotEventRow;
  db_rules : list InstrumentRuleSnapshotRow;
  db_runs : list ResearchRunRow;
  db_hypotheses : list FrozenHypothesisRow;
  db_artifacts : list ResearchArtifactRow;
}.

Definition set_db_events v (d : Database) : Database := {|
  db_events := v; db_payloads := db_payloads d; db_experimental := db_experimental d; db_quarantine :=
  db_quarantine d; db_checkpoints := db_checkpoints d; db_failures := db_failures d; db_snapshots :=
  db_snapshots d; db_members := db_members d; db_rules := db_rules d; db_runs := db_runs d; db_hypotheses :=
  db_hypotheses d; db_artifacts := db_artifacts d |}.
Definition set_db_payloads v (d : Database) : Database := {|
  db_events := db_events d; db_payloads := v; db_experimental := db_experimental d; db_quarantine :=
  db_quarantine d; db_checkpoints := db_checkpoints d; db_failures := db_failures d; db_snapshots :=
  db_snapshots d; db_members := db_members d; db_rules := db_rules d; db_runs := db_runs d; db_hypotheses :=
  db_hypotheses d; db_artifacts := db_artifacts d |}.
Definition set_db_experimental v (d : Database) : Database := {|
  db_events := db_events d; db_payloads := db_payloads d; db_experimental := v; db_quarantine := db_quarantine
  d; db_checkpoints := db_checkpoints d; db_failures := db_failures d; db_snapshots := db_snapshots d;
  db_members := db_members d; db_rules := db_rules d; db_runs := db_runs d; db_hypotheses := db_hypotheses d;
  db_artifacts := db_artifacts d |}.
Definition set_db_quarantine v (d : Database) : Database := {|
  db_events := db_events d; db_payloads := db_payloads d; db_experimental := db_experimental d; db_quarantine
  := v; db_checkpoints := db_checkpoints d; db_failures := db_failures d; db_snapshots := db_snapshots d;
  db_members := db_members d; db_rules := db_rules d; db_runs := db_runs d; db_hypotheses := db_hypotheses d;
  db_artifacts := db_artifacts d |}.
Definition set_db_checkpoints v (d : Database) : Database := {|
  db_events := db_events d; db_payloads := db_payloads d; db_experimental := db_experimental d; db_quarantine
  := db_quarantine d; db_checkpoints := v; db_failures := db_failures d; db_snapshots := db_snapshots d;
  db_members := db_members d; db_rules := db_rules d; db_runs := db_runs d; db_hypotheses := db_hypotheses d;
  db_artifacts := db_artifacts d |}.
Definition set_db_failures v (d : Database) : Database := {|
  db_events := db_events d; db_payloads := db_payloads d; db_experimental := db_experimental d; db_quarantine
  := db_quarantine d; db_checkpoints := db_checkpoints d; db_failures := v; db_snapshots := db_snapshots d;
  db_members := db_members d; db_rules := db_rules d; db_runs := db_runs d; db_hypotheses := db_hypotheses d;
  db_artifacts := db_artifacts d |}.
Definition set_db_snapshots v (d : Database) : Database := {|
  db_events := db_events d; db_payloads := db_payloads d; db_experimental := db_experimental d; db_quarantine
  := db_quarantine d; db_checkpoints := db_checkpoints d; db_failures := db_failures d; db_snapshots := v;
  db_members := db_members d; db_rules := db_rules d; db_runs := db_runs d; db_hypotheses := db_hypotheses d;
  db_artifacts := db_artifacts d |}.
Definition set_db_members v (d : Database) : Database := {|
  db_events := db_events d; db_payloads := db_payloads d; db_experimental := db_experimental d; db_quarantine
  := db_quarantine d; db_checkpoints := db_checkpoints d; db_failures := db_failures d; db_snapshots :=
  db_snapshots d; db_members := v; db_rules := db_rules d; db_runs := db_runs d; db_hypotheses :=
  db_hypotheses d; db_artifacts := db_artifacts d |}.
Definition set_db_rules v (d : Database) : Database := {|
  db_events := db_events d; db_payloads := db_payloads d; db_experimental := db_experimental d; db_quarantine
  := db_quarantine d; db_checkpoints := db_checkpoints d; db_failures := db_failures d; db_snapshots :=
  db_snapshots d; db_members := db_members d; db_rules := v; db_runs := db_runs d; db_hypotheses :=
  db_hypotheses d; db_artifacts := db_artifacts d |}.
Definition set_db_runs v (d : Database) : Database := {|
  db_events := db_events d; db_payloads := db_payloads d; db_experimental := db_experimental d; db_quarantine
  := db_quarantine d; db_checkpoints := db_checkpoints d; db_failures := db_failures d; db_snapshots :=
  db_snapshots d; db_members := db_members d; db_rules := db_rules d; db_runs := v; db_hypotheses :=
  db_hypotheses d; db_artifacts := db_artifacts d |}.
Definition set_db_hypotheses v (d : Database) : Database := {|
  db_events := db_events d; db_payloads := db_payloads d; db_experimental := db_experimental d; db_quarantine
  := db_quarantine d; db_checkpoints := db_checkpoints d; db_failures := db_failures d; db_snapshots :=
  db_snapshots d; db_members := db_members d; db_rules := db_rules d; db_runs := db_runs d; db_hypotheses :=
  v; db_artifacts := db_artifacts d |}.
Definition set_db_artifacts v (d : Database) : Database := {|
  db_events := db_events d; db_payloads := db_payloads d; db_experimental := db_experimental d; db_quarantine
  := db_quarantine d; db_checkpoints := db_checkpoints d; db_failures := db_failures d; db_snapshots :=
  db_snapshots d; db_members := db_members d; db_rules := db_rules d; db_runs := db_runs d; db_hypotheses :=
  db_hypotheses d; db_artifacts := v |}.

Definition no_tables : Database := {|
  db_events := []; db_payloads := []; db_experimental := []; db_quarantine := []; db_checkpoints := [];
  db_failures := []; db_snapshots := []; db_members := []; db_rules := []; db_runs := []; db_hypotheses := [];
  db_artifacts := [] |}.

(** ** Columns *)

(** [BigInteger] and [Integer] *)
Definition big_fits (n : option Z) : bool :=
  match n with Some n => (- 2 ^ 63 <=? n)%Z && (n <? 2 ^ 63)%Z | None => true end.
Definition int_fits (n : option Z) : bool :=
  match n with Some n => (- 2 ^ 31 <=? n)%Z && (n <? 2 ^ 31)%Z | None => true end.
(** [Numeric(38, 18)]: at most eighteen decimals and twenty digits before them *)
Definition numeric_38_18 (q : option Decimal) : bool :=
  match q with
  | Some q => let m := Qmult q (inject_Z (10 ^ 18)) in
              Qeq_bool m (inject_Z (Qround.Qfloor m)) && (Z.abs (Qround.Qfloor m) <? 10 ^ 38)%Z
  | None => true
  end.

Definition event_fits (r : RawMarketEventRow) : bool :=
  text_fits 160 (er_event_id r) && text_fits 40 (er_venue r) && text_fits 100 (er_canonical_instrument_id r)
  && text_fits 100 (er_venue_symbol r) && text_fits 80 (er_event_type r) && text_fits 64 (er_payload_sha256 r)
  && text_fits 80 (er_normalizer_version r) && text_fits 160 (er_capability_verification_run_id r) &&
  text_fits 120 (er_channel r) && text_fits 50 (er_timestamp_semantic r) && text_fits 50
  (er_availability_provenance r) && optional_text_fits 36 (er_connection_id r) && optional_text_fits 40
  (er_reconciliation_state r) && optional_text_fits 160 (er_raw_payload_id r) && optional_text_fits 64
  (er_source_payload_sha256 r) && optional_text_fits 20 (er_timeframe r) && big_fits (er_sequence r) &&
  big_fits (er_snapshot_sequence r) && big_fits (er_delta_sequence r) && int_fits (er_connection_epoch r).
Definition payload_fits (r : RawMarketPayloadRow) : bool :=
  text_fits 160 (pw_payload_id r) && text_fits 40 (pw_venue r) && text_fits 500 (pw_source_endpoint r) &&
  text_fits 64 (pw_payload_sha256 r).
Definition experimental_fits (r : ExperimentalMarketEventRow) : bool :=
  text_fits 160 (xr_event_id r) && text_fits 40 (xr_venue r) && text_fits 100 (xr_canonical_instrument_id r)
  && text_fits 100 (xr_venue_symbol r) && text_fits 80 (xr_event_type r) && text_fits 64 (xr_payload_sha256 r)
  && text_fits 40 (xr_capability_support r) && text_fits 120 (xr_normalizer_version r) && text_fits 120
  (xr_channel r) && text_fits 50 (xr_timestamp_semantic r) && text_fits 50 (xr_availability_provenance r) &&
  optional_text_fits 160 (xr_capability_verification_run_id r) && optional_text_fits 36 (xr_connection_id r)
  && optional_text_fits 40 (xr_reconciliation_state r) && optional_text_fits 20 (xr_timeframe r) && big_fits
  (xr_sequence r) && int_fits (xr_connection_epoch r).
Definition quarantine_fits (r : MarketDataQuarantineRow) : bool :=
  text_fits 160 (qr_event_id r) && text_fits 500 (qr_reason r).
Definition checkpoint_fits (r : MarketDataCheckpointRow) : bool :=
  text_fits 40 (kr_venue r) && text_fits 200 (kr_stream_key r) && text_fits 36 (kr_connection_id r) &&
  text_fits 40 (kr_reconciliation_state r) && text_fits 100 (kr_canonical_instrument_id r) && text_fits 100
  (kr_venue_symbol r) && text_fits 80 (kr_event_type r) && text_fits 120 (kr_channel r) && text_fits 200
  (kr_checkpoint_namespace r) && optional_text_fits 160 (kr_last_event_id r) && optional_text_fits 200
  (kr_last_trade_id r) && optional_text_fits 500 (kr_last_recovery_failure r) && big_fits (kr_last_sequence r)
  && big_fits (kr_snapshot_sequence r) && big_fits (kr_delta_sequence r) && int_fits (Some
  (kr_connection_epoch r)).
Definition failure_fits (r : CollectionFailureEvent) : bool :=
  text_fits 40 (fe_venue r) && text_fits 300 (fe_stream_key r) && text_fits 100 (fe_instrument r) && text_fits
  80 (fe_event_type r) && text_fits 500 (fe_endpoint r) && text_fits 120 (fe_error_type r) && text_fits 500
  (fe_error_message r) && int_fits (Some (fe_retry_count r)).
Definition snapshot_fits (r : DataSnapshotRow) : bool :=
  text_fits 160 (nr_snapshot_id r) && text_fits 64 (nr_content_sha256 r) && text_fits 40
  (nr_eligibility_status r) && optional_text_fits 64 (nr_manifest_sha256 r) && int_fits (Some (nr_event_count
  r)) && int_fits (Some (nr_quarantine_count r)).
Definition member_fits (r : DataSnapshotEventRow) : bool :=
  text_fits 160 (me_snapshot_id r) && text_fits 160 (me_event_id r) && text_fits 64 (me_event_payload_sha256
  r) && int_fits (Some (me_ordinal r)).
Definition rule_fits (r : InstrumentRuleSnapshotRow) : bool :=
  text_fits 160 (ur_rule_snapshot_id r) && text_fits 40 (ur_venue r) && text_fits 100
  (ur_canonical_instrument_id r) && text_fits 100 (ur_venue_symbol r) && text_fits 500 (ur_source_endpoint r)
  && text_fits 64 (ur_source_payload_sha256 r) && text_fits 40 (ur_fee_tier r) && text_fits 40
  (ur_verification_status r) && optional_text_fits 40 (ur_margin_asset r) && numeric_38_18 (ur_tick_size r) &&
  numeric_38_18 (ur_lot_size r) && numeric_38_18 (ur_minimum_quantity r) && numeric_38_18 (ur_minimum_notional
  r) && numeric_38_18 (ur_maker_fee r) && numeric_38_18 (ur_taker_fee r) && numeric_38_18 (ur_maker_rebate r)
  && int_fits (ur_funding_interval r).
Definition run_row_fits (r : ResearchRunRow) : bool :=
  text_fits 160 (gr_run_id r) && text_fits 80 (gr_commit_sha r) && text_fits 64 (gr_config_sha256 r) &&
  text_fits 160 (gr_data_snapshot_id r) && text_fits 80 (gr_hypothesis_version r) && text_fits 100
  (gr_strategy_id r) && text_fits 40 (gr_strategy_version r) && text_fits 40 (gr_status r) &&
  optional_text_fits 40 (gr_acceptance_verdict r).
Definition hypothesis_fits (r : FrozenHypothesisRow) : bool :=
  text_fits 80 (hr_hypothesis_version r) && text_fits 100 (hr_strategy_id r) && text_fits 64
  (hr_content_sha256 r).
Definition artifact_fits (r : ResearchArtifactRow) : bool :=
  text_fits 160 (ar_run_id r) && text_fits 160 (ar_data_snapshot_id r) && text_fits 80 (ar_artifact_type r) &&
  text_fits 500 (ar_path r) && text_fits 64 (ar_content_sha256 r).

Definition storable_tables (d : Database) : bool :=
  forallb event_fits (db_events d) && forallb payload_fits (db_payloads d) &&
  forallb experimental_fits (db_experimental d) && forallb quarantine_fits (db_quarantine d) &&
  forallb checkpoint_fits (db_checkpoints d) && forallb failure_fits (db_failures d) &&
  forallb snapshot_fits (db_snapshots d) && forallb member_fits (db_members d) && forallb rule_fits (db_rules d) &&
  forallb run_row_fits (db_runs d) && forallb hypothesis_fits (db_hypotheses d) &&
  forallb artifact_fits (db_artifacts d).

(** ** Keys *)

(** A primary key or a unique constraint; a foreign key *)
Definition unique {A K} `{EqDecision K} (key : A -> K) (rows : list A) : bool := bool_decide (NoDup (map key rows)).
Definition references {A B K} `{EqDecision K} (key : A -> option K) (rows : list A) (target : B -> K) (others : list B)
  : bool := forallb (fun r => match key r with
                              | Some k => bool_decide (k ∈ map target others)
                              | None => true
                              end) rows.

Definition integrity (d : Database) : bool :=
  unique er_event_id (db_events d) && unique pw_payload_id (db_payloads d) &&
  unique pw_payload_sha256 (db_payloads d) && unique xr_event_id (db_experimental d) &&
  unique (fun r => (kr_venue r, kr_stream_key r)) (db_checkpoints d) && unique nr_snapshot_id (db_snapshots d) &&
  unique (fun r => (me_snapshot_id r, me_event_id r)) (db_members d) &&
  unique (fun r => (me_snapshot_id r, me_ordinal r)) (db_members d) && unique ur_rule_snapshot_id (db_rules d) &&
  unique gr_run_id (db_runs d) && unique (fun r => (hr_hypothesis_version r, hr_strategy_id r)) (db_hypotheses d) &&
  references er_raw_payload_id (db_events d) pw_payload_id (db_payloads d) &&
  references (fun r => Some (me_snapshot_id r)) (db_members d) nr_snapshot_id (db_snapshots d) &&
  references (fun r => Some (me_event_id r)) (db_members d) er_event_id (db_events d) &&
  references (fun r => Some (gr_data_snapshot_id r)) (db_runs d) nr_snapshot_id (db_snapshots d) &&
  references (fun r => Some (gr_strategy_id r, gr_hypothesis_version r)) (db_runs d)
    (fun r => (hr_strategy_id r, hr_hypothesis_version r)) (db_hypotheses d) &&
  references (fun r => Some (ar_run_id r, ar_data_snapshot_id r)) (db_artifacts d)
    (fun r => (gr_run_id r, gr_data_snapshot_id r)) (db_runs d) &&
  references (fun r => Some (ar_data_snapshot_id r)) (db_artifacts d) nr_snapshot_id (db_snapshots d).

(** ** The database *)

Class PostgreSQL (DB : Type) := {
  content : DB -> Database;
  scan : forall A : Type, DB -> list A -> list A;
  commit : Database -> DB -> DB * result unit;
}.
Class PostgreSQLLaws (DB : Type) `{PostgreSQL DB} : Prop := {
  scan_law : forall A db (rows : list A), Permutation (scan A db rows) rows;
  commit_law : forall d db, storable_tables d = true ->
    if integrity d then (commit d db).2 = Ok tt /\ content (commit d db).1 = d
    else (commit d db).2 = Err IntegrityError /\ content (commit d db).1 = content db;
}.

(** ** Rows of records *)

Definition semantic_value (s : TimestampSemantic) : string :=
  match s with
  | REALTIME_EVENT => "realtime_event" | SEMANTIC_HISTORICAL_EFFECTIVE_TIME => "historical_effective_time"
  | CANDLE_OPEN_TIME => "candle_open_time" | CANDLE_CLOSE_TIME => "candle_close_time"
  | FUNDING_EFFECTIVE_TIME => "funding_effective_time" | RECEIPT_ONLY => "receipt_only"
  end.
Definition provenance_value (p : AvailabilityProvenance) : string :=
  match p with
  | HISTORICAL_EFFECTIVE_TIME => "historical_effective_time" | OBSERVED_RETRIEVAL_TIME => "observed_retrieval_time"
  | EXCHANGE_PUBLISHED_TIME => "exchange_published_time" | UNKNOWN => "unknown"
  end.
Definition fee_tier_value (t : FeeTierKind) : string :=
  match t with
  | FEE_UNKNOWN => "unknown" | FEE_DEFAULT_PUBLIC => "default_public_tier" | FEE_OPERATOR_ACCOUNT => "operator_account_tier"
  | FEE_HISTORICAL => "historical_tier"
  end.

Definition semantics : list TimestampSemantic :=
  [REALTIME_EVENT; SEMANTIC_HISTORICAL_EFFECTIVE_TIME; CANDLE_OPEN_TIME; CANDLE_CLOSE_TIME; FUNDING_EFFECTIVE_TIME;
   RECEIPT_ONLY].
Definition provenances : list AvailabilityProvenance :=
  [HISTORICAL_EFFECTIVE_TIME; OBSERVED_RETRIEVAL_TIME; EXCHANGE_PUBLISHED_TIME; UNKNOWN].
Definition reconciliation_states : list ReconciliationState :=
  [R_DISCONNECTED; R_WAITING_FOR_SNAPSHOT; R_BUFFERING_DELTAS; R_APPLYING_SNAPSHOT; R_REPLAYING_DELTAS; R_GAP_DETECTED;
   R_SNAPSHOT_LOADING; R_DELTA_REPLAYING; R_SYNCHRONIZED; R_DEGRADED].
Definition fee_tiers : list FeeTierKind := [FEE_UNKNOWN; FEE_DEFAULT_PUBLIC; FEE_OPERATOR_ACCOUNT; FEE_HISTORICAL].
Definition rule_statuses : list RuleVerificationStatus := [RULE_UNKNOWN; RULE_OBSERVED; RULE_VERIFIED].

(** [Enum(value)] *)
Definition enum_of {A} (value : A -> string) (members : list A) (s : string) : result A :=
  match List.find (fun a => bool_decide (value a = s)) members with
  | Some a => Ok a
  | None => Err (ValueError (s +:+ " is not a valid value"))
  end.

(** [x if x else None] *)
Definition present (s : option string) : option string :=
  match s with Some s => if nonempty s then Some s else None | None => None end.
Definition state_of (s : option string) : result (option string) :=
  match present s with
  | Some s => let! state := enum_of reconciliation_value reconciliation_states s in Ok (Some (reconciliation_value state))
  | None => Ok None
  end.

Definition event_row (e : RawMarketEvent) : RawMarketEventRow := {|
  er_event_id := re_event_id e; er_venue := re_venue e; er_canonical_instrument_id := re_canonical_instrument_id e;
  er_venue_symbol := re_venue_symbol e; er_event_type := re_event_type e;
  er_exchange_timestamp := re_exchange_timestamp e; er_received_at := re_received_at e;
  er_available_at := re_available_at e; er_sequence := re_sequence e; er_connection_id := re_connection_id e;
  er_reconciliation_state := re_reconciliation_state e; er_payload_sha256 := re_payload_sha256 e;
  er_raw_payload := re_raw_payload e; er_normalizer_version := re_normalizer_version e;
  er_capability_verification_run_id := re_capability_verification_run_id e; er_raw_payload_id := re_raw_payload_id e;
  er_source_payload_sha256 := re_source_payload_sha256 e; er_channel := re_channel e;
  er_snapshot_sequence := re_snapshot_sequence e; er_delta_sequence := re_delta_sequence e;
  er_connection_epoch := re_connection_epoch e; er_timestamp_semantic := semantic_value (re_timestamp_semantic e);
  er_availability_provenance := provenance_value (re_availability_provenance e);
  er_exchange_server_time := re_exchange_server_time e; er_timeframe := re_timeframe e;
  er_created_at := re_created_at e |}.

Definition experimental_row (e : RawMarketEvent) (support : string) : ExperimentalMarketEventRow := {|
  xr_event_id := re_event_id e; xr_venue := re_venue e; xr_canonical_instrument_id := re_canonical_instrument_id e;
  xr_venue_symbol := re_venue_symbol e; xr_event_type := re_event_type e; xr_payload_sha256 := re_payload_sha256 e;
  xr_raw_payload := re_raw_payload e; xr_capability_support := support;
  xr_capability_verification_run_id := present (Some (re_capability_verification_run_id e));
  xr_exchange_timestamp := re_exchange_timestamp e; xr_received_at := re_received_at e;
  xr_available_at := re_available_at e; xr_sequence := re_sequence e; xr_connection_id := re_connection_id e;
  xr_reconciliation_state := re_reconciliation_state e; xr_normalizer_version := re_normalizer_version e;
  xr_channel := re_channel e; xr_connection_epoch := re_connection_epoch e;
  xr_timestamp_semantic := semantic_value (re_timestamp_semantic e);
  xr_availability_provenance := provenance_value (re_availability_provenance e);
  xr_exchange_server_time := re_exchange_server_time e; xr_timeframe := re_timeframe e |}.

Definition payload_row (hash : string) (p : RawPayload) : RawMarketPayloadRow := {|
  pw_payload_id := rp_payload_id p; pw_venue := rp_venue p; pw_source_endpoint := rp_source_endpoint p;
  pw_payload_sha256 := hash; pw_raw_payload := rp_raw_payload p; pw_received_at := rp_received_at p |}.

Section Rows.
Context {D : Digest}.

(** [_event] *)
Definition row_event (r : RawMarketEventRow) : result RawMarketEvent :=
  let! state := state_of (er_reconciliation_state r) in
  let! semantic := enum_of semantic_value semantics (er_timestamp_semantic r) in
  let! provenance := enum_of provenance_value provenances (er_availability_provenance r) in
  RawMarketEvent_validate {|
    re_event_id := er_event_id r; re_venue := er_venue r; re_canonical_instrument_id := er_canonical_instrument_id r;
    re_venue_symbol := er_venue_symbol r; re_event_type := er_event_type r;
    re_exchange_timestamp := er_exchange_timestamp r; re_received_at := er_received_at r;
    re_available_at := er_available_at r; re_sequence := er_sequence r;
    re_connection_id := present (er_connection_id r); re_reconciliation_state := state;
    re_payload_sha256 := er_payload_sha256 r; re_raw_payload := er_raw_payload r;
    re_normalizer_version := er_normalizer_version r;
    re_capability_verification_run_id := er_capability_verification_run_id r; re_created_at := er_created_at r;
    re_raw_payload_id := er_raw_payload_id r; re_source_payload_sha256 := er_source_payload_sha256 r;
    re_channel := er_channel r; re_snapshot_sequence := er_snapshot_sequence r;
    re_delta_sequence := er_delta_sequence r; re_connection_epoch := er_connection_epoch r;
    re_timestamp_semantic := semantic; re_availability_provenance := provenance;
    re_exchange_server_time := er_exchange_server_time r; re_timeframe := er_timeframe r |}.

(** [_experimental_event] *)
Definition row_experimental (r : ExperimentalMarketEventRow) : result RawMarketEvent :=
  let! state := state_of (xr_reconciliation_state r) in
  let! semantic := enum_of semantic_value semantics (xr_timestamp_semantic r) in
  let! provenance := enum_of provenance_value provenances (xr_availability_provenance r) in
  RawMarketEvent_validate {|
    re_event_id := xr_event_id r; re_venue := xr_venue r; re_canonical_instrument_id := xr_canonical_instrument_id r;
    re_venue_symbol := xr_venue_symbol r; re_event_type := xr_event_type r;
    re_exchange_timestamp := xr_exchange_timestamp r; re_received_at := xr_received_at r;
    re_available_at := xr_available_at r; re_sequence := xr_sequence r;
    re_connection_id := present (xr_connection_id r); re_reconciliation_state := state;
    re_payload_sha256 := xr_payload_sha256 r; re_raw_payload := xr_raw_payload r;
    re_normalizer_version := xr_normalizer_version r;
    re_capability_verification_run_id := text_or (xr_capability_verification_run_id r) "unverified-experimental";
    re_created_at := xr_received_at r; re_raw_payload_id := None; re_source_payload_sha256 := None;
    re_channel := xr_channel r; re_snapshot_sequence := None; re_delta_sequence := None;
    re_connection_epoch := xr_connection_epoch r; re_timestamp_semantic := semantic;
    re_availability_provenance := provenance; re_exchange_server_time := xr_exchange_server_time r;
    re_timeframe := xr_timeframe r |}.

(** [tuple(f(row) for row in rows)] *)
Definition rows_of {A B} (f : A -> result B) (rows : list A) : result (list B) :=
  gather (fun r => let! x := f r in Ok [x]) rows.

(** [_checkpoint_storage_key] *)
Definition checkpoint_storage_key (stream_key namespace : string) : string :=
  if bool_decide (namespace = "production") then stream_key
  else "ns-" +:+ String.substring 0 16 (sha256_hex namespace) +:+ "::" +:+ stream_key.

Definition checkpoint_row (c : CollectionCheckpoint) : MarketDataCheckpointRow := {|
  kr_venue := ck_venue c; kr_stream_key := checkpoint_storage_key (ck_stream_key c) (ck_checkpoint_namespace c);
  kr_connection_id := ck_connection_id c; kr_last_sequence := ck_last_sequence c;
  kr_last_event_id := ck_last_event_id c; kr_reconciliation_state := reconciliation_value (ck_reconciliation_state c);
  kr_checkpointed_at := ck_checkpointed_at c; kr_canonical_instrument_id := ck_canonical_instrument_id c;
  kr_venue_symbol := ck_venue_symbol c; kr_event_type := ck_event_type c; kr_channel := ck_channel c;
  kr_last_available_at := ck_last_available_at c; kr_last_funding_at := ck_last_funding_at c;
  kr_last_trade_id := ck_last_trade_id c; kr_snapshot_sequence := ck_snapshot_sequence c;
  kr_delta_sequence := ck_delta_sequence c; kr_connection_epoch := ck_connection_epoch c;
  kr_recovery_required := ck_recovery_required c; kr_bootstrap_completed := ck_bootstrap_completed c;
  kr_recovery_started_at := ck_recovery_started_at c; kr_recovery_completed_at := ck_recovery_completed_at c;
  kr_last_recovery_failure := ck_last_recovery_failure c;
  kr_checkpoint_namespace := ck_checkpoint_namespace c |}.

Definition row_checkpoint (stream_key : string) (r : MarketDataCheckpointRow) : result CollectionCheckpoint :=
  let! state := enum_of reconciliation_value reconciliation_states (kr_reconciliation_state r) in
  Ok {| ck_venue := kr_venue r; ck_stream_key := stream_key; ck_connection_id := kr_connection_id r;
        ck_last_sequence := kr_last_sequence r; ck_last_event_id := kr_last_event_id r;
        ck_reconciliation_state := state; ck_checkpointed_at := kr_checkpointed_at r;
        ck_canonical_instrument_id := kr_canonical_instrument_id r; ck_venue_symbol := kr_venue_symbol r;
        ck_event_type := kr_event_type r; ck_channel := kr_channel r;
        ck_last_available_at := kr_last_available_at r; ck_last_funding_at := kr_last_funding_at r;
        ck_last_trade_id := kr_last_trade_id r; ck_snapshot_sequence := kr_snapshot_sequence r;
        ck_delta_sequence := kr_delta_sequence r; ck_connection_epoch := kr_connection_epoch r;
        ck_recovery_required := kr_recovery_required r; ck_bootstrap_completed := kr_bootstrap_completed r;
        ck_recovery_started_at := kr_recovery_started_at r; ck_recovery_completed_at := kr_recovery_completed_at r;
        ck_last_recovery_failure := kr_last_recovery_failure r;
        ck_checkpoint_namespace := kr_checkpoint_namespace r |}.

End Rows.

(** ** Manifests and rules *)

(** [str(d)] of an aware datetime *)
Definition str_utc (t : Z) : json := JString (str_datetime (Aware t)).

(** [json.dumps(asdict(manifest), default=str, sort_keys=True)] *)
Definition manifest_fields (m : DataSnapshotManifest) : list (chars * json) :=
  [(text "content_sha256", jstr (sm_content_sha256 m)); (text "cutoff_at", str_utc (sm_cutoff_at m));
   (text "degraded_event_ids", JArray (map jstr (sm_degraded_event_ids m)));
   (text "eligibility_reasons", JArray (map jstr (sm_eligibility_reasons m)));
   (text "eligibility_status", jstr (sm_eligibility_status m)); (text "events", JArray (map member_json (sm_events m)));
   (text "finalized_at", str_utc (sm_finalized_at m)); (text "manifest_sha256", jstr (sm_manifest_sha256 m));
   (text "outage_event_ids", JArray (map jstr (sm_outage_event_ids m)));
   (text "quarantine_count", JInt (sm_quarantine_count m));
   (text "quarantine_reasons",
    JArray (map (fun r : string * Z => JArray [jstr r.1; JInt r.2]) (sm_quarantine_reasons m)));
   (text "snapshot_id", jstr (sm_snapshot_id m))].
Definition manifest_text (m : DataSnapshotManifest) : string :=
  untext (dumps compact_style (JObject (manifest_fields m))).

(** What [snapshot_manifest] reads; a value of another type is outside what is written. *)
Definition type_error {A} : result A := Err (OtherError "TypeError").
Definition string_of (v : json) : result string := match v with JString s => Ok (untext s) | _ => type_error end.
Definition integer_of (v : json) : result Z := match v with JInt n => Ok n | _ => type_error end.
Definition list_of {A} (f : json -> result A) (v : json) : result (list A) :=
  match v with JArray items => gather (fun x => let! y := f x in Ok [y]) items | _ => type_error end.
Definition member_of (v : json) : result (Z * string * string) :=
  match v with
  | JArray [a; b; c] => let! a := integer_of a in let! b := string_of b in let! c := string_of c in Ok (a, b, c)
  | _ => type_error
  end.
Definition reason_of (v : json) : result (string * Z) :=
  match v with
  | JArray [a; b] => let! a := string_of a in let! b := integer_of b in Ok (a, b)
  | _ => type_error
  end.

Section Repository.
Context {D : Digest} {P : IsoParser}.

Definition time_of (v : json) : result Z :=
  match v with
  | JString s => let! d := fromisoformat s in Ok (instant d)
  | _ => type_error
  end.
Definition read_manifest (s : string) : result DataSnapshotManifest :=
  let! v := loads (text s) in
  match v with
  | JObject p =>
      let get {A} (key : string) (f : json -> result A) := let! v := item_of p key in f v in
      let! id := get "snapshot_id" string_of in
      let! cutoff := get "cutoff_at" time_of in
      let! events := get "events" (list_of member_of) in
      let! quarantine_count := get "quarantine_count" integer_of in
      let! reasons := get "quarantine_reasons" (list_of reason_of) in
      let! outages := get "outage_event_ids" (list_of string_of) in
      let! degraded := get "degraded_event_ids" (list_of string_of) in
      let! content_hash := get "content_sha256" string_of in
      let! manifest_hash := get "manifest_sha256" string_of in
      let! finalized := get "finalized_at" time_of in
      let! status := match dict_get (text "eligibility_status") p with
                     | Some v => string_of v
                     | None => Ok "FINALIZED_NOT_ELIGIBLE"
                     end in
      let! eligibility := match dict_get (text "eligibility_reasons") p with
                          | Some v => list_of string_of v
                          | None => Ok []
                          end in
      Ok {| sm_snapshot_id := id; sm_cutoff_at := cutoff; sm_events := events;
            sm_quarantine_count := quarantine_count; sm_quarantine_reasons := reasons;
            sm_outage_event_ids := outages; sm_degraded_event_ids := degraded; sm_content_sha256 := content_hash;
            sm_manifest_sha256 := manifest_hash; sm_finalized_at := finalized; sm_eligibility_status := status;
            sm_eligibility_reasons := eligibility |}
  | _ => type_error
  end.

(** [json.dumps(field_evidence, sort_keys=True)] and its reading *)
Definition evidence_json (evidence : list (string * list (string * option string))) : json :=
  JObject (map (fun kv => (text kv.1, JObject (map (fun f => (text f.1, jopt jstr f.2)) kv.2))) evidence).
Definition evidence_text (evidence : list (string * list (string * option string))) : string :=
  untext (dumps compact_style (sorted_json (evidence_json evidence))).
Definition nullable_string (v : json) : result (option string) :=
  match v with JNull => Ok None | v => let! s := string_of v in Ok (Some s) end.
Definition read_items {A} (f : json -> result A) (v : json) : result (list (string * A)) :=
  match v with
  | JObject fields => gather (fun kv => let! x := f kv.2 in Ok [(untext kv.1, x)]) fields
  | _ => type_error
  end.
Definition read_evidence (s : string) : result (list (string * list (string * option string))) :=
  let! v := loads (text s) in read_items (read_items nullable_string) v.

Definition rule_row (r : InstrumentRuleSnapshot) : InstrumentRuleSnapshotRow := {|
  ur_rule_snapshot_id := ir_rule_snapshot_id r; ur_venue := ir_venue r;
  ur_canonical_instrument_id := ir_canonical_instrument_id r; ur_venue_symbol := ir_venue_symbol r;
  ur_tick_size := ir_tick_size r; ur_lot_size := ir_lot_size r; ur_minimum_quantity := ir_minimum_quantity r;
  ur_minimum_notional := ir_minimum_notional r; ur_maker_fee := ir_maker_fee r; ur_taker_fee := ir_taker_fee r;
  ur_maker_rebate := ir_maker_rebate r; ur_funding_interval := ir_funding_interval r;
  ur_margin_asset := ir_margin_asset r; ur_source_endpoint := ir_source_endpoint r;
  ur_source_payload_sha256 := ir_source_payload_sha256 r; ur_retrieved_at := ir_retrieved_at r;
  ur_valid_from := ir_valid_from r; ur_valid_until := ir_valid_until r;
  ur_field_evidence_json := evidence_text (ir_field_evidence r); ur_fee_tier := fee_tier_value (ir_fee_tier r);
  ur_verification_status := rule_status_value (ir_verification_status r) |}.

Definition row_rule (r : InstrumentRuleSnapshotRow) : result InstrumentRuleSnapshot :=
  let! evidence := read_evidence (ur_field_evidence_json r) in
  let! tier := enum_of fee_tier_value fee_tiers (ur_fee_tier r) in
  let! status := enum_of rule_status_value rule_statuses (ur_verification_status r) in
  InstrumentRuleSnapshot_validate {|
    ir_rule_snapshot_id := ur_rule_snapshot_id r; ir_venue := ur_venue r;
    ir_canonical_instrument_id := ur_canonical_instrument_id r; ir_venue_symbol := ur_venue_symbol r;
    ir_tick_size := ur_tick_size r; ir_lot_size := ur_lot_size r; ir_minimum_quantity := ur_minimum_quantity r;
    ir_minimum_notional := ur_minimum_notional r; ir_maker_fee := ur_maker_fee r; ir_taker_fee := ur_taker_fee r;
    ir_maker_rebate := ur_maker_rebate r; ir_funding_interval := ur_funding_interval r;
    ir_margin_asset := ur_margin_asset r; ir_source_endpoint := ur_source_endpoint r;
    ir_source_payload_sha256 := ur_source_payload_sha256 r; ir_retrieved_at := ur_retrieved_at r;
    ir_valid_from := ur_valid_from r; ir_valid_until := ur_valid_until r; ir_field_evidence := evidence;
    ir_fee_tier := tier; ir_verification_status := status |}.

(** ** The repository *)

Context {DB : Type} {HD : PostgreSQL DB}.

(** A session that adds a row and takes a violated constraint for a row that is there *)
Definition add_row (d : Database) : M DB bool := fun db =>
  match commit d db with
  | (db', Ok _) => (db', Ok true)
  | (db', Err x) => if bool_decide (x = IntegrityError) then (db', Ok false) else (db', Err x)
  end.

(** [session.get], and the first row of a query *)
Definition find_row {A K} `{EqDecision K} (key : A -> K) (k : K) (rows : list A) : option A :=
  List.find (fun r => bool_decide (key r = k)) rows.
(** A change of the rows with a key *)
Definition change_row {A K} `{EqDecision K} (key : A -> K) (k : K) (f : A -> A) (rows : list A) : list A :=
  map (fun r => if bool_decide (key r = k) then f r else r) rows.

Definition sql_add_raw_event (e : RawMarketEvent) : M DB bool := fun db =>
  let d := content db in add_row (set_db_events (db_events d ++ [event_row e]) d) db.

Definition sql_get_raw_event (id : string) (db : DB) : result (option RawMarketEvent) :=
  match find_row er_event_id id (db_events (content db)) with
  | Some r => let! e := row_event r in Ok (Some e)
  | None => Ok None
  end.

Definition sql_raw_events (db : DB) : result (list RawMarketEvent) :=
  rows_of row_event (scan _ db (db_events (content db))).

Definition sql_add_experimental_event (e : RawMarketEvent) (support : string) : M DB bool := fun db =>
  let d := content db in add_row (set_db_experimental (db_experimental d ++ [experimental_row e support]) d) db.

Definition sql_get_experimental_event (id : string) (db : DB) : result (option RawMarketEvent) :=
  match find_row xr_event_id id (db_experimental (content db)) with
  | Some r => let! e := row_experimental r in Ok (Some e)
  | None => Ok None
  end.

Definition sql_experimental_event_count (db : DB) : Z := size (db_experimental (content db)).

Definition sql_list_experimental_events (db : DB) : result (list RawMarketEvent) :=
  rows_of row_experimental (scan _ db (db_experimental (content db))).

Definition sql_save_raw_payload (hash : string) (p : RawPayload) : M DB bool := fun db =>
  let d := content db in add_row (set_db_payloads (db_payloads d ++ [payload_row hash p]) d) db.

(** [purge_raw_payloads_before]: the hashes of the events of any snapshot stay *)
Definition sql_protected (d : Database) : list string :=
  omap (fun r => if bool_decide (er_event_id r ∈ map me_event_id (db_members d))
                 then er_source_payload_sha256 r else None) (db_events d).
Definition sql_removable (d : Database) (cutoff_at : Z) (r : RawMarketPayloadRow) : bool :=
  (pw_received_at r <? cutoff_at)%Z && negb (bool_decide (pw_payload_sha256 r ∈ sql_protected d)).
Definition sql_purge_raw_payloads_before (cutoff_at : Z) : M DB Z := fun db =>
  let d := content db in
  match commit (set_db_payloads (List.filter (fun r => negb (sql_removable d cutoff_at r)) (db_payloads d)) d) db with
  | (db', Ok _) => (db', Ok (count (sql_removable d cutoff_at) (db_payloads d)))
  | (db', Err x) => (db', Err x)
  end.

Definition sql_quarantine (e : RawMarketEvent) (reason : string) (at_ : Z) : M DB unit := fun db =>
  let d := content db in
  let row := {| qr_event_id := re_event_id e; qr_reason := reason; qr_raw_payload := re_raw_payload e;
                qr_quarantined_at := at_ |} in
  commit (set_db_quarantine (db_quarantine d ++ [row]) d) db.

Definition sql_quarantine_count (event_ids : option (list string)) (db : DB) : Z :=
  count (fun r => match event_ids with Some ids => bool_decide (qr_event_id r ∈ ids) | None => true end)
    (db_quarantine (content db)).

Definition sql_quarantine_summary (cutoff_at : Z) (db : DB) : list string * list (string * Z) :=
  let rows := scan _ db (List.filter (fun r => qr_quarantined_at r <=? cutoff_at)%Z (db_quarantine (content db))) in
  (sorted_by string_leb (dict_fromkeys (map qr_event_id rows)),
   sorted_by (fun a b : string * Z => string_leb a.1 b.1) (reason_counts (map qr_reason rows))).

Definition sql_save_collection_failure (f : CollectionFailureEvent) : M DB unit := fun db =>
  let d := content db in commit (set_db_failures (db_failures d ++ [f]) d) db.

Definition sql_collection_failures (db : DB) : list CollectionFailureEvent := db_failures (content db).

(** *** Snapshots *)

Definition new_snapshot_row (m : DataSnapshotManifest) : DataSnapshotRow := {|
  nr_snapshot_id := sm_snapshot_id m; nr_cutoff_at := sm_cutoff_at m; nr_event_count := size (sm_events m);
  nr_content_sha256 := sm_content_sha256 m; nr_manifest_sha256 := None; nr_manifest_json := None;
  nr_quarantine_count := sm_quarantine_count m; nr_finalized_at := None;
  nr_eligibility_status := sm_eligibility_status m;
  nr_eligibility_reasons_json := untext (dumps default_style (JArray (map jstr (sm_eligibility_reasons m))));
  nr_created_at := sm_finalized_at m |}.
Definition finalized_row (m : DataSnapshotManifest) (r : DataSnapshotRow) : DataSnapshotRow := {|
  nr_snapshot_id := nr_snapshot_id r; nr_cutoff_at := nr_cutoff_at r; nr_event_count := size (sm_events m);
  nr_content_sha256 := sm_content_sha256 m; nr_manifest_sha256 := Some (sm_manifest_sha256 m);
  nr_manifest_json := Some (manifest_text m); nr_quarantine_count := sm_quarantine_count m;
  nr_finalized_at := Some (sm_finalized_at m); nr_eligibility_status := sm_eligibility_status m;
  nr_eligibility_reasons_json := untext (dumps default_style (JArray (map jstr (sm_eligibility_reasons m))));
  nr_created_at := nr_created_at r |}.
Definition member_row (m : DataSnapshotManifest) (member : Z * string * string) : DataSnapshotEventRow := {|
  me_snapshot_id := sm_snapshot_id m; me_event_id := member_id member; me_ordinal := member.1.1;
  me_event_payload_sha256 := member.2; me_included_at := sm_finalized_at m |}.

Definition member_in_table (d : Database) (member : Z * string * string) : bool :=
  match find_row er_event_id (member_id member) (db_events d) with
  | Some r => bool_decide (er_payload_sha256 r = member.2)
  | None => false
  end.

Definition sql_save_snapshot (id : string) (cutoff_at event_count : Z) (content_sha256 : string) : M DB unit := fun db =>
  let d := content db in
  match find_row nr_snapshot_id id (db_snapshots d) with
  | Some r =>
      (db, if bool_decide (nr_content_sha256 r = content_sha256) && (nr_event_count r =? event_count)%Z &&
              (nr_cutoff_at r =? cutoff_at)%Z
           then Ok tt else Err (ValueError "snapshot id is already bound to different data"))
  | None =>
      commit (set_db_snapshots (db_snapshots d ++
        [{| nr_snapshot_id := id; nr_cutoff_at := cutoff_at; nr_event_count := event_count;
            nr_content_sha256 := content_sha256; nr_manifest_sha256 := None; nr_manifest_json := None;
            nr_quarantine_count := 0; nr_finalized_at := None; nr_eligibility_status := "FINALIZED_NOT_ELIGIBLE";
            nr_eligibility_reasons_json := "[]"; nr_created_at := cutoff_at |}]) d) db
  end.

(** The ids and the ordinals of a manifest differ, so that no two rows of it collide before
    the commit. *)
Definition finalize_rows (m : DataSnapshotManifest) (snapshots : list DataSnapshotRow) (d : Database) (db : DB)
  : DB * result unit :=
  if negb (forallb (member_in_table d) (sm_events m))
  then (db, Err (ValueError "snapshot membership references missing or changed event"))
  else commit (set_db_members (db_members d ++ map (member_row m) (sm_events m))
                 (set_db_snapshots (change_row nr_snapshot_id (sm_snapshot_id m) (finalized_row m) snapshots) d)) db.

Definition sql_finalize_snapshot (m : DataSnapshotManifest) : M DB unit := fun db =>
  let d := content db in
  match find_row nr_snapshot_id (sm_snapshot_id m) (db_snapshots d) with
  | Some r =>
      match nr_finalized_at r with
      | Some _ => (db, if bool_decide (nr_manifest_sha256 r = Some (sm_manifest_sha256 m)) then Ok tt
                       else Err (ValueError "finalized snapshot is immutable"))
      | None =>
          if negb (bool_decide (nr_content_sha256 r = sm_content_sha256 m))
          then (db, Err (ValueError "snapshot id is already bound to different data"))
          else finalize_rows m (db_snapshots d) d db
      end
  | None => finalize_rows m (db_snapshots d ++ [new_snapshot_row m]) d db
  end.

Definition sql_snapshot_manifest (id : string) (db : DB) : result (option DataSnapshotManifest) :=
  match find_row nr_snapshot_id id (db_snapshots (content db)) with
  | Some r =>
      match nr_finalized_at r, nr_manifest_json r with
      | Some _, Some s => let! m := read_manifest s in Ok (Some m)
      | _, _ => Ok None
      end
  | None => Ok None
  end.

Definition ordinal_leb (a b : DataSnapshotEventRow) : bool := (me_ordinal a <=? me_ordinal b)%Z.
Definition sql_snapshot_events (id : string) (db : DB) : result (list RawMarketEvent) :=
  let d := content db in
  let members := sorted_by ordinal_leb (List.filter (fun r => bool_decide (me_snapshot_id r = id)) (db_members d)) in
  rows_of row_event (omap (fun r => find_row er_event_id (me_event_id r) (db_events d)) members).

(** *** Checkpoints *)

Definition checkpoint_key (r : MarketDataCheckpointRow) : string * string := (kr_venue r, kr_stream_key r).

(** The venue and the key of a row are the ones it was found by, so that setting its other
    columns makes it the row of the checkpoint. *)
Definition sql_save_checkpoint (c : CollectionCheckpoint) : M DB unit := fun db =>
  let d := content db in
  let row := checkpoint_row c in
  match find_row checkpoint_key (checkpoint_key row) (db_checkpoints d) with
  | None => commit (set_db_checkpoints (db_checkpoints d ++ [row]) d) db
  | Some _ =>
      commit (set_db_checkpoints (change_row checkpoint_key (checkpoint_key row) (fun _ => row) (db_checkpoints d)) d) db
  end.

Definition sql_get_checkpoint (namespace venue stream_key : string) (db : DB)
  : result (option CollectionCheckpoint) :=
  match find_row checkpoint_key (venue, checkpoint_storage_key stream_key namespace) (db_checkpoints (content db)) with
  | Some r => let! c := row_checkpoint stream_key r in Ok (Some c)
  | None => Ok None
  end.

(** [stream_key.split("::", 1)[1]] when there is one *)
Fixpoint after_colons (s : string) : option string :=
  match s with
  | EmptyString => None
  | String a rest =>
      match rest with
      | String b rest' => if bool_decide (a = chr 58) && bool_decide (b = chr 58) then Some rest' else after_colons rest
      | EmptyString => None
      end
  end.
Definition listed_key (namespace stream_key : string) : string :=
  if bool_decide (namespace = "production") then stream_key else default stream_key (after_colons stream_key).
Definition sql_list_checkpoints (namespace : string) (db : DB) : result (list CollectionCheckpoint) :=
  let rows := scan _ db (List.filter (fun r => bool_decide (kr_checkpoint_namespace r = namespace))
                           (db_checkpoints (content db))) in
  gather (fun r => let! c := sql_get_checkpoint namespace (kr_venue r) (listed_key namespace (kr_stream_key r)) db in
                   Ok (match c with Some c => [c] | None => [] end)) rows.

(** *** Rules, runs, hypotheses, artifacts *)

#[local] Instance row_decimal_eq_dec : EqDecision Q.
Proof. solve_decision. Defined.
#[local] Instance rule_row_eq_dec : EqDecision InstrumentRuleSnapshotRow.
Proof. solve_decision. Defined.

Definition sql_save_instrument_rule (r : InstrumentRuleSnapshot) : M DB unit := fun db =>
  let d := content db in
  match find_row ur_rule_snapshot_id (ir_rule_snapshot_id r) (db_rules d) with
  | Some current => (db, if bool_decide (current = rule_row r) then Ok tt
                         else Err (ValueError "instrument rule snapshot is immutable"))
  | None => commit (set_db_rules (db_rules d ++ [rule_row r]) d) db
  end.

Definition sql_instrument_rules (ids : list string) (db : DB) : result (list InstrumentRuleSnapshot) :=
  let d := content db in
  require! forallb (fun id => bool_decide (id ∈ map ur_rule_snapshot_id (db_rules d))) ids
    else ValueError "instrument rule snapshot is missing";
  rows_of row_rule (omap (fun id => find_row ur_rule_snapshot_id id (db_rules d)) ids).

Definition sql_instrument_rules_at (cutoff_at : Z) (db : DB) : result (list InstrumentRuleSnapshot) :=
  let valid r := (ur_valid_from r <=? cutoff_at)%Z &&
                 match ur_valid_until r with Some t => (cutoff_at <? t)%Z | None => true end in
  sql_instrument_rules (map ur_rule_snapshot_id (scan _ db (List.filter valid (db_rules (content db))))) db.

Definition run_row (i : ResearchRunIdentity) (status : string) (verdict : option string) : ResearchRunRow := {|
  gr_run_id := ri_run_id i; gr_commit_sha := ri_commit_sha i; gr_config_sha256 := ri_config_sha256 i;
  gr_data_snapshot_id := ri_data_snapshot_id i; gr_hypothesis_version := ri_hypothesis_version i;
  gr_strategy_id := ri_strategy_id i; gr_strategy_version := ri_strategy_version i; gr_status := status;
  gr_acceptance_verdict := verdict; gr_created_at := ri_created_at i;
  gr_completed_at := if bool_decide (status = "completed") then Some (ri_created_at i) else None |}.
Definition same_identity (r : ResearchRunRow) (i : ResearchRunIdentity) : bool :=
  bool_decide ((gr_commit_sha r, gr_config_sha256 r, gr_data_snapshot_id r, gr_hypothesis_version r, gr_strategy_id r,
                gr_strategy_version r) =
               (ri_commit_sha i, ri_config_sha256 i, ri_data_snapshot_id i, ri_hypothesis_version i, ri_strategy_id i,
                ri_strategy_version i)).
Definition restatus (i : ResearchRunIdentity) (status : string) (verdict : option string) (r : ResearchRunRow)
  : ResearchRunRow := {|
  gr_run_id := gr_run_id r; gr_commit_sha := gr_commit_sha r; gr_config_sha256 := gr_config_sha256 r;
  gr_data_snapshot_id := gr_data_snapshot_id r; gr_hypothesis_version := gr_hypothesis_version r;
  gr_strategy_id := gr_strategy_id r; gr_strategy_version := gr_strategy_version r; gr_status := status;
  gr_acceptance_verdict := verdict; gr_created_at := gr_created_at r;
  gr_completed_at := if bool_decide (status = "completed") then Some (ri_created_at i) else None |}.
Definition sql_save_run (i : ResearchRunIdentity) (status : string) (verdict : option string) : M DB unit := fun db =>
  let d := content db in
  match find_row gr_run_id (ri_run_id i) (db_runs d) with
  | None => commit (set_db_runs (db_runs d ++ [run_row i status verdict]) d) db
  | Some r =>
      if negb (same_identity r i) then (db, Err (ValueError "run id is already bound to a different identity"))
      else commit (set_db_runs (change_row gr_run_id (ri_run_id i) (restatus i status verdict) (db_runs d)) d) db
  end.

(** [json.dumps(asdict(hypothesis), default=str, sort_keys=True)] is an argument. *)
Definition sql_freeze_hypothesis (content_json : string) (h : FrozenHypothesis) : M DB unit := fun db =>
  let d := content db in
  match find_row (fun r => (hr_hypothesis_version r, hr_strategy_id r)) (fh_hypothesis_version h, fh_strategy_id h)
          (db_hypotheses d) with
  | Some r => (db, if bool_decide (hr_content_sha256 r = fh_content_sha256 h) then Ok tt
                   else Err (ValueError "parameter changes require a new hypothesis_version"))
  | None =>
      commit (set_db_hypotheses (db_hypotheses d ++
        [{| hr_hypothesis_version := fh_hypothesis_version h; hr_strategy_id := fh_strategy_id h;
            hr_content_sha256 := fh_content_sha256 h; hr_content_json := content_json;
            hr_frozen_at := fh_frozen_at h |}]) d) db
  end.

Definition sql_save_artifact (run_id data_snapshot_id artifact_type path content_sha256 : string) (created_at : Z)
  : M DB unit := fun db =>
  let d := content db in
  commit (set_db_artifacts (db_artifacts d ++
    [{| ar_run_id := run_id; ar_data_snapshot_id := data_snapshot_id; ar_artifact_type := artifact_type;
        ar_path := path; ar_content_sha256 := content_sha256; ar_created_at := created_at |}]) d) db.

End Repository.

(** ** A database

    The tables themselves: a row that does not fit its columns is refused. *)
#[export] Instance plain_database : PostgreSQL Database := {|
  content := fun d => d; scan := fun _ _ rows => rows;
  commit := fun d' d => if negb (storable_tables d') then (d, Err (OtherError "DataError"))
                        else if integrity d' then (d', Ok tt) else (d, Err IntegrityError) |}.
#[export] Instance plain_database_laws : PostgreSQLLaws Database.
Proof.
  split; [done|]. intros d db Hs. simpl. rewrite Hs. simpl. by destruct (integrity d).
Qed.
