(* ===== verification/ResearchSqlSafety.v ===== *)
(** * The database is the in-memory repository

    [PostgreSQLResearchRepository] answers every call as [InMemoryResearchRepository] does,
    as long as the rows fit their columns, the rows they refer to are there and the
    identities that the database compares more loosely agree. *)

From Stdlib Require Import ZArith QArith NArith Sorted Lia.
From stdpp Require Import base tactics sets list sorting strings.
From S2P Require Import Prelude Decimals Binary64 Evidence BindingSql Json PyText FundingCarry Websocket ShadowBook.
From S2P Require Import ShadowOnce Certification CertificationSafety ResearchStore Collector Snapshots SnapshotSafety.
From S2P Require Import ResearchSql.

Local Open Scope string_scope.
Local Open Scope list_scope.

(** ** A dictionary and the table of its rows

    The row of an entry is [f] of it and its key in the table [g] of the key of the entry. *)

Section Tables.
Context {K V R T : Type} `{EqDecision K} `{EqDecision T}.
Variables (f : K * V -> R) (key : R -> T) (g : K -> T).
Implicit Types (d : list (K * V)).

Definition tabulates d : Prop := Forall (fun kv => key (f kv) = g kv.1) d.
(** No other entry has its place in the table. *)
Definition apart (k : K) d : Prop := Forall (fun kv => g kv.1 = g k -> kv.1 = k) d.

Lemma find_row_dict k d :
  tabulates d -> apart k d -> find_row key (g k) (map f d) = option_map (fun v => f (k, v)) (dict_get k d).
Proof.
  unfold find_row. induction 1 as [|[k' v] d Hk Hd IH]; simpl; [done|]. intros [Ha Hd']%Forall_cons. simpl in *.
  rewrite Hk. destruct (decide (k = k')) as [->|Hne]; [by rewrite bool_decide_true|].
  rewrite bool_decide_false by (intros ?; apply Hne; symmetry; by apply Ha). auto.
Qed.

Lemma insert_fresh k v d : dict_get k d = None -> dict_set k v d = d ++ [(k, v)].
Proof.
  induction d as [|[k' v'] d IH]; simpl; [done|]. destruct (decide (k = k')); [done|]. intros H. by rewrite IH.
Qed.

Lemma change_row_dict k v (h : R -> R) d :
  tabulates d -> apart k d -> NoDup (dict_keys d) ->
  (forall v0, dict_get k d = Some v0 -> h (f (k, v0)) = f (k, v)) ->
  is_Some (dict_get k d) -> change_row key (g k) h (map f d) = map f (dict_set k v d).
Proof.
  intros Ht Ha Hnd Hh [v0 Hv0]. specialize (Hh v0 Hv0).
  unfold change_row. revert Ht Ha Hnd v0 Hv0 Hh.
  induction d as [|[k' v'] d IH]; simpl; [done|].
  intros [Hk Ht]%Forall_cons [Ha Had]%Forall_cons [Hni Hnd]%NoDup_cons v0 Hv0 Hh. simpl in *. rewrite Hk.
  destruct (decide (k = k')) as [->|Hne].
  - injection Hv0 as ->. rewrite bool_decide_true, Hh by done. simpl. f_equal.
    rewrite map_map. apply map_ext_in. intros [k2 v2] Hin%list_elem_of_In. rewrite Forall_forall in Ht, Had.
    rewrite (Ht _ Hin), bool_decide_false; [done|]. simpl. intros Hg. apply Hni.
    rewrite <- (Had _ Hin Hg). apply list_elem_of_fmap. by exists (k2, v2).
  - rewrite bool_decide_false by (intros ?; apply Hne; symmetry; by apply Ha). simpl. f_equal. by apply (IH Ht Had Hnd v0).
Qed.

Lemma key_unknown k d :
  tabulates d -> apart k d -> dict_get k d = None -> g k ∉ map key (map f d).
Proof.
  intros Ht Ha Hn (r & Hr & (kv & -> & Hkv)%list_elem_of_fmap)%list_elem_of_fmap.
  unfold tabulates, apart in *. rewrite Forall_forall in Ht, Ha. rewrite (Ht _ Hkv) in Hr.
  apply dict_get_None in Hn. apply Hn. rewrite <- (Ha _ Hkv (eq_sym Hr)). apply list_elem_of_fmap. by eexists.
Qed.

Lemma key_known k v d : tabulates d -> dict_get k d = Some v -> g k ∈ map key (map f d).
Proof.
  intros Ht Hin%dict_get_In. unfold tabulates in Ht. rewrite Forall_forall in Ht.
  rewrite <- (Ht _ Hin : _ = g k). by do 2 apply list_elem_of_fmap_2.
Qed.

Lemma known_key t d : tabulates d -> t ∈ map key (map f d) <-> exists k v, (k, v) ∈ d /\ g k = t.
Proof.
  unfold tabulates. rewrite Forall_forall. intros Ht. split.
  - intros (r & -> & ([k v] & -> & Hin)%list_elem_of_fmap)%list_elem_of_fmap. exists k, v. by rewrite (Ht _ Hin).
  - intros (k & v & Hin & <-). rewrite <- (Ht _ Hin : _ = g k). by do 2 apply list_elem_of_fmap_2.
Qed.

End Tables.

Lemma apart_id {K V} (k : K) (d : list (K * V)) : apart (fun k => k) k d.
Proof. by apply Forall_true. Qed.

(** Reading the rows of a scan *)
Lemma rows_of_map {A R B} (f : R -> result B) (g : A -> R) (h : A -> B) xs :
  Forall (fun x => f (g x) = Ok (h x)) xs -> rows_of f (map g xs) = Ok (map h xs).
Proof. unfold rows_of. induction 1 as [|x xs Hx Hxs IH]; simpl; [done|]. by rewrite Hx, IH. Qed.

Lemma rows_of_scan {A R B} (f : R -> result B) (g : A -> R) (h : A -> B) rows xs :
  rows ≡ₚ map g xs -> Forall (fun x => f (g x) = Ok (h x)) xs ->
  exists ys, rows_of f rows = Ok ys /\ ys ≡ₚ map h xs.
Proof.
  intros (xs' & -> & Hp)%Permutation_map_inv Hx. exists (map h xs'). split.
  - apply rows_of_map. by rewrite <- Hp.
  - by rewrite Hp.
Qed.

Lemma unique_snoc {A K} `{EqDecision K} (key : A -> K) rows r :
  unique key (rows ++ [r]) = true <-> unique key rows = true /\ key r ∉ map key rows.
Proof.
  unfold unique. rewrite !bool_decide_eq_true, map_app, NoDup_app. simpl. split; [set_solver|].
  intros [H1 H2]. split_and!; [done|set_solver|apply NoDup_singleton].
Qed.

Lemma references_app {A B K} `{EqDecision K} (key : A -> option K) rows rows' (target : B -> K) others :
  references key (rows ++ rows') target others = references key rows target others && references key rows' target others.
Proof. apply forallb_app. Qed.

Lemma references_spec {A B K} `{EqDecision K} (key : A -> option K) rows (target : B -> K) others :
  references key rows target others = true <->
  forall r k, r ∈ rows -> key r = Some k -> k ∈ map target others.
Proof.
  unfold references. rewrite forallb_forall. split.
  - intros H r k Hr%list_elem_of_In Hk. specialize (H r Hr). rewrite Hk in H. by apply bool_decide_eq_true in H.
  - intros H r Hr%list_elem_of_In. destruct (key r) as [k|] eqn:Hk; [|done]. apply bool_decide_eq_true. eauto.
Qed.

Lemma references_more {A B K} `{EqDecision K} (key : A -> option K) rows (target : B -> K) others others' :
  (forall k, k ∈ map target others -> k ∈ map target others') ->
  references key rows target others = true -> references key rows target others' = true.
Proof. rewrite !references_spec. eauto. Qed.

(** ** Reading back *)

Lemma enum_roundtrip {A} (value : A -> string) (members : list A) a :
  a ∈ members -> (forall b, value b = value a -> b = a) -> enum_of value members (value a) = Ok a.
Proof.
  intros Ha Hinj. unfold enum_of. induction members as [|b members IH]; simpl; [by apply not_elem_of_nil in Ha|].
  case_bool_decide as E; [by rewrite (Hinj b E)|]. apply IH. apply elem_of_cons in Ha as [->|]; done.
Qed.

Ltac enum_tac a := apply enum_roundtrip; [by destruct a; set_solver|by intros []; destruct a].
Lemma semantic_roundtrip a : enum_of semantic_value semantics (semantic_value a) = Ok a.
Proof. enum_tac a. Qed.
Lemma provenance_roundtrip a : enum_of provenance_value provenances (provenance_value a) = Ok a.
Proof. enum_tac a. Qed.
Lemma state_roundtrip a : enum_of reconciliation_value reconciliation_states (reconciliation_value a) = Ok a.
Proof. enum_tac a. Qed.
Lemma fee_tier_roundtrip a : enum_of fee_tier_value fee_tiers (fee_tier_value a) = Ok a.
Proof. enum_tac a. Qed.
Lemma rule_status_roundtrip a : enum_of rule_status_value rule_statuses (rule_status_value a) = Ok a.
Proof. enum_tac a. Qed.

Section Readback.
Context {D : Digest}.

(** An event as the code makes one: validated, with a state of the enumeration and no
    empty UUID *)
Definition event_ok (e : RawMarketEvent) : bool :=
  match RawMarketEvent_validate e with Ok _ => true | Err _ => false end &&
  match re_reconciliation_state e with
  | Some s => bool_decide (s ∈ map reconciliation_value reconciliation_states)
  | None => true
  end && match re_connection_id e with Some c => nonempty c | None => true end.

(** What the table of experimental events keeps of an event *)
Definition as_kept (e : RawMarketEvent) : RawMarketEvent := {|
  re_event_id := re_event_id e; re_venue := re_venue e; re_canonical_instrument_id := re_canonical_instrument_id e;
  re_venue_symbol := re_venue_symbol e; re_event_type := re_event_type e;
  re_exchange_timestamp := re_exchange_timestamp e; re_received_at := re_received_at e;
  re_available_at := re_available_at e; re_sequence := re_sequence e; re_connection_id := re_connection_id e;
  re_reconciliation_state := re_reconciliation_state e; re_payload_sha256 := re_payload_sha256 e;
  re_raw_payload := re_raw_payload e; re_normalizer_version := re_normalizer_version e;
  re_capability_verification_run_id := re_capability_verification_run_id e; re_created_at := re_received_at e;
  re_raw_payload_id := None; re_source_payload_sha256 := None; re_channel := re_channel e;
  re_snapshot_sequence := None; re_delta_sequence := None; re_connection_epoch := re_connection_epoch e;
  re_timestamp_semantic := re_timestamp_semantic e; re_availability_provenance := re_availability_provenance e;
  re_exchange_server_time := re_exchange_server_time e; re_timeframe := re_timeframe e |}.

Lemma state_of_value o :
  match o with Some s => bool_decide (s ∈ map reconciliation_value reconciliation_states) | None => true end = true ->
  state_of o = Ok o.
Proof.
  destruct o as [s|]; [|done]. intros (st & -> & _)%bool_decide_eq_true%list_elem_of_fmap. unfold state_of, present.
  assert (nonempty (reconciliation_value st) = true) as -> by by destruct st.
  by rewrite state_roundtrip.
Qed.

Lemma present_id o : match o with Some c => nonempty c | None => true end = true -> present o = o.
Proof. destruct o as [c|]; [|done]. simpl. by intros ->. Qed.

Lemma event_roundtrip e : event_ok e = true -> row_event (event_row e) = Ok e.
Proof.
  unfold event_ok. intros [[Hv Hs]%andb_prop Hc]%andb_prop. unfold row_event. simpl.
  rewrite (state_of_value _ Hs), semantic_roundtrip, provenance_roundtrip, (present_id _ Hc). simpl.
  destruct e; simpl in *. revert Hv. unfold RawMarketEvent_validate. simpl. repeat case_match; done.
Qed.

Lemma validate_as_kept e :
  match RawMarketEvent_validate e with Ok _ => true | Err _ => false end = true ->
  RawMarketEvent_validate (as_kept e) = Ok (as_kept e).
Proof.
  unfold RawMarketEvent_validate. cbn [as_kept re_event_id re_venue re_canonical_instrument_id re_venue_symbol
    re_event_type re_normalizer_version re_capability_verification_run_id re_raw_payload re_payload_sha256].
  destruct (negb (forallb _ _)); [done|]. by destruct (negb (bool_decide _)).
Qed.

Lemma experimental_roundtrip e support : event_ok e = true -> row_experimental (experimental_row e support) = Ok (as_kept e).
Proof.
  unfold event_ok. intros [[Hv Hs]%andb_prop Hc]%andb_prop. unfold row_experimental. cbn -[RawMarketEvent_validate state_of present].
  rewrite (state_of_value _ Hs), semantic_roundtrip, provenance_roundtrip, (present_id _ Hc). cbn [rbind].
  assert (text_or (present (Some (re_capability_verification_run_id e))) "unverified-experimental" =
          re_capability_verification_run_id e) as ->.
  { revert Hv. unfold RawMarketEvent_validate. destruct (forallb _ _) eqn:E; [intros _|done].
    cbn in E. unfold present, nonempty.
    destruct (bool_decide (re_capability_verification_run_id e = EmptyString)) eqn:Eb; [|simpl; unfold nonempty; by rewrite Eb].
    simpl in E. by rewrite !andb_false_r in E. }
  exact (validate_as_kept e Hv).
Qed.

Lemma checkpoint_roundtrip c : row_checkpoint (ck_stream_key c) (checkpoint_row c) = Ok c.
Proof. unfold row_checkpoint. simpl. rewrite state_roundtrip. by destruct c. Qed.

(** *** Keys of checkpoints *)

Lemma after_colons_split p k :
  forallb (fun c => negb (bool_decide (c = chr 58))) (text p) = true -> after_colons (p +:+ "::" +:+ k) = Some k.
Proof.
  induction p as [|a p IH]; [done|]. change (String a p +:+ "::" +:+ k) with (String a (p +:+ "::" +:+ k)).
  simpl. intros [Ha Hp]%andb_prop. apply negb_true_iff in Ha.
  destruct (p +:+ "::" +:+ k) as [|b r] eqn:E; [by destruct p|]. rewrite Ha. by apply IH.
Qed.

(** The digits of the hash of a namespace *)
Definition hash_plain (namespace : string) : bool :=
  forallb (fun c => negb (bool_decide (c = chr 58))) (text (String.substring 0 16 (sha256_hex namespace))).

Lemma listed_key_storage namespace k :
  hash_plain namespace = true -> listed_key namespace (checkpoint_storage_key k namespace) = k.
Proof.
  intros H. unfold listed_key, checkpoint_storage_key. case_bool_decide; [done|].
  assert (after_colons ("ns-" +:+ String.substring 0 16 (sha256_hex namespace) +:+ "::" +:+ k) = Some k) as ->.
  { exact (after_colons_split ("ns-" +:+ String.substring 0 16 (sha256_hex namespace)) k H). }
  done.
Qed.

End Readback.

(** *** Manifests *)

Lemma array_wf {A} (f : A -> json) xs : (forall x, json_wf (f x)) -> json_wf (JArray (map f xs)).
Proof. intros H. cbn [json_wf]. induction xs; by constructor. Qed.

Lemma loads_text v : json_wf v -> loads (text (untext (dumps compact_style v))) = Ok v.
Proof.
  intros H. unfold untext, text. rewrite String.list_ascii_of_string_of_list_ascii.
  by apply (loads_dumps _ compact_style_ok).
Qed.

Lemma list_of_map {A B} (f : json -> result B) (g : A -> json) (h : A -> B) xs :
  (forall x, f (g x) = Ok (h x)) -> list_of f (JArray (map g xs)) = Ok (map h xs).
Proof. intros H. apply (rows_of_map f g h). by apply Forall_true. Qed.

Lemma string_of_jstr s : string_of (jstr s) = Ok s.
Proof. unfold string_of, jstr. by rewrite untext_text. Qed.
Lemma member_of_json m : member_of (member_json m) = Ok m.
Proof. destruct m as [[a b] c]. unfold member_of, member_json. cbn [integer_of rbind]. by rewrite !string_of_jstr. Qed.
Lemma reason_of_json (r : string * Z) : reason_of (JArray [jstr r.1; JInt r.2]) = Ok r.
Proof. destruct r as [a b]. unfold reason_of. cbn [fst snd]. by rewrite string_of_jstr. Qed.

Lemma manifest_wf m : json_wf (JObject (manifest_fields m)).
Proof.
  split; [apply (bool_decide_unpack (NoDup _)); by vm_compute|].
  unfold manifest_fields. cbn [foldr snd].
  split_and!; try done; try apply array_wf; try done. by intros [[] ?].
Qed.

Definition times_ok (m : DataSnapshotManifest) : bool :=
  bool_decide (datetime_range (sm_cutoff_at m)) && bool_decide (datetime_range (sm_finalized_at m)).

Section Manifest.
Context {D : Digest} {P : IsoParser} {HP : IsoLaws P}.

Lemma time_of_str t : datetime_range t -> time_of (str_utc t) = Ok t.
Proof. intros H. unfold time_of, str_utc. by rewrite fromisoformat_str. Qed.

Lemma manifest_roundtrip m : times_ok m = true -> read_manifest (manifest_text m) = Ok m.
Proof.
  intros [Hc%bool_decide_eq_true Hf%bool_decide_eq_true]%andb_prop.
  unfold read_manifest, manifest_text. rewrite loads_text by apply manifest_wf. cbn [rbind].
  unfold item_of.
  repeat match goal with |- context [dict_get (text ?k) (manifest_fields ?m)] =>
    eassert (dict_get (text k) (manifest_fields m) = Some _) as -> by reflexivity end.
  cbn [rbind]. rewrite !string_of_jstr, !time_of_str by done. cbn [rbind integer_of].
  rewrite (list_of_map _ _ id) by apply member_of_json. cbn [rbind].
  rewrite (list_of_map _ _ id) by apply reason_of_json. cbn [rbind].
  rewrite !(list_of_map _ jstr id) by apply string_of_jstr. cbn [rbind]. unfold id. rewrite !map_id.
  by destruct m.
Qed.

End Manifest.

(** *** Rules *)

(** [==] of dictionaries, on the evidence of a rule *)
Definition evidence_ok (r : InstrumentRuleSnapshot) : bool :=
  bool_decide (NoDup (map fst (ir_field_evidence r))) &&
  forallb (fun kv : string * list (string * option string) => bool_decide (NoDup (map fst kv.2))) (ir_field_evidence r).
Definition rule_ok (r : InstrumentRuleSnapshot) : bool :=
  evidence_ok r && match InstrumentRuleSnapshot_validate r with Ok _ => true | Err _ => false end.

Lemma insert_by_map {A B} (le : B -> B -> bool) (f : A -> B) x xs :
  insert_by le (f x) (map f xs) = map f (insert_by (fun a b => le (f a) (f b)) x xs).
Proof. induction xs as [|y xs IH]; simpl; [done|]. case_match; simpl; [done|]. by rewrite IH. Qed.

Lemma sorted_by_map {A B} (le : B -> B -> bool) (f : A -> B) xs :
  sorted_by le (map f xs) = map f (sorted_by (fun a b => le (f a) (f b)) xs).
Proof.
  unfold sorted_by. induction xs as [|x xs IH]; simpl; [done|]. by rewrite IH, insert_by_map.
Qed.

Lemma sorted_by_ext {A} (le le' : A -> A -> bool) xs :
  (forall x y, le x y = le' x y) -> sorted_by le xs = sorted_by le' xs.
Proof.
  intros H. unfold sorted_by. induction xs as [|x xs IH]; simpl; [done|]. rewrite IH.
  generalize (foldr (insert_by le') [] xs). intros ys.
  induction ys as [|y ys IHy]; simpl; [done|]. by rewrite H, IHy.
Qed.

(** Sorting the keys of an object sorts the dictionary it prints. *)
Lemma sorted_object {A} (f : A -> json) (d : list (string * A)) :
  sorted_by key_order (map (fun kv => (text kv.1, f kv.2)) d) =
  map (fun kv => (text kv.1, f kv.2)) (sorted_items d).
Proof.
  rewrite sorted_by_map. f_equal. apply sorted_by_ext. intros x y. unfold key_order. simpl. by rewrite !untext_text.
Qed.

Lemma sorted_evidence_json evidence :
  sorted_json (evidence_json evidence) = evidence_json (sorted_evidence evidence).
Proof.
  unfold evidence_json. cbn [sorted_json]. f_equal. rewrite map_map. cbn [fst snd].
  rewrite (map_ext _ (fun kv : string * list (string * option string) =>
    (text kv.1, JObject (map (fun f => (text f.1, jopt jstr f.2)) (sorted_items kv.2))))).
  - unfold sorted_evidence. 
    by rewrite <- (sorted_object (fun v => JObject (map (fun f => (text f.1, jopt jstr f.2)) v))), map_map.
  - intros kv. f_equal. cbn [sorted_json]. f_equal. rewrite map_map.
    rewrite (map_ext _ (fun f : string * option string => (text f.1, jopt jstr f.2))) by by intros [k [v|]].
    apply sorted_object.
Qed.

Lemma object_wf {A} (f : A -> json) (d : list (string * A)) :
  NoDup (map fst d) -> Forall (fun kv => json_wf (f kv.2)) d ->
  json_wf (JObject (map (fun kv => (text kv.1, f kv.2)) d)).
Proof.
  intros Hnd Hd. split.
  - rewrite map_map. cbn [fst]. rewrite <- (map_map fst text). apply NoDup_fmap; [|done]. intros a b. apply text_inj.
  - clear Hnd. induction Hd; simpl; done.
Qed.

Lemma sorted_items_Permutation {A} (d : list (string * A)) : sorted_items d ≡ₚ d.
Proof. apply sorted_by_Permutation. Qed.

Lemma read_items_object {A} (f : A -> json) (g : json -> result A) (d : list (string * A)) :
  Forall (fun kv => g (f kv.2) = Ok kv.2) d ->
  read_items g (JObject (map (fun kv => (text kv.1, f kv.2)) d)) = Ok d.
Proof.
  unfold read_items. induction 1 as [|[k x] d Hx Hd IH]; simpl; [done|]. simpl in Hx. rewrite Hx. simpl.
  rewrite IH, untext_text. done.
Qed.

Lemma evidence_roundtrip r :
  evidence_ok r = true -> read_evidence (evidence_text (ir_field_evidence r)) = Ok (sorted_evidence (ir_field_evidence r)).
Proof.
  intros [Hnd%bool_decide_eq_true Hin]%andb_prop. rewrite forallb_forall in Hin.
  unfold read_evidence, evidence_text. rewrite sorted_evidence_json, loads_text; cbn [rbind]; unfold evidence_json.
  - apply (read_items_object (fun v => JObject (map (fun f => (text f.1, jopt jstr f.2)) v)) (read_items nullable_string)).
    apply Forall_true. intros [k v]. apply (read_items_object (jopt jstr)). apply Forall_true.
    intros [f [x|]]; simpl; [|done]. by rewrite untext_text.
  - apply (object_wf (fun v => JObject (map (fun f => (text f.1, jopt jstr f.2)) v))).
    + unfold sorted_evidence. rewrite sorted_items_Permutation, map_map. done.
    + unfold sorted_evidence. rewrite sorted_items_Permutation, Forall_map, Forall_forall. intros kv Hkv. cbn [snd].
      apply (object_wf (jopt jstr)); [|by apply Forall_true; intros [? []]].
      rewrite sorted_items_Permutation. apply list_elem_of_In in Hkv. by apply Hin, bool_decide_eq_true in Hkv.
Qed.

Lemma rule_roundtrip r : rule_ok r = true -> row_rule (rule_row r) = Ok (canonical_rule r).
Proof.
  intros [He Hv]%andb_prop. unfold row_rule. cbn [rule_row ur_field_evidence_json ur_fee_tier ur_verification_status].
  rewrite evidence_roundtrip, fee_tier_roundtrip, rule_status_roundtrip by done. cbn [rbind].
  revert Hv. unfold InstrumentRuleSnapshot_validate. cbn -[forallb String.length].
  destruct (forallb _ _); [|done]. by destruct (_ =? _)%nat.
Qed.

Lemma rule_row_canonical r r' :
  evidence_ok r = true -> evidence_ok r' = true -> rule_row r = rule_row r' <-> canonical_rule r = canonical_rule r'.
Proof.
  intros Hr Hr'. split.
  - intros H. assert (sorted_evidence (ir_field_evidence r) = sorted_evidence (ir_field_evidence r')) as Hs.
    { pose proof (f_equal ur_field_evidence_json H : evidence_text _ = evidence_text _) as Ht.
      pose proof (evidence_roundtrip r Hr) as H1. rewrite Ht, evidence_roundtrip in H1 by done. by injection H1. }
    assert (ir_fee_tier r = ir_fee_tier r').
    { pose proof (fee_tier_roundtrip (ir_fee_tier r)) as H1. change (fee_tier_value (ir_fee_tier r)) with (ur_fee_tier (rule_row r)) in H1.
      rewrite H in H1. cbn in H1. rewrite fee_tier_roundtrip in H1. by injection H1. }
    assert (ir_verification_status r = ir_verification_status r').
    { pose proof (rule_status_roundtrip (ir_verification_status r)) as H1.
      change (rule_status_value (ir_verification_status r)) with (ur_verification_status (rule_row r)) in H1.
      rewrite H in H1. cbn in H1. rewrite rule_status_roundtrip in H1. by injection H1. }
    unfold rule_row in H. injection H. intros.
    unfold canonical_rule, with_evidence. f_equal; assumption.
  - unfold canonical_rule, with_evidence. intros H. injection H. intros.
    assert (evidence_text (ir_field_evidence r) = evidence_text (ir_field_evidence r')) as Ht.
    { unfold evidence_text. rewrite !sorted_evidence_json. by do 3 f_equal. }
    unfold rule_row. rewrite Ht. f_equal; try assumption; f_equal; assumption.
Qed.
