(* ===== verification/ResearchSqlRefines.v ===== *)
(** * Calls of the research repositories, in memory and in PostgreSQL

    The calls of [ResearchRepository], what each of the two repositories does on them, the
    relation between a store and the tables that hold it, and the calls for which the two
    are expected to agree. *)

From Stdlib Require Import ZArith QArith NArith Sorted Lia.
From stdpp Require Import base tactics sets list sorting strings.
From S2P Require Import Prelude Decimals Binary64 Evidence BindingSql Json PyText FundingCarry Websocket ShadowBook.
From S2P Require Import ShadowOnce Certification CertificationSafety ResearchStore Collector Snapshots SnapshotSafety.
From S2P Require Import ResearchSql ResearchSqlSafety.

Local Open Scope string_scope.
Local Open Scope list_scope.

(** ** Calls and answers *)

Inductive StoreCall :=
  | AddRawEvent (e : RawMarketEvent)
  | GetRawEvent (id : string)
  | RawEvents
  | AddExperimentalEvent (e : RawMarketEvent) (support : string)
  | GetExperimentalEvent (id : string)
  | ExperimentalEventCount
  | ListExperimentalEvents
  | SaveRawPayload (hash : string) (p : RawPayload)
  | PurgeRawPayloadsBefore (cutoff_at : Z)
  | QuarantineEvent (e : RawMarketEvent) (reason : string) (at_ : Z)
  | QuarantineCount (ids : option (list string))
  | QuarantineSummary (cutoff_at : Z)
  | SaveCollectionFailure (f : CollectionFailureEvent)
  | CollectionFailures
  | SaveSnapshot (id : string) (cutoff_at event_count : Z) (content_sha256 : string)
  | FinalizeSnapshot (m : DataSnapshotManifest)
  | SnapshotManifest (id : string)
  | SnapshotEvents (id : string)
  | SaveCheckpoint (c : CollectionCheckpoint)
  | GetCheckpoint (namespace venue stream_key : string)
  | ListCheckpoints (namespace : string)
  | SaveInstrumentRule (r : InstrumentRuleSnapshot)
  | InstrumentRules (ids : list string)
  | InstrumentRulesAt (cutoff_at : Z)
  | SaveRun (i : ResearchRunIdentity) (status : string) (verdict : option string)
  | FreezeHypothesis (content_json : string) (h : FrozenHypothesis)
  | SaveArtifact (run_id data_snapshot_id artifact_type path content_sha256 : string) (created_at : Z).

Inductive Answer :=
  | Done
  | Added (b : bool)
  | Number (n : Z)
  | Event (e : option RawMarketEvent)
  | Events (es : list RawMarketEvent)
  | Summary (s : list string * list (string * Z))
  | Failures (fs : list CollectionFailureEvent)
  | Manifest (m : option DataSnapshotManifest)
  | Checkpoint (c : option CollectionCheckpoint)
  | Checkpoints (cs : list CollectionCheckpoint)
  | Rules (rs : list InstrumentRuleSnapshot).

Definition answering {S A} (wrap : A -> Answer) (m : M S A) : M S Answer := fun s =>
  let (s', r) := m s in (s', let! a := r in Ok (wrap a)).
Definition reading {S A} (wrap : A -> Answer) (f : S -> result A) : M S Answer := fun s =>
  (s, let! a := f s in Ok (wrap a)).

Definition memory_call (c : StoreCall) : M ResearchStore Answer :=
  match c with
  | AddRawEvent e => answering Added (add_raw_event e)
  | GetRawEvent id => answering Event (get_raw_event id)
  | RawEvents => reading Events (fun s => Ok (raw_events s))
  | AddExperimentalEvent e support => answering Added (add_experimental_event e support)
  | GetExperimentalEvent id => answering Event (get_experimental_event id)
  | ExperimentalEventCount => reading Number (fun s => Ok (experimental_event_count s))
  | ListExperimentalEvents => reading Events (fun s => Ok (list_experimental_events s))
  | SaveRawPayload hash p => answering Added (save_raw_payload hash p)
  | PurgeRawPayloadsBefore t => answering Number (purge_raw_payloads_before t)
  | QuarantineEvent e reason t => answering (fun _ => Done) (quarantine e reason t)
  | QuarantineCount ids => reading Number (fun s => Ok (quarantine_count s ids))
  | QuarantineSummary t => reading Summary (fun s => Ok (quarantine_summary s t))
  | SaveCollectionFailure f => answering (fun _ => Done) (save_collection_failure f)
  | CollectionFailures => reading Failures (fun s => Ok (rs_failures s))
  | SaveSnapshot id t n h => answering (fun _ => Done) (save_snapshot id t n h)
  | FinalizeSnapshot m => answering (fun _ => Done) (finalize_snapshot m)
  | SnapshotManifest id => reading Manifest (fun s => Ok (snapshot_manifest s id))
  | SnapshotEvents id => reading Events (fun s => snapshot_events s id)
  | SaveCheckpoint c => answering (fun _ => Done) (save_checkpoint c)
  | GetCheckpoint n v k => reading Checkpoint (fun s => Ok (get_checkpoint s n v k))
  | ListCheckpoints n => reading Checkpoints (fun s => Ok (list_checkpoints s n))
  | SaveInstrumentRule r => answering (fun _ => Done) (save_instrument_rule r)
  | InstrumentRules ids => reading Rules (fun s => instrument_rules s ids)
  | InstrumentRulesAt t => reading Rules (fun s => Ok (instrument_rules_at s t))
  | SaveRun i status verdict => answering (fun _ => Done) (save_run i status verdict)
  | FreezeHypothesis _ h => answering (fun _ => Done) (freeze_hypothesis h)
  | SaveArtifact r s t p h a => answering (fun _ => Done) (save_artifact r s t p h a)
  end.

Section SqlCall.
Context {D : Digest} {P : IsoParser} {DB : Type} {HD : PostgreSQL DB}.

Definition sql_call (c : StoreCall) : M DB Answer :=
  match c with
  | AddRawEvent e => answering Added (sql_add_raw_event e)
  | GetRawEvent id => reading Event (sql_get_raw_event id)
  | RawEvents => reading Events sql_raw_events
  | AddExperimentalEvent e support => answering Added (sql_add_experimental_event e support)
  | GetExperimentalEvent id => reading Event (sql_get_experimental_event id)
  | ExperimentalEventCount => reading Number (fun db => Ok (sql_experimental_event_count db))
  | ListExperimentalEvents => reading Events sql_list_experimental_events
  | SaveRawPayload hash p => answering Added (sql_save_raw_payload hash p)
  | PurgeRawPayloadsBefore t => answering Number (sql_purge_raw_payloads_before t)
  | QuarantineEvent e reason t => answering (fun _ => Done) (sql_quarantine e reason t)
  | QuarantineCount ids => reading Number (fun db => Ok (sql_quarantine_count ids db))
  | QuarantineSummary t => reading Summary (fun db => Ok (sql_quarantine_summary t db))
  | SaveCollectionFailure f => answering (fun _ => Done) (sql_save_collection_failure f)
  | CollectionFailures => reading Failures (fun db => Ok (sql_collection_failures db))
  | SaveSnapshot id t n h => answering (fun _ => Done) (sql_save_snapshot id t n h)
  | FinalizeSnapshot m => answering (fun _ => Done) (sql_finalize_snapshot m)
  | SnapshotManifest id => reading Manifest (sql_snapshot_manifest id)
  | SnapshotEvents id => reading Events (sql_snapshot_events id)
  | SaveCheckpoint c => answering (fun _ => Done) (sql_save_checkpoint c)
  | GetCheckpoint n v k => reading Checkpoint (sql_get_checkpoint n v k)
  | ListCheckpoints n => reading Checkpoints (sql_list_checkpoints n)
  | SaveInstrumentRule r => answering (fun _ => Done) (sql_save_instrument_rule r)
  | InstrumentRules ids => reading Rules (sql_instrument_rules ids)
  | InstrumentRulesAt t => reading Rules (sql_instrument_rules_at t)
  | SaveRun i status verdict => answering (fun _ => Done) (sql_save_run i status verdict)
  | FreezeHypothesis json h => answering (fun _ => Done) (sql_freeze_hypothesis json h)
  | SaveArtifact r s t p h a => answering (fun _ => Done) (sql_save_artifact r s t p h a)
  end.

End SqlCall.

(** The two agree on an answer: exceptions of one class; the rows of a query without an
    order in any order; an experimental event without the columns its table lacks; a rule
    with its evidence in the order of the keys. *)
Definition same_class (x y : exn) : Prop :=
  match x, y with ValueError _, ValueError _ => True | _, _ => x = y end.
Definition same_answer (c : StoreCall) (sql memory : Answer) : Prop :=
  match c, sql, memory with
  | RawEvents, Events xs, Events ys => xs ≡ₚ ys
  | GetExperimentalEvent _, Event x, Event y => x = option_map as_kept y
  | ListExperimentalEvents, Events xs, Events ys => xs ≡ₚ map as_kept ys
  | ListCheckpoints _, Checkpoints xs, Checkpoints ys => xs ≡ₚ ys
  | InstrumentRules _, Rules xs, Rules ys => xs = map canonical_rule ys
  | InstrumentRulesAt _, Rules xs, Rules ys => xs ≡ₚ map canonical_rule ys
  | _, x, y => x = y
  end.
Definition agree (c : StoreCall) (sql memory : result Answer) : Prop :=
  match sql, memory with
  | Ok x, Ok y => same_answer c x y
  | Err x, Err y => same_class x y
  | _, _ => False
  end.

(** ** Calls that the tables can hold *)

Definition quarantine_row (q : RawMarketEvent * string * Z) : MarketDataQuarantineRow := {|
  qr_event_id := re_event_id q.1.1; qr_reason := q.1.2; qr_raw_payload := re_raw_payload q.1.1;
  qr_quarantined_at := q.2 |}.
Definition artifact_row (a : string * string * string * string * string * Z) : ResearchArtifactRow := {|
  ar_run_id := a.1.1.1.1.1; ar_data_snapshot_id := a.1.1.1.1.2; ar_artifact_type := a.1.1.1.2; ar_path := a.1.1.2;
  ar_content_sha256 := a.1.2; ar_created_at := a.2 |}.
Definition hypothesis_row (content_json : string) (h : FrozenHypothesis) : FrozenHypothesisRow := {|
  hr_hypothesis_version := fh_hypothesis_version h; hr_strategy_id := fh_strategy_id h;
  hr_content_sha256 := fh_content_sha256 h; hr_content_json := content_json; hr_frozen_at := fh_frozen_at h |}.
Definition saved_snapshot_row (id : string) (cutoff_at event_count : Z) (content_sha256 : string) : DataSnapshotRow := {|
  nr_snapshot_id := id; nr_cutoff_at := cutoff_at; nr_event_count := event_count;
  nr_content_sha256 := content_sha256; nr_manifest_sha256 := None; nr_manifest_json := None;
  nr_quarantine_count := 0; nr_finalized_at := None; nr_eligibility_status := "FINALIZED_NOT_ELIGIBLE";
  nr_eligibility_reasons_json := "[]"; nr_created_at := cutoff_at |}.

Definition increasing (xs : list Z) : bool := forallb (fun p => p.1 <? p.2)%Z (pairwise xs).

Section Admissible.
Context {D : Digest}.

Definition manifest_ok (m : DataSnapshotManifest) : bool :=
  times_ok m && bool_decide (NoDup (map member_id (sm_events m))) && increasing (map (fun x => x.1.1) (sm_events m)) &&
  snapshot_fits (finalized_row m (new_snapshot_row m)) && forallb (fun x => member_fits (member_row m x)) (sm_events m).

Definition payload_ids (s : ResearchStore) : list string := map rp_payload_id (dict_values (rs_raw_payloads s)).
Definition place (k : string * string * string) : string * string := (k.1.2, checkpoint_storage_key k.2 k.1.1).
(** No stored checkpoint of another namespace has its storage key. *)
Definition place_free (s : ResearchStore) (k : string * string * string) : bool :=
  forallb (fun kv : (string * string * string) * CollectionCheckpoint =>
    negb (bool_decide (place kv.1 = place k)) || bool_decide (kv.1 = k)) (rs_checkpoints s).

(** The payloads that a purge leaves *)
Definition protected_hashes (s : ResearchStore) : list string :=
  match gather (protected_hash s) (snapshot_members s) with Ok hs => hs | Err _ => [] end.
Definition purged (s : ResearchStore) (cutoff_at : Z) (kv : string * RawPayload) : bool :=
  (rp_received_at kv.2 <? cutoff_at)%Z && negb (bool_decide (kv.1 ∈ protected_hashes s)).

(** Every row fits its columns and refers to rows that are there.  Where the database
    compares less than memory does, what it leaves out agrees: the cutoff and the size of
    an unfinalized snapshot of the same content, the content of a manifest of the same
    hash, the creation time of a run of the same identity. *)
Definition admissible (s : ResearchStore) (c : StoreCall) : bool :=
  match c with
  | AddRawEvent e =>
      event_ok e && event_fits (event_row e) &&
      match re_raw_payload_id e with Some id => bool_decide (id ∈ payload_ids s) | None => true end
  | AddExperimentalEvent e support => event_ok e && experimental_fits (experimental_row e support)
  | SaveRawPayload hash p =>
      payload_fits (payload_row hash p) &&
      (dict_mem hash (rs_raw_payloads s) || negb (bool_decide (rp_payload_id p ∈ payload_ids s)))
  | PurgeRawPayloadsBefore t =>
      forallb (fun kv => match re_raw_payload_id kv.2 with
                         | Some id => bool_decide (id ∈ map (fun kv => rp_payload_id kv.2)
                                        (List.filter (fun kv => negb (purged s t kv)) (rs_raw_payloads s)))
                         | None => true
                         end) (rs_events s)
  | QuarantineEvent e reason t => quarantine_fits (quarantine_row (e, reason, t))
  | SaveCollectionFailure f => failure_fits f
  | SaveSnapshot id t n h => snapshot_fits (saved_snapshot_row id t n h)
  | FinalizeSnapshot m =>
      manifest_ok m &&
      match dict_get (sm_snapshot_id m) (rs_snapshot_manifests s) with
      | Some m' => bool_decide (sm_manifest_sha256 m' = sm_manifest_sha256 m -> m' = m)
      | None =>
          match dict_get (sm_snapshot_id m) (rs_snapshots s) with
          | Some v => bool_decide (v.2 = sm_content_sha256 m -> v.1 = (sm_cutoff_at m, size (sm_events m)))
          | None => true
          end
      end
  | SaveCheckpoint c =>
      checkpoint_fits (checkpoint_row c) && hash_plain (ck_checkpoint_namespace c) &&
      place_free s (ck_checkpoint_namespace c, ck_venue c, ck_stream_key c)
  | GetCheckpoint n v k => place_free s (n, v, k)
  | SaveInstrumentRule r => rule_ok r && rule_fits (rule_row r)
  | InstrumentRules ids => forallb (fun id => dict_mem id (rs_rules s)) ids
  | SaveRun i status verdict =>
      run_row_fits (run_row i status verdict) && dict_mem (ri_data_snapshot_id i) (rs_snapshots s) &&
      dict_mem (ri_strategy_id i, ri_hypothesis_version i) (rs_hypotheses s) &&
      match dict_get (ri_run_id i) (rs_runs s) with
      | Some r => bool_decide (same_identity (run_row r.1.1 r.1.2 r.2) i = true -> r.1.1 = i)
      | None => true
      end
  | FreezeHypothesis json h => hypothesis_fits (hypothesis_row json h)
  | SaveArtifact r s' t p h a =>
      artifact_fits (artifact_row (r, s', t, p, h, a)) &&
      match dict_get r (rs_runs s) with Some run => bool_decide (ri_data_snapshot_id run.1.1 = s') | None => false end
  | _ => true
  end.

(** ** The store that the tables hold *)

Definition snapshot_entry (r : DataSnapshotRow) : string * (Z * Z * string) :=
  (nr_snapshot_id r, (nr_cutoff_at r, nr_event_count r, nr_content_sha256 r)).
Definition finalized_as (s : ResearchStore) (r : DataSnapshotRow) : Prop :=
  match dict_get (nr_snapshot_id r) (rs_snapshot_manifests s) with
  | Some m => is_Some (nr_finalized_at r) /\ nr_manifest_sha256 r = Some (sm_manifest_sha256 m) /\
              nr_manifest_json r = Some (manifest_text m)
  | None => nr_finalized_at r = None
  end.
Definition hypothesis_key (r : FrozenHypothesisRow) : string * string := (hr_strategy_id r, hr_hypothesis_version r).

Record represents (d : Database) (s : ResearchStore) : Prop := {
  rep_storable : storable_tables d = true;
  rep_integrity : integrity d = true;
  rep_events : db_events d = map (fun kv => event_row kv.2) (rs_events s);
  rep_event_keys : tabulates (fun kv => event_row kv.2) er_event_id (fun k => k) (rs_events s);
  rep_events_ok : Forall (fun kv => event_ok kv.2 = true) (rs_events s);
  rep_payloads : db_payloads d = map (fun kv => payload_row kv.1 kv.2) (rs_raw_payloads s);
  rep_experimental : db_experimental d = map (fun kv => experimental_row kv.2.1 kv.2.2) (rs_experimental_events s);
  rep_experimental_keys :
    tabulates (fun kv => experimental_row kv.2.1 kv.2.2) xr_event_id (fun k => k) (rs_experimental_events s);
  rep_experimental_ok : Forall (fun kv => event_ok kv.2.1 = true) (rs_experimental_events s);
  rep_quarantine : db_quarantine d = map quarantine_row (rs_quarantined s);
  rep_failures : db_failures d = rs_failures s;
  rep_checkpoints : db_checkpoints d = map (fun kv => checkpoint_row kv.2) (rs_checkpoints s);
  rep_checkpoint_keys :
    Forall (fun kv => kv.1 = (ck_checkpoint_namespace kv.2, ck_venue kv.2, ck_stream_key kv.2)) (rs_checkpoints s);
  rep_checkpoint_hashes : Forall (fun kv => hash_plain kv.1.1.1 = true) (rs_checkpoints s);
  rep_snapshots : map snapshot_entry (db_snapshots d) = rs_snapshots s;
  rep_finalized : Forall (finalized_as s) (db_snapshots d);
  rep_manifest_keys : NoDup (dict_keys (rs_snapshot_manifests s));
  rep_manifests :
    Forall (fun kv => kv.1 = sm_snapshot_id kv.2 /\ manifest_ok kv.2 = true /\ is_Some (dict_get kv.1 (rs_snapshots s)))
      (rs_snapshot_manifests s);
  rep_members : db_members d =
    flat_map (fun kv => map (member_row kv.2) (sm_events kv.2)) (rs_snapshot_manifests s);
  rep_rules : db_rules d = map (fun kv => rule_row kv.2) (rs_rules s);
  rep_rule_keys : tabulates (fun kv => rule_row kv.2) ur_rule_snapshot_id (fun k => k) (rs_rules s);
  rep_rules_ok : Forall (fun kv => rule_ok kv.2 = true) (rs_rules s);
  rep_runs : db_runs d = map (fun kv => run_row kv.2.1.1 kv.2.1.2 kv.2.2) (rs_runs s);
  rep_run_keys : tabulates (fun kv => run_row kv.2.1.1 kv.2.1.2 kv.2.2) gr_run_id (fun k => k) (rs_runs s);
  rep_hypotheses : map (fun r => (hypothesis_key r, hr_content_sha256 r)) (db_hypotheses d) =
    map (fun kv => (kv.1, fh_content_sha256 kv.2)) (rs_hypotheses s);
  rep_artifacts : db_artifacts d = map artifact_row (rs_artifacts s);
}.

End Admissible.

(** The empty tables hold the empty store. *)
Lemma represents_empty {D : Digest} : represents no_tables empty_store.
Proof. by constructor; try constructor. Qed.
