(* ===== verification/ResearchSqlSimulation.v ===== *)
(** * Every call keeps the tables and the store together

    One lemma for each call of the repository, and the theorem on whole sequences of
    calls. *)

From Stdlib Require Import ZArith QArith NArith Sorted Lia.
From stdpp Require Import base tactics sets list sorting strings.
From S2P Require Import Prelude Decimals Binary64 Evidence BindingSql Json PyText FundingCarry Websocket ShadowBook.
From S2P Require Import ShadowOnce Certification CertificationSafety ResearchStore Collector Snapshots SnapshotSafety.
From S2P Require Import ResearchSql ResearchSqlSafety ResearchSqlRefines.

Local Open Scope string_scope.
Local Open Scope list_scope.

#[local] Opaque manifest_text.

Section Simulation.
Context {D : Digest} {P : IsoParser} {HP : IsoLaws P} {DB : Type} {HD : PostgreSQL DB} {HL : PostgreSQLLaws DB}.

Definition simulated (c : StoreCall) (db : DB) (s : ResearchStore) : Prop :=
  represents (content (sql_call c db).1) (memory_call c s).1 /\ agree c (sql_call c db).2 (memory_call c s).2.

(** ** Commits *)

Lemma commit_ok d db :
  storable_tables d = true -> integrity d = true -> exists db', commit d db = (db', Ok tt) /\ content db' = d.
Proof.
  intros Hs Hi. pose proof (commit_law d db Hs) as H. rewrite Hi in H. destruct (commit d db) as [db' r].
  destruct H as [Hr Hc]. simpl in *. exists db'. by subst.
Qed.

Lemma commit_refused d db :
  storable_tables d = true -> integrity d = false ->
  exists db', commit d db = (db', Err IntegrityError) /\ content db' = content db.
Proof.
  intros Hs Hi. pose proof (commit_law d db Hs) as H. rewrite Hi in H. destruct (commit d db) as [db' r].
  destruct H as [Hr Hc]. simpl in *. exists db'. by subst.
Qed.

(** A row added to a table, or refused as a duplicate *)
Lemma add_row_ok d db :
  storable_tables d = true -> integrity d = true -> exists db', add_row d db = (db', Ok true) /\ content db' = d.
Proof. intros Hs Hi. unfold add_row. destruct (commit_ok d db Hs Hi) as (db' & -> & Hc). by exists db'. Qed.

Lemma add_row_refused d db :
  storable_tables d = true -> integrity d <> true ->
  exists db', add_row d db = (db', Ok false) /\ content db' = content db.
Proof.
  intros Hs Hi%not_true_is_false. unfold add_row. destruct (commit_refused d db Hs Hi) as (db' & -> & Hc). by exists db'.
Qed.

(** The parts of [storable_tables] and [integrity] that a change of one table leaves as
    they are *)
Ltac tables := unfold storable_tables, integrity, set_db_events, set_db_payloads, set_db_experimental,
    set_db_quarantine, set_db_checkpoints, set_db_failures, set_db_snapshots, set_db_members, set_db_rules, set_db_runs,
    set_db_hypotheses, set_db_artifacts in *;
  cbn [db_events db_payloads db_experimental db_quarantine db_checkpoints db_failures db_snapshots db_members db_rules
       db_runs db_hypotheses db_artifacts] in *;
  rewrite !andb_true_iff in *; destruct_and?; split_and?; try assumption.
Ltac added := rewrite forallb_app, andb_true_iff; split; [assumption|]; cbn; by rewrite andb_true_r.

(** ** Events *)

Lemma simulates_add_raw_event e db s :
  represents (content db) s -> admissible s (AddRawEvent e) = true -> simulated (AddRawEvent e) db s.
Proof.
  intros Hr [[Hok Hfit]%andb_prop Hfk]%andb_prop. unfold simulated. cbn [sql_call memory_call].
  unfold answering, sql_add_raw_event, add_raw_event. set (d := content db) in *.
  assert (storable_tables (set_db_events (db_events d ++ [event_row e]) d) = true) as Hs.
  { pose proof (rep_storable _ _ Hr). tables. added. }
  unfold dict_mem. destruct (dict_get (re_event_id e) (rs_events s)) as [e'|] eqn:Eg.
  - destruct (add_row_refused (set_db_events (db_events d ++ [event_row e]) d) db Hs) as (db' & -> & Hc).
    + intros Hi. tables. match goal with H : unique er_event_id _ = true |- _ => apply unique_snoc in H as [_ Hn] end.
      apply Hn. rewrite (rep_events _ _ Hr). by eapply (key_known _ _ (fun k => k)); [apply Hr|].
    + simpl. by rewrite Hc.
  - assert (integrity (set_db_events (db_events d ++ [event_row e]) d) = true) as Hi.
    { pose proof (rep_integrity _ _ Hr). tables.
      - apply unique_snoc. split; [done|]. rewrite (rep_events _ _ Hr).
        apply (key_unknown _ _ (fun k => k) (re_event_id e)); [apply Hr|apply apart_id|done].
      - rewrite references_app, andb_true_iff. split; [done|]. apply references_spec.
        intros r k ->%list_elem_of_singleton. cbn. intros Hk. rewrite Hk in Hfk. apply bool_decide_eq_true in Hfk.
        rewrite (rep_payloads _ _ Hr), map_map. unfold payload_ids, dict_values in Hfk. by rewrite map_map in Hfk.
      - eapply references_more; [|done]. intros k. rewrite map_app. set_solver. }
    destruct (add_row_ok _ db Hs Hi) as (db' & -> & Hc). simpl. split; [|done]. rewrite Hc.
    assert (dict_set (re_event_id e) e (rs_events s) = rs_events s ++ [(re_event_id e, e)]) as Hset by by apply insert_fresh.
    pose proof (rep_events _ _ Hr) as He. destruct Hr. constructor; try done; cbn; rewrite Hset, ?map_app, ?He; try done.
    all: apply Forall_app; split; [done|by constructor].
Qed.


(** The row of a key *)
Lemma find_event id d s :
  represents d s -> find_row er_event_id id (db_events d) = option_map event_row (dict_get id (rs_events s)).
Proof.
  intros Hr. rewrite (rep_events _ _ Hr).
  apply (find_row_dict (fun kv => event_row kv.2) er_event_id (fun k => k)); [apply Hr|apply apart_id].
Qed.
Lemma event_of_key id e d s : represents d s -> dict_get id (rs_events s) = Some e -> row_event (event_row e) = Ok e.
Proof.
  intros Hr Hg%dict_get_In. apply event_roundtrip. pose proof (rep_events_ok _ _ Hr) as Hok.
  rewrite Forall_forall in Hok. by apply (Hok _ Hg).
Qed.

Lemma simulates_get_raw_event id db s : represents (content db) s -> simulated (GetRawEvent id) db s.
Proof.
  intros Hr. split; [done|]. cbn. unfold sql_get_raw_event. rewrite (find_event _ _ s) by done.
  destruct (dict_get id (rs_events s)) as [e|] eqn:E; simpl; [|done]. by rewrite (event_of_key _ _ _ _ Hr E).
Qed.

Lemma simulates_raw_events db s : represents (content db) s -> simulated RawEvents db s.
Proof.
  intros Hr. split; [done|]. cbn [sql_call memory_call reading snd]. unfold sql_raw_events.
  destruct (rows_of_scan row_event (fun kv : string * RawMarketEvent => event_row kv.2) snd
    (scan _ db (db_events (content db))) (rs_events s)) as (ys & -> & Hp); [|..|done].
  - by rewrite scan_law, (rep_events _ _ Hr).
  - eapply Forall_impl; [apply (rep_events_ok _ _ Hr)|]. intros kv. apply event_roundtrip.
Qed.

(** ** Experimental events *)

Lemma find_experimental id d s :
  represents d s -> find_row xr_event_id id (db_experimental d) =
    option_map (fun v => experimental_row v.1 v.2) (dict_get id (rs_experimental_events s)).
Proof.
  intros Hr. rewrite (rep_experimental _ _ Hr).
  apply (find_row_dict (fun kv => experimental_row kv.2.1 kv.2.2) xr_event_id (fun k => k)); [apply Hr|apply apart_id].
Qed.

Lemma simulates_add_experimental e support db s :
  represents (content db) s -> admissible s (AddExperimentalEvent e support) = true ->
  simulated (AddExperimentalEvent e support) db s.
Proof.
  intros Hr [Hok Hfit]%andb_prop. unfold simulated. cbn [sql_call memory_call].
  unfold answering, sql_add_experimental_event, add_experimental_event. set (d := content db) in *.
  set (d' := set_db_experimental _ d).
  assert (storable_tables d' = true) as Hs by (subst d'; pose proof (rep_storable _ _ Hr); tables; added).
  unfold dict_mem. destruct (dict_get (re_event_id e) (rs_experimental_events s)) as [e'|] eqn:Eg.
  - destruct (add_row_refused d' db Hs) as (db' & -> & Hc); [|simpl; by rewrite Hc].
    intros Hi. subst d'. tables.
    match goal with H : unique xr_event_id _ = true |- _ => apply unique_snoc in H as [_ Hn] end.
    apply Hn. rewrite (rep_experimental _ _ Hr). by eapply (key_known _ _ (fun k => k)); [apply Hr|].
  - assert (integrity d' = true) as Hi.
    { subst d'. pose proof (rep_integrity _ _ Hr). tables. apply unique_snoc. split; [done|].
      rewrite (rep_experimental _ _ Hr).
      apply (key_unknown _ _ (fun k => k) (re_event_id e)); [apply Hr|apply apart_id|done]. }
    destruct (add_row_ok _ db Hs Hi) as (db' & -> & Hc). simpl. split; [|done]. rewrite Hc.
    assert (dict_set (re_event_id e) (e, support) (rs_experimental_events s) =
            rs_experimental_events s ++ [(re_event_id e, (e, support))]) as Hset by by apply insert_fresh.
    pose proof (rep_experimental _ _ Hr) as He.
    destruct Hr. constructor; try done; cbn; rewrite Hset, ?map_app, ?He; try done.
    all: apply Forall_app; split; [done|by constructor].
Qed.

Lemma simulates_get_experimental id db s : represents (content db) s -> simulated (GetExperimentalEvent id) db s.
Proof.
  intros Hr. split; [done|]. cbn. unfold sql_get_experimental_event. rewrite (find_experimental _ _ s) by done.
  destruct (dict_get id (rs_experimental_events s)) as [[e support]|] eqn:E; simpl; [|done].
  rewrite experimental_roundtrip; [done|]. apply dict_get_In in E.
  pose proof (rep_experimental_ok _ _ Hr) as Hok. rewrite Forall_forall in Hok. by apply (Hok _ E).
Qed.

Lemma simulates_experimental_count db s : represents (content db) s -> simulated ExperimentalEventCount db s.
Proof.
  intros Hr. split; [done|]. cbn. unfold sql_experimental_event_count, experimental_event_count, size.
  by rewrite (rep_experimental _ _ Hr), length_map.
Qed.

Lemma simulates_list_experimental db s : represents (content db) s -> simulated ListExperimentalEvents db s.
Proof.
  intros Hr. split; [done|]. cbn [sql_call memory_call reading snd]. unfold sql_list_experimental_events.
  destruct (rows_of_scan row_experimental (fun kv : string * (RawMarketEvent * string) => experimental_row kv.2.1 kv.2.2)
    (fun kv => as_kept kv.2.1) (scan _ db (db_experimental (content db))) (rs_experimental_events s)) as (ys & -> & Hp).
  - by rewrite scan_law, (rep_experimental _ _ Hr).
  - eapply Forall_impl; [apply (rep_experimental_ok _ _ Hr)|]. intros kv. apply experimental_roundtrip.
  - cbn. unfold list_experimental_events, dict_values. by rewrite !map_map.
Qed.

(** ** Payloads, quarantine, failures *)

Lemma payload_table s :
  tabulates (fun kv : string * RawPayload => payload_row kv.1 kv.2) pw_payload_sha256 (fun k => k) (rs_raw_payloads s).
Proof. by apply Forall_true. Qed.

Lemma simulates_save_payload hash p db s :
  represents (content db) s -> admissible s (SaveRawPayload hash p) = true -> simulated (SaveRawPayload hash p) db s.
Proof.
  intros Hr [Hfit Hid]%andb_prop. unfold simulated. cbn [sql_call memory_call].
  unfold answering, sql_save_raw_payload, save_raw_payload. set (d := content db) in *.
  set (d' := set_db_payloads _ d).
  assert (storable_tables d' = true) as Hs by (subst d'; pose proof (rep_storable _ _ Hr); tables; added).
  unfold dict_mem in *. destruct (dict_get hash (rs_raw_payloads s)) as [p'|] eqn:Eg.
  - destruct (add_row_refused d' db Hs) as (db' & -> & Hc); [|simpl; by rewrite Hc].
    intros Hi. subst d'. tables.
    match goal with H : unique pw_payload_sha256 _ = true |- _ => apply unique_snoc in H as [_ Hn] end.
    apply Hn. rewrite (rep_payloads _ _ Hr). by eapply (key_known _ _ (fun k => k)); [apply payload_table|].
  - assert (integrity d' = true) as Hi.
    { simpl in Hid. apply negb_true_iff, bool_decide_eq_false in Hid.
      subst d'. pose proof (rep_integrity _ _ Hr). tables.
      - apply unique_snoc. split; [done|]. rewrite (rep_payloads _ _ Hr), map_map.
        unfold payload_ids, dict_values in Hid. by rewrite map_map in Hid.
      - apply unique_snoc. split; [done|]. rewrite (rep_payloads _ _ Hr).
        apply (key_unknown _ _ (fun k => k) hash); [apply payload_table|apply apart_id|done].
      - eapply references_more; [|done]. intros k. rewrite map_app. set_solver. }
    destruct (add_row_ok _ db Hs Hi) as (db' & -> & Hc). simpl. split; [|done]. rewrite Hc.
    pose proof (rep_payloads _ _ Hr) as He.
    destruct Hr. constructor; try done. cbn. by rewrite insert_fresh, map_app, He.
Qed.

Lemma simulates_quarantine e reason t db s :
  represents (content db) s -> admissible s (QuarantineEvent e reason t) = true ->
  simulated (QuarantineEvent e reason t) db s.
Proof.
  intros Hr Hfit. unfold simulated. cbn [sql_call memory_call admissible] in *.
  unfold answering, sql_quarantine, quarantine, pmodify. set (d := content db) in *. set (d' := set_db_quarantine _ d).
  assert (storable_tables d' = true) as Hs by (subst d'; pose proof (rep_storable _ _ Hr); tables; added).
  assert (integrity d' = true) as Hi by (subst d'; pose proof (rep_integrity _ _ Hr); by tables).
  destruct (commit_ok d' db Hs Hi) as (db' & -> & Hc). simpl. split; [|done]. rewrite Hc.
  pose proof (rep_quarantine _ _ Hr) as He. destruct Hr. constructor; try done. cbn. by rewrite map_app, He.
Qed.

Lemma count_map {A B} (f : B -> bool) (g : A -> B) xs : count f (map g xs) = count (fun x => f (g x)) xs.
Proof.
  unfold count. f_equal. induction xs as [|x xs IH]; simpl; [done|]. case_match; simpl; by rewrite IH.
Qed.

Lemma simulates_quarantine_count ids db s : represents (content db) s -> simulated (QuarantineCount ids) db s.
Proof.
  intros Hr. split; [done|]. cbn. unfold sql_quarantine_count, quarantine_count.
  by rewrite (rep_quarantine _ _ Hr), count_map.
Qed.

Lemma filter_map_comm {A B} (f : B -> bool) (g : A -> B) xs :
  List.filter f (map g xs) = map g (List.filter (fun x => f (g x)) xs).
Proof. induction xs as [|x xs IH]; simpl; [done|]. case_match; simpl; by rewrite IH. Qed.

(** The counts of reasons depend on how often each occurs only. *)
Lemma fromkeys_Permutation {A} `{EqDecision A} (xs ys : list A) : xs ≡ₚ ys -> dict_fromkeys xs ≡ₚ dict_fromkeys ys.
Proof.
  intros Hp. apply NoDup_Permutation; [apply dict_fromkeys_NoDup..|]. intros x. rewrite !dict_fromkeys_elem. by rewrite Hp.
Qed.

Definition occurrences (r : string) (rs : list string) : Z := count (fun x => bool_decide (x = r)) rs.

Lemma reason_counts_get_from r rs d :
  dict_get r (fold_left (fun counts reason => dict_set reason (default 0 (dict_get reason counts) + 1)%Z counts) rs d) =
  if decide (r ∈ rs) then Some (default 0 (dict_get r d) + occurrences r rs)%Z else dict_get r d.
Proof.
  revert d. induction rs as [|r' rs IH]; intros d; cbn [fold_left].
  { rewrite decide_False; [done|]. apply not_elem_of_nil. }
  rewrite IH. unfold occurrences, count. cbn [List.filter]. case_bool_decide as E.
  - subst r'. rewrite dict_get_set_eq. rewrite (decide_True (P := r ∈ r :: rs)) by by left. cbn [length default from_option].
    case_decide as Hin; f_equal; [rewrite Nat2Z.inj_succ; unfold id; lia|].
    assert (List.filter (fun x => bool_decide (x = r)) rs = []) as ->; [|done].
    clear -Hin. induction rs as [|x rs IH]; simpl; [done|]. rewrite bool_decide_false by (intros ->; apply Hin; by left).
    apply IH. intros ?. apply Hin. by right.
  - rewrite dict_get_set_ne by done. destruct (decide (r ∈ rs)) as [Hin|Hin].
    + by rewrite decide_True by by right.
    + rewrite decide_False; [done|]. by intros [?|?]%elem_of_cons.
Qed.

Lemma reason_counts_keys rs : NoDup (dict_keys (reason_counts rs)).
Proof.
  unfold reason_counts. assert (NoDup (dict_keys (@nil (string * Z)))) as H by constructor. revert H.
  generalize (@nil (string * Z)). induction rs as [|r rs IH]; intros d Hd; simpl; [done|]. by apply IH, dict_set_NoDup.
Qed.

Lemma reason_counts_Permutation rs rs' : rs ≡ₚ rs' -> reason_counts rs ≡ₚ reason_counts rs'.
Proof.
  intros Hp. apply NoDup_Permutation; [apply (NoDup_fmap_1 fst), reason_counts_keys..|]. intros [r n].
  assert (forall d : list (string * Z), NoDup (dict_keys d) -> (r, n) ∈ d <-> dict_get r d = Some n) as Hget.
  { intros d Hd. split; [by apply dict_In_get|apply dict_get_In]. }
  rewrite !Hget by apply reason_counts_keys. unfold reason_counts. rewrite !reason_counts_get_from.
  assert (occurrences r rs = occurrences r rs') as ->.
  { unfold occurrences, count. f_equal. clear -Hp.
    induction Hp as [|x l l' Hl IH|x y l|? ? ? H1 IH1 H2 IH2]; simpl; [done|case_match; simpl; by rewrite IH| |congruence].
    by repeat case_match. }
  by rewrite (decide_ext (r ∈ rs) (r ∈ rs')) by by rewrite Hp.
Qed.

Lemma simulates_quarantine_summary t db s : represents (content db) s -> simulated (QuarantineSummary t) db s.
Proof.
  intros Hr. split; [done|]. cbn [sql_call memory_call reading snd rbind agree same_answer]. f_equal.
  unfold sql_quarantine_summary, quarantine_summary. rewrite (rep_quarantine _ _ Hr), filter_map_comm. cbn [qr_quarantined_at quarantine_row].
  set (records := List.filter _ _).
  assert (scan _ db (map quarantine_row records) ≡ₚ map quarantine_row records) as Hp by apply scan_law.
  f_equal.
  - apply (sorted_by_unique string_leb string_leb_total string_leb_trans); [intros; by apply string_leb_antisym|].
    apply fromkeys_Permutation. by rewrite Hp, map_map.
  - apply (sorted_by_unique (fun a b : string * Z => string_leb a.1 b.1)).
    + intros a b. apply string_leb_total.
    + intros a b c. apply string_leb_trans.
    + intros [r n] [r' n'] Hx Hy H1 H2. simpl in *. pose proof (string_leb_antisym _ _ H1 H2) as <-.
      apply dict_In_get in Hx, Hy; [|apply reason_counts_keys..]. congruence.
    + apply reason_counts_Permutation. by rewrite Hp, map_map.
Qed.

Lemma simulates_failure f db s :
  represents (content db) s -> admissible s (SaveCollectionFailure f) = true -> simulated (SaveCollectionFailure f) db s.
Proof.
  intros Hr Hfit. unfold simulated. cbn [sql_call memory_call admissible] in *.
  unfold answering, sql_save_collection_failure, save_collection_failure, pmodify. set (d := content db) in *.
  set (d' := set_db_failures _ d).
  assert (storable_tables d' = true) as Hs by (subst d'; pose proof (rep_storable _ _ Hr); tables; added).
  assert (integrity d' = true) as Hi by (subst d'; pose proof (rep_integrity _ _ Hr); by tables).
  destruct (commit_ok d' db Hs Hi) as (db' & -> & Hc). simpl. split; [|done]. rewrite Hc.
  pose proof (rep_failures _ _ Hr) as He. destruct Hr. constructor; try done. cbn. by rewrite He.
Qed.

Lemma simulates_failures db s : represents (content db) s -> simulated CollectionFailures db s.
Proof. intros Hr. split; [done|]. cbn. unfold sql_collection_failures. by rewrite (rep_failures _ _ Hr). Qed.

(** ** The purge of payloads *)

Lemma member_ids d s : represents d s -> map me_event_id (db_members d) = snapshot_members s.
Proof.
  intros Hr. rewrite (rep_members _ _ Hr). unfold snapshot_members, dict_values.
  induction (rs_snapshot_manifests s) as [|[k m] ms IH]; simpl; [done|]. by rewrite map_app, map_map, IH.
Qed.

Lemma integrity_parts d :
  integrity d = true ->
  references er_raw_payload_id (db_events d) pw_payload_id (db_payloads d) = true /\
  references (fun r => Some (me_event_id r)) (db_members d) er_event_id (db_events d) = true /\
  references (fun r => Some (me_snapshot_id r)) (db_members d) nr_snapshot_id (db_snapshots d) = true /\
  unique pw_payload_id (db_payloads d) = true /\ unique pw_payload_sha256 (db_payloads d) = true /\
  unique (fun r => (kr_venue r, kr_stream_key r)) (db_checkpoints d) = true /\
  unique nr_snapshot_id (db_snapshots d) = true /\ unique ur_rule_snapshot_id (db_rules d) = true /\
  unique gr_run_id (db_runs d) = true /\ unique er_event_id (db_events d) = true /\
  references (fun r => Some (gr_data_snapshot_id r)) (db_runs d) nr_snapshot_id (db_snapshots d) = true.
Proof. intros H. unfold integrity in H. rewrite !andb_true_iff in H. destruct_and!. split_and!; assumption. Qed.

Lemma member_event d s id : represents d s -> id ∈ snapshot_members s -> is_Some (dict_get id (rs_events s)).
Proof.
  intros Hr. rewrite <- (member_ids d s Hr). intros (r & -> & Hm)%list_elem_of_fmap.
  destruct (integrity_parts d (rep_integrity _ _ Hr)) as (_ & Hfk & _). rewrite references_spec in Hfk.
  specialize (Hfk r _ Hm eq_refl). rewrite (rep_events _ _ Hr) in Hfk.
  destruct (dict_get (me_event_id r) (rs_events s)) eqn:E; [by eexists|].
  by apply (key_unknown (fun kv => event_row kv.2) er_event_id (fun k => k)) in E; [|apply Hr|apply apart_id].
Qed.

Lemma gather_total {A B} (f : A -> result (list B)) xs :
  (forall x, x ∈ xs -> exists ys, f x = Ok ys) -> exists ys, gather f xs = Ok ys.
Proof.
  induction xs as [|x xs IH]; intros H; simpl; [by eexists|]. destruct (H x) as [ys ->]; [by left|].
  destruct IH as [zs ->]; [intros y Hy; apply H; by right|]. by eexists.
Qed.

Lemma protected_defined d s : represents d s -> gather (protected_hash s) (snapshot_members s) = Ok (protected_hashes s).
Proof.
  intros Hr. destruct (gather_total (protected_hash s) (snapshot_members s)) as [ys Hys].
  { intros id Hid. unfold protected_hash. destruct (member_event d s id Hr Hid) as [e ->]. by eexists. }
  unfold protected_hashes. by rewrite Hys.
Qed.

Lemma protected_same d s h : represents d s -> h ∈ sql_protected d <-> h ∈ protected_hashes s.
Proof.
  intros Hr. rewrite (gather_elem_of _ _ _ (protected_defined d s Hr)). unfold sql_protected.
  rewrite (member_ids d s Hr), (rep_events _ _ Hr), list_elem_of_omap.
  assert (NoDup (dict_keys (rs_events s))) as Hnd.
  { destruct (integrity_parts d (rep_integrity _ _ Hr)) as (_&_&_&_&_&_&_&_&_&Hu&_).
    unfold unique in Hu. rewrite bool_decide_eq_true, (rep_events _ _ Hr), map_map in Hu.
    unfold dict_keys. rewrite (map_ext_in _ (fun kv => er_event_id (event_row kv.2))); [done|].
    intros kv Hkv%list_elem_of_In. pose proof (rep_event_keys _ _ Hr) as Hk. unfold tabulates in Hk.
    rewrite Forall_forall in Hk. symmetry. by apply Hk. }
  pose proof (rep_event_keys _ _ Hr) as Hk. unfold tabulates in Hk. rewrite Forall_forall in Hk. split.
  - intros (r & ([k e] & -> & Hin)%list_elem_of_fmap & Hh). revert Hh. cbn. case_bool_decide as Hm; [|done]. intros Hh.
    pose proof (Hk _ Hin) as Hid. cbn in Hid. exists (re_event_id e), [h]. split_and!; [done| |by left].
    unfold protected_hash. rewrite Hid, (dict_In_get _ _ _ Hnd Hin). by rewrite Hh.
  - intros (id & hs & Hm & Hp & Hh). unfold protected_hash in Hp. destruct (dict_get id (rs_events s)) as [e|] eqn:E; [|done].
    apply dict_get_In in E. pose proof (Hk _ E) as Hid. cbn in Hid. injection Hp as <-.
    exists (event_row e). split; [apply list_elem_of_fmap; by exists (id, e)|]. cbn. rewrite Hid, bool_decide_true by done.
    destruct (re_source_payload_sha256 e) as [h'|]; [|by apply not_elem_of_nil in Hh].
    by apply list_elem_of_singleton in Hh as ->.
Qed.

Lemma removable_same d s t kv :
  represents d s -> sql_removable d t (payload_row kv.1 kv.2) = purged s t kv.
Proof.
  intros Hr. unfold sql_removable, purged. cbn. f_equal. f_equal. apply bool_decide_ext. by apply protected_same.
Qed.

Lemma forallb_filter {A} (f g : A -> bool) xs : forallb f xs = true -> forallb f (List.filter g xs) = true.
Proof. rewrite !forallb_forall. intros H x [Hx _]%filter_In. auto. Qed.

Lemma unique_filter {A K} `{EqDecision K} (key : A -> K) (g : A -> bool) xs :
  unique key xs = true -> unique key (List.filter g xs) = true.
Proof.
  unfold unique. rewrite !bool_decide_eq_true. induction xs as [|x xs IH]; simpl; [done|].
  intros [Hn Hd]%NoDup_cons. case_match; simpl; [|auto]. constructor; [|auto].
  intros (y & Hy & Hin)%list_elem_of_fmap. apply Hn. apply list_elem_of_In, filter_In in Hin as [Hin _].
  apply list_elem_of_fmap. exists y. split; [done|]. by apply list_elem_of_In.
Qed.

Lemma simulates_purge t db s :
  represents (content db) s -> admissible s (PurgeRawPayloadsBefore t) = true -> simulated (PurgeRawPayloadsBefore t) db s.
Proof.
  intros Hr Hfk. cbn [admissible] in Hfk. unfold simulated. cbn [sql_call memory_call].
  unfold answering, sql_purge_raw_payloads_before, purge_raw_payloads_before. set (d := content db) in *.
  rewrite (protected_defined d s Hr).
  assert (forall f : bool -> bool, List.filter (fun r => f (sql_removable d t r)) (db_payloads d) =
    map (fun kv => payload_row kv.1 kv.2) (List.filter (fun kv => f (purged s t kv)) (rs_raw_payloads s))) as Hf.
  { intros f. rewrite (rep_payloads _ _ Hr), filter_map_comm. f_equal. apply filter_ext. intros kv. by rewrite (removable_same _ s). }
  set (d' := set_db_payloads _ d).
  assert (storable_tables d' = true) as Hs.
  { subst d'. pose proof (rep_storable _ _ Hr). tables. by apply forallb_filter. }
  assert (integrity d' = true) as Hi.
  { subst d'. pose proof (rep_integrity _ _ Hr). tables; try by apply unique_filter. apply references_spec.
    rewrite (rep_events _ _ Hr). intros r k ([id e] & -> & Hin)%list_elem_of_fmap. cbn. intros Hk.
    rewrite forallb_forall in Hfk. apply list_elem_of_In in Hin. specialize (Hfk _ Hin). cbn in Hfk. rewrite Hk in Hfk.
    apply bool_decide_eq_true in Hfk. rewrite (Hf negb), map_map. done. }
  destruct (commit_ok d' db Hs Hi) as (db' & -> & Hc). simpl. rewrite Hc. split.
  - pose proof (Hf negb) as He. destruct Hr. constructor; try done.
  - unfold count. by rewrite (Hf id : List.filter (sql_removable d t) _ = _), length_map.
Qed.

(** ** Snapshots *)

Lemma snapshot_get id rows :
  dict_get id (map snapshot_entry rows) =
  option_map (fun r => (nr_cutoff_at r, nr_event_count r, nr_content_sha256 r)) (find_row nr_snapshot_id id rows).
Proof.
  unfold find_row. induction rows as [|r rows IH]; simpl; [done|]. case_bool_decide as E.
  - by rewrite decide_True by done.
  - by rewrite decide_False by done.
Qed.

Lemma find_row_Some {A K} `{EqDecision K} (key : A -> K) k rows r :
  find_row key k rows = Some r -> r ∈ rows /\ key r = k.
Proof. intros [Hin Hk%bool_decide_eq_true]%find_some. by apply list_elem_of_In in Hin. Qed.

Lemma find_row_None {A K} `{EqDecision K} (key : A -> K) k rows : find_row key k rows = None -> k ∉ map key rows.
Proof.
  intros Hn (r & -> & Hin)%list_elem_of_fmap. apply list_elem_of_In in Hin. pose proof (find_none _ _ Hn _ Hin) as H.
  by apply bool_decide_eq_false in H.
Qed.

Lemma simulates_save_snapshot id t n h db s :
  represents (content db) s -> admissible s (SaveSnapshot id t n h) = true -> simulated (SaveSnapshot id t n h) db s.
Proof.
  intros Hr Hfit. unfold simulated. cbn [sql_call memory_call admissible] in *.
  unfold answering, sql_save_snapshot, save_snapshot. set (d := content db) in *.
  pose proof (snapshot_get id (db_snapshots d)) as Hg. rewrite (rep_snapshots _ _ Hr) in Hg.
  destruct (find_row nr_snapshot_id id (db_snapshots d)) as [r|] eqn:Ef; cbn [option_map] in Hg; rewrite Hg.
  - assert (bool_decide (nr_content_sha256 r = h) && (nr_event_count r =? n)%Z && (nr_cutoff_at r =? t)%Z =
            bool_decide ((nr_cutoff_at r, nr_event_count r, nr_content_sha256 r) = (t, n, h))) as ->.
    { apply eq_true_iff_eq. rewrite !andb_true_iff, !bool_decide_eq_true, !Z.eqb_eq. naive_solver. }
    case_bool_decide as E; [|by split]. rewrite dict_set_id by by rewrite Hg, E. split; [|done]. destruct Hr. by constructor.
  - change (set_db_snapshots _ d) with (set_db_snapshots (db_snapshots d ++ [saved_snapshot_row id t n h]) d).
    set (d' := set_db_snapshots _ d).
    assert (storable_tables d' = true) as Hs by (subst d'; pose proof (rep_storable _ _ Hr); tables; added).
    assert (integrity d' = true) as Hi.
    { subst d'. pose proof (rep_integrity _ _ Hr). tables.
      - apply unique_snoc. split; [done|]. by apply find_row_None.
      - eapply references_more; [|done]. intros k. rewrite map_app. set_solver.
      - eapply references_more; [|done]. intros k. rewrite map_app. set_solver.
      - eapply references_more; [|done]. intros k. rewrite map_app. set_solver. }
    destruct (commit_ok d' db Hs Hi) as (db' & -> & Hc). simpl. split; [|done]. rewrite Hc.
    assert (dict_get id (rs_snapshot_manifests s) = None) as Hm.
    { destruct (dict_get id (rs_snapshot_manifests s)) eqn:E; [|done]. apply dict_get_In in E.
      pose proof (rep_manifests _ _ Hr) as Hms. rewrite Forall_forall in Hms. destruct (Hms _ E) as (_ & _ & [? ?]).
      cbn in *. congruence. }
    pose proof (rep_snapshots _ _ Hr) as He. destruct Hr. constructor; try done; cbn.
    + by rewrite map_app, He, insert_fresh.
    + apply Forall_app. split; [done|]. constructor; [|done]. unfold finalized_as. cbn. by rewrite Hm.
    + eapply Forall_impl; [exact rep_manifests|]. cbn. intros [k m] (Hk & Hok & [v Hv]). split_and!; try done.
      destruct (decide (k = id)) as [->|]; [rewrite dict_get_set_eq|rewrite dict_get_set_ne]; eauto.
Qed.

Lemma member_in_table_same d s x : represents d s -> member_in_table d x = member_stored s x.
Proof.
  intros Hr. unfold member_in_table, member_stored. rewrite (find_event _ _ s) by done.
  by destruct (dict_get (member_id x) (rs_events s)).
Qed.

Lemma increasing_sorted xs : increasing xs = true -> StronglySorted Z.lt xs.
Proof.
  unfold increasing. intros H. apply Sorted_StronglySorted; [intros ?; lia|]. revert H.
  induction xs as [|x [|y xs] IH]; simpl; [constructor|by repeat constructor|].
  intros [Hx%Z.ltb_lt Hr]%andb_prop. constructor; [by apply IH|]. by constructor.
Qed.

Lemma sorted_NoDup xs : StronglySorted Z.lt xs -> NoDup xs.
Proof.
  induction 1 as [|x xs Hs IH Hx]; constructor; [|done]. rewrite Forall_forall in Hx. intros Hin. specialize (Hx _ Hin). lia.
Qed.

Lemma change_row_keys {A K} `{EqDecision K} (key : A -> K) k (f : A -> A) rows :
  (forall r, key (f r) = key r) -> map key (change_row key k f rows) = map key rows.
Proof. intros H. unfold change_row. rewrite map_map. apply map_ext. intros r. by case_bool_decide. Qed.

Lemma finalized_fits m r :
  manifest_ok m = true -> nr_snapshot_id r = sm_snapshot_id m -> snapshot_fits (finalized_row m r) = true.
Proof.
  unfold manifest_ok. rewrite !andb_true_iff. intros [[_ H] _] Hid. unfold snapshot_fits in *. cbn in *. by rewrite Hid.
Qed.

Lemma manifest_members m :
  manifest_ok m = true -> NoDup (map member_id (sm_events m)) /\ StronglySorted Z.lt (map (fun x => x.1.1) (sm_events m)) /\
    forallb member_fits (map (member_row m) (sm_events m)) = true /\ times_ok m = true.
Proof.
  unfold manifest_ok. rewrite !andb_true_iff. intros [[[[Ht Hn%bool_decide_eq_true] Ho%increasing_sorted] _] Hf].
  split_and!; try done. clear -Hf. induction (sm_events m); simpl in *; [done|]. rewrite andb_true_iff in *. naive_solver.
Qed.

(** Members of other snapshots have other keys. *)
Lemma unique_members {K} `{EqDecision K} (key : Z * string * string -> K) d s m :
  represents d s -> dict_get (sm_snapshot_id m) (rs_snapshot_manifests s) = None ->
  forall (key' : DataSnapshotEventRow -> K), (forall x, key' (member_row m x) = key x) -> NoDup (map key (sm_events m)) ->
  unique (fun r => (me_snapshot_id r, key' r)) (db_members d) = true ->
  unique (fun r => (me_snapshot_id r, key' r)) (db_members d ++ map (member_row m) (sm_events m)) = true.
Proof.
  intros Hr Hn key' Hk Hnd. unfold unique. rewrite !bool_decide_eq_true, map_app, NoDup_app. intros Hu. split_and!; [done| |].
  - intros p (r & -> & Hin)%list_elem_of_fmap (r' & Hp & Hin')%list_elem_of_fmap. injection Hp as Hid _.
    apply list_elem_of_fmap in Hin' as (x & -> & _). cbn in Hid. apply dict_get_None in Hn. apply Hn.
    rewrite (rep_members _ _ Hr) in Hin. apply list_elem_of_In, in_flat_map in Hin as ([k m'] & Hm & Hx).
    apply list_elem_of_In, list_elem_of_fmap in Hx as (y & -> & _). cbn in Hid. apply list_elem_of_In in Hm.
    pose proof (rep_manifests _ _ Hr) as Hms. rewrite Forall_forall in Hms. destruct (Hms _ Hm) as [Hk' _]. cbn in Hk'.
    rewrite <- Hid, <- Hk'. apply list_elem_of_fmap. by exists (k, m').
  - rewrite map_map. rewrite (map_ext _ (fun x => (sm_snapshot_id m, key x))) by (intros; cbn; by rewrite Hk).
    rewrite <- (map_map key (fun k => (sm_snapshot_id m, k))). apply NoDup_fmap; [|done]. by intros a b [= ->].
Qed.

(** ** Finalizing *)

Section Finalize.
Context (m : DataSnapshotManifest) (db : DB) (s : ResearchStore) (snaps : list DataSnapshotRow).
Context (Hr : represents (content db) s) (Hok : manifest_ok m = true).
Context (Hnew : dict_get (sm_snapshot_id m) (rs_snapshot_manifests s) = None).
Context (Hentry : dict_get (sm_snapshot_id m) (map snapshot_entry snaps) =
                  Some (sm_cutoff_at m, size (sm_events m), sm_content_sha256 m)).
Context (Hunique : unique nr_snapshot_id snaps = true) (Hfits : forallb snapshot_fits snaps = true).
Context (Hfinal : Forall (finalized_as s) snaps).
Context (Hkept : forall k, k ∈ map nr_snapshot_id (db_snapshots (content db)) -> k ∈ map nr_snapshot_id snaps).
Context (Hmembers : forallb (member_stored s) (sm_events m) = true).

Let d := content db.
Let rows := change_row nr_snapshot_id (sm_snapshot_id m) (finalized_row m) snaps.
Let d' := set_db_members (db_members d ++ map (member_row m) (sm_events m)) (set_db_snapshots rows d).

Lemma finalize_ids : map nr_snapshot_id rows = map nr_snapshot_id snaps.
Proof using. by apply change_row_keys. Qed.

Lemma finalize_storable : storable_tables d' = true.
Proof using Hr Hok Hfits.
  clear -Hr Hok Hfits d'. destruct (manifest_members m Hok) as (_ & _ & Hf & _).
  unfold d'. pose proof (rep_storable _ _ Hr : storable_tables d = true). tables.
  - unfold rows. unfold change_row. rewrite forallb_forall in *. intros r (r0 & <- & Hin)%in_map_iff.
    case_bool_decide as E; [by apply finalized_fits|auto].
  - by rewrite forallb_app, andb_true_iff.
Qed.

Lemma finalize_snapshot_known k : k ∈ map nr_snapshot_id (db_snapshots d) -> k ∈ map nr_snapshot_id rows.
Proof using Hkept. rewrite finalize_ids. apply Hkept. Qed.

Lemma finalize_integrity : integrity d' = true.
Proof using Hr Hok Hnew Hentry Hunique Hkept Hmembers.
  clear -Hr Hok Hnew Hentry Hunique Hkept Hmembers HL d'. destruct (manifest_members m Hok) as (Hids & Hord & _ & _).
  unfold d'. pose proof (rep_integrity _ _ Hr : integrity d = true). tables.
  - unfold unique in *. by rewrite finalize_ids.
  - by apply (unique_members member_id d s).
  - apply (unique_members (fun x => x.1.1) d s); try done. by apply sorted_NoDup.
  - rewrite references_app, andb_true_iff. split; [by eapply references_more; [apply finalize_snapshot_known|]|].
    apply references_spec. intros r k (x & -> & _)%list_elem_of_fmap [= <-]. cbn. rewrite finalize_ids.
    rewrite snapshot_get in Hentry. destruct (find_row _ _ snaps) as [r|] eqn:Ef; [|done].
    apply find_row_Some in Ef as [Hin <-]. by apply list_elem_of_fmap_2.
  - rewrite references_app, andb_true_iff. split; [done|]. apply references_spec.
    intros r k (x & -> & Hx)%list_elem_of_fmap [= <-]. cbn. rewrite forallb_forall in Hmembers.
    apply list_elem_of_In, Hmembers in Hx. rewrite <- (member_in_table_same d s x Hr) in Hx. unfold member_in_table in Hx.
    destruct (find_row er_event_id _ _) as [r|] eqn:Ef; [|done]. apply find_row_Some in Ef as [Hin <-].
    by apply list_elem_of_fmap_2.
  - eapply references_more; [apply finalize_snapshot_known|done].
  - eapply references_more; [apply finalize_snapshot_known|done].
Qed.

Lemma finalize_entries : map snapshot_entry rows = map snapshot_entry snaps.
Proof using Hentry Hunique.
  unfold rows. unfold change_row. rewrite map_map. apply map_ext_in. intros r Hin. case_bool_decide as E; [|done].
  rewrite snapshot_get in Hentry. destruct (find_row _ _ snaps) as [r'|] eqn:Ef; [|done].
  apply find_row_Some in Ef as [Hin' Hid]. unfold unique in Hunique. apply bool_decide_eq_true in Hunique.
  assert (r' = r) as ->.
  { apply list_elem_of_In in Hin. apply list_elem_of_lookup in Hin as [i Hi], Hin' as [j Hj].
    assert (i = j) as ->; [|congruence].
    apply (NoDup_lookup (map nr_snapshot_id snaps) i j (sm_snapshot_id m)); [done|..];
      rewrite list_lookup_fmap; [rewrite Hi|rewrite Hj]; simpl; congruence. }
  simpl in Hentry. unfold snapshot_entry. cbn. injection Hentry as -> -> ->. by rewrite E.
Qed.

Lemma finalize_finalized s' :
  rs_snapshot_manifests s' = dict_set (sm_snapshot_id m) m (rs_snapshot_manifests s) -> Forall (finalized_as s') rows.
Proof using Hfinal Hnew.
  intros Hs'. unfold rows. unfold change_row. apply Forall_map. eapply Forall_impl; [exact Hfinal|]. intros r Hf.
  unfold finalized_as in *. rewrite Hs'. case_bool_decide as E; cbn.
  - rewrite E, dict_get_set_eq. split_and!; try done.
  - by rewrite dict_get_set_ne.
Qed.

Lemma finalize_rows_ok :
  (forall k, is_Some (dict_get k (rs_snapshots s)) -> is_Some (dict_get k (map snapshot_entry snaps))) ->
  exists db', finalize_rows m snaps d db = (db', Ok tt) /\
    represents (content db') (set_rs_snapshot_manifests (dict_set (sm_snapshot_id m) m (rs_snapshot_manifests s))
                                (set_rs_snapshots (map snapshot_entry snaps) s)).
Proof using HL Hr Hok Hnew Hentry Hunique Hfits Hfinal Hkept Hmembers.
  intros Hmore. unfold finalize_rows.
  assert (forallb (member_in_table d) (sm_events m) = true) as ->.
  { rewrite forallb_forall in *. intros x Hx. rewrite (member_in_table_same d s); auto. }
  destruct (commit_ok d' db finalize_storable finalize_integrity) as (db' & Hc & Hd). exists db'. split; [exact Hc|].
  rewrite Hd. pose proof finalize_storable as Hs. pose proof finalize_integrity as Hi.
  assert (dict_set (sm_snapshot_id m) m (rs_snapshot_manifests s) = rs_snapshot_manifests s ++ [(sm_snapshot_id m, m)]) as Hset
    by by apply insert_fresh.
  pose proof (rep_members _ _ Hr : db_members d = _) as Hme. pose proof (rep_manifests _ _ Hr) as Hms.
  destruct Hr. constructor; [exact Hs|exact Hi|..]; clear Hs Hi; unfold d', set_rs_snapshot_manifests, set_rs_snapshots;
    cbn [db_events db_payloads db_experimental db_quarantine db_checkpoints db_failures db_snapshots db_members db_rules
         db_runs db_hypotheses db_artifacts set_db_members set_db_snapshots rs_events rs_quarantined rs_snapshots
         rs_snapshot_manifests rs_experimental_events rs_raw_payloads rs_checkpoints rs_rules rs_failures rs_runs
         rs_artifacts rs_hypotheses]; try assumption.
  - apply finalize_entries.
  - by apply finalize_finalized.
  - by apply dict_set_NoDup.
  - rewrite Hset. apply Forall_app. split.
    + eapply Forall_impl; [exact Hms|]. intros kv (Hk & Ho & Hsome). split_and!; auto.
    + constructor; [|constructor]. split_and!; [done|exact Hok|]. cbn [fst]. rewrite Hentry. by eexists.
  - rewrite Hset, flat_map_app, Hme. cbn [flat_map snd]. by rewrite app_nil_r.
Qed.

End Finalize.

(** The row of a finalized snapshot *)
Lemma manifest_row d s id m :
  represents d s -> dict_get id (rs_snapshot_manifests s) = Some m ->
  exists r t, find_row nr_snapshot_id id (db_snapshots d) = Some r /\ nr_finalized_at r = Some t /\
    nr_manifest_sha256 r = Some (sm_manifest_sha256 m) /\ nr_manifest_json r = Some (manifest_text m).
Proof.
  intros Hr Hm. pose proof (rep_manifests _ _ Hr) as Hms. rewrite Forall_forall in Hms.
  destruct (Hms _ (dict_get_In _ _ _ Hm)) as (_ & _ & [v Hv]). cbn [fst] in Hv.
  rewrite <- (rep_snapshots _ _ Hr), snapshot_get in Hv.
  destruct (find_row nr_snapshot_id id (db_snapshots d)) as [r|] eqn:Ef; [|done].
  apply find_row_Some in Ef as [Hin Hid]. pose proof (rep_finalized _ _ Hr) as Hf. rewrite Forall_forall in Hf.
  specialize (Hf r Hin). unfold finalized_as in Hf. rewrite Hid, Hm in Hf. destruct Hf as ([t Ht] & Hsha & Hjson).
  by exists r, t.
Qed.

Lemma open_row d s id r :
  represents d s -> dict_get id (rs_snapshot_manifests s) = None -> find_row nr_snapshot_id id (db_snapshots d) = Some r ->
  nr_finalized_at r = None.
Proof.
  intros Hr Hm [Hin Hid]%find_row_Some. pose proof (rep_finalized _ _ Hr) as Hf. rewrite Forall_forall in Hf.
  specialize (Hf r Hin). unfold finalized_as in Hf. by rewrite Hid, Hm in Hf.
Qed.

Lemma finalize_rows_missing m snaps db s :
  represents (content db) s -> forallb (member_stored s) (sm_events m) = false ->
  exists msg, finalize_rows m snaps (content db) db = (db, Err (ValueError msg)).
Proof.
  intros Hr Hm. unfold finalize_rows. destruct (forallb (member_in_table _) _) eqn:E; [|by eexists].
  rewrite forallb_forall in E. apply not_true_iff_false in Hm. destruct Hm. apply forallb_forall. intros x Hx.
  rewrite <- (member_in_table_same _ s x Hr). auto.
Qed.

Lemma storable_snapshots d : storable_tables d = true -> forallb snapshot_fits (db_snapshots d) = true.
Proof. unfold storable_tables. rewrite !andb_true_iff. naive_solver. Qed.

Lemma simulates_finalize m db s :
  represents (content db) s -> admissible s (FinalizeSnapshot m) = true -> simulated (FinalizeSnapshot m) db s.
Proof.
  intros Hr [Hok Hid]%andb_prop. unfold simulated. cbn [sql_call memory_call].
  unfold answering, sql_finalize_snapshot, finalize_snapshot.
  destruct (dict_get (sm_snapshot_id m) (rs_snapshot_manifests s)) as [m'|] eqn:Em.
  { destruct (manifest_row _ _ _ _ Hr Em) as (r & t & -> & -> & -> & _). apply bool_decide_eq_true in Hid. cbn [fst snd].
    split; [done|]. rewrite (bool_decide_ext (Some (sm_manifest_sha256 m') = Some (sm_manifest_sha256 m)) (m' = m)).
    - by case_bool_decide.
    - split; [intros [= ?]; auto|by intros ->]. }
  pose proof (snapshot_get (sm_snapshot_id m) (db_snapshots (content db))) as Hg. rewrite (rep_snapshots _ _ Hr) in Hg.
  destruct (integrity_parts _ (rep_integrity _ _ Hr)) as (_&_&_&_&_&_&Hu&_).
  pose proof (storable_snapshots _ (rep_storable _ _ Hr)) as Hfits. unfold save_snapshot, pbind, pmodify.
  destruct (find_row nr_snapshot_id (sm_snapshot_id m) (db_snapshots (content db))) as [r|] eqn:Ef; cbn [option_map] in Hg.
  - rewrite Hg in Hid. rewrite (open_row _ _ _ _ Hr Em Ef). apply bool_decide_eq_true in Hid. cbn [fst snd] in Hid.
    destruct (forallb (member_stored s) (sm_events m)) eqn:Emem; cbn [negb].
    + rewrite Hg. case_bool_decide as Ec; cbn [negb].
      * rewrite (bool_decide_true (_ = (sm_cutoff_at m, _, _))) by (injection (Hid Ec) as -> ->; by rewrite Ec).
        destruct (finalize_rows_ok m db s (db_snapshots (content db))) as (db' & -> & Hrep); try done.
        -- rewrite (rep_snapshots _ _ Hr), Hg. by injection (Hid Ec) as -> ->; rewrite Ec.
        -- apply (rep_finalized _ _ Hr).
        -- by rewrite (rep_snapshots _ _ Hr).
        -- rewrite (rep_snapshots _ _ Hr) in Hrep. cbn [fst snd]. split; [|done].
           rewrite (dict_set_id _ _ (rs_snapshots s)) by (rewrite Hg; by injection (Hid Ec) as -> ->; rewrite Ec). exact Hrep.
      * rewrite bool_decide_false by congruence. by split.
    + case_bool_decide; cbn [negb]; [|by split].
      destruct (finalize_rows_missing m (db_snapshots (content db)) db s Hr Emem) as [msg ->]. by split.
  - destruct (forallb (member_stored s) (sm_events m)) eqn:Emem; cbn [negb].
    + rewrite Hg.
      assert (map snapshot_entry (db_snapshots (content db) ++ [new_snapshot_row m]) =
        dict_set (sm_snapshot_id m) (sm_cutoff_at m, size (sm_events m), sm_content_sha256 m) (rs_snapshots s)) as Hsnap.
      { by rewrite map_app, (rep_snapshots _ _ Hr), (insert_fresh _ _ _ Hg). }
      destruct (finalize_rows_ok m db s (db_snapshots (content db) ++ [new_snapshot_row m])) as (db' & -> & Hrep); try done.
      * rewrite Hsnap. apply dict_get_set_eq.
      * apply unique_snoc. split; [done|]. by apply find_row_None.
      * rewrite forallb_app, Hfits. cbn [forallb andb]. rewrite andb_true_r.
        unfold manifest_ok in Hok. rewrite !andb_true_iff in Hok. destruct Hok as [[_ Hf] _].
        unfold snapshot_fits in *. cbn in *. rewrite !andb_true_iff in *. naive_solver.
      * apply Forall_app. split; [apply (rep_finalized _ _ Hr)|]. constructor; [|done]. unfold finalized_as. cbn. by rewrite Em.
      * intros k. rewrite map_app. set_solver.
      * intros k Hk. rewrite Hsnap. destruct (decide (k = sm_snapshot_id m)) as [->|];
          [rewrite dict_get_set_eq; by eexists|by rewrite dict_get_set_ne].
      * rewrite Hsnap in Hrep. by split.
    + destruct (finalize_rows_missing m (db_snapshots (content db) ++ [new_snapshot_row m]) db s Hr Emem) as [msg ->]. by split.
Qed.

Lemma simulates_manifest id db s : represents (content db) s -> simulated (SnapshotManifest id) db s.
Proof.
  intros Hr. split; [done|]. cbn [sql_call memory_call reading snd]. unfold sql_snapshot_manifest, snapshot_manifest.
  destruct (dict_get id (rs_snapshot_manifests s)) as [m|] eqn:Em.
  - destruct (manifest_row _ _ _ _ Hr Em) as (r & t & -> & -> & _ & ->).
    pose proof (rep_manifests _ _ Hr) as Hms. rewrite Forall_forall in Hms.
    destruct (Hms _ (dict_get_In _ _ _ Em)) as (_ & Hok & _).
    rewrite manifest_roundtrip; [done|]. by apply manifest_members.
  - destruct (find_row nr_snapshot_id id (db_snapshots (content db))) as [r|] eqn:Ef; [|done].
    by rewrite (open_row _ _ _ _ Hr Em Ef).
Qed.

Lemma filter_other_members id m :
  sm_snapshot_id m <> id -> List.filter (fun r => bool_decide (me_snapshot_id r = id)) (map (member_row m) (sm_events m)) = [].
Proof. intros Hne. induction (sm_events m); simpl; [done|]. by rewrite bool_decide_false. Qed.
Lemma filter_own_members m :
  List.filter (fun r => bool_decide (me_snapshot_id r = sm_snapshot_id m)) (map (member_row m) (sm_events m)) =
  map (member_row m) (sm_events m).
Proof. induction (sm_events m) as [|x xs IH]; simpl; [done|]. by rewrite bool_decide_true, IH. Qed.

Lemma members_of d s id :
  represents d s -> List.filter (fun r => bool_decide (me_snapshot_id r = id)) (db_members d) =
    match dict_get id (rs_snapshot_manifests s) with Some m => map (member_row m) (sm_events m) | None => [] end.
Proof.
  intros Hr. rewrite (rep_members _ _ Hr). pose proof (rep_manifest_keys _ _ Hr) as Hnd. pose proof (rep_manifests _ _ Hr) as Hms.
  revert Hnd Hms. generalize (rs_snapshots s). intros snaps.
  induction (rs_snapshot_manifests s) as [|[k m] ms IH]; [done|]. intros [Hni Hnd]%NoDup_cons [[Hk _] Hms]%Forall_cons.
  cbn [flat_map dict_get fst snd] in *. rewrite List.filter_app, (IH Hnd Hms). subst k.
  destruct (decide (id = sm_snapshot_id m)) as [->|Hne].
  - rewrite filter_own_members. assert (dict_get (sm_snapshot_id m) ms = None) as -> by by apply dict_get_None.
    by rewrite app_nil_r.
  - by rewrite filter_other_members.
Qed.

Lemma ordinal_sorted m :
  manifest_ok m = true -> sorted_by ordinal_leb (map (member_row m) (sm_events m)) = map (member_row m) (sm_events m).
Proof.
  intros (_ & Hord & _)%manifest_members. apply sorted_by_id. revert Hord.
  induction (sm_events m) as [|x xs IH]; simpl; [constructor|]. intros [Hs Hx]%StronglySorted_inv. constructor; [by apply IH|].
  apply Forall_map. rewrite Forall_map in Hx. eapply Forall_impl; [exact Hx|]. simpl. intros y Hy. unfold ordinal_leb. cbn.
  apply Z.leb_le. lia.
Qed.

Lemma all_stored {A B} (f : A -> option B) xs :
  (forall x, x ∈ xs -> is_Some (f x)) -> exists ys, Forall2 (fun x y => f x = Some y) xs ys.
Proof.
  induction xs as [|x xs IH]; intros H; [by exists []|]. destruct (H x) as [y Hy]; [by left|].
  destruct IH as [ys Hys]; [intros z Hz; apply H; by right|]. exists (y :: ys). by constructor.
Qed.

Lemma simulates_snapshot_events id db s : represents (content db) s -> simulated (SnapshotEvents id) db s.
Proof.
  intros Hr. split; [done|]. cbn [sql_call memory_call reading snd]. unfold sql_snapshot_events, snapshot_events, snapshot_manifest.
  rewrite (members_of _ s id Hr). destruct (dict_get id (rs_snapshot_manifests s)) as [m|] eqn:Em; [|done].
  pose proof (rep_manifests _ _ Hr) as Hms. rewrite Forall_forall in Hms. destruct (Hms _ (dict_get_In _ _ _ Em)) as (_ & Hok & _).
  rewrite (ordinal_sorted m Hok).
  destruct (all_stored (fun x => dict_get (member_id x) (rs_events s)) (sm_events m)) as [es Hes].
  { intros x Hx. apply (member_event (content db)); [done|]. unfold snapshot_members, dict_values.
    apply list_elem_of_In, in_flat_map. exists m. split; [|apply in_map; by apply list_elem_of_In].
    apply in_map_iff. exists (id, m). split; [done|]. apply list_elem_of_In. by apply dict_get_In. }
  rewrite (gather_stored s member_id _ es Hes).
  assert (omap (fun r => find_row er_event_id (me_event_id r) (db_events (content db))) (map (member_row m) (sm_events m)) =
          map event_row es) as ->.
  { clear -Hes Hr HL. induction Hes as [|x e xs es Hx Hxs IH]; [done|]. cbn [map omap list_omap].
    rewrite (find_event _ _ s Hr). cbn [me_event_id member_row]. rewrite Hx. cbn [option_map]. by f_equal. }
  rewrite (rows_of_map row_event event_row (fun e => e)); [cbn; by rewrite map_id|].
  clear -Hes Hr. induction Hes as [|x e xs es Hx Hxs IH]; constructor; [|done]. by apply (event_of_key _ _ _ _ Hr Hx).
Qed.

(** ** Checkpoints *)

Lemma checkpoint_table d s :
  represents d s -> tabulates (fun kv => checkpoint_row kv.2) checkpoint_key place (rs_checkpoints s).
Proof.
  intros Hr. eapply Forall_impl; [apply (rep_checkpoint_keys _ _ Hr)|]. intros [k c] Hk. cbn in *. by subst k.
Qed.

Lemma place_apart s k : place_free s k = true -> apart place k (rs_checkpoints s).
Proof.
  unfold place_free, apart. rewrite forallb_forall, Forall_forall. intros H kv Hin%list_elem_of_In Hp.
  specialize (H kv Hin). rewrite bool_decide_true in H by done. by apply bool_decide_eq_true in H.
Qed.

Lemma table_keys {K V R T} `{EqDecision K} (f : K * V -> R) (key : R -> T) (g : K -> T) (d : list (K * V)) :
  tabulates f key g d -> map key (map f d) = map g (dict_keys d).
Proof. unfold dict_keys. induction 1 as [|kv d Hk Hd IH]; simpl; [done|]. by rewrite Hk, IH. Qed.

Lemma forallb_table {A B} (p : B -> bool) (f : A -> B) xs : forallb p (map f xs) = true <-> Forall (fun x => p (f x) = true) xs.
Proof.
  rewrite forallb_forall, Forall_forall. split.
  - intros H x Hx. apply H, in_map. by apply list_elem_of_In.
  - intros H y (x & <- & Hx)%in_map_iff. apply H. by apply list_elem_of_In.
Qed.

Lemma checkpoint_keys_NoDup d s : represents d s -> NoDup (map place (dict_keys (rs_checkpoints s))).
Proof.
  intros Hr. destruct (integrity_parts _ (rep_integrity _ _ Hr)) as (_&_&_&_&_&Hu&_). unfold unique in Hu.
  rewrite bool_decide_eq_true, (rep_checkpoints _ _ Hr) in Hu. rewrite <- (table_keys _ _ _ _ (checkpoint_table d s Hr)).
  exact Hu.
Qed.

Lemma simulates_save_checkpoint c db s :
  represents (content db) s -> admissible s (SaveCheckpoint c) = true -> simulated (SaveCheckpoint c) db s.
Proof.
  intros Hr [[Hfit Hplain]%andb_prop Hfree]%andb_prop. unfold simulated. cbn [sql_call memory_call].
  unfold answering, sql_save_checkpoint, save_checkpoint, pmodify. set (d := content db) in *.
  set (k := (ck_checkpoint_namespace c, ck_venue c, ck_stream_key c)) in *.
  pose proof (checkpoint_table d s Hr) as Htab. pose proof (place_apart s k Hfree) as Hap.
  pose proof (checkpoint_keys_NoDup d s Hr) as Hnd. pose proof (NoDup_fmap_1 _ _ Hnd : NoDup (dict_keys _)) as Hnd'.
  assert (Forall (fun kv => checkpoint_fits (checkpoint_row kv.2) = true) (rs_checkpoints s)) as Hfits.
  { apply forallb_table. rewrite <- (rep_checkpoints _ _ Hr). pose proof (rep_storable _ _ Hr) as Hs. unfold storable_tables in Hs.
    rewrite !andb_true_iff in Hs. naive_solver. }
  set (table := map (fun kv => checkpoint_row kv.2) (dict_set k c (rs_checkpoints s))).
  assert (tabulates (fun kv => checkpoint_row kv.2) checkpoint_key place (dict_set k c (rs_checkpoints s))) as Htab'
    by by apply dict_set_Forall.
  assert (match find_row checkpoint_key (checkpoint_key (checkpoint_row c)) (db_checkpoints d) with
    | None => commit (set_db_checkpoints (db_checkpoints d ++ [checkpoint_row c]) d) db
    | Some _ => commit (set_db_checkpoints (change_row checkpoint_key (checkpoint_key (checkpoint_row c))
                          (fun _ => checkpoint_row c) (db_checkpoints d)) d) db
    end = commit (set_db_checkpoints table d) db) as ->.
  { change (checkpoint_key (checkpoint_row c)) with (place k). rewrite (rep_checkpoints _ _ Hr), (find_row_dict _ _ _ _ _ Htab Hap).
    subst table. destruct (dict_get k (rs_checkpoints s)) as [c0|] eqn:E; cbn [option_map].
    - by rewrite (change_row_dict _ _ _ _ c _ _ Htab Hap Hnd') by by try rewrite E.
    - by rewrite (insert_fresh _ _ _ E), map_app. }
  assert (storable_tables (set_db_checkpoints table d) = true) as Hs.
  { pose proof (rep_storable _ _ Hr). clear Hfree Hplain. tables. apply forallb_table. by apply dict_set_Forall. }
  assert (integrity (set_db_checkpoints table d) = true) as Hi.
  { pose proof (rep_integrity _ _ Hr). clear Hfree Hplain. tables. unfold unique. apply bool_decide_eq_true.
    change (fun r => (kr_venue r, kr_stream_key r)) with checkpoint_key. subst table. rewrite (table_keys _ _ _ _ Htab').
    destruct (dict_get k (rs_checkpoints s)) eqn:E; [by rewrite (dict_keys_set_Some _ _ _ _ E)|].
    rewrite dict_keys_set_None, map_app by done. apply NoDup_app. split_and!; [done| |apply NoDup_singleton].
    intros p Hp ->%list_elem_of_singleton. apply list_elem_of_fmap in Hp as (k' & Hp & ([k2 v2] & -> & Hin)%list_elem_of_fmap).
    unfold apart in Hap. rewrite Forall_forall in Hap. pose proof (Hap _ Hin (eq_sym Hp)) as Hk. cbn in Hk. subst k2.
    apply dict_get_None in E. apply E. apply list_elem_of_fmap. by exists (k, v2). }
  destruct (commit_ok _ db Hs Hi) as (db' & -> & Hc). cbn [fst snd]. split; [|done]. rewrite Hc.
  destruct Hr. constructor; try done; cbn; by apply dict_set_Forall.
Qed.

Lemma checkpoint_found d s n v k :
  represents d s -> apart place (n, v, k) (rs_checkpoints s) ->
  find_row checkpoint_key (v, checkpoint_storage_key k n) (db_checkpoints d) =
    option_map checkpoint_row (dict_get (n, v, k) (rs_checkpoints s)) /\
  (forall c, dict_get (n, v, k) (rs_checkpoints s) = Some c -> row_checkpoint k (checkpoint_row c) = Ok c).
Proof.
  intros Hr Hap. split.
  - rewrite (rep_checkpoints _ _ Hr). apply (find_row_dict _ _ place (n, v, k) _ (checkpoint_table d s Hr) Hap).
  - intros c Hc%dict_get_In. pose proof (rep_checkpoint_keys _ _ Hr) as Hk. rewrite Forall_forall in Hk.
    specialize (Hk _ Hc). cbn in Hk. injection Hk as _ _ ->. apply checkpoint_roundtrip.
Qed.

Lemma simulates_get_checkpoint n v k db s :
  represents (content db) s -> admissible s (GetCheckpoint n v k) = true -> simulated (GetCheckpoint n v k) db s.
Proof.
  intros Hr Hfree. split; [done|]. cbn [sql_call memory_call reading snd]. unfold sql_get_checkpoint, get_checkpoint.
  destruct (checkpoint_found _ s n v k Hr (place_apart s _ Hfree)) as [-> Hread].
  destruct (dict_get (n, v, k) (rs_checkpoints s)) as [c|]; [|done]. cbn [option_map]. by rewrite (Hread c).
Qed.

Lemma gather_scan {A R B} (f : R -> result (list B)) (g : A -> R) (h : A -> B) rows xs :
  rows ≡ₚ map g xs -> Forall (fun x => f (g x) = Ok [h x]) xs -> exists ys, gather f rows = Ok ys /\ ys ≡ₚ map h xs.
Proof.
  intros (xs' & -> & Hp)%Permutation_map_inv Hx. exists (map h xs'). split; [|by rewrite Hp].
  rewrite Hp in Hx. clear Hp. induction Hx as [|x xs' Hf Hfs IH]; simpl; [done|]. by rewrite Hf, IH.
Qed.

Lemma simulates_list_checkpoints n db s : represents (content db) s -> simulated (ListCheckpoints n) db s.
Proof.
  intros Hr. split; [done|]. cbn [sql_call memory_call reading snd]. unfold sql_list_checkpoints, list_checkpoints.
  set (kvs := List.filter (fun kv : (string * string * string) * CollectionCheckpoint => bool_decide (kv.1.1.1 = n)) (rs_checkpoints s)).
  edestruct (gather_scan (fun r => let! c := sql_get_checkpoint n (kr_venue r) (listed_key n (kr_stream_key r)) db in
    Ok (match c with Some c => [c] | None => [] end)) (fun kv => checkpoint_row kv.2) snd
    (scan _ db (List.filter (fun r => bool_decide (kr_checkpoint_namespace r = n)) (db_checkpoints (content db)))) kvs)
    as (ys & -> & Hp); [| |cbn; by rewrite Hp].
  - rewrite scan_law, (rep_checkpoints _ _ Hr), filter_map_comm. subst kvs. cbn.
    rewrite (filter_ext_in _ (fun kv : (string * string * string) * CollectionCheckpoint => bool_decide (kv.1.1.1 = n))); [done|].
    intros [k c] Hin%list_elem_of_In. pose proof (rep_checkpoint_keys _ _ Hr) as Hk. rewrite Forall_forall in Hk.
    specialize (Hk _ Hin). cbn in *. by subst k.
  - apply Forall_forall. intros [k c] Hin. subst kvs. apply list_elem_of_In, filter_In in Hin as [Hin Hn%bool_decide_eq_true].
    apply list_elem_of_In in Hin. pose proof (rep_checkpoint_keys _ _ Hr) as Hk. rewrite Forall_forall in Hk. specialize (Hk _ Hin).
    pose proof (rep_checkpoint_hashes _ _ Hr) as Hh. rewrite Forall_forall in Hh. specialize (Hh _ Hin). cbn in Hk, Hh, Hn.
    subst k. cbn in Hn, Hh. cbn [kr_venue kr_stream_key checkpoint_row snd]. rewrite Hn in *. rewrite (listed_key_storage n _ Hh).
    pose proof (checkpoint_keys_NoDup _ _ Hr) as Hnd. pose proof (NoDup_fmap_1 _ _ Hnd : NoDup (dict_keys _)) as Hnd'.
    assert (apart place (n, ck_venue c, ck_stream_key c) (rs_checkpoints s)) as Hap.
    { apply Forall_forall. intros [k2 c2] Hin2 Hp. cbn in *.
      pose proof (list_elem_of_fmap_2 fst _ _ Hin : _ ∈ dict_keys _) as H1.
      pose proof (list_elem_of_fmap_2 fst _ _ Hin2 : _ ∈ dict_keys _) as H2. cbn in H1, H2.
      apply list_elem_of_lookup in H1 as [i Hi], H2 as [j Hj]. assert (i = j) as ->; [|congruence].
      apply (NoDup_lookup _ i j (place k2) Hnd); rewrite list_lookup_fmap; [rewrite Hi|rewrite Hj]; simpl; congruence. }
    unfold sql_get_checkpoint. destruct (checkpoint_found _ s n (ck_venue c) (ck_stream_key c) Hr Hap) as [-> Hread].
    rewrite (dict_In_get _ _ _ Hnd' Hin) in *. cbn [option_map]. by rewrite (Hread c).
Qed.

(** ** Rules *)

Lemma map_update {K V R} `{EqDecision K} (f : K * V -> R) k v v0 (d : list (K * V)) :
  dict_get k d = Some v0 -> f (k, v) = f (k, v0) -> map f (dict_set k v d) = map f d.
Proof.
  intros Hg Hf. induction d as [|[k' v'] d IH]; simpl in *; [done|]. destruct (decide (k = k')) as [<-|].
  - injection Hg as ->. simpl. by rewrite Hf.
  - simpl. by rewrite IH.
Qed.

Lemma dict_keys_NoDup {V R} (f : string * V -> R) (key : R -> string) (d : list (string * V)) :
  tabulates f key (fun k => k) d -> unique key (map f d) = true -> NoDup (dict_keys d).
Proof.
  intros Ht Hu. unfold unique in Hu. rewrite bool_decide_eq_true, (table_keys _ _ _ _ Ht), map_id in Hu. done.
Qed.

Lemma simulates_save_rule r db s :
  represents (content db) s -> admissible s (SaveInstrumentRule r) = true -> simulated (SaveInstrumentRule r) db s.
Proof.
  intros Hr [Hok Hfit]%andb_prop. unfold simulated. cbn [sql_call memory_call].
  unfold answering, sql_save_instrument_rule, save_instrument_rule. set (d := content db) in *.
  pose proof (rep_rules _ _ Hr : db_rules d = _) as He.
  assert (find_row ur_rule_snapshot_id (ir_rule_snapshot_id r) (db_rules d) =
          option_map rule_row (dict_get (ir_rule_snapshot_id r) (rs_rules s))) as ->.
  { rewrite He. apply (find_row_dict (fun kv => rule_row kv.2) _ (fun k => k)); [apply Hr|apply apart_id]. }
  destruct (dict_get (ir_rule_snapshot_id r) (rs_rules s)) as [r0|] eqn:Eg; cbn [option_map].
  - pose proof (rep_rules_ok _ _ Hr) as Hoks. rewrite Forall_forall in Hoks. pose proof (Hoks _ (dict_get_In _ _ _ Eg)) as Hok0.
    pose proof (rule_row_canonical r0 r (proj1 (andb_prop _ _ Hok0)) (proj1 (andb_prop _ _ Hok))) as Heq.
    rewrite (bool_decide_ext _ _ Heq). case_bool_decide as E; [|by split]. split; [|done]. cbn [fst].
    apply Heq in E. destruct Hr. constructor; try done; cbn.
    + by rewrite (map_update _ _ _ _ _ Eg).
    + by apply dict_set_Forall.
    + by apply dict_set_Forall.
  - set (d' := set_db_rules _ d).
    assert (storable_tables d' = true) as Hs by (subst d'; pose proof (rep_storable _ _ Hr); clear Hok; tables; added).
    assert (integrity d' = true) as Hi.
    { subst d'. pose proof (rep_integrity _ _ Hr). clear Hok. tables. apply unique_snoc. split; [done|]. rewrite He.
      apply (key_unknown _ _ (fun k => k) (ir_rule_snapshot_id r)); [apply Hr|apply apart_id|done]. }
    destruct (commit_ok d' db Hs Hi) as (db' & -> & Hc). cbn [fst snd]. split; [|done]. rewrite Hc.
    pose proof (insert_fresh _ r _ Eg) as Hset. destruct Hr. constructor; try done; cbn; rewrite Hset, ?map_app, ?He; try done.
    all: apply Forall_app; split; [done|by constructor].
Qed.

Lemma rules_read db s ids rs :
  represents (content db) s -> Forall2 (fun id r => dict_get id (rs_rules s) = Some r) ids rs ->
  sql_instrument_rules ids db = Ok (map canonical_rule rs) /\ instrument_rules s ids = Ok rs.
Proof.
  intros Hr Hrs.
  assert (forall id, find_row ur_rule_snapshot_id id (db_rules (content db)) = option_map rule_row (dict_get id (rs_rules s))) as Hfind.
  { intros id. rewrite (rep_rules _ _ Hr).
    apply (find_row_dict (fun kv => rule_row kv.2) _ (fun k => k)); [apply Hr|apply apart_id]. }
  split.
  - unfold sql_instrument_rules.
    assert (forallb (fun id => bool_decide (id ∈ map ur_rule_snapshot_id (db_rules (content db)))) ids = true) as ->.
    { apply forallb_forall. intros id Hid%list_elem_of_In. apply bool_decide_eq_true. rewrite (rep_rules _ _ Hr).
      apply list_elem_of_lookup in Hid as [i Hi]. destruct (Forall2_lookup_l _ _ _ _ _ Hrs Hi) as (r & _ & Hg).
      by apply (key_known (fun kv => rule_row kv.2) ur_rule_snapshot_id (fun k => k) id r); [apply Hr|]. }
    cbn [negb]. assert (omap (fun id => find_row ur_rule_snapshot_id id (db_rules (content db))) ids = map rule_row rs) as ->.
    { clear -Hrs Hfind. induction Hrs as [|id r ids rs Hg Hrs IH]; [done|]. cbn [omap list_omap map].
      rewrite Hfind, Hg. cbn [option_map]. by f_equal. }
    apply rows_of_map. pose proof (rep_rules_ok _ _ Hr) as Hok. rewrite Forall_forall in Hok.
    clear -Hrs Hok. induction Hrs as [|id r ids rs Hg Hrs IH]; constructor; [|done].
    apply rule_roundtrip. by apply (Hok _ (dict_get_In _ _ _ Hg)).
  - unfold instrument_rules. clear -Hrs. induction Hrs as [|id r ids rs Hg Hrs IH]; simpl; [done|]. by rewrite Hg, IH.
Qed.

Lemma simulates_rules ids db s :
  represents (content db) s -> admissible s (InstrumentRules ids) = true -> simulated (InstrumentRules ids) db s.
Proof.
  intros Hr Hids. cbn [admissible] in Hids. rewrite forallb_forall in Hids.
  destruct (all_stored (fun id => dict_get id (rs_rules s)) ids) as [rs Hrs].
  { intros id Hid. apply dict_mem_spec, Hids. by apply list_elem_of_In. }
  destruct (rules_read db s ids rs Hr Hrs) as [H1 H2]. split; [done|]. cbn. by rewrite H1, H2.
Qed.

Lemma simulates_rules_at t db s : represents (content db) s -> simulated (InstrumentRulesAt t) db s.
Proof.
  intros Hr. split; [done|]. cbn [sql_call memory_call reading snd]. unfold sql_instrument_rules_at, instrument_rules_at, dict_values.
  rewrite filter_map_comm, (rep_rules _ _ Hr), filter_map_comm. cbn [ur_valid_from ur_valid_until rule_row].
  set (kvs := List.filter _ (rs_rules s)).
  destruct (Permutation_map_inv _ _ (scan_law _ db (map (fun kv => rule_row kv.2) kvs))) as (kvs' & -> & Hp).
  assert (NoDup (dict_keys (rs_rules s))) as Hnd.
  { destruct (integrity_parts _ (rep_integrity _ _ Hr)) as (_&_&_&_&_&_&_&Hu&_). rewrite (rep_rules _ _ Hr) in Hu.
    by eapply dict_keys_NoDup; [apply Hr|]. }
  destruct (rules_read db s (map ur_rule_snapshot_id (map (fun kv => rule_row kv.2) kvs')) (map snd kvs') Hr) as [-> _].
  - rewrite map_map. apply Forall2_fmap_l, Forall2_fmap_r, Forall_Forall2_diag, Forall_forall. intros [k r] Hin. cbn.
    rewrite <- Hp in Hin. subst kvs. apply list_elem_of_In, filter_In in Hin as [Hin%list_elem_of_In _].
    pose proof (rep_rule_keys _ _ Hr) as Hk. unfold tabulates in Hk. rewrite Forall_forall in Hk. specialize (Hk _ Hin). cbn in Hk.
    rewrite Hk. by apply dict_In_get.
  - cbn. by rewrite Hp.
Qed.

(** ** Runs, hypotheses, artifacts *)

Lemma unique_keys {A K} `{EqDecision K} (key : A -> K) rows rows' :
  map key rows' = map key rows -> unique key rows' = unique key rows.
Proof. intros H. unfold unique. by rewrite H. Qed.
Lemma references_keys {A B K} `{EqDecision K} (key : A -> option K) rows rows' (target : B -> K) others :
  map key rows' = map key rows -> references key rows target others = true -> references key rows' target others = true.
Proof.
  intros H. rewrite !references_spec. intros Hr r k Hin Hk. 
  assert (Some k ∈ map key rows) as (r' & Hk' & Hin')%list_elem_of_fmap.
  { rewrite <- H, <- Hk. by apply list_elem_of_fmap_2. }
  by apply (Hr r').
Qed.

Lemma hypothesis_known d s k : represents d s -> k ∈ map hypothesis_key (db_hypotheses d) <-> is_Some (dict_get k (rs_hypotheses s)).
Proof.
  intros Hr. pose proof (f_equal (map fst) (rep_hypotheses _ _ Hr)) as H. rewrite !map_map in H. cbn in H.
  change (map (fun r => hypothesis_key r) (db_hypotheses d)) with (map hypothesis_key (db_hypotheses d)) in H. rewrite H.
  change (map (fun x => x.1) (rs_hypotheses s)) with (dict_keys (rs_hypotheses s)).
  destruct (dict_get k (rs_hypotheses s)) as [h|] eqn:E.
  - split; [by eexists|]. intros _. apply dict_get_In in E. apply list_elem_of_fmap. by exists (k, h).
  - apply dict_get_None in E. split; [done|by intros []].
Qed.

Lemma snapshot_known d s k : represents d s -> k ∈ map nr_snapshot_id (db_snapshots d) <-> is_Some (dict_get k (rs_snapshots s)).
Proof.
  intros Hr. rewrite <- (rep_snapshots _ _ Hr), snapshot_get. destruct (find_row nr_snapshot_id k (db_snapshots d)) as [r|] eqn:E.
  - apply find_row_Some in E as [Hin <-]. split; [by eexists|]. intros _. by apply list_elem_of_fmap_2.
  - apply find_row_None in E. split; [done|by intros []].
Qed.

Lemma simulates_save_run i status verdict db s :
  represents (content db) s -> admissible s (SaveRun i status verdict) = true -> simulated (SaveRun i status verdict) db s.
Proof.
  intros Hr Hadm. cbn [admissible] in Hadm. rewrite !andb_true_iff in Hadm. destruct Hadm as [[[Hfit Hsnap] Hhyp] Hid].
  apply dict_mem_spec in Hsnap, Hhyp. rewrite <- (snapshot_known _ s) in Hsnap by done. rewrite <- (hypothesis_known _ s) in Hhyp by done.
  unfold simulated. cbn [sql_call memory_call]. unfold answering, sql_save_run, save_run. set (d := content db) in *.
  pose proof (rep_runs _ _ Hr : db_runs d = _) as He.
  pose proof (rep_run_keys _ _ Hr) as Htab.
  assert (find_row gr_run_id (ri_run_id i) (db_runs d) =
          option_map (fun v => run_row v.1.1 v.1.2 v.2) (dict_get (ri_run_id i) (rs_runs s))) as ->.
  { rewrite He. apply (find_row_dict (fun kv => run_row kv.2.1.1 kv.2.1.2 kv.2.2) _ (fun k => k)); [done|apply apart_id]. }
  destruct (dict_get (ri_run_id i) (rs_runs s)) as [[[i0 st0] v0]|] eqn:Eg; cbn [option_map].
  - apply bool_decide_eq_true in Hid. cbn [fst snd] in *. case_bool_decide as E.
    + subst i0. assert (same_identity (run_row i st0 v0) i = true) as -> by by apply bool_decide_eq_true. cbn [negb].
      assert (NoDup (dict_keys (rs_runs s))) as Hnd.
      { destruct (integrity_parts _ (rep_integrity _ _ Hr)) as (_&_&_&_&_&_&_&_&Hu&_). fold d in Hu. rewrite He in Hu.
        by eapply dict_keys_NoDup. }
      assert (change_row gr_run_id (ri_run_id i) (restatus i status verdict) (db_runs d) =
              map (fun kv => run_row kv.2.1.1 kv.2.1.2 kv.2.2) (dict_set (ri_run_id i) (i, status, verdict) (rs_runs s))) as ->.
      { rewrite He. apply (change_row_dict _ _ (fun k => k)); [done|apply apart_id|done| |by rewrite Eg].
        rewrite Eg. intros v [= <-]. done. }
      set (rows := map _ (dict_set _ _ _)).
      assert (forall (K : Type) (h : ResearchRunRow -> K), h (run_row i status verdict) = h (run_row i st0 v0) ->
              map h rows = map h (db_runs d)) as Hkeys.
      { intros K h Hh. subst rows. rewrite He, !map_map. by apply (map_update _ _ _ _ _ Eg). }
      assert (storable_tables (set_db_runs rows d) = true) as Hs.
      { pose proof (rep_storable _ _ Hr). tables. subst rows. apply forallb_table. apply dict_set_Forall; [|done].
        apply forallb_table. by rewrite <- He. }
      assert (integrity (set_db_runs rows d) = true) as Hi.
      { pose proof (rep_integrity _ _ Hr). tables.
        - by rewrite (unique_keys _ _ _ (Hkeys _ gr_run_id eq_refl)).
        - eapply references_keys; [by apply Hkeys|done].
        - eapply references_keys; [by apply Hkeys|done].
        - eapply references_more; [|done]. intros k. by rewrite Hkeys. }
      destruct (commit_ok _ db Hs Hi) as (db' & -> & Hc). cbn [fst snd]. split; [|done]. rewrite Hc.
      destruct Hr. constructor; try done; cbn. by apply dict_set_Forall.
    + assert (same_identity (run_row i0 st0 v0) i = false) as ->; [|by split].
      apply not_true_is_false. intros H. by apply E, Hid.
  - set (d' := set_db_runs _ d).
    assert (storable_tables d' = true) as Hs by (subst d'; pose proof (rep_storable _ _ Hr); tables; added).
    assert (integrity d' = true) as Hi.
    { subst d'. pose proof (rep_integrity _ _ Hr). tables.
      - apply unique_snoc. split; [done|]. rewrite He.
        apply (key_unknown _ _ (fun k => k) (ri_run_id i)); [done|apply apart_id|done].
      - rewrite references_app, andb_true_iff. split; [done|]. apply references_spec. by intros r k ->%list_elem_of_singleton [= <-].
      - rewrite references_app, andb_true_iff. split; [done|]. apply references_spec. by intros r k ->%list_elem_of_singleton [= <-].
      - eapply references_more; [|done]. intros k. rewrite map_app. set_solver. }
    destruct (commit_ok d' db Hs Hi) as (db' & -> & Hc). cbn [fst snd]. split; [|done]. rewrite Hc.
    pose proof (insert_fresh _ (i, status, verdict) _ Eg) as Hset.
    destruct Hr. constructor; try done; cbn; rewrite Hset, ?map_app, ?He; try done.
    apply Forall_app; split; [done|by constructor].
Qed.

Lemma dict_get_content {K V W} `{EqDecision K} (f : V -> W) k (d : list (K * V)) :
  dict_get k (map (fun kv => (kv.1, f kv.2)) d) = option_map f (dict_get k d).
Proof. induction d as [|[k' v] d IH]; simpl; [done|]. by case_decide. Qed.

Lemma find_hypothesis d s version strategy :
  represents d s ->
  option_map hr_content_sha256 (find_row (fun r => (hr_hypothesis_version r, hr_strategy_id r)) (version, strategy) (db_hypotheses d)) =
  option_map fh_content_sha256 (dict_get (strategy, version) (rs_hypotheses s)).
Proof.
  intros Hr. rewrite <- dict_get_content, <- (rep_hypotheses _ _ Hr). unfold find_row.
  induction (db_hypotheses d) as [|r rows IH]; simpl; [done|]. unfold hypothesis_key at 1.
  destruct (decide ((strategy, version) = (hr_strategy_id r, hr_hypothesis_version r))) as [E|E].
  - injection E as -> ->. by rewrite bool_decide_true.
  - rewrite bool_decide_false by congruence. done.
Qed.

Lemma simulates_freeze json h db s :
  represents (content db) s -> admissible s (FreezeHypothesis json h) = true -> simulated (FreezeHypothesis json h) db s.
Proof.
  intros Hr Hfit. cbn [admissible] in Hfit. unfold simulated. cbn [sql_call memory_call].
  unfold answering, sql_freeze_hypothesis, freeze_hypothesis. set (d := content db) in *.
  pose proof (find_hypothesis d s (fh_hypothesis_version h) (fh_strategy_id h) Hr) as Hf.
  pose proof (rep_hypotheses _ _ Hr) as He.
  destruct (find_row _ _ (db_hypotheses d)) as [r|] eqn:Er;
    destruct (dict_get (fh_strategy_id h, fh_hypothesis_version h) (rs_hypotheses s)) as [h0|] eqn:Eg; try done; cbn [option_map] in Hf.
  - injection Hf as ->. case_bool_decide as E; [|by split]. split; [|done]. cbn [fst]. destruct Hr. constructor; try done. cbn.
    rewrite (map_update _ _ _ _ _ Eg); [done|]. cbn. by rewrite E.
  - change (set_db_hypotheses _ d) with (set_db_hypotheses (db_hypotheses d ++ [hypothesis_row json h]) d).
    set (d' := set_db_hypotheses _ d).
    assert (storable_tables d' = true) as Hs by (subst d'; pose proof (rep_storable _ _ Hr); tables; added).
    assert (integrity d' = true) as Hi.
    { subst d'. pose proof (rep_integrity _ _ Hr). tables.
      - apply unique_snoc. split; [done|]. by apply find_row_None.
      - eapply references_more; [|done]. intros k. rewrite map_app. set_solver. }
    destruct (commit_ok d' db Hs Hi) as (db' & -> & Hc). cbn [fst snd]. split; [|done]. rewrite Hc.
    destruct Hr. constructor; try done. cbn. by rewrite map_app, He, (insert_fresh _ _ _ Eg), map_app.
Qed.

Lemma simulates_artifact run snap type path hash t db s :
  represents (content db) s -> admissible s (SaveArtifact run snap type path hash t) = true ->
  simulated (SaveArtifact run snap type path hash t) db s.
Proof.
  intros Hr [Hfit Hrun]%andb_prop. unfold simulated. cbn [sql_call memory_call].
  unfold answering, sql_save_artifact, save_artifact, pmodify. set (d := content db) in *.
  change (set_db_artifacts _ d) with (set_db_artifacts (db_artifacts d ++ [artifact_row (run, snap, type, path, hash, t)]) d).
  set (d' := set_db_artifacts _ d). destruct (dict_get run (rs_runs s)) as [v|] eqn:Eg; [|done]. apply bool_decide_eq_true in Hrun.
  assert (exists row, row ∈ db_runs d /\ gr_run_id row = run /\ gr_data_snapshot_id row = snap) as (row & Hrow & Hid & Hsnap).
  { apply dict_get_In in Eg. exists (run_row v.1.1 v.1.2 v.2). rewrite (rep_runs _ _ Hr). split_and!; [|
      pose proof (rep_run_keys _ _ Hr) as Hk; unfold tabulates in Hk; rewrite Forall_forall in Hk; by apply (Hk _ Eg)|done].
    apply list_elem_of_fmap. by exists (run, v). }
  assert (storable_tables d' = true) as Hs by (subst d'; pose proof (rep_storable _ _ Hr); tables; added).
  assert (integrity d' = true) as Hi.
  { destruct (integrity_parts _ (rep_integrity _ _ Hr)) as (_&_&_&_&_&_&_&_&_&_&Hfk). rewrite references_spec in Hfk.
    pose proof (Hfk row snap Hrow (f_equal Some Hsnap)) as Hknown.
    subst d'. pose proof (rep_integrity _ _ Hr). clear Hfk. tables.
    - rewrite references_app, andb_true_iff. split; [done|]. apply references_spec.
      intros r k ->%list_elem_of_singleton [= <-]. cbn. apply list_elem_of_fmap. exists row. by rewrite Hid, Hsnap.
    - rewrite references_app, andb_true_iff. split; [done|]. apply references_spec. by intros r k ->%list_elem_of_singleton [= <-]. }
  destruct (commit_ok d' db Hs Hi) as (db' & -> & Hc). cbn [fst snd]. split; [|done]. rewrite Hc.
  pose proof (rep_artifacts _ _ Hr) as He. destruct Hr. constructor; try done. cbn. by rewrite map_app, He.
Qed.

(** ** Every call, and every sequence of calls *)

Lemma simulates_call c db s : represents (content db) s -> admissible s c = true -> simulated c db s.
Proof.
  intros Hr Ha. destruct c; eauto using simulates_add_raw_event, simulates_get_raw_event, simulates_raw_events,
    simulates_add_experimental, simulates_get_experimental, simulates_experimental_count, simulates_list_experimental,
    simulates_save_payload, simulates_purge, simulates_quarantine, simulates_quarantine_count, simulates_quarantine_summary,
    simulates_failure, simulates_failures, simulates_save_snapshot, simulates_finalize, simulates_manifest,
    simulates_snapshot_events.
  all: eauto using simulates_save_checkpoint, simulates_get_checkpoint, simulates_list_checkpoints, simulates_save_rule,
    simulates_rules, simulates_rules_at, simulates_save_run, simulates_freeze, simulates_artifact.
Qed.

(** The answers to a sequence of calls *)
Fixpoint transcript {S} (call : StoreCall -> M S Answer) (calls : list StoreCall) (s : S) : S * list (result Answer) :=
  match calls with
  | [] => (s, [])
  | c :: calls => let (s', a) := call c s in let (s'', rest) := transcript call calls s' in (s'', a :: rest)
  end.
Fixpoint admissible_all (calls : list StoreCall) (s : ResearchStore) : bool :=
  match calls with
  | [] => true
  | c :: calls => admissible s c && admissible_all calls (memory_call c s).1
  end.
Fixpoint all_agree (calls : list StoreCall) (xs ys : list (result Answer)) : Prop :=
  match calls, xs, ys with
  | [], [], [] => True
  | c :: calls, x :: xs, y :: ys => agree c x y /\ all_agree calls xs ys
  | _, _, _ => False
  end.


End Simulation.
