(* ===== verification/ResearchSqlSample.v ===== *)
(** * A sample of the repository in PostgreSQL

    The theorem on the two repositories applied to the work of one research run, the purge
    that a foreign key refuses, and the calls on which the repositories differ. *)

From Stdlib Require Import ZArith QArith NArith Lia.
From stdpp Require Import base tactics list strings.
From S2P Require Import Prelude Decimals Binary64 Evidence BindingSql Websocket Json PyText FundingCarry ShadowBook.
From S2P Require Import Certification ResearchStore Collector Snapshots ResearchSample.
From S2P Require Import ResearchSql ResearchSqlSafety ResearchSqlRefines ResearchSqlSimulation.

Local Open Scope string_scope.
Local Open Scope list_scope.

(** ** The purge *)

(** A payload that the purge would remove is the payload of a stored event. *)
Definition purge_blocked (d : Database) (t : Z) : Prop :=
  exists e p, e ∈ db_events d /\ p ∈ db_payloads d /\ er_raw_payload_id e = Some (pw_payload_id p) /\
    sql_removable d t p = true.

(** The purge of old payloads fails as a whole, and removes nothing, as soon as one of the payloads it would remove
    is the payload of a stored event: the foreign key of the events refuses it, while the repository in memory removes
    them. *)
Theorem sql_purge_refused {D : Digest} {DB : Type} {HD : PostgreSQL DB} {HL : PostgreSQLLaws DB} (db : DB) (t : Z) :
  storable_tables (content db) = true -> integrity (content db) = true -> purge_blocked (content db) t ->
  (sql_purge_raw_payloads_before t db).2 = Err IntegrityError /\
  content (sql_purge_raw_payloads_before t db).1 = content db.
Proof.
  intros Hs Hi (e & p & He & Hp & Hid & Hrem). unfold sql_purge_raw_payloads_before. set (d := content db) in *.
  set (rows := List.filter _ (db_payloads d)).
  destruct (commit_refused (set_db_payloads rows d) db) as (db' & -> & Hc); [| |done].
  - unfold storable_tables in *. cbn [set_db_payloads db_events db_payloads db_experimental db_quarantine db_checkpoints db_failures
      db_snapshots db_members db_rules db_runs db_hypotheses db_artifacts]. rewrite !andb_true_iff in *. destruct_and!.
    split_and!; try assumption. by apply forallb_filter.
  - apply not_true_is_false. intros Hi'.
    destruct (integrity_parts _ Hi') as (Hfk & _). rewrite references_spec in Hfk.
    specialize (Hfk e _ He Hid). cbn in Hfk. apply list_elem_of_fmap in Hfk as (p' & Hpid & Hp').
    destruct (integrity_parts _ Hi) as (_ & _ & _ & Hu & _). unfold unique in Hu. apply bool_decide_eq_true in Hu.
    subst rows. apply list_elem_of_In, filter_In in Hp' as [Hp' Hkeep]. apply list_elem_of_In in Hp'.
    assert (p' = p) as ->; [|by rewrite Hrem in Hkeep].
    apply list_elem_of_lookup in Hp as [i Hpi], Hp' as [j Hpj].
    assert (i = j) as ->; [|congruence]. apply (NoDup_lookup _ i j (pw_payload_id p) Hu); rewrite list_lookup_fmap;
      [by rewrite Hpi|rewrite Hpj; simpl; by f_equal].
Qed.

Module SqlSample.

#[local] Existing Instance default_context.
#[local] Existing Instance ResearchSample.tail_digest.


Notation t0 := ResearchSample.t0.
Notation second := ResearchSample.second.

(** ** The work of a run *)

Definition event (id : string) (payload_id : option string) (source : option string) (at_ : Z) : RawMarketEvent := {|
  re_event_id := id; re_venue := "bitget"; re_canonical_instrument_id := "BTC"; re_venue_symbol := "BTCUSDT";
  re_event_type := "funding_current"; re_exchange_timestamp := Some at_; re_received_at := at_; re_available_at := at_;
  re_sequence := Some 7%Z; re_connection_id := Some "c1"; re_reconciliation_state := Some "synchronized";
  re_payload_sha256 := ResearchSample.tail64 "{}"; re_raw_payload := "{}"; re_normalizer_version := "v1";
  re_capability_verification_run_id := "cert-1"; re_created_at := at_ + second; re_raw_payload_id := payload_id;
  re_source_payload_sha256 := source; re_channel := "funding"; re_snapshot_sequence := None;
  re_delta_sequence := Some 3%Z; re_connection_epoch := Some 1%Z; re_timestamp_semantic := REALTIME_EVENT;
  re_availability_provenance := OBSERVED_RETRIEVAL_TIME; re_exchange_server_time := None; re_timeframe := None |}.
Definition stored_payload (id : string) (at_ : Z) : RawPayload := {|
  rp_payload_id := id; rp_venue := "bitget"; rp_source_endpoint := "/fundingRate"; rp_raw_payload := "{}";
  rp_received_at := at_ |}.
Definition manifest : DataSnapshotManifest := {|
  sm_snapshot_id := "snap-1"; sm_cutoff_at := t0 + 10 * second;
  sm_events := [(0%Z, "e1", ResearchSample.tail64 "{}")]; sm_quarantine_count := 0; sm_quarantine_reasons := [("gap", 1%Z)];
  sm_outage_event_ids := []; sm_degraded_event_ids := ["e9"]; sm_content_sha256 := "content"; sm_manifest_sha256 := "manifest";
  sm_finalized_at := t0 + 11 * second; sm_eligibility_status := "ELIGIBLE"; sm_eligibility_reasons := [] |}.
Definition checkpoint (namespace : string) (sequence : Z) : CollectionCheckpoint := {|
  ck_venue := "bitget"; ck_stream_key := "bitget:funding"; ck_connection_id := "c1"; ck_last_sequence := Some sequence;
  ck_last_event_id := Some "e1"; ck_reconciliation_state := R_SYNCHRONIZED; ck_checkpointed_at := t0;
  ck_canonical_instrument_id := "BTC"; ck_venue_symbol := "BTCUSDT"; ck_event_type := "funding_current";
  ck_channel := "funding"; ck_last_available_at := Some t0; ck_last_funding_at := None; ck_last_trade_id := None;
  ck_snapshot_sequence := None; ck_delta_sequence := None; ck_connection_epoch := 1; ck_recovery_required := false;
  ck_bootstrap_completed := true; ck_recovery_started_at := None; ck_recovery_completed_at := None;
  ck_last_recovery_failure := None; ck_checkpoint_namespace := namespace |}.
Definition rule (evidence : list (string * list (string * option string))) : InstrumentRuleSnapshot := {|
  ir_rule_snapshot_id := "rule-1"; ir_venue := "bitget"; ir_canonical_instrument_id := "BTC"; ir_venue_symbol := "BTCUSDT";
  ir_tick_size := Some (1 # 10)%Q; ir_lot_size := Some (1 # 1000)%Q; ir_minimum_quantity := None; ir_minimum_notional := Some 5%Q;
  ir_maker_fee := None; ir_taker_fee := None; ir_maker_rebate := None; ir_funding_interval := Some 28800%Z;
  ir_margin_asset := Some "USDT"; ir_source_endpoint := "/contracts"; ir_source_payload_sha256 := ResearchSample.tail64 "rules";
  ir_retrieved_at := t0; ir_valid_from := t0; ir_valid_until := None; ir_field_evidence := evidence;
  ir_fee_tier := FEE_UNKNOWN; ir_verification_status := RULE_OBSERVED |}.
Definition evidence : list (string * list (string * option string)) :=
  [("tick_size", [("source", Some "a"); ("at", None)]); ("lot_size", [])].
Definition hypothesis : FrozenHypothesis := {|
  fh_hypothesis_version := "h1"; fh_strategy_id := "carry"; fh_parameter_grid := []; fh_primary_metric := "sharpe";
  fh_secondary_metrics := []; fh_acceptance_thresholds := []; fh_frozen_at := t0; fh_content_sha256 := "frozen" |}.
Definition identity (at_ : Z) : ResearchRunIdentity := {|
  ri_run_id := "run-1"; ri_commit_sha := "abc"; ri_config_sha256 := "cfg"; ri_data_snapshot_id := "snap-1";
  ri_hypothesis_version := "h1"; ri_strategy_id := "carry"; ri_strategy_version := "1"; ri_created_at := at_ |}.

Definition payload_hash : string := ResearchSample.tail64 "payload".
Definition e1 : RawMarketEvent := event "e1" (Some "p1") (Some payload_hash) t0.
Definition calls : list StoreCall :=
  [SaveRawPayload payload_hash (stored_payload "p1" t0); SaveRawPayload payload_hash (stored_payload "p1" t0);
   AddRawEvent e1; AddRawEvent e1; AddRawEvent (event "e2" None None (t0 + second)); RawEvents;
   AddExperimentalEvent e1 "experimental"; GetExperimentalEvent "e1"; ListExperimentalEvents;
   QuarantineEvent e1 "gap" t0; QuarantineEvent e1 "late" t0; QuarantineSummary t0;
   SaveSnapshot "snap-1" (t0 + 10 * second) 1 "content"; SaveSnapshot "snap-1" t0 1 "content"; FinalizeSnapshot manifest;
   FinalizeSnapshot manifest; SnapshotManifest "snap-1"; SnapshotEvents "snap-1";
   SaveCheckpoint (checkpoint "production" 1); SaveCheckpoint (checkpoint "test-1" 5); SaveCheckpoint (checkpoint "test-1" 6);
   ListCheckpoints "test-1"; GetCheckpoint "production" "bitget" "bitget:funding";
   SaveInstrumentRule (rule evidence); SaveInstrumentRule (rule (rev evidence)); InstrumentRulesAt t0;
   FreezeHypothesis "{}" hypothesis; SaveRun (identity t0) "running" None; SaveRun (identity t0) "completed" (Some "PASS");
   SaveArtifact "run-1" "snap-1" "report" "report.md" "hash" t0; PurgeRawPayloadsBefore (t0 + 20 * second)].

Example calls_admissible : admissible_all calls empty_store = true.
Proof. vm_compute. reflexivity. Qed.


(** The answers themselves: events, duplicates and the conflict *)
Example calls_answers :
  firstn 5 (transcript sql_call calls no_tables).2 = [Ok (Added true); Ok (Added false); Ok (Added true); Ok (Added false); Ok (Added true)] /\
  nth 13 (transcript sql_call calls no_tables).2 (Ok Done) = Err (ValueError "snapshot id is already bound to different data") /\
  nth 17 (transcript sql_call calls no_tables).2 (Ok Done) = Ok (Events [e1]) /\
  nth 21 (transcript sql_call calls no_tables).2 (Ok Done) = Ok (Checkpoints [checkpoint "test-1" 6]).
Proof. vm_compute. done. Qed.

(** ** Where the two differ *)

(** An event of an old payload, in no snapshot *)
Definition unprotected : list StoreCall := [SaveRawPayload payload_hash (stored_payload "p1" t0); AddRawEvent e1].
Notation held := (transcript sql_call unprotected no_tables).1.

Lemma sql_purge_refused_witness :
  (sql_purge_raw_payloads_before (t0 + 20 * second) held).2 = Err IntegrityError /\
  content (sql_purge_raw_payloads_before (t0 + 20 * second) held).1 = content held.
Proof.
  apply (sql_purge_refused held (t0 + 20 * second)); [vm_compute; reflexivity..|].
  exists (event_row e1), (payload_row payload_hash (stored_payload "p1" t0)). split_and!; [by left|by left|reflexivity|].
  vm_compute. reflexivity.
Defined.

Example memory_purge_removes :
  (memory_call (PurgeRawPayloadsBefore (t0 + 20 * second)) (transcript memory_call unprotected empty_store).1).2 = Ok (Number 1) /\
  rs_raw_payloads (memory_call (PurgeRawPayloadsBefore (t0 + 20 * second)) (transcript memory_call unprotected empty_store).1).1 = [].
Proof. vm_compute. done. Qed.

(** An event whose payload was not saved is taken for a duplicate. *)
Example missing_payload_taken_for_duplicate :
  (sql_call (AddRawEvent e1) no_tables).2 = Ok (Added false) /\ (memory_call (AddRawEvent e1) empty_store).2 = Ok (Added true).
Proof. vm_compute. done. Qed.

(** The time at which a run was created is not part of its identity in the database. *)
Definition prepared : list StoreCall :=
  [SaveSnapshot "snap-1" t0 1 "content"; FreezeHypothesis "{}" hypothesis; SaveRun (identity t0) "running" None].
Example later_run_accepted :
  (sql_call (SaveRun (identity (t0 + second)) "running" None) (transcript sql_call prepared no_tables).1).2 = Ok Done /\
  (memory_call (SaveRun (identity (t0 + second)) "running" None) (transcript memory_call prepared empty_store).1).2 =
    Err (ValueError "run id is already bound to a different identity").
Proof. vm_compute. done. Qed.

(** A missing rule is a [ValueError] of the one and a [KeyError] of the other. *)
Example missing_rule_errors :
  (sql_call (InstrumentRules ["rule-1"]) no_tables).2 = Err (ValueError "instrument rule snapshot is missing") /\
  (memory_call (InstrumentRules ["rule-1"]) empty_store).2 = Err KeyError.
Proof. vm_compute. done. Qed.

End SqlSample.
