(* ===== verification/Strategies.v ===== *)
(** * Strategies on features and regimes (domain/strategies/, services/strategy_engine/,
      domain/regimes/models.py)

    The four strategies of one symbol, the relative strength of a universe of symbols, and
    the engine that runs them.  A [float] is its value, as in Binary64.v: operators round to
    53 bits, overflow and the sign of a zero are outside the model.  A pydantic
    [ValidationError] is a [ValueError] with the text of the first violated rule.  A context
    has its features in the order of the mapping. *)

From Stdlib Require Import ZArith QArith Qabs Qround Lia Lqa.
From stdpp Require Import base tactics list strings.
From S2P Require Import Prelude Decimals Binary64 RiskModels Venues Evidence Json PyText FundingCarry Certification Sources.

Local Open Scope string_scope.
Local Open Scope list_scope.
Local Open Scope Q_scope.

(** ** Floats *)

Definition fadd (a b : Q) : Q := fl (a + b).
Definition fsub (a b : Q) : Q := fl (a - b).
Definition fmul (a b : Q) : Q := fl (a * b).
(** [a / b] *)
Definition fdiv (a b : Q) : result Q :=
  if deqb b 0 then Err (OtherError "ZeroDivisionError") else Ok (fl (a / b)).
(** a literal of the source, and an integer *)
Definition lit (q : Q) : Q := fl q.
Definition whole (n : Z) : Q := fl (inject_Z n).
Definition count_float {A} (xs : list A) : Q := inject_Z (size xs).

(** [f"{x:.nf}"] *)
Definition fixed (n : nat) (x : Q) : string :=
  let scale := (10 ^ Z.of_nat n)%Z in
  let m := round_half_even (Qabs x * inject_Z scale) in
  (if dltb x 0 then "-" else EmptyString) +:+ zpad 1 (m / scale) +:+
  (if (n =? 0)%nat then EmptyString else "." +:+ zpad n (m mod scale)).

Example fixed_examples :
  map (fixed 3) [lit (123456 # 100000); lit (- 1 # 3); lit (5 # 10000); - lit (1 # 10000); 12] =
  ["1.235"; "-0.333"; "0.001"; "-0.000"; "12.000"] /\ fixed 0 (5 # 2) = "2" /\ fixed 6 (lit (1 # 1000)) = "0.001000".
Proof. by vm_compute. Qed.

(** ** Regimes *)

Definition regime_value (r : Regime) : string :=
  match r with
  | TREND_UP => "TREND_UP" | TREND_DOWN => "TREND_DOWN" | RANGE => "RANGE" | HIGH_VOLATILITY => "HIGH_VOLATILITY"
  | LOW_VOLATILITY => "LOW_VOLATILITY" | LONG_SQUEEZE => "LONG_SQUEEZE" | SHORT_SQUEEZE => "SHORT_SQUEEZE"
  | LIQUIDATION_CASCADE => "LIQUIDATION_CASCADE" | FLASH_CRASH => "FLASH_CRASH"
  | FUNDING_EXTREME_POSITIVE => "FUNDING_EXTREME_POSITIVE" | FUNDING_EXTREME_NEGATIVE => "FUNDING_EXTREME_NEGATIVE"
  | OI_EXPANSION => "OI_EXPANSION" | OI_CONTRACTION => "OI_CONTRACTION" | SPOT_LED_MOVE => "SPOT_LED_MOVE"
  | PERP_LED_MOVE => "PERP_LED_MOVE" | RISK_OFF => "RISK_OFF" | UNKNOWN => "UNKNOWN"
  end.
Definition all_regimes : list Regime :=
  [TREND_UP; TREND_DOWN; RANGE; HIGH_VOLATILITY; LOW_VOLATILITY; LONG_SQUEEZE; SHORT_SQUEEZE; LIQUIDATION_CASCADE;
   FLASH_CRASH; FUNDING_EXTREME_POSITIVE; FUNDING_EXTREME_NEGATIVE; OI_EXPANSION; OI_CONTRACTION; SPOT_LED_MOVE;
   PERP_LED_MOVE; RISK_OFF; UNKNOWN].

Definition features : Type := list (string * option pyfloat).

Record RegimeResult := {
  rr_primary_regime : Regime;
  rr_secondary_regimes : list Regime;
  rr_confidence : Q;
  rr_evidence : list string;
  rr_feature_snapshot : features;
  rr_regime_started_at : Z;
  rr_regime_duration_seconds : Q;
  rr_model_version : string;
  rr_data_quality_score : Q;
  rr_statistical_state : option Z;
}.

(** ** Signals and evaluations (domain/strategies/models.py) *)

Definition strategy_value (s : StrategyName) : string :=
  match s with
  | TREND_FOLLOWING => "trend_following" | MEAN_REVERSION => "mean_reversion"
  | FLASH_CRASH_REVERSAL => "flash_crash_reversal" | FUNDING_EXTREME => "funding_extreme"
  | RELATIVE_STRENGTH => "relative_strength"
  end.
Definition side_value (s : SignalSide) : string :=
  match s with S_BUY => "buy" | S_SELL => "sell" | S_FLAT => "flat" end.
#[export] Instance StrategyName_eq_dec : EqDecision StrategyName.
Proof. solve_decision. Defined.

(** The metadata beyond the note on the meaning of confidence *)
Inductive Metadata :=
  | PlainMetadata
  | StagedMetadata
  | PairMetadata (pair_group_id : string) (target_notional_weight : Q).

Record Signal := {
  sn_signal_id : string;
  sn_timestamp : Z;
  sn_strategy : StrategyName;
  sn_symbol : string;
  sn_exchange : option string;
  sn_side : SignalSide;
  sn_intent : SignalIntent;
  sn_strength : Q;
  sn_confidence : Q;
  sn_suggested_risk_fraction : Q;
  sn_primary_regime : Regime;
  sn_secondary_regimes : list Regime;
  sn_data_quality_score : Q;
  sn_valid_until : Z;
  sn_evidence : list string;
  sn_feature_snapshot : list (string * option Q);
  sn_metadata : Metadata;
}.

Definition within (lo x hi : Q) : bool := dleb lo x && dleb x hi.

(** The validation of a signal; the timestamps were read as UTC. *)
Definition Signal_validate (s : Signal) : result Signal :=
  require! (16 <=? String.length (sn_signal_id s))%nat && (String.length (sn_signal_id s) <=? 64)%nat
    else ValueError "signal_id";
  require! nonempty (sn_symbol s) else ValueError "symbol";
  require! within 0 (sn_strength s) 1 else ValueError "strength";
  require! within 0 (sn_confidence s) 1 else ValueError "confidence";
  require! dltb 0 (sn_suggested_risk_fraction s) && dleb (sn_suggested_risk_fraction s) (lit (1 # 100))
    else ValueError "suggested_risk_fraction";
  require! within 0 (sn_data_quality_score s) 1 else ValueError "data_quality_score";
  require! negb (bool_decide (sn_evidence s = [])) else ValueError "evidence";
  require! (sn_timestamp s <? sn_valid_until s)%Z else ValueError "valid_until must be later than timestamp";
  require! match sn_side s with
           | S_FLAT => deqb (sn_strength s) 0 && negb (bool_decide (sn_intent s = ENTRY))
           | _ => dltb 0 (sn_strength s)
           end
    else ValueError (match sn_side s with
                     | S_FLAT => "flat signals must be non-entry signals with zero strength"
                     | _ => "actionable signals require positive strength"
                     end);
  Ok s.

Record StrategyEvaluation := {
  se_timestamp : Z;
  se_strategy : StrategyName;
  se_symbol : string;
  se_gate_passed : bool;
  se_signal : option Signal;
  se_reasons : list string;
}.

Definition evaluation_new (timestamp : datetime) (strategy : StrategyName) (symbol : string) (gate_passed : bool)
    (signal : option Signal) (reasons : list string) : result StrategyEvaluation :=
  let! timestamp := utc_or "timestamp must be timezone-aware" timestamp in
  require! negb (bool_decide (reasons = [])) else ValueError "reasons";
  require! match signal with Some _ => gate_passed | None => true end
    else ValueError "a signal cannot be emitted through a closed regime gate";
  Ok {| se_timestamp := timestamp; se_strategy := strategy; se_symbol := symbol; se_gate_passed := gate_passed;
        se_signal := signal; se_reasons := reasons |}.

(** ** The base of the strategies (domain/strategies/base.py) *)

Record StrategyContext := {
  cx_timestamp : datetime;
  cx_symbol : string;
  cx_features : features;
  cx_regime : RegimeResult;
  cx_exchange : option string;
}.

Definition float_value (x : pyfloat) : option Q :=
  match x with
  | FFinite neg q => Some (if neg then - q else q)
  | _ => None
  end.
Definition finite_features (fs : features) : list (string * Q) :=
  omap (fun kv : string * option pyfloat => match kv.2 with
                                            | Some x => option_map (fun q => (kv.1, q)) (float_value x)
                                            | None => None
                                            end) fs.
Definition snapshot_of (fs : features) (names : list string) : list (string * option Q) :=
  map (fun name => (name, dict_get name (finite_features fs))) names.
Definition missing_features (fs : list (string * Q)) (required : list string) : list string :=
  List.filter (fun name => negb (dict_mem name fs)) required.
Definition active_regimes (r : RegimeResult) : list Regime := rr_primary_regime r :: rr_secondary_regimes r.
Definition is_active (r : RegimeResult) (x : Regime) : bool := bool_decide (x ∈ active_regimes r).

Definition sorted_names (rs : list Regime) : string := join "," (sorted_by string_leb (map regime_value rs)).
Definition reason_when (b : bool) (reason : string) : list string := if b then [reason] else [].

Definition regime_gate (result : RegimeResult) (allowed blocked : list Regime) (minimum_confidence minimum_quality : Q)
  : bool * list string :=
  let present := List.filter (is_active result) blocked in
  let reasons :=
    reason_when (bool_decide (rr_primary_regime result = UNKNOWN)) "primary regime is UNKNOWN" ++
    reason_when (negb (existsb (is_active result) allowed)) ("required regime absent: " +:+ sorted_names allowed) ++
    reason_when (negb (bool_decide (present = []))) ("blocking regime present: " +:+ sorted_names present) ++
    reason_when (dltb (rr_confidence result) minimum_confidence)
      ("regime confidence " +:+ fixed 3 (rr_confidence result) +:+ " below " +:+ fixed 3 minimum_confidence) ++
    reason_when (dltb (rr_data_quality_score result) minimum_quality)
      ("data quality " +:+ fixed 3 (rr_data_quality_score result) +:+ " below " +:+ fixed 3 minimum_quality) in
  (bool_decide (reasons = []), reasons).

Definition setup_confidence (regime : RegimeResult) (setup_score : Q) : Q :=
  fmul (dmin (rr_confidence regime) (dmin (dmax setup_score 0) 1)) (rr_data_quality_score regime).

(** [timestamp + timedelta(minutes=m)] *)
Definition plus_minutes (t : datetime) (m : Z) : result datetime :=
  let t' := (instant t + m * 60000000)%Z in
  require! bool_decide (datetime_range t') else OtherError "OverflowError";
  Ok (match t with Naive _ => Naive t' | Aware _ => Aware t' end).
Definition iso_text (t : datetime) : string :=
  match t with Naive t => isoformat_with "T" EmptyString t | Aware t => isoformat t end.

Section Strategies.
Context {D : Digest}.

Definition deterministic_signal_id (strategy : StrategyName) (symbol : string) (timestamp : datetime) (side : SignalSide)
    (discriminator : string) : string :=
  sha256_hex (join "|" [strategy_value strategy; symbol; iso_text timestamp; side_value side; discriminator]).

(** The signal of a strategy, and the evaluation that carries it *)
Definition make_signal (name : StrategyName) (symbol : string) (exchange : option string) (timestamp : datetime)
    (fs : features) (regime : RegimeResult) (side : SignalSide) (setup_score risk_fraction : Q) (minutes : Z)
    (evidence : list string) (fields : list string) (discriminator : string) (metadata : Metadata) : result Signal :=
  let! until := plus_minutes timestamp minutes in
  let! t := utc_or "signal timestamps must be timezone-aware" timestamp in
  let! u := utc_or "signal timestamps must be timezone-aware" until in
  Signal_validate {|
    sn_signal_id := deterministic_signal_id name symbol timestamp side discriminator; sn_timestamp := t;
    sn_strategy := name; sn_symbol := symbol; sn_exchange := exchange; sn_side := side; sn_intent := ENTRY;
    sn_strength := setup_score; sn_confidence := setup_confidence regime setup_score;
    sn_suggested_risk_fraction := risk_fraction; sn_primary_regime := rr_primary_regime regime;
    sn_secondary_regimes := rr_secondary_regimes regime; sn_data_quality_score := rr_data_quality_score regime;
    sn_valid_until := u; sn_evidence := evidence; sn_feature_snapshot := snapshot_of fs fields;
    sn_metadata := metadata |}.

Definition closed_gate (name : StrategyName) (c : StrategyContext) (reasons : list string) : result StrategyEvaluation :=
  evaluation_new (cx_timestamp c) name (cx_symbol c) false None reasons.
Definition no_signal (name : StrategyName) (c : StrategyContext) (reasons : list string) : result StrategyEvaluation :=
  evaluation_new (cx_timestamp c) name (cx_symbol c) true None reasons.
Definition emit (name : StrategyName) (c : StrategyContext) (side : SignalSide) (setup_score risk_fraction : Q)
    (minutes : Z) (evidence fields : list string) (metadata : Metadata) (reason : string) : result StrategyEvaluation :=
  let! signal := make_signal name (cx_symbol c) (cx_exchange c) (cx_timestamp c) (cx_features c) (cx_regime c) side
                   setup_score risk_fraction minutes evidence fields EmptyString metadata in
  evaluation_new (cx_timestamp c) name (cx_symbol c) true (Some signal) [reason].

(** ** Trend following (trend_following.py) *)

Record TrendFollowingConfig := {
  tf_minimum_regime_confidence : Q;
  tf_minimum_data_quality : Q;
  tf_minimum_slope_z : Q;
  tf_minimum_breakout_distance : Q;
  tf_breakout_full_strength : Q;
  tf_minimum_adx : Q;
  tf_minimum_confirmations : Z;
  tf_signal_valid_minutes : Z;
  tf_suggested_risk_fraction : Q;
}.
Definition default_trend : TrendFollowingConfig := {|
  tf_minimum_regime_confidence := lit (60 # 100); tf_minimum_data_quality := lit (80 # 100); tf_minimum_slope_z := 1;
  tf_minimum_breakout_distance := lit (1 # 1000); tf_breakout_full_strength := lit (1 # 100); tf_minimum_adx := 20;
  tf_minimum_confirmations := 1; tf_signal_valid_minutes := 5; tf_suggested_risk_fraction := lit (25 # 10000) |}.

Definition risk_in (x limit : Q) : bool := dltb 0 x && dleb x (lit limit).
Definition TrendFollowingConfig_validate (k : TrendFollowingConfig) : result TrendFollowingConfig :=
  require! within 0 (tf_minimum_regime_confidence k) 1 else ValueError "minimum_regime_confidence must be in [0, 1]";
  require! within 0 (tf_minimum_data_quality k) 1 else ValueError "minimum_data_quality must be in [0, 1]";
  require! negb (dleb (tf_minimum_slope_z k) 0 || dleb (tf_minimum_breakout_distance k) 0)
    else ValueError "trend thresholds must be positive";
  require! negb (dltb (tf_breakout_full_strength k) (tf_minimum_breakout_distance k))
    else ValueError "breakout_full_strength must exceed the entry threshold";
  require! negb ((tf_minimum_confirmations k <? 1)%Z || (tf_signal_valid_minutes k <? 1)%Z)
    else ValueError "confirmation count and signal lifetime must be positive";
  require! risk_in (tf_suggested_risk_fraction k) (1 # 100)
    else ValueError "suggested_risk_fraction must be in (0, 0.01]";
  Ok k.

Definition trend_fields : list string :=
  ["ma_slope_z"; "breakout_distance"; "adx"; "volume_zscore"; "oi_zscore"; "realized_volatility"].

(** [features[name]], and a test of a feature that may be absent *)
Definition feature (fs : list (string * Q)) (name : string) : result Q :=
  match dict_get name fs with Some x => Ok x | None => Err KeyError end.
Definition confirms (fs : list (string * Q)) (name : string) (test : Q -> bool) (text : Q -> string) : list string :=
  match dict_get name fs with Some x => reason_when (test x) (text x) | None => [] end.

Definition trend_confirmations (k : TrendFollowingConfig) (fs : list (string * Q)) : list string :=
  confirms fs "adx" (fun x => dleb (tf_minimum_adx k) x) (fun x => "ADX confirms trend (" +:+ fixed 2 x +:+ ")") ++
  confirms fs "volume_zscore" (fun x => dleb 0 x) (fun x => "volume is not below baseline (z=" +:+ fixed 3 x +:+ ")") ++
  confirms fs "oi_zscore" (fun x => dleb 0 x) (fun x => "OI is not contracting (z=" +:+ fixed 3 x +:+ ")").

Definition trend_score (k : TrendFollowingConfig) (slope breakout : Q) (confirmations : list string) : result Q :=
  let! s := fdiv slope (lit (2326 # 1000)) in
  let! b := fdiv breakout (tf_breakout_full_strength k) in
  let! n := fdiv (count_float confirmations) 3 in
  Ok (fadd (fadd (fmul (lit (45 # 100)) (dmin s 1)) (fmul (lit (35 # 100)) (dmin b 1))) (fmul (lit (20 # 100)) (dmin n 1))).

Definition trend_evaluate (k : TrendFollowingConfig) (c : StrategyContext) : result StrategyEvaluation :=
  let r := cx_regime c in
  let '(gate_open, gate_reasons) :=
    regime_gate r [TREND_UP; TREND_DOWN] [UNKNOWN; RISK_OFF; FLASH_CRASH; LIQUIDATION_CASCADE]
      (tf_minimum_regime_confidence k) (tf_minimum_data_quality k) in
  if negb gate_open then closed_gate TREND_FOLLOWING c gate_reasons else
  let fs := finite_features (cx_features c) in
  let missing := missing_features fs ["ma_slope_z"; "breakout_distance"] in
  if negb (bool_decide (missing = []))
  then no_signal TREND_FOLLOWING c ["missing required features: " +:+ join "," missing] else
  if is_active r TREND_UP && is_active r TREND_DOWN
  then no_signal TREND_FOLLOWING c ["contradictory TREND_UP and TREND_DOWN classifications"] else
  let side := if is_active r TREND_UP then S_BUY else S_SELL in
  let direction := if bool_decide (side = S_BUY) then 1 else -1 in
  let! slope_z := feature fs "ma_slope_z" in
  let! breakout_distance := feature fs "breakout_distance" in
  let slope := fmul slope_z direction in
  let breakout := fmul breakout_distance direction in
  let confirmations := trend_confirmations k fs in
  let failures :=
    reason_when (dltb slope (tf_minimum_slope_z k))
      ("directional ma_slope_z " +:+ fixed 3 slope +:+ " below " +:+ fixed 3 (tf_minimum_slope_z k)) ++
    reason_when (dltb breakout (tf_minimum_breakout_distance k))
      ("directional breakout_distance " +:+ fixed 6 breakout +:+ " below " +:+ fixed 6 (tf_minimum_breakout_distance k)) ++
    reason_when (size confirmations <? tf_minimum_confirmations k)%Z
      ("only " +:+ int_text (size confirmations) +:+ " independent confirmations; requires " +:+
       int_text (tf_minimum_confirmations k)) in
  if negb (bool_decide (failures = [])) then no_signal TREND_FOLLOWING c failures else
  let! score := trend_score k slope breakout confirmations in
  emit TREND_FOLLOWING c side score (tf_suggested_risk_fraction k) (tf_signal_valid_minutes k)
    ([regime_value (rr_primary_regime r) +:+ " regime gate passed"; "directional ma_slope_z=" +:+ fixed 3 slope;
      "directional breakout_distance=" +:+ fixed 6 breakout] ++ confirmations)
    trend_fields PlainMetadata "trend setup satisfied".

(** ** Mean reversion (mean_reversion.py) *)

Record MeanReversionConfig := {
  mv_minimum_regime_confidence : Q;
  mv_minimum_data_quality : Q;
  mv_entry_return_z : Q;
  mv_full_strength_z : Q;
  mv_minimum_price_deviation : Q;
  mv_maximum_spread_z : Q;
  mv_maximum_abs_slope_z : Q;
  mv_signal_valid_minutes : Z;
  mv_suggested_risk_fraction : Q;
}.
Definition default_reversion : MeanReversionConfig := {|
  mv_minimum_regime_confidence := lit (60 # 100); mv_minimum_data_quality := lit (80 # 100); mv_entry_return_z := 2;
  mv_full_strength_z := lit (35 # 10); mv_minimum_price_deviation := lit (5 # 1000); mv_maximum_spread_z := 2;
  mv_maximum_abs_slope_z := lit (50 # 100); mv_signal_valid_minutes := 3;
  mv_suggested_risk_fraction := lit (15 # 10000) |}.
Definition MeanReversionConfig_validate (k : MeanReversionConfig) : result MeanReversionConfig :=
  require! within 0 (mv_minimum_regime_confidence k) 1 else ValueError "minimum_regime_confidence must be in [0, 1]";
  require! within 0 (mv_minimum_data_quality k) 1 else ValueError "minimum_data_quality must be in [0, 1]";
  require! negb (dleb (mv_entry_return_z k) 0 || dltb (mv_full_strength_z k) (mv_entry_return_z k))
    else ValueError "z-score thresholds are inconsistent";
  require! negb (dleb (mv_minimum_price_deviation k) 0 || dleb (mv_maximum_spread_z k) 0)
    else ValueError "deviation and spread thresholds must be positive";
  require! negb ((mv_signal_valid_minutes k <? 1)%Z || negb (risk_in (mv_suggested_risk_fraction k) (1 # 100)))
    else ValueError "unsafe mean-reversion risk or lifetime";
  Ok k.

Definition reversion_fields : list string :=
  ["return_zscore"; "bollinger_position"; "ema_distance"; "vwap_distance"; "liquidity_recovery"; "spread_zscore";
   "ma_slope_z"].

Definition reversion_deviations (k : MeanReversionConfig) (fs : list (string * Q)) (side : SignalSide) (direction : Q)
  : list string :=
  confirms fs "bollinger_position"
    (fun x => bool_decide (side = S_BUY) && dleb x (lit (5 # 100)) || bool_decide (side = S_SELL) && dleb (lit (95 # 100)) x)
    (fun x => "Bollinger position is extreme (" +:+ fixed 3 x +:+ ")") ++
  flat_map (fun name => confirms fs name (fun x => dleb (fmul x direction) (- mv_minimum_price_deviation k))
                          (fun x => name +:+ " confirms deviation (" +:+ fixed 5 x +:+ ")"))
    ["ema_distance"; "vwap_distance"].
Definition reversion_liquidity (fs : list (string * Q)) : list string :=
  confirms fs "liquidity_recovery" (fun x => dltb 0 x) (fun x => "liquidity recovery is positive (" +:+ fixed 3 x +:+ ")") ++
  confirms fs "spread_zscore" (fun x => dleb x 1) (fun x => "spread has normalized (z=" +:+ fixed 3 x +:+ ")").

Definition reversion_score (k : MeanReversionConfig) (return_z : Q) (deviations : list string) : result Q :=
  let! z := fdiv (fsub (Qabs return_z) (mv_entry_return_z k)) (fsub (mv_full_strength_z k) (mv_entry_return_z k)) in
  let! n := fdiv (count_float deviations) 2 in
  Ok (dmax (lit (25 # 100))
        (fadd (fadd (fmul (lit (65 # 100)) (dmin z 1)) (fmul (lit (20 # 100)) (dmin n 1))) (lit (15 # 100)))).

Definition reversion_evaluate (k : MeanReversionConfig) (c : StrategyContext) : result StrategyEvaluation :=
  let r := cx_regime c in
  let '(gate_open, gate_reasons) :=
    regime_gate r [RANGE] [UNKNOWN; TREND_UP; TREND_DOWN; HIGH_VOLATILITY; FLASH_CRASH; LIQUIDATION_CASCADE; RISK_OFF]
      (mv_minimum_regime_confidence k) (mv_minimum_data_quality k) in
  if negb gate_open then closed_gate MEAN_REVERSION c gate_reasons else
  let fs := finite_features (cx_features c) in
  let missing := missing_features fs ["return_zscore"] in
  if negb (bool_decide (missing = [])) then no_signal MEAN_REVERSION c ["missing required feature: return_zscore"] else
  let! return_z := feature fs "return_zscore" in
  let side := if dltb return_z 0 then S_BUY else S_SELL in
  let direction := if bool_decide (side = S_BUY) then 1 else -1 in
  let deviations := reversion_deviations k fs side direction in
  let liquidity := reversion_liquidity fs in
  let failures :=
    reason_when (dltb (Qabs return_z) (mv_entry_return_z k))
      ("abs(return_zscore)=" +:+ fixed 3 (Qabs return_z) +:+ " below " +:+ fixed 3 (mv_entry_return_z k)) ++
    confirms fs "ma_slope_z" (fun x => dltb (mv_maximum_abs_slope_z k) (Qabs x))
      (fun x => "ma_slope_z=" +:+ fixed 3 x +:+ " indicates a non-flat market") ++
    confirms fs "spread_zscore" (fun x => dltb (mv_maximum_spread_z k) x)
      (fun x => "spread_zscore=" +:+ fixed 3 x +:+ " indicates impaired execution") ++
    reason_when (bool_decide (deviations = [])) "no Bollinger, EMA, or VWAP deviation confirmation" ++
    reason_when (bool_decide (liquidity = [])) "no observable liquidity recovery or normalized spread" in
  if negb (bool_decide (failures = [])) then no_signal MEAN_REVERSION c failures else
  let! score := reversion_score k return_z deviations in
  emit MEAN_REVERSION c side score (mv_suggested_risk_fraction k) (mv_signal_valid_minutes k)
    (["RANGE regime gate passed and trend/cascade gates absent"; "return_zscore=" +:+ fixed 3 return_z] ++
     deviations ++ liquidity)
    reversion_fields PlainMetadata "range reversion setup satisfied".

(** ** Flash-crash reversal (flash_crash.py) *)

Record FlashCrashReversalConfig := {
  fc_minimum_regime_confidence : Q;
  fc_minimum_data_quality : Q;
  fc_maximum_return_z : Q;
  fc_minimum_volume_z : Q;
  fc_minimum_liquidation_z : Q;
  fc_maximum_oi_z : Q;
  fc_minimum_spread_z : Q;
  fc_minimum_recovery_confirmations : Z;
  fc_signal_valid_minutes : Z;
  fc_suggested_risk_fraction : Q;
}.
Definition default_crash : FlashCrashReversalConfig := {|
  fc_minimum_regime_confidence := lit (65 # 100); fc_minimum_data_quality := lit (85 # 100); fc_maximum_return_z := -3;
  fc_minimum_volume_z := 2; fc_minimum_liquidation_z := lit (2326 # 1000); fc_maximum_oi_z := -2; fc_minimum_spread_z := 2;
  fc_minimum_recovery_confirmations := 2; fc_signal_valid_minutes := 1;
  fc_suggested_risk_fraction := lit (10 # 10000) |}.
Definition FlashCrashReversalConfig_validate (k : FlashCrashReversalConfig) : result FlashCrashReversalConfig :=
  require! within 0 (fc_minimum_regime_confidence k) 1 else ValueError "minimum_regime_confidence must be in [0, 1]";
  require! within 0 (fc_minimum_data_quality k) 1 else ValueError "minimum_data_quality must be in [0, 1]";
  require! negb (dleb 0 (fc_maximum_return_z k) || dleb 0 (fc_maximum_oi_z k))
    else ValueError "crash return and OI thresholds must be negative";
  require! negb (dleb (dmin (dmin (fc_minimum_volume_z k) (fc_minimum_liquidation_z k)) (fc_minimum_spread_z k)) 0)
    else ValueError "shock thresholds must be positive";
  require! negb (fc_minimum_recovery_confirmations k <? 2)%Z
    else ValueError "flash-crash reversal requires at least two recovery confirmations";
  require! negb ((fc_signal_valid_minutes k <? 1)%Z || negb (risk_in (fc_suggested_risk_fraction k) (25 # 10000)))
    else ValueError "flash-crash risk and lifetime must remain conservative";
  Ok k.

Definition crash_fields : list string :=
  ["return_zscore"; "volume_zscore"; "long_liquidation_zscore"; "liquidation_zscore"; "oi_zscore"; "spread_zscore";
   "liquidity_recovery"; "sell_pressure_change"; "cvd_momentum"; "book_imbalance"; "spread_recovery_ratio"].

(** The features of the shock: return, volume, liquidations, open interest, spread *)
Definition liquidation_key (fs : list (string * Q)) : string :=
  if dict_mem "long_liquidation_zscore" fs then "long_liquidation_zscore" else "liquidation_zscore".
Record Shock := { sk_return : Q; sk_volume : Q; sk_liquidation : Q; sk_oi : Q; sk_spread : Q }.
Definition shock_of (fs : list (string * Q)) : result Shock :=
  let! return_z := feature fs "return_zscore" in
  let! volume := feature fs "volume_zscore" in
  let! liquidation := feature fs (liquidation_key fs) in
  let! oi := feature fs "oi_zscore" in
  let! spread := feature fs "spread_zscore" in
  Ok {| sk_return := return_z; sk_volume := volume; sk_liquidation := liquidation; sk_oi := oi; sk_spread := spread |}.
Definition shock_checks (k : FlashCrashReversalConfig) (key : string) (s : Shock) : list (bool * string) :=
  [(dleb (sk_return s) (fc_maximum_return_z k), "return_zscore=" +:+ fixed 3 (sk_return s));
   (dleb (fc_minimum_volume_z k) (sk_volume s), "volume_zscore=" +:+ fixed 3 (sk_volume s));
   (dleb (fc_minimum_liquidation_z k) (sk_liquidation s), key +:+ "=" +:+ fixed 3 (sk_liquidation s));
   (dleb (sk_oi s) (fc_maximum_oi_z k), "oi_zscore=" +:+ fixed 3 (sk_oi s));
   (dleb (fc_minimum_spread_z k) (sk_spread s), "spread expansion z=" +:+ fixed 3 (sk_spread s))].
Definition recovery_confirmations (fs : list (string * Q)) : list string :=
  confirms fs "liquidity_recovery" (fun x => dltb 0 x) (fun x => "liquidity recovering (" +:+ fixed 3 x +:+ ")") ++
  confirms fs "sell_pressure_change" (fun x => dltb x 0) (fun x => "sell pressure decelerating (" +:+ fixed 3 x +:+ ")") ++
  confirms fs "cvd_momentum" (fun x => dltb 0 x) (fun x => "CVD improving (" +:+ fixed 3 x +:+ ")") ++
  confirms fs "book_imbalance" (fun x => dltb 0 x) (fun x => "book imbalance turned bid-heavy (" +:+ fixed 3 x +:+ ")") ++
  confirms fs "spread_recovery_ratio" (fun x => dltb 0 x) (fun x => "spread recovery ratio=" +:+ fixed 3 x).
Definition crash_score (k : FlashCrashReversalConfig) (s : Shock) (recovery : list string) : result Q :=
  let! a := fdiv (Qabs (sk_return s)) (Qabs (fc_maximum_return_z k)) in
  let! b := fdiv (sk_volume s) (fc_minimum_volume_z k) in
  let! l := fdiv (sk_liquidation s) (fc_minimum_liquidation_z k) in
  let! o := fdiv (Qabs (sk_oi s)) (Qabs (fc_maximum_oi_z k)) in
  let! shock := fdiv (fadd (fadd (fadd a b) l) o) 8 in
  let! n := fdiv (count_float recovery) 4 in
  Ok (fadd (fmul (lit (60 # 100)) (dmin shock 1)) (fmul (lit (40 # 100)) (dmin n 1))).

Definition crash_evaluate (k : FlashCrashReversalConfig) (c : StrategyContext) : result StrategyEvaluation :=
  let '(gate_open, gate_reasons) :=
    regime_gate (cx_regime c) [FLASH_CRASH] [UNKNOWN; RISK_OFF] (fc_minimum_regime_confidence k) (fc_minimum_data_quality k) in
  if negb gate_open then closed_gate FLASH_CRASH_REVERSAL c gate_reasons else
  let fs := finite_features (cx_features c) in
  let key := liquidation_key fs in
  let missing := missing_features fs ["return_zscore"; "volume_zscore"; key; "oi_zscore"; "spread_zscore"] in
  if negb (bool_decide (missing = []))
  then no_signal FLASH_CRASH_REVERSAL c ["missing shock confirmation features: " +:+ join "," missing] else
  let! shock := shock_of fs in
  let checks := shock_checks k key shock in
  let failed := map (fun x => "shock condition failed: " +:+ x.2) (List.filter (fun x : bool * string => negb x.1) checks) in
  if negb (bool_decide (failed = [])) then no_signal FLASH_CRASH_REVERSAL c failed else
  let recovery := recovery_confirmations fs in
  if (size recovery <? fc_minimum_recovery_confirmations k)%Z
  then no_signal FLASH_CRASH_REVERSAL c
         ["only " +:+ int_text (size recovery) +:+ " recovery confirmations; requires " +:+
          int_text (fc_minimum_recovery_confirmations k)] else
  let! score := crash_score k shock recovery in
  emit FLASH_CRASH_REVERSAL c S_BUY score (fc_suggested_risk_fraction k) (fc_signal_valid_minutes k)
    (["FLASH_CRASH regime gate passed"] ++ map snd checks ++ recovery) crash_fields StagedMetadata
    "multi-stage flash-crash reversal setup satisfied".

(** ** Funding extremes (funding_extreme.py) *)

Record FundingExtremeConfig := {
  fx_minimum_regime_confidence : Q;
  fx_minimum_data_quality : Q;
  fx_minimum_abs_funding_z : Q;
  fx_minimum_crowding_confirmations : Z;
  fx_minimum_timing_confirmations : Z;
  fx_signal_valid_minutes : Z;
  fx_suggested_risk_fraction : Q;
}.
Definition default_funding : FundingExtremeConfig := {|
  fx_minimum_regime_confidence := lit (65 # 100); fx_minimum_data_quality := lit (85 # 100);
  fx_minimum_abs_funding_z := lit (2326 # 1000); fx_minimum_crowding_confirmations := 3;
  fx_minimum_timing_confirmations := 2; fx_signal_valid_minutes := 5;
  fx_suggested_risk_fraction := lit (15 # 10000) |}.
Definition FundingExtremeConfig_validate (k : FundingExtremeConfig) : result FundingExtremeConfig :=
  require! within 0 (fx_minimum_regime_confidence k) 1 else ValueError "minimum_regime_confidence must be in [0, 1]";
  require! within 0 (fx_minimum_data_quality k) 1 else ValueError "minimum_data_quality must be in [0, 1]";
  require! negb (dltb (fx_minimum_abs_funding_z k) (3 # 2)) else ValueError "funding extreme threshold is too permissive";
  require! negb ((fx_minimum_crowding_confirmations k <? 2)%Z || (fx_minimum_timing_confirmations k <? 2)%Z)
    else ValueError "funding strategy needs multiple independent confirmations";
  require! negb ((fx_signal_valid_minutes k <? 1)%Z || negb (risk_in (fx_suggested_risk_fraction k) (25 # 10000)))
    else ValueError "funding strategy risk and lifetime must remain conservative";
  Ok k.

Definition funding_fields : list string :=
  ["funding_rate"; "predicted_funding_rate"; "funding_zscore"; "funding_percentile"; "funding_momentum"; "ma_slope_z";
   "oi_zscore"; "basis_zscore"; "basis_momentum"; "spot_perp_premium_zscore"; "cvd_momentum"; "liquidation_zscore";
   "long_short_ratio_zscore"].

Definition crowding_confirmations (fs : list (string * Q)) (positive : bool) (sign : Q) : list string :=
  confirms fs "funding_percentile"
    (fun x => positive && dleb (lit (98 # 100)) x || negb positive && dleb x (lit (2 # 100)))
    (fun x => "funding percentile is extreme (" +:+ fixed 3 x +:+ ")") ++
  flat_map (fun name => confirms fs name (fun x => dleb 1 (fmul x sign))
                          (fun x => name +:+ " confirms crowding (" +:+ fixed 3 x +:+ ")"))
    ["basis_zscore"; "spot_perp_premium_zscore"; "long_short_ratio_zscore"; "oi_zscore"].
Definition timing_confirmations (fs : list (string * Q)) (sign : Q) : list string :=
  confirms fs "ma_slope_z" (fun x => dleb (fmul x sign) (lit (50 # 100)))
    (fun x => "crowded-side price trend has faded (" +:+ fixed 3 x +:+ ")") ++
  confirms fs "oi_zscore" (fun x => dleb x (- (1 # 2))) (fun x => "OI is contracting (" +:+ fixed 3 x +:+ ")") ++
  confirms fs "cvd_momentum" (fun x => dltb (fmul x sign) 0) (fun x => "CVD opposes crowded side (" +:+ fixed 3 x +:+ ")") ++
  confirms fs "basis_momentum" (fun x => dltb (fmul x sign) 0) (fun x => "basis is reversing (" +:+ fixed 6 x +:+ ")") ++
  confirms fs "funding_momentum" (fun x => dltb (fmul x sign) 0)
    (fun x => "funding momentum is reversing (" +:+ fixed 6 x +:+ ")") ++
  confirms fs "liquidation_zscore" (fun x => dleb 2 x) (fun x => "liquidations indicate unwind (" +:+ fixed 3 x +:+ ")").
Definition funding_score (funding_z : Q) (crowding timing : list string) : result Q :=
  let! e := fdiv funding_z (lit (35 # 10)) in
  let! n := fdiv (count_float crowding) 4 in
  let! t := fdiv (count_float timing) 4 in
  Ok (fadd (fadd (fmul (lit (30 # 100)) (dmin e 1)) (fmul (lit (35 # 100)) (dmin n 1))) (fmul (lit (35 # 100)) (dmin t 1))).

Definition funding_evaluate (k : FundingExtremeConfig) (c : StrategyContext) : result StrategyEvaluation :=
  let r := cx_regime c in
  let '(gate_open, gate_reasons) :=
    regime_gate r [FUNDING_EXTREME_POSITIVE; FUNDING_EXTREME_NEGATIVE] [UNKNOWN; RISK_OFF; FLASH_CRASH; LIQUIDATION_CASCADE]
      (fx_minimum_regime_confidence k) (fx_minimum_data_quality k) in
  if negb gate_open then closed_gate FUNDING_EXTREME c gate_reasons else
  let fs := finite_features (cx_features c) in
  let missing := missing_features fs ["funding_rate"; "predicted_funding_rate"; "funding_zscore"] in
  if negb (bool_decide (missing = []))
  then no_signal FUNDING_EXTREME c ["missing funding timing features: " +:+ join "," missing] else
  if is_active r FUNDING_EXTREME_POSITIVE && is_active r FUNDING_EXTREME_NEGATIVE
  then no_signal FUNDING_EXTREME c ["contradictory positive and negative funding regimes"] else
  let positive := is_active r FUNDING_EXTREME_POSITIVE in
  let sign := if positive then 1 else -1 in
  let side := if positive then S_SELL else S_BUY in
  let! zscore := feature fs "funding_zscore" in
  let! rate := feature fs "funding_rate" in
  let! predicted := feature fs "predicted_funding_rate" in
  let funding_z := fmul zscore sign in
  let crowding := crowding_confirmations fs positive sign in
  let timing := timing_confirmations fs sign in
  let failures :=
    reason_when (dltb funding_z (fx_minimum_abs_funding_z k))
      ("directional funding_zscore=" +:+ fixed 3 funding_z +:+ " is not extreme") ++
    reason_when (dleb (fmul rate sign) 0) "current funding sign conflicts with the regime" ++
    reason_when (dleb (fmul predicted sign) 0) "predicted funding does not confirm persistence" ++
    reason_when (size crowding <? fx_minimum_crowding_confirmations k)%Z
      ("only " +:+ int_text (size crowding) +:+ " crowding confirmations; requires " +:+
       int_text (fx_minimum_crowding_confirmations k)) ++
    reason_when (size timing <? fx_minimum_timing_confirmations k)%Z
      ("only " +:+ int_text (size timing) +:+ " reversal timing confirmations; requires " +:+
       int_text (fx_minimum_timing_confirmations k)) in
  if negb (bool_decide (failures = [])) then no_signal FUNDING_EXTREME c failures else
  let! score := funding_score funding_z crowding timing in
  emit FUNDING_EXTREME c side score (fx_suggested_risk_fraction k) (fx_signal_valid_minutes k)
    ([regime_value (rr_primary_regime r) +:+ " regime gate passed";
      "current and predicted funding signs agree; directional z=" +:+ fixed 3 funding_z] ++ crowding ++ timing)
    funding_fields PlainMetadata "funding crowding and reversal timing setup satisfied".

(** ** The engine (services/strategy_engine/engine.py) *)

Record BaseStrategy := {
  bs_name : StrategyName;
  bs_evaluate : StrategyContext -> result StrategyEvaluation;
}.
Definition trend_strategy (k : TrendFollowingConfig) : BaseStrategy :=
  {| bs_name := TREND_FOLLOWING; bs_evaluate := trend_evaluate k |}.
Definition reversion_strategy (k : MeanReversionConfig) : BaseStrategy :=
  {| bs_name := MEAN_REVERSION; bs_evaluate := reversion_evaluate k |}.
Definition crash_strategy (k : FlashCrashReversalConfig) : BaseStrategy :=
  {| bs_name := FLASH_CRASH_REVERSAL; bs_evaluate := crash_evaluate k |}.
Definition funding_strategy (k : FundingExtremeConfig) : BaseStrategy :=
  {| bs_name := FUNDING_EXTREME; bs_evaluate := funding_evaluate k |}.

Definition StrategyEngine_new (strategies : list BaseStrategy) : result (list BaseStrategy) :=
  require! bool_decide (NoDup (map bs_name strategies)) else ValueError "strategy names must be unique";
  Ok strategies.
Definition engine_evaluate (engine : list BaseStrategy) (c : StrategyContext) : result (list StrategyEvaluation) :=
  gather (fun s => let! e := bs_evaluate s c in Ok [e]) engine.

End Strategies.
