(* ===== verification/Regimes.v ===== *)
(** * Market regimes (services/regime_engine/)

    The rules that turn features into evidence for regimes, and the ensemble that ranks the
    evidence, weighs it with a statistical prediction and remembers since when the primary
    regime has stood.  The Gaussian mixture behind a prediction is a library: a prediction
    is an argument. *)

From Stdlib Require Import ZArith QArith Qabs Lia Lqa.
From stdpp Require Import base tactics list strings.
From S2P Require Import Prelude Decimals Binary64 RiskModels Venues Evidence Json PyText FundingCarry Certification Strategies.

Local Open Scope string_scope.
Local Open Scope list_scope.
Local Open Scope Q_scope.

(** [sum(xs)] of floats, with the compensation of the interpreter *)
Definition cs_add (total : Q * Q) (x : Q) : Q * Q :=
  let '(hi, lo) := total in
  let t := fadd hi x in
  (t, fadd lo (if dleb (Qabs x) (Qabs hi) then fadd (fsub hi t) x else fadd (fsub x t) hi)).
Definition sum_floats (xs : list Q) : Q :=
  let '(hi, lo) := fold_left cs_add xs (0, 0) in if deqb lo 0 then hi else fadd hi lo.

Example sum_floats_tenths : sum_floats (repeat (lit (1 # 10)) 10) = 1 /\ fadd (fadd (lit (1#10)) (lit (2#10))) (lit (3#10)) <> sum_floats [lit (1#10); lit (2#10); lit (3#10)].
Proof. by vm_compute. Qed.

(** config/settings.py *)
Record RegimeSettings := {
  rg_minimum_quality : Q;
  rg_minimum_confidence : Q;
  rg_z_extreme : Q;
  rg_z_severe : Q;
  rg_trend_slope_z : Q;
  rg_low_vol_z : Q;
}.
Definition default_regime_settings : RegimeSettings := {|
  rg_minimum_quality := lit (80 # 100); rg_minimum_confidence := lit (60 # 100); rg_z_extreme := lit (2326 # 1000);
  rg_z_severe := 3; rg_trend_slope_z := 1; rg_low_vol_z := -1 |}.
Definition RegimeSettings_validate (s : RegimeSettings) : result RegimeSettings :=
  require! within 0 (rg_minimum_quality s) 1 else ValueError "minimum_quality";
  require! within (1 # 2) (rg_minimum_confidence s) 1 else ValueError "minimum_confidence";
  require! within (3 # 2) (rg_z_extreme s) 4 else ValueError "z_extreme";
  require! within 2 (rg_z_severe s) 6 else ValueError "z_severe";
  require! within (1 # 4) (rg_trend_slope_z s) 4 else ValueError "trend_slope_z";
  require! within (-4) (rg_low_vol_z s) (- lit (1 # 10)) else ValueError "low_vol_z";
  Ok s.

(** ** The rules (rules.py) *)

Record RuleEvidence := {
  re_regime : Regime;
  re_score : Q;
  re_reason : string;
}.
Definition proof (r : Regime) (score : result Q) (reason : string) : result (list RuleEvidence) :=
  let! s := score in Ok [{| re_regime := r; re_score := s; re_reason := reason |}].
(** [min(a / b, 1)] *)
Definition capped (a b : Q) : result Q := let! q := fdiv a b in Ok (dmin q 1).
Definition nothing : result (list RuleEvidence) := Ok [].

Section Rules.
Context (k : RegimeSettings) (f : list (string * Q)).
Let z := rg_z_extreme k.
Let severe := rg_z_severe k.
Let get (name : string) := dict_get name f.

Definition slope_rule : result (list RuleEvidence) :=
  match get "ma_slope_z" with
  | Some slope =>
      if dleb (rg_trend_slope_z k) slope then proof TREND_UP (capped (Qabs slope) z) ("ma_slope_z=" +:+ fixed 3 slope)
      else if dleb slope (- rg_trend_slope_z k)
      then proof TREND_DOWN (capped (Qabs slope) z) ("ma_slope_z=" +:+ fixed 3 slope)
      else if dltb (Qabs slope) (fmul (rg_trend_slope_z k) (1 # 2))
      then proof RANGE (let! q := fdiv (Qabs slope) (rg_trend_slope_z k) in Ok (fsub 1 q)) ("flat slope=" +:+ fixed 3 slope)
      else nothing
  | None => nothing
  end.

Definition volatility_rule : result (list RuleEvidence) :=
  match get "volatility_zscore" with
  | Some v =>
      if dleb z v then proof HIGH_VOLATILITY (capped v severe) ("volatility_zscore=" +:+ fixed 3 v)
      else if dleb v (rg_low_vol_z k) then proof LOW_VOLATILITY (capped (Qabs v) z) ("volatility_zscore=" +:+ fixed 3 v)
      else nothing
  | None => nothing
  end.

Definition funding_rule : result (list RuleEvidence) :=
  match get "funding_zscore" with
  | Some v =>
      if dleb z v then proof FUNDING_EXTREME_POSITIVE (capped v severe) ("funding_zscore=" +:+ fixed 3 v)
      else if dleb v (- z)
      then proof FUNDING_EXTREME_NEGATIVE (capped (Qabs v) severe) ("funding_zscore=" +:+ fixed 3 v)
      else nothing
  | None => nothing
  end.

Definition oi_rule : result (list RuleEvidence) :=
  match get "oi_zscore" with
  | Some v =>
      if dleb z v then proof OI_EXPANSION (capped v severe) ("oi_zscore=" +:+ fixed 3 v)
      else if dleb v (- z) then proof OI_CONTRACTION (capped (Qabs v) severe) ("oi_zscore=" +:+ fixed 3 v)
      else nothing
  | None => nothing
  end.

Definition crash_rule (return_z liq_z : Q) : result (list RuleEvidence) :=
  match get "oi_zscore", get "spread_zscore" with
  | Some oi_z, Some spread_z =>
      if dleb oi_z (- z) && dleb z spread_z
      then proof FLASH_CRASH
             (capped (fadd (fadd (fadd (Qabs return_z) liq_z) (Qabs oi_z)) spread_z) (fmul 4 severe))
             "multi-stage crash confirmation"
      else nothing
  | _, _ => nothing
  end.
Definition squeeze_rule : result (list RuleEvidence) :=
  match get "return_zscore", get "liquidation_zscore" with
  | Some return_z, Some liq_z =>
      let! long :=
        if dleb return_z (- severe) && dleb z liq_z
        then let! squeeze := proof LONG_SQUEEZE (capped (fadd (Qabs return_z) liq_z) (fmul 2 severe))
                               ("negative return_z=" +:+ fixed 3 return_z +:+ ", liquidation_z=" +:+ fixed 3 liq_z) in
             let! crash := crash_rule return_z liq_z in Ok (squeeze ++ crash)
        else nothing in
      let! short :=
        if dleb severe return_z && dleb z liq_z
        then proof SHORT_SQUEEZE (capped (fadd return_z liq_z) (fmul 2 severe))
               ("positive return_z=" +:+ fixed 3 return_z +:+ ", liquidation_z=" +:+ fixed 3 liq_z)
        else nothing in
      Ok (long ++ short)
  | _, _ => nothing
  end.

Definition cascade_rule : result (list RuleEvidence) :=
  match get "liquidation_zscore" with
  | Some liq_z =>
      if dleb severe liq_z
      then proof LIQUIDATION_CASCADE (capped liq_z (fadd severe 1)) ("liquidation_zscore=" +:+ fixed 3 liq_z)
      else nothing
  | None => nothing
  end.

Definition lead_rule : result (list RuleEvidence) :=
  match get "spot_return_zscore", get "perp_return_zscore" with
  | Some spot, Some perp =>
      if dleb z (Qabs spot) && dltb (fadd (Qabs perp) (1 # 2)) (Qabs spot)
      then proof SPOT_LED_MOVE (capped (fsub (Qabs spot) (Qabs perp)) z)
             ("spot/perp return z=" +:+ fixed 3 spot +:+ "/" +:+ fixed 3 perp)
      else if dleb z (Qabs perp) && dltb (fadd (Qabs spot) (1 # 2)) (Qabs perp)
      then proof PERP_LED_MOVE (capped (fsub (Qabs perp) (Qabs spot)) z)
             ("perp/spot return z=" +:+ fixed 3 perp +:+ "/" +:+ fixed 3 spot)
      else nothing
  | _, _ => nothing
  end.

Definition risk_off_rule : result (list RuleEvidence) :=
  match get "cross_asset_return_zscore", get "risk_breadth" with
  | Some risk_return, Some breadth =>
      if dleb risk_return (- z) && dleb breadth (- lit (67 # 100))
      then proof RISK_OFF (let! q := fdiv (Qabs risk_return) severe in capped (fadd q (Qabs breadth)) 2)
             ("cross_asset_return_z=" +:+ fixed 3 risk_return +:+ ", breadth=" +:+ fixed 3 breadth)
      else nothing
  | _, _ => nothing
  end.

Definition rules : list (result (list RuleEvidence)) :=
  [slope_rule; volatility_rule; funding_rule; oi_rule; squeeze_rule; cascade_rule; lead_rule; risk_off_rule].
End Rules.

Definition rules_evaluate (k : RegimeSettings) (fs : features) : result (list RuleEvidence) :=
  gather (fun rule => rule) (rules k (finite_features fs)).

(** ** The ensemble (ensemble.py) *)

Record StatisticalPrediction := {
  sp_state : Z;
  sp_probability : Q;
  sp_probabilities : list Q;
}.

Record Ensemble := {
  en_settings : RegimeSettings;
  en_model_version : string;
  en_last_primary : Regime;
  en_started_at : option Z;
}.
Definition EnsembleRegimeEngine_new (k : RegimeSettings) : Ensemble :=
  {| en_settings := k; en_model_version := "rules-1.0+gmm-1.0"; en_last_primary := UNKNOWN; en_started_at := None |}.

Definition stronger (a b : RuleEvidence) : bool := dleb (re_score b) (re_score a).
Definition ranked (evidence : list RuleEvidence) : list RuleEvidence := sorted_by stronger evidence.

Definition rule_confidence (evidence : list RuleEvidence) : result Q :=
  fdiv (sum_floats (map re_score (take 3 evidence))) (inject_Z (Z.min 3 (size evidence))).
Definition ensemble_confidence (evidence : list RuleEvidence) (quality : Q) (statistical : option StatisticalPrediction)
  : result Q :=
  let! rule := rule_confidence evidence in
  let confidence :=
    match statistical with
    | None => fmul (fmul rule quality) (lit (8 # 10))
    | Some s => fmul (fadd (fmul (lit (7 # 10)) rule) (fmul (lit (3 # 10)) (sp_probability s))) quality
    end in
  Ok (dmin 1 (dmax 0 confidence)).

Record Verdict := { vd_primary : Regime; vd_secondary : list Regime; vd_confidence : Q; vd_reasons : list string }.
Definition verdict (k : RegimeSettings) (evidence : list RuleEvidence) (quality : Q) (statistical : option StatisticalPrediction)
  : result Verdict :=
  match ranked evidence with
  | [] => Ok {| vd_primary := UNKNOWN; vd_secondary := []; vd_confidence := 0;
                vd_reasons := ["insufficient data quality or evidence"] |}
  | first :: rest =>
      if dltb quality (rg_minimum_quality k)
      then Ok {| vd_primary := UNKNOWN; vd_secondary := []; vd_confidence := 0;
                 vd_reasons := ["insufficient data quality or evidence"] |}
      else let! confidence := ensemble_confidence (first :: rest) quality statistical in
           Ok {| vd_primary := re_regime first; vd_secondary := dict_fromkeys (map re_regime rest);
                 vd_confidence := confidence; vd_reasons := map re_reason (first :: rest) |}
  end.

Definition standing (e : Ensemble) (primary : Regime) (timestamp : Z) : Ensemble * Z :=
  match en_started_at e with
  | Some t => if bool_decide (primary = en_last_primary e) then (e, t)
              else ({| en_settings := en_settings e; en_model_version := en_model_version e; en_last_primary := primary;
                       en_started_at := Some timestamp |}, timestamp)
  | None => ({| en_settings := en_settings e; en_model_version := en_model_version e; en_last_primary := primary;
                en_started_at := Some timestamp |}, timestamp)
  end.

Definition RegimeResult_validate (r : RegimeResult) : result RegimeResult :=
  require! within 0 (rr_confidence r) 1 else ValueError "confidence";
  require! dleb 0 (rr_regime_duration_seconds r) else ValueError "regime_duration_seconds";
  require! within 0 (rr_data_quality_score r) 1 else ValueError "data_quality_score";
  Ok r.

Definition detect (fs : features) (timestamp : Z) (quality : Q) (statistical : option StatisticalPrediction)
  : M Ensemble RegimeResult := fun e =>
  match (let! evidence := rules_evaluate (en_settings e) fs in verdict (en_settings e) evidence quality statistical) with
  | Err x => (e, Err x)
  | Ok v =>
      let '(e', started) := standing e (vd_primary v) timestamp in
      (e', RegimeResult_validate {|
        rr_primary_regime := vd_primary v; rr_secondary_regimes := vd_secondary v; rr_confidence := vd_confidence v;
        rr_evidence := vd_reasons v; rr_feature_snapshot := fs; rr_regime_started_at := started;
        rr_regime_duration_seconds := dmax 0 (total_seconds (timestamp - started));
        rr_model_version := en_model_version e; rr_data_quality_score := quality;
        rr_statistical_state := option_map sp_state statistical |})
  end.
