(* ===== verification/RelativeStrength.v ===== *)
(** * Relative strength (domain/strategies/relative_strength.py)

    The strongest and the weakest symbol of a universe, traded as a pair when their
    statistics confirm the ranking.  Mappings are in the order of their keys. *)

From Stdlib Require Import ZArith QArith Qabs Lia Lqa.
From stdpp Require Import base tactics list strings.
From S2P Require Import Prelude Decimals Binary64 RiskModels Venues Evidence Json PyText FundingCarry Certification Sources.
From S2P Require Import Strategies Regimes.

Local Open Scope string_scope.
Local Open Scope list_scope.
Local Open Scope Q_scope.

Record PairStatistics := {
  ps_symbol_a : string;
  ps_symbol_b : string;
  ps_estimated_at : Z;
  ps_beta : Q;
  ps_correlation : Q;
  ps_cointegration_pvalue : Q;
  ps_spread_zscore : Q;
  ps_observations : Z;
}.
(** The validation of finite statistics; the timestamp was read as UTC. *)
Definition PairStatistics_validate (s : PairStatistics) : result PairStatistics :=
  require! dltb 0 (ps_beta s) else ValueError "beta";
  require! within (-1) (ps_correlation s) 1 else ValueError "correlation";
  require! within 0 (ps_cointegration_pvalue s) 1 else ValueError "cointegration_pvalue";
  require! (30 <=? ps_observations s)%Z else ValueError "observations";
  Ok s.

Record RelativeStrengthConfig := {
  rk_minimum_regime_confidence : Q;
  rk_minimum_data_quality : Q;
  rk_minimum_symbols : Z;
  rk_minimum_score_gap : Q;
  rk_minimum_correlation : Q;
  rk_maximum_cointegration_pvalue : Q;
  rk_minimum_spread_zscore : Q;
  rk_maximum_pair_age_minutes : Z;
  rk_minimum_beta : Q;
  rk_maximum_beta : Q;
  rk_vol_adjusted_return_weight : Q;
  rk_momentum_weight : Q;
  rk_drawdown_weight : Q;
  rk_liquidity_weight : Q;
  rk_funding_cost_weight : Q;
  rk_funding_cost_scale : Q;
  rk_signal_valid_minutes : Z;
  rk_suggested_pair_risk_fraction : Q;
}.
Definition default_relative : RelativeStrengthConfig := {|
  rk_minimum_regime_confidence := lit (60 # 100); rk_minimum_data_quality := lit (85 # 100); rk_minimum_symbols := 3;
  rk_minimum_score_gap := lit (50 # 100); rk_minimum_correlation := lit (50 # 100);
  rk_maximum_cointegration_pvalue := lit (10 # 100); rk_minimum_spread_zscore := lit (50 # 100);
  rk_maximum_pair_age_minutes := 1440; rk_minimum_beta := lit (25 # 100); rk_maximum_beta := 4;
  rk_vol_adjusted_return_weight := lit (45 # 100); rk_momentum_weight := lit (25 # 100);
  rk_drawdown_weight := lit (10 # 100); rk_liquidity_weight := lit (10 # 100); rk_funding_cost_weight := lit (10 # 100);
  rk_funding_cost_scale := 10000; rk_signal_valid_minutes := 15;
  rk_suggested_pair_risk_fraction := lit (25 # 10000) |}.
Definition weights (k : RelativeStrengthConfig) : list Q :=
  [rk_vol_adjusted_return_weight k; rk_momentum_weight k; rk_drawdown_weight k; rk_liquidity_weight k;
   rk_funding_cost_weight k].
Definition RelativeStrengthConfig_validate (k : RelativeStrengthConfig) : result RelativeStrengthConfig :=
  require! within 0 (rk_minimum_regime_confidence k) 1 else ValueError "minimum_regime_confidence must be in [0, 1]";
  require! within 0 (rk_minimum_data_quality k) 1 else ValueError "minimum_data_quality must be in [0, 1]";
  require! negb (rk_minimum_symbols k <? 2)%Z else ValueError "relative strength requires at least two symbols";
  require! negb (dleb (rk_minimum_score_gap k) 0 || dltb (rk_minimum_correlation k) 0)
    else ValueError "pair thresholds must be positive";
  require! negb (dleb (rk_minimum_beta k) 0 || dleb (rk_maximum_beta k) (rk_minimum_beta k))
    else ValueError "beta bounds are invalid";
  require! negb (existsb (fun w => dltb w 0) (weights k) ||
                 dltb (lit (1 # 1000000000)) (Qabs (fsub (sum_floats (weights k)) 1)))
    else ValueError "relative-strength weights must be non-negative and sum to one";
  require! negb ((rk_maximum_pair_age_minutes k <? 1)%Z || (rk_signal_valid_minutes k <? 1)%Z)
    else ValueError "pair age and signal lifetime must be positive";
  require! risk_in (rk_suggested_pair_risk_fraction k) (5 # 1000) else ValueError "pair risk must remain conservative";
  Ok k.

Record StrategyBatchEvaluation := {
  sb_timestamp : Z;
  sb_strategy : StrategyName;
  sb_gate_passed : bool;
  sb_signals : list Signal;
  sb_reasons : list string;
}.
Definition batch_new (timestamp : Z) (gate_passed : bool) (signals : list Signal) (reasons : list string)
  : result StrategyBatchEvaluation :=
  require! negb (bool_decide (reasons = [])) else ValueError "reasons";
  require! match signals with [] => true | _ => gate_passed end
    else ValueError "signals cannot be emitted through a closed regime gate";
  Ok {| sb_timestamp := timestamp; sb_strategy := RELATIVE_STRENGTH; sb_gate_passed := gate_passed; sb_signals := signals;
        sb_reasons := reasons |}.

Definition required_features : list string :=
  ["vol_adjusted_return"; "momentum"; "drawdown"; "liquidity_score"; "funding_cost"].
Definition relative_blocked : list Regime := [UNKNOWN; RISK_OFF; FLASH_CRASH; LIQUIDATION_CASCADE].
Definition relative_allowed : list Regime := List.filter (fun r => negb (bool_decide (r ∈ relative_blocked))) all_regimes.

(** [_score] *)
Definition score (k : RelativeStrengthConfig) (fs : list (string * Q)) : result Q :=
  let! v := feature fs "vol_adjusted_return" in
  let! m := feature fs "momentum" in
  let! d := feature fs "drawdown" in
  let! l := feature fs "liquidity_score" in
  let! c := feature fs "funding_cost" in
  Ok (fsub (fadd (fadd (fadd (fmul (rk_vol_adjusted_return_weight k) v) (fmul (rk_momentum_weight k) m))
                       (fmul (rk_drawdown_weight k) d)) (fmul (rk_liquidity_weight k) l))
           (fmul (fmul (rk_funding_cost_weight k) c) (rk_funding_cost_scale k))).

(** A symbol of the universe: its features when it is eligible, or why it is not *)
Definition screen (k : RelativeStrengthConfig) (regimes : list (string * RegimeResult)) (item : string * features)
  : (string * list (string * Q)) + string :=
  let symbol := item.1 in
  match dict_get symbol regimes with
  | None => inr (symbol +:+ ": missing regime")
  | Some regime =>
      let '(gate_open, reasons) := regime_gate regime relative_allowed relative_blocked
        (rk_minimum_regime_confidence k) (rk_minimum_data_quality k) in
      if negb gate_open then inr (symbol +:+ ": " +:+ join "; " reasons) else
      let fs := finite_features item.2 in
      let missing := missing_features fs required_features in
      if negb (bool_decide (missing = [])) then inr (symbol +:+ ": missing " +:+ join "," missing) else
      if within 0 (default 0 (dict_get "liquidity_score" fs)) 1 then inl (symbol, fs)
      else inr (symbol +:+ ": liquidity_score outside [0,1]")
  end.
Definition eligible_symbols (k : RelativeStrengthConfig) (regimes : list (string * RegimeResult))
    (universe : list (string * features)) : list (string * list (string * Q)) :=
  omap (fun item => match screen k regimes item with inl x => Some x | inr _ => None end) universe.
Definition exclusions (k : RelativeStrengthConfig) (regimes : list (string * RegimeResult))
    (universe : list (string * features)) : list string :=
  omap (fun item => match screen k regimes item with inl _ => None | inr x => Some x end) universe.

(** [max(scores, key=scores.__getitem__)] and [min]: the first of the best *)
Definition best (better : Q -> Q -> bool) (first : string * Q) (rest : list (string * Q)) : string * Q :=
  fold_left (fun b x => if better x.2 b.2 then x else b) rest first.
Definition strongest := best (fun a b => dltb b a).
Definition weakest := best (fun a b => dltb a b).

Definition pair_failures (k : RelativeStrengthConfig) (timestamp : Z) (long short : string) (gap : Q)
    (statistics : option PairStatistics) : list string :=
  reason_when (dltb gap (rk_minimum_score_gap k))
    ("cross-sectional score gap " +:+ fixed 3 gap +:+ " below " +:+ fixed 3 (rk_minimum_score_gap k)) ++
  match statistics with
  | None => ["missing causal pair statistics for " +:+ long +:+ "/" +:+ short]
  | Some s =>
      let age := (timestamp - ps_estimated_at s)%Z in
      reason_when (negb (bool_decide ((ps_symbol_a s, ps_symbol_b s) = (long, short))))
        "pair-statistics symbols do not match the selected pair" ++
      reason_when (timestamp <? ps_estimated_at s)%Z "pair statistics are future-dated" ++
      reason_when (rk_maximum_pair_age_minutes k * 60000000 <? age)%Z
        ("pair statistics are stale (" +:+ fixed 0 (total_seconds age) +:+ "s)") ++
      reason_when (dltb (ps_correlation s) (rk_minimum_correlation k))
        ("correlation " +:+ fixed 3 (ps_correlation s) +:+ " is too low") ++
      reason_when (dltb (rk_maximum_cointegration_pvalue k) (ps_cointegration_pvalue s))
        ("cointegration p=" +:+ fixed 3 (ps_cointegration_pvalue s) +:+ " exceeds limit") ++
      reason_when (negb (within (rk_minimum_beta k) (ps_beta s) (rk_maximum_beta k)))
        ("beta " +:+ fixed 3 (ps_beta s) +:+ " is outside safe bounds") ++
      reason_when (dltb (ps_spread_zscore s) (rk_minimum_spread_zscore k))
        ("pair spread z=" +:+ fixed 3 (ps_spread_zscore s) +:+ " does not confirm ranking")
  end.

Definition pair_score (k : RelativeStrengthConfig) (gap : Q) (s : PairStatistics) : result Q :=
  let! spread := fdiv (ps_spread_zscore s) (dmax (fmul (rk_minimum_spread_zscore k) 4) 1) in
  let! g := fdiv gap (fmul (rk_minimum_score_gap k) 3) in
  let! st := fdiv (fadd (fadd (ps_correlation s) (fsub 1 (ps_cointegration_pvalue s))) (dmin spread 1)) 3 in
  Ok (fadd (fmul (lit (55 # 100)) (dmin g 1)) (fmul (lit (45 # 100)) (dmin st 1))).

Section Universe.
Context {D : Digest}.

Definition group_id (long short : string) (timestamp : Z) : string :=
  sha256_hex (strategy_value RELATIVE_STRENGTH +:+ "|" +:+ long +:+ "|" +:+ short +:+ "|" +:+ isoformat timestamp).

(** [_signal] *)
Definition pair_signal (k : RelativeStrengthConfig) (timestamp : Z) (symbol : string) (side : SignalSide)
    (regime : RegimeResult) (fs : features) (setup_score : Q) (group : string) (weight : Q) (evidence : list string)
    (exchanges : option (list (string * string))) : result Signal :=
  let! half := fdiv (rk_suggested_pair_risk_fraction k) 2 in
  make_signal RELATIVE_STRENGTH symbol
    (match exchanges with Some es => dict_get symbol es | None => None end)
    (Aware timestamp) fs regime side setup_score half (rk_signal_valid_minutes k) evidence required_features group
    (PairMetadata group weight).

Definition item_or {K V} `{EqDecision K} (k : K) (d : list (K * V)) : result V :=
  match dict_get k d with Some v => Ok v | None => Err KeyError end.

Definition evaluate_universe (k : RelativeStrengthConfig) (timestamp : datetime) (universe : list (string * features))
    (regimes : list (string * RegimeResult)) (pairs : list ((string * string) * PairStatistics))
    (exchanges : option (list (string * string))) : result StrategyBatchEvaluation :=
  let! t := utc_or "evaluation timestamp must be timezone-aware" timestamp in
  let eligible := eligible_symbols k regimes universe in
  if (size eligible <? rk_minimum_symbols k)%Z
  then let reason := "only " +:+ int_text (size eligible) +:+ " eligible symbols; requires " +:+
                     int_text (rk_minimum_symbols k) in
       let excluded := exclusions k regimes universe in
       batch_new t false [] [match excluded with
                             | [] => reason
                             | _ => reason +:+ "; exclusions: " +:+ join " | " excluded
                             end]
  else
  let! scores := gather (fun e : string * list (string * Q) => let! s := score k e.2 in Ok [(e.1, s)]) eligible in
  match scores with
  | [] => Err (ValueError "max() iterable argument is empty")
  | first :: rest =>
      let '(long, high) := strongest first rest in
      let '(short, low) := weakest first rest in
      let gap := fsub high low in
      let statistics := dict_get (long, short) pairs in
      let failures := pair_failures k t long short gap statistics in
      match failures, statistics with
      | [], Some s =>
          let! long_regime := item_or long regimes in
          let! short_regime := item_or short regimes in
          let! setup := pair_score k gap s in
          let group := group_id long short t in
          let! long_weight := fdiv 1 (fadd 1 (ps_beta s)) in
          let! short_weight := fdiv (ps_beta s) (fadd 1 (ps_beta s)) in
          let evidence :=
            ["score gap=" +:+ fixed 3 gap +:+ " (" +:+ long +:+ " strong, " +:+ short +:+ " weak)";
             "correlation=" +:+ fixed 3 (ps_correlation s); "beta=" +:+ fixed 3 (ps_beta s);
             "cointegration p=" +:+ fixed 3 (ps_cointegration_pvalue s);
             "pair spread z=" +:+ fixed 3 (ps_spread_zscore s)] in
          let! long_features := item_or long universe in
          let! short_features := item_or short universe in
          let! buy := pair_signal k t long S_BUY long_regime long_features setup group long_weight evidence exchanges in
          let! sell := pair_signal k t short S_SELL short_regime short_features setup group short_weight evidence exchanges in
          batch_new t true [buy; sell] ["beta-aware relative-strength pair setup satisfied"]
      | _, _ => batch_new t true [] failures
      end
  end.

(** [StrategyEngine.evaluate_relative_strength] *)
Definition evaluate_relative_strength (configured : option RelativeStrengthConfig) (timestamp : datetime)
    (universe : list (string * features)) (regimes : list (string * RegimeResult))
    (pairs : list ((string * string) * PairStatistics)) (exchanges : option (list (string * string)))
  : result StrategyBatchEvaluation :=
  match configured with
  | None => Err (RuntimeError "relative-strength strategy is not configured")
  | Some k => evaluate_universe k timestamp universe regimes pairs exchanges
  end.

End Universe.
