(* ===== verification/StrategySafety.v ===== *)
(** * What a strategy promises

    A mandate says when a strategy may trade: the regimes it needs and those that forbid it,
    the confidence and the quality it asks for, the risk it takes, and the setup it looks
    for, as a function from a context to a side.  [Honours] is the interface between the
    strategies and their engine: on every sound context the strategy answers, its gate is the
    mandate's gate, it emits a signal exactly when the gate is open and the setup holds, and
    the signal keeps the bounds.  Each strategy honours the mandate of its configuration. *)

From Stdlib Require Import ZArith QArith Qabs Qround Lia Lqa.
From stdpp Require Import base tactics list strings.
From S2P Require Import Prelude Decimals Binary64 RiskModels Venues Evidence Json PyText FundingCarry Certification Sources.
From S2P Require Import CertificationSafety.
From S2P Require Import Strategies.

Local Open Scope string_scope.
Local Open Scope list_scope.
Local Open Scope Q_scope.

(** ** Rounded arithmetic *)

Lemma fl_nonneg a : 0 <= a -> 0 <= fl a.
Proof. by apply round_prec_nonneg. Qed.
Lemma fl_pos a : 0 < a -> 0 < fl a.
Proof. by apply round_prec_sign. Qed.
(** A bound that is a float survives the rounding. *)
Lemma fl_le_float a b : a <= b -> fl b == b -> fl a <= b.
Proof. intros Hab <-. by apply fl_mono. Qed.
Lemma fl_zero a : a == 0 -> fl a == 0.
Proof. unfold fl. apply round_prec_zero. Qed.
Lemma fl_one : fl 1 == 1.
Proof. by apply round_prec_one. Qed.

Lemma fadd_mono a b c d : a <= b -> c <= d -> fadd a c <= fadd b d.
Proof. intros. apply fl_mono. lra. Qed.
Lemma fadd_nonneg a b : 0 <= a -> 0 <= b -> 0 <= fadd a b.
Proof. intros. apply fl_nonneg. lra. Qed.
Lemma fsub_nonneg a b : b <= a -> 0 <= fsub a b.
Proof. intros. apply fl_nonneg. lra. Qed.
Lemma fmul_mono a b c : 0 <= a -> b <= c -> fmul a b <= fmul a c.
Proof. intros. apply fl_mono. rewrite !(Qmult_comm a). by apply Qmult_le_compat_r. Qed.
Lemma fmul_nonneg a b : 0 <= a -> 0 <= b -> 0 <= fmul a b.
Proof. intros. by apply fl_nonneg, Qmult_le_0_compat. Qed.

Lemma fdiv_ok a b : ~ b == 0 -> fdiv a b = Ok (fl (a / b)).
Proof. intros H. unfold fdiv. by apply deqb_ne in H as ->. Qed.
Lemma div_nonneg a b : 0 <= a -> 0 < b -> 0 <= a / b.
Proof. intros. by apply Qle_shift_div_l; [|lra]. Qed.
Lemma ratio_nonneg a b : 0 <= a -> 0 < b -> 0 <= fl (a / b).
Proof. intros. by apply fl_nonneg, div_nonneg. Qed.
Lemma ratio_mono a b c : a <= b -> 0 < c -> fl (a / c) <= fl (b / c).
Proof. intros. apply fl_mono. by apply Qmult_le_compat_r, Qinv_le_0_compat, Qlt_le_weak. Qed.

(** [w * min(x, 1)] lies between its values at a lower bound of [x] and at 1. *)
Lemma weighted_bounds w lo x : 0 <= w -> lo <= x -> lo <= 1 -> fmul w lo <= fmul w (dmin x 1) <= fmul w 1.
Proof. intros. split; apply fmul_mono; try done; by dminmax. Qed.

(** A count of at least [n] confirmations, as a float *)
Lemma count_at_least {A} (xs : list A) n : (n <= size xs)%Z -> inject_Z n <= count_float xs.
Proof. intros. unfold count_float. by rewrite <- Zle_Qle. Qed.
Lemma dmax_le_l a b : a <= dmax a b.
Proof. dminmax; lra. Qed.
Lemma dmax_lub a b c : a <= c -> b <= c -> dmax a b <= c.
Proof. intros. dminmax; lra. Qed.

#[export] Hint Resolve fl_nonneg fl_pos fadd_nonneg fsub_nonneg fmul_nonneg ratio_nonneg Qabs_nonneg : floats.

(** ** The gate *)

Definition opens (r : RegimeResult) (allowed blocked : list Regime) (minimum_confidence minimum_quality : Q) : Prop :=
  rr_primary_regime r <> UNKNOWN /\ (exists x, x ∈ allowed /\ x ∈ active_regimes r) /\
  (forall x, x ∈ blocked -> x ∉ active_regimes r) /\
  minimum_confidence <= rr_confidence r /\ minimum_quality <= rr_data_quality_score r.

Lemma reason_when_nil b t : reason_when b t = [] <-> b = false.
Proof. by destruct b. Qed.

Lemma existsb_bool {A} (f : A -> bool) xs : existsb f xs = true <-> exists x, x ∈ xs /\ f x = true.
Proof. rewrite existsb_exists. by setoid_rewrite list_elem_of_In. Qed.
Lemma filter_nil {A} (f : A -> bool) xs : List.filter f xs = [] <-> forall x, x ∈ xs -> f x = false.
Proof.
  induction xs as [|x xs IH]; simpl; [split; [intros _ x Hx; by apply elem_of_nil in Hx|done]|]. setoid_rewrite elem_of_cons. destruct (f x) eqn:E.
  - split; [done|]. intros H. rewrite (H x) in E; [done|by left].
  - rewrite IH. naive_solver.
Qed.

Lemma regime_gate_spec r allowed blocked mc mq :
  let '(open, reasons) := regime_gate r allowed blocked mc mq in
  (open = true <-> opens r allowed blocked mc mq) /\ (open = true <-> reasons = []).
Proof.
  unfold regime_gate. set (reasons := _ ++ _). split; [|by rewrite bool_decide_eq_true].
  rewrite bool_decide_eq_true. unfold reasons, opens.
  rewrite !app_nil, !reason_when_nil, bool_decide_eq_false, !negb_false_iff, existsb_bool, bool_decide_eq_true, filter_nil.
  unfold is_active. setoid_rewrite bool_decide_eq_true. setoid_rewrite bool_decide_eq_false. decb. tauto.
Qed.

(** ** Contexts and mandates *)

(** A context whose time is aware, whose symbol has a name and whose regime was accepted by
    its model, its scores being floats. *)
Definition score_ok (x : Q) : Prop := 0 <= x /\ x <= 1 /\ fl x == x.
Definition sound_context (c : StrategyContext) : Prop :=
  is_aware (cx_timestamp c) = true /\ cx_symbol c <> EmptyString /\
  score_ok (rr_confidence (cx_regime c)) /\ score_ok (rr_data_quality_score (cx_regime c)).

Record Mandate := {
  md_name : StrategyName;
  md_allowed : list Regime;
  md_blocked : list Regime;
  md_confidence : Q;
  md_quality : Q;
  md_risk : Q;
  md_minutes : Z;
  md_setup : StrategyContext -> option SignalSide;
}.
Definition gate_open (m : Mandate) (c : StrategyContext) : Prop :=
  opens (cx_regime c) (md_allowed m) (md_blocked m) (md_confidence m) (md_quality m).
(** The end of a signal's life is a date. *)
Definition expiry (m : Mandate) (c : StrategyContext) : Z := (FundingCarry.instant (cx_timestamp c) + md_minutes m * 60000000)%Z.
Definition expires (m : Mandate) (c : StrategyContext) : Prop := datetime_range (expiry m c).
Definition mandate_ok (m : Mandate) : Prop :=
  0 < md_risk m /\ md_risk m <= lit (1 # 100) /\ (1 <= md_minutes m)%Z /\
  forall c, md_setup m c <> Some S_FLAT.

Record signal_keeps (m : Mandate) (c : StrategyContext) (s : Signal) : Prop := {
  sk_who : sn_strategy s = md_name m /\ sn_symbol s = cx_symbol c /\ sn_exchange s = cx_exchange c;
  sk_entry : sn_intent s = ENTRY /\ sn_side s <> S_FLAT;
  sk_life : sn_timestamp s = FundingCarry.instant (cx_timestamp c) /\ sn_valid_until s = expiry m c;
  sk_strength : 0 < sn_strength s /\ sn_strength s <= 1;
  sk_trust : 0 <= sn_confidence s /\ sn_confidence s <= rr_confidence (cx_regime c) /\
             sn_confidence s <= rr_data_quality_score (cx_regime c);
  sk_risk : sn_suggested_risk_fraction s = md_risk m;
}.
Record Faithful (m : Mandate) (c : StrategyContext) (e : StrategyEvaluation) : Prop := {
  fa_of : se_strategy e = md_name m /\ se_symbol e = cx_symbol c /\ Aware (se_timestamp e) = cx_timestamp c;
  fa_explains : se_reasons e <> [];
  fa_gate : se_gate_passed e = true <-> gate_open m c;
  fa_emits : option_map sn_side (se_signal e) =
             match se_gate_passed e with true => md_setup m c | false => None end;
  fa_keeps : forall s, se_signal e = Some s -> signal_keeps m c s;
}.

(** The digest of a text has 64 hexadecimal digits. *)
Class DigestLaws (D : Digest) : Prop := sha256_hex_length : forall s, String.length (sha256_hex s) = 64%nat.

Class Honours (s : BaseStrategy) (m : Mandate) : Prop := {
  honours_name : bs_name s = md_name m;
  honours : forall c, sound_context c -> expires m c -> exists e, bs_evaluate s c = Ok e /\ Faithful m c e;
}.

Lemma setup_confidence_bounds r score :
  score_ok (rr_confidence r) -> score_ok (rr_data_quality_score r) ->
  0 <= setup_confidence r score /\ setup_confidence r score <= rr_confidence r /\
  setup_confidence r score <= rr_data_quality_score r /\ setup_confidence r score <= 1.
Proof.
  intros (C0 & C1 & C) (Q0 & Q1 & Qf). unfold setup_confidence, fmul.
  set (x := dmin _ _).
  assert (0 <= x <= rr_confidence r) as [X0 X1] by (unfold x; split; dminmax; lra).
  split_and!; [apply fl_nonneg; by apply Qmult_le_0_compat| | |]; (apply fl_le_float; [|first [done | apply fl_one]]); nra.
Qed.

(** A signal with a strength, a risk and a lifetime in bounds is accepted. *)
Lemma make_signal_ok {D : Digest} `{!DigestLaws D} name symbol exchange t fs r side score risk minutes evidence fields
    discriminator metadata :
  symbol <> EmptyString -> score_ok (rr_confidence r) -> score_ok (rr_data_quality_score r) -> side <> S_FLAT ->
  0 < score -> score <= 1 -> 0 < risk -> risk <= lit (1 # 100) -> (1 <= minutes)%Z ->
  datetime_range (t + minutes * 60000000) -> evidence <> [] ->
  make_signal name symbol exchange (Aware t) fs r side score risk minutes evidence fields discriminator metadata = Ok {|
    sn_signal_id := deterministic_signal_id name symbol (Aware t) side discriminator; sn_timestamp := t;
    sn_strategy := name; sn_symbol := symbol; sn_exchange := exchange; sn_side := side; sn_intent := ENTRY;
    sn_strength := score; sn_confidence := setup_confidence r score; sn_suggested_risk_fraction := risk;
    sn_primary_regime := rr_primary_regime r; sn_secondary_regimes := rr_secondary_regimes r;
    sn_data_quality_score := rr_data_quality_score r; sn_valid_until := (t + minutes * 60000000)%Z;
    sn_evidence := evidence; sn_feature_snapshot := snapshot_of fs fields; sn_metadata := metadata |}.
Proof.
  intros Hsym Hr Hq Hside S0 S1 R0 R1 Hmin Hx He. unfold make_signal, plus_minutes.
  pose proof (setup_confidence_bounds r score Hr Hq) as (C0 & C1 & C2 & C3). destruct Hq as (Q0 & Q1 & _). cbn [FundingCarry.instant PyText.instant].
  rewrite bool_decide_eq_true_2 by done. simpl. unfold Signal_validate, deterministic_signal_id. simpl.
  rewrite sha256_hex_length. simpl. unfold nonempty. rewrite (bool_decide_eq_false_2 (_ = EmptyString)) by done. simpl.
  unfold within.
  assert (forall a b, a <= b -> dleb a b = true) as L by (intros; by apply dleb_le).
  assert (forall a b, a < b -> dltb a b = true) as L' by (intros; by apply dltb_lt).
  rewrite !L, !L' by (done || lra). simpl. rewrite bool_decide_eq_false_2 by done. simpl.
  rewrite (proj2 (Z.ltb_lt t (t + minutes * 60000000))) by lia. simpl.
  by destruct side.
Qed.

Section Outcomes.
Context {D : Digest} `{!DigestLaws D}.
Context (m : Mandate) (c : StrategyContext) (Hm : mandate_ok m) (Hc : sound_context c).

Lemma faithful_closed reasons :
  ~ gate_open m c -> reasons <> [] ->
  exists e, closed_gate (md_name m) c reasons = Ok e /\ Faithful m c e.
Proof.
  destruct Hc as (Ha & _). intros Hg Hr. unfold closed_gate, evaluation_new.
  destruct (cx_timestamp c) eqn:Et; [done|]. simpl. rewrite bool_decide_eq_false_2 by done. simpl.
  eexists; split; [done|]. by constructor.
Qed.

Lemma faithful_none reasons :
  gate_open m c -> md_setup m c = None -> reasons <> [] ->
  exists e, no_signal (md_name m) c reasons = Ok e /\ Faithful m c e.
Proof.
  destruct Hc as (Ha & _). intros Hg Hs Hr. unfold no_signal, evaluation_new.
  destruct (cx_timestamp c) eqn:Et; [done|]. simpl. rewrite bool_decide_eq_false_2 by done. simpl.
  eexists; split; [done|]. by constructor.
Qed.

Lemma faithful_emit side score evidence fields metadata reason :
  expires m c -> gate_open m c -> md_setup m c = Some side -> 0 < score -> score <= 1 -> evidence <> [] ->
  exists e, emit (md_name m) c side score (md_risk m) (md_minutes m) evidence fields metadata reason = Ok e /\
            Faithful m c e.
Proof.
  destruct Hm as (R0 & R1 & Hmin & Hflat). pose proof Hc as (Ha & Hsym & Hr & Hq).
  intros Hx Hg Hs S0 S1 He. unfold emit.
  pose proof (setup_confidence_bounds _ score Hr Hq) as (C0 & C1 & C2 & C3).
  assert (side <> S_FLAT) as Hside by (intros ->; by apply (Hflat c)). unfold expires, expiry in Hx.
  destruct (cx_timestamp c) as [t|t] eqn:Et; [done|]. rewrite make_signal_ok by done.
  eexists; split; [reflexivity|]. constructor; simpl; [done|done|done|by rewrite Hs|].
  intros s [= <-]. constructor; simpl; unfold expiry; rewrite ?Et; done.
Qed.

(** The shape of an evaluation: the gate, then guards that end it without a signal *)
Definition answered (r : result StrategyEvaluation) : Prop := exists e, r = Ok e /\ Faithful m c e.

Lemma behind_gate body :
  (gate_open m c -> answered body) ->
  answered (let '(gate_open, reasons) :=
              regime_gate (cx_regime c) (md_allowed m) (md_blocked m) (md_confidence m) (md_quality m) in
            if negb gate_open then closed_gate (md_name m) c reasons else body).
Proof.
  intros H. pose proof (regime_gate_spec (cx_regime c) (md_allowed m) (md_blocked m) (md_confidence m) (md_quality m)) as G.
  destruct (regime_gate _ _ _ _ _) as [[] reasons]; destruct G as [Go Gr]; simpl; [by apply H, Go|].
  apply faithful_closed; [intros O; by apply Go in O|intros ->; by pose proof (proj2 Gr eq_refl)].
Qed.

Lemma past_guard {A} (found : list A) `{!Decision (found = [])} reasons body :
  gate_open m c -> (found <> [] -> md_setup m c = None /\ reasons <> []) -> (found = [] -> answered body) ->
  answered (if negb (bool_decide (found = [])) then no_signal (md_name m) c reasons else body).
Proof.
  intros Hg Hn Hb. case_bool_decide as E; simpl; [by apply Hb|]. destruct (Hn E). by apply faithful_none.
Qed.
Lemma past_test (b : bool) reasons body :
  gate_open m c -> (b = true -> md_setup m c = None /\ reasons <> []) -> (b = false -> answered body) ->
  answered (if b then no_signal (md_name m) c reasons else body).
Proof. intros Hg Hn Hb. destruct b; [|by apply Hb]. destruct (Hn eq_refl). by apply faithful_none. Qed.

End Outcomes.

(** The features a strategy requires *)
Lemma missing_features_nil fs required :
  missing_features fs required = [] <-> Forall (fun name => is_Some (dict_get name fs)) required.
Proof.
  unfold missing_features. rewrite filter_nil, Forall_forall. setoid_rewrite negb_false_iff.
  by setoid_rewrite dict_mem_spec.
Qed.
Lemma feature_some fs name x : dict_get name fs = Some x -> feature fs name = Ok x.
Proof. unfold feature. by intros ->. Qed.

(** A configuration its constructor accepts *)
Class Accepted {A} (validate : A -> result A) (k : A) : Prop := accepted : validate k = Ok k.
Ltac accepted_inv H :=
  repeat match type of H with (if ?b then _ else _) = _ =>
    let E := fresh "E" in destruct b eqn:E; [|discriminate H] end; clear H.

(** [x.ltb y] as the negation of [leb] *)
Lemma dltb_negb a b : dltb a b = negb (dleb b a).
Proof. destruct (dleb b a) eqn:E; simpl; decb; done. Qed.
Lemma ltb_negb (a b : Z) : (a <? b)%Z = negb (b <=? a)%Z.
Proof. destruct (b <=? a)%Z eqn:E; simpl; lia. Qed.

(** A setup with a failed condition is no setup. *)
Ltac setup_fails Hf :=
  match goal with |- (if ?b then _ else _) = None => destruct b eqn:?; [|reflexivity] end;
  rewrite ?andb_true_iff in *; destruct Hf; tauto.

(** ** Trend following *)

Definition trend_setup (k : TrendFollowingConfig) (c : StrategyContext) : option SignalSide :=
  let fs := finite_features (cx_features c) in
  let up := is_active (cx_regime c) TREND_UP in
  let down := is_active (cx_regime c) TREND_DOWN in
  let sign := if up then 1 else -1 in
  match dict_get "ma_slope_z" fs, dict_get "breakout_distance" fs with
  | Some slope, Some breakout =>
      if negb (up && down) && dleb (tf_minimum_slope_z k) (fmul slope sign) &&
         dleb (tf_minimum_breakout_distance k) (fmul breakout sign) &&
         (tf_minimum_confirmations k <=? size (trend_confirmations k fs))%Z
      then Some (if up then S_BUY else S_SELL) else None
  | _, _ => None
  end.
Definition trend_mandate (k : TrendFollowingConfig) : Mandate := {|
  md_name := TREND_FOLLOWING; md_allowed := [TREND_UP; TREND_DOWN];
  md_blocked := [UNKNOWN; RISK_OFF; FLASH_CRASH; LIQUIDATION_CASCADE];
  md_confidence := tf_minimum_regime_confidence k; md_quality := tf_minimum_data_quality k;
  md_risk := tf_suggested_risk_fraction k; md_minutes := tf_signal_valid_minutes k; md_setup := trend_setup k |}.

Lemma trend_mandate_ok k : Accepted TrendFollowingConfig_validate k ->
  mandate_ok (trend_mandate k) /\ 0 < tf_minimum_slope_z k /\ 0 < tf_minimum_breakout_distance k /\
  0 < tf_breakout_full_strength k /\ (1 <= tf_minimum_confirmations k)%Z.
Proof.
  intros H. unfold Accepted, TrendFollowingConfig_validate, risk_in in H. accepted_inv H. decb.
  destruct_and!. unfold mandate_ok, trend_setup. simpl. rewrite Z.ltb_ge in *.
  split_and!; try done; try lra. intros c. unfold trend_setup. repeat case_match; done.
Qed.

Lemma trend_score_bounds k slope breakout (confirmations : list string) :
  0 <= slope -> 0 <= breakout -> 0 < tf_breakout_full_strength k -> (1 <= size confirmations)%Z ->
  exists score, trend_score k slope breakout confirmations = Ok score /\ 0 < score /\ score <= 1.
Proof.
  intros Hs Hb Hf Hn. unfold trend_score. rewrite !fdiv_ok by (first [by intros E; rewrite E in Hf | by vm_compute]).
  simpl. eexists; split; [reflexivity|].
  assert (fl (inject_Z 1 / 3) <= fl (count_float confirmations / 3)) as N by (apply ratio_mono; [by apply count_at_least|done]).
  assert (0 <= fl (slope / lit (2326 # 1000))) as S by (apply ratio_nonneg; by vm_compute).
  assert (0 <= fl (breakout / tf_breakout_full_strength k)) as B by by apply ratio_nonneg.
  pose proof (weighted_bounds (lit (45 # 100)) _ _ ltac:(by vm_compute) S ltac:(done)) as [A1 A2].
  pose proof (weighted_bounds (lit (35 # 100)) _ _ ltac:(by vm_compute) B ltac:(done)) as [A3 A4].
  pose proof (weighted_bounds (lit (20 # 100)) _ _ ltac:(by vm_compute) N ltac:(by vm_compute)) as [A5 A6].
  split.
  - eapply Qlt_le_trans; [|apply fadd_mono; [apply fadd_mono; [exact A1|exact A3]|exact A5]]. by vm_compute.
  - eapply Qle_trans; [apply fadd_mono; [apply fadd_mono; [exact A2|exact A4]|exact A6]|]. by vm_compute.
Qed.

(** ** Mean reversion *)

(** A condition on a feature that may be absent *)
Definition allows (fs : list (string * Q)) (name : string) (test : Q -> bool) : bool :=
  match dict_get name fs with Some x => test x | None => true end.
Lemma confirms_nil fs name test ok text :
  (forall x, test x = negb (ok x)) -> confirms fs name test text = [] <-> allows fs name ok = true.
Proof.
  intros H. unfold confirms, allows. destruct (dict_get name fs); [|done]. by rewrite reason_when_nil, H, negb_false_iff.
Qed.

Definition reversion_setup (k : MeanReversionConfig) (c : StrategyContext) : option SignalSide :=
  let fs := finite_features (cx_features c) in
  match dict_get "return_zscore" fs with
  | Some z =>
      let side := if dltb z 0 then S_BUY else S_SELL in
      let direction := if dltb z 0 then 1 else -1 in
      if dleb (mv_entry_return_z k) (Qabs z) && allows fs "ma_slope_z" (fun x => dleb (Qabs x) (mv_maximum_abs_slope_z k)) &&
         allows fs "spread_zscore" (fun x => dleb x (mv_maximum_spread_z k)) &&
         (1 <=? size (reversion_deviations k fs side direction))%Z && (1 <=? size (reversion_liquidity fs))%Z
      then Some side else None
  | None => None
  end.
Definition reversion_mandate (k : MeanReversionConfig) : Mandate := {|
  md_name := MEAN_REVERSION; md_allowed := [RANGE];
  md_blocked := [UNKNOWN; TREND_UP; TREND_DOWN; HIGH_VOLATILITY; FLASH_CRASH; LIQUIDATION_CASCADE; RISK_OFF];
  md_confidence := mv_minimum_regime_confidence k; md_quality := mv_minimum_data_quality k;
  md_risk := mv_suggested_risk_fraction k; md_minutes := mv_signal_valid_minutes k; md_setup := reversion_setup k |}.

Lemma reversion_mandate_ok k : Accepted MeanReversionConfig_validate k -> mandate_ok (reversion_mandate k).
Proof.
  intros H. unfold Accepted, MeanReversionConfig_validate, risk_in in H. accepted_inv H. decb.
  destruct_and!. unfold mandate_ok. simpl. rewrite Z.ltb_ge in *.
  split_and!; try done; try lra. intros c. unfold reversion_setup. repeat case_match; done.
Qed.

Lemma size_nonempty {A} (xs : list A) : (1 <=? size xs)%Z = true <-> xs <> [].
Proof. rewrite Z.leb_le. unfold size. destruct xs; simpl; split; (done || lia). Qed.

(** The divisor of the score is zero when the two thresholds are equal, which the
    configuration does not exclude. *)
Lemma reversion_score_bounds k z (deviations : list string) :
  mv_entry_return_z k < mv_full_strength_z k -> mv_entry_return_z k <= Qabs z ->
  exists score, reversion_score k z deviations = Ok score /\ 0 < score /\ score <= 1.
Proof.
  intros Hf Hz. unfold reversion_score.
  assert (0 < fsub (mv_full_strength_z k) (mv_entry_return_z k)) as Hd by (apply fl_pos; lra).
  rewrite !fdiv_ok by (first [by intros E; rewrite E in Hd | by vm_compute]). cbn [rbind].
  eexists; split; [reflexivity|].
  assert (0 <= fl (fsub (Qabs z) (mv_entry_return_z k) / fsub (mv_full_strength_z k) (mv_entry_return_z k))) as R
    by (apply ratio_nonneg; [by apply fsub_nonneg|done]).
  assert (0 <= fl (count_float deviations / 2)) as N
    by (apply ratio_nonneg; [apply (count_at_least deviations 0); unfold size; lia|done]).
  pose proof (weighted_bounds (lit (65 # 100)) _ _ ltac:(by vm_compute) R ltac:(done)) as [_ A2].
  pose proof (weighted_bounds (lit (20 # 100)) _ _ ltac:(by vm_compute) N ltac:(done)) as [_ A4].
  set (x := fadd _ _).
  assert (x <= 1) as X.
  { eapply Qle_trans; [apply fadd_mono; [apply fadd_mono; [exact A2|exact A4]|apply Qle_refl]|]. by vm_compute. }
  split; [eapply Qlt_le_trans; [|apply dmax_le_l]; by vm_compute|]. apply dmax_lub; [by vm_compute|exact X].
Qed.

(** ** Flash-crash reversal *)

Definition crash_setup (k : FlashCrashReversalConfig) (c : StrategyContext) : option SignalSide :=
  let fs := finite_features (cx_features c) in
  match dict_get "return_zscore" fs, dict_get "volume_zscore" fs, dict_get (liquidation_key fs) fs,
        dict_get "oi_zscore" fs, dict_get "spread_zscore" fs with
  | Some move, Some volume, Some liquidation, Some oi, Some spread =>
      if dleb move (fc_maximum_return_z k) && dleb (fc_minimum_volume_z k) volume &&
         dleb (fc_minimum_liquidation_z k) liquidation && dleb oi (fc_maximum_oi_z k) && dleb (fc_minimum_spread_z k) spread &&
         (fc_minimum_recovery_confirmations k <=? size (recovery_confirmations fs))%Z
      then Some S_BUY else None
  | _, _, _, _, _ => None
  end.
Definition crash_mandate (k : FlashCrashReversalConfig) : Mandate := {|
  md_name := FLASH_CRASH_REVERSAL; md_allowed := [FLASH_CRASH]; md_blocked := [UNKNOWN; RISK_OFF];
  md_confidence := fc_minimum_regime_confidence k; md_quality := fc_minimum_data_quality k;
  md_risk := fc_suggested_risk_fraction k; md_minutes := fc_signal_valid_minutes k; md_setup := crash_setup k |}.

Lemma failed_nil {A B} (f : bool * A -> B) (checks : list (bool * A)) :
  map f (List.filter (fun x => negb x.1) checks) = [] <-> Forall (fun x => x.1 = true) checks.
Proof.
  induction checks as [|[[] a] checks IH]; simpl; [done| |].
  - by rewrite Forall_cons, IH; naive_solver.
  - rewrite Forall_cons. naive_solver.
Qed.

Lemma lit_quarter_percent : lit (25 # 10000) <= lit (1 # 100).
Proof. by vm_compute. Qed.

Lemma crash_mandate_ok k : Accepted FlashCrashReversalConfig_validate k ->
  mandate_ok (crash_mandate k) /\ fc_maximum_return_z k < 0 /\ fc_maximum_oi_z k < 0 /\ 0 < fc_minimum_volume_z k /\
  0 < fc_minimum_liquidation_z k /\ (2 <= fc_minimum_recovery_confirmations k)%Z.
Proof.
  intros H. unfold Accepted, FlashCrashReversalConfig_validate, risk_in in H. accepted_inv H. decb.
  destruct_and!. unfold mandate_ok. simpl. rewrite Z.ltb_ge in *. pose proof lit_quarter_percent.
  split_and!; try done; try (dminmax; lra). intros c. unfold crash_setup. repeat case_match; done.
Qed.

Lemma crash_score_bounds k s (recovery : list string) :
  fc_maximum_return_z k < 0 -> fc_maximum_oi_z k < 0 -> 0 < fc_minimum_volume_z k -> 0 < fc_minimum_liquidation_z k ->
  0 <= sk_volume s -> 0 <= sk_liquidation s -> (2 <= size recovery)%Z ->
  exists score, crash_score k s recovery = Ok score /\ 0 < score /\ score <= 1.
Proof.
  intros Hr Ho Hv Hl Sv Sl Hn. unfold crash_score.
  assert (0 < Qabs (fc_maximum_return_z k) /\ 0 < Qabs (fc_maximum_oi_z k)) as [Hr' Ho']
    by (rewrite !Qabs_neg by lra; lra).
  rewrite !fdiv_ok by (first [intros E; lra | by vm_compute]). cbn [rbind]. rewrite !fdiv_ok by (by vm_compute). cbn [rbind].
  eexists; split; [reflexivity|]. set (shock := fl (fadd _ _ / 8)).
  assert (0 <= shock) as S by (apply ratio_nonneg; [|done]; auto 8 with floats).
  assert (fl (inject_Z 2 / 4) <= fl (count_float recovery / 4)) as N by (apply ratio_mono; [by apply count_at_least|done]).
  pose proof (weighted_bounds (lit (60 # 100)) _ _ ltac:(by vm_compute) S ltac:(done)) as [A1 A2].
  pose proof (weighted_bounds (lit (40 # 100)) _ _ ltac:(by vm_compute) N ltac:(by vm_compute)) as [A3 A4].
  split.
  - eapply Qlt_le_trans; [|apply fadd_mono; [exact A1|exact A3]]. by vm_compute.
  - eapply Qle_trans; [apply fadd_mono; [exact A2|exact A4]|]. by vm_compute.
Qed.

(** ** Funding extremes *)

Definition funding_setup (k : FundingExtremeConfig) (c : StrategyContext) : option SignalSide :=
  let fs := finite_features (cx_features c) in
  let positive := is_active (cx_regime c) FUNDING_EXTREME_POSITIVE in
  let negative := is_active (cx_regime c) FUNDING_EXTREME_NEGATIVE in
  let sign := if positive then 1 else -1 in
  match dict_get "funding_rate" fs, dict_get "predicted_funding_rate" fs, dict_get "funding_zscore" fs with
  | Some rate, Some predicted, Some zscore =>
      if negb (positive && negative) && dleb (fx_minimum_abs_funding_z k) (fmul zscore sign) &&
         dltb 0 (fmul rate sign) && dltb 0 (fmul predicted sign) &&
         (fx_minimum_crowding_confirmations k <=? size (crowding_confirmations fs positive sign))%Z &&
         (fx_minimum_timing_confirmations k <=? size (timing_confirmations fs sign))%Z
      then Some (if positive then S_SELL else S_BUY) else None
  | _, _, _ => None
  end.
Definition funding_mandate (k : FundingExtremeConfig) : Mandate := {|
  md_name := FUNDING_EXTREME; md_allowed := [FUNDING_EXTREME_POSITIVE; FUNDING_EXTREME_NEGATIVE];
  md_blocked := [UNKNOWN; RISK_OFF; FLASH_CRASH; LIQUIDATION_CASCADE];
  md_confidence := fx_minimum_regime_confidence k; md_quality := fx_minimum_data_quality k;
  md_risk := fx_suggested_risk_fraction k; md_minutes := fx_signal_valid_minutes k; md_setup := funding_setup k |}.

Lemma funding_mandate_ok k : Accepted FundingExtremeConfig_validate k ->
  mandate_ok (funding_mandate k) /\ 0 < fx_minimum_abs_funding_z k /\
  (2 <= fx_minimum_crowding_confirmations k)%Z /\ (2 <= fx_minimum_timing_confirmations k)%Z.
Proof.
  intros H. unfold Accepted, FundingExtremeConfig_validate, risk_in in H. accepted_inv H. decb.
  destruct_and!. unfold mandate_ok. simpl. rewrite Z.ltb_ge in *. pose proof lit_quarter_percent.
  split_and!; try done; try lra. intros c. unfold funding_setup. repeat case_match; done.
Qed.

Lemma funding_score_bounds funding_z (crowding timing : list string) :
  0 <= funding_z -> (2 <= size crowding)%Z -> (2 <= size timing)%Z ->
  exists score, funding_score funding_z crowding timing = Ok score /\ 0 < score /\ score <= 1.
Proof.
  intros Hz Hc Ht. unfold funding_score. rewrite !fdiv_ok by (by vm_compute). cbn [rbind]. eexists; split; [reflexivity|].
  assert (0 <= fl (funding_z / lit (35 # 10))) as E by (apply ratio_nonneg; by vm_compute).
  assert (forall xs : list string, (2 <= size xs)%Z -> fl (inject_Z 2 / 4) <= fl (count_float xs / 4)) as N
    by (intros; apply ratio_mono; [by apply count_at_least|done]).
  pose proof (weighted_bounds (lit (30 # 100)) _ _ ltac:(by vm_compute) E ltac:(done)) as [A1 A2].
  pose proof (weighted_bounds (lit (35 # 100)) _ _ ltac:(by vm_compute) (N _ Hc) ltac:(by vm_compute)) as [A3 A4].
  pose proof (weighted_bounds (lit (35 # 100)) _ _ ltac:(by vm_compute) (N _ Ht) ltac:(by vm_compute)) as [A5 A6].
  split.
  - eapply Qlt_le_trans; [|apply fadd_mono; [apply fadd_mono; [exact A1|exact A3]|exact A5]]. by vm_compute.
  - eapply Qle_trans; [apply fadd_mono; [apply fadd_mono; [exact A2|exact A4]|exact A6]|]. by vm_compute.
Qed.

Section Honoured.
Context {D : Digest} `{!DigestLaws D}.

#[export] Instance trend_honours k `{Hk : !Accepted TrendFollowingConfig_validate k} :
  Honours (trend_strategy k) (trend_mandate k).
Proof.
  destruct (trend_mandate_ok k Hk) as (Hm & P1 & P2 & P3 & P4). split; [done|]. intros c Hc Hx.
  apply (behind_gate (trend_mandate k) c Hc). intros Hg.
  assert (md_setup (trend_mandate k) c = trend_setup k c) as Es by reflexivity. unfold trend_setup in Es. cbv zeta in Es.
  apply (past_guard (trend_mandate k)); [exact Hc|exact Hg| |].
  { intros Hmiss. split; [|discriminate].
    destruct (dict_get "ma_slope_z" _) eqn:?; [|exact Es]. destruct (dict_get "breakout_distance" _) eqn:?; [|exact Es].
    destruct Hmiss. rewrite missing_features_nil. repeat constructor; eauto. }
  rewrite missing_features_nil, !Forall_cons. intros ([slope E1] & [breakout E2] & _).
  rewrite E1, E2 in Es. rewrite (feature_some _ _ _ E1), (feature_some _ _ _ E2). cbn [rbind].
  apply (past_test (trend_mandate k)); [exact Hc|exact Hg| |].
  { intros Eb. rewrite Es, Eb. split; [reflexivity|discriminate]. }
  intros Eb. rewrite Eb in Es. clear E1 E2 Eb. set (up := is_active (cx_regime c) TREND_UP) in *.
  replace (if bool_decide ((if up then S_BUY else S_SELL) = S_BUY) then 1 else -1) with (if up then 1 else -1)
    by (destruct up; reflexivity).
  apply (past_guard (trend_mandate k)); [exact Hc|exact Hg| |];
    rewrite !app_nil, !reason_when_nil, !dltb_negb, ltb_negb, !negb_false_iff; intros Hf.
  - rewrite Es. split; [|exact Hf].
    setup_fails Hf.
  - destruct Hf as (F1 & F2 & F3). rewrite F1, F2, F3 in Es. rewrite dleb_le in F1, F2. rewrite Z.leb_le in F3.
    destruct (trend_score_bounds k (fmul slope (if up then 1 else -1)) (fmul breakout (if up then 1 else -1))
                (trend_confirmations k (finite_features (cx_features c)))) as (score & -> & S0 & S1); [lra|lra|exact P3|lia|].
    cbn [rbind]. apply (faithful_emit (trend_mandate k)); try assumption. discriminate.
Qed.

#[export] Instance reversion_honours k `{Hk : !Accepted MeanReversionConfig_validate k}
    `{Hd : !TCEq (dltb (mv_entry_return_z k) (mv_full_strength_z k)) true} :
  Honours (reversion_strategy k) (reversion_mandate k).
Proof.
  assert (mv_entry_return_z k < mv_full_strength_z k) as Hz by (apply dltb_lt; by destruct Hd).
  pose proof (reversion_mandate_ok k Hk) as Hm. split; [done|]. intros c Hc Hx.
  apply (behind_gate (reversion_mandate k) c Hc). intros Hg.
  assert (md_setup (reversion_mandate k) c = reversion_setup k c) as Es by reflexivity.
  unfold reversion_setup in Es. cbv zeta in Es.
  apply (past_guard (reversion_mandate k)); [exact Hc|exact Hg| |].
  { intros Hmiss. split; [|discriminate]. destruct (dict_get "return_zscore" _) eqn:?; [|exact Es].
    destruct Hmiss. rewrite missing_features_nil. repeat constructor; eauto. }
  rewrite missing_features_nil, !Forall_cons. intros ([z E1] & _). rewrite E1 in Es. rewrite (feature_some _ _ _ E1).
  cbn [rbind]. clear E1. set (buy := dltb z 0) in *.
  replace (if bool_decide ((if buy then S_BUY else S_SELL) = S_BUY) then 1 else -1) with (if buy then 1 else -1)
    by (destruct buy; reflexivity).
  apply (past_guard (reversion_mandate k)); [exact Hc|exact Hg| |];
    rewrite !app_nil, !reason_when_nil, !bool_decide_eq_false, <- !size_nonempty, dltb_negb, negb_false_iff,
      (confirms_nil _ "ma_slope_z" _ (fun x => dleb (Qabs x) (mv_maximum_abs_slope_z k))),
      (confirms_nil _ "spread_zscore" _ (fun x => dleb x (mv_maximum_spread_z k))) by (intros; apply dltb_negb); intros Hf.
  - rewrite Es. split; [|exact Hf]. setup_fails Hf.
  - destruct Hf as (F1 & F2 & F3 & F4 & F5). rewrite F1, F2, F3, F4, F5 in Es. rewrite dleb_le in F1.
    edestruct (reversion_score_bounds k z) as (score & -> & S0 & S1); [exact Hz|exact F1|].
    cbn [rbind]. apply (faithful_emit (reversion_mandate k)); try assumption. discriminate.
Qed.

#[export] Instance crash_honours k `{Hk : !Accepted FlashCrashReversalConfig_validate k} :
  Honours (crash_strategy k) (crash_mandate k).
Proof.
  destruct (crash_mandate_ok k Hk) as (Hm & P1 & P2 & P3 & P4 & P5). split; [done|]. intros c Hc Hx.
  apply (behind_gate (crash_mandate k) c Hc). intros Hg.
  assert (md_setup (crash_mandate k) c = crash_setup k c) as Es by reflexivity. unfold crash_setup in Es. cbv zeta in Es.
  set (fs := finite_features (cx_features c)) in *.
  apply (past_guard (crash_mandate k)); [exact Hc|exact Hg| |].
  { intros Hmiss. split; [|discriminate].
    destruct (dict_get "return_zscore" fs) eqn:?; [|exact Es]. destruct (dict_get "volume_zscore" fs) eqn:?; [|exact Es].
    destruct (dict_get (liquidation_key fs) fs) eqn:?; [|exact Es]. destruct (dict_get "oi_zscore" fs) eqn:?; [|exact Es].
    destruct (dict_get "spread_zscore" fs) eqn:?; [|exact Es].
    destruct Hmiss. rewrite missing_features_nil. repeat constructor; eauto. }
  rewrite missing_features_nil, !Forall_cons.
  intros ([move E1] & [volume E2] & [liquidation E3] & [oi E4] & [spread E5] & _).
  rewrite E1, E2, E3, E4, E5 in Es. unfold shock_of.
  rewrite (feature_some _ _ _ E1), (feature_some _ _ _ E2), (feature_some _ _ _ E3), (feature_some _ _ _ E4),
    (feature_some _ _ _ E5). cbn [rbind]. clear E1 E2 E3 E4 E5.
  apply (past_guard (crash_mandate k)); [exact Hc|exact Hg| |];
    unfold shock_checks; rewrite !failed_nil, !Forall_cons, !Forall_nil; cbn [fst sk_return sk_volume sk_liquidation sk_oi sk_spread];
    intros Hf.
  { rewrite Es. split; [|exact Hf]. setup_fails Hf. }
  destruct Hf as (F1 & F2 & F3 & F4 & F5 & _). rewrite F1, F2, F3, F4, F5 in Es. rewrite dleb_le in F2, F3.
  apply (past_test (crash_mandate k)); [exact Hc|exact Hg| |]; rewrite ltb_negb, ?negb_true_iff, ?negb_false_iff; intros Hn.
  { rewrite Es, Hn. split; [reflexivity|discriminate]. }
  rewrite Hn in Es. rewrite Z.leb_le in Hn.
  edestruct (crash_score_bounds k {| sk_return := move; sk_volume := volume; sk_liquidation := liquidation; sk_oi := oi;
    sk_spread := spread |} (recovery_confirmations fs)) as (score & -> & S0 & S1); simpl; try assumption; [lra|lra|lia|].
  cbn [rbind]. apply (faithful_emit (crash_mandate k)); try assumption. discriminate.
Qed.

#[export] Instance funding_honours k `{Hk : !Accepted FundingExtremeConfig_validate k} :
  Honours (funding_strategy k) (funding_mandate k).
Proof.
  destruct (funding_mandate_ok k Hk) as (Hm & P1 & P2 & P3). split; [done|]. intros c Hc Hx.
  apply (behind_gate (funding_mandate k) c Hc). intros Hg.
  assert (md_setup (funding_mandate k) c = funding_setup k c) as Es by reflexivity. unfold funding_setup in Es. cbv zeta in Es.
  set (fs := finite_features (cx_features c)) in *.
  apply (past_guard (funding_mandate k)); [exact Hc|exact Hg| |].
  { intros Hmiss. split; [|discriminate].
    destruct (dict_get "funding_rate" fs) eqn:?; [|exact Es].
    destruct (dict_get "predicted_funding_rate" fs) eqn:?; [|exact Es].
    destruct (dict_get "funding_zscore" fs) eqn:?; [|exact Es].
    destruct Hmiss. rewrite missing_features_nil. repeat constructor; eauto. }
  rewrite missing_features_nil, !Forall_cons. intros ([rate E1] & [predicted E2] & [zscore E3] & _).
  rewrite E1, E2, E3 in Es. rewrite (feature_some _ _ _ E1), (feature_some _ _ _ E2), (feature_some _ _ _ E3).
  cbn [rbind]. clear E1 E2 E3.
  apply (past_test (funding_mandate k)); [exact Hc|exact Hg| |].
  { intros Eb. rewrite Es, Eb. split; [reflexivity|discriminate]. }
  intros Eb. rewrite Eb in Es. set (positive := is_active (cx_regime c) FUNDING_EXTREME_POSITIVE) in *.
  assert (forall x, dleb x 0 = negb (dltb 0 x)) as L by (intros; rewrite dltb_negb; by destruct (dleb x 0)).
  apply (past_guard (funding_mandate k)); [exact Hc|exact Hg| |];
    rewrite !app_nil, !reason_when_nil, !L, dltb_negb, !ltb_negb, !negb_false_iff; intros Hf.
  - rewrite Es. split; [|exact Hf]. setup_fails Hf.
  - destruct Hf as (F1 & F2 & F3 & F4 & F5). rewrite F1, F2, F3, F4, F5 in Es. rewrite dleb_le in F1.
    rewrite Z.leb_le in F4, F5.
    edestruct (funding_score_bounds (fmul zscore (if positive then 1 else -1))) as (score & -> & S0 & S1);
      [lra|eapply Z.le_trans; [|exact F4]; exact P2|eapply Z.le_trans; [|exact F5]; exact P3|].
    cbn [rbind]. apply (faithful_emit (funding_mandate k)); try assumption. discriminate.
Qed.

(** ** The engine, against the interface *)

Lemma engine_faithful engine mandates c :
  Forall2 Honours engine mandates -> sound_context c -> Forall (fun m => expires m c) mandates ->
  exists evaluations, engine_evaluate engine c = Ok evaluations /\
                      Forall2 (fun m e => Faithful m c e) mandates evaluations.
Proof.
  intros H Hc. unfold engine_evaluate. induction H as [|s m engine mandates Hs _ IH]; intros Hx.
  { exists []. split; [reflexivity|constructor]. }
  apply Forall_cons in Hx as [Hx Hxs]. destruct (honours c Hc Hx) as (e & He & Hf). destruct (IH Hxs) as (es & Hes & Hfs).
  exists (e :: es). simpl. rewrite He. simpl. rewrite Hes. split; [reflexivity|by constructor].
Qed.

End Honoured.

#[export] Instance default_trend_accepted : Accepted TrendFollowingConfig_validate default_trend.
Proof. by vm_compute. Qed.
#[export] Instance default_reversion_accepted : Accepted MeanReversionConfig_validate default_reversion.
Proof. by vm_compute. Qed.
#[export] Instance default_crash_accepted : Accepted FlashCrashReversalConfig_validate default_crash.
Proof. by vm_compute. Qed.
#[export] Instance default_funding_accepted : Accepted FundingExtremeConfig_validate default_funding.
Proof. by vm_compute. Qed.

Section Default.
Context {D : Digest} `{!DigestLaws D}.

(** The engine with the default configuration of each strategy *)
Definition default_engine : list BaseStrategy :=
  [trend_strategy default_trend; reversion_strategy default_reversion; crash_strategy default_crash;
   funding_strategy default_funding].
Definition default_mandates : list Mandate :=
  [trend_mandate default_trend; reversion_mandate default_reversion; crash_mandate default_crash;
   funding_mandate default_funding].
Lemma default_engine_honours : Forall2 Honours default_engine default_mandates.
Proof.
  assert (TCEq (dltb (mv_entry_return_z default_reversion) (mv_full_strength_z default_reversion)) true) as Hd
    by (vm_compute; constructor).
  do 4 (apply Forall2_cons; split; [apply _|]). constructor.
Qed.

(** C10: the strategy engine with any four accepted configurations (the entry threshold of mean
    reversion below its full-strength threshold) answers on every sound context, one
    evaluation per strategy in order; an evaluation passes its gate exactly when the regime is
    known, an allowed regime is active, no blocked one is, and confidence and data quality reach
    their minimums; it carries a signal exactly when the gate is open and the strategy's setup
    holds, on the side of the setup; the signal is an entry of strength in (0, 1], with a
    confidence no higher than the regime's confidence and the data quality, the configured risk
    fraction and lifetime. *)
Theorem strategies_keep_their_mandates kt kr kc kf c :
  TrendFollowingConfig_validate kt = Ok kt -> MeanReversionConfig_validate kr = Ok kr ->
  FlashCrashReversalConfig_validate kc = Ok kc -> FundingExtremeConfig_validate kf = Ok kf ->
  mv_entry_return_z kr < mv_full_strength_z kr -> sound_context c ->
  Forall (fun m => expires m c) [trend_mandate kt; reversion_mandate kr; crash_mandate kc; funding_mandate kf] ->
  exists evaluations,
    engine_evaluate [trend_strategy kt; reversion_strategy kr; crash_strategy kc; funding_strategy kf] c = Ok evaluations /\
    Forall2 (fun m e => Faithful m c e) [trend_mandate kt; reversion_mandate kr; crash_mandate kc; funding_mandate kf]
      evaluations.
Proof.
  intros H1 H2 H3 H4 Hz Hc Hx. apply engine_faithful; [|exact Hc|exact Hx].
  assert (Accepted TrendFollowingConfig_validate kt) by exact H1.
  assert (Accepted MeanReversionConfig_validate kr) by exact H2.
  assert (Accepted FlashCrashReversalConfig_validate kc) by exact H3.
  assert (Accepted FundingExtremeConfig_validate kf) by exact H4.
  assert (TCEq (dltb (mv_entry_return_z kr) (mv_full_strength_z kr)) true) as Hd
    by (rewrite (proj2 (dltb_lt _ _) Hz); constructor).
  do 4 (apply Forall2_cons; split; [apply _|]). constructor.
Qed.

End Default.
