(* ===== verification/RegimeSafety.v ===== *)
(** * What the regime engine promises

    The rules answer on every mapping of floats, with scores between 0 and 1 and at most one
    regime of each family; the ensemble ranks them, is UNKNOWN exactly when the data is poor
    or says nothing, keeps its confidence a score, and dates a regime from the start of the
    run of equal verdicts; and a context it judges poor makes no strategy trade. *)

From Stdlib Require Import ZArith QArith Qabs Qround Lia Lqa.
From stdpp Require Import base tactics list strings.
From S2P Require Import Prelude Decimals Binary64 RiskModels Venues Evidence Json PyText FundingCarry Certification Sources.
From S2P Require Import CertificationSafety.
From S2P Require Import Strategies Regimes StrategySafety.

Local Open Scope string_scope.
Local Open Scope list_scope.
Local Open Scope Q_scope.

(** ** Families: regimes of which at most one holds *)
Definition family (r : Regime) : nat :=
  match r with
  | TREND_UP | TREND_DOWN | RANGE => 0
  | HIGH_VOLATILITY | LOW_VOLATILITY => 1
  | FUNDING_EXTREME_POSITIVE | FUNDING_EXTREME_NEGATIVE => 2
  | OI_EXPANSION | OI_CONTRACTION => 3
  | LONG_SQUEEZE | SHORT_SQUEEZE => 4
  | FLASH_CRASH => 5
  | LIQUIDATION_CASCADE => 6
  | SPOT_LED_MOVE | PERP_LED_MOVE => 7
  | RISK_OFF => 8
  | UNKNOWN => 9
  end.

(** Features and settings that are floats *)
Definition is_float (x : Q) : Prop := fl x == x.
Definition floats (f : list (string * Q)) : Prop := Forall (fun kv => is_float kv.2) f.
Definition settings_ok (k : RegimeSettings) : Prop :=
  RegimeSettings_validate k = Ok k /\ is_float (rg_trend_slope_z k).

Lemma floats_get f name x : floats f -> dict_get name f = Some x -> is_float x.
Proof.
  induction 1 as [|[n y] f Hy _ IH]; simpl; [done|]. case_decide; [|done]. by intros [= <-].
Qed.

(** Evidence of the families [fams], in this order *)
Definition evidence_of (fams : list nat) (r : result (list RuleEvidence)) : Prop :=
  exists evs, r = Ok evs /\ map (fun e => family (re_regime e)) evs `sublist_of` fams /\
              Forall (fun e => 0 <= re_score e /\ re_score e <= 1) evs.

Lemma evidence_nothing fams : evidence_of fams nothing.
Proof. exists []. split_and!; [done|apply sublist_nil_l|done]. Qed.
Lemma evidence_app f1 f2 r1 r2 :
  evidence_of f1 r1 -> evidence_of f2 r2 ->
  evidence_of (f1 ++ f2) (let! a := r1 in let! b := r2 in Ok (a ++ b)).
Proof.
  intros (a & -> & Sa & Fa) (b & -> & Sb & Fb). exists (a ++ b). split; [done|]. rewrite map_app, Forall_app.
  split; [|done]. by apply sublist_app.
Qed.
(** One piece of evidence whose score is a ratio capped at 1 *)
Lemma evidence_score r score x reason :
  score = Ok x -> 0 <= x -> x <= 1 -> evidence_of [family r] (proof r score reason).
Proof. intros -> H0 H1. eexists. split; [reflexivity|]. split; [done|]. by repeat constructor. Qed.
Lemma evidence_capped r a b reason :
  0 <= a -> 0 < b -> evidence_of [family r] (proof r (capped a b) reason).
Proof.
  intros Ha Hb. unfold capped. rewrite fdiv_ok by lra. cbn [rbind]. pose proof (ratio_nonneg a b Ha Hb).
  eapply evidence_score; [reflexivity| |]; dminmax; lra.
Qed.

Lemma settings_bounds k : RegimeSettings_validate k = Ok k ->
  0 < rg_z_extreme k /\ 0 < rg_z_severe k /\ 0 < rg_trend_slope_z k /\ rg_low_vol_z k < 0.
Proof.
  intros H. unfold RegimeSettings_validate, within in H. accepted_inv H. decb. destruct_and!.
  assert (0 < lit (1 # 10)) by by vm_compute. split_and!; lra.
Qed.

Section RuleLemmas.
Context (k : RegimeSettings) (f : list (string * Q)) (Hk : settings_ok k) (Hf : floats f).

Ltac bounds := destruct (settings_bounds k (proj1 Hk)) as (Z0 & S0 & T0 & L0).
Ltac capped_rule := apply evidence_capped; decb; auto with floats; lra.

Lemma slope_rule_evidence : evidence_of [0%nat] (slope_rule k f).
Proof.
  bounds. unfold slope_rule. destruct (dict_get "ma_slope_z" f) as [slope|]; [|apply evidence_nothing].
  destruct (dleb (rg_trend_slope_z k) slope) eqn:E; [apply (evidence_capped TREND_UP); auto with floats|].
  destruct (dleb slope _) eqn:E'; [apply (evidence_capped TREND_DOWN); auto with floats|].
  destruct (dltb (Qabs slope) _) eqn:E''; [|apply evidence_nothing]. decb.
  rewrite fdiv_ok by lra. cbn [rbind]. pose proof (Qabs_nonneg slope) as A.
  assert (Qabs slope <= rg_trend_slope_z k) as B.
  { apply Qlt_le_weak. eapply Qlt_le_trans; [exact E''|]. apply fl_le_float; [lra|apply Hk]. }
  assert (0 <= fl (Qabs slope / rg_trend_slope_z k) <= 1) as [R0 R1].
  { split; [by apply ratio_nonneg|]. apply fl_le_float; [|apply fl_one]. by apply Qle_shift_div_r; [|lra]. }
  apply (evidence_score RANGE _ (fsub 1 (fl (Qabs slope / rg_trend_slope_z k)))); [done|by apply fsub_nonneg|].
  apply fl_le_float; [lra|apply fl_one].
Qed.

Lemma volatility_rule_evidence : evidence_of [1%nat] (volatility_rule k f).
Proof.
  bounds. unfold volatility_rule. destruct (dict_get _ f) as [v|]; [|apply evidence_nothing].
  destruct (dleb _ v) eqn:E; [apply (evidence_capped HIGH_VOLATILITY); decb; lra|].
  destruct (dleb v _) eqn:E'; [apply (evidence_capped LOW_VOLATILITY); auto with floats|apply evidence_nothing].
Qed.
Lemma funding_rule_evidence : evidence_of [2%nat] (funding_rule k f).
Proof.
  bounds. unfold funding_rule. destruct (dict_get _ f) as [v|]; [|apply evidence_nothing].
  destruct (dleb _ v) eqn:E; [apply (evidence_capped FUNDING_EXTREME_POSITIVE); decb; lra|].
  destruct (dleb v _) eqn:E'; [apply (evidence_capped FUNDING_EXTREME_NEGATIVE); auto with floats|apply evidence_nothing].
Qed.
Lemma oi_rule_evidence : evidence_of [3%nat] (oi_rule k f).
Proof.
  bounds. unfold oi_rule. destruct (dict_get _ f) as [v|]; [|apply evidence_nothing].
  destruct (dleb _ v) eqn:E; [apply (evidence_capped OI_EXPANSION); decb; lra|].
  destruct (dleb v _) eqn:E'; [apply (evidence_capped OI_CONTRACTION); auto with floats|apply evidence_nothing].
Qed.
Lemma cascade_rule_evidence : evidence_of [6%nat] (cascade_rule k f).
Proof.
  bounds. unfold cascade_rule. destruct (dict_get _ f) as [v|]; [|apply evidence_nothing].
  destruct (dleb _ v) eqn:E; [|apply evidence_nothing]. apply (evidence_capped LIQUIDATION_CASCADE); decb; [lra|].
  apply fl_pos. lra.
Qed.

Lemma crash_rule_evidence return_z liq_z : 0 <= liq_z -> evidence_of [5%nat] (crash_rule k f return_z liq_z).
Proof.
  bounds. intros H. unfold crash_rule. destruct (dict_get "oi_zscore" f) as [oi|]; [|apply evidence_nothing].
  destruct (dict_get "spread_zscore" f) as [spread|]; [|apply evidence_nothing].
  destruct (_ && _) eqn:E; [|apply evidence_nothing]. decb. destruct E as [E1 E2].
  apply (evidence_capped FLASH_CRASH); [|apply fl_pos; lra]. assert (0 <= spread) by lra. auto 8 with floats.
Qed.

(** The two squeezes exclude each other: one needs a fall, the other a rise. *)
Lemma squeeze_rule_evidence : evidence_of [4%nat; 5%nat] (squeeze_rule k f).
Proof.
  bounds. unfold squeeze_rule. destruct (dict_get "return_zscore" f) as [move|]; [|apply evidence_nothing].
  destruct (dict_get "liquidation_zscore" f) as [liq|]; [|apply evidence_nothing].
  assert (0 < fmul 2 (rg_z_severe k)) as P by (apply fl_pos; lra).
  destruct (dleb move _ && _) eqn:El.
  - decb. destruct El as [E1 E2]. assert (0 <= liq) as L by lra.
    replace (dleb (rg_z_severe k) move) with false by (symmetry; apply dleb_gt; lra). cbn [andb].
    pose proof (evidence_app [4%nat] [5%nat] _ _
      (evidence_capped LONG_SQUEEZE (fadd (Qabs move) liq) (fmul 2 (rg_z_severe k))
         ("negative return_z=" +:+ fixed 3 move +:+ ", liquidation_z=" +:+ fixed 3 liq)
         ltac:(auto with floats) P) (crash_rule_evidence move liq L)) as (evs & E & Hs & Hb).
    rewrite E. exists evs. unfold nothing. cbn [rbind]. rewrite app_nil_r. by split_and!.
  - unfold nothing at 1. cbn [rbind]. destruct (dleb (rg_z_severe k) move && _) eqn:Es; [|apply (evidence_nothing [4; 5]%nat)].
    decb. destruct Es as [E1 E2]. edestruct (evidence_capped SHORT_SQUEEZE (fadd move liq)) as (evs & -> & Hs & Hb);
      [apply fadd_nonneg; lra|exact P|]. cbn [rbind]. exists evs. split_and!; [done| |done].
    by transitivity [4%nat]; [|apply sublist_skip, sublist_nil_l].
Qed.

Lemma half_more a : is_float a -> 0 <= a -> a <= fadd a (1 # 2).
Proof. unfold is_float. intros Ha H. apply (Qle_trans _ (fl a)); [lra|]. apply fl_mono. lra. Qed.
Lemma abs_float a : is_float a -> is_float (Qabs a).
Proof.
  unfold is_float, fl. intros H. destruct (Qlt_le_dec a 0) as [L|L].
  - rewrite (round_prec_compat 2 53 (Qabs a) (- a)) by (apply Qabs_neg; lra).
    rewrite round_prec_opp, H, (Qabs_neg a) by (done || lra). reflexivity.
  - rewrite (round_prec_compat 2 53 (Qabs a) a), H, (Qabs_pos a) by (by apply Qabs_pos || done). reflexivity.
Qed.
Lemma lead_rule_evidence : evidence_of [7%nat] (lead_rule k f).
Proof.
  bounds. unfold lead_rule. destruct (dict_get "spot_return_zscore" f) as [spot|] eqn:Es; [|apply evidence_nothing].
  destruct (dict_get "perp_return_zscore" f) as [perp|] eqn:Ep; [|apply evidence_nothing].
  pose proof (half_more _ (abs_float _ (floats_get _ _ _ Hf Es)) (Qabs_nonneg _)).
  pose proof (half_more _ (abs_float _ (floats_get _ _ _ Hf Ep)) (Qabs_nonneg _)).
  destruct (_ && _) eqn:E; [apply (evidence_capped SPOT_LED_MOVE); decb; [apply fsub_nonneg; lra|done]|].
  destruct (dleb _ (Qabs perp) && _) eqn:E'; [|apply evidence_nothing].
  apply (evidence_capped PERP_LED_MOVE); decb; [apply fsub_nonneg; lra|done].
Qed.

Lemma risk_off_rule_evidence : evidence_of [8%nat] (risk_off_rule k f).
Proof.
  bounds. unfold risk_off_rule. destruct (dict_get "cross_asset_return_zscore" f) as [move|]; [|apply evidence_nothing].
  destruct (dict_get "risk_breadth" f) as [breadth|]; [|apply evidence_nothing].
  destruct (_ && _) eqn:E; [|apply evidence_nothing]. rewrite fdiv_ok by lra. cbn [rbind].
  apply (evidence_capped RISK_OFF); [|done]. auto with floats.
Qed.

Lemma gather_evidence rules fams :
  Forall2 evidence_of fams rules -> evidence_of (concat fams) (gather (fun rule => rule) rules).
Proof.
  induction 1 as [|fam r fams rules Hr _ IH]; [apply evidence_nothing|]. by apply evidence_app.
Qed.

(** All the rules: at most one regime of each family, every score in [0, 1] *)
Lemma rules_evidence : evidence_of (seq 0 9) (gather (fun rule => rule) (rules k f)).
Proof.
  apply (gather_evidence _ [[0]; [1]; [2]; [3]; [4; 5]; [6]; [7]; [8]]%nat).
  repeat apply Forall2_cons_2; [apply slope_rule_evidence|apply volatility_rule_evidence|apply funding_rule_evidence|
    apply oi_rule_evidence|apply squeeze_rule_evidence|apply cascade_rule_evidence|apply lead_rule_evidence|
    apply risk_off_rule_evidence|constructor].
Qed.

End RuleLemmas.

(** ** The ensemble *)

Lemma stronger_total a b : stronger a b = true \/ stronger b a = true.
Proof. unfold stronger. rewrite !dleb_le. lra. Qed.
Lemma stronger_trans a b c : stronger a b = true -> stronger b c = true -> stronger a c = true.
Proof. unfold stronger. rewrite !dleb_le. lra. Qed.

Lemma ranked_cons evidence first rest :
  ranked evidence = first :: rest ->
  first :: rest ≡ₚ evidence /\ Forall (fun e => re_score e <= re_score first) (first :: rest).
Proof.
  intros E. split; [rewrite <- E; apply sorted_by_Permutation|].
  pose proof (sorted_by_sorted _ stronger_total stronger_trans evidence) as S.
  change (sorted_by stronger evidence) with (ranked evidence) in S. rewrite E in S. inversion_clear S as [|? ? _ S'].
  constructor; [lra|]. eapply Forall_impl; [exact S'|]. intros x. unfold stronger. by rewrite dleb_le.
Qed.

Lemma fromkeys_of_distinct (xs : list Regime) : NoDup xs -> dict_fromkeys xs ≡ₚ xs.
Proof.
  intros H. apply NoDup_Permutation; [apply dict_fromkeys_NoDup|done|]. intros x. apply dict_fromkeys_elem.
Qed.

Lemma clamped_score x : score_ok (dmin 1 (dmax 0 (fl x))).
Proof.
  unfold score_ok. dminmax; split_and!; try lra; try (apply fl_one).
  all: first [by apply round_prec_idem | by apply round_prec_zero].
Qed.

(** What a verdict says of the evidence it weighs *)
Record Judged (k : RegimeSettings) (quality : Q) (evidence : list RuleEvidence) (r : RegimeResult) : Prop := {
  jd_unknown : rr_primary_regime r = UNKNOWN <-> quality < rg_minimum_quality k \/ evidence = [];
  jd_active : rr_primary_regime r <> UNKNOWN -> active_regimes r ≡ₚ map re_regime evidence;
  jd_strongest : rr_primary_regime r <> UNKNOWN ->
    exists top, top ∈ evidence /\ re_regime top = rr_primary_regime r /\
                Forall (fun e => re_score e <= re_score top) evidence;
  jd_alone : rr_primary_regime r = UNKNOWN -> rr_secondary_regimes r = [] /\ rr_confidence r == 0;
  jd_families : NoDup (map family (active_regimes r));
  jd_confidence : score_ok (rr_confidence r);
  jd_quality : rr_data_quality_score r = quality;
}.

Definition told (v : Verdict) (quality : Q) : RegimeResult := {|
  rr_primary_regime := vd_primary v; rr_secondary_regimes := vd_secondary v; rr_confidence := vd_confidence v;
  rr_evidence := vd_reasons v; rr_feature_snapshot := []; rr_regime_started_at := 0; rr_regime_duration_seconds := 0;
  rr_model_version := EmptyString; rr_data_quality_score := quality; rr_statistical_state := None |}.

Lemma verdict_judged k quality evidence statistical :
  NoDup (map (fun e => family (re_regime e)) evidence) ->
  Forall (fun e => re_regime e <> UNKNOWN) evidence ->
  exists v, verdict k evidence quality statistical = Ok v /\ Judged k quality evidence (told v quality).
Proof.
  intros Hn Hu. unfold verdict.
  assert (forall why, quality < rg_minimum_quality k \/ evidence = [] ->
    Judged k quality evidence (told {| vd_primary := UNKNOWN; vd_secondary := []; vd_confidence := 0; vd_reasons := why |} quality))
    as Hunknown.
  { intros why H. constructor; simpl; try done. apply NoDup_singleton. }
  destruct (ranked evidence) as [|first rest] eqn:E.
  { eexists; split; [done|]. apply Hunknown. right. apply Permutation_nil_r. rewrite <- E. symmetry. apply sorted_by_Permutation. }
  destruct (dltb quality _) eqn:Eq; [eexists; split; [done|]; apply Hunknown; decb; by left|].
  unfold ensemble_confidence, rule_confidence.
  assert (0 < Z.min 3 (size (first :: rest)))%Z as P by (unfold size; simpl length; lia).
  rewrite fdiv_ok.
  2:{ change 0 with (inject_Z 0). rewrite inject_Z_injective. lia. }
  cbn [rbind]. eexists; split; [done|]. destruct (ranked_cons _ _ _ E) as [Hp Hs].
  assert (re_regime first <> UNKNOWN) as Hf by (rewrite <- Hp in Hu; by apply Forall_cons in Hu as [? _]).
  assert (NoDup (map (fun e => family (re_regime e)) (first :: rest))) as Hn' by by rewrite Hp.
  assert (active_regimes (told {| vd_primary := re_regime first; vd_secondary := dict_fromkeys (map re_regime rest);
    vd_confidence := 0; vd_reasons := [] |} quality) ≡ₚ map re_regime (first :: rest)) as Ha.
  { simpl. apply Permutation_skip, fromkeys_of_distinct. apply NoDup_cons in Hn' as [_ Hn'].
    apply (NoDup_fmap_1 family). change (NoDup (map family (map re_regime rest))). by rewrite map_map. }
  decb. constructor; simpl.
  - split; [done|]. intros [?|Ee]; [lra|]. subst. by apply Permutation_nil_r in Hp.
  - intros _. unfold active_regimes in *. simpl in *. rewrite Ha. exact (Permutation_map re_regime Hp).
  - intros _. exists first. split_and!; [rewrite <- Hp; by left|done|by rewrite <- Hp].
  - done.
  - apply (Permutation_map family) in Ha. unfold active_regimes in *. simpl in *. rewrite Ha, map_map. exact Hn'.
  - destruct statistical; apply clamped_score.
  - done.
Qed.

(** ** Detection *)

Record Observation := {
  ob_features : features;
  ob_timestamp : Z;
  ob_quality : Q;
  ob_statistical : option StatisticalPrediction;
}.
Definition observation_ok (o : Observation) : Prop :=
  floats (finite_features (ob_features o)) /\ score_ok (ob_quality o).
Definition detect_observation (o : Observation) : M Ensemble RegimeResult :=
  detect (ob_features o) (ob_timestamp o) (ob_quality o) (ob_statistical o).

Lemma family_unknown r : (family r < 9)%nat -> r <> UNKNOWN.
Proof. intros H ->. simpl in H. lia. Qed.

Lemma rules_verdict k o statistical :
  settings_ok k -> observation_ok o ->
  exists evidence v, rules_evaluate k (ob_features o) = Ok evidence /\
    verdict k evidence (ob_quality o) statistical = Ok v /\ Judged k (ob_quality o) evidence (told v (ob_quality o)).
Proof.
  intros Hk [Hf _]. destruct (rules_evidence k _ Hk Hf) as (evidence & E & Hs & _).
  assert (NoDup (map (fun e => family (re_regime e)) evidence)) as Hn by (eapply sublist_NoDup; [apply NoDup_seq|exact Hs]).
  assert (Forall (fun e => re_regime e <> UNKNOWN) evidence) as Hu.
  { apply Forall_forall. intros e He. apply family_unknown.
    assert (family (re_regime e) ∈ seq 0 9) as Hin%elem_of_seq; [|lia].
    eapply elem_of_sublist; [|exact Hs]. by apply (list_elem_of_fmap_2 (fun e => family (re_regime e))). }
  destruct (verdict_judged k (ob_quality o) evidence statistical Hn Hu) as (v & Ev & Hj). by exists evidence, v.
Qed.

Lemma standing_settings e p t : en_settings (standing e p t).1 = en_settings e.
Proof. unfold standing. by repeat case_match. Qed.

Lemma detect_judged e o :
  settings_ok (en_settings e) -> observation_ok o ->
  exists evidence r, rules_evaluate (en_settings e) (ob_features o) = Ok evidence /\
    detect_observation o e = ((standing e (rr_primary_regime r) (ob_timestamp o)).1, Ok r) /\
    Judged (en_settings e) (ob_quality o) evidence r /\
    rr_regime_started_at r = (standing e (rr_primary_regime r) (ob_timestamp o)).2 /\
    rr_regime_duration_seconds r = dmax 0 (total_seconds (ob_timestamp o - rr_regime_started_at r)).
Proof.
  intros Hk Ho. destruct (rules_verdict _ o (ob_statistical o) Hk Ho) as (evidence & v & E & Ev & Hj).
  unfold detect_observation, detect. rewrite E. cbn [rbind]. rewrite Ev.
  destruct (standing e (vd_primary v) (ob_timestamp o)) as [e' started] eqn:Es.
  destruct Hj as [J1 J2 J3 J4 J5 J6 J7]. simpl in *. destruct Ho as (_ & Q0 & Q1 & _). pose proof J6 as (C0 & C1 & _).
  unfold RegimeResult_validate, within. simpl.
  rewrite (proj2 (dleb_le 0 (vd_confidence v)) C0), (proj2 (dleb_le (vd_confidence v) 1) C1),
    (proj2 (dleb_le 0 (ob_quality o)) Q0), (proj2 (dleb_le (ob_quality o) 1) Q1),
    (proj2 (dleb_le 0 (dmax 0 _)) (dmax_le_l 0 _)). simpl.
  match goal with |- context [(e', Ok ?r)] => exists evidence, r end. simpl. rewrite Es. by split_and!.
Qed.

(** ** A history of detections *)

Fixpoint watch (observations : list Observation) (e : Ensemble) : Ensemble * list (result RegimeResult) :=
  match observations with
  | [] => (e, [])
  | o :: observations =>
      let '(e, r) := detect_observation o e in
      let '(e, rs) := watch observations e in (e, r :: rs)
  end.

(** When the run of equal verdicts that ends now began; the past is most recent first. *)
Fixpoint since (primary : Regime) (now : Z) (past : list (Regime * Z)) : Z :=
  match past with
  | (p, t) :: past => if decide (p = primary) then since primary t past else now
  | [] => now
  end.
Fixpoint run_starts (past verdicts : list (Regime * Z)) : list Z :=
  match verdicts with
  | [] => []
  | (p, t) :: verdicts => since p t past :: run_starts ((p, t) :: past) verdicts
  end.

Definition remembers (e : Ensemble) (past : list (Regime * Z)) : Prop :=
  match past with
  | [] => en_started_at e = None
  | (p, t) :: past => en_last_primary e = p /\ en_started_at e = Some (since p t past)
  end.

Lemma standing_remembers e past p t :
  remembers e past -> (standing e p t).2 = since p t past /\ remembers (standing e p t).1 ((p, t) :: past).
Proof.
  unfold standing, remembers. destruct past as [|[q u] past]; [by intros ->|]. intros [Hl Hs]. rewrite Hs, Hl. simpl.
  case_bool_decide as E; simpl.
  - subst p. rewrite decide_True by done. done.
  - rewrite decide_False by congruence. done.
Qed.

Lemma watch_history observations : forall e past,
  settings_ok (en_settings e) -> remembers e past -> Forall observation_ok observations ->
  exists rs, (watch observations e).2 = map Ok rs /\
    Forall2 (fun o r => exists evidence, rules_evaluate (en_settings e) (ob_features o) = Ok evidence /\
                        Judged (en_settings e) (ob_quality o) evidence r) observations rs /\
    map rr_regime_started_at rs = run_starts past (zip (map rr_primary_regime rs) (map ob_timestamp observations)).
Proof.
  induction observations as [|o os IH]; intros e past Hk Hr Ho; [by exists []; split_and!; [| constructor|]|].
  apply Forall_cons in Ho as [Ho Hos]. destruct (detect_judged e o Hk Ho) as (evidence & r & E & Hd & Hj & Hs & _).
  destruct (standing_remembers e past (rr_primary_regime r) (ob_timestamp o) Hr) as [Hst Hr'].
  edestruct (IH (standing e (rr_primary_regime r) (ob_timestamp o)).1) as (rs & Hw & Hf & Hst');
    [by rewrite standing_settings|exact Hr'|exact Hos|].
  rewrite standing_settings in Hf. exists (r :: rs). simpl. rewrite Hd.
  destruct (watch os _) as [e' rs'] eqn:Ew. simpl in *. subst rs'. rewrite Hs, Hst, Hst'.
  split_and!; [done|constructor; [by exists evidence|done]|done].
Qed.

(** C12: a fresh regime engine with accepted settings answers on every sequence of observations;
    each result is UNKNOWN exactly when the data quality is below the minimum or no rule fires,
    otherwise its primary regime is the one of the strongest evidence and its active regimes are
    those of the evidence, never two of one family (no uptrend with a downtrend, no positive
    with a negative funding extreme); its confidence is in [0, 1]; and it is dated from the
    first observation of the run of equal primary regimes that it ends. *)
Theorem regimes_are_judged_and_dated k observations :
  settings_ok k -> Forall observation_ok observations ->
  exists rs, (watch observations (EnsembleRegimeEngine_new k)).2 = map Ok rs /\
    Forall2 (fun o r => exists evidence, rules_evaluate k (ob_features o) = Ok evidence /\
                        Judged k (ob_quality o) evidence r) observations rs /\
    map rr_regime_started_at rs = run_starts [] (zip (map rr_primary_regime rs) (map ob_timestamp observations)).
Proof. intros Hk Ho. by apply (watch_history observations (EnsembleRegimeEngine_new k) []). Qed.

Section Composition.
Context {D : Digest} `{!DigestLaws D}.

Definition silent (e : StrategyEvaluation) : Prop := se_gate_passed e = false /\ se_signal e = None.

Lemma closed_is_silent m c e : Faithful m c e -> ~ gate_open m c -> silent e.
Proof.
  intros [_ _ Hg He _] Hc. assert (se_gate_passed e = false) as E by (apply not_true_is_false; by rewrite Hg).
  split; [done|]. rewrite E in He. by destruct (se_signal e).
Qed.

(** C11: the regime engine and the strategies together: whatever the regime engine reports of an
    observation, every engine of strategies that honour their mandates answers on it as the
    mandates say, and when the data quality is below the minimum or no rule fires, every gate is
    closed and no strategy emits a signal. *)
Theorem poor_data_never_trades e o engine mandates symbol exchange :
  settings_ok (en_settings e) -> observation_ok o -> Forall2 Honours engine mandates -> symbol <> EmptyString ->
  exists evidence r, rules_evaluate (en_settings e) (ob_features o) = Ok evidence /\ (detect_observation o e).2 = Ok r /\
    let c := {| cx_timestamp := Aware (ob_timestamp o); cx_symbol := symbol; cx_features := ob_features o;
                cx_regime := r; cx_exchange := exchange |} in
    (Forall (fun m => expires m c) mandates ->
     exists evaluations, engine_evaluate engine c = Ok evaluations /\
       Forall2 (fun m e => Faithful m c e) mandates evaluations /\
       (ob_quality o < rg_minimum_quality (en_settings e) \/ evidence = [] -> Forall silent evaluations)).
Proof.
  intros Hk Ho He Hs. destruct (detect_judged e o Hk Ho) as (evidence & r & E & Hd & Hj & _).
  exists evidence, r. rewrite Hd. split_and!; [done|done|]. intros c Hx.
  assert (sound_context c) as Hc by (split_and!; [done|done|apply Hj|simpl; rewrite (jd_quality _ _ _ _ Hj); apply Ho]).
  destruct (engine_faithful _ _ c He Hc Hx) as (es & Hes & Hf). exists es. split_and!; [done|done|].
  rewrite <- (jd_unknown _ _ _ _ Hj). intros Hu. clear Hx Hes He.
  induction Hf as [|m ev ms es Hm _ IH]; constructor; [|done]. eapply closed_is_silent; [exact Hm|]. by intros [? _].
Qed.

End Composition.
