(* ===== verification/RelativeSafety.v ===== *)
(** * What the relative-strength strategy promises

    A batch is empty or a pair: the strongest symbol bought against the weakest sold, both
    eligible, with statistics that are fresh and confirm the ranking. *)

From Stdlib Require Import ZArith QArith Qabs Qround Lia Lqa.
From stdpp Require Import base tactics list strings.
From S2P Require Import Prelude Decimals Binary64 RiskModels Venues Evidence Json PyText FundingCarry Certification Sources.
From S2P Require Import CertificationSafety Strategies Regimes RelativeStrength StrategySafety.

Local Open Scope string_scope.
Local Open Scope list_scope.
Local Open Scope Q_scope.

(** ** The eligible symbols *)

Definition eligible_in (k : RelativeStrengthConfig) (r : RegimeResult) : Prop :=
  opens r relative_allowed relative_blocked (rk_minimum_regime_confidence k) (rk_minimum_data_quality k).

Lemma screen_inl k regimes symbol fs x :
  screen k regimes (symbol, fs) = inl x ->
  x = (symbol, finite_features fs) /\ (exists r, dict_get symbol regimes = Some r /\ eligible_in k r) /\
  Forall (fun name => is_Some (dict_get name (finite_features fs))) required_features.
Proof.
  unfold screen. cbn [fst snd]. destruct (dict_get symbol regimes) as [r|]; [|done].
  pose proof (regime_gate_spec r relative_allowed relative_blocked (rk_minimum_regime_confidence k) (rk_minimum_data_quality k)) as G.
  destruct (regime_gate _ _ _ _ _) as [[] reasons]; [|intros H; discriminate H]. destruct G as [Go _]. cbn [negb].
  case_bool_decide as Hm; [|intros H; discriminate H]. cbn [negb]. destruct (within _ _ _); [|intros H; discriminate H]. intros [= <-].
  split; [done|]. split; [exists r; split; [done|by apply Go]|by apply missing_features_nil].
Qed.

Lemma eligible_elem k regimes universe symbol fs :
  (symbol, fs) ∈ eligible_symbols k regimes universe ->
  exists raw r, (symbol, raw) ∈ universe /\ dict_get symbol regimes = Some r /\ eligible_in k r /\
                fs = finite_features raw /\ Forall (fun name => is_Some (dict_get name fs)) required_features.
Proof.
  unfold eligible_symbols. rewrite list_elem_of_omap. intros ([s raw] & Hin & Hs).
  destruct (screen k regimes (s, raw)) as [x|] eqn:E; [|done]. injection Hs as ->.
  apply screen_inl in E as ([= -> ->] & (r & Hr & He) & Hf). by exists raw, r.
Qed.

Lemma eligible_keys k regimes universe :
  map fst (eligible_symbols k regimes universe) `sublist_of` map fst universe.
Proof.
  unfold eligible_symbols. induction universe as [|[s raw] universe IH]; simpl; [done|].
  destruct (screen k regimes (s, raw)) as [x|] eqn:E; simpl; [|by apply sublist_cons].
  apply screen_inl in E as [-> _]. simpl. by apply sublist_skip.
Qed.

(** ** The ranking *)

Lemma score_defined k fs : Forall (fun name => is_Some (dict_get name fs)) required_features -> exists x, score k fs = Ok x.
Proof.
  unfold required_features. rewrite !Forall_cons. intros ([a A] & [b B] & [c C] & [d E] & [e F] & _).
  unfold score. rewrite (feature_some _ _ _ A), (feature_some _ _ _ B), (feature_some _ _ _ C), (feature_some _ _ _ E),
    (feature_some _ _ _ F). by eexists.
Qed.

Definition scores_of (k : RelativeStrengthConfig) (eligible : list (string * list (string * Q))) : result (list (string * Q)) :=
  gather (fun e : string * list (string * Q) => let! s := score k e.2 in Ok [(e.1, s)]) eligible.

Lemma scores_defined k eligible :
  Forall (fun e => Forall (fun name => is_Some (dict_get name e.2)) required_features) eligible ->
  exists scores, scores_of k eligible = Ok scores /\ map fst scores = map fst eligible.
Proof.
  unfold scores_of. induction 1 as [|[s fs] eligible H _ (scores & E & Hk)]; [by exists []|]. simpl.
  destruct (score_defined k fs H) as [x ->]. cbn [rbind]. rewrite E. cbn [rbind]. exists ((s, x) :: scores).
  split; [done|]. simpl. by rewrite Hk.
Qed.

(** The best of a list: a member none of the others beats *)
Section Best.
Context (better : Q -> Q -> bool).
Context (Hasym : forall a b, better a b = true -> better b a = false).
Context (Hneg : forall a b c, better a b = false -> better b c = false -> better a c = false).

Lemma best_spec first rest :
  let b := best better first rest in b ∈ first :: rest /\ Forall (fun x => better x.2 b.2 = false) (first :: rest).
Proof using Hasym Hneg.
  unfold best. revert first. induction rest as [|x rest IH]; intros first; simpl.
  { split; [by left|]. constructor; [|constructor]. destruct (better _ _) eqn:E; [|done]. by rewrite (Hasym _ _ E) in E. }
  specialize (IH (if better x.2 first.2 then x else first)) as [Hin Hall].
  set (b := fold_left _ _ _) in *. apply Forall_cons in Hall as [Hx Hrest].
  destruct (better x.2 first.2) eqn:E.
  - split; [by right|]. constructor; [|by constructor]. by apply (Hneg _ x.2); [apply Hasym|].
  - split; [apply elem_of_cons in Hin as [->|Hin]; [by left|right; by right]|].
    constructor; [done|]. constructor; [|done]. by apply (Hneg _ first.2).
Qed.
End Best.

Lemma strongest_spec first rest :
  strongest first rest ∈ first :: rest /\ Forall (fun x => x.2 <= (strongest first rest).2) (first :: rest).
Proof.
  destruct (best_spec (fun a b => dltb b a)) with (first := first) (rest := rest) as [Hin Hall];
    [intros *; rewrite dltb_lt, dltb_ge; lra|intros *; rewrite !dltb_ge; lra|].
  split; [done|]. eapply Forall_impl; [exact Hall|]. intros x. by rewrite dltb_ge.
Qed.
Lemma weakest_spec first rest :
  weakest first rest ∈ first :: rest /\ Forall (fun x => (weakest first rest).2 <= x.2) (first :: rest).
Proof.
  destruct (best_spec (fun a b => dltb a b)) with (first := first) (rest := rest) as [Hin Hall];
    [intros *; rewrite dltb_lt, dltb_ge; lra|intros *; rewrite !dltb_ge; lra|].
  split; [done|]. eapply Forall_impl; [exact Hall|]. intros x. by rewrite dltb_ge.
Qed.

(** ** The pair *)

(** Pair statistics that confirm a pair at a time *)
Record confirms_pair (k : RelativeStrengthConfig) (t : Z) (long short : string) (s : PairStatistics) : Prop := {
  cp_pair : ps_symbol_a s = long /\ ps_symbol_b s = short;
  cp_fresh : (ps_estimated_at s <= t /\ t - ps_estimated_at s <= rk_maximum_pair_age_minutes k * 60000000)%Z;
  cp_correlation : rk_minimum_correlation k <= ps_correlation s;
  cp_cointegration : ps_cointegration_pvalue s <= rk_maximum_cointegration_pvalue k;
  cp_beta : rk_minimum_beta k <= ps_beta s /\ ps_beta s <= rk_maximum_beta k;
  cp_spread : rk_minimum_spread_zscore k <= ps_spread_zscore s;
}.
Lemma pair_failures_nil k t long short gap statistics :
  pair_failures k t long short gap statistics = [] <->
  rk_minimum_score_gap k <= gap /\ exists s, statistics = Some s /\ confirms_pair k t long short s.
Proof.
  unfold pair_failures. rewrite app_nil, reason_when_nil, dltb_ge. destruct statistics as [s|].
  2:{ split; [by intros [_ ?]|]. by intros (_ & s & ? & _). }
  rewrite !app_nil, !reason_when_nil, negb_false_iff, bool_decide_eq_true, !Z.ltb_ge. unfold within. decb. split.
  - intros (G & E & F1 & F2 & C & P & B & S). split; [done|]. exists s. split; [done|]. injection E as <- <-.
    constructor; naive_solver.
  - intros (G & s' & [= <-] & [[<- <-] [F1 F2] C P B S]). naive_solver.
Qed.

Definition config_ok (k : RelativeStrengthConfig) : Prop :=
  RelativeStrengthConfig_validate k = Ok k /\ 0 <= rk_minimum_spread_zscore k.
Lemma config_bounds k : config_ok k ->
  (2 <= rk_minimum_symbols k)%Z /\ 0 < rk_minimum_score_gap k /\ 0 <= rk_minimum_correlation k /\ 0 < rk_minimum_beta k /\
  (1 <= rk_signal_valid_minutes k)%Z /\ 0 < rk_suggested_pair_risk_fraction k /\
  rk_suggested_pair_risk_fraction k <= lit (5 # 1000).
Proof.
  intros [H _]. unfold RelativeStrengthConfig_validate, risk_in in H. accepted_inv H. decb. destruct_and!.
  rewrite !Z.ltb_ge in *. by split_and!.
Qed.

Lemma pair_score_bounds k t long short gap s :
  config_ok k -> PairStatistics_validate s = Ok s -> rk_minimum_score_gap k <= gap -> confirms_pair k t long short s ->
  exists setup, pair_score k gap s = Ok setup /\ 0 < setup /\ setup <= 1.
Proof.
  intros Hk Hs Hg [_ _ C P _ S]. destruct (config_bounds k Hk) as (_ & G0 & C0 & _). destruct Hk as [_ K0].
  unfold PairStatistics_validate, within in Hs. accepted_inv Hs. decb. destruct_and!. unfold pair_score.
  set (d := dmax (fmul (rk_minimum_spread_zscore k) 4) 1).
  assert (1 <= d) as D1 by (unfold d; dminmax; lra).
  assert (0 < fmul (rk_minimum_score_gap k) 3) as G3 by (apply fl_pos; lra).
  rewrite !fdiv_ok by lra. cbn [rbind]. rewrite fdiv_ok by done. cbn [rbind]. eexists; split; [reflexivity|].
  assert (0 < fl (gap / fmul (rk_minimum_score_gap k) 3)) as G1 by (apply fl_pos, Qlt_shift_div_l; lra).
  set (g := fl (gap / _)) in *.
  assert (0 <= fl (ps_spread_zscore s / d)) as R by (apply ratio_nonneg; lra).
  set (st := fl (fadd _ _ / 3)).
  assert (0 <= st) as T by (apply ratio_nonneg; [|done]; apply fadd_nonneg; [apply fadd_nonneg; [lra|apply fsub_nonneg; lra]|dminmax; lra]).
  pose proof (weighted_bounds (lit (45 # 100)) _ _ ltac:(by vm_compute) T ltac:(done)) as [B1 B2].
  pose proof (weighted_bounds (lit (55 # 100)) _ _ ltac:(by vm_compute) (Qlt_le_weak _ _ G1) ltac:(done)) as [_ A2].
  split.
  - apply fl_pos. assert (0 < fmul (lit (55 # 100)) (dmin g 1)) as A.
    { apply fl_pos, Qmult_lt_0_compat; [by vm_compute|]. dminmax; lra. }
    assert (0 <= fmul (lit (45 # 100)) 0) by by vm_compute. lra.
  - eapply Qle_trans; [apply fadd_mono; [exact A2|exact B2]|]. by vm_compute.
Qed.

(** ** The evaluation of a universe *)

Record universe_ok (k : RelativeStrengthConfig) (t : Z) (universe : list (string * features))
    (regimes : list (string * RegimeResult)) (pairs : list ((string * string) * PairStatistics)) : Prop := {
  uo_keys : NoDup (map fst universe);
  uo_names : Forall (fun u => u.1 <> EmptyString) universe;
  uo_regimes : Forall (fun r => score_ok (rr_confidence r.2) /\ score_ok (rr_data_quality_score r.2)) regimes;
  uo_pairs : Forall (fun p => PairStatistics_validate p.2 = Ok p.2) pairs;
  uo_expiry : datetime_range (t + rk_signal_valid_minutes k * 60000000);
}.

Lemma item_or_elem {V} (x : string) (v : V) d : (x, v) ∈ d -> exists w, item_or x d = Ok w.
Proof.
  unfold item_or. induction d as [|[y w] d IH]; simpl; [by intros ?%elem_of_nil|].
  case_decide as E; [by eexists|]. rewrite elem_of_cons. intros [[= -> _]|H]; [done|auto].
Qed.
(** The two ends of a ranking with a gap are different symbols. *)
Lemma ends_differ (scores : list (string * Q)) a b gap :
  NoDup (map fst scores) -> a ∈ scores -> b ∈ scores -> 0 < gap -> gap <= fsub a.2 b.2 -> a.1 <> b.1.
Proof.
  intros Hn Ha Hb Hg Hd E. destruct a as [x u], b as [y v]. simpl in *. subst y.
  assert (u = v) as <-.
  { clear Hd Hg. induction scores as [|[z w] scores IH]; [by apply elem_of_nil in Ha|]. simpl in Hn.
    apply NoDup_cons in Hn as [Hz Hn].
    assert (forall q, (x, q) ∈ scores -> x ∈ map fst scores) as Hin
      by (intros q Hq; exact (list_elem_of_fmap_2 fst _ _ Hq)).
    apply elem_of_cons in Ha as [Ea|Ha]; apply elem_of_cons in Hb as [Eb|Hb]; simplify_eq;
      [done|destruct (Hz (Hin _ Hb))|destruct (Hz (Hin _ Ha))|by apply IH]. }
  assert (fsub u u == 0) as Z by (unfold fsub; apply fl_zero; lra). lra.
Qed.

Section Universe.
Context {D : Digest} `{!DigestLaws D}.
Context (k : RelativeStrengthConfig) (t : Z) (universe : list (string * features)) (regimes : list (string * RegimeResult))
  (pairs : list ((string * string) * PairStatistics)) (exchanges : option (list (string * string))).
Context (Hk : config_ok k) (Hu : universe_ok k t universe regimes pairs).
Let eligible := eligible_symbols k regimes universe.

(** The strongest and the weakest symbol of a ranking *)
Definition ends (scores : list (string * Q)) : option ((string * Q) * (string * Q)) :=
  match scores with [] => None | first :: rest => Some (strongest first rest, weakest first rest) end.
(** Enough symbols are eligible and the statistics confirm their ranking. *)
Definition pair_confirmed : Prop :=
  (rk_minimum_symbols k <= size eligible)%Z /\
  exists scores long short s, scores_of k eligible = Ok scores /\ ends scores = Some (long, short) /\
    rk_minimum_score_gap k <= fsub long.2 short.2 /\ dict_get (long.1, short.1) pairs = Some s /\
    confirms_pair k t long.1 short.1 s.

Record PairTrade (buy sell : Signal) : Prop := {
  pt_sides : sn_side buy = S_BUY /\ sn_side sell = S_SELL /\ sn_intent buy = ENTRY /\ sn_intent sell = ENTRY;
  pt_symbols : sn_symbol buy <> sn_symbol sell;
  pt_regimes : exists r r', dict_get (sn_symbol buy) regimes = Some r /\ dict_get (sn_symbol sell) regimes = Some r' /\
                            eligible_in k r /\ eligible_in k r';
  pt_ranking : exists scores high low, scores_of k eligible = Ok scores /\
    (sn_symbol buy, high) ∈ scores /\ (sn_symbol sell, low) ∈ scores /\
    Forall (fun x => low <= x.2 /\ x.2 <= high) scores /\ rk_minimum_score_gap k <= fsub high low;
  pt_statistics : exists s, dict_get (sn_symbol buy, sn_symbol sell) pairs = Some s /\
    confirms_pair k t (sn_symbol buy) (sn_symbol sell) s;
  pt_strength : sn_strength buy = sn_strength sell /\ 0 < sn_strength buy /\ sn_strength buy <= 1;
  pt_risk : sn_suggested_risk_fraction buy = fl (rk_suggested_pair_risk_fraction k / 2) /\
            sn_suggested_risk_fraction sell = fl (rk_suggested_pair_risk_fraction k / 2);
  pt_group : exists group u v, sn_metadata buy = PairMetadata group u /\ sn_metadata sell = PairMetadata group v;
}.

Lemma eligible_facts : Forall (fun e => Forall (fun name => is_Some (dict_get name e.2)) required_features) eligible /\
  NoDup (map fst eligible).
Proof using Hu.
  split.
  - apply Forall_forall. intros [s fs] (raw & r & _ & _ & _ & _ & H)%eligible_elem. exact H.
  - eapply sublist_NoDup; [exact (uo_keys _ _ _ _ _ Hu)|]. apply eligible_keys.
Qed.

Lemma scores_facts : exists scores, scores_of k eligible = Ok scores /\ map fst scores = map fst eligible /\
  NoDup (map fst scores).
Proof using Hu.
  destruct eligible_facts as [Hf Hn]. destruct (scores_defined k eligible Hf) as (scores & E & Hm).
  exists scores. by rewrite Hm.
Qed.

(** A ranked symbol has its features and a regime the strategy allows. *)
Lemma ranked_symbol (scores : list (string * Q)) (x : string * Q) :
  map fst scores = map fst eligible -> x ∈ scores ->
  exists raw r, item_or x.1 universe = Ok raw /\ dict_get x.1 regimes = Some r /\ eligible_in k r /\
    x.1 <> EmptyString /\ score_ok (rr_confidence r) /\ score_ok (rr_data_quality_score r).
Proof using Hu.
  intros Hm Hx. assert (x.1 ∈ map fst eligible) as ([s fs] & E & He)%list_elem_of_fmap
    by (rewrite <- Hm; exact (list_elem_of_fmap_2 fst _ _ Hx)). simpl in E. subst s.
  apply eligible_elem in He as (raw0 & r & Hr & Hg & Ho & _). destruct (item_or_elem _ _ _ Hr) as [raw Hraw].
  pose proof (uo_names _ _ _ _ _ Hu) as Hnames. rewrite Forall_forall in Hnames. specialize (Hnames _ Hr). simpl in Hnames.
  pose proof (uo_regimes _ _ _ _ _ Hu) as Hregimes. rewrite Forall_forall in Hregimes.
  destruct (Hregimes _ (dict_get_In _ _ _ Hg)). by exists raw, r.
Qed.

(** The two legs of a pair are accepted signals. *)
Lemma leg_ok symbol side raw r setup group weight evidence :
  symbol <> EmptyString -> score_ok (rr_confidence r) -> score_ok (rr_data_quality_score r) -> side <> S_FLAT ->
  0 < setup -> setup <= 1 -> evidence <> [] ->
  exists s, pair_signal k t symbol side r raw setup group weight evidence exchanges = Ok s /\
    sn_symbol s = symbol /\ sn_side s = side /\ sn_intent s = ENTRY /\ sn_strength s = setup /\
    sn_suggested_risk_fraction s = fl (rk_suggested_pair_risk_fraction k / 2) /\ sn_metadata s = PairMetadata group weight.
Proof using Hk Hu DigestLaws0.
  intros Hs Hc Hq Hside S0 S1 He. destruct (config_bounds k Hk) as (_ & _ & _ & _ & Hm & R0 & R1).
  unfold pair_signal. rewrite fdiv_ok by done. cbn [rbind].
  assert (fl (rk_suggested_pair_risk_fraction k / 2) <= lit (1 # 100)) as R.
  { apply (Qle_trans _ (fl (lit (5 # 1000) / 2))); [by apply ratio_mono|by vm_compute]. }
  rewrite make_signal_ok; [by eexists| | | | | | | | | | |]; try done;
    [apply fl_pos, Qlt_shift_div_l; lra|exact (uo_expiry _ _ _ _ _ Hu)].
Qed.

Definition sound_batch (b : StrategyBatchEvaluation) : Prop :=
  sb_timestamp b = t /\ sb_reasons b <> [] /\
  (sb_gate_passed b = true <-> (rk_minimum_symbols k <= size eligible)%Z) /\
  (sb_signals b <> [] <-> pair_confirmed) /\
  (sb_signals b = [] \/ exists buy sell, sb_signals b = [buy; sell] /\ PairTrade buy sell).

Lemma batch_empty gate reasons :
  reasons <> [] -> (gate = true <-> (rk_minimum_symbols k <= size eligible)%Z) -> ~ pair_confirmed ->
  exists b, batch_new t gate [] reasons = Ok b /\ sound_batch b.
Proof using Type.
  intros Hr Hg Hp. unfold batch_new. rewrite bool_decide_eq_false_2 by done. cbn [negb].
  eexists. split; [reflexivity|]. repeat split; try done; [by apply Hg|by apply Hg|by left].
Qed.

Lemma pair_emitted scores long short s setup :
  scores_of k eligible = Ok scores -> map fst scores = map fst eligible -> NoDup (map fst scores) ->
  (rk_minimum_symbols k <= size eligible)%Z -> ends scores = Some (long, short) ->
  rk_minimum_score_gap k <= fsub long.2 short.2 -> dict_get (long.1, short.1) pairs = Some s ->
  confirms_pair k t long.1 short.1 s -> 0 < setup -> setup <= 1 ->
  forall group u v evidence raw raw' r r',
    dict_get long.1 regimes = Some r -> dict_get short.1 regimes = Some r' -> evidence <> [] ->
  exists b, (let! buy := pair_signal k t long.1 S_BUY r raw setup group u evidence exchanges in
             let! sell := pair_signal k t short.1 S_SELL r' raw' setup group v evidence exchanges in
             batch_new t true [buy; sell] ["beta-aware relative-strength pair setup satisfied"]) = Ok b /\ sound_batch b.
Proof using Hk Hu DigestLaws0.
  intros Es Hm Hn Hsize Hends Hgap Hst Hc S0 S1 group u v evidence raw raw' r r' Hr Hr' He.
  assert (long ∈ scores /\ short ∈ scores /\ Forall (fun x => short.2 <= x.2 /\ x.2 <= long.2) scores) as (Hl & Hs & Hall).
  { destruct scores as [|first rest]; [done|]. injection Hends as <- <-.
    destruct (strongest_spec first rest) as [? H1], (weakest_spec first rest) as [? H2]. split_and!; [done|done|].
    rewrite Forall_forall in *. intros x Hx. by split; [apply H2|apply H1]. }
  destruct (ranked_symbol scores long Hm Hl) as (_ & r0 & _ & Hr0 & El & Nl & Cl & Ql). rewrite Hr in Hr0. injection Hr0 as <-.
  destruct (ranked_symbol scores short Hm Hs) as (_ & r0 & _ & Hr0 & Esh & Ns & Cs & Qs). rewrite Hr' in Hr0. injection Hr0 as <-.
  destruct (leg_ok long.1 S_BUY raw r setup group u evidence) as (buy & -> & B1 & B2 & B3 & B4 & B5 & B6); try done.
  destruct (leg_ok short.1 S_SELL raw' r' setup group v evidence) as (sell & -> & C1 & C2 & C3 & C4 & C5 & C6); try done.
  cbn [rbind]. eexists; split; [reflexivity|]. split_and!; [done|done|done| |].
  { split; [|done]. intros _. split; [done|]. by exists scores, long, short, s. }
  right. exists buy, sell. split; [done|]. destruct (config_bounds k Hk) as (_ & G0 & _).
  constructor; rewrite ?B1, ?C1, ?B4, ?C4.
  - done.
  - by eapply ends_differ.
  - by exists r, r'.
  - exists scores, long.2, short.2. destruct long, short. done.
  - by exists s.
  - done.
  - done.
  - by exists group, u, v.
Qed.

Lemma evaluation_sound :
  exists b, evaluate_universe k (Aware t) universe regimes pairs exchanges = Ok b /\ sound_batch b.
Proof using Hk Hu DigestLaws0.
  unfold evaluate_universe. cbn [utc_or rbind]. fold eligible. destruct scores_facts as (scores & Es & Hm & Hn).
  destruct (size eligible <? rk_minimum_symbols k)%Z eqn:Ez.
  { apply Z.ltb_lt in Ez. apply batch_empty; [done|lia|]. intros [? _]. lia. }
  apply Z.ltb_ge in Ez. fold (scores_of k eligible). rewrite Es. cbn [rbind].
  destruct (config_bounds k Hk) as (Hmin & _ & _ & Hb0 & _).
  destruct scores as [|first rest].
  { destruct eligible; [|done]. unfold size in Ez. simpl in Ez. lia. }
  destruct (strongest_spec first rest) as [Hl _], (weakest_spec first rest) as [Hs _].
  assert (ends (first :: rest) = Some (strongest first rest, weakest first rest)) as Hends by done.
  destruct (strongest first rest) as [long high], (weakest first rest) as [short low].
  destruct (ranked_symbol _ _ Hm Hl) as (raw & r & Hraw & Hr & _). destruct (ranked_symbol _ _ Hm Hs) as (raw' & r' & Hraw' & Hr' & _).
  simpl in Hraw, Hr, Hraw', Hr'.
  destruct (pair_failures k t long short (fsub high low) (dict_get (long, short) pairs)) as [|failure failures] eqn:Ef.
  - apply pair_failures_nil in Ef as (Hgap & s & Hst & Hc). rewrite Hst.
    assert (item_or long regimes = Ok r) as -> by (unfold item_or; by rewrite Hr).
    assert (item_or short regimes = Ok r') as -> by (unfold item_or; by rewrite Hr').
    pose proof (uo_pairs _ _ _ _ _ Hu) as Hp. rewrite Forall_forall in Hp. specialize (Hp _ (dict_get_In _ _ _ Hst)).
    destruct (pair_score_bounds k t long short _ s Hk Hp Hgap Hc) as (setup & -> & S0 & S1). cbn [rbind].
    assert (0 < fadd 1 (ps_beta s)) as Hb by (apply fl_pos; destruct (cp_beta _ _ _ _ _ Hc); lra).
    rewrite !fdiv_ok by lra. cbn [rbind]. rewrite Hraw, Hraw'. cbn [rbind].
    by apply (pair_emitted (first :: rest) (long, high) (short, low) s).
  - apply batch_empty; [done|done|]. intros (_ & scores & l & sh & s & Es' & He' & Hgap & Hst & Hc).
    rewrite Es in Es'. injection Es' as <-. rewrite Hends in He'. injection He' as <- <-.
    assert (pair_failures k t long short (fsub high low) (dict_get (long, short) pairs) = []) as F
      by (apply pair_failures_nil; split; [exact Hgap|by exists s]). congruence.
Qed.
End Universe.

(** C13: with an accepted configuration (and a non-negative spread threshold) the relative-strength
    strategy answers on every universe of named symbols whose regimes and statistics were
    accepted: its gate passes exactly when enough symbols are eligible, and it emits signals
    exactly when the fresh statistics of the strongest and the weakest symbol confirm their
    ranking; the signals are one pair, a purchase of the symbol with the highest score and a
    sale of a different symbol with the lowest, at least the configured gap apart, both in an
    allowed regime, of equal strength in (0, 1], each with half the risk of the pair, in one
    group. *)
Theorem relative_strength_trades_pairs {D : Digest} `{!DigestLaws D} k t universe regimes pairs exchanges :
  config_ok k -> universe_ok k t universe regimes pairs ->
  exists b, evaluate_relative_strength (Some k) (Aware t) universe regimes pairs exchanges = Ok b /\
            sound_batch k t universe regimes pairs b.
Proof. intros Hk Hu. by apply evaluation_sound. Qed.
