(* ===== verification/StrategySample.v ===== *)
(** * Regimes and strategies at work

    Concrete features, regimes and universes on which the theorems of StrategySafety.v,
    RegimeSafety.v and RelativeSafety.v apply, and the inputs on which the code departs from
    its own intent. *)

From Stdlib Require Import ZArith QArith Qabs Lia Lqa.
From stdpp Require Import base tactics list strings.
From S2P Require Import Prelude Decimals Binary64 RiskModels Venues Evidence Json PyText FundingCarry Certification Sources.
From S2P Require Import Strategies Regimes RelativeStrength StrategySafety RegimeSafety RelativeSafety.

Local Open Scope string_scope.
Local Open Scope list_scope.
Local Open Scope Q_scope.

Module StrategySample.

(** A digest of 64 characters: the text, cut or padded *)
Fixpoint fit (n : nat) (s : string) : string :=
  match n with
  | O => EmptyString
  | S n => match s with
           | EmptyString => String (Ascii.ascii_of_nat 48) (fit n EmptyString)
           | String c s => String c (fit n s)
           end
  end.
Lemma fit_length n : forall s, String.length (fit n s) = n.
Proof. induction n as [|n IH]; intros s; [done|]. destruct s; simpl; by rewrite IH. Qed.
#[export] Instance sample_digest : Digest := {|
  sha256_hex := fit 64; hmac_hex := fun _ => fit 64; json_signal := fun _ => EmptyString;
  json_leg := fun _ _ _ => EmptyString; json_cross := fun _ _ _ => EmptyString |}.
#[export] Instance sample_digest_laws : DigestLaws sample_digest.
Proof. intros s. apply fit_length. Qed.

Definition num (q : Q) : option pyfloat := Some (FFinite (dltb q 0) (Qabs (lit q))).
Definition noon : Z := 1700000000000000.

(** A market that breaks out upwards *)
Definition breakout : features :=
  [("ma_slope_z", num 2); ("breakout_distance", num (1 # 100)); ("adx", num 30); ("volume_zscore", num (1 # 2));
   ("oi_zscore", None); ("realized_volatility", Some FNaN)].
Definition observe (fs : features) (minutes : Z) (quality : Q) : Observation := {|
  ob_features := fs; ob_timestamp := noon + minutes * 60000000; ob_quality := quality; ob_statistical := None |}.
Definition engine0 : Ensemble := EnsembleRegimeEngine_new default_regime_settings.

Definition context_of (fs : features) (r : RegimeResult) : StrategyContext := {|
  cx_timestamp := Aware noon; cx_symbol := "BTC"; cx_features := fs; cx_regime := r; cx_exchange := Some "binance" |}.
Definition regime (primary : Regime) (secondary : list Regime) : RegimeResult := {|
  rr_primary_regime := primary; rr_secondary_regimes := secondary; rr_confidence := 1; rr_evidence := ["sample"];
  rr_feature_snapshot := []; rr_regime_started_at := noon; rr_regime_duration_seconds := 0;
  rr_model_version := "sample"; rr_data_quality_score := 1; rr_statistical_state := None |}.
Definition outcome (r : result (list StrategyEvaluation)) : option (list (bool * option (SignalSide * Q * Q))) :=
  match r with
  | Ok es => Some (map (fun e => (se_gate_passed e, option_map (fun s => (sn_side s, sn_strength s, sn_confidence s))
                                                        (se_signal e))) es)
  | Err _ => None
  end.

Lemma sample_context_sound fs r :
  rr_confidence r = 1 -> rr_data_quality_score r = 1 -> sound_context (context_of fs r).
Proof. intros Hc Hq. unfold sound_context, score_ok. simpl. rewrite Hc, Hq. split_and!; try done; apply fl_one. Qed.
Lemma sample_expires m fs r : (0 <= md_minutes m <= 1000)%Z -> expires m (context_of fs r).
Proof. intros H. unfold expires, expiry, datetime_range, noon. simpl. unfold noon. lia. Qed.

Example breakout_is_bought :
  outcome (engine_evaluate default_engine (context_of breakout (regime TREND_UP []))) =
  Some [(true, Some (S_BUY, fadd (fadd (fmul (lit (45 # 100)) (fl (2 / lit (2326 # 1000)))) (lit (35 # 100)))
                               (fmul (lit (20 # 100)) (fl (2 / 3))),
                     fadd (fadd (fmul (lit (45 # 100)) (fl (2 / lit (2326 # 1000)))) (lit (35 # 100)))
                               (fmul (lit (20 # 100)) (fl (2 / 3)))));
        (false, None); (false, None); (false, None)].
Proof. by vm_compute. Qed.

Lemma strategies_keep_their_mandates_witness :
  exists evaluations,
    engine_evaluate default_engine (context_of breakout (regime TREND_UP [])) = Ok evaluations /\
    Forall2 (fun m e => Faithful m (context_of breakout (regime TREND_UP [])) e) default_mandates evaluations.
Proof.
  apply (strategies_keep_their_mandates default_trend default_reversion default_crash default_funding);
    [apply default_trend_accepted|apply default_reversion_accepted|apply default_crash_accepted|
     apply default_funding_accepted|by vm_compute|by apply sample_context_sound|].
  repeat apply Forall_cons_2; [apply sample_expires; simpl; lia..|constructor].
Defined.

(** ** A history: an uptrend, its second minute, a loss of data, and the trend again *)

Definition history : list Observation :=
  [observe breakout 0 1; observe breakout 1 1; observe breakout 2 (1 # 2); observe breakout 3 1].
Lemma default_settings_ok : settings_ok default_regime_settings.
Proof. split; [by vm_compute|by vm_compute]. Qed.
Lemma breakout_observed minutes quality : score_ok quality -> observation_ok (observe breakout minutes quality).
Proof. intros Hq. split; [|done]. unfold observe, floats. simpl. repeat constructor; by vm_compute. Qed.
Lemma history_ok : Forall observation_ok history.
Proof. repeat apply Forall_cons_2; [apply breakout_observed; by vm_compute..|constructor]. Qed.

Example history_verdicts :
  map (fun r => match r with Ok r => Some (rr_primary_regime r, (rr_regime_started_at r - noon) / 60000000)%Z
                           | Err _ => None end) (watch history engine0).2 =
  [Some (TREND_UP, 0); Some (TREND_UP, 0); Some (UNKNOWN, 2); Some (TREND_UP, 3)]%Z.
Proof. by vm_compute. Qed.

Lemma regimes_are_judged_and_dated_witness :
  exists rs, (watch history engine0).2 = map Ok rs /\
    Forall2 (fun o r => exists evidence, rules_evaluate default_regime_settings (ob_features o) = Ok evidence /\
                        Judged default_regime_settings (ob_quality o) evidence r) history rs /\
    map rr_regime_started_at rs = run_starts [] (zip (map rr_primary_regime rs) (map ob_timestamp history)).
Proof. exact (regimes_are_judged_and_dated default_regime_settings history default_settings_ok history_ok). Defined.

Definition poor : Observation := observe breakout 0 (1 # 2).
Lemma poor_data_never_trades_witness :
  ob_quality poor < rg_minimum_quality (en_settings engine0) /\
  exists evidence r, rules_evaluate default_regime_settings breakout = Ok evidence /\ (detect_observation poor engine0).2 = Ok r /\
    let c := {| cx_timestamp := Aware (ob_timestamp poor); cx_symbol := "BTC"; cx_features := breakout; cx_regime := r;
                cx_exchange := None |} in
    (Forall (fun m => expires m c) default_mandates ->
     exists evaluations, engine_evaluate default_engine c = Ok evaluations /\
       Forall2 (fun m e => Faithful m c e) default_mandates evaluations /\
       (ob_quality poor < rg_minimum_quality (en_settings engine0) \/ evidence = [] -> Forall silent evaluations)).
Proof.
  split; [by vm_compute|].
  apply (poor_data_never_trades engine0 poor default_engine default_mandates "BTC" None);
    [exact default_settings_ok|apply breakout_observed; by vm_compute|exact default_engine_honours|discriminate].
Defined.

(** ** A universe of three symbols *)

Definition strength (v : Q) : features :=
  [("vol_adjusted_return", num v); ("momentum", num v); ("drawdown", num 0); ("liquidity_score", num 1); ("funding_cost", num 0)].
Definition three : list (string * features) := [("BTC", strength 2); ("ETH", strength 0); ("SOL", strength (-1))].
Definition trending : list (string * RegimeResult) := map (fun s => (s, regime TREND_UP [])) ["BTC"; "ETH"; "SOL"].
Definition statistics : PairStatistics := {|
  ps_symbol_a := "BTC"; ps_symbol_b := "SOL"; ps_estimated_at := noon - 60000000; ps_beta := 1;
  ps_correlation := lit (8 # 10); ps_cointegration_pvalue := lit (1 # 100); ps_spread_zscore := 2; ps_observations := 100 |}.
Definition pair_table : list ((string * string) * PairStatistics) := [(("BTC", "SOL"), statistics)].

Lemma default_relative_ok : config_ok default_relative.
Proof. split; by vm_compute. Qed.
Lemma three_ok : universe_ok default_relative noon three trending pair_table.
Proof.
  constructor.
  - apply (bool_decide_unpack _). by vm_compute.
  - repeat constructor; discriminate.
  - repeat constructor; by vm_compute.
  - repeat constructor; by vm_compute.
  - unfold datetime_range, noon. simpl. lia.
Qed.
Example the_pair :
  match evaluate_relative_strength (Some default_relative) (Aware noon) three trending pair_table None with
  | Ok b => map (fun s => (sn_symbol s, sn_side s)) (sb_signals b)
  | Err _ => []
  end = [("BTC", S_BUY); ("SOL", S_SELL)].
Proof. by vm_compute. Qed.
Lemma relative_strength_trades_pairs_witness :
  exists b, evaluate_relative_strength (Some default_relative) (Aware noon) three trending pair_table None = Ok b /\
            sound_batch default_relative noon three trending pair_table b.
Proof.
  exact (relative_strength_trades_pairs default_relative noon three trending pair_table None default_relative_ok three_ok).
Defined.

(** ** Where the code departs from its intent *)

(** A mean-reversion configuration whose two thresholds are equal is accepted, and every setup
    it finds raises [ZeroDivisionError]. *)
Definition equal_thresholds : MeanReversionConfig := {|
  mv_minimum_regime_confidence := lit (60 # 100); mv_minimum_data_quality := lit (80 # 100); mv_entry_return_z := 2;
  mv_full_strength_z := 2; mv_minimum_price_deviation := lit (5 # 1000); mv_maximum_spread_z := 2;
  mv_maximum_abs_slope_z := lit (50 # 100); mv_signal_valid_minutes := 3;
  mv_suggested_risk_fraction := lit (15 # 10000) |}.
Definition oversold : features := [("return_zscore", num (-3)); ("ema_distance", num (- 1 # 100)); ("spread_zscore", num 0)].
Theorem equal_thresholds_divide_by_zero :
  MeanReversionConfig_validate equal_thresholds = Ok equal_thresholds /\
  reversion_evaluate equal_thresholds (context_of oversold (regime RANGE [])) = Err (OtherError "ZeroDivisionError").
Proof. by vm_compute. Qed.

(** When funding is negative one observation, a contraction of open interest, confirms both the
    crowding and the timing. *)
Example one_observation_confirms_twice :
  let fs := [("oi_zscore", - (3 # 2))] in
  size (crowding_confirmations fs false (-1)) = 1%Z /\ size (timing_confirmations fs (-1)) = 1%Z /\
  size (crowding_confirmations fs true 1) = 0%Z.
Proof. by vm_compute. Qed.

(** The spread threshold of a pair is not validated: a negative one lets a pair through whose
    strength is negative, and the signal is refused with an exception. *)
Definition negative_spread : RelativeStrengthConfig := {|
  rk_minimum_regime_confidence := lit (60 # 100); rk_minimum_data_quality := lit (85 # 100); rk_minimum_symbols := 3;
  rk_minimum_score_gap := lit (50 # 100); rk_minimum_correlation := lit (50 # 100);
  rk_maximum_cointegration_pvalue := lit (10 # 100); rk_minimum_spread_zscore := -10;
  rk_maximum_pair_age_minutes := 1440; rk_minimum_beta := lit (25 # 100); rk_maximum_beta := 4;
  rk_vol_adjusted_return_weight := lit (45 # 100); rk_momentum_weight := lit (25 # 100);
  rk_drawdown_weight := lit (10 # 100); rk_liquidity_weight := lit (10 # 100); rk_funding_cost_weight := lit (10 # 100);
  rk_funding_cost_scale := 10000; rk_signal_valid_minutes := 15; rk_suggested_pair_risk_fraction := lit (25 # 10000) |}.
Definition inverted : PairStatistics := {|
  ps_symbol_a := "BTC"; ps_symbol_b := "SOL"; ps_estimated_at := noon; ps_beta := 1; ps_correlation := lit (8 # 10);
  ps_cointegration_pvalue := lit (1 # 100); ps_spread_zscore := -9; ps_observations := 100 |}.
Theorem negative_spread_threshold_raises :
  RelativeStrengthConfig_validate negative_spread = Ok negative_spread /\
  evaluate_relative_strength (Some negative_spread) (Aware noon) three trending [(("BTC", "SOL"), inverted)] None =
    Err (ValueError "strength").
Proof. by vm_compute. Qed.

End StrategySample.
