(* ===== verification/Acceptance.v ===== *)
(** * Acceptance of a research run (services/research/pipeline.py, services/research/models.py)

    The artifacts of a run, the capital it needs, the nine checks of [evaluate_acceptance]
    and the thresholds a frozen hypothesis adds.  The texts that a check records of what it
    observed, the reasons of a capital scenario and the content hashes of the artifacts are
    printed decimals and are left out. *)

From Stdlib Require Import ZArith QArith Qabs Lia Lqa.
From stdpp Require Import base tactics list strings.
From S2P Require Import Prelude Decimals ExecutionModels Json Certification ResearchStore Dataset.

Local Open Scope string_scope.
Local Open Scope list_scope.
Local Open Scope Q_scope.
Local Open Scope dec_scope.

(** ** Artifacts *)

Record PerformanceSummary := {
  pf_net_pnl : Decimal;
  pf_sharpe : Decimal;
  pf_sortino : Decimal;
  pf_maximum_drawdown : Decimal;
  pf_turnover : Decimal;
  pf_win_rate : Decimal;
  pf_profit_factor : Decimal;
  pf_tail_loss : Decimal;
  pf_ruin_probability : Decimal;
  pf_capital_efficiency : Decimal;
}.

(** The parameters of one trial: a value for each name of the grid *)
Definition Parameters : Type := list (string * json).

Record WalkForwardWindowResult := {
  ww_number : Z;
  ww_train_indices : list Z;
  ww_validation_indices : list Z;
  ww_oos_indices : list Z;
  ww_selected_parameters : Parameters;
  ww_oos_returns : list Decimal;
  ww_oos : PerformanceSummary;
}.
Record WalkForwardResult := {
  wr_run_id : string;
  wr_data_snapshot_id : string;
  wr_mode : string;
  wr_purge_size : Z;
  wr_embargo_size : Z;
  wr_windows : list WalkForwardWindowResult;
  wr_combined_oos_returns : list Decimal;
  wr_leave_one_period_out : list Decimal;
  wr_leave_one_asset_out : list (string * Decimal);
  wr_leave_one_venue_out : list (string * Decimal);
  wr_parameter_plateau : bool;
}.

Record CostStressScenarioResult := {
  cs_scenario : string;
  cs_metrics : PerformanceSummary;
  cs_fee : Decimal;
  cs_rebate : Decimal;
  cs_funding : Decimal;
  cs_slippage : Decimal;
  cs_impact : Decimal;
  cs_failed_leg_cost : Decimal;
  cs_naked_exposure_duration_ms : Z;
  cs_hedge_slippage : Decimal;
  cs_unwind_cost : Decimal;
  cs_venue_outage_loss : Decimal;
}.
Record CostStressResult := {
  st_run_id : string;
  st_data_snapshot_id : string;
  st_scenarios : list CostStressScenarioResult;
  st_evidence_complete : bool;
}.
Definition scenario (s : CostStressResult) (name : string) : option CostStressScenarioResult :=
  List.find (fun item => bool_decide (cs_scenario item = name)) (st_scenarios s).

Record OverfittingResult := {
  ov_run_id : string;
  ov_data_snapshot_id : string;
  ov_pbo : option Decimal;
  ov_deflated_sharpe : option Decimal;
  ov_cscv_combinations : Z;
  ov_reality_check_p_value : option Decimal;
  ov_parameter_plateau : option bool;
  ov_monte_carlo_ruin_probability : option Decimal;
  ov_evidence_complete : bool;
}.

Record CapitalScenarioFeasibility := {
  cf_capital : Decimal;
  cf_feasible : bool;
  cf_required_collateral_by_venue : list (string * Decimal);
  cf_minimum_order_size : Decimal;
  cf_minimum_notional : Decimal;
  cf_fee_buffer : Decimal;
  cf_funding_buffer : Decimal;
  cf_liquidation_buffer : Decimal;
  cf_transfer_lock_buffer : Decimal;
}.
Record CapitalFeasibilityResult := {
  cp_run_id : string;
  cp_data_snapshot_id : string;
  cp_scenarios : list CapitalScenarioFeasibility;
  cp_evidence_complete : bool;
}.
Definition feasible_at (r : CapitalFeasibilityResult) (capital : Decimal) : bool :=
  match List.find (fun item => deqb (cf_capital item) capital) (cp_scenarios r) with
  | Some item => cf_feasible item
  | None => false
  end.

Inductive AcceptanceVerdict := PASS | FAIL | INSUFFICIENT_EVIDENCE.
#[export] Instance acceptance_verdict_eq_dec : EqDecision AcceptanceVerdict.
Proof. solve_decision. Defined.
Definition acceptance_value (v : AcceptanceVerdict) : string :=
  match v with PASS => "PASS" | FAIL => "FAIL" | INSUFFICIENT_EVIDENCE => "INSUFFICIENT_EVIDENCE" end.

Record AcceptanceCheckResult := {
  ac_name : string;
  ac_passed : option bool;
  ac_criterion : string;
}.
Record AcceptanceResult := {
  ar_run_id : string;
  ar_data_snapshot_id : string;
  ar_verdict : AcceptanceVerdict;
  ar_checks : list AcceptanceCheckResult;
  ar_capital_feasibility : CapitalFeasibilityResult;
}.

Section Acceptance.
Context {C : DecimalContext}.

(** ** The checks *)

(** [min(xs)] of values that are there *)
Definition least (xs : list Decimal) : Decimal := match xs with [] => 0 | x :: xs => fold_left dmin xs x end.

(** None: a scenario without evidence; otherwise whether every scenario keeps the capital *)
Definition MAJOR_SCENARIOS : list string := ["fees_x1.5"; "slippage_x2.0"; "one_leg_failure"; "venue_outage"].
Definition all_present {A} (xs : list (option A)) : bool := forallb (fun x => match x with Some _ => true | None => false end) xs.
Definition survives (s : option CostStressScenarioResult) : bool :=
  match s with Some s => dltb (- 1000) (pf_net_pnl (cs_metrics s)) | None => false end.

Definition dependency_complete (w : WalkForwardResult) : bool :=
  (2 <=? length (wr_leave_one_period_out w))%nat && (2 <=? length (wr_leave_one_asset_out w))%nat &&
  (3 <=? length (wr_leave_one_venue_out w))%nat.
Definition dependency_passed (w : WalkForwardResult) : bool :=
  let floor := dmin (dsum (wr_combined_oos_returns w) ⊗ (20 # 100)) 0 in
  dleb floor (least (wr_leave_one_period_out w)) && dleb floor (least (dict_values (wr_leave_one_asset_out w))) &&
  dleb floor (least (dict_values (wr_leave_one_venue_out w))).

Definition acceptance_checks (data_quality : DataQualityResult) (walk_forward : WalkForwardResult)
    (cost_stress : CostStressResult) (overfitting : OverfittingResult) (capital : CapitalFeasibilityResult)
  : list AcceptanceCheckResult :=
  let base := scenario cost_stress "base" in
  let oos_total := dsum (wr_combined_oos_returns walk_forward) in
  let major := map (scenario cost_stress) MAJOR_SCENARIOS in
  let check name passed criterion := {| ac_name := name; ac_passed := passed; ac_criterion := criterion |} in
  [check "data_quality" (Some (dq_passed data_quality)) "PASS";
   check "oos_net_pnl" (Some (negb (bool_decide (length (wr_combined_oos_returns walk_forward) = 0%nat)) && dltb 0 oos_total)) "> 0";
   check "deflated_sharpe" (option_map (dltb 0) (ov_deflated_sharpe overfitting)) "> 0";
   check "pbo" (option_map (fun p => dltb p (5 # 10)) (ov_pbo overfitting)) "< 0.5";
   check "cost_stress_survival"
     (if negb (st_evidence_complete cost_stress) || negb (all_present [base]) || negb (all_present major) then None
      else Some (forallb survives major))
     "base and major stress scenarios do not ruin capital";
   check "maximum_drawdown" (option_map (fun b => dleb (pf_maximum_drawdown (cs_metrics b)) (20 # 100)) base) "<= 0.20";
   check "ruin_probability" (option_map (fun p => dleb p (5 # 100)) (ov_monte_carlo_ruin_probability overfitting)) "<= 0.05";
   check "capital_100_300_1000"
     (if negb (cp_evidence_complete capital) then None else Some (forallb (feasible_at capital) [100; 300; 1000]))
     "all configured capital levels are feasible";
   check "dependency_robustness"
     (if dependency_complete walk_forward then Some (dependency_passed walk_forward) else None)
     "leave-one-period/asset/venue retains the configured robustness floor"].

Definition verdict_of (quality_passed evidence_complete : bool) (checks : list AcceptanceCheckResult) : AcceptanceVerdict :=
  if negb quality_passed then FAIL
  else if existsb (fun c => bool_decide (ac_passed c = None)) checks || negb evidence_complete then INSUFFICIENT_EVIDENCE
  else if existsb (fun c => bool_decide (ac_passed c = Some false)) checks then FAIL
  else PASS.

Definition evaluate_acceptance (data_quality : DataQualityResult) (walk_forward : WalkForwardResult)
    (cost_stress : CostStressResult) (overfitting : OverfittingResult) (capital : CapitalFeasibilityResult)
  : result AcceptanceResult :=
  let identifier := (dq_run_id data_quality, dq_data_snapshot_id data_quality) in
  let identifiers := [(wr_run_id walk_forward, wr_data_snapshot_id walk_forward);
                      (st_run_id cost_stress, st_data_snapshot_id cost_stress);
                      (ov_run_id overfitting, ov_data_snapshot_id overfitting);
                      (cp_run_id capital, cp_data_snapshot_id capital)] in
  require! forallb (fun i => bool_decide (i = identifier)) identifiers
    else ValueError "acceptance artifacts must belong to one run and data snapshot";
  let checks := acceptance_checks data_quality walk_forward cost_stress overfitting capital in
  Ok {| ar_run_id := identifier.1; ar_data_snapshot_id := identifier.2;
        ar_verdict := verdict_of (dq_passed data_quality) (ov_evidence_complete overfitting) checks;
        ar_checks := checks; ar_capital_feasibility := capital |}.

(** ** The thresholds of the hypothesis *)

Definition observations (walk_forward : WalkForwardResult) (stress : CostStressResult) (overfitting : OverfittingResult)
  : list (string * option Decimal) :=
  [("minimum_oos_net_pnl", Some (dsum (wr_combined_oos_returns walk_forward)));
   ("minimum_deflated_sharpe", ov_deflated_sharpe overfitting);
   ("maximum_pbo", ov_pbo overfitting);
   ("maximum_drawdown", option_map (fun b => pf_maximum_drawdown (cs_metrics b)) (scenario stress "base"));
   ("maximum_ruin_probability", ov_monte_carlo_ruin_probability overfitting)].

Definition meets (name : string) (threshold observed : Decimal) : bool :=
  if startswith "minimum_" name then dleb threshold observed else dleb observed threshold.
Fixpoint frozen_checks (observed : list (string * option Decimal)) (thresholds : list (string * Decimal))
  : result (list AcceptanceCheckResult) :=
  match thresholds with
  | [] => Ok []
  | (name, threshold) :: thresholds =>
      match dict_get name observed with
      | None => Err (ValueError ("unsupported frozen acceptance threshold: " +:+ name))
      | Some value =>
          let! checks := frozen_checks observed thresholds in
          Ok ({| ac_name := "frozen_" +:+ name; ac_passed := option_map (meets name threshold) value;
                 ac_criterion := if startswith "minimum_" name then ">= " else "<= " |} :: checks)
      end
  end.

(** [_apply_frozen_thresholds]; the criterion of a check ends with the text of its threshold. *)
Definition apply_frozen_thresholds (acceptance : AcceptanceResult) (hypothesis : FrozenHypothesis)
    (walk_forward : WalkForwardResult) (stress : CostStressResult) (overfitting : OverfittingResult)
    (quality : DataQualityResult) : result AcceptanceResult :=
  let! frozen := frozen_checks (observations walk_forward stress overfitting)
                   (sorted_items (fh_acceptance_thresholds hypothesis)) in
  let checks := ar_checks acceptance ++ frozen in
  Ok {| ar_run_id := ar_run_id acceptance; ar_data_snapshot_id := ar_data_snapshot_id acceptance;
        ar_verdict := verdict_of (dq_passed quality) (ov_evidence_complete overfitting) checks;
        ar_checks := checks; ar_capital_feasibility := ar_capital_feasibility acceptance |}.

(** The two steps of [run] *)
Definition accept (hypothesis : FrozenHypothesis) (quality : DataQualityResult) (walk_forward : WalkForwardResult)
    (stress : CostStressResult) (overfitting : OverfittingResult) (capital : CapitalFeasibilityResult)
  : result AcceptanceResult :=
  let! acceptance := evaluate_acceptance quality walk_forward stress overfitting capital in
  apply_frozen_thresholds acceptance hypothesis walk_forward stress overfitting quality.

(** ** Capital *)

Definition greatest_of (f : InstrumentRules -> Decimal) (rules : list InstrumentRules) : Decimal :=
  match map f rules with [] => 0 | x :: xs => fold_left dmax xs x end.

(** [_capital] *)
Definition capital_feasibility (run_id snapshot_id : string) (venues : list string) (order_quantity transfer : Decimal)
    (rules : list InstrumentRules) : CapitalFeasibilityResult :=
  let largest_minimum := greatest_of minimum_notional rules in
  let largest_lot := greatest_of lot_size rules in
  let legs := inject_Z (Z.max 1 (size venues)) in
  let fee_buffer := largest_minimum ⊗ (2 # 1000) ⊗ legs in
  let funding_buffer := largest_minimum ⊗ (1 # 100) in
  let liquidation_buffer := largest_minimum ⊗ (25 # 100) ⊗ legs in
  let required := largest_minimum ⊗ legs ⊕ fee_buffer ⊕ funding_buffer ⊕ liquidation_buffer ⊕ transfer in
  {| cp_run_id := run_id; cp_data_snapshot_id := snapshot_id; cp_evidence_complete := true;
     cp_scenarios := map (fun capital => {|
       cf_capital := capital; cf_feasible := dleb required capital && dleb largest_lot order_quantity;
       cf_required_collateral_by_venue :=
         map (fun venue => (venue, largest_minimum ⊕ (liquidation_buffer ⊘ legs))) (dict_fromkeys venues);
       cf_minimum_order_size := largest_lot; cf_minimum_notional := largest_minimum; cf_fee_buffer := fee_buffer;
       cf_funding_buffer := funding_buffer; cf_liquidation_buffer := liquidation_buffer;
       cf_transfer_lock_buffer := transfer |}) [100; 300; 1000] |}.

End Acceptance.
