(* ===== verification/Pipeline.v ===== *)
(** * The research pipeline (services/research/pipeline.py)

    From a dataset to a verdict: feature rows, walk-forward selection of parameters, the
    backtests under each stress scenario, and the run that joins them.  A configuration is the
    record of the values its mapping holds, with the defaults of [config.get] filled in.
    Numbers of payloads are finite decimals.  Routines of numpy, and the statistics of
    [_summary] and [_overfitting] that are made of them, are the functions of [Statistics].
    Artifact files and content hashes are left out. *)

From Stdlib Require Import ZArith QArith Qabs NArith Lia Lqa.
From stdpp Require Import base tactics list strings.
From S2P Require Import Prelude Decimals Binary64 ExecutionModels Simulator Portfolio Ledger Events Engine Splits.
From S2P Require Import Evidence Json PyText FundingCarry ShadowBook ShadowStore Certification ResearchStore Snapshots Dataset Acceptance.

Local Open Scope string_scope.
Local Open Scope list_scope.
Local Open Scope Q_scope.
Local Open Scope dec_scope.

Definition R1_PRIMARY_VENUES : list string := ["hyperliquid"; "bitget"; "aster"; "mexc"].
Definition R1_CHALLENGER_VENUES : list string := ["dydx"; "paradex"; "lighter"].
Definition R1_VENUES : list string := R1_PRIMARY_VENUES ++ R1_CHALLENGER_VENUES.
Definition R1_STRATEGIES : list string := ["funding_carry"; "cross_venue_basis"; "btc_sol_relative_strength"].
Definition DEFERRED_STRATEGIES : list string :=
  ["liquidation"; "liquidation_exhaustion"; "whale"; "whale_following"; "funding_extreme"; "trend_following";
   "mean_reversion"; "flash_crash_reversal"; "relative_strength"].
Definition STRESS_SCENARIOS : list string :=
  ["base"; "fees_x1.5"; "fees_x2.0"; "slippage_x1.5"; "slippage_x2.0"; "latency_x2"; "depth_minus_50pct";
   "funding_edge_minus_25pct"; "funding_edge_minus_50pct"; "one_leg_failure"; "venue_outage"; "maker_rebate_removal"].
#[export] Instance raw_market_event_eq_dec : EqDecision RawMarketEvent.
Proof. solve_decision. Defined.

Definition FUNDING_TYPES : list string := ["funding_rate"; "funding_current"; "funding_history"].

(** ** The configuration *)

Record HypothesisConfig := {
  hc_parameter_grid : list (string * list json);
  hc_primary_metric : string;
  hc_secondary_metrics : list string;
  hc_acceptance_thresholds : list (string * Decimal);
  hc_frozen_at : datetime;
}.
Record WalkForwardConfig := {
  wc_train_size : option Z;
  wc_validation_size : option Z;
  wc_oos_size : option Z;
  wc_purge : Z;
  wc_embargo : Z;
  wc_mode : string;
}.
Record ResearchConfig := {
  rc_strategy_id : string;
  rc_venues : list string;
  rc_live_execution : bool;
  rc_sha256 : string;
  rc_cutoff_at : datetime;
  rc_data_snapshot_id : string;
  rc_commit_sha : string;
  rc_hypothesis_version : string;
  rc_strategy_version : string;
  rc_created_at : datetime;
  rc_raw_events : list (result RawMarketEvent);
  rc_hypothesis : HypothesisConfig;
  rc_instruments : list string;
  rc_event_types : list string;
  rc_quality : QualityPolicy;
  rc_train_fraction : Q;
  rc_rule_snapshot_ids : list string;
  rc_instrument_rules : list (string * list (chars * json));
  rc_initial_cash : Decimal;
  rc_slippage_bps : Decimal;
  rc_impact_bps : Decimal;
  rc_order_quantity : Decimal;
  rc_latency_ms : Z;
  rc_use_maker_orders : bool;
  rc_minimum_strategy_edge : Decimal;
  rc_walk_forward : WalkForwardConfig;
  rc_maximum_naked_exposure_duration_ms : Z;
  rc_transfer_lock_buffer : Decimal;
}.

(** The defaults of [run] for the data quality and of [_walk_forward] *)
Definition pipeline_quality : QualityPolicy := {|
  qp_minimum_coverage := 50 # 100; qp_maximum_stale_ratio := 1; qp_maximum_quarantine_ratio := 5 # 100;
  qp_maximum_duplicate_ratio := 0; qp_maximum_clock_skew_seconds := 300; qp_maximum_cross_venue_divergence := 20 # 100;
  qp_minimum_book_depth_availability := 80 # 100; qp_maximum_outage_duration_seconds := 0 |}.
Definition default_walk_forward : WalkForwardConfig := {|
  wc_train_size := None; wc_validation_size := None; wc_oos_size := None; wc_purge := 1; wc_embargo := 1; wc_mode := "rolling" |}.

(** ** Features *)

Record FeatureRow := {
  row_event_id : string;
  row_decision_time : Z;
  row_exchange_timestamp : option Z;
  row_received_at : Z;
  row_available_at : Z;
  row_venue : string;
  row_instrument : string;
  row_symbol : string;
  row_bid : Decimal;
  row_ask : Decimal;
  row_bid_depth : Decimal;
  row_ask_depth : Decimal;
  row_mid : Decimal;
  row_return : Decimal;
  row_funding_rate : Decimal;
  row_open_interest : Decimal;
  row_return_z : Decimal;
  row_funding_rate_z : Decimal;
  row_open_interest_z : Decimal;
}.
Record FeatureArtifact := {
  fa_run_id : string;
  fa_data_snapshot_id : string;
  fa_rows : list FeatureRow;
  fa_train_normalization : list (string * (Decimal * Decimal));
}.
Record RegimeArtifact := {
  ra_run_id : string;
  ra_data_snapshot_id : string;
  ra_regimes : list (string * string * string);
}.

(** [_decimal(value)] of a value of a payload, a grid or a mapping of rules *)
Definition _decimal (v : json) : result Decimal :=
  match v with
  | JNull => Ok 0
  | v => match read_decimal v with Some (Finite d) => Ok d | _ => Err invalid_operation end
  end.
Definition field (p : list (chars * json)) (key : string) : result Decimal := _decimal (get_field p key).

(** [a / b] of decimals *)
Definition divide {C : DecimalContext} (a b : Decimal) : result Decimal :=
  if deqb b 0 then Err (OtherError (if deqb a 0 then "InvalidOperation" else "DivisionByZero")) else Ok (a ⊘ b).

Record FeatureState := {
  fs_latest_funding : list ((string * string) * Decimal);
  fs_latest_oi : list ((string * string) * Decimal);
  fs_rows : list FeatureRow;
  fs_previous_mid : list ((string * string) * Decimal);
}.
Definition no_features : FeatureState := {| fs_latest_funding := []; fs_latest_oi := []; fs_rows := []; fs_previous_mid := [] |}.

Definition feature_priority (event_type : string) : Z :=
  if bool_decide (event_type ∈ FUNDING_TYPES) then 0
  else if bool_decide (event_type = "open_interest") then 1
  else if bool_decide (event_type = "orderbook_snapshot") then 2 else 3.
Definition feature_leb (a b : PointInTimeValue) : bool :=
  (pv_available_at a <? pv_available_at b)%Z || (pv_available_at a =? pv_available_at b)%Z &&
  ((feature_priority (pv_event_type a) <? feature_priority (pv_event_type b))%Z ||
   (feature_priority (pv_event_type a) =? feature_priority (pv_event_type b))%Z && string_leb (pv_event_id a) (pv_event_id b)).
Definition is_book (v : PointInTimeValue) : bool := bool_decide (pv_event_type v = "orderbook_snapshot").
Definition is_funding (v : PointInTimeValue) : bool := bool_decide (pv_event_type v ∈ FUNDING_TYPES).
Definition pair_key (v : PointInTimeValue) : string * string := (pv_venue v, pv_canonical_instrument_id v).

Section Features.
Context {C : DecimalContext}.

Definition book_row (v : PointInTimeValue) (s : FeatureState) (bid ask : Decimal) : result (FeatureRow * Decimal) :=
  let p := pv_payload v in
  let mid := (bid ⊕ ask) ⊘ 2 in
  let! bid_depth := field p "bid_depth" in
  let! ask_depth := field p "ask_depth" in
  let! return_ := match dict_get (pair_key v) (fs_previous_mid s) with
                  | None => Ok 0
                  | Some prior => let! r := divide mid prior in Ok (r ⊖ 1)
                  end in
  Ok ({| row_event_id := pv_event_id v; row_decision_time := pv_available_at v;
         row_exchange_timestamp := pv_exchange_timestamp v; row_received_at := pv_received_at v;
         row_available_at := pv_available_at v; row_venue := pv_venue v; row_instrument := pv_canonical_instrument_id v;
         row_symbol := pv_venue_symbol v; row_bid := bid; row_ask := ask; row_bid_depth := bid_depth;
         row_ask_depth := ask_depth; row_mid := mid; row_return := return_;
         row_funding_rate := default 0 (dict_get (pair_key v) (fs_latest_funding s));
         row_open_interest := default 0 (dict_get (pair_key v) (fs_latest_oi s));
         row_return_z := 0; row_funding_rate_z := 0; row_open_interest_z := 0 |}, mid).

(** What one value adds; [None]: a broken book, which is quarantined. *)
Definition feature_of (v : PointInTimeValue) (s : FeatureState) : result (option FeatureState) :=
  let p := pv_payload v in
  if is_funding v
  then let! rate := field p "rate" in
       Ok (Some {| fs_latest_funding := dict_set (pair_key v) rate (fs_latest_funding s); fs_latest_oi := fs_latest_oi s;
                   fs_rows := fs_rows s; fs_previous_mid := fs_previous_mid s |})
  else if bool_decide (pv_event_type v = "open_interest")
  then let! oi := _decimal (get_default p "open_interest" (get_field p "value")) in
       Ok (Some {| fs_latest_funding := fs_latest_funding s; fs_latest_oi := dict_set (pair_key v) oi (fs_latest_oi s);
                   fs_rows := fs_rows s; fs_previous_mid := fs_previous_mid s |})
  else if is_book v
  then let! bid := field p "bid" in
       let! ask := field p "ask" in
       if dleb bid 0 || dleb ask bid then Ok None
       else let! row := book_row v s bid ask in
            Ok (Some {| fs_latest_funding := fs_latest_funding s; fs_latest_oi := fs_latest_oi s;
                        fs_rows := fs_rows s ++ [row.1]; fs_previous_mid := dict_set (pair_key v) row.2 (fs_previous_mid s) |})
  else Ok (Some s).

Definition quarantine_book (cutoff : Z) (v : PointInTimeValue) : M ResearchStore unit :=
  do! store <- pget;
  match List.find (fun e => bool_decide (re_event_id e = pv_event_id v)) (raw_events store) with
  | None => plift (Err (OtherError "StopIteration"))
  | Some e => quarantine e "schema violation: invalid book" cutoff
  end.
Fixpoint feature_rows (cutoff : Z) (values : list PointInTimeValue) (s : FeatureState) : M ResearchStore FeatureState :=
  match values with
  | [] => pret s
  | v :: values =>
      run! plift (require_available v (pv_available_at v));
      do! next <- plift (feature_of v s);
      match next with
      | None => run! quarantine_book cutoff v; feature_rows cutoff values s
      | Some s => feature_rows cutoff values s
      end
  end.

End Features.

(** ** Numerical routines *)

(** [np_std]: [np.std] of floats; [summary_statistics]: [_summary] of returns that are there;
    [is_stable]: [analyze_parameter_stability(...).is_stable] on pairs of a parameter and a score;
    [diagnose]: [_overfitting] of the rows, the trials and the names of the grid. *)
Class Statistics := {
  np_std : list Q -> Q;
  summary_statistics : list Decimal -> Decimal -> PerformanceSummary;
  is_stable : list (Q * Q) -> bool;
  diagnose : string -> string -> string -> list FeatureRow -> list (string * list json) -> result OverfittingResult;
}.

(** [Decimal(str(x))] of a finite float *)
Definition float_decimal (x : Q) : Decimal :=
  match parse_decimal (repr_float (signed_float x)) with Some (DFinite d) => fd_value d | _ => 0 end.
Definition to_float (d : Decimal) : Q := double d.
(** [np.argmax]: the first of the greatest *)
Fixpoint argmax_from (best i : nat) (top : Q) (xs : list Q) : nat :=
  match xs with
  | [] => best
  | x :: xs => if dltb top x then argmax_from i (S i) x xs else argmax_from best (S i) top xs
  end.
Definition argmax (xs : list Q) : nat := match xs with [] => O | x :: xs => argmax_from 0 1 x xs end.

Definition set_z (rz fz oz : Decimal) (r : FeatureRow) : FeatureRow := {|
  row_event_id := row_event_id r; row_decision_time := row_decision_time r; row_exchange_timestamp := row_exchange_timestamp r;
  row_received_at := row_received_at r; row_available_at := row_available_at r; row_venue := row_venue r;
  row_instrument := row_instrument r; row_symbol := row_symbol r; row_bid := row_bid r; row_ask := row_ask r;
  row_bid_depth := row_bid_depth r; row_ask_depth := row_ask_depth r; row_mid := row_mid r; row_return := row_return r;
  row_funding_rate := row_funding_rate r; row_open_interest := row_open_interest r; row_return_z := rz;
  row_funding_rate_z := fz; row_open_interest_z := oz |}.

Section Normalization.
Context {C : DecimalContext} {T : Statistics}.

Definition mean_of (xs : list Decimal) : Decimal := dsum xs ⊘ inject_Z (size xs).
Definition std_of (xs : list Decimal) : Decimal := float_decimal (np_std (map to_float xs)).
Definition z_of (normalization : Decimal * Decimal) (x : Decimal) : Decimal :=
  if deqb normalization.2 0 then 0 else (x ⊖ normalization.1) ⊘ normalization.2.
Definition columns_normalized (returns funding interest : Decimal * Decimal) (r : FeatureRow) : FeatureRow :=
  set_z (z_of returns (row_return r)) (z_of funding (row_funding_rate r)) (z_of interest (row_open_interest r)) r.

(** The columns of [_features]: zero of no rows *)
Definition train_statistics (xs : list Decimal) : Decimal * Decimal :=
  match xs with [] => (0, 0) | xs => (mean_of xs, std_of xs) end.
Definition features_of (run_id snapshot_id : string) (train_fraction : Q) (rows : list FeatureRow) : FeatureArtifact :=
  let train_end := Z.to_nat (Z.max 1 (float_to_int (fl (inject_Z (size rows) * train_fraction)))) in
  let column f := train_statistics (map f (take train_end rows)) in
  let '(returns, funding, interest) := (column row_return, column row_funding_rate, column row_open_interest) in
  {| fa_run_id := run_id; fa_data_snapshot_id := snapshot_id; fa_rows := map (columns_normalized returns funding interest) rows;
     fa_train_normalization := [("return", returns); ("funding_rate", funding); ("open_interest", interest)] |}.

(** [_features] *)
Definition features (run_id : string) (dataset : PointInTimeDataset) (train_fraction : Q) : M ResearchStore FeatureArtifact :=
  do! s <- feature_rows (pd_cutoff_at dataset) (sorted_by feature_leb (pd_values dataset)) no_features;
  pret (features_of run_id (pd_snapshot_id dataset) train_fraction (fs_rows s)).

(** [_regimes] *)
Definition regime_of (r : FeatureRow) : string :=
  if dltb 1 (row_return_z r) then "TREND_UP" else if dltb (row_return_z r) (- 1) then "TREND_DOWN" else "RANGE".
Definition regimes (run_id snapshot_id : string) (f : FeatureArtifact) : RegimeArtifact := {|
  ra_run_id := run_id; ra_data_snapshot_id := snapshot_id;
  ra_regimes := map (fun r => (untext (str_datetime (Aware (row_available_at r))), row_instrument r, regime_of r)) (fa_rows f) |}.

(** [rows[index]] for indices that are there *)
Definition pick {A} (rows : list A) (indices : list Z) : list A := omap (fun i => rows !! Z.to_nat i) indices.

(** [_normalize_for_train] *)
Definition normalize_for_train (rows : list FeatureRow) (train : list Z) : list FeatureRow :=
  let column f := let xs := map f (pick rows train) in (mean_of xs, std_of xs) in
  map (columns_normalized (column row_return) (column row_funding_rate) (column row_open_interest)) rows.

End Normalization.

(** ** Returns of a strategy *)

Definition grouped {A} (key : A -> Z) (xs : list A) : list (Z * list A) :=
  fold_left (fun groups x => dict_set (key x) (default [] (dict_get (key x) groups) ++ [x]) groups) xs [].
Definition first_where {A} (p : A -> bool) (xs : list A) : option A := List.find p xs.
(** [min(xs, key=...)] and [max(xs, key=...)]: the first of the extremes *)
Definition first_least {A} (key : A -> Q) (x : A) (xs : list A) : A :=
  fold_left (fun best y => if dltb (key y) (key best) then y else best) xs x.
Definition first_greatest {A} (key : A -> Q) (x : A) (xs : list A) : A :=
  fold_left (fun best y => if dltb (key best) (key y) then y else best) xs x.

Section Returns.
Context {C : DecimalContext}.

Definition same_leg (a b : FeatureRow) : bool :=
  bool_decide (row_venue a = row_venue b) && bool_decide (row_instrument a = row_instrument b).

(** One step of the carry and basis strategies; [None]: no return *)
Definition pair_return (funding_carry : bool) (threshold scale : Decimal) (current following : list FeatureRow)
  : result (option Decimal) :=
  let instrument := match current with r :: _ => row_instrument r | [] => "" end in
  match List.filter (fun r => bool_decide (row_instrument r = instrument)) current with
  | [] => Ok None
  | first :: rest =>
      if (distinct (map row_venue (first :: rest)) <? 2)%Z then Ok None
      else
        let buy := first_least row_ask first rest in
        let sell := first_greatest row_bid first rest in
        let! entry_edge := divide (row_bid sell ⊖ row_ask buy) (row_ask buy) in
        let funding_edge := row_funding_rate sell ⊖ row_funding_rate buy in
        let decision_edge := if funding_carry then funding_edge else entry_edge in
        match first_where (fun r => same_leg r buy) following, first_where (fun r => same_leg r sell) following with
        | Some next_buy, Some next_sell =>
            let! long := divide (row_bid next_buy) (row_ask buy) in
            let! short := divide (row_bid sell) (row_ask next_sell) in
            let outcome := ((long ⊖ 1) ⊕ (short ⊖ 1) ⊕ funding_edge) ⊘ 2 in
            Ok (Some (if dleb threshold decision_edge then outcome ⊗ scale else 0))
        | _, _ => Ok None
        end
  end.

Definition of_asset (asset : string) (r : FeatureRow) : bool := startswith asset (row_instrument r).
(** One step of the BTC/SOL relative strength *)
Definition relative_return (threshold scale : Decimal) (current following : list FeatureRow) : result (option Decimal) :=
  match first_where (of_asset "BTC") current, first_where (of_asset "SOL") current,
        first_where (of_asset "BTC") following, first_where (of_asset "SOL") following with
  | Some btc, Some sol, Some next_btc, Some next_sol =>
      let strength := row_return_z btc ⊖ row_return_z sol in
      let '(long, short, next_long, next_short) :=
        if dleb 0 strength then (btc, sol, next_btc, next_sol) else (sol, btc, next_sol, next_btc) in
      let! up := divide (row_mid next_long) (row_mid long) in
      let! down := divide (row_mid short) (row_mid next_short) in
      let outcome := (up ⊕ down ⊖ 2) ⊘ 2 in
      Ok (Some (if dleb threshold (dabs strength) then outcome ⊗ scale else 0))
  | _, _, _, _ => Ok None
  end.

Definition step_return (strategy_id : string) (threshold scale : Decimal) (current following : list FeatureRow)
  : result (option Decimal) :=
  if bool_decide (strategy_id ∈ ["cross_venue_basis"; "funding_carry"])
  then pair_return (bool_decide (strategy_id = "funding_carry")) threshold scale current following
  else relative_return threshold scale current following.

Definition parameter (p : Parameters) (name : string) (missing : Decimal) : result Decimal :=
  match dict_get name p with None => Ok missing | Some v => _decimal v end.

Fixpoint steps (strategy_id : string) (threshold scale : Decimal) (groups : list (Z * list FeatureRow)) : result (list Decimal) :=
  match groups with
  | (_, current) :: (((_, following) :: _) as rest) =>
      let! r := step_return strategy_id threshold scale current following in
      let! rs := steps strategy_id threshold scale rest in
      Ok (match r with Some r => r :: rs | None => rs end)
  | _ => Ok []
  end.

(** [_strategy_returns] *)
Definition strategy_returns (rows : list FeatureRow) (p : Parameters) (indices : list Z) (strategy_id : string)
  : result (list Decimal) :=
  let! threshold := parameter p "threshold" 0 in
  let! scale := parameter p "scale" 1 in
  let groups := grouped row_decision_time (pick rows indices) in
  steps strategy_id threshold scale (sorted_by (fun a b => (a.1 <=? b.1)%Z) groups).

End Returns.

(** ** Walk forward *)

(** [itertools.product] over the sorted names *)
Fixpoint product (grid : list (string * list json)) : list Parameters :=
  match grid with
  | [] => [[]]
  | (name, values) :: grid => flat_map (fun v => map (cons (name, v)) (product grid)) values
  end.
Definition parameter_combinations (grid : list (string * list json)) : result (list Parameters) :=
  require! negb (bool_decide (length grid = 0%nat)) && forallb (fun kv => negb (bool_decide (length kv.2 = 0%nat))) grid
    else ValueError "parameter grid values must be non-empty";
  Ok (product (sorted_items grid)).

(** [isinstance(value, (int, float, Decimal)) or isinstance(value, str) and _is_decimal(value)] *)
Definition numeric_value (v : json) : bool :=
  match v with
  | JInt _ | JReal _ | JBool _ => true
  | JString s => match parse_decimal s with Some _ => true | None => false end
  | _ => false
  end.

Fixpoint rmap {A B} (f : A -> result B) (xs : list A) : result (list B) :=
  match xs with
  | [] => Ok []
  | x :: xs => let! y := f x in let! ys := rmap f xs in Ok (y :: ys)
  end.

Record WindowOutcome := { wo_result : WalkForwardWindowResult; wo_train_scores : list Decimal }.

Section WalkForward.
Context {C : DecimalContext} {T : Statistics}.

Definition no_performance : PerformanceSummary := {|
  pf_net_pnl := 0; pf_sharpe := 0; pf_sortino := 0; pf_maximum_drawdown := 0; pf_turnover := 0; pf_win_rate := 0;
  pf_profit_factor := 0; pf_tail_loss := 0; pf_ruin_probability := 0; pf_capital_efficiency := 0 |}.
(** [_summary] *)
Definition summary (returns : list Decimal) (initial_cash : Decimal) : PerformanceSummary :=
  match returns with [] => no_performance | _ => summary_statistics returns initial_cash end.

Definition score (rows : list FeatureRow) (strategy_id : string) (indices : list Z) (grid : Parameters) : result Decimal :=
  let! rs := strategy_returns rows grid indices strategy_id in Ok (dsum rs).

(** One window: scores in training, selection in validation, returns out of sample *)
Definition walk_window (rows : list FeatureRow) (grids : list Parameters) (strategy_id : string) (w : WalkForwardWindow)
  : result WindowOutcome :=
  let normalized := normalize_for_train rows (wf_train w) in
  let! train_scores := rmap (score normalized strategy_id (wf_train w)) grids in
  let! validation_scores :=
    if bool_decide (length (wf_validation w) = 0%nat) then Ok train_scores
    else rmap (score normalized strategy_id (wf_validation w)) grids in
  let selected := default [] (grids !! argmax (map to_float validation_scores)) in
  let! oos := strategy_returns normalized selected (wf_out_of_sample w) strategy_id in
  Ok {| wo_result := {| ww_number := wf_number w; ww_train_indices := wf_train w; ww_validation_indices := wf_validation w;
                        ww_oos_indices := wf_out_of_sample w; ww_selected_parameters := selected; ww_oos_returns := oos;
                        ww_oos := summary oos 1000 |};
        wo_train_scores := train_scores |}.

(** The sums with one window left out *)
Definition period_out (windows : list (list Decimal)) : list Decimal :=
  map (fun omitted => dsum (concat (delete omitted windows))) (seq 0 (length windows)).

Definition leave_one_out (key : FeatureRow -> string) (rows : list FeatureRow) (p : Parameters) (strategy_id : string)
  : result (list (string * Decimal)) :=
  rmap (fun name =>
    let filtered := List.filter (fun r => negb (bool_decide (key r = name))) rows in
    let! total := score filtered strategy_id (seqZ 0 (size filtered)) p in
    Ok (name, total))
    (sorted_by string_leb (dict_fromkeys (map key rows))).

Definition plateau (grid : list (string * list json)) (grids : list Parameters) (outcomes : list WindowOutcome) : result bool :=
  match grid with
  | [(name, _)] =>
      if (3 <=? length grids)%nat && forallb (fun g => forallb (fun kv => numeric_value kv.2) g) grids
      then let! points := rmap (fun ig : nat * Parameters =>
             let! x := _decimal (default JNull (dict_get name ig.2)) in
             let scores := omap (fun o => wo_train_scores o !! ig.1) outcomes in
             Ok (to_float x, to_float (mean_of scores))) (imap pair grids) in
           Ok (is_stable points)
      else Ok false
  | _ => Ok false
  end.

Definition empty_walk (run_id snapshot_id : string) (wf : WalkForwardConfig) : WalkForwardResult := {|
  wr_run_id := run_id; wr_data_snapshot_id := snapshot_id; wr_mode := wc_mode wf; wr_purge_size := wc_purge wf;
  wr_embargo_size := wc_embargo wf; wr_windows := []; wr_combined_oos_returns := []; wr_leave_one_period_out := [];
  wr_leave_one_asset_out := []; wr_leave_one_venue_out := []; wr_parameter_plateau := false |}.

Definition windows_of (count : Z) (wf : WalkForwardConfig) : result (list WalkForwardWindow) :=
  walk_forward_splits count (default (Z.max 4 (count / 3)) (wc_train_size wf))
    (default (Z.max 1 (count / 8)) (wc_validation_size wf)) (default (Z.max 2 (count / 6)) (wc_oos_size wf)) None
    (bool_decide (wc_mode wf = "anchored")) (wc_purge wf) (wc_embargo wf).

(** [min(index for window in windows for index in window.out_of_sample)] *)
Definition first_oos (windows : list WalkForwardWindow) : Z :=
  match flat_map wf_out_of_sample windows with [] => 0%Z | x :: xs => fold_left Z.min xs x end.

(** [_walk_forward] *)
Definition walk_forward (run_id snapshot_id strategy_id : string) (rows : list FeatureRow) (h : FrozenHypothesis)
    (wf : WalkForwardConfig) : result WalkForwardResult :=
  require! bool_decide (wc_mode wf ∈ ["rolling"; "anchored"]) else ValueError "walk-forward mode must be rolling or anchored";
  if bool_decide (length rows = 0%nat) then Ok (empty_walk run_id snapshot_id wf)
  else
    let! windows := windows_of (size rows) wf in
    if bool_decide (length windows = 0%nat) then Ok (empty_walk run_id snapshot_id wf)
    else
      let! first_oos_at := match rows !! Z.to_nat (first_oos windows) with
                           | Some r => Ok (row_decision_time r) | None => Err (OtherError "IndexError") end in
      require! (fh_frozen_at h <=? first_oos_at)%Z
        else ValueError "hypothesis must be frozen before the first OOS observation";
      let! grids := parameter_combinations (fh_parameter_grid h) in
      let! outcomes := rmap (walk_window rows grids strategy_id) windows in
      let results := map wo_result outcomes in
      let returns_by_window := map ww_oos_returns results in
      let diagnostic := default [] (option_map ww_selected_parameters (last results)) in
      let! asset_out := leave_one_out row_instrument rows diagnostic strategy_id in
      let! venue_out := leave_one_out row_venue rows diagnostic strategy_id in
      let! stable := plateau (fh_parameter_grid h) grids outcomes in
      Ok {| wr_run_id := run_id; wr_data_snapshot_id := snapshot_id; wr_mode := wc_mode wf; wr_purge_size := wc_purge wf;
            wr_embargo_size := wc_embargo wf; wr_windows := results; wr_combined_oos_returns := concat returns_by_window;
            wr_leave_one_period_out := period_out returns_by_window; wr_leave_one_asset_out := asset_out;
            wr_leave_one_venue_out := venue_out; wr_parameter_plateau := stable |}.

End WalkForward.

(** ** Instrument rules *)

(** The order in which Python iterates over the set of instruments of a dataset *)
Class SymbolOrder := {
  iterate_symbols : list (string * string * string) -> list (string * string * string);
  iterate_symbols_elements : forall xs, iterate_symbols xs ≡ₚ xs;
}.

Section Rules.
Context {C : DecimalContext} {D : Digest} {SY : SymbolOrder}.

Definition symbols_of (dataset : PointInTimeDataset) : list (string * string * string) :=
  iterate_symbols (dict_fromkeys (map (fun v => (pv_venue v, pv_canonical_instrument_id v, pv_venue_symbol v)) (pd_values dataset))).

(** The rule a fixture gives for an instrument; [funding_interval] is an integer or the text of one. *)
Definition fixture_evidence (source_hash : string) (cutoff : Z) : list (string * list (string * option string)) :=
  map (fun name => (name, [("source_endpoint", Some "fixture:legacy-instrument-rules"); ("source_payload_sha256", Some source_hash);
                           ("retrieved_at", Some (isoformat cutoff)); ("verification_status", Some (rule_status_value RULE_VERIFIED))]))
    rule_names.
Definition fixture_rule (configured : list (string * list (chars * json))) (cutoff : Z) (key : string * string * string)
  : result InstrumentRuleSnapshot :=
  let '(venue, instrument, symbol) := key in
  let raw := default (default [] (dict_get "default" configured)) (dict_get (venue +:+ ":" +:+ instrument) configured) in
  let source_hash := canonical_sha256 (JObject raw) in
  let read name missing := _decimal (get_default raw name missing) in
  let number s := JString (text s) in
  let! tick := read "tick_size" (number "0.01") in
  let! lot := read "lot_size" (number "0.001") in
  let! quantity := read "minimum_quantity" (get_default raw "lot_size" (number "0.001")) in
  let! notional := read "minimum_notional" (number "5") in
  let! maker := read "maker_fee_rate" (number "0") in
  let! taker := read "taker_fee_rate" (number "0.0006") in
  let! interval := match json_int (get_default raw "funding_interval" (JInt 8)) with
                   | Some n => Ok n | None => Err (ValueError "invalid literal for int()") end in
  InstrumentRuleSnapshot_validate {|
    ir_rule_snapshot_id := "rule-" +:+ venue +:+ "-" +:+ instrument +:+ "-" +:+ String.substring 0 16 source_hash;
    ir_venue := venue; ir_canonical_instrument_id := instrument; ir_venue_symbol := symbol; ir_tick_size := Some tick;
    ir_lot_size := Some lot; ir_minimum_quantity := Some quantity; ir_minimum_notional := Some notional;
    ir_maker_fee := Some (dmax 0 maker); ir_taker_fee := Some taker; ir_maker_rebate := Some (dmax 0 (dneg maker));
    ir_funding_interval := Some interval; ir_margin_asset := Some (untext (py_str (get_default raw "margin_asset" (number "USD"))));
    ir_source_endpoint := "fixture:legacy-instrument-rules"; ir_source_payload_sha256 := source_hash; ir_retrieved_at := cutoff;
    ir_valid_from := cutoff; ir_valid_until := None; ir_field_evidence := fixture_evidence source_hash cutoff;
    ir_fee_tier := FEE_HISTORICAL; ir_verification_status := RULE_VERIFIED |}.
Fixpoint import_rules (configured : list (string * list (chars * json))) (cutoff : Z) (symbols : list (string * string * string))
  : M ResearchStore (list string) :=
  match symbols with
  | [] => pret []
  | key :: symbols =>
      do! rule <- plift (fixture_rule configured cutoff key);
      run! save_instrument_rule rule;
      do! ids <- import_rules configured cutoff symbols;
      pret (ir_rule_snapshot_id rule :: ids)
  end.

(** The rule of one instrument; [None]: it is incomplete. *)
Definition frozen_rule (available : list ((string * string) * InstrumentRuleSnapshot)) (cutoff : Z) (key : string * string * string)
  : result (option ((string * string) * InstrumentRules)) :=
  let '(venue, instrument, symbol) := key in
  match dict_get (venue, instrument) available with
  | None => Err (ValueError ("frozen instrument rule missing: " +:+ venue +:+ "/" +:+ instrument))
  | Some r =>
      require! bool_decide (ir_venue_symbol r = symbol) else ValueError "frozen instrument rule venue symbol mismatch";
      require! (ir_valid_from r <=? cutoff)%Z && match ir_valid_until r with Some t => (cutoff <? t)%Z | None => true end
        else ValueError "instrument rule snapshot is not valid at dataset cutoff";
      if negb (rule_is_complete r) then Ok None
      else
        let value (x : option Decimal) := default 0 x in
        let! rules := InstrumentRules_post_init {|
          tick_size := value (ir_tick_size r); lot_size := value (ir_lot_size r);
          minimum_notional := value (ir_minimum_notional r); maker_fee_rate := value (ir_maker_fee r) ⊖ value (ir_maker_rebate r);
          taker_fee_rate := value (ir_taker_fee r); maintenance_margin_rate := 5 # 1000 |} in
        Ok (Some ((venue, symbol), rules))
  end.

Definition rules_dict (rules : list ((string * string) * InstrumentRules)) : list ((string * string) * InstrumentRules) :=
  fold_left (fun d kv => dict_set kv.1 kv.2 d) rules [].

(** [_rules] *)
Definition rules_for (c : ResearchConfig) (dataset : PointInTimeDataset)
  : M ResearchStore (list ((string * string) * InstrumentRules) * bool) :=
  let symbols := symbols_of dataset in
  do! requested <-
    match rc_rule_snapshot_ids c with
    | [] =>
        if bool_decide (length (rc_raw_events c) = 0%nat)
        then plift (Err (ValueError "production research requires frozen rule_snapshot_ids from R2 collection"))
        else do! imported <- import_rules (rc_instrument_rules c) (pd_cutoff_at dataset) symbols;
             pret (sorted_by string_leb imported)
    | ids => pret ids
    end;
  do! store <- pget;
  do! frozen <- plift (instrument_rules store requested);
  let available := fold_left (fun d r => dict_set (ir_venue r, ir_canonical_instrument_id r) r d) frozen [] in
  do! found <- plift (rmap (frozen_rule available (pd_cutoff_at dataset)) symbols);
  pret (rules_dict (omap id found), forallb (fun r => bool_decide (is_Some r)) found).

End Rules.

(** ** Signals *)

Section Signals.
Context {C : DecimalContext}.

Definition mid_sum (v : PointInTimeValue) : result Decimal :=
  let! bid := field (pv_payload v) "bid" in let! ask := field (pv_payload v) "ask" in Ok (bid ⊕ ask).
Definition book_leb (a b : PointInTimeValue) : bool :=
  (pv_available_at a <? pv_available_at b)%Z || (pv_available_at a =? pv_available_at b)%Z && string_leb (pv_event_id a) (pv_event_id b).

(** [funding_by_venue]: the last rate of each venue in the order of the dataset *)
Fixpoint funding_by_venue (rates : list PointInTimeValue) (d : list (string * Decimal)) : result (list (string * Decimal)) :=
  match rates with
  | [] => Ok d
  | v :: rates => let! rate := field (pv_payload v) "rate" in funding_by_venue rates (dict_set (pv_venue v) rate d)
  end.

Definition carry_legs (funding_carry : bool) (instrument : string) (funding : list PointInTimeValue) (minimum_edge : Decimal)
    (timestamp : Z) (items : list PointInTimeValue) : result (list (PointInTimeValue * Side)) :=
  let same_asset := List.filter (fun v => bool_decide (pv_canonical_instrument_id v = instrument)) items in
  if (length same_asset <? 2)%nat then Ok []
  else
    let! keys := rmap mid_sum same_asset in
    match sorted_by (fun a b : PointInTimeValue * Decimal => dleb a.2 b.2) (combine same_asset keys) with
    | [] => Ok []
    | (buy, k) :: rest =>
        let sell := (List.last rest (buy, k)).1 in
        let! sell_bid := field (pv_payload sell) "bid" in
        let! buy_ask := field (pv_payload buy) "ask" in
        let! basis_edge := divide (sell_bid ⊖ buy_ask) buy_ask in
        let! rates := funding_by_venue (List.filter (fun v =>
          bool_decide (pv_canonical_instrument_id v = pv_canonical_instrument_id buy) &&
          (pv_available_at v <=? timestamp)%Z) funding) [] in
        let rate v := default 0 (dict_get (pv_venue v) rates) in
        let edge := if funding_carry then rate sell ⊖ rate buy else basis_edge in
        Ok (if dltb minimum_edge edge then [(buy, BUY); (sell, SELL)] else [])
    end.

Definition relative_legs (items : list PointInTimeValue) : list (PointInTimeValue * Side) :=
  let asset name v := startswith name (pv_canonical_instrument_id v) in
  match first_where (asset "BTC") items, first_where (asset "SOL") items with
  | Some btc, Some sol => [(btc, BUY); (sol, SELL)]
  | _, _ => []
  end.

Definition legs_of (strategy_id scenario : string) (instruments : list string) (funding : list PointInTimeValue)
    (minimum_edge : Decimal) (timestamp : Z) (items : list PointInTimeValue) : result (list (PointInTimeValue * Side)) :=
  let! legs :=
    if bool_decide (strategy_id ∈ ["funding_carry"; "cross_venue_basis"])
    then match instruments with
         | [] => Err (OtherError "IndexError")
         | instrument :: _ =>
             carry_legs (bool_decide (strategy_id = "funding_carry")) instrument funding minimum_edge timestamp items
         end
    else Ok (relative_legs items) in
  Ok (if bool_decide (scenario = "one_leg_failure") && (length legs =? 2)%nat then take 1 legs else legs).

Definition signal_of (run_id strategy_id scenario : string) (c : ResearchConfig) (timestamp sequence : Z)
    (leg : PointInTimeValue * Side) : result SignalEvent :=
  let '(item, side) := leg in
  let delay := (rc_latency_ms c * (if bool_decide (scenario = "latency_x2") then 2 else 1) * 1000)%Z in
  let maker := rc_use_maker_orders c in
  let! limit := if negb maker then Ok None
                else let! price := field (pv_payload item) (if bool_decide (side = BUY) then "bid" else "ask") in Ok (Some price) in
  SignalEvent_new (Aware timestamp) (run_id +:+ "-" +:+ zpad 8 sequence) (pv_venue item) (pv_venue_symbol item) side
    (rc_order_quantity c) (if maker then LIMIT else MARKET) (if maker then GTC else IOC) limit delay delay maker false
    None None None strategy_id.

Fixpoint leg_signals (run_id strategy_id scenario : string) (c : ResearchConfig) (timestamp sequence : Z)
    (legs : list (PointInTimeValue * Side)) : result (list SignalEvent) :=
  match legs with
  | [] => Ok []
  | leg :: legs =>
      let! s := signal_of run_id strategy_id scenario c timestamp (sequence + 1) leg in
      let! ss := leg_signals run_id strategy_id scenario c timestamp (sequence + 1) legs in
      Ok (s :: ss)
  end.
Fixpoint group_signals (run_id strategy_id scenario : string) (c : ResearchConfig) (instruments : list string)
    (funding : list PointInTimeValue) (sequence : Z) (groups : list (Z * list PointInTimeValue)) : result (list SignalEvent) :=
  match groups with
  | [] => Ok []
  | (timestamp, items) :: groups =>
      let! legs := legs_of strategy_id scenario instruments funding (rc_minimum_strategy_edge c) timestamp items in
      let! ss := leg_signals run_id strategy_id scenario c timestamp sequence legs in
      let! more := group_signals run_id strategy_id scenario c instruments funding (sequence + size legs) groups in
      Ok (ss ++ more)
  end.

(** [_strategy_signals] *)
Definition strategy_signals (run_id strategy_id : string) (dataset : PointInTimeDataset) (c : ResearchConfig) (scenario : string)
  : result (list SignalEvent) :=
  let books := sorted_by book_leb (List.filter is_book (pd_values dataset)) in
  let groups := grouped pv_available_at (take (length books - 1) books) in
  group_signals run_id strategy_id scenario c (pd_instruments dataset) (List.filter is_funding (pd_values dataset)) 0 groups.

(** ** Backtests *)

Definition fee_multiplier (scenario : string) : Decimal :=
  if bool_decide (scenario = "fees_x2.0") then 2 else if bool_decide (scenario = "fees_x1.5") then 15 # 10 else 1.
Definition adjusted_rule (scenario : string) (r : InstrumentRules) : InstrumentRules := {|
  tick_size := tick_size r; lot_size := lot_size r; minimum_notional := minimum_notional r;
  maker_fee_rate := if bool_decide (scenario = "maker_rebate_removal") then 0 else maker_fee_rate r ⊗ fee_multiplier scenario;
  taker_fee_rate := taker_fee_rate r ⊗ fee_multiplier scenario; maintenance_margin_rate := maintenance_margin_rate r |}.
Definition adjusted_rules (scenario : string) (rules : list ((string * string) * InstrumentRules))
  : result (list ((string * string) * InstrumentRules)) :=
  rmap (fun kv => let! r := InstrumentRules_post_init (adjusted_rule scenario kv.2) in Ok (kv.1, r)) rules.

Definition scenario_config (scenario : string) (c : ResearchConfig) : ExecutionModelConfig :=
  let slip := if bool_decide (scenario = "slippage_x2.0") then 2
              else if bool_decide (scenario = "slippage_x1.5") then 15 # 10 else 1 in
  {| participation_rate := if bool_decide (scenario = "depth_minus_50pct") then 125 # 1000 else 25 # 100;
     passive_fill_fraction := passive_fill_fraction default_execution_config; slippage_bps := rc_slippage_bps c ⊗ slip;
     impact_coefficient_bps := rc_impact_bps c; impact_power := impact_power default_execution_config;
     maximum_impact_bps := maximum_impact_bps default_execution_config |}.

Definition optional_field (p : list (chars * json)) (key : string) : result (option Decimal) :=
  if truthy (get_field p key) then let! x := field p key in Ok (Some x) else Ok None.
Definition depth_factor (scenario : string) : Decimal := if bool_decide (scenario = "depth_minus_50pct") then 5 # 10 else 1.
Definition market_event (scenario : string) (v : PointInTimeValue) : result BacktestEvent :=
  let p := pv_payload v in
  let! bid := field p "bid" in
  let! ask := field p "ask" in
  let! bid_depth := field p "bid_depth" in
  let! ask_depth := field p "ask_depth" in
  let! last_price := optional_field p "last_price" in
  let! trade_quantity := optional_field p "trade_quantity" in
  let! snapshot := MarketSnapshot_new (pv_venue v) (pv_venue_symbol v) (Aware (pv_available_at v)) bid ask
    (bid_depth ⊗ depth_factor scenario) (ask_depth ⊗ depth_factor scenario) last_price trade_quantity None in
  Ok (Market snapshot).

Definition edge_multiplier (scenario : string) : Decimal :=
  if bool_decide (scenario = "funding_edge_minus_50pct") then 5 # 10
  else if bool_decide (scenario = "funding_edge_minus_25pct") then 75 # 100 else 1.
Definition funding_event (scenario : string) (v : PointInTimeValue) : result BacktestEvent :=
  let! rate := field (pv_payload v) "rate" in
  let! mark := _decimal (get_default (pv_payload v) "mark_price" (JString (text "1"))) in
  let! e := FundingEvent_new (Aware (pv_available_at v)) (pv_venue v) (pv_venue_symbol v) (rate ⊗ edge_multiplier scenario) mark in
  Ok (Funding e).

(** The books of the venue that is out are not delivered. *)
Definition delivered (scenario : string) (dataset : PointInTimeDataset) : result (list PointInTimeValue) :=
  let books := List.filter is_book (pd_values dataset) in
  if bool_decide (scenario = "venue_outage") && negb (bool_decide (length books = 0%nat))
  then match pd_venues dataset with
       | [] => Err (OtherError "IndexError")
       | out :: _ => Ok (List.filter (fun v => negb (bool_decide (pv_venue v = out))) books)
       end
  else Ok books.

(** The events of a backtest, in the order in which they are queued *)
Definition backtest_events (run_id strategy_id : string) (dataset : PointInTimeDataset) (c : ResearchConfig)
    (quality_passed : bool) (scenario : string) : result (list BacktestEvent) :=
  let! books := delivered scenario dataset in
  let! markets := rmap (market_event scenario) books in
  let! signals := if quality_passed then strategy_signals run_id strategy_id dataset c scenario else Ok [] in
  let! funding := rmap (funding_event scenario) (List.filter is_funding (pd_values dataset)) in
  Ok (markets ++ map Signal signals ++ funding).

(** [_run_backtest] *)
Definition run_backtest {SO : SetOrder} (identity : ResearchRunIdentity) (dataset : PointInTimeDataset) (c : ResearchConfig)
    (rules : list ((string * string) * InstrumentRules)) (quality_passed : bool) (scenario : string) : result BacktestResult :=
  let! adjusted := adjusted_rules scenario rules in
  let! execution_config := ExecutionModelConfig_post_init (scenario_config scenario c) in
  let! engine := Engine_new (rc_initial_cash c) adjusted 1 (Some execution_config) (ri_run_id identity)
                   (ri_data_snapshot_id identity) in
  let! events := backtest_events (ri_run_id identity) (ri_strategy_id identity) dataset c quality_passed scenario in
  (run 1000000 (add_events events engine)).2.

(** ** Cost stress *)

Context {T : Statistics}.

(** The returns between consecutive snapshots, and the equity after the last *)
Fixpoint equity_returns (previous : Decimal) (equities : list Decimal) : result (list Decimal * Decimal) :=
  match equities with
  | [] => Ok ([], previous)
  | equity :: equities =>
      let! more := equity_returns equity equities in
      Ok (if dltb 0 previous then (equity ⊘ previous ⊖ 1) :: more.1 else more.1, more.2)
  end.

Definition stressed (scenario : string) (c : ResearchConfig) (r : BacktestResult) : result CostStressScenarioResult :=
  let initial := rc_initial_cash c in
  let fills := r_fills r in
  let fees := dsum (List.filter (dltb 0) (map fee fills)) in
  let rebates := dneg (dsum (List.filter (fun x => dltb x 0) (map fee fills))) in
  let slippage := dsum (map slippage_cost fills) in
  let impact := dsum (map market_impact_cost fills) in
  let one_leg := bool_decide (scenario = "one_leg_failure") in
  let failed := if one_leg then slippage ⊕ impact ⊕ dabs (final_equity r ⊖ initial) ⊗ (11 # 10) else 0 in
  let outage := if bool_decide (scenario = "venue_outage") then dmax 0 (initial ⊖ final_equity r) else 0 in
  let net_pnl := final_equity r ⊖ initial ⊖ failed in
  let! pnl_return := divide net_pnl initial in
  let! walked := equity_returns initial (map ps_equity (r_snapshots r)) in
  let returns := walked.1 ++ (if dltb 0 failed && dltb 0 walked.2 then [dneg failed ⊘ walked.2] else []) in
  let metrics := summary (match returns with [] => [pnl_return] | _ => returns end) initial in
  let! turnover := divide (dsum (map fill_notional fills)) initial in
  Ok {| cs_scenario := scenario;
        cs_metrics := {| pf_net_pnl := net_pnl; pf_sharpe := pf_sharpe metrics; pf_sortino := pf_sortino metrics;
          pf_maximum_drawdown := pf_maximum_drawdown metrics; pf_turnover := turnover; pf_win_rate := pf_win_rate metrics;
          pf_profit_factor := pf_profit_factor metrics; pf_tail_loss := pf_tail_loss metrics;
          pf_ruin_probability := pf_ruin_probability metrics; pf_capital_efficiency := pf_capital_efficiency metrics |};
        cs_fee := fees; cs_rebate := rebates; cs_funding := dsum (map fr_amount (r_funding r)); cs_slippage := slippage;
        cs_impact := impact; cs_failed_leg_cost := failed;
        cs_naked_exposure_duration_ms := if one_leg then rc_maximum_naked_exposure_duration_ms c else 0%Z;
        cs_hedge_slippage := if one_leg then failed ⊘ 2 else 0; cs_unwind_cost := if one_leg then failed ⊘ 2 else 0;
        cs_venue_outage_loss := outage |}.

(** [_cost_stress] *)
Definition cost_stress {SO : SetOrder} (identity : ResearchRunIdentity) (dataset : PointInTimeDataset) (c : ResearchConfig)
    (rules : list ((string * string) * InstrumentRules)) (quality_passed : bool) : result CostStressResult :=
  let! scenarios := rmap (fun name =>
    let! r := run_backtest identity dataset c rules quality_passed name in stressed name c r) STRESS_SCENARIOS in
  Ok {| st_run_id := ri_run_id identity; st_data_snapshot_id := ri_data_snapshot_id identity; st_scenarios := scenarios;
        st_evidence_complete := true |}.

End Signals.

(** ** The run *)

(** The SHA-256 of the canonical JSON of a hypothesis, whose thresholds are printed decimals *)
Class HypothesisDigest := hypothesis_sha256 :
  string -> string -> list (string * list json) -> string -> list string -> list (string * Decimal) -> Z -> string.

Section Hypotheses.
Context {H : HypothesisDigest}.

Definition freeze (version strategy_id : string) (k : HypothesisConfig) (frozen_at : Z) : FrozenHypothesis := {|
  fh_hypothesis_version := version; fh_strategy_id := strategy_id; fh_parameter_grid := hc_parameter_grid k;
  fh_primary_metric := hc_primary_metric k; fh_secondary_metrics := hc_secondary_metrics k;
  fh_acceptance_thresholds := hc_acceptance_thresholds k; fh_frozen_at := frozen_at;
  fh_content_sha256 := hypothesis_sha256 version strategy_id (hc_parameter_grid k) (hc_primary_metric k)
                         (hc_secondary_metrics k) (hc_acceptance_thresholds k) frozen_at |}.
Definition verify_hypothesis (h : FrozenHypothesis) : result unit :=
  require! bool_decide (hypothesis_sha256 (fh_hypothesis_version h) (fh_strategy_id h) (fh_parameter_grid h) (fh_primary_metric h)
                          (fh_secondary_metrics h) (fh_acceptance_thresholds h) (fh_frozen_at h) = fh_content_sha256 h)
    else ValueError "frozen hypothesis content changed";
  Ok tt.

(** [FrozenHypothesisRegistry] *)
Definition FrozenHypothesisRegistry : Type := list ((string * string) * FrozenHypothesis).
Definition registry_freeze (h : FrozenHypothesis) : M FrozenHypothesisRegistry unit := fun items =>
  let key := (fh_strategy_id h, fh_hypothesis_version h) in
  match verify_hypothesis h with
  | Err e => (items, Err e)
  | Ok _ =>
      match dict_get key items with
      | Some current =>
          if bool_decide (fh_content_sha256 current = fh_content_sha256 h) then (dict_set key h items, Ok tt)
          else (items, Err (ValueError "parameter changes require a new hypothesis_version"))
      | None => (dict_set key h items, Ok tt)
      end
  end.

End Hypotheses.

Record ResearchRunResult := {
  rr_identity : ResearchRunIdentity;
  rr_data_quality : DataQualityResult;
  rr_feature_artifact : FeatureArtifact;
  rr_regime_artifact : RegimeArtifact;
  rr_backtest_result : BacktestResult;
  rr_walk_forward_result : WalkForwardResult;
  rr_cost_stress_result : CostStressResult;
  rr_overfitting_result : OverfittingResult;
  rr_acceptance_result : AcceptanceResult;
  rr_artifact_manifest_path : string;
}.
(** The directory of the artifacts, and the SHA-256 of the file of a name *)
Class ArtifactFiles := {
  artifact_root : string;
  file_sha256 : ResearchRunResult -> string -> string;
}.

(** [ResearchPipeline]: the repository and the registry *)
Record ResearchPipeline := { pl_repository : ResearchStore; pl_hypotheses : FrozenHypothesisRegistry }.
Definition on_repository {A} : M ResearchStore A -> M ResearchPipeline A :=
  pzoom pl_repository (fun s p => {| pl_repository := s; pl_hypotheses := pl_hypotheses p |}).
Definition on_hypotheses {A} : M FrozenHypothesisRegistry A -> M ResearchPipeline A :=
  pzoom pl_hypotheses (fun h p => {| pl_repository := pl_repository p; pl_hypotheses := h |}).

Section Run.
Context {C : DecimalContext} {D : Digest} {SO : SetOrder} {SY : SymbolOrder} {T : Statistics} {H : HypothesisDigest}
  {F : ArtifactFiles}.

Definition identity_of (c : ResearchConfig) (created_at : Z) : result ResearchRunIdentity :=
  let s x := JString (text x) in
  let payload := JObject [(text "commit_sha", s (rc_commit_sha c)); (text "config_sha256", s (rc_sha256 c));
    (text "data_snapshot_id", s (rc_data_snapshot_id c)); (text "hypothesis_version", s (rc_hypothesis_version c));
    (text "strategy_id", s (rc_strategy_id c)); (text "strategy_version", s (rc_strategy_version c))] in
  ResearchRunIdentity_validate {|
    ri_run_id := "research-" +:+ String.substring 0 24 (canonical_sha256 payload); ri_commit_sha := rc_commit_sha c;
    ri_config_sha256 := rc_sha256 c; ri_data_snapshot_id := rc_data_snapshot_id c;
    ri_hypothesis_version := rc_hypothesis_version c; ri_strategy_id := rc_strategy_id c;
    ri_strategy_version := rc_strategy_version c; ri_created_at := created_at |}.

(** The events a configuration brings along *)
Fixpoint load_events (cutoff : Z) (events : list (result RawMarketEvent)) (seen : list string) : M ResearchStore unit :=
  match events with
  | [] => pret tt
  | read :: events =>
      do! e <- plift read;
      if bool_decide (re_event_id e ∈ seen)
      then run! quarantine e "duplicate event id in input" cutoff; load_events cutoff events seen
      else
        do! added <- add_raw_event e;
        run! (if added : bool then pret tt
              else do! existing <- get_raw_event (re_event_id e);
                   if bool_decide (existing = Some e) then pret tt
                   else quarantine e "conflicting duplicate event id" cutoff);
        load_events cutoff events (re_event_id e :: seen)
  end.

Definition check_config (c : ResearchConfig) : result unit :=
  require! bool_decide (rc_strategy_id c ∈ R1_STRATEGIES)
    else ValueError ("strategy " +:+ rc_strategy_id c +:+ " is " +:+
                     if bool_decide (rc_strategy_id c ∈ DEFERRED_STRATEGIES) then "DEFERRED" else "not in Phase R1");
  require! negb (bool_decide (length (rc_venues c) = 0%nat)) && forallb (fun v => bool_decide (v ∈ R1_VENUES)) (rc_venues c)
    else ValueError "R1 config contains an unsupported venue";
  require! negb (rc_live_execution c) else ValueError "Research Pipeline requires live execution OFF";
  Ok tt.

Definition relevant_event_ids (dataset : PointInTimeDataset) (venues : list string) (cutoff : Z) (s : ResearchStore) : list string :=
  map re_event_id (List.filter (fun e => bool_decide (re_venue e ∈ venues) &&
    bool_decide (re_canonical_instrument_id e ∈ pd_instruments dataset) &&
    bool_decide (re_event_type e ∈ pd_event_types dataset) && (re_available_at e <=? cutoff)%Z) (raw_events s)).

(** [_empty_backtest], [_empty_overfitting] *)
Definition empty_backtest (i : ResearchRunIdentity) (initial : Decimal) : BacktestResult := {|
  processed_events := 0; event_trace := []; r_orders := []; r_fills := []; r_snapshots := []; r_funding := [];
  r_liquidations := []; r_rejected_signals := []; final_cash := initial; final_equity := initial;
  r_run_id := ri_run_id i; r_data_snapshot_id := ri_data_snapshot_id i |}.
Definition empty_overfitting (i : ResearchRunIdentity) : OverfittingResult := {|
  ov_run_id := ri_run_id i; ov_data_snapshot_id := ri_data_snapshot_id i; ov_pbo := None; ov_deflated_sharpe := None;
  ov_cscv_combinations := 0; ov_reality_check_p_value := None; ov_parameter_plateau := None;
  ov_monte_carlo_ruin_probability := None; ov_evidence_complete := false |}.

(** The analysis of a dataset: everything of [run] that reads neither the store nor the files *)
Record Analysis := {
  an_backtest : BacktestResult;
  an_walk_forward : WalkForwardResult;
  an_stress : CostStressResult;
  an_overfitting : OverfittingResult;
  an_acceptance : AcceptanceResult;
}.
Definition analyse (i : ResearchRunIdentity) (c : ResearchConfig) (h : FrozenHypothesis) (dataset : PointInTimeDataset)
    (quality : DataQualityResult) (f : FeatureArtifact) (rules : list ((string * string) * InstrumentRules)) (complete : bool)
  : result Analysis :=
  let! backtest := if complete then run_backtest i dataset c rules (dq_passed quality) "base"
                   else Ok (empty_backtest i (rc_initial_cash c)) in
  let! walk := if dq_passed quality
               then walk_forward (ri_run_id i) (ri_data_snapshot_id i) (ri_strategy_id i) (fa_rows f) h (rc_walk_forward c)
               else Ok (empty_walk (ri_run_id i) (ri_data_snapshot_id i) (rc_walk_forward c)) in
  let! stress := if complete then cost_stress i dataset c rules (dq_passed quality)
                 else Ok {| st_run_id := ri_run_id i; st_data_snapshot_id := ri_data_snapshot_id i; st_scenarios := [];
                            st_evidence_complete := false |} in
  let! overfitting := if dq_passed quality
                      then diagnose (ri_run_id i) (ri_data_snapshot_id i) (ri_strategy_id i) (fa_rows f) (fh_parameter_grid h)
                      else Ok (empty_overfitting i) in
  let capital := if complete
                 then capital_feasibility (ri_run_id i) (ri_data_snapshot_id i) (rc_venues c) (rc_order_quantity c)
                        (rc_transfer_lock_buffer c) (dict_values rules)
                 else {| cp_run_id := ri_run_id i; cp_data_snapshot_id := ri_data_snapshot_id i; cp_scenarios := [];
                         cp_evidence_complete := false |} in
  let! acceptance := accept h quality walk stress overfitting capital in
  Ok {| an_backtest := backtest; an_walk_forward := walk; an_stress := stress; an_overfitting := overfitting;
        an_acceptance := acceptance |}.

(** [ResearchArtifactWriter.write], of which the repository sees the hashes *)
Definition REQUIRED_FILES : list string :=
  ["summary.md"; "metrics.json"; "walk-forward.csv"; "cost-stress.csv"; "trades.parquet"; "rejections.parquet"].
Definition write_artifacts (r : ResearchRunResult) : M ResearchStore unit :=
  let i := rr_identity r in
  pfor (REQUIRED_FILES ++ ["manifest.json"]) (fun name =>
    save_artifact (ri_run_id i) (ri_data_snapshot_id i) name (artifact_root +:+ "/" +:+ ri_run_id i +:+ "/" +:+ name)
      (file_sha256 r name) (ri_created_at i)).

(** [run] *)
Definition run_research (c : ResearchConfig) : M ResearchPipeline ResearchRunResult :=
  run! plift (check_config c);
  do! cutoff <- plift (utc_or "cutoff_at must be timezone-aware" (rc_cutoff_at c));
  do! created_at <- plift (utc_or "created_at must be timezone-aware" (rc_created_at c));
  do! i <- plift (identity_of c created_at);
  run! on_repository (load_events cutoff (rc_raw_events c) []);
  do! frozen_at <- plift (utc_or "frozen_at must be timezone-aware" (hc_frozen_at (rc_hypothesis c)));
  let h := freeze (rc_hypothesis_version c) (rc_strategy_id c) (rc_hypothesis c) frozen_at in
  run! plift (require! (frozen_at <=? cutoff)%Z else ValueError "hypothesis must be frozen before OOS cutoff"; Ok tt);
  run! on_hypotheses (registry_freeze h);
  run! on_repository (freeze_hypothesis h);
  do! dataset <- on_repository (build {| bq_snapshot_id := rc_data_snapshot_id c; bq_cutoff_at := cutoff;
    bq_instruments := rc_instruments c; bq_venues := rc_venues c; bq_event_types := rc_event_types c |});
  run! on_repository (save_run i "running" None);
  do! p <- pget;
  let quarantined := quarantine_count (pl_repository p)
    (Some (relevant_event_ids dataset (rc_venues c) cutoff (pl_repository p))) in
  do! quality <- plift (evaluate_data_quality (ri_run_id i) dataset quarantined (rc_quality c));
  do! f <- on_repository (features (ri_run_id i) dataset (rc_train_fraction c));
  do! found <- on_repository (rules_for c dataset);
  do! a <- plift (analyse i c h dataset quality f found.1 found.2);
  let r := {| rr_identity := i; rr_data_quality := quality; rr_feature_artifact := f;
              rr_regime_artifact := regimes (ri_run_id i) (ri_data_snapshot_id i) f; rr_backtest_result := an_backtest a;
              rr_walk_forward_result := an_walk_forward a; rr_cost_stress_result := an_stress a;
              rr_overfitting_result := an_overfitting a; rr_acceptance_result := an_acceptance a;
              rr_artifact_manifest_path := artifact_root +:+ "/" +:+ ri_run_id i +:+ "/manifest.json" |} in
  run! on_repository (write_artifacts r);
  run! on_repository (save_run i "completed" (Some (acceptance_value (ar_verdict (an_acceptance a)))));
  pret r.

End Run.
