(* ===== verification/AcceptanceSafety.v ===== *)
(** * Acceptance: what a PASS of a research run means *)

From Stdlib Require Import ZArith QArith Qabs Lia Lqa.
From stdpp Require Import base tactics list strings.
From S2P Require Import Prelude Decimals ExecutionModels Json Certification ResearchStore Dataset Acceptance.

Local Open Scope string_scope.
Local Open Scope list_scope.
Local Open Scope Q_scope.
Local Open Scope dec_scope.

(** ** Lemmas *)

Lemma fold_dmin_ge xs : forall x c, c <= fold_left dmin xs x <-> c <= x /\ Forall (Qle c) xs.
Proof.
  induction xs as [|y ys IH]; intros x c; simpl; [split; [by split|by intros [? _]]|].
  rewrite IH, Forall_cons. split; intros H; dminmax; intuition lra.
Qed.
Lemma least_ge xs c : xs <> [] -> c <= least xs <-> Forall (Qle c) xs.
Proof. destruct xs as [|x xs]; [done|]. intros _. simpl. by rewrite fold_dmin_ge, Forall_cons. Qed.

Lemma option_map_true {A} (f : A -> bool) o : option_map f o = Some true <-> exists x, o = Some x /\ f x = true.
Proof.
  destruct o as [x|]; simpl; [|by split; [|intros (? & ? & _)]].
  split; [intros [= H]; by exists x|]. by intros (? & [= <-] & ->).
Qed.
Lemma all_present_iff {A} (xs : list (option A)) : all_present xs = true <-> Forall is_Some xs.
Proof.
  unfold all_present. rewrite forallb_forall, Forall_forall.
  split; intros H x Hx; specialize (H x); rewrite <- list_elem_of_In in *; specialize (H Hx); destruct x; try done.
Qed.

(** A check of the list is open, failed or passed. *)
Lemma verdict_pass quality complete checks :
  verdict_of quality complete checks = PASS <->
  quality = true /\ complete = true /\ Forall (fun c => ac_passed c = Some true) checks.
Proof.
  unfold verdict_of. destruct quality; simpl; [|naive_solver].
  assert (Forall (fun c => ac_passed c = Some true) checks <->
    existsb (fun c => bool_decide (ac_passed c = None)) checks = false /\
    existsb (fun c => bool_decide (ac_passed c = Some false)) checks = false) as ->.
  { induction checks as [|c cs IH]; simpl; [done|]. rewrite Forall_cons, IH, !orb_false_iff, !bool_decide_eq_false.
    destruct (ac_passed c) as [[]|]; naive_solver. }
  destruct (existsb _ checks), complete; simpl; try naive_solver. destruct (existsb _ checks); naive_solver.
Qed.
Lemma verdict_fail quality complete checks :
  verdict_of quality complete checks = FAIL <->
  quality = false \/
  (complete = true /\ Forall (fun c => ac_passed c <> None) checks /\ Exists (fun c => ac_passed c = Some false) checks).
Proof.
  unfold verdict_of. destruct quality; simpl; [|naive_solver].
  assert (Forall (fun c => ac_passed c <> None) checks <->
    existsb (fun c => bool_decide (ac_passed c = None)) checks = false) as ->.
  { induction checks as [|c cs IH]; simpl; [done|]. rewrite Forall_cons, IH, orb_false_iff, bool_decide_eq_false. done. }
  assert (Exists (fun c => ac_passed c = Some false) checks <->
    existsb (fun c => bool_decide (ac_passed c = Some false)) checks = true) as ->.
  { rewrite existsb_exists, Exists_exists. setoid_rewrite <- list_elem_of_In. by setoid_rewrite bool_decide_eq_true. }
  destruct (existsb _ checks), complete; simpl; try naive_solver. destruct (existsb _ checks); naive_solver.
Qed.

Lemma frozen_checks_ok observed thresholds :
  Forall (fun t => is_Some (dict_get t.1 observed)) thresholds ->
  exists cs, frozen_checks observed thresholds = Ok cs /\
    (Forall (fun c => ac_passed c = Some true) cs <->
     Forall (fun t => exists x, dict_get t.1 observed = Some (Some x) /\ meets t.1 t.2 x = true) thresholds).
Proof.
  induction 1 as [|[name t] ts [v Hv] Hts IH]; simpl; [by eexists|]. simpl in Hv. rewrite Hv.
  destruct IH as (cs & -> & IH). eexists; split; [reflexivity|]. rewrite !Forall_cons, IH. simpl. rewrite option_map_true.
  split; (intros [(x & Hx & Hm) ?]; split; [|done]); exists x; naive_solver.
Qed.
Lemma frozen_checks_unsupported observed thresholds name t :
  (name, t) ∈ thresholds -> dict_get name observed = None -> exists e, frozen_checks observed thresholds = Err (ValueError e).
Proof.
  induction thresholds as [|[n u] ts IH]; intros Hin Hn; [by apply not_elem_of_nil in Hin|]. simpl.
  apply elem_of_cons in Hin as [[= -> ->]|Hin]; [rewrite Hn; by eexists|].
  destruct (dict_get n observed) as [v|]; [|by eexists]. destruct (IH Hin Hn) as [e ->]. by eexists.
Qed.

(** ** What a PASS means *)

(** The thresholds that bind: at least for a minimum, at most for a maximum *)
Definition within_threshold (name : string) (threshold observed : Decimal) : Prop :=
  if startswith "minimum_" name then threshold <= observed else observed <= threshold.

Record Accepted (h : FrozenHypothesis) (q : DataQualityResult) (w : WalkForwardResult) (s : CostStressResult)
    (o : OverfittingResult) (k : CapitalFeasibilityResult) `{DecimalContext} : Prop := {
  acc_quality : dq_passed q = true;
  acc_complete : ov_evidence_complete o = true;
  acc_profit : wr_combined_oos_returns w <> [] /\ 0 < dsum (wr_combined_oos_returns w);
  acc_sharpe : exists x, ov_deflated_sharpe o = Some x /\ 0 < x;
  acc_pbo : exists x, ov_pbo o = Some x /\ x < 1 # 2;
  acc_ruin : exists x, ov_monte_carlo_ruin_probability o = Some x /\ x <= 1 # 20;
  acc_drawdown : exists b, scenario s "base" = Some b /\ pf_maximum_drawdown (cs_metrics b) <= 1 # 5;
  acc_stress : st_evidence_complete s = true /\
    forall name, name ∈ MAJOR_SCENARIOS -> exists r, scenario s name = Some r /\ - 1000 < pf_net_pnl (cs_metrics r);
  acc_capital : cp_evidence_complete k = true /\ forall x, x ∈ [100; 300; 1000] -> feasible_at k x = true;
  acc_dependency : (2 <= length (wr_leave_one_period_out w))%nat /\ (2 <= length (wr_leave_one_asset_out w))%nat /\
    (3 <= length (wr_leave_one_venue_out w))%nat /\ Forall (Qle 0) (wr_leave_one_period_out w) /\
    Forall (Qle 0) (dict_values (wr_leave_one_asset_out w)) /\ Forall (Qle 0) (dict_values (wr_leave_one_venue_out w));
  acc_frozen : forall name t, (name, t) ∈ fh_acceptance_thresholds h ->
    exists x, dict_get name (observations w s o) = Some (Some x) /\ within_threshold name t x;
}.

Section AcceptanceLemmas.
Context {C : DecimalContext} {L : DecimalLaws C}.

Lemma least_floor w xs : 0 < dsum (wr_combined_oos_returns w) -> xs <> [] ->
  dleb (dmin (dsum (wr_combined_oos_returns w) ⊗ (20 # 100)) 0) (least xs) = true <-> Forall (Qle 0) xs.
Proof.
  intros Hp Hx. pose proof (dmul_nonneg (dsum (wr_combined_oos_returns w)) (20 # 100) (Qlt_le_weak _ _ Hp) ltac:(discriminate)).
  rewrite dleb_le. rewrite <- least_ge by done. destruct (dmin_spec (dsum (wr_combined_oos_returns w) ⊗ (20 # 100)) 0) as [[? ->]|[? ->]]; [done|].
  split; intros; lra.
Qed.
Lemma dict_values_nonempty {A} (d : list (string * A)) : d <> [] -> dict_values d <> [].
Proof. by destruct d. Qed.

Lemma dependency_iff w : 0 < dsum (wr_combined_oos_returns w) ->
  (if dependency_complete w then Some (dependency_passed w) else None) = Some true <->
  (2 <= length (wr_leave_one_period_out w))%nat /\ (2 <= length (wr_leave_one_asset_out w))%nat /\
  (3 <= length (wr_leave_one_venue_out w))%nat /\ Forall (Qle 0) (wr_leave_one_period_out w) /\
  Forall (Qle 0) (dict_values (wr_leave_one_asset_out w)) /\ Forall (Qle 0) (dict_values (wr_leave_one_venue_out w)).
Proof.
  intros Hp. unfold dependency_complete, dependency_passed.
  destruct (2 <=? length (wr_leave_one_period_out w))%nat eqn:E1; [apply Nat.leb_le in E1|apply Nat.leb_gt in E1; split; [done|intros (? & _); lia]].
  destruct (2 <=? length (wr_leave_one_asset_out w))%nat eqn:E2; [apply Nat.leb_le in E2|apply Nat.leb_gt in E2; split; [done|intros (_ & ? & _); lia]].
  destruct (3 <=? length (wr_leave_one_venue_out w))%nat eqn:E3; [apply Nat.leb_le in E3|apply Nat.leb_gt in E3; split; [done|intros (_ & _ & ? & _); lia]].
  cbn [andb]. assert (wr_leave_one_period_out w <> []) as N1 by (intros E; rewrite E in E1; simpl in E1; lia).
  assert (wr_leave_one_asset_out w <> []) as N2%dict_values_nonempty by (intros E; rewrite E in E2; simpl in E2; lia).
  assert (wr_leave_one_venue_out w <> []) as N3%dict_values_nonempty by (intros E; rewrite E in E3; simpl in E3; lia).
  rewrite <- (least_floor w _ Hp N1), <- (least_floor w _ Hp N2), <- (least_floor w _ Hp N3).
  split; [intros [= H]; apply andb_true_iff in H as [[]%andb_true_iff ?]; by split_and!|].
  by intros (_ & _ & _ & -> & -> & ->).
Qed.

Lemma stress_iff s :
  (if negb (st_evidence_complete s) || negb (all_present [scenario s "base"]) || negb (all_present (map (scenario s) MAJOR_SCENARIOS))
   then None else Some (forallb survives (map (scenario s) MAJOR_SCENARIOS))) = Some true <->
  is_Some (scenario s "base") /\ st_evidence_complete s = true /\
  forall name, name ∈ MAJOR_SCENARIOS -> exists r, scenario s name = Some r /\ - 1000 < pf_net_pnl (cs_metrics r).
Proof.
  assert (forallb survives (map (scenario s) MAJOR_SCENARIOS) = true <->
    forall name, name ∈ MAJOR_SCENARIOS -> exists r, scenario s name = Some r /\ - 1000 < pf_net_pnl (cs_metrics r)) as E.
  { rewrite forallb_forall. split; intros H.
    - intros name Hn. specialize (H (scenario s name)). rewrite <- list_elem_of_In in H.
      specialize (H ltac:(by apply (list_elem_of_fmap_2 (scenario s)))). destruct (scenario s name) as [r|]; [|done].
      exists r. split; [done|]. simpl in H. decb. done.
    - intros o (name & -> & Hn)%list_elem_of_In%(list_elem_of_fmap (scenario s)). destruct (H name Hn) as (r & -> & Hr).
      simpl. decb. done. }
  destruct (st_evidence_complete s); cbn [negb orb]; [|split; [done|by intros (_ & ? & _)]].
  destruct (all_present [scenario s "base"]) eqn:Eb; cbn [negb orb].
  2:{ split; [done|]. intros (Hb & _). assert (all_present [scenario s "base"] = true) by (apply all_present_iff; by constructor). congruence. }
  apply all_present_iff, Forall_cons in Eb as [Eb _].
  destruct (all_present (map (scenario s) MAJOR_SCENARIOS)) eqn:Em; cbn [negb].
  - rewrite <- E. split; [intros [= H]; by split_and!|by intros (_ & _ & ->)].
  - split; [done|]. intros (_ & _ & H). exfalso. apply not_true_iff_false in Em. apply Em, all_present_iff, Forall_forall.
    intros o (name & -> & Hn)%(list_elem_of_fmap (scenario s)). destruct (H name Hn) as (r & -> & _). by eexists.
Qed.

End AcceptanceLemmas.

(** C0: a research run is accepted exactly when its evidence is whole and good.  When its five
    artifacts belong to one run and one snapshot and every threshold of the hypothesis is a known
    one, the verdict is PASS if and only if the data quality passed, the diagnostics are complete,
    the returns out of sample are there and sum to a profit, the deflated Sharpe ratio, the
    probability of overfitting and of ruin and the drawdown are measured and within their limits,
    every major stress scenario was run and keeps the capital, all three capitals suffice, leaving
    out a period, an asset or a venue leaves no loss, and every frozen threshold is measured and
    met; it is FAIL if and only if the data quality failed or everything is measured and a check
    failed.  A missing measurement gives neither. *)
Theorem acceptance_pass_iff {C : DecimalContext} {L : DecimalLaws C} h q w s o k :
  Forall (fun i => i = (dq_run_id q, dq_data_snapshot_id q))
    [(wr_run_id w, wr_data_snapshot_id w); (st_run_id s, st_data_snapshot_id s); (ov_run_id o, ov_data_snapshot_id o);
     (cp_run_id k, cp_data_snapshot_id k)] ->
  Forall (fun t => t.1 ∈ dict_keys (observations w s o)) (fh_acceptance_thresholds h) ->
  exists r, accept h q w s o k = Ok r /\ ar_run_id r = dq_run_id q /\ (ar_verdict r = PASS <-> Accepted h q w s o k) /\
    (ar_verdict r = FAIL <-> dq_passed q = false \/
       (ov_evidence_complete o = true /\ Forall (fun c => ac_passed c <> None) (ar_checks r) /\
        Exists (fun c => ac_passed c = Some false) (ar_checks r))).
Proof.
  intros Hi Ht. unfold accept, evaluate_acceptance.
  assert (forallb (fun i => bool_decide (i = (dq_run_id q, dq_data_snapshot_id q)))
    [(wr_run_id w, wr_data_snapshot_id w); (st_run_id s, st_data_snapshot_id s); (ov_run_id o, ov_data_snapshot_id o);
     (cp_run_id k, cp_data_snapshot_id k)] = true) as ->.
  { apply forallb_forall. intros i Hin. rewrite <- list_elem_of_In in Hin. rewrite Forall_forall in Hi. by apply bool_decide_eq_true, Hi. }
  cbn [rbind]. unfold apply_frozen_thresholds.
  destruct (frozen_checks_ok (observations w s o) (sorted_items (fh_acceptance_thresholds h))) as (frozen & -> & Hf).
  { apply Forall_forall. intros t Hin%elem_of_sorted_by. rewrite Forall_forall in Ht.
    destruct (dict_get t.1 _) eqn:E; [by eexists|]. by destruct (proj1 (dict_get_None _ _) E (Ht t Hin)). }
  eexists; split; [reflexivity|]. cbn [ar_run_id ar_verdict ar_checks fst]. split; [done|].
  split; [|apply verdict_fail]. rewrite verdict_pass, Forall_app, Hf. clear Hf Hi Ht.
  assert (Forall (fun t : string * Decimal => exists x, dict_get t.1 (observations w s o) = Some (Some x) /\ meets t.1 t.2 x = true)
      (sorted_items (fh_acceptance_thresholds h)) <->
    forall name t, (name, t) ∈ fh_acceptance_thresholds h ->
      exists x, dict_get name (observations w s o) = Some (Some x) /\ within_threshold name t x) as ->.
  { unfold sorted_items. rewrite sorted_by_Permutation, Forall_forall. unfold meets, within_threshold.
    split; [intros H name t Hin; destruct (H (name, t) Hin) as (x & Hx & Hm)|intros H [name t] Hin; destruct (H name t Hin) as (x & Hx & Hm)];
      exists x; (split; [done|]); simpl in *; destruct (startswith "minimum_" name); by apply dleb_le. }
  unfold acceptance_checks. rewrite !Forall_cons. cbn [ac_passed]. rewrite stress_iff, !option_map_true.
  split.
  - intros (Hq & Hc & (_ & Hp & (x1 & E1 & Hs) & (x2 & E2 & Hpb) & (Hb & Hst) & (b & Eb & Hd) & (x3 & E3 & Hr) & Hk & Hdep & _) & Hfr).
    injection Hp as [Hne Hp]%andb_true_iff. apply negb_true_iff, bool_decide_eq_false in Hne. decb.
    rewrite dependency_iff in Hdep by done. destruct (cp_evidence_complete k) eqn:Ek; [|done]. cbn [negb] in Hk. injection Hk as Hk.
    constructor; try done; try (eexists; split; [eassumption|lra]).
    + split; [|done]. intros E. by rewrite E in Hne.
    + split; [done|]. intros x Hin. cbn [forallb] in Hk. rewrite !andb_true_iff in Hk. destruct Hk as (H1 & H2 & H3 & _).
      rewrite !elem_of_cons in Hin. destruct Hin as [-> |[-> |[-> |[]%not_elem_of_nil]]]; done.
  - intros [Hq Hc [Hne Hp] (x1 & E1 & Hs) (x2 & E2 & Hpb) (x3 & E3 & Hr) (b & Eb & Hd) Hst [Ek Hk] Hdep Hfr].
    split; [done|]. split; [done|]. split; [|done]. rewrite Ek. cbn [negb forallb].
    rewrite !Hk by (rewrite !elem_of_cons; auto). split_and!; try done.
    + by rewrite Hq.
    + f_equal. apply andb_true_iff. split; [|by apply dltb_lt]. apply negb_true_iff, bool_decide_eq_false. by destruct (wr_combined_oos_returns w).
    + exists x1. split; [done|]. by apply dltb_lt.
    + exists x2. split; [done|]. apply dltb_lt. lra.
    + apply Hst.
    + apply Hst.
    + exists b. split; [done|]. apply dleb_le. lra.
    + exists x3. split; [done|]. apply dleb_le. lra.
    + by apply dependency_iff.
Qed.
