(* ===== verification/VenueRisk.v ===== *)
(** * Venue risk, monitoring and discovery (domain/venues/risk.py, discovery.py, attribution.py,
      services/venue_risk.py, venue_monitor.py, emergency_hedge.py, instrument_mapping.py)

    The budget of each venue, the latest observation of each risk signal, the discovery of new
    venues, the venue that hedges an emergency, and the mapping of venue symbols to instruments.
    A [frozenset] has no order of its own: the monitor takes the order in which it iterates as
    an argument.  A fraction of a limit is the [Decimal] of its text. *)

From Stdlib Require Import ZArith QArith Qabs Lia Lqa.
From stdpp Require Import base tactics list strings.
From S2P Require Import Prelude Decimals Venues Certification.

Local Open Scope string_scope.
Local Open Scope list_scope.
Local Open Scope Q_scope.

(** ** Risk signals (domain/venues/risk.py) *)

Inductive VenueRiskSignal :=
  | SMART_CONTRACT | ORACLE_DIVERGENCE | BRIDGE | CHAIN_HALT | CONSENSUS_DEGRADATION | RPC_DISAGREEMENT
  | STABLECOIN_DEPEG | WALLET_NONCE_FAILURE | GAS_INSUFFICIENCY | FRONTEND_UNAVAILABLE | WITHDRAWAL_SUSPENSION
  | DEPOSIT_SUSPENSION | MAINTENANCE | API_DEGRADATION | MARK_INDEX_DIVERGENCE | ADL | INSURANCE_FUND_CHANGE
  | ACCOUNT_RESTRICTION | KYC_CHANGE | JURISDICTION_CHANGE.
#[export] Instance VenueRiskSignal_eq_dec : EqDecision VenueRiskSignal.
Proof. solve_decision. Defined.
Definition risk_signal_value (s : VenueRiskSignal) : string :=
  match s with
  | SMART_CONTRACT => "smart_contract_risk" | ORACLE_DIVERGENCE => "oracle_divergence" | BRIDGE => "bridge_risk"
  | CHAIN_HALT => "chain_halt" | CONSENSUS_DEGRADATION => "sequencer_or_validator_degradation"
  | RPC_DISAGREEMENT => "rpc_disagreement" | STABLECOIN_DEPEG => "stablecoin_depeg"
  | WALLET_NONCE_FAILURE => "wallet_nonce_failure" | GAS_INSUFFICIENCY => "gas_insufficiency"
  | FRONTEND_UNAVAILABLE => "frontend_unavailable" | WITHDRAWAL_SUSPENSION => "withdrawal_suspension"
  | DEPOSIT_SUSPENSION => "deposit_suspension" | MAINTENANCE => "maintenance" | API_DEGRADATION => "api_degradation"
  | MARK_INDEX_DIVERGENCE => "mark_index_divergence" | ADL => "adl_risk"
  | INSURANCE_FUND_CHANGE => "insurance_fund_change" | ACCOUNT_RESTRICTION => "account_restriction"
  | KYC_CHANGE => "kyc_status_change" | JURISDICTION_CHANGE => "jurisdiction_status_change"
  end.
Definition DEX_SIGNALS : list VenueRiskSignal :=
  [SMART_CONTRACT; ORACLE_DIVERGENCE; BRIDGE; CHAIN_HALT; CONSENSUS_DEGRADATION; RPC_DISAGREEMENT; STABLECOIN_DEPEG;
   WALLET_NONCE_FAILURE; GAS_INSUFFICIENCY; FRONTEND_UNAVAILABLE].
Definition CEX_SIGNALS : list VenueRiskSignal :=
  [WITHDRAWAL_SUSPENSION; DEPOSIT_SUSPENSION; MAINTENANCE; API_DEGRADATION; MARK_INDEX_DIVERGENCE; ADL;
   INSURANCE_FUND_CHANGE; ACCOUNT_RESTRICTION; KYC_CHANGE; JURISDICTION_CHANGE].

Record VenueRiskObservation := {
  vo_venue : string;
  vo_signal : VenueRiskSignal;
  vo_observed_at : Z;
  vo_healthy : bool;
  vo_severity : Q;
  vo_evidence : string;
}.
Definition observation_new (venue : string) (signal : VenueRiskSignal) (observed_at : datetime) (healthy : bool)
    (severity : Q) (evidence : string) : result VenueRiskObservation :=
  let! t := utc_or "risk observation timestamp must be timezone-aware" observed_at in
  require! dleb 0 severity && dleb severity 1 else ValueError "severity";
  Ok {| vo_venue := venue; vo_signal := signal; vo_observed_at := t; vo_healthy := healthy; vo_severity := severity;
        vo_evidence := evidence |}.

(** [max(xs, default=0.0)] *)
Definition max_or_zero (xs : list Q) : Q := match xs with [] => 0 | x :: xs => fold_left dmax xs x end.
Definition venue_risk_score (observations : list VenueRiskObservation) : Q :=
  match observations with
  | [] => 0
  | _ => dmin 1 (max_or_zero (map vo_severity (List.filter (fun o => negb (vo_healthy o)) observations)))
  end.

(** ** The monitor (services/venue_monitor.py) *)

Record VenueRiskMonitor := {
  vm_maximum_age : Z;
  vm_latest : list ((string * VenueRiskSignal) * VenueRiskObservation);
}.
Definition VenueRiskMonitor_new (maximum_age : Z) : result VenueRiskMonitor :=
  require! (0 <? maximum_age)%Z else ValueError "maximum age must be positive";
  Ok {| vm_maximum_age := maximum_age; vm_latest := [] |}.
Definition record (o : VenueRiskObservation) : M VenueRiskMonitor unit := fun m =>
  let key := (vo_venue o, vo_signal o) in
  if match dict_get key (vm_latest m) with Some p => (vo_observed_at o <? vo_observed_at p)%Z | None => false end
  then (m, Err (ValueError "out-of-order venue risk observation"))
  else ({| vm_maximum_age := vm_maximum_age m; vm_latest := dict_set key o (vm_latest m) |}, Ok tt).

(** What one required signal says: an observation that counts, or a reason *)
Definition judge (m : VenueRiskMonitor) (venue : string) (now : Z) (signal : VenueRiskSignal)
  : option VenueRiskObservation * list string :=
  match dict_get (venue, signal) (vm_latest m) with
  | None => (None, ["missing " +:+ risk_signal_value signal])
  | Some item =>
      if (vm_maximum_age m <? now - vo_observed_at item)%Z || (now <? vo_observed_at item)%Z
      then (None, ["stale " +:+ risk_signal_value signal])
      else (Some item, if vo_healthy item then [] else ["unhealthy " +:+ risk_signal_value signal +:+ ": " +:+ vo_evidence item])
  end.
(** [iteration] is the order in which Python iterates over a frozenset. *)
Definition execution_health (m : VenueRiskMonitor) (iteration : list VenueRiskSignal -> list VenueRiskSignal)
    (venue : string) (now : datetime) (dex : bool) : result (bool * Q * list string) :=
  let required := iteration (if dex then DEX_SIGNALS else CEX_SIGNALS) in
  let! now := utc_or "monitor timestamp must be timezone-aware" now in
  let verdicts := map (judge m venue now) required in
  let observations := omap fst verdicts in
  let reasons := mjoin (map snd verdicts) in
  Ok (bool_decide (reasons = []), venue_risk_score observations, reasons).

(** ** The budget (services/venue_risk.py) *)

Record VenueAllocationDecision := {
  vd_allowed : bool;
  vd_total_allocated : Decimal;
  vd_reasons : list string;
}.
Definition domestic_default : list string := ["gmo_coin"; "bitbank"; "bitflyer"].
Section Budget.
Context {C : DecimalContext}.
(** the limits: the fraction of the equity a venue may hold *)
Context (limits : list (string * Decimal)) (total_equity : Decimal) (allocations : list (string * Decimal))
  (domestic : list string).

Definition limit_name (venue : string) : string := if bool_decide (venue ∈ domestic) then "domestic_exchanges" else venue.
Definition venue_reasons (allocation : string * Decimal) : list string :=
  match dict_get (limit_name allocation.1) limits with
  | None => ["no venue risk limit configured for " +:+ allocation.1]
  | Some fraction => if dltb (dmul total_equity fraction) allocation.2
                     then [allocation.1 +:+ " exceeds its venue equity fraction"] else []
  end.
Definition domestic_total : Decimal :=
  dsum (map snd (List.filter (fun a : string * Decimal => bool_decide (a.1 ∈ domestic)) allocations)).
Definition budget_reasons : list string :=
  (if dltb total_equity (dsum (map snd allocations)) then ["combined venue allocation exceeds total equity"] else []) ++
  mjoin (map venue_reasons allocations) ++
  match dict_get "domestic_exchanges" limits with
  | Some fraction => if dltb (dmul total_equity fraction) domestic_total
                     then ["combined domestic allocation exceeds its equity fraction"] else []
  | None => []
  end.
Definition budget_evaluate : result VenueAllocationDecision :=
  require! negb (dleb total_equity 0) else ValueError "total equity must be positive";
  require! negb (existsb (fun a : string * Decimal => dltb a.2 0) allocations)
    else ValueError "venue allocations cannot be negative";
  let total := dsum (map snd allocations) in
  require! dleb 0 total else ValueError "total_allocated";
  Ok {| vd_allowed := bool_decide (budget_reasons = []); vd_total_allocated := total;
        vd_reasons := match budget_reasons with [] => ["within venue risk budgets"] | r => r end |}.
End Budget.

(** ** Discovery (domain/venues/discovery.py) *)

Inductive VenueCategory := CEX | DEX.
Inductive DiscoveryDecision :=
  | OBSERVE | ADD_DATA_ADAPTER | REJECT_LOW_VALUE | REJECT_INELIGIBLE | PENDING_OPERATOR_VERIFICATION.
Record VenueDiscoveryCandidate := {
  dc_venue : string;
  dc_category : VenueCategory;
  dc_official_docs_url : string;
  dc_terms_url : option string;
  dc_operator_account_verified : bool;
  dc_public_api_reachable : bool;
  dc_unique_instrument_count : option Z;
  dc_funding_observation_count : Z;
  dc_incremental_opportunity_count : Z;
  dc_incremental_expected_net_pnl : Decimal;
  dc_api_uptime : option Q;
  dc_median_executable_depth_usd : option Decimal;
  dc_evaluated_from : option Z;
  dc_evaluated_to : option Z;
  dc_decision : DiscoveryDecision;
}.
Definition at_least (x : option Q) (minimum : Q) : bool := match x with Some x => dleb minimum x | None => false end.
Definition eligible_for_adapter (c : VenueDiscoveryCandidate) (minimum_uptime : Q) (minimum_depth_usd : Decimal)
    (withdrawals_verified requires_location_evasion emergency_hedge_value : bool) : bool :=
  match dc_evaluated_from c, dc_evaluated_to c with
  | Some start, Some stop =>
      (days 30 <=? stop - start)%Z && dc_operator_account_verified c && dc_public_api_reachable c &&
      negb requires_location_evasion && dltb 0 (dc_incremental_expected_net_pnl c) &&
      ((0 <? dc_incremental_opportunity_count c)%Z || emergency_hedge_value) &&
      at_least (dc_api_uptime c) minimum_uptime && at_least (dc_median_executable_depth_usd c) minimum_depth_usd &&
      withdrawals_verified
  | _, _ => false
  end.
Definition discovery_candidate (venue docs terms : string) : VenueDiscoveryCandidate := {|
  dc_venue := venue; dc_category := CEX; dc_official_docs_url := docs; dc_terms_url := Some terms;
  dc_operator_account_verified := false; dc_public_api_reachable := false; dc_unique_instrument_count := None;
  dc_funding_observation_count := 0; dc_incremental_opportunity_count := 0; dc_incremental_expected_net_pnl := 0;
  dc_api_uptime := None; dc_median_executable_depth_usd := None; dc_evaluated_from := None; dc_evaluated_to := None;
  dc_decision := PENDING_OPERATOR_VERIFICATION |}.
Definition DISCOVERY_REGISTRY : list VenueDiscoveryCandidate :=
  [discovery_candidate "btcc" "https://www.btcc.com/en-US/api-documentation" "https://www.btcc.com/en-US/terms";
   discovery_candidate "gateio" "https://www.gate.com/docs/developers/apiv4/en/" "https://www.gate.com/legal/user-agreement"].

(** ** Emergency hedges (services/emergency_hedge.py); the adapter is its [is_concrete]. *)

Record HedgeVenueCandidate := {
  hc_venue : string;
  hc_is_concrete : bool;
  hc_eligible : bool;
  hc_live_health : bool;
  hc_instrument_equivalent : bool;
  hc_executable_depth : Decimal;
  hc_estimated_slippage : Decimal;
  hc_latency_ms : Decimal;
  hc_available_collateral : Decimal;
  hc_withdrawals_available : bool;
  hc_chain_healthy : bool;
  hc_exposure_within_budget : bool;
}.
Definition hedge_gates (c : HedgeVenueCandidate) : bool :=
  hc_eligible c && hc_live_health c && hc_instrument_equivalent c && hc_withdrawals_available c && hc_chain_healthy c &&
  hc_exposure_within_budget c && hc_is_concrete c && dltb 0 (hc_available_collateral c) && dltb 0 (hc_executable_depth c).
(** Tuples of numbers compare as texts do, by the first difference. *)
Fixpoint tuple_ltb (a b : list Q) : bool :=
  match a, b with
  | _, [] => false
  | [], _ => true
  | x :: a, y :: b => if deqb x y then tuple_ltb a b else dltb x y
  end.
Definition hedge_key {C : DecimalContext} (c : HedgeVenueCandidate) : list Q :=
  [hc_executable_depth c; dneg (hc_estimated_slippage c); dneg (hc_latency_ms c); hc_available_collateral c].
Definition select_emergency_hedge {C : DecimalContext} (candidates : list HedgeVenueCandidate) : result HedgeVenueCandidate :=
  match List.filter hedge_gates candidates with
  | [] => Err (RuntimeError "no concrete execution venue satisfies emergency hedge gates")
  | first :: rest => Ok (fold_left (fun best c => if tuple_ltb (hedge_key best) (hedge_key c) then c else best) rest first)
  end.

(** ** Instruments (domain/venues/models.py, services/instrument_mapping.py) *)

Inductive InstrumentKind := SPOT | PERPETUAL | DATED_FUTURE.
#[export] Instance InstrumentKind_eq_dec : EqDecision InstrumentKind.
Proof. solve_decision. Defined.

Record CanonicalInstrument := {
  ci_instrument_id : string;
  ci_base_asset_id : string;
  ci_quote_asset_id : string;
  ci_settlement_asset_id : string;
  ci_kind : InstrumentKind;
  ci_inverse : bool;
  ci_contract_multiplier : Decimal;
  ci_index_composition_id : string;
  ci_funding_interval_minutes : option Z;
  ci_expiry : option datetime;
}.
Definition positive_minutes (m : option Z) : bool := match m with Some m => (0 <? m)%Z | None => true end.
Definition CanonicalInstrument_validate (i : CanonicalInstrument) : result CanonicalInstrument :=
  require! dltb 0 (ci_contract_multiplier i) else ValueError "contract_multiplier";
  require! positive_minutes (ci_funding_interval_minutes i) else ValueError "funding_interval_minutes";
  require! negb (bool_decide (ci_kind i = PERPETUAL) && bool_decide (ci_funding_interval_minutes i = None))
    else ValueError "perpetual instruments require a funding interval";
  require! match ci_kind i, ci_expiry i with DATED_FUTURE, None => false | _, _ => true end
    else ValueError "dated futures require expiry";
  match ci_expiry i with
  | Some expiry => let! _ := utc_or "timestamp must be timezone-aware" expiry in Ok i
  | None => Ok i
  end.

Record VenueInstrumentMapping := {
  vi_venue : string;
  vi_venue_symbol : string;
  vi_canonical_instrument_id : string;
  vi_base : string;
  vi_quote : string;
  vi_settlement : string;
  vi_kind : InstrumentKind;
  vi_inverse : bool;
  vi_contract_multiplier : Decimal;
  vi_index_composition_id : string;
  vi_funding_interval_minutes : option Z;
  vi_verified_at : Z;
}.
Definition matches (self : VenueInstrumentMapping) (i : CanonicalInstrument) : bool :=
  bool_decide (vi_canonical_instrument_id self = ci_instrument_id i) && bool_decide (vi_base self = ci_base_asset_id i) &&
  bool_decide (vi_quote self = ci_quote_asset_id i) && bool_decide (vi_settlement self = ci_settlement_asset_id i) &&
  bool_decide (vi_kind self = ci_kind i) && bool_decide (vi_inverse self = ci_inverse i) &&
  deqb (vi_contract_multiplier self) (ci_contract_multiplier i) &&
  bool_decide (vi_index_composition_id self = ci_index_composition_id i) &&
  bool_decide (vi_funding_interval_minutes self = ci_funding_interval_minutes i).

Record InstrumentMappingRegistry := {
  ir_instruments : list (string * CanonicalInstrument);
  ir_mappings : list ((string * string) * VenueInstrumentMapping);
}.
(** [{key(item): item for item in items}] *)
Definition dict_of {K V} `{EqDecision K} (key : V -> K) (items : list V) : list (K * V) :=
  fold_left (fun d v => dict_set (key v) v d) items [].
Definition InstrumentMappingRegistry_new (instruments : list CanonicalInstrument) (mappings : list VenueInstrumentMapping)
  : result InstrumentMappingRegistry :=
  let by_id := dict_of ci_instrument_id instruments in
  let by_symbol := dict_of (fun m => (vi_venue m, vi_venue_symbol m)) mappings in
  require! (size by_id =? size instruments)%Z && (size by_symbol =? size mappings)%Z
    else ValueError "duplicate canonical instrument or venue mapping";
  match List.filter (fun m => negb match dict_get (vi_canonical_instrument_id m) by_id with
                                   | Some i => matches m i | None => false end) mappings with
  | m :: _ => Err (ValueError ("inconsistent venue mapping: " +:+ vi_venue m +:+ ":" +:+ vi_venue_symbol m))
  | [] => Ok {| ir_instruments := by_id; ir_mappings := by_symbol |}
  end.
Definition resolve (self : InstrumentMappingRegistry) (venue venue_symbol : string) : result CanonicalInstrument :=
  match dict_get (venue, venue_symbol) (ir_mappings self) with
  | None => Err KeyError
  | Some m => match dict_get (vi_canonical_instrument_id m) (ir_instruments self) with
              | Some i => Ok i
              | None => Err KeyError
              end
  end.
Definition require_same_instrument (self : InstrumentMappingRegistry) (left right : string * string)
  : result CanonicalInstrument :=
  let! l := resolve self left.1 left.2 in
  let! r := resolve self right.1 right.2 in
  require! bool_decide (ci_instrument_id l = ci_instrument_id r)
    else ValueError "venue symbols do not represent the same canonical instrument";
  Ok l.

(** ** Attribution (domain/venues/attribution.py) *)

Record VenueValueAttribution := {
  va_venue : string;
  va_opportunities_discovered : Z;
  va_opportunities_unique_to_venue : Z;
  va_gross_edge_contribution : Decimal;
  va_net_edge_contribution : Decimal;
  va_fees : Decimal;
  va_slippage : Decimal;
  va_failed_leg_cost : Decimal;
  va_stale_data_rejection_count : Z;
  va_api_outage_count : Z;
  va_venue_exclusion_count : Z;
  va_capital_required : Decimal;
  va_capital_efficiency : Decimal;
  va_maximum_venue_exposure : Decimal;
  va_risk_reduction : Decimal;
}.
Definition aggregate_venue_value {C : DecimalContext} (rows : list VenueValueAttribution)
  : list VenueValueAttribution * Decimal * Decimal :=
  (rows, dsum (map va_net_edge_contribution rows), dsum (map va_risk_reduction rows)).

(** ** The monitor reports exactly what was observed *)

Section Monitor.
Context (m : VenueRiskMonitor) (venue : string) (now : Z).

(** The latest observation of a signal, no older than the maximum age and not of the future *)
Definition observed (signal : VenueRiskSignal) (o : VenueRiskObservation) : Prop :=
  dict_get (venue, signal) (vm_latest m) = Some o /\ (vo_observed_at o <= now <= vo_observed_at o + vm_maximum_age m)%Z.

Lemma judge_spec signal :
  match judge m venue now signal with
  | (Some o, reasons) => observed signal o /\ (reasons = [] <-> vo_healthy o = true)
  | (None, reasons) => reasons <> [] /\ forall o, ~ observed signal o
  end.
Proof.
  unfold judge, observed. destruct (dict_get _ _) as [o|]; [|by split; [|intros o []]].
  destruct (_ <? _)%Z eqn:E1; simpl; [rewrite Z.ltb_lt in E1; split; [done|]; intros o' [[= <-] ?]; lia|].
  destruct (now <? vo_observed_at o)%Z eqn:E2; [rewrite Z.ltb_lt in E2; split; [done|]; intros o' [[= <-] ?]; lia|].
  rewrite Z.ltb_ge in E1, E2. split; [split; [done|lia]|]. by destruct (vo_healthy o).
Qed.

Lemma mjoin_nil {A} (xss : list (list A)) : mjoin xss = [] <-> Forall (fun xs => xs = []) xss.
Proof.
  induction xss as [|xs xss IH]; [done|]. rewrite Forall_cons, <- IH. simpl.
  split; [by intros [-> ->]%app_nil|]. intros [-> E]. exact E.
Qed.

Lemma max_or_zero_bounds xs hi : 0 <= hi -> Forall (fun x => 0 <= x /\ x <= hi) xs -> 0 <= max_or_zero xs <= hi.
Proof.
  intros Hhi. destruct xs as [|x xs]; simpl; [lra|]. rewrite Forall_cons. intros [Hx Hxs]. revert x Hx.
  induction Hxs as [|y ys Hy _ IH]; intros x Hx; simpl; [done|]. apply IH. dminmax; lra.
Qed.
Lemma max_or_zero_upper xs x : x ∈ xs -> x <= max_or_zero xs.
Proof.
  destruct xs as [|y ys]; [by intros ?%elem_of_nil|]. simpl.
  assert (forall ys a, a <= fold_left dmax ys a) as Ha.
  { clear. induction ys as [|y ys IH]; intros a; simpl; [lra|]. eapply Qle_trans; [|apply IH]. dminmax; lra. }
  revert y. induction ys as [|z ys IH]; intros y; rewrite elem_of_cons.
  - intros [->|?%elem_of_nil]; [simpl; lra|done].
  - intros [->|Hin]; simpl; [eapply Qle_trans; [|apply Ha]; dminmax; lra|].
    apply elem_of_cons in Hin as [->|Hin]; [eapply Qle_trans; [|apply Ha]; dminmax; lra|].
    apply (IH (dmax y z)). by right.
Qed.
End Monitor.

(** The observations the monitor was told, one call after the other *)
Definition told (observations : list VenueRiskObservation) (m : VenueRiskMonitor) : VenueRiskMonitor :=
  fold_left (fun m o => (record o m).1) observations m.
Definition about (key : string * VenueRiskSignal) (o : VenueRiskObservation) : bool :=
  bool_decide ((vo_venue o, vo_signal o) = key).
(** The newest observation of a signal, the later told of two of one time *)
Definition newer (best : option VenueRiskObservation) (o : VenueRiskObservation) : option VenueRiskObservation :=
  match best with
  | Some p => if (vo_observed_at o <? vo_observed_at p)%Z then best else Some o
  | None => Some o
  end.
Definition newest (key : string * VenueRiskSignal) (observations : list VenueRiskObservation) : option VenueRiskObservation :=
  fold_left newer (List.filter (about key) observations) None.

Lemma record_latest o m key :
  dict_get key (vm_latest (record o m).1) =
    (if about key o then newer (dict_get key (vm_latest m)) o else dict_get key (vm_latest m)) /\
  vm_maximum_age (record o m).1 = vm_maximum_age m.
Proof.
  unfold record, about, newer. case_bool_decide as E; simpl.
  - rewrite E. destruct (dict_get key (vm_latest m)) as [p|] eqn:Ep; [destruct (_ <? _)%Z eqn:El|]; simpl;
      rewrite ?El; (split; [|done]); rewrite ?dict_get_set_eq; done.
  - destruct (match dict_get _ _ with Some _ => _ | None => _ end); simpl; [done|].
    by rewrite dict_get_set_ne by congruence.
Qed.
Lemma told_latest observations : forall m key,
  dict_get key (vm_latest (told observations m)) =
    fold_left newer (List.filter (about key) observations) (dict_get key (vm_latest m)) /\
  vm_maximum_age (told observations m) = vm_maximum_age m.
Proof.
  induction observations as [|o os IH]; intros m key; [done|]. simpl. destruct (record_latest o m key) as [E1 E2].
  destruct (IH (record o m).1 key) as [E3 E4]. unfold told in *. simpl. rewrite E3, E4, E1, E2. by destruct (about key o).
Qed.

(** [newest] is the reference: a told observation of the signal that none is newer than. *)
Lemma newest_spec key observations o :
  newest key observations = Some o ->
  o ∈ observations /\ about key o = true /\
  Forall (fun p => about key p = true -> (vo_observed_at p <= vo_observed_at o)%Z) observations.
Proof.
  unfold newest.
  assert (forall xs best, fold_left newer xs best = Some o ->
    (best = Some o \/ o ∈ xs) /\ Forall (fun p => vo_observed_at p <= vo_observed_at o)%Z (xs ++ option_list best)) as H.
  { intros xs. induction xs as [|x xs IH]; intros best; simpl.
    - intros ->. simpl. split; [by left|]. repeat constructor. lia.
    - intros E. apply IH in E as [Hin Hall]. destruct best as [p|]; simpl in *.
      + destruct (_ <? _)%Z eqn:El; simpl in *; [rewrite Z.ltb_lt in El|rewrite Z.ltb_ge in El].
        * split; [destruct Hin; [by left|right; by right]|]. constructor; [|done].
          apply Forall_app in Hall as [_ [Hp _]%Forall_cons]. lia.
        * apply Forall_app in Hall as [Hxs [Hx _]%Forall_cons].
          split; [destruct Hin as [[= ->]|]; right; [by left|by right]|].
          constructor; [done|]. apply Forall_app. split; [done|]. repeat constructor. lia.
      + split; [destruct Hin as [[= ->]|]; right; [by left|by right]|].
        apply Forall_app in Hall as [Hxs [Hx _]%Forall_cons]. constructor; [done|]. by rewrite app_nil_r. }
  intros E. apply H in E as [[?|Hin] Hall]; [done|]. simpl in Hall. rewrite app_nil_r in Hall.
  rewrite list_elem_of_In, filter_In, <- list_elem_of_In in Hin. destruct Hin as [Hin Ha]. split_and!; [done|done|].
  rewrite !Forall_forall in *. intros p Hp Hap. apply Hall. by rewrite list_elem_of_In, filter_In, <- list_elem_of_In.
Qed.

Lemma omap_fst_judge m venue now required o :
  o ∈ omap fst (map (judge m venue now) required) <-> exists s, s ∈ required /\ observed m venue now s o.
Proof.
  rewrite list_elem_of_omap. setoid_rewrite (list_elem_of_fmap (judge m venue now)). split.
  - intros ([x reasons] & (s & E & Hs) & Ho). simpl in Ho. subst x. pose proof (judge_spec m venue now s) as J.
    rewrite <- E in J. destruct J as [J _]. exists s. by split.
  - intros (s & Hs & Ho). pose proof (judge_spec m venue now s) as J.
    destruct (judge m venue now s) as [[o'|] reasons] eqn:E; [|by destruct (proj2 J o)].
    destruct J as [[J _] _], Ho as [Ho _]. rewrite J in Ho. injection Ho as ->. exists (Some o, reasons). split; [|done].
    by exists s.
Qed.

Lemma score_bounds observations :
  Forall (fun o => 0 <= vo_severity o /\ vo_severity o <= 1) observations ->
  0 <= venue_risk_score observations <= 1 /\
  (Forall (fun o => vo_healthy o = true) observations -> venue_risk_score observations == 0) /\
  Forall (fun o => vo_healthy o = false -> vo_severity o <= venue_risk_score observations) observations.
Proof.
  intros H. set (bad := List.filter (fun o => negb (vo_healthy o)) observations).
  assert (forall o, o ∈ bad <-> o ∈ observations /\ vo_healthy o = false) as Hbad.
  { intros o. unfold bad. rewrite !list_elem_of_In, filter_In. by rewrite negb_true_iff. }
  assert (0 <= max_or_zero (map vo_severity bad) <= 1) as Hb.
  { apply max_or_zero_bounds; [lra|]. apply Forall_forall. intros x (o & -> & [Ho _]%Hbad)%(list_elem_of_fmap vo_severity).
    rewrite Forall_forall in H. by apply H. }
  assert (venue_risk_score observations == max_or_zero (map vo_severity bad)) as E.
  { unfold venue_risk_score. destruct observations; [done|]. fold bad. dminmax; lra. }
  rewrite E. split_and!; [lra|lra| |].
  - intros Hh. destruct bad as [|o bad']; [done|]. destruct (proj1 (Hbad o) ltac:(by left)) as [Ho Hf].
    rewrite Forall_forall in Hh. by rewrite (Hh o Ho) in Hf.
  - apply Forall_forall. intros o Ho Hf. rewrite E. apply max_or_zero_upper.
    apply (list_elem_of_fmap_2 vo_severity). by apply Hbad.
Qed.

(** C16: after any sequence of observations, told in or out of order, a venue is healthy exactly when
    every signal required of its kind of venue has an observation whose newest is fresh, not of the future, and
    healthy; the score is in [0, 1], at least the severity of every fresh unhealthy observation,
    and zero when the venue is healthy. *)
Theorem venue_healthy_iff observations iteration venue now (dex : bool) maximum_age m :
  (forall signals, iteration signals ≡ₚ signals) ->
  VenueRiskMonitor_new maximum_age = Ok m ->
  Forall (fun o => 0 <= vo_severity o /\ vo_severity o <= 1) observations ->
  exists healthy score reasons,
    let required := if dex then DEX_SIGNALS else CEX_SIGNALS in
    execution_health (told observations m) iteration venue (Aware now) dex = Ok (healthy, score, reasons) /\
    (healthy = true <-> forall s, s ∈ required -> exists o, newest (venue, s) observations = Some o /\
       (vo_observed_at o <= now <= vo_observed_at o + maximum_age)%Z /\ vo_healthy o = true) /\
    0 <= score <= 1 /\ (healthy = true -> score == 0) /\ (healthy = true <-> reasons = []) /\
    (forall s o, s ∈ required -> newest (venue, s) observations = Some o ->
       (vo_observed_at o <= now <= vo_observed_at o + maximum_age)%Z -> vo_healthy o = false -> vo_severity o <= score).
Proof.
  unfold VenueRiskMonitor_new. intros Hit. destruct (0 <? maximum_age)%Z; [|done]. intros [= <-] Hs.
  set (m := told observations _).
  assert (forall s o, observed m venue now s o <-> newest (venue, s) observations = Some o /\
    (vo_observed_at o <= now <= vo_observed_at o + maximum_age)%Z) as Ho.
  { intros s o. unfold observed, m. destruct (told_latest observations {| vm_maximum_age := maximum_age; vm_latest := [] |}
      (venue, s)) as [-> ->]. done. }
  unfold execution_health. cbn [utc_or rbind]. generalize (Hit (if dex then DEX_SIGNALS else CEX_SIGNALS)).
  generalize (iteration (if dex then DEX_SIGNALS else CEX_SIGNALS)) as required. generalize (if dex then DEX_SIGNALS else CEX_SIGNALS).
  intros signals required Hp. set (os := omap fst _). set (reasons := mjoin _).
  exists (bool_decide (reasons = [])), (venue_risk_score os), reasons. split; [done|]. setoid_rewrite <- Hp. rewrite bool_decide_eq_true.
  assert (Forall (fun o => 0 <= vo_severity o /\ vo_severity o <= 1) os) as Hos.
  { apply Forall_forall. intros o (s & _ & [Hn _]%Ho)%omap_fst_judge. apply newest_spec in Hn as [Hin _].
    rewrite Forall_forall in Hs. by apply Hs. }
  destruct (score_bounds os Hos) as (B1 & B2 & B3).
  assert (reasons = [] <-> forall s, s ∈ required -> exists o, observed m venue now s o /\ vo_healthy o = true) as Hr.
  { unfold reasons. rewrite mjoin_nil, map_map, Forall_map, Forall_forall. apply forall_proper. intros s.
    pose proof (judge_spec m venue now s) as J. destruct (judge m venue now s) as [[o|] why]; simpl.
    - destruct J as [J ->]. split; [intros H Hin; exists o; auto|]. intros H Hin. destruct (H Hin) as (o' & [Ho' _] & Hh).
      destruct J as [J _]. rewrite J in Ho'. by injection Ho' as ->.
    - destruct J as [J1 J2]. split; [intros H Hin; by destruct (J1 (H Hin))|]. intros H Hin.
      destruct (H Hin) as (o & Hob & _). by destruct (J2 o). }
  split_and!; [|lra|lra| |done|].
  - rewrite Hr. split; intros H s Hin; destruct (H s Hin) as (o & Hob & Hh); exists o.
    + apply Ho in Hob as [? ?]. split; [done|]. by split.
    + destruct Hh as [Hh ?]. split; [|done]. apply Ho. by split.
  - rewrite Hr. intros H. apply B2. apply Forall_forall. intros o (s & Hin & Hob)%omap_fst_judge.
    destruct (H s Hin) as (o' & [Ho' _] & Hh). destruct Hob as [Hob _]. rewrite Hob in Ho'. by injection Ho' as ->.
  - intros s o Hin Hn Hf Hh. rewrite Forall_forall in B3. apply B3; [|done]. apply omap_fst_judge. exists s. split; [done|].
    apply Ho. by split.
Qed.

(** ** The budget allows exactly the allocations within every limit *)

Section BudgetLemmas.
Context {C : DecimalContext}.

Definition within_limit (limits : list (string * Decimal)) (equity : Decimal) (name : string) (amount : Decimal) : Prop :=
  exists fraction, dict_get name limits = Some fraction /\ amount <= dmul equity fraction.

Lemma venue_reasons_nil limits equity domestic a :
  venue_reasons limits equity domestic a = [] <-> within_limit limits equity (limit_name domestic a.1) a.2.
Proof.
  unfold venue_reasons, within_limit. destruct (dict_get _ limits) as [fraction|]; [|split; [done|by intros (? & ? & _)]].
  destruct (dltb _ _) eqn:E; decb.
  - split; [done|]. intros (f & [= <-] & H). lra.
  - split; [|done]. intros _. by exists fraction.
Qed.

Theorem budget_allows_iff limits equity allocations domestic :
  0 < equity -> Forall (fun a => 0 <= a.2) allocations -> 0 <= dsum (map snd allocations) ->
  exists d, budget_evaluate limits equity allocations domestic = Ok d /\
    (vd_allowed d = true <->
       dsum (map snd allocations) <= equity /\
       Forall (fun a => within_limit limits equity (limit_name domestic a.1) a.2) allocations /\
       (forall fraction, dict_get "domestic_exchanges" limits = Some fraction ->
          domestic_total allocations domestic <= dmul equity fraction)).
Proof.
  intros He Ha Ht. unfold budget_evaluate. rewrite (proj2 (dleb_gt equity 0) He). cbn [negb].
  assert (existsb (fun a : string * Decimal => dltb a.2 0) allocations = false) as ->.
  { apply not_true_is_false. intros (a & Hin & H)%existsb_exists. rewrite <- list_elem_of_In in Hin.
    rewrite Forall_forall in Ha. specialize (Ha a Hin). decb. lra. }
  cbn [negb]. rewrite (proj2 (dleb_le _ _) Ht). eexists; split; [done|]. simpl. rewrite bool_decide_eq_true.
  unfold budget_reasons. rewrite !app_nil, mjoin_nil, Forall_map.
  assert (Forall (fun a => venue_reasons limits equity domestic a = []) allocations <->
          Forall (fun a => within_limit limits equity (limit_name domestic a.1) a.2) allocations) as ->.
  { apply Forall_iff. intros a. apply venue_reasons_nil. }
  f_equiv; [destruct (dltb _ _) eqn:E; decb; [split; [done|]; lra|done]|]. f_equiv.
  destruct (dict_get "domestic_exchanges" limits) as [fraction|]; [|done].
  destruct (dltb _ _) eqn:E; decb.
  - split; [done|]. intros H. specialize (H fraction eq_refl). lra.
  - split; [|done]. by intros _ f [= <-].
Qed.

(** ** The venue of an emergency hedge is the best that passes the gates *)

Lemma tuple_ltb_irrefl a : tuple_ltb a a = false.
Proof. induction a as [|x a IH]; simpl; [done|]. by rewrite (proj2 (deqb_eq x x) (Qeq_refl x)). Qed.
Lemma tuple_ltb_asym a : forall b, tuple_ltb a b = true -> tuple_ltb b a = false.
Proof.
  induction a as [|x a IH]; intros [|y b]; simpl; try done. destruct (deqb x y) eqn:E.
  - rewrite (proj2 (deqb_eq y x) (Qeq_sym _ _ (proj1 (deqb_eq x y) E))). apply IH.
  - assert (deqb y x = false) as -> by (decb; intros H; apply E; by symmetry). decb. lra.
Qed.
(** [tuple_ltb] is false the other way round along a chain. *)
Lemma tuple_ltb_neg a : forall b c, length a = length b -> length b = length c ->
  tuple_ltb b a = false -> tuple_ltb c b = false -> tuple_ltb c a = false.
Proof.
  induction a as [|x a IH]; intros [|y b] [|z c] L1 L2; simpl in *; try done.
  destruct (deqb y x) eqn:E1, (deqb z y) eqn:E2; destruct (deqb z x) eqn:E3; decb; intros H1 H2; try lra.
  injection L1 as L1. injection L2 as L2. by apply (IH b c).
Qed.

Lemma best_hedge rest : forall first,
  let best := fold_left (fun best c => if tuple_ltb (hedge_key best) (hedge_key c) then c else best) rest first in
  best ∈ first :: rest /\ Forall (fun c => tuple_ltb (hedge_key best) (hedge_key c) = false) (first :: rest).
Proof.
  induction rest as [|x rest IH]; intros first; cbn [fold_left]; cbv zeta.
  { split; [by left|]. constructor; [apply tuple_ltb_irrefl|constructor]. }
  destruct (IH (if tuple_ltb (hedge_key first) (hedge_key x) then x else first)) as [Hin Hall].
  set (b := fold_left _ _ _) in *. apply Forall_cons in Hall as [Hx Hrest].
  destruct (tuple_ltb (hedge_key first) (hedge_key x)) eqn:E.
  - split; [by right|]. constructor; [|by constructor].
    apply (tuple_ltb_neg _ (hedge_key x)); [done|done|by apply tuple_ltb_asym|done].
  - split; [apply elem_of_cons in Hin as [->|Hin]; [by left|right; by right]|].
    constructor; [done|]. constructor; [|done]. by apply (tuple_ltb_neg _ (hedge_key first)).
Qed.

Theorem emergency_hedge_best candidates :
  match select_emergency_hedge candidates with
  | Ok c => c ∈ candidates /\ hedge_gates c = true /\
            Forall (fun d => hedge_gates d = true -> tuple_ltb (hedge_key c) (hedge_key d) = false) candidates
  | Err _ => Forall (fun d => hedge_gates d = false) candidates
  end.
Proof.
  unfold select_emergency_hedge.
  assert (forall d, d ∈ List.filter hedge_gates candidates <-> d ∈ candidates /\ hedge_gates d = true) as H
    by (intros d; by rewrite !list_elem_of_In, filter_In).
  destruct (List.filter hedge_gates candidates) as [|first rest].
  - apply Forall_forall. intros d Hd. apply not_true_is_false. intros Hg.
    by destruct (proj1 (elem_of_nil d) (proj2 (H d) (conj Hd Hg))).
  - destruct (best_hedge rest first) as [Hin Hall]. set (b := fold_left _ _ _) in *.
    apply H in Hin as [Hin Hg]. split_and!; [done|done|]. rewrite !Forall_forall in *. intros d Hd Hgd.
    apply Hall, H. by split.
Qed.

End BudgetLemmas.

(** ** A registry resolves every mapped symbol to the instrument its mapping describes *)

Lemma dict_of_get {K V} `{EqDecision K} (key : V -> K) items k v :
  dict_get k (dict_of key items) = Some v -> v ∈ items /\ key v = k.
Proof.
  unfold dict_of. enough (forall d, dict_get k (fold_left (fun d v => dict_set (key v) v d) items d) = Some v ->
    dict_get k d = Some v \/ v ∈ items /\ key v = k) as H by (intros E; by destruct (H [] E)).
  induction items as [|x items IH]; intros d; simpl; [by left|]. intros [E|[? ?]]%IH; [|right; split; [by right|done]].
  destruct (decide (k = key x)) as [->|Hne]; [|rewrite dict_get_set_ne in E by done; by left].
  rewrite dict_get_set_eq in E. injection E as <-. right. by split; [left|].
Qed.

Theorem mapped_symbols_match instruments mappings registry venue symbol i :
  InstrumentMappingRegistry_new instruments mappings = Ok registry -> resolve registry venue symbol = Ok i ->
  exists m, m ∈ mappings /\ vi_venue m = venue /\ vi_venue_symbol m = symbol /\ matches m i = true /\ i ∈ instruments.
Proof.
  unfold InstrumentMappingRegistry_new, resolve. destruct (_ && _); [|done].
  destruct (List.filter _ mappings) as [|? ?] eqn:Ef; [|done]. intros [= <-]. simpl.
  destruct (dict_get (venue, symbol) _) as [m|] eqn:Em; [|done].
  destruct (dict_get (vi_canonical_instrument_id m) _) as [j|] eqn:Ei; [|done]. intros [= <-].
  apply (dict_of_get (fun m => (vi_venue m, vi_venue_symbol m))) in Em as [Hm [= Hv Hs]].
  pose proof (dict_of_get ci_instrument_id _ _ _ Ei) as [Hi _].
  exists m. split_and!; try done. destruct (matches m j) eqn:E; [done|]. exfalso.
  assert (m ∈ List.filter (fun m => negb match dict_get (vi_canonical_instrument_id m) (dict_of ci_instrument_id instruments) with
                                   | Some i => matches m i | None => false end) mappings) as Hin.
  { rewrite list_elem_of_In, filter_In, <- list_elem_of_In. split; [done|]. by rewrite Ei, E. }
  rewrite Ef in Hin. by apply elem_of_nil in Hin.
Qed.

(** A registry never fails to resolve a symbol it maps. *)
Theorem mapped_symbols_resolve instruments mappings registry m :
  InstrumentMappingRegistry_new instruments mappings = Ok registry -> m ∈ mappings ->
  exists i, resolve registry (vi_venue m) (vi_venue_symbol m) = Ok i.
Proof.
  unfold InstrumentMappingRegistry_new, resolve. destruct (_ && _); [|done].
  destruct (List.filter _ mappings) as [|? ?] eqn:Ef; [|done]. intros [= <-] Hm. simpl.
  assert (is_Some (dict_get (vi_venue m, vi_venue_symbol m) (dict_of (fun m => (vi_venue m, vi_venue_symbol m)) mappings))) as [m' Em].
  { clear Ef. unfold dict_of. assert (forall xs k (d : list ((string * string) * VenueInstrumentMapping)),
      is_Some (dict_get k d) -> is_Some (dict_get k (fold_left (fun d v => dict_set (vi_venue v, vi_venue_symbol v) v d) xs d))) as Hk.
    { clear. induction xs as [|x xs IH]; intros k d Hd; simpl; [done|]. apply IH.
      destruct (decide (k = (vi_venue x, vi_venue_symbol x))) as [->|]; [by rewrite dict_get_set_eq|by rewrite dict_get_set_ne]. }
    generalize (@nil ((string * string) * VenueInstrumentMapping)). induction mappings as [|x xs IH]; intros d;
      [by apply elem_of_nil in Hm|]. simpl. apply elem_of_cons in Hm as [<-|Hm]; [|by apply IH].
    apply Hk. by rewrite dict_get_set_eq. }
  rewrite Em. apply (dict_of_get (fun m => (vi_venue m, vi_venue_symbol m))) in Em as [Hm' _].
  destruct (dict_get (vi_canonical_instrument_id m') _) as [i|] eqn:Ei; [by exists i|]. exfalso.
  assert (m' ∈ List.filter (fun m => negb match dict_get (vi_canonical_instrument_id m) (dict_of ci_instrument_id instruments) with
                                   | Some i => matches m i | None => false end) mappings) as Hin.
  { rewrite list_elem_of_In, filter_In, <- list_elem_of_In. split; [done|]. by rewrite Ei. }
  rewrite Ef in Hin. by apply elem_of_nil in Hin.
Qed.

Module VenueSample.

Definition seen (signal : VenueRiskSignal) : VenueRiskObservation := {|
  vo_venue := "hyperliquid"; vo_signal := signal; vo_observed_at := 1000000; vo_healthy := true; vo_severity := 1 # 10;
  vo_evidence := "ok" |}.
Definition halted : VenueRiskObservation := {|
  vo_venue := "hyperliquid"; vo_signal := CHAIN_HALT; vo_observed_at := 2000000; vo_healthy := false; vo_severity := 9 # 10;
  vo_evidence := "no blocks" |}.
Definition feed : list VenueRiskObservation := map seen DEX_SIGNALS ++ [halted; seen CHAIN_HALT].
Definition monitor : VenueRiskMonitor := {| vm_maximum_age := 300000000; vm_latest := [] |}.

(** The late report of a healthy chain does not hide the halt. *)
Example halt_is_reported :
  execution_health (told feed monitor) (@rev _) "hyperliquid" (Aware 2000000) true =
    Ok (false, 9 # 10, ["unhealthy chain_halt: no blocks"]) /\
  execution_health (told (map seen DEX_SIGNALS) monitor) (@rev _) "hyperliquid" (Aware 2000000) true = Ok (true, 0, []).
Proof. by vm_compute. Qed.

Lemma venue_healthy_iff_witness :
  exists healthy score reasons,
    execution_health (told feed monitor) (@rev _) "hyperliquid" (Aware 2000000) true = Ok (healthy, score, reasons) /\
    (healthy = true <-> forall s, s ∈ DEX_SIGNALS -> exists o, newest ("hyperliquid", s) feed = Some o /\
       (vo_observed_at o <= 2000000 <= vo_observed_at o + 300000000)%Z /\ vo_healthy o = true) /\
    0 <= score <= 1 /\ (healthy = true -> score == 0) /\ (healthy = true <-> reasons = []) /\
    (forall s o, s ∈ DEX_SIGNALS -> newest ("hyperliquid", s) feed = Some o ->
       (vo_observed_at o <= 2000000 <= vo_observed_at o + 300000000)%Z -> vo_healthy o = false -> vo_severity o <= score).
Proof.
  apply (venue_healthy_iff feed (@rev _) "hyperliquid" 2000000 true 300000000 monitor); [|reflexivity|].
  { intros signals. symmetry. apply Permutation_rev. }
  repeat constructor; discriminate.
Defined.

End VenueSample.
