(* ===== verification/CrossVenue.v ===== *)
(** * Cross-venue opportunities and the clocks of venues (domain/strategies/cross_venue.py,
      liquidation.py, capabilities.py, domain/market_data/clock.py)

    The offset of each venue's clock, the carry of two funding legs, and the spread that two
    books can execute.  Both strategies take evidence for the two venues before anything else.
    The current time and the monotonic clock are arguments. *)

From Stdlib Require Import ZArith QArith Qabs Lia Lqa.
From stdpp Require Import base tactics list strings.
From S2P Require Import Prelude Decimals Venues Evidence Certification.

Local Open Scope string_scope.
Local Open Scope list_scope.
Local Open Scope Q_scope.

(** ** Clocks (domain/market_data/clock.py); a [timedelta] is in microseconds. *)

Record CrossVenueTimestamp := {
  xt_exchange_timestamp : Z;
  xt_received_at : Z;
  xt_available_at : Z;
  xt_local_monotonic_time : Q;
  xt_clock_offset_estimate : Z;
}.
Definition CrossVenueTimestamp_new (exchange received available : datetime) (monotonic : Q) (offset : Z)
  : result CrossVenueTimestamp :=
  let! e := utc_or "cross-venue timestamps must be timezone-aware" exchange in
  let! r := utc_or "cross-venue timestamps must be timezone-aware" received in
  let! a := utc_or "cross-venue timestamps must be timezone-aware" available in
  require! dleb 0 monotonic else ValueError "local_monotonic_time";
  Ok {| xt_exchange_timestamp := e; xt_received_at := r; xt_available_at := a; xt_local_monotonic_time := monotonic;
        xt_clock_offset_estimate := offset |}.

Record VenueClock := {
  vc_maximum_skew : Z;
  vc_offsets : list (string * Z);
}.
Definition default_skew : Z := Venues.seconds 2.
Definition VenueClock_new (maximum_skew : Z) : result VenueClock :=
  require! (0 <? maximum_skew)%Z else ValueError "maximum_skew must be positive";
  Ok {| vc_maximum_skew := maximum_skew; vc_offsets := [] |}.
(** [_utc] *)
Definition clock_utc : datetime -> result Z := utc_or "timestamp must be timezone-aware".

(** The midpoint of a request, halves of a microsecond to even *)
Definition midpoint (sent received : Z) : Z := (sent + round_half_even ((received - sent) # 2))%Z.
Definition observe_server_time (venue : string) (server_time request_sent_at received_at : datetime) : M VenueClock Z := fun c =>
  match (let! server := clock_utc server_time in
         let! sent := clock_utc request_sent_at in
         let! received := clock_utc received_at in
         require! (sent <=? received)%Z else ValueError "received_at precedes request_sent_at";
         Ok (server - midpoint sent received)%Z) with
  | Err e => (c, Err e)
  | Ok offset => ({| vc_maximum_skew := vc_maximum_skew c; vc_offsets := dict_set venue offset (vc_offsets c) |}, Ok offset)
  end.
Definition stamp (c : VenueClock) (venue : string) (exchange_timestamp : datetime) (received_at : option datetime)
    (now : Z) (monotonic : Q) : result CrossVenueTimestamp :=
  let! received := clock_utc (default (Aware now) received_at) in
  let! exchange := clock_utc exchange_timestamp in
  CrossVenueTimestamp_new (Aware exchange) (Aware received) (Aware received) monotonic
    (default (exchange - received)%Z (dict_get venue (vc_offsets c))).
Definition latest_of (t : Z) (ts : list Z) : Z := fold_left Z.max ts t.
Definition earliest_of (t : Z) (ts : list Z) : Z := fold_left Z.min ts t.
Definition comparable (c : VenueClock) (events : list CrossVenueTimestamp) : bool :=
  match events with
  | a :: b :: rest =>
      forallb (fun e => (Z.abs (xt_clock_offset_estimate e) <=? vc_maximum_skew c)%Z) events &&
      (latest_of (xt_available_at a) (map xt_available_at (b :: rest)) -
       earliest_of (xt_available_at a) (map xt_available_at (b :: rest)) <=? vc_maximum_skew c)%Z
  | _ => true
  end.
Definition synchronized (c : VenueClock) (venue : string) (ntp_offset : Z) : bool * string :=
  match dict_get venue (vc_offsets c) with
  | None => (false, "venue server-time offset has not been observed")
  | Some offset =>
      if (vc_maximum_skew c <? Z.abs ntp_offset)%Z then (false, "local NTP offset exceeds tolerance")
      else if (vc_maximum_skew c <? Z.abs (offset - ntp_offset))%Z then (false, "NTP and venue server time disagree")
      else (true, "clock synchronized")
  end.

(** ** The data of the strategies *)

Record ExecutableBook := {
  xb_venue : string;
  xb_symbol : string;
  xb_bids : list (Decimal * Decimal);
  xb_asks : list (Decimal * Decimal);
  xb_clock : CrossVenueTimestamp;
}.
Record FundingLeg := {
  fl_venue : string;
  fl_symbol : string;
  fl_quote_currency : string;
  fl_settlement_currency : string;
  fl_expected_rates : list Decimal;
  fl_notional : Decimal;
  fl_fee_rate_round_trip : Decimal;
  fl_slippage_rate_round_trip : Decimal;
}.
Definition FundingLeg_validate (l : FundingLeg) : result FundingLeg :=
  require! dltb 0 (fl_notional l) else ValueError "notional";
  require! dleb 0 (fl_fee_rate_round_trip l) else ValueError "fee_rate_round_trip";
  require! dleb 0 (fl_slippage_rate_round_trip l) else ValueError "slippage_rate_round_trip";
  Ok l.
Record CrossVenueFundingOpportunity := {
  fo_receive_leg : FundingLeg;
  fo_pay_leg : FundingLeg;
  fo_expected_funding_received : Decimal;
  fo_expected_funding_paid : Decimal;
  fo_entry_fees : Decimal;
  fo_exit_fees : Decimal;
  fo_entry_slippage : Decimal;
  fo_exit_slippage : Decimal;
  fo_expected_basis_convergence_loss : Decimal;
  fo_transfer_cost : Decimal;
  fo_venue_risk_premium : Decimal;
  fo_currency_risk_charge : Decimal;
  fo_expected_net_carry : Decimal;
  fo_stressed_net_carry : Decimal;
}.
Record BasisOpportunity := {
  bo_buy_venue : string;
  bo_sell_venue : string;
  bo_quantity : Decimal;
  bo_buy_ask_vwap : Decimal;
  bo_sell_bid_vwap : Decimal;
  bo_fees : Decimal;
  bo_expected_exit_cost : Decimal;
  bo_latency_buffer : Decimal;
  bo_risk_premium : Decimal;
  bo_executable_spread : Decimal;
}.

(** ** Capabilities *)

Definition funding_capabilities : list string := ["funding_current"; "funding_history"; "orderbook_snapshot"].
Definition basis_capabilities : list string := ["orderbook_snapshot"; "index_price"].
Definition liquidation_capabilities : list string := ["market_liquidation_stream"; "open_interest"; "trades"].
Definition SHADOW_ALLOWED_INSTRUMENTS : list string := ["BTC"; "SOL"].
Definition validate_shadow_instruments (instruments : list string) : result unit :=
  require! negb (bool_decide (instruments = []) || negb (bool_decide (NoDup instruments)) ||
                 negb (forallb (fun i => bool_decide (i ∈ SHADOW_ALLOWED_INSTRUMENTS)) instruments))
    else ValueError "shadow instruments must be a non-empty unique subset of BTC/SOL";
  Ok tt.

Section Strategies.
Context {C : DecimalContext} {D : Digest}.
Local Open Scope dec_scope.

(** [_vwap] *)
Fixpoint vwap_from (levels : list (Decimal * Decimal)) (quantity remaining notional : Decimal) : result Decimal :=
  match levels with
  | [] => Err (ValueError "insufficient executable depth")
  | (price, available) :: levels =>
      require! negb (dleb price 0 || dleb available 0) else ValueError "book levels must be positive";
      let fill := dmin remaining available in
      let notional := notional ⊕ fill ⊗ price in
      let remaining := remaining ⊖ fill in
      if deqb remaining 0 then Ok (notional ⊘ quantity) else vwap_from levels quantity remaining notional
  end.
Definition vwap (levels : list (Decimal * Decimal)) (quantity : Decimal) : result Decimal :=
  require! dltb 0 quantity else ValueError "quantity must be positive";
  vwap_from levels quantity quantity 0.
Definition bid_vwap (b : ExecutableBook) : Decimal -> result Decimal := vwap (xb_bids b).
Definition ask_vwap (b : ExecutableBook) : Decimal -> result Decimal := vwap (xb_asks b).

(** The evidence a strategy asks for, at the receiving and then at the paying venue *)
Definition venue_evidence (required : list string) (signal_id : string) (evidence : SignalDataEvidence)
    (receive_venue pay_venue : string) (now maximum_age_seconds : Z) : option RejectedSignal :=
  if bool_decide (receive_venue = pay_venue)
  then Some {| rs_signal_id := signal_id; rs_reason := "receive and pay venues must differ";
               rs_missing_capabilities := required |}
  else match require_signal_capabilities signal_id evidence required receive_venue now maximum_age_seconds with
       | Some rejection => Some rejection
       | None => require_signal_capabilities signal_id evidence required pay_venue now maximum_age_seconds
       end.
(** [LiquidationStrategyCapabilityGate.validate_evidence] *)
Definition liquidation_evidence (signal_id : string) (evidence : SignalDataEvidence) (venue : string)
    (now maximum_age_seconds : Z) : option RejectedSignal :=
  require_signal_capabilities signal_id evidence liquidation_capabilities venue now maximum_age_seconds.

(** What the operator expects to pay beyond fees and slippage *)
Record CarryCosts := {
  cc_expected_basis_convergence_loss : Decimal;
  cc_transfer_cost : Decimal;
  cc_venue_risk_premium : Decimal;
  cc_currency_risk_rate : Decimal;
  cc_funding_reversal_stress : Decimal;
}.
Definition currencies_differ (receive pay : FundingLeg) : bool :=
  existsb (fun c => negb (bool_decide (c = fl_quote_currency receive)))
    [fl_settlement_currency receive; fl_quote_currency pay; fl_settlement_currency pay].
Definition carry (receive pay : FundingLeg) (k : CarryCosts) : CrossVenueFundingOpportunity :=
  let notional := dmin (fl_notional receive) (fl_notional pay) in
  let received := notional ⊗ dsum (fl_expected_rates receive) in
  let paid := notional ⊗ dsum (fl_expected_rates pay) in
  let total_fee := notional ⊗ (fl_fee_rate_round_trip receive ⊕ fl_fee_rate_round_trip pay) in
  let total_slippage := notional ⊗ (fl_slippage_rate_round_trip receive ⊕ fl_slippage_rate_round_trip pay) in
  let currency_charge := if currencies_differ receive pay then notional ⊗ cc_currency_risk_rate k else 0 in
  let entry_fees := total_fee ⊘ 2 in
  let exit_fees := total_fee ⊖ entry_fees in
  let entry_slippage := total_slippage ⊘ 2 in
  let exit_slippage := total_slippage ⊖ entry_slippage in
  let costs := entry_fees ⊕ exit_fees ⊕ entry_slippage ⊕ exit_slippage ⊕ cc_expected_basis_convergence_loss k ⊕
               cc_transfer_cost k ⊕ cc_venue_risk_premium k ⊕ currency_charge in
  let net := received ⊖ paid ⊖ costs in
  let reversal_loss := notional ⊗ dsum (map dabs (fl_expected_rates receive)) ⊗ cc_funding_reversal_stress k in
  {| fo_receive_leg := receive; fo_pay_leg := pay; fo_expected_funding_received := received;
     fo_expected_funding_paid := paid; fo_entry_fees := entry_fees; fo_exit_fees := exit_fees;
     fo_entry_slippage := entry_slippage; fo_exit_slippage := exit_slippage;
     fo_expected_basis_convergence_loss := cc_expected_basis_convergence_loss k; fo_transfer_cost := cc_transfer_cost k;
     fo_venue_risk_premium := cc_venue_risk_premium k; fo_currency_risk_charge := currency_charge;
     fo_expected_net_carry := net; fo_stressed_net_carry := net ⊖ reversal_loss |}.
Definition funding_arbitrage_evaluate (receive pay : FundingLeg) (signal_id : string) (evidence : SignalDataEvidence)
    (receive_venue pay_venue : string) (now maximum_age_seconds : Z) (k : CarryCosts)
  : CrossVenueFundingOpportunity + RejectedSignal :=
  match venue_evidence funding_capabilities signal_id evidence receive_venue pay_venue now maximum_age_seconds with
  | Some rejection => inr rejection
  | None => inl (carry receive pay k)
  end.

Record BasisCosts := { bc_fees : Decimal; bc_expected_exit_cost : Decimal; bc_latency_buffer : Decimal; bc_risk_premium : Decimal }.
Definition basis_evaluate (clock : VenueClock) (buy_book sell_book : ExecutableBook) (quantity : Decimal) (signal_id : string)
    (evidence : SignalDataEvidence) (receive_venue pay_venue : string) (now maximum_age_seconds : Z) (k : BasisCosts)
  : result (BasisOpportunity + RejectedSignal) :=
  match venue_evidence basis_capabilities signal_id evidence receive_venue pay_venue now maximum_age_seconds with
  | Some rejection => Ok (inr rejection)
  | None =>
      require! comparable clock [xb_clock buy_book; xb_clock sell_book]
        else ValueError "cross-venue books are not clock-comparable";
      let! buy := ask_vwap buy_book quantity in
      let! sell := bid_vwap sell_book quantity in
      let spread := (sell ⊖ buy) ⊗ quantity ⊖ bc_fees k ⊖ bc_expected_exit_cost k ⊖ bc_latency_buffer k ⊖ bc_risk_premium k in
      Ok (inl {| bo_buy_venue := xb_venue buy_book; bo_sell_venue := xb_venue sell_book; bo_quantity := quantity;
                 bo_buy_ask_vwap := buy; bo_sell_bid_vwap := sell; bo_fees := bc_fees k;
                 bo_expected_exit_cost := bc_expected_exit_cost k; bo_latency_buffer := bc_latency_buffer k;
                 bo_risk_premium := bc_risk_premium k; bo_executable_spread := spread |})
  end.

End Strategies.

(** ** Clocks *)

(** The offset is the server's to within half the round trip: when the server read its clock,
    ahead by [ahead], at an instant of the request, the estimate misses [ahead] by no more. *)
Theorem offset_within_half_round_trip venue c read ahead sent received offset c' :
  (sent <= read <= received)%Z ->
  observe_server_time venue (Aware (read + ahead)) (Aware sent) (Aware received) c = (c', Ok offset) ->
  (Z.abs (offset - ahead) <= (received - sent) / 2 + 1)%Z /\ dict_get venue (vc_offsets c') = Some offset /\
  vc_maximum_skew c' = vc_maximum_skew c.
Proof.
  intros H. unfold observe_server_time, clock_utc. cbn [utc_or rbind]. rewrite (proj2 (Z.leb_le sent received)) by lia.
  intros [= <- <-]. simpl. rewrite dict_get_set_eq. split; [|done]. unfold midpoint.
  pose proof (round_half_even_bounds ((received - sent) # 2)) as [B1 B2].
  assert (Qround.Qfloor ((received - sent) # 2) = (received - sent) / 2)%Z as E by done. rewrite E in *.
  pose proof (Z.div_mod (received - sent)%Z 2 ltac:(lia)). pose proof (Z.mod_pos_bound (received - sent)%Z 2 ltac:(lia)). lia.
Qed.

Lemma latest_of_spec ts : forall t, (forall x, x ∈ t :: ts -> x <= latest_of t ts)%Z /\ latest_of t ts ∈ t :: ts.
Proof.
  unfold latest_of. induction ts as [|u ts IH]; intros t; simpl.
  { split; [|by left]. intros x [->|?%elem_of_nil]%elem_of_cons; [lia|done]. }
  destruct (IH (Z.max t u)) as [Hall Hin]. split.
  - intros x [->|[->|Hx]%elem_of_cons]%elem_of_cons.
    + pose proof (Hall (Z.max t u) ltac:(left)). lia.
    + pose proof (Hall (Z.max t u) ltac:(left)). lia.
    + apply Hall. by right.
  - apply elem_of_cons in Hin as [->|Hin]; [|by do 2 right].
    destruct (Z.max_spec t u) as [[_ ->]|[_ ->]]; [right; by left|by left].
Qed.
Lemma earliest_of_spec ts : forall t, (forall x, x ∈ t :: ts -> earliest_of t ts <= x)%Z /\ earliest_of t ts ∈ t :: ts.
Proof.
  unfold earliest_of. induction ts as [|u ts IH]; intros t; simpl.
  { split; [|by left]. intros x [->|?%elem_of_nil]%elem_of_cons; [lia|done]. }
  destruct (IH (Z.min t u)) as [Hall Hin]. split.
  - intros x [->|[->|Hx]%elem_of_cons]%elem_of_cons.
    + pose proof (Hall (Z.min t u) ltac:(left)). lia.
    + pose proof (Hall (Z.min t u) ltac:(left)). lia.
    + apply Hall. by right.
  - apply elem_of_cons in Hin as [->|Hin]; [|by do 2 right].
    destruct (Z.min_spec t u) as [[_ ->]|[_ ->]]; [by left|right; by left].
Qed.

(** Two events are comparable when each clock is close to ours and they were available together. *)
Lemma comparable_pair c a b :
  comparable c [a; b] = true <->
  (Z.abs (xt_clock_offset_estimate a) <= vc_maximum_skew c /\ Z.abs (xt_clock_offset_estimate b) <= vc_maximum_skew c /\
   Z.abs (xt_available_at a - xt_available_at b) <= vc_maximum_skew c)%Z.
Proof. unfold comparable, latest_of, earliest_of. simpl. rewrite !andb_true_iff, !Z.leb_le. lia. Qed.

(** ** The price of a sweep *)

(** What the first [r] units of the levels cost, and how many units there are *)
Fixpoint sweep (levels : list (Decimal * Decimal)) (r : Q) : Q :=
  match levels with
  | [] => 0
  | (price, available) :: levels => if dleb r available then price * r else price * available + sweep levels (r - available)
  end.
Definition depth (levels : list (Decimal * Decimal)) : Q := Qsum (map snd levels).
Definition positive_levels : list (Decimal * Decimal) -> Prop := Forall (fun l => 0 < l.1 /\ 0 < l.2).

#[export] Instance sweep_Proper levels : Proper (Qeq ==> Qeq) (sweep levels).
Proof.
  induction levels as [|[p a] levels IH]; intros x y E; simpl; [done|]. rewrite <- E.
  destruct (dleb x a); [by rewrite E|]. rewrite (IH (x - a) (y - a)); [done|]. by rewrite E.
Qed.
(** A sweep costs between the lowest and the highest price for each unit. *)
Lemma sweep_bounds levels lo hi : forall r,
  positive_levels levels -> Forall (fun l => lo <= l.1 /\ l.1 <= hi) levels -> 0 < r -> r <= depth levels ->
  lo * r <= sweep levels r /\ sweep levels r <= hi * r.
Proof.
  induction levels as [|[p a] levels IH]; intros r Hp Hb Hr Hd; [unfold depth in Hd; simpl in Hd; lra|].
  apply Forall_cons in Hp as [[Hp Ha] Hps], Hb as [[Hl Hh] Hbs]. simpl in *. unfold depth in *. simpl in Hd.
  destruct (dleb r a) eqn:E; decb; [nra|].
  destruct (IH (r - a) Hps Hbs) as [I1 I2]; [lra|lra|]. nra.
Qed.

Section Exact.
Context {C : DecimalContext} `{!ExactContext C} {D : Digest}.

Lemma vwap_from_exact quantity levels : forall remaining notional,
  positive_levels levels -> 0 < remaining ->
  match vwap_from levels quantity remaining notional with
  | Ok price => remaining <= depth levels /\ price == (notional + sweep levels remaining) / quantity
  | Err e => depth levels < remaining /\ e = ValueError "insufficient executable depth"
  end.
Proof.
  induction levels as [|[p a] levels IH]; intros r n Hp Hr; simpl; [by split|].
  apply Forall_cons in Hp as [[Hp Ha] Hps]. simpl in Hp, Ha. unfold depth in *. simpl.
  rewrite (proj2 (dleb_gt p 0) Hp), (proj2 (dleb_gt a 0) Ha). cbn [orb negb].
  assert (0 <= Qsum (map snd levels)) as Hd.
  { clear -Hps. induction Hps as [|l ls [_ ?] _ IH]; simpl; [lra|]. lra. }
  destruct (dleb r a) eqn:E; decb.
  - assert (dmin r a = r) as -> by (destruct (dmin_spec r a) as [[? _]|[_ ->]]; [lra|done]).
    assert (deqb (r ⊖ r)%dec 0 = true) as -> by (apply deqb_eq; rewrite dsub_exact; lra).
    split; [lra|]. rewrite ddiv_exact, dadd_exact, dmul_exact. by rewrite (Qmult_comm r p).
  - assert (dmin r a = a) as -> by (destruct (dmin_spec r a) as [[_ ->]|[? _]]; [done|lra]).
    assert ((r ⊖ a)%dec == r - a) as Er by apply dsub_exact.
    assert (deqb (r ⊖ a)%dec 0 = false) as -> by (apply deqb_ne; rewrite Er; lra).
    specialize (IH (r ⊖ a)%dec (n ⊕ a ⊗ p)%dec Hps ltac:(rewrite Er; lra)).
    destruct (vwap_from _ _ _ _) as [price|e].
    + destruct IH as [I1 I2]. rewrite Er in I1. split; [lra|]. rewrite I2, Er, dadd_exact, dmul_exact.
      assert (n + a * p + sweep levels (r - a) == n + (p * a + sweep levels (r - a))) as -> by lra. reflexivity.
    + destruct IH as [I1 I2]. rewrite Er in I1. split; [lra|done].
Qed.

Lemma vwap_exact levels quantity :
  positive_levels levels ->
  match vwap levels quantity with
  | Ok price => 0 < quantity /\ quantity <= depth levels /\ price == sweep levels quantity / quantity
  | Err _ => ~ (0 < quantity /\ quantity <= depth levels)
  end.
Proof.
  intros Hp. unfold vwap. destruct (dltb 0 quantity) eqn:E; decb; [|intros [? _]; lra].
  pose proof (vwap_from_exact quantity levels quantity 0 Hp E) as H. destruct (vwap_from _ _ _ _) as [price|e].
  - destruct H as [H1 H2]. split_and!; [done|done|]. rewrite H2. by rewrite Qplus_0_l.
  - destruct H as [H _]. intros [_ ?]. lra.
Qed.

(** The average price lies between the prices of the levels. *)
Lemma vwap_between levels quantity price lo hi :
  positive_levels levels -> Forall (fun l => lo <= l.1 /\ l.1 <= hi) levels -> vwap levels quantity = Ok price ->
  lo <= price /\ price <= hi.
Proof.
  intros Hp Hb Hv. pose proof (vwap_exact levels quantity Hp) as H. rewrite Hv in H. destruct H as (Hq & Hd & E).
  destruct (sweep_bounds levels lo hi quantity Hp Hb Hq Hd) as [S1 S2]. rewrite E. split.
  - by apply Qle_shift_div_l.
  - by apply Qle_shift_div_r.
Qed.

(** ** Evidence *)

(** The evidence is whole, signed and fresh for a venue. *)
Definition proven (required : list string) (evidence : SignalDataEvidence) (venue : string) (now age : Z) : Prop :=
  Forall (fun name => capability_is_missing (sd_capabilities evidence) venue name now age = false) required.
Definition genuine (signal_id : string) (evidence : SignalDataEvidence) : Prop :=
  has_duplicates (capability_keys (sd_capabilities evidence)) = false /\ sd_signal_id evidence = signal_id /\
  signal_valid_hash evidence = true.

Lemma require_capabilities_none required signal_id evidence venue now age :
  require_signal_capabilities signal_id evidence required venue now age = None <->
  genuine signal_id evidence /\ proven required evidence venue now age.
Proof.
  unfold require_signal_capabilities, genuine, proven. destruct (has_duplicates _); [naive_solver|].
  case_bool_decide as E; simpl; [naive_solver|].
  destruct (signal_valid_hash evidence); simpl; [|naive_solver].
  destruct (filter _ required) as [|x xs] eqn:Ef.
  - split; [|done]. intros _. split; [done|]. apply Forall_forall. intros name Hn. apply not_true_is_false. intros Hm.
    assert (name ∈ filter (fun name => capability_is_missing (sd_capabilities evidence) venue name now age = true) required) as H
      by by apply list_elem_of_filter. rewrite Ef in H. by apply elem_of_nil in H.
  - split; [done|]. intros [_ H]. assert (x ∈ x :: xs) as Hx by by left. rewrite <- Ef in Hx.
    apply list_elem_of_filter in Hx as [Hx Hr]. rewrite Forall_forall in H. by rewrite (H x Hr) in Hx.
Qed.
Lemma venue_evidence_none required signal_id evidence receive pay now age :
  venue_evidence required signal_id evidence receive pay now age = None <->
  receive <> pay /\ genuine signal_id evidence /\ proven required evidence receive now age /\
  proven required evidence pay now age.
Proof.
  unfold venue_evidence. case_bool_decide as E; [naive_solver|].
  destruct (require_signal_capabilities signal_id evidence required receive now age) eqn:Er.
  - split; [done|]. intros (_ & G & P & _). assert (require_signal_capabilities signal_id evidence required receive now age = None)
      as H by by apply require_capabilities_none. congruence.
  - apply require_capabilities_none in Er. rewrite require_capabilities_none. naive_solver.
Qed.


(** ** The carry of two funding legs *)

Lemma Qsum_abs_nonneg xs : 0 <= Qsum (map dabs xs).
Proof.
  induction xs as [|x xs IH]; simpl; [lra|]. pose proof (Qabs_nonneg x). rewrite dabs_exact. lra.
Qed.

(** Entry and exit share the fees and the slippage, the net carry is what is left of the funding
    after every cost, and stress only lowers it. *)
Theorem carry_accounts_for_every_cost receive pay k :
  0 < fl_notional receive -> 0 < fl_notional pay -> 0 <= cc_funding_reversal_stress k ->
  let o := carry receive pay k in
  let notional := dmin (fl_notional receive) (fl_notional pay) in
  fo_expected_funding_received o == notional * Qsum (fl_expected_rates receive) /\
  fo_expected_funding_paid o == notional * Qsum (fl_expected_rates pay) /\
  fo_entry_fees o + fo_exit_fees o == notional * (fl_fee_rate_round_trip receive + fl_fee_rate_round_trip pay) /\
  fo_entry_slippage o + fo_exit_slippage o ==
    notional * (fl_slippage_rate_round_trip receive + fl_slippage_rate_round_trip pay) /\
  fo_expected_net_carry o == fo_expected_funding_received o - fo_expected_funding_paid o - fo_entry_fees o - fo_exit_fees o -
    fo_entry_slippage o - fo_exit_slippage o - fo_expected_basis_convergence_loss o - fo_transfer_cost o -
    fo_venue_risk_premium o - fo_currency_risk_charge o /\
  fo_stressed_net_carry o <= fo_expected_net_carry o.
Proof.
  intros H1 H2 Hs o notional.
  assert (0 < notional) as Hn by (unfold notional; dminmax; lra).
  assert (0 <= Qsum (map dabs (fl_expected_rates receive))) as Ha by apply Qsum_abs_nonneg.
  unfold o, carry. fold notional. simpl. split_and!; dexact; try lra; try reflexivity.
  assert (0 <= (notional ⊗ dsum (map dabs (fl_expected_rates receive)) ⊗ cc_funding_reversal_stress k)%dec) as L.
  { rewrite dmul_exact, dmul_exact, dsum_exact. apply Qmult_le_0_compat; [apply Qmult_le_0_compat; lra|lra]. }
  lra.
Qed.

End Exact.

(** ** Two venues at work *)

Module CrossVenueSample.

#[export] Instance exact_context : DecimalContext := {| dec_fix := fun q => q; dec_pow := fun q n => q ^ Zpos n |}.
#[export] Instance exact_context_exact : ExactContext exact_context.
Proof. intros a. reflexivity. Qed.
#[export] Instance plain_digest : Digest := {|
  sha256_hex := fun s => s; hmac_hex := fun _ s => s; json_signal := fun _ => "evidence"; json_leg := fun _ _ _ => EmptyString;
  json_cross := fun _ _ _ => EmptyString |}.

Definition capability (venue name : string) : CapabilityEvidence := {|
  ce_venue := venue; ce_capability := name; ce_use_case := SIGNAL_GENERATION; ce_support := LIVE_VERIFIED;
  ce_verified_at := 1000000; ce_verification_run_id := "run"; ce_source_events := []; ce_adapter_version := "1";
  ce_source_version := "1"; ce_contract_fixture_sha256 := EmptyString; ce_audit_run_id := "audit" |}.
Definition evidence : SignalDataEvidence := signal_build "signal"
  (flat_map (fun venue => map (capability venue)
     ["funding_current"; "funding_history"; "orderbook_snapshot"; "index_price"]) ["bitget"; "hyperliquid"]).
Definition at_time (t : Z) : CrossVenueTimestamp := {|
  xt_exchange_timestamp := t; xt_received_at := t; xt_available_at := t; xt_local_monotonic_time := 0;
  xt_clock_offset_estimate := 0 |}.
Definition book (venue : string) (bids asks : list (Decimal * Decimal)) (t : Z) : ExecutableBook := {|
  xb_venue := venue; xb_symbol := "BTC"; xb_bids := bids; xb_asks := asks; xb_clock := at_time t |}.
Definition buy_book : ExecutableBook := book "bitget" [(99, 5)] [(100, 1); (101, 2)] 2000000.
Definition sell_book : ExecutableBook := book "hyperliquid" [(104, 1); (103, 4)] [(105, 5)] 2500000.
Definition clock : VenueClock := {| vc_maximum_skew := default_skew; vc_offsets := [] |}.
Definition costs : BasisCosts := {| bc_fees := 1 # 10; bc_expected_exit_cost := 1 # 10; bc_latency_buffer := 1 # 10; bc_risk_premium := 1 # 10 |}.

Example basis_found :
  match basis_evaluate clock buy_book sell_book 2 "signal" evidence "hyperliquid" "bitget" 2000000 60 costs with
  | Ok (inl o) => Qeq_bool (bo_executable_spread o) (56 # 10) && Qeq_bool (bo_buy_ask_vwap o) (201 # 2)
  | _ => false
  end = true /\
  basis_evaluate clock buy_book sell_book 4 "signal" evidence "hyperliquid" "bitget" 2000000 60 costs =
    Err (ValueError "insufficient executable depth").
Proof. by vm_compute. Qed.
Lemma asks_positive : positive_levels (xb_asks buy_book).
Proof. repeat apply Forall_cons_2; [by vm_compute..|constructor]. Qed.
Lemma bids_positive : positive_levels (xb_bids sell_book).
Proof. repeat apply Forall_cons_2; [by vm_compute..|constructor]. Qed.
Lemma evidence_genuine : genuine "signal" evidence.
Proof. split; [vm_compute; reflexivity|]. split; [reflexivity|vm_compute; reflexivity]. Qed.
Lemma evidence_proven venue : venue ∈ ["hyperliquid"; "bitget"] -> proven basis_capabilities evidence venue 2000000 60.
Proof.
  intros [->|[->|H%elem_of_nil]%elem_of_cons]%elem_of_cons; [| |done];
    (repeat apply Forall_cons_2; [vm_compute; reflexivity..|constructor]).
Qed.

(** The evidence is asked for the venues that are named beside the legs, not for the venues of
    the legs: evidence of two venues admits an arbitrage between two legs of a third. *)
Definition leg (rate : Decimal) : FundingLeg := {|
  fl_venue := "unverified"; fl_symbol := "BTC"; fl_quote_currency := "USDT"; fl_settlement_currency := "USDT";
  fl_expected_rates := [rate]; fl_notional := 1000; fl_fee_rate_round_trip := 0; fl_slippage_rate_round_trip := 0 |}.
Definition no_costs : CarryCosts := {|
  cc_expected_basis_convergence_loss := 0; cc_transfer_cost := 0; cc_venue_risk_premium := 0;
  cc_currency_risk_rate := 25 # 10000; cc_funding_reversal_stress := 3 # 2 |}.
Theorem unverified_legs_admitted :
  exists o, funding_arbitrage_evaluate (leg (1 # 1000)) (leg 0) "signal" evidence "hyperliquid" "bitget" 2000000 60 no_costs = inl o /\
    fl_venue (fo_receive_leg o) = "unverified" /\ fl_venue (fo_pay_leg o) = "unverified" /\ 0 < fo_expected_net_carry o.
Proof.
  exists (carry (leg (1 # 1000)) (leg 0) no_costs). split; [|by vm_compute]. unfold funding_arbitrage_evaluate.
  assert (venue_evidence funding_capabilities "signal" evidence "hyperliquid" "bitget" 2000000 60 = None) as -> by by vm_compute.
  reflexivity.
Qed.

End CrossVenueSample.
