(* ===== verification/Ingestion.v ===== *)
(** * Ingestion of candles (services/ingestion/, domain/market_data/models.py)

    The rate limiter, the quality checks of a batch of candles and the backfill that persists
    it.  The clock of the event loop is an argument; [fetch] and [persist] are arguments too,
    each a function of the attempt, and the retries are those the decorator documents: up to
    five attempts on a timeout or a lost connection, the last error raised. *)

From Stdlib Require Import ZArith QArith Qabs Qreduction Lia Lqa.
From stdpp Require Import base tactics list strings sorting.
From S2P Require Import Prelude Decimals Binary64 Certification Strategies Regimes StrategySafety.

Local Open Scope string_scope.
Local Open Scope list_scope.
Local Open Scope Q_scope.

(** ** The token bucket (pipeline.py) *)

Record TokenBucketRateLimiter := {
  tb_rate : Q;
  tb_capacity : Z;
  tb_tokens : Q;
  tb_updated : Q;
}.
Definition TokenBucketRateLimiter_new (rate : Q) (capacity : Z) (now : Q) : result TokenBucketRateLimiter :=
  require! negb (dleb rate 0 || (capacity <? 1)%Z) else ValueError "rate and capacity must be positive";
  Ok {| tb_rate := rate; tb_capacity := capacity; tb_tokens := whole capacity; tb_updated := now |}.
Definition refilled (b : TokenBucketRateLimiter) (now : Q) : Q :=
  dmin (inject_Z (tb_capacity b)) (fadd (tb_tokens b) (fmul (fsub now (tb_updated b)) (tb_rate b))).
(** [acquire]: the time before and, when it sleeps, after the sleep; how long it asks to sleep *)
Definition acquire (b : TokenBucketRateLimiter) (now awake : Q) : result (TokenBucketRateLimiter * option Q) :=
  let tokens := refilled b now in
  if dltb tokens 1
  then let! pause := fdiv (fsub 1 tokens) (tb_rate b) in
       Ok ({| tb_rate := tb_rate b; tb_capacity := tb_capacity b; tb_tokens := 0; tb_updated := awake |}, Some pause)
  else Ok ({| tb_rate := tb_rate b; tb_capacity := tb_capacity b; tb_tokens := fsub tokens 1; tb_updated := now |}, None).

(** ** Candles (domain/market_data/models.py) *)

Record OHLCV := {
  oh_exchange : string;
  oh_symbol : string;
  oh_timestamp : Z;
  oh_exchange_timestamp : option Z;
  oh_received_at : Z;
  oh_available_at : Z;
  oh_local_monotonic_time : Q;
  oh_clock_offset_estimate : option Q;
  oh_source_raw_payload : option string;
  oh_source_payload_sha256 : option string;
  oh_timeframe : string;
  oh_open : Decimal;
  oh_high : Decimal;
  oh_low : Decimal;
  oh_close : Decimal;
  oh_volume : Decimal;
  oh_closed : bool;
}.
Definition OHLCV_validate (o : OHLCV) : result OHLCV :=
  require! dleb 0 (oh_local_monotonic_time o) else ValueError "local_monotonic_time";
  require! dltb 0 (oh_open o) else ValueError "open";
  require! dltb 0 (oh_high o) else ValueError "high";
  require! dltb 0 (oh_low o) else ValueError "low";
  require! dltb 0 (oh_close o) else ValueError "close";
  require! dleb 0 (oh_volume o) else ValueError "volume";
  require! (oh_received_at o <=? oh_available_at o)%Z else ValueError "available_at cannot precede received_at";
  require! negb (dltb (oh_high o) (dmax (oh_open o) (oh_close o)) || dltb (dmin (oh_open o) (oh_close o)) (oh_low o) ||
                 dltb (oh_high o) (oh_low o))
    else ValueError "inconsistent OHLC values";
  Ok o.
Definition opt_eqb (a b : option Q) : bool :=
  match a, b with Some a, Some b => deqb a b | None, None => true | _, _ => false end.
(** Equality of two models: of all their fields *)
Definition candle_eqb (a b : OHLCV) : bool :=
  bool_decide (oh_exchange a = oh_exchange b) && bool_decide (oh_symbol a = oh_symbol b) &&
  (oh_timestamp a =? oh_timestamp b)%Z && bool_decide (oh_exchange_timestamp a = oh_exchange_timestamp b) &&
  (oh_received_at a =? oh_received_at b)%Z && (oh_available_at a =? oh_available_at b)%Z &&
  deqb (oh_local_monotonic_time a) (oh_local_monotonic_time b) &&
  opt_eqb (oh_clock_offset_estimate a) (oh_clock_offset_estimate b) &&
  bool_decide (oh_source_raw_payload a = oh_source_raw_payload b) &&
  bool_decide (oh_source_payload_sha256 a = oh_source_payload_sha256 b) &&
  bool_decide (oh_timeframe a = oh_timeframe b) && deqb (oh_open a) (oh_open b) && deqb (oh_high a) (oh_high b) &&
  deqb (oh_low a) (oh_low b) && deqb (oh_close a) (oh_close b) && deqb (oh_volume a) (oh_volume b) &&
  Bool.eqb (oh_closed a) (oh_closed b).
Fixpoint same_rows (xs ys : list OHLCV) : bool :=
  match xs, ys with
  | [], [] => true
  | x :: xs, y :: ys => candle_eqb x y && same_rows xs ys
  | _, _ => false
  end.

(** ** Quality (quality.py); the text of a volume is its value. *)

Inductive Severity := FATAL | ERROR | WARNING.
Record DataQualityIssue := {
  di_code : string;
  di_severity : Severity;
  di_timestamp : option Z;
  di_field : option string;
  di_original_value : option Decimal;
  di_reason : string;
}.
Record ValidationResult := {
  vr_accepted : list OHLCV;
  vr_rejected : list OHLCV;
  vr_issues : list DataQualityIssue;
  vr_quality_score : Q;
}.
Definition issue (code : string) (severity : Severity) (timestamp : option Z) (reason : string) : DataQualityIssue := {|
  di_code := code; di_severity := severity; di_timestamp := timestamp; di_field := None; di_original_value := None;
  di_reason := reason |}.
(** The seconds of a timeframe, and its text as a [timedelta] *)
Definition TIMEFRAME_SECONDS : list (string * (Z * string)) :=
  [("1m", (60, "0:01:00")); ("5m", (300, "0:05:00")); ("15m", (900, "0:15:00")); ("1h", (3600, "1:00:00"));
   ("4h", (14400, "4:00:00")); ("1d", (86400, "1 day, 0:00:00"))]%Z.

Definition natural_key (o : OHLCV) : string * string * string * Z := (oh_exchange o, oh_symbol o, oh_timeframe o, oh_timestamp o).
Definition chronological (rows : list OHLCV) : list OHLCV := sorted_by (fun a b => (oh_timestamp a <=? oh_timestamp b)%Z) rows.
(** [statistics.median] *)
Definition median (xs : list Q) : option Q :=
  let s := sorted_by dleb xs in
  let n := length s in
  match n with
  | O => None
  | _ => if Nat.odd n then s !! Nat.div2 n
         else match s !! (Nat.div2 n - 1)%nat, s !! Nat.div2 n with
              | Some a, Some b => Some (fl (fadd a b / 2))
              | _, _ => None
              end
  end.
Definition typical_volume (ordered : list OHLCV) : option Q :=
  median (omap (fun o => if dltb 0 (oh_volume o) then Some (fl (oh_volume o)) else None) ordered).
Definition is_outlier (typical : option Q) (multiple : Q) (o : OHLCV) : bool :=
  match typical with
  | Some m => negb (deqb m 0) && dltb (fmul m multiple) (fl (oh_volume o))
  | None => false
  end.

(** The loop over the ordered rows: accepted and rejected rows and the issues, in order *)
Record Screened := { sc_accepted : list OHLCV; sc_rejected : list OHLCV; sc_issues : list DataQualityIssue }.
Fixpoint screen_rows (typical : option Q) (multiple : Q) (seen : list (string * string * string * Z)) (rows : list OHLCV)
  : Screened :=
  match rows with
  | [] => {| sc_accepted := []; sc_rejected := []; sc_issues := [] |}
  | row :: rows =>
      if bool_decide (natural_key row ∈ seen)
      then let s := screen_rows typical multiple seen rows in
           {| sc_accepted := sc_accepted s; sc_rejected := row :: sc_rejected s;
              sc_issues := issue "DUPLICATE" ERROR (Some (oh_timestamp row)) "duplicate natural key" :: sc_issues s |}
      else
      let s := screen_rows typical multiple (natural_key row :: seen) rows in
      if is_outlier typical multiple row
      then {| sc_accepted := sc_accepted s; sc_rejected := row :: sc_rejected s;
              sc_issues := {| di_code := "VOLUME_OUTLIER"; di_severity := ERROR; di_timestamp := Some (oh_timestamp row);
                              di_field := Some "volume"; di_original_value := Some (oh_volume row);
                              di_reason := "exceeds robust multiple of median" |} :: sc_issues s |}
      else {| sc_accepted := row :: sc_accepted s; sc_rejected := sc_rejected s; sc_issues := sc_issues s |}
  end.
Fixpoint gaps (step : Z) (text : string) (accepted : list OHLCV) : list DataQualityIssue :=
  match accepted with
  | previous :: ((current :: _) as rest) =>
      (if (step * 1000000 <? oh_timestamp current - oh_timestamp previous)%Z
       then [issue "GAP" ERROR (Some (oh_timestamp current)) ("expected interval " +:+ text)] else []) ++ gaps step text rest
  | _ => []
  end.
Definition order_issue (rows ordered : list OHLCV) : list DataQualityIssue :=
  if same_rows rows ordered then []
  else [issue "OUT_OF_ORDER" WARNING None "input reordered; original data retained in audit source"].
Definition penalty (issues : list DataQualityIssue) : Q :=
  sum_floats (map (fun i => match di_severity i with ERROR => 1 # 4 | _ => lit (5 # 100) end) issues).
Definition validate_ohlcv (rows : list OHLCV) (volume_outlier_multiple : Q) : result ValidationResult :=
  match rows with
  | [] => Ok {| vr_accepted := []; vr_rejected := []; vr_issues := [issue "EMPTY" FATAL None "no observations"];
                vr_quality_score := 0 |}
  | _ =>
      let ordered := chronological rows in
      let s := screen_rows (typical_volume ordered) volume_outlier_multiple [] ordered in
      let! found := match sc_accepted s with
                    | [] => Ok []
                    | first :: _ =>
                        match dict_get (oh_timeframe first) TIMEFRAME_SECONDS with
                        | None => Err KeyError
                        | Some (step, text) => Ok (gaps step text (sc_accepted s) ++ order_issue rows ordered)
                        end
                    end in
      let issues := sc_issues s ++ found in
      Ok {| vr_accepted := sc_accepted s; vr_rejected := sc_rejected s; vr_issues := issues;
            vr_quality_score := dmax 0 (dmin 1 (fsub 1 (penalty issues))) |}
  end.

(** ** Backfill (pipeline.py) *)

Record BackfillService := { bf_minimum_quality : Q; bf_checkpoint : option Z }.
Definition BackfillService_new (minimum_quality : Q) : result BackfillService :=
  require! dleb 0 minimum_quality && dleb minimum_quality 1 else ValueError "minimum_quality must be in [0, 1]";
  Ok {| bf_minimum_quality := minimum_quality; bf_checkpoint := None |}.
Definition last_timestamp (rows : list OHLCV) : Z :=
  match rows with [] => 0 | r :: rs => fold_left (fun t r => Z.max t (oh_timestamp r)) rs (oh_timestamp r) end.

Section Backfill.
(** the store the caller persists into, and the two callbacks, by attempt *)
Context {S : Type} (fetch : nat -> result (list OHLCV)) (persist : nat -> list OHLCV -> M S unit).

Definition ingest_once (attempt : nat) : M (BackfillService * S) ValidationResult := fun st =>
  let '(b, s) := st in
  match (let! rows := fetch attempt in validate_ohlcv rows 20) with
  | Err e => (st, Err e)
  | Ok r =>
      if negb (bool_decide (length (vr_accepted r) = 0%nat)) && dleb (bf_minimum_quality b) (vr_quality_score r)
      then match persist attempt (vr_accepted r) s with
           | (s', Err e) => ((b, s'), Err e)
           | (s', Ok _) => (({| bf_minimum_quality := bf_minimum_quality b;
                                bf_checkpoint := Some (last_timestamp (vr_accepted r)) |}, s'), Ok r)
           end
      else (st, Ok r)
  end.
(** [TimeoutError], [ConnectionError] and the subclasses of the latter *)
Definition retried (e : exn) : bool :=
  bool_decide (e ∈ map OtherError ["TimeoutError"; "ConnectionError"; "BrokenPipeError"; "ConnectionAbortedError";
                                   "ConnectionRefusedError"; "ConnectionResetError"]).
Fixpoint ingest_from (attempt more : nat) : M (BackfillService * S) ValidationResult := fun st =>
  match ingest_once attempt st, more with
  | (st', Err e), Datatypes.S more => if retried e then ingest_from (Datatypes.S attempt) more st' else (st', Err e)
  | outcome, _ => outcome
  end.
Definition ingest : M (BackfillService * S) ValidationResult := ingest_from 0 4.
End Backfill.

(** ** The bucket never holds more than its capacity nor less than nothing. *)

Definition bucket_ok (b : TokenBucketRateLimiter) : Prop :=
  0 < tb_rate b /\ 0 <= tb_tokens b /\ tb_tokens b <= inject_Z (tb_capacity b) /\ (1 <= tb_capacity b)%Z.

Lemma refilled_bounds b now : bucket_ok b -> tb_updated b <= now -> 0 <= refilled b now <= inject_Z (tb_capacity b).
Proof.
  intros (R & T0 & T1 & K) Hn. unfold refilled.
  assert (0 <= fmul (fsub now (tb_updated b)) (tb_rate b)) as H
    by (apply fmul_nonneg; [by apply fsub_nonneg|lra]).
  pose proof (fadd_nonneg _ _ T0 H). split; dminmax; lra.
Qed.

(** A token is granted at once when there is one; otherwise the caller sleeps for a positive time
    and leaves the bucket empty. *)
Theorem acquire_keeps_bucket b now awake :
  bucket_ok b -> tb_updated b <= now -> fl (inject_Z (tb_capacity b)) == inject_Z (tb_capacity b) ->
  exists b' pause, acquire b now awake = Ok (b', pause) /\ bucket_ok b' /\
    tb_rate b' = tb_rate b /\ tb_capacity b' = tb_capacity b /\
    match pause with
    | None => 1 <= refilled b now /\ tb_updated b' = now
    | Some p => refilled b now < 1 /\ 0 < p /\ tb_tokens b' = 0 /\ tb_updated b' = awake
    end.
Proof.
  intros Hb Hn Hf. destruct (refilled_bounds b now Hb Hn) as [B0 B1]. destruct Hb as (R & T0 & T1 & K).
  unfold acquire. assert (0 <= inject_Z (tb_capacity b)) as Hk by (change 0 with (inject_Z 0); rewrite <- Zle_Qle; lia).
  destruct (dltb (refilled b now) 1) eqn:E; decb.
  - rewrite fdiv_ok by lra. cbn [rbind]. do 2 eexists; split; [reflexivity|]. simpl.
    split; [unfold bucket_ok; simpl; split_and!; (done || lra)|]. split_and!; try done.
    apply fl_pos. apply Qlt_shift_div_l; [done|]. rewrite Qmult_0_l. apply fl_pos. lra.
  - do 2 eexists; split; [reflexivity|]. simpl. split; [|by split_and!].
    unfold bucket_ok. simpl. split_and!; [done|by apply fsub_nonneg| |done]. apply fl_le_float; [lra|done].
Qed.

(** ** Sixteenths are floats *)

Lemma fl_exact q : fl q == q -> fl q = Qred q.
Proof.
  intros H. unfold fl, round_prec in *. rewrite Qred_correct in H. by apply Qred_complete.
Qed.
Lemma fl_compat a b : a == b -> fl a = fl b.
Proof. apply round_prec_compat. Qed.
Lemma sixteenth_float n : (0 <= n < 2 ^ 50)%Z -> fl (n # 16) == n # 16.
Proof.
  intros Hn. destruct (Z.eq_dec n 0%Z) as [->|Hn0]; [by vm_compute|].
  assert (0 < n # 16) as Hp by (unfold Qlt; simpl; lia). unfold fl. rewrite round_prec_pos by done.
  rewrite <- (Qred_correct (n # 16)) at 2.
  assert (0 < Qred (n # 16)) as Hr by by rewrite Qred_correct.
  destruct (adjusted_spec 2 ltac:(lia) (Qred (n # 16)) Hr) as [A1 A2]. set (e := adjusted 2 (Qred (n # 16))) in *.
  assert (e < 46)%Z as He.
  { apply (pow_radix_lt_inv 2 ltac:(lia)). eapply Qle_lt_trans; [exact A1|]. rewrite Qred_correct, pow_radix_Z by lia.
    unfold Qlt. simpl. lia. }
  apply (round_pos_id 2 ltac:(lia) 53 _ (n * 2 ^ (48 - e))); [done|]. fold e.
  replace (53 - 1 - e)%Z with (4 + (48 - e))%Z by lia. rewrite pow_radix_add by lia. rewrite !pow_radix_Z by lia.
  rewrite Qred_correct, Qmult_assoc, inject_Z_mult. apply Qmult_comp; [|reflexivity]. unfold Qeq. simpl. lia.
Qed.

Lemma quarter_float n : (0 <= n < 2 ^ 48)%Z -> fl (n # 4) == n # 4.
Proof.
  intros H. assert (n # 4 == (4 * n) # 16) as E by (unfold Qeq; simpl; lia).
  rewrite (fl_compat _ _ E), sixteenth_float by lia. by symmetry.
Qed.

(** Adding a quarter to a number of quarters is exact. *)
Lemma cs_add_quarter n : (0 <= n < 2 ^ 47)%Z -> cs_add (Qred (n # 4), 0) (1 # 4) = (Qred ((n + 1) # 4), 0).
Proof.
  intros Hn. unfold cs_add, fadd, fsub.
  assert (Qred (n # 4) + (1 # 4) == (n + 1) # 4) as E by (rewrite Qred_correct; unfold Qeq; simpl; lia).
  rewrite (fl_compat _ _ E). assert (fl ((n + 1) # 4) = Qred ((n + 1) # 4)) as -> by (apply fl_exact, quarter_float; lia).
  f_equal. destruct (dleb _ _).
  - assert (Qred (n # 4) - Qred ((n + 1) # 4) == - (1 # 4)) as D by (rewrite !Qred_correct; unfold Qeq; simpl; lia).
    rewrite (fl_compat _ _ D). by vm_compute.
  - assert ((1 # 4) - Qred ((n + 1) # 4) == - (n # 4)) as D by (rewrite !Qred_correct; unfold Qeq; simpl; lia).
    rewrite (fl_compat _ _ D).
    assert (fl (- (n # 4)) + Qred (n # 4) == 0) as Z.
    { unfold fl. rewrite round_prec_opp by done. fold (fl (n # 4)). rewrite quarter_float, Qred_correct by lia. lra. }
    rewrite (fl_compat _ _ Z). by vm_compute.
Qed.
Lemma sum_quarters k : forall n, (0 <= n)%Z -> (n + Z.of_nat k < 2 ^ 47)%Z ->
  fold_left cs_add (repeat (1 # 4) k) (Qred (n # 4), 0) = (Qred ((n + Z.of_nat k) # 4), 0).
Proof.
  induction k as [|k IH]; intros n Hn Hk; cbn [repeat fold_left]; [by rewrite Z.add_0_r|].
  rewrite cs_add_quarter by lia. rewrite IH by lia. do 3 f_equal. lia.
Qed.

(** One more warning does not lower the sum. *)
Lemma warning_adds n : (0 < n < 2 ^ 40)%Z ->
  n # 4 <= (let '(hi, lo) := cs_add (Qred (n # 4), 0) (lit (5 # 100)) in if deqb lo 0 then hi else fadd hi lo).
Proof.
  intros Hn. unfold cs_add. set (x := lit (5 # 100)). set (h := Qred (n # 4)).
  assert (0 < x) as X0 by by vm_compute. assert (fl x == x) as Xf by by vm_compute.
  assert ((1 # 16) <= x + x) as X1 by by vm_compute. assert (x <= 1 # 16) as X2 by by vm_compute.
  clearbody x.
  assert (h == n # 4) as Hh by apply Qred_correct.
  assert (fl (n # 4) == n # 4) as Hf by (apply quarter_float; lia).
  assert (1 # 4 <= n # 4) as Hq by (unfold Qle; simpl; lia).
  assert (fl h == h) as Hfh by (rewrite (fl_compat _ _ Hh), Hf; by symmetry).
  set (t := fadd h x).
  assert (h <= t) as T0 by (apply (Qle_trans _ (fl h)); [lra|]; apply fl_mono; lra).
  assert (t <= h + (1 # 16)) as T1.
  { assert ((4 * n + 1) # 16 == (n # 4) + (1 # 16)) as E by (unfold Qeq; simpl; lia).
    assert (fl ((4 * n + 1) # 16) == (4 * n + 1) # 16) as Ef by (apply sixteenth_float; lia).
    apply (Qle_trans _ (fl ((4 * n + 1) # 16))); [apply fl_mono; lra|lra]. }
  rewrite (proj2 (dleb_le (Qabs x) (Qabs h))) by (rewrite !Qabs_pos by lra; lra).
  set (lo := fadd 0 _).
  assert (h <= t + lo) as L.
  { (* the error of the addition, rounded *)
    set (d := t - h). assert (0 <= d <= 1 # 16) as Hd by (unfold d; lra).
    assert (fl (h - t) == - fl d) as Ed.
    { assert (h - t == - d) as E by (unfold d; lra). rewrite (fl_compat _ _ E). by apply round_prec_opp. }
    assert (lo == fl (x - fl d)) as El.
    { unfold lo, fadd at 1, fadd, fsub.
      assert (0 + fl (fl (h - t) + x) == fl (x - fl d)) as E.
      { rewrite Qplus_0_l. assert (fl (h - t) + x == x - fl d) as E' by (rewrite Ed; lra). by rewrite (fl_compat _ _ E'). }
      rewrite (fl_compat _ _ E). by apply round_prec_idem. }
    rewrite El. destruct (Qlt_le_dec x (fl d)) as [Hlt|Hle].
    - assert (x <= d) as Hxd.
      { destruct (Qlt_le_dec d x) as [Hdx|]; [|done]. assert (fl d <= x); [by apply fl_le_float; [lra|]|lra]. }
      assert (fl d <= 1 # 16) as F1 by (apply fl_le_float; [lra|by vm_compute]).
      assert (fl (x - fl d) == - fl (fl d - x)) as E.
      { assert (x - fl d == - (fl d - x)) as E' by lra. rewrite (fl_compat _ _ E'). by apply round_prec_opp. }
      rewrite E. assert (fl (fl d - x) <= x) by (apply fl_le_float; [lra|done]). unfold d in *. lra.
    - assert (0 <= fl (x - fl d)) by (apply fl_nonneg; lra). lra. }
  rewrite <- Hh. destruct (deqb lo 0); [done|]. apply (Qle_trans _ (fl h)); [lra|]. by apply fl_mono.
Qed.

(** ** Screening a batch *)

Lemma screen_rows_spec typical multiple rows : forall seen,
  let s := screen_rows typical multiple seen rows in
  sc_accepted s ++ sc_rejected s ≡ₚ rows /\ sc_accepted s `sublist_of` rows /\
  NoDup (map natural_key (sc_accepted s)) /\ Forall (fun o => natural_key o ∉ seen) (sc_accepted s) /\
  length (sc_issues s) = length (sc_rejected s) /\ Forall (fun i => di_severity i = ERROR) (sc_issues s) /\
  Forall (fun o => is_outlier typical multiple o = false) (sc_accepted s).
Proof.
  induction rows as [|row rows IH]; intros seen; simpl; [split_and!; (done || constructor)|].
  case_bool_decide as Hs.
  - destruct (IH seen) as (P & L & N & F & E & I & O). simpl. split_and!; simpl; try done.
    + by rewrite <- Permutation_middle, P.
    + by apply sublist_cons.
    + by rewrite E.
    + by constructor.
  - destruct (IH (natural_key row :: seen)) as (P & L & N & F & E & I & O).
    assert (Forall (fun o => natural_key o ∉ seen) (sc_accepted (screen_rows typical multiple (natural_key row :: seen) rows))) as F'.
    { eapply Forall_impl; [exact F|]. simpl. intros o Ho Hin. apply Ho. by right. }
    destruct (is_outlier typical multiple row) eqn:Eo; simpl; split_and!; simpl; try done.
    + by rewrite <- Permutation_middle, P.
    + by apply sublist_cons.
    + by rewrite E.
    + by constructor.
    + by rewrite P.
    + by apply sublist_skip.
    + constructor; [|done]. intros (o & Ek & Hin)%(list_elem_of_fmap natural_key). rewrite Forall_forall in F.
      apply (F o Hin). rewrite <- Ek. by left.
    + by constructor.
    + by constructor.
Qed.

Lemma gaps_errors step text accepted : Forall (fun i => di_severity i = ERROR) (gaps step text accepted).
Proof.
  induction accepted as [|a [|b rest] IH]; [constructor|constructor|]. cbn [gaps]. apply Forall_app. split; [|exact IH].
  case_match; by repeat constructor.
Qed.
(** No gap is found exactly when every step is within the timeframe. *)
Fixpoint contiguous (step : Z) (rows : list OHLCV) : Prop :=
  match rows with
  | a :: ((b :: _) as rest) => (oh_timestamp b - oh_timestamp a <= step * 1000000)%Z /\ contiguous step rest
  | _ => True
  end.
Lemma gaps_nil step text accepted : gaps step text accepted = [] <-> contiguous step accepted.
Proof.
  induction accepted as [|a [|b rest] IH]; [done|done|]. cbn [gaps contiguous]. rewrite app_nil, IH.
  destruct (_ <? _)%Z eqn:E; [rewrite Z.ltb_lt in E|rewrite Z.ltb_ge in E]; split; intros [? ?]; try done; lia.
Qed.
Lemma gaps_cons step text a b rest :
  gaps step text (a :: b :: rest) =
  (if (step * 1000000 <? oh_timestamp b - oh_timestamp a)%Z
   then [issue "GAP" ERROR (Some (oh_timestamp b)) ("expected interval " +:+ text)] else []) ++ gaps step text (b :: rest).
Proof. reflexivity. Qed.
Lemma gaps_size step text accepted : (length (gaps step text accepted) <= length accepted)%nat.
Proof.
  induction accepted as [|a [|b rest] IH]; [done|simpl; lia|]. rewrite gaps_cons, length_app, (length_cons a).
  destruct (_ <? _)%Z; cbn [length] in *; lia.
Qed.

(** A batch with an error has a quality of three quarters at most, one without issues of one. *)
Lemma penalty_errors (errors warnings : list DataQualityIssue) :
  Forall (fun i => di_severity i = ERROR) errors -> Forall (fun i => di_severity i = WARNING) warnings ->
  (length warnings <= 1)%nat -> (Z.of_nat (length errors) < 2 ^ 40)%Z -> errors <> [] ->
  1 # 4 <= penalty (errors ++ warnings).
Proof.
  intros He Hw H1 Hn Hne. unfold penalty. rewrite map_app.
  assert (map (fun i => match di_severity i with ERROR => 1 # 4 | _ => lit (5 # 100) end) errors = repeat (1 # 4) (length errors)) as ->.
  { clear -He. induction He as [|i errors E _ IH]; simpl; [done|]. by rewrite E, IH. }
  unfold sum_floats. rewrite fold_left_app. change (0, 0) with (Qred (0 # 4), 0). rewrite sum_quarters by lia. rewrite Z.add_0_l.
  assert (0 < Z.of_nat (length errors))%Z as Hpos by (destruct errors; [done|simpl; lia]).
  assert (1 # 4 <= Z.of_nat (length errors) # 4) as Hq by (unfold Qle; simpl; lia).
  destruct warnings as [|w [|? ?]]; [|inversion_clear Hw as [|? ? Ew _]|simpl in H1; lia].
  - cbn [map fold_left]. rewrite (proj2 (deqb_eq 0 0)) by done. by rewrite Qred_correct.
  - cbn [map fold_left]. rewrite Ew. eapply Qle_trans; [exact Hq|]. apply (warning_adds (Z.of_nat (length errors))). lia.
Qed.

Definition clean (r : ValidationResult) : Prop := Forall (fun i => di_severity i <> ERROR) (vr_issues r).
(** What a validation says of the rows it was given *)
Record Validated (rows : list OHLCV) (r : ValidationResult) : Prop := {
  va_partition : vr_accepted r ++ vr_rejected r ≡ₚ rows;
  va_ordered : StronglySorted (fun a b => (oh_timestamp a <= oh_timestamp b)%Z) (vr_accepted r);
  va_distinct : NoDup (map natural_key (vr_accepted r));
  va_quality : 0 <= vr_quality_score r /\ vr_quality_score r <= 1;
  va_errors : 3 # 4 < vr_quality_score r -> vr_rejected r = [] /\ clean r /\
              forall first step text, head (vr_accepted r) = Some first ->
                dict_get (oh_timeframe first) TIMEFRAME_SECONDS = Some (step, text) -> contiguous step (vr_accepted r);
}.

Lemma StronglySorted_weaken {A} (R R' : A -> A -> Prop) xs :
  (forall x y, R x y -> R' x y) -> StronglySorted R xs -> StronglySorted R' xs.
Proof.
  intros HR. induction 1 as [|x xs _ IH Hx]; constructor; [done|]. eapply Forall_impl; [exact Hx|]. intros y. apply HR.
Qed.
Lemma chronological_sorted rows :
  chronological rows ≡ₚ rows /\ StronglySorted (fun a b => (oh_timestamp a <= oh_timestamp b)%Z) (chronological rows).
Proof.
  split; [apply sorted_by_Permutation|].
  pose proof (sorted_by_sorted (fun a b => (oh_timestamp a <=? oh_timestamp b)%Z)) as H.
  specialize (H ltac:(intros x y; rewrite !Z.leb_le; lia) ltac:(intros x y z; rewrite !Z.leb_le; lia) rows).
  eapply StronglySorted_weaken; [|exact H]. intros x y. by rewrite Z.leb_le.
Qed.
Lemma StronglySorted_sublist {A} (R : A -> A -> Prop) xs ys : xs `sublist_of` ys -> StronglySorted R ys -> StronglySorted R xs.
Proof.
  induction 1 as [|x xs ys Hs IH|x xs ys Hs IH]; intros H; [done| |]; inversion_clear H as [|? ? H' Hx].
  - constructor; [by apply IH|]. apply Forall_forall. intros y Hy. rewrite Forall_forall in Hx. apply Hx.
    by eapply elem_of_sublist.
  - by apply IH.
Qed.

Lemma order_issue_spec rows ordered :
  Forall (fun i => di_severity i = WARNING) (order_issue rows ordered) /\ (length (order_issue rows ordered) <= 1)%nat.
Proof. unfold order_issue. case_match; by repeat constructor. Qed.

Definition known_timeframes : list OHLCV -> Prop := Forall (fun o => is_Some (dict_get (oh_timeframe o) TIMEFRAME_SECONDS)).
(** A batch is small enough for its penalties to add up exactly. *)
Definition batch_size_ok (rows : list OHLCV) : Prop := (Z.of_nat (length rows) < 2 ^ 38)%Z.

Lemma quality_bounds x : 0 <= dmax 0 (dmin 1 x) /\ dmax 0 (dmin 1 x) <= 1.
Proof. split; dminmax; lra. Qed.
Lemma quality_low p : 1 # 4 <= p -> dmax 0 (dmin 1 (fsub 1 p)) <= 3 # 4.
Proof.
  intros H. assert (fsub 1 p <= 3 # 4) by (apply fl_le_float; [lra|by vm_compute]). dminmax; lra.
Qed.

Lemma validate_ohlcv_sound rows multiple :
  known_timeframes rows -> batch_size_ok rows ->
  exists r, validate_ohlcv rows multiple = Ok r /\ Validated rows r.
Proof.
  intros Hk Hsize. unfold validate_ohlcv. destruct rows as [|row rows]; [eexists; split; [reflexivity|]|].
  { constructor; simpl; try done; try constructor; lra. }
  set (all := row :: rows) in *. assert (0 < length all)%nat as Hall by (simpl; lia). clearbody all. set (ordered := chronological all). set (typical := typical_volume ordered).
  destruct (chronological_sorted all) as [Hp Hs]. fold ordered in Hp, Hs.
  destruct (screen_rows_spec typical multiple ordered []) as (P & L & N & _ & E & I & _).
  set (s := screen_rows typical multiple [] ordered) in *.
  assert (StronglySorted (fun a b => (oh_timestamp a <= oh_timestamp b)%Z) (sc_accepted s)) as So by by eapply StronglySorted_sublist.
  assert (length (sc_accepted s) + length (sc_rejected s) = length all)%nat as Hlen
    by (rewrite <- length_app; apply Permutation_length; by rewrite P, Hp).
  destruct (order_issue_spec all ordered) as [W1 W2].
  assert (forall g, Forall (fun i => di_severity i = ERROR) g -> (length g <= length (sc_accepted s))%nat ->
    3 # 4 < dmax 0 (dmin 1 (fsub 1 (penalty (sc_issues s ++ g ++ order_issue all ordered)))) -> sc_issues s = [] /\ g = []) as Hq.
  { intros g Hg Hl H. destruct (sc_issues s ++ g) as [|e es] eqn:Ee; [by apply app_nil in Ee|]. exfalso.
    assert (1 # 4 <= penalty ((sc_issues s ++ g) ++ order_issue all ordered)) as Hpen.
    { apply penalty_errors; [by apply Forall_app|done|done| |by rewrite Ee]. unfold batch_size_ok in Hsize.
      rewrite length_app, E. lia. }
    rewrite <- app_assoc in Hpen. pose proof (quality_low _ Hpen). lra. }
  assert (P' : sc_accepted s ++ sc_rejected s ≡ₚ all) by by rewrite P, Hp.
  destruct (sc_accepted s) as [|first accepted] eqn:Ea.
  - cbn [rbind]. eexists; split; [reflexivity|]. constructor; simpl; try done; [apply quality_bounds|].
    intros H. exfalso. assert (sc_issues s <> []) as Hne.
    { intros En. rewrite En in E. simpl in *. destruct (sc_rejected s); [|done]. simpl in Hlen. lia. }
    assert (1 # 4 <= penalty (sc_issues s ++ [])) as Hpen.
    { apply penalty_errors; [done|constructor|simpl; lia| |done]. unfold batch_size_ok in Hsize. rewrite E. simpl in Hlen. lia. }
    pose proof (quality_low _ Hpen). lra.
  - assert (first ∈ all) as Hin by (rewrite <- P'; by left). unfold known_timeframes in Hk. rewrite Forall_forall in Hk.
    destruct (Hk first Hin) as [[step text] Et]. rewrite Et. cbn [rbind]. eexists; split; [reflexivity|].
    constructor; cbn [vr_accepted vr_rejected vr_issues vr_quality_score]; try done; [apply quality_bounds|]. intros H.
    destruct (Hq (gaps step text (first :: accepted))) as [Q1 Q2]; [apply gaps_errors|apply gaps_size|done|].
    rewrite Q1 in E. split; [destruct (sc_rejected s); done|]. split.
    + unfold clean. cbn [vr_issues]. rewrite Q1, Q2. cbn [app]. eapply Forall_impl; [exact W1|]. by intros i ->.
    + intros f st tx [= <-] Et'. rewrite Et in Et'. injection Et' as <- <-. by apply gaps_nil in Q2.
Qed.

(** ** Backfill *)

Section BackfillLemmas.
Context {S : Type} (fetch : nat -> result (list OHLCV)) (persist : nat -> list OHLCV -> M S unit).
Context (Hfetch : forall n rows, fetch n = Ok rows -> known_timeframes rows /\ batch_size_ok rows).

(** One attempt: it raises and leaves the checkpoint, or it validates what it fetched and either
    leaves the checkpoint and the store or persists the accepted rows and moves it to the last. *)
Definition attempted (n : nat) (b : BackfillService) (s : S) (b' : BackfillService) (s' : S) (r : ValidationResult) : Prop :=
  exists rows, fetch n = Ok rows /\ Validated rows r /\
    ((b' = b /\ s' = s /\ (vr_accepted r = [] \/ vr_quality_score r < bf_minimum_quality b)) \/
     (vr_accepted r <> [] /\ bf_minimum_quality b <= vr_quality_score r /\ persist n (vr_accepted r) s = (s', Ok tt) /\
      b' = {| bf_minimum_quality := bf_minimum_quality b; bf_checkpoint := Some (last_timestamp (vr_accepted r)) |})).

Lemma ingest_once_cases n b s :
  match ingest_once fetch persist n (b, s) with
  | ((b', s'), Ok r) => attempted n b s b' s' r
  | ((b', s'), Err e) => b' = b
  end.
Proof using Hfetch.
  unfold ingest_once. destruct (fetch n) as [rows|e] eqn:Ef; cbn [rbind]; [|done].
  destruct (Hfetch n rows Ef) as [Hk Hs]. destruct (validate_ohlcv_sound rows 20 Hk Hs) as (r & -> & Hv).
  case_bool_decide as El; cbn [negb andb].
  - exists rows. split_and!; [done|done|]. left. split_and!; [done|done|]. left. by apply nil_length_inv.
  - destruct (dleb _ _) eqn:Eq; decb.
    + destruct (persist n (vr_accepted r) s) as [s' [[]|e]] eqn:Ep; [|done].
      exists rows. split_and!; [done|done|]. right. split_and!; try done. intros H. apply El. by rewrite H.
    + exists rows. split_and!; [done|done|]. left. split_and!; [done|done|]. by right.
Qed.

Lemma ingest_from_cases more : forall n b s,
  match ingest_from fetch persist n more (b, s) with
  | ((b', s'), Ok r) => exists m s0, (n <= m <= n + more)%nat /\ attempted m b s0 b' s' r
  | ((b', s'), Err e) => b' = b /\ (retried e = true -> exists m s0 s1, m = (n + more)%nat /\
                                    ingest_once fetch persist m (b, s0) = ((b, s1), Err e))
  end.
Proof using Hfetch.
  induction more as [|more IH]; intros n b s; cbn [ingest_from]; pose proof (ingest_once_cases n b s) as H;
    destruct (ingest_once fetch persist n (b, s)) as [[b1 s1] [r|e]] eqn:E; cbv iota beta.
  - exists n, s. split; [lia|done].
  - subst b1. split; [done|]. intros _. exists n, s, s1. split; [lia|done].
  - exists n, s. split; [lia|done].
  - subst b1. destruct (retried e) eqn:Er; [|split; [done|]; intros Ht; by rewrite Er in Ht].
    specialize (IH (Datatypes.S n) b s1). destruct (ingest_from _ _ _ _ _) as [[b' s'] [r|e']].
    + destruct IH as (m & s0 & Hm & Ha). exists m, s0. split; [lia|done].
    + destruct IH as [-> IH]. split; [done|]. intros Ht. destruct (IH Ht) as (m & s0 & s2 & -> & Hi).
      exists (n + Datatypes.S more)%nat, s0, s2. split; [done|]. by rewrite <- plus_n_Sm.
Qed.

End BackfillLemmas.


Module IngestionSample.

Definition candle (minute : Z) (volume : Decimal) : OHLCV := {|
  oh_exchange := "binance"; oh_symbol := "BTC"; oh_timestamp := minute * 60000000; oh_exchange_timestamp := None;
  oh_received_at := 0; oh_available_at := 0; oh_local_monotonic_time := 0; oh_clock_offset_estimate := None;
  oh_source_raw_payload := None; oh_source_payload_sha256 := None; oh_timeframe := "1m"; oh_open := 100; oh_high := 110;
  oh_low := 90; oh_close := 105; oh_volume := volume; oh_closed := true |}.

(** A warning alone leaves the batch above the default minimum, one error does not. *)
Example qualities :
  map (fun rows => match validate_ohlcv rows 20 with
                   | Ok r => (map di_code (vr_issues r), length (vr_accepted r), dleb (lit (8 # 10)) (vr_quality_score r))
                   | Err _ => ([], 0%nat, false)
                   end)
    [[candle 0 1; candle 1 1]; [candle 1 1; candle 0 1]; [candle 0 1; candle 2 1]; [candle 0 1; candle 0 2];
     [candle 0 1; candle 1 1; candle 2 21]; []] =
  [([], 2%nat, true); (["OUT_OF_ORDER"], 2%nat, true); (["GAP"], 2%nat, false); (["DUPLICATE"], 1%nat, false);
   (["VOLUME_OUTLIER"], 2%nat, false); (["EMPTY"], 0%nat, false)].
Proof. by vm_compute. Qed.

(** The connection is lost twice, then two candles come. *)
Definition rows : list OHLCV := [candle 0 1; candle 1 1].
Definition flaky (n : nat) : result (list OHLCV) := if (n <? 2)%nat then Err (OtherError "ConnectionError") else Ok rows.
Definition keep (_ : nat) (accepted : list OHLCV) : M (list OHLCV) unit := fun s => (s ++ accepted, Ok tt).
Definition service : BackfillService := {| bf_minimum_quality := lit (8 # 10); bf_checkpoint := None |}.
Example third_attempt :
  match ingest flaky keep (service, []) with
  | ((b, s), Ok r) => (bf_checkpoint b, map oh_timestamp s)
  | _ => (None, [])
  end = (Some 60000000, [0; 60000000])%Z.
Proof. by vm_compute. Qed.
Lemma flaky_ok n rows' : flaky n = Ok rows' -> known_timeframes rows' /\ batch_size_ok rows'.
Proof.
  unfold flaky. destruct (n <? 2)%nat; [done|]. intros [= <-]. split; [|done]. by repeat constructor; eexists.
Qed.

End IngestionSample.
