(* ===== verification/OpsModels.v ===== *)
(** * Data and repository of the operations service
      (services/operations/models.py, services/operations/repository.py)

    The records of a paper run and the in-memory repository that keeps them, as
    insertion-ordered dictionaries.  [PaperSignal.full_signal_hash] is computed
    from the other fields and read by nobody here; it is left out. *)

From Stdlib Require Import ZArith QArith Lia.
From stdpp Require Import base tactics list strings.
From S2P Require Import Prelude Decimals ExecutionModels FundingCarry.

Local Open Scope string_scope.
Local Open Scope list_scope.
Local Open Scope Z_scope.

(** ** Enumerations *)

Inductive OperationMode := OBSERVATION_ONLY | STRICT_PAPER.
#[export] Instance operation_mode_eq_dec : EqDecision OperationMode.
Proof. solve_decision. Defined.

Inductive OperationalRunStatus := R_STARTING | R_RUNNING | R_STOP_REQUESTED | R_STOPPED | R_FAILED.
#[export] Instance run_status_eq_dec : EqDecision OperationalRunStatus.
Proof. solve_decision. Defined.

Inductive StrategyEligibilityStatus :=
| S_ELIGIBLE | S_INSUFFICIENT_EVIDENCE | S_DATA_QUALITY_FAILED | S_RESEARCH_FAILED
| S_CAPITAL_INFEASIBLE | S_SUSPENDED.
#[export] Instance eligibility_status_eq_dec : EqDecision StrategyEligibilityStatus.
Proof. solve_decision. Defined.

Definition eligibility_status_value (s : StrategyEligibilityStatus) : string :=
  match s with
  | S_ELIGIBLE => "eligible" | S_INSUFFICIENT_EVIDENCE => "insufficient_evidence"
  | S_DATA_QUALITY_FAILED => "data_quality_failed" | S_RESEARCH_FAILED => "research_failed"
  | S_CAPITAL_INFEASIBLE => "capital_infeasible" | S_SUSPENDED => "suspended"
  end.

Inductive PaperPromotionVerdict :=
| V_NOT_READY | V_CONTINUE_OBSERVATION | V_ELIGIBLE_FOR_MICRO_LIVE_REVIEW.

Inductive CollectorHealthStatus := H_HEALTHY | H_DEGRADED | H_UNHEALTHY | H_INSUFFICIENT_EVIDENCE.
#[export] Instance health_status_eq_dec : EqDecision CollectorHealthStatus.
Proof. solve_decision. Defined.

Definition health_status_value (s : CollectorHealthStatus) : string :=
  match s with
  | H_HEALTHY => "healthy" | H_DEGRADED => "degraded" | H_UNHEALTHY => "unhealthy"
  | H_INSUFFICIENT_EVIDENCE => "insufficient_evidence"
  end.

Inductive SignalDisposition :=
| D_CANDIDATE | D_REJECTED_CAPABILITY | D_REJECTED_DATA_QUALITY | D_REJECTED_RESEARCH
| D_REJECTED_CAPITAL | D_REJECTED_RISK | D_ELIGIBLE.
#[export] Instance disposition_eq_dec : EqDecision SignalDisposition.
Proof. solve_decision. Defined.

Inductive ResearchExecutionStatus :=
| X_NOT_SCHEDULED | X_SKIPPED_SNAPSHOT_INELIGIBLE | X_FAILED | X_COMPLETED.
#[export] Instance research_status_eq_dec : EqDecision ResearchExecutionStatus.
Proof. solve_decision. Defined.

Inductive CapitalFeasibilityStatus :=
| F_NOT_EVALUATED | F_INSUFFICIENT_EVIDENCE | F_FEASIBLE | F_INFEASIBLE.
#[export] Instance feasibility_status_eq_dec : EqDecision CapitalFeasibilityStatus.
Proof. solve_decision. Defined.

(** ** Records *)

Record CollectorHealthSummary := {
  hs_status : CollectorHealthStatus;
  hs_total_failures : Z;
  hs_fatal_failures : Z;
  hs_degraded_failures : Z;
  hs_expected_skips : Z;
  hs_failures_by_venue : list (string * Z);
  hs_failures_by_instrument : list (string * Z);
  hs_failures_by_event_type : list (string * Z);
  hs_failures_by_error_type : list (string * Z);
  hs_permanently_degraded_streams : Z;
  hs_recovery_required_streams : Z;
  hs_checkpoint_lag_max_seconds : option Decimal;
  hs_last_healthy_at : option Z;
  hs_reasons : list string;
  hs_production_market_event_count : Z;
  hs_production_control_event_count : Z;
  hs_experimental_market_event_count : Z;
}.

Definition set_hs_status (v : CollectorHealthStatus) (r : CollectorHealthSummary) : CollectorHealthSummary :=
  {|
     hs_status := v; hs_total_failures := hs_total_failures r;
     hs_fatal_failures := hs_fatal_failures r; hs_degraded_failures := hs_degraded_failures r;
     hs_expected_skips := hs_expected_skips r; hs_failures_by_venue := hs_failures_by_venue r;
     hs_failures_by_instrument := hs_failures_by_instrument r;
     hs_failures_by_event_type := hs_failures_by_event_type r;
     hs_failures_by_error_type := hs_failures_by_error_type r;
     hs_permanently_degraded_streams := hs_permanently_degraded_streams r;
     hs_recovery_required_streams := hs_recovery_required_streams r;
     hs_checkpoint_lag_max_seconds := hs_checkpoint_lag_max_seconds r;
     hs_last_healthy_at := hs_last_healthy_at r; hs_reasons := hs_reasons r;
     hs_production_market_event_count := hs_production_market_event_count r;
     hs_production_control_event_count := hs_production_control_event_count r;
     hs_experimental_market_event_count := hs_experimental_market_event_count r |}.

Definition set_hs_reasons (v : list string) (r : CollectorHealthSummary) : CollectorHealthSummary :=
  {|
     hs_status := hs_status r; hs_total_failures := hs_total_failures r;
     hs_fatal_failures := hs_fatal_failures r; hs_degraded_failures := hs_degraded_failures r;
     hs_expected_skips := hs_expected_skips r; hs_failures_by_venue := hs_failures_by_venue r;
     hs_failures_by_instrument := hs_failures_by_instrument r;
     hs_failures_by_event_type := hs_failures_by_event_type r;
     hs_failures_by_error_type := hs_failures_by_error_type r;
     hs_permanently_degraded_streams := hs_permanently_degraded_streams r;
     hs_recovery_required_streams := hs_recovery_required_streams r;
     hs_checkpoint_lag_max_seconds := hs_checkpoint_lag_max_seconds r;
     hs_last_healthy_at := hs_last_healthy_at r; hs_reasons := v;
     hs_production_market_event_count := hs_production_market_event_count r;
     hs_production_control_event_count := hs_production_control_event_count r;
     hs_experimental_market_event_count := hs_experimental_market_event_count r |}.

Record OperationalIdentity := {
  oi_run_id : string;
  oi_strategy_id : string;
  oi_strategy_version : string;
  oi_data_snapshot_id : string;
  oi_research_run_id : string;
  oi_created_at : Z;
  oi_commit_sha : string;
  oi_config_sha256 : string;
}.

Definition nonempty (s : string) : bool := negb (bool_decide (s = EmptyString)).

(** [__post_init__]; the timestamps of the service are aware. *)
Definition OperationalIdentity_new (i : OperationalIdentity) : result OperationalIdentity :=
  require! forallb nonempty [oi_run_id i; oi_strategy_id i; oi_strategy_version i;
             oi_data_snapshot_id i; oi_research_run_id i; oi_commit_sha i; oi_config_sha256 i]
    else ValueError "operational identity fields cannot be empty";
  Ok i.

Record OperationalRun := {
  ru_run_id : string;
  ru_commit_sha : string;
  ru_config_sha256 : string;
  ru_mode : OperationMode;
  ru_status : OperationalRunStatus;
  ru_started_at : Z;
  ru_updated_at : Z;
  ru_last_snapshot_id : option string;
  ru_last_research_run_ids : list string;
  ru_collector_healthy : bool;
  ru_signals_paused_reason : option string;
  ru_failure_reason : option string;
  ru_research_status : ResearchExecutionStatus;
  ru_research_skip_reason : option string;
}.

Definition set_ru_status (v : OperationalRunStatus) (r : OperationalRun) : OperationalRun :=
  {|
     ru_run_id := ru_run_id r; ru_commit_sha := ru_commit_sha r;
     ru_config_sha256 := ru_config_sha256 r; ru_mode := ru_mode r; ru_status := v;
     ru_started_at := ru_started_at r; ru_updated_at := ru_updated_at r;
     ru_last_snapshot_id := ru_last_snapshot_id r;
     ru_last_research_run_ids := ru_last_research_run_ids r;
     ru_collector_healthy := ru_collector_healthy r;
     ru_signals_paused_reason := ru_signals_paused_reason r;
     ru_failure_reason := ru_failure_reason r; ru_research_status := ru_research_status r;
     ru_research_skip_reason := ru_research_skip_reason r |}.

Definition set_ru_updated_at (v : Z) (r : OperationalRun) : OperationalRun :=
  {|
     ru_run_id := ru_run_id r; ru_commit_sha := ru_commit_sha r;
     ru_config_sha256 := ru_config_sha256 r; ru_mode := ru_mode r; ru_status := ru_status r;
     ru_started_at := ru_started_at r; ru_updated_at := v;
     ru_last_snapshot_id := ru_last_snapshot_id r;
     ru_last_research_run_ids := ru_last_research_run_ids r;
     ru_collector_healthy := ru_collector_healthy r;
     ru_signals_paused_reason := ru_signals_paused_reason r;
     ru_failure_reason := ru_failure_reason r; ru_research_status := ru_research_status r;
     ru_research_skip_reason := ru_research_skip_reason r |}.

Definition set_ru_last_snapshot_id (v : option string) (r : OperationalRun) : OperationalRun :=
  {|
     ru_run_id := ru_run_id r; ru_commit_sha := ru_commit_sha r;
     ru_config_sha256 := ru_config_sha256 r; ru_mode := ru_mode r; ru_status := ru_status r;
     ru_started_at := ru_started_at r; ru_updated_at := ru_updated_at r;
     ru_last_snapshot_id := v; ru_last_research_run_ids := ru_last_research_run_ids r;
     ru_collector_healthy := ru_collector_healthy r;
     ru_signals_paused_reason := ru_signals_paused_reason r;
     ru_failure_reason := ru_failure_reason r; ru_research_status := ru_research_status r;
     ru_research_skip_reason := ru_research_skip_reason r |}.

Definition set_ru_last_research_run_ids (v : list string) (r : OperationalRun) : OperationalRun :=
  {|
     ru_run_id := ru_run_id r; ru_commit_sha := ru_commit_sha r;
     ru_config_sha256 := ru_config_sha256 r; ru_mode := ru_mode r; ru_status := ru_status r;
     ru_started_at := ru_started_at r; ru_updated_at := ru_updated_at r;
     ru_last_snapshot_id := ru_last_snapshot_id r; ru_last_research_run_ids := v;
     ru_collector_healthy := ru_collector_healthy r;
     ru_signals_paused_reason := ru_signals_paused_reason r;
     ru_failure_reason := ru_failure_reason r; ru_research_status := ru_research_status r;
     ru_research_skip_reason := ru_research_skip_reason r |}.

Definition set_ru_collector_healthy (v : bool) (r : OperationalRun) : OperationalRun :=
  {|
     ru_run_id := ru_run_id r; ru_commit_sha := ru_commit_sha r;
     ru_config_sha256 := ru_config_sha256 r; ru_mode := ru_mode r; ru_status := ru_status r;
     ru_started_at := ru_started_at r; ru_updated_at := ru_updated_at r;
     ru_last_snapshot_id := ru_last_snapshot_id r;
     ru_last_research_run_ids := ru_last_research_run_ids r; ru_collector_healthy := v;
     ru_signals_paused_reason := ru_signals_paused_reason r;
     ru_failure_reason := ru_failure_reason r; ru_research_status := ru_research_status r;
     ru_research_skip_reason := ru_research_skip_reason r |}.

Definition set_ru_signals_paused_reason (v : option string) (r : OperationalRun) : OperationalRun :=
  {|
     ru_run_id := ru_run_id r; ru_commit_sha := ru_commit_sha r;
     ru_config_sha256 := ru_config_sha256 r; ru_mode := ru_mode r; ru_status := ru_status r;
     ru_started_at := ru_started_at r; ru_updated_at := ru_updated_at r;
     ru_last_snapshot_id := ru_last_snapshot_id r;
     ru_last_research_run_ids := ru_last_research_run_ids r;
     ru_collector_healthy := ru_collector_healthy r; ru_signals_paused_reason := v;
     ru_failure_reason := ru_failure_reason r; ru_research_status := ru_research_status r;
     ru_research_skip_reason := ru_research_skip_reason r |}.

Definition set_ru_failure_reason (v : option string) (r : OperationalRun) : OperationalRun :=
  {|
     ru_run_id := ru_run_id r; ru_commit_sha := ru_commit_sha r;
     ru_config_sha256 := ru_config_sha256 r; ru_mode := ru_mode r; ru_status := ru_status r;
     ru_started_at := ru_started_at r; ru_updated_at := ru_updated_at r;
     ru_last_snapshot_id := ru_last_snapshot_id r;
     ru_last_research_run_ids := ru_last_research_run_ids r;
     ru_collector_healthy := ru_collector_healthy r;
     ru_signals_paused_reason := ru_signals_paused_reason r; ru_failure_reason := v;
     ru_research_status := ru_research_status r;
     ru_research_skip_reason := ru_research_skip_reason r |}.

Definition set_ru_research_status (v : ResearchExecutionStatus) (r : OperationalRun) : OperationalRun :=
  {|
     ru_run_id := ru_run_id r; ru_commit_sha := ru_commit_sha r;
     ru_config_sha256 := ru_config_sha256 r; ru_mode := ru_mode r; ru_status := ru_status r;
     ru_started_at := ru_started_at r; ru_updated_at := ru_updated_at r;
     ru_last_snapshot_id := ru_last_snapshot_id r;
     ru_last_research_run_ids := ru_last_research_run_ids r;
     ru_collector_healthy := ru_collector_healthy r;
     ru_signals_paused_reason := ru_signals_paused_reason r;
     ru_failure_reason := ru_failure_reason r; ru_research_status := v;
     ru_research_skip_reason := ru_research_skip_reason r |}.

Definition set_ru_research_skip_reason (v : option string) (r : OperationalRun) : OperationalRun :=
  {|
     ru_run_id := ru_run_id r; ru_commit_sha := ru_commit_sha r;
     ru_config_sha256 := ru_config_sha256 r; ru_mode := ru_mode r; ru_status := ru_status r;
     ru_started_at := ru_started_at r; ru_updated_at := ru_updated_at r;
     ru_last_snapshot_id := ru_last_snapshot_id r;
     ru_last_research_run_ids := ru_last_research_run_ids r;
     ru_collector_healthy := ru_collector_healthy r;
     ru_signals_paused_reason := ru_signals_paused_reason r;
     ru_failure_reason := ru_failure_reason r; ru_research_status := ru_research_status r;
     ru_research_skip_reason := v |}.

Record StrategyEligibilityRecord := {
  el_strategy_id : string;
  el_strategy_version : string;
  el_status : StrategyEligibilityStatus;
  el_research_run_id : string;
  el_data_snapshot_id : string;
  el_evaluated_at : Z;
  el_expires_at : Z;
  el_reasons : list string;
  el_capital_feasibility_status : CapitalFeasibilityStatus;
}.

Definition valid_at (self : StrategyEligibilityRecord) (now : Z) : bool :=
  bool_decide (el_status self = S_ELIGIBLE)
  && ((el_evaluated_at self <=? now) && (now <=? el_expires_at self)).

(** Scores are [float]s; best prices and sizes are finite. *)
Record LiveSignalInput := {
  li_event_id : string;
  li_venue : string;
  li_instrument : string;
  li_event_type : string;
  li_available_at : Z;
  li_data_quality_score : Q;
  li_capability_support : string;
  li_reconciliation_state : option string;
  li_bid : option Decimal;
  li_ask : option Decimal;
  li_bid_size : option Decimal;
  li_ask_size : option Decimal;
  li_funding_rate : option number;
  li_bids : list (number * number);
  li_asks : list (number * number);
  li_funding_unit : option string;
  li_funding_interval_seconds : option Z;
  li_next_funding_at : option datetime;
  li_source_timestamp : option datetime;
  li_received_at : option datetime;
  li_source_table : string;
  li_normalizer_version : string;
  li_connection_epoch : option Z;
  li_sequence : option Z;
  li_state_hash : option string;
  li_source_event_id : option string;
  li_applied_source_event_ids : list string;
  li_timestamp_semantic : option string;
  li_exchange_timestamp : option datetime;
  li_freshness_age_seconds : option Decimal;
}.

Record ShadowRuntimeMetrics := {
  sm_run_id : string;
  sm_candidate_generation_attempt_count : Z;
  sm_candidate_inserted_count : Z;
  sm_candidate_rejected_count : Z;
  sm_candidate_duplicate_suppressed_count : Z;
  sm_source_pair_duplicate_count : Z;
  sm_matched_source_pair_count : Z;
}.

Record PaperSignal := {
  sg_identity : OperationalIdentity;
  sg_signal_id : string;
  sg_decision_time : Z;
  sg_venue_legs : list string;
  sg_instrument : string;
  sg_side : Side;
  sg_quantity : Decimal;
  sg_expected_gross_edge : Decimal;
  sg_expected_net_edge : Decimal;
  sg_expected_fee : Decimal;
  sg_expected_rebate : Decimal;
  sg_expected_funding : Decimal;
  sg_expected_slippage : Decimal;
  sg_expected_impact : Decimal;
  sg_required_capabilities : list string;
  sg_source_event_ids : list string;
  sg_disposition : SignalDisposition;
  sg_rejection_reason : option string;
}.

Definition PaperSignal_new (s : PaperSignal) : result PaperSignal :=
  require! dltb 0 (sg_quantity s) else ValueError "signal quantity must be positive"; Ok s.

Record PaperOrderRecord := {
  po_identity : OperationalIdentity;
  po_order_id : string;
  po_signal_id : string;
  po_portfolio_id : string;
  po_venue : string;
  po_instrument : string;
  po_side : Side;
  po_requested_quantity : Decimal;
  po_filled_quantity : Decimal;
  po_status : string;
  po_submitted_at : Z;
  po_updated_at : Z;
  po_leg_role : string;
  po_rejection_reason : option string;
}.

Record PaperFillRecord := {
  pf_identity : OperationalIdentity;
  pf_fill_id : string;
  pf_order_id : string;
  pf_portfolio_id : string;
  pf_venue : string;
  pf_instrument : string;
  pf_side : Side;
  pf_quantity : Decimal;
  pf_price : Decimal;
  pf_fee_paid : Decimal;
  pf_rebate_received : Decimal;
  pf_slippage_cost : Decimal;
  pf_impact_cost : Decimal;
  pf_executed_at : Z;
  pf_latency_ms : Z;
  pf_leg_role : string;
}.

Record PaperPositionRecord := {
  pp_identity : OperationalIdentity;
  pp_portfolio_id : string;
  pp_venue : string;
  pp_instrument : string;
  pp_quantity : Decimal;
  pp_average_entry : Decimal;
  pp_realized_pnl : Decimal;
  pp_unrealized_pnl : Decimal;
  pp_funding_pnl : Decimal;
  pp_updated_at : Z;
}.

Definition set_pp_funding_pnl (v : Decimal) (r : PaperPositionRecord) : PaperPositionRecord :=
  {|
     pp_identity := pp_identity r; pp_portfolio_id := pp_portfolio_id r;
     pp_venue := pp_venue r; pp_instrument := pp_instrument r; pp_quantity := pp_quantity r;
     pp_average_entry := pp_average_entry r; pp_realized_pnl := pp_realized_pnl r;
     pp_unrealized_pnl := pp_unrealized_pnl r; pp_funding_pnl := v;
     pp_updated_at := pp_updated_at r |}.

Definition set_pp_updated_at (v : Z) (r : PaperPositionRecord) : PaperPositionRecord :=
  {|
     pp_identity := pp_identity r; pp_portfolio_id := pp_portfolio_id r;
     pp_venue := pp_venue r; pp_instrument := pp_instrument r; pp_quantity := pp_quantity r;
     pp_average_entry := pp_average_entry r; pp_realized_pnl := pp_realized_pnl r;
     pp_unrealized_pnl := pp_unrealized_pnl r; pp_funding_pnl := pp_funding_pnl r;
     pp_updated_at := v |}.

Record PaperCashLedgerEntry := {
  ce_identity : OperationalIdentity;
  ce_entry_id : string;
  ce_portfolio_id : string;
  ce_amount : Decimal;
  ce_balance_after : Decimal;
  ce_entry_type : string;
  ce_occurred_at : Z;
  ce_reference_id : option string;
}.

Record PaperFundingLedgerEntry := {
  fe_identity : OperationalIdentity;
  fe_entry_id : string;
  fe_portfolio_id : string;
  fe_venue : string;
  fe_instrument : string;
  fe_rate : Decimal;
  fe_amount : Decimal;
  fe_occurred_at : Z;
}.

Record PaperRiskEvent := {
  re_identity : OperationalIdentity;
  re_event_id : string;
  re_portfolio_id : string;
  re_event_type : string;
  re_reason : string;
  re_occurred_at : Z;
  re_blocks_new_signals : bool;
}.

(** A [date] is a number of days since the epoch. *)
Record PaperDailyMetric := {
  dm_identity : OperationalIdentity;
  dm_portfolio_id : string;
  dm_metric_date : Z;
  dm_starting_equity : Decimal;
  dm_ending_equity : Decimal;
  dm_gross_pnl : Decimal;
  dm_net_pnl : Decimal;
  dm_fees : Decimal;
  dm_rebates : Decimal;
  dm_funding : Decimal;
  dm_slippage : Decimal;
  dm_impact : Decimal;
  dm_failed_leg_cost : Decimal;
  dm_maximum_drawdown : Decimal;
  dm_capital_usage : Decimal;
}.

Record PaperAttribution := {
  at_identity : OperationalIdentity;
  at_portfolio_id : string;
  at_attribution_date : Z;
  at_expected_gross_pnl : Decimal;
  at_actual_paper_gross_pnl : Decimal;
  at_expected_net_pnl : Decimal;
  at_actual_paper_net_pnl : Decimal;
  at_fee_difference : Decimal;
  at_rebate_difference : Decimal;
  at_funding_difference : Decimal;
  at_slippage_difference : Decimal;
  at_impact_difference : Decimal;
  at_fill_rate_difference : Decimal;
  at_latency_difference : Decimal;
  at_failed_leg_difference : Decimal;
  at_outage_difference : Decimal;
  at_implementation_shortfall : Decimal;
  at_edge_decay : Decimal;
  at_signal_to_fill_latency_ms : Decimal;
  at_fill_ratio : Decimal;
  at_paper_backtest_pnl_ratio : option Decimal;
  at_paper_backtest_sharpe_ratio : option Decimal;
}.

Record PortfolioState := {
  ps_portfolio_id : string;
  ps_initial_capital : Decimal;
  ps_cash : Decimal;
  ps_peak_equity : Decimal;
  ps_current_equity : Decimal;
  ps_daily_start_equity : Decimal;
  ps_halted : bool;
  ps_halt_reason : option string;
}.

Definition set_ps_cash (v : Decimal) (r : PortfolioState) : PortfolioState :=
  {|
     ps_portfolio_id := ps_portfolio_id r; ps_initial_capital := ps_initial_capital r;
     ps_cash := v; ps_peak_equity := ps_peak_equity r;
     ps_current_equity := ps_current_equity r;
     ps_daily_start_equity := ps_daily_start_equity r; ps_halted := ps_halted r;
     ps_halt_reason := ps_halt_reason r |}.

Definition set_ps_peak_equity (v : Decimal) (r : PortfolioState) : PortfolioState :=
  {|
     ps_portfolio_id := ps_portfolio_id r; ps_initial_capital := ps_initial_capital r;
     ps_cash := ps_cash r; ps_peak_equity := v; ps_current_equity := ps_current_equity r;
     ps_daily_start_equity := ps_daily_start_equity r; ps_halted := ps_halted r;
     ps_halt_reason := ps_halt_reason r |}.

Definition set_ps_current_equity (v : Decimal) (r : PortfolioState) : PortfolioState :=
  {|
     ps_portfolio_id := ps_portfolio_id r; ps_initial_capital := ps_initial_capital r;
     ps_cash := ps_cash r; ps_peak_equity := ps_peak_equity r; ps_current_equity := v;
     ps_daily_start_equity := ps_daily_start_equity r; ps_halted := ps_halted r;
     ps_halt_reason := ps_halt_reason r |}.

Definition set_ps_halted (v : bool) (r : PortfolioState) : PortfolioState :=
  {|
     ps_portfolio_id := ps_portfolio_id r; ps_initial_capital := ps_initial_capital r;
     ps_cash := ps_cash r; ps_peak_equity := ps_peak_equity r;
     ps_current_equity := ps_current_equity r;
     ps_daily_start_equity := ps_daily_start_equity r; ps_halted := v;
     ps_halt_reason := ps_halt_reason r |}.

Definition set_ps_halt_reason (v : option string) (r : PortfolioState) : PortfolioState :=
  {|
     ps_portfolio_id := ps_portfolio_id r; ps_initial_capital := ps_initial_capital r;
     ps_cash := ps_cash r; ps_peak_equity := ps_peak_equity r;
     ps_current_equity := ps_current_equity r;
     ps_daily_start_equity := ps_daily_start_equity r; ps_halted := ps_halted r;
     ps_halt_reason := v |}.

Record DailyOperationReport := {
  dr_run_id : string;
  dr_report_date : Z;
  dr_snapshot_id : string;
  dr_research_run_ids : list string;
  dr_eligibility : list StrategyEligibilityRecord;
  dr_signal_count : Z;
  dr_rejected_signal_count : Z;
  dr_paper_order_count : Z;
  dr_paper_fill_count : Z;
  dr_metrics : list PaperDailyMetric;
  dr_attribution : list PaperAttribution;
  dr_risk_events : list PaperRiskEvent;
  dr_promotion_verdict : PaperPromotionVerdict;
  dr_collector_health : CollectorHealthSummary;
  dr_research_status : ResearchExecutionStatus;
  dr_research_skip_reason : option string;
  dr_capital_feasibility : list (string * CapitalFeasibilityStatus);
}.

(** ** The in-memory repository *)

Record Repository := {
  rp_runs : list (string * OperationalRun);
  rp_eligibility : list (string * string * string * StrategyEligibilityRecord);
  rp_signals : list (string * PaperSignal);
  rp_shadow_candidates : list (string * FundingCarryShadowCandidate);
  rp_shadow_metrics : list (string * string * ShadowRuntimeMetrics);
  rp_orders : list (string * PaperOrderRecord);
  rp_fills : list (string * PaperFillRecord);
  rp_positions : list (string * string * string * string * PaperPositionRecord);
  rp_cash : list (string * PaperCashLedgerEntry);
  rp_funding : list (string * PaperFundingLedgerEntry);
  rp_risk : list (string * PaperRiskEvent);
  rp_metrics : list (string * string * Z * PaperDailyMetric);
  rp_attribution : list (string * string * Z * PaperAttribution);
}.

Definition set_rp_runs (v : list (string * OperationalRun)) (r : Repository) : Repository :=
  {|
     rp_runs := v; rp_eligibility := rp_eligibility r; rp_signals := rp_signals r;
     rp_shadow_candidates := rp_shadow_candidates r; rp_shadow_metrics := rp_shadow_metrics r;
     rp_orders := rp_orders r; rp_fills := rp_fills r; rp_positions := rp_positions r;
     rp_cash := rp_cash r; rp_funding := rp_funding r; rp_risk := rp_risk r;
     rp_metrics := rp_metrics r; rp_attribution := rp_attribution r |}.

Definition set_rp_eligibility (v : list (string * string * string * StrategyEligibilityRecord)) (r : Repository) : Repository :=
  {|
     rp_runs := rp_runs r; rp_eligibility := v; rp_signals := rp_signals r;
     rp_shadow_candidates := rp_shadow_candidates r; rp_shadow_metrics := rp_shadow_metrics r;
     rp_orders := rp_orders r; rp_fills := rp_fills r; rp_positions := rp_positions r;
     rp_cash := rp_cash r; rp_funding := rp_funding r; rp_risk := rp_risk r;
     rp_metrics := rp_metrics r; rp_attribution := rp_attribution r |}.

Definition set_rp_signals (v : list (string * PaperSignal)) (r : Repository) : Repository :=
  {|
     rp_runs := rp_runs r; rp_eligibility := rp_eligibility r; rp_signals := v;
     rp_shadow_candidates := rp_shadow_candidates r; rp_shadow_metrics := rp_shadow_metrics r;
     rp_orders := rp_orders r; rp_fills := rp_fills r; rp_positions := rp_positions r;
     rp_cash := rp_cash r; rp_funding := rp_funding r; rp_risk := rp_risk r;
     rp_metrics := rp_metrics r; rp_attribution := rp_attribution r |}.

Definition set_rp_shadow_candidates (v : list (string * FundingCarryShadowCandidate)) (r : Repository) : Repository :=
  {|
     rp_runs := rp_runs r; rp_eligibility := rp_eligibility r; rp_signals := rp_signals r;
     rp_shadow_candidates := v; rp_shadow_metrics := rp_shadow_metrics r;
     rp_orders := rp_orders r; rp_fills := rp_fills r; rp_positions := rp_positions r;
     rp_cash := rp_cash r; rp_funding := rp_funding r; rp_risk := rp_risk r;
     rp_metrics := rp_metrics r; rp_attribution := rp_attribution r |}.

Definition set_rp_shadow_metrics (v : list (string * string * ShadowRuntimeMetrics)) (r : Repository) : Repository :=
  {|
     rp_runs := rp_runs r; rp_eligibility := rp_eligibility r; rp_signals := rp_signals r;
     rp_shadow_candidates := rp_shadow_candidates r; rp_shadow_metrics := v;
     rp_orders := rp_orders r; rp_fills := rp_fills r; rp_positions := rp_positions r;
     rp_cash := rp_cash r; rp_funding := rp_funding r; rp_risk := rp_risk r;
     rp_metrics := rp_metrics r; rp_attribution := rp_attribution r |}.

Definition set_rp_orders (v : list (string * PaperOrderRecord)) (r : Repository) : Repository :=
  {|
     rp_runs := rp_runs r; rp_eligibility := rp_eligibility r; rp_signals := rp_signals r;
     rp_shadow_candidates := rp_shadow_candidates r; rp_shadow_metrics := rp_shadow_metrics r;
     rp_orders := v; rp_fills := rp_fills r; rp_positions := rp_positions r;
     rp_cash := rp_cash r; rp_funding := rp_funding r; rp_risk := rp_risk r;
     rp_metrics := rp_metrics r; rp_attribution := rp_attribution r |}.

Definition set_rp_fills (v : list (string * PaperFillRecord)) (r : Repository) : Repository :=
  {|
     rp_runs := rp_runs r; rp_eligibility := rp_eligibility r; rp_signals := rp_signals r;
     rp_shadow_candidates := rp_shadow_candidates r; rp_shadow_metrics := rp_shadow_metrics r;
     rp_orders := rp_orders r; rp_fills := v; rp_positions := rp_positions r;
     rp_cash := rp_cash r; rp_funding := rp_funding r; rp_risk := rp_risk r;
     rp_metrics := rp_metrics r; rp_attribution := rp_attribution r |}.

Definition set_rp_positions (v : list (string * string * string * string * PaperPositionRecord)) (r : Repository) : Repository :=
  {|
     rp_runs := rp_runs r; rp_eligibility := rp_eligibility r; rp_signals := rp_signals r;
     rp_shadow_candidates := rp_shadow_candidates r; rp_shadow_metrics := rp_shadow_metrics r;
     rp_orders := rp_orders r; rp_fills := rp_fills r; rp_positions := v; rp_cash := rp_cash r;
     rp_funding := rp_funding r; rp_risk := rp_risk r; rp_metrics := rp_metrics r;
     rp_attribution := rp_attribution r |}.

Definition set_rp_cash (v : list (string * PaperCashLedgerEntry)) (r : Repository) : Repository :=
  {|
     rp_runs := rp_runs r; rp_eligibility := rp_eligibility r; rp_signals := rp_signals r;
     rp_shadow_candidates := rp_shadow_candidates r; rp_shadow_metrics := rp_shadow_metrics r;
     rp_orders := rp_orders r; rp_fills := rp_fills r; rp_positions := rp_positions r;
     rp_cash := v; rp_funding := rp_funding r; rp_risk := rp_risk r;
     rp_metrics := rp_metrics r; rp_attribution := rp_attribution r |}.

Definition set_rp_funding (v : list (string * PaperFundingLedgerEntry)) (r : Repository) : Repository :=
  {|
     rp_runs := rp_runs r; rp_eligibility := rp_eligibility r; rp_signals := rp_signals r;
     rp_shadow_candidates := rp_shadow_candidates r; rp_shadow_metrics := rp_shadow_metrics r;
     rp_orders := rp_orders r; rp_fills := rp_fills r; rp_positions := rp_positions r;
     rp_cash := rp_cash r; rp_funding := v; rp_risk := rp_risk r; rp_metrics := rp_metrics r;
     rp_attribution := rp_attribution r |}.

Definition set_rp_risk (v : list (string * PaperRiskEvent)) (r : Repository) : Repository :=
  {|
     rp_runs := rp_runs r; rp_eligibility := rp_eligibility r; rp_signals := rp_signals r;
     rp_shadow_candidates := rp_shadow_candidates r; rp_shadow_metrics := rp_shadow_metrics r;
     rp_orders := rp_orders r; rp_fills := rp_fills r; rp_positions := rp_positions r;
     rp_cash := rp_cash r; rp_funding := rp_funding r; rp_risk := v;
     rp_metrics := rp_metrics r; rp_attribution := rp_attribution r |}.

Definition set_rp_metrics (v : list (string * string * Z * PaperDailyMetric)) (r : Repository) : Repository :=
  {|
     rp_runs := rp_runs r; rp_eligibility := rp_eligibility r; rp_signals := rp_signals r;
     rp_shadow_candidates := rp_shadow_candidates r; rp_shadow_metrics := rp_shadow_metrics r;
     rp_orders := rp_orders r; rp_fills := rp_fills r; rp_positions := rp_positions r;
     rp_cash := rp_cash r; rp_funding := rp_funding r; rp_risk := rp_risk r; rp_metrics := v;
     rp_attribution := rp_attribution r |}.

Definition set_rp_attribution (v : list (string * string * Z * PaperAttribution)) (r : Repository) : Repository :=
  {|
     rp_runs := rp_runs r; rp_eligibility := rp_eligibility r; rp_signals := rp_signals r;
     rp_shadow_candidates := rp_shadow_candidates r; rp_shadow_metrics := rp_shadow_metrics r;
     rp_orders := rp_orders r; rp_fills := rp_fills r; rp_positions := rp_positions r;
     rp_cash := rp_cash r; rp_funding := rp_funding r; rp_risk := rp_risk r;
     rp_metrics := rp_metrics r; rp_attribution := v |}.

Definition Repository_new : Repository :=
  {| rp_runs := []; rp_eligibility := []; rp_signals := []; rp_shadow_candidates := [];
     rp_shadow_metrics := []; rp_orders := []; rp_fills := []; rp_positions := []; rp_cash := [];
     rp_funding := []; rp_risk := []; rp_metrics := []; rp_attribution := [] |}.

(** [dict.setdefault(key, value)] *)
Definition dict_setdefault {K V} `{EqDecision K} (k : K) (v : V) (d : list (K * V)) : list (K * V) :=
  if dict_mem k d then d else dict_set k v d.

Definition save_run (run : OperationalRun) (r : Repository) : Repository :=
  set_rp_runs (dict_set (ru_run_id run) run (rp_runs r)) r.

Definition get_run (run_id : string) (r : Repository) : option OperationalRun :=
  dict_get run_id (rp_runs r).

Definition list_runs (r : Repository) : list OperationalRun :=
  sorted_by (fun a b => ru_started_at a <=? ru_started_at b) (dict_values (rp_runs r)).

Definition save_eligibility (run_id : string) (e : StrategyEligibilityRecord) (r : Repository)
  : Repository :=
  set_rp_eligibility (dict_set (run_id, el_strategy_id e, el_strategy_version e) e
    (rp_eligibility r)) r.

Definition eligibility (run_id : string) (r : Repository) : list StrategyEligibilityRecord :=
  dict_values (List.filter (fun kv => bool_decide (kv.1.1.1 = run_id)) (rp_eligibility r)).

(** The values that belong to a run. *)
Definition of_run {K V} (identity : V -> OperationalIdentity) (run_id : string) (d : list (K * V))
  : list V :=
  List.filter (fun v => bool_decide (oi_run_id (identity v) = run_id)) (dict_values d).

Definition add_signal (s : PaperSignal) (r : Repository) : Repository * bool :=
  if dict_mem (sg_signal_id s) (rp_signals r) then (r, false)
  else (set_rp_signals (dict_set (sg_signal_id s) s (rp_signals r)) r, true).

Definition signals (run_id : string) (r : Repository) : list PaperSignal :=
  of_run sg_identity run_id (rp_signals r).

Definition add_shadow_candidate (c : FundingCarryShadowCandidate) (r : Repository)
  : Repository * bool :=
  if dict_mem (ca_candidate_id c) (rp_shadow_candidates r) then (r, false)
  else (set_rp_shadow_candidates (dict_set (ca_candidate_id c) c (rp_shadow_candidates r)) r, true).

Definition shadow_candidates (run_id : string) (r : Repository)
  : list FundingCarryShadowCandidate :=
  List.filter (fun c => bool_decide (ca_run_id c = run_id)) (dict_values (rp_shadow_candidates r)).

Definition shadow_metrics (run_id instrument : string) (r : Repository) : ShadowRuntimeMetrics :=
  match dict_get (run_id, instrument) (rp_shadow_metrics r) with
  | Some m => m
  | None =>
      {| sm_run_id := run_id; sm_candidate_generation_attempt_count := 0;
         sm_candidate_inserted_count := 0; sm_candidate_rejected_count := 0;
         sm_candidate_duplicate_suppressed_count := 0; sm_source_pair_duplicate_count := 0;
         sm_matched_source_pair_count := 0 |}
  end.

(** [int(flag)] *)
Definition int_of (b : bool) : Z := if b then 1 else 0.

Definition is_rejected (c : FundingCarryShadowCandidate) : bool :=
  match ca_disposition c with REJECTED => true | CANDIDATE => false end.

(** One turn of the loop over the instruments. *)
Definition count_candidate (c : FundingCarryShadowCandidate) (inserted matched duplicate : bool)
    (instrument : string) (r : Repository) : Repository :=
  let current := shadow_metrics (ca_run_id c) instrument r in
  set_rp_shadow_metrics (dict_set (ca_run_id c, instrument)
    {| sm_run_id := ca_run_id c;
       sm_candidate_generation_attempt_count := sm_candidate_generation_attempt_count current + 1;
       sm_candidate_inserted_count := sm_candidate_inserted_count current + int_of inserted;
       sm_candidate_rejected_count := sm_candidate_rejected_count current + int_of (is_rejected c);
       sm_candidate_duplicate_suppressed_count :=
         sm_candidate_duplicate_suppressed_count current + int_of (negb inserted);
       sm_source_pair_duplicate_count := sm_source_pair_duplicate_count current + int_of duplicate;
       sm_matched_source_pair_count := sm_matched_source_pair_count current + int_of matched |}
    (rp_shadow_metrics r)) r.

Definition record_shadow_candidate (c : FundingCarryShadowCandidate) (matched duplicate : bool)
    (r : Repository) : Repository * bool :=
  let '(r, inserted) := add_shadow_candidate c r in
  let r := count_candidate c inserted matched duplicate EmptyString r in
  let r := count_candidate c inserted matched duplicate (ca_instrument c) r in
  (r, inserted).

Definition save_order (o : PaperOrderRecord) (r : Repository) : Repository :=
  set_rp_orders (dict_set (po_order_id o) o (rp_orders r)) r.
Definition orders (run_id : string) (r : Repository) : list PaperOrderRecord :=
  of_run po_identity run_id (rp_orders r).

Definition save_fill (f : PaperFillRecord) (r : Repository) : Repository :=
  set_rp_fills (dict_set (pf_fill_id f) f (rp_fills r)) r.
Definition fills (run_id : string) (r : Repository) : list PaperFillRecord :=
  of_run pf_identity run_id (rp_fills r).

Definition save_position (p : PaperPositionRecord) (r : Repository) : Repository :=
  set_rp_positions (dict_set
    (oi_run_id (pp_identity p), pp_portfolio_id p, pp_venue p, pp_instrument p) p
    (rp_positions r)) r.
Definition positions (run_id : string) (r : Repository) : list PaperPositionRecord :=
  dict_values (List.filter (fun kv => bool_decide (kv.1.1.1.1 = run_id)) (rp_positions r)).

Definition add_cash_entry (e : PaperCashLedgerEntry) (r : Repository) : Repository :=
  set_rp_cash (dict_setdefault (ce_entry_id e) e (rp_cash r)) r.
Definition cash_entries (run_id : string) (r : Repository) : list PaperCashLedgerEntry :=
  of_run ce_identity run_id (rp_cash r).

Definition add_funding_entry (e : PaperFundingLedgerEntry) (r : Repository) : Repository :=
  set_rp_funding (dict_setdefault (fe_entry_id e) e (rp_funding r)) r.
Definition funding_entries (run_id : string) (r : Repository) : list PaperFundingLedgerEntry :=
  of_run fe_identity run_id (rp_funding r).

Definition add_risk_event (e : PaperRiskEvent) (r : Repository) : Repository :=
  set_rp_risk (dict_setdefault (re_event_id e) e (rp_risk r)) r.
Definition risk_events (run_id : string) (r : Repository) : list PaperRiskEvent :=
  of_run re_identity run_id (rp_risk r).

Definition save_daily_metric (m : PaperDailyMetric) (r : Repository) : Repository :=
  set_rp_metrics (dict_set (oi_run_id (dm_identity m), dm_portfolio_id m, dm_metric_date m) m
    (rp_metrics r)) r.
Definition daily_metrics (run_id : string) (r : Repository) : list PaperDailyMetric :=
  dict_values (List.filter (fun kv => bool_decide (kv.1.1.1 = run_id)) (rp_metrics r)).

Definition save_attribution (a : PaperAttribution) (r : Repository) : Repository :=
  set_rp_attribution (dict_set
    (oi_run_id (at_identity a), at_portfolio_id a, at_attribution_date a) a (rp_attribution r)) r.
Definition attributions (run_id : string) (r : Repository) : list PaperAttribution :=
  dict_values (List.filter (fun kv => bool_decide (kv.1.1.1 = run_id)) (rp_attribution r)).
