(* ===== verification/CollectorHealth.v ===== *)
(** * The health of the collector and the life of a certification run
      (services/operations/collector_health.py, services/research/certification_lifecycle.py)

    The summary of failures and checkpoints, and the record a certification run keeps of its
    stages in the database.  Lags are below 10^9 seconds, where the text of the float is the
    microseconds of the difference.  The crash file, the log and the signal handlers are
    output. *)

From Stdlib Require Import ZArith QArith Lia Lqa.
From stdpp Require Import base tactics list strings.
From S2P Require Import Prelude Decimals Evidence Json PyText Certification ResearchStore Sources OpsModels.

Local Open Scope string_scope.
Local Open Scope list_scope.
Local Open Scope Z_scope.

(** ** Collector health *)

Definition EXPECTED_SKIP_ERROR_TYPES : list string :=
  ["CapabilityNotVerified"; "ExpectedSkip"; "InstrumentUnavailable"; "NotImplementedError"; "UnsupportedCapability"].
Definition FATAL_ERROR_TYPES : list string :=
  ["AuthenticationError"; "DataCorruptionError"; "PermissionError"; "SchemaViolation"].

Fixpoint lowered (s : string) : string :=
  match s with EmptyString => EmptyString | String c s => String (lower c) (lowered s) end.
Definition _is_expected_skip (f : CollectionFailureEvent) : bool :=
  bool_decide (ResearchStore.fe_error_type f ∈ EXPECTED_SKIP_ERROR_TYPES) ||
  existsb (fun token => contains token (lowered (ResearchStore.fe_error_message f)))
    ["capability not verified"; "instrument is not listed"; "not supported by venue"; "unsupported capability"].
Definition is_fatal (f : CollectionFailureEvent) : bool :=
  negb (_is_expected_skip f) && bool_decide (ResearchStore.fe_error_type f ∈ FATAL_ERROR_TYPES).
Definition _increment (target : list (string * Z)) (key : string) : list (string * Z) :=
  dict_set key (default 0 (dict_get key target) + 1) target.
Definition tally (key : CollectionFailureEvent -> string) (failures : list CollectionFailureEvent) : list (string * Z) :=
  fold_left (fun target f => _increment target (key f)) failures [].
Definition count_if {A} (p : A -> bool) (xs : list A) : Z := size (List.filter p xs).

Definition permanently_degraded (c : CollectionCheckpoint) : bool :=
  bool_decide (ck_reconciliation_state c = R_DEGRADED) &&
  match ck_last_recovery_failure c with Some text => nonempty text | None => false end.
Definition is_synchronized (c : CollectionCheckpoint) : bool :=
  bool_decide (ck_reconciliation_state c = R_SYNCHRONIZED) && negb (ck_recovery_required c).
Definition greatest (xs : list Z) : option Z :=
  match xs with [] => None | x :: xs => Some (fold_left Z.max xs x) end.
Definition lag_of (now : Z) (checkpoints : list CollectionCheckpoint) : option Decimal :=
  option_map (fun us => us # 1000000) (greatest (map (fun c => Z.max 0 (now - ck_checkpointed_at c)) checkpoints)).
Definition when_positive (n : Z) (label : string) : list string :=
  if n =? 0 then [] else [label +:+ int_text n].

Definition summarize_collector_health (failures : list CollectionFailureEvent) (checkpoints : list CollectionCheckpoint)
    (now : datetime) (production_market production_control experimental : Z) : result CollectorHealthSummary :=
  let! now := utc_or "collector health time must be timezone-aware" now in
  let expected_skips := count_if _is_expected_skip failures in
  let fatal_failures := count_if is_fatal failures in
  let degraded_failures := size failures - expected_skips - fatal_failures in
  let degraded := count_if permanently_degraded checkpoints in
  let recovering := count_if ck_recovery_required checkpoints in
  let '(status, reasons) :=
    if negb (fatal_failures =? 0) then (H_UNHEALTHY, ["fatal collection failures=" +:+ int_text fatal_failures])
    else if negb (degraded =? 0) || negb (recovering =? 0)
    then (H_DEGRADED, when_positive degraded "permanently degraded streams=" ++ when_positive recovering "recovery required streams=")
    else match checkpoints with
         | [] => (H_INSUFFICIENT_EVIDENCE, ["no collector checkpoints"])
         | _ => (H_HEALTHY, when_positive degraded_failures "recovered/transient failures=" ++
                            when_positive expected_skips "expected skips=")
         end in
  Ok {| hs_status := status; hs_total_failures := size failures; hs_fatal_failures := fatal_failures;
        hs_degraded_failures := degraded_failures; hs_expected_skips := expected_skips;
        hs_failures_by_venue := tally ResearchStore.fe_venue failures; hs_failures_by_instrument := tally ResearchStore.fe_instrument failures;
        hs_failures_by_event_type := tally ResearchStore.fe_event_type failures; hs_failures_by_error_type := tally ResearchStore.fe_error_type failures;
        hs_permanently_degraded_streams := degraded; hs_recovery_required_streams := recovering;
        hs_checkpoint_lag_max_seconds := lag_of now checkpoints;
        hs_last_healthy_at := greatest (map ck_checkpointed_at (List.filter is_synchronized checkpoints));
        hs_reasons := reasons; hs_production_market_event_count := production_market;
        hs_production_control_event_count := production_control; hs_experimental_market_event_count := experimental |}.

(** ** The life of a certification run *)

Inductive CertificationRunStatus := RUN_STARTING | RUN_RUNNING | RUN_COMPLETED | RUN_FAILED | RUN_CANCELED.
#[export] Instance run_status_eq_dec : EqDecision CertificationRunStatus.
Proof. solve_decision. Defined.
Definition run_status_value (s : CertificationRunStatus) : string :=
  match s with
  | RUN_STARTING => "STARTING" | RUN_RUNNING => "RUNNING" | RUN_COMPLETED => "COMPLETED" | RUN_FAILED => "FAILED"
  | RUN_CANCELED => "CANCELED"
  end.
Definition run_status_of (s : string) : result CertificationRunStatus :=
  match List.filter (fun v => bool_decide (run_status_value v = s))
          [RUN_STARTING; RUN_RUNNING; RUN_COMPLETED; RUN_FAILED; RUN_CANCELED] with
  | v :: _ => Ok v
  | [] => Err (ValueError (s +:+ " is not a valid CertificationRunStatus"))
  end.
Inductive CertificationStage :=
  | PROCESS_STARTED | CONFIG_LOADED | DB_CONNECTION_VERIFIED | MIGRATION_VERIFIED | AUDIT_ARTIFACT_VERIFIED
  | ADAPTERS_CREATED | LEASE_ACQUIRED | COLLECTOR_STARTED | FIRST_EVENT_RECEIVED | CERTIFICATION_WINDOW_STARTED
  | FINALIZATION_STARTED | ARTIFACT_WRITTEN | PROCESS_COMPLETED.
#[export] Instance stage_eq_dec : EqDecision CertificationStage.
Proof. solve_decision. Defined.
Definition stage_value (s : CertificationStage) : string :=
  match s with
  | PROCESS_STARTED => "PROCESS_STARTED" | CONFIG_LOADED => "CONFIG_LOADED"
  | DB_CONNECTION_VERIFIED => "DB_CONNECTION_VERIFIED" | MIGRATION_VERIFIED => "MIGRATION_VERIFIED"
  | AUDIT_ARTIFACT_VERIFIED => "AUDIT_ARTIFACT_VERIFIED" | ADAPTERS_CREATED => "ADAPTERS_CREATED"
  | LEASE_ACQUIRED => "LEASE_ACQUIRED" | COLLECTOR_STARTED => "COLLECTOR_STARTED"
  | FIRST_EVENT_RECEIVED => "FIRST_EVENT_RECEIVED" | CERTIFICATION_WINDOW_STARTED => "CERTIFICATION_WINDOW_STARTED"
  | FINALIZATION_STARTED => "FINALIZATION_STARTED" | ARTIFACT_WRITTEN => "ARTIFACT_WRITTEN"
  | PROCESS_COMPLETED => "PROCESS_COMPLETED"
  end.

Record CertificationRunRecord := {
  cr_run_id : string;
  cr_status : CertificationRunStatus;
  cr_last_stage : string;
  cr_failure_reason : option string;
  cr_commit_sha : string;
  cr_config_path : string;
  cr_database_identity : string;
  cr_artifact_directory : string;
  cr_pid : Z;
  cr_parent_pid : Z;
  cr_signal_number : option Z;
  cr_exit_code : option Z;
  cr_exception_type : option string;
  cr_started_at : Z;
  cr_updated_at : Z;
}.
(** A row: the record with the status as text; a session finds a row by its primary key. *)
Definition RunRow : Type := string * CertificationRunRecord.
Definition RunTable : Type := list (string * RunRow).
Definition save (record : CertificationRunRecord) (t : RunTable) : RunTable :=
  dict_set (cr_run_id record) (run_status_value (cr_status record), record) t.
Definition get (run_id : string) (t : RunTable) : result (option CertificationRunRecord) :=
  match dict_get run_id t with
  | None => Ok None
  | Some (status, row) =>
      let! s := run_status_of status in
      Ok (Some {| cr_run_id := cr_run_id row; cr_status := s; cr_last_stage := cr_last_stage row;
                  cr_failure_reason := cr_failure_reason row; cr_commit_sha := cr_commit_sha row;
                  cr_config_path := cr_config_path row; cr_database_identity := cr_database_identity row;
                  cr_artifact_directory := cr_artifact_directory row; cr_pid := cr_pid row;
                  cr_parent_pid := cr_parent_pid row; cr_signal_number := cr_signal_number row;
                  cr_exit_code := cr_exit_code row; cr_exception_type := cr_exception_type row;
                  cr_started_at := cr_started_at row; cr_updated_at := cr_updated_at row |})
  end.

(** The life cycle object and the table it writes to *)
Definition Lifecycle : Type := CertificationRunRecord * RunTable.
Definition replaced (r : CertificationRunRecord) (status : CertificationRunStatus) (stage : string) (reason : option string)
    (signal exit_code : option Z) (exception : option string) (now : Z) : CertificationRunRecord := {|
  cr_run_id := cr_run_id r; cr_status := status; cr_last_stage := stage; cr_failure_reason := reason;
  cr_commit_sha := cr_commit_sha r; cr_config_path := cr_config_path r; cr_database_identity := cr_database_identity r;
  cr_artifact_directory := cr_artifact_directory r; cr_pid := cr_pid r; cr_parent_pid := cr_parent_pid r;
  cr_signal_number := signal; cr_exit_code := exit_code; cr_exception_type := exception;
  cr_started_at := cr_started_at r; cr_updated_at := now |}.
Definition stage_step (stage : CertificationStage) (now : Z) (l : Lifecycle) : Lifecycle :=
  let '(r, t) := l in
  let status := if bool_decide (stage = PROCESS_COMPLETED) then RUN_COMPLETED
                else if bool_decide (stage = PROCESS_STARTED) then cr_status r else RUN_RUNNING in
  let r' := replaced r status (stage_value stage) (cr_failure_reason r) (cr_signal_number r)
              (if bool_decide (stage = PROCESS_COMPLETED) then Some 0 else cr_exit_code r) (cr_exception_type r) now in
  (r', save r' t).
(** [fail]; the exception is its class name and its text. *)
Definition fail_step (class message : string) (exit_code : Z) (signal : option Z) (canceled : bool) (now : Z) (l : Lifecycle)
  : Lifecycle :=
  let '(r, t) := l in
  let full := if nonempty message then message else class in
  let r' := replaced r (if canceled then RUN_CANCELED else RUN_FAILED) (cr_last_stage r) (Some (String.substring 0 2000 full))
              signal (Some exit_code) (Some class) now in
  (r', save r' t).
Definition Lifecycle_new (run_id commit_sha config_path database_identity artifact_directory : string) (pid parent_pid : Z)
    (started now : Z) (t : RunTable) : Lifecycle :=
  let r := {| cr_run_id := run_id; cr_status := RUN_STARTING; cr_last_stage := stage_value PROCESS_STARTED;
              cr_failure_reason := None; cr_commit_sha := commit_sha; cr_config_path := config_path;
              cr_database_identity := database_identity; cr_artifact_directory := artifact_directory; cr_pid := pid;
              cr_parent_pid := parent_pid; cr_signal_number := None; cr_exit_code := None; cr_exception_type := None;
              cr_started_at := started; cr_updated_at := started |} in
  stage_step PROCESS_STARTED now (r, save r t).

(** ** Lemmas *)

Lemma count_if_split {A} (p q : A -> bool) xs :
  count_if p xs + count_if (fun x => negb (p x) && q x) xs + count_if (fun x => negb (p x) && negb (q x)) xs = size xs.
Proof.
  unfold count_if, size. induction xs as [|x xs IH]; simpl; [done|]. destruct (p x), (q x); simpl; lia.
Qed.
Lemma count_if_zero {A} (p : A -> bool) xs : count_if p xs = 0 <-> Forall (fun x => p x = false) xs.
Proof.
  unfold count_if, size. induction xs as [|x xs IH]; simpl; [done|]. rewrite Forall_cons.
  destruct (p x); simpl; [split; [lia|by intros [? _]]|]. rewrite IH. naive_solver.
Qed.

(** A tally counts the failures of each key. *)
Lemma tally_counts key failures k :
  default 0 (dict_get k (tally key failures)) = count_if (fun f => bool_decide (key f = k)) failures.
Proof.
  unfold tally. enough (forall d, default 0 (dict_get k (fold_left (fun target f => _increment target (key f)) failures d)) =
    default 0 (dict_get k d) + count_if (fun f => bool_decide (key f = k)) failures) as H by by rewrite H.
  unfold count_if, size. induction failures as [|f fs IH]; intros d; simpl; [lia|]. rewrite IH. unfold _increment.
  case_bool_decide as E; [subst k; rewrite dict_get_set_eq; simpl; lia|]. by rewrite dict_get_set_ne by congruence.
Qed.

(** The collector is healthy exactly when no failure is fatal, no stream is stuck or recovering,
    and there is a checkpoint; the three classes of failures add up, and each tally counts. *)
Theorem collector_healthy_iff failures checkpoints now a b c :
  exists s, summarize_collector_health failures checkpoints (Aware now) a b c = Ok s /\
    (hs_status s = H_HEALTHY <->
       Forall (fun f => is_fatal f = false) failures /\ checkpoints <> [] /\
       Forall (fun k => permanently_degraded k = false /\ ck_recovery_required k = false) checkpoints) /\
    (hs_status s = H_UNHEALTHY <-> Exists (fun f => is_fatal f = true) failures) /\
    hs_total_failures s = hs_fatal_failures s + hs_degraded_failures s + hs_expected_skips s /\ 0 <= hs_degraded_failures s /\
    (forall venue, default 0 (dict_get venue (hs_failures_by_venue s)) =
                   count_if (fun f => bool_decide (ResearchStore.fe_venue f = venue)) failures).
Proof.
  unfold summarize_collector_health. cbn [utc_or rbind].
  pose proof (count_if_split _is_expected_skip (fun f => bool_decide (ResearchStore.fe_error_type f ∈ FATAL_ERROR_TYPES)) failures) as Hsum.
  cbv beta in Hsum.
  change (count_if (fun x => negb (_is_expected_skip x) && bool_decide (ResearchStore.fe_error_type x ∈ FATAL_ERROR_TYPES)) failures)
    with (count_if is_fatal failures) in Hsum.
  assert (forall A (p : A -> bool) xs, 0 <= count_if p xs) as Hpos by (intros; unfold count_if, size; lia).
  pose proof (Hpos _ (fun x => negb (_is_expected_skip x) && negb (bool_decide (ResearchStore.fe_error_type x ∈ FATAL_ERROR_TYPES))) failures) as Hd.
  pose proof (count_if_zero is_fatal failures) as Zf. pose proof (count_if_zero permanently_degraded checkpoints) as Zp.
  pose proof (count_if_zero ck_recovery_required checkpoints) as Zr.
  assert (count_if is_fatal failures <> 0 <-> Exists (fun f => is_fatal f = true) failures) as Ze.
  { rewrite Zf. split.
    - intros H. apply not_Forall_Exists in H; [|intros x; apply _]. eapply Exists_impl; [exact H|]. intros f Hn. by apply not_false_is_true.
    - intros H Hall. apply Exists_exists in H as (f & Hin & Hf). rewrite Forall_forall in Hall. by rewrite (Hall f Hin) in Hf. }
  setoid_rewrite Forall_and. setoid_rewrite <- Zp. setoid_rewrite <- Zr. setoid_rewrite <- Zf. setoid_rewrite <- Ze.
  destruct (count_if is_fatal failures =? 0) eqn:Ef; [apply Z.eqb_eq in Ef|apply Z.eqb_neq in Ef]; cbn [negb].
  2:{ eexists; split; [reflexivity|]. simpl. split_and!; try lia; try (intros; apply tally_counts); try (split; [done|lia]); try (split; [lia|done]); by split. }
  destruct (count_if permanently_degraded checkpoints =? 0) eqn:Ep; [apply Z.eqb_eq in Ep|apply Z.eqb_neq in Ep]; cbn [negb orb].
  2:{ eexists; split; [reflexivity|]. simpl. split_and!; try lia; try (intros; apply tally_counts); try (split; [done|lia]); try (split; [lia|done]); by split. }
  destruct (count_if ck_recovery_required checkpoints =? 0) eqn:Er; [apply Z.eqb_eq in Er|apply Z.eqb_neq in Er]; cbn [negb orb].
  2:{ eexists; split; [reflexivity|]. simpl. split_and!; try lia; try (intros; apply tally_counts); try (split; [done|lia]); try (split; [lia|done]); by split. }
  destruct checkpoints as [|k ks]; (eexists; split; [reflexivity|]); cbn [hs_status hs_total_failures hs_fatal_failures
    hs_degraded_failures hs_expected_skips hs_failures_by_venue]; split_and!; try lia; try (intros; apply tally_counts).
  - split; [done|]. by intros (_ & ? & _).
  - split; [done|lia].
  - split; [|done]. intros _. by split_and!.
  - split; [done|lia].
Qed.

(** What is read of a run is what was last saved of it. *)
Lemma run_status_round_trip s : run_status_of (run_status_value s) = Ok s.
Proof. by destruct s. Qed.
Theorem run_record_round_trip r t : get (cr_run_id r) (save r t) = Ok (Some r).
Proof. unfold get, save. rewrite dict_get_set_eq, run_status_round_trip. by destruct r. Qed.

(** The table follows the object at every step, other runs are left alone, and a run that
    completed carries the exit code 0. *)
Definition in_step (l : Lifecycle) : Prop := get (cr_run_id l.1) l.2 = Ok (Some l.1).
Theorem lifecycle_saved stage now class message exit_code signal canceled l run_id :
  let s := stage_step stage now l in let f := fail_step class message exit_code signal canceled now l in
  in_step s /\ in_step f /\ cr_run_id s.1 = cr_run_id l.1 /\ cr_run_id f.1 = cr_run_id l.1 /\
  (run_id <> cr_run_id l.1 -> get run_id s.2 = get run_id l.2 /\ get run_id f.2 = get run_id l.2) /\
  (cr_status s.1 = RUN_COMPLETED <-> stage = PROCESS_COMPLETED \/ stage = PROCESS_STARTED /\ cr_status l.1 = RUN_COMPLETED) /\
  (stage = PROCESS_COMPLETED -> cr_exit_code s.1 = Some 0) /\ cr_failure_reason f.1 <> None /\
  cr_status f.1 = (if canceled then RUN_CANCELED else RUN_FAILED).
Proof.
  destruct l as [r t]. unfold stage_step, fail_step, in_step. cbn [fst snd].
  split_and!; try (apply (run_record_round_trip _ t)); try done.
  - intros H. unfold get, save. cbn [cr_run_id replaced]. by rewrite !dict_get_set_ne by done.
  - cbn [cr_status replaced]. destruct stage; simpl; naive_solver.
  - intros ->. done.
Qed.
