(* ===== verification/OpsService.v ===== *)
(** * The continuous research and paper service (services/operations/service.py)

    [ContinuousResearchPaperService] ties collection, research and paper trading
    together: workers call its ticks, the ticks read the latest market events, gate
    signals by the health of the collector and the eligibility of the strategy, and
    execute accepted signals on the local portfolios.

    A tick is one step of the state; the results of the callables it awaits (health,
    market events, snapshot, research) are its arguments.  [self.now()] reads
    [clock], whose n-th value is returned by the n-th call; [str_decimal] is the text
    of a [Decimal], which depends on an exponent the model does not keep; the
    messages sent to the notifier are kept in [sv_notices].  The files of the daily
    report are not modelled. *)

From Stdlib Require Import ZArith QArith Qround Lia.
From stdpp Require Import base tactics list strings.
From S2P Require Import Prelude Decimals ExecutionModels Venues Evidence Json FundingCarry OpsModels.

Local Open Scope string_scope.
Local Open Scope list_scope.
Local Open Scope Z_scope.

(** ** Configuration and state *)

Record ContinuousPaperSettings := {
  cp_observation_only : bool;
  cp_mode : string;
  cp_venues : list string;
  cp_instruments : list string;
  cp_strategies : list string;
  cp_daily_report_hour_utc : Z;
  cp_daily_report_minute_utc : Z;
  cp_eligibility_ttl_seconds : Z;
  cp_source_event_max_age_seconds : Z;
  cp_funding_max_age_seconds : option Z;
  cp_funding_max_observation_skew_seconds : option Z;
  cp_maximum_orderbook_venue_skew_seconds : Z;
  cp_maximum_venue_timestamp_skew_seconds : Z;
  cp_minimum_data_quality : Q;
  cp_shadow_notional : Decimal;
  cp_minimum_shadow_net_edge : Decimal;
  cp_shadow_venue_taker_fee_rates : list (string * Decimal);
  (** with the text of each capital *)
  cp_initial_capitals : list (string * Decimal);
  cp_maximum_single_trade_risk : Decimal;
  cp_maximum_venue_exposure : Decimal;
  cp_maximum_instrument_exposure : Decimal;
  cp_maximum_daily_loss : Decimal;
  cp_maximum_drawdown : Decimal;
}.

Record ServiceConfig := {
  sc_settings : Settings;
  sc_database_url : string;
  sc_poll_interval_seconds : Q;
  sc_paper : ContinuousPaperSettings;
  sc_run_id : string;
  sc_commit_sha : string;
  sc_config_sha256 : string;
  sc_mode : OperationMode;
  sc_local_smoke : bool;
  (** [repository.durable] *)
  sc_durable : bool;
}.

(** [mode or (OBSERVATION_ONLY if observation_only else STRICT_PAPER)] *)
Definition default_mode (mode : option OperationMode) (p : ContinuousPaperSettings)
  : OperationMode :=
  match mode with
  | Some m => m
  | None => if cp_observation_only p then OBSERVATION_ONLY else STRICT_PAPER
  end.

Record MissingShadowInput := {
  mi_reason : FundingCarryRejectCode;
  mi_venue : string;
  mi_capability : string;
  mi_last_seen_event_at : option Z;
  mi_last_valid_event_at : option Z;
  mi_source_event_count : Z;
}.

Record ShadowTimingMetrics := {
  tm_hyperliquid_funding_age_seconds : Decimal;
  tm_bitget_funding_age_seconds : Decimal;
  tm_funding_observation_skew_seconds : Decimal;
  tm_hyperliquid_orderbook_age_seconds : Decimal;
  tm_bitget_orderbook_age_seconds : Decimal;
  tm_orderbook_venue_skew_seconds : Decimal;
  tm_funding_freshness_pass : bool;
  tm_orderbook_freshness_pass : bool;
  tm_orderbook_synchronization_pass : bool;
}.

Record ShadowInputBatch := {
  sb_events : list LiveSignalInput;
  sb_matched : bool;
  sb_pair_identity : option string;
  sb_source_pair_duplicate : bool;
  sb_missing : option MissingShadowInput;
  sb_timing : option ShadowTimingMetrics;
  sb_venue_timestamp_skew_seconds : option Decimal;
  sb_instrument : string;
}.

Record Service := {
  sv_repository : Repository;
  sv_collector_health : CollectorHealthSummary;
  sv_latest_events : list (string * string * string * LiveSignalInput);
  sv_shadow_input_batches : list (string * ShadowInputBatch);
  sv_portfolio_states : list (string * PortfolioState);
  sv_stop_event : bool;
  (** calls of [self.now()] so far *)
  sv_reads : nat;
  sv_notices : list (string * string * string);
}.

Definition set_sv_repository (v : Repository) (r : Service) : Service :=
  {|
     sv_repository := v; sv_collector_health := sv_collector_health r;
     sv_latest_events := sv_latest_events r;
     sv_shadow_input_batches := sv_shadow_input_batches r;
     sv_portfolio_states := sv_portfolio_states r; sv_stop_event := sv_stop_event r;
     sv_reads := sv_reads r; sv_notices := sv_notices r |}.

Definition set_sv_collector_health (v : CollectorHealthSummary) (r : Service) : Service :=
  {|
     sv_repository := sv_repository r; sv_collector_health := v;
     sv_latest_events := sv_latest_events r;
     sv_shadow_input_batches := sv_shadow_input_batches r;
     sv_portfolio_states := sv_portfolio_states r; sv_stop_event := sv_stop_event r;
     sv_reads := sv_reads r; sv_notices := sv_notices r |}.

Definition set_sv_latest_events (v : list (string * string * string * LiveSignalInput)) (r : Service) : Service :=
  {|
     sv_repository := sv_repository r; sv_collector_health := sv_collector_health r;
     sv_latest_events := v; sv_shadow_input_batches := sv_shadow_input_batches r;
     sv_portfolio_states := sv_portfolio_states r; sv_stop_event := sv_stop_event r;
     sv_reads := sv_reads r; sv_notices := sv_notices r |}.

Definition set_sv_shadow_input_batches (v : list (string * ShadowInputBatch)) (r : Service) : Service :=
  {|
     sv_repository := sv_repository r; sv_collector_health := sv_collector_health r;
     sv_latest_events := sv_latest_events r; sv_shadow_input_batches := v;
     sv_portfolio_states := sv_portfolio_states r; sv_stop_event := sv_stop_event r;
     sv_reads := sv_reads r; sv_notices := sv_notices r |}.

Definition set_sv_portfolio_states (v : list (string * PortfolioState)) (r : Service) : Service :=
  {|
     sv_repository := sv_repository r; sv_collector_health := sv_collector_health r;
     sv_latest_events := sv_latest_events r;
     sv_shadow_input_batches := sv_shadow_input_batches r; sv_portfolio_states := v;
     sv_stop_event := sv_stop_event r; sv_reads := sv_reads r; sv_notices := sv_notices r |}.

Definition set_sv_stop_event (v : bool) (r : Service) : Service :=
  {|
     sv_repository := sv_repository r; sv_collector_health := sv_collector_health r;
     sv_latest_events := sv_latest_events r;
     sv_shadow_input_batches := sv_shadow_input_batches r;
     sv_portfolio_states := sv_portfolio_states r; sv_stop_event := v; sv_reads := sv_reads r;
     sv_notices := sv_notices r |}.

Definition set_sv_reads (v : nat) (r : Service) : Service :=
  {|
     sv_repository := sv_repository r; sv_collector_health := sv_collector_health r;
     sv_latest_events := sv_latest_events r;
     sv_shadow_input_batches := sv_shadow_input_batches r;
     sv_portfolio_states := sv_portfolio_states r; sv_stop_event := sv_stop_event r;
     sv_reads := v; sv_notices := sv_notices r |}.

Definition set_sv_notices (v : list (string * string * string)) (r : Service) : Service :=
  {|
     sv_repository := sv_repository r; sv_collector_health := sv_collector_health r;
     sv_latest_events := sv_latest_events r;
     sv_shadow_input_batches := sv_shadow_input_batches r;
     sv_portfolio_states := sv_portfolio_states r; sv_stop_event := sv_stop_event r;
     sv_reads := sv_reads r; sv_notices := v |}.

(** The world outside the service. *)
Class OpsEnv := {
  clock : nat -> Z;
  str_decimal : Decimal -> string;
}.

(** [a / b] on Decimals *)
Definition pdiv `{DecimalContext} (a b : Decimal) : result Decimal :=
  if deqb b 0 then Err (OtherError "ArithmeticError") else Ok (ddiv a b).

(** [text or fallback] *)
Definition text_or (s : option string) (fallback : string) : string :=
  match s with Some s => if nonempty s then s else fallback | None => fallback end.

Definition validate_shadow_instruments (instruments : list string) : result unit :=
  require! bool_decide (instruments <> []) && bool_decide (NoDup instruments)
           && subset instruments FUNDING_CARRY_SHADOW_ALLOWED_INSTRUMENTS
    else ValueError "shadow instruments must be a non-empty unique subset of BTC/SOL";
  Ok tt.

Definition validate_startup (cfg : ServiceConfig) : result unit :=
  let settings := sc_settings cfg in
  let op := sc_paper cfg in
  require! negb (st_live_trading settings || live_enabled (st_live settings))
    else ValueError "continuous paper operation fails closed when live execution is enabled";
  require! st_paper_trading settings && st_paper_enabled settings
    else ValueError "continuous paper operation requires paper trading enabled";
  require! negb (bool_decide (sc_mode cfg = OBSERVATION_ONLY) && negb (cp_observation_only op))
    else ValueError "observation_only mode must be explicitly configured";
  require! negb (bool_decide (sc_mode cfg = STRICT_PAPER) && cp_observation_only op)
    else ValueError "strict_paper cannot start while observation_only is configured";
  let! _ :=
    (if bool_decide (cp_mode op = "shadow") then
       require! bool_decide (sc_mode cfg = OBSERVATION_ONLY)
         else ValueError "shadow mode requires observation_only";
       require! bool_decide (cp_strategies op = [FUNDING_CARRY_STRATEGY_ID])
         else ValueError "shadow mode only starts funding_carry";
       let! _ := validate_shadow_instruments (cp_instruments op) in
       require! bool_decide (cp_venues op = FUNDING_CARRY_REQUIRED_VENUES)
         else ValueError "shadow mode requires hyperliquid and bitget";
       require! bool_decide (live_adapter_name (st_live settings) = "disabled")
         else ValueError "shadow mode requires execution adapter disabled";
       Ok tt
     else Ok tt) in
  require! sc_local_smoke cfg || sc_durable cfg
    else ValueError "continuous paper operation requires a durable PostgreSQL repository";
  require! sc_local_smoke cfg || negb (startswith "sqlite" (sc_database_url cfg))
    else ValueError "SQLite is limited to tests and local smoke";
  require! same_set (cp_venues op) ["hyperliquid"; "bitget"]
    else ValueError "R3 supports only Hyperliquid and Bitget";
  require! subset (cp_strategies op)
             ["funding_carry"; "cross_venue_basis"; "btc_sol_relative_strength"]
    else ValueError "R3 cannot enable deferred or new strategies";
  Ok tt.

(** [SHADOW_INPUT_REFRESH_INTERVAL_SECONDS] *)
Definition SHADOW_INPUT_REFRESH_INTERVAL_SECONDS : Z := 10.

(** The evaluator of an instrument. *)
Definition shadow_config (cfg : ServiceConfig) (instrument : string) : FundingCarryShadowConfig :=
  let op := sc_paper cfg in
  {| fcc_instrument := instrument;
     fcc_venues := ("hyperliquid", "bitget");
     fcc_shadow_notional := cp_shadow_notional op;
     fcc_minimum_net_edge := cp_minimum_shadow_net_edge op;
     fcc_maximum_age_seconds := cp_source_event_max_age_seconds op;
     fcc_maximum_future_seconds := 1;
     fcc_funding_max_age_seconds :=
       match cp_funding_max_age_seconds op with
       | Some n => n
       | None => Qceiling (sc_poll_interval_seconds cfg) + SHADOW_INPUT_REFRESH_INTERVAL_SECONDS
       end;
     fcc_funding_max_observation_skew_seconds :=
       match cp_funding_max_observation_skew_seconds op with
       | Some n => n
       | None => Qceiling (sc_poll_interval_seconds cfg)
       end;
     fcc_maximum_orderbook_venue_skew_seconds := cp_maximum_orderbook_venue_skew_seconds op;
     fcc_maximum_venue_timestamp_skew_seconds := cp_maximum_venue_timestamp_skew_seconds op;
     fcc_economics_currency := "USD";
     fcc_evaluation_horizon_seconds := 3600;
     fcc_venue_taker_fee_rates := sorted_items (cp_shadow_venue_taker_fee_rates op) |}.

Section Service.
Context {C : DecimalContext} {D : Digest} {E : OpsEnv}.
Variable cfg : ServiceConfig.

Local Abbreviation Op := (sc_paper cfg).

(** ** Reading and writing *)

Definition now_ : M Service Z :=
  fun s => (set_sv_reads (S (sv_reads s)) s, Ok (clock (sv_reads s))).

Definition ask {A} (f : Repository -> A) : M Service A := fun s => (s, Ok (f (sv_repository s))).
Definition store (f : Repository -> Repository) : M Service unit :=
  pmodify (fun s => set_sv_repository (f (sv_repository s)) s).
Definition notify (title body level : string) : M Service unit :=
  pmodify (fun s => set_sv_notices (sv_notices s ++ [(title, body, level)]) s).
Definition set_state (portfolio_id : string) (state : PortfolioState) : M Service unit :=
  pmodify (fun s => set_sv_portfolio_states
                      (dict_set portfolio_id state (sv_portfolio_states s)) s).
Definition get_state (portfolio_id : string) : M Service PortfolioState :=
  fun s => (s, match dict_get portfolio_id (sv_portfolio_states s) with
               | Some state => Ok state
               | None => Err KeyError
               end).

Definition require_run : M Service OperationalRun :=
  fun s => (s, match get_run (sc_run_id cfg) (sv_repository s) with
               | Some run => Ok run
               | None => Err (RuntimeError "operational run is missing")
               end).

(** [replace(run, ..., updated_at=self.now())] and [save_run] *)
Definition update_run (run : OperationalRun) (f : OperationalRun -> OperationalRun)
  : M Service unit :=
  do! at_ <- now_;
  store (save_run (set_ru_updated_at at_ (f run))).

Definition identity_ (strategy_id strategy_version snapshot_id research_run_id : string) (at_ : Z)
  : result OperationalIdentity :=
  OperationalIdentity_new
    {| oi_run_id := sc_run_id cfg; oi_strategy_id := strategy_id;
       oi_strategy_version := strategy_version; oi_data_snapshot_id := snapshot_id;
       oi_research_run_id := research_run_id; oi_created_at := at_;
       oi_commit_sha := sc_commit_sha cfg; oi_config_sha256 := sc_config_sha256 cfg |}.

Definition DAY : Z := 86400000000.

Definition report_identity (report_date : Z) : M Service OperationalIdentity :=
  do! run <- require_run;
  plift (identity_ "SYSTEM" "0" (text_or (ru_last_snapshot_id run) "UNASSIGNED")
           (match ru_last_research_run_ids run with id :: _ => id | [] => "UNASSIGNED" end)
           (report_date * DAY)).

(** ** Start *)

(** The portfolio of one initial capital. *)
Definition restore_portfolio (now : Z) (entries : list PaperCashLedgerEntry)
    (capital : string * Decimal) : M Service unit :=
  let portfolio_id := "usd-" +:+ capital.1 in
  let portfolio_entries :=
    List.filter (fun e => bool_decide (ce_portfolio_id e = portfolio_id)) entries in
  let cash := match List.last (map Some portfolio_entries) None with
              | Some e => ce_balance_after e
              | None => capital.2
              end in
  run! set_state portfolio_id
    {| ps_portfolio_id := portfolio_id; ps_initial_capital := capital.2; ps_cash := cash;
       ps_peak_equity := dmax capital.2 cash; ps_current_equity := cash;
       ps_daily_start_equity := capital.2; ps_halted := false; ps_halt_reason := None |};
  match portfolio_entries with
  | [] =>
      do! identity <- plift (identity_ "SYSTEM" "0" "UNASSIGNED" "UNASSIGNED" now);
      store (add_cash_entry
        {| ce_identity := identity;
           ce_entry_id := sc_run_id cfg +:+ ":" +:+ portfolio_id +:+ ":initial";
           ce_portfolio_id := portfolio_id; ce_amount := capital.2;
           ce_balance_after := capital.2; ce_entry_type := "initial_capital";
           ce_occurred_at := now; ce_reference_id := None |})
  | _ => pret tt
  end.

Definition restore_position (position : PaperPositionRecord) : M Service unit :=
  do! state <- get_state (pp_portfolio_id position);
  let equity := dadd (ps_cash state) (pp_unrealized_pnl position) in
  set_state (pp_portfolio_id position)
    (set_ps_peak_equity (dmax (ps_peak_equity state) equity)
               (set_ps_current_equity equity state)).

Definition restore_or_initialize : M Service unit :=
  do! existing <- ask (get_run (sc_run_id cfg));
  do! now <- now_;
  run! (match existing with
        | None =>
            store (save_run
              {| ru_run_id := sc_run_id cfg; ru_commit_sha := sc_commit_sha cfg;
                 ru_config_sha256 := sc_config_sha256 cfg; ru_mode := sc_mode cfg;
                 ru_status := R_STARTING; ru_started_at := now; ru_updated_at := now;
                 ru_last_snapshot_id := None; ru_last_research_run_ids := [];
                 ru_collector_healthy := false; ru_signals_paused_reason := None;
                 ru_failure_reason := None; ru_research_status := X_NOT_SCHEDULED;
                 ru_research_skip_reason := None |})
        | Some run =>
            if negb (bool_decide (ru_commit_sha run = sc_commit_sha cfg))
               || negb (bool_decide (ru_config_sha256 run = sc_config_sha256 cfg))
            then praise (ValueError "restart identity does not match persisted operational run")
            else pret tt
        end);
  do! entries <- ask (cash_entries (sc_run_id cfg));
  do! positions <- ask (positions (sc_run_id cfg));
  run! pfor (cp_initial_capitals Op) (restore_portfolio now entries);
  pfor positions restore_position.

(** The service before it is started. *)
Definition Service_init (repository : Repository) : Service :=
  {| sv_repository := repository;
     sv_collector_health :=
       {| hs_status := H_INSUFFICIENT_EVIDENCE; hs_total_failures := 0; hs_fatal_failures := 0;
          hs_degraded_failures := 0; hs_expected_skips := 0; hs_failures_by_venue := [];
          hs_failures_by_instrument := []; hs_failures_by_event_type := [];
          hs_failures_by_error_type := []; hs_permanently_degraded_streams := 0;
          hs_recovery_required_streams := 0; hs_checkpoint_lag_max_seconds := None;
          hs_last_healthy_at := None; hs_reasons := ["health summary not yet evaluated"];
          hs_production_market_event_count := 0; hs_production_control_event_count := 0;
          hs_experimental_market_event_count := 0 |};
     sv_latest_events := []; sv_shadow_input_batches := []; sv_portfolio_states := [];
     sv_stop_event := false; sv_reads := 0; sv_notices := [] |}.

(** The constructor. *)
Definition Service_new (repository : Repository) : Service * result unit :=
  (run! plift (validate_startup cfg); restore_or_initialize) (Service_init repository).

(** ** Collector, snapshot and research state *)

Definition request_stop : M Service unit :=
  do! run <- require_run;
  run! update_run run (set_ru_status R_STOP_REQUESTED);
  pmodify (set_sv_stop_event true).

(** [self.collector_health_action is None] is the argument [no_action]. *)
Definition set_collector_health (no_action healthy : bool) (reason : option string)
  : M Service unit :=
  do! run <- require_run;
  let pause := if healthy then None else Some (text_or reason "collector_unhealthy") in
  run! update_run run (fun r => set_ru_signals_paused_reason pause (set_ru_collector_healthy healthy r));
  if no_action then
    pmodify (fun s => set_sv_collector_health
      (set_hs_status (if healthy then H_HEALTHY else H_UNHEALTHY)
        (set_hs_reasons (if healthy then [] else [text_or pause "collector_unhealthy"])
          (sv_collector_health s))) s)
  else pret tt.

Definition bind_snapshot (snapshot_id : string) (research_run_ids : list string)
  : M Service unit :=
  if nonempty snapshot_id then
    do! run <- require_run;
    update_run run (fun r =>
      set_ru_last_snapshot_id (Some snapshot_id)
        (set_ru_last_research_run_ids research_run_ids
          (set_ru_research_status X_NOT_SCHEDULED
            (set_ru_research_skip_reason None
              (set_ru_signals_paused_reason
                (if ru_collector_healthy run then None else ru_signals_paused_reason run) r)))))
  else praise (ValueError "snapshot_id cannot be empty").

Definition snapshot_failed (reason : string) : M Service unit :=
  do! run <- require_run;
  update_run run (set_ru_signals_paused_reason (Some ("snapshot_failed:" +:+ reason))).

(** The status of a strategy from the four gates. *)
Definition gate (evidence_complete data_quality_passed : bool) (research_verdict : string)
    (capital_feasible : bool)
  : StrategyEligibilityStatus * CapitalFeasibilityStatus * list string :=
  if negb evidence_complete then
    (S_INSUFFICIENT_EVIDENCE, F_INSUFFICIENT_EVIDENCE, ["research evidence is incomplete"])
  else if negb data_quality_passed then
    (S_DATA_QUALITY_FAILED, F_INSUFFICIENT_EVIDENCE, ["data quality gate failed"])
  else if negb (bool_decide (research_verdict = "PASS")) then
    (S_RESEARCH_FAILED, F_INSUFFICIENT_EVIDENCE, ["research verdict=" +:+ research_verdict])
  else if negb capital_feasible then
    (S_CAPITAL_INFEASIBLE, F_INFEASIBLE, ["capital feasibility gate failed"])
  else (S_ELIGIBLE, F_FEASIBLE, []).

Definition refresh_eligibility (strategy_id strategy_version research_run_id data_snapshot_id
    research_verdict : string) (data_quality_passed capital_feasible evidence_complete : bool)
  : M Service StrategyEligibilityRecord :=
  do! now <- now_;
  let '(status, capital_status, reasons) :=
    gate evidence_complete data_quality_passed research_verdict capital_feasible in
  let record :=
    {| el_strategy_id := strategy_id; el_strategy_version := strategy_version;
       el_status := status; el_research_run_id := research_run_id;
       el_data_snapshot_id := data_snapshot_id; el_evaluated_at := now;
       el_expires_at := now + seconds (cp_eligibility_ttl_seconds Op);
       el_reasons := reasons; el_capital_feasibility_status := capital_status |} in
  run! store (save_eligibility (sc_run_id cfg) record);
  pret record.

Definition record_market_event (event : LiveSignalInput) : M Service unit :=
  pmodify (fun s => set_sv_latest_events
    (dict_set (li_venue event, li_instrument event, li_event_type event) event
      (sv_latest_events s)) s).

(** ** Shadow candidates *)

(** [value if value is not None else fallback], [value or fallback] on datetimes *)
Definition timestamp_or (t : option datetime) (fallback : Z) : datetime :=
  match t with Some t => t | None => Aware fallback end.

Definition to_funding (event : LiveSignalInput) : FundingObservation :=
  {| fo_event_id := li_event_id event; fo_venue := li_venue event;
     fo_instrument := li_instrument event;
     fo_raw_funding_rate :=
       match li_funding_rate event with Some rate => rate | None => NonFinite end;
     fo_funding_unit := match li_funding_unit event with Some u => u | None => EmptyString end;
     fo_funding_interval_seconds := li_funding_interval_seconds event;
     fo_next_funding_at := li_next_funding_at event;
     fo_source_timestamp := timestamp_or (li_source_timestamp event) (li_available_at event);
     fo_received_at := timestamp_or (li_received_at event) (li_available_at event);
     fo_experimental := negb (bool_decide (li_capability_support event = "live_verified")) |}.

(** [levels or ((price, size),)] *)
Definition levels_or (levels : list (number * number)) (price size : option Decimal)
  : list (number * number) :=
  match levels, price, size with
  | [], Some p, Some q => [(Finite p, Finite q)]
  | [], _, _ => []
  | _, _, _ => levels
  end.

Definition to_book (event : LiveSignalInput) : OrderBookObservation :=
  {| ob_event_id := li_event_id event; ob_venue := li_venue event;
     ob_instrument := li_instrument event;
     ob_bids := levels_or (li_bids event) (li_bid event) (li_bid_size event);
     ob_asks := levels_or (li_asks event) (li_ask event) (li_ask_size event);
     ob_source_timestamp := timestamp_or (li_source_timestamp event) (li_available_at event);
     ob_received_at := timestamp_or (li_received_at event) (li_available_at event);
     ob_experimental := negb (bool_decide (li_capability_support event = "live_verified"));
     ob_source_event_ids := dict_fromkeys
       (text_or (li_source_event_id event) (li_event_id event)
          :: li_applied_source_event_ids event) |}.

Definition is_book_event (event : LiveSignalInput) : bool :=
  startswith "orderbook" (li_event_type event)
  || bool_decide (li_event_type event = "canonical_orderbook_snapshot").

(** [replace(candidate, ...)] with what the batch says of its inputs *)
Definition annotate (batch : ShadowInputBatch) (events : list LiveSignalInput)
    (c : FundingCarryShadowCandidate) : FundingCarryShadowCandidate :=
  let missing := sb_missing batch in
  let timing := sb_timing batch in
  {|
     ca_candidate_id := ca_candidate_id c; ca_run_id := ca_run_id c;
     ca_strategy_id := ca_strategy_id c; ca_instrument := ca_instrument c;
     ca_long_venue := ca_long_venue c; ca_short_venue := ca_short_venue c;
     ca_receive_leg := ca_receive_leg c; ca_pay_leg := ca_pay_leg c;
     ca_source_event_ids := ca_source_event_ids c;
     ca_funding_timestamps := ca_funding_timestamps c;
     ca_orderbook_timestamps := ca_orderbook_timestamps c;
     ca_raw_funding_rates := ca_raw_funding_rates c;
     ca_canonical_funding_rates := ca_canonical_funding_rates c;
     ca_funding_intervals := ca_funding_intervals c;
     ca_funding_rates_per_hour := ca_funding_rates_per_hour c;
     ca_long_entry_vwap := ca_long_entry_vwap c; ca_short_entry_vwap := ca_short_entry_vwap c;
     ca_long_available_quantity := ca_long_available_quantity c;
     ca_short_available_quantity := ca_short_available_quantity c;
     ca_long_slippage_bps := ca_long_slippage_bps c;
     ca_short_slippage_bps := ca_short_slippage_bps c;
     ca_gross_funding_edge := ca_gross_funding_edge c;
     ca_expected_funding_income := ca_expected_funding_income c;
     ca_long_entry_fee := ca_long_entry_fee c; ca_short_entry_fee := ca_short_entry_fee c;
     ca_estimated_exit_fee := ca_estimated_exit_fee c;
     ca_long_entry_slippage := ca_long_entry_slippage c;
     ca_short_entry_slippage := ca_short_entry_slippage c;
     ca_estimated_exit_slippage := ca_estimated_exit_slippage c;
     ca_entry_basis_cost := ca_entry_basis_cost c; ca_expected_net_edge := ca_expected_net_edge c;
     ca_disposition := ca_disposition c;
     ca_rejection_reason := match missing with Some m => Some (mi_reason m) | None => ca_rejection_reason c end;
     ca_created_at := ca_created_at c; ca_code_commit_sha := ca_code_commit_sha c;
     ca_config_sha := ca_config_sha c; ca_missing_venue := mi_venue <$> missing;
     ca_missing_capability := mi_capability <$> missing;
     ca_last_seen_event_at := m ← missing; mi_last_seen_event_at m;
     ca_last_valid_event_at := m ← missing; mi_last_valid_event_at m;
     ca_source_event_count := match missing with Some m => mi_source_event_count m | None => Z.of_nat (length events) end;
     ca_venue_timestamp_skew_seconds := sb_venue_timestamp_skew_seconds batch;
     ca_hyperliquid_funding_age_seconds := tm_hyperliquid_funding_age_seconds <$> timing;
     ca_bitget_funding_age_seconds := tm_bitget_funding_age_seconds <$> timing;
     ca_funding_observation_skew_seconds := tm_funding_observation_skew_seconds <$> timing;
     ca_hyperliquid_orderbook_age_seconds := tm_hyperliquid_orderbook_age_seconds <$> timing;
     ca_bitget_orderbook_age_seconds := tm_bitget_orderbook_age_seconds <$> timing;
     ca_orderbook_venue_skew_seconds := tm_orderbook_venue_skew_seconds <$> timing;
     ca_funding_freshness_pass := tm_funding_freshness_pass <$> timing;
     ca_orderbook_freshness_pass := tm_orderbook_freshness_pass <$> timing;
     ca_orderbook_synchronization_pass := tm_orderbook_synchronization_pass <$> timing;
     ca_evaluation_stage := ca_evaluation_stage c;
     ca_economics_calculated := ca_economics_calculated c;
     ca_economics_currency := ca_economics_currency c;
     ca_economics_notional := ca_economics_notional c;
     ca_evaluation_horizon_seconds := ca_evaluation_horizon_seconds c;
     ca_funding_income_horizon := ca_funding_income_horizon c;
     ca_gross_funding_edge_per_hour := ca_gross_funding_edge_per_hour c;
     ca_gross_funding_cashflow_per_hour := ca_gross_funding_cashflow_per_hour c;
     ca_entry_fee_total := ca_entry_fee_total c;
     ca_entry_slippage_total := ca_entry_slippage_total c;
     ca_round_trip_cost := ca_round_trip_cost c;
     ca_expected_net_income := ca_expected_net_income c;
     ca_break_even_holding_hours := ca_break_even_holding_hours c |}.

Definition generate_funding_carry_shadow_candidate (events : list LiveSignalInput)
    (batch : option ShadowInputBatch) (instrument : option string) (decision_time : option Z)
  : M Service FundingCarryShadowCandidate :=
  do! decision_time <- (match decision_time with Some t => pret t | None => now_ end);
  do! instrument <-
    (if nonempty (text_or instrument EmptyString) then pret (text_or instrument EmptyString)
     else if nonempty (text_or (sb_instrument <$> batch) EmptyString)
     then pret (text_or (sb_instrument <$> batch) EmptyString)
     else match events with
          | event :: _ => pret (li_instrument event)
          | [] => match cp_instruments Op with
                  | i :: _ => pret i
                  | [] => praise (IndexError "tuple index out of range")
                  end
          end);
  let funding := map to_funding
    (List.filter (fun e => bool_decide (li_event_type e = "funding_current")) events) in
  let orderbooks := map to_book (List.filter is_book_event events) in
  if bool_decide (instrument ∈ cp_instruments Op) then
    do! candidate <- plift (evaluate (shadow_config cfg instrument) (sc_run_id cfg) funding
                              orderbooks decision_time (sc_commit_sha cfg) (sc_config_sha256 cfg));
    let candidate := match batch with
                     | Some batch => annotate batch events candidate
                     | None => candidate
                     end in
    run! store (fun r => (record_shadow_candidate candidate
           (match batch with Some b => sb_matched b | None => false end)
           (match batch with Some b => sb_source_pair_duplicate b | None => false end) r).1);
    pret candidate
  else praise KeyError.

(** ** Signals *)

Definition event_rejection (instrument : string) (decision_time : Z) (event : LiveSignalInput)
  : option string :=
  let age := decision_time - li_available_at event in
  if negb (bool_decide (li_instrument event = instrument))
  then Some "wrong_instrument_source_event"
  else if negb ((0 <=? age) && (age <=? seconds (cp_source_event_max_age_seconds Op)))
  then Some "stale_or_future_source_event"
  else if negb (bool_decide (li_capability_support event = "live_verified"))
  then Some "capability_not_live_verified"
  else if dltb (li_data_quality_score event) (cp_minimum_data_quality Op)
  then Some "source_event_data_quality_failed"
  else if startswith "orderbook" (li_event_type event)
          && negb (bool_decide (li_reconciliation_state event = Some "synchronized"))
  then Some "orderbook_unsynchronized"
  else None.

(** The loop over the events returns the first reason. *)
Fixpoint events_rejection (instrument : string) (decision_time : Z)
    (events : list LiveSignalInput) : option string :=
  match events with
  | [] => None
  | event :: events =>
      match event_rejection instrument decision_time event with
      | Some reason => Some reason
      | None => events_rejection instrument decision_time events
      end
  end.

Definition signal_rejection (run : OperationalRun) (e : option StrategyEligibilityRecord)
    (events : list LiveSignalInput) (instrument : string) (decision_time : Z) : option string :=
  if negb (ru_collector_healthy run)
  then Some (text_or (ru_signals_paused_reason run) "collector_unhealthy")
  else if nonempty (text_or (ru_signals_paused_reason run) EmptyString)
  then ru_signals_paused_reason run
  else match ru_last_snapshot_id run with
  | None => Some "no_current_snapshot"
  | Some snapshot_id =>
    match e with
    | None => Some "missing_strategy_eligibility"
    | Some e =>
      if negb (bool_decide (el_data_snapshot_id e = snapshot_id))
      then Some "eligibility_snapshot_mismatch"
      else if negb (valid_at e decision_time)
      then Some ("eligibility_" +:+ eligibility_status_value (el_status e) +:+ "_or_expired")
      else if bool_decide (events = [])
      then Some "missing_source_events"
      else if (length (dict_fromkeys (map li_venue events)) <? 2)%nat
      then Some "missing_cross_venue_leg"
      else if negb (bool_decide (NoDup (map li_event_id events)))
      then Some "duplicate_source_event"
      else events_rejection instrument decision_time events
    end
  end.

Definition signal_disposition (rejection : option string) (e : option StrategyEligibilityRecord)
  : SignalDisposition :=
  match rejection with
  | None => D_ELIGIBLE
  | Some reason =>
      if bool_decide (reason ∈ ["missing_source_events"; "missing_cross_venue_leg"])
      then D_CANDIDATE
      else if contains "capability" reason then D_REJECTED_CAPABILITY
      else if bool_decide (reason = "eligibility_capital_infeasible_or_expired")
              || (match e with
                  | Some e => bool_decide (el_status e = S_CAPITAL_INFEASIBLE)
                  | None => false
                  end)
      then D_REJECTED_CAPITAL
      else if startswith "eligibility_" reason
              || bool_decide (reason ∈ ["missing_strategy_eligibility";
                   "eligibility_snapshot_mismatch"; "no_current_snapshot"])
      then D_REJECTED_RESEARCH
      else D_REJECTED_DATA_QUALITY
  end.

Definition signal_payload (strategy_id strategy_version instrument : string) (decision_time : Z)
    (event_ids : list string) : json :=
  JObject [(text "decision_time", JString (text (isoformat decision_time)));
           (text "event_ids",
            JArray (map (fun x => JString (text x)) (sorted_by string_leb event_ids)));
           (text "instrument", JString (text instrument));
           (text "run_id", JString (text (sc_run_id cfg)));
           (text "strategy_id", JString (text strategy_id));
           (text "strategy_version", JString (text strategy_version))].

Definition make_signal_id (strategy_id strategy_version instrument : string) (decision_time : Z)
    (event_ids : list string) : string :=
  sha256_hex (untext (dumps compact_style
    (signal_payload strategy_id strategy_version instrument decision_time event_ids))).

(** What a caller asks for. *)
Record SignalRequest := {
  sr_strategy_id : string;
  sr_strategy_version : string;
  sr_instrument : string;
  sr_side : Side;
  sr_quantity : Decimal;
  sr_events : list LiveSignalInput;
  sr_expected_gross_edge : Decimal;
  sr_expected_fee : Decimal;
  sr_expected_rebate : Decimal;
  sr_expected_funding : Decimal;
  sr_expected_slippage : Decimal;
  sr_expected_impact : Decimal;
  sr_required_capabilities : list string;
  sr_decision_time : option Z;
}.

Definition generate_signal (q : SignalRequest) : M Service PaperSignal :=
  do! decision_time <- (match sr_decision_time q with Some t => pret t | None => now_ end);
  do! run <- require_run;
  do! records <- ask (eligibility (sc_run_id cfg));
  let e := List.find (fun e => bool_decide (el_strategy_id e = sr_strategy_id q)
                      && bool_decide (el_strategy_version e = sr_strategy_version q)) records in
  let events := sr_events q in
  let rejection := signal_rejection run e events (sr_instrument q) decision_time in
  let disposition := signal_disposition rejection e in
  let snapshot_id := match e with
                     | Some e => el_data_snapshot_id e
                     | None => text_or (ru_last_snapshot_id run) "UNASSIGNED"
                     end in
  let research_run_id := match e with Some e => el_research_run_id e | None => "UNASSIGNED" end in
  do! identity <- plift (identity_ (sr_strategy_id q) (sr_strategy_version q) snapshot_id
                           research_run_id decision_time);
  do! signal <- plift (PaperSignal_new
    {| sg_identity := identity;
       sg_signal_id := make_signal_id (sr_strategy_id q) (sr_strategy_version q)
                         (sr_instrument q) decision_time (map li_event_id events);
       sg_decision_time := decision_time;
       sg_venue_legs := dict_fromkeys (map li_venue events);
       sg_instrument := sr_instrument q; sg_side := sr_side q; sg_quantity := sr_quantity q;
       sg_expected_gross_edge := sr_expected_gross_edge q;
       sg_expected_net_edge :=
         (sr_expected_gross_edge q ⊖ sr_expected_fee q ⊕ sr_expected_rebate q
          ⊕ sr_expected_funding q ⊖ sr_expected_slippage q ⊖ sr_expected_impact q)%dec;
       sg_expected_fee := sr_expected_fee q; sg_expected_rebate := sr_expected_rebate q;
       sg_expected_funding := sr_expected_funding q;
       sg_expected_slippage := sr_expected_slippage q;
       sg_expected_impact := sr_expected_impact q;
       sg_required_capabilities := sr_required_capabilities q;
       sg_source_event_ids := map li_event_id events;
       sg_disposition := disposition; sg_rejection_reason := rejection |});
  run! store (fun r => (add_signal signal r).1);
  pret signal.

(** ** Risk *)

Definition evaluate_portfolio_risk (identity : OperationalIdentity) (state : PortfolioState)
  : M Service unit :=
  do! daily_loss <- plift (pdiv (dsub (ps_daily_start_equity state) (ps_current_equity state))
                             (ps_daily_start_equity state));
  do! drawdown <- plift (pdiv (dsub (ps_peak_equity state) (ps_current_equity state))
                           (ps_peak_equity state));
  let verdict :=
    if dleb (cp_maximum_daily_loss Op) daily_loss
    then Some ("daily_loss_halt", "daily_loss=" +:+ str_decimal daily_loss)
    else if dleb (cp_maximum_drawdown Op) drawdown
    then Some ("maximum_drawdown_halt", "drawdown=" +:+ str_decimal drawdown)
    else None in
  match verdict with
  | Some (event_type, reason) =>
      run! set_state (ps_portfolio_id state) (set_ps_halt_reason (Some reason) (set_ps_halted true state));
      do! at_ <- now_;
      store (add_risk_event
        {| re_identity := identity;
           re_event_id := "risk:" +:+ sc_run_id cfg +:+ ":" +:+ ps_portfolio_id state
                            +:+ ":" +:+ event_type;
           re_portfolio_id := ps_portfolio_id state; re_event_type := event_type;
           re_reason := reason; re_occurred_at := at_; re_blocks_new_signals := true |})
  | None => pret tt
  end.

Definition force_portfolio_equity (portfolio_id : string) (equity : Decimal)
    (identity : OperationalIdentity) : M Service unit :=
  do! state <- get_state portfolio_id;
  let updated := set_ps_current_equity equity state in
  run! set_state portfolio_id updated;
  evaluate_portfolio_risk identity updated.

(** ** Execution *)

Definition find_position (portfolio_id venue instrument : string)
    (ps : list PaperPositionRecord) : option PaperPositionRecord :=
  List.find (fun p => bool_decide (pp_portfolio_id p = portfolio_id)
                      && bool_decide (pp_venue p = venue)
                      && bool_decide (pp_instrument p = instrument)) ps.

(** [state] is the caller's variable, not the stored one. *)
Definition apply_fill (signal : PaperSignal) (state : PortfolioState) (fill : PaperFillRecord)
  : M Service unit :=
  do! ps <- ask (positions (sc_run_id cfg));
  let existing := find_position (ps_portfolio_id state) (pf_venue fill) (pf_instrument fill) ps in
  let signed := match pf_side fill with BUY => pf_quantity fill | SELL => dneg (pf_quantity fill) end in
  let quantity := dadd (match existing with Some p => pp_quantity p | None => 0%Q end) signed in
  run! store (save_position
    {| pp_identity := sg_identity signal; pp_portfolio_id := ps_portfolio_id state;
       pp_venue := pf_venue fill; pp_instrument := pf_instrument fill; pp_quantity := quantity;
       pp_average_entry := if deqb quantity 0 then 0%Q else pf_price fill;
       pp_realized_pnl := match existing with Some p => pp_realized_pnl p | None => 0%Q end;
       pp_unrealized_pnl := 0%Q;
       pp_funding_pnl := match existing with Some p => pp_funding_pnl p | None => 0%Q end;
       pp_updated_at := pf_executed_at fill |});
  let cash_delta := dsub (pf_rebate_received fill) (pf_fee_paid fill) in
  let new_cash := dadd (ps_cash state) cash_delta in
  run! store (add_cash_entry
    {| ce_identity := sg_identity signal; ce_entry_id := "cash:" +:+ pf_fill_id fill;
       ce_portfolio_id := ps_portfolio_id state; ce_amount := cash_delta;
       ce_balance_after := new_cash; ce_entry_type := "paper_fill_cost";
       ce_occurred_at := pf_executed_at fill; ce_reference_id := Some (pf_fill_id fill) |});
  let updated := set_ps_peak_equity (dmax (ps_peak_equity state) new_cash)
                   (set_ps_current_equity new_cash (set_ps_cash new_cash state)) in
  run! set_state (ps_portfolio_id state) updated;
  evaluate_portfolio_risk (sg_identity signal) updated.

Definition unwind_failed_leg (signal : PaperSignal) (state : PortfolioState)
    (first_fill : PaperFillRecord) (quote : LiveSignalInput) : M Service unit :=
  let price := match pf_side first_fill with BUY => li_bid quote | SELL => li_ask quote end in
  let cost := match price with
              | None => dmul (pf_price first_fill) (pf_quantity first_fill)
              | Some price => dmul (dabs (dsub (pf_price first_fill) price)) (pf_quantity first_fill)
              end in
  do! at_ <- now_;
  store (add_risk_event
    {| re_identity := sg_identity signal;
       re_event_id := "risk:" +:+ pf_fill_id first_fill +:+ ":one-leg";
       re_portfolio_id := ps_portfolio_id state; re_event_type := "one_leg_failure_unwind";
       re_reason := "failed_leg_cost=" +:+ str_decimal cost; re_occurred_at := at_;
       re_blocks_new_signals := true |}).

(** The keyword arguments of [execute_signal]. *)
Record ExecutionOptions := {
  xo_maker : bool;
  xo_maker_fee_rate : Decimal;
  xo_taker_fee_rate : Decimal;
  xo_maker_rebate_rate : Decimal;
  xo_maximum_participation : Decimal;
  xo_impact_bps : Decimal;
  xo_latency_ms : Z;
  xo_minimum_quantity : Decimal;
  xo_minimum_notional : Decimal;
  xo_fail_leg_role : option string;
}.

Definition default_options : ExecutionOptions :=
  {| xo_maker := false; xo_maker_fee_rate := (2 # 10000)%Q; xo_taker_fee_rate := (6 # 10000)%Q;
     xo_maker_rebate_rate := 0%Q; xo_maximum_participation := (1 # 10)%Q; xo_impact_bps := 1%Q;
     xo_latency_ms := 200; xo_minimum_quantity := 0%Q; xo_minimum_notional := 5%Q;
     xo_fail_leg_role := None |}.

(** The checks before a leg is filled, and the quantity filled. *)
Definition leg_decision (o : ExecutionOptions) (signal : PaperSignal) (state : PortfolioState)
    (legs : nat) (price depth : Decimal) : option string * Decimal :=
  let quantity := sg_quantity signal in
  let notional := dmul quantity price in
  let projected_notional := dmul notional (inject_Z (Z.of_nat legs)) in
  let estimated_trade_risk :=
    dadd (dadd (sg_expected_fee signal) (sg_expected_slippage signal)) (sg_expected_impact signal) in
  let equity := ps_current_equity state in
  if dltb quantity (xo_minimum_quantity o) || dltb notional (xo_minimum_notional o)
  then (Some "instrument_minimum_not_met", 0%Q)
  else if dltb (dmul equity (cp_maximum_single_trade_risk Op)) estimated_trade_risk
  then (Some "single_trade_risk_exceeded", 0%Q)
  else if dltb equity projected_notional
  then (Some "maximum_leverage_exceeded", 0%Q)
  else if dltb (dmul equity (cp_maximum_venue_exposure Op)) notional
          || dltb (dmul equity (cp_maximum_instrument_exposure Op)) notional
  then (Some "capital_or_venue_exposure_infeasible", 0%Q)
  else (None, dmin quantity (dmul depth (xo_maximum_participation o))).

Definition leg_status (rejection : option string) (filled quantity : Decimal) : string :=
  match rejection with
  | Some _ => "rejected"
  | None => if deqb filled quantity then "filled"
            else if deqb filled 0 then "open" else "partially_filled"
  end.

Definition make_fill (o : ExecutionOptions) (signal : PaperSignal) (order : PaperOrderRecord)
    (touch : Decimal) : PaperFillRecord :=
  let filled := po_filled_quantity order in
  let impact := ddiv (dmul touch (xo_impact_bps o)) 10000 in
  let fill_price := match sg_side signal with BUY => dadd touch impact | SELL => dsub touch impact end in
  let fee := dmul (dmul fill_price filled)
               (if xo_maker o then xo_maker_fee_rate o else xo_taker_fee_rate o) in
  let rebate := if xo_maker o then dmul (dmul fill_price filled) (xo_maker_rebate_rate o) else 0%Q in
  {| pf_identity := sg_identity signal; pf_fill_id := "fill:" +:+ po_order_id order;
     pf_order_id := po_order_id order; pf_portfolio_id := po_portfolio_id order;
     pf_venue := po_venue order; pf_instrument := sg_instrument signal; pf_side := sg_side signal;
     pf_quantity := filled; pf_price := fill_price; pf_fee_paid := fee;
     pf_rebate_received := rebate;
     pf_slippage_cost := dmul (dabs (dsub fill_price touch)) filled;
     pf_impact_cost := dmul (dabs impact) filled; pf_executed_at := po_updated_at order;
     pf_latency_ms := xo_latency_ms o; pf_leg_role := po_leg_role order |}.

Definition leg_role_of (index : nat) : string :=
  match index with O => "receive_leg" | S _ => "pay_leg" end.

Definition order_id_of (signal : PaperSignal) (state : PortfolioState) (leg_role : string) : string :=
  sg_signal_id signal +:+ ":" +:+ ps_portfolio_id state +:+ ":" +:+ leg_role.

(** [for index, venue in enumerate(legs)], with the variables [first_fill] and
    [results]. *)
Fixpoint run_legs (o : ExecutionOptions) (signal : PaperSignal) (state : PortfolioState)
    (quotes : list LiveSignalInput) (count : nat) (legs : list string) (index : nat)
    (first_fill : option PaperFillRecord) (results : list PaperOrderRecord)
  : M Service (list PaperOrderRecord) :=
  match legs with
  | [] => pret results
  | venue :: legs =>
      let quote := dict_get venue (by_venue li_venue quotes) in
      let leg_role := leg_role_of index in
      let order_id := order_id_of signal state leg_role in
      do! submitted_at <- now_;
      let failed := bool_decide (Some leg_role = xo_fail_leg_role o) in
      match (if failed then None else quote) with
      | None =>
          let order :=
            {| po_identity := sg_identity signal; po_order_id := order_id;
               po_signal_id := sg_signal_id signal; po_portfolio_id := ps_portfolio_id state;
               po_venue := venue; po_instrument := sg_instrument signal; po_side := sg_side signal;
               po_requested_quantity := sg_quantity signal; po_filled_quantity := 0%Q;
               po_status := "rejected"; po_submitted_at := submitted_at;
               po_updated_at := submitted_at; po_leg_role := leg_role;
               po_rejection_reason :=
                 Some (if failed then "injected_one_leg_failure" else "quote_unavailable") |} in
          run! store (save_order order);
          run! (match first_fill with
                | Some fill =>
                    match quote, quotes with
                    | Some q, _ | None, q :: _ => unwind_failed_leg signal state fill q
                    | None, [] => praise (IndexError "tuple index out of range")
                    end
                | None => pret tt
                end);
          pret (results ++ [order])
      | Some quote =>
          let '(price, depth) := match sg_side signal with
                                 | BUY => (li_ask quote, li_ask_size quote)
                                 | SELL => (li_bid quote, li_bid_size quote)
                                 end in
          match price, depth with
          | Some price, Some depth =>
              let '(rejection, filled) := leg_decision o signal state count price depth in
              let order :=
                {| po_identity := sg_identity signal; po_order_id := order_id;
                   po_signal_id := sg_signal_id signal; po_portfolio_id := ps_portfolio_id state;
                   po_venue := venue; po_instrument := sg_instrument signal;
                   po_side := sg_side signal; po_requested_quantity := sg_quantity signal;
                   po_filled_quantity := filled;
                   po_status := leg_status rejection filled (sg_quantity signal);
                   po_submitted_at := submitted_at;
                   po_updated_at := submitted_at + xo_latency_ms o * 1000;
                   po_leg_role := leg_role; po_rejection_reason := rejection |} in
              run! store (save_order order);
              if dleb filled 0 then
                run_legs o signal state quotes count legs (S index) first_fill (results ++ [order])
              else
                let fill := make_fill o signal order price in
                run! store (save_fill fill);
                run! apply_fill signal state fill;
                run_legs o signal state quotes count legs (S index)
                  (match index with O => Some fill | S _ => first_fill end) (results ++ [order])
          | _, _ => run_legs o signal state quotes count legs (S index) first_fill results
          end
      end
  end.

(** [for state in tuple(self._portfolio_states.values())] *)
Fixpoint run_portfolios (o : ExecutionOptions) (signal : PaperSignal)
    (quotes : list LiveSignalInput) (legs : list string) (states : list PortfolioState)
    (results : list PaperOrderRecord) : M Service (list PaperOrderRecord) :=
  match states with
  | [] => pret results
  | state :: states =>
      if ps_halted state then run_portfolios o signal quotes legs states results
      else
        do! results <- run_legs o signal state quotes (length legs) legs 0 None results;
        run_portfolios o signal quotes legs states results
  end.

Definition execute_signal (o : ExecutionOptions) (signal : PaperSignal)
    (quotes : list LiveSignalInput) : M Service (list PaperOrderRecord) :=
  if bool_decide (sc_mode cfg = OBSERVATION_ONLY) then pret []
  else match sg_rejection_reason signal with
  | Some _ => pret []
  | None =>
      do! records <- ask (eligibility (sc_run_id cfg));
      match List.find (fun e => bool_decide (el_strategy_id e = oi_strategy_id (sg_identity signal)))
              records with
      | None => pret []
      | Some e =>
          do! at_ <- now_;
          if valid_at e at_ then
            let legs := match sg_venue_legs signal with
                        | [] => dict_keys (by_venue li_venue quotes)
                        | legs => legs
                        end in
            do! states <- (fun s => (s, Ok (dict_values (sv_portfolio_states s))));
            run_portfolios o signal quotes legs states []
          else pret []
      end
  end.

(** ** Funding *)

Definition settle_funding (portfolio_id venue instrument : string) (rate mark_price : Decimal)
    (at_ : option Z) : M Service Decimal :=
  do! at_ <- (match at_ with Some t => pret t | None => now_ end);
  do! ps <- ask (positions (sc_run_id cfg));
  match find_position portfolio_id venue instrument ps with
  | None => pret 0%Q
  | Some position =>
      let amount := dneg (dmul (dmul (pp_quantity position) mark_price) rate) in
      do! state <- get_state portfolio_id;
      let identity := pp_identity position in
      let key := portfolio_id +:+ ":" +:+ venue +:+ ":" +:+ instrument +:+ ":" +:+ isoformat at_ in
      run! store (add_funding_entry
        {| fe_identity := identity; fe_entry_id := "funding:" +:+ key;
           fe_portfolio_id := portfolio_id; fe_venue := venue; fe_instrument := instrument;
           fe_rate := rate; fe_amount := amount; fe_occurred_at := at_ |});
      run! store (add_cash_entry
        {| ce_identity := identity; ce_entry_id := "cash:funding:" +:+ key;
           ce_portfolio_id := portfolio_id; ce_amount := amount;
           ce_balance_after := dadd (ps_cash state) amount; ce_entry_type := "funding";
           ce_occurred_at := at_; ce_reference_id := None |});
      run! set_state portfolio_id (set_ps_cash (dadd (ps_cash state) amount)
                        (set_ps_current_equity (dadd (ps_current_equity state) amount) state));
      run! store (save_position (set_pp_funding_pnl (dadd (pp_funding_pnl position) amount)
                                   (set_pp_updated_at at_ position)));
      pret amount
  end.

(** ** Reports *)

(** What the fills of a portfolio cost. *)
Record FillTotals := {
  ft_fees : Decimal;
  ft_rebates : Decimal;
  ft_slippage : Decimal;
  ft_impact : Decimal;
}.

Definition fill_totals (portfolio_fills : list PaperFillRecord) : FillTotals :=
  {| ft_fees := dsum (map pf_fee_paid portfolio_fills);
     ft_rebates := dsum (map pf_rebate_received portfolio_fills);
     ft_slippage := dsum (map pf_slippage_cost portfolio_fills);
     ft_impact := dsum (map pf_impact_cost portfolio_fills) |}.

Definition fills_of (portfolio_id : string) (r : Repository) : list PaperFillRecord :=
  List.filter (fun f => bool_decide (pf_portfolio_id f = portfolio_id)) (fills (sc_run_id cfg) r).

Definition funding_of (portfolio_id : string) (r : Repository) : Decimal :=
  dsum (map fe_amount (List.filter (fun e => bool_decide (fe_portfolio_id e = portfolio_id))
                         (funding_entries (sc_run_id cfg) r))).

(** The number of one-leg failures, which the metric reports as a cost. *)
Definition failed_legs_of (portfolio_id : string) (r : Repository) : Decimal :=
  inject_Z (Z.of_nat (length (List.filter
    (fun e => bool_decide (re_portfolio_id e = portfolio_id)
              && bool_decide (re_event_type e = "one_leg_failure_unwind"))
    (risk_events (sc_run_id cfg) r)))).

Definition dlen {A} (xs : list A) : Decimal := inject_Z (Z.of_nat (length xs)).

(** [net + fees - rebates + slippage + impact] *)
Definition gross_of (net : Decimal) (t : FillTotals) : Decimal :=
  (net ⊕ ft_fees t ⊖ ft_rebates t ⊕ ft_slippage t ⊕ ft_impact t)%dec.

Record Expectations := {
  xp_net_pnl : Decimal;
  xp_gross_pnl : Decimal;
  xp_fill_ratio : Decimal;
  xp_latency_ms : Decimal;
}.

Definition default_expectations : Expectations :=
  {| xp_net_pnl := 0%Q; xp_gross_pnl := 0%Q; xp_fill_ratio := 1%Q; xp_latency_ms := 0%Q |}.

Definition attribution_of (x : Expectations) (report_date : Z) (identity : OperationalIdentity)
    (state : PortfolioState) (r : Repository) : PaperAttribution :=
  let portfolio_fills := fills_of (ps_portfolio_id state) r in
  let t := fill_totals portfolio_fills in
  let actual_net := dsub (ps_current_equity state) (ps_initial_capital state) in
  let actual_gross := gross_of actual_net t in
  let sigs := signals (sc_run_id cfg) r in
  let fill_ratio := match sigs with
                    | [] => 0%Q
                    | _ => ddiv (dlen portfolio_fills) (dlen sigs)
                    end in
  let latency := match portfolio_fills with
                 | [] => 0%Q
                 | _ => ddiv (dsum (map (fun f => inject_Z (pf_latency_ms f)) portfolio_fills))
                          (dlen portfolio_fills)
                 end in
  {| at_identity := identity; at_portfolio_id := ps_portfolio_id state;
     at_attribution_date := report_date; at_expected_gross_pnl := xp_gross_pnl x;
     at_actual_paper_gross_pnl := actual_gross; at_expected_net_pnl := xp_net_pnl x;
     at_actual_paper_net_pnl := actual_net; at_fee_difference := ft_fees t;
     at_rebate_difference := ft_rebates t;
     at_funding_difference := funding_of (ps_portfolio_id state) r;
     at_slippage_difference := ft_slippage t; at_impact_difference := ft_impact t;
     at_fill_rate_difference := dsub fill_ratio (xp_fill_ratio x);
     at_latency_difference := dsub latency (xp_latency_ms x);
     at_failed_leg_difference := failed_legs_of (ps_portfolio_id state) r;
     at_outage_difference := 0%Q;
     at_implementation_shortfall := dsub (xp_net_pnl x) actual_net;
     at_edge_decay := dsub (xp_gross_pnl x) actual_gross;
     at_signal_to_fill_latency_ms := latency; at_fill_ratio := fill_ratio;
     at_paper_backtest_pnl_ratio :=
       if deqb (xp_net_pnl x) 0 then None else Some (ddiv actual_net (xp_net_pnl x));
     at_paper_backtest_sharpe_ratio := None |}.

Fixpoint attribute_states (x : Expectations) (report_date : Z) (states : list PortfolioState)
    (output : list PaperAttribution) : M Service (list PaperAttribution) :=
  match states with
  | [] => pret output
  | state :: states =>
      do! identity <- report_identity report_date;
      do! item <- ask (attribution_of x report_date identity state);
      run! store (save_attribution item);
      attribute_states x report_date states (output ++ [item])
  end.

Definition compute_attribution (x : Expectations) (report_date : Z)
  : M Service (list PaperAttribution) :=
  do! states <- (fun s => (s, Ok (dict_values (sv_portfolio_states s))));
  attribute_states x report_date states [].

Definition promotion_verdict (minimum_signals : Z) (r : Repository) : PaperPromotionVerdict :=
  let accepted := List.filter (fun s => bool_decide (sg_rejection_reason s = None))
                    (signals (sc_run_id cfg) r) in
  if Z.of_nat (length accepted) <? minimum_signals then V_NOT_READY
  else if bool_decide (sc_mode cfg = OBSERVATION_ONLY)
          || bool_decide (fills (sc_run_id cfg) r = []) then V_CONTINUE_OBSERVATION
  else
    let metrics := daily_metrics (sc_run_id cfg) r in
    if bool_decide (metrics = [])
       || existsb (fun m => dleb (dm_net_pnl m) 0
                            || dltb (cp_maximum_drawdown Op) (dm_maximum_drawdown m)) metrics
    then V_CONTINUE_OBSERVATION
    else V_ELIGIBLE_FOR_MICRO_LIVE_REVIEW.

Definition capital_feasibility_status (records : list StrategyEligibilityRecord)
    (sigs : list PaperSignal) : CapitalFeasibilityStatus :=
  let any_status status :=
    existsb (fun e => bool_decide (el_capital_feasibility_status e = status)) records in
  if bool_decide (records = []) then F_NOT_EVALUATED
  else if any_status F_INFEASIBLE then F_INFEASIBLE
  else if bool_decide (sigs = []) then F_INSUFFICIENT_EVIDENCE
  else if existsb (fun s => bool_decide (sg_disposition s = D_ELIGIBLE)) sigs
          && any_status F_FEASIBLE then F_FEASIBLE
  else F_INSUFFICIENT_EVIDENCE.

Definition metric_of (report_date : Z) (identity : OperationalIdentity) (state : PortfolioState)
    (drawdown : Decimal) (r : Repository) : PaperDailyMetric :=
  let t := fill_totals (fills_of (ps_portfolio_id state) r) in
  let net := dsub (ps_current_equity state) (ps_initial_capital state) in
  {| dm_identity := identity; dm_portfolio_id := ps_portfolio_id state;
     dm_metric_date := report_date; dm_starting_equity := ps_initial_capital state;
     dm_ending_equity := ps_current_equity state; dm_gross_pnl := gross_of net t;
     dm_net_pnl := net; dm_fees := ft_fees t; dm_rebates := ft_rebates t;
     dm_funding := funding_of (ps_portfolio_id state) r; dm_slippage := ft_slippage t;
     dm_impact := ft_impact t; dm_failed_leg_cost := failed_legs_of (ps_portfolio_id state) r;
     dm_maximum_drawdown := dmax 0 drawdown; dm_capital_usage := 0%Q |}.

Fixpoint measure_states (report_date : Z) (states : list PortfolioState)
    (output : list PaperDailyMetric) : M Service (list PaperDailyMetric) :=
  match states with
  | [] => pret output
  | state :: states =>
      do! drawdown <- plift (pdiv (dsub (ps_peak_equity state) (ps_current_equity state))
                               (ps_peak_equity state));
      do! identity <- report_identity report_date;
      do! metric <- ask (metric_of report_date identity state drawdown);
      run! store (save_daily_metric metric);
      measure_states report_date states (output ++ [metric])
  end.

Definition generate_daily_report (report_date : Z) : M Service DailyOperationReport :=
  do! run <- require_run;
  match ru_last_snapshot_id run with
  | None => praise (ValueError "daily report requires a finalized snapshot")
  | Some snapshot_id =>
      do! states <- (fun s => (s, Ok (dict_values (sv_portfolio_states s))));
      do! metrics <- measure_states report_date states [];
      do! attribution <- compute_attribution default_expectations report_date;
      do! r <- ask (fun r => r);
      do! health <- (fun s => (s, Ok (sv_collector_health s)));
      let sigs := signals (sc_run_id cfg) r in
      let records := eligibility (sc_run_id cfg) r in
      let capital_status := capital_feasibility_status records sigs in
      pret
        {| dr_run_id := sc_run_id cfg; dr_report_date := report_date;
           dr_snapshot_id := snapshot_id; dr_research_run_ids := ru_last_research_run_ids run;
           dr_eligibility := records; dr_signal_count := Z.of_nat (length sigs);
           dr_rejected_signal_count := Z.of_nat (length
             (List.filter (fun s => negb (bool_decide (sg_rejection_reason s = None))) sigs));
           dr_paper_order_count := Z.of_nat (length (orders (sc_run_id cfg) r));
           dr_paper_fill_count := Z.of_nat (length (fills (sc_run_id cfg) r));
           dr_metrics := metrics; dr_attribution := attribution;
           dr_risk_events := risk_events (sc_run_id cfg) r;
           dr_promotion_verdict := promotion_verdict 30 r;
           dr_collector_health := health; dr_research_status := ru_research_status run;
           dr_research_skip_reason := ru_research_skip_reason run;
           dr_capital_feasibility :=
             map (fun state => (ps_portfolio_id state, capital_status)) states |}
  end.

(** ** Ticks *)

(** What [market_event_action] returns. *)
Inductive MarketResult :=
| Events (events : list LiveSignalInput)
| Batch (batch : ShadowInputBatch)
| InstrumentBatches (batches : list ShadowInputBatch).

Definition take_market (result : MarketResult) : M Service unit :=
  match result with
  | Events events => pfor events record_market_event
  | Batch batch =>
      run! pmodify (set_sv_shadow_input_batches [(sb_instrument batch, batch)]);
      pfor (sb_events batch) record_market_event
  | InstrumentBatches batches =>
      run! pmodify (set_sv_shadow_input_batches (by_venue sb_instrument batches));
      pfor (flat_map sb_events batches) record_market_event
  end.

(** The argument of an action is [None] when the service was built without it. *)
Definition collector_tick (health_action : option (result CollectorHealthSummary))
    (market_action : option (result MarketResult)) : M Service unit :=
  do! run <- require_run;
  if bool_decide (ru_status run = R_STOP_REQUESTED) then pmodify (set_sv_stop_event true)
  else
    do! run <-
      (match health_action with
       | None => pret run
       | Some outcome =>
           do! summary <- plift outcome;
           run! pmodify (set_sv_collector_health summary);
           let healthy := bool_decide (hs_status summary = H_HEALTHY) in
           run! set_collector_health false healthy
             (if healthy then None
              else Some ("collector_health_" +:+ health_status_value (hs_status summary)));
           require_run
       end);
    do! summary <- (fun s => (s, Ok (sv_collector_health s)));
    let shadow_input_recovery :=
      bool_decide (cp_mode Op = "shadow")
      && bool_decide ("shadow_input_cursor_stalled" ∈ hs_reasons summary) in
    if negb (ru_collector_healthy run) && negb shadow_input_recovery
    then notify "Collector stopped" (sc_run_id cfg) "error"
    else match market_action with
         | None => pret tt
         | Some outcome => do! result <- plift outcome; take_market result
         end.

Record ScheduledSnapshotOutcome := {
  so_snapshot_id : string;
  so_research_eligible : bool;
  so_eligibility_reasons : list string;
}.

(** A bare snapshot id, or an outcome. *)
Inductive SnapshotResult := SnapshotId (id : string) | SnapshotOutcome (o : ScheduledSnapshotOutcome).

Definition join_reasons (reasons : list string) : string := String.concat "; " reasons.

Definition take_snapshot (result : SnapshotResult) : M Service unit :=
  match result with
  | SnapshotId id => bind_snapshot id []
  | SnapshotOutcome o =>
      run! bind_snapshot (so_snapshot_id o) [];
      if so_research_eligible o then pret tt
      else
        do! run <- require_run;
        update_run run (fun r =>
          set_ru_research_status X_SKIPPED_SNAPSHOT_INELIGIBLE
            (set_ru_research_skip_reason (Some (join_reasons (so_eligibility_reasons o))) r))
  end.

(** [type(exc).__name__] and [f"{type(exc).__name__}: {exc}"] *)
Definition exn_name (e : exn) : string :=
  match e with
  | ValueError _ => "ValueError" | DuplicateFillError _ => "DuplicateFillError"
  | RuntimeError _ => "RuntimeError" | PermissionError _ => "PermissionError"
  | KeyError => "KeyError" | IndexError _ => "IndexError"
  | ExecutionAdapterError _ => "ExecutionAdapterError" | OtherError name => name
  end.
Definition exn_text (e : exn) : string :=
  exn_name e +:+ ": " +:+
  match e with
  | ValueError m | DuplicateFillError m | RuntimeError m | PermissionError m | IndexError m
  | ExecutionAdapterError m => m
  | KeyError | OtherError _ => EmptyString
  end.

Definition snapshot_tick (action : option (result SnapshotResult)) : M Service unit :=
  match action with
  | Some outcome =>
      do! _ <- now_;
      ptry (do! result <- plift outcome; take_snapshot result)
        (fun exc => run! snapshot_failed (exn_text exc);
                    notify "Snapshot finalization failed" (exn_name exc) "error")
  | None =>
      do! run <- require_run;
      match ru_last_snapshot_id run with
      | None => snapshot_failed "no_finalized_snapshot"
      | Some _ => pret tt
      end
  end.

Record ScheduledResearchOutcome := {
  ro_strategy_id : string;
  ro_strategy_version : string;
  ro_research_run_id : string;
  ro_research_verdict : string;
  ro_data_quality_passed : bool;
  ro_capital_feasible : bool;
  ro_evidence_complete : bool;
}.

(** The strategies without a record get one that says so. *)
Definition fill_missing_eligibility (snapshot_id : string) : M Service unit :=
  do! records <- ask (eligibility (sc_run_id cfg));
  let existing := map el_strategy_id records in
  pfor (cp_strategies Op) (fun strategy_id =>
    if bool_decide (strategy_id ∈ existing) then pret tt
    else
      run! refresh_eligibility strategy_id "1" "UNAVAILABLE" snapshot_id "INSUFFICIENT_EVIDENCE"
             false false false;
      pret tt).

Definition refresh_outcomes (snapshot_id : string) (outcomes : list ScheduledResearchOutcome)
  : M Service unit :=
  pfor outcomes (fun o =>
    run! refresh_eligibility (ro_strategy_id o) (ro_strategy_version o) (ro_research_run_id o)
           snapshot_id (ro_research_verdict o) (ro_data_quality_passed o) (ro_capital_feasible o)
           (ro_evidence_complete o);
    pret tt).

Definition research_tick
    (action : option (string -> result (list ScheduledResearchOutcome))) : M Service unit :=
  do! run <- require_run;
  match ru_last_snapshot_id run with
  | None => pret tt
  | Some snapshot_id =>
      if bool_decide (ru_research_status run = X_SKIPPED_SNAPSHOT_INELIGIBLE) then pret tt
      else match action with
      | None => fill_missing_eligibility snapshot_id
      | Some action =>
          do! records <- ask (eligibility (sc_run_id cfg));
          let current := map (fun e => (el_strategy_id e, el_data_snapshot_id e)) records in
          if forallb (fun strategy_id => bool_decide ((strategy_id, snapshot_id) ∈ current))
               (cp_strategies Op)
          then pret tt
          else
            do! outcomes <-
              ptry (do! outcomes <- plift (action snapshot_id);
                    run! refresh_outcomes snapshot_id outcomes;
                    pret outcomes)
                (fun exc =>
                   do! run <- require_run;
                   run! update_run run (fun r =>
                     set_ru_research_status X_FAILED
                       (set_ru_research_skip_reason (Some (exn_text exc)) r));
                   run! notify "Research Pipeline failed" (exn_name exc) "error";
                   pret []);
            match outcomes with
            | _ :: _ =>
                do! run <- require_run;
                update_run run (fun r =>
                  set_ru_last_research_run_ids (map ro_research_run_id outcomes)
                    (set_ru_research_status X_COMPLETED (set_ru_research_skip_reason None r)))
            | [] =>
                do! run <- require_run;
                run! (if bool_decide (ru_research_status run = X_FAILED) then pret tt
                      else update_run run (fun r =>
                             set_ru_research_status X_FAILED
                               (set_ru_research_skip_reason
                                  (Some "research pipeline returned no outcomes") r)));
                fill_missing_eligibility snapshot_id
            end
      end
  end.

(** The signals the tick asks for: a thousandth, with no expected edge. *)
Definition tick_request (strategy_id instrument : string) (events : list LiveSignalInput) (now : Z)
  : SignalRequest :=
  {| sr_strategy_id := strategy_id; sr_strategy_version := "1"; sr_instrument := instrument;
     sr_side := BUY; sr_quantity := (1 # 1000)%Q; sr_events := events;
     sr_expected_gross_edge := 0%Q; sr_expected_fee := 0%Q; sr_expected_rebate := 0%Q;
     sr_expected_funding := 0%Q; sr_expected_slippage := 0%Q; sr_expected_impact := 0%Q;
     sr_required_capabilities := ["orderbook_snapshot"]; sr_decision_time := Some now |}.

(** The latest books of an instrument on the configured venues. *)
Definition books_of (instrument : string) (s : Service) : list LiveSignalInput :=
  map snd (List.filter (fun kv => bool_decide (kv.1.1.1 ∈ cp_venues Op)
                         && bool_decide (kv.1.1.2 = instrument)
                         && startswith "orderbook" kv.1.2) (sv_latest_events s)).

(** The books the relative-strength strategy compares. *)
Definition relative_events (s : Service) : list LiveSignalInput :=
  let events := map snd (List.filter (fun kv => bool_decide (kv.1.1.2 ∈ ["BTC"; "SOL"])
                                        && startswith "orderbook" kv.1.2) (sv_latest_events s)) in
  if same_set (map li_instrument events) ["BTC"; "SOL"] then events else [].

Definition signal_instrument (now : Z) (instrument : string) : M Service unit :=
  if bool_decide (cp_mode Op = "shadow")
     && bool_decide (FUNDING_CARRY_STRATEGY_ID ∈ cp_strategies Op)
  then
    do! batch <- (fun s => (s, Ok (dict_get instrument (sv_shadow_input_batches s))));
    match batch with
    | None => pret tt
    | Some batch =>
        run! generate_funding_carry_shadow_candidate (sb_events batch) (Some batch)
               (Some instrument) (Some now);
        pret tt
    end
  else
    do! books <- (fun s => (s, Ok (books_of instrument s)));
    pfor ["funding_carry"; "cross_venue_basis"] (fun strategy_id =>
      if bool_decide (strategy_id ∈ cp_strategies Op) then
        run! generate_signal (tick_request strategy_id instrument books now); pret tt
      else pret tt).

Definition signal_tick : M Service unit :=
  do! now <- now_;
  run! pfor (cp_instruments Op) (signal_instrument now);
  if bool_decide ("btc_sol_relative_strength" ∈ cp_strategies Op) then
    do! events <- (fun s => (s, Ok (relative_events s)));
    run! generate_signal (tick_request "btc_sol_relative_strength" "BTC" events now); pret tt
  else pret tt.

(** The latest events of the legs of a signal. *)
Definition quotes_of (signal : PaperSignal) (s : Service) : list LiveSignalInput :=
  List.filter (fun e => bool_decide (li_instrument e = sg_instrument signal)
                        && bool_decide (li_venue e ∈ sg_venue_legs signal))
    (dict_values (sv_latest_events s)).

Definition paper_execution_tick : M Service unit :=
  if bool_decide (sc_mode cfg = OBSERVATION_ONLY) then pret tt
  else
    do! submitted <- ask (fun r => map po_signal_id (orders (sc_run_id cfg) r));
    do! sigs <- ask (signals (sc_run_id cfg));
    pfor sigs (fun signal =>
      if negb (bool_decide (sg_rejection_reason signal = None))
         || bool_decide (sg_signal_id signal ∈ submitted) then pret tt
      else
        do! quotes <- (fun s => (s, Ok (quotes_of signal s)));
        run! execute_signal default_options signal quotes; pret tt).

Definition risk_tick : M Service unit :=
  do! now <- now_;
  do! identity <- report_identity (now / DAY);
  do! states <- (fun s => (s, Ok (dict_values (sv_portfolio_states s))));
  pfor states (evaluate_portfolio_risk identity).

Definition reporting_tick : M Service unit :=
  do! now <- now_;
  let hour := (now / 3600000000) mod 24 in
  let minute := (now / 60000000) mod 60 in
  if (hour =? cp_daily_report_hour_utc Op) && (minute =? cp_daily_report_minute_utc Op) then
    do! run <- require_run;
    match ru_last_snapshot_id run with
    | None => pret tt
    | Some _ =>
        run! generate_daily_report (now / DAY);
        notify "Daily report completed" (String.substring 0 10 (isoformat (now / DAY * DAY))) "info"
    end
  else pret tt.

(** One step of the workers. *)
Inductive Tick :=
| TCollector (health_action : option (result CollectorHealthSummary))
    (market_action : option (result MarketResult))
| TSnapshot (action : option (result SnapshotResult))
| TResearch (action : option (string -> result (list ScheduledResearchOutcome)))
| TSignal
| TPaperExecution
| TRisk
| TReporting.

Definition tick (t : Tick) : M Service unit :=
  match t with
  | TCollector h m => collector_tick h m
  | TSnapshot a => snapshot_tick a
  | TResearch a => research_tick a
  | TSignal => signal_tick
  | TPaperExecution => paper_execution_tick
  | TRisk => risk_tick
  | TReporting => reporting_tick
  end.

(** The workers of the configured mode: shadow mode schedules two of them. *)
Definition scheduled (t : Tick) : bool :=
  if bool_decide (cp_mode Op = "shadow") then
    match t with TCollector _ _ | TSignal => true | _ => false end
  else true.

End Service.
