(* ===== verification/OpsSafety.v ===== *)
(** * Theorems on the operations service

    What the signal gate lets through, what execution may do, what observation mode
    never does, and where the books of the paper portfolios go wrong. *)

From Stdlib Require Import ZArith QArith Qabs Lqa Lia.
From stdpp Require Import base tactics list strings.
From S2P Require Import Prelude Decimals ExecutionModels Venues Evidence Json FundingCarry OpsModels OpsService.

Local Open Scope string_scope.
Local Open Scope list_scope.
Local Open Scope Z_scope.

(** ** Observation never trades *)

(** The trading records of a repository. *)
Definition same_trading (s s' : Service) : Prop :=
  let r := sv_repository s in
  let r' := sv_repository s' in
  rp_orders r' = rp_orders r /\ rp_fills r' = rp_fills r /\ rp_positions r' = rp_positions r /\
  rp_cash r' = rp_cash r /\ rp_funding r' = rp_funding r.

#[export] Instance same_trading_preorder : PreOrder same_trading.
Proof.
  split; [done|]. intros a b c (?&?&?&?&?) (?&?&?&?&?). unfold same_trading. split_and!; congruence.
Qed.

Section Observation.
Context {C : DecimalContext} {D : Digest} {E : OpsEnv}.
Variable cfg : ServiceConfig.

Lemma ops_read {A} (f : Service -> A) : steps same_trading (fun s => (s, Ok (f s))).
Proof. intros s. done. Qed.
Lemma steps_read_result {A} (f : Service -> result A) : steps same_trading (fun s => (s, f s)).
Proof. intros s. done. Qed.
Lemma ops_now : steps same_trading now_.
Proof. done. Qed.
Lemma steps_ask {A} (f : Repository -> A) : steps same_trading (ask f).
Proof. done. Qed.
Lemma steps_notify a b c : steps same_trading (notify a b c).
Proof. done. Qed.
Lemma steps_set_state k st : steps same_trading (set_state k st).
Proof. done. Qed.
Lemma steps_require_run : steps same_trading (require_run cfg).
Proof. done. Qed.
Lemma steps_record_market e : steps same_trading (record_market_event e).
Proof. done. Qed.

(** A write to another part of the repository. *)
Lemma steps_store f :
  (forall r, rp_orders (f r) = rp_orders r /\ rp_fills (f r) = rp_fills r /\
     rp_positions (f r) = rp_positions r /\ rp_cash (f r) = rp_cash r /\
     rp_funding (f r) = rp_funding r) ->
  steps same_trading (store f).
Proof. intros H s. apply H. Qed.

Lemma steps_service f : (forall s, sv_repository (f s) = sv_repository s) ->
  steps same_trading (pmodify f).
Proof. intros H s. unfold same_trading. simpl. by rewrite H. Qed.

#[local] Hint Resolve ops_read ops_now steps_ask steps_notify steps_set_state steps_require_run
  steps_record_market steps_read_result : steps.

Lemma steps_update_run run f : steps same_trading (update_run run f).
Proof. unfold update_run. steps_go; by apply steps_store. Qed.
Lemma steps_report_identity d : steps same_trading (report_identity cfg d).
Proof. unfold report_identity. steps_go. Qed.
Lemma steps_risk i st : steps same_trading (evaluate_portfolio_risk cfg i st).
Proof. unfold evaluate_portfolio_risk. steps_go; by apply steps_store. Qed.
#[local] Hint Resolve steps_update_run steps_report_identity steps_risk : steps.

Lemma ops_refresh a b c d e f g h : steps same_trading (refresh_eligibility cfg a b c d e f g h).
Proof. unfold refresh_eligibility. steps_go; by apply steps_store. Qed.
#[local] Hint Resolve ops_refresh : steps.

Lemma steps_set_collector_health a b r : steps same_trading (set_collector_health cfg a b r).
Proof. unfold set_collector_health. steps_go; by apply steps_service. Qed.
Lemma steps_bind_snapshot i l : steps same_trading (bind_snapshot cfg i l).
Proof. unfold bind_snapshot. steps_go. Qed.
Lemma steps_snapshot_failed r : steps same_trading (snapshot_failed cfg r).
Proof. unfold snapshot_failed. steps_go. Qed.
#[local] Hint Resolve steps_set_collector_health steps_bind_snapshot steps_snapshot_failed : steps.

Lemma record_candidate_trading c m d r :
  let r' := (record_shadow_candidate c m d r).1 in
  rp_orders r' = rp_orders r /\ rp_fills r' = rp_fills r /\ rp_positions r' = rp_positions r /\
  rp_cash r' = rp_cash r /\ rp_funding r' = rp_funding r.
Proof.
  unfold record_shadow_candidate, add_shadow_candidate.
  by destruct (dict_mem (ca_candidate_id c) (rp_shadow_candidates r)).
Qed.

Lemma steps_candidate ev b i t :
  steps same_trading (generate_funding_carry_shadow_candidate cfg ev b i t).
Proof.
  unfold generate_funding_carry_shadow_candidate. steps_go.
  all: apply steps_store; intros r; apply record_candidate_trading.
Qed.

Lemma steps_generate_signal q : steps same_trading (generate_signal cfg q).
Proof.
  unfold generate_signal. steps_go. all: apply steps_store; intros r; unfold add_signal; by case_match.
Qed.
#[local] Hint Resolve steps_candidate steps_generate_signal : steps.

Lemma steps_collector_tick h m : steps same_trading (collector_tick cfg h m).
Proof.
  unfold collector_tick, take_market. steps_go. all: by apply steps_service.
Qed.
Lemma steps_snapshot_tick a : steps same_trading (snapshot_tick cfg a).
Proof. unfold snapshot_tick, take_snapshot. steps_go. Qed.
Lemma steps_research_tick a : steps same_trading (research_tick cfg a).
Proof. unfold research_tick, fill_missing_eligibility, refresh_outcomes. steps_go. Qed.
Lemma steps_signal_tick : steps same_trading (signal_tick cfg).
Proof. unfold signal_tick, signal_instrument. steps_go. Qed.
Lemma steps_risk_tick : steps same_trading (risk_tick cfg).
Proof. unfold risk_tick. steps_go. Qed.

Lemma steps_attribute x d sts out : steps same_trading (attribute_states cfg x d sts out).
Proof.
  revert out. induction sts as [|st sts IH]; intros out; simpl; steps_go; first [by apply steps_store|apply IH].
Qed.
Lemma steps_measure d sts out : steps same_trading (measure_states cfg d sts out).
Proof.
  revert out. induction sts as [|st sts IH]; intros out; simpl; steps_go; first [by apply steps_store|apply IH].
Qed.
#[local] Hint Resolve steps_attribute steps_measure : steps.

Lemma steps_reporting_tick : steps same_trading (reporting_tick cfg).
Proof. unfold reporting_tick, generate_daily_report, compute_attribution. steps_go. Qed.

Lemma steps_observation_tick t : sc_mode cfg = OBSERVATION_ONLY -> steps same_trading (tick cfg t).
Proof.
  intros Hm. destruct t; simpl; [apply steps_collector_tick|apply steps_snapshot_tick|
    apply steps_research_tick|apply steps_signal_tick| |apply steps_risk_tick|
    apply steps_reporting_tick].
  unfold paper_execution_tick. rewrite Hm. steps_go.
Qed.

End Observation.

(** The service after a sequence of ticks. *)
Fixpoint run_ticks {C : DecimalContext} {D : Digest} {E : OpsEnv} (cfg : ServiceConfig)
    (ts : list Tick) (s : Service) : Service :=
  match ts with
  | [] => s
  | t :: ts => run_ticks cfg ts (tick cfg t s).1
  end.

(** C30: a service in observation mode never trades on paper.  Whatever ticks run,
    with whatever the collector, the market, the snapshots and the research return,
    orders, fills, positions, cash entries and funding entries stay as they were,
    [execute_signal] returns no order, and the run is never promoted to a review for
    live trading. *)
Theorem observation_never_trades {C : DecimalContext} {D : Digest} {E : OpsEnv}
    (cfg : ServiceConfig) (ts : list Tick) (s : Service) :
  sc_mode cfg = OBSERVATION_ONLY ->
  same_trading s (run_ticks cfg ts s) /\
  (forall o signal quotes, execute_signal cfg o signal quotes (run_ticks cfg ts s)
     = (run_ticks cfg ts s, Ok [])) /\
  promotion_verdict cfg 30 (sv_repository (run_ticks cfg ts s)) <> V_ELIGIBLE_FOR_MICRO_LIVE_REVIEW.
Proof.
  intros Hm. split; [|split].
  - revert s. induction ts as [|t ts IH]; intros s; simpl; [done|].
    etransitivity; [by apply steps_observation_tick|apply IH].
  - intros o signal quotes. unfold execute_signal. by rewrite Hm.
  - unfold promotion_verdict. rewrite Hm. by case_match.
Qed.

(** ** The signal gate *)

(** What one source event must satisfy. *)
Definition event_accepted (cfg : ServiceConfig) (instrument : string) (decision_time : Z)
    (e : LiveSignalInput) : Prop :=
  li_instrument e = instrument /\
  0 <= decision_time - li_available_at e <= seconds (cp_source_event_max_age_seconds (sc_paper cfg)) /\
  li_capability_support e = "live_verified" /\
  (cp_minimum_data_quality (sc_paper cfg) <= li_data_quality_score e)%Q /\
  (startswith "orderbook" (li_event_type e) = true -> li_reconciliation_state e = Some "synchronized").

Lemma event_rejection_none cfg instrument t e :
  event_rejection cfg instrument t e = None <-> event_accepted cfg instrument t e.
Proof.
  unfold event_rejection, event_accepted.
  destruct (bool_decide (li_instrument e = instrument)) eqn:E1; simpl;
    [apply bool_decide_eq_true in E1|apply bool_decide_eq_false in E1; naive_solver].
  destruct ((0 <=? _) && _) eqn:E2; simpl.
  2: { split; [done|]. intros (_ & [H1 H2] & _). apply Z.leb_le in H1, H2.
       rewrite H1, H2 in E2. done. }
  apply andb_prop in E2 as [H1%Z.leb_le H2%Z.leb_le].
  destruct (bool_decide (li_capability_support e = _)) eqn:E3; simpl;
    [apply bool_decide_eq_true in E3|apply bool_decide_eq_false in E3; naive_solver].
  destruct (dltb _ _) eqn:E4; [apply dltb_lt in E4|apply dltb_ge in E4].
  { split; [done|]. intros (_ & _ & _ & H & _). lra. }
  destruct (startswith _ _) eqn:E5; simpl; [|split; [intros _|done]; split_and!; done].
  destruct (bool_decide (li_reconciliation_state e = _)) eqn:E6; simpl;
    [apply bool_decide_eq_true in E6|apply bool_decide_eq_false in E6].
  - split; [intros _|done]. split_and!; done.
  - split; [done|]. intros (_ & _ & _ & _ & H). by destruct E6; apply H.
Qed.

Lemma events_rejection_none cfg instrument t events :
  events_rejection cfg instrument t events = None <->
  Forall (event_accepted cfg instrument t) events.
Proof.
  induction events as [|e events IH]; simpl; [by split|]. rewrite Forall_cons, <- IH.
  rewrite <- event_rejection_none. destruct (event_rejection _ _ _ e); naive_solver.
Qed.

Lemma text_or_empty (s : option string) :
  nonempty (text_or s EmptyString) = false <-> s = None \/ s = Some EmptyString.
Proof.
  destruct s as [[|c s]|]; simpl; naive_solver.
Qed.

(** What the run, the strategy and the events of an accepted signal satisfy. *)
Definition signal_ready (cfg : ServiceConfig) (run : OperationalRun)
    (e : option StrategyEligibilityRecord) (events : list LiveSignalInput) (instrument : string)
    (decision_time : Z) : Prop :=
  ru_collector_healthy run = true /\
  (ru_signals_paused_reason run = None \/ ru_signals_paused_reason run = Some EmptyString) /\
  (exists record, e = Some record /\ ru_last_snapshot_id run = Some (el_data_snapshot_id record) /\
     valid_at record decision_time = true) /\
  (2 <= length (dict_fromkeys (map li_venue events)))%nat /\
  NoDup (map li_event_id events) /\
  Forall (event_accepted cfg instrument decision_time) events.

Lemma signal_rejection_none (cfg : ServiceConfig) (run : OperationalRun)
    (e : option StrategyEligibilityRecord) (events : list LiveSignalInput) (instrument : string)
    (decision_time : Z) :
  signal_rejection cfg run e events instrument decision_time = None <->
  signal_ready cfg run e events instrument decision_time.
Proof.
  unfold signal_rejection, signal_ready.
  destruct (ru_collector_healthy run); simpl; [|naive_solver].
  destruct (nonempty (text_or _ _)) eqn:Ep.
  { assert (~ (ru_signals_paused_reason run = None \/ ru_signals_paused_reason run = Some EmptyString))
      as Hp by (rewrite <- text_or_empty; congruence).
    split; [intros H; by destruct Hp; left|intros (_ & H & _); by destruct Hp]. }
  apply text_or_empty in Ep.
  destruct (ru_last_snapshot_id run) as [snapshot|]; [|naive_solver].
  destruct e as [record|]; [|naive_solver].
  destruct (bool_decide (el_data_snapshot_id record = snapshot)) eqn:E1; simpl;
    [apply bool_decide_eq_true in E1; subst snapshot|apply bool_decide_eq_false in E1; naive_solver].
  destruct (valid_at record decision_time) eqn:E2; simpl.
  2: { split; [done|]. intros (_ & _ & (? & [= <-] & _ & H) & _). congruence. }
  destruct (bool_decide (events = [])) eqn:E3.
  { apply bool_decide_eq_true in E3 as ->. split; [done|]. intros (_ & _ & _ & H & _).
    cbn in H. lia. }
  destruct (_ <? 2)%nat eqn:E4; [apply Nat.ltb_lt in E4|apply Nat.ltb_ge in E4].
  { split; [done|]. intros (_ & _ & _ & H & _). lia. }
  destruct (bool_decide (NoDup _)) eqn:E5; simpl;
    [apply bool_decide_eq_true in E5|apply bool_decide_eq_false in E5; naive_solver].
  rewrite events_rejection_none. naive_solver.
Qed.

(** The gate of the signals, on both sides.  A signal is accepted exactly when
    the collector is healthy and nothing pauses the run, the strategy has an
    eligibility record for the very snapshot the run is bound to, valid at the
    decision time, and the source events come from two venues at least, are distinct,
    of the right instrument, recent, from a verified capability, of sufficient quality
    and, for books, synchronized. *)
Theorem signal_accepted_iff (cfg : ServiceConfig) (run : OperationalRun)
    (e : option StrategyEligibilityRecord) (events : list LiveSignalInput) (instrument : string)
    (decision_time : Z) :
  signal_rejection cfg run e events instrument decision_time = None <->
  signal_ready cfg run e events instrument decision_time.
Proof. apply signal_rejection_none. Qed.

(** The relative-strength strategy never produces an eligible signal.  Its
    tick asks for an instrument, BTC, and passes the books of both BTC and SOL (or
    none): whatever the state of the service, the signal is rejected. *)
Theorem relative_strength_never_eligible {C : DecimalContext} {D : Digest} {E : OpsEnv}
    (cfg : ServiceConfig) (s s' : Service) (now : Z) (signal : PaperSignal) :
  generate_signal cfg (tick_request "btc_sol_relative_strength" "BTC" (relative_events s) now) s
    = (s', Ok signal) ->
  sg_rejection_reason signal <> None /\ sg_disposition signal <> D_ELIGIBLE.
Proof.
  unfold generate_signal. intros H. simpl in H. unfold pbind, pret in H.
  destruct (require_run cfg s) as [s1 [run|]] eqn:Er; [|done]. simpl in H.
  set (e := List.find _ _) in H. set (reason := signal_rejection cfg run e (relative_events s) "BTC" now) in H.
  assert (reason <> None) as Hne.
  { subst reason. rewrite signal_rejection_none. intros (_ & _ & _ & Hv & _ & Hf).
    unfold relative_events in *. set (events := map snd _) in *.
    destruct (same_set _ _) eqn:Es; [|cbn in Hv; lia]. apply andb_prop in Es as [_ Es].
    unfold subset in Es. rewrite forallb_forall in Es.
    specialize (Es "SOL" ltac:(right; left; done)). apply bool_decide_eq_true in Es.
    apply list_elem_of_fmap in Es as (ev & Hi & Hin). rewrite Forall_forall in Hf.
    destruct (Hf ev Hin) as [Hbtc _]. rewrite <- Hi in Hbtc. done. }
  unfold plift in H. destruct (identity_ _ _ _ _ _ _) as [identity|]; [|done].
  simpl in H. injection H as _ <-. cbn [sg_rejection_reason sg_disposition]. split; [done|].
  destruct reason as [r|]; [|done]. unfold signal_disposition. by repeat case_match.
Qed.

(** ** Execution *)

Section Execution.
Context {C : DecimalContext} {L : DecimalLaws C} {D : Digest} {E : OpsEnv}.
Variable cfg : ServiceConfig.

(** An order of an execution: of the signal's side and quantity, filled within the
    quantity and the participation of the quoted depth, and within the exposure the
    equity of the portfolio allows. *)
Definition order_bounded (o : ExecutionOptions) (signal : PaperSignal)
    (quotes : list LiveSignalInput) (legs : nat) (states : list PortfolioState)
    (order : PaperOrderRecord) : Prop :=
  po_side order = sg_side signal /\ po_requested_quantity order = sg_quantity signal /\
  (po_filled_quantity order == 0 \/
   exists state quote price depth,
     state ∈ states /\ ps_halted state = false /\ po_portfolio_id order = ps_portfolio_id state /\
     quote ∈ quotes /\ li_venue quote = po_venue order /\
     (price, depth) = (match sg_side signal with
                       | BUY => (li_ask quote, li_ask_size quote)
                       | SELL => (li_bid quote, li_bid_size quote)
                       end) /\
     exists p d, price = Some p /\ depth = Some d /\
       po_filled_quantity order <= sg_quantity signal /\
       po_filled_quantity order <= dmul d (xo_maximum_participation o) /\
       xo_minimum_notional o <= dmul (sg_quantity signal) p /\
       dmul (dmul (sg_quantity signal) p) (inject_Z (Z.of_nat legs)) <= ps_current_equity state /\
       dmul (sg_quantity signal) p
         <= dmul (ps_current_equity state) (cp_maximum_venue_exposure (sc_paper cfg)) /\
       dmul (sg_quantity signal) p
         <= dmul (ps_current_equity state) (cp_maximum_instrument_exposure (sc_paper cfg)))%Q.

Lemma leg_decision_bounds o signal state legs price depth rejection filled :
  leg_decision cfg o signal state legs price depth = (rejection, filled) ->
  (filled == 0 \/
   (filled <= sg_quantity signal /\
    filled <= dmul depth (xo_maximum_participation o) /\
    xo_minimum_notional o <= dmul (sg_quantity signal) price /\
    dmul (dmul (sg_quantity signal) price) (inject_Z (Z.of_nat legs)) <= ps_current_equity state /\
    dmul (sg_quantity signal) price
      <= dmul (ps_current_equity state) (cp_maximum_venue_exposure (sc_paper cfg)) /\
    dmul (sg_quantity signal) price
      <= dmul (ps_current_equity state) (cp_maximum_instrument_exposure (sc_paper cfg))))%Q.
Proof using Type.
  unfold leg_decision. cbv zeta. destruct (_ || _) eqn:E1; [intros [= <- <-]; by left|].
  destruct (dltb (dmul _ (cp_maximum_single_trade_risk _)) _) eqn:E2; [intros [= <- <-]; by left|].
  destruct (dltb (ps_current_equity state) _) eqn:E3; [intros [= <- <-]; by left|].
  destruct (dltb _ (dmul _ price) || _) eqn:E4; [intros [= <- <-]; by left|].
  intros [= <- <-]. right.
  apply orb_false_iff in E1 as [_ H1], E4 as [H4 H5]. apply dltb_ge in H1, E3, H4, H5.
  split_and!; try done.
  - destruct (dmin_spec (sg_quantity signal) (dmul depth (xo_maximum_participation o)))
      as [[? ->]|[? ->]]; lra.
  - destruct (dmin_spec (sg_quantity signal) (dmul depth (xo_maximum_participation o)))
      as [[? ->]|[? ->]]; lra.
Qed.

Lemma by_venue_elem {A} (venue : A -> string) items k x :
  dict_get k (by_venue venue items) = Some x -> x ∈ items /\ venue x = k.
Proof using Type.
  unfold by_venue, dict_of. assert (forall d, Forall (fun kv => kv.2 ∈ items /\ venue kv.2 = kv.1) d ->
    forall pre, (forall y, y ∈ pre -> y ∈ items) ->
    Forall (fun kv => kv.2 ∈ items /\ venue kv.2 = kv.1)
      (fold_left (fun d kv => dict_set kv.1 kv.2 d) (map (fun i => (venue i, i)) pre) d)) as H.
  { intros d Hd pre. revert d Hd. induction pre as [|y pre IH]; simpl; intros d Hd Hpre; [done|].
    apply IH; [|intros z Hz; apply Hpre; by right].
    apply dict_set_Forall; [done|]. simpl. split; [apply Hpre; left|done]. }
  intros Hg. specialize (H [] (List.Forall_nil _) items ltac:(done)).
  apply dict_get_In in Hg. rewrite Forall_forall in H. by apply H in Hg.
Qed.

Lemma run_legs_bounded o signal state quotes count states legs index first_fill results s :
  state ∈ states -> ps_halted state = false ->
  Forall (order_bounded o signal quotes count states) results ->
  forall s' orders,
  run_legs cfg o signal state quotes count legs index first_fill results s = (s', Ok orders) ->
  Forall (order_bounded o signal quotes count states) orders.
Proof using Type.
  intros Hst Hh. revert index first_fill results s.
  induction legs as [|venue legs IH]; intros index first_fill results s Hr s' orders H; cbn [run_legs] in H.
  { by injection H as _ <-. }
  unfold pbind, now_ in H. cbv beta iota in H.
  set (quote := dict_get venue _) in H.
  destruct (if bool_decide _ then None else quote) as [q|] eqn:Eq.
  - assert (quote = Some q) as Hq by (by destruct (bool_decide _)).
    subst quote. apply by_venue_elem in Hq as [Hin Hv].
    set (sides := match sg_side signal with BUY => _ | SELL => _ end) in H.
    destruct sides as [price depth] eqn:Es. subst sides.
    destruct price as [price|]; [|by eapply IH]. destruct depth as [depth|]; [|by eapply IH].
    destruct (leg_decision _ _ _ _ _ _ _) as [rejection filled] eqn:El.
    set (order := {| po_identity := _ |}) in H.
    assert (order_bounded o signal quotes count states order) as Ho.
    { split; [done|]. split; [done|]. apply leg_decision_bounds in El as [El|El]; [by left|right].
      exists state, q, (Some price), (Some depth). split_and!; try done.
      eexists _, _. split_and!; [done|done|apply El..]. }
    assert (Forall (order_bounded o signal quotes count states) (results ++ [order])) as Hr'.
    { apply Forall_app. split; [done|by constructor]. }
    destruct (store (save_order order) _) as [s2 [[]|]] eqn:Eo; [|done].
    destruct (dleb filled 0); [by eapply IH|].
    destruct (store (save_fill _) s2) as [s3 [[]|]]; [|done].
    destruct (apply_fill _ _ _ _ s3) as [s4 [[]|]]; [|done]. by eapply IH.
  - match type of H with context [store (save_order ?o)] => set (order := o) in H end.
    destruct (store _ _) as [s2 [[]|]]; [|done].
    match type of H with context [match ?m s2 with _ => _ end] => destruct (m s2) as [s3 [[]|]] end;
      [|done].
    injection H as _ <-. apply Forall_app. split; [done|]. constructor; [|done].
    split; [done|]. split; [done|]. by left.
Qed.

Lemma run_portfolios_bounded o signal quotes legs states all results s s' orders :
  (forall st, st ∈ states -> st ∈ all) ->
  Forall (order_bounded o signal quotes (length legs) all) results ->
  run_portfolios cfg o signal quotes legs states results s = (s', Ok orders) ->
  Forall (order_bounded o signal quotes (length legs) all) orders.
Proof using Type.
  revert results s. induction states as [|st states IH]; intros results s Hall Hr H; cbn [run_portfolios] in H.
  { by injection H as _ <-. }
  destruct (ps_halted st) eqn:Eh.
  { eapply IH; [|done|done]. intros x Hx. apply Hall. by right. }
  unfold pbind in H. destruct (run_legs _ _ _ _ _ _ _ _ _ _ s) as [s1 [r1|]] eqn:E1; [|done].
  eapply IH; [| |done]; [intros x Hx; apply Hall; by right|].
  eapply run_legs_bounded; [|exact Eh|exact Hr|exact E1]. apply Hall. left.
Qed.

End Execution.


(** ** Restart *)

Section Restart.
Context {C : DecimalContext} {D : Digest} {E : OpsEnv}.
Variable cfg : ServiceConfig.

Definition portfolio_key (capital : string * Decimal) : string := "usd-" +:+ capital.1.

(** The cash the ledger holds for a portfolio. *)
Definition ledger_cash (entries : list PaperCashLedgerEntry) (capital : string * Decimal) : Decimal :=
  match List.last (map Some (List.filter
          (fun e => bool_decide (ce_portfolio_id e = portfolio_key capital)) entries)) None with
  | Some e => ce_balance_after e
  | None => capital.2
  end.

(** The stored state of a portfolio with a given cash, not halted. *)
Definition restored (s : Service) (key : string) (cash : Decimal) : Prop :=
  exists st, dict_get key (sv_portfolio_states s) = Some st /\ ps_cash st = cash /\ ps_halted st = false.

Lemma restore_portfolio_spec now entries capital s s' :
  restore_portfolio cfg now entries capital s = (s', Ok tt) ->
  restored s' (portfolio_key capital) (ledger_cash entries capital) /\
  forall k, k <> portfolio_key capital ->
    dict_get k (sv_portfolio_states s') = dict_get k (sv_portfolio_states s).
Proof using Type.
  unfold restore_portfolio. cbv zeta. fold (portfolio_key capital). unfold pbind, set_state, pmodify.
  cbv beta iota. set (st := {| ps_portfolio_id := _ |}).
  set (s1 := set_sv_portfolio_states _ s).
  assert (forall s2, sv_portfolio_states s2 = sv_portfolio_states s1 ->
    restored s2 (portfolio_key capital) (ledger_cash entries capital) /\
    forall k, k <> portfolio_key capital ->
      dict_get k (sv_portfolio_states s2) = dict_get k (sv_portfolio_states s)) as H.
  { intros s2 Hs2. unfold restored. rewrite Hs2. subst s1. split.
    - exists st. cbn [sv_portfolio_states set_sv_portfolio_states].
      by rewrite dict_get_set_eq.
    - intros k Hk. cbn [sv_portfolio_states set_sv_portfolio_states].
      by rewrite dict_get_set_ne. }
  destruct (List.filter _ entries).
  - unfold plift. destruct (identity_ _ _ _ _ _ _); [|done]. intros [= <-]. by apply H.
  - intros [= <-]. by apply H.
Qed.

Lemma restore_portfolios_spec now entries capitals s s' :
  NoDup (map fst capitals) ->
  pfor capitals (restore_portfolio cfg now entries) s = (s', Ok tt) ->
  forall capital, capital ∈ capitals ->
    restored s' (portfolio_key capital) (ledger_cash entries capital).
Proof using Type.
  revert s. induction capitals as [|c cs IH]; intros s Hnd H; cbn [pfor] in H.
  { intros capital Hin. by apply not_elem_of_nil in Hin. }
  unfold pbind in H. destruct (restore_portfolio _ _ _ c s) as [s1 [[]|]] eqn:E1; [|done].
  apply NoDup_cons in Hnd as [Hn Hnd]. apply restore_portfolio_spec in E1 as [Hc _].
  intros capital [->|Hin]%elem_of_cons; [|by eapply IH].
  (* the later portfolios have other keys *)
  assert (forall cs s1 s', (forall c', c' ∈ cs -> c'.1 <> c.1) ->
    pfor cs (restore_portfolio cfg now entries) s1 = (s', Ok tt) ->
    dict_get (portfolio_key c) (sv_portfolio_states s') =
    dict_get (portfolio_key c) (sv_portfolio_states s1)) as Hkeep.
  { clear. induction cs as [|d cs IH]; intros s1 s' Hne H; cbn [pfor] in H; [by injection H as ->|].
    unfold pbind in H. destruct (restore_portfolio _ _ _ d s1) as [s2 [[]|]] eqn:E2; [|done].
    apply restore_portfolio_spec in E2 as [_ Hk].
    rewrite (IH _ _ ltac:(intros c' Hc'; apply Hne; by right) H). apply Hk.
    unfold portfolio_key. intros Heq. apply (inj (String.append "usd-")) in Heq.
    apply (Hne d); [left|done]. }
  unfold restored. rewrite (Hkeep cs s1 s'); [exact Hc| |done].
  intros c' Hc' Heq. apply Hn. rewrite <- Heq. apply list_elem_of_fmap. eauto.
Qed.

(** Restoring a position moves the equity, not the cash. *)
Definition keeps_cash (s s' : Service) : Prop :=
  forall key cash, restored s key cash -> restored s' key cash.

#[export] Instance keeps_cash_preorder : PreOrder keeps_cash.
Proof. split; [by intros s key cash|]. intros a b c H1 H2 key cash H. by apply H2, H1. Qed.

Lemma steps_restore_position p : steps keeps_cash (restore_position p).
Proof using Type.
  intros s key cash (st & Hg & Hc & Hh). unfold restore_position, pbind, get_state.
  destruct (dict_get (pp_portfolio_id p) (sv_portfolio_states s)) as [st'|] eqn:Ep;
    [|by exists st]. unfold restored. cbn -[dict_get dict_set].
  destruct (decide (pp_portfolio_id p = key)) as [Hp|Hp].
  - rewrite Hp, dict_get_set_eq. rewrite Hp, Hg in Ep. injection Ep as <-. by eexists.
  - rewrite dict_get_set_ne by done. by exists st.
Qed.

End Restart.

(** A restart takes the cash from the ledger and forgets the halts.  When the
    service starts on a repository, the portfolio of each initial capital has the
    balance of its last cash entry, or the capital when it has none; and no portfolio
    is halted, whatever stopped it before the restart. *)
Theorem restart_from_ledger {C : DecimalContext} {D : Digest} {E : OpsEnv}
    (cfg : ServiceConfig) (s s' : Service) :
  NoDup (map fst (cp_initial_capitals (sc_paper cfg))) ->
  restore_or_initialize cfg s = (s', Ok tt) ->
  forall capital, capital ∈ cp_initial_capitals (sc_paper cfg) ->
    restored s' (portfolio_key capital)
      (ledger_cash (cash_entries (sc_run_id cfg) (sv_repository s)) capital).
Proof.
  intros Hnd H capital Hin. unfold restore_or_initialize, pbind, ask, now_ in H. cbv beta iota in H.
  set (s1 := set_sv_reads _ _) in H. set (start := match get_run _ _ with Some _ => _ | None => _ end) in H.
  destruct (start s1) as [s2 [[]|]] eqn:E1; [|done].
  assert (cash_entries (sc_run_id cfg) (sv_repository s2) =
          cash_entries (sc_run_id cfg) (sv_repository s)) as Hcash.
  { subst start. unfold store, pmodify, pret, praise in E1. repeat case_match; by injection E1 as <-. }
  destruct (pfor _ _ s2) as [s3 [[]|]] eqn:E2; [|done]. rewrite Hcash in E2.
  apply restore_portfolios_spec with (capital := capital) in E2; [|done..].
  pose proof (steps_for keeps_cash (positions (sc_run_id cfg) (sv_repository s2)) restore_position
    steps_restore_position s3) as Hk. rewrite H in Hk. by apply Hk.
Qed.

(** ** Counting shadow candidates *)

Lemma dict_values_fresh {K V} `{EqDecision K} (k : K) (v : V) d :
  dict_get k d = None -> dict_values (dict_set k v d) = dict_values d ++ [v].
Proof.
  induction d as [|[k' v'] d IH]; simpl; [done|]. case_decide; [done|].
  intros Hg. simpl. by rewrite IH.
Qed.

(** The candidates of a run and their count. *)
Definition counted (run : string) (r : Repository) : Prop :=
  let m := shadow_metrics run EmptyString r in
  sm_candidate_generation_attempt_count m
    = sm_candidate_inserted_count m + sm_candidate_duplicate_suppressed_count m /\
  sm_candidate_inserted_count m = Z.of_nat (length (shadow_candidates run r)).

Lemma shadow_metrics_count c i m d inst run inst' r :
  shadow_metrics run inst' (count_candidate c i m d inst r) =
  if decide ((run, inst') = (ca_run_id c, inst)) then
    let current := shadow_metrics (ca_run_id c) inst r in
    {| sm_run_id := ca_run_id c;
       sm_candidate_generation_attempt_count := sm_candidate_generation_attempt_count current + 1;
       sm_candidate_inserted_count := sm_candidate_inserted_count current + int_of i;
       sm_candidate_rejected_count := sm_candidate_rejected_count current + int_of (is_rejected c);
       sm_candidate_duplicate_suppressed_count :=
         sm_candidate_duplicate_suppressed_count current + int_of (negb i);
       sm_source_pair_duplicate_count := sm_source_pair_duplicate_count current + int_of d;
       sm_matched_source_pair_count := sm_matched_source_pair_count current + int_of m |}
  else shadow_metrics run inst' r.
Proof.
  unfold shadow_metrics at 1, count_candidate. cbn [rp_shadow_metrics set_rp_shadow_metrics].
  case_decide as Hk.
  - injection Hk as -> ->. by rewrite dict_get_set_eq.
  - rewrite dict_get_set_ne by done. done.
Qed.

(** Recording one candidate: what becomes of the candidates. *)
Lemma add_shadow_candidate_run c r run :
  let '(r', inserted) := add_shadow_candidate c r in
  rp_shadow_metrics r' = rp_shadow_metrics r /\
  length (shadow_candidates run r') =
    (length (shadow_candidates run r) + if inserted && bool_decide (ca_run_id c = run) then 1 else 0)%nat.
Proof.
  unfold add_shadow_candidate. destruct (dict_mem _ _) eqn:Em; [split; [done|simpl; lia]|].
  split; [done|]. unfold dict_mem in Em. unfold shadow_candidates.
  cbn [rp_shadow_candidates set_rp_shadow_candidates].
  rewrite dict_values_fresh, List.filter_app, length_app by (by destruct (dict_get _ _)).
  simpl. by destruct (bool_decide _).
Qed.

Lemma record_counted c m d r run :
  ca_instrument c <> EmptyString -> counted run r -> counted run (record_shadow_candidate c m d r).1.
Proof.
  intros Hi [H1 H2]. unfold record_shadow_candidate.
  pose proof (add_shadow_candidate_run c r run) as Ha.
  destruct (add_shadow_candidate c r) as [r1 inserted]. destruct Ha as [Hm Hl]. simpl.
  unfold counted. rewrite !shadow_metrics_count.
  rewrite decide_False by (intros [= _ Hx]; by apply Hi).
  assert (shadow_metrics run EmptyString r1 = shadow_metrics run EmptyString r) as Hs
    by (unfold shadow_metrics; by rewrite Hm).
  change (shadow_candidates run (count_candidate _ _ _ _ _ (count_candidate _ _ _ _ _ r1)))
    with (shadow_candidates run r1). rewrite Hl.
  destruct (decide ((run, EmptyString) = (ca_run_id c, EmptyString))) as [Hk|Hk].
  - injection Hk as Hk. subst run. rewrite bool_decide_eq_true_2 by done. simpl.
    unfold shadow_metrics in *. rewrite Hm in *. destruct inserted; simpl; lia.
  - rewrite bool_decide_eq_false_2 by (intros Hx; by rewrite Hx in Hk). rewrite andb_false_r, Hs.
    split; [done|]. rewrite H2. lia.
Qed.

(** The candidates a repository receives, with the flags of their batches. *)
Definition record_all (cs : list (FundingCarryShadowCandidate * bool * bool)) (r : Repository)
  : Repository :=
  fold_left (fun r c => (record_shadow_candidate c.1.1 c.1.2 c.2 r).1) cs r.

(** The shadow metrics of a run count what the repository holds: every attempt
    was inserted or suppressed as a duplicate, and the inserted ones are the candidates
    of the run. *)
Theorem shadow_metrics_counted (cs : list (FundingCarryShadowCandidate * bool * bool))
    (run : string) :
  Forall (fun c => ca_instrument c.1.1 <> EmptyString) cs ->
  counted run (record_all cs Repository_new).
Proof.
  intros Hcs. unfold record_all. assert (counted run Repository_new) as H0 by done.
  revert H0. generalize Repository_new. induction Hcs as [|c cs Hc Hcs IH]; intros r Hr; simpl; [done|].
  by apply IH, record_counted.
Qed.
