(* ===== verification/OpsLedger.v ===== *)
(** * A run of the operations service, step by step

    A sample configuration and run, on which the theorems of the service are applied,
    and the two places where the paper books go wrong: the second leg of a trade
    overwrites the portfolio the first leg left, and a funding settlement that is
    repeated moves the cash but not the ledger. *)

From Stdlib Require Import ZArith QArith Qabs Lqa Lia.
From stdpp Require Import base tactics list strings.
From S2P Require Import Prelude Decimals ExecutionModels Venues Evidence Json FundingCarry OpsModels OpsService OpsSafety.

Local Open Scope string_scope.
Local Open Scope list_scope.
Local Open Scope Z_scope.

#[local] Existing Instance default_context.
#[local] Existing Instance length_digest.

(** ** A sample run *)

Definition sample_service_settings : Settings := {|
  st_environment := "test"; st_symbols := ["BTC"; "ETH"; "SOL"]; st_paper_trading := true;
  st_live_trading := false; st_dry_run := true; st_live_confirmation := None;
  st_exchange_api_key := None; st_exchange_api_secret := None; st_stale_data_seconds := 30;
  st_paper_enabled := true;
  st_live := {| live_enabled := false; live_adapter_name := "disabled"; live_allowed_symbols := [];
                live_maximum_order_notional := 5; live_maximum_open_orders := 1;
                live_maximum_orders_per_minute := 1; live_maximum_clock_skew_seconds := 1;
                live_preflight_ttl_seconds := 30;
                live_capability_verification_max_age_seconds := 60;
                live_source_event_max_age_seconds := 30; live_minimum_data_quality := 9 # 10;
                live_withdrawal_permission_confirmed_disabled := false |}%Q;
  st_exchanges := []; st_venues := [] |}.

Definition sample_paper (observation_only : bool) : ContinuousPaperSettings := {|
  cp_observation_only := observation_only; cp_mode := "paper"; cp_venues := ["hyperliquid"; "bitget"];
  cp_instruments := ["BTC"; "ETH"; "SOL"; "HYPE"];
  cp_strategies := ["funding_carry"; "cross_venue_basis"; "btc_sol_relative_strength"];
  cp_daily_report_hour_utc := 0; cp_daily_report_minute_utc := 30;
  cp_eligibility_ttl_seconds := 90000; cp_source_event_max_age_seconds := 30;
  cp_funding_max_age_seconds := None; cp_funding_max_observation_skew_seconds := None;
  cp_maximum_orderbook_venue_skew_seconds := 5; cp_maximum_venue_timestamp_skew_seconds := 5;
  cp_minimum_data_quality := 9 # 10; cp_shadow_notional := 10; cp_minimum_shadow_net_edge := 0;
  cp_shadow_venue_taker_fee_rates := [("hyperliquid", 6 # 10000); ("bitget", 6 # 10000)];
  cp_initial_capitals := [("100", inject_Z 100); ("300", inject_Z 300)];
  cp_maximum_single_trade_risk := 25 # 10000; cp_maximum_venue_exposure := 1 # 2;
  cp_maximum_instrument_exposure := 4 # 10; cp_maximum_daily_loss := 2 # 100;
  cp_maximum_drawdown := 5 # 100 |}%Q.

Definition sample_cfg (mode : OperationMode) : ServiceConfig := {|
  sc_settings := sample_service_settings; sc_database_url := "sqlite://"; sc_poll_interval_seconds := 30;
  sc_paper := sample_paper (bool_decide (mode = OBSERVATION_ONLY)); sc_run_id := "run";
  sc_commit_sha := "commit"; sc_config_sha256 := "sha"; sc_mode := mode; sc_local_smoke := true;
  sc_durable := false |}%Q.

#[export] Instance sample_env : OpsEnv := {
  clock := fun n => 1700000000000000 + Z.of_nat n * 1000;
  str_decimal := fun q => digits (Z.to_N (Z.abs (Qnum q)));
}.

Definition sample_quote (venue : string) (ask : Decimal) : LiveSignalInput := {|
  li_event_id := "book-" +:+ venue; li_venue := venue; li_instrument := "BTC";
  li_event_type := "orderbook_snapshot"; li_available_at := 1700000000000000;
  li_data_quality_score := 1; li_capability_support := "live_verified";
  li_reconciliation_state := Some "synchronized"; li_bid := Some (dsub (C := exact_context) ask 1);
  li_ask := Some ask; li_bid_size := Some (inject_Z 10); li_ask_size := Some (inject_Z 10);
  li_funding_rate := None; li_bids := []; li_asks := []; li_funding_unit := None;
  li_funding_interval_seconds := None; li_next_funding_at := None; li_source_timestamp := None;
  li_received_at := None; li_source_table := "raw_market_events"; li_normalizer_version := "1";
  li_connection_epoch := None; li_sequence := None; li_state_hash := None;
  li_source_event_id := None; li_applied_source_event_ids := []; li_timestamp_semantic := None;
  li_exchange_timestamp := None; li_freshness_age_seconds := None |}.

Definition sample_quotes : list LiveSignalInput :=
  [sample_quote "hyperliquid" (inject_Z 100); sample_quote "bitget" (999 # 10)%Q].

(** Started, with a healthy collector, a snapshot and an eligible strategy. *)
Definition sample_started (mode : OperationMode) : Service :=
  let cfg := sample_cfg mode in
  ((run! set_collector_health cfg true true None;
    run! bind_snapshot cfg "snapshot" [];
    run! refresh_eligibility cfg "funding_carry" "1" "research" "snapshot" "PASS" true true true;
    pfor sample_quotes record_market_event) (Service_new cfg Repository_new).1).1.

Definition sample_request : SignalRequest := {|
  sr_strategy_id := "funding_carry"; sr_strategy_version := "1"; sr_instrument := "BTC";
  sr_side := BUY; sr_quantity := (3 # 10)%Q; sr_events := sample_quotes;
  sr_expected_gross_edge := 0; sr_expected_fee := 0; sr_expected_rebate := 0;
  sr_expected_funding := 0; sr_expected_slippage := 0; sr_expected_impact := 0;
  sr_required_capabilities := []; sr_decision_time := None |}.

Definition result_or {A} (r : result A) (default : A) : A :=
  match r with Ok a => a | Err _ => default end.

(** The signal of the sample, and the service that holds it. *)
Definition sample_signalled : Service * result PaperSignal :=
  generate_signal (sample_cfg STRICT_PAPER) sample_request (sample_started STRICT_PAPER).

Definition sample_signal : PaperSignal :=
  Eval vm_compute in
  match sample_signalled.2 with
  | Ok s => s
  | Err _ =>
      {| sg_identity := {| oi_run_id := "run"; oi_strategy_id := "s"; oi_strategy_version := "1";
           oi_data_snapshot_id := "d"; oi_research_run_id := "r"; oi_created_at := 0;
           oi_commit_sha := "c"; oi_config_sha256 := "h" |};
         sg_signal_id := "id"; sg_decision_time := 0; sg_venue_legs := []; sg_instrument := "BTC";
         sg_side := BUY; sg_quantity := 0; sg_expected_gross_edge := 0; sg_expected_net_edge := 0;
         sg_expected_fee := 0; sg_expected_rebate := 0; sg_expected_funding := 0;
         sg_expected_slippage := 0; sg_expected_impact := 0; sg_required_capabilities := [];
         sg_source_event_ids := []; sg_disposition := D_CANDIDATE; sg_rejection_reason := None |}
  end.

Lemma sample_signal_generated : sample_signalled.2 = Ok sample_signal.
Proof. vm_compute. reflexivity. Qed.

(** A repository in which the smaller portfolio has paid its way down to 98.018. *)
Definition near_limit : Service :=
  (set_state "usd-100"
     {| ps_portfolio_id := "usd-100"; ps_initial_capital := inject_Z 100; ps_cash := 98018 # 1000;
        ps_peak_equity := inject_Z 100; ps_current_equity := 98018 # 1000;
        ps_daily_start_equity := inject_Z 100; ps_halted := false; ps_halt_reason := None |}
     sample_signalled.1).1.

Local Abbreviation sample_execution s :=
  (execute_signal (sample_cfg STRICT_PAPER) default_options sample_signal sample_quotes s).

(** What the fills of a portfolio cost according to its cash entries. *)
Definition ledger_costs (key : string) (s : Service) : list Decimal :=
  map ce_amount (List.filter (fun e => bool_decide (ce_portfolio_id e = key)
                                      && bool_decide (ce_entry_type e = "paper_fill_cost"))
                   (cash_entries "run" (sv_repository s))).

(** The cash and the halt of a portfolio. *)
Definition portfolio_of (key : string) (s : Service) : option (Decimal * bool) :=
  (fun st => (ps_cash st, ps_halted st)) <$> dict_get key (sv_portfolio_states s).

(** The second leg of a trade undoes the first.  Both legs are applied to the
    portfolio read before the first: on a portfolio near its daily limit, the trade
    fills both legs and the ledger records two costs, but the cash is reduced by the
    second one only; the first leg crosses the limit and records a halt, and after the
    second the portfolio is no longer halted. *)
Theorem second_leg_overwrites_first :
  let s := (sample_execution near_limit).1 in
  exists cost1 cost2,
    ledger_costs "usd-100" s = [cost1; cost2] /\ (cost1 < 0 /\ cost2 < 0)%Q /\
    portfolio_of "usd-100" near_limit = Some (98018 # 1000, false)%Q /\
    portfolio_of "usd-100" s = Some (dadd (98018 # 1000) cost2, false) /\
    (exists e, e ∈ risk_events "run" (sv_repository s) /\ re_portfolio_id e = "usd-100" /\
       re_event_type e = "daily_loss_halt").
Proof.
  intros s. subst s. eexists _, _. split; [vm_compute; reflexivity|].
  split; [by split; vm_compute|]. split; [vm_compute; reflexivity|]. split; [vm_compute; reflexivity|].
  eexists. split; [apply list_elem_of_lookup; exists 0%nat; vm_compute; reflexivity|].
  split; reflexivity.
Qed.

(** One settlement of the larger portfolio. *)
Definition sample_settle : Service -> Service * result Decimal :=
  settle_funding (sample_cfg STRICT_PAPER) "usd-300" "hyperliquid" "BTC" (1 # 1000)%Q (inject_Z 100)
    (Some 1700000100000000).

Definition settled_once : Service := (sample_settle (sample_execution sample_signalled.1).1).1.
Definition settled_twice : Service := (sample_settle settled_once).1.

(** The cash after the first settlement. *)
Definition settled_cash : Decimal :=
  Eval vm_compute in
  match portfolio_of "usd-300" settled_once with Some (cash, _) => cash | None => 0%Q end.

(** Settling the same funding twice charges the portfolio twice and the ledger
    once.  The second settlement of a position at the same instant adds no funding and
    no cash entry, since their ids are taken, but moves the cash again. *)
Theorem repeated_settlement_diverges :
  let amount := (-3 # 100)%Q in
  (sample_settle (sample_execution sample_signalled.1).1).2 = Ok amount /\
  (sample_settle settled_once).2 = Ok amount /\
  rp_cash (sv_repository settled_twice) = rp_cash (sv_repository settled_once) /\
  rp_funding (sv_repository settled_twice) = rp_funding (sv_repository settled_once) /\
  portfolio_of "usd-300" settled_once = Some (settled_cash, false) /\
  portfolio_of "usd-300" settled_twice = Some (dadd settled_cash amount, false).
Proof. split_and!; vm_compute; reflexivity. Qed.

(** ** The theorems on the sample *)

Lemma observation_never_trades_witness :
  let cfg := sample_cfg OBSERVATION_ONLY in
  same_trading (sample_started OBSERVATION_ONLY)
    (run_ticks cfg [TSignal; TPaperExecution; TRisk] (sample_started OBSERVATION_ONLY)).
Proof. intros cfg. apply (observation_never_trades cfg). reflexivity. Defined.

(** A computed outcome. *)
Lemma outcome_pair {S A} (x : S * result A) (a : A) : x.2 = Ok a -> x = (x.1, Ok a).
Proof. destruct x as [s r]. simpl. by intros ->. Qed.

(** The signal the relative-strength tick asks for, and what it is without books. *)
Local Abbreviation sample_relative :=
  (generate_signal (sample_cfg STRICT_PAPER)
    (tick_request "btc_sol_relative_strength" "BTC" (relative_events (sample_started STRICT_PAPER))
       1700000000000000) (sample_started STRICT_PAPER)).

Definition relative_signal : PaperSignal :=
  Eval vm_compute in match sample_relative.2 with Ok s => s | Err _ => sample_signal end.

Lemma sample_relative_generated : sample_relative.2 = Ok relative_signal.
Proof. vm_compute. reflexivity. Qed.

Lemma relative_strength_never_eligible_witness :
  sg_rejection_reason relative_signal <> None /\ sg_disposition relative_signal <> D_ELIGIBLE.
Proof.
  exact (relative_strength_never_eligible _ _ _ _ _
    (outcome_pair sample_relative relative_signal sample_relative_generated)).
Defined.

Definition sample_orders : list PaperOrderRecord :=
  Eval vm_compute in match (sample_execution sample_signalled.1).2 with Ok l => l | Err _ => [] end.

Lemma sample_orders_executed : (sample_execution sample_signalled.1).2 = Ok sample_orders.
Proof. vm_compute. reflexivity. Qed.


(** The sample after its execution, started again. *)
Definition sample_executed : Service := (sample_execution sample_signalled.1).1.

Lemma sample_restarts : (restore_or_initialize (sample_cfg STRICT_PAPER) sample_executed).2 = Ok tt.
Proof. vm_compute. reflexivity. Qed.

Lemma restart_from_ledger_witness :
  restored (restore_or_initialize (sample_cfg STRICT_PAPER) sample_executed).1 "usd-300"
    (ledger_cash (cash_entries "run" (sv_repository sample_executed)) ("300", inject_Z 300)).
Proof.
  apply (restart_from_ledger (sample_cfg STRICT_PAPER) sample_executed _) with
    (capital := ("300", inject_Z 300)).
  - apply (bool_decide_unpack _). vm_compute. exact I.
  - exact (outcome_pair _ _ sample_restarts).
  - right. left.
Defined.

Lemma shadow_metrics_counted_witness :
  counted "run" (record_all [(sample_candidate, true, false); (sample_candidate, true, true)]
    Repository_new).
Proof. apply shadow_metrics_counted. repeat constructor; discriminate. Defined.
